(* ===== verification/_CoqProject ===== *)
-Q . S2P
Prelude.v
Buffer.v
JsString.v
JsNumber.v
Coap.v
DnsName.v
Mdns.v
MdnsFacts.v
MdnsRecords.v
JsMap.v
MdnsService.v
JsValue.v
JsRegExp.v
Validate.v
Deep.v
Broadcast.v
DeviceManager.v
Async.v
Ownership.v
Wait.v
NodePath.v
PluginManager.v
PluginFacts.v
PluginLifecycle.v
Threads.v
ThreadFacts.v
Bridge.v
BridgeFacts.v
BridgeNodes.v
CommandLine.v
Matterbridge.v
MatterbridgeFacts.v
CleanupFacts.v
Platform.v
PlatformFacts.v
Behaviors.v
BehaviorFacts.v
Endpoint.v
EndpointFacts.v
DeviceTypes.v
ClusterServers.v
ClusterServerFacts.v
EndpointTree.v
EndpointTreeFacts.v
Devices.v
DeviceFacts.v
Frontend.v
FrontendApi.v
FrontendFacts.v
FrontendSettings.v
FrontendAccess.v
FrontendShown.v
Network.v
NetworkFacts.v
Hex.v
HexFacts.v
Tracker.v
Archive.v
PathFacts.v
ArchiveFacts.v
ZipFacts.v
Requests.v
RequestFacts.v
Updates.v
Spawn.v
Workers.v
WebTable.v
WebClient.v
WebClientFacts.v
WebSocketFacts.v
WebSession.v
WebDebounce.v
Cli.v
