(* ===== verification/Prelude.v ===== *)
(** * Matterbridge: a verification of its protocols, managers, bridge, devices and frontend

    Matterbridge is a plugin manager for the Matter protocol. This library models
    parts of it as executable functions, translated from the TypeScript sources
    under [src/], and proves what they promise.

    ** The program and its model

    - [packages/dgram/src/coap.ts], the CoAP codec: [Coap.v].
    - [packages/dgram/src/mdns.ts], the mDNS codec and listener: [DnsName.v] (domain
      names with compression), [Mdns.v] (encoders, decoders, messages),
      [MdnsFacts.v] and [MdnsRecords.v] (their properties), [MdnsService.v] (the
      tables and filters of the listener).
    - [packages/thread/src/broadcastServer.ts], the messages between components:
      [Broadcast.v].
    - [packages/thread/src/threadsManager.ts] and [workerWrapper.ts], the workers:
      [Threads.v], [ThreadFacts.v].
    - [packages/core/src/deviceManager.ts], the registry of endpoints:
      [DeviceManager.v].
    - [packages/core/src/pluginManager.ts], the registry and life cycle of plugins:
      [NodePath.v], [PluginManager.v], [PluginFacts.v], [PluginLifecycle.v].
    - [packages/core/src/matterbridge.ts] and [helpers.ts], server nodes and the
      endpoints of plugins: [Bridge.v], [BridgeFacts.v], [BridgeNodes.v]; the
      application, from the command line to the cleanup: [Matterbridge.v],
      [MatterbridgeFacts.v] (starting), [CleanupFacts.v] (stopping).
    - [packages/core/src/matterbridgePlatform.ts] with its two subclasses, the base
      class of plugins: [Platform.v], [PlatformFacts.v].
    - [packages/core/src/behaviors/*.ts], the servers of clusters and their commands,
      with [matterbridgeEndpointCommandHandler.ts]: [Behaviors.v], [BehaviorFacts.v].
    - [packages/core/src/matterbridgeDeviceTypes.ts], the table of device types:
      [DeviceTypes.v].
    - [packages/core/src/matterbridgeEndpoint.ts] and [matterbridgeEndpointHelpers.ts]:
      attributes, events and labels of an endpoint in [Endpoint.v] and
      [EndpointFacts.v]; the servers it is given in [ClusterServers.v] and
      [ClusterServerFacts.v]; its construction, children and serialization in
      [EndpointTree.v] and [EndpointTreeFacts.v].
    - [packages/core/src/devices/*.ts], the device classes: [Devices.v],
      [DeviceFacts.v].
    - [packages/core/src/frontend.ts], the servers of the web application: [Frontend.v]
      (clients, authorization, routes, messages, what is shown), [FrontendApi.v] (the
      requests of web sockets and broadcast messages), [FrontendFacts.v] (answers),
      [FrontendSettings.v] (settings and lists of devices), [FrontendAccess.v]
      (authorization), [FrontendShown.v] (log, batteries, flags).
    - [apps/frontend/src/components/WebSocketProvider.tsx], [UiProvider.tsx] and
      [Logs.tsx], the web application in the browser: [WebClient.v] (messages, log,
      snackbars, dialogs, heartbeat, reconnections), [WebClientFacts.v] (log and
      snackbars), [WebSocketFacts.v] (the socket over time), [WebSession.v] (together
      with the frontend); [MbfTable.tsx], its tables: [WebTable.v];
      [utils/createDebouncer.ts], the delay of settings: [WebDebounce.v].
    - [packages/core/src/cli.ts] and [mb_health.ts], the process and the health check:
      [Cli.v].
    - [packages/dgram/src/dgram.ts], [unicast.ts], [multicast.ts] and
      [packages/utils/src/network.ts], interfaces and sockets: [Network.v],
      [NetworkFacts.v].
    - [packages/thread/src/checkUpdates.ts], the check for updates: [Updates.v];
      [spawnCommand.ts], commands in child processes: [Spawn.v]; [zipjs.ts], archives:
      [Archive.v] (with more of Node's [path] and a file system), [PathFacts.v] (paths and
      their parts), [ArchiveFacts.v] (extraction stays inside), [ZipFacts.v] (backups are
      complete); [dockerVersion.ts] with [packages/utils/src/npmVersion.ts] and
      [githubVersion.ts], requests over https: [Requests.v], [RequestFacts.v]; the workers
      [workerSystemCheck.ts] and [workerDockerVersion.ts]: [Workers.v].
    - [packages/utils/src/tracker.ts], the usage of processors and memory: [Tracker.v].
    - [packages/utils/src/hex.ts], hexadecimal text, PEM and keys: [Hex.v],
      [HexFacts.v].
    - [packages/utils/src/validate.ts], [wait.ts], [commandLine.ts], [deepCopy.ts] and
      [deepEqual.ts]: [Validate.v], [Wait.v], [CommandLine.v], [Deep.v].

    A component is a [Module] with a record for its state, one definition per
    method, and named after the method. The plugin manager loads plugins, whose
    platforms call the bridge to add their endpoints; the bridge keeps them in the
    device manager; the managers serve requests that reach them through broadcast
    servers. In the model the worlds contain each other accordingly: the world of
    [Platform.v] has a world of [Bridge.v], which has one of [PluginManager.v], and so
    does the world of [Matterbridge.v], which is part of the world of [Frontend.v];
    [lift] runs an operation on the part. The clusters of an endpoint are a world of
    their own, of [Behaviors.v], which [Endpoint.v] reads and writes, [ClusterServers.v]
    and [EndpointTree.v] fill, and [Devices.v] creates.

    ** The language

    [Prelude.v] has exceptions and results; [Buffer.v] the byte buffers of Node;
    [JsString.v] and [JsNumber.v] strings of UTF-16 code units, their UTF-8 form,
    number parsing and printing; [JsMap.v] the insertion-ordered [Map];
    [JsValue.v] dynamic values, with integers as the only numbers and objects as
    ordered lists of properties; [JsRegExp.v] regular expressions with a
    backtracking matcher. Objects that are shared and mutated live in heaps.

    [Async.v] models asynchronous code as a free monad of reads, writes and
    suspension points. [run] executes one operation to its end; [turn] lets any task
    of a pool run to its next suspension point, so that theorems about [rtc turn]
    hold for every interleaving of the event loop. [Ownership.v] adds a program
    logic in which tasks own tokens between their turns, for invariants that speak
    of what a suspended task is about to do. Awaits between which nothing happens are
    one suspension point.

    ** What is shown

    - Codecs. Encoders and decoders are inverse to each other on exactly the inputs
      the encoders accept; decoders terminate on every datagram and read nothing
      outside it; names are decoded in the presence of compression pointers.
    - Messages. A fetch is settled by its own answer only; an answer returns to
      its sender.
    - Managers. The device manager refines an abstract registry; the plugin
      registry survives a restart; the marks of a plugin's life cycle are
      consistent after every operation, and the mark of loaded plugins under every
      interleaving. A thread has at most one active worker.
    - Bridge. Under every interleaving server nodes have different ports, and a
      plugin has one server node.
    - Application. The interval that waits for the plugins ends after a bounded number
      of ticks, with the bridge started or the status error; the tick that starts the
      bridge starts exactly the nodes it has to; of cleanups that are requested side by
      side one runs. A start in mode childbridge survives a cleanup; two resets are
      incomplete.
    - Platforms. Validation of devices and entities by their lists, comparison of
      versions, stored endpoint numbers, and the registry of endpoints.
    - Endpoints and devices. A command is executed by one handler before matter.js is
      called, and a handler that fails changes nothing else; endpoints are given exactly
      the servers their types require; trees of endpoints are well formed and can be
      serialized; every device class can be constructed and is complete; commands keep
      attributes in their ranges under every interleaving.
    - Frontend. An address is answered by protected routes only after a login with the
      password; a request of a web socket has at most one response, which goes to its
      sender; numbers of the settings stay in their ranges; the lists of devices have
      the effect that the platforms give them; batteries are shown as they were set.
    - Web application. The filter on arriving lines of the log is equivalent to the one on
      lines that are shown; the log is a bounded window; a silent server is noticed in
      bounded time; a lost connection is tried again a bounded number of times; the
      answers of the frontend reach the component that asked, and its pong the heartbeat;
      tables are sorted, stably, and a page that is loaded again shows them as before. A
      burst of changes has the effect of the last. A snackbar that is shown twice can stay
      after it was closed.
    - Commands. The health check exits with 0 for a response of success that ends in time;
      the process is ready or exits, with everything stopped if with 0.
    - Workers. An archive of files is extracted as a copy of them; no archive is
      extracted outside of its destination; the token for the registry of images is sent
      to that registry only; requests settle; a check for updates announces what its
      checks find, under every interleaving; commands end with their child processes.
    - Network and usage. Addresses of interfaces, broadcast addresses and memberships of
      groups; the ring of snapshots is a window on a log, and peaks are maxima.
    - Utilities. Copies are exact and detached, comparison is that of data. The pattern
      of IPv4 addresses is equivalent to its meaning; version numbers are exact; text of
      bytes in base 16 and 64 is read back.

    Some theorems show behaviour that looks unintended; they are stated as facts
    about the code, on concrete inputs or schedules.

    ** Bounds and fuel

    Loops that are not structural take fuel: the decoders one unit per byte of the
    datagram plus the limit the code itself sets on compression pointers, which the
    termination theorems show to be enough. Archiving takes a depth of directories, for
    which [depthOf] is enough; redirections of a request, which the code does not bound,
    a number of them. The ring of the tracker has any size. Timers of [waiter] fire after a number of
    ticks that is a parameter. The start of the bridge ends within [failCountLimit], the
    limit of the code, plus two ticks. Integers of the wire formats have their width
    written out; numbers elsewhere are integers below 2^53.

    ** Code that is a parameter

    matter.js, plugin modules and their hooks, the file system, the md5 hash, random
    numbers, the format of archives, the network, JSON texts and URLs, the snackbars of
    notistack, the order of texts in a locale, lower case and the expressions that users
    enter are arguments of the definitions that use them. [MatterQuiet]
    in [BridgeFacts.v] states that calls of matter.js change nodes, endpoints and
    their numbers only, and not the bridge's own state; [MarkedHooks] in
    [MatterbridgeFacts.v] that hooks of plugins do not reset the marks of plugins;
    [ExternalQuiet] in [CleanupFacts.v] that storages, files and the frontend do not
    set the marks of the cleanup; [Discreet] in [FrontendFacts.v] that other components,
    files and platforms leave alone what the frontend keeps for itself. Each has an
    instance. The theorems on archives assume that entries are read as they were written,
    those on tokens that an url that https accepts has a host, and that of the registry is
    its own; their witnesses have instances. [NotistackLaws] in [WebClient.v] states how
    snackbars are displayed and closed, [Json] in [WebTable.v] that data written as JSON is
    read back, [Comparison] that an order of texts is one, and [Apart] in [Cli.v] that the
    inspector and the bridge leave the state of the command alone.

    ** Not modelled

    Log lines and their colours; the initialisation of the application before its
    command line is read, the controller; the operating system below sockets, child
    processes and files, links in file systems, and HTTP below the routes; colours and the
    text that describes the attributes of a device, which are computed with floats;
    [backend.ts], [matterNode.ts] and their companions, which nothing starts yet; what the
    browser application renders, and its pages that only arrange components; the page of
    the history, which is a text of HTML; the declarations of clusters, which are tables
    for matter.js; the worker that asks npm for its prefix. *)
From stdpp Require Export base list strings sets.
From Stdlib Require Export ZArith Lia.
From Stdlib Require Ascii String.

(** ** Scope of the development *)

Declare Scope js_scope.
Delimit Scope js_scope with js.
#[global] Open Scope Z_scope.

(** ** Exceptions and fallible computations *)

(** JavaScript strings are sequences of UTF-16 code units; a code unit is kept
    as its number. *)
Abbreviation jsstr := (list Z) (only parsing).

(** [js "text"] is the JavaScript string of an ASCII literal. *)
Definition js (s : string) : jsstr :=
  map (fun a => Z.of_N (Ascii.N_of_ascii a)) (String.list_ascii_of_string s).

(** The values a piece of code throws: [new Error(message)] with its message,
    the [ERR_OUT_OF_RANGE] of Node's Buffer accessors, a [TypeError] or a
    [SyntaxError] of the language, or a system error with its code. [Diverged] is no value of the program: a loop modelled with fuel
    yields it when the fuel runs out, and the termination theorems show that it
    is never produced. *)
Inductive exn :=
  | Error (message : jsstr)
  | RangeError
  | TypeError
  | SyntaxError
  | SystemError (code : string)
  | Diverged.

Inductive res (A : Type) :=
  | Ok (a : A)
  | Throw (e : exn).
Arguments Ok {A} a.
Arguments Throw {A} e.

#[export] Instance res_ret : MRet res := fun A a => Ok a.
#[export] Instance res_bind : MBind res := fun A B k m =>
  match m with
  | Ok a => k a
  | Throw e => Throw e
  end.

(** The two steps of the sequencing, as rewriting rules. *)
Lemma bind_Ok {A B} (a : A) (k : A -> res B) : (Ok a ≫= k) = k a.
Proof. reflexivity. Qed.

Lemma bind_Throw {A B} e (k : A -> res B) : (Throw e ≫= k) = Throw e.
Proof. reflexivity. Qed.

Definition throwError {A} (s : string) : res A := Throw (Error (js s)).

(** A computation succeeds. *)
Definition is_Ok {A} (m : res A) : Prop := exists a, m = Ok a.

(** [mapM] in the order JavaScript's [Array.prototype.map] runs its callback,
    stopping at the first exception. *)
Fixpoint mapE {A B} (f : A -> res B) (l : list A) : res (list B) :=
  match l with
  | [] => Ok []
  | x :: l => y ← f x; ys ← mapE f l; Ok (y :: ys)
  end.

#[export] Instance exn_eq_dec : EqDecision exn.
Proof. solve_decision. Defined.
#[export] Instance res_eq_dec {A} `{EqDecision A} : EqDecision (res A).
Proof. solve_decision. Defined.

(** The 32-bit signed integer the bit operators of the language work on. *)
Definition toInt32 (x : Z) : Z := (x + 2 ^ 31) mod 2 ^ 32 - 2 ^ 31.

Lemma toInt32_small x : - 2 ^ 31 <= x < 2 ^ 31 -> toInt32 x = x.
Proof. intros. unfold toInt32. rewrite Z.mod_small; lia. Qed.

(** ** Automation *)

(** Destructs the scrutinee of the first [match] on a fallible computation in
    the hypothesis, keeping the equation. *)
Tactic Notation "res_inv" hyp(H) :=
  repeat match type of H with
  | context [match ?m with Ok _ => _ | Throw _ => _ end] =>
      let E := fresh "E" in destruct m eqn:E; simpl in H; try discriminate H
  | context [if ?b then _ else _] =>
      let E := fresh "E" in destruct b eqn:E; simpl in H; try discriminate H
  end.

(** Turns the boolean comparisons of the hypotheses into their propositions. *)
Ltac bool_facts :=
  repeat match goal with
  | H : (_ <? _) = true |- _ => apply Z.ltb_lt in H
  | H : (_ <? _) = false |- _ => apply Z.ltb_ge in H
  | H : (_ <=? _) = true |- _ => apply Z.leb_le in H
  | H : (_ <=? _) = false |- _ => apply Z.leb_gt in H
  | H : (_ =? _) = true |- _ => apply Z.eqb_eq in H
  | H : (_ =? _) = false |- _ => apply Z.eqb_neq in H
  | H : (_ && _)%bool = true |- _ => apply andb_true_iff in H; destruct H
  | H : (_ || _)%bool = false |- _ => apply orb_false_iff in H; destruct H
  end.

(** Proves a closed decidable proposition by evaluating its decision. *)
Ltac evaluate := apply (bool_decide_unpack _); vm_compute; exact I.

(** Case analysis on the boolean integer comparisons of the goal. *)
Ltac zcase :=
  repeat match goal with
  | |- context [?a <? ?b] => destruct (Z.ltb_spec a b)
  | |- context [?a <=? ?b] => destruct (Z.leb_spec a b)
  | |- context [?a =? ?b] => destruct (Z.eqb_spec a b)
  end.

Create HintDb js discriminated.
Create Rewrite HintDb blen.

(** ** Bit fields *)

(** [(x & mask) >> k] for the mask of a [w]-bit field at bit [k]. *)
Lemma field_extract x mask k w :
  0 <= k -> 0 <= w -> mask = Z.shiftl (Z.ones w) k ->
  Z.shiftr (Z.land x mask) k = x / 2 ^ k mod 2 ^ w.
Proof.
  intros Hk Hw ->. rewrite Z.shiftr_land, Z.shiftr_shiftl_l by lia.
  rewrite Z.sub_diag, Z.shiftl_0_r, Z.land_ones, Z.shiftr_div_pow2 by lia. done.
Qed.

(** [x & mask] for a mask of [w] low bits. *)
Lemma field_low x mask w :
  0 <= w -> mask = Z.ones w -> Z.land x mask = x mod 2 ^ w.
Proof. intros Hw ->. by apply Z.land_ones. Qed.

(** [(x & mask) !== 0] for the mask of bit [k]. *)
Lemma flag_bit x mask k :
  0 <= k -> mask = 2 ^ k -> Z.b2z (negb (Z.land x mask =? 0)) = x / 2 ^ k mod 2.
Proof.
  intros Hk ->. rewrite <- Z.testbit_spec' by lia. f_equal.
  rewrite Z.land_comm. destruct (Z.testbit x k) eqn:E.
  - apply negb_true_iff, Z.eqb_neq. intros H0.
    assert (Z.testbit (Z.land (2 ^ k) x) k = true) as Ht
      by (by rewrite Z.land_spec, Z.pow2_bits_true, E by lia).
    by rewrite H0, Z.bits_0 in Ht.
  - apply negb_false_iff, Z.eqb_eq, Z.bits_inj'. intros i Hi. rewrite Z.bits_0, Z.land_spec.
    destruct (Z.eq_dec i k) as [->|Hne]; [by rewrite E, andb_false_r|].
    by rewrite Z.pow2_bits_false by congruence.
Qed.

(** [(a << k) | b] when [b] fits below bit [k]. *)
Lemma lor_shiftl_add a b k :
  0 <= k -> 0 <= b < 2 ^ k -> Z.lor (Z.shiftl a k) b = a * 2 ^ k + b.
Proof.
  intros Hk Hb. rewrite <- Z.shiftl_mul_pow2 by lia.
  rewrite <- Z.add_lor_land. replace (Z.land (Z.shiftl a k) b) with 0; [lia|].
  rewrite <- (Z.mod_small b (2 ^ k)) by lia.
  symmetry. apply Z.bits_inj'. intros i Hi. rewrite Z.bits_0, Z.land_spec.
  destruct (Z.lt_ge_cases i k).
  - by rewrite Z.shiftl_spec_low.
  - rewrite Z.mod_pow2_bits_high by lia. apply andb_false_r.
Qed.
