(* ===== verification/Buffer.v ===== *)
(** Node's [Buffer], as far as the sources use it: bytes as integers in
    [0, 255], bounds-checked big-endian readers and writers that throw
    [RangeError], and [subarray] with its clamping. *)
From S2P Require Import Prelude.

(** ** Operations *)

Definition blen {A} (b : list A) : Z := Z.of_nat (length b).

(** A buffer holds bytes. *)
Definition bytes_ok (b : list Z) : Prop := Forall (fun x => 0 <= x < 256) b.

#[export] Instance bytes_ok_dec b : Decision (bytes_ok b).
Proof. unfold bytes_ok. apply _. Defined.

(** A check of all bytes. *)
Lemma bytes_all (p : Z -> bool) : forallb (fun n => p (Z.of_nat n)) (seq 0 256) = true -> forall x, 0 <= x < 256 -> p x = true.
Proof.
  intros H x Hx. rewrite forallb_forall in H. specialize (H (Z.to_nat x)). rewrite Z2Nat.id in H by lia. apply H, in_seq. lia.
Qed.

(** [buf[i]]: [undefined] outside the buffer. *)
Definition at_ (b : list Z) (i : Z) : option Z :=
  if i <? 0 then None else b !! Z.to_nat i.

(** The value stored by an assignment [buf[i] = v] (ToUint8). *)
Definition toUint8 (v : Z) : Z := v mod 256.

Definition readUInt8 (b : list Z) (off : Z) : res Z :=
  match at_ b off with
  | Some x => Ok x
  | None => Throw RangeError
  end.

Definition readUInt16BE (b : list Z) (off : Z) : res Z :=
  match at_ b off, at_ b (off + 1) with
  | Some x, Some y => Ok (x * 256 + y)
  | _, _ => Throw RangeError
  end.

Definition readUInt32BE (b : list Z) (off : Z) : res Z :=
  match at_ b off, at_ b (off + 1), at_ b (off + 2), at_ b (off + 3) with
  | Some x, Some y, Some z, Some w => Ok (x * 16777216 + y * 65536 + z * 256 + w)
  | _, _, _, _ => Throw RangeError
  end.

(** In-place store; the writers below check the bounds first. *)
Definition store (b : list Z) (off v : Z) : list Z := <[Z.to_nat off := v]> b.

Definition writeUInt8 (b : list Z) (v off : Z) : res (list Z) :=
  if (v <? 0) || (255 <? v) then Throw RangeError
  else if (off <? 0) || (blen b <=? off) then Throw RangeError
  else Ok (store b off v).

Definition writeUInt16BE (b : list Z) (v off : Z) : res (list Z) :=
  if (v <? 0) || (65535 <? v) then Throw RangeError
  else if (off <? 0) || (blen b <=? off + 1) then Throw RangeError
  else Ok (store (store b off (v / 256)) (off + 1) (v mod 256)).

Definition writeUInt32BE (b : list Z) (v off : Z) : res (list Z) :=
  if (v <? 0) || (4294967295 <? v) then Throw RangeError
  else if (off <? 0) || (blen b <=? off + 3) then Throw RangeError
  else Ok (store (store (store (store b off (v / 16777216))
                  (off + 1) (v / 65536 mod 256)) (off + 2) (v / 256 mod 256)) (off + 3) (v mod 256)).

(** [Buffer.alloc(n)]. *)
Definition alloc (n : nat) : list Z := replicate n 0.

(** A start or end argument of [subarray]: negative values count from the end,
    and everything is clamped to the buffer. *)
Definition adjustOffset (len i : Z) : Z :=
  if i <? 0 then Z.max 0 (i + len) else Z.min i len.

Definition subarray (b : list Z) (s e : Z) : list Z :=
  let s' := adjustOffset (blen b) s in
  let e' := adjustOffset (blen b) e in
  take (Z.to_nat (e' - s')) (drop (Z.to_nat s') b).

(** Big-endian bytes of a 16-bit and of a 32-bit value. *)
Definition be16 (v : Z) : list Z := [v / 256; v mod 256].
Definition be32 (v : Z) : list Z :=
  [v / 16777216; v / 65536 mod 256; v / 256 mod 256; v mod 256].

(** ** Lengths *)

Lemma blen_nonneg {A} (b : list A) : 0 <= blen b.
Proof. unfold blen. lia. Qed.

Lemma blen_app {A} (a b : list A) : blen (a ++ b) = blen a + blen b.
Proof. unfold blen. rewrite length_app. lia. Qed.

Lemma blen_cons {A} (x : A) b : blen (x :: b) = 1 + blen b.
Proof. unfold blen. simpl length. lia. Qed.

Lemma blen_nil {A} : blen (@nil A) = 0.
Proof. reflexivity. Qed.

Lemma blen_zero_inv {A} (b : list A) : blen b = 0 -> b = [].
Proof. destruct b; [done|]. rewrite blen_cons. pose proof (blen_nonneg b). lia. Qed.

Lemma blen_be16 v : blen (be16 v) = 2.
Proof. reflexivity. Qed.

Lemma blen_be32 v : blen (be32 v) = 4.
Proof. reflexivity. Qed.

#[export] Hint Rewrite @blen_app @blen_cons @blen_nil blen_be16 blen_be32 : blen.

(** Arithmetic on offsets: pushes [blen] through the list and calls [lia]. *)
Ltac blen_nonneg_facts :=
  repeat match goal with
  | |- context [blen ?b] =>
      lazymatch goal with _ : 0 <= blen b |- _ => fail | _ => pose proof (blen_nonneg b) end
  | _ : context [blen ?b] |- _ =>
      lazymatch goal with _ : 0 <= blen b |- _ => fail | _ => pose proof (blen_nonneg b) end
  end.
Ltac blen_lia := autorewrite with blen in *; blen_nonneg_facts; try lia.

(** Equality of concatenations up to associativity. *)
Ltac list_norm := cbn [app]; rewrite <- ?app_assoc; cbn [app]; rewrite <- ?app_assoc; done.

(** ** Reading at the boundary of a concatenation *)

Lemma at_app (a b : list Z) i :
  0 <= i -> at_ (a ++ b) (blen a + i) = at_ b i.
Proof.
  intros Hi. unfold at_, blen.
  destruct (Z.ltb_spec (Z.of_nat (length a) + i) 0); [lia|].
  destruct (Z.ltb_spec i 0); [lia|].
  rewrite lookup_app_r by lia. f_equal. lia.
Qed.

Lemma at_app_l (a b : list Z) i : i < blen a -> at_ (a ++ b) i = at_ a i.
Proof.
  intros Hi. unfold at_. destruct (Z.ltb_spec i 0); [done|].
  unfold blen in Hi. rewrite lookup_app_l by lia. done.
Qed.

Lemma at_cons_0 x (b : list Z) : at_ (x :: b) 0 = Some x.
Proof. reflexivity. Qed.

Lemma at_cons_S x (b : list Z) i : 0 <= i -> at_ (x :: b) (i + 1) = at_ b i.
Proof. intros. rewrite (Z.add_comm i). by apply (at_app [x] b i). Qed.

Lemma at_Some_range b i x : at_ b i = Some x -> 0 <= i < blen b.
Proof.
  unfold at_. destruct (Z.ltb_spec i 0); [done|].
  intros Hl%lookup_lt_Some. unfold blen. lia.
Qed.

Lemma at_in_range b i : 0 <= i < blen b -> exists x, at_ b i = Some x.
Proof.
  intros Hi. unfold at_, blen in *. destruct (Z.ltb_spec i 0); [lia|].
  apply lookup_lt_is_Some. lia.
Qed.

Lemma at_None b i : at_ b i = None <-> i < 0 \/ blen b <= i.
Proof.
  unfold at_. destruct (Z.ltb_spec i 0); [split; auto with lia|].
  rewrite lookup_ge_None. unfold blen. lia.
Qed.

Lemma at_byte b i x : bytes_ok b -> at_ b i = Some x -> 0 <= x < 256.
Proof.
  unfold at_. destruct (i <? 0); [done|]. intros Hb Hl.
  by eapply Forall_lookup_1 in Hb.
Qed.

Lemma at_here (a b : list Z) x : at_ (a ++ x :: b) (blen a) = Some x.
Proof. rewrite <- (Z.add_0_r (blen a)). by rewrite at_app by lia. Qed.

Lemma readUInt8_app a x b : readUInt8 (a ++ x :: b) (blen a) = Ok x.
Proof. unfold readUInt8. by rewrite at_here. Qed.

Lemma readUInt16BE_app a v b : readUInt16BE (a ++ be16 v ++ b) (blen a) = Ok v.
Proof.
  unfold readUInt16BE. simpl. rewrite at_here, at_app by lia. simpl.
  f_equal. pose proof (Z.div_mod v 256). lia.
Qed.

Lemma be32_combine v :
  v / 16777216 * 16777216 + v / 65536 mod 256 * 65536 + v / 256 mod 256 * 256 + v mod 256 = v.
Proof.
  replace (v / 65536) with (v / 256 / 256) by (rewrite Z.div_div; [done|lia|lia]).
  replace (v / 16777216) with (v / 256 / 256 / 256) by (rewrite !Z.div_div; [done|lia|lia|lia|lia]).
  pose proof (Z.div_mod v 256). pose proof (Z.div_mod (v / 256) 256).
  pose proof (Z.div_mod (v / 256 / 256) 256). lia.
Qed.

Lemma readUInt32BE_app a v b : readUInt32BE (a ++ be32 v ++ b) (blen a) = Ok v.
Proof.
  unfold readUInt32BE. simpl. rewrite at_here, !at_app by lia. simpl.
  f_equal. apply be32_combine.
Qed.

(** The readers on a buffer known to split at the offset. *)
Lemma readUInt16BE_next a v c b off :
  b = a ++ be16 v ++ c -> off = blen a -> readUInt16BE b off = Ok v.
Proof. intros -> ->. apply readUInt16BE_app. Qed.

Lemma readUInt32BE_next a v c b off :
  b = a ++ be32 v ++ c -> off = blen a -> readUInt32BE b off = Ok v.
Proof. intros -> ->. apply readUInt32BE_app. Qed.

Lemma readUInt16BE_Ok b off v :
  readUInt16BE b off = Ok v -> 0 <= off /\ off + 2 <= blen b.
Proof.
  unfold readUInt16BE. destruct (at_ b off) eqn:E1; [|done].
  destruct (at_ b (off + 1)) eqn:E2; [|done]. intros _.
  apply at_Some_range in E1, E2. lia.
Qed.

Lemma readUInt16BE_range b off v :
  bytes_ok b -> readUInt16BE b off = Ok v -> 0 <= v < 65536.
Proof.
  unfold readUInt16BE. intros Hb. destruct (at_ b off) eqn:E1; [|done].
  destruct (at_ b (off + 1)) eqn:E2; [|done]. intros [= <-].
  apply at_byte in E1, E2; [lia|done..].
Qed.

Lemma readUInt32BE_Ok b off v :
  readUInt32BE b off = Ok v -> 0 <= off /\ off + 4 <= blen b.
Proof.
  unfold readUInt32BE. destruct (at_ b off) eqn:E1; [|done].
  destruct (at_ b (off + 1)) eqn:E2; [|done]. destruct (at_ b (off + 2)) eqn:E3; [|done].
  destruct (at_ b (off + 3)) eqn:E4; [|done]. intros _.
  apply at_Some_range in E1, E4. lia.
Qed.

(** ** Writing inside a buffer *)

Lemma store_app (a b : list Z) x v : store (a ++ x :: b) (blen a) v = a ++ v :: b.
Proof.
  unfold store, blen. rewrite Nat2Z.id, insert_app_r_alt by lia. by rewrite Nat.sub_diag.
Qed.

Lemma writeUInt16BE_app a x y b v :
  0 <= v <= 65535 -> writeUInt16BE (a ++ x :: y :: b) v (blen a) = Ok (a ++ be16 v ++ b).
Proof.
  intros Hv. unfold writeUInt16BE.
  rewrite (proj2 (Z.ltb_ge v 0)), (proj2 (Z.ltb_ge 65535 v)) by lia.
  pose proof (blen_nonneg a).
  rewrite (proj2 (Z.ltb_ge (blen a) 0)), (proj2 (Z.leb_gt _ _)) by blen_lia. simpl orb. cbv iota.
  rewrite store_app. replace (blen a + 1) with (blen (a ++ [v / 256])) by blen_lia.
  replace (a ++ v / 256 :: y :: b) with ((a ++ [v / 256]) ++ y :: b) by list_norm.
  rewrite store_app. f_equal. unfold be16. list_norm.
Qed.

(** The writers on a buffer known to split at the offset. *)
Lemma writeUInt16BE_next a x y b v off buf :
  buf = a ++ x :: y :: b -> off = blen a -> 0 <= v <= 65535 ->
  writeUInt16BE buf v off = Ok (a ++ be16 v ++ b).
Proof. intros -> ->. apply writeUInt16BE_app. Qed.

Lemma writeUInt16BE_range b v off b' : writeUInt16BE b v off = Ok b' -> 0 <= v <= 65535.
Proof. unfold writeUInt16BE. zcase; done || lia. Qed.

Lemma writeUInt32BE_range b v off b' : writeUInt32BE b v off = Ok b' -> 0 <= v <= 4294967295.
Proof. unfold writeUInt32BE. zcase; done || lia. Qed.

Lemma writeUInt32BE_app a x y z w b v :
  0 <= v <= 4294967295 -> writeUInt32BE (a ++ x :: y :: z :: w :: b) v (blen a) = Ok (a ++ be32 v ++ b).
Proof.
  intros Hv. unfold writeUInt32BE.
  rewrite (proj2 (Z.ltb_ge v 0)), (proj2 (Z.ltb_ge 4294967295 v)) by lia.
  pose proof (blen_nonneg a).
  rewrite (proj2 (Z.ltb_ge (blen a) 0)), (proj2 (Z.leb_gt _ _)) by blen_lia. simpl orb. cbv iota.
  set (v0 := v / 16777216). set (v1 := v / 65536 mod 256). set (v2 := v / 256 mod 256).
  rewrite store_app. replace (a ++ v0 :: y :: z :: w :: b) with ((a ++ [v0]) ++ y :: z :: w :: b) by list_norm.
  replace (blen a + 1) with (blen (a ++ [v0])) by blen_lia. rewrite store_app.
  replace ((a ++ [v0]) ++ v1 :: z :: w :: b) with ((a ++ [v0; v1]) ++ z :: w :: b) by list_norm.
  replace (blen a + 2) with (blen (a ++ [v0; v1])) by blen_lia. rewrite store_app.
  replace ((a ++ [v0; v1]) ++ v2 :: w :: b) with ((a ++ [v0; v1; v2]) ++ w :: b) by list_norm.
  replace (blen a + 3) with (blen (a ++ [v0; v1; v2])) by blen_lia. rewrite store_app.
  f_equal. unfold be32. subst v0 v1 v2. list_norm.
Qed.

Lemma writeUInt32BE_next a x y z w b v off buf :
  buf = a ++ x :: y :: z :: w :: b -> off = blen a -> 0 <= v <= 4294967295 ->
  writeUInt32BE buf v off = Ok (a ++ be32 v ++ b).
Proof. intros -> ->. apply writeUInt32BE_app. Qed.

(** ** Sub-ranges *)

Lemma subarray_app (a x b : list Z) e :
  e = blen a + blen x -> subarray (a ++ x ++ b) (blen a) e = x.
Proof.
  intros ->. unfold subarray, adjustOffset.
  pose proof (blen_nonneg a). pose proof (blen_nonneg x). pose proof (blen_nonneg b).
  destruct (Z.ltb_spec (blen a) 0); [lia|].
  destruct (Z.ltb_spec (blen a + blen x) 0); [lia|].
  rewrite !blen_app, !Z.min_l by lia. unfold blen. rewrite Nat2Z.id.
  rewrite drop_app_length, Z.add_simpl_l, Nat2Z.id. apply take_app_length.
Qed.

Lemma subarray_to_end (a x : list Z) : subarray (a ++ x) (blen a) (blen (a ++ x)) = x.
Proof.
  rewrite <- (app_nil_r x) at 1. apply subarray_app. by rewrite blen_app.
Qed.

Lemma blen_subarray_le b s e : blen (subarray b s e) <= blen b.
Proof. unfold subarray, blen. rewrite length_take, length_drop. lia. Qed.

(** A range inside the buffer is returned in full. *)
Lemma subarray_split b s e :
  0 <= s <= e -> e <= blen b ->
  exists a c, b = a ++ subarray b s e ++ c /\ blen a = s /\ blen (subarray b s e) = e - s.
Proof.
  intros Hs He. exists (take (Z.to_nat s) b), (drop (Z.to_nat e) b).
  unfold subarray, adjustOffset.
  destruct (Z.ltb_spec s 0); [lia|]. destruct (Z.ltb_spec e 0); [lia|].
  rewrite !Z.min_l by lia. split; [|split].
  - rewrite <- (take_drop (Z.to_nat s) b) at 1. f_equal.
    rewrite <- (take_drop (Z.to_nat (e - s)) (drop (Z.to_nat s) b)) at 1. f_equal.
    rewrite drop_drop. f_equal. lia.
  - unfold blen in *. rewrite length_take. lia.
  - unfold blen in *. rewrite length_take, length_drop. lia.
Qed.

Lemma subarray_bytes b s e : bytes_ok b -> bytes_ok (subarray b s e).
Proof. intros. unfold subarray. by apply Forall_take, Forall_drop. Qed.

(** ** Bytes of the encoders *)

Lemma be16_bytes v : 0 <= v < 65536 -> bytes_ok (be16 v).
Proof.
  intros Hv. unfold be16. repeat constructor.
  all: try (apply Z.mod_pos_bound; lia).
  - apply Z.div_pos; lia.
  - apply Z.div_lt_upper_bound; lia.
Qed.

Lemma toUint8_byte v : 0 <= toUint8 v < 256.
Proof. apply Z.mod_pos_bound. lia. Qed.

Lemma toUint8_small v : 0 <= v < 256 -> toUint8 v = v.
Proof. apply Z.mod_small. Qed.
