(* ===== verification/JsString.v ===== *)
(** The operations of JavaScript strings and of Node's UTF-8 codec that the
    sources use. A string is the list of its UTF-16 code units. *)
From S2P Require Import Prelude Buffer.

(** ** Number to text *)

Definition digitChar (d : Z) : Z := if d <? 10 then 48 + d else 87 + d.

(** Digits of a natural number, most significant first, in front of [acc]. *)
Fixpoint digits (fuel : nat) (radix n : Z) (acc : jsstr) : jsstr :=
  match fuel with
  | O => acc
  | S fuel =>
      let acc := digitChar (n mod radix) :: acc in
      if n <? radix then acc else digits fuel radix (n / radix) acc
  end.

(** [n.toString(radix)] of an integer. A radix of at least two needs at most
    [log2 n + 1] digits. *)
Definition toStringRadix (radix n : Z) : jsstr :=
  if n <? 0 then 45 :: digits (S (Z.to_nat (Z.log2 (- n)))) radix (- n) []
  else digits (S (Z.to_nat (Z.log2 n))) radix n [].

Definition dec (n : Z) : jsstr := toStringRadix 10 n.
Definition hex (n : Z) : jsstr := toStringRadix 16 n.

(** [s.padStart(n, c)] for a one-unit filler. *)
Definition padStart (n : nat) (c : Z) (s : jsstr) : jsstr := replicate (n - length s) c ++ s.

(** [Buffer.toString('hex')]. *)
Definition toHexString (b : list Z) : jsstr := concat (map (fun x => padStart 2 48 (hex x)) b).

(** ** Searching, splitting and joining *)

(** [l.join(sep)]. *)
Fixpoint joinWith (sep : jsstr) (l : list jsstr) : jsstr :=
  match l with
  | [] => []
  | [s] => s
  | s :: l => s ++ sep ++ joinWith sep l
  end.

(** [s.startsWith(t)]. *)
Fixpoint startsWith (s t : jsstr) : bool :=
  match t, s with
  | [], _ => true
  | y :: t, x :: s => (x =? y) && startsWith s t
  | _ :: _, [] => false
  end.

(** [s.includes(t)]. *)
Fixpoint includes (s t : jsstr) : bool :=
  startsWith s t || match s with [] => false | _ :: s => includes s t end.

(** [s.split(c)] for a one-unit separator. *)
Fixpoint splitChar (c : Z) (s : jsstr) : list jsstr :=
  match s with
  | [] => [[]]
  | x :: s =>
      if x =? c then [] :: splitChar c s
      else match splitChar c s with
           | [] => [[x]]
           | l :: ls => (x :: l) :: ls
           end
  end.

(** [s.split(cc)] for a separator of two equal units, left to right and without
    overlap. *)
Fixpoint splitTwice (c : Z) (s : jsstr) : list jsstr :=
  match s with
  | [] => [[]]
  | x :: s' =>
      match s' with
      | y :: s'' =>
          if (x =? c) && (y =? c) then [] :: splitTwice c s''
          else match splitTwice c s' with
               | [] => [[x]]
               | l :: ls => (x :: l) :: ls
               end
      | [] => [[x]]
      end
  end.

(** ** UTF-8 *)

(** UTF-16 code units of a code point. *)
Definition units (cp : Z) : jsstr :=
  if cp <? 0x10000 then [cp]
  else [0xd800 + (cp - 0x10000) / 0x400; 0xdc00 + (cp - 0x10000) mod 0x400].

(** The decoder of the WHATWG encoding standard: [need] continuation bytes are
    missing, [cp] is the code point so far, and the next byte must lie between
    [lower] and [upper]. Ill-formed sequences give U+FFFD. *)
Fixpoint utf8_dec (b : list Z) (need : nat) (cp lower upper : Z) : jsstr :=
  match b with
  | [] => match need with O => [] | S _ => [0xfffd] end
  | x :: b =>
      let start :=
        if x <=? 0x7f then x :: utf8_dec b 0 0 0x80 0xbf
        else if (0xc2 <=? x) && (x <=? 0xdf) then utf8_dec b 1 (x - 0xc0) 0x80 0xbf
        else if (0xe0 <=? x) && (x <=? 0xef) then
          utf8_dec b 2 (x - 0xe0) (if x =? 0xe0 then 0xa0 else 0x80) (if x =? 0xed then 0x9f else 0xbf)
        else if (0xf0 <=? x) && (x <=? 0xf4) then
          utf8_dec b 3 (x - 0xf0) (if x =? 0xf0 then 0x90 else 0x80) (if x =? 0xf4 then 0x8f else 0xbf)
        else 0xfffd :: utf8_dec b 0 0 0x80 0xbf in
      match need with
      | O => start
      | S need =>
          if (lower <=? x) && (x <=? upper) then
            let cp := cp * 64 + (x - 0x80) in
            match need with
            | O => units cp ++ utf8_dec b 0 0 0x80 0xbf
            | S _ => utf8_dec b need cp 0x80 0xbf
            end
          else 0xfffd :: start
      end
  end.

(** [buf.toString('utf8')]. *)
Definition utf8_decode (b : list Z) : jsstr := utf8_dec b 0 0 0x80 0xbf.

Definition isHigh (u : Z) : bool := (0xd800 <=? u) && (u <=? 0xdbff).
Definition isLow (u : Z) : bool := (0xdc00 <=? u) && (u <=? 0xdfff).

Definition utf8_2 (cp : Z) : list Z := [0xc0 + cp / 64; 0x80 + cp mod 64].
Definition utf8_3 (cp : Z) : list Z := [0xe0 + cp / 4096; 0x80 + cp / 64 mod 64; 0x80 + cp mod 64].
Definition utf8_4 (cp : Z) : list Z :=
  [0xf0 + cp / 262144; 0x80 + cp / 4096 mod 64; 0x80 + cp / 64 mod 64; 0x80 + cp mod 64].

(** [Buffer.from(s, 'utf8')]: lone surrogates are written as U+FFFD. *)
Fixpoint utf8_encode (s : jsstr) : list Z :=
  match s with
  | [] => []
  | u :: s =>
      if u <=? 0x7f then u :: utf8_encode s
      else if u <=? 0x7ff then utf8_2 u ++ utf8_encode s
      else if isHigh u then
        match s with
        | v :: s' =>
            if isLow v then utf8_4 (0x10000 + (u - 0xd800) * 0x400 + (v - 0xdc00)) ++ utf8_encode s'
            else utf8_3 0xfffd ++ utf8_encode s
        | [] => utf8_3 0xfffd
        end
      else if isLow u then utf8_3 0xfffd ++ utf8_encode s
      else utf8_3 u ++ utf8_encode s
  end.

(** A string of code units in which every surrogate is part of a pair. *)
Fixpoint wellFormed (s : jsstr) : bool :=
  match s with
  | [] => true
  | u :: s =>
      (0 <=? u) && (u <=? 0xffff) &&
      (if isHigh u then match s with v :: s' => isLow v && wellFormed s' | [] => false end
       else negb (isLow u) && wellFormed s)
  end.

(** ** [JSON.stringify] of a string *)

Definition jsonUnicode (u : Z) : jsstr := js "\u" ++ padStart 4 48 (hex u).

Definition jsonUnit (u : Z) : jsstr :=
  if u =? 34 then [92; 34]
  else if u =? 92 then [92; 92]
  else if u =? 8 then js "\b"
  else if u =? 12 then js "\f"
  else if u =? 10 then js "\n"
  else if u =? 13 then js "\r"
  else if u =? 9 then js "\t"
  else if u <? 32 then jsonUnicode u
  else [u].

Fixpoint jsonUnits (s : jsstr) : jsstr :=
  match s with
  | [] => []
  | u :: s =>
      if isHigh u then
        match s with
        | v :: s' => if isLow v then u :: v :: jsonUnits s' else jsonUnicode u ++ jsonUnits s
        | [] => jsonUnicode u
        end
      else if isLow u then jsonUnicode u ++ jsonUnits s
      else jsonUnit u ++ jsonUnits s
  end.

Definition jsonString (s : jsstr) : jsstr := [34] ++ jsonUnits s ++ [34].

(** [JSON.stringify] of an object with the given fields, each already printed. *)
Definition jsonObject (fields : list (string * jsstr)) : jsstr :=
  js "{" ++ joinWith (js ",") (map (fun '(k, v) => jsonString (js k) ++ js ":" ++ v) fields) ++ js "}".

Definition jsonArray (elems : list jsstr) : jsstr := js "[" ++ joinWith (js ",") elems ++ js "]".

Definition ascii (s : jsstr) : Prop := Forall (fun u => 0 <= u < 128) s.

(** ** Laws of the UTF-8 codec *)

Lemma units_bmp cp : cp < 0x10000 -> units cp = [cp].
Proof. intros. unfold units. by destruct (Z.ltb_spec cp 0x10000); [|lia]. Qed.

Lemma units_pair u v :
  isHigh u = true -> isLow v = true ->
  units (0x10000 + (u - 0xd800) * 0x400 + (v - 0xdc00)) = [u; v].
Proof.
  unfold isHigh, isLow. intros Hu Hv. bool_facts. unfold units.
  destruct (Z.ltb_spec (0x10000 + (u - 0xd800) * 0x400 + (v - 0xdc00)) 0x10000); [lia|].
  replace (65536 + (u - 55296) * 1024 + (v - 56320) - 65536) with ((v - 56320) + (u - 55296) * 1024) by lia.
  rewrite Z.div_add, Z.mod_add, Z.div_small, Z.mod_small by lia.
  f_equal; [lia|]. f_equal. lia.
Qed.

(** Decides the range tests of the goal, from the outside in. *)
Ltac range_test := repeat match goal with
  | |- context [if (?a <=? ?b) && (?c <=? ?d) then _ else _] =>
      first [ rewrite (proj2 (Z.leb_le a b)), (proj2 (Z.leb_le c d)) by lia
            | rewrite (proj2 (Z.leb_gt a b)) by lia
            | rewrite (proj2 (Z.leb_gt c d)), andb_false_r by lia ]; cbn [andb]
  | |- context [if ?a <=? ?b then _ else _] =>
      first [ rewrite (proj2 (Z.leb_le a b)) by lia | rewrite (proj2 (Z.leb_gt a b)) by lia ]
  end.

(** One step of the decoder: a lead byte of each class, a continuation byte. *)
Lemma utf8_lead_1 x b cp l u : x <= 0x7f -> utf8_dec (x :: b) 0 cp l u = x :: utf8_decode b.
Proof. intros. cbn [utf8_dec]. by rewrite (proj2 (Z.leb_le x 0x7f)) by lia. Qed.

Lemma utf8_lead_2 x b cp l u :
  0xc2 <= x <= 0xdf -> utf8_dec (x :: b) 0 cp l u = utf8_dec b 1 (x - 0xc0) 0x80 0xbf.
Proof. intros. cbn [utf8_dec]. generalize (utf8_dec b); intros d. by range_test. Qed.

Lemma utf8_lead_3 x b cp l u :
  0xe0 <= x <= 0xef ->
  utf8_dec (x :: b) 0 cp l u =
  utf8_dec b 2 (x - 0xe0) (if x =? 0xe0 then 0xa0 else 0x80) (if x =? 0xed then 0x9f else 0xbf).
Proof. intros. cbn [utf8_dec]. generalize (utf8_dec b); intros d. by range_test. Qed.

Lemma utf8_lead_4 x b cp l u :
  0xf0 <= x <= 0xf4 ->
  utf8_dec (x :: b) 0 cp l u =
  utf8_dec b 3 (x - 0xf0) (if x =? 0xf0 then 0x90 else 0x80) (if x =? 0xf4 then 0x8f else 0xbf).
Proof. intros. cbn [utf8_dec]. generalize (utf8_dec b); intros d. by range_test. Qed.

Lemma utf8_cont x b need cp l u :
  l <= x <= u ->
  utf8_dec (x :: b) (S need) cp l u =
  match need with
  | O => units (cp * 64 + (x - 0x80)) ++ utf8_decode b
  | S _ => utf8_dec b need (cp * 64 + (x - 0x80)) 0x80 0xbf
  end.
Proof.
  intros. cbn [utf8_dec].
  rewrite (proj2 (Z.leb_le l x)), (proj2 (Z.leb_le x u)) by lia. done.
Qed.

(** Decoding one sequence of each length gives the code point back. *)
Lemma utf8_dec_1 cp b : 0 <= cp <= 0x7f -> utf8_decode (cp :: b) = cp :: utf8_decode b.
Proof. intros. apply utf8_lead_1. lia. Qed.

Lemma utf8_dec_2 cp b :
  0x80 <= cp <= 0x7ff -> utf8_decode (utf8_2 cp ++ b) = units cp ++ utf8_decode b.
Proof.
  intros. unfold utf8_decode at 1, utf8_2. cbn [app].
  assert (2 <= cp / 64 < 32) by (Z.div_mod_to_equations; lia).
  assert (0 <= cp mod 64 < 64) by (Z.div_mod_to_equations; lia).
  rewrite utf8_lead_2, utf8_cont by lia. do 2 f_equal. Z.div_mod_to_equations; lia.
Qed.

Lemma utf8_dec_3 cp b :
  0x800 <= cp <= 0xffff -> isHigh cp = false -> isLow cp = false ->
  utf8_decode (utf8_3 cp ++ b) = units cp ++ utf8_decode b.
Proof.
  unfold isHigh, isLow. intros Hr Hh Hl.
  unfold utf8_decode at 1, utf8_3. cbn [app].
  set (x := cp / 4096). set (y := cp / 64 mod 64). set (z := cp mod 64).
  assert (0 <= x < 16) by (subst x; Z.div_mod_to_equations; lia).
  assert (0 <= y < 64) by (subst y; Z.div_mod_to_equations; lia).
  assert (0 <= z < 64) by (subst z; Z.div_mod_to_equations; lia).
  assert (cp = (x * 64 + y) * 64 + z) as Hcp.
  { subst x y z. Z.div_mod_to_equations. lia. }
  clearbody x y z.
  assert (x = 13 -> y < 32).
  { intros ->. apply andb_false_iff in Hh, Hl. destruct Hh, Hl; bool_facts; lia. }
  rewrite utf8_lead_3 by lia.
  rewrite !utf8_cont by (zcase; lia). do 2 f_equal. lia.
Qed.

Lemma utf8_dec_4 cp b :
  0x10000 <= cp <= 0x10ffff -> utf8_decode (utf8_4 cp ++ b) = units cp ++ utf8_decode b.
Proof.
  intros Hr. unfold utf8_decode at 1, utf8_4. cbn [app].
  set (w := cp / 262144). set (x := cp / 4096 mod 64). set (y := cp / 64 mod 64). set (z := cp mod 64).
  assert (0 <= w <= 4) by (subst w; Z.div_mod_to_equations; lia).
  assert (0 <= x < 64) by (subst x; Z.div_mod_to_equations; lia).
  assert (0 <= y < 64) by (subst y; Z.div_mod_to_equations; lia).
  assert (0 <= z < 64) by (subst z; Z.div_mod_to_equations; lia).
  assert (cp = ((w * 64 + x) * 64 + y) * 64 + z) as Hcp.
  { subst w x y z. Z.div_mod_to_equations. lia. }
  clearbody w x y z.
  rewrite utf8_lead_4 by lia.
  rewrite !utf8_cont by (zcase; lia). do 2 f_equal. lia.
Qed.

Lemma wellFormed_tail u s : u < 0xd800 -> wellFormed (u :: s) = true -> wellFormed s = true.
Proof.
  intros Hu. cbn [wellFormed]. unfold isHigh, isLow.
  rewrite (proj2 (Z.leb_gt 0xd800 u)), (proj2 (Z.leb_gt 0xdc00 u)) by lia.
  cbn [andb negb]. intros. by bool_facts.
Qed.

(** Writing a well-formed string as UTF-8 and reading it back is the identity. *)
Lemma utf8_roundtrip_app s b :
  wellFormed s = true -> utf8_decode (utf8_encode s ++ b) = s ++ utf8_decode b.
Proof.
  remember (length s) as n eqn:Hn. revert s Hn.
  induction (lt_wf n) as [n _ IH]. intros [|u s] -> Hwf; [done|].
  cbn [utf8_encode]. assert (Hwf' := Hwf). cbn [wellFormed] in Hwf'. bool_facts.
  destruct (Z.leb_spec u 0x7f).
  { rewrite <- app_comm_cons, utf8_dec_1 by lia. simpl. f_equal.
    eapply IH; [|done|]; [simpl; lia|]. eapply wellFormed_tail, Hwf. lia. }
  destruct (Z.leb_spec u 0x7ff).
  { rewrite <- app_assoc, utf8_dec_2, units_bmp by lia. simpl. f_equal.
    eapply IH; [|done|]; [simpl; lia|]. eapply wellFormed_tail, Hwf. lia. }
  destruct (isHigh u) eqn:Hu.
  - destruct s as [|v s]; [done|]. apply andb_true_iff in H0 as [Hv Hs].
    rewrite Hv. rewrite <- app_assoc, utf8_dec_4.
    + rewrite units_pair by done. simpl. do 2 f_equal.
      eapply IH; [|done|done]. simpl; lia.
    + unfold isHigh, isLow in *. bool_facts. lia.
  - apply andb_true_iff in H0 as [Hl Hs]. apply negb_true_iff in Hl. rewrite Hl.
    rewrite <- app_assoc, utf8_dec_3, units_bmp by (done || lia). simpl. f_equal.
    eapply IH; [|done|done]. simpl; lia.
Qed.

Lemma utf8_roundtrip s : wellFormed s = true -> utf8_decode (utf8_encode s) = s.
Proof.
  intros H. rewrite <- (app_nil_r (utf8_encode s)), utf8_roundtrip_app by done.
  by rewrite app_nil_r.
Qed.

(** ASCII strings are their own UTF-8 bytes. *)
Lemma utf8_encode_ascii s : ascii s -> utf8_encode s = s.
Proof.
  induction 1 as [|u s Hu Hs IH]; [done|]. cbn [utf8_encode].
  by rewrite (proj2 (Z.leb_le u 0x7f)), IH by lia.
Qed.

Lemma utf8_decode_ascii s : ascii s -> utf8_decode s = s.
Proof. induction 1 as [|u s Hu Hs IH]; [done|]. by rewrite utf8_dec_1, IH by lia. Qed.

(** ** Splitting and joining *)

Lemma splitChar_nonempty c s : splitChar c s <> [].
Proof. destruct s as [|x s]; simpl; [done|]. destruct (x =? c); [done|]. by destruct (splitChar c s). Qed.

Lemma join_splitChar c s : joinWith [c] (splitChar c s) = s.
Proof.
  induction s as [|x s IH]; [done|]. simpl.
  pose proof (splitChar_nonempty c s) as Hne.
  destruct (Z.eqb_spec x c) as [->|].
  - destruct (splitChar c s); [done|]. simpl in *. by rewrite IH.
  - destruct (splitChar c s) as [|l ls]; [done|]. destruct ls; simpl in *; by rewrite <- IH.
Qed.

Lemma splitChar_free c s : Forall (fun l => c ∉ l) (splitChar c s).
Proof.
  induction s as [|x s IH]; simpl; [repeat constructor; apply not_elem_of_nil|].
  destruct (Z.eqb_spec x c) as [->|Hx]; [constructor; [apply not_elem_of_nil|done]|].
  destruct (splitChar c s) as [|l ls].
  - repeat constructor. rewrite not_elem_of_cons. split; [congruence|apply not_elem_of_nil].
  - inversion_clear IH. constructor; [|done]. rewrite not_elem_of_cons. split; [congruence|done].
Qed.

Lemma splitChar_app c l s : c ∉ l -> splitChar c (l ++ c :: s) = l :: splitChar c s.
Proof.
  induction l as [|x l IH]; simpl; intros Hl; [by rewrite Z.eqb_refl|].
  apply not_elem_of_cons in Hl as [Hx Hl]. rewrite (proj2 (Z.eqb_neq x c)) by congruence. by rewrite IH.
Qed.

Lemma splitChar_one c l : c ∉ l -> splitChar c l = [l].
Proof.
  induction l as [|x l IH]; simpl; intros Hl; [done|].
  apply not_elem_of_cons in Hl as [Hx Hl]. rewrite (proj2 (Z.eqb_neq x c)) by congruence. by rewrite IH.
Qed.

Lemma splitChar_join c ls : ls <> [] -> Forall (fun l => c ∉ l) ls -> splitChar c (joinWith [c] ls) = ls.
Proof.
  intros Hne Hall. induction Hall as [|l ls Hl Hall IH]; [done|].
  destruct ls as [|l' ls]; [by apply splitChar_one|].
  change (joinWith [c] (l :: l' :: ls)) with (l ++ [c] ++ joinWith [c] (l' :: ls)).
  cbn [app]. rewrite splitChar_app by done. by rewrite IH.
Qed.
