(* ===== verification/JsNumber.v ===== *)
(** JavaScript's conversions from text to number: [Number(s)] with its grammar
    and its rounding to binary64, [Number.parseInt(s, radix)], and the
    comparisons the sources make on the results. *)
From S2P Require Import Prelude Buffer JsString.

(** ** Binary64 values *)

(** A double: not a number, an infinity, or [m * 2 ^ e]. The sign of zero is not
    kept; no modelled code observes it. *)
Inductive double :=
  | DNaN
  | DInf (negative : bool)
  | DFin (m e : Z).

(** Nearest double of [p / q] for [0 <= p] and [0 < q], ties to even. *)
Definition toDouble (p q : Z) : double :=
  if p =? 0 then DFin 0 0
  else
    let l := Z.log2 p - Z.log2 q in
    let e0 := if p * 2 ^ Z.max 0 (- l) <? q * 2 ^ Z.max 0 l then l - 1 else l in
    let e := Z.max (e0 - 52) (-1074) in
    let num := p * 2 ^ Z.max 0 (- e) in
    let den := q * 2 ^ Z.max 0 e in
    let m := num / den in
    let r := num mod den in
    let m := if 2 * r <? den then m
             else if den <? 2 * r then m + 1
             else if Z.even m then m else m + 1 in
    if 1024 <=? e + Z.log2 m then DInf false else DFin m e.

Definition negate (x : double) : double :=
  match x with
  | DNaN => DNaN
  | DInf n => DInf (negb n)
  | DFin m e => DFin (- m) e
  end.

(** [x < y]. *)
Definition dlt (x y : double) : bool :=
  match x, y with
  | DNaN, _ | _, DNaN => false
  | DInf n, DInf n' => n && negb n'
  | DInf n, DFin _ _ => n
  | DFin _ _, DInf n => negb n
  | DFin m e, DFin m' e' =>
      let k := Z.min e e' in m * 2 ^ (e - k) <? m' * 2 ^ (e' - k)
  end.

(** [Number.isInteger(x)], with the integer. *)
Definition toInteger (x : double) : option Z :=
  match x with
  | DFin m e =>
      if 0 <=? e then Some (m * 2 ^ e)
      else if m mod 2 ^ (- e) =? 0 then Some (m / 2 ^ (- e)) else None
  | _ => None
  end.

(** [x || 0]: NaN and zero are falsy. *)
Definition orZero (x : double) : double :=
  match x with DNaN => DFin 0 0 | _ => x end.

(** ** Reading digits *)

(** White space and line terminators of the language. *)
Definition isSpace (u : Z) : bool :=
  ((9 <=? u) && (u <=? 13)) || (u =? 32) || (u =? 160) || (u =? 0x1680) ||
  ((0x2000 <=? u) && (u <=? 0x200a)) || (u =? 0x2028) || (u =? 0x2029) || (u =? 0x202f) ||
  (u =? 0x205f) || (u =? 0x3000) || (u =? 0xfeff).

Fixpoint trimStart (s : jsstr) : jsstr :=
  match s with
  | u :: s' => if isSpace u then trimStart s' else s
  | [] => []
  end.

(** [s.trim()]. *)
Definition trim (s : jsstr) : jsstr := reverse (trimStart (reverse (trimStart s))).

Definition digitVal (radix u : Z) : option Z :=
  let d := if (48 <=? u) && (u <=? 57) then u - 48
           else if (97 <=? u) && (u <=? 122) then u - 87
           else if (65 <=? u) && (u <=? 90) then u - 55
           else radix in
  if d <? radix then Some d else None.

(** The longest run of digits: its value after [acc], its length, the rest. *)
Fixpoint readDigits (radix : Z) (s : jsstr) (acc count : Z) : Z * Z * jsstr :=
  match s with
  | u :: s' =>
      match digitVal radix u with
      | Some d => readDigits radix s' (acc * radix + d) (count + 1)
      | None => (acc, count, s)
      end
  | [] => (acc, count, [])
  end.

(** An optional sign. *)
Definition stripSign (s : jsstr) : bool * jsstr :=
  match s with
  | u :: r => if u =? 45 then (true, r) else if u =? 43 then (false, r) else (false, s)
  | [] => (false, [])
  end.

(** ** [Number(s)] *)

Definition scaled (mantissa exp10 : Z) : double :=
  if 0 <=? exp10 then toDouble (mantissa * 10 ^ exp10) 1 else toDouble mantissa (10 ^ (- exp10)).

(** The exponent part of a decimal literal, up to the end of the text. *)
Definition readExponent (s : jsstr) : option Z :=
  match s with
  | [] => Some 0
  | u :: s =>
      if (u =? 101) || (u =? 69) then
        let '(neg, s) := stripSign s in
        let '(v, n, rest) := readDigits 10 s 0 0 in
        if (n =? 0) || negb (bool_decide (rest = [])) then None else Some (if neg then - v else v)
      else None
  end.

(** [StrUnsignedDecimalLiteral]. *)
Definition unsignedDecimal (s : jsstr) : double :=
  if bool_decide (s = js "Infinity") then DInf false
  else
    let '(ip, n1, r1) := readDigits 10 s 0 0 in
    let '(mantissa, n2, r2) := match r1 with
                               | u :: r => if u =? 46 then readDigits 10 r ip 0 else (ip, 0, r1)
                               | [] => (ip, 0, r1)
                               end in
    if n1 + n2 =? 0 then DNaN
    else match readExponent r2 with
         | Some e => scaled mantissa (e - n2)
         | None => DNaN
         end.

Definition radixLiteral (radix : Z) (s : jsstr) : double :=
  let '(v, n, rest) := readDigits radix s 0 0 in
  if (n =? 0) || negb (bool_decide (rest = [])) then DNaN else toDouble v 1.

Definition toNumber (s : jsstr) : double :=
  match trim s with
  | [] => DFin 0 0
  | u :: r =>
      let prefixed :=
        match r with
        | x :: d =>
            if negb (u =? 48) then None
            else if (x =? 120) || (x =? 88) then Some (radixLiteral 16 d)
            else if (x =? 111) || (x =? 79) then Some (radixLiteral 8 d)
            else if (x =? 98) || (x =? 66) then Some (radixLiteral 2 d)
            else None
        | [] => None
        end in
      match prefixed with
      | Some v => v
      | None =>
          if u =? 43 then unsignedDecimal r
          else if u =? 45 then negate (unsignedDecimal r)
          else unsignedDecimal (u :: r)
      end
  end.

(** ** [Number.parseInt(s, 16)] *)

(** [None] is NaN. The result is exact; beyond 2^53 the language rounds it,
    which no comparison of the sources can tell apart. *)
Definition parseInt16 (s : jsstr) : option Z :=
  let s := trimStart s in
  let '(neg, s) := stripSign s in
  let s := match s with
           | u :: x :: d => if (u =? 48) && ((x =? 120) || (x =? 88)) then d else s
           | _ => s
           end in
  let '(v, n, _) := readDigits 16 s 0 0 in
  if n =? 0 then None else Some (if neg then - v else v).

(** ** Laws of printing and reading *)

(** A digit character of the radix. *)
Definition isDigit (radix u : Z) : Prop := exists d, 0 <= d < radix /\ u = digitChar d.

Lemma digitVal_digitChar radix d : radix <= 36 -> 0 <= d < radix -> digitVal radix (digitChar d) = Some d.
Proof.
  intros Hr Hd. unfold digitVal, digitChar. destruct (Z.ltb_spec d 10).
  - rewrite (proj2 (Z.leb_le 48 _)), (proj2 (Z.leb_le _ 57)) by lia. simpl.
    replace (48 + d - 48) with d by lia. by rewrite (proj2 (Z.ltb_lt d radix)) by lia.
  - rewrite (proj2 (Z.leb_gt (87 + d) 57)), andb_false_r by lia.
    rewrite (proj2 (Z.leb_le 97 _)), (proj2 (Z.leb_le _ 122)) by lia. simpl.
    replace (87 + d - 87) with d by lia. by rewrite (proj2 (Z.ltb_lt d radix)) by lia.
Qed.

(** Reading the digits of [n] shifts the accumulator and adds [n]. *)
Lemma readDigits_digits radix fuel n tl a c :
  2 <= radix <= 36 -> 0 <= n < 2 ^ Z.of_nat fuel -> (0 < fuel)%nat ->
  exists k, 1 <= k /\
  readDigits radix (digits fuel radix n tl) a c = readDigits radix tl (a * radix ^ k + n) (c + k).
Proof.
  intros Hr. revert n tl. induction fuel as [|fuel IH]; intros n tl Hn Hf; [lia|].
  cbn [digits]. pose proof (Z.mod_pos_bound n radix).
  destruct (Z.ltb_spec n radix) as [Hs|Hs].
  - exists 1. split; [lia|]. cbn [readDigits].
    rewrite digitVal_digitChar, Z.mod_small, Z.pow_1_r by lia. done.
  - rewrite Nat2Z.inj_succ, Z.pow_succ_r in Hn by lia.
    assert (0 <= n / radix < 2 ^ Z.of_nat fuel).
    { split; [apply Z.div_pos; lia|]. apply Z.div_lt_upper_bound; [lia|]. nia. }
    assert (0 < fuel)%nat.
    { destruct fuel; [|lia]. change (2 ^ Z.of_nat 0) with 1 in *.
      assert (1 <= n / radix) by (apply Z.div_le_lower_bound; lia). lia. }
    destruct (IH (n / radix) (digitChar (n mod radix) :: tl)) as (k & Hk & ->); [done..|].
    exists (k + 1). split; [lia|]. cbn [readDigits]. rewrite digitVal_digitChar by lia.
    rewrite Z.pow_add_r, Z.pow_1_r by lia.
    f_equal; [|lia]. pose proof (Z.div_mod n radix). nia.
Qed.

Lemma readDigits_toString radix n tl :
  2 <= radix <= 36 -> 0 <= n ->
  exists k, 1 <= k /\ readDigits radix (toStringRadix radix n ++ tl) 0 0 = readDigits radix tl n k.
Proof.
  intros Hr Hn. unfold toStringRadix. rewrite (proj2 (Z.ltb_ge n 0)) by lia.
  assert (forall fuel m acc, digits fuel radix m acc ++ tl = digits fuel radix m (acc ++ tl)) as ->.
  { induction fuel as [|fuel IH]; intros m acc; cbn [digits]; [done|].
    destruct (m <? radix); [done|]. apply IH. }
  cbn [app].
  destruct (readDigits_digits radix (S (Z.to_nat (Z.log2 n))) n tl 0 0) as (k & Hk & E).
  - done.
  - split; [done|]. pose proof (Z.log2_nonneg n).
    rewrite Nat2Z.inj_succ, Z2Nat.id by lia.
    destruct (Z.eq_dec n 0) as [->|]; [apply Z.pow_pos_nonneg; lia|].
    apply Z.log2_spec. lia.
  - lia.
  - exists k. split; [done|]. by rewrite E.
Qed.

Lemma digits_isDigit radix fuel n acc :
  2 <= radix -> 0 <= n -> Forall (isDigit radix) acc -> Forall (isDigit radix) (digits fuel radix n acc).
Proof.
  intros Hr. revert n acc. induction fuel as [|fuel IH]; intros n acc Hn Ha; cbn [digits]; [done|].
  assert (Forall (isDigit radix) (digitChar (n mod radix) :: acc)).
  { constructor; [|done]. exists (n mod radix). split; [apply Z.mod_pos_bound; lia|done]. }
  destruct (n <? radix); [done|]. apply IH; [apply Z.div_pos; lia|done].
Qed.

Lemma toString_isDigit radix n : 2 <= radix -> 0 <= n -> Forall (isDigit radix) (toStringRadix radix n).
Proof.
  intros. unfold toStringRadix. rewrite (proj2 (Z.ltb_ge n 0)) by lia. by apply digits_isDigit.
Qed.

Lemma toString_nonempty radix n : 0 <= n -> toStringRadix radix n <> [].
Proof.
  intros. unfold toStringRadix. rewrite (proj2 (Z.ltb_ge n 0)) by lia.
  assert (forall fuel m acc, acc <> [] -> digits fuel radix m acc <> []) as Hd.
  { induction fuel as [|fuel IH]; intros m acc Ha; cbn [digits]; [done|].
    destruct (m <? radix); [done|]. by apply IH. }
  cbn [digits]. destruct (n <? radix); [done|]. by apply Hd.
Qed.

Lemma isDigit_range radix u : radix <= 16 -> isDigit radix u -> 48 <= u <= 57 \/ 97 <= u <= 102.
Proof. intros Hr (d & Hd & ->). unfold digitChar. destruct (Z.ltb_spec d 10); lia. Qed.

Lemma dec_no_unit u n : ~ (48 <= u <= 57) -> 0 <= n -> u ∉ dec n.
Proof.
  intros Hu Hn Hin. unfold dec in Hin. pose proof (toString_isDigit 10 n ltac:(lia) Hn) as Hall.
  rewrite Forall_forall in Hall. apply Hall in Hin as (d & Hd & ->). apply Hu.
  unfold digitChar. rewrite (proj2 (Z.ltb_lt d 10)) by lia. lia.
Qed.

Lemma isSpace_digit u : 48 <= u <= 57 \/ 97 <= u <= 102 -> isSpace u = false.
Proof.
  intros Hu. unfold isSpace. repeat rewrite (proj2 (Z.eqb_neq u _)) by lia.
  rewrite (proj2 (Z.leb_gt u 13)), (proj2 (Z.leb_gt 0x2000 u)) by lia. by rewrite andb_false_r.
Qed.

(** [Number.parseInt(n.toString(16), 16)] is [n]. *)
Lemma parseInt16_hex n : 0 <= n -> parseInt16 (hex n) = Some n.
Proof.
  intros Hn. unfold hex.
  pose proof (toString_isDigit 16 n ltac:(lia) Hn) as Hall.
  pose proof (toString_nonempty 16 n Hn) as Hne.
  destruct (readDigits_toString 16 n []) as (k & Hk & Hread); [lia..|]. rewrite app_nil_r in Hread.
  destruct (toStringRadix 16 n) as [|u s]; [done|]. inversion_clear Hall as [|? ? Hu Hs].
  apply isDigit_range in Hu; [|lia]. unfold parseInt16. cbn [trimStart]. rewrite isSpace_digit by done.
  unfold stripSign. rewrite (proj2 (Z.eqb_neq u 45)), (proj2 (Z.eqb_neq u 43)) by lia.
  assert (match u :: s with
          | u :: x :: d => if (u =? 48) && ((x =? 120) || (x =? 88)) then d else u :: s
          | _ => u :: s
          end = u :: s) as ->.
  { destruct s as [|x s]; [done|]. inversion_clear Hs as [|? ? Hx _]. apply isDigit_range in Hx; [|lia].
    rewrite (proj2 (Z.eqb_neq x 120)), (proj2 (Z.eqb_neq x 88)), andb_false_r by lia. done. }
  rewrite Hread. cbn [readDigits]. by rewrite (proj2 (Z.eqb_neq k 0)) by lia.
Qed.

(** ** Evaluated examples *)

(** [Number(n.toString())] is the double of [n]. *)
Lemma trim_digits s : Forall (isDigit 10) s -> trim s = s.
Proof.
  assert (forall s, Forall (isDigit 10) s -> trimStart s = s) as Hstart.
  { intros s' Hs. destruct Hs as [|u s' Hu Hs]; [done|]. cbn [trimStart].
    apply isDigit_range in Hu; [|lia]. by rewrite isSpace_digit. }
  intros Hs. unfold trim. rewrite (Hstart s Hs). rewrite Hstart; [by rewrite reverse_involutive|]. by apply Forall_reverse.
Qed.

Lemma toNumber_dec n : 0 <= n -> toNumber (dec n) = toDouble n 1.
Proof.
  intros Hn. unfold toNumber. pose proof (toString_isDigit 10 n ltac:(lia) Hn) as Hd.
  rewrite trim_digits by done. pose proof (toString_nonempty 10 n Hn) as Hne.
  assert (unsignedDecimal (dec n) = toDouble n 1) as Hu.
  { unfold unsignedDecimal. rewrite bool_decide_eq_false_2.
    - destruct (readDigits_toString 10 n [] ltac:(lia) Hn) as (k & Hk & E). rewrite app_nil_r in E.
      unfold dec. rewrite E. cbn [readDigits]. rewrite (proj2 (Z.eqb_neq (k + 0) 0)) by lia.
      cbn [readExponent]. unfold scaled. cbn. by rewrite Z.mul_1_r.
    - intros E. unfold dec in E. rewrite E in Hd. apply Forall_inv in Hd. apply isDigit_range in Hd; [|lia]. cbn in Hd. lia. }
  unfold dec in *. destruct (toStringRadix 10 n) as [|u r]; [done|].
  apply Forall_cons in Hd as [Hu0 Hr]. apply isDigit_range in Hu0; [|lia].
  rewrite (proj2 (Z.eqb_neq u 43)), (proj2 (Z.eqb_neq u 45)) by lia.
  destruct r as [|x d]; [done|]. apply Forall_cons in Hr as [Hx _].
  assert (48 <= x <= 57) as Hx'.
  { destruct Hx as (dx & Hdx & ->). unfold digitChar. rewrite (proj2 (Z.ltb_lt dx 10)) by lia. lia. }
  repeat rewrite (proj2 (Z.eqb_neq x _)) by lia. by destruct (u =? 48).
Qed.

(** Integers below 2^53 are compared exactly. *)
Lemma toDouble_integer n :
  0 <= n < 2 ^ 53 -> exists e, e <= 0 /\ toDouble n 1 = DFin (n * 2 ^ (- e)) e.
Proof.
  intros Hn. unfold toDouble. destruct (Z.eqb_spec n 0) as [->|Hne]; [by exists 0|].
  assert (0 <= Z.log2 n < 53) as Hl by (split; [apply Z.log2_nonneg|apply Z.log2_lt_pow2; lia]).
  pose proof (Z.log2_spec n ltac:(lia)) as [Hlow _].
  change (Z.log2 1) with 0. rewrite Z.sub_0_r.
  rewrite (Z.max_l 0 (- Z.log2 n)), (Z.max_r 0 (Z.log2 n)) by lia. rewrite Z.mul_1_l, Z.mul_1_r.
  rewrite (proj2 (Z.ltb_ge n (2 ^ Z.log2 n))) by lia.
  rewrite (Z.max_l (Z.log2 n - 52)) by lia. set (e := Z.log2 n - 52).
  rewrite (Z.max_r 0 (- e)), (Z.max_l 0 e) by lia. rewrite Z.pow_0_r, Z.mul_1_l, Z.div_1_r, Z.mod_1_r.
  change (2 * 0 <? 1) with true. cbv iota. exists e. split; [lia|].
  rewrite (proj2 (Z.leb_gt 1024 _)); [done|].
  rewrite Z.log2_mul_pow2 by lia. lia.
Qed.

Lemma dlt_integers m n : 0 <= m < 2 ^ 53 -> 0 <= n < 2 ^ 53 -> dlt (toDouble m 1) (toDouble n 1) = (m <? n).
Proof.
  intros Hm Hn. destruct (toDouble_integer m Hm) as (e & He & ->). destruct (toDouble_integer n Hn) as (e' & He' & ->).
  cbn [dlt]. rewrite <- !Z.mul_assoc, <- !Z.pow_add_r by lia.
  replace (- e + (e - Z.min e e')) with (- Z.min e e') by lia.
  replace (- e' + (e' - Z.min e e')) with (- Z.min e e') by lia.
  assert (0 < 2 ^ (- Z.min e e')) by (apply Z.pow_pos_nonneg; lia).
  destruct (Z.ltb_spec m n) as [H1|H1]; [apply Z.ltb_lt|apply Z.ltb_ge]; nia.
Qed.

Example number_empty : toInteger (toNumber (js "")) = Some 0.
Proof. reflexivity. Qed.
Example number_hex : toInteger (toNumber (js "0xfF")) = Some 255.
Proof. reflexivity. Qed.
Example number_exp : toInteger (toNumber (js " 1.5e1 ")) = Some 15.
Proof. reflexivity. Qed.
Example number_frac : toInteger (toNumber (js "1.5")) = None.
Proof. reflexivity. Qed.
Example number_rounds : toInteger (toNumber (js "0.99999999999999999999")) = Some 1.
Proof. vm_compute. reflexivity. Qed.
Example number_nan : toNumber (js "12a") = DNaN.
Proof. reflexivity. Qed.
Example parseInt_prefix : parseInt16 (js "12zz") = Some 18.
Proof. reflexivity. Qed.
