(* ===== verification/Coap.v ===== *)
(** The CoAP codec of [packages/dgram/src/coap.ts]: [decodeCoapMessage],
    [encodeCoapMessage] and the printers of the log, with the round-trip,
    canonicalisation, sorting and termination theorems. *)
From stdpp Require Import sorting.
From S2P Require Import Prelude Buffer JsString.

Module Coap.

(** ** Data *)

Record CoapOption := mkOption { number : Z; value : list Z }.

Record CoapMessage := mkMessage {
  version : Z;
  type : Z;
  tokenLength : Z;
  code : Z;
  messageId : Z;
  token : list Z;
  options : list CoapOption;
  payload : option (list Z)
}.

#[export] Instance CoapOption_eq_dec : EqDecision CoapOption.
Proof. solve_decision. Defined.
#[export] Instance CoapMessage_eq_dec : EqDecision CoapMessage.
Proof. solve_decision. Defined.

Definition COAP_OPTION_URI_PATH := 11.
Definition COIOT_OPTION_DEVID := 3332.
Definition COIOT_OPTION_VALIDITY := 3412.
Definition COIOT_OPTION_SERIAL := 3420.

(** ** Decoding *)

(** [msg[i]] where the code has checked the index, or uses the value in a bit
    operation only ([undefined] counts as 0 there). *)
Definition byteAt (msg : list Z) (i : Z) : Z := default 0 (at_ msg i).

(** The extended form of an option delta or of an option length: the value and
    the offset behind it. *)
Definition readExtended (msg : list Z) (offset nibble : Z) (truncated reserved : string) : res (Z * Z) :=
  if nibble =? 13 then
    if blen msg <=? offset then throwError truncated
    else Ok (byteAt msg offset + 13, offset + 1)
  else if nibble =? 14 then
    if blen msg <=? offset + 1 then throwError truncated
    else v ← readUInt16BE msg offset; Ok (v + 269, offset + 2)
  else if nibble =? 15 then throwError reserved
  else Ok (nibble, offset).

(** One iteration of the option loop: the option and the offset behind it. *)
Definition decodeOption (msg : list Z) (offset currentOptionNumber : Z) : res (CoapOption * Z) :=
  let optionHeader := byteAt msg offset in
  let offset := offset + 1 in
  '(delta, offset) ← readExtended msg offset (Z.shiftr (Z.land optionHeader 0xf0) 4)
     "Invalid extended option delta" "Reserved option delta value encountered";
  '(length, offset) ← readExtended msg offset (Z.land optionHeader 0x0f)
     "Invalid extended option length" "Reserved option length value encountered";
  let currentOptionNumber := currentOptionNumber + delta in
  if blen msg <? offset + length then throwError "Option length exceeds message length"
  else Ok (mkOption currentOptionNumber (subarray msg offset (offset + length)), offset + length).

(** The option loop: the options read and the offset of what follows them. *)
Fixpoint decodeOptions (fuel : nat) (msg : list Z) (offset currentOptionNumber : Z) : res (list CoapOption * Z) :=
  match fuel with
  | O => Throw Diverged
  | S fuel =>
      if blen msg <=? offset then Ok ([], offset)
      else if byteAt msg offset =? 0xff then Ok ([], offset + 1)
      else
        '(o, offset) ← decodeOption msg offset currentOptionNumber;
        '(rest, offset) ← decodeOptions fuel msg offset (number o);
        Ok (o :: rest, offset)
  end.

Definition decodeCoapMessage (msg : list Z) : res CoapMessage :=
  if blen msg <? 4 then throwError "Message too short to be a valid CoAP message"
  else
    let version := Z.shiftr (Z.land (byteAt msg 0) 0xc0) 6 in
    let type := Z.shiftr (Z.land (byteAt msg 0) 0x30) 4 in
    let tokenLength := Z.land (byteAt msg 0) 0x0f in
    let code := byteAt msg 1 in
    messageId ← readUInt16BE msg 2;
    let offset := 4 in
    '(token, offset) ←
      (if 0 <? tokenLength then
         if blen msg <? offset + tokenLength
         then throwError "Message too short for the token length specified"
         else Ok (subarray msg offset (offset + tokenLength), offset + tokenLength)
       else Ok ([], offset));
    '(options, offset) ← decodeOptions (S (length msg)) msg offset 0;
    let payload := if offset <? blen msg then Some (subarray msg offset (blen msg)) else None in
    Ok (mkMessage version type tokenLength code messageId token options payload).

(** ** Encoding *)

(** [toSorted((a, b) => a.number - b.number)]: a stable sort. *)
Fixpoint insertOption (o : CoapOption) (l : list CoapOption) : list CoapOption :=
  match l with
  | [] => [o]
  | o' :: l' => if number o <=? number o' then o :: l else o' :: insertOption o l'
  end.

Definition toSorted (l : list CoapOption) : list CoapOption := foldr insertOption [] l.

(** Nibble and extended field of an option delta or of an option length. *)
Definition extendedField (n : Z) : res (Z * list Z) :=
  if n <? 13 then Ok (n, [])
  else if n <? 269 then Ok (13, [toUint8 (n - 13)])
  else ext ← writeUInt16BE (alloc 2) (n - 269) 0; Ok (14, ext).

Definition encodeOption (previousOptionNumber : Z) (o : CoapOption) : res (list Z) :=
  '(deltaNibble, deltaExtended) ← extendedField (number o - previousOptionNumber);
  '(lengthNibble, lengthExtended) ← extendedField (blen (value o));
  let optionHeader := toUint8 (Z.lor (Z.shiftl deltaNibble 4) (Z.land lengthNibble 0x0f)) in
  Ok ([optionHeader] ++ deltaExtended ++ lengthExtended ++ value o).

Fixpoint encodeOptions (previousOptionNumber : Z) (l : list CoapOption) : res (list Z) :=
  match l with
  | [] => Ok []
  | o :: l => part ← encodeOption previousOptionNumber o; parts ← encodeOptions (number o) l; Ok (part ++ parts)
  end.

Definition encodeCoapMessage (msg : CoapMessage) : res (list Z) :=
  let tokenLength := blen (token msg) in
  if 8 <? tokenLength then throwError "Token length cannot exceed 8 bytes"
  else
    let header := alloc 4 in
    let header := store header 0 (toUint8 (Z.lor (Z.lor (Z.shiftl (Z.land (version msg) 0x03) 6)
                                                        (Z.shiftl (Z.land (type msg) 0x03) 4))
                                                 (Z.land tokenLength 0x0f))) in
    let header := store header 1 (toUint8 (code msg)) in
    header ← writeUInt16BE header (messageId msg) 2;
    parts ← encodeOptions 0 (toSorted (options msg));
    let payload := match payload msg with
                   | Some (b :: p) => 0xff :: b :: p
                   | _ => []
                   end in
    Ok (header ++ token msg ++ parts ++ payload).

(** The message [sendRequest] encodes and sends. [payload] is the text
    [JSON.stringify] gives; an absent or empty token is falsy. *)
Definition requestMessage (messageId : Z) (options : list CoapOption) (payload token : option jsstr) : CoapMessage :=
  let tokenBytes := match token with Some (u :: t) => utf8_encode (u :: t) | _ => [] end in
  mkMessage 1 1 (blen tokenBytes) 1 messageId tokenBytes options (utf8_encode <$> payload).

Definition sendRequest (messageId : Z) (options : list CoapOption) (payload token : option jsstr) : res (list Z) :=
  encodeCoapMessage (requestMessage messageId options payload token).

(** ** Printers of the log *)

Definition coapTypeToString (t : Z) : jsstr :=
  if t =? 0 then js "Confirmable (CON)"
  else if t =? 1 then js "Non-confirmable (NON)"
  else if t =? 2 then js "Acknowledgement (ACK)"
  else if t =? 3 then js "Reset (RST)"
  else js "Unknown Type (" ++ dec t ++ js ")".

(** Class (3 bits) and two-digit detail (5 bits) of a code. *)
Definition coapCodeToString (c : Z) : jsstr :=
  let cls := Z.shiftr c 5 in
  let detail := Z.land c 0x1f in
  dec cls ++ js "." ++ padStart 2 48 (dec detail).

(** Seconds of a CoIoT validity option: the low bit selects the scale. *)
Definition validFor (validity : Z) : Z :=
  if Z.land validity 1 =? 0 then validity / 10 else validity * 4.

(** ** Stable sorting *)

Definition number_le (a b : CoapOption) : Prop := number a <= number b.

#[export] Instance number_le_dec : RelDecision number_le.
Proof. intros a b. apply Z_le_dec. Defined.

Lemma insertOption_perm o l : insertOption o l ≡ₚ o :: l.
Proof.
  induction l as [|o' l IH]; simpl; [done|].
  destruct (number o <=? number o'); [done|]. rewrite IH. apply Permutation_swap.
Qed.

Lemma toSorted_perm l : toSorted l ≡ₚ l.
Proof. induction l; simpl; [done|]. rewrite insertOption_perm. by f_equiv. Qed.

Lemma insertOption_sorted o l :
  StronglySorted number_le l -> StronglySorted number_le (insertOption o l).
Proof.
  induction 1 as [|o' l Hs IH Hall]; simpl; [repeat constructor|].
  destruct (Z.leb_spec (number o) (number o')).
  - constructor; [by constructor|]. constructor; [done|].
    eapply Forall_impl; [exact Hall|]. unfold number_le. intros; simpl in *; lia.
  - constructor; [done|]. rewrite insertOption_perm. constructor; [|done].
    unfold number_le. lia.
Qed.

Lemma toSorted_sorted l : StronglySorted number_le (toSorted l).
Proof. induction l; simpl; [constructor|]. by apply insertOption_sorted. Qed.

(** Options with the same number keep their order. *)
Lemma insertOption_filter n o l :
  filter (fun o' => number o' = n) (insertOption o l) =
  filter (fun o' => number o' = n) (o :: l).
Proof.
  induction l as [|o' l IH]; [done|]. simpl insertOption.
  destruct (Z.leb_spec (number o) (number o')); [done|].
  rewrite filter_cons, IH, !filter_cons. repeat case_decide; done || lia.
Qed.

Lemma toSorted_stable n l :
  filter (fun o => number o = n) (toSorted l) = filter (fun o => number o = n) l.
Proof.
  induction l as [|o l IH]; [done|]. simpl toSorted.
  by rewrite insertOption_filter, !filter_cons, IH.
Qed.

(** Sorting a sorted list changes nothing. *)
Lemma toSorted_id l : StronglySorted number_le l -> toSorted l = l.
Proof.
  induction 1 as [|o l Hs IH Hall]; simpl; [done|]. rewrite IH.
  destruct Hall as [|o' l Ho]; simpl; [done|].
  destruct (Z.leb_spec (number o) (number o')); [done|]. unfold number_le in Ho. lia.
Qed.

(** ** Extended fields *)

Lemma writeUInt16BE_2 v :
  writeUInt16BE (alloc 2) v 0 = if (v <? 0) || (65535 <? v) then Throw RangeError else Ok (be16 v).
Proof. unfold writeUInt16BE. by destruct (_ || _). Qed.

Lemma byteAt_app pre x post : byteAt (pre ++ x :: post) (blen pre) = x.
Proof. unfold byteAt. by rewrite at_here. Qed.

Lemma extendedField_range n :
  0 <= n <= 65804 <-> 0 <= n /\ is_Ok (extendedField n).
Proof.
  unfold extendedField, is_Ok. rewrite writeUInt16BE_2. split.
  - intros Hn. split; [lia|]. zcase; simpl; eauto; lia.
  - intros [Hn [r Hr]]. revert Hr. zcase; simpl; done || lia.
Qed.

(** What the encoder writes for a delta or a length is what the decoder reads. *)
Lemma extendedField_read n nib ext :
  0 <= n -> extendedField n = Ok (nib, ext) ->
  0 <= nib <= 14 /\
  forall pre post e1 e2,
    readExtended (pre ++ ext ++ post) (blen pre) nib e1 e2 = Ok (n, blen pre + blen ext).
Proof.
  intros Hn. unfold extendedField. rewrite writeUInt16BE_2.
  destruct (Z.ltb_spec n 13); [|destruct (Z.ltb_spec n 269)].
  - intros [= <- <-]. split; [lia|]. intros. unfold readExtended.
    rewrite !(proj2 (Z.eqb_neq n _)) by lia. rewrite blen_nil. do 2 f_equal. lia.
  - intros [= <- <-]. split; [lia|]. intros. unfold readExtended. simpl Z.eqb. cbv iota.
    destruct (Z.leb_spec (blen (pre ++ [toUint8 (n - 13)] ++ post)) (blen pre)); [blen_lia|].
    simpl app. rewrite byteAt_app, toUint8_small by lia. do 2 f_equal. lia.
  - destruct ((n - 269 <? 0) || (65535 <? n - 269)) eqn:E; [done|].
    intros [= <- <-]. split; [lia|]. intros. unfold readExtended. simpl Z.eqb. cbv iota.
    destruct (Z.leb_spec (blen (pre ++ be16 (n - 269) ++ post)) (blen pre + 1)); [blen_lia|].
    rewrite readUInt16BE_app. simpl. do 2 f_equal. lia.
Qed.

(** ** Options *)

(** The header byte of an option: its nibbles, and that it is never the payload
    marker. *)
Lemma optionHeader_fields d l :
  0 <= d <= 14 -> 0 <= l <= 14 ->
  let h := toUint8 (Z.lor (Z.shiftl d 4) (Z.land l 0x0f)) in
  Z.shiftr (Z.land h 0xf0) 4 = d /\ Z.land h 0x0f = l /\ h <> 0xff.
Proof.
  intros Hd Hl h.
  assert (h = d * 16 + l) as ->.
  { subst h. rewrite (field_low l 15 4), lor_shiftl_add by (done || (Z.div_mod_to_equations; lia)).
    rewrite toUint8_small; change (2 ^ 4) with 16; [rewrite Z.mod_small; lia|].
    rewrite Z.mod_small; lia. }
  rewrite (field_extract _ 0xf0 4 4), (field_low _ 15 4) by done.
  change (2 ^ 4) with 16. split; [|split]; [Z.div_mod_to_equations; lia..|lia].
Qed.

Lemma encodeOption_read prev o part :
  0 <= prev <= number o -> encodeOption prev o = Ok part ->
  exists h t, part = h :: t /\ h <> 0xff /\
  forall pre post,
    decodeOption (pre ++ part ++ post) (blen pre) prev = Ok (o, blen pre + blen part).
Proof.
  intros Hprev. unfold encodeOption.
  destruct (extendedField (number o - prev)) as [[dn de]|] eqn:Ed; [|done].
  destruct (extendedField (blen (value o))) as [[ln le]|] eqn:El; [|done].
  intros [= <-]. apply extendedField_read in Ed as [Hdn Hde]; [|lia].
  apply extendedField_read in El as [Hln Hle]; [|apply blen_nonneg].
  destruct (optionHeader_fields dn ln Hdn Hln) as (Hh1 & Hh2 & Hh3).
  set (h := toUint8 _) in *. exists h, (de ++ le ++ value o).
  split; [done|]. split; [done|]. intros pre post. unfold decodeOption.
  replace (pre ++ (h :: de ++ le ++ value o) ++ post)
    with ((pre ++ [h]) ++ de ++ (le ++ value o ++ post)) by list_norm.
  replace (byteAt _ (blen pre)) with h
    by (rewrite <- !app_assoc; simpl; by rewrite byteAt_app).
  replace (blen pre + 1) with (blen (pre ++ [h])) by blen_lia.
  rewrite Hh1, Hh2, Hde. cbn [mbind res_bind].
  rewrite <- blen_app, (app_assoc _ de), Hle. cbn [mbind res_bind].
  rewrite <- (blen_app _ le), (app_assoc _ le).
  rewrite (proj2 (Z.ltb_ge _ _)) by blen_lia.
  rewrite subarray_app by done.
  replace (prev + (number o - prev)) with (number o) by lia.
  do 2 f_equal; [by destruct o|]. by blen_lia.
Qed.

Lemma encodeOptions_read l prev parts :
  0 <= prev -> StronglySorted number_le l -> Forall (fun o => prev <= number o) l ->
  encodeOptions prev l = Ok parts ->
  (length l <= length parts)%nat /\
  forall fuel pre post, (length l < fuel)%nat -> (post = [] \/ exists p, post = 0xff :: p) ->
    decodeOptions fuel (pre ++ parts ++ post) (blen pre) prev =
    Ok (l, blen pre + blen parts + (if decide (post = []) then 0 else 1)).
Proof.
  revert prev parts. induction l as [|o l IH]; intros prev parts Hp Hs Hall.
  - intros [= <-]. split; [done|]. intros [|fuel] pre post Hf Hpost; [simpl in Hf; lia|].
    cbn [decodeOptions app]. destruct Hpost as [->|[p ->]].
    + rewrite app_nil_r, (proj2 (Z.leb_le _ _)), blen_nil by lia. simpl. do 2 f_equal. lia.
    + rewrite (proj2 (Z.leb_gt _ _)), byteAt_app by blen_lia. simpl. do 2 f_equal.
      rewrite blen_nil. lia.
  - cbn [encodeOptions]. inversion_clear Hall as [|? ? Ho Hrest].
    inversion_clear Hs as [|? ? Hs' Hle].
    destruct (encodeOption prev o) as [part|] eqn:Eo; [|done]. cbn [mbind res_bind].
    destruct (encodeOptions (number o) l) as [parts'|] eqn:El; [|done]. intros [= <-].
    apply IH in El as [Hlen IHl]; [|lia|done|done].
    apply encodeOption_read in Eo as (h & t & Hpart & Hh & Hdec); [|lia].
    split; [subst part; simpl; rewrite length_app; lia|].
    intros [|fuel] pre post Hf Hpost; [simpl in Hf; lia|]. cbn [decodeOptions].
    rewrite (proj2 (Z.leb_gt _ _)) by (subst part; blen_lia).
    replace (byteAt _ (blen pre)) with h
      by (subst part; rewrite <- !app_assoc; simpl; by rewrite byteAt_app).
    rewrite (proj2 (Z.eqb_neq h 0xff)) by done.
    rewrite <- (app_assoc part), Hdec. cbn [mbind res_bind].
    rewrite <- blen_app, (app_assoc pre), IHl by (done || simpl in Hf; lia). simpl.
    do 2 f_equal. blen_lia.
Qed.

(** ** The fixed header *)

(** The first header byte from a version, a type and a token length. *)
Definition firstByte (v t l : Z) : Z :=
  toUint8 (Z.lor (Z.lor (Z.shiftl (Z.land v 0x03) 6) (Z.shiftl (Z.land t 0x03) 4)) (Z.land l 0x0f)).

Lemma firstByte_sum v t l : 0 <= l < 16 -> firstByte v t l = v mod 4 * 64 + t mod 4 * 16 + l.
Proof.
  intros Hl. unfold firstByte.
  rewrite (field_low v 3 2), (field_low t 3 2), (field_low l 15 4) by done.
  change (2 ^ 2) with 4. change (2 ^ 4) with 16. rewrite (Z.mod_small l 16) by lia.
  pose proof (Z.mod_pos_bound v 4). pose proof (Z.mod_pos_bound t 4).
  rewrite <- Z.lor_assoc, (lor_shiftl_add (t mod 4)), lor_shiftl_add; simpl Z.pow; try lia.
  rewrite toUint8_small; lia.
Qed.

Lemma firstByte_fields v t l :
  0 <= l < 16 ->
  let h := firstByte v t l in
  Z.shiftr (Z.land h 0xc0) 6 = v mod 4 /\ Z.shiftr (Z.land h 0x30) 4 = t mod 4 /\ Z.land h 0x0f = l.
Proof.
  intros Hl h. subst h. rewrite firstByte_sum by done.
  rewrite (field_extract _ 0xc0 6 2), (field_extract _ 0x30 4 2), (field_low _ 15 4) by done.
  simpl Z.pow. pose proof (Z.mod_pos_bound v 4). pose proof (Z.mod_pos_bound t 4).
  generalize dependent (v mod 4). generalize dependent (t mod 4). intros.
  split; [|split]; Z.div_mod_to_equations; lia.
Qed.

(** Every byte is the first byte made of its own fields. *)
Lemma firstByte_refold h :
  0 <= h < 256 ->
  firstByte (Z.shiftr (Z.land h 0xc0) 6) (Z.shiftr (Z.land h 0x30) 4) (Z.land h 0x0f) = h.
Proof.
  intros Hh. rewrite (field_extract _ 0xc0 6 2), (field_extract _ 0x30 4 2), (field_low _ 15 4) by done.
  simpl Z.pow. rewrite firstByte_sum by (Z.div_mod_to_equations; lia).
  Z.div_mod_to_equations. lia.
Qed.

Lemma writeHeader h c id :
  writeUInt16BE (store (store (alloc 4) 0 h) 1 c) id 2 =
  if (id <? 0) || (65535 <? id) then Throw RangeError else Ok (h :: c :: be16 id).
Proof. unfold writeUInt16BE. by destruct (_ || _). Qed.

(** ** Encoding, then decoding *)

(** What a message keeps of itself on the wire. *)
Definition normalize (m : CoapMessage) : CoapMessage :=
  mkMessage (version m mod 4) (type m mod 4) (blen (token m)) (toUint8 (code m)) (messageId m)
    (token m) (toSorted (options m)) (match payload m with Some [] => None | p => p end).

Definition payloadBytes (m : CoapMessage) : list Z :=
  match payload m with Some (b :: p) => 0xff :: b :: p | _ => [] end.

Lemma encodeCoapMessage_shape m b :
  encodeCoapMessage m = Ok b ->
  blen (token m) <= 8 /\ exists parts, encodeOptions 0 (toSorted (options m)) = Ok parts /\
  b = firstByte (version m) (type m) (blen (token m)) :: toUint8 (code m) ::
      be16 (messageId m) ++ token m ++ parts ++ payloadBytes m.
Proof.
  unfold encodeCoapMessage. rewrite writeHeader.
  destruct (Z.ltb_spec 8 (blen (token m))); [done|].
  destruct (_ || _); [done|]. cbn [mbind res_bind].
  destruct (encodeOptions _ _) as [parts|] eqn:E; [|done]. intros [= <-].
  split; [lia|]. by exists parts.
Qed.

Lemma readUInt16BE_at2 x y v post : readUInt16BE (x :: y :: be16 v ++ post) 2 = Ok v.
Proof. apply (readUInt16BE_app [x; y]). Qed.

Lemma decode_token h c id tok rest :
  let msg := h :: c :: be16 id ++ tok ++ rest in
  (if 0 <? blen tok then
     if blen msg <? 4 + blen tok then throwError "Message too short for the token length specified"
     else Ok (subarray msg 4 (4 + blen tok), 4 + blen tok)
   else Ok ([], 4)) = Ok (tok, 4 + blen tok).
Proof.
  intros msg. destruct (Z.ltb_spec 0 (blen tok)).
  - rewrite (proj2 (Z.ltb_ge _ _)) by (subst msg; blen_lia).
    do 2 f_equal. by apply (subarray_app (h :: c :: be16 id)).
  - rewrite (blen_zero_inv tok) by blen_lia. done.
Qed.

Lemma encode_then_decode m b :
  Forall (fun o => 0 <= number o) (options m) ->
  encodeCoapMessage m = Ok b -> decodeCoapMessage b = Ok (normalize m).
Proof.
  intros Hnum [Htok (parts & Hparts & ->)]%encodeCoapMessage_shape.
  apply encodeOptions_read in Hparts as [Hlen Hread];
    [|lia|apply toSorted_sorted|by rewrite toSorted_perm].
  destruct (firstByte_fields (version m) (type m) (blen (token m))) as (Hv & Ht & Hl).
  { pose proof (blen_nonneg (token m)). lia. }
  unfold decodeCoapMessage.
  set (h := firstByte _ _ _) in *. set (c := toUint8 _).
  rewrite (proj2 (Z.ltb_ge (blen _) 4)) by blen_lia.
  change (byteAt (h :: _) 0) with h. change (byteAt (h :: c :: _) 1) with c.
  rewrite readUInt16BE_at2, Hl. cbn [mbind res_bind]. rewrite decode_token. cbn [mbind res_bind].
  pose (pre := h :: c :: be16 (messageId m) ++ token m).
  replace (4 + blen (token m)) with (blen pre) by (subst pre; blen_lia).
  replace (h :: c :: be16 (messageId m) ++ token m ++ parts ++ payloadBytes m)
    with (pre ++ parts ++ payloadBytes m) by (subst pre; list_norm).
  rewrite Hread; [|subst pre; simpl; rewrite !length_app; lia|
    unfold payloadBytes; destruct (payload m) as [[|x p]|]; eauto].
  cbn [mbind res_bind]. rewrite Hv, Ht. unfold normalize, payloadBytes. do 2 f_equal.
  clearbody pre. destruct (payload m) as [[|x p]|]; simpl; rewrite ?app_nil_r.
  1,3: by rewrite (proj2 (Z.ltb_ge _ _)) by blen_lia.
  rewrite (proj2 (Z.ltb_lt _ _)) by blen_lia. f_equal.
  replace (pre ++ parts ++ 255 :: x :: p) with ((pre ++ parts ++ [255]) ++ x :: p) by list_norm.
  replace (blen pre + blen parts + 1) with (blen (pre ++ parts ++ [255])) by blen_lia.
  apply subarray_to_end.
Qed.

(** C2: every message with non-negative option numbers that the encoder accepts
    is read back by the decoder: the fields reduced to their widths, the options
    in ascending (stable) order, and an empty payload as no payload. *)
Theorem encode_decode_roundtrip m b :
  Forall (fun o => 0 <= number o) (options m) ->
  encodeCoapMessage m = Ok b -> decodeCoapMessage b = Ok (normalize m).
Proof. apply encode_then_decode. Qed.

(** ** Decoding, then encoding *)

Lemma readExtended_written a r nib e1 e2 n off :
  bytes_ok r -> 0 <= nib <= 15 -> readExtended (a ++ r) (blen a) nib e1 e2 = Ok (n, off) ->
  nib <= 14 /\ 0 <= n /\
  exists ext r', r = ext ++ r' /\ extendedField n = Ok (nib, ext) /\ off = blen (a ++ ext).
Proof.
  intros Hr Hnib. unfold readExtended.
  destruct (Z.eqb_spec nib 13) as [->|H13]; [|destruct (Z.eqb_spec nib 14) as [->|H14]].
  - destruct r as [|x r]; [by rewrite app_nil_r, (proj2 (Z.leb_le _ _)) by lia|].
    rewrite (proj2 (Z.leb_gt _ _)), byteAt_app by blen_lia. intros [= <- <-].
    inversion_clear Hr. split; [lia|]. split; [lia|]. exists [x], r. split; [done|].
    split; [|blen_lia]. unfold extendedField. zcase; try lia.
    rewrite toUint8_small by lia. do 4 f_equal. lia.
  - destruct (Z.leb_spec (blen (a ++ r)) (blen a + 1)); [done|].
    destruct r as [|x [|y r]]; [blen_lia..|].
    inversion_clear Hr as [|? ? Hx Hr']. inversion_clear Hr' as [|? ? Hy Hr''].
    unfold readUInt16BE. rewrite at_here, at_app by lia. cbn. intros [= <- <-].
    split; [lia|]. split; [lia|]. exists [x; y], r. split; [done|].
    split; [|blen_lia]. unfold extendedField. rewrite writeUInt16BE_2.
    zcase; try lia. cbn. do 2 f_equal. unfold be16.
    replace (x * 256 + y + 269 - 269) with (y + x * 256) by lia.
    rewrite Z.div_add, Z.mod_add, Z.div_small, Z.mod_small by lia. f_equal.
  - destruct (Z.eqb_spec nib 15); [done|]. intros [= <- <-]. split; [lia|]. split; [lia|].
    exists [], r. split; [done|]. rewrite app_nil_r. split; [|done].
    unfold extendedField. by rewrite (proj2 (Z.ltb_lt nib 13)) by lia.
Qed.

Lemma optionHeader_refold h :
  0 <= h < 256 ->
  toUint8 (Z.lor (Z.shiftl (Z.shiftr (Z.land h 0xf0) 4) 4) (Z.land (Z.land h 0x0f) 0x0f)) = h.
Proof.
  intros Hh. rewrite <- Z.land_assoc. change (Z.land 15 15) with 15.
  rewrite (field_extract _ 0xf0 4 4), (field_low _ 15 4) by done. simpl Z.pow.
  rewrite lor_shiftl_add; simpl Z.pow; try (Z.div_mod_to_equations; lia).
  rewrite toUint8_small; Z.div_mod_to_equations; lia.
Qed.

Lemma decodeOption_written a h r cur o off :
  bytes_ok (h :: r) -> decodeOption (a ++ h :: r) (blen a) cur = Ok (o, off) ->
  cur <= number o /\
  exists part r', h :: r = part ++ r' /\ encodeOption cur o = Ok part /\ off = blen (a ++ part).
Proof.
  intros Hb. inversion_clear Hb as [|? ? Hh Hr]. unfold decodeOption. rewrite byteAt_app.
  replace (a ++ h :: r) with ((a ++ [h]) ++ r) by list_norm.
  replace (blen a + 1) with (blen (a ++ [h])) by blen_lia.
  destruct (readExtended _ _ _ _ _) as [[delta off1]|] eqn:Ed; [|done]. cbn [mbind res_bind].
  apply readExtended_written in Ed as (Hn1 & Hdelta & ext1 & r1 & -> & Hf1 & ->); [|done|].
  2: { rewrite (field_extract _ 0xf0 4 4) by done. Z.div_mod_to_equations; lia. }
  rewrite app_assoc. apply Forall_app in Hr as [_ Hr].
  destruct (readExtended _ _ _ _ _) as [[len off2]|] eqn:El; [|done]. cbn [mbind res_bind].
  apply readExtended_written in El as (Hn2 & Hlen & ext2 & r2 & -> & Hf2 & ->); [|done|].
  2: { rewrite (field_low _ 15 4) by done. Z.div_mod_to_equations; lia. }
  rewrite app_assoc. set (pre := ((a ++ [h]) ++ ext1) ++ ext2).
  destruct (Z.ltb_spec (blen (pre ++ r2)) (blen pre + len)); [done|]. intros [= <- <-].
  simpl number. split; [lia|].
  destruct (subarray_split r2 0 len) as (x & c & Hsp & Hx & Hl); [lia|blen_lia|].
  apply blen_zero_inv in Hx as ->. simpl in Hsp. set (v := subarray r2 0 len) in *.
  assert (subarray (pre ++ r2) (blen pre) (blen pre + len) = v) as ->.
  { rewrite Hsp. apply subarray_app. lia. }
  exists (h :: ext1 ++ ext2 ++ v), c. split; [rewrite Hsp; list_norm|].
  split; [|subst pre; blen_lia].
  unfold encodeOption. simpl number. simpl value. replace (cur + delta - cur) with delta by lia.
  rewrite Hf1. replace (blen v) with len by lia. rewrite Hf2. cbn [mbind res_bind].
  by rewrite optionHeader_refold.
Qed.

Lemma decodeOptions_written fuel a r cur l off :
  bytes_ok r -> decodeOptions fuel (a ++ r) (blen a) cur = Ok (l, off) ->
  StronglySorted number_le l /\ Forall (fun o => cur <= number o) l /\
  exists parts r', r = parts ++ r' /\ encodeOptions cur l = Ok parts /\
    ((r' = [] /\ off = blen (a ++ parts)) \/ exists p, r' = 0xff :: p /\ off = blen (a ++ parts) + 1).
Proof.
  revert a r cur l off. induction fuel as [|fuel IH]; intros a r cur l off Hr; [done|].
  cbn [decodeOptions]. destruct r as [|h r].
  { rewrite app_nil_r, (proj2 (Z.leb_le _ _)) by lia. intros [= <- <-].
    split; [constructor|]. split; [constructor|]. exists [], [].
    split; [done|]. split; [done|]. left. split; [done|]. by rewrite app_nil_r. }
  rewrite (proj2 (Z.leb_gt _ _)), byteAt_app by blen_lia.
  destruct (Z.eqb_spec h 0xff) as [->|Hh].
  { intros [= <- <-]. split; [constructor|]. split; [constructor|]. exists [], (0xff :: r).
    split; [done|]. split; [done|]. right. exists r. split; [done|]. by rewrite app_nil_r. }
  destruct (decodeOption _ _ _) as [[o off1]|] eqn:Eo; [|done]. cbn [mbind res_bind].
  apply decodeOption_written in Eo as (Hcur & part & r1 & Heq & Henc & ->); [|done].
  rewrite Heq in *. apply Forall_app in Hr as [_ Hr]. rewrite app_assoc.
  destruct (decodeOptions _ _ _ _) as [[l1 off2]|] eqn:El; [|done]. cbn [mbind res_bind].
  intros [= <- <-]. apply IH in El as (Hs & Hall & parts & r2 & -> & Hencs & Hoff); [|done].
  split; [by constructor|]. split.
  { constructor; [done|]. eapply Forall_impl; [exact Hall|]. simpl; lia. }
  exists (part ++ parts), r2. split; [list_norm|]. cbn [encodeOptions].
  rewrite Henc, Hencs. split; [done|]. by rewrite !app_assoc.
Qed.

Lemma header_split b :
  4 <= blen b -> bytes_ok b ->
  exists h c id r, b = h :: c :: be16 id ++ r /\ 0 <= h < 256 /\ 0 <= c < 256 /\ 0 <= id < 65536 /\ bytes_ok r.
Proof.
  intros Hl Hb. destruct b as [|h [|c [|x [|y r]]]]; [blen_lia..|].
  unfold bytes_ok in *. rewrite !Forall_cons in Hb. destruct Hb as (? & ? & ? & ? & ?).
  exists h, c, (x * 256 + y), r. split; [|repeat split; try done; lia].
  unfold be16. simpl. replace (x * 256 + y) with (y + x * 256) by lia.
  rewrite Z.div_add, Z.mod_add, Z.div_small, Z.mod_small by lia. done.
Qed.

Lemma decode_token_written h c id r tl tok off :
  0 <= tl ->
  (if 0 <? tl then
     if blen (h :: c :: be16 id ++ r) <? 4 + tl
     then throwError "Message too short for the token length specified"
     else Ok (subarray (h :: c :: be16 id ++ r) 4 (4 + tl), 4 + tl)
   else Ok ([], 4)) = Ok (tok, off) ->
  exists r1, r = tok ++ r1 /\ blen tok = tl /\ off = blen (h :: c :: be16 id ++ tok).
Proof.
  intros Htl. destruct (Z.ltb_spec 0 tl).
  - destruct (Z.ltb_spec (blen (h :: c :: be16 id ++ r)) (4 + tl)); [done|]. intros [= <- <-].
    destruct (subarray_split r 0 tl) as (x & r1 & Hsp & Hx & Hl); [lia|blen_lia|].
    apply blen_zero_inv in Hx as ->. simpl in Hsp.
    replace (subarray _ _ _) with (subarray r 0 tl).
    + exists r1. split; [done|]. split; [lia|blen_lia].
    + symmetry. rewrite Hsp at 1. apply (subarray_app (h :: c :: be16 id)). rewrite Hl.
      blen_lia.
  - intros [= <- <-]. exists r. split; [done|]. split; [rewrite blen_nil; lia|blen_lia].
Qed.

(** The parts of a message that decodes. *)
Lemma decodeCoapMessage_shape b m :
  bytes_ok b -> decodeCoapMessage b = Ok m ->
  exists h parts tail, b = h :: code m :: be16 (messageId m) ++ token m ++ parts ++ tail /\
  0 <= h < 256 /\ 0 <= code m < 256 /\ 0 <= messageId m < 65536 /\
  h = firstByte (version m) (type m) (tokenLength m) /\ 0 <= version m < 4 /\ 0 <= type m < 4 /\
  blen (token m) = tokenLength m /\ 0 <= tokenLength m < 16 /\
  StronglySorted number_le (options m) /\ Forall (fun o => 0 <= number o) (options m) /\
  encodeOptions 0 (options m) = Ok parts /\
  match payload m with
  | Some p => p <> [] /\ tail = 0xff :: p
  | None => tail = [] \/ tail = [0xff]
  end.
Proof.
  intros Hb. unfold decodeCoapMessage. destruct (Z.ltb_spec (blen b) 4); [done|].
  apply header_split in Hb as (h & c & id & r & -> & Hh & Hc & Hid & Hr); [|done].
  change (byteAt (h :: _) 0) with h. change (byteAt (h :: c :: _) 1) with c.
  rewrite readUInt16BE_at2. cbn [mbind res_bind].
  pose proof (firstByte_refold h Hh) as Hre.
  assert (0 <= Z.land h 15 < 16) as Htl.
  { rewrite (field_low _ 15 4) by done. apply Z.mod_pos_bound. lia. }
  assert (0 <= Z.shiftr (Z.land h 192) 6 < 4) as Hver.
  { rewrite (field_extract _ 0xc0 6 2) by done. apply Z.mod_pos_bound. lia. }
  assert (0 <= Z.shiftr (Z.land h 48) 4 < 4) as Hty.
  { rewrite (field_extract _ 0x30 4 2) by done. apply Z.mod_pos_bound. lia. }
  set (tl := Z.land h 15) in *. set (ver := Z.shiftr (Z.land h 192) 6) in *.
  set (ty := Z.shiftr (Z.land h 48) 4) in *. clearbody tl ver ty.
  destruct (if 0 <? tl then _ else _) as [[tok off]|] eqn:Etok; [|done].
  apply decode_token_written in Etok as (r1 & -> & Htok & ->); [|lia]. cbn [mbind res_bind].
  apply Forall_app in Hr as [_ Hr]. change (h :: c :: be16 id ++ tok ++ r1) with ((h :: c :: be16 id ++ tok) ++ r1).
  remember (h :: c :: be16 id ++ tok) as pre eqn:Hpre.
  destruct (decodeOptions _ _ _ _) as [[l off]|] eqn:El; [|done]. cbn [mbind res_bind].
  apply decodeOptions_written in El as (Hs & Hall & parts & tail & -> & Henc & Hoff); [|done].
  intros [= <-]. exists h, parts, tail.
  cbn [version type tokenLength code messageId token options payload].
  split; [subst pre; list_norm|]. repeat (split; [done|]).
  clear Hpre. destruct Hoff as [[-> ->]|(p & -> & ->)].
  - rewrite app_nil_r, (proj2 (Z.ltb_ge _ _)) by blen_lia. auto.
  - destruct p as [|x p].
    + rewrite (proj2 (Z.ltb_ge _ _)) by blen_lia. auto.
    + rewrite (proj2 (Z.ltb_lt _ _)) by blen_lia.
      replace (pre ++ parts ++ 255 :: x :: p) with ((pre ++ parts ++ [255]) ++ x :: p) by list_norm.
      replace (blen (pre ++ parts) + 1) with (blen (pre ++ parts ++ [255])) by blen_lia.
      by rewrite subarray_to_end.
Qed.

(** C3: the encoder inverts the decoder. A buffer of bytes that decodes, with a
    token of at most eight bytes, is what the encoder writes for the decoded
    message, up to a payload marker that no payload follows. *)
Theorem decode_encode_roundtrip b m :
  bytes_ok b -> decodeCoapMessage b = Ok m -> tokenLength m <= 8 ->
  exists b', encodeCoapMessage m = Ok b' /\ (b = b' \/ b = b' ++ [0xff]).
Proof.
  intros Hb (h & parts & tail & -> & Hh & Hc & Hid & Hfirst & _ & _ & Htok & Htl & Hs & _ & Henc & Hp)%decodeCoapMessage_shape Hle;
    [|done].
  unfold encodeCoapMessage. rewrite writeHeader, Htok, (toUint8_small (code m)) by done.
  rewrite (proj2 (Z.ltb_ge 8 _)), (proj2 (Z.ltb_ge (messageId m) 0)), (proj2 (Z.ltb_ge 65535 _)) by lia.
  cbn [orb mbind res_bind]. rewrite toSorted_id, Henc by done. cbn [mbind res_bind].
  eexists. split; [done|]. unfold firstByte in Hfirst. rewrite <- Hfirst.
  destruct (payload m) as [[|x p]|].
  - by destruct Hp.
  - destruct Hp as [_ ->]. left. list_norm.
  - destruct Hp as [->| ->]; [left|right]; rewrite ?app_nil_r; list_norm.
Qed.

(** ** Totality of the decoder *)

Definition decodeErrors : list string :=
  [ "Message too short to be a valid CoAP message"; "Message too short for the token length specified";
    "Invalid extended option delta"; "Reserved option delta value encountered";
    "Invalid extended option length"; "Reserved option length value encountered";
    "Option length exceeds message length" ]%string.

(** A computation gives a value with a property, or one of the errors above. *)
Definition okOr {A} (P : A -> Prop) (r : res A) : Prop :=
  match r with
  | Ok a => P a
  | Throw e => exists msg, msg ∈ decodeErrors /\ e = Error (js msg)
  end.

Lemma okOr_bind {A B} (P : A -> Prop) (Q : B -> Prop) (m : res A) (k : A -> res B) :
  okOr P m -> (forall a, P a -> okOr Q (k a)) -> okOr Q (m ≫= k).
Proof. destruct m; simpl; auto. Qed.

Lemma okOr_error {A} (P : A -> Prop) msg : msg ∈ decodeErrors -> okOr P (throwError msg).
Proof. simpl. eauto. Qed.

#[local] Hint Extern 1 (_ ∈ decodeErrors) => (apply list_elem_of_In; simpl; tauto) : js.

Lemma readUInt16BE_in b off : 0 <= off -> off + 1 < blen b -> exists v, readUInt16BE b off = Ok v.
Proof.
  intros. unfold readUInt16BE.
  destruct (at_in_range b off) as [x ->]; [lia|].
  destruct (at_in_range b (off + 1)) as [y ->]; [lia|]. eauto.
Qed.

Lemma readExtended_total msg off nib e1 e2 :
  bytes_ok msg -> 0 <= off -> 0 <= nib -> e1 ∈ decodeErrors -> e2 ∈ decodeErrors ->
  okOr (fun '(n, off') => 0 <= n /\ off <= off') (readExtended msg off nib e1 e2).
Proof.
  intros Hb Hoff Hnib He1 He2. unfold readExtended.
  destruct (nib =? 13).
  { destruct (Z.leb_spec (blen msg) off); [by apply okOr_error|]. simpl.
    destruct (at_in_range msg off) as [x Hx]; [lia|]. unfold byteAt. rewrite Hx. simpl.
    apply at_byte in Hx; [lia|done]. }
  destruct (nib =? 14).
  { destruct (Z.leb_spec (blen msg) (off + 1)); [by apply okOr_error|].
    destruct (readUInt16BE_in msg off) as [v Hv]; [lia..|]. rewrite Hv. simpl.
    apply readUInt16BE_range in Hv; [lia|done]. }
  destruct (nib =? 15); [by apply okOr_error|]. simpl. lia.
Qed.

Lemma decodeOption_total msg off cur :
  bytes_ok msg -> 0 <= off ->
  okOr (fun '(o, off') => off < off' <= blen msg) (decodeOption msg off cur).
Proof.
  intros Hb Hoff. unfold decodeOption.
  eapply okOr_bind; [apply readExtended_total; auto with js; [lia|]|].
  { rewrite (field_extract _ 0xf0 4 4) by done. apply Z.mod_pos_bound. lia. }
  intros [delta off1] [Hd Ho1].
  eapply okOr_bind; [apply readExtended_total; auto with js; [lia|]|].
  { rewrite (field_low _ 15 4) by done. apply Z.mod_pos_bound. lia. }
  intros [len off2] [Hl Ho2].
  destruct (Z.ltb_spec (blen msg) (off2 + len)); [apply okOr_error; auto with js|]. simpl. lia.
Qed.

(** Every iteration moves the offset forward, so the fuel suffices. *)
Lemma decodeOptions_total fuel msg off cur :
  bytes_ok msg -> 0 <= off <= blen msg -> blen msg - off < Z.of_nat fuel ->
  okOr (fun _ => True) (decodeOptions fuel msg off cur).
Proof.
  intros Hb. revert off cur. induction fuel as [|fuel IH]; intros off cur Hoff Hf; [lia|].
  cbn [decodeOptions]. destruct (Z.leb_spec (blen msg) off); [done|].
  destruct (byteAt msg off =? 255); [done|].
  eapply okOr_bind; [apply decodeOption_total; [done|lia]|]. intros [o off1] Ho1.
  eapply okOr_bind; [apply IH; lia|]. by intros [rest off2].
Qed.

(** Decoding always terminates, with a message or with one of the seven
    errors the code throws: no read leaves the buffer and no loop runs forever,
    whatever bytes arrive. *)
Theorem decode_total b :
  bytes_ok b ->
  is_Ok (decodeCoapMessage b) \/
  exists msg, msg ∈ decodeErrors /\ decodeCoapMessage b = throwError msg.
Proof.
  intros Hb. cut (okOr (fun _ => True) (decodeCoapMessage b)).
  { unfold is_Ok, throwError. destruct (decodeCoapMessage b); simpl; [eauto|].
    intros (msg & Hin & ->). eauto. }
  unfold decodeCoapMessage. destruct (Z.ltb_spec (blen b) 4); [apply okOr_error; auto with js|].
  destruct (readUInt16BE_in b 2) as [v ->]; [lia..|]. cbn [mbind res_bind].
  assert (0 <= Z.land (byteAt b 0) 15 < 16).
  { rewrite (field_low _ 15 4) by done. apply Z.mod_pos_bound. lia. }
  eapply (okOr_bind (fun '(_, off) => 0 <= off <= blen b)).
  { destruct (0 <? _); [|simpl; lia].
    destruct (Z.ltb_spec (blen b) (4 + Z.land (byteAt b 0) 15)); [apply okOr_error; auto with js|].
    simpl. lia. }
  intros [tok off] Hoff.
  eapply okOr_bind; [apply decodeOptions_total; [done..|unfold blen in *; lia]|].
  by intros [l off2].
Qed.

(** ** What the encoder accepts *)

(** Every gap between consecutive option numbers and every value fits the
    extended 16-bit fields. *)
Fixpoint gapsFit (prev : Z) (l : list CoapOption) : Prop :=
  match l with
  | [] => True
  | o :: l => number o - prev <= 65804 /\ blen (value o) <= 65804 /\ gapsFit (number o) l
  end.

Lemma encodeOptions_ok_iff l prev :
  StronglySorted number_le l -> Forall (fun o => prev <= number o) l ->
  is_Ok (encodeOptions prev l) <-> gapsFit prev l.
Proof.
  intros Hs. revert prev. induction Hs as [|o l Hs IH Hle]; intros prev Hall; simpl.
  { unfold is_Ok. split; eauto. }
  inversion_clear Hall as [|? ? Ho Hrest]. rewrite <- IH by done. clear IH Hs.
  pose proof (extendedField_range (number o - prev)) as Hd.
  pose proof (extendedField_range (blen (value o))) as Hl.
  pose proof (blen_nonneg (value o)). unfold encodeOption, is_Ok in *.
  destruct (extendedField (number o - prev)) as [[dn de]|] eqn:E1; simpl; cycle 1.
  { split; [by intros [? ?]|]. intros (Hd1 & _). destruct (proj1 Hd) as [_ [? ?]]; [lia|done]. }
  destruct (extendedField (blen (value o))) as [[ln le]|] eqn:E2; simpl; cycle 1.
  { split; [by intros [? ?]|]. intros (_ & Hl1 & _). destruct (proj1 Hl) as [_ [? ?]]; [lia|done]. }
  assert (0 <= number o - prev <= 65804) by (apply Hd; eauto with lia).
  assert (0 <= blen (value o) <= 65804) by (apply Hl; eauto with lia).
  destruct (encodeOptions (number o) l) as [parts|]; simpl; split.
  - intros _. repeat split; [lia|lia|eauto].
  - eauto.
  - by intros [? ?].
  - by intros (_ & _ & ? & ?).
Qed.

(** The messages the encoder accepts are exactly those with a token of at
    most eight bytes, a 16-bit message id, and gaps and value lengths of at most
    65804; everything else is refused with an exception. *)
Theorem encode_succeeds_iff m :
  Forall (fun o => 0 <= number o) (options m) ->
  is_Ok (encodeCoapMessage m) <->
  blen (token m) <= 8 /\ 0 <= messageId m <= 65535 /\ gapsFit 0 (toSorted (options m)).
Proof.
  intros Hnum. rewrite <- encodeOptions_ok_iff by (apply toSorted_sorted || by rewrite toSorted_perm).
  unfold encodeCoapMessage, is_Ok. rewrite writeHeader.
  destruct (Z.ltb_spec 8 (blen (token m))); [split; [by intros [? ?]|lia]|].
  destruct (Z.ltb_spec (messageId m) 0); simpl; [split; [by intros [? ?]|lia]|].
  destruct (Z.ltb_spec 65535 (messageId m)); simpl; [split; [by intros [? ?]|lia]|].
  destruct (encodeOptions _ _) as [parts|]; simpl; split.
  - intros _. repeat split; [lia|lia|lia|eauto].
  - eauto.
  - by intros [? ?].
  - by intros (_ & _ & ? & ?).
Qed.

(** Sorting the options before encoding loses none, orders them by number
    and keeps the order of options that share a number (a multi-segment path
    stays in order). *)
Theorem toSorted_stable_sort l :
  toSorted l ≡ₚ l /\ StronglySorted number_le (toSorted l) /\
  forall n, filter (fun o => number o = n) (toSorted l) = filter (fun o => number o = n) l.
Proof. split; [apply toSorted_perm|]. split; [apply toSorted_sorted|]. intros. apply toSorted_stable. Qed.

(** ** Requests and printers *)

(** A request built by [sendRequest] with an acceptable token is read back
    as a non-confirmable GET with the given id, token, options and payload. *)
Theorem sendRequest_decodes messageId options payload token b :
  Forall (fun o => 0 <= number o) options ->
  sendRequest messageId options payload token = Ok b ->
  exists m, decodeCoapMessage b = Ok m /\
    coapTypeToString (type m) = js "Non-confirmable (NON)" /\ coapCodeToString (code m) = js "0.01" /\
    Coap.messageId m = messageId /\ Coap.options m = toSorted options /\
    Coap.token m = default [] (utf8_encode <$> token) /\
    default [] (Coap.payload m) = default [] (utf8_encode <$> payload).
Proof.
  intros Hnum Henc%encode_then_decode; [|done]. eexists. split; [exact Henc|].
  simpl. repeat split.
  - by destruct token as [[|u t]|].
  - destruct payload as [s|]; simpl; [by destruct (utf8_encode s)|done].
Qed.

(** ** Concrete instances *)

(** A status publication with a token, a two-segment path given out of order
    after a CoIoT option, and a payload. *)
Definition sample : CoapMessage :=
  mkMessage 1 1 3 30 4660 [1; 2; 3]
    [mkOption COIOT_OPTION_DEVID (js "SHSEN-1#4B3F9E#1");
     mkOption COAP_OPTION_URI_PATH (js "cit"); mkOption COAP_OPTION_URI_PATH (js "s")]
    (Some (js "{}")).

Definition sampleBytes : list Z :=
  [83; 30; 18; 52; 1; 2; 3; 179; 99; 105; 116; 1; 115; 237; 11; 236; 3] ++ js "SHSEN-1#4B3F9E#1" ++ [255; 123; 125].

Lemma encode_decode_roundtrip_witness :
  encodeCoapMessage sample = Ok sampleBytes /\ decodeCoapMessage sampleBytes = Ok (normalize sample).
Proof.
  split; [vm_compute; reflexivity|]. apply encode_decode_roundtrip; [|vm_compute; reflexivity].
  evaluate.
Defined.

Lemma decode_encode_roundtrip_witness :
  exists b', encodeCoapMessage (normalize sample) = Ok b' /\ (sampleBytes = b' \/ sampleBytes = b' ++ [0xff]).
Proof.
  apply decode_encode_roundtrip; [|vm_compute; reflexivity|evaluate].
  evaluate.
Defined.

Lemma decode_total_witness :
  is_Ok (decodeCoapMessage [64; 1; 0; 0; 209]) \/
  exists msg, msg ∈ decodeErrors /\ decodeCoapMessage [64; 1; 0; 0; 209] = throwError msg.
Proof. apply decode_total. evaluate. Defined.

Lemma encode_succeeds_iff_witness :
  is_Ok (encodeCoapMessage sample) <->
  blen (token sample) <= 8 /\ 0 <= messageId sample <= 65535 /\ gapsFit 0 (toSorted (options sample)).
Proof. apply encode_succeeds_iff. evaluate. Defined.

Lemma sendRequest_decodes_witness :
  exists m, decodeCoapMessage [81; 1; 0; 7; 116; 177; 100] = Ok m /\
    coapTypeToString (type m) = js "Non-confirmable (NON)" /\ coapCodeToString (code m) = js "0.01" /\
    messageId m = 7 /\ options m = toSorted [mkOption 11 (js "d")] /\
    token m = default [] (utf8_encode <$> Some (js "t")) /\
    default [] (payload m) = default [] (utf8_encode <$> None).
Proof. apply sendRequest_decodes; [|vm_compute; reflexivity]. evaluate. Defined.

End Coap.
