(* ===== verification/DnsName.v ===== *)
(** Domain names on the wire: [decodeDnsName] with its compression pointers and
    its guard against loops, and [encodeDnsName]
    ([packages/dgram/src/mdns.ts]). *)
From S2P Require Import Prelude Buffer JsString.

(** ** Operations *)

(** The loop of [decodeDnsName]. [iterations] is the number of iterations the
    guard [iterations++ > 1000] still allows. The result is the list of labels
    and the offset behind the name: behind the first pointer once the decoder
    has followed one. *)
Fixpoint decodeLabels (iterations : nat) (msg : list Z) (offset : Z) (jumped : bool) (originalOffset : Z)
    : res (list jsstr * Z) :=
  match iterations with
  | O => throwError "Too many iterations while decoding DNS name. Possible malformed message."
  | S iterations =>
      if blen msg <=? offset then throwError "Offset exceeds buffer length while decoding DNS name."
      else
        len ← readUInt8 msg offset;
        if len =? 0 then Ok ([], if jumped then originalOffset else offset + 1)
        else if Z.land len 0xc0 =? 0xc0 then
          if blen msg <=? offset + 1 then throwError "Incomplete pointer encountered while decoding DNS name."
          else
            low ← readUInt8 msg (offset + 1);
            let pointer := Z.lor (Z.shiftl (Z.land len 0x3f) 8) low in
            decodeLabels iterations msg pointer true (if jumped then originalOffset else offset + 2)
        else
          let offset := offset + 1 in
          if blen msg <? offset + len then throwError "Label length exceeds buffer bounds while decoding DNS name."
          else
            '(labels, newOffset) ← decodeLabels iterations msg (offset + len) jumped originalOffset;
            Ok (utf8_decode (subarray msg offset (offset + len)) :: labels, newOffset)
  end.

(** Iterations 0 to 1000 pass the guard. *)
Definition maxIterations : nat := 1001.

Definition decodeDnsName (msg : list Z) (offset : Z) : res (jsstr * Z) :=
  '(labels, newOffset) ← decodeLabels maxIterations msg offset false offset;
  Ok (joinWith [46] labels, newOffset).

(** One label: its length in UTF-16 code units, then its UTF-8 bytes. *)
Definition encodeLabel (label : jsstr) : res (list Z) :=
  lenBuf ← writeUInt8 (alloc 1) (blen label) 0;
  Ok (lenBuf ++ utf8_encode label).

Definition encodeDnsName (name : jsstr) : res (list Z) :=
  buffers ← mapE encodeLabel (splitChar 46 name);
  Ok (concat buffers ++ [0]).

(** ** Names that survive the wire *)

(** A label the codec keeps: non-empty ASCII of at most 63 bytes. *)
Definition labelOk (l : jsstr) : Prop := l <> [] /\ ascii l /\ blen l <= 63.

(** A name of such labels, few enough for the decoder's guard. *)
Definition nameOk (name : jsstr) : Prop :=
  Forall labelOk (splitChar 46 name) /\ blen (splitChar 46 name) <= 1000.

#[export] Instance ascii_dec s : Decision (ascii s).
Proof. unfold ascii. apply _. Defined.
#[export] Instance labelOk_dec l : Decision (labelOk l).
Proof. unfold labelOk. apply _. Defined.
#[export] Instance nameOk_dec name : Decision (nameOk name).
Proof. unfold nameOk. apply _. Defined.

(** The wire form of such labels. *)
Definition labelBytes (l : jsstr) : list Z := blen l :: l.
Definition nameBytes (name : jsstr) : list Z := concat (map labelBytes (splitChar 46 name)) ++ [0].

Lemma encodeLabel_ok l : labelOk l -> encodeLabel l = Ok (labelBytes l).
Proof.
  intros (Hne & Ha & Hl). pose proof (blen_nonneg l).
  unfold encodeLabel, writeUInt8, alloc, blen in *. simpl.
  rewrite (proj2 (Z.ltb_ge _ 0)), (proj2 (Z.ltb_ge 255 _)) by lia. simpl.
  by rewrite utf8_encode_ascii.
Qed.

Lemma mapE_map {A B} (f : A -> res B) (g : A -> B) l :
  Forall (fun a => f a = Ok (g a)) l -> mapE f l = Ok (map g l).
Proof. induction 1 as [|a l Ha Hl IH]; simpl; [done|]. by rewrite Ha, IH. Qed.

Lemma encodeDnsName_ok name : nameOk name -> encodeDnsName name = Ok (nameBytes name).
Proof.
  intros [Hl _]. unfold encodeDnsName.
  rewrite (mapE_map _ labelBytes); [done|].
  eapply Forall_impl; [exact Hl|]. apply encodeLabel_ok.
Qed.

(** A length byte below 64 is no pointer. *)
Lemma not_pointer len : 0 <= len < 64 -> (Z.land len 0xc0 =? 0xc0) = false.
Proof.
  intros. apply Z.eqb_neq. intros Hl.
  assert (Z.shiftr (Z.land len 0xc0) 6 = 3) as H3 by (by rewrite Hl).
  rewrite (field_extract _ 0xc0 6 2) in H3 by done. simpl in H3.
  rewrite Z.div_small, Z.mod_0_l in H3 by lia. lia.
Qed.

(** A length byte from 192 on is. *)
Lemma pointer_mask len : 192 <= len < 256 -> Z.land len 192 = 192.
Proof.
  intros. replace len with (Z.lor (Z.shiftl 3 6) (len - 192)).
  - rewrite Z.land_lor_distr_l. change (Z.shiftl 3 6) with 192.
    apply Z.bits_inj'. intros i Hi. rewrite Z.lor_spec, !Z.land_spec.
    by destruct (Z.testbit 192 i), (Z.testbit (len - 192) i).
  - rewrite lor_shiftl_add; simpl Z.pow; lia.
Qed.

(** One label in front of whatever the decoder reads next. *)
Lemma decodeLabels_label n pre l post jumped orig :
  labelOk l ->
  decodeLabels (S n) (pre ++ labelBytes l ++ post) (blen pre) jumped orig =
  '(ls, off) ← decodeLabels n (pre ++ labelBytes l ++ post) (blen (pre ++ labelBytes l)) jumped orig;
  Ok (l :: ls, off).
Proof.
  intros (Hne & Ha & Hl). pose proof (blen_nonneg l).
  assert (blen l <> 0) by (intros ?%blen_zero_inv; done).
  cbn [decodeLabels]. unfold labelBytes.
  rewrite (proj2 (Z.leb_gt (blen _) _)) by blen_lia. cbn [app]. rewrite readUInt8_app.
  cbn [mbind res_bind]. rewrite (proj2 (Z.eqb_neq _ 0)), not_pointer by lia.
  replace (pre ++ blen l :: l ++ post) with ((pre ++ [blen l]) ++ l ++ post) by list_norm.
  replace (blen pre + 1) with (blen (pre ++ [blen l])) by blen_lia.
  rewrite (proj2 (Z.ltb_ge (blen _) _)) by blen_lia.
  rewrite <- blen_app, subarray_app by (by rewrite blen_app). rewrite utf8_decode_ascii by done.
  replace ((pre ++ [blen l]) ++ l) with (pre ++ blen l :: l) by list_norm. done.
Qed.

Lemma decodeLabels_labels ls n pre post jumped orig :
  Forall labelOk ls ->
  decodeLabels (length ls + n) (pre ++ concat (map labelBytes ls) ++ post) (blen pre) jumped orig =
  '(rest, off) ← decodeLabels n (pre ++ concat (map labelBytes ls) ++ post)
                    (blen (pre ++ concat (map labelBytes ls))) jumped orig;
  Ok (ls ++ rest, off).
Proof.
  intros Hls. revert pre. induction Hls as [|l ls Hl Hls IH]; intros pre.
  { simpl. rewrite app_nil_r. by destruct (decodeLabels _ _ _ _ _) as [[? ?]|]. }
  cbn [map concat length]. rewrite <- app_assoc. change (S (length ls) + n)%nat with (S (length ls + n)).
  rewrite decodeLabels_label by done.
  replace (pre ++ labelBytes l ++ concat (map labelBytes ls) ++ post)
    with ((pre ++ labelBytes l) ++ concat (map labelBytes ls) ++ post) by list_norm.
  rewrite IH.
  replace ((pre ++ labelBytes l) ++ concat (map labelBytes ls))
    with (pre ++ labelBytes l ++ concat (map labelBytes ls)) by list_norm.
  by destruct (decodeLabels _ _ _ _ _) as [[? ?]|].
Qed.

(** The terminating zero byte. *)
Lemma decodeLabels_end n pre post jumped orig :
  decodeLabels (S n) (pre ++ 0 :: post) (blen pre) jumped orig =
  Ok ([], if jumped then orig else blen (pre ++ [0])).
Proof.
  cbn [decodeLabels]. rewrite (proj2 (Z.leb_gt (blen _) _)), readUInt8_app by blen_lia.
  cbn. by rewrite blen_app.
Qed.

(** A pointer: decoding goes on at its target and the name ends behind it. *)
Lemma decodeLabels_pointer n pre p post jumped orig :
  0 <= p < 16384 ->
  decodeLabels (S n) (pre ++ be16 (0xc000 + p) ++ post) (blen pre) jumped orig =
  decodeLabels n (pre ++ be16 (0xc000 + p) ++ post) p true (if jumped then orig else blen pre + 2).
Proof.
  intros Hp. cbn [decodeLabels].
  rewrite (proj2 (Z.leb_gt (blen _) (blen pre))) by blen_lia.
  rewrite (proj2 (Z.leb_gt (blen _) (blen pre + 1))) by blen_lia.
  unfold be16. cbn [app]. rewrite readUInt8_app. cbn [mbind res_bind].
  assert (192 <= (49152 + p) / 256 < 256) by (Z.div_mod_to_equations; lia).
  rewrite (proj2 (Z.eqb_neq _ 0)) by lia.
  rewrite pointer_mask by lia.
  change (192 =? 192) with true. cbv iota. unfold readUInt8 at 1. rewrite at_app by lia.
  change (at_ _ 1) with (Some ((49152 + p) mod 256)). cbn [mbind res_bind].
  f_equal. rewrite (field_low _ 63 6), lor_shiftl_add by (done || (simpl Z.pow; Z.div_mod_to_equations; lia)).
  simpl Z.pow. Z.div_mod_to_equations; lia.
Qed.

(** ** Reading back what was written *)

Lemma decodeDnsName_nameBytes name pre post :
  nameOk name ->
  decodeDnsName (pre ++ nameBytes name ++ post) (blen pre) = Ok (name, blen (pre ++ nameBytes name)).
Proof.
  intros [Hls Hcount]. unfold decodeDnsName, nameBytes, blen in *.
  replace maxIterations with (length (splitChar 46 name) + S (1000 - length (splitChar 46 name)))%nat
    by (unfold maxIterations; lia).
  rewrite <- (app_assoc (concat _)), decodeLabels_labels by done. cbn [app].
  rewrite (app_assoc pre), decodeLabels_end. cbn [mbind res_bind app].
  rewrite app_nil_r, join_splitChar, <- app_assoc. done.
Qed.

Lemma decodeDnsName_next name pre post msg off newOff :
  nameOk name -> msg = pre ++ nameBytes name ++ post -> off = blen pre ->
  newOff = blen pre + blen (nameBytes name) ->
  decodeDnsName msg off = Ok (name, newOff).
Proof. intros Hn -> -> ->. rewrite decodeDnsName_nameBytes by done. by rewrite blen_app. Qed.

(** A dotted name of non-empty ASCII labels of at most 63 bytes is encoded,
    and decoding at the place where it was written gives the name back together
    with the offset behind it, whatever surrounds it in the message. *)
Theorem dnsName_roundtrip name pre post :
  nameOk name ->
  exists b, encodeDnsName name = Ok b /\
    decodeDnsName (pre ++ b ++ post) (blen pre) = Ok (name, blen (pre ++ b)).
Proof.
  intros H. exists (nameBytes name). split; [by apply encodeDnsName_ok|by apply decodeDnsName_nameBytes].
Qed.

Lemma dnsName_roundtrip_witness :
  exists b, encodeDnsName (js "_http._tcp.local") = Ok b /\
    decodeDnsName ([7; 7] ++ b ++ [0; 12]) (blen [7; 7]) = Ok (js "_http._tcp.local", blen ([7; 7] ++ b)).
Proof. apply dnsName_roundtrip. evaluate. Defined.

(** Message compression. Labels followed by a pointer to an earlier name
    read as the labels in front of that name, and reading goes on behind the
    two bytes of the pointer. *)
Theorem dnsName_compressed ls suffix a mid post :
  Forall labelOk ls -> nameOk suffix -> blen ls + blen (splitChar 46 suffix) <= 999 ->
  blen a < 16384 ->
  let start := a ++ nameBytes suffix ++ mid in
  let here := concat (map labelBytes ls) ++ be16 (0xc000 + blen a) in
  decodeDnsName (start ++ here ++ post) (blen start) =
  Ok (joinWith [46] (ls ++ splitChar 46 suffix), blen (start ++ here)).
Proof.
  intros Hls [Hsuf _] Hcount Ha start here. unfold blen in Hcount. unfold decodeDnsName.
  set (k := length (splitChar 46 suffix)) in *.
  replace maxIterations with (length ls + S (k + S (999 - length ls - k)))%nat by (unfold maxIterations; lia).
  subst here. rewrite <- (app_assoc (concat _)), decodeLabels_labels by done.
  rewrite (app_assoc start), decodeLabels_pointer by (pose proof (blen_nonneg a); lia).
  replace ((start ++ concat (map labelBytes ls)) ++ be16 (49152 + blen a) ++ post)
    with (a ++ concat (map labelBytes (splitChar 46 suffix)) ++
          0 :: mid ++ concat (map labelBytes ls) ++ be16 (49152 + blen a) ++ post)
    by (subst start; unfold nameBytes; list_norm).
  subst k. rewrite decodeLabels_labels by done. rewrite (app_assoc a), decodeLabels_end.
  cbn [mbind res_bind]. rewrite app_nil_r. do 2 f_equal. by blen_lia.
Qed.

(** [matterbridge] in front of a pointer to [local] at offset 4. *)
Lemma dnsName_compressed_witness :
  let start := [9; 9; 9; 9] ++ nameBytes (js "local") ++ [1; 1] in
  let here := concat (map labelBytes [js "matterbridge"]) ++ be16 (0xc000 + blen [9; 9; 9; 9]) in
  decodeDnsName (start ++ here ++ [0; 28]) (blen start) =
  Ok (joinWith [46] ([js "matterbridge"] ++ splitChar 46 (js "local")), blen (start ++ here)).
Proof. apply dnsName_compressed; evaluate. Defined.

(** ** Bounds and loops *)

Lemma readUInt8_inv b off x : readUInt8 b off = Ok x -> at_ b off = Some x.
Proof. unfold readUInt8. by destruct (at_ b off) as [y|]; [intros [= ->]|]. Qed.

Lemma decodeLabels_bounds n msg off jumped orig ls off' :
  bytes_ok msg -> decodeLabels n msg off jumped orig = Ok (ls, off') ->
  if jumped then off' = orig else off < off' <= blen msg.
Proof.
  intros Hb. revert off jumped orig ls off'.
  induction n as [|n IH]; intros off jumped orig ls off'; [done|]. cbn [decodeLabels].
  destruct (Z.leb_spec (blen msg) off); [done|].
  destruct (readUInt8 msg off) as [len|] eqn:Elen; [|done]. cbn [mbind res_bind].
  apply readUInt8_inv in Elen. assert (0 <= len < 256) by eauto using at_byte.
  destruct (Z.eqb_spec len 0); [intros [= <- <-]; destruct jumped; [done|lia]|].
  destruct (_ =? 192).
  - destruct (Z.leb_spec (blen msg) (off + 1)); [done|].
    destruct (readUInt8 msg (off + 1)); [|done]. cbn [mbind res_bind].
    intros ->%IH. destruct jumped; [done|lia].
  - destruct (Z.ltb_spec (blen msg) (off + 1 + len)); [done|].
    destruct (decodeLabels n _ _ _ _) as [[ls' o]|] eqn:E; [|done]. intros [= <- <-].
    apply IH in E. destruct jumped; [done|lia].
Qed.

Lemma decodeDnsName_bounds msg off name off' :
  bytes_ok msg -> decodeDnsName msg off = Ok (name, off') -> off < off' <= blen msg.
Proof.
  intros Hb. unfold decodeDnsName.
  destruct (decodeLabels _ _ _ _ _) as [[ls o]|] eqn:E; [|done]. intros [= <- <-].
  by apply decodeLabels_bounds in E.
Qed.

(** A decoded name always moves the offset forward and never beyond the
    message, also after pointers that jump backwards or forwards. *)
Theorem dnsName_progress msg off name off' :
  bytes_ok msg -> decodeDnsName msg off = Ok (name, off') -> off < off' <= blen msg.
Proof. apply decodeDnsName_bounds. Qed.

Lemma dnsName_progress_witness : 5 < 7 <= blen [1; 97; 0; 1; 98; 192; 0].
Proof.
  apply (dnsName_progress [1; 97; 0; 1; 98; 192; 0] 5 (js "a") 7); [evaluate|].
  vm_compute. reflexivity.
Defined.

Lemma decodeLabels_self_pointer n pre post jumped orig :
  blen pre < 16384 ->
  decodeLabels n (pre ++ be16 (0xc000 + blen pre) ++ post) (blen pre) jumped orig =
  throwError "Too many iterations while decoding DNS name. Possible malformed message.".
Proof.
  intros Hp. revert jumped orig. induction n as [|n IH]; intros; [done|].
  rewrite decodeLabels_pointer by (pose proof (blen_nonneg pre); lia). apply IH.
Qed.

(** A pointer to itself does not hang the decoder; it is refused by the
    iteration guard. *)
Theorem dnsName_pointer_loop_rejected pre post :
  blen pre < 16384 ->
  decodeDnsName (pre ++ be16 (0xc000 + blen pre) ++ post) (blen pre) =
  throwError "Too many iterations while decoding DNS name. Possible malformed message.".
Proof. intros. unfold decodeDnsName. by rewrite decodeLabels_self_pointer. Qed.

Lemma dnsName_pointer_loop_rejected_witness :
  decodeDnsName ([5] ++ be16 (0xc000 + blen [5]) ++ []) (blen [5]) =
  throwError "Too many iterations while decoding DNS name. Possible malformed message.".
Proof. apply dnsName_pointer_loop_rejected. evaluate. Defined.

(** ** Labels the encoder gets wrong *)

Lemma utf8_encode_length s :
  blen s <= blen (utf8_encode s) /\ (blen s = blen (utf8_encode s) -> Forall (fun u => u <= 127) s).
Proof.
  remember (length s) as n eqn:Hn. revert s Hn.
  induction (lt_wf n) as [n _ IH]. intros [|u s] ->; [done|].
  assert (blen s <= blen (utf8_encode s) /\ (blen s = blen (utf8_encode s) -> Forall (fun u => u <= 127) s))
    as [Hle Heq] by (eapply IH; [|done]; simpl; lia).
  cbn [utf8_encode].
  destruct (Z.leb_spec u 127).
  { blen_lia. split; [lia|]. intros. constructor; [lia|]. apply Heq. lia. }
  destruct (u <=? 2047); [unfold utf8_2; blen_lia|].
  destruct (isHigh u); [|destruct (isLow u); unfold utf8_3; blen_lia].
  destruct s as [|v s]; [unfold utf8_3; blen_lia|].
  destruct (isLow v); [|unfold utf8_3; blen_lia].
  destruct (IH (length s)) with (s := s) as [Hle' _]; [simpl; lia|done|]. unfold utf8_4. blen_lia.
Qed.

(** The length byte of a label counts UTF-16 code units while the label is
    written in UTF-8, so every label with a non-ASCII character announces fewer
    bytes than it has, and the name is not read back. *)
Theorem encodeLabel_length_mismatch l :
  blen l <= 255 -> Exists (fun u => 127 < u) l ->
  exists rest, encodeLabel l = Ok (blen l :: rest) /\ rest = utf8_encode l /\ blen l < blen rest.
Proof.
  intros Hl Hex. exists (utf8_encode l). pose proof (blen_nonneg l).
  split; [|split; [done|]].
  - unfold encodeLabel, writeUInt8.
    rewrite (proj2 (Z.ltb_ge _ 0)), (proj2 (Z.ltb_ge 255 _)) by lia. done.
  - destruct (utf8_encode_length l) as [Hle Heq].
    destruct (Z.eq_dec (blen l) (blen (utf8_encode l))) as [E|]; [|lia].
    apply Heq in E. exfalso. apply Exists_exists in Hex as (u & Hin & Hu).
    rewrite Forall_forall in E. apply E in Hin. simpl in Hin. lia.
Qed.

(** The host name [cuisiné.local]. *)
Lemma encodeLabel_length_mismatch_witness :
  let cuisine := js "cuisin" ++ [233] in
  (exists rest, encodeLabel cuisine = Ok (blen cuisine :: rest) /\ rest = utf8_encode cuisine /\ blen cuisine < blen rest)
  /\ (b ← encodeDnsName (cuisine ++ js ".local"); decodeDnsName b 0) <> Ok (cuisine ++ js ".local", 15).
Proof.
  intros cuisine. split; [apply encodeLabel_length_mismatch; evaluate|]. vm_compute. discriminate.
Defined.

(** A name that starts with a byte of 192 or more ends behind two bytes. *)
Lemma decodeLabels_first_pointer n len rest ls off :
  bytes_ok (len :: rest) -> 192 <= len ->
  decodeLabels n (len :: rest) 0 false 0 = Ok (ls, off) -> off = 2.
Proof.
  intros Hb Hlen. destruct n as [|n]; [done|]. cbn [decodeLabels].
  inversion_clear Hb as [|? ? Hl Hr].
  destruct (blen (len :: rest) <=? 0); [done|]. change (readUInt8 (len :: rest) 0) with (@Ok Z len).
  cbn [mbind res_bind]. rewrite (proj2 (Z.eqb_neq len 0)) by lia.
  rewrite pointer_mask by lia. change (192 =? 192) with true. cbv iota.
  destruct (blen (len :: rest) <=? 0 + 1); [done|].
  destruct (readUInt8 _ _); [|done]. cbn [mbind res_bind].
  intros E%decodeLabels_bounds; [done|by constructor].
Qed.

(** Labels longer than 63 bytes are not refused: a label of 192 to 255
    ASCII characters is written with a length byte that the decoder takes for a
    compression pointer. *)
Theorem encodeDnsName_long_label l :
  ascii l -> 46 ∉ l -> 192 <= blen l <= 255 ->
  exists b, encodeDnsName l = Ok b /\ decodeDnsName b 0 <> Ok (l, blen b).
Proof.
  intros Ha Hdot Hl. exists ((blen l :: l) ++ [0]). split.
  - unfold encodeDnsName. rewrite splitChar_one by done. cbn [mapE mbind res_bind].
    unfold encodeLabel, writeUInt8. rewrite (proj2 (Z.ltb_ge _ 0)), (proj2 (Z.ltb_ge 255 _)) by lia.
    simpl. by rewrite utf8_encode_ascii, app_nil_r.
  - assert (Hb : bytes_ok ((blen l :: l) ++ [0])).
    { apply Forall_app. split; [|repeat constructor; lia]. constructor; [lia|].
      eapply Forall_impl; [exact Ha|]. simpl; lia. }
    unfold decodeDnsName. destruct (decodeLabels _ _ _ _ _) as [[ls off]|] eqn:E; [|done].
    intros [= _ Hoff]. apply decodeLabels_first_pointer in E; [|done|lia]. blen_lia.
Qed.

Lemma encodeDnsName_long_label_witness :
  exists b, encodeDnsName (replicate 200 97) = Ok b /\ decodeDnsName b 0 <> Ok (replicate 200 97, blen b).
Proof. apply encodeDnsName_long_label; evaluate. Defined.
