(* ===== verification/Mdns.v ===== *)
(** The mDNS codec of [packages/dgram/src/mdns.ts]: resource data, resource
    records, questions and whole messages, in both directions. *)
From S2P Require Import Prelude Buffer JsString JsNumber DnsName.

Module Mdns.

(** ** Data *)

(** The members of the enumeration [DnsRecordType], with their names. *)
Definition DnsRecordType : list (Z * string) :=
  [
    (1, "A"); (2, "NS"); (3, "MD"); (4, "MF"); (5, "CNAME"); (6, "SOA"); (7, "MB"); (8, "MG");
    (9, "MR"); (10, "NULL"); (11, "WKS"); (12, "PTR"); (13, "HINFO"); (14, "MINFO"); (15, "MX");
    (16, "TXT"); (17, "RP"); (18, "AFSDB"); (19, "X25"); (20, "ISDN"); (21, "RT"); (22, "NSAP");
    (23, "NSAP_PTR"); (24, "SIG"); (25, "KEY"); (26, "PX"); (27, "GPOS"); (28, "AAAA"); (29, "LOC");
    (30, "NXT"); (31, "EID"); (32, "NIMLOC"); (33, "SRV"); (34, "ATMA"); (35, "NAPTR"); (36, "KX");
    (37, "CERT"); (38, "A6"); (39, "DNAME"); (40, "SINK"); (41, "OPT"); (42, "APL"); (43, "DS");
    (44, "SSHFP"); (45, "IPSECKEY"); (46, "RRSIG"); (47, "NSEC"); (48, "DNSKEY"); (49, "DHCID");
    (50, "NSEC3"); (51, "NSEC3PARAM"); (52, "TLSA"); (53, "SMIMEA"); (55, "HIP"); (56, "NINFO");
    (57, "RKEY"); (58, "TALINK"); (59, "CDS"); (60, "CDNSKEY"); (61, "OPENPGPKEY"); (62, "CSYNC");
    (63, "ZONEMD"); (64, "SVCB"); (65, "HTTPS"); (99, "SPF"); (100, "UINFO"); (101, "UID");
    (102, "GID"); (103, "UNSPEC"); (104, "NID"); (105, "L32"); (106, "L64"); (107, "LP");
    (108, "EUI48"); (109, "EUI64"); (249, "TKEY"); (250, "TSIG"); (251, "IXFR"); (252, "AXFR");
    (253, "MAILB"); (254, "MAILA"); (255, "ANY"); (256, "URI"); (257, "CAA"); (258, "AVC");
    (259, "DOA"); (260, "AMTRELAY"); (261, "ZONEVERSION"); (32768, "TA"); (32769, "DLV")
  ]%string.

Definition A := 1.
Definition PTR := 12.
Definition TXT := 16.
Definition AAAA := 28.
Definition SRV := 33.
Definition NSEC := 47.

Definition classIN := 1.
Definition classCH := 3.
Definition classHS := 4.
Definition classANY := 255.

(** [DnsClassFlag.FLUSH] and [DnsClassFlag.QU] share the top bit. *)
Definition FLUSH := 0x8000.
Definition QU := 0x8000.

Record DnsQuestion := mkQuestion { q_name : jsstr; q_type : Z; q_class : Z }.

Record MdnsRecord := mkRecord { r_name : jsstr; r_type : Z; r_class : Z; r_ttl : Z; r_data : jsstr }.

Record MdnsMessage := mkMessage {
  id : Z; qr : Z; opcode : Z; aa : bool; tc : bool; rd : bool; ra : bool; z : Z; rcode : Z;
  qdCount : Z; anCount : Z; nsCount : Z; arCount : Z;
  questions : list DnsQuestion;
  answers : list MdnsRecord;
  authorities : list MdnsRecord;
  additionals : list MdnsRecord
}.

#[export] Instance DnsQuestion_eq_dec : EqDecision DnsQuestion.
Proof. solve_decision. Defined.
#[export] Instance MdnsRecord_eq_dec : EqDecision MdnsRecord.
Proof. solve_decision. Defined.
#[export] Instance MdnsMessage_eq_dec : EqDecision MdnsMessage.
Proof. solve_decision. Defined.

(** An offset as the record decoder leaves it: adding [undefined] makes it NaN,
    and every later read at NaN throws. *)
Inductive offset := At (i : Z) | NaN.

(** ** Names of types and classes *)

Fixpoint typeName (t : Z) (l : list (Z * string)) : option string :=
  match l with
  | [] => None
  | (k, n) :: l => if k =? t then Some n else typeName t l
  end.

Definition dnsTypeToString (t : Z) : jsstr :=
  match typeName t DnsRecordType with
  | Some n => js n
  | None => js "TYPE" ++ dec t
  end.

Definition baseClassToString (baseClass : Z) : jsstr :=
  if baseClass =? classIN then js "IN"
  else if baseClass =? classCH then js "CH"
  else if baseClass =? classHS then js "HS"
  else if baseClass =? classANY then js "ANY"
  else js "CLASS" ++ dec baseClass.

Definition dnsResponseClassToString (cls : Z) : jsstr :=
  let isFlush := negb (Z.land cls FLUSH =? 0) in
  let classStr := baseClassToString (Z.land cls 0x7fff) in
  if isFlush then classStr ++ js "|FLUSH" else classStr.

Definition dnsQuestionClassToString (cls : Z) : jsstr :=
  let isQU := negb (Z.land cls QU =? 0) in
  let classStr := baseClassToString (Z.land cls 0x7fff) in
  if isQU then classStr ++ js "|QU" else classStr.

(** ** Classification of a datagram *)

Definition isMdns (message : list Z) : bool :=
  if blen message <? 12 then false
  else match readUInt16BE message 0 with Ok id => id =? 0 | Throw _ => false end.

Definition isMdnsQuery (message : list Z) : bool :=
  if blen message <? 12 then false
  else match readUInt16BE message 0, readUInt16BE message 2 with
       | Ok id, Ok flags => (id =? 0) && (Z.shiftr (Z.land flags 0x8000) 15 =? 0)
       | _, _ => false
       end.

Definition isMdnsResponse (message : list Z) : bool :=
  if blen message <? 12 then false
  else match readUInt16BE message 0, readUInt16BE message 2 with
       | Ok id, Ok flags => (id =? 0) && (Z.shiftr (Z.land flags 0x8000) 15 =? 1)
       | _, _ => false
       end.

(** ** Resource data *)

Definition encodeTxtEntry (entry : jsstr) : res (list Z) :=
  let value := utf8_encode entry in
  if 255 <? blen value then Throw (Error (js "TXT entry too long: " ++ entry))
  else Ok (toUint8 (blen value) :: value).

Definition encodeTxtRdata (txt : list jsstr) : res (list Z) :=
  parts ← mapE encodeTxtEntry txt; Ok (concat parts).

Definition encodeSrvRdata (priority weight port : Z) (target : jsstr) : res (list Z) :=
  let fixed := alloc 6 in
  fixed ← writeUInt16BE fixed priority 0;
  fixed ← writeUInt16BE fixed weight 2;
  fixed ← writeUInt16BE fixed port 4;
  name ← encodeDnsName target;
  Ok (fixed ++ name).

(** The byte a part of a dotted quad stands for, if [Number] of it is an integer
    between 0 and 255. *)
Definition quadByte (p : jsstr) : option Z :=
  match toInteger (toNumber p) with
  | Some n => if (n <? 0) || (255 <? n) then None else Some n
  | None => None
  end.

Definition encodeA (ipv4 : jsstr) : res (list Z) :=
  let parts := splitChar 46 ipv4 in
  match mapM quadByte parts with
  | Some bytes => if blen parts =? 4 then Ok bytes else Throw (Error (js "Invalid IPv4 address: " ++ ipv4))
  | None => Throw (Error (js "Invalid IPv4 address: " ++ ipv4))
  end.

(** Two bytes of a group, after the checks both branches make. *)
Definition groupBytes (g : jsstr) : res (list Z) :=
  match parseInt16 g with
  | Some word =>
      if (word <? 0) || (0xffff <? word) then Throw (Error (js "Invalid IPv6 group: " ++ g))
      else Ok [Z.land (Z.shiftr word 8) 0xff; Z.land word 0xff]
  | None => Throw (Error (js "Invalid IPv6 group: " ++ g))
  end.

Definition nonEmptyGroups (s : jsstr) : list jsstr := filter (fun g => g <> []) (splitChar 58 s).

Definition encodeAAAA (ipv6WithOptionalScope : jsstr) : res (list Z) :=
  let ipv6 := default [] (head (splitChar 37 ipv6WithOptionalScope)) in
  let parts := splitTwice 58 ipv6 in
  let left := default [] (parts !! 0%nat) in
  let right := default [] (parts !! 1%nat) in
  let leftParts := match left with [] => [] | _ => nonEmptyGroups left end in
  let rightParts := match right with [] => [] | _ => nonEmptyGroups right end in
  if includes ipv6 (js "::") then
    let missing := 8 - (blen leftParts + blen rightParts) in
    if missing <? 0 then Throw (Error (js "Invalid IPv6 address: " ++ ipv6WithOptionalScope))
    else
      words ← mapE groupBytes (leftParts ++ replicate (Z.to_nat missing) (js "0") ++ rightParts);
      Ok (concat words)
  else
    let groups := splitChar 58 ipv6 in
    if negb (blen groups =? 8) then Throw (Error (js "Invalid IPv6 address: " ++ ipv6WithOptionalScope))
    else
      words ← mapE (fun g => match g with
                             | [] => Throw (Error (js "Invalid IPv6 group: " ++ g))
                             | _ => groupBytes g
                             end) groups;
      Ok (concat words).

(** The strings of a TXT record between [offset] and [end_]. A length byte that
    lies behind the message is [undefined]: an empty string is pushed, the
    offset becomes NaN and the loop ends. *)
Fixpoint decodeTxt (fuel : nat) (msg : list Z) (offset end_ : Z) : res (list jsstr * Mdns.offset) :=
  match fuel with
  | O => Throw Diverged
  | S fuel =>
      if end_ <=? offset then Ok ([], At offset)
      else match at_ msg offset with
           | Some txtLen =>
               let offset := offset + 1 in
               let txt := utf8_decode (subarray msg offset (offset + txtLen)) in
               '(rest, newOffset) ← decodeTxt fuel msg (offset + txtLen) end_;
               Ok (txt :: rest, newOffset)
           | None => Ok ([[]], NaN)
           end
  end.

(** The types of one octet of a window, high bit first. *)
Definition octetTypes (octet base : Z) : list jsstr :=
  omap (fun bit => if Z.land octet (Z.shiftr 0x80 bit) =? 0 then None else Some (dnsTypeToString (base + bit)))
       [0; 1; 2; 3; 4; 5; 6; 7].

(** The types of the [n] octets from index [i] of a window. *)
Fixpoint windowTypes (n : nat) (bitmapData : list Z) (start windowBlock i : Z) : list jsstr :=
  match n with
  | O => []
  | S n =>
      octetTypes (default 0 (at_ bitmapData (start + i))) (windowBlock * 256 + i * 8) ++
      windowTypes n bitmapData start windowBlock (i + 1)
  end.

(** The windows of an NSEC bitmap. A missing length byte is [undefined]: no
    octet is read, the offset becomes NaN and the loop ends. *)
Fixpoint nsecTypes (fuel : nat) (bitmapData : list Z) (bitmapOffset : Z) : res (list jsstr) :=
  match fuel with
  | O => Throw Diverged
  | S fuel =>
      if blen bitmapData <=? bitmapOffset then Ok []
      else
        let windowBlock := default 0 (at_ bitmapData bitmapOffset) in
        match at_ bitmapData (bitmapOffset + 1) with
        | None => Ok []
        | Some windowLength =>
            let types := windowTypes (Z.to_nat windowLength) bitmapData (bitmapOffset + 2) windowBlock 0 in
            rest ← nsecTypes fuel bitmapData (bitmapOffset + 2 + windowLength);
            Ok (types ++ rest)
        end
  end.

(** The eight groups of an AAAA record. *)
Definition decodeGroups (ipBytes : list Z) : res jsstr :=
  parts ← mapE (fun i => w ← readUInt16BE ipBytes i; Ok (hex w)) [0; 2; 4; 6; 8; 10; 12; 14];
  Ok (joinWith (js ":") parts).

(** The text of the resource data at [offset], and the offset behind the record. *)
Definition decodeRdata (msg : list Z) (type rdlength offset : Z) : res (jsstr * Mdns.offset) :=
  if type =? PTR then
    '(name, _) ← decodeDnsName msg offset; Ok (name, At (offset + rdlength))
  else if type =? TXT then
    '(strings, newOffset) ← decodeTxt (S (Z.to_nat rdlength)) msg offset (offset + rdlength);
    Ok (joinWith (js ", ") strings, newOffset)
  else if type =? SRV then
    priority ← readUInt16BE msg offset;
    weight ← readUInt16BE msg (offset + 2);
    port ← readUInt16BE msg (offset + 4);
    '(target, newOffset) ← decodeDnsName msg (offset + 6);
    Ok (jsonObject [("priority", dec priority); ("weight", dec weight); ("port", dec port); ("target", jsonString target)]%string,
        At newOffset)
  else if type =? A then
    let ipBytes := subarray msg offset (offset + 4) in
    Ok (joinWith (js ".") (map dec ipBytes), At (offset + 4))
  else if type =? AAAA then
    data ← decodeGroups (subarray msg offset (offset + 16)); Ok (data, At (offset + 16))
  else if type =? NSEC then
    '(nextDomain, newOffset) ← decodeDnsName msg offset;
    let nextDomainLength := newOffset - offset in
    let bitmapLength := rdlength - nextDomainLength in
    let bitmapData := subarray msg newOffset (newOffset + bitmapLength) in
    types ← nsecTypes (S (length bitmapData)) bitmapData 0;
    Ok (jsonObject [("nextDomain", jsonString nextDomain); ("types", jsonArray (map jsonString types))]%string,
        At (newOffset + bitmapLength))
  else
    Ok (toHexString (subarray msg offset (offset + rdlength)), At (offset + rdlength)).

(** ** Resource records and messages *)

(** [decodeDnsName] at an offset that may be NaN. *)
Definition decodeDnsNameAt (msg : list Z) (o : offset) : res (jsstr * Z) :=
  match o with
  | At i => decodeDnsName msg i
  | NaN => Throw RangeError
  end.

Definition decodeResourceRecord (msg : list Z) (o : offset) : res (MdnsRecord * offset) :=
  '(name, offset) ← decodeDnsNameAt msg o;
  type ← readUInt16BE msg offset;
  let offset := offset + 2 in
  rrclass ← readUInt16BE msg offset;
  let offset := offset + 2 in
  ttl ← readUInt32BE msg offset;
  let offset := offset + 4 in
  rdlength ← readUInt16BE msg offset;
  let offset := offset + 2 in
  '(data, newOffset) ← decodeRdata msg type rdlength offset;
  Ok (mkRecord name type rrclass ttl data, newOffset).

Fixpoint decodeQuestions (n : nat) (msg : list Z) (offset : Z) : res (list DnsQuestion * Z) :=
  match n with
  | O => Ok ([], offset)
  | S n =>
      '(qname, offset) ← decodeDnsName msg offset;
      qtype ← readUInt16BE msg offset;
      let offset := offset + 2 in
      qclass ← readUInt16BE msg offset;
      let offset := offset + 2 in
      '(rest, offset) ← decodeQuestions n msg offset;
      Ok (mkQuestion qname qtype qclass :: rest, offset)
  end.

Fixpoint decodeRecords (n : nat) (msg : list Z) (o : offset) : res (list MdnsRecord * offset) :=
  match n with
  | O => Ok ([], o)
  | S n =>
      '(record, o) ← decodeResourceRecord msg o;
      '(rest, o) ← decodeRecords n msg o;
      Ok (record :: rest, o)
  end.

Definition decodeMdnsMessage (msg : list Z) : res MdnsMessage :=
  if blen msg <? 12 then throwError "mDNS message too short"
  else
    id ← readUInt16BE msg 0;
    flags ← readUInt16BE msg 2;
    let qr := Z.shiftr (Z.land flags 0x8000) 15 in
    let opcode := Z.shiftr (Z.land flags 0x7800) 11 in
    let aa := negb (Z.land flags 0x0400 =? 0) in
    let tc := negb (Z.land flags 0x0200 =? 0) in
    let rd := negb (Z.land flags 0x0100 =? 0) in
    let ra := negb (Z.land flags 0x0080 =? 0) in
    let z := Z.shiftr (Z.land flags 0x0070) 4 in
    let rcode := Z.land flags 0x000f in
    qdCount ← readUInt16BE msg 4;
    anCount ← readUInt16BE msg 6;
    nsCount ← readUInt16BE msg 8;
    arCount ← readUInt16BE msg 10;
    '(questions, offset) ← decodeQuestions (Z.to_nat qdCount) msg 12;
    '(answers, o) ← decodeRecords (Z.to_nat anCount) msg (At offset);
    '(authorities, o) ← decodeRecords (Z.to_nat nsCount) msg o;
    '(additionals, o) ← decodeRecords (Z.to_nat arCount) msg o;
    Ok (mkMessage id qr opcode aa tc rd ra z rcode qdCount anCount nsCount arCount
          questions answers authorities additionals).

(** ** Sending *)

Record Query := mkQuery { s_name : jsstr; s_type : Z; s_class : Z; s_unicastResponse : bool }.

Record Answer := mkAnswer { a_name : jsstr; a_rtype : Z; a_rclass : Z; a_ttl : Z; a_rdata : list Z }.

(** The six words of a header. *)
Definition writeHeader (flags qd an : Z) : res (list Z) :=
  let header := alloc 12 in
  header ← writeUInt16BE header 0 0;
  header ← writeUInt16BE header flags 2;
  header ← writeUInt16BE header qd 4;
  header ← writeUInt16BE header an 6;
  header ← writeUInt16BE header 0 8;
  writeUInt16BE header 0 10.

Definition encodeQuestion (q : Query) : res (list Z) :=
  qname ← encodeDnsName (s_name q);
  let qfields := alloc 4 in
  qfields ← writeUInt16BE qfields (s_type q) 0;
  qfields ← writeUInt16BE qfields (if s_unicastResponse q then toInt32 (Z.lor (s_class q) QU) else s_class q) 2;
  Ok (qname ++ qfields).

(** The datagram [sendQuery] sends. *)
Definition sendQuery (qs : list Query) : res (list Z) :=
  header ← writeHeader 0 (blen qs) 0;
  buffers ← mapE encodeQuestion qs;
  Ok (header ++ concat buffers).

Definition encodeAnswer (a : Answer) : res (list Z) :=
  aname ← encodeDnsName (a_name a);
  let answerFixed := alloc 10 in
  answerFixed ← writeUInt16BE answerFixed (a_rtype a) 0;
  answerFixed ← writeUInt16BE answerFixed (a_rclass a) 2;
  answerFixed ← writeUInt32BE answerFixed (a_ttl a) 4;
  answerFixed ← writeUInt16BE answerFixed (blen (a_rdata a)) 8;
  Ok (aname ++ answerFixed ++ a_rdata a).

(** The datagram [sendResponse] sends. *)
Definition sendResponse (l : list Answer) : res (list Z) :=
  match l with
  | [] => throwError "sendResponse requires a non-empty answers array"
  | _ =>
      header ← writeHeader 0x8400 0 (blen l);
      buffers ← mapE encodeAnswer l;
      Ok (header ++ concat buffers)
  end.

End Mdns.
