(* ===== verification/MdnsRecords.v ===== *)
(** Resource records of the mDNS codec: every record [sendResponse] can send with
    the encoders of the module is decoded to the same name, type, class, time to
    live and data. *)
From S2P Require Import Prelude Buffer JsString JsNumber DnsName Mdns MdnsFacts.
Import Mdns.

(** Names are decoded by the lemmas on them, never by unfolding the loop. *)
#[local] Opaque decodeDnsName.

(** ** Resource data, abstractly *)

(** What a record can carry: one constructor per encoder of the module, and raw
    bytes for every type without one. *)
Inductive RData :=
  | RA (octets : list Z)
  | RAAAA (words : list Z)
  | RPTR (target : jsstr)
  | RTXT (entries : list jsstr)
  | RSRV (priority weight port : Z) (target : jsstr)
  | ROther (type : Z) (bytes : list Z).

Definition rdataType (r : RData) : Z :=
  match r with
  | RA _ => A
  | RAAAA _ => AAAA
  | RPTR _ => PTR
  | RTXT _ => TXT
  | RSRV _ _ _ _ => SRV
  | ROther type _ => type
  end.

(** The bytes, by the encoder a caller uses for the type. *)
Definition rdataBytes (r : RData) : res (list Z) :=
  match r with
  | RA octets => encodeA (dottedQuad octets)
  | RAAAA words => encodeAAAA (colonGroups words)
  | RPTR target => encodeDnsName target
  | RTXT entries => encodeTxtRdata entries
  | RSRV priority weight port target => encodeSrvRdata priority weight port target
  | ROther _ bytes => Ok bytes
  end.

(** The text the decoder gives. *)
Definition rdataText (r : RData) : jsstr :=
  match r with
  | RA octets => dottedQuad octets
  | RAAAA words => colonGroups words
  | RPTR target => target
  | RTXT entries => joinWith (js ", ") entries
  | RSRV priority weight port target =>
      jsonObject [("priority", dec priority); ("weight", dec weight); ("port", dec port);
                  ("target", jsonString target)]%string
  | ROther _ bytes => toHexString bytes
  end.

Definition known (t : Z) : bool := existsb (Z.eqb t) [PTR; TXT; SRV; A; AAAA; NSEC].

Definition word (v : Z) : Prop := 0 <= v <= 65535.

Definition rdataOk (r : RData) : Prop :=
  match r with
  | RA octets => length octets = 4%nat /\ bytes_ok octets
  | RAAAA words => length words = 8%nat /\ words_ok words
  | RPTR target => nameOk target
  | RTXT entries => Forall (fun e => wellFormed e = true /\ blen (utf8_encode e) <= 255) entries
  | RSRV priority weight port target => word priority /\ word weight /\ word port /\ nameOk target
  | ROther type bytes => word type /\ known type = false
  end.

#[export] Instance rdataOk_dec r : Decision (rdataOk r).
Proof. destruct r; simpl; unfold word; apply _. Defined.

(** ** One encoder at a time *)

Lemma decodeRdata_A octets pre post :
  length octets = 4%nat -> decodeRdata (pre ++ octets ++ post) A 4 (blen pre) =
  Ok (dottedQuad octets, At (blen (pre ++ octets))).
Proof.
  intros H4. assert (blen octets = 4) by (unfold blen; lia).
  unfold decodeRdata. cbn [Z.eqb Pos.eqb A PTR TXT SRV].
  rewrite subarray_app by lia. do 2 f_equal. f_equal. blen_lia.
Qed.

Lemma blen_words words : blen (concat (map be16 words)) = 2 * blen words.
Proof. induction words as [|w words IH]; [done|]. cbn [map concat]. rewrite blen_app, IH. blen_lia. Qed.

Lemma read_word words i w off :
  words !! i = Some w -> off = 2 * Z.of_nat i -> readUInt16BE (concat (map be16 words)) off = Ok w.
Proof.
  intros Hi ->. rewrite <- (take_drop_middle words i w Hi). rewrite map_app, concat_app.
  cbn [map concat]. replace (2 * Z.of_nat i) with (blen (concat (map be16 (take i words)))).
  - apply readUInt16BE_app.
  - rewrite blen_words. unfold blen. rewrite length_take. apply lookup_lt_Some in Hi. lia.
Qed.

Lemma decodeGroups_words words :
  length words = 8%nat -> decodeGroups (concat (map be16 words)) = Ok (colonGroups words).
Proof.
  intros H8. do 8 (destruct words as [|? words]; [discriminate|]). destruct words; [|discriminate].
  unfold decodeGroups. set (b := concat _).
  pose proof (fun i w off => read_word [z0; z1; z2; z3; z4; z5; z6; z7] i w off) as Hr. fold b in Hr.
  clearbody b. cbn [mapE].
  rewrite (Hr 0%nat z0 0), (Hr 1%nat z1 2), (Hr 2%nat z2 4), (Hr 3%nat z3 6), (Hr 4%nat z4 8),
    (Hr 5%nat z5 10), (Hr 6%nat z6 12), (Hr 7%nat z7 14) by reflexivity.
  reflexivity.
Qed.

Lemma decodeRdata_AAAA words pre post :
  length words = 8%nat -> decodeRdata (pre ++ concat (map be16 words) ++ post) AAAA 16 (blen pre) =
  Ok (colonGroups words, At (blen (pre ++ concat (map be16 words)))).
Proof.
  intros H8. assert (blen (concat (map be16 words)) = 16) by (rewrite blen_words; unfold blen; lia).
  unfold decodeRdata. cbn [Z.eqb Pos.eqb A AAAA PTR TXT SRV].
  rewrite subarray_app by lia. rewrite decodeGroups_words by done. cbn [mbind res_bind].
  do 3 f_equal. blen_lia.
Qed.

Lemma decodeRdata_PTR target pre post :
  nameOk target ->
  decodeRdata (pre ++ nameBytes target ++ post) PTR (blen (nameBytes target)) (blen pre) =
  Ok (target, At (blen (pre ++ nameBytes target))).
Proof.
  intros Ht. unfold decodeRdata. rewrite Z.eqb_refl, decodeDnsName_nameBytes by done.
  cbn [mbind res_bind]. do 3 f_equal. blen_lia.
Qed.

(** A length byte and the bytes of the entry. *)
Definition entryBytes (e : jsstr) : list Z := blen (utf8_encode e) :: utf8_encode e.

Lemma encodeTxtRdata_ok entries :
  Forall (fun e => wellFormed e = true /\ blen (utf8_encode e) <= 255) entries ->
  encodeTxtRdata entries = Ok (concat (map entryBytes entries)).
Proof.
  intros He. unfold encodeTxtRdata. rewrite (mapE_map _ entryBytes); [done|].
  eapply Forall_impl; [exact He|]. simpl. intros e [_ Hl]. pose proof (blen_nonneg (utf8_encode e)).
  unfold encodeTxtEntry. rewrite (proj2 (Z.ltb_ge 255 _)) by done. by rewrite toUint8_small by lia.
Qed.

Lemma decodeTxt_entries entries fuel pre post :
  Forall (fun e => wellFormed e = true /\ blen (utf8_encode e) <= 255) entries ->
  (length entries < fuel)%nat ->
  decodeTxt fuel (pre ++ concat (map entryBytes entries) ++ post) (blen pre)
    (blen (pre ++ concat (map entryBytes entries))) =
  Ok (entries, At (blen (pre ++ concat (map entryBytes entries)))).
Proof.
  intros He. revert fuel pre. induction He as [|e entries [Hw He] Hes IH]; intros [|fuel] pre Hf; [lia| |lia|].
  - cbn [map concat decodeTxt]. rewrite app_nil_r. by rewrite Z.leb_refl.
  - cbn [map concat]. set (rest := concat (map entryBytes entries)) in *. clearbody rest.
    pose proof (utf8_roundtrip e Hw) as Hv.
    unfold entryBytes. set (v := utf8_encode e) in *. clearbody v. cbn [decodeTxt app].
    rewrite (proj2 (Z.leb_gt _ _)) by blen_lia.
    rewrite at_here. cbv zeta.
    replace (pre ++ blen v :: (v ++ rest) ++ post) with ((pre ++ [blen v]) ++ v ++ rest ++ post) by list_norm.
    replace (blen pre + 1) with (blen (pre ++ [blen v])) by blen_lia.
    rewrite subarray_app by done. rewrite Hv.
    replace (blen (pre ++ [blen v]) + blen v) with (blen ((pre ++ [blen v]) ++ v)) by blen_lia.
    replace (pre ++ blen v :: v ++ rest) with (((pre ++ [blen v]) ++ v) ++ rest) by list_norm.
    rewrite (app_assoc (pre ++ [blen v])).
    rewrite IH by (simpl in Hf; lia). done.
Qed.

Lemma blen_entries entries : blen entries <= blen (concat (map entryBytes entries)).
Proof.
  induction entries as [|e entries IH]; [done|]. cbn [map concat]. unfold entryBytes at 1.
  rewrite blen_app, !blen_cons. pose proof (blen_nonneg (utf8_encode e)). lia.
Qed.

Lemma decodeRdata_TXT entries pre post :
  Forall (fun e => wellFormed e = true /\ blen (utf8_encode e) <= 255) entries ->
  let b := concat (map entryBytes entries) in
  decodeRdata (pre ++ b ++ post) TXT (blen b) (blen pre) =
  Ok (joinWith (js ", ") entries, At (blen (pre ++ b))).
Proof.
  intros He b. unfold decodeRdata. cbn [Z.eqb Pos.eqb PTR TXT].
  replace (blen pre + blen b) with (blen (pre ++ b)) by blen_lia.
  unfold b. rewrite decodeTxt_entries; [done|done|].
  pose proof (blen_entries entries). unfold blen in *. lia.
Qed.

Definition srvBytes (priority weight port : Z) (target : jsstr) : list Z :=
  be16 priority ++ be16 weight ++ be16 port ++ nameBytes target.

Lemma encodeSrvRdata_ok priority weight port target :
  word priority -> word weight -> word port -> nameOk target ->
  encodeSrvRdata priority weight port target = Ok (srvBytes priority weight port target).
Proof.
  unfold word. intros Hp Hw Hq Ht. unfold encodeSrvRdata.
  rewrite (writeUInt16BE_next [] 0 0 (alloc 4)) by (done || lia). cbn [mbind res_bind].
  rewrite (writeUInt16BE_next (be16 priority) 0 0 (alloc 2)) by (done || lia). cbn [mbind res_bind].
  rewrite (writeUInt16BE_next (be16 priority ++ be16 weight) 0 0 []) by (done || lia). cbn [mbind res_bind].
  rewrite encodeDnsName_ok by done. cbn [mbind res_bind]. unfold srvBytes. do 2 f_equal.
Qed.

Lemma decodeRdata_SRV_eq msg len off :
  decodeRdata msg SRV len off =
    priority ← readUInt16BE msg off;
    weight ← readUInt16BE msg (off + 2);
    port ← readUInt16BE msg (off + 4);
    '(target, newOffset) ← decodeDnsName msg (off + 6);
    Ok (jsonObject [("priority", dec priority); ("weight", dec weight); ("port", dec port);
                    ("target", jsonString target)]%string, At newOffset).
Proof. reflexivity. Qed.

Lemma decodeRdata_SRV priority weight port target pre post :
  nameOk target ->
  let b := srvBytes priority weight port target in
  decodeRdata (pre ++ b ++ post) SRV (blen b) (blen pre) =
  Ok (rdataText (RSRV priority weight port target), At (blen (pre ++ b))).
Proof.
  intros Ht b. rewrite decodeRdata_SRV_eq. remember (pre ++ b ++ post) as msg eqn:Hm.
  unfold b, srvBytes in Hm. rewrite <- !app_assoc in Hm.
  rewrite (readUInt16BE_next pre priority _ msg (blen pre) Hm) by done. rewrite bind_Ok.
  rewrite (readUInt16BE_next (pre ++ be16 priority) weight (be16 port ++ nameBytes target ++ post) msg (blen pre + 2))
    by (subst msg; list_norm || blen_lia). rewrite bind_Ok.
  rewrite (readUInt16BE_next (pre ++ be16 priority ++ be16 weight) port (nameBytes target ++ post) msg (blen pre + 4))
    by (subst msg; list_norm || blen_lia). rewrite bind_Ok.
  rewrite (decodeDnsName_next target (pre ++ be16 priority ++ be16 weight ++ be16 port) post _ _
             (blen (pre ++ b))) by (done || (subst msg; list_norm) || (unfold b, srvBytes; blen_lia)).
  by rewrite bind_Ok.
Qed.

Lemma decodeRdata_other type bytes pre post :
  known type = false -> decodeRdata (pre ++ bytes ++ post) type (blen bytes) (blen pre) =
  Ok (toHexString bytes, At (blen (pre ++ bytes))).
Proof.
  unfold known. cbn [existsb]. rewrite !orb_false_iff. intros (HP & HT & HS & HA & H6 & HN & _).
  unfold decodeRdata. rewrite HP, HT, HS, HA, H6, HN.
  rewrite subarray_app by done. by rewrite blen_app.
Qed.

(** The data of a record decodes to what was encoded, and the decoder stops
    right behind it. *)
Lemma decodeRdata_ok r b pre post :
  rdataOk r -> rdataBytes r = Ok b ->
  decodeRdata (pre ++ b ++ post) (rdataType r) (blen b) (blen pre) =
  Ok (rdataText r, At (blen (pre ++ b))).
Proof.
  destruct r as [o|w|t|es|p w q t|ty bs]; cbn [rdataOk rdataBytes rdataType rdataText].
  - intros [H4 Ho]. assert (encodeA (dottedQuad o) = Ok o) as ->.
    { do 4 (destruct o as [|? o]; [discriminate|]). destruct o; [|discriminate]. by apply encodeA_dottedQuad. }
    intros [= <-]. replace (blen o) with 4 by (unfold blen; lia). by apply decodeRdata_A.
  - intros [H8 Hw]. rewrite encodeAAAA_colonGroups by done. intros [= <-].
    replace (blen (concat (map be16 w))) with 16 by (rewrite blen_words; unfold blen; lia).
    by apply decodeRdata_AAAA.
  - intros Ht. rewrite encodeDnsName_ok by done. intros [= <-]. by apply decodeRdata_PTR.
  - intros He. rewrite encodeTxtRdata_ok by done. intros [= <-]. by apply decodeRdata_TXT.
  - intros (Hp & Hw & Hq & Ht). rewrite encodeSrvRdata_ok by done. intros [= <-]. by apply decodeRdata_SRV.
  - intros (_ & Hk) [= <-]. by apply decodeRdata_other.
Qed.

(** ** Records *)

(** A record to announce. *)
Record Announcement := mkAnnouncement { n_name : jsstr; n_class : Z; n_ttl : Z; n_rdata : RData }.

Definition announcementOk (a : Announcement) : Prop :=
  nameOk (n_name a) /\ word (n_class a) /\ 0 <= n_ttl a <= 4294967295 /\ rdataOk (n_rdata a) /\
  word (rdataType (n_rdata a)).

#[export] Instance announcementOk_dec a : Decision (announcementOk a).
Proof. unfold announcementOk, word. apply _. Defined.

(** The argument a caller passes to [sendResponse] for it. *)
Definition answerOf (a : Announcement) : res Answer :=
  rdata ← rdataBytes (n_rdata a);
  Ok (mkAnswer (n_name a) (rdataType (n_rdata a)) (n_class a) (n_ttl a) rdata).

(** The record a receiver should see. *)
Definition recordOf (a : Announcement) : MdnsRecord :=
  mkRecord (n_name a) (rdataType (n_rdata a)) (n_class a) (n_ttl a) (rdataText (n_rdata a)).

Definition answerBytes (a : Answer) : list Z :=
  nameBytes (a_name a) ++ be16 (a_rtype a) ++ be16 (a_rclass a) ++ be32 (a_ttl a) ++
  be16 (blen (a_rdata a)) ++ a_rdata a.

Lemma encodeAnswer_ok a :
  nameOk (a_name a) -> word (a_rtype a) -> word (a_rclass a) -> 0 <= a_ttl a <= 4294967295 ->
  blen (a_rdata a) <= 65535 -> encodeAnswer a = Ok (answerBytes a).
Proof.
  unfold word. intros Hn Ht Hc Hl Hd. pose proof (blen_nonneg (a_rdata a)). unfold encodeAnswer.
  rewrite encodeDnsName_ok by done. rewrite bind_Ok.
  rewrite (writeUInt16BE_next [] 0 0 (alloc 8)) by (done || lia). rewrite bind_Ok.
  rewrite (writeUInt16BE_next (be16 (a_rtype a)) 0 0 (alloc 6)) by (done || lia). rewrite bind_Ok.
  rewrite (writeUInt32BE_next (be16 (a_rtype a) ++ be16 (a_rclass a)) 0 0 0 0 (alloc 2)) by (done || lia).
  rewrite bind_Ok.
  rewrite (writeUInt16BE_next (be16 (a_rtype a) ++ be16 (a_rclass a) ++ be32 (a_ttl a)) 0 0 [])
    by (done || lia).
  rewrite bind_Ok. unfold answerBytes. do 2 f_equal.
Qed.

(** An announcement with the bytes of its data. *)
Definition encodedAs (a : Announcement) (ans : Answer) : Prop :=
  announcementOk a /\ answerOf a = Ok ans /\ blen (a_rdata ans) <= 65535.

#[export] Instance Answer_eq_dec : EqDecision Answer.
Proof. solve_decision. Defined.
#[export] Instance encodedAs_dec a ans : Decision (encodedAs a ans).
Proof. unfold encodedAs. apply _. Defined.

Lemma encodedAs_inv a ans :
  encodedAs a ans ->
  exists b, rdataBytes (n_rdata a) = Ok b /\
    ans = mkAnswer (n_name a) (rdataType (n_rdata a)) (n_class a) (n_ttl a) b /\ blen b <= 65535.
Proof.
  intros (_ & Ha & Hl). unfold answerOf in Ha. destruct (rdataBytes (n_rdata a)) as [b|]; [|done].
  rewrite bind_Ok in Ha. injection Ha as <-. by exists b.
Qed.

Lemma decodeResourceRecord_ok a ans pre post :
  encodedAs a ans ->
  decodeResourceRecord (pre ++ answerBytes ans ++ post) (At (blen pre)) =
  Ok (recordOf a, At (blen (pre ++ answerBytes ans))).
Proof.
  intros He. destruct (encodedAs_inv _ _ He) as (b & Hb & -> & Hl).
  destruct He as ((Hn & _ & _ & Hr & _) & _ & _). unfold answerBytes, recordOf.
  cbn [a_name a_rtype a_rclass a_ttl a_rdata].
  remember (pre ++ (nameBytes (n_name a) ++ _) ++ post) as msg eqn:Hm. rewrite <- !app_assoc in Hm.
  set (name := nameBytes (n_name a)) in *. set (ty := rdataType (n_rdata a)) in *.
  unfold decodeResourceRecord. cbn [decodeDnsNameAt].
  rewrite (decodeDnsName_next (n_name a) pre (be16 ty ++ be16 (n_class a) ++ be32 (n_ttl a) ++
             be16 (blen b) ++ b ++ post) msg (blen pre) (blen (pre ++ name)))
    by (done || (unfold name; blen_lia)).
  rewrite bind_Ok. cbv beta iota zeta.
  rewrite (readUInt16BE_next (pre ++ name) ty (be16 (n_class a) ++ be32 (n_ttl a) ++ be16 (blen b) ++ b ++ post)
             msg (blen (pre ++ name)))
    by (subst msg; list_norm || blen_lia). rewrite bind_Ok.
  rewrite (readUInt16BE_next (pre ++ name ++ be16 ty) (n_class a) (be32 (n_ttl a) ++ be16 (blen b) ++ b ++ post)
             msg (blen (pre ++ name) + 2))
    by (subst msg; list_norm || blen_lia). rewrite bind_Ok.
  rewrite (readUInt32BE_next (pre ++ name ++ be16 ty ++ be16 (n_class a)) (n_ttl a) (be16 (blen b) ++ b ++ post)
             msg (blen (pre ++ name) + 2 + 2))
    by (subst msg; list_norm || blen_lia). rewrite bind_Ok.
  rewrite (readUInt16BE_next (pre ++ name ++ be16 ty ++ be16 (n_class a) ++ be32 (n_ttl a)) (blen b) (b ++ post)
             msg (blen (pre ++ name) + 2 + 2 + 4))
    by (subst msg; list_norm || blen_lia). rewrite bind_Ok.
  set (front := pre ++ name ++ be16 ty ++ be16 (n_class a) ++ be32 (n_ttl a) ++ be16 (blen b)).
  replace (blen (pre ++ name) + 2 + 2 + 4 + 2) with (blen front) by (unfold front; blen_lia).
  replace msg with (front ++ b ++ post) by (subst msg; unfold front; list_norm).
  pose proof (decodeRdata_ok (n_rdata a) b front post Hr Hb) as Hd. fold ty in Hd. rewrite Hd, bind_Ok.
  do 3 f_equal. unfold front. list_norm.
Qed.

Lemma decodeRecords_ok l answers pre post :
  Forall2 encodedAs l answers ->
  decodeRecords (length answers) (pre ++ concat (map answerBytes answers) ++ post) (At (blen pre)) =
  Ok (map recordOf l, At (blen (pre ++ concat (map answerBytes answers)))).
Proof.
  intros Hl. revert pre. induction Hl as [|a ans l answers Ha Hl IH]; intros pre.
  - cbn. by rewrite app_nil_r.
  - cbn [map concat length decodeRecords]. set (rest := concat (map answerBytes answers)) in *. clearbody rest.
    rewrite <- app_assoc, (decodeResourceRecord_ok a) by done. rewrite bind_Ok.
    rewrite (app_assoc pre), IH, bind_Ok. do 3 f_equal. list_norm.
Qed.

(** The message a response of these records stands for. *)
Definition responseMessage (l : list Announcement) : MdnsMessage :=
  mkMessage 0 1 0 true false false false 0 0 0 (blen l) 0 0 [] (map recordOf l) [] [].


(** One record of every kind. *)
Definition sampleAnnouncements : list Announcement :=
  [mkAnnouncement (js "host.local") classIN 120 (RA [192; 168; 1; 100]);
   mkAnnouncement (js "host.local") 0x8001 120 (RAAAA [0xfe80; 0; 0; 0; 0x1ff; 0xfe23; 0x4567; 0x89ab]);
   mkAnnouncement (js "_matter._tcp.local") classIN 4500 (RPTR (js "node._matter._tcp.local"));
   mkAnnouncement (js "node._matter._tcp.local") 0x8001 4500 (RTXT [js "SII=5000"; js "T=0"]);
   mkAnnouncement (js "node._matter._tcp.local") 0x8001 120 (RSRV 0 0 5540 (js "host.local"));
   mkAnnouncement (js "host.local") classIN 10 (ROther 13 [1; 65; 0])].


(** ** Decoding terminates *)

(** A computation does not run out of fuel. *)
Definition terminates {A} (m : res A) : Prop := m <> Throw Diverged.

Lemma terminates_bind {A B} (m : res A) (k : A -> res B) :
  terminates m -> (forall a, m = Ok a -> terminates (k a)) -> terminates (m ≫= k).
Proof. unfold terminates. destruct m as [a|e]; cbn; [intros _ H; by apply H|congruence]. Qed.

Lemma readUInt8_terminates b off : terminates (readUInt8 b off).
Proof. unfold terminates, readUInt8. by destruct (at_ b off). Qed.

Lemma readUInt16BE_terminates b off : terminates (readUInt16BE b off).
Proof. unfold terminates, readUInt16BE. by destruct (at_ b off), (at_ b (off + 1)). Qed.

Lemma readUInt32BE_terminates b off : terminates (readUInt32BE b off).
Proof.
  unfold terminates, readUInt32BE.
  by destruct (at_ b off), (at_ b (off + 1)), (at_ b (off + 2)), (at_ b (off + 3)).
Qed.

Lemma Ok_terminates {A} (a : A) : terminates (Ok a).
Proof. done. Qed.

Lemma mapE_terminates {A B} (f : A -> res B) l : (forall a, terminates (f a)) -> terminates (mapE f l).
Proof.
  intros Hf. induction l as [|a l IH]; [done|]. cbn [mapE].
  apply terminates_bind; [done|]. intros b _. by apply terminates_bind.
Qed.

Lemma decodeLabels_terminates n msg off jumped orig : terminates (decodeLabels n msg off jumped orig).
Proof.
  revert off jumped orig. induction n as [|n IH]; intros off jumped orig; cbn [decodeLabels]; [done|].
  destruct (blen msg <=? off); [done|]. apply terminates_bind; [apply readUInt8_terminates|]. intros len _.
  destruct (len =? 0); [done|]. destruct (Z.land len 0xc0 =? 0xc0).
  - destruct (blen msg <=? off + 1); [done|].
    apply terminates_bind; [apply readUInt8_terminates|]. intros low _. apply IH.
  - cbv zeta. destruct (blen msg <? off + 1 + len); [done|].
    apply terminates_bind; [apply IH|]. by intros [].
Qed.

#[local] Transparent decodeDnsName.
Lemma decodeDnsName_terminates msg off : terminates (decodeDnsName msg off).
Proof. unfold decodeDnsName. apply terminates_bind; [apply decodeLabels_terminates|]. by intros []. Qed.
#[local] Opaque decodeDnsName.

#[export] Hint Resolve readUInt8_terminates readUInt16BE_terminates readUInt32BE_terminates
  decodeDnsName_terminates @Ok_terminates : js.

(** Splits a sequence into its steps, closing those with a lemma. *)
Ltac terminating :=
  repeat (apply terminates_bind; [by auto with js|]; intros ? _).

Lemma decodeTxt_terminates fuel msg off end_ :
  bytes_ok msg -> end_ - off < Z.of_nat fuel -> (0 < fuel)%nat -> terminates (decodeTxt fuel msg off end_).
Proof.
  intros Hb. revert off. induction fuel as [|fuel IH]; intros off Hf H0; [lia|]. cbn [decodeTxt].
  destruct (Z.leb_spec end_ off); [done|]. destruct (at_ msg off) as [len|] eqn:E; [|done].
  apply at_byte in E; [|done]. cbv zeta. apply terminates_bind; [apply IH; lia|]. by intros [].
Qed.

Lemma nsecTypes_terminates fuel bitmap off :
  bytes_ok bitmap -> blen bitmap - off < Z.of_nat fuel -> (0 < fuel)%nat -> terminates (nsecTypes fuel bitmap off).
Proof.
  intros Hb. revert off. induction fuel as [|fuel IH]; intros off Hf H0; [lia|]. cbn [nsecTypes].
  destruct (Z.leb_spec (blen bitmap) off); [done|]. destruct (at_ bitmap (off + 1)) as [len|] eqn:E; [|done].
  apply at_byte in E; [|done]. cbv zeta. apply terminates_bind; [apply IH; lia|]. done.
Qed.

Lemma decodeGroups_terminates b : terminates (decodeGroups b).
Proof.
  unfold decodeGroups. apply terminates_bind; [|done]. apply mapE_terminates. intros i.
  apply terminates_bind; auto with js.
Qed.

Lemma decodeRdata_terminates msg type rdlength off : bytes_ok msg -> terminates (decodeRdata msg type rdlength off).
Proof.
  intros Hb. unfold decodeRdata.
  repeat match goal with |- context [if ?b then _ else _] => destruct b end; terminating; auto with js.
  - by destruct a.
  - apply terminates_bind; [apply decodeTxt_terminates; [done|lia|lia]|]. by intros [].
  - by destruct a2.
  - apply terminates_bind; [apply decodeGroups_terminates|]. done.
  - destruct a as [name newOff]. apply terminates_bind; [|done].
    apply nsecTypes_terminates; [by apply subarray_bytes|unfold blen; lia|lia].
Qed.

Lemma decodeResourceRecord_terminates msg o : bytes_ok msg -> terminates (decodeResourceRecord msg o).
Proof.
  intros Hb. unfold decodeResourceRecord.
  apply terminates_bind; [destruct o; cbn; auto with js; done|]. intros [name off] _. cbv zeta. terminating.
  apply terminates_bind; [by apply decodeRdata_terminates|]. by intros [].
Qed.

Lemma decodeRecords_terminates n msg o : bytes_ok msg -> terminates (decodeRecords n msg o).
Proof.
  intros Hb. revert o. induction n as [|n IH]; intros o; cbn [decodeRecords]; [done|].
  apply terminates_bind; [by apply decodeResourceRecord_terminates|]. intros [r o'] _.
  apply terminates_bind; [apply IH|]. by intros [].
Qed.

Lemma decodeQuestions_terminates n msg off : terminates (decodeQuestions n msg off).
Proof.
  revert off. induction n as [|n IH]; intros off; cbn [decodeQuestions]; [done|].
  apply terminates_bind; [auto with js|]. intros [name off'] _. cbv zeta. terminating. by destruct a1.
Qed.

(** A result, or an exception of the program. *)
Definition settles {A} (m : res A) : Prop := (exists a, m = Ok a) \/ (exists e, m = Throw e /\ e <> Diverged).

(** C10: decoding any datagram ends: the loops over TXT strings and NSEC windows
    always move forward, so the decoder returns a message or throws one of the
    program's own exceptions. *)
Theorem decodeMdnsMessage_total msg :
  bytes_ok msg -> settles (decodeMdnsMessage msg).
Proof.
  intros Hb. assert (terminates (decodeMdnsMessage msg)) as Ht.
  { unfold decodeMdnsMessage. destruct (blen msg <? 12); [done|]. cbv zeta. terminating.
    apply terminates_bind; [apply decodeQuestions_terminates|]. intros [qs off] _.
    do 3 (apply terminates_bind; [by apply decodeRecords_terminates|]; intros [? ?] _). done. }
  unfold settles. destruct (decodeMdnsMessage msg) as [m|e]; [left; by exists m|]. right. exists e.
  split; [done|]. intros ->. by apply Ht.
Qed.

Lemma decodeMdnsMessage_total_witness :
  settles (decodeMdnsMessage [0; 0; 132; 0; 0; 0; 0; 1; 0; 0; 0; 0; 0; 0; 16; 0; 1; 0; 0; 0; 0; 0; 9; 3; 97]).
Proof. apply decodeMdnsMessage_total. evaluate. Defined.
