(* ===== verification/JsMap.v ===== *)
(** JavaScript's [Map]: keys in the order of their first insertion, [set] keeps
    the place of a key that is present, [delete] forgets it. *)
From S2P Require Import Prelude.

Section JsMap.
Context {K V : Type} `{EqDecision K}.

Definition jsmap := list (K * V).

Fixpoint mget (k : K) (m : jsmap) : option V :=
  match m with
  | [] => None
  | (k', v) :: m => if decide (k = k') then Some v else mget k m
  end.

Definition mhas (k : K) (m : jsmap) : bool := match mget k m with Some _ => true | None => false end.

Fixpoint mset (k : K) (v : V) (m : jsmap) : jsmap :=
  match m with
  | [] => [(k, v)]
  | (k', v') :: m => if decide (k = k') then (k, v) :: m else (k', v') :: mset k v m
  end.

Fixpoint mdelete (k : K) (m : jsmap) : jsmap :=
  match m with
  | [] => []
  | (k', v) :: m => if decide (k = k') then m else (k', v) :: mdelete k m
  end.

Definition mkeys (m : jsmap) : list K := map fst m.
Definition mvalues (m : jsmap) : list V := map snd m.
Definition msize (m : jsmap) : Z := Z.of_nat (length m).

(** A key occurs once. *)
Definition mwf (m : jsmap) : Prop := NoDup (mkeys m).

(** ** Laws *)

Lemma mget_set k v m : mget k (mset k v m) = Some v.
Proof.
  induction m as [|[k' v'] m IH]; simpl; [by rewrite decide_True|].
  destruct (decide (k = k')); simpl; [by rewrite decide_True|]. by rewrite decide_False.
Qed.

Lemma mget_set_ne k k' v m : k' <> k -> mget k' (mset k v m) = mget k' m.
Proof.
  intros Hne. induction m as [|[k0 v0] m IH]; simpl; [by rewrite decide_False|].
  destruct (decide (k = k0)) as [->|]; simpl; [by rewrite !decide_False|]. by rewrite IH.
Qed.

Lemma mget_None k m : mget k m = None <-> k ∉ mkeys m.
Proof.
  unfold mkeys. induction m as [|[k' v] m IH]; simpl; [split; [intros _; apply not_elem_of_nil|done]|].
  rewrite not_elem_of_cons. destruct (decide (k = k')); [split; [done|by intros [[]]]|].
  rewrite IH. tauto.
Qed.

Lemma mget_Some_elem k v m : mget k m = Some v -> (k, v) ∈ m.
Proof.
  induction m as [|[k' v'] m IH]; simpl; [done|]. destruct (decide (k = k')) as [->|].
  - intros [= ->]. apply list_elem_of_here.
  - intros H. by apply list_elem_of_further, IH.
Qed.

Lemma melem_get k v m : mwf m -> (k, v) ∈ m -> mget k m = Some v.
Proof.
  unfold mwf, mkeys. induction m as [|[k' v'] m IH]; simpl; intros Hwf Hin; [by apply not_elem_of_nil in Hin|].
  apply NoDup_cons in Hwf as [Hk Hwf]. apply elem_of_cons in Hin as [[= -> ->]|Hin]; [by rewrite decide_True|].
  rewrite decide_False; [by apply IH|]. intros ->. apply Hk.
  apply list_elem_of_In, in_map_iff. exists (k', v). split; [done|]. by apply list_elem_of_In.
Qed.

Lemma mset_fresh k v m : mget k m = None -> mset k v m = m ++ [(k, v)].
Proof.
  induction m as [|[k' v'] m IH]; simpl; [done|]. destruct (decide (k = k')); [done|]. intros H. by rewrite IH.
Qed.

Lemma mkeys_set_present k v v' m : mget k m = Some v' -> mkeys (mset k v m) = mkeys m.
Proof.
  unfold mkeys. induction m as [|[k' v0] m IH]; simpl; [done|].
  destruct (decide (k = k')) as [->|]; simpl; [done|]. intros H. by rewrite IH.
Qed.

Lemma mset_wf k v m : mwf m -> mwf (mset k v m).
Proof.
  unfold mwf. intros Hm. destruct (mget k m) as [v'|] eqn:E.
  - by rewrite (mkeys_set_present k v v').
  - rewrite mset_fresh by done. unfold mkeys in *. rewrite map_app. apply NoDup_app.
    split_and!; [done| |apply NoDup_singleton]. apply mget_None in E.
    intros x Hx Hx'. apply list_elem_of_singleton in Hx' as ->. done.
Qed.

Lemma mdelete_sub k m : mkeys (mdelete k m) `sublist_of` mkeys m.
Proof.
  unfold mkeys. induction m as [|[k' v'] m IH]; simpl; [constructor|].
  destruct (decide (k = k')); simpl; by constructor.
Qed.

Lemma mdelete_wf k m : mwf m -> mwf (mdelete k m).
Proof. unfold mwf. intros Hm. eapply sublist_NoDup; [done|apply mdelete_sub]. Qed.

Lemma mget_delete k m : mwf m -> mget k (mdelete k m) = None.
Proof.
  unfold mwf, mkeys. induction m as [|[k' v'] m IH]; simpl; [done|]. intros [Hk Hm]%NoDup_cons.
  destruct (decide (k = k')) as [->|Hne]; [by apply mget_None|]. simpl. rewrite decide_False by done. by apply IH.
Qed.

Lemma mget_delete_ne k k' m : k' <> k -> mget k' (mdelete k m) = mget k' m.
Proof.
  intros Hne. induction m as [|[k0 v0] m IH]; simpl; [done|].
  destruct (decide (k = k0)) as [->|]; simpl; [by rewrite decide_False|]. by rewrite IH.
Qed.

Lemma mdelete_absent k m : mget k m = None -> mdelete k m = m.
Proof.
  induction m as [|[k' v'] m IH]; simpl; [done|]. destruct (decide (k = k')); [done|]. intros. by rewrite IH.
Qed.

Lemma mhas_get k m : mhas k m = true <-> is_Some (mget k m).
Proof. unfold mhas. destruct (mget k m); split; [by eexists|done|done|by intros []]. Qed.

End JsMap.

(** ** Maps of images *)

Section Image.
Context {K V W : Type} `{EqDecision K} (f : V -> W).

Definition mmap (m : list (K * V)) : list (K * W) := map (fun kv => (fst kv, f (snd kv))) m.

Lemma mget_mmap k m : mget k (mmap m) = f <$> mget k m.
Proof. induction m as [|[k' v] m IH]; simpl; [done|]. by destruct (decide (k = k')). Qed.

Lemma mset_mmap k v m : mmap (mset k v m) = mset k (f v) (mmap m).
Proof.
  induction m as [|[k' v'] m IH]; simpl; [done|]. destruct (decide (k = k')) as [->|]; simpl; [done|]. by rewrite IH.
Qed.

Lemma mdelete_mmap k m : mmap (mdelete k m) = mdelete k (mmap m).
Proof.
  induction m as [|[k' v'] m IH]; simpl; [done|]. destruct (decide (k = k')); simpl; [done|]. by rewrite IH.
Qed.

Lemma mvalues_mmap m : mvalues (mmap m) = map f (mvalues m).
Proof. unfold mvalues, mmap. by rewrite !map_map. Qed.

Lemma mkeys_mmap m : mkeys (mmap m) = mkeys m.
Proof. unfold mkeys, mmap. by rewrite map_map. Qed.

Lemma msize_mmap m : msize (mmap m) = msize m.
Proof. unfold msize, mmap. by rewrite length_map. Qed.
End Image.

Lemma mmap_ext {K V W} (f g : V -> W) (m : list (K * V)) :
  Forall (fun kv => f (snd kv) = g (snd kv)) m -> mmap f m = mmap g m.
Proof. unfold mmap. intros H. apply map_ext_Forall. eapply Forall_impl; [exact H|]. by intros [k v] ->. Qed.

Arguments jsmap : clear implicits.

#[export] Hint Resolve mset_wf mdelete_wf : js.
