(* ===== verification/MdnsService.v ===== *)
(** The mDNS listener of [packages/dgram/src/mdns.ts]: what a datagram changes in
    the tables of queries and responses, the filters, and the record chosen to
    describe a device. *)
From S2P Require Import Prelude Buffer JsString JsNumber DnsName Mdns JsMap.
Import Mdns.

Module MdnsService.

(** ** State *)

Record RemoteInfo := mkRemote { address : jsstr; family : jsstr; port : Z }.

Record Responder := mkResponder { by_ : RemoteInfo; response : MdnsMessage; dataPTR : option jsstr }.

(** The fields of class [Mdns]. *)
Record Listener := mkListener {
  deviceQueries : jsmap jsstr (RemoteInfo * MdnsMessage);
  deviceResponses : jsmap jsstr Responder;
  filters : list jsstr;
  ipFilters : list jsstr
}.

(** What the listener does besides updating its tables: call the overridable
    hooks, log the message, or log that it could not be decoded. *)
Inductive Output :=
  | OnQuery (rinfo : RemoteInfo) (query : MdnsMessage)
  | OnResponse (rinfo : RemoteInfo) (response : MdnsMessage)
  | LogMessage (m : MdnsMessage)
  | LogError (e : exn).

(** ** Operations *)

Definition isPTR (n : string) (r : MdnsRecord) : bool := bool_decide (r_name r = js n) && (r_type r =? PTR).

Definition found {A} (o : option A) : bool := match o with Some _ => true | None => false end.

(** The record that describes a responder: [a || b || c || d || answers ?
    answers[0] : undefined], where the conditional binds weaker than the
    alternatives and an array is truthy. *)
Definition chooseRecord (m : MdnsMessage) : option MdnsRecord :=
  if found (List.find (isPTR "_shelly._tcp.local") (answers m)) ||
     found (List.find (isPTR "_http._tcp.local") (answers m)) ||
     found (List.find (fun r => r_type r =? PTR) (answers m)) ||
     found (List.find (fun r => r_type r =? TXT) (answers m)) || true
  then answers m !! 0%nat
  else None.

Definition describeRecord (r : option MdnsRecord) : option jsstr :=
  match r with
  | Some r => Some (if r_type r =? PTR then r_data r else r_name r)
  | None => None
  end.

Definition recordMatches (filter : jsstr) (r : MdnsRecord) : bool :=
  includes (r_name r) filter || includes (r_data r) filter.

(** One of the filters occurs in the message. *)
Definition filterMatches (m : MdnsMessage) (filter : jsstr) : bool :=
  existsb (fun q => includes (q_name q) filter) (questions m) ||
  existsb (recordMatches filter) (answers m) || existsb (recordMatches filter) (additionals m).

Definition onMessage (s : Listener) (msg : list Z) (rinfo : RemoteInfo) : Listener * list Output :=
  if negb (Z.of_nat (length (ipFilters s)) =? 0) &&
     negb (existsb (fun filter => includes (address rinfo) filter) (ipFilters s))
  then (s, [])
  else
    match decodeMdnsMessage msg with
    | Throw e => (s, [LogError e])
    | Ok result =>
        let '(s, call) :=
          if qr result =? 0 then
            (mkListener (mset (address rinfo) (rinfo, result) (deviceQueries s)) (deviceResponses s) (filters s) (ipFilters s),
             OnQuery rinfo result)
          else
            (mkListener (deviceQueries s)
               (mset (address rinfo) (mkResponder rinfo result (describeRecord (chooseRecord result))) (deviceResponses s))
               (filters s) (ipFilters s),
             OnResponse rinfo result) in
        match filters s with
        | [] => (s, [call; LogMessage result])
        | _ => (s, if existsb (filterMatches result) (filters s) then [call; LogMessage result] else [call])
        end
    end.

(** ** Facts *)

(** The address passes the filters on addresses. *)
Definition admitted (s : Listener) (rinfo : RemoteInfo) : Prop :=
  ipFilters s = [] \/ exists filter, filter ∈ ipFilters s /\ includes (address rinfo) filter = true.

Lemma onMessage_admitted s rinfo :
  admitted s rinfo ->
  negb (Z.of_nat (length (ipFilters s)) =? 0) &&
  negb (existsb (fun filter => includes (address rinfo) filter) (ipFilters s)) = false.
Proof.
  intros [->|(f & Hf & Hi)]; [done|]. apply andb_false_iff. right. apply negb_false_iff, existsb_exists.
  exists f. split; [by apply list_elem_of_In|done].
Qed.

(** A datagram changes at most one entry of one table, that of its sender: a
    query the table of queries, a response the table of responses, a datagram
    that is filtered out or does not decode neither. *)
Theorem onMessage_tracks s msg rinfo s' out :
  admitted s rinfo -> onMessage s msg rinfo = (s', out) ->
  match decodeMdnsMessage msg with
  | Throw e => s' = s /\ out = [LogError e]
  | Ok m =>
      (forall a, a <> address rinfo ->
         mget a (deviceQueries s') = mget a (deviceQueries s) /\
         mget a (deviceResponses s') = mget a (deviceResponses s)) /\
      (if qr m =? 0
       then mget (address rinfo) (deviceQueries s') = Some (rinfo, m) /\ deviceResponses s' = deviceResponses s
       else deviceQueries s' = deviceQueries s /\
            exists r, mget (address rinfo) (deviceResponses s') = Some r /\ by_ r = rinfo /\ response r = m)
  end.
Proof.
  intros Ha. unfold onMessage. rewrite onMessage_admitted by done.
  destruct (decodeMdnsMessage msg) as [m|e]; [|by intros [= <- <-]].
  destruct (qr m =? 0); cbn [filters]; destruct (filters s); intros [= <- _]; cbn [deviceQueries deviceResponses].
  all: split; [intros a Hne; rewrite ?mget_set_ne by done; done|]; rewrite mget_set.
  1,2: done.
  all: split; [done|]; by eexists.
Qed.

Lemma onMessage_tracks_witness :
  exists s', onMessage (mkListener [] [] [] []) [0; 0; 0; 0; 0; 0; 0; 0; 0; 0; 0; 0] (mkRemote (js "10.0.0.2") (js "IPv4") 5353)
      = (s', [OnQuery (mkRemote (js "10.0.0.2") (js "IPv4") 5353) (mkMessage 0 0 0 false false false false 0 0 0 0 0 0 [] [] [] []);
              LogMessage (mkMessage 0 0 0 false false false false 0 0 0 0 0 0 [] [] [] [])]) /\
    deviceResponses s' = [].
Proof.
  eexists. split; [by vm_compute|].
  pose proof (onMessage_tracks (mkListener [] [] [] []) [0; 0; 0; 0; 0; 0; 0; 0; 0; 0; 0; 0]
    (mkRemote (js "10.0.0.2") (js "IPv4") 5353) _ _ (or_introl eq_refl) eq_refl) as H.
  vm_compute in H. exact (proj2 (proj2 H)).
Defined.

(** The filters decide only what is logged: with filters set, a message is
    logged exactly when one of them occurs in a question name or in the name or
    data of an answer or additional record; the tables do not depend on them. *)
Theorem onMessage_filters s msg rinfo m fs :
  admitted s rinfo -> decodeMdnsMessage msg = Ok m ->
  let s0 := mkListener (deviceQueries s) (deviceResponses s) fs (ipFilters s) in
  deviceQueries (fst (onMessage s0 msg rinfo)) = deviceQueries (fst (onMessage s msg rinfo)) /\
  deviceResponses (fst (onMessage s0 msg rinfo)) = deviceResponses (fst (onMessage s msg rinfo)) /\
  (LogMessage m ∈ snd (onMessage s0 msg rinfo) <->
   fs = [] \/ exists f, f ∈ fs /\ filterMatches m f = true).
Proof.
  intros Ha Hd s0. assert (admitted s0 rinfo) as Ha0 by done.
  unfold onMessage. rewrite !onMessage_admitted by done. rewrite Hd.
  set (p0 := if qr m =? 0 then _ else _). set (p := if qr m =? 0 then _ else _).
  assert (exists q r c, (c = OnQuery rinfo m \/ c = OnResponse rinfo m) /\
            p = (mkListener q r (filters s) (ipFilters s), c) /\ p0 = (mkListener q r fs (ipFilters s), c))
    as (q & r & c & Hc & -> & ->).
  { subst p p0. destruct (qr m =? 0); do 3 eexists; (split_and!; [|reflexivity|reflexivity]); auto. }
  cbn [filters].
  split_and!; [by destruct fs, (filters s)|by destruct fs, (filters s)|].
  assert (LogMessage m ∈ [c] <-> False) as Hno.
  { rewrite list_elem_of_singleton. split; [|done]. intros <-. by destruct Hc. }
  destruct fs as [|f fs]; cbn [snd].
  - split; [by left|]. intros _. apply list_elem_of_further, list_elem_of_here.
  - destruct (existsb (filterMatches m) (f :: fs)) eqn:E; cbn [snd].
    + split; [|intros _; apply list_elem_of_further, list_elem_of_here]. intros _. right.
      apply existsb_exists in E as (x & Hx & Hm). exists x. split; [by apply list_elem_of_In|done].
    + rewrite Hno. split; [done|]. intros [?|(x & Hx & Hm)]; [done|].
      assert (existsb (filterMatches m) (f :: fs) = true) as Ht; [|by rewrite E in Ht].
      apply existsb_exists. exists x. split; [by apply list_elem_of_In|done].
Qed.

Lemma onMessage_filters_witness :
  LogMessage (mkMessage 0 0 0 false false false false 0 0 0 0 0 0 [] [] [] []) ∉
  snd (onMessage (mkListener [] [] [js "shelly"] []) [0; 0; 0; 0; 0; 0; 0; 0; 0; 0; 0; 0] (mkRemote (js "10.0.0.2") (js "IPv4") 5353)).
Proof.
  destruct (onMessage_filters (mkListener [] [] [] []) [0; 0; 0; 0; 0; 0; 0; 0; 0; 0; 0; 0]
    (mkRemote (js "10.0.0.2") (js "IPv4") 5353) (mkMessage 0 0 0 false false false false 0 0 0 0 0 0 [] [] [] [])
    [js "shelly"] (or_introl eq_refl) eq_refl) as (_ & _ & Hl).
  intros H. apply Hl in H as [H|(f & Hf & Hm)]; [discriminate|].
  apply list_elem_of_singleton in Hf as ->. vm_compute in Hm. discriminate.
Defined.

(** The record the comment asks for: the PTR record of the Shelly service, else that
    of the HTTP service, else any PTR, else a TXT record, else the first answer. *)
Definition intendedRecord (m : MdnsMessage) : option MdnsRecord :=
  match List.find (isPTR "_shelly._tcp.local") (answers m), List.find (isPTR "_http._tcp.local") (answers m),
        List.find (fun r => r_type r =? PTR) (answers m), List.find (fun r => r_type r =? TXT) (answers m) with
  | Some r, _, _, _ | None, Some r, _, _ | None, None, Some r, _ | None, None, None, Some r => Some r
  | None, None, None, None => answers m !! 0%nat
  end.

(** The alternatives are never looked at: a responder is described by its
    first answer, even when that answer is a TXT record and a PTR record follows. *)
Theorem first_answer_describes r1 r2 m :
  answers m = [r1; r2] -> r_type r1 = TXT -> r_type r2 = PTR ->
  describeRecord (chooseRecord m) = Some (r_name r1) /\ describeRecord (intendedRecord m) = Some (r_data r2).
Proof.
  intros Ha H1 H2. unfold chooseRecord, intendedRecord. rewrite !orb_true_r, Ha. unfold isPTR.
  cbn [List.find lookup list_lookup]. rewrite H1, H2. cbn [Z.eqb Pos.eqb TXT PTR]. rewrite !andb_false_r, !andb_true_r.
  cbn [describeRecord]. rewrite H1. split; [done|].
  destruct (bool_decide _); cbn [describeRecord]; [by rewrite H2|].
  destruct (bool_decide _); cbn [describeRecord]; by rewrite H2.
Qed.

Lemma first_answer_describes_witness :
  let r1 := mkRecord (js "info.local") TXT 1 120 (js "path=/") in
  let r2 := mkRecord (js "_http._tcp.local") PTR 1 120 (js "host._http._tcp.local") in
  let m := mkMessage 0 1 0 true false false false 0 0 0 2 0 0 [] [r1; r2] [] [] in
  describeRecord (chooseRecord m) = Some (js "info.local") /\
  describeRecord (intendedRecord m) = Some (js "host._http._tcp.local").
Proof. intros r1 r2 m. exact (first_answer_describes r1 r2 m eq_refl eq_refl eq_refl). Defined.

End MdnsService.
