(* ===== verification/JsValue.v ===== *)
(** JavaScript values as the managers exchange them: the data of JSON and of
    structured clones, property access, truthiness, [typeof], [===], object
    spread, and the string methods the sources call. Strings are sequences of
    8-bit characters here; numbers are the integers the messages carry. *)
From S2P Require Import Prelude JsNumber.
From stdpp Require Import pretty.

#[local] Open Scope string_scope.
#[local] Set Warnings "-register-all".

(** ** Values *)

Inductive value :=
  | Undefined
  | Null
  | Bool (b : bool)
  | Num (n : Z)
  | Str (s : string)
  | Arr (l : list value)
  | Obj (fields : list (string * value)).

#[export] Instance value_eq_dec : EqDecision value.
Proof.
  unfold EqDecision, Decision.
  fix IH 1. intros x y.
  destruct x as [| |b|n|s|l|f], y as [| |b'|n'|s'|l'|f']; try (right; congruence); try (left; reflexivity).
  - destruct (decide (b = b')); [left|right]; congruence.
  - destruct (decide (n = n')); [left|right]; congruence.
  - destruct (decide (s = s')); [left|right]; congruence.
  - assert ({l = l'} + {l <> l'}) as [|]; [|left; congruence|right; congruence].
    revert l'. induction l as [|v l IHl]; intros [|v' l']; try (right; congruence); [left; reflexivity|].
    destruct (IH v v'); [|right; congruence]. destruct (IHl l'); [left|right]; congruence.
  - assert ({f = f'} + {f <> f'}) as [|]; [|left; congruence|right; congruence].
    revert f'. induction f as [|[k v] f IHf]; intros [|[k' v'] f']; try (right; congruence); [left; reflexivity|].
    destruct (decide (k = k')); [|right; congruence].
    destruct (IH v v'); [|right; congruence]. destruct (IHf f'); [left|right]; congruence.
Defined.

(** ** Properties *)

Fixpoint getField (k : string) (f : list (string * value)) : value :=
  match f with
  | [] => Undefined
  | (k', v) :: f => if bool_decide (k = k') then v else getField k f
  end.

(** [{ ...f, [k]: v }]: the place of an existing property is kept. *)
Fixpoint setField (k : string) (v : value) (f : list (string * value)) : list (string * value) :=
  match f with
  | [] => [(k, v)]
  | (k', v') :: f => if bool_decide (k = k') then (k, v) :: f else (k', v') :: setField k v f
  end.

(** [v.k] for a property that no prototype defines. *)
Definition getProp (v : value) (k : string) : res value :=
  match v with
  | Undefined | Null => Throw TypeError
  | Obj f => Ok (getField k f)
  | _ => Ok Undefined
  end.

(** [v?.k]. *)
Definition optProp (v : value) (k : string) : value :=
  match v with Obj f => getField k f | _ => Undefined end.

(** [k in v]. *)
Definition hasProp (v : value) (k : string) : bool :=
  match v with Obj f => existsb (fun kv => bool_decide (fst kv = k)) f | _ => false end.

Definition truthy (v : value) : bool :=
  match v with
  | Undefined | Null => false
  | Bool b => b
  | Num n => negb (n =? 0)%Z
  | Str s => negb (bool_decide (s = ""))
  | Arr _ | Obj _ => true
  end.

(** [a || b] and [a ?? b]. *)
Definition orElse (a b : value) : value := if truthy a then a else b.
Definition coalesce (a b : value) : value :=
  match a with Undefined | Null => b | _ => a end.

Definition typeof (v : value) : string :=
  match v with
  | Undefined => "undefined"
  | Null => "object"
  | Bool _ => "boolean"
  | Num _ => "number"
  | Str _ => "string"
  | Arr _ | Obj _ => "object"
  end.

Definition isString (v : value) : bool := match v with Str _ => true | _ => false end.
Definition isNumber (v : value) : bool := match v with Num _ => true | _ => false end.
Definition isUndefined (v : value) : bool := match v with Undefined => true | _ => false end.

(** [v === s] for a string. *)
Definition isStr (v : value) (s : string) : bool :=
  match v with Str s' => bool_decide (s' = s) | _ => false end.

(** [JSON.parse(JSON.stringify(v))]: undefined properties vanish, undefined
    elements become null. *)
Fixpoint jsonClone (v : value) : value :=
  match v with
  | Arr l => Arr ((fix go l := match l with
                               | [] => []
                               | v :: l => (match v with Undefined => Null | _ => jsonClone v end) :: go l
                               end) l)
  | Obj f => Obj ((fix go f := match f with
                               | [] => []
                               | (k, v) :: f => match v with Undefined => go f | _ => (k, jsonClone v) :: go f end
                               end) f)
  | _ => v
  end.

(** ** Strings *)

Fixpoint strPrefix (p s : string) : bool :=
  match p, s with
  | EmptyString, _ => true
  | String a p, String b s => bool_decide (a = b) && strPrefix p s
  | String _ _, EmptyString => false
  end.

(** [s.startsWith(p)], [s.endsWith(p)], [s.includes(p)]. *)
Definition strStartsWith (s p : string) : bool := strPrefix p s.

Fixpoint strRev (s : string) (acc : string) : string :=
  match s with EmptyString => acc | String a s => strRev s (String a acc) end.

Definition strEndsWith (s p : string) : bool := strPrefix (strRev p "") (strRev s "").

Fixpoint strIncludes (s p : string) : bool :=
  strPrefix p s || match s with EmptyString => false | String _ s => strIncludes s p end.

Fixpoint strDrop (n : nat) (s : string) : string :=
  match n, s with
  | S n, String _ s => strDrop n s
  | _, _ => s
  end.

(** [s.replace(p, r)] for a string pattern: the first occurrence. The sources
    use no [$] in a replacement. *)
Fixpoint strReplace (s p r : string) : string :=
  if strPrefix p s then r ++ strDrop (String.length p) s
  else match s with EmptyString => "" | String a s => String a (strReplace s p r) end.

(** [s.replaceAll(c, '')] and [s.replace(/[..]/g, '')]: the characters outside a set. *)
Fixpoint strKeep (p : Ascii.ascii -> bool) (s : string) : string :=
  match s with
  | EmptyString => ""
  | String a s => if p a then String a (strKeep p s) else strKeep p s
  end.

Definition charIs (n : N) (a : Ascii.ascii) : bool := N.eqb (Ascii.N_of_ascii a) n.

(** [s.slice(0, n)]. *)
Definition strTake (n : nat) (s : string) : string := String.substring 0 n s.

(** [s.trim()]. *)
Fixpoint strTrimStart (s : string) : string :=
  match s with
  | EmptyString => ""
  | String a s' => if isSpace (Z.of_N (Ascii.N_of_ascii a)) then strTrimStart s' else s
  end.
Definition strTrim (s : string) : string := strRev (strTrimStart (strRev (strTrimStart s) "")) "".

(** [`${v}`]. *)
Fixpoint toText (v : value) : string :=
  match v with
  | Undefined => "undefined"
  | Null => "null"
  | Bool true => "true"
  | Bool false => "false"
  | Num n => pretty n
  | Str s => s
  | Arr l =>
      (fix go l := match l with
                   | [] => ""
                   | v :: l => (match v with Undefined | Null => "" | _ => toText v end) ++
                               match l with [] => "" | _ => "," ++ go l end
                   end) l
  | Obj _ => "[object Object]"
  end.

(** ** Laws *)

(** The properties of a clone. *)
Fixpoint cloneFields (f : list (string * value)) : list (string * value) :=
  match f with
  | [] => []
  | (k, v) :: f => match v with Undefined => cloneFields f | _ => (k, jsonClone v) :: cloneFields f end
  end.

Lemma jsonClone_Obj f : jsonClone (Obj f) = Obj (cloneFields f).
Proof. reflexivity. Qed.

Lemma jsonClone_objects l : jsonClone (Arr (map Obj l)) = Arr (map (fun f => Obj (cloneFields f)) l).
Proof. cbn [jsonClone]. f_equal. induction l as [|f l IH]; [done|]. cbn [map]. f_equal. apply IH. Qed.

Lemma getField_absent k f : k ∉ map fst f -> getField k f = Undefined.
Proof.
  induction f as [|[k' v] f IH]; [done|]. cbn [map fst getField]. rewrite not_elem_of_cons. intros [Hk Hf].
  rewrite bool_decide_eq_false_2 by done. by apply IH.
Qed.

Lemma getField_cloneFields k f : NoDup (map fst f) -> getField k (cloneFields f) = jsonClone (getField k f).
Proof.
  induction f as [|[k' v] f IH]; [done|]. cbn [map fst]. intros [Hk Hf]%NoDup_cons. cbn [cloneFields getField].
  case_bool_decide as E.
  - subst k'. destruct v; cbn [getField]; rewrite ?bool_decide_eq_true_2 by done; try done.
    rewrite IH by done. by rewrite getField_absent.
  - destruct v; cbn [getField]; rewrite ?bool_decide_eq_false_2 by done; by apply IH.
Qed.

Lemma getField_setField k v f : getField k (setField k v f) = v.
Proof.
  induction f as [|[k' v'] f IH]; cbn [setField getField].
  - by rewrite bool_decide_eq_true_2.
  - case_bool_decide; cbn [getField]; [by rewrite bool_decide_eq_true_2|]. by rewrite bool_decide_eq_false_2.
Qed.

Lemma getField_setField_ne k k' v f : k <> k' -> getField k' (setField k v f) = getField k' f.
Proof.
  intros Hne. induction f as [|[k0 v0] f IH]; cbn [setField getField].
  - by rewrite bool_decide_eq_false_2.
  - case_bool_decide as H0; cbn [getField]; [|by rewrite IH].
    subst k0. by rewrite !bool_decide_eq_false_2 by congruence.
Qed.

(** An object made of some properties of another. *)
Lemma getField_pick k keys d : k ∈ keys -> getField k (map (fun k => (k, getField k d)) keys) = getField k d.
Proof.
  induction keys as [|k' l IH]; intros Hin; [by apply not_elem_of_nil in Hin|].
  cbn [map getField]. case_bool_decide as Hk; [by subst|].
  apply elem_of_cons in Hin as [->|Hin]; [done|by apply IH].
Qed.

Lemma hasProp_false v k : hasProp v k = false -> optProp v k = Undefined.
Proof.
  destruct v as [| | | | | |f]; try done. cbn [hasProp optProp].
  induction f as [|[k' v] f IH]; [done|]. cbn [existsb fst getField]. intros [Hk Hf]%orb_false_iff.
  apply bool_decide_eq_false in Hk. rewrite bool_decide_eq_false_2 by congruence. by apply IH.
Qed.

Lemma isStr_true v s : isStr v s = true <-> v = Str s.
Proof.
  destruct v; cbn [isStr]; try (split; intros; congruence).
  rewrite bool_decide_eq_true. split; congruence.
Qed.

Lemma strPrefix_app p s : strPrefix p (p ++ s) = true.
Proof.
  induction p as [|a p IH]; [by destruct s|]. 
  change (String a p ++ s) with (String a (p ++ s)). cbn [strPrefix]. by rewrite bool_decide_eq_true_2.
Qed.

Lemma strPrefix_spec p s : strPrefix p s = true <-> exists t, s = p ++ t.
Proof.
  split; [|by intros [t ->]; apply strPrefix_app].
  revert s. induction p as [|a p IH]; intros s H; [by exists s|].
  destruct s as [|b s]; [done|]. cbn [strPrefix] in H. apply andb_true_iff in H as [Hab H].
  apply bool_decide_eq_true in Hab as ->. apply IH in H as [t ->]. by exists t.
Qed.
