(* ===== verification/JsRegExp.v ===== *)
(** Regular expressions as the sources use them in [test]: character classes,
    sequence, alternation, repetition, anchors and word boundaries. [mt] is the
    backtracking matcher, [den] the language of an expression as a relation between
    positions, and [mt_spec] says that the matcher decides it. *)
From S2P Require Import Prelude.
#[local] Open Scope Z_scope.

Inductive re :=
  | Eps
  | Char (p : Z -> bool)
  | Seq (r1 r2 : re)
  | Alt (r1 r2 : re)
  | Star (r : re)
  | Boundary              (* \b *)
  | Start                 (* ^, without the flag m *)
  | End.                  (* $, without the flag m *)

(** ** Notations of the syntax *)

Definition opt (r : re) : re := Alt r Eps.
Definition plus (r : re) : re := Seq r (Star r).

Definition range (a b u : Z) : bool := (a <=? u) && (u <=? b).
Definition lit (c : Z) : re := Char (Z.eqb c).
Definition digit : re := Char (range 48 57).                       (* \d *)

(** The characters one after the other. *)
Definition word (s : string) : re := fold_right (fun c r => Seq (lit c) r) Eps (js s).
Definition alternatives (l : list re) : re :=
  match l with [] => Char (fun _ => false) | r :: l => fold_left Alt l r end.

(** Letters and digits of either case, for the flag i. *)
Definition lower (u : Z) : Z := if range 65 90 u then u + 32 else u.
Definition litI (c : Z) : re := Char (fun u => lower u =? lower c).
Definition wordI (s : string) : re := fold_right (fun c r => Seq (litI c) r) Eps (js s).

(** ** Matching *)

(** The character in front of a position, and the text behind it. *)
Definition isWordUnit (u : Z) : bool := range 48 57 u || range 65 90 u || range 97 122 u || (u =? 95).
Definition wordAt (u : option Z) : bool := match u with Some u => isWordUnit u | None => false end.
Definition boundary (prev : option Z) (s : jsstr) : bool := xorb (wordAt prev) (wordAt (head s)).

(** Repetition stops at an iteration that consumes nothing. *)
Fixpoint mt (r : re) (prev : option Z) (s : jsstr) (k : option Z -> jsstr -> bool) {struct r} : bool :=
  match r with
  | Eps => k prev s
  | Char p => match s with u :: s => p u && k (Some u) s | [] => false end
  | Seq r1 r2 => mt r1 prev s (fun prev s => mt r2 prev s k)
  | Alt r1 r2 => mt r1 prev s k || mt r2 prev s k
  | Star r =>
      (fix loop (n : nat) prev s :=
         match n with
         | O => k prev s
         | S n => mt r prev s (fun prev' s' => (length s' <? length s)%nat && loop n prev' s') || k prev s
         end) (length s) prev s
  | Boundary => boundary prev s && k prev s
  | Start => match prev with None => k prev s | Some _ => false end
  | End => match s with [] => k prev s | _ :: _ => false end
  end.

(** From some position on. *)
Fixpoint search (r : re) (prev : option Z) (s : jsstr) : bool :=
  mt r prev s (fun _ _ => true) || match s with [] => false | u :: s => search r (Some u) s end.

(** [re.test(s)]. *)
Definition test (r : re) (s : jsstr) : bool := search r None s.

(** ** The language of an expression *)

Inductive den : re -> option Z -> jsstr -> option Z -> jsstr -> Prop :=
  | den_eps p s : den Eps p s p s
  | den_char c p u s : c u = true -> den (Char c) p (u :: s) (Some u) s
  | den_seq r1 r2 p s p1 s1 p2 s2 : den r1 p s p1 s1 -> den r2 p1 s1 p2 s2 -> den (Seq r1 r2) p s p2 s2
  | den_left r1 r2 p s p' s' : den r1 p s p' s' -> den (Alt r1 r2) p s p' s'
  | den_right r1 r2 p s p' s' : den r2 p s p' s' -> den (Alt r1 r2) p s p' s'
  | den_nil r p s : den (Star r) p s p s
  | den_step r p s p1 s1 p2 s2 : den r p s p1 s1 -> den (Star r) p1 s1 p2 s2 -> den (Star r) p s p2 s2
  | den_boundary p s : boundary p s = true -> den Boundary p s p s
  | den_start s : den Start None s None s
  | den_end p : den End p [] p [].

(** A match stays where it is or consumes something. *)
Lemma den_progress r p s p' s' : den r p s p' s' -> (p' = p /\ s' = s) \/ (length s' < length s)%nat.
Proof. induction 1; cbn; try (by left); try lia; intuition (subst; auto; lia). Qed.

Lemma star_complete r p s p' s' k n :
  (forall p s k, (exists p' s', den r p s p' s' /\ k p' s' = true) -> mt r p s k = true) ->
  den (Star r) p s p' s' -> k p' s' = true -> (length s <= n)%nat ->
  (fix loop (n : nat) prev s :=
     match n with
     | O => k prev s
     | S n => mt r prev s (fun prev' s' => (length s' <? length s)%nat && loop n prev' s') || k prev s
     end) n p s = true.
Proof.
  intros Hr Hd Hk. revert n. remember (Star r) as rs eqn:Ers.
  induction Hd as [| | | | |r0 p s|r0 p s p1 s1 p2 s2 Hd1 _ Hd2 IH2| | |]; try done; injection Ers as ->; intros n Hn.
  - destruct n; [done|]. by rewrite Hk, orb_true_r.
  - destruct (den_progress _ _ _ _ _ Hd1) as [[-> ->]|Hlt]; [by apply IH2|].
    destruct n as [|n]; [lia|]. apply orb_true_iff. left. apply Hr. exists p1, s1. split; [done|].
    apply andb_true_iff. split; [by apply Nat.ltb_lt|]. apply IH2; [done|done|lia].
Qed.

Theorem mt_spec r p s k : mt r p s k = true <-> exists p' s', den r p s p' s' /\ k p' s' = true.
Proof.
  revert p s k. induction r as [|c|r1 IH1 r2 IH2|r1 IH1 r2 IH2|r IH| | |]; intros p s k; cbn [mt].
  - split; [intros H; do 2 eexists; split; [constructor|done]|]. by intros (? & ? & Hd & H); inversion Hd; subst.
  - split.
    + destruct s as [|u s]; [done|]. intros [Hc H]%andb_true_iff. do 2 eexists. split; [by constructor|done].
    + intros (? & ? & Hd & H). inversion Hd as [|? ? u s0 Hc| | | | | | | |]; subst. by rewrite Hc.
  - rewrite IH1. split.
    + intros (p1 & s1 & Hd1 & (p2 & s2 & Hd2 & H)%IH2). exists p2, s2. split; [by econstructor|done].
    + intros (? & ? & Hd & H). inversion Hd; subst. do 2 eexists. split; [done|]. apply IH2. eauto.
  - rewrite orb_true_iff, IH1, IH2. split.
    + intros [(? & ? & Hd & H)|(? & ? & Hd & H)]; do 2 eexists; (split; [|exact H]); by constructor.
    + intros (? & ? & Hd & H). inversion Hd; subst; eauto.
  - split.
    + generalize (length s) as n. intros n. revert p s. induction n as [|n IHn]; intros p s H.
      { do 2 eexists. split; [constructor|done]. }
      apply orb_true_iff in H as [(p1 & s1 & Hd & [_ H]%andb_true_iff)%IH|H].
      * apply IHn in H as (p2 & s2 & Hd2 & H). do 2 eexists. split; [by eapply den_step|done].
      * do 2 eexists. split; [constructor|done].
    + intros (p' & s' & Hd & H). eapply star_complete; [|done|done|done]. intros. by apply IH.
  - split.
    + intros [Hb H]%andb_true_iff. do 2 eexists. split; [by constructor|done].
    + intros (? & ? & Hd & H). inversion Hd as [| | | | | | |? ? Hb| |]; subst. by rewrite Hb.
  - split.
    + destruct p; [done|]. intros H. do 2 eexists. split; [constructor|done].
    + intros (? & ? & Hd & H). by inversion Hd; subst.
  - split.
    + destruct s; [|done]. intros H. do 2 eexists. split; [constructor|done].
    + intros (? & ? & Hd & H). by inversion Hd; subst.
Qed.

(** An expression that begins with an anchor is tried at the front only. *)
Lemma search_start r u s : search (Seq Start r) (Some u) s = false.
Proof. revert u. induction s as [|v s IH]; intros u; [done|]. cbn [search]. by rewrite IH. Qed.

Lemma test_anchored r s :
  test (Seq Start (Seq r End)) s = true <-> exists p, den r None s p [].
Proof.
  unfold test. assert (search (Seq Start (Seq r End)) None s = mt (Seq Start (Seq r End)) None s (fun _ _ => true)) as ->.
  { destruct s as [|u s]; cbn [search]; [by rewrite orb_false_r|]. by rewrite search_start, orb_false_r. }
  rewrite mt_spec. split.
  - intros (p' & s' & Hd & _). inversion Hd as [| |? ? ? ? ? ? ? ? H1 H2| | | | | | |]; subst. inversion H1; subst.
    inversion H2 as [| |? ? ? ? p3 s3 ? ? H3 H4| | | | | | |]; subst. inversion H4; subst. by exists p'.
  - intros [p Hd]. exists p, []. split; [|done]. econstructor; [constructor|]. econstructor; [exact Hd|constructor].
Qed.

(** What the expression consumes, as strings. *)
Definition consumes (r : re) (L : jsstr -> Prop) : Prop :=
  forall p s s', (exists p', den r p s p' s') <-> exists l, L l /\ s = (l ++ s')%list.

Lemma consumes_char c : consumes (Char c) (fun l => exists u, l = [u] /\ c u = true).
Proof.
  intros p s s'. split.
  - intros [p' Hd]. inversion Hd; subst. eexists. split; [by eexists|done].
  - intros (l & (u & -> & Hc) & ->). exists (Some u). by constructor.
Qed.

Lemma consumes_eps : consumes Eps (fun l => l = []).
Proof.
  intros p s s'. split; [intros [p' Hd]; inversion Hd; subst; by exists []|]. intros (l & -> & ->). exists p. constructor.
Qed.

Lemma consumes_seq r1 r2 L1 L2 :
  consumes r1 L1 -> consumes r2 L2 ->
  consumes (Seq r1 r2) (fun l => exists l1 l2, l = (l1 ++ l2)%list /\ L1 l1 /\ L2 l2).
Proof.
  intros H1 H2 p s s'. split.
  - intros [p' Hd]. inversion Hd as [| |? ? ? ? p1 s1 ? ? Hd1 Hd2| | | | | | |]; subst.
    assert (exists l1, L1 l1 /\ s = (l1 ++ s1)%list) as (l1 & HL1 & ->) by (apply (H1 p); eauto).
    assert (exists l2, L2 l2 /\ s1 = (l2 ++ s')%list) as (l2 & HL2 & ->) by (apply (H2 p1); eauto).
    exists (l1 ++ l2)%list. split; [by exists l1, l2|by rewrite app_assoc].
  - intros (l & (l1 & l2 & -> & HL1 & HL2) & ->). rewrite <- app_assoc.
    assert (exists p1, den r1 p (l1 ++ l2 ++ s') p1 (l2 ++ s')) as [p1 Hd1] by (apply H1; eauto).
    assert (exists p2, den r2 p1 (l2 ++ s') p2 s') as [p2 Hd2] by (apply H2; eauto).
    exists p2. by econstructor.
Qed.

Lemma consumes_alt r1 r2 L1 L2 :
  consumes r1 L1 -> consumes r2 L2 -> consumes (Alt r1 r2) (fun l => L1 l \/ L2 l).
Proof.
  intros H1 H2 p s s'. split.
  - intros [p' Hd]. inversion Hd; subst.
    + assert (exists l, L1 l /\ s = (l ++ s')%list) as (l & ? & ->) by (apply (H1 p); eauto). exists l. auto.
    + assert (exists l, L2 l /\ s = (l ++ s')%list) as (l & ? & ->) by (apply (H2 p); eauto). exists l. auto.
  - intros (l & [HL|HL] & ->).
    + assert (exists p', den r1 p (l ++ s') p' s') as [p' Hd] by (apply H1; eauto). exists p'. by constructor.
    + assert (exists p', den r2 p (l ++ s') p' s') as [p' Hd] by (apply H2; eauto). exists p'. by constructor.
Qed.

Lemma consumes_star r L :
  consumes r L -> consumes (Star r) (fun l => exists ls, l = concat ls /\ Forall L ls).
Proof.
  intros Hr p s s'. split.
  - intros [p' Hd]. remember (Star r) as rs eqn:Ers. revert Ers.
    induction Hd as [| | | | |r0 p s|r0 p s p1 s1 p2 s2 Hd1 _ Hd2 IH2| | |]; intros Ers; try done; injection Ers as ->.
    + exists []. split; [by exists []|done].
    + assert (exists l, L l /\ s = (l ++ s1)%list) as (l & HL & ->) by (apply (Hr p); eauto).
      destruct (IH2 eq_refl) as (l' & (ls & -> & Hls) & ->). exists (l ++ concat ls)%list.
      split; [exists (l :: ls); split; [done|by constructor]|by rewrite app_assoc].
  - intros (l & (ls & -> & Hls) & ->). revert p. induction Hls as [|l ls HL Hls IH]; intros p; [exists p; constructor|].
    cbn [concat]. rewrite <- app_assoc.
    assert (exists p1, den r p (l ++ concat ls ++ s') p1 (concat ls ++ s')) as [p1 Hd1] by (apply Hr; eauto).
    destruct (IH p1) as [p2 Hd2]. exists p2. by eapply den_step.
Qed.

Lemma consumes_ext r L L' : (forall l, L l <-> L' l) -> consumes r L -> consumes r L'.
Proof. intros HL Hr p s s'. rewrite (Hr p s s'). by setoid_rewrite HL. Qed.

(** An anchored expression accepts the strings it consumes. *)
Lemma test_consumes r L s : consumes r L -> test (Seq Start (Seq r End)) s = true <-> L s.
Proof.
  intros Hr. rewrite test_anchored, (Hr None s []). split.
  - intros (l & HL & ->). by rewrite app_nil_r.
  - intros HL. exists s. by rewrite app_nil_r.
Qed.
