(* ===== verification/Validate.v ===== *)
(** The validators of [packages/utils/src/validate.ts]. *)
From S2P Require Import Prelude JsString JsNumber JsValue JsRegExp.
From stdpp Require Import list.
#[local] Open Scope Z_scope.

Module Validate.

(** ** Values *)

(** A bound that may be left out. *)
Definition above (n : Z) (min : option Z) : bool := match min with Some m => m <=? n | None => true end.
Definition below (n : Z) (max : option Z) : bool := match max with Some m => n <=? m | None => true end.

(** The numbers of a [value] are integers, hence finite. *)
Definition isValidNumber (v : value) (min max : option Z) : bool :=
  match v with Num n => above n min && below n max | _ => false end.

Definition isValidBoolean (v : value) : bool := match v with Bool _ => true | _ => false end.

Definition isValidString (v : value) (minLength maxLength : option Z) : bool :=
  match v with
  | Str s => let n := Z.of_nat (String.length s) in above n minLength && below n maxLength
  | _ => false
  end.

Definition isValidObject (v : value) (minLength maxLength : option Z) : bool :=
  match v with
  | Obj f => let n := Z.of_nat (length f) in above n minLength && below n maxLength
  | _ => false
  end.

Definition isValidArray (v : value) (minLength maxLength : option Z) : bool :=
  match v with
  | Arr l => let n := Z.of_nat (length l) in above n minLength && below n maxLength
  | _ => false
  end.

Definition isValidNull (v : value) : bool := match v with Null => true | _ => false end.
Definition isValidUndefined (v : value) : bool := match v with Undefined => true | _ => false end.

(** ** Addresses *)

(** [25[0-5]|2[0-4][0-9]|[01]?[0-9][0-9]?]. *)
Definition octet : re :=
  Alt (Alt (Seq (lit 50) (Seq (lit 53) (Char (range 48 53)))) (Seq (lit 50) (Seq (Char (range 48 52)) (Char (range 48 57)))))
      (Seq (opt (Char (range 48 49))) (Seq (Char (range 48 57)) (opt (Char (range 48 57))))).

Definition ipv4Regex : re :=
  Seq octet (Seq (lit 46) (Seq octet (Seq (lit 46) (Seq octet (Seq (lit 46) octet))))).

Definition isValidIpv4Address (ipv4Address : jsstr) : bool := test (Seq Start (Seq ipv4Regex End)) ipv4Address.

(** ** Versions *)

(** [\d+] in front of a string, as a number, and what follows. *)
Definition leadingNumber (s : jsstr) : option (Z * jsstr) :=
  let '(n, count, rest) := readDigits 10 s 0 0 in if count =? 0 then None else Some (n, rest).

Definition leadingDot (s : jsstr) : option jsstr := match s with 46 :: s => Some s | _ => None end.

(** [/^(\d+)\.(\d+)\.(\d+)/]: the digits are taken greedily, since no shorter run of
    them is followed by a dot. *)
Definition versionMatch (s : jsstr) : option (Z * Z * Z) :=
  '(major, s) ← leadingNumber s; s ← leadingDot s; '(minor, s) ← leadingNumber s; s ← leadingDot s;
  '(patch, _) ← leadingNumber s; Some (major, minor, patch).

Definition parseVersionString (versionString : value) : option Z :=
  match versionString with
  | Str s =>
      '(major, minor, patch) ← versionMatch (trim (js s));
      if (99 <? major) || (99 <? minor) || (99 <? patch) then None
      else Some (major * 10000 + minor * 100 + patch)
  | _ => None
  end.
End Validate.
Import Validate.

(** ** Addresses *)

Definition digitsValue (l : jsstr) : Z := foldl (fun n u => n * 10 + (u - 48)) 0 l.

(** One to three digits with a value of at most 255; zeros in front are allowed. *)
Definition octetText (l : jsstr) : Prop :=
  (1 <= length l <= 3)%nat /\ Forall (fun u => 48 <= u <= 57) l /\ digitsValue l <= 255.

Lemma range_true a b u : range a b u = true <-> a <= u <= b.
Proof. unfold range. rewrite andb_true_iff, !Z.leb_le. done. Qed.

Lemma octet_consumes : consumes octet octetText.
Proof.
  eapply consumes_ext; [|repeat (apply consumes_alt || apply consumes_seq || apply consumes_char || apply consumes_eps)].
  intros l. unfold octetText. split.
  - intros H. repeat match goal with
    | H : _ \/ _ |- _ => destruct H as [H|H]
    | H : exists _, _ |- _ => destruct H as [? H]
    | H : _ /\ _ |- _ => destruct H as [? H]
    | H : range _ _ _ = true |- _ => apply range_true in H
    | H : (_ =? _) = true |- _ => apply Z.eqb_eq in H
    end; subst; cbn; rewrite ?Forall_cons; (split; [lia|split; [repeat split; try lia; try constructor|unfold digitsValue; cbn; lia]]).
  - intros (Hlen & Hd & Hv). unfold digitsValue in Hv. destruct l as [|a [|b [|c [|]]]]; cbn in *; try lia;
      rewrite ?Forall_cons in Hd; destruct_and?.
    + right. exists [], [a]. split; [done|]. split; [by right|]. exists [a], []. split; [done|].
      split; [exists a; split; [done|by apply range_true]|by right].
    + right. exists [], [a; b]. split; [done|]. split; [by right|]. exists [a], [b]. split; [done|].
      split; [exists a; split; [done|by apply range_true]|left; exists b; split; [done|by apply range_true]].
    + destruct (decide (a <= 49)) as [Ha|Ha].
      { right. exists [a], [b; c]. split; [done|]. split; [left; exists a; split; [done|apply range_true; lia]|].
        exists [b], [c]. split; [done|]. split; [exists b; split; [done|by apply range_true]|].
        left. exists c. split; [done|by apply range_true]. }
      left. destruct (decide (b <= 52)) as [Hb|Hb].
      * right. exists [a], [b; c]. split; [done|]. split; [exists a; split; [done|by replace a with 50 by lia]|].
        exists [b], [c]. split; [done|]. split; eexists; (split; [done|apply range_true; lia]).
      * left. exists [a], [b; c]. split; [done|]. split; [exists a; split; [done|by replace a with 50 by lia]|].
        exists [b], [c]. split; [done|]. split; [exists b; split; [done|by replace b with 53 by lia]|].
        exists c. split; [done|apply range_true; lia].
Qed.

(** An address is accepted exactly when it is four octets with dots between
    them, an octet being one to three digits of value at most 255. *)
Theorem isValidIpv4Address_exact s :
  isValidIpv4Address s = true <->
  exists a b c d, s = joinWith [46] [a; b; c; d] /\ Forall octetText [a; b; c; d].
Proof.
  unfold isValidIpv4Address.
  rewrite (test_consumes ipv4Regex _ s (consumes_seq _ _ _ _ octet_consumes (consumes_seq _ _ _ _ (consumes_char _)
    (consumes_seq _ _ _ _ octet_consumes (consumes_seq _ _ _ _ (consumes_char _)
    (consumes_seq _ _ _ _ octet_consumes (consumes_seq _ _ _ _ (consumes_char _) octet_consumes))))))).
  split.
  - intros (a & ? & -> & Ha & ? & ? & -> & (? & -> & E1) & b & ? & -> & Hb & ? & ? & -> & (? & -> & E2) & c & ? & -> & Hc &
            ? & d & -> & (? & -> & E3) & Hd).
    apply Z.eqb_eq in E1 as <-, E2 as <-, E3 as <-. exists a, b, c, d. split; [done|]. by rewrite !Forall_cons.
  - intros (a & b & c & d & -> & Hall). rewrite !Forall_cons in Hall. destruct Hall as (Ha & Hb & Hc & Hd & _).
    exists a, ([46] ++ b ++ [46] ++ c ++ [46] ++ d)%list. split; [done|]. split; [done|].
    exists [46], (b ++ [46] ++ c ++ [46] ++ d)%list. split; [done|]. split; [by exists 46|].
    exists b, ([46] ++ c ++ [46] ++ d)%list. split; [done|]. split; [done|].
    exists [46], (c ++ [46] ++ d)%list. split; [done|]. split; [by exists 46|].
    exists c, ([46] ++ d)%list. split; [done|]. split; [done|].
    exists [46], d. split; [done|]. split; [by exists 46|done].
Qed.

(** ** Versions *)

(** What may follow a number: no digit. *)
Definition ends (s : jsstr) : Prop := match s with u :: _ => ~ (48 <= u <= 57) | [] => True end.

Lemma digitVal_none u : ~ (48 <= u <= 57) -> digitVal 10 u = None.
Proof.
  intros Hu. unfold digitVal. repeat (match goal with |- context [if ?b then _ else _] => destruct b eqn:? end); bool_facts; lia || done.
Qed.

Lemma leadingNumber_dec n s : 0 <= n -> ends s -> leadingNumber (dec n ++ s) = Some (n, s).
Proof.
  intros Hn Hs. unfold leadingNumber, dec. destruct (readDigits_toString 10 n s ltac:(lia) Hn) as (k & Hk & ->).
  assert (readDigits 10 s n k = (n, k, s)) as ->.
  { destruct s as [|u s]; [done|]. cbn [readDigits]. by rewrite digitVal_none. }
  by rewrite (proj2 (Z.eqb_neq k 0)) by lia.
Qed.

(** A version [a.b.c], with spaces around it and anything behind it that is no
    digit, is turned into the number [10000 a + 100 b + c] if the three numbers have
    at most two digits, and refused otherwise. *)
Theorem parseVersionString_exact s a b c t :
  trim (js s) = (joinWith [46] (map dec [a; b; c]) ++ t)%list -> ends t -> 0 <= a -> 0 <= b -> 0 <= c ->
  parseVersionString (Str s) =
    if decide (a <= 99 /\ b <= 99 /\ c <= 99) then Some (a * 10000 + b * 100 + c) else None.
Proof.
  intros Hs Ht Ha Hb Hc. unfold parseVersionString, versionMatch. rewrite Hs. cbn [map joinWith]. rewrite <- !app_assoc.
  rewrite leadingNumber_dec by (done || (cbn; lia)). cbn [mbind option_bind leadingDot app].
  rewrite leadingNumber_dec by (done || (cbn; lia)). cbn [mbind option_bind leadingDot app].
  rewrite leadingNumber_dec by done. cbn [mbind option_bind].
  destruct (decide _) as [Hd|Hd].
  - by rewrite !(proj2 (Z.ltb_ge 99 _)) by lia.
  - destruct (99 <? a) eqn:Ea; [done|]. destruct (99 <? b) eqn:Eb; [done|]. destruct (99 <? c) eqn:Ec; [done|]. bool_facts. lia.
Qed.

Lemma parseVersionString_exact_witness :
  trim (js " 3.10.2-dev ") = (joinWith [46] (map dec [3; 10; 2]) ++ js "-dev")%list /\
  parseVersionString (Str " 3.10.2-dev ") = Some 31002.
Proof.
  split; [by vm_compute|].
  rewrite (parseVersionString_exact " 3.10.2-dev " 3 10 2 (js "-dev")); [done|by vm_compute|cbn; lia..].
Defined.
