(* ===== verification/Deep.v ===== *)
(** The copies and the comparison of JavaScript values: [deepCopy.ts] and [deepEqual.ts] of
    [packages/utils/src], and [getSnapshot] of
    [packages/core/src/matterbridgeEndpointHelpers.ts]. Objects live in a store, so that a
    copy can be told from what it was made of. *)
From S2P Require Import Prelude JsValue.
From stdpp Require Import gmap strings pretty.
#[local] Open Scope string_scope.
#[local] Set Warnings "-clear-no-such-hyp,-register-all".

Module Deep.

(** ** Values *)

(** Primitives, functions, and references to objects. *)
Inductive val :=
  | VUndefined
  | VNull
  | VBool (b : bool)
  | VNum (n : Z)
  | VNaN
  | VStr (s : string)
  | VFun (f : nat)
  | VRef (l : nat).

#[export] Instance val_eq_dec : EqDecision val.
Proof. solve_decision. Defined.

(** The kinds of objects that the functions tell apart. A buffer is a [Uint8Array] with
    another prototype; the properties of other objects are their own ones. *)
Inductive cell :=
  | CArray (l : list val)
  | CObject (proto : string) (props : list (string * val))
  | CDate (time : val)
  | CRegExp (source flags : string) (lastIndex : Z)
  | CMap (entries : list (val * val))
  | CSet (items : list val)
  | CBytes (buffer : bool) (l : list Z).

Abbreviation heap := (gmap nat cell) (only parsing).

(** [a === b]. *)
Definition strictEq (a b : val) : bool := negb (bool_decide (a = VNaN)) && bool_decide (a = b).

Definition typeOf (v : val) : string :=
  match v with
  | VUndefined => "undefined"
  | VNull | VRef _ => "object"
  | VBool _ => "boolean"
  | VNum _ | VNaN => "number"
  | VStr _ => "string"
  | VFun _ => "function"
  end.

(** [v == null]. *)
Definition nullish (v : val) : bool := match v with VUndefined | VNull => true | _ => false end.

Definition cellOf (h : heap) (v : val) : option cell := match v with VRef l => h !! l | _ => None end.

Definition indexed {A} (f : A -> val) (l : list A) : list (string * val) := imap (fun i x => (pretty i, f x)) l.

(** The own properties, those of [Object.getOwnPropertyNames]. *)
Definition ownProps (c : cell) : list (string * val) :=
  match c with
  | CArray l => (indexed id l ++ [("length", VNum (Z.of_nat (length l)))])%list
  | CObject _ props => props
  | CRegExp _ _ i => [("lastIndex", VNum i)]
  | CDate _ | CMap _ | CSet _ => []
  | CBytes _ l => indexed VNum l
  end.

Fixpoint propOf (k : string) (props : list (string * val)) : option val :=
  match props with
  | [] => None
  | (k', v) :: props => if bool_decide (k = k') then Some v else propOf k props
  end.

(** ** Comparison *)

(** The loops: they end at the first element that fails. *)
Fixpoint every {A} (f : A -> res bool) (l : list A) : res bool :=
  match l with
  | [] => Ok true
  | x :: l => f x ≫= fun b : bool => if b then every f l else Ok false
  end.

Definition kept (exclude : list string) (prop : string) : bool := negb (bool_decide (prop ∈ exclude)).

(** [fuel] bounds the depth of the calls; beyond it the stack overflows. *)
Fixpoint deepEqual (fuel : nat) (h : heap) (exclude : list string) (a b : val) : res bool :=
  match fuel with
  | O => Throw RangeError
  | S n =>
      if strictEq a b then Ok true
      else if negb (bool_decide (typeOf a = typeOf b)) then Ok false
      else if nullish a || nullish b then Ok false
      else match cellOf h a, cellOf h b with
           | Some (CDate t), Some (CDate t') => Ok (strictEq t t')
           | Some (CRegExp s f _), Some (CRegExp s' f' _) => Ok (bool_decide (s = s') && bool_decide (f = f'))
           | Some (CArray l), Some (CArray l') =>
               if negb (Nat.eqb (length l) (length l')) then Ok false
               else every (fun '(x, y) => deepEqual n h exclude x y) (zip l l')
           | Some c, Some c' =>
               let included := fun kv : string * val => kept exclude (fst kv) in
               let aProps := List.filter included (ownProps c) in
               let bProps := List.filter included (ownProps c') in
               if negb (Nat.eqb (length aProps) (length bProps)) then Ok false
               else every (fun '(k, x) => match propOf k (ownProps c') with
                                          | Some y => deepEqual n h exclude x y
                                          | None => Ok false
                                          end) aProps
           | _, _ => Ok false
           end
  end.

(** The comparison on data without references, [exclude] being empty: those of attributes.
    Arrays that are compared with other objects show their own properties. *)
Fixpoint fieldOf (k : string) (f : list (string * value)) : option value :=
  match f with
  | [] => None
  | (k', v) :: f => if bool_decide (k = k') then Some v else fieldOf k f
  end.

Definition arrayFields (l : list value) : list (string * value) :=
  (imap (fun i x => (pretty i, x)) l ++ [("length", Num (Z.of_nat (length l)))])%list.

Fixpoint equal (a b : value) : bool :=
  let within := fun (g : list (string * value)) (k : string) (x : value -> bool) =>
    match fieldOf k g with Some y => x y | None => false end in
  match a, b with
  | Arr l, Arr l' =>
      Nat.eqb (length l) (length l') &&
      (fix go l l' := match l, l' with x :: l, y :: l' => equal x y && go l l' | _, _ => true end) l l'
  | Arr l, Obj g =>
      Nat.eqb (S (length l)) (length g) &&
      ((fix go i l := match l with x :: l => within g (pretty i) (equal x) && go (S i) l | [] => true end) O l &&
       within g "length" (fun y => bool_decide (Num (Z.of_nat (length l)) = y)))
  | Obj f, (Arr _ | Obj _) =>
      let g := match b with Arr l => arrayFields l | Obj g => g | _ => [] end in
      Nat.eqb (length f) (length g) &&
      (fix go f := match f with (k, x) :: f => within g k (equal x) && go f | [] => true end) f
  | (Arr _ | Obj _), _ => false
  | _, _ => bool_decide (a = b)
  end.

(** ** Copies *)

(** [map.set(k, v)] and [set.add(v)]. *)
Fixpoint mapSet (k v : val) (m : list (val * val)) : list (val * val) :=
  match m with
  | [] => [(k, v)]
  | (k', v') :: m => if bool_decide (k = k') then (k', v) :: m else (k', v') :: mapSet k v m
  end.
Definition setAdd (s : list val) (v : val) : list val := if bool_decide (v ∈ s) then s else (s ++ [v])%list.

(** The values that are copied before an object is, in the order of the visits. *)
Definition parts (c : cell) : list val :=
  match c with
  | CArray l => l
  | CObject _ props => map snd props
  | CMap entries => concat (map (fun '(k, v) => [k; v]) entries)
  | CSet items => items
  | CBytes _ l => map VNum l
  | CDate _ | CRegExp _ _ _ => []
  end.

Fixpoint pairs (l : list val) : list (val * val) :=
  match l with
  | k :: v :: l => (k, v) :: pairs l
  | _ => []
  end.

Definition rekey (props : list (string * val)) (vs : list val) : list (string * val) := zip (map fst props) vs.

(** What both functions make of the copies [vs] of the parts of a container. *)
Definition container (c : cell) (vs : list val) : option cell :=
  match c with
  | CArray _ => Some (CArray vs)
  | CDate t => Some (CDate t)
  | CRegExp s f _ => Some (CRegExp s f 0)
  | CMap _ => Some (CMap (foldl (fun m '(k, v) => mapSet k v m) [] (pairs vs)))
  | CSet _ => Some (CSet (foldl setAdd [] vs))
  | CObject _ _ | CBytes _ _ => None
  end.

(** [deepCopy] keeps prototypes; the elements of bytes become properties of an object that
    holds no bytes. *)
Definition copied (c : cell) (vs : list val) : cell :=
  match container c vs, c with
  | Some c', _ => c'
  | None, CObject proto props => CObject proto (rekey props vs)
  | None, CBytes b l => CObject (if b then "Buffer" else "Uint8Array") (rekey (indexed VNum l) vs)
  | None, _ => c
  end.

(** [getSnapshot] copies bytes, and makes plain objects. *)
Definition snapshot (c : cell) (vs : list val) : cell :=
  match container c vs, c with
  | Some c', _ => c'
  | None, CObject _ props => CObject "Object" (rekey props vs)
  | None, c => c
  end.

Definition alloc (h : heap) (c : cell) : heap * val := let l := fresh (dom h) in (<[l := c]> h, VRef l).

Fixpoint copyAll (f : heap -> val -> res (heap * val)) (h : heap) (l : list val) : res (heap * list val) :=
  match l with
  | [] => Ok (h, [])
  | v :: l => '(h, v') ← f h v; '(h, l') ← copyAll f h l; Ok (h, v' :: l')
  end.

Fixpoint copyWith (make : cell -> list val -> cell) (fuel : nat) (h : heap) (v : val) : res (heap * val) :=
  match fuel with
  | O => Throw RangeError
  | S n =>
      match cellOf h v with
      | Some c => '(h, vs) ← copyAll (copyWith make n) h (parts c); Ok (alloc h (make c vs))
      | None => Ok (h, v)
      end
  end.

Definition deepCopy : nat -> heap -> val -> res (heap * val) := copyWith copied.
Definition getSnapshot : nat -> heap -> val -> res (heap * val) := copyWith snapshot.
End Deep.

Import Deep.
Abbreviation heap := (gmap nat cell) (only parsing).

(** ** Copies are detached *)

(** The objects that a value leads to. *)
Inductive reach (h : heap) : val -> nat -> Prop :=
  | reach_here l : reach h (VRef l) l
  | reach_part l c v l' : h !! l = Some c -> v ∈ parts c -> reach h v l' -> reach h (VRef l) l'.

(** References lead to objects. *)
Definition defined (h : heap) (v : val) : Prop := forall l, v = VRef l -> is_Some (h !! l).
Definition Closed (h : heap) : Prop := forall l c, h !! l = Some c -> Forall (defined h) (parts c).

(** Values that [h'] has and [h] has not, primitives apart. *)
Definition newVal (h h' : heap) (v : val) : Prop := forall l, v = VRef l -> h !! l = None /\ is_Some (h' !! l).

(** [h'] extends [h] by objects that refer to new ones only. *)
Record extends (h h' : heap) : Prop := {
  extends_sub : h ⊆ h';
  extends_new : forall l c, h' !! l = Some c -> h !! l = None -> Forall (newVal h h') (parts c)
}.

Lemma newVal_mono h1 h2 h3 h4 v : h1 ⊆ h2 -> h3 ⊆ h4 -> newVal h2 h3 v -> newVal h1 h4 v.
Proof.
  intros H12 H34 Hv l ->. destruct (Hv l eq_refl) as [Hn [c Hc]]. split.
  - by eapply lookup_weaken_None.
  - exists c. by eapply lookup_weaken.
Qed.

#[export] Instance extends_preorder : PreOrder extends.
Proof.
  split.
  - intros h. split; [done|]. congruence.
  - intros h1 h2 h3 [S12 N12] [S23 N23]. split; [by etrans|]. intros l c Hc Hn.
    destruct (h2 !! l) as [c'|] eqn:E.
    + pose proof (lookup_weaken _ _ _ _ E S23) as E'. assert (c' = c) as -> by congruence.
      eapply Forall_impl; [by apply (N12 l)|]. intros v. by apply newVal_mono.
    + eapply Forall_impl; [by apply (N23 l)|]. intros v. by apply newVal_mono.
Qed.

Lemma defined_mono h h' v : h ⊆ h' -> defined h v -> defined h' v.
Proof. intros Hs Hd l ->. destruct (Hd l eq_refl) as [c Hc]. exists c. by eapply lookup_weaken. Qed.

Lemma extends_closed h h' : Closed h -> extends h h' -> Closed h'.
Proof.
  intros Hc He l c Hl. destruct (h !! l) as [c'|] eqn:E.
  - assert (c' = c) as -> by (pose proof (lookup_weaken _ _ _ _ E (extends_sub _ _ He)); congruence).
    eapply Forall_impl; [by apply (Hc l)|]. intros v. apply defined_mono, He.
  - eapply Forall_impl; [by apply (extends_new _ _ He l)|]. intros v Hv l' Hl'. by apply Hv.
Qed.

(** The functions put the copies of the parts, and nothing else, into a copy. *)
Definition fills (make : cell -> list val -> cell) : Prop :=
  forall c vs v, v ∈ parts (make c vs) -> v ∈ vs \/ (forall l, v <> VRef l).

Lemma pairs_elem k v l : (k, v) ∈ pairs l -> k ∈ l /\ v ∈ l.
Proof.
  assert (forall n l, length l <= n -> (k, v) ∈ pairs l -> k ∈ l /\ v ∈ l)%nat as H; [|by eapply H].
  clear l. induction n as [|n IH]; intros [|x [|y l]] Hn; simpl in *; try (intros H; by apply not_elem_of_nil in H); [lia..|].
  intros [[= -> ->]|H]%elem_of_cons; [set_solver|]. apply IH in H as [? ?]; [set_solver|lia].
Qed.

Lemma mapSet_elem k v k' v' m : (k', v') ∈ mapSet k v m -> (k' = k \/ k' ∈ map fst m) /\ (v' = v \/ v' ∈ map snd m).
Proof.
  induction m as [|[k0 v0] m IH]; cbn [mapSet].
  - intros [[= -> ->]|H]%elem_of_cons; [by auto|by apply not_elem_of_nil in H].
  - case_bool_decide as E; intros [[= -> ->]|H]%elem_of_cons; cbn [map fst snd].
    + set_solver.
    + apply (list_elem_of_fmap_2 fst) in H as Hk. apply (list_elem_of_fmap_2 snd) in H as Hv. set_solver.
    + set_solver.
    + apply IH in H as [? ?]. set_solver.
Qed.

Lemma fromEntries_elem k v es m :
  (k, v) ∈ foldl (fun m '(k, v) => mapSet k v m) m es ->
  (k ∈ map fst es \/ k ∈ map fst m) /\ (v ∈ map snd es \/ v ∈ map snd m).
Proof.
  revert m. induction es as [|[k0 v0] es IH]; intros m H; cbn [foldl] in H.
  - apply (list_elem_of_fmap_2 fst) in H as Hk. apply (list_elem_of_fmap_2 snd) in H as Hv. auto.
  - apply IH in H as [Hk Hv]. cbn [map fst snd]. split.
    + destruct Hk as [Hk|Hk]; [set_solver|]. apply list_elem_of_fmap_1 in Hk as ([k1 v1] & -> & Hin).
      apply mapSet_elem in Hin as [[->|?] _]; set_solver.
    + destruct Hv as [Hv|Hv]; [set_solver|]. apply list_elem_of_fmap_1 in Hv as ([k1 v1] & -> & Hin).
      apply mapSet_elem in Hin as [_ [->|?]]; set_solver.
Qed.

Lemma setAdd_elem v vs s : v ∈ foldl setAdd s vs -> v ∈ vs \/ v ∈ s.
Proof.
  revert s. induction vs as [|x vs IH]; intros s H; [by right|]. apply IH in H as [?|H]; [set_solver|].
  unfold setAdd in H. case_bool_decide; set_solver.
Qed.

Lemma rekey_elem v props vs : v ∈ map snd (rekey props vs) -> v ∈ vs.
Proof.
  intros ([k v'] & -> & H)%list_elem_of_fmap_1. unfold rekey in H. revert vs H.
  generalize (map fst props). intros ks. induction ks as [|k' ks IH]; intros [|x vs]; cbn [zip zip_with]; try (intros H; by apply not_elem_of_nil in H).
  intros [[= -> ->]|H]%elem_of_cons; [set_solver|]. apply IH in H. set_solver.
Qed.

Lemma entries_elem v es : v ∈ parts (CMap es) -> exists k v', (k, v') ∈ es /\ (v = k \/ v = v').
Proof.
  cbn [parts]. induction es as [|[k v'] es IH]; cbn [map concat app]; intros H; [by apply not_elem_of_nil in H|].
  apply elem_of_cons in H as [->|H]; [exists k, v'; set_solver|].
  apply elem_of_cons in H as [->|H]; [exists k, v'; set_solver|].
  apply IH in H as (k1 & v1 & ? & ?). exists k1, v1. set_solver.
Qed.

Lemma container_fills c vs c' v : container c vs = Some c' -> v ∈ parts c' -> v ∈ vs.
Proof.
  destruct c; cbn [container]; intros [= <-] H; try done; try (by apply not_elem_of_nil in H).
  - apply entries_elem in H as (k & v' & H & Hv). apply fromEntries_elem in H as [Hk Hv'].
    assert (forall x, x ∈ map fst (pairs vs) -> x ∈ vs) as Hf
      by (intros x ([a b] & -> & Hx)%list_elem_of_fmap_1; by apply pairs_elem in Hx as [? _]).
    assert (forall x, x ∈ map snd (pairs vs) -> x ∈ vs) as Hs
      by (intros x ([a b] & -> & Hx)%list_elem_of_fmap_1; by apply pairs_elem in Hx as [_ ?]).
    cbn [map] in Hk, Hv'. destruct Hv as [->| ->]; [destruct Hk as [?|?]|destruct Hv' as [?|?]]; set_solver.
  - by apply setAdd_elem in H as [?|H%not_elem_of_nil].
Qed.

Lemma copied_fills : fills copied.
Proof.
  intros c vs v. unfold copied. destruct (container c vs) as [c'|] eqn:E; [intros H; left; by eapply container_fills|].
  destruct c; try done; cbn [parts]; intros H; left; by eapply rekey_elem.
Qed.

Lemma snapshot_fills : fills snapshot.
Proof.
  intros c vs v. unfold snapshot. destruct (container c vs) as [c'|] eqn:E; [intros H; left; by eapply container_fills|].
  destruct c; try done; cbn [parts]; intros H; [left; by eapply rekey_elem|].
  right. intros l0 ->. by apply list_elem_of_fmap_1 in H as (n & ? & _).
Qed.

Section Copies.
Context (make : cell -> list val -> cell) (Hmake : fills make).

Lemma alloc_extends h h' c vs :
  extends h h' -> Forall (newVal h h') vs ->
  extends h (fst (alloc h' (make c vs))) /\ newVal h (fst (alloc h' (make c vs))) (snd (alloc h' (make c vs))).
Proof.
  intros He Hvs. unfold alloc. set (l := fresh (dom h')). cbn [fst snd].
  assert (Hl : h' !! l = None) by (apply not_elem_of_dom, is_fresh).
  assert (Hs : h' ⊆ <[l := make c vs]> h') by by apply insert_subseteq.
  split; [split|].
  - etrans; [apply He|exact Hs].
  - intros l' c' H Hn. destruct (decide (l' = l)) as [->|Hne].
    + rewrite lookup_insert_eq in H. injection H as <-. apply Forall_forall. intros v [Hv|Hv]%Hmake.
      * rewrite Forall_forall in Hvs. eapply newVal_mono; [reflexivity|exact Hs|]. by apply Hvs.
      * intros l0 ->. by destruct (Hv l0).
    + rewrite lookup_insert_ne in H by done. eapply Forall_impl; [by eapply (extends_new _ _ He)|].
      intros v. by apply newVal_mono.
  - intros l' [= <-]. split; [by eapply lookup_weaken_None; [|apply He]|]. rewrite lookup_insert_eq. by eexists.
Qed.

Lemma copyAll_extends f h l h' l' :
  (forall h v h' v', Closed h -> defined h v -> f h v = Ok (h', v') -> extends h h' /\ newVal h h' v') ->
  Closed h -> Forall (defined h) l -> copyAll f h l = Ok (h', l') -> extends h h' /\ Forall (newVal h h') l'.
Proof.
  intros Hf. revert h l'. induction l as [|v l IH]; intros h l' Hc Hd H; cbn [copyAll] in H.
  - injection H as <- <-. split; [reflexivity|constructor].
  - apply Forall_cons in Hd as [Hv Hd].
    destruct (f h v) as [[h1 v1]|] eqn:E1; [rewrite bind_Ok in H|by rewrite bind_Throw in H].
    destruct (copyAll f h1 l) as [[h2 l2]|] eqn:E2; [rewrite bind_Ok in H|by rewrite bind_Throw in H].
    injection H as <- <-. apply Hf in E1 as [He1 Hn1]; [|done..].
    apply IH in E2 as [He2 Hn2]; [|by eapply extends_closed|eapply Forall_impl; [exact Hd|]; intros x; by apply defined_mono, extends_sub].
    split; [by etrans|]. constructor; [by eapply newVal_mono; [reflexivity|apply He2|]|].
    eapply Forall_impl; [exact Hn2|]. intros x. apply newVal_mono; [apply He1|reflexivity].
Qed.

Lemma copyWith_extends n h v h' v' :
  Closed h -> defined h v -> copyWith make n h v = Ok (h', v') -> extends h h' /\ newVal h h' v'.
Proof.
  revert h v h' v'. induction n as [|n IH]; intros h v h' v' Hc Hd H; [done|]. cbn [copyWith] in H.
  destruct (cellOf h v) as [c|] eqn:E.
  - destruct v as [| | | | | | |l]; try done. cbn [cellOf] in E.
    destruct (copyAll (copyWith make n) h (parts c)) as [[h1 vs]|] eqn:E1; [rewrite bind_Ok in H|by rewrite bind_Throw in H].
    apply copyAll_extends in E1 as [He Hn]; [|exact IH|done|by apply (Hc l)].
    destruct (alloc_extends h h1 c vs He Hn) as [Ha Hv]. injection H as <- <-. by split.
  - injection H as <- <-. split; [reflexivity|]. intros l ->. destruct (Hd l eq_refl) as [c Hl]. cbn [cellOf] in E. congruence.
Qed.

Lemma copyWith_detached n h v h' v' :
  Closed h -> defined h v -> copyWith make n h v = Ok (h', v') ->
  h ⊆ h' /\ Closed h' /\ (forall l, reach h' v' l -> h !! l = None /\ is_Some (h' !! l)).
Proof.
  intros Hc Hd H. apply copyWith_extends in H as [He Hv]; [|done..].
  split; [apply He|]. split; [by eapply extends_closed|]. intros l Hr. clear Hd.
  induction Hr as [l|l c x l' Hl Hx Hr IH]; [by apply Hv|]. apply IH.
  pose proof (extends_new _ _ He l c Hl (proj1 (Hv l eq_refl))) as Hp. rewrite Forall_forall in Hp. by apply Hp.
Qed.
End Copies.


(** ** Copies are equal *)

(** What a comparison can find equal: no [NaN], and properties with distinct names. *)
Definition comparable (c : cell) : Prop :=
  (VNaN ∉ parts c) /\ c <> CDate VNaN /\ (forall proto props, c = CObject proto props -> NoDup (map fst props)).
Definition Comparable (h : heap) (v : val) : Prop :=
  v <> VNaN /\ forall l c, reach h v l -> h !! l = Some c -> comparable c.

Lemma reach_back h h' v l : Closed h -> defined h v -> h ⊆ h' -> reach h' v l -> reach h v l.
Proof.
  intros Hc Hd Hs Hr. induction Hr as [l|l c x l' Hl Hx Hr IH]; [constructor|].
  destruct (Hd l eq_refl) as [c' Hl']. assert (c' = c) as -> by (pose proof (lookup_weaken _ _ _ _ Hl' Hs); congruence).
  eapply reach_part; [done..|]. apply IH. pose proof (Hc l c Hl') as Hp. rewrite Forall_forall in Hp. by apply Hp.
Qed.

Lemma Comparable_mono h h' v : Closed h -> defined h v -> h ⊆ h' -> Comparable h v -> Comparable h' v.
Proof.
  intros Hc Hd Hs [Hv Hr]. split; [done|]. intros l c Hl Hlc. pose proof (reach_back _ _ _ _ Hc Hd Hs Hl) as Hb.
  destruct (h !! l) as [c'|] eqn:E.
  - assert (c' = c) as -> by (pose proof (lookup_weaken _ _ _ _ E Hs); congruence). by eapply Hr.
  - exfalso. clear -Hc Hd Hb E. induction Hb as [l|l c x l' Hl Hx Hb IH]; [destruct (Hd l eq_refl); congruence|].
    apply IH; [|done]. pose proof (Hc l c Hl) as Hp. rewrite Forall_forall in Hp. by apply Hp.
Qed.

Lemma Comparable_part h l c v : h !! l = Some c -> Comparable h (VRef l) -> v ∈ parts c -> Comparable h v.
Proof.
  intros Hl [_ Hr] Hv. destruct (Hr l c (reach_here _ l) Hl) as [Hn _].
  split; [by intros ->|]. intros l' c' Hr' Hc'. eapply Hr; [by eapply reach_part|done].
Qed.

Lemma every_true {A} (f : A -> res bool) l : every f l = Ok true <-> Forall (fun x => f x = Ok true) l.
Proof.
  induction l as [|x l IH]; cbn [every]; [split; by constructor|]. rewrite Forall_cons, <- IH.
  destruct (f x) as [[]|]; split; intros H; try done; by destruct H.
Qed.

Lemma strictEq_refl v : v <> VNaN -> strictEq v v = true.
Proof. intros H. unfold strictEq. by rewrite bool_decide_eq_false_2, bool_decide_eq_true_2. Qed.

Lemma indexed_keys {A} (f : A -> val) l : NoDup (map fst (indexed f l)).
Proof.
  apply NoDup_alt. intros i j k Hi Hj. unfold indexed in *. rewrite list_lookup_fmap, list_lookup_imap in Hi, Hj.
  destruct (l !! i), (l !! j); try done. simpl in *. injection Hi as <-. injection Hj as Hj. by apply (inj pretty) in Hj.
Qed.

Lemma indexed_parts {A} (f : A -> val) l : map snd (indexed f l) = map f l.
Proof. apply list_eq. intros i. unfold indexed. rewrite !list_lookup_fmap, list_lookup_imap. by destruct (l !! i). Qed.

Lemma propOf_elem k v props : NoDup (map fst props) -> (k, v) ∈ props -> propOf k props = Some v.
Proof.
  induction props as [|[k' v'] props IH]; cbn [propOf map fst]; intros Hnd Hin; [by apply not_elem_of_nil in Hin|].
  apply NoDup_cons in Hnd as [Hk Hnd]. apply elem_of_cons in Hin as [[= -> ->]|Hin]; [by rewrite bool_decide_eq_true_2|].
  rewrite bool_decide_eq_false_2; [by apply IH|]. intros ->. apply Hk. by apply (list_elem_of_fmap_2 fst) in Hin.
Qed.

Lemma rekey_keys props vs : length props = length vs -> map fst (rekey props vs) = map fst props.
Proof.
  unfold rekey. revert vs. induction props as [|[k v] props IH]; intros [|x vs] H; try done. cbn. f_equal. apply IH. by injection H.
Qed.

Lemma filter_keys {A B} (P : string -> bool) (l : list (string * A)) (l' : list (string * B)) :
  map fst l = map fst l' ->
  length (List.filter (fun kv => P (fst kv)) l) = length (List.filter (fun kv => P (fst kv)) l').
Proof.
  revert l'. induction l as [|[k v] l IH]; intros [|[k' v'] l'] H; try done. injection H as -> H. cbn [List.filter fst].
  destruct (P k'); cbn [length]; by rewrite (IH l').
Qed.

(** Properties that were copied one by one are found equal. *)
Lemma props_equal E (exclude : list string) props vs :
  NoDup (map fst props) -> Forall2 (fun x y => E x y = Ok true) (map snd props) vs ->
  every (fun '(k, x) => match propOf k (rekey props vs) with Some y => E x y | None => Ok false end)
    (List.filter (fun kv => kept exclude (fst kv)) props) = Ok true.
Proof.
  intros Hnd HF. apply every_true, Forall_forall. intros [k x] [Hin _]%list_elem_of_In%filter_In.
  apply list_elem_of_In, list_elem_of_lookup_1 in Hin as [i Hi].
  destruct (Forall2_lookup_l _ _ _ i x HF) as (y & Hy & Hxy); [by rewrite list_lookup_fmap, Hi|].
  assert (Hr : (k, y) ∈ rekey props vs).
  { apply (list_elem_of_lookup_2 _ i). unfold rekey. rewrite lookup_zip_with, list_lookup_fmap, Hi. simpl. by rewrite Hy. }
  apply Forall2_length in HF. rewrite length_map in HF. rewrite (propOf_elem k y); [done| |done]. by rewrite rekey_keys.
Qed.

Lemma deepEqual_ref n h exclude l l' c c' :
  h !! l = Some c -> h !! l' = Some c' -> l <> l' ->
  deepEqual (S n) h exclude (VRef l) (VRef l') =
  match c, c' with
  | CDate t, CDate t' => Ok (strictEq t t')
  | CRegExp s f _, CRegExp s' f' _ => Ok (bool_decide (s = s') && bool_decide (f = f'))
  | CArray l, CArray l' =>
      if negb (Nat.eqb (length l) (length l')) then Ok false
      else every (fun '(x, y) => deepEqual n h exclude x y) (zip l l')
  | c, c' =>
      let included := fun kv : string * val => kept exclude (fst kv) in
      if negb (Nat.eqb (length (List.filter included (ownProps c))) (length (List.filter included (ownProps c')))) then Ok false
      else every (fun '(k, x) => match propOf k (ownProps c') with
                                 | Some y => deepEqual n h exclude x y
                                 | None => Ok false
                                 end) (List.filter included (ownProps c))
  end.
Proof.
  intros Hl Hl' Hne. cbn [deepEqual]. unfold strictEq at 1.
  rewrite (bool_decide_eq_false_2 (VRef l = VRef l')) by congruence. rewrite andb_false_r.
  rewrite (bool_decide_eq_true_2 (typeOf (VRef l) = typeOf (VRef l'))) by done. cbn [negb nullish orb cellOf]. rewrite Hl, Hl'.
  by destruct c, c'.
Qed.

(** A copy whose parts are equal to those of the original is equal to it. *)
Definition faithful (make : cell -> list val -> cell) : Prop :=
  forall n h exclude l l' c vs, h !! l = Some c -> h !! l' = Some (make c vs) -> l <> l' -> comparable c ->
    Forall2 (fun x y => deepEqual n h exclude x y = Ok true) (parts c) vs ->
    deepEqual (S n) h exclude (VRef l) (VRef l') = Ok true.

Lemma filtered_equal n h exclude props vs :
  NoDup (map fst props) -> Forall2 (fun x y => deepEqual n h exclude x y = Ok true) (map snd props) vs ->
  let included := fun kv : string * val => kept exclude (fst kv) in
  (if negb (Nat.eqb (length (List.filter included props)) (length (List.filter included (rekey props vs)))) then Ok false
   else every (fun '(k, x) => match propOf k (rekey props vs) with
                              | Some y => deepEqual n h exclude x y
                              | None => Ok false
                              end) (List.filter included props)) = Ok true.
Proof.
  intros Hnd HF included.
  assert (Hlen : length (List.filter included props) = length (List.filter included (rekey props vs))).
  { apply (filter_keys (kept exclude)). rewrite rekey_keys; [done|].
    apply Forall2_length in HF. by rewrite length_map in HF. }
  rewrite Hlen, Nat.eqb_refl. by apply (props_equal (deepEqual n h exclude)).
Qed.

Lemma container_faithful n h exclude l l' c c' vs :
  container c vs = Some c' -> h !! l = Some c -> h !! l' = Some c' -> l <> l' -> comparable c ->
  Forall2 (fun x y => deepEqual n h exclude x y = Ok true) (parts c) vs ->
  deepEqual (S n) h exclude (VRef l) (VRef l') = Ok true.
Proof.
  intros Hcont Hl Hl' Hne (_ & Hd & _) HF. rewrite (deepEqual_ref n h exclude l l' c c') by done.
  destruct c as [xs|p props|t|s f i|es|xs|b bs]; cbn [container] in Hcont; try done; injection Hcont as <-; cbn [parts] in HF.
  - rewrite (proj2 (Nat.eqb_eq _ _)) by (by eapply Forall2_length). cbn [negb].
    apply every_true. eapply Forall_impl; [by apply Forall2_Forall in HF|]. by intros [x y].
  - by rewrite strictEq_refl by congruence.
  - by rewrite !bool_decide_eq_true_2.
  - done.
  - done.
Qed.

Lemma copied_faithful : faithful copied.
Proof.
  intros n h exclude l l' c vs Hl Hl' Hne Hc HF. unfold copied in Hl'. destruct (container c vs) as [c'|] eqn:E; [by eapply container_faithful|].
  destruct c as [xs|p props|t|s f i|es|xs|b bs]; try done; cbn [parts] in HF.
  - rewrite (deepEqual_ref _ _ _ _ _ _ _ Hl Hl' Hne). cbn [ownProps]. apply filtered_equal; [by eapply Hc|done].
  - rewrite (deepEqual_ref _ _ _ _ _ _ _ Hl Hl' Hne). cbn [ownProps].
    apply filtered_equal; [apply indexed_keys|by rewrite indexed_parts].
Qed.

Lemma snapshot_faithful : faithful snapshot.
Proof.
  intros n h exclude l l' c vs Hl Hl' Hne Hc HF. unfold snapshot in Hl'. destruct (container c vs) as [c'|] eqn:E; [by eapply container_faithful|].
  destruct c as [xs|p props|t|s f i|es|xs|b bs]; try done; cbn [parts] in HF.
  - rewrite (deepEqual_ref _ _ _ _ _ _ _ Hl Hl' Hne). cbn [ownProps]. apply filtered_equal; [by eapply Hc|done].
  - rewrite (deepEqual_ref _ _ _ _ _ _ _ Hl Hl' Hne). cbn [ownProps]. rewrite Nat.eqb_refl. cbn [negb].
    apply every_true, Forall_forall. intros [k x] [Hin _]%list_elem_of_In%filter_In. apply list_elem_of_In in Hin.
    rewrite (propOf_elem k x) by (done || apply indexed_keys).
    apply (list_elem_of_fmap_2 snd) in Hin. change (x ∈ map snd (indexed VNum bs)) in Hin. rewrite indexed_parts in Hin.
    apply list_elem_of_lookup_1 in Hin as [i Hi]. destruct (Forall2_lookup_l _ _ _ i x HF Hi) as (y & _ & Hy).
    destruct n; [done|]. cbn [deepEqual]. rewrite strictEq_refl; [done|].
    apply list_elem_of_lookup_2, list_elem_of_fmap_1 in Hi as (z & -> & _). done.
Qed.

Section Equal.
Context (make : cell -> list val -> cell) (Hfills : fills make) (Hfaithful : faithful make).

Lemma copyAll_equal n h l h' l' h'' exclude :
  (forall h v h' v', Closed h -> defined h v -> Comparable h v -> copyWith make n h v = Ok (h', v') ->
     forall h'' exclude, h' ⊆ h'' -> deepEqual n h'' exclude v v' = Ok true) ->
  Closed h -> Forall (defined h) l -> Forall (Comparable h) l -> copyAll (copyWith make n) h l = Ok (h', l') -> h' ⊆ h'' ->
  Forall2 (fun x y => deepEqual n h'' exclude x y = Ok true) l l'.
Proof.
  intros Hn. revert h l'. induction l as [|v l IH]; intros h l' Hc Hd Hq H Hs; cbn [copyAll] in H; [injection H as <- <-; constructor|].
  apply Forall_cons in Hd as [Hv Hd]. apply Forall_cons in Hq as [Hqv Hq].
  destruct (copyWith make n h v) as [[h1 v1]|] eqn:E1; [rewrite bind_Ok in H|by rewrite bind_Throw in H].
  destruct (copyAll (copyWith make n) h1 l) as [[h2 l2]|] eqn:E2; [rewrite bind_Ok in H|by rewrite bind_Throw in H].
  injection H as <- <-. pose proof (copyWith_extends make Hfills n h v h1 v1 Hc Hv E1) as [He1 _].
  assert (Hc1 : Closed h1) by by eapply extends_closed.
  assert (Hd1 : Forall (defined h1) l) by (eapply Forall_impl; [exact Hd|]; intros x; apply defined_mono, He1).
  destruct (copyAll_extends (copyWith make n) h1 l h2 l2) as [He2 _]; [by apply copyWith_extends|done..|].
  constructor.
  - apply (Hn h v h1 v1); [done..|]. etrans; [apply He2|done].
  - apply (IH h1); [done..| |done|done]. apply Forall_forall. intros x Hx. rewrite Forall_forall in Hd, Hq.
    eapply Comparable_mono; [exact Hc|by apply Hd|apply He1|by apply Hq].
Qed.

Lemma copyWith_equal n h v h' v' :
  Closed h -> defined h v -> Comparable h v -> copyWith make n h v = Ok (h', v') ->
  forall h'' exclude, h' ⊆ h'' -> deepEqual n h'' exclude v v' = Ok true.
Proof.
  revert h v h' v'. induction n as [|n IH]; intros h v h' v' Hc Hd Hq H h'' exclude Hs; [done|].
  pose proof (copyWith_extends make Hfills (S n) h v h' v' Hc Hd H) as [He Hnew]. cbn [copyWith] in H.
  destruct (cellOf h v) as [c|] eqn:E.
  - destruct v as [| | | | | | |l]; try done. cbn [cellOf] in E.
    destruct (copyAll (copyWith make n) h (parts c)) as [[h1 vs]|] eqn:E1; [rewrite bind_Ok in H|by rewrite bind_Throw in H].
    injection H as <- <-. set (l' := fresh (dom h1)) in *.
    assert (Hs1 : h1 ⊆ h'') by (etrans; [|exact Hs]; apply insert_subseteq, not_elem_of_dom, is_fresh).
    assert (Hl' : h'' !! l' = Some (make c vs)) by (eapply lookup_weaken; [|exact Hs]; by rewrite lookup_insert_eq).
    eapply (Hfaithful n h'' exclude l l' c vs); [|done| | |].
    + eapply lookup_weaken; [exact E|]. etrans; [apply He|exact Hs].
    + intros ->. destruct (Hnew l' eq_refl) as [Hn _]. congruence.
    + by eapply Hq; [constructor|].
    + eapply copyAll_equal; [exact IH|done|by apply (Hc l)| |exact E1|done].
      apply Forall_forall. intros x Hx. by eapply Comparable_part.
  - injection H as <- <-. cbn [deepEqual]. by rewrite strictEq_refl by apply Hq.
Qed.
End Equal.

(** ** Termination *)

(** The nesting of objects is bounded: no object contains itself. *)
Definition Ranked (h : heap) (rank : nat -> nat) : Prop :=
  forall l c l', h !! l = Some c -> VRef l' ∈ parts c -> (rank l' < rank l)%nat.
Definition rankOf (rank : nat -> nat) (v : val) : nat := match v with VRef l => S (rank l) | _ => O end.

Lemma copyWith_total make rank h0 n h v :
  fills make -> Closed h0 -> Ranked h0 rank -> Closed h -> h0 ⊆ h -> defined h0 v -> (rankOf rank v < n)%nat -> is_Ok (copyWith make n h v).
Proof.
  intros Hf Hc0 Hr. revert h v. induction n as [|n IH]; intros h v Hc Hs Hd Hn; [lia|]. cbn [copyWith].
  destruct (cellOf h v) as [c|] eqn:E; [|by eexists]. destruct v as [| | | | | | |l]; try done. cbn [cellOf rankOf] in *.
  destruct (Hd l eq_refl) as [c' Hl]. assert (c' = c) as -> by (pose proof (lookup_weaken _ _ _ _ Hl Hs); congruence).
  assert (Hp : Forall (fun x => defined h0 x /\ (rankOf rank x < n)%nat) (parts c)).
  { apply Forall_forall. intros x Hx. pose proof (Hc0 l c Hl) as Hp. rewrite Forall_forall in Hp. split; [by apply Hp|].
    destruct x as [| | | | | | |l']; cbn [rankOf]; try lia. pose proof (Hr l c l' Hl Hx). lia. }
  assert (H : is_Ok (copyAll (copyWith make n) h (parts c))); [|destruct H as [[h1 vs] ->]; rewrite bind_Ok; by eexists].
  clear E Hd Hn Hl. revert h Hc Hs. induction Hp as [|x xs [Hx Hn] _ IHp]; intros h Hc Hs; cbn [copyAll]; [by eexists|].
  destruct (IH h x Hc Hs Hx Hn) as [[h1 x'] E1]. rewrite E1, bind_Ok.
  pose proof (copyWith_extends make Hf n h x h1 x' Hc (defined_mono _ _ _ Hs Hx) E1) as [He _].
  destruct (IHp h1 (extends_closed _ _ Hc He)) as [[h2 xs'] ->]; [etrans; [exact Hs|apply He]|]. rewrite bind_Ok. by eexists.
Qed.

Lemma ownProps_parts c k v : (k, v) ∈ ownProps c -> v ∈ parts c \/ exists n, v = VNum n.
Proof.
  destruct c as [l|proto props|t|s f i|es|l|b l]; cbn [ownProps parts]; intros H; try (by apply not_elem_of_nil in H).
  - apply elem_of_app in H as [H|H].
    + apply (list_elem_of_fmap_2 snd) in H. change (v ∈ map snd (indexed id l)) in H. rewrite indexed_parts, map_id in H. by left.
    + apply list_elem_of_singleton in H as [= -> ->]. right. by eexists.
  - left. by apply (list_elem_of_fmap_2 snd) in H.
  - apply list_elem_of_singleton in H as [= -> ->]. right. by eexists.
  - apply (list_elem_of_fmap_2 snd) in H. change (v ∈ map snd (indexed VNum l)) in H. rewrite indexed_parts in H. by left.
Qed.

Lemma every_total {A} (f : A -> res bool) l : Forall (fun x => is_Ok (f x)) l -> is_Ok (every f l).
Proof. induction 1 as [|x l [[] Hx] _ IH]; cbn [every]; [by eexists| |]; rewrite Hx, bind_Ok; [done|by eexists]. Qed.

Lemma deepEqual_total h rank n exclude a b :
  Ranked h rank -> (rankOf rank a < n)%nat -> is_Ok (deepEqual n h exclude a b).
Proof.
  intros Hr. revert a b. induction n as [|n IH]; intros a b Hn; [lia|]. cbn [deepEqual].
  destruct (strictEq a b); [by eexists|]. destruct (negb _); [by eexists|]. destruct (_ || _); [by eexists|].
  destruct (cellOf h a) as [c|] eqn:E; [|by eexists]. destruct a as [| | | | | | |l]; try done. cbn [cellOf rankOf] in *.
  assert (Hp : forall v, v ∈ parts c -> (rankOf rank v < n)%nat).
  { intros v Hv. destruct v as [| | | | | | |l']; cbn [rankOf]; try lia. pose proof (Hr l c l' E Hv). lia. }
  assert (Hprops : forall g, is_Ok (every (fun '(k, x) => match propOf k g with Some y => deepEqual n h exclude x y | None => Ok false end)
            (List.filter (fun kv => kept exclude (fst kv)) (ownProps c)))).
  { intros g. apply every_total, Forall_forall. intros [k x] [Hin _]%list_elem_of_In%filter_In. apply list_elem_of_In in Hin.
    destruct (propOf k g); [|by eexists]. apply IH. apply ownProps_parts in Hin as [Hin|[z ->]]; [by apply Hp|cbn; destruct n; [|lia]].
    cbn in Hn. lia. }
  destruct (cellOf h b) as [c'|]; [|by destruct c; eexists].
  destruct c, c'; try (by eexists); try (destruct (negb _); [by eexists|apply Hprops]).
  destruct (negb _); [by eexists|]. apply every_total, Forall_forall. intros [x y] Hin. apply IH, Hp.
  by apply elem_of_zip_l in Hin.
Qed.

(** Data that does not contain itself is copied, by both functions, and the copy is
    detached from it: the objects that existed before are as they were, and no object that
    the copy leads to is one of them, so that a change of either is never seen through the
    other. The comparison finds the two equal, whatever properties are excluded, unless
    there is a [NaN] in them. *)
Theorem copy_exact copy (h : heap) (rank : nat -> nat) (v : val) (n : nat) :
  copy = deepCopy \/ copy = getSnapshot ->
  Closed h -> Ranked h rank -> defined h v -> (rankOf rank v < n)%nat ->
  exists h' v', copy n h v = Ok (h', v') /\ h ⊆ h' /\ Closed h' /\
    (forall l, reach h' v' l -> h !! l = None /\ is_Some (h' !! l)) /\
    (Comparable h v -> forall exclude, deepEqual n h' exclude v v' = Ok true).
Proof.
  intros Hcopy Hc Hr Hd Hn.
  assert (exists make, copy = copyWith make /\ fills make /\ faithful make) as (make & -> & Hfills & Hfaith).
  { destruct Hcopy as [-> | ->].
    - exists copied. split; [done|]. split; [apply copied_fills|apply copied_faithful].
    - exists snapshot. split; [done|]. split; [apply snapshot_fills|apply snapshot_faithful]. }
  destruct (copyWith_total make rank h n h v Hfills Hc Hr Hc (reflexivity h) Hd Hn) as [[h' v'] H].
  exists h', v'. destruct (copyWith_detached make Hfills n h v h' v' Hc Hd H) as (Hs & Hc' & Hdet).
  split_and!; [done..|]. intros Hq exclude.
  exact (copyWith_equal make Hfills Hfaith n h v h' v' Hc Hd Hq H h' exclude (reflexivity h')).
Qed.

(** An object with two references to the same array, a date and a map. *)
Definition sampleHeap : heap :=
  {[ 0%nat := CObject "Thing" [("a", VRef 1); ("b", VRef 1); ("when", VRef 2); ("m", VRef 3)];
     1%nat := CArray [VNum 7; VStr "x"; VNull]; 2%nat := CDate (VNum 86400000); 3%nat := CMap [(VStr "k", VRef 1); (VRef 1, VNum 1)] ]}.
Definition sampleRank (l : nat) : nat := match l with O => 2 | 3%nat => 1 | _ => O end.

Lemma sample_cells (P : nat -> cell -> Prop) :
  P 0%nat (CObject "Thing" [("a", VRef 1); ("b", VRef 1); ("when", VRef 2); ("m", VRef 3)]) ->
  P 1%nat (CArray [VNum 7; VStr "x"; VNull]) -> P 2%nat (CDate (VNum 86400000)) ->
  P 3%nat (CMap [(VStr "k", VRef 1); (VRef 1, VNum 1)]) ->
  forall l c, sampleHeap !! l = Some c -> P l c.
Proof.
  intros H0 H1 H2 H3 l c H. unfold sampleHeap in H. rewrite !lookup_insert_Some, lookup_singleton_Some in H.
  destruct H as [[<- <-]|[_ [[<- <-]|[_ [[<- <-]|[_ [<- <-]]]]]]]; assumption.
Qed.

Lemma copy_exact_witness :
  exists h' v', deepCopy 4 sampleHeap (VRef 0) = Ok (h', v') /\ deepEqual 4 h' [] (VRef 0) v' = Ok true /\ ~ reach h' v' 1.
Proof.
  assert (Hc : Closed sampleHeap).
  { intros l c. apply (sample_cells (fun _ c => Forall (defined sampleHeap) (parts c))); cbn [parts map snd concat app];
      repeat constructor; intros l' [= <-]; by eexists. }
  assert (Hr : Ranked sampleHeap sampleRank).
  { intros l c l' Hl. revert l'. revert l c Hl.
    apply (sample_cells (fun l c => forall l', VRef l' ∈ parts c -> (sampleRank l' < sampleRank l)%nat)); cbn [parts map snd concat app]; intros l' H;
      repeat (apply elem_of_cons in H as [H|H]; [try discriminate H; injection H as ->; cbn; lia|]); by apply not_elem_of_nil in H. }
  assert (Hd : defined sampleHeap (VRef 0)) by (intros l [= <-]; by eexists).
  destruct (copy_exact deepCopy sampleHeap sampleRank (VRef 0) 4 (or_introl eq_refl) Hc Hr Hd ltac:(cbn; lia))
    as (h' & v' & H & _ & _ & Hdet & Heq).
  exists h', v'. split; [exact H|]. split.
  - apply Heq. split; [done|]. intros l c _. revert l c.
    apply (sample_cells (fun _ c => comparable c)); (split; [|split; [done|]]); cbn [parts map snd concat app];
      try (by intros ? ? [=]); try (intros ? ? [= <- <-]); try (intros Hin; repeat (apply elem_of_cons in Hin as [Hin|Hin]; [done|]); by apply not_elem_of_nil in Hin).
    apply (bool_decide_unpack _). by vm_compute.
  - intros Hreach. by destruct (Hdet 1%nat Hreach).
Defined.

(** ** The comparison of data *)

(** The data that a value of the store stands for. *)
Inductive plain (h : heap) : val -> value -> Prop :=
  | plain_undefined : plain h VUndefined Undefined
  | plain_null : plain h VNull Null
  | plain_bool b : plain h (VBool b) (Bool b)
  | plain_num n : plain h (VNum n) (Num n)
  | plain_str s : plain h (VStr s) (Str s)
  | plain_arr l vs ts : h !! l = Some (CArray vs) -> Forall2 (plain h) vs ts -> plain h (VRef l) (Arr ts)
  | plain_obj l proto props fields :
      h !! l = Some (CObject proto props) -> Forall2 (fun kv kf => fst kv = fst kf /\ plain h (snd kv) (snd kf)) props fields ->
      plain h (VRef l) (Obj fields).

Fixpoint depth (v : value) : nat :=
  match v with
  | Arr l => S (foldr (fun x n => depth x `max` n)%nat O l)
  | Obj f => S (foldr (fun kx n => depth (snd kx) `max` n)%nat O f)
  | _ => O
  end.

(** Objects whose properties have distinct names, at every depth. *)
Fixpoint tidy (v : value) : Prop :=
  match v with
  | Arr l => foldr (fun x P => tidy x /\ P) True l
  | Obj f => NoDup (map fst f) /\ foldr (fun kx P => tidy (snd kx) /\ P) True f
  | _ => True
  end.

Definition fieldsOf (v : value) : list (string * value) :=
  match v with Arr l => arrayFields l | Obj f => f | _ => [] end.

Definition fieldsEqual (f g : list (string * value)) : bool :=
  Nat.eqb (length f) (length g) &&
  forallb (fun '(k, x) => match fieldOf k g with Some y => equal x y | None => false end) f.

Lemma equal_arrays l l' : equal (Arr l) (Arr l') = Nat.eqb (length l) (length l') && forallb (fun '(x, y) => equal x y) (zip l l').
Proof. cbn [equal]. f_equal. revert l'. induction l as [|x l IH]; intros [|y l']; try done. cbn [zip zip_with forallb]. by rewrite IH. Qed.

Lemma equal_objects a b :
  typeof a = "object" -> typeof b = "object" -> a <> Null -> b <> Null -> (forall l l', ~ (a = Arr l /\ b = Arr l')) ->
  equal a b = fieldsEqual (fieldsOf a) (fieldsOf b).
Proof.
  intros Ha Hb Hna Hnb Hnot. destruct a as [| | | | |l|f]; try done.
  - destruct b as [| | | | |l'|g]; try done; [by destruct (Hnot l l')|]. cbn [equal fieldsOf]. unfold fieldsEqual.
    assert (Hlen : length (arrayFields l) = S (length l)) by (unfold arrayFields; rewrite length_app, length_imap; cbn; lia).
    rewrite Hlen. f_equal. unfold arrayFields. rewrite forallb_app. cbn [forallb]. rewrite andb_true_r. f_equal.
    change (fun i x => (pretty i, x)) with (fun i (x : value) => (pretty (0 + i)%nat, x)). generalize 0%nat as i.
    clear. induction l as [|x l IH]; intros i; [done|]. rewrite (IH (S i)). cbn [imap forallb]. rewrite Nat.add_0_r. f_equal.
    f_equal. apply imap_ext. intros j y _. cbn. by rewrite Nat.add_succ_r.
  - assert (Hf : forall g, (fix go f := match f with (k, x) :: f => match fieldOf k g with Some y => equal x y | None => false end && go f | [] => true end) f =
        forallb (fun '(k, x) => match fieldOf k g with Some y => equal x y | None => false end) f)
      by (intros g; clear; induction f as [|[k x] f IH]; [done|]; cbn [forallb]; by rewrite IH).
    destruct b as [| | | | |l'|g]; try done; cbn [equal fieldsOf]; by rewrite Hf.
Qed.

Lemma depth_elem x l : x ∈ l -> (depth x < depth (Arr l))%nat.
Proof. cbn [depth]. induction l as [|y l IH]; intros H; [by apply not_elem_of_nil in H|]. cbn. apply elem_of_cons in H as [->|H]; [|specialize (IH H)]; lia. Qed.

Lemma depth_field k x a : (k, x) ∈ fieldsOf a -> (depth x < depth a)%nat.
Proof.
  destruct a as [| | | | |l|f]; cbn [fieldsOf]; intros H; try (by apply not_elem_of_nil in H).
  - unfold arrayFields in H. apply elem_of_app in H as [H|H].
    + apply elem_of_lookup_imap in H as (i & y & [= -> ->] & Hy). by apply depth_elem, (list_elem_of_lookup_2 _ i).
    + apply list_elem_of_singleton in H as [= -> ->]. cbn. lia.
  - cbn [depth]. induction f as [|[k' y] f IH]; [by apply not_elem_of_nil in H|]. cbn. apply elem_of_cons in H as [[= -> ->]|H]; [|specialize (IH H)]; lia.
Qed.

Lemma tidy_arr l : tidy (Arr l) <-> Forall tidy l.
Proof. cbn [tidy]. induction l as [|x l IH]; cbn; [split; by constructor|]. by rewrite Forall_cons, IH. Qed.

Lemma tidy_obj f : tidy (Obj f) <-> NoDup (map fst f) /\ Forall (fun kx => tidy (snd kx)) f.
Proof.
  cbn [tidy]. apply and_iff_compat_l. induction f as [|x f IH]; cbn; [split; by constructor|]. by rewrite Forall_cons, IH.
Qed.

Lemma fieldOf_elem k x f : NoDup (map fst f) -> (k, x) ∈ f -> fieldOf k f = Some x.
Proof.
  induction f as [|[k' x'] f IH]; cbn [fieldOf map fst]; intros Hnd Hin; [by apply not_elem_of_nil in Hin|].
  apply NoDup_cons in Hnd as [Hk Hnd]. apply elem_of_cons in Hin as [[= -> ->]|Hin]; [by rewrite bool_decide_eq_true_2|].
  rewrite bool_decide_eq_false_2; [by apply IH|]. intros ->. apply Hk. by apply (list_elem_of_fmap_2 fst) in Hin.
Qed.

Lemma equal_refl v : tidy v -> equal v v = true.
Proof.
  remember (depth v) as n eqn:Hn. assert (Hle : (depth v <= n)%nat) by lia. clear Hn. revert v Hle.
  induction n as [n IH] using lt_wf_ind. intros v Hle Hv.
  destruct v as [| | | | |l|f]; try (cbn; by apply bool_decide_eq_true_2).
  - apply tidy_arr in Hv. rewrite equal_arrays, Nat.eqb_refl. apply forallb_forall. intros [x y] Hin%list_elem_of_In.
    apply list_elem_of_lookup_1 in Hin as [i Hi]. rewrite lookup_zip_with in Hi. destruct (l !! i) as [z|] eqn:E; [|done]. injection Hi as <- <-.
    apply list_elem_of_lookup_2 in E. rewrite Forall_forall in Hv. eapply IH; [|reflexivity|by apply Hv]. pose proof (depth_elem z l E). lia.
  - apply tidy_obj in Hv as [Hnd Hv]. rewrite equal_objects by (done || (intros ? ? [[=] _])). unfold fieldsEqual. cbn [fieldsOf].
    rewrite Nat.eqb_refl. apply forallb_forall. intros [k x] Hin%list_elem_of_In. rewrite (fieldOf_elem k x) by done.
    rewrite Forall_forall in Hv. eapply IH; [|reflexivity|by apply (Hv _ Hin)]. pose proof (depth_field k x (Obj f) Hin). lia.
Qed.

(** The properties of an object, and those of the data it stands for. *)
Definition fieldsMatch (h : heap) : list (string * val) -> list (string * value) -> Prop :=
  Forall2 (fun kv kf => fst kv = fst kf /\ plain h (snd kv) (snd kf)).

Lemma array_fields h vs ts : Forall2 (plain h) vs ts -> fieldsMatch h (ownProps (CArray vs)) (arrayFields ts).
Proof.
  intros HF. cbn [ownProps]. apply Forall2_app.
  - apply Forall2_same_length_lookup_2; [unfold indexed; rewrite !length_imap; by eapply Forall2_length|].
    intros i kv kf. unfold indexed. rewrite !list_lookup_imap. intros Hv Ht. destruct (vs !! i) as [v|] eqn:Ev; [|done].
    destruct (ts !! i) as [t|] eqn:Et; [|done]. injection Hv as <-. injection Ht as <-. split; [done|]. by eapply (Forall2_lookup_lr _ _ _ i).
  - constructor; [|done]. split; [done|]. cbn [snd]. rewrite (Forall2_length _ _ _ HF). constructor.
Qed.

Lemma plain_ref h l t :
  plain h (VRef l) t ->
  (exists vs ts, t = Arr ts /\ h !! l = Some (CArray vs) /\ Forall2 (plain h) vs ts) \/
  (exists proto props fields, t = Obj fields /\ h !! l = Some (CObject proto props) /\ fieldsMatch h props fields).
Proof. inversion 1; subst; [left; by eexists _, _|right; by eexists _, _, _]. Qed.

Lemma tidy_fields a : tidy a -> Forall (fun kt => tidy (snd kt) /\ (depth (snd kt) < depth a)%nat) (fieldsOf a).
Proof.
  intros Ht. apply Forall_forall. intros [k x] Hx. split; [|by eapply depth_field].
  destruct a as [| | | | |ts|f]; cbn [fieldsOf] in Hx; try (by apply not_elem_of_nil in Hx).
  - apply tidy_arr in Ht. rewrite Forall_forall in Ht. unfold arrayFields in Hx. apply elem_of_app in Hx as [Hx|Hx].
    + apply elem_of_lookup_imap in Hx as (i & y & [= -> ->] & Hy). by apply Ht, (list_elem_of_lookup_2 _ i).
    + by apply list_elem_of_singleton in Hx as [= -> ->].
  - apply tidy_obj in Ht as [_ Ht]. rewrite Forall_forall in Ht. by apply (Ht _ Hx).
Qed.

Lemma fieldsMatch_find h props fields k :
  fieldsMatch h props fields ->
  match propOf k props, fieldOf k fields with
  | Some v, Some t => plain h v t
  | None, None => True
  | _, _ => False
  end.
Proof.
  induction 1 as [|[k1 v] [k2 t] props fields [Hk Hp] _ IH]; [done|]. cbn [fst snd] in *. subst k2. cbn [propOf fieldOf].
  by case_bool_decide.
Qed.

Lemma plain_functional h v t t' : plain h v t -> plain h v t' -> t = t'.
Proof.
  remember (depth t) as n eqn:Hn. assert (Hle : (depth t <= n)%nat) by lia. clear Hn. revert v t t' Hle.
  induction n as [n IH] using lt_wf_ind. intros v t t' Hle Ht Ht'.
  destruct Ht as [| | | | |l vs ts Hl HF|l proto props fields Hl HF]; inversion Ht' as [| | | | |? vs' ts' Hl' HF'|? proto' props' fields' Hl' HF']; subst; try done; try congruence.
  - assert (vs' = vs) as -> by congruence. f_equal. apply list_eq_Forall2.
    assert (Hsub : forall x, x ∈ ts -> (depth x < n)%nat) by (intros x Hx; pose proof (depth_elem x ts Hx); lia).
    clear -IH Hsub HF HF'. revert ts' HF'. induction HF as [|v t vs ts Hv HF IHF]; intros ts' HF'; inversion HF' as [|? t' ? ts'' Hv' HF'']; subst; constructor.
    + by eapply (IH (depth t)); [apply Hsub; set_solver|reflexivity| |].
    + apply IHF; [|done]. intros x Hx. apply Hsub. by right.
  - assert (props' = props) as -> by congruence. f_equal. apply list_eq_Forall2.
    assert (Hsub : forall kx, kx ∈ fields -> (depth (snd kx) < n)%nat) by (intros [k x] Hx; pose proof (depth_field k x (Obj fields) Hx); cbn; lia).
    clear -IH Hsub HF HF'. revert fields' HF'. induction HF as [|[k v] [k1 t] vs ts [Hk Hv] HF IHF]; intros ts' HF'; inversion HF' as [|? [k2 t'] ? ts'' [Hk' Hv'] HF'']; subst; constructor.
    + cbn in *. subst. f_equal. eapply (IH (depth t)); [apply (Hsub (k2, t)); by left|reflexivity|done|done].
    + apply IHF; [|done]. intros x Hx. apply Hsub. by right.
Qed.

Lemma every_forallb {A B} (f : A -> res bool) (g : B -> bool) l l' : Forall2 (fun x y => f x = Ok (g y)) l l' -> every f l = Ok (forallb g l').
Proof. induction 1 as [|x y l l' Hxy _ IH]; [done|]. cbn [every forallb]. rewrite Hxy, bind_Ok, IH. by destruct (g y). Qed.

Lemma filter_kept (l : list (string * val)) : List.filter (fun kv => kept [] (fst kv)) l = l.
Proof. induction l as [|x l IH]; [done|]. cbn [List.filter]. unfold kept at 1. rewrite bool_decide_eq_false_2 by apply not_elem_of_nil. cbn. by rewrite IH. Qed.

Section Data.
Context (h : heap) (n : nat).
Hypothesis IH : forall a b ta tb, plain h a ta -> plain h b tb -> tidy ta -> (depth ta < n)%nat -> deepEqual n h [] a b = Ok (equal ta tb).

Lemma arrays_data vs vs' ts ts' :
  Forall2 (plain h) vs ts -> Forall2 (plain h) vs' ts' -> Forall (fun t => tidy t /\ (depth t < n)%nat) ts ->
  every (fun '(x, y) => deepEqual n h [] x y) (zip vs vs') = Ok (forallb (fun '(x, y) => equal x y) (zip ts ts')).
Proof.
  intros HF HF' Ht. apply every_forallb. revert vs' ts' HF'.
  induction HF as [|v t vs ts Hv HF IHF]; intros vs' ts' HF'; [constructor|]. apply Forall_cons in Ht as [[Ht Hd] Hts].
  destruct HF' as [|v' t' vs' ts' Hv' HF']; [constructor|]. constructor; [by apply IH|by apply IHF].
Qed.

Lemma fields_data props props' fields fields' :
  fieldsMatch h props fields -> fieldsMatch h props' fields' -> Forall (fun kt => tidy (snd kt) /\ (depth (snd kt) < n)%nat) fields ->
  (if negb (Nat.eqb (length props) (length props')) then Ok false
   else every (fun '(k, x) => match propOf k props' with Some y => deepEqual n h [] x y | None => Ok false end) props) =
  Ok (fieldsEqual fields fields').
Proof.
  intros HF HF' Ht. unfold fieldsEqual. rewrite (Forall2_length _ _ _ HF), (Forall2_length _ _ _ HF').
  destruct (Nat.eqb _ _); [|done]. cbn [negb andb]. apply every_forallb.
  induction HF as [|[k v] [k' t] props fields [Hk Hv] HF IHF]; [constructor|]. apply Forall_cons in Ht as [[Ht Hd] Hts].
  cbn [fst snd] in *. subst k'. constructor; [|by apply IHF]. pose proof (fieldsMatch_find h props' fields' k HF') as Hf.
  destruct (propOf k props'), (fieldOf k fields'); try done. by apply IH.
Qed.
End Data.

Lemma deepEqual_prim n h exclude a b :
  cellOf h a = None -> a <> VNaN -> deepEqual (S n) h exclude a b = Ok (bool_decide (a = b)).
Proof.
  intros Ha Hna. cbn [deepEqual]. unfold strictEq. rewrite (bool_decide_eq_false_2 (a = VNaN)) by done. cbn [negb andb].
  case_bool_decide; [done|]. destruct (negb _); [done|]. destruct (_ || _); [done|]. by rewrite Ha.
Qed.

Lemma deepEqual_prim_r n h exclude l b : (forall l', b <> VRef l') -> deepEqual (S n) h exclude (VRef l) b = Ok false.
Proof. intros Hb. cbn [deepEqual]. destruct b; try done. by destruct (Hb l0). Qed.

(** On data without references, every property included, the comparison is the
    structural one: it ends, and it does not depend on how the store shares the data. *)
Theorem deepEqual_data (h : heap) (n : nat) (a b : val) (ta tb : value) :
  plain h a ta -> plain h b tb -> tidy ta -> (depth ta < n)%nat -> deepEqual n h [] a b = Ok (equal ta tb).
Proof.
  revert a b ta tb. induction n as [|n IH]; intros a b ta tb Ha Hb Ht Hn; [lia|].
  destruct a as [| | | | | | |l]; try (rewrite deepEqual_prim by done; f_equal; inversion Ha; subst; destruct Hb; try done;
    cbn [equal]; by apply bool_decide_ext; split; congruence); [by inversion Ha..|].
  destruct b as [| | | | | | |l']; try (rewrite deepEqual_prim_r by done; f_equal; inversion Hb; subst; by inversion Ha); [by inversion Hb..|].
  destruct (decide (l = l')) as [<-|Hne].
  { assert (tb = ta) as -> by by eapply plain_functional. rewrite equal_refl by done. cbn [deepEqual]. by rewrite strictEq_refl. }
  assert (Hfields : Forall (fun kt => tidy (snd kt) /\ (depth (snd kt) < n)%nat) (fieldsOf ta))
    by (eapply Forall_impl; [by apply tidy_fields|]; intros x [? ?]; split; [done|lia]).
  destruct (plain_ref h l ta Ha) as [(vs & ts & -> & Hl & HF)|(p & props & f & -> & Hl & HF)],
    (plain_ref h l' tb Hb) as [(vs' & ts' & -> & Hl' & HF')|(p' & props' & f' & -> & Hl' & HF')];
    rewrite (deepEqual_ref n h [] l l' _ _ Hl Hl' Hne).
  - rewrite equal_arrays, (Forall2_length _ _ _ HF), (Forall2_length _ _ _ HF'). destruct (Nat.eqb _ _); [|done]. cbn [negb andb].
    apply (arrays_data h n IH); [done..|]. apply tidy_arr in Ht. apply Forall_forall. intros x Hx. rewrite Forall_forall in Ht.
    split; [by apply Ht|]. pose proof (depth_elem x ts Hx). lia.
  - rewrite equal_objects by (done || by intros ? ? [? ?]). cbv zeta. rewrite !filter_kept.
    apply (fields_data h n IH); [by apply array_fields|done..].
  - rewrite equal_objects by (done || by intros ? ? [? ?]). cbv zeta. rewrite !filter_kept.
    apply (fields_data h n IH); [done|by apply array_fields|done].
  - rewrite equal_objects by (done || by intros ? ? [? ?]). cbv zeta. rewrite !filter_kept. by apply (fields_data h n IH).
Qed.

(** The same data twice, with the properties in another order. *)
Definition dataHeap : heap :=
  {[ 0%nat := CObject "Object" [("a", VRef 1); ("b", VNum 2)]; 1%nat := CArray [VNum 1; VNull];
     2%nat := CObject "Thing" [("b", VNum 2); ("a", VRef 1)] ]}.

Lemma deepEqual_data_witness :
  deepEqual 3 dataHeap [] (VRef 0) (VRef 2) = Ok (equal (Obj [("a", Arr [Num 1; Null]); ("b", Num 2)]) (Obj [("b", Num 2); ("a", Arr [Num 1; Null])])) /\
  equal (Obj [("a", Arr [Num 1; Null]); ("b", Num 2)]) (Obj [("b", Num 2); ("a", Arr [Num 1; Null])]) = true.
Proof.
  assert (H1 : plain dataHeap (VRef 1) (Arr [Num 1; Null])) by (eapply plain_arr; [by vm_compute|by repeat constructor]).
  split; [|by vm_compute]. apply (deepEqual_data dataHeap 3).
  - eapply plain_obj; [by vm_compute|]. repeat (constructor; [split; [done|]; first [exact H1|constructor]|]). constructor.
  - eapply plain_obj; [by vm_compute|]. repeat (constructor; [split; [done|]; first [exact H1|constructor]|]). constructor.
  - split; [|by repeat constructor]. apply (bool_decide_unpack _). by vm_compute.
  - cbn. lia.
Defined.

(** Two dates, an empty object, and maps with different contents. *)
Definition oddHeap : heap :=
  {[ 0%nat := CDate (VNum 0); 1%nat := CDate (VNum 1); 2%nat := CObject "Object" []; 3%nat := CMap [(VStr "k", VNum 1)]; 4%nat := CMap [];
     5%nat := CBytes false [7%Z] ]}.

(** Beyond such data the comparison is not an equivalence: maps (and sets) have no own
    properties, so that all of them are found equal; a date is found equal to an object
    without properties, and so are then two dates of different times to the same object.
    And a copy of bytes made by [deepCopy] is an object that holds no bytes. *)
Theorem deepEqual_odd :
  deepEqual 2 oddHeap [] (VRef 3) (VRef 4) = Ok true /\
  deepEqual 2 oddHeap [] (VRef 0) (VRef 2) = Ok true /\ deepEqual 2 oddHeap [] (VRef 2) (VRef 1) = Ok true /\
  deepEqual 2 oddHeap [] (VRef 0) (VRef 1) = Ok false /\
  exists h' l, deepCopy 2 oddHeap (VRef 5) = Ok (h', VRef l) /\ h' !! l = Some (CObject "Uint8Array" [("0", VNum 7)]).
Proof. split_and!; try by vm_compute. eexists _, _. split; by vm_compute. Qed.
