(* ===== verification/Broadcast.v ===== *)
(** The broadcast server of [packages/thread/src/broadcastServer.ts]: the type
    guards of messages, sending requests and responses over the shared channel,
    and [fetch], which pairs a request with its response. *)
From S2P Require Import Prelude JsValue.
#[local] Open Scope string_scope.

Module Broadcast.

(** ** State and messages *)

Record BroadcastServer := mkServer { name : string; closed : bool }.

(** The fields an object spread copies. *)
Definition spread (v : value) : list (string * value) := match v with Obj f => f | _ => [] end.

(** ** Type guards *)

Definition isObject (v : value) : bool := match v with Obj _ | Arr _ => true | _ => false end.

(** The five fields both guards test. *)
Definition hasEnvelope (message : value) : bool :=
  isString (optProp message "type") && isString (optProp message "src") && isString (optProp message "dst") &&
  isNumber (optProp message "id") && isNumber (optProp message "timestamp").

Definition isWorkerRequest (v : value) : bool :=
  if negb (isObject v) then false
  else if negb (hasEnvelope v) then false
  else isUndefined (optProp v "result") && isUndefined (optProp v "error").

Definition isWorkerRequestOfType (v : value) (type : value) : bool :=
  isWorkerRequest v && bool_decide (optProp v "type" = type).

Definition isWorkerResponse (v : value) : bool :=
  if negb (isObject v) then false
  else if negb (hasEnvelope v) then false
  else
    let hasError := isString (optProp v "error") in
    let hasResult := negb (isUndefined (optProp v "result")) in
    negb (Bool.eqb hasError hasResult).

Definition isWorkerResponseOfType (v : value) (type : value) : bool :=
  isWorkerResponse v && bool_decide (optProp v "type" = type).

(** ** Receiving *)

(** The message emitted to the listeners, if any. *)
Definition broadcastMessageHandler (s : BroadcastServer) (msg : value) : res (option value) :=
  dst ← getProp msg "dst";
  Ok (if isStr dst (name s) || isStr dst "all" then Some msg else None).

(** ** Sending *)

Definition close (s : BroadcastServer) : BroadcastServer := mkServer (name s) true.

(** [{ ...message, id: message.id ?? id, timestamp: message.timestamp ?? now, src: this.name }]. *)
Definition stamp (s : BroadcastServer) (uniqueId now : Z) (message : value) : value :=
  Obj (setField "src" (Str (name s))
      (setField "timestamp" (coalesce (optProp message "timestamp") (Num now))
      (setField "id" (coalesce (optProp message "id") (Num uniqueId)) (spread message)))).

(** The message each of these posts on the channel, if any; [uniqueId] and [now]
    are what [getUniqueId()] and [Date.now()] return. *)
Definition broadcast (s : BroadcastServer) (uniqueId now : Z) (message : value) : option value :=
  if closed s then None else Some (stamp s uniqueId now message).

Definition request (s : BroadcastServer) (uniqueId now : Z) (message : value) : option value :=
  if closed s then None
  else
    let requestMessage := stamp s uniqueId now message in
    if negb (isWorkerRequest requestMessage) then None else Some requestMessage.

Definition respond (s : BroadcastServer) (now : Z) (message : value) : option value :=
  if closed s then None
  else
    let elapsed f := match optProp message "timestamp" with
                     | Num timestamp => setField "elapsed" (Num (now - timestamp)) f
                     | _ => f
                     end in
    let responseMessage :=
      Obj (setField "src" (Str (name s))
          (setField "dst" (if isStr (optProp message "dst") (name s) then optProp message "src" else optProp message "dst")
          (setField "timestamp" (coalesce (optProp message "timestamp") (Num now))
          (elapsed (spread message))))) in
    if negb (isWorkerResponse responseMessage) then None else Some responseMessage.

(** ** Fetching *)

(** The promise [fetch] returns; while it is pending its listener waits for a
    response to [requestMessage]. *)
Inductive FetchState :=
  | Pending (requestMessage : value)
  | Resolved (msg : value)
  | Rejected (message : string).

(** [message type .. id .. from .. to ..]. *)
Definition describe (requestMessage : value) : string :=
  "message type " ++ toText (optProp requestMessage "type") ++ " id " ++ toText (optProp requestMessage "id") ++
  " from " ++ toText (optProp requestMessage "src") ++ " to " ++ toText (optProp requestMessage "dst").

(** The promise, and the request posted. *)
Definition fetch (s : BroadcastServer) (uniqueId now : Z) (message : value) : FetchState * option value :=
  if closed s then (Rejected "Broadcast channel is closed", None)
  else
    let requestMessage := stamp s uniqueId now message in
    (Pending requestMessage, request s uniqueId now requestMessage).

(** [responseHandler]: a settled promise ignores every message. *)
Definition responseHandler (st : FetchState) (msg : value) : FetchState :=
  match st with
  | Pending requestMessage =>
      if isWorkerResponseOfType msg (optProp requestMessage "type") &&
         bool_decide (optProp msg "id" = optProp requestMessage "id")
      then
        if hasProp msg "error" && isString (optProp msg "error") then
          Rejected ("Fetch received error response " ++ toText (optProp msg "error") ++ " to " ++ describe requestMessage)
        else if hasProp msg "result" then Resolved msg
        else Rejected ("Fetch received malformed response for " ++ describe requestMessage)
      else st
  | _ => st
  end.

Definition timeoutHandler (timeout : Z) (st : FetchState) : FetchState :=
  match st with
  | Pending requestMessage =>
      Rejected ("Fetch timeout after " ++ toText (Num timeout) ++ "ms for " ++ describe requestMessage)
  | _ => st
  end.

(** What a server does with a message that arrives on the channel while the
    promise is in state [st]. *)
Definition receive (s : BroadcastServer) (st : FetchState) (msg : value) : FetchState :=
  match broadcastMessageHandler s msg with
  | Ok (Some msg) => responseHandler st msg
  | _ => st
  end.

(** ** Guards *)

(** No message is both a request and a response. *)
Theorem request_response_exclusive v : isWorkerRequest v = true -> isWorkerResponse v = false.
Proof.
  unfold isWorkerRequest, isWorkerResponse. destruct (negb (isObject v)); [done|].
  destruct (negb (hasEnvelope v)); [done|]. intros [Hr He]%andb_true_iff.
  destruct (optProp v "result"), (optProp v "error"); done.
Qed.

Lemma request_response_exclusive_witness :
  let msg := Obj [("type", Str "plugins_size"); ("src", Str "frontend"); ("dst", Str "plugins");
                  ("id", Num 123456789); ("timestamp", Num 0)] in
  isWorkerRequest msg = true /\ isWorkerResponse msg = false.
Proof. split; [by vm_compute|]. apply request_response_exclusive. by vm_compute. Defined.

(** A request, by its fields. *)
Lemma isWorkerRequest_spec f :
  isWorkerRequest (Obj f) = true <->
  exists type src dst id ts, getField "type" f = Str type /\ getField "src" f = Str src /\
    getField "dst" f = Str dst /\ getField "id" f = Num id /\ getField "timestamp" f = Num ts /\
    getField "result" f = Undefined /\ getField "error" f = Undefined.
Proof.
  unfold isWorkerRequest, hasEnvelope. cbn [isObject negb optProp]. split.
  - destruct (getField "type" f); try done. destruct (getField "src" f); try done.
    destruct (getField "dst" f); try done. destruct (getField "id" f); try done.
    destruct (getField "timestamp" f); try done. cbn [isString isNumber andb negb].
    destruct (getField "result" f); try done. destruct (getField "error" f); try done.
    intros _. by repeat eexists.
  - by intros (? & ? & ? & ? & ? & -> & -> & -> & -> & -> & -> & ->).
Qed.

Lemma isWorkerResponse_spec f type src dst id ts :
  getField "type" f = Str type -> getField "src" f = Str src -> getField "dst" f = Str dst ->
  getField "id" f = Num id -> getField "timestamp" f = Num ts ->
  isWorkerResponse (Obj f) = xorb (isString (getField "error" f)) (negb (isUndefined (getField "result" f))).
Proof.
  unfold isWorkerResponse, hasEnvelope. cbn [isObject negb optProp]. intros -> -> -> -> ->. cbn.
  by destruct (isString _), (isUndefined _).
Qed.
(** Reads a field through the updates in front of it. *)
Ltac fields := repeat (rewrite getField_setField || rewrite getField_setField_ne by done).

(** The fields of a well-formed request. *)
Definition requestFields (f : list (string * value)) (type src dst : string) (id ts : Z) : Prop :=
  getField "type" f = Str type /\ getField "src" f = Str src /\ getField "dst" f = Str dst /\
  getField "id" f = Num id /\ getField "timestamp" f = Num ts /\
  getField "result" f = Undefined /\ getField "error" f = Undefined.

(** ** Responses *)

(** What a responder builds: the request with a result or with an error. *)
Inductive outcome := Result (r : value) | Failure (e : string).

Definition withOutcome (o : outcome) (f : list (string * value)) : list (string * value) :=
  match o with
  | Result r => setField "result" r f
  | Failure e => setField "error" (Str e) f
  end.

Definition outcomeOk (o : outcome) : Prop := match o with Result r => r <> Undefined | Failure _ => True end.

Lemma respond_ok f type src dst id ts o now :
  requestFields f type src dst id ts -> outcomeOk o ->
  exists g, respond (mkServer dst false) now (Obj (withOutcome o f)) = Some (Obj g) /\
    getField "type" g = Str type /\ getField "src" g = Str dst /\ getField "dst" g = Str src /\
    getField "id" g = Num id /\ getField "timestamp" g = Num ts /\ getField "elapsed" g = Num (now - ts) /\
    getField "result" g = (match o with Result r => r | Failure _ => Undefined end) /\
    getField "error" g = (match o with Result _ => Undefined | Failure e => Str e end) /\
    isWorkerResponse (Obj g) = true.
Proof.
  intros (Ht & Hs & Hd & Hi & Hts & Hr & He) Ho.
  assert (forall k, k <> "result" -> k <> "error" -> getField k (withOutcome o f) = getField k f) as Hk.
  { intros k Hk1 Hk2. destruct o; cbn [withOutcome]; by rewrite getField_setField_ne. }
  set (h := withOutcome o f) in *.
  assert (getField "result" h = match o with Result r => r | Failure _ => Undefined end) as Hr'
    by (subst h; destruct o; cbn [withOutcome]; fields; done).
  assert (getField "error" h = match o with Result _ => Undefined | Failure e => Str e end) as He'
    by (subst h; destruct o; cbn [withOutcome]; fields; done).
  clearbody h. unfold respond. cbn [closed name optProp spread].
  rewrite !Hk by done. rewrite Hts, Hd, Hs. cbn [isStr coalesce]. rewrite bool_decide_eq_true_2 by done.
  match goal with |- context [isWorkerResponse (Obj ?l)] => set (g := l) end.
  assert (isWorkerResponse (Obj g) = true) as Hg.
  { erewrite isWorkerResponse_spec; [|subst g; fields; rewrite ?Hk by done; done ..].
    subst g. fields. rewrite Hr', He'. destruct o as [r|e]; [|done]. by destruct r. }
  rewrite Hg. cbn [negb]. exists g. split_and!; try done; subst g; fields; by rewrite ?Hk, ?Hr', ?He' by done.
Qed.

(** A message reaches the server it is addressed to. *)
Lemma delivered_to g src other :
  getField "dst" g = Str src -> src <> "all" ->
  broadcastMessageHandler (mkServer other false) (Obj g) = Ok (if bool_decide (other = src) then Some (Obj g) else None).
Proof.
  intros Hdst Hs. unfold broadcastMessageHandler. cbn [getProp]. rewrite bind_Ok, Hdst.
  cbn [isStr name]. rewrite (bool_decide_eq_false_2 (src = "all")) by done. rewrite orb_false_r.
  by rewrite (bool_decide_ext (src = other) (other = src)) by (split; congruence).
Qed.

(** The answer to a request goes back to its sender and nowhere else: it keeps
    the type, the id and the timestamp of the request, carries the elapsed time,
    and is delivered only to the server the request came from. *)
Theorem respond_routes_back f type src dst id ts o now other :
  requestFields f type src dst id ts -> outcomeOk o -> src <> "all" ->
  exists g, respond (mkServer dst false) now (Obj (withOutcome o f)) = Some (Obj g) /\
    isWorkerResponse (Obj g) = true /\ getField "type" g = Str type /\ getField "id" g = Num id /\
    getField "timestamp" g = Num ts /\ getField "elapsed" g = Num (now - ts) /\
    broadcastMessageHandler (mkServer other false) (Obj g) =
      Ok (if bool_decide (other = src) then Some (Obj g) else None).
Proof.
  intros Hf Ho Hs. destruct (respond_ok f type src dst id ts o now Hf Ho) as
    (g & Hg & Ht & Hsrc & Hdst & Hi & Hts & Hel & _ & _ & Hresp).
  exists g. split_and!; try done. by apply delivered_to.
Qed.

Definition sampleRequest : list (string * value) :=
  [("type", Str "plugins_size"); ("src", Str "frontend"); ("dst", Str "plugins");
   ("id", Num 123456789); ("timestamp", Num 1000)].

Lemma respond_routes_back_witness :
  requestFields sampleRequest "plugins_size" "frontend" "plugins" 123456789 1000 /\
  exists g, respond (mkServer "plugins" false) 1250 (Obj (withOutcome (Result (Obj [("size", Num 3)])) sampleRequest))
      = Some (Obj g) /\
    broadcastMessageHandler (mkServer "devices" false) (Obj g) = Ok None.
Proof.
  split; [by repeat split|].
  destruct (respond_routes_back sampleRequest "plugins_size" "frontend" "plugins" 123456789 1000
              (Result (Obj [("size", Num 3)])) 1250 "devices") as (g & Hg & _ & _ & _ & _ & _ & Hh);
    [by repeat split|done|done|]. exists g. split; [exact Hg|exact Hh].
Defined.

(** The answer to a request addressed to all servers is itself addressed to
    all servers: source and destination are not swapped. *)
Theorem respond_to_all f type src id ts o now self other :
  requestFields f type src "all" id ts -> outcomeOk o -> self <> "all" ->
  exists g, respond (mkServer self false) now (Obj (withOutcome o f)) = Some (Obj g) /\
    broadcastMessageHandler (mkServer other false) (Obj g) = Ok (Some (Obj g)).
Proof.
  intros (Ht & Hs & Hd & Hi & Hts & Hr & He) Ho Hself.
  assert (forall k, k <> "result" -> k <> "error" -> getField k (withOutcome o f) = getField k f) as Hk.
  { intros k Hk1 Hk2. destruct o; cbn [withOutcome]; by rewrite getField_setField_ne. }
  assert (xorb (isString (getField "error" (withOutcome o f)))
            (negb (isUndefined (getField "result" (withOutcome o f)))) = true) as Hx.
  { destruct o as [r|e]; cbn [withOutcome]; fields; rewrite ?Hr, ?He; [by destruct r|done]. }
  set (h := withOutcome o f) in *. clearbody h. unfold respond. cbn [closed name optProp spread].
  rewrite !Hk by done. rewrite Hts, Hd. cbn [isStr coalesce]. rewrite bool_decide_eq_false_2 by congruence.
  match goal with |- context [isWorkerResponse (Obj ?l)] => set (g := l) end.
  assert (isWorkerResponse (Obj g) = true) as Hg.
  { erewrite isWorkerResponse_spec; [|subst g; fields; rewrite ?Hk by done; done ..].
    subst g. fields. exact Hx. }
  rewrite Hg. cbn [negb]. exists g. split; [done|]. unfold broadcastMessageHandler. cbn [getProp].
  rewrite bind_Ok. subst g. fields. cbn [isStr]. by rewrite orb_true_r.
Qed.

Lemma respond_to_all_witness :
  exists g, respond (mkServer "devices" false) 1250
      (Obj (withOutcome (Result (Obj [("logLevel", Str "info")])) (setField "dst" (Str "all") sampleRequest)))
      = Some (Obj g) /\ broadcastMessageHandler (mkServer "manager" false) (Obj g) = Ok (Some (Obj g)).
Proof.
  apply (respond_to_all (setField "dst" (Str "all") sampleRequest) "plugins_size" "frontend" 123456789 1000);
    [by repeat split|done|done].
Defined.

(** ** Fetching *)

(** A message to fetch, as the callers write it. *)
Definition fetchable (f : list (string * value)) (type dst : string) : Prop :=
  getField "type" f = Str type /\ getField "dst" f = Str dst /\ getField "id" f = Undefined /\
  getField "timestamp" f = Undefined /\ getField "result" f = Undefined /\ getField "error" f = Undefined.

Lemma stamp_fields a uid now f type dst :
  fetchable f type dst ->
  exists g, stamp (mkServer a false) uid now (Obj f) = Obj g /\ requestFields g type a dst uid now.
Proof.
  intros (Ht & Hd & Hi & Hts & Hr & He). unfold stamp. cbn [optProp spread name]. rewrite Hi, Hts. cbn [coalesce].
  eexists. split; [done|]. unfold requestFields. fields. by rewrite Ht, Hd, Hr, He.
Qed.

Lemma stamp_idem_fields a uid now g type dst id ts :
  requestFields g type a dst id ts ->
  exists h, stamp (mkServer a false) uid now (Obj g) = Obj h /\ requestFields h type a dst id ts.
Proof.
  intros (Ht & Hs & Hd & Hi & Hts & Hr & He). unfold stamp. cbn [optProp spread name]. rewrite Hi, Hts. cbn [coalesce].
  eexists. split; [done|]. unfold requestFields. fields. by rewrite Ht, Hd, Hr, He.
Qed.

(** A message that is not the awaited response. *)
Definition unrelated (type : string) (id : Z) (msg : value) : Prop :=
  isWorkerResponseOfType msg (Str type) && bool_decide (optProp msg "id" = Num id) = false.

#[export] Instance unrelated_dec type id msg : Decision (unrelated type id msg).
Proof. unfold unrelated. apply _. Defined.

Lemma receive_unrelated s g type src dst id ts msgs :
  requestFields g type src dst id ts -> Forall (unrelated type id) msgs ->
  foldl (receive s) (Pending (Obj g)) msgs = Pending (Obj g).
Proof.
  intros (Ht & Hs & Hd & Hi & Hts & Hr & He) Hm. induction Hm as [|msg msgs Hmsg Hm IH]; [done|].
  cbn [foldl]. replace (receive s (Pending (Obj g)) msg) with (Pending (Obj g)); [done|].
  unfold receive. destruct (broadcastMessageHandler s msg) as [[msg'|]|] eqn:E; try done.
  unfold broadcastMessageHandler in E. destruct (getProp msg "dst"); [|done]. rewrite bind_Ok in E.
  destruct (_ || _); [|done]. injection E as <-. unfold responseHandler. cbn [optProp]. rewrite Ht, Hi.
  unfold unrelated in Hmsg. by rewrite Hmsg.
Qed.

Lemma receive_settled s st msgs :
  (forall g, st <> Pending g) -> foldl (receive s) st msgs = st.
Proof.
  intros Hst. induction msgs as [|msg msgs IH]; [done|]. cbn [foldl].
  replace (receive s st msg) with st; [done|]. unfold receive.
  destruct (broadcastMessageHandler s msg) as [[m|]|]; try done.
  destruct st; [|done|done]. by destruct (Hst requestMessage).
Qed.

(** What the promise of a fetch becomes when the response is [g]. *)
Definition settled (o : outcome) (req g : value) : FetchState :=
  match o with
  | Result _ => Resolved g
  | Failure e => Rejected ("Fetch received error response " ++ e ++ " to " ++ describe req)
  end.

Lemma responseHandler_settles g req type src dst id ts o :
  requestFields req type src dst id ts -> outcomeOk o ->
  getField "type" g = Str type -> getField "id" g = Num id ->
  getField "result" g = (match o with Result r => r | Failure _ => Undefined end) ->
  getField "error" g = (match o with Result _ => Undefined | Failure e => Str e end) ->
  isWorkerResponse (Obj g) = true ->
  responseHandler (Pending (Obj req)) (Obj g) = settled o (Obj req) (Obj g).
Proof.
  intros (Ht & _ & _ & Hi & _) Ho Hgt Hgi Hgr Hge Hresp. unfold responseHandler, isWorkerResponseOfType.
  cbn [optProp]. rewrite Hresp, Hgt, Ht, Hgi, Hi, !bool_decide_eq_true_2 by done. cbn [andb].
  assert (forall k, getField k g <> Undefined -> hasProp (Obj g) k = true) as Hk.
  { intros k Hne. destruct (hasProp (Obj g) k) eqn:E; [done|]. by apply hasProp_false in E. }
  destruct o as [r|e]; cbn [settled].
  - rewrite Hge, andb_false_r, Hk by (by rewrite Hgr). done.
  - rewrite Hk by (by rewrite Hge). rewrite Hge. done.
Qed.

(** C7: request and response meet. A fetch posts a request; the addressed server
    receives it and answers with a result or an error; whatever unrelated
    messages arrive at the fetching server before, and whatever arrives after,
    its promise is settled by exactly that answer. *)
Theorem fetch_settles f type a b uid now now' o before after :
  fetchable f type b -> outcomeOk o -> b <> "all" -> Forall (unrelated type uid) before ->
  exists st req posted g,
    fetch (mkServer a false) uid now (Obj f) = (st, Some (Obj posted)) /\ st = Pending req /\
    broadcastMessageHandler (mkServer b false) (Obj posted) = Ok (Some (Obj posted)) /\
    isWorkerRequest (Obj posted) = true /\
    respond (mkServer b false) now' (Obj (withOutcome o posted)) = Some (Obj g) /\
    foldl (receive (mkServer a false)) st (before ++ [Obj g] ++ after) = settled o req (Obj g).
Proof.
  intros Hf Ho Hb Hbefore.
  destruct (stamp_fields a uid now f type b Hf) as (req & Hreq & Hrf).
  destruct (stamp_idem_fields a uid now req type b uid now Hrf) as (posted & Hposted & Hpf).
  destruct (respond_ok posted type a b uid now o now' Hpf Ho) as
    (g & Hg & Ht & Hsrc & Hdst & Hi & Hts & Hel & Hr & He & Hresp).
  assert (isWorkerRequest (Obj posted) = true) as Hisreq.
  { apply isWorkerRequest_spec. by exists type, a, b, uid, now. }
  exists (Pending (Obj req)), (Obj req), posted, g. unfold fetch. cbn [closed]. rewrite Hreq.
  unfold request. cbn [closed]. rewrite Hposted, Hisreq. cbn [negb]. split_and!; try done.
  - unfold broadcastMessageHandler. cbn [getProp]. rewrite bind_Ok.
    destruct Hpf as (_ & _ & -> & _). cbn [isStr name]. by rewrite bool_decide_eq_true_2.
  - rewrite !foldl_app, (receive_unrelated _ _ _ _ _ _ _ _ Hrf Hbefore). cbn [foldl].
    assert (receive (mkServer a false) (Pending (Obj req)) (Obj g) = settled o (Obj req) (Obj g)) as ->.
    { unfold receive, broadcastMessageHandler. cbn [getProp]. rewrite bind_Ok, Hdst. cbn [isStr name].
      rewrite bool_decide_eq_true_2 by done. cbn [orb].
      by apply (responseHandler_settles g req type a b uid now). }
    apply receive_settled. by destruct o.
Qed.

Lemma fetch_settles_witness :
  exists st req posted g,
    fetch (mkServer "frontend" false) 123456789 1000 (Obj [("type", Str "plugins_size"); ("dst", Str "plugins")]) =
      (st, Some (Obj posted)) /\ st = Pending req /\
    broadcastMessageHandler (mkServer "plugins" false) (Obj posted) = Ok (Some (Obj posted)) /\
    isWorkerRequest (Obj posted) = true /\
    respond (mkServer "plugins" false) 1100 (Obj (withOutcome (Result (Obj [("size", Num 3)])) posted)) = Some (Obj g) /\
    foldl (receive (mkServer "frontend" false)) st ([Obj sampleRequest] ++ [Obj g] ++ []) =
      settled (Result (Obj [("size", Num 3)])) req (Obj g).
Proof. apply (fetch_settles _ "plugins_size"); [by repeat split|done|done|evaluate]. Defined.

(** Without a matching response the fetch stays pending, and its timer
    rejects it; a timer that fires late changes nothing. *)
Theorem fetch_times_out f type a b uid now msgs timeout :
  fetchable f type b -> Forall (unrelated type uid) msgs ->
  exists st posted req, fetch (mkServer a false) uid now (Obj f) = (st, posted) /\
    foldl (receive (mkServer a false)) st msgs = Pending req /\
    timeoutHandler timeout (Pending req) =
      Rejected ("Fetch timeout after " ++ toText (Num timeout) ++ "ms for " ++ describe req) /\
    (forall m, timeoutHandler timeout (Resolved m) = Resolved m).
Proof.
  intros Hf Hm. destruct (stamp_fields a uid now f type b Hf) as (req & Hreq & Hrf).
  unfold fetch. cbn [closed]. rewrite Hreq. do 3 eexists. split; [done|].
  split; [by eapply receive_unrelated|done].
Qed.

Lemma fetch_times_out_witness :
  exists st posted req,
    fetch (mkServer "frontend" false) 123456789 1000 (Obj [("type", Str "plugins_size"); ("dst", Str "plugins")]) =
      (st, posted) /\
    foldl (receive (mkServer "frontend" false)) st [Obj sampleRequest; Null] = Pending req /\
    timeoutHandler 250 (Pending req) =
      Rejected ("Fetch timeout after " ++ toText (Num 250) ++ "ms for " ++ describe req) /\
    (forall m, timeoutHandler 250 (Resolved m) = Resolved m).
Proof. apply (fetch_times_out _ "plugins_size" _ "plugins"); [by repeat split|evaluate]. Defined.

End Broadcast.
