(* ===== verification/DeviceManager.v ===== *)
(** The device manager of [packages/core/src/deviceManager.ts]: the registry of
    endpoints by unique id, its operations and the handler of broadcast requests,
    with a refinement to a registry of device descriptions. *)
From S2P Require Import Prelude JsValue JsMap Broadcast.
From stdpp Require Import gmap.
#[local] Open Scope string_scope.

Module DeviceManager.
Import Broadcast.

(** ** State *)

(** An object of the JavaScript heap and a reference to one. *)
Abbreviation object := (list (string * value)) (only parsing).
Abbreviation ref := nat (only parsing).

(** [_devices] maps a unique id to a reference: the manager shares its endpoints
    with the rest of the program. *)
Record DeviceManager := mkManager {
  _devices : jsmap value ref;
  heap : gmap ref object;
  server : BroadcastServer;
  logLevel : value
}.

Definition initial : DeviceManager := mkManager [] ∅ (mkServer "devices" false) (Str "info").

Definition deref (s : DeviceManager) (r : ref) : object := default [] (heap s !! r).

Definition setDevices (s : DeviceManager) (m : jsmap value ref) : DeviceManager :=
  mkManager m (heap s) (server s) (logLevel s).

(** A new object. *)
Definition allocate (s : DeviceManager) (o : object) : DeviceManager * ref :=
  let r := fresh (dom (heap s)) in
  (mkManager (_devices s) (<[r := o]> (heap s)) (server s) (logLevel s), r).

(** ** Descriptions *)

(** The properties of a [BaseDevice]. *)
Definition baseDeviceKeys : list string :=
  ["mode"; "plugin"; "configUrl"; "deviceName"; "serialNumber"; "uniqueId"; "vendorId"; "vendorName";
   "productId"; "productName"; "softwareVersion"; "softwareVersionString"; "hardwareVersion";
   "hardwareVersionString"; "productUrl"; "tagList"; "originalId"; "name"; "deviceType"; "number"; "id"].

Definition toBaseDevice (device : object) : object := map (fun k => (k, getField k device)) baseDeviceKeys.

(** ** Operations *)

Definition size (s : DeviceManager) : Z := msize (_devices s).

Definition has (s : DeviceManager) (uniqueId : value) : bool := mhas uniqueId (_devices s).

Definition get (s : DeviceManager) (uniqueId : value) : option ref := mget uniqueId (_devices s).

Section Colours.
(** The escape sequences around a device name in a log line. *)
Context (dev er : string).

Definition notInitialized (device : object) : exn :=
  Error (js ("The device " ++ dev ++ toText (getField "deviceName" device) ++ er ++
             " has not been initialized: uniqueId is required")).

Definition set (s : DeviceManager) (device : ref) : res (DeviceManager * ref) :=
  let uniqueId := getField "uniqueId" (deref s device) in
  if negb (truthy uniqueId) then Throw (notInitialized (deref s device))
  else Ok (setDevices s (mset uniqueId device (_devices s)), device).

Definition remove (s : DeviceManager) (device : object) : res (DeviceManager * bool) :=
  let uniqueId := getField "uniqueId" device in
  if negb (truthy uniqueId) then Throw (notInitialized device)
  else Ok (setDevices s (mdelete uniqueId (_devices s)), mhas uniqueId (_devices s)).

Definition clear (s : DeviceManager) : DeviceManager := setDevices s [].

Definition array (s : DeviceManager) : list ref := mvalues (_devices s).

(** [pluginName] is [undefined] without a filter. *)
Definition baseArray (s : DeviceManager) (pluginName : value) : list object :=
  map toBaseDevice
    (filter (fun device => ~ (truthy pluginName = true /\ pluginName <> getField "plugin" device))
      (map (deref s) (array s))).

(** [forEach]: the callback on every device of the snapshot, in order; what it
    throws is logged and forgotten. *)
Definition forEach {W} (s : DeviceManager) (callback : ref -> W -> W * res unit) (w : W) : W :=
  foldl (fun w device => fst (callback device w)) w (array s).

(** ** Broadcast requests *)

Definition reply (s : DeviceManager) (now : Z) (msg : object) (result : object) : option value :=
  respond (server s) now (Obj (setField "result" (Obj result) msg)).

(** [msg.params.k]. *)
Definition param (msg : object) (k : string) : res value := getProp (getField "params" msg) k.

(** [toBaseDevice(v)] for a value of a message. *)
Definition toBase (v : value) : res object :=
  match v with
  | Undefined | Null => Throw TypeError
  | Obj f => Ok (toBaseDevice f)
  | _ => Ok (toBaseDevice [])
  end.

(** The new state and the response posted, if any. *)
Definition msgHandler (s : DeviceManager) (now : Z) (m : value) : res (DeviceManager * option value) :=
  match m with
  | Obj msg =>
      if negb (isWorkerRequest m) then Ok (s, None)
      else
        let type := getField "type" msg in
        if isStr type "get_log_level" then Ok (s, reply s now msg [("logLevel", logLevel s)])
        else if isStr type "set_log_level" then
          level ← param msg "logLevel";
          let s := mkManager (_devices s) (heap s) (server s) level in
          Ok (s, reply s now msg [("logLevel", logLevel s)])
        else if isStr type "devices_length" then Ok (s, reply s now msg [("length", Num (size s))])
        else if isStr type "devices_size" then Ok (s, reply s now msg [("size", Num (size s))])
        else if isStr type "devices_has" then
          uniqueId ← param msg "uniqueId";
          Ok (s, reply s now msg [("has", Bool (has s uniqueId))])
        else if isStr type "devices_get" then
          uniqueId ← param msg "uniqueId";
          let device := match get s uniqueId with
                        | Some r => Obj (toBaseDevice (deref s r))
                        | None => Undefined
                        end in
          Ok (s, reply s now msg [("device", device)])
        else if isStr type "devices_set" then
          device ← param msg "device";
          base ← toBase device;
          let '(s, r) := allocate s base in
          '(s, r) ← set s r;
          Ok (s, reply s now msg [("device", Obj (deref s r))])
        else if isStr type "devices_remove" then
          device ← param msg "device";
          base ← toBase device;
          '(s, success) ← remove s base;
          Ok (s, reply s now msg [("success", Bool success)])
        else if isStr type "devices_clear" then
          let s := clear s in Ok (s, reply s now msg [("success", Bool true)])
        else if isStr type "devices_basearray" then
          pluginName ← param msg "pluginName";
          Ok (s, reply s now msg [("devices", Arr (map Obj (baseArray s pluginName)))])
        else Ok (s, None)
  | _ => Ok (s, None)
  end.

Definition destroy (s : DeviceManager) : DeviceManager :=
  mkManager (_devices s) (heap s) (close (server s)) (logLevel s).

(** ** The invariant *)

(** Every entry points to an object whose unique id is its key. *)
Definition entryOk (s : DeviceManager) (kv : value * ref) : Prop :=
  exists o, heap s !! snd kv = Some o /\ getField "uniqueId" o = fst kv /\ truthy (fst kv) = true.

Definition inv (s : DeviceManager) : Prop := mwf (_devices s) /\ Forall (entryOk s) (_devices s).

Lemma toBaseDevice_idem d : toBaseDevice (toBaseDevice d) = toBaseDevice d.
Proof.
  unfold toBaseDevice at 1 3. apply map_ext_Forall, Forall_forall. intros k Hk.
  unfold toBaseDevice.
  by rewrite getField_pick.
Qed.

Lemma getField_uniqueId d : getField "uniqueId" (toBaseDevice d) = getField "uniqueId" d.
Proof. reflexivity. Qed.

Lemma getField_plugin d : getField "plugin" (toBaseDevice d) = getField "plugin" d.
Proof. reflexivity. Qed.

Lemma initial_inv : inv initial.
Proof. split; [constructor|constructor]. Qed.

Lemma allocate_heap s o s' r :
  allocate s o = (s', r) ->
  heap s' !! r = Some o /\ (forall r' o', heap s !! r' = Some o' -> heap s' !! r' = Some o') /\
  _devices s' = _devices s /\ server s' = server s /\ logLevel s' = logLevel s.
Proof.
  unfold allocate. intros [= <- <-]. cbn [heap _devices server logLevel]. split_and!; try done.
  - apply lookup_insert_eq.
  - intros r' o' Hr. rewrite lookup_insert_ne; [done|]. intros <-.
    eapply (is_fresh (dom (heap s))). by apply elem_of_dom_2 in Hr.
Qed.

Lemma allocate_inv s o s' r : allocate s o = (s', r) -> inv s -> inv s'.
Proof.
  intros Ha [Hwf He]. apply allocate_heap in Ha as (_ & Hold & Hd & _). split; [by rewrite Hd|].
  rewrite Hd. eapply Forall_impl; [exact He|]. intros kv (o' & Ho & Hk). exists o'. split; [by apply Hold|done].
Qed.

Lemma mset_Forall {K V} `{EqDecision K} (P : K * V -> Prop) k v m :
  P (k, v) -> Forall P m -> Forall P (mset k v m).
Proof.
  intros Hp Hm. induction Hm as [|[k' v'] m Hkv Hm IH]; simpl; [by constructor|].
  destruct (decide (k = k')); by constructor.
Qed.

Lemma mdelete_Forall {K V} `{EqDecision K} (P : K * V -> Prop) k m : Forall P m -> Forall P (mdelete k m).
Proof.
  intros Hm. induction Hm as [|[k' v'] m Hkv Hm IH]; simpl; [constructor|].
  destruct (decide (k = k')); [done|by constructor].
Qed.

Lemma set_inv s r s' r' : inv s -> is_Some (heap s !! r) -> set s r = Ok (s', r') -> inv s'.
Proof.
  intros [Hwf He] [o Ho]. unfold set, deref. rewrite Ho. cbn [default from_option id].
  destruct (truthy (getField "uniqueId" o)) eqn:Ht; [|done]. cbn [negb]. intros [= <- _].
  split; cbn [setDevices _devices]; [by apply mset_wf|].
  apply mset_Forall; [by exists o|]. eapply Forall_impl; [exact He|]. done.
Qed.

Lemma remove_inv s o s' b : inv s -> remove s o = Ok (s', b) -> inv s'.
Proof.
  intros [Hwf He]. unfold remove. destruct (negb _); [done|]. intros [= <- _].
  split; cbn [setDevices _devices]; [by apply mdelete_wf|]. by apply mdelete_Forall.
Qed.
(** ** Specification: a registry of descriptions *)

(** Descriptions by unique id, in the order of registration. *)
Definition registry := jsmap value object.

Inductive Request :=
  | RLength
  | RSize
  | RHas (uniqueId : value)
  | RGet (uniqueId : value)
  | RSet (device : object)
  | RRemove (device : object)
  | RClear
  | RBaseArray (pluginName : value).

(** What a request does to the registry, and the result it is answered with. *)
Definition spec (reg : registry) (r : Request) : res (registry * object) :=
  match r with
  | RLength => Ok (reg, [("length", Num (msize reg))])
  | RSize => Ok (reg, [("size", Num (msize reg))])
  | RHas uniqueId => Ok (reg, [("has", Bool (mhas uniqueId reg))])
  | RGet uniqueId =>
      Ok (reg, [("device", match mget uniqueId reg with Some d => Obj d | None => Undefined end)])
  | RSet device =>
      let d := toBaseDevice device in
      if truthy (getField "uniqueId" d) then Ok (mset (getField "uniqueId" d) d reg, [("device", Obj d)])
      else Throw (notInitialized d)
  | RRemove device =>
      let d := toBaseDevice device in
      if truthy (getField "uniqueId" d)
      then Ok (mdelete (getField "uniqueId" d) reg, [("success", Bool (mhas (getField "uniqueId" d) reg))])
      else Throw (notInitialized d)
  | RClear => Ok ([], [("success", Bool true)])
  | RBaseArray pluginName =>
      Ok (reg, [("devices", Arr (map Obj (filter (fun d =>
             ~ (truthy pluginName = true /\ pluginName <> getField "plugin" d)) (mvalues reg))))])
  end.

(** The type and the parameters of the message that carries a request. *)
Definition requestType (r : Request) : string :=
  match r with
  | RLength => "devices_length" | RSize => "devices_size" | RHas _ => "devices_has" | RGet _ => "devices_get"
  | RSet _ => "devices_set" | RRemove _ => "devices_remove" | RClear => "devices_clear"
  | RBaseArray _ => "devices_basearray"
  end.

Definition requestParams (r : Request) : value :=
  match r with
  | RLength | RSize | RClear => Undefined
  | RHas uniqueId | RGet uniqueId => Obj [("uniqueId", uniqueId)]
  | RSet device | RRemove device => Obj [("device", Obj device)]
  | RBaseArray pluginName => Obj [("pluginName", pluginName)]
  end.

Definition carries (msg : object) (r : Request) : Prop :=
  isWorkerRequest (Obj msg) = true /\ getField "type" msg = Str (requestType r) /\
  getField "params" msg = requestParams r.

(** The registry a state stands for. *)
Definition abs (s : DeviceManager) : registry := mmap (fun r => toBaseDevice (deref s r)) (_devices s).

Lemma abs_setDevices s m : abs (setDevices s m) = mmap (fun r => toBaseDevice (deref s r)) m.
Proof. reflexivity. Qed.

Lemma mhas_abs s k : mhas k (abs s) = mhas k (_devices s).
Proof. unfold mhas, abs. rewrite mget_mmap. by destruct (mget k (_devices s)). Qed.

Lemma allocate_abs s o s' r : allocate s o = (s', r) -> inv s -> abs s' = abs s.
Proof.
  intros Ha [_ He]. apply allocate_heap in Ha as (_ & Hold & Hd & _). unfold abs. rewrite Hd.
  apply mmap_ext. eapply Forall_impl; [exact He|]. intros kv (o' & Ho & _). unfold deref.
  by rewrite Ho, (Hold _ _ Ho).
Qed.

Lemma baseArray_abs s p :
  baseArray s p = filter (fun d => ~ (truthy p = true /\ p <> getField "plugin" d)) (mvalues (abs s)).
Proof.
  unfold baseArray, abs, array. rewrite mvalues_mmap. generalize (mvalues (_devices s)). intros l.
  induction l as [|r l IH]; [done|]. cbn [map]. rewrite !filter_cons, getField_plugin.
  destruct (decide _); cbn [map]; by rewrite IH.
Qed.

Lemma set_allocated s d s1 r :
  inv s -> allocate s d = (s1, r) ->
  if truthy (getField "uniqueId" d)
  then exists s', set s1 r = Ok (s', r) /\ inv s' /\ deref s' r = d /\ server s' = server s /\
         abs s' = mset (getField "uniqueId" d) (toBaseDevice d) (abs s)
  else set s1 r = Throw (notInitialized d).
Proof.
  intros Hinv Ha. pose proof (allocate_inv _ _ _ _ Ha Hinv) as Hinv1.
  pose proof (allocate_abs _ _ _ _ Ha Hinv) as Habs. apply allocate_heap in Ha as (Hr & _ & _ & Hsrv & _).
  assert (deref s1 r = d) as Hd by (unfold deref; by rewrite Hr).
  destruct (truthy (getField "uniqueId" d)) eqn:Ht; unfold set; rewrite Hd, Ht; cbn [negb]; [|done].
  eexists. split; [done|]. split_and!; [|exact Hd|exact Hsrv|].
  - eapply (set_inv s1 r); [done|by rewrite Hr|]. unfold set. by rewrite Hd, Ht.
  - rewrite abs_setDevices, mset_mmap, Hd. by rewrite <- Habs.
Qed.

Lemma remove_spec s d :
  inv s ->
  if truthy (getField "uniqueId" d)
  then exists s', remove s d = Ok (s', mhas (getField "uniqueId" d) (abs s)) /\ inv s' /\ server s' = server s /\
         abs s' = mdelete (getField "uniqueId" d) (abs s)
  else remove s d = Throw (notInitialized d).
Proof.
  intros Hinv. destruct (truthy (getField "uniqueId" d)) eqn:Ht; unfold remove; rewrite Ht; cbn [negb]; [|done].
  eexists. rewrite mhas_abs. split; [done|]. split_and!; [|done|].
  - eapply (remove_inv s d); [done|]. unfold remove. by rewrite Ht.
  - by rewrite abs_setDevices, mdelete_mmap.
Qed.

Lemma reply_server s s' now msg result : server s' = server s -> reply s' now msg result = reply s now msg result.
Proof. unfold reply. by intros ->. Qed.

Lemma handler_refines s now msg r :
  inv s -> carries msg r ->
  match spec (abs s) r with
  | Ok (reg, result) =>
      exists s', msgHandler s now (Obj msg) = Ok (s', reply s now msg result) /\ inv s' /\ abs s' = reg
  | Throw e => msgHandler s now (Obj msg) = Throw e
  end.
Proof.
  intros Hinv (Hreq & Ht & Hp). unfold msgHandler. rewrite Hreq. cbn [negb]. cbv zeta. rewrite Ht.
  unfold param. rewrite Hp. destruct r; cbn [spec requestType requestParams isStr]; vm_compute (bool_decide _); cbv iota.
  - exists s. split; [|done]. unfold size. by rewrite <- (msize_mmap (fun r => toBaseDevice (deref s r))).
  - exists s. split; [|done]. unfold size. by rewrite <- (msize_mmap (fun r => toBaseDevice (deref s r))).
  - exists s. split; [|done]. by rewrite mhas_abs.
  - exists s. split; [|done]. cbn [getProp]. rewrite bind_Ok. unfold get, abs. rewrite mget_mmap.
    cbn [getField]. rewrite bool_decide_eq_true_2 by done. by destruct (mget uniqueId (_devices s)).
  - cbn [getProp]. rewrite bind_Ok. cbn [getField]. rewrite bool_decide_eq_true_2 by done. cbn [toBase]. rewrite bind_Ok.
    destruct (allocate s (toBaseDevice device)) as [s1 r] eqn:Ha. pose proof (set_allocated _ _ _ _ Hinv Ha) as Hset.
    destruct (truthy _) eqn:Htr; [|by rewrite Hset].
    destruct Hset as (s' & -> & Hi & Hd & Hs & Habs). rewrite bind_Ok. exists s'.
    rewrite Hd, (reply_server s) by done. rewrite Habs, toBaseDevice_idem. done.
  - cbn [getProp]. rewrite bind_Ok. cbn [getField]. rewrite bool_decide_eq_true_2 by done. cbn [toBase]. rewrite bind_Ok.
    pose proof (remove_spec s (toBaseDevice device) Hinv) as Hrem.
    destruct (truthy _) eqn:Htr; [|by rewrite Hrem].
    destruct Hrem as (s' & -> & Hi & Hs & Habs). rewrite bind_Ok. exists s'. by rewrite (reply_server s), Habs.
  - exists (clear s). split; [done|]. split; [split; constructor|done].
  - exists s. split; [|done]. cbn [getProp]. rewrite bind_Ok. cbn [getField].
    rewrite bool_decide_eq_true_2 by done. by rewrite baseArray_abs.
Qed.

(** C6: the broadcast interface implements the registry: every request the
    manager serves changes the registry of descriptions, and is answered, as the
    specification says; a device without a unique id is refused with the
    specified error and without a response; the invariant is kept. *)
Theorem msgHandler_refines s now msg r :
  inv s -> carries msg r ->
  match spec (abs s) r with
  | Ok (reg, result) =>
      exists s', msgHandler s now (Obj msg) = Ok (s', reply s now msg result) /\ inv s' /\ abs s' = reg
  | Throw e => msgHandler s now (Obj msg) = Throw e
  end.
Proof. apply handler_refines. Qed.

(** Over the channel, every well-formed request to the devices server that the
    specification accepts is answered with one response, which carries the
    specified result and the id of the request, and which only the sender
    receives. *)
Theorem request_is_answered s now msg r reg result src id ts other :
  inv s -> server s = mkServer "devices" false -> carries msg r ->
  requestFields msg (requestType r) src "devices" id ts -> src <> "all" ->
  spec (abs s) r = Ok (reg, result) ->
  exists s' g, msgHandler s now (Obj msg) = Ok (s', Some (Obj g)) /\ abs s' = reg /\
    isWorkerResponse (Obj g) = true /\ getField "id" g = Num id /\ getField "result" g = Obj result /\
    broadcastMessageHandler (mkServer other false) (Obj g) =
      Ok (if bool_decide (other = src) then Some (Obj g) else None).
Proof.
  intros Hinv Hs Hc Hf Hsrc Hspec. pose proof (handler_refines s now msg r Hinv Hc) as Href.
  rewrite Hspec in Href. destruct Href as (s' & Hm & _ & Habs).
  destruct (respond_ok msg _ src "devices" id ts (Result (Obj result)) now Hf ltac:(done)) as
    (g & Hg & _ & _ & Hdst & Hid & _ & _ & Hr & _ & Hresp).
  exists s', g. unfold reply in Hm. rewrite Hs in Hm. cbn [withOutcome] in Hg. rewrite Hg in Hm.
  split_and!; try done. by apply delivered_to.
Qed.

(** Registering a device makes it the one found under its unique id, leaves
    every other device and the order of registration as they were, and counts it
    once. *)
Theorem set_then_lookup s r s' r' :
  inv s -> set s r = Ok (s', r') ->
  let uniqueId := getField "uniqueId" (deref s r) in
  get s' uniqueId = Some r /\
  (forall k, k <> uniqueId -> get s' k = get s k) /\
  size s' = (if has s uniqueId then size s else size s + 1)%Z /\
  (has s uniqueId = false -> array s' = array s ++ [r])%list.
Proof.
  intros [Hwf _] Hset uniqueId. unfold set in Hset. fold uniqueId in Hset. destruct (negb _); [done|].
  injection Hset as <- _. unfold get, has, size, array. cbn [setDevices _devices]. split_and!.
  - apply mget_set.
  - intros k Hk. by apply mget_set_ne.
  - unfold mhas, msize. destruct (mget uniqueId (_devices s)) as [r0|] eqn:E.
    + pose proof (mkeys_set_present uniqueId r r0 _ E) as Hk. unfold mkeys in Hk.
      apply (f_equal length) in Hk. rewrite !length_map in Hk. lia.
    + rewrite mset_fresh, length_app by done. simpl. lia.
  - intros Hh. unfold mhas in Hh. destruct (mget uniqueId (_devices s)) eqn:E; [done|].
    rewrite mset_fresh by done. unfold mvalues. by rewrite map_app.
Qed.

End Colours.

(** ** Samples *)

(** The sample device and a request that registers it. *)
Definition sampleDevice : object :=
  [("deviceName", Str "Light"); ("serialNumber", Str "0x01"); ("uniqueId", Str "abc123"); ("plugin", Str "matterbridge-test")].

Definition sampleMessage (r : Request) : object :=
  [("type", Str (requestType r)); ("src", Str "frontend"); ("dst", Str "devices"); ("id", Num 123456789);
   ("timestamp", Num 1000); ("params", requestParams r)].

Lemma msgHandler_refines_witness :
  inv initial /\ carries (sampleMessage (RSet sampleDevice)) (RSet sampleDevice) /\
  exists s', msgHandler "<" ">" initial 1010 (Obj (sampleMessage (RSet sampleDevice))) =
      Ok (s', reply initial 1010 (sampleMessage (RSet sampleDevice)) [("device", Obj (toBaseDevice sampleDevice))]) /\
    inv s' /\ abs s' = [(Str "abc123", toBaseDevice sampleDevice)].
Proof.
  assert (carries (sampleMessage (RSet sampleDevice)) (RSet sampleDevice)) as Hc by (split; by vm_compute).
  split; [apply initial_inv|]. split; [exact Hc|].
  exact (msgHandler_refines "<" ">" initial 1010 _ (RSet sampleDevice) initial_inv Hc).
Defined.

Lemma request_is_answered_witness :
  exists s' g, msgHandler "<" ">" initial 1010 (Obj (sampleMessage (RHas (Str "abc123")))) = Ok (s', Some (Obj g)) /\
    abs s' = [] /\ isWorkerResponse (Obj g) = true /\ getField "id" g = Num 123456789 /\
    getField "result" g = Obj [("has", Bool false)] /\
    broadcastMessageHandler (mkServer "plugins" false) (Obj g) = Ok None.
Proof.
  apply (request_is_answered "<" ">" initial 1010 (sampleMessage (RHas (Str "abc123"))) (RHas (Str "abc123")) []
           [("has", Bool false)] "frontend" 123456789 1000 "plugins");
    [apply initial_inv|done|split; by vm_compute|by repeat split|done|by vm_compute].
Defined.

Lemma set_then_lookup_witness :
  let s := fst (allocate initial sampleDevice) in
  exists s', set "<" ">" s 0%nat = Ok (s', 0%nat) /\ get s' (Str "abc123") = Some 0%nat.
Proof.
  intros s. assert (inv s) as Hinv by (apply (allocate_inv initial sampleDevice s 0); [done|apply initial_inv]).
  eexists. split; [reflexivity|]. exact (proj1 (set_then_lookup "<" ">" s 0 _ 0 Hinv eq_refl)).
Defined.

End DeviceManager.
