(* ===== verification/Async.v ===== *)
(** Asynchronous functions over a shared world: sequencing, exceptions and
    suspension points. A computation has two readings: [run] takes it to its end
    without interleaving, and [segment] runs it to its next suspension point, so
    that a pool of tasks can interleave the way an event loop interleaves them.
    [keeps] is the proof rule for invariants that hold under every interleaving,
    and [Preserves] the rules it shares with invariants of whole runs. *)
From S2P Require Import Prelude.
From stdpp Require Import relations.

(** [Read] and [Write] are synchronous accesses to the world; [Await] is a point
    where the event loop may run other tasks. *)
Inductive async (W A : Type) :=
  | Ret (a : A)
  | Raise (e : exn)
  | Read (k : W -> async W A)
  | Write (f : W -> W) (k : async W A)
  | Await (k : async W A).
Arguments Ret {W A} a.
Arguments Raise {W A} e.
Arguments Read {W A} k.
Arguments Write {W A} f k.
Arguments Await {W A} k.

Section Operations.
Context {W : Type}.

Fixpoint abind {A B} (k : A -> async W B) (m : async W A) : async W B :=
  match m with
  | Ret a => k a
  | Raise e => Raise e
  | Read r => Read (fun w => abind k (r w))
  | Write f m => Write f (abind k m)
  | Await m => Await (abind k m)
  end.

(** [try { m } catch (e) { h(e) }]. *)
Fixpoint catch {A} (m : async W A) (h : exn -> async W A) : async W A :=
  match m with
  | Ret a => Ret a
  | Raise e => h e
  | Read r => Read (fun w => catch (r w) h)
  | Write f m => Write f (catch m h)
  | Await m => Await (catch m h)
  end.

(** [await m]: the caller is suspended also when [m] has already settled. *)
Fixpoint await {A} (m : async W A) : async W A :=
  match m with
  | Ret a => Await (Ret a)
  | Raise e => Await (Raise e)
  | Read r => Read (fun w => await (r w))
  | Write f m => Write f (await m)
  | Await m => Await (await m)
  end.

Definition ask : async W W := Read Ret.
Definition gets {A} (f : W -> A) : async W A := Read (fun w => Ret (f w)).
Definition modify (f : W -> W) : async W unit := Write f (Ret tt).

(** A fallible pure computation. *)
Definition liftRes {A} (r : res A) : async W A :=
  match r with Ok a => Ret a | Throw e => Raise e end.
End Operations.

#[export] Instance async_ret {W} : MRet (async W) := fun A a => Ret a.
#[export] Instance async_bind {W} : MBind (async W) := fun A B k m => abind k m.

(** ** Running to the end *)

Section Run.
Context {W : Type}.

Fixpoint run {A} (m : async W A) (w : W) : W * res A :=
  match m with
  | Ret a => (w, Ok a)
  | Raise e => (w, Throw e)
  | Read r => run (r w) w
  | Write f m => run m (f w)
  | Await m => run m w
  end.

Lemma run_bind {A B} (m : async W A) (k : A -> async W B) w :
  run (m ≫= k) w = match run m w with
                   | (w, Ok a) => run (k a) w
                   | (w, Throw e) => (w, Throw e)
                   end.
Proof. revert w. induction m as [| |r IH|f m IH|m IH]; intros w; cbn; [done|done|apply IH|apply IH|apply IH]. Qed.

Lemma run_catch {A} (m : async W A) h w :
  run (catch m h) w = match run m w with
                      | (w, Ok a) => (w, Ok a)
                      | (w, Throw e) => run (h e) w
                      end.
Proof. revert w. induction m as [| |r IH|f m IH|m IH]; intros w; cbn; [done|done|apply IH|apply IH|apply IH]. Qed.

Lemma run_await {A} (m : async W A) w : run (await m) w = run m w.
Proof. revert w. induction m as [| |r IH|f m IH|m IH]; intros w; cbn; [done|done|apply IH|apply IH|apply IH]. Qed.

Lemma run_ret {A} (a : A) (w : W) : run (mret a) w = (w, Ok a).
Proof. reflexivity. Qed.

Lemma run_Raise {A} e (w : W) : run (@Raise W A e) w = (w, Throw e).
Proof. reflexivity. Qed.

Lemma run_liftRes {A} (r : res A) (w : W) : run (liftRes r) w = (w, r).
Proof. by destruct r. Qed.

Lemma run_ask (w : W) : run ask w = (w, Ok w).
Proof. reflexivity. Qed.

Lemma run_gets {A} (f : W -> A) w : run (gets f) w = (w, Ok (f w)).
Proof. reflexivity. Qed.

Lemma run_modify f w : run (modify f) w = (f w, Ok tt).
Proof. reflexivity. Qed.
End Run.

(** Evaluates a run along the structure of the computation. *)
Ltac running :=
  repeat (first [rewrite run_bind | rewrite run_catch | rewrite run_await | rewrite run_ret | rewrite run_Raise |
                 rewrite run_liftRes | rewrite run_ask | rewrite run_gets | rewrite run_modify]; cbv beta iota zeta).

(** ** Interleaving *)

Section Pool.
Context {W : Type}.

Fixpoint segment {A} (m : async W A) (w : W) : W * async W A :=
  match m with
  | Ret a => (w, Ret a)
  | Raise e => (w, Raise e)
  | Read r => segment (r w) w
  | Write f m => segment m (f w)
  | Await m => (w, m)
  end.

(** One turn of the event loop: some task runs to its next suspension point. *)
Inductive turn {A} : W * list (async W A) -> W * list (async W A) -> Prop :=
  | turn_task w pre m post w' m' :
      segment m w = (w', m') -> turn (w, pre ++ m :: post) (w', pre ++ m' :: post).

(** A finished task. *)
Definition finished {A} (r : res A) : async W A := match r with Ok a => Ret a | Throw e => Raise e end.

Lemma run_segments {A} (m : async W A) w w' r pre post :
  run m w = (w', r) ->
  exists w1 m1, segment m w = (w1, m1) /\ rtc turn (w1, pre ++ m1 :: post) (w', pre ++ finished r :: post).
Proof.
  revert w. induction m as [a|e|k IH|f m IH|m IH]; intros w Hrun; cbn in *.
  - injection Hrun as <- <-. do 2 eexists. split; [done|apply rtc_refl].
  - injection Hrun as <- <-. do 2 eexists. split; [done|apply rtc_refl].
  - by apply IH.
  - by apply IH.
  - destruct (IH _ Hrun) as (w1 & m1 & Hs & Hr). do 2 eexists. split; [done|].
    eapply rtc_l; [by constructor|done].
Qed.

(** Running alone is one of the interleavings. *)
Lemma run_turns {A} (m : async W A) w w' r pre post :
  run m w = (w', r) -> rtc turn (w, pre ++ m :: post) (w', pre ++ finished r :: post).
Proof.
  intros Hrun. destruct (run_segments m w w' r pre post Hrun) as (w1 & m1 & Hs & Hr).
  eapply rtc_l; [by constructor|done].
Qed.

(** Runs the tasks of the pool in the given order, one turn each. *)
Fixpoint schedule {A} (order : list nat) (w : W) (pool : list (async W A)) : W * list (async W A) :=
  match order with
  | [] => (w, pool)
  | i :: order =>
      match pool !! i with
      | Some m => let '(w, m) := segment m w in schedule order w (<[i := m]> pool)
      | None => schedule order w pool
      end
  end.

Lemma schedule_turns {A} order (w : W) (pool : list (async W A)) : rtc turn (w, pool) (schedule order w pool).
Proof.
  revert w pool. induction order as [|i order IH]; intros w pool; [apply rtc_refl|]. cbn [schedule].
  destruct (pool !! i) as [m|] eqn:Hi; [|apply IH]. destruct (segment m w) as [w1 m1] eqn:Hs.
  eapply rtc_l; [|apply IH]. rewrite <- (take_drop_middle pool i m Hi) at 1.
  assert (<[i := m1]> pool = take i pool ++ m1 :: drop (S i) pool) as ->.
  { apply insert_take_drop. by eapply lookup_lt_Some. }
  by constructor.
Qed.

(** All tasks have settled. *)
Definition settledPool {A} (pool : list (async W A)) : bool :=
  forallb (fun m => match m with Ret _ | Raise _ => true | _ => false end) pool.

(** *** Invariants of every interleaving *)

Section Keeps.
Context (I : W -> Prop).

(** Every single write keeps [I]; what a computation reads satisfies [I]. *)
Fixpoint keeps {A} (m : async W A) : Prop :=
  match m with
  | Ret _ | Raise _ => True
  | Read k => forall w, I w -> keeps (k w)
  | Write f m => (forall w, I w -> I (f w)) /\ keeps m
  | Await m => keeps m
  end.

Lemma keeps_bind {A B} (m : async W A) (k : A -> async W B) :
  keeps m -> (forall a, keeps (k a)) -> keeps (m ≫= k).
Proof. intros Hm Hk. revert Hm. induction m as [a|e|r IH|f m IH|m IH]; simpl; firstorder. Qed.

Lemma keeps_catch {A} (m : async W A) h : keeps m -> (forall e, keeps (h e)) -> keeps (catch m h).
Proof. intros Hm Hh. revert Hm. induction m as [a|e|r IH|f m IH|m IH]; simpl; firstorder. Qed.

Lemma keeps_await {A} (m : async W A) : keeps m -> keeps (await m).
Proof. induction m as [a|e|r IH|f m IH|m IH]; simpl; firstorder. Qed.

Lemma keeps_Ret {A} (a : A) : keeps (Ret a).
Proof. exact Logic.I. Qed.

Lemma keeps_Raise {A} e : keeps (@Raise W A e).
Proof. exact Logic.I. Qed.

Lemma keeps_ask : keeps ask.
Proof. by intros w Hw. Qed.

Lemma keeps_gets {A} (f : W -> A) : keeps (gets f).
Proof. by intros w Hw. Qed.

Lemma keeps_modify f : (forall w, I w -> I (f w)) -> keeps (modify f).
Proof. by split. Qed.

Lemma keeps_liftRes {A} (r : res A) : keeps (@liftRes W A r).
Proof. by destruct r. Qed.

Lemma keeps_segment {A} (m : async W A) w w' m' :
  keeps m -> I w -> segment m w = (w', m') -> I w' /\ keeps m'.
Proof.
  revert w. induction m as [a|e|r IH|f m IH|m IH]; intros w Hm Hw Hs; cbn in *.
  - by injection Hs as <- <-.
  - by injection Hs as <- <-.
  - exact (IH _ _ (Hm w Hw) Hw Hs).
  - destruct Hm as [Hf Hm]. exact (IH _ Hm (Hf w Hw) Hs).
  - by injection Hs as <- <-.
Qed.

Lemma keeps_run {A} (m : async W A) w : keeps m -> I w -> I (fst (run m w)).
Proof.
  revert w. induction m as [a|e|r IH|f m IH|m IH]; intros w Hm Hw; simpl in *; firstorder.
Qed.

(** An invariant kept by every task holds after every turn of the loop. *)
Lemma keeps_turns {A} (w w' : W) (pool pool' : list (async W A)) :
  Forall keeps pool -> I w -> rtc turn (w, pool) (w', pool') -> I w' /\ Forall keeps pool'.
Proof.
  enough (forall c c', rtc turn c c' -> Forall keeps (snd c) -> I (fst c) -> I (fst c') /\ Forall keeps (snd c'))
    as H by (intros Hp Hw Hr; exact (H _ _ Hr Hp Hw)).
  induction 1 as [c|c1 c2 c3 Hstep Hr IH]; intros Hp Hw; [done|].
  destruct Hstep as [w0 pre m post w1 m' Hs]. cbn [fst snd] in *.
  apply Forall_app in Hp as [Hpre [Hm Hpost]%Forall_cons].
  destruct (keeps_segment _ _ _ _ Hm Hw Hs) as [Hw1 Hm'].
  apply IH; [|done]. apply Forall_app. split; [done|by constructor].
Qed.
End Keeps.
End Pool.

(** ** Preservation, abstractly *)

(** [P m] says that [m] preserves [I], in some reading of computations. *)
Class Preserves {W} (I : W -> Prop) (P : forall A, async W A -> Prop) := {
  pres_ret {A} (a : A) : P A (Ret a);
  pres_raise {A} e : P A (Raise e);
  pres_bind {A B} (m : async W A) (k : A -> async W B) : P A m -> (forall a, P B (k a)) -> P B (m ≫= k);
  pres_catch {A} (m : async W A) h : P A m -> (forall e, P A (h e)) -> P A (catch m h);
  pres_await {A} (m : async W A) : P A m -> P A (await m);
  pres_suspend {A} (m : async W A) : P A m -> P A (Await m);
  pres_ask {A} (k : W -> async W A) : (forall w, I w -> P A (k w)) -> P A (ask ≫= k);
  pres_modify f : (forall w, I w -> I (f w)) -> P unit (modify f)
}.

(** Under every interleaving. *)
#[export] Instance keeps_preserves {W} (I : W -> Prop) : Preserves I (@keeps W I).
Proof.
  split.
  - intros. apply keeps_Ret.
  - intros. apply keeps_Raise.
  - intros A B m k. apply keeps_bind.
  - intros A m h. apply keeps_catch.
  - intros A m. apply keeps_await.
  - intros A m H. exact H.
  - intros A k H. exact H.
  - intros f H. by apply keeps_modify.
Qed.

(** From one call to its return. *)
Definition holds {W} (I : W -> Prop) (A : Type) (m : async W A) : Prop := forall w, I w -> I (fst (run m w)).

#[export] Instance holds_preserves {W} (I : W -> Prop) : Preserves I (holds I).
Proof.
  split.
  - by intros A a w Hw.
  - by intros A e w Hw.
  - intros A B m k Hm Hk w Hw. rewrite run_bind. specialize (Hm w Hw).
    destruct (run m w) as [w' [a|e]]; [by apply Hk|done].
  - intros A m h Hm Hh w Hw. rewrite run_catch. specialize (Hm w Hw).
    destruct (run m w) as [w' [a|e]]; [done|by apply Hh].
  - intros A m Hm w Hw. rewrite run_await. by apply Hm.
  - intros A m Hm w Hw. by apply Hm.
  - intros A k H w Hw. exact (H w Hw w Hw).
  - intros f H w Hw. by apply H.
Qed.

Section Derived.
Context {W : Type} (I : W -> Prop) (P : forall A, async W A -> Prop) `{!Preserves I P}.

Lemma pres_mret {A} (a : A) : P A (mret a).
Proof. apply (pres_ret (Preserves := Preserves0)). Qed.

Lemma pres_askonly : P W ask.
Proof. change (P W (ask ≫= Ret)). apply pres_ask. intros w Hw. apply (pres_ret (Preserves := Preserves0)). Qed.

Lemma pres_gets {A} (f : W -> A) : P A (gets f).
Proof.
  change (P A (ask ≫= fun w => Ret (f w))). apply pres_ask. intros w Hw. apply (pres_ret (Preserves := Preserves0)).
Qed.

Lemma pres_liftRes {A} (r : res A) : P A (liftRes r).
Proof. destruct r; [apply (pres_ret (Preserves := Preserves0))|apply (pres_raise (Preserves := Preserves0))]. Qed.

(** Rules that keep what is known of a result. *)
Lemma pres_liftRes_bind {A B} (r : res A) (k : A -> async W B) :
  (forall a, r = Ok a -> P B (k a)) -> P B (liftRes r ≫= k).
Proof. destruct r as [a|e]; intros H; [by apply H|]. apply (pres_raise (Preserves := Preserves0)). Qed.

Lemma pres_tick_bind {A B} (a : A) (k : A -> async W B) : P B (k a) -> P B (await (mret a) ≫= k).
Proof. apply (pres_suspend (Preserves := Preserves0)). Qed.

Lemma pres_mret_bind {A B} (a : A) (k : A -> async W B) : P B (k a) -> P B (mret a ≫= k).
Proof. done. Qed.

Lemma pres_raise_bind {A B} e (k : A -> async W B) : P B (Raise e ≫= k).
Proof. apply (pres_raise (Preserves := Preserves0)). Qed.

Lemma pres_rejected_bind {A B} e (k : A -> async W B) : P B (await (Raise e) ≫= k).
Proof. apply (pres_suspend (Preserves := Preserves0)), (pres_raise (Preserves := Preserves0)). Qed.
End Derived.

(** ** A part of the world *)

Section Lift.
Context {W V : Type} (get : W -> V) (put : V -> W -> W).

(** A computation on a part of the world. *)
Fixpoint lift {A} (m : async V A) : async W A :=
  match m with
  | Ret a => Ret a
  | Raise e => Raise e
  | Read k => Read (fun w => lift (k (get w)))
  | Write f m => Write (fun w => put (f (get w)) w) (lift m)
  | Await m => Await (lift m)
  end.

Lemma run_lift {A} (m : async V A) w :
  (forall v w, get (put v w) = v) -> (forall v v' w, put v (put v' w) = put v w) -> (forall w, put (get w) w = w) ->
  run (lift m) w = (put (fst (run m (get w))) w, snd (run m (get w))).
Proof.
  intros Hgp Hpp Hpg. revert w. induction m as [a|e|k IH|f m IH|m IH]; intros w; cbn.
  - by rewrite Hpg.
  - by rewrite Hpg.
  - apply IH.
  - rewrite IH, Hgp. by rewrite Hpp.
  - apply IH.
Qed.
End Lift.

(** ** Code that leaves a part of the world alone *)

Section Quiet.
Context {W S : Type} (view : W -> S).

(** No write of the computation changes the view. *)
Fixpoint quiet {A} (m : async W A) : Prop :=
  match m with
  | Ret _ | Raise _ => True
  | Read k => forall w, quiet (k w)
  | Write f m => (forall w, view (f w) = view w) /\ quiet m
  | Await m => quiet m
  end.

Lemma quiet_keeps {A} (I : W -> Prop) (m : async W A) :
  (forall w w', view w' = view w -> I w -> I w') -> quiet m -> keeps I m.
Proof.
  intros Hview. induction m as [a|e|k IH|f m IH|m IH]; cbn; intros Hq; try done.
  - intros w Hw. by apply IH.
  - destruct Hq as [Hf Hq]. split; [|by apply IH]. intros w Hw. by apply (Hview w).
  - by apply IH.
Qed.

Lemma quiet_run {A} (m : async W A) w : quiet m -> view (fst (run m w)) = view w.
Proof.
  intros Hq. apply (keeps_run (fun w' => view w' = view w)); [|done].
  apply quiet_keeps; [|done]. by intros w1 w2 -> ->.
Qed.

Lemma quiet_holds {A} (I : W -> Prop) (m : async W A) :
  (forall w w', view w' = view w -> I w -> I w') -> quiet m -> holds I A m.
Proof. intros Hview Hq w Hw. apply (Hview w); [by apply quiet_run|done]. Qed.
End Quiet.

(** A coarser view. *)
Lemma quiet_mono {W S T A} (view : W -> S) (view' : W -> T) (m : async W A) :
  (forall w w', view w' = view w -> view' w' = view' w) -> quiet view m -> quiet view' m.
Proof.
  intros Hv. induction m as [a|e|k IH|f m IH|m IH]; cbn; intros Hq; try done.
  - intros w. by apply IH.
  - destruct Hq as [Hf Hq]. split; [intros w; by apply Hv|by apply IH].
  - by apply IH.
Qed.

Section QuietRules.
Context {W S : Type} (view : W -> S).

Lemma quiet_bind {A B} (m : async W A) (k : A -> async W B) :
  quiet view m -> (forall a, quiet view (k a)) -> quiet view (m ≫= k).
Proof. intros Hm Hk. revert Hm. induction m as [a|e|r IH|f m IH|m IH]; simpl; firstorder. Qed.

Lemma quiet_catch {A} (m : async W A) h : quiet view m -> (forall e, quiet view (h e)) -> quiet view (catch m h).
Proof. intros Hm Hh. revert Hm. induction m as [a|e|r IH|f m IH|m IH]; simpl; firstorder. Qed.

Lemma quiet_await {A} (m : async W A) : quiet view m -> quiet view (await m).
Proof. induction m as [a|e|r IH|f m IH|m IH]; simpl; firstorder. Qed.

Lemma quiet_modify f : (forall w, view (f w) = view w) -> quiet view (modify f).
Proof. by split. Qed.

Lemma quiet_liftRes {A} (r : res A) : quiet view (liftRes r).
Proof. by destruct r. Qed.
End QuietRules.

(** Opens code that should leave a view alone; what is left are the writes and the
    calls of other code. *)
Ltac quieting :=
  repeat match goal with
  | |- quiet _ (mbind _ _) => apply quiet_bind; [|intros ?]
  | |- quiet _ (catch _ _) => apply quiet_catch; [|intros ?]
  | |- quiet _ (await _) => apply quiet_await
  | |- quiet _ ask => intros ?; exact Logic.I
  | |- quiet _ (gets _) => intros ?; exact Logic.I
  | |- quiet _ (liftRes _) => apply quiet_liftRes
  | |- quiet _ (mret _) => exact Logic.I
  | |- quiet _ (Raise _) => exact Logic.I
  | |- quiet _ (if ?b then _ else _) => destruct b
  | |- quiet _ (match ?x with _ => _ end) => destruct x
  | |- quiet _ (let '(_, _) := ?x in _) => destruct x
  | |- quiet _ (modify _) => apply quiet_modify; intros ?
  end.

Lemma quiet_lift {W V S} (get : W -> V) (put : V -> W -> W) (view : W -> S) (part : V -> S) {A} (m : async V A) :
  (forall v v' w, part v' = part v -> get w = v -> view (put v' w) = view w) -> quiet part m -> quiet view (lift get put m).
Proof.
  intros Hview. induction m as [a|e|k IH|f m IH|m IH]; cbn; intros Hq; try done.
  - intros w. by apply IH.
  - destruct Hq as [Hf Hq]. split; [|by apply IH]. intros w. by apply (Hview (get w)).
  - by apply IH.
Qed.

(** ** Code whose every write is of some kind *)

Section Guarded.
Context {W : Type} (R : W -> W -> Prop).

Fixpoint guarded {A} (m : async W A) : Prop :=
  match m with
  | Ret _ | Raise _ => True
  | Read k => forall w, guarded (k w)
  | Write f m => (forall w, R w (f w)) /\ guarded m
  | Await m => guarded m
  end.

Lemma guarded_bind {A B} (m : async W A) (k : A -> async W B) : guarded m -> (forall a, guarded (k a)) -> guarded (m ≫= k).
Proof. intros Hm Hk. revert Hm. induction m as [a|e|r IH|f m IH|m IH]; simpl; firstorder. Qed.

Lemma guarded_catch {A} (m : async W A) h : guarded m -> (forall e, guarded (h e)) -> guarded (catch m h).
Proof. intros Hm Hh. revert Hm. induction m as [a|e|r IH|f m IH|m IH]; simpl; firstorder. Qed.

Lemma guarded_await {A} (m : async W A) : guarded m -> guarded (await m).
Proof. induction m as [a|e|r IH|f m IH|m IH]; simpl; firstorder. Qed.

Lemma guarded_modify f : (forall w, R w (f w)) -> guarded (modify f).
Proof. by split. Qed.

Lemma guarded_liftRes {A} (r : res A) : guarded (liftRes r).
Proof. by destruct r. Qed.

(** The result of a settled promise is known. *)
Lemma guarded_tick {A B} (a : A) (k : A -> async W B) : guarded (k a) -> guarded (await (mret a) ≫= k).
Proof. done. Qed.

Context `{!PreOrder R}.

Lemma guarded_segment {A} (m : async W A) w w' m' : guarded m -> segment m w = (w', m') -> R w w' /\ guarded m'.
Proof.
  revert w. induction m as [a|e|k IH|f m IH|m IH]; intros w Hm Hs; cbn in *.
  - by injection Hs as <- <-.
  - by injection Hs as <- <-.
  - by eapply IH.
  - destruct Hm as [Hf Hm]. destruct (IH _ Hm Hs) as [H1 H2]. split; [|done]. by transitivity (f w).
  - by injection Hs as <- <-.
Qed.

Lemma guarded_run {A} (m : async W A) w : guarded m -> R w (fst (run m w)).
Proof.
  revert w. induction m as [a|e|k IH|f m IH|m IH]; intros w Hm; cbn in *; [done|done|by apply IH| |by apply IH].
  destruct Hm as [Hf Hm]. transitivity (f w); [done|by apply IH].
Qed.

(** What turns of such tasks do to the world is of that kind. *)
Lemma guarded_turns {A} (w w' : W) (pool pool' : list (async W A)) :
  Forall guarded pool -> rtc turn (w, pool) (w', pool') -> R w w' /\ Forall guarded pool'.
Proof.
  enough (forall c c', rtc turn c c' -> Forall guarded (snd c) -> R (fst c) (fst c') /\ Forall guarded (snd c'))
    as H by (intros Hp Hr; exact (H _ _ Hr Hp)).
  induction 1 as [c|c1 c2 c3 Hstep Hr IH]; intros Hp; [done|]. destruct Hstep as [w0 pre m post w1 m' Hs]. cbn [fst snd] in *.
  apply Forall_app in Hp as [Hpre [Hm Hpost]%Forall_cons]. destruct (guarded_segment m w0 w1 m' Hm Hs) as [H1 Hm'].
  destruct IH as [H2 Hp']; [by apply Forall_app; split; [|constructor]|]. split; [by transitivity w1|done].
Qed.
End Guarded.

Lemma guarded_lift {W V} (get : W -> V) (put : V -> W -> W) (R : V -> V -> Prop) (S : W -> W -> Prop) {A} (m : async V A) :
  (forall v w, R (get w) v -> S w (put v w)) -> guarded R m -> guarded S (lift get put m).
Proof.
  intros HS. induction m as [a|e|k IH|f m IH|m IH]; cbn; intros Hm; try done.
  - intros w. by apply IH.
  - destruct Hm as [Hf Hm]. split; [|by apply IH]. intros w. by apply HS.
  - by apply IH.
Qed.

(** Opens code along its structure; what is left are the writes and the calls of other
    code. *)
Ltac guarding :=
  repeat match goal with
  | |- guarded _ (mbind _ (await (match ?x with _ => _ end))) => destruct x eqn:?
  | |- guarded _ (mbind _ (await (mret _))) => apply guarded_tick
  | |- guarded _ (mbind _ (await (Raise _))) => exact Logic.I
  | |- guarded _ (mbind _ _) => apply guarded_bind; [|intros ?]
  | |- guarded _ (catch _ _) => apply guarded_catch; [|intros ?]
  | |- guarded _ (await _) => apply guarded_await
  | |- guarded _ ask => intros ?; exact Logic.I
  | |- guarded _ (gets _) => intros ?; exact Logic.I
  | |- guarded _ (liftRes _) => apply guarded_liftRes
  | |- guarded _ (mret _) => exact Logic.I
  | |- guarded _ (Raise _) => exact Logic.I
  | |- guarded _ (if ?b then _ else _) => destruct b
  | |- guarded _ (match ?x with _ => _ end) => destruct x
  | |- guarded _ (modify _) => apply guarded_modify; intros ?
  end.

#[export] Hint Resolve keeps_Ret keeps_Raise keeps_ask keeps_gets keeps_liftRes keeps_await : js.

(** Opens a computation along its structure; what is left are the writes. *)
Ltac keeping :=
  repeat match goal with
  | |- keeps _ (mbind _ _) => apply keeps_bind; [|intros ?]
  | |- keeps _ (catch _ _) => apply keeps_catch; [|intros ?]
  | |- keeps _ (await _) => apply keeps_await
  | |- keeps _ ask => apply keeps_ask
  | |- keeps _ (gets _) => apply keeps_gets
  | |- keeps _ (liftRes _) => apply keeps_liftRes
  | |- keeps _ (Ret _) => apply keeps_Ret
  | |- keeps _ (mret _) => apply keeps_Ret
  | |- keeps _ (Raise _) => apply keeps_Raise
  | |- keeps _ (if ?b then _ else _) => destruct b
  | |- keeps _ (match ?x with _ => _ end) => destruct x
  | |- keeps _ (let '(_, _) := ?x in _) => destruct x
  | |- keeps _ (modify _) => apply keeps_modify
  end.
