(* ===== verification/Ownership.v ===== *)
(** Tasks that own things between their turns. A task may take something from
    the shared world (the next port number, the right to create the node of a
    plugin) and use it some suspension points later; what it holds meanwhile is in
    its continuation, not in the world. Here a task owns a list of tokens, the
    invariant speaks of the world and of all tokens owned by somebody, and [wp]
    lets a task change only its own tokens. *)
From S2P Require Import Prelude Async.
From stdpp Require Import relations.

Section Ownership.
Context {W R : Type} (I : list R -> W -> Prop).

(** The invariant holds, with tokens [rho] among those owned. *)
Definition ok (rho : list R) (w : W) : Prop := exists sigma, I (rho ++ sigma) w.

(** From world [w] on, [m] respects the tokens of others, and ends with a result,
    tokens and a world in [Q]. *)
Fixpoint wp {A} (m : async W A) (rho : list R) (w : W) (Q : res A -> list R -> W -> Prop) : Prop :=
  match m with
  | Ret a => ok rho w -> Q (Ok a) rho w
  | Raise e => ok rho w -> Q (Throw e) rho w
  | Read k => ok rho w -> wp (k w) rho w Q
  | Write f m => ok rho w -> exists rho', (forall sigma, I (rho ++ sigma) w -> I (rho' ++ sigma) (f w)) /\ wp m rho' (f w) Q
  | Await m => ok rho w -> forall w', ok rho w' -> wp m rho w' Q
  end.

Lemma wp_ok {A} (m : async W A) rho w Q : (ok rho w -> wp m rho w Q) -> wp m rho w Q.
Proof. destruct m; cbn; auto. Qed.

Lemma wp_mono {A} (m : async W A) rho w (Q Q' : res A -> list R -> W -> Prop) :
  (forall r rho w, ok rho w -> Q r rho w -> Q' r rho w) -> wp m rho w Q -> wp m rho w Q'.
Proof.
  intros HQ. revert rho w. induction m as [a|e|r IH|f m IH|m IH]; intros rho w H; cbn in *; intros Hok; auto.
  destruct (H Hok) as (rho' & Hf & Hm). exists rho'. split; [done|by apply IH].
Qed.

Lemma wp_bind {A B} (m : async W A) (k : A -> async W B) rho w Q :
  wp m rho w (fun r rho w => match r with Ok a => wp (k a) rho w Q | Throw e => Q (Throw e) rho w end) ->
  wp (m ≫= k) rho w Q.
Proof.
  revert rho w. induction m as [a|e|r IH|f m IH|m IH]; intros rho w H; cbn in *; intros; try (by apply IH, H).
  - by apply wp_ok.
  - by apply H.
  - destruct H as (rho' & Hf & Hm); [done|]. exists rho'. split; [done|by apply IH].
Qed.

Lemma wp_catch {A} (m : async W A) h rho w Q :
  wp m rho w (fun r rho w => match r with Ok a => Q (Ok a) rho w | Throw e => wp (h e) rho w Q end) ->
  wp (catch m h) rho w Q.
Proof.
  revert rho w. induction m as [a|e|r IH|f m IH|m IH]; intros rho w H; cbn in *; intros; try (by apply IH, H).
  - by apply H.
  - by apply wp_ok.
  - destruct H as (rho' & Hf & Hm); [done|]. exists rho'. split; [done|by apply IH].
Qed.

Lemma wp_await {A} (m : async W A) rho w Q :
  wp m rho w (fun r rho w => forall w', ok rho w' -> Q r rho w') -> wp (await m) rho w Q.
Proof.
  revert rho w. induction m as [a|e|r IH|f m IH|m IH]; intros rho w H; cbn in *; intros; try (by apply IH, H).
  - by apply H.
  - by apply H.
  - destruct H as (rho' & Hf & Hm); [done|]. exists rho'. split; [done|by apply IH].
Qed.

Lemma wp_mret {A} (a : A) rho w Q : (ok rho w -> Q (Ok a) rho w) -> wp (mret a) rho w Q.
Proof. done. Qed.

Lemma wp_Raise {A} e rho w (Q : res A -> _) : (ok rho w -> Q (Throw e) rho w) -> wp (Raise e) rho w Q.
Proof. done. Qed.

Lemma wp_ask rho w Q : (ok rho w -> Q (Ok w) rho w) -> wp ask rho w Q.
Proof. cbn. auto. Qed.

Lemma wp_gets {A} (f : W -> A) rho w Q : (ok rho w -> Q (Ok (f w)) rho w) -> wp (gets f) rho w Q.
Proof. cbn. auto. Qed.

Lemma wp_liftRes {A} (r : res A) rho w Q : (ok rho w -> Q r rho w) -> wp (liftRes r) rho w Q.
Proof. by destruct r. Qed.

(** A write with the tokens before and after it. *)
Lemma wp_modify rho' f rho w Q :
  (forall sigma, I (rho ++ sigma) w -> I (rho' ++ sigma) (f w)) -> (ok rho' (f w) -> Q (Ok tt) rho' (f w)) ->
  wp (modify f) rho w Q.
Proof. intros Hf HQ Hok. exists rho'. by split. Qed.

(** Code that leaves alone what the invariant looks at keeps its tokens. *)
Lemma wp_quiet {A S} (view : W -> S) (m : async W A) rho w Q :
  (forall rho w w', view w' = view w -> I rho w -> I rho w') -> quiet view m ->
  (forall r w', ok rho w' -> Q r rho w') -> wp m rho w Q.
Proof.
  intros Hview Hq HQ. revert w Hq. induction m as [a|e|k IH|f m IH|m IH]; intros w Hq; cbn in *; auto.
  destruct Hq as [Hf Hq]. intros _. exists rho. split; [|by apply IH]. intros sigma. by apply Hview.
Qed.

(** *** Code without expectations *)

(** [m] may run with any tokens in any world, and keeps the invariant. *)
Definition free {A} (m : async W A) : Prop := forall rho w, wp m rho w (fun _ _ _ => True).

Lemma wp_free {A} (m : async W A) rho w (Q : res A -> list R -> W -> Prop) :
  free m -> (forall r rho w, ok rho w -> Q r rho w) -> wp m rho w Q.
Proof. intros Hm HQ. eapply wp_mono; [|apply Hm]. intros r rho' w' Hok _. by apply HQ. Qed.

Lemma free_bind {A B} (m : async W A) (k : A -> async W B) : free m -> (forall a, free (k a)) -> free (m ≫= k).
Proof. intros Hm Hk rho w. apply wp_bind, wp_free; [done|]. intros [a|e] rho' w' _; [apply Hk|done]. Qed.

Lemma free_catch {A} (m : async W A) h : free m -> (forall e, free (h e)) -> free (catch m h).
Proof. intros Hm Hh rho w. apply wp_catch, wp_free; [done|]. intros [a|e] rho' w' _; [done|apply Hh]. Qed.

Lemma free_await {A} (m : async W A) : free m -> free (await m).
Proof. intros Hm rho w. apply wp_await, wp_free; [done|]. done. Qed.

Lemma free_mret {A} (a : A) : free (mret a).
Proof. by intros rho w. Qed.

Lemma free_Raise {A} e : free (@Raise W A e).
Proof. by intros rho w. Qed.

Lemma free_ask {A} (k : W -> async W A) : (forall w, (exists rho, ok rho w) -> free (k w)) -> free (ask ≫= k).
Proof. intros Hk rho w Hok. apply Hk. by exists rho. Qed.

Lemma free_gets {A} (f : W -> A) : free (gets f).
Proof. by intros rho w Hok. Qed.

Lemma free_liftRes {A} (r : res A) : free (liftRes r).
Proof. by destruct r; intros rho w. Qed.

Lemma free_modify f : (forall rho w, I rho w -> I rho (f w)) -> free (modify f).
Proof. intros Hf rho w. apply (wp_modify rho); [intros sigma; apply Hf|done]. Qed.

Lemma free_quiet {A S} (view : W -> S) (m : async W A) :
  (forall rho w w', view w' = view w -> I rho w -> I rho w') -> quiet view m -> free m.
Proof. intros Hview Hq rho w. by apply (wp_quiet view). Qed.

(** *** Code that keeps its tokens *)

Definition steady {A} (m : async W A) : Prop := forall rho w, wp m rho w (fun _ rho' _ => rho' = rho).

Lemma wp_steady {A} (m : async W A) rho w (Q : res A -> list R -> W -> Prop) :
  steady m -> (forall r w, ok rho w -> Q r rho w) -> wp m rho w Q.
Proof. intros Hm HQ. eapply wp_mono; [|apply Hm]. intros r rho' w' Hok ->. by apply HQ. Qed.

Lemma steady_free {A} (m : async W A) : steady m -> free m.
Proof. intros Hm rho w. by apply wp_steady. Qed.

Lemma steady_bind {A B} (m : async W A) (k : A -> async W B) : steady m -> (forall a, steady (k a)) -> steady (m ≫= k).
Proof. intros Hm Hk rho w. apply wp_bind, wp_steady; [done|]. intros [a|e] w' _; [apply Hk|done]. Qed.

Lemma steady_catch {A} (m : async W A) h : steady m -> (forall e, steady (h e)) -> steady (catch m h).
Proof. intros Hm Hh rho w. apply wp_catch, wp_steady; [done|]. intros [a|e] w' _; [done|apply Hh]. Qed.

Lemma steady_await {A} (m : async W A) : steady m -> steady (await m).
Proof. intros Hm rho w. apply wp_await, wp_steady; done. Qed.

Lemma steady_ask {A} (k : W -> async W A) : (forall w, (exists rho, ok rho w) -> steady (k w)) -> steady (ask ≫= k).
Proof. intros Hk rho w Hok. apply Hk. by exists rho. Qed.

Lemma steady_mret {A} (a : A) : steady (mret a).
Proof. by intros rho w. Qed.

Lemma steady_Raise {A} e : steady (@Raise W A e).
Proof. by intros rho w. Qed.

Lemma steady_gets {A} (f : W -> A) : steady (gets f).
Proof. by intros rho w Hok. Qed.

Lemma steady_liftRes {A} (r : res A) : steady (liftRes r).
Proof. by destruct r; intros rho w. Qed.

Lemma steady_modify f : (forall rho w, I rho w -> I rho (f w)) -> steady (modify f).
Proof. intros Hf rho w. apply (wp_modify rho); [intros sigma; apply Hf|done]. Qed.

Lemma steady_quiet {A S} (view : W -> S) (m : async W A) :
  (forall rho w w', view w' = view w -> I rho w -> I rho w') -> quiet view m -> steady m.
Proof. intros Hview Hq rho w. by apply (wp_quiet view). Qed.

(** *** Pools *)

Context (I_perm : forall rho rho' w, rho ≡ₚ rho' -> I rho w -> I rho' w).
Context (Q : forall A, res A -> list R -> Prop).

(** The task, which owns [rho], may run in any world that satisfies the invariant. *)
Definition safe {A} (m : async W A) (rho : list R) : Prop :=
  forall w, ok rho w -> wp m rho w (fun r rho _ => Q A r rho).

Lemma wp_segment {A} (m : async W A) rho sigma w w' m' :
  wp m rho w (fun r rho _ => Q A r rho) -> I (rho ++ sigma) w -> segment m w = (w', m') ->
  exists rho', I (rho' ++ sigma) w' /\ safe m' rho'.
Proof.
  revert rho w. induction m as [a|e|k IH|f m IH|m IH]; intros rho w H HI Hs; cbn in *;
    assert (ok rho w) as Hok by (by exists sigma).
  - injection Hs as <- <-. exists rho. split; [done|]. intros w' Hok' Hok''. by apply H.
  - injection Hs as <- <-. exists rho. split; [done|]. intros w' Hok' Hok''. by apply H.
  - by eapply IH; [apply H|..].
  - destruct (H Hok) as (rho' & Hf & Hm). eapply IH; [exact Hm|by apply Hf|done].
  - injection Hs as <- <-. exists rho. split; [done|]. intros w' Hok'. by apply H.
Qed.

(** Under every interleaving the invariant holds with the tokens of all tasks. *)
Lemma safe_turns {A} (w w' : W) (pool pool' : list (async W A)) rhos :
  Forall2 safe pool rhos -> I (concat rhos) w -> rtc turn (w, pool) (w', pool') ->
  exists rhos', Forall2 safe pool' rhos' /\ I (concat rhos') w'.
Proof.
  enough (forall c c', rtc turn c c' -> forall rhos, Forall2 safe (snd c) rhos -> I (concat rhos) (fst c) ->
            exists rhos', Forall2 safe (snd c') rhos' /\ I (concat rhos') (fst c')) as H
    by (intros Hp HI Hr; exact (H _ _ Hr _ Hp HI)).
  clear w w' pool pool' rhos. induction 1 as [c|c1 c2 c3 Hstep Hr IH]; intros rhos Hp HI; [by exists rhos|].
  destruct Hstep as [w0 pre m post w1 m' Hs]. cbn [fst snd] in *.
  apply Forall2_app_inv_l in Hp as (rpre & rest & Hpre & Hrest & ->).
  apply Forall2_cons_inv_l in Hrest as (rho & rpost & Hm & Hpost & ->).
  rewrite concat_app in HI. cbn [concat] in HI.
  assert (I (rho ++ (concat rpre ++ concat rpost)) w0) as HI'.
  { eapply I_perm; [|exact HI]. rewrite !(assoc_L (++)). f_equiv. apply Permutation_app_comm. }
  destruct (wp_segment m rho _ w0 w1 m' (Hm w0 (ex_intro _ _ HI')) HI' Hs) as (rho' & HI1 & Hm').
  apply (IH (rpre ++ rho' :: rpost)).
  - apply Forall2_app; [done|by constructor].
  - rewrite concat_app. cbn [concat]. eapply I_perm; [|exact HI1]. rewrite !(assoc_L (++)). f_equiv. apply Permutation_app_comm.
Qed.

(** When all tasks have settled, what they own is what their postconditions say. *)
Lemma settled_tokens {A} (w : W) (pool : list (async W A)) rhos :
  Forall2 safe pool rhos -> I (concat rhos) w -> settledPool pool = true ->
  Forall (fun rho => exists r, Q A r rho) rhos.
Proof.
  intros Hp HI Hs. assert (Forall (fun rho => ok rho w) rhos) as Hok.
  { apply Forall_forall. intros rho (l1 & l2 & ->)%list_elem_of_split. exists (concat l1 ++ concat l2).
    eapply I_perm; [|exact HI]. rewrite concat_app. cbn [concat]. rewrite !(assoc_L (++)). f_equiv. apply Permutation_app_comm. }
  clear HI. induction Hp as [|m rho pool rhos Hm Hp IH]; [constructor|]. cbn in Hs. apply andb_true_iff in Hs as [Hm' Hs].
  apply Forall_cons in Hok as [Hr Hok]. constructor; [|by apply IH].
  specialize (Hm w Hr). destruct m as [a|e| | |]; try done; cbn in Hm; [by exists (Ok a); apply Hm|by exists (Throw e); apply Hm].
Qed.
End Ownership.

Lemma concat_nils {A B} (l : list A) : concat (map (fun _ => @nil B) l) = [].
Proof. by induction l. Qed.

(** Tasks that own nothing at first, and expect nothing. *)
Lemma free_turns {W R A} (I : list R -> W -> Prop) (w w' : W) (pool pool' : list (async W A)) :
  (forall rho rho' w, rho ≡ₚ rho' -> I rho w -> I rho' w) ->
  Forall (free I) pool -> I [] w -> rtc turn (w, pool) (w', pool') -> exists rho, I rho w'.
Proof.
  intros Hperm Hpool HI Hr.
  destruct (safe_turns I Hperm (fun _ _ _ => True) w w' pool pool' (map (fun _ => []) pool)) as (rhos & _ & H);
    [|by rewrite concat_nils|done|by exists (concat rhos)].
  clear -Hpool. induction Hpool as [|m pool Hm Hpool IH]; cbn; constructor; [|done]. intros w _. apply Hm.
Qed.

(** Steps through a computation; what is left are the writes and the calls of
    other code. *)
Ltac owning :=
  repeat match goal with
  | |- wp _ (mbind _ _) _ _ _ => apply wp_bind
  | |- wp _ (catch _ _) _ _ _ => apply wp_catch
  | |- wp _ (await _) _ _ _ => apply wp_await
  | |- wp _ ask _ _ _ => apply wp_ask; intros ?
  | |- wp _ (gets _) _ _ _ => apply wp_gets; intros ?
  | |- wp _ (liftRes _) _ _ _ => apply wp_liftRes; intros ?
  | |- wp _ (mret _) _ _ _ => apply wp_mret; intros ?
  | |- wp _ (Ret _) _ _ _ => apply wp_mret; intros ?
  | |- wp _ (Raise _) _ _ _ => apply wp_Raise; intros ?
  | |- forall _, _ => intros ?
  end; cbv beta iota zeta.

(** Opens code without expectations; what is left are the writes and the calls of
    other code. *)
Ltac freeing_step :=
  match goal with
  | |- free _ (ask ≫= _) => apply free_ask; intros ? ?
  | |- free _ (mbind _ _) => apply free_bind; [|intros ?]
  | |- free _ (catch _ _) => apply free_catch; [|intros ?]
  | |- free _ (await _) => apply free_await
  | |- free _ (gets _) => apply free_gets
  | |- free _ (liftRes _) => apply free_liftRes
  | |- free _ (mret _) => apply free_mret
  | |- free _ (Raise _) => apply free_Raise
  | |- free _ (if ?b then _ else _) => destruct b eqn:?
  | |- free _ (match ?x with _ => _ end) => destruct x eqn:?
  | |- free _ (let '(_, _) := ?x in _) => destruct x eqn:?
  end.

Ltac freeing := repeat freeing_step.

Ltac steadying :=
  repeat match goal with
  | |- steady _ (ask ≫= _) => apply steady_ask; intros ? ?
  | |- steady _ (mbind _ _) => apply steady_bind; [|intros ?]
  | |- steady _ (catch _ _) => apply steady_catch; [|intros ?]
  | |- steady _ (await _) => apply steady_await
  | |- steady _ (gets _) => apply steady_gets
  | |- steady _ (liftRes _) => apply steady_liftRes
  | |- steady _ (mret _) => apply steady_mret
  | |- steady _ (Raise _) => apply steady_Raise
  | |- steady _ (if ?b then _ else _) => destruct b eqn:?
  | |- steady _ (match ?x with _ => _ end) => destruct x eqn:?
  | |- steady _ (let '(_, _) := ?x in _) => destruct x eqn:?
  end.
