(* ===== verification/Wait.v ===== *)
(** The helpers of [packages/utils/src/wait.ts]: polling for a condition, and the
    race of a promise with a timer. *)
From S2P Require Import Prelude Async.

Module Wait.

(** ** Polling *)

Section Waiter.
Context {W : Type}.

(** The interval: [n] ticks before the timer ends the wait. *)
Fixpoint poll (check : W -> bool) (n : nat) : async W bool :=
  match n with
  | O => Await (Ret false)
  | S n => Await (Read (fun w => if check w then Ret true else poll check n))
  end.

(** [waiter]: at once, or at one of the ticks that come before the timer. With
    [exitWithReject] the timer rejects. *)
Definition waiter (check : W -> bool) (exitWithReject : bool) (ticks : nat) : async W bool :=
  b ← gets check;
  if b : bool then mret true
  else
    b ← poll check ticks;
    if negb b && exitWithReject then Raise (Error (js "Waiter finished due to timeout")) else mret b.

(** [wait]. *)
Definition wait : async W unit := await (mret tt).
End Waiter.

(** ** A promise with a timer *)

(** The promise [withTimeout] returns, and what can happen to it. *)
Inductive Promise (A : Type) := Pending | Fulfilled (a : option A) | Rejected (e : exn).
Inductive Event (A : Type) := Settles (r : res A) | Fires.
Arguments Pending {A}.
Arguments Fulfilled {A} a.
Arguments Rejected {A} e.
Arguments Settles {A} r.
Arguments Fires {A}.

(** Without [reThrow] a failure or the timer resolves with undefined. A promise
    settles once. *)
Definition withTimeout {A} (reThrow : bool) (p : Promise A) (e : Event A) : Promise A :=
  match p with
  | Pending =>
      match e with
      | Fires => if reThrow then Rejected (Error (js "Operation timed out")) else Fulfilled None
      | Settles (Ok a) => Fulfilled (Some a)
      | Settles (Throw err) => if reThrow then Rejected err else Fulfilled None
      end
  | p => p
  end.
End Wait.
Import Wait.

(** What is true when the waiter looks, or becomes true and stays true before one
    of its ticks, is reported; without it the answer is false. *)
Lemma waiter_quiet {W} (check : W -> bool) n w :
  run (waiter check false n) w = (w, Ok (check w)).
Proof.
  unfold waiter. running. destruct (check w) eqn:E; [done|]. running.
  assert (run (poll check n) w = (w, Ok false)) as ->; [|done].
  induction n as [|n IH]; [done|]. cbn [poll run]. by rewrite E.
Qed.

(** A waiter changes nothing. *)
Lemma quiet_waiter {W S} (view : W -> S) check b n : quiet view (@waiter W check b n).
Proof.
  unfold waiter. cbn. intros w. destruct (check w); [done|].
  induction n as [|n IH]; [by destruct b|]. cbn. intros w'. destruct (check w'); [by destruct b|]. exact IH.
Qed.

(** The first event settles the promise, for good. *)
Theorem withTimeout_first {A} reThrow (e : Event A) es :
  foldl (withTimeout reThrow) Pending (e :: es) = withTimeout reThrow Pending e.
Proof.
  cbn [foldl]. destruct (withTimeout reThrow Pending e) as [|a|err] eqn:E.
  - destruct e as [[a|err]|]; cbn in E; by try destruct reThrow.
  - induction es; done.
  - induction es; done.
Qed.
