(* ===== verification/NodePath.v ===== *)
(** Node's [path] module on POSIX, as far as the sources use it: [join],
    [resolve] and [dirname]. *)
From S2P Require Import Prelude JsValue.
#[local] Open Scope string_scope.

Definition slash : Ascii.ascii := Ascii.Ascii true true true true false true false false.

(** The parts between slashes. *)
Fixpoint splitSlash (s : string) : list string :=
  match s with
  | EmptyString => [""]
  | String c s =>
      if bool_decide (c = slash) then "" :: splitSlash s
      else match splitSlash s with
           | [] => [String c ""]
           | p :: ps => String c p :: ps
           end
  end.

Fixpoint joinSlash (l : list string) : string :=
  match l with
  | [] => ""
  | [s] => s
  | s :: l => s ++ "/" ++ joinSlash l
  end.

(** [.] and empty parts vanish; [..] removes the part in front of it, and is kept
    at the front of a relative path only. [acc] is reversed. *)
Fixpoint normalizeParts (absolute : bool) (parts : list string) (acc : list string) : list string :=
  match parts with
  | [] => reverse acc
  | p :: ps =>
      if bool_decide (p = "") || bool_decide (p = ".") then normalizeParts absolute ps acc
      else if bool_decide (p = "..") then
        match acc with
        | q :: acc' => if bool_decide (q = "..") then normalizeParts absolute ps (".." :: acc)
                       else normalizeParts absolute ps acc'
        | [] => normalizeParts absolute ps (if absolute then [] else [".."])
        end
      else normalizeParts absolute ps (p :: acc)
  end.

Definition isAbsolute (s : string) : bool := strStartsWith s "/".

Definition normalize (s : string) : string :=
  if bool_decide (s = "") then "."
  else
    let body := joinSlash (normalizeParts (isAbsolute s) (splitSlash s) []) in
    let trailing := strEndsWith s "/" in
    if bool_decide (body = "") then
      if isAbsolute s then "/" else if trailing then "./" else "."
    else (if isAbsolute s then "/" else "") ++ body ++ (if trailing then "/" else "").

Definition pathJoin (l : list string) : string :=
  match filter (fun s => s <> "") l with
  | [] => "."
  | l => normalize (joinSlash l)
  end.

(** [path.resolve(...l)] in the directory [cwd]: the parts from the last absolute
    one on. *)
Definition pathResolve (cwd : string) (l : list string) : string :=
  let fix from (l : list string) (acc : string) : string :=
    match l with
    | [] => acc
    | s :: l =>
        if bool_decide (s = "") then from l acc
        else from l (if isAbsolute s then s else acc ++ "/" ++ s)
    end in
  "/" ++ joinSlash (normalizeParts true (splitSlash (from l cwd)) []).

Fixpoint stripSlashes (l : list Ascii.ascii) : list Ascii.ascii :=
  match l with
  | c :: l' => if bool_decide (c = slash) then stripSlashes l' else l
  | [] => []
  end.

(** The characters behind the first slash. *)
Fixpoint dropPart (l : list Ascii.ascii) : option (list Ascii.ascii) :=
  match l with
  | [] => None
  | c :: l => if bool_decide (c = slash) then Some l else dropPart l
  end.

Definition pathDirname (s : string) : string :=
  if bool_decide (s = "") then "."
  else
    let r := stripSlashes (reverse (String.list_ascii_of_string s)) in
    match dropPart r with
    | None => if isAbsolute s then "/" else "."
    | Some [] => if isAbsolute s then "/" else "."
    | Some [c] => if bool_decide (c = slash) then "//" else String.string_of_list_ascii [c]
    | Some d => String.string_of_list_ascii (reverse d)
    end.

(** ** Evaluated *)

Example join_globals : pathJoin ["/usr/lib/node_modules"; "matterbridge-test/package.json"] =
  "/usr/lib/node_modules/matterbridge-test/package.json".
Proof. reflexivity. Qed.

Example join_dots : pathJoin ["/a/b/"; "../c"; "."; "d/"] = "/a/c/d/".
Proof. reflexivity. Qed.

Example resolve_relative : pathResolve "/home/user" ["./plugin/../x"; "dist/index.js"] = "/home/user/x/dist/index.js".
Proof. reflexivity. Qed.

Example resolve_absolute : pathResolve "/home" ["/opt/p"; "/dist"] = "/dist".
Proof. reflexivity. Qed.

Example dirname_file : pathDirname "/opt/p/package.json" = "/opt/p".
Proof. reflexivity. Qed.
