(* ===== verification/PluginManager.v ===== *)
(** The plugin manager of [packages/core/src/pluginManager.ts]: the registry of
    plugins, their storage, the resolution and checks of their packages, their
    life cycle, their configuration files and the broadcast requests. *)
From S2P Require Import Prelude JsValue JsMap NodePath Async Broadcast.
From stdpp Require Import gmap pretty.
#[local] Open Scope string_scope.

Module PluginManager.
Import Broadcast.

(** ** State *)

Abbreviation object := (list (string * value)) (only parsing).
Abbreviation ref := nat (only parsing).

(** A platform instance: the marks the type guards test, its configuration (an
    object shared with the plugin) and its other properties. *)
Record Platform := mkPlatform {
  brand : bool; accessoryBrand : bool; dynamicBrand : bool;
  instanceOfPlatform : bool; instanceOfAccessory : bool;
  config : option ref;
  pfields : object
}.

(** A [Plugin] object: its plain properties, its platform, its server node and
    its configuration object. *)
Record Plugin := mkPlugin {
  fields : object;
  platform : option ref;
  serverNode : option ref;
  configJson : option ref
}.

(** The content of a file: JSON, text that does not parse, or a file that cannot
    be read. *)
Inductive file := Json (v : value) | Garbled | Denied.

Record World := mkWorld {
  _plugins : jsmap value ref;
  objects : gmap ref Plugin;
  platforms : gmap ref Platform;
  configs : gmap ref object;
  nodeContext : option value;   (* the stored value of key plugins *)
  files : gmap string file;
  emitted : list (string * value);
  posted : list value;          (* what was handed to server.request and server.respond *)
  logLevel : value
}.

(** ** Access to the state *)

Definition plugin (w : World) (r : ref) : Plugin := default (mkPlugin [] None None None) (objects w !! r).
Definition platformOf (w : World) (r : ref) : Platform :=
  default (mkPlatform false false false false false None []) (platforms w !! r).
Definition configOf (w : World) (r : ref) : object := default [] (configs w !! r).

Definition setPlugins (m : jsmap value ref) (w : World) : World :=
  mkWorld m (objects w) (platforms w) (configs w) (nodeContext w) (files w) (emitted w) (posted w) (logLevel w).
Definition setObject (r : ref) (p : Plugin) (w : World) : World :=
  mkWorld (_plugins w) (<[r := p]> (objects w)) (platforms w) (configs w) (nodeContext w) (files w) (emitted w)
    (posted w) (logLevel w).
Definition setPlatform (r : ref) (p : Platform) (w : World) : World :=
  mkWorld (_plugins w) (objects w) (<[r := p]> (platforms w)) (configs w) (nodeContext w) (files w) (emitted w)
    (posted w) (logLevel w).
Definition setConfig (r : ref) (c : object) (w : World) : World :=
  mkWorld (_plugins w) (objects w) (platforms w) (<[r := c]> (configs w)) (nodeContext w) (files w) (emitted w)
    (posted w) (logLevel w).
Definition setStorage (v : value) (w : World) : World :=
  mkWorld (_plugins w) (objects w) (platforms w) (configs w) (Some v) (files w) (emitted w) (posted w) (logLevel w).
Definition setFile (f : string) (c : file) (w : World) : World :=
  mkWorld (_plugins w) (objects w) (platforms w) (configs w) (nodeContext w) (<[f := c]> (files w)) (emitted w)
    (posted w) (logLevel w).
Definition addEvent (e : string) (n : value) (w : World) : World :=
  mkWorld (_plugins w) (objects w) (platforms w) (configs w) (nodeContext w) (files w) (emitted w ++ [(e, n)])%list
    (posted w) (logLevel w).
Definition addPost (m : value) (w : World) : World :=
  mkWorld (_plugins w) (objects w) (platforms w) (configs w) (nodeContext w) (files w) (emitted w)
    (posted w ++ [m])%list (logLevel w).
Definition setLogLevel (l : value) (w : World) : World :=
  mkWorld (_plugins w) (objects w) (platforms w) (configs w) (nodeContext w) (files w) (emitted w) (posted w) l.

(** [plugin.k], and the assignments [plugin.k = v]. *)
Definition pget (w : World) (r : ref) (k : string) : value := getField k (fields (plugin w r)).

Definition assign (kvs : object) (f : object) : object := foldl (fun f kv => setField (fst kv) (snd kv) f) f kvs.

Definition pset (r : ref) (kvs : object) (w : World) : World :=
  let p := plugin w r in
  setObject r (mkPlugin (assign kvs (fields p)) (platform p) (serverNode p) (configJson p)) w.

Definition platformSet (r : ref) (kvs : object) (w : World) : World :=
  let p := platformOf w r in
  setPlatform r (mkPlatform (brand p) (accessoryBrand p) (dynamicBrand p) (instanceOfPlatform p) (instanceOfAccessory p)
    (config p) (assign kvs (pfields p))) w.

(** [new] objects. *)
Definition newPlugin (f : object) : async World ref :=
  r ← gets (fun w => fresh (dom (objects w)));
  _ ← modify (setObject r (mkPlugin f None None None));
  mret r.

Definition newConfig (c : object) : async World ref :=
  r ← gets (fun w => fresh (dom (configs w)));
  _ ← modify (setConfig r c);
  mret r.

Definition emit (e : string) (n : value) : async World unit := modify (addEvent e n).

(** ** Files *)

(** [promises.access], [existsSync] and [JSON.parse(await promises.readFile(f))]. *)
Definition fileAccess (f : string) : async World unit :=
  w ← ask;
  match files w !! f with
  | None => Raise (SystemError "ENOENT")
  | Some Denied => Raise (SystemError "EACCES")
  | Some _ => mret tt
  end.

Definition exists_ (w : World) (f : string) : bool := match files w !! f with Some _ => true | None => false end.

Definition readFile (f : string) : async World file :=
  w ← ask;
  match files w !! f with
  | None => Raise (SystemError "ENOENT")
  | Some Denied => Raise (SystemError "EACCES")
  | Some c => mret c
  end.

Definition parseJson (c : file) : async World value :=
  match c with Json v => mret v | _ => Raise SyntaxError end.

Definition readJson (f : string) : async World value := c ← await (readFile f); parseJson c.

(** A method call on a value that is no string throws. *)
Definition asString (v : value) : async World string :=
  match v with Str s => mret s | _ => Raise TypeError end.

(** The properties of an object; configuration and schema files hold objects. *)
Definition asObject (v : value) : async World object :=
  match v with Obj f => mret f | _ => Raise TypeError end.

(** [await import('node:fs')]. *)
Definition imported : async World unit := await (mret tt).

(** ** Packages *)

Definition dependencyTypes : list string :=
  ["dependencies"; "devDependencies"; "peerDependencies"; "optionalDependencies"; "bundledDependencies"; "bundleDependencies"].

(** [Object.keys] of a value that is neither undefined nor null. *)
Definition objectKeys (v : value) : list value :=
  match v with
  | Obj f => map (fun kv => Str (fst kv)) f
  | Arr l => map (fun i => Str (pretty (Z.of_nat i))) (seq 0 (length l))
  | Str s => map (fun i => Str (pretty (Z.of_nat i))) (seq 0 (String.length s))
  | _ => []
  end.

Definition getDependencyNames (dependencies : value) : list value :=
  if negb (truthy dependencies) then []
  else match dependencies with Arr l => l | _ => objectKeys dependencies end.

(** [l.filter(f)] with a callback that may throw. *)
Fixpoint filterE {A} (f : A -> res bool) (l : list A) : res (list A) :=
  match l with
  | [] => Ok []
  | x :: l => b ← f x; rest ← filterE f l; Ok (if b : bool then x :: rest else rest)
  end.

Definition valueStartsWith (p : string) (v : value) : res bool :=
  match v with Str s => Ok (strStartsWith s p) | _ => Throw TypeError end.

(** [v.startsWith(p1) || v.startsWith(p2) || v.startsWith(p3)]. *)
Definition isScopedPackage (v : value) : res bool :=
  match v with
  | Str s => Ok (strStartsWith s "@project-chip" || strStartsWith s "@matterbridge" || strStartsWith s "@matter")
  | _ => Throw TypeError
  end.

Record InvalidDependencies := mkInvalid { dependencyType : string; packages : list value; isMatterbridgePackage : bool }.

Fixpoint findInvalid (packageJson : value) (types : list string) : res (option InvalidDependencies) :=
  match types with
  | [] => Ok None
  | t :: types =>
      dependencies ← getProp packageJson t;
      let packages := getDependencyNames dependencies in
      matterbridgePackages ← filterE (valueStartsWith "matterbridge") packages;
      match matterbridgePackages with
      | _ :: _ => Ok (Some (mkInvalid t matterbridgePackages true))
      | [] =>
          scopedPackages ← filterE isScopedPackage packages;
          match scopedPackages with
          | _ :: _ => Ok (Some (mkInvalid t scopedPackages false))
          | [] => findInvalid packageJson types
          end
      end
  end.

Definition findInvalidDependencies (packageJson : value) : res (option InvalidDependencies) :=
  findInvalid packageJson dependencyTypes.

Definition checkDependencies (packageJson : value) : res bool :=
  invalid ← findInvalidDependencies packageJson; Ok (match invalid with None => true | Some _ => false end).

Definition getAuthor (packageJson : value) : value :=
  let author := optProp packageJson "author" in
  if truthy author && isString author then author
  else if truthy author && bool_decide (typeof author = "object") && truthy (optProp author "name") &&
          isString (optProp author "name") then optProp author "name"
  else Str "Unknown author".

Definition getDescription (packageJson : value) : value :=
  let description := optProp packageJson "description" in
  if truthy description && isString description then description else Str "No description".

(** [v.includes('http')] and [v.startsWith('http')] behind the type tests. *)
Definition includesHttp (v : value) : bool :=
  match v with Str s => truthy v && strIncludes s "http" | _ => false end.
Definition startsHttp (v : value) : bool :=
  match v with Str s => truthy v && strStartsWith s "http" | _ => false end.

(** [url.replace('git+', '').replace('.git', '')]. *)
Definition cleanUrl (v : value) : string :=
  match v with Str s => strReplace (strReplace s "git+" EmptyString) ".git" EmptyString | _ => EmptyString end.

(** [packageJson.repository.url], if the repository is an object. *)
Definition repositoryUrl (packageJson : value) : value :=
  let repository := optProp packageJson "repository" in
  if truthy repository && bool_decide (typeof repository = "object") then optProp repository "url" else Undefined.

Definition getHomepage (packageJson : value) : value :=
  let homepage := optProp packageJson "homepage" in
  if includesHttp homepage then Str (cleanUrl homepage)
  else if includesHttp (repositoryUrl packageJson) then Str (cleanUrl (repositoryUrl packageJson))
  else Undefined.

(** The common part of [getHelp] and [getChangelog]: the property, else a page of
    the repository, else the homepage. *)
Definition documentUrl (property page : string) (packageJson : value) : value :=
  let own := optProp packageJson property in
  let homepage := optProp packageJson "homepage" in
  if startsHttp own then own
  else if includesHttp (repositoryUrl packageJson) then Str (cleanUrl (repositoryUrl packageJson) ++ page)
  else if includesHttp homepage then Str (cleanUrl homepage)
  else Undefined.

Definition getHelp (packageJson : value) : value := documentUrl "help" "/blob/main/README.md" packageJson.
Definition getChangelog (packageJson : value) : value := documentUrl "changelog" "/blob/main/CHANGELOG.md" packageJson.

Fixpoint fundingEntry (entries : list value) : value :=
  match entries with
  | [] => Undefined
  | entry :: entries =>
      if startsHttp entry then entry
      else if truthy entry && bool_decide (typeof entry = "object") && startsHttp (optProp entry "url")
      then optProp entry "url"
      else fundingEntry entries
  end.

Definition getFunding (packageJson : value) : value :=
  let funding := optProp packageJson "funding" in
  if negb (truthy funding) then Undefined
  else match funding with
       | Str s => if strStartsWith s "http" then funding else Undefined
       | Arr l => fundingEntry l
       | _ => fundingEntry [funding]
       end.

(** ** Type guards of platforms *)

Definition shaped (p : Platform) : bool :=
  isString (getField "name" (pfields p)) && isString (getField "type" (pfields p)) &&
  isString (getField "version" (pfields p)) && match config p with Some _ => true | None => false end.

Definition isMatterbridgePlatform (p : Platform) : bool := brand p && instanceOfPlatform p && shaped p.
Definition isMatterbridgeAccessoryPlatform (p : Platform) : bool := accessoryBrand p && instanceOfAccessory p && shaped p.
Definition isMatterbridgeDynamicPlatform (p : Platform) : bool := dynamicBrand p && instanceOfPlatform p && shaped p.

(** ** The surroundings *)

(** What [import(url)] yields: an exception, a module without a default export,
    or one whose default export makes a platform from the configuration. *)
Inductive module_ :=
  | ImportFails (e : exn)
  | NoDefault
  | Default (make : ref -> async World (option ref)).

(** The code and the settings the manager depends on: the plugin modules and the
    hooks of their platforms, the endpoint registry of the bridge, directories. *)
Record Env := mkEnv {
  matterbridgeDirectory : string;
  globalModulesDirectory : string;
  matterbridgePluginDirectory : string;
  cwd : string;
  isBun : bool;
  writable : string -> bool;
  importModule : string -> module_;
  onStart : ref -> value -> async World unit;
  onConfigure : ref -> async World unit;
  onShutdown : ref -> value -> async World unit;
  onConfigChanged : ref -> ref -> async World unit;
  removeAllBridgedEndpoints : value -> async World unit;
  getServerNodeData : ref -> value;
  plg : string;   (* escape sequences of the log *)
  er : string
}.

Section Manager.
Context (env : Env).

(** [promises.writeFile(f, JSON.stringify(v))]. *)
Definition writeJson (f : string) (v : value) : async World unit :=
  if writable env f then modify (setFile f (Json (jsonClone v))) else Raise (SystemError "EACCES").

(** A request to the frontend or to the thread manager. *)
Definition request (type dst : string) (params : value) : async World unit :=
  modify (addPost (Obj [("type", Str type); ("src", Str "plugins"); ("dst", Str dst); ("params", params)])).

Definition snackbar (message : string) : async World unit :=
  request "frontend_snackbarmessage" "frontend"
    (Obj [("message", Str message); ("timeout", Num 30); ("severity", Str "error")]).

Definition logInvalidDependencies (packageJson : value) : async World unit :=
  snackbar ("Found not allowed package in plugin " ++ toText (optProp packageJson "name") ++ " package.json").

(** ** The registry *)

Definition size (w : World) : Z := msize (_plugins w).
Definition has (w : World) (n : value) : bool := mhas n (_plugins w).
Definition get (w : World) (n : value) : option ref := mget n (_plugins w).
Definition set (r : ref) : async World ref :=
  _ ← modify (fun w => setPlugins (mset (pget w r "name") r (_plugins w)) w); mret r.
Definition clear : async World unit := modify (setPlugins []).
Definition array (w : World) : list ref := mvalues (_plugins w).

Definition storageKeys : list string := ["name"; "path"; "type"; "version"; "description"; "author"; "enabled"; "private"].

Definition copy (keys : list string) (f : object) : object := map (fun k => (k, getField k f)) keys.

Definition toStoragePlugin (w : World) (r : ref) : object := copy storageKeys (fields (plugin w r)).

(** A reference to a configuration as the value it holds. *)
Definition configValue (w : World) (c : option ref) : value :=
  match c with Some c => Obj (configOf w c) | None => Undefined end.

Definition toApiPlugin (w : World) (r : ref) : object :=
  let p := plugin w r in
  (copy ["name"; "version"; "description"; "author"; "path"; "type"; "private"; "latestVersion"; "devVersion";
         "homepage"; "help"; "changelog"; "funding"; "locked"; "error"; "enabled"; "loaded"; "started";
         "configured"; "restartRequired"; "registeredDevices"] (fields p) ++
   [("configJson", configValue w (configJson p))] ++
   copy ["schemaJson"; "hasWhiteList"; "hasBlackList"] (fields p) ++
   [("matter", match serverNode p with Some n => getServerNodeData env n | None => Undefined end)])%list.

Definition storagePluginArray (w : World) : list object := map (toStoragePlugin w) (array w).
Definition apiPluginArray (w : World) : list object := map (toApiPlugin w) (array w).

(** The tasks [forEach] starts and waits for: one for each plugin of the snapshot;
    what a callback throws is logged and forgotten. *)
Definition forEach (callback : ref -> async World unit) (w : World) : list (async World unit) :=
  if Z.eqb (size w) 0 then []
  else map (fun r => catch (await (callback r)) (fun _ => mret tt)) (array w).

(** ** Storage *)

Fixpoint forEachE {A} (f : A -> async World unit) (l : list A) : async World unit :=
  match l with
  | [] => mret tt
  | x :: l => _ ← f x; forEachE f l
  end.

(** One stored plugin becomes a new object under its name. *)
Definition restore (v : value) : async World unit :=
  name ← liftRes (getProp v "name");
  let f := spread v in
  r ← newPlugin (setField "private" (coalesce (getField "private" f) (Bool false)) f);
  modify (fun w => setPlugins (mset name r (_plugins w)) w).

Definition loadFromStorage : async World (list value) :=
  w ← ask;
  match nodeContext w with
  | None => Raise (Error (js "loadFromStorage: node context is not available."))
  | Some stored =>
      pluginsArray ← await (mret (match stored with Arr l => l | _ => [] end));
      _ ← forEachE restore pluginsArray;
      mret pluginsArray
  end.

Definition saveToStorage : async World Z :=
  w ← ask;
  match nodeContext w with
  | None => Raise (Error (js "loadFromStorage: node context is not available."))
  | Some _ =>
      let plugins := map (fun r => Obj (copy (storageKeys ++ ["tarballPath"])%list (fields (plugin w r)))) (array w) in
      _ ← await (modify (setStorage (jsonClone (Arr plugins))));
      mret (Z.of_nat (length plugins))
  end.

(** ** Finding packages *)

(** The path itself if it can be accessed, else the alternative. *)
Definition orAt (packageJsonPath other : string) : async World string :=
  catch (_ ← await (fileAccess packageJsonPath); mret packageJsonPath) (fun _ => mret other).

Definition resolve (nameOrPath : string) : async World (option string) :=
  _ ← imported; _ ← imported;
  let nameOrPath := if strEndsWith nameOrPath "package.json" then nameOrPath else pathJoin [nameOrPath; "package.json"] in
  packageJsonPath ← orAt (pathResolve (cwd env) [nameOrPath]) (pathJoin [globalModulesDirectory env; nameOrPath]);
  packageJsonPath ← orAt packageJsonPath (pathJoin [matterbridgePluginDirectory env; nameOrPath]);
  catch
    (packageJson ← readJson packageJsonPath;
     name ← liftRes (getProp packageJson "name");
     if negb (truthy name) then mret None
     else if negb (isStr (optProp packageJson "type") "module") then mret None
     else if negb (truthy (optProp packageJson "main")) then mret None
     else
       invalidDependencies ← liftRes (findInvalidDependencies packageJson);
       match invalidDependencies with
       | Some _ => _ ← logInvalidDependencies packageJson; mret None
       | None => mret (Some packageJsonPath)
       end)
    (fun _ => _ ← snackbar ("Failed to resolve plugin path " ++ nameOrPath); mret None).

Definition spawn (packageName : value) (packageCommand command : string) (args : list value) : async World unit :=
  request "manager_run" "manager"
    (Obj [("name", Str "SpawnCommand");
          ("workerData", Obj [("threadName", Str "SpawnCommand"); ("command", Str command); ("args", Arr args);
                              ("packageCommand", Str packageCommand); ("packageName", packageName)])]).

Definition install (packageName : value) : async World unit :=
  spawn packageName "install" (if isBun env then "bun" else "npm")
    (if isBun env then [Str "install"; Str "-g"; packageName; Str "--production"]
     else [Str "install"; Str "-g"; packageName; Str "--omit=dev"; Str "--verbose"]).

Definition uninstall (packageName : value) : async World unit :=
  spawn packageName "uninstall" (if isBun env then "bun" else "npm")
    (if isBun env then [Str "uninstall"; Str "-g"; packageName] else [Str "uninstall"; Str "-g"; packageName; Str "--verbose"]).

(** The argument of the operations on one plugin: its name or the object. *)
Inductive target := ByName (n : string) | ByRef (r : ref).

Definition find (w : World) (t : target) : option ref :=
  match t with ByName n => get w (Str n) | ByRef r => Some r end.

(** [if (!existsSync(plugin.path) && existsSync(other)) plugin.path = other]. *)
Definition relocate (r : ref) (directory : string) : async World unit :=
  w ← ask;
  if match pget w r "path" with Str path => exists_ w path | _ => false end then mret tt
  else
    name ← asString (pget w r "name");
    let other := pathJoin [directory; name; "package.json"] in
    if exists_ w other then modify (pset r [("path", Str other)]) else mret tt.

(** What [parse] copies from the package into the plugin. *)
Definition parsed (packageJson : value) : object :=
  [("name", orElse (optProp packageJson "name") (Str "Unknown name"));
   ("version", orElse (optProp packageJson "version") (Str "1.0.0"));
   ("description", orElse (optProp packageJson "description") (Str "Unknown description"));
   ("author", getAuthor packageJson); ("homepage", getHomepage packageJson); ("help", getHelp packageJson);
   ("changelog", getChangelog packageJson); ("funding", getFunding packageJson)].

Definition parse (t : target) : async World (option value) :=
  _ ← imported;
  w ← ask;
  match find w t with
  | None => mret None
  | Some r =>
      catch
        (_ ← imported;
         _ ← relocate r (globalModulesDirectory env);
         _ ← relocate r (matterbridgePluginDirectory env);
         w ← ask;
         path ← asString (pget w r "path");
         packageJson ← readJson path;
         _ ← liftRes (getProp packageJson "name");
         _ ← modify (pset r (parsed packageJson));
         w ← ask;
         let frontendPath := pathJoin [strReplace path "package.json" EmptyString; "apps"; "frontend"; "build"; "index.html"] in
         _ ← (if exists_ w frontendPath then modify (pset r [("frontendPath", Str frontendPath)]) else mret tt);
         invalidDependencies ← liftRes (findInvalidDependencies packageJson);
         match invalidDependencies with
         | Some _ => _ ← logInvalidDependencies packageJson; mret None
         | None => mret (Some packageJson)
         end)
        (fun _ =>
           w ← ask;
           _ ← snackbar ("Failed to parse package.json of plugin " ++ toText (pget w r "name"));
           _ ← modify (pset r [("error", Bool true)]);
           mret None)
  end.

(** ** Enabling, disabling, removing and adding *)

(** The plugin registered under the name, else the one whose package the path
    leads to; [act] gets the key it was found under. *)
Definition withPlugin (nameOrPath : string) (act : value -> ref -> async World (option ref)) : async World (option ref) :=
  _ ← imported;
  if negb (truthy (Str nameOrPath)) then mret None
  else
    w ← ask;
    match get w (Str nameOrPath) with
    | Some r => act (Str nameOrPath) r
    | None =>
        packageJsonPath ← await (resolve nameOrPath);
        match packageJsonPath with
        | None => mret None
        | Some packageJsonPath =>
            catch
              (packageJson ← readJson packageJsonPath;
               name ← liftRes (getProp packageJson "name");
               w ← ask;
               match get w name with
               | None => mret None
               | Some r => act name r
               end)
              (fun _ => mret None)
        end
    end.

Definition setEnabled (b : bool) (event : string) (_ : value) (r : ref) : async World (option ref) :=
  _ ← modify (pset r [("enabled", Bool b)]);
  _ ← await saveToStorage;
  w ← ask;
  _ ← emit event (pget w r "name");
  mret (Some r).

Definition enable (nameOrPath : string) : async World (option ref) := withPlugin nameOrPath (setEnabled true "enabled").
Definition disable (nameOrPath : string) : async World (option ref) := withPlugin nameOrPath (setEnabled false "disabled").

Definition remove (nameOrPath : string) : async World (option ref) :=
  withPlugin nameOrPath (fun key r =>
    _ ← modify (fun w => setPlugins (mdelete key (_plugins w)) w);
    _ ← await saveToStorage;
    w ← ask;
    _ ← emit "removed" (pget w r "name");
    mret (Some r)).

(** The plugin object [add] creates. *)
Definition added (packageJson : value) (packageJsonPath : string) : object :=
  [("name", optProp packageJson "name"); ("enabled", Bool true); ("path", Str packageJsonPath); ("type", Str "AnyPlatform");
   ("version", optProp packageJson "version"); ("private", orElse (optProp packageJson "private") (Bool false));
   ("description", optProp packageJson "description"); ("author", getAuthor packageJson);
   ("homepage", getHomepage packageJson); ("help", getHelp packageJson); ("changelog", getChangelog packageJson);
   ("funding", getFunding packageJson)].

Definition add (nameOrPath : string) : async World (option ref) :=
  _ ← imported;
  if negb (truthy (Str nameOrPath)) then mret None
  else
    packageJsonPath ← await (resolve nameOrPath);
    match packageJsonPath with
    | None => mret None
    | Some packageJsonPath =>
        catch
          (packageJson ← readJson packageJsonPath;
           name ← liftRes (getProp packageJson "name");
           w ← ask;
           match get w name with
           | Some _ => mret None
           | None =>
               r ← newPlugin (added packageJson packageJsonPath);
               _ ← modify (fun w => setPlugins (mset name r (_plugins w)) w);
               _ ← await saveToStorage;
               w ← ask;
               _ ← emit "added" name;
               mret (get w name)
           end)
          (fun _ => mret None)
    end.

(** ** Configuration files *)

Definition configFile (name : value) : string := pathJoin [matterbridgeDirectory env; toText name ++ ".config.json"].

(** [plugin.path.replace('package.json', file)]. *)
Definition besidePackage (w : World) (r : ref) (suffix : string) : async World string :=
  path ← asString (pget w r "path");
  mret (strReplace path "package.json" (toText (pget w r "name") ++ suffix)).

Definition defaultConfig (w : World) (r : ref) : object :=
  [("name", pget w r "name"); ("type", pget w r "type"); ("version", Str "1.0.0"); ("debug", Bool false);
   ("unregisterOnShutdown", Bool false)].

Definition setIfUndefined (k : string) (v : value) (f : object) : object :=
  if isUndefined (getField k f) then setField k v f else f.

Definition loadConfig (r : ref) : async World ref :=
  _ ← imported; _ ← imported;
  w ← ask;
  let file := configFile (pget w r "name") in
  defaultFile ← besidePackage w r ".config.json";
  catch
    (_ ← await (fileAccess file);
     data ← readJson file;
     data ← asObject data;
     w ← ask;
     let c := setField "type" (pget w r "type") (setField "name" (pget w r "name") data) in
     newConfig (setIfUndefined "unregisterOnShutdown" (Bool false) (setIfUndefined "debug" (Bool false) c)))
    (fun e =>
       if bool_decide (e = SystemError "ENOENT") then
         c ← catch
               (_ ← await (fileAccess defaultFile);
                data ← readJson defaultFile;
                asObject data)
               (fun _ => w ← ask; mret (defaultConfig w r));
         catch
           (_ ← await (writeJson file (Obj c)); newConfig c)
           (fun _ => newConfig c)
       else
         w ← ask; newConfig (defaultConfig w r)).

Definition schemaDescription (w : World) (r : ref) : value :=
  Str (toText (pget w r "name") ++ " v. " ++ toText (pget w r "version") ++ " by " ++ toText (pget w r "author")).

(** One hidden read-only property of the default schema. *)
Definition hiddenProperty (title description : string) : value :=
  Obj [("title", Str title); ("description", Str description); ("type", Str "string"); ("readOnly", Bool true);
       ("ui:widget", Str "hidden")].

Definition switchProperty (title description : string) : value :=
  Obj [("title", Str title); ("description", Str description); ("type", Str "boolean"); ("default", Bool false)].

Definition getDefaultSchema (w : World) (r : ref) : value :=
  Obj [("title", pget w r "description"); ("description", schemaDescription w r); ("type", Str "object");
       ("properties", Obj [
          ("name", hiddenProperty "Plugin Name" "Plugin name");
          ("type", hiddenProperty "Plugin Type" "Plugin type");
          ("version", hiddenProperty "Plugin Version" "Plugin version");
          ("debug", switchProperty "Enable Debug" "Enable the debug for the plugin (development only)");
          ("unregisterOnShutdown",
             switchProperty "Unregister On Shutdown" "Unregister all devices on shutdown (development only)")])].

Definition loadSchema (r : ref) : async World value :=
  _ ← imported;
  w ← ask;
  schemaFile ← besidePackage w r ".schema.json";
  catch
    (_ ← await (fileAccess schemaFile);
     data ← readJson schemaFile;
     data ← asObject data;
     w ← ask;
     mret (Obj (setField "description" (schemaDescription w r) (setField "title" (pget w r "description") data))))
    (fun _ => w ← ask; mret (getDefaultSchema w r)).

(** [plugin.configJson = c]. *)
Definition setConfigJson (r : ref) (c : option ref) (w : World) : World :=
  let p := plugin w r in setObject r (mkPlugin (fields p) (platform p) (serverNode p) c) w.

Definition markRestart (r : ref) (restartRequired : bool) : async World unit :=
  if restartRequired then modify (pset r [("restartRequired", Bool true)]) else mret tt.

(** [plugin.platform] where the code dereferences it: undefined throws. *)
Definition thePlatform (r : ref) : async World ref :=
  w ← ask;
  match platform (plugin w r) with Some p => mret p | None => Raise TypeError end.

Definition saveConfigFromPlugin (r : ref) (restartRequired : bool) : async World unit :=
  _ ← imported; _ ← imported;
  w ← ask;
  match platform (plugin w r) ≫= (fun p => config (platformOf w p)) with
  | None => Raise (Error (js ("Error saving config file for plugin " ++ plg env ++ toText (pget w r "name") ++ er env ++
                              ": config not found")))
  | Some c =>
      _ ← await (writeJson (configFile (pget w r "name")) (Obj (configOf w c)));
      p ← thePlatform r;
      _ ← modify (fun w => setConfigJson r (config (platformOf w p)) w);
      markRestart r restartRequired
  end.

(** [platform.config = c]. *)
Definition setPlatformConfig (p : ref) (c : ref) (w : World) : World :=
  let q := platformOf w p in
  setPlatform p (mkPlatform (brand q) (accessoryBrand q) (dynamicBrand q) (instanceOfPlatform q) (instanceOfAccessory q)
    (Some c) (pfields q)) w.

Definition saveConfigFromJson (r : ref) (c : ref) (restartRequired : bool) : async World unit :=
  _ ← imported; _ ← imported;
  w ← ask;
  let cfg := configOf w c in
  if negb (truthy (getField "name" cfg)) || negb (truthy (getField "type" cfg)) ||
     negb (bool_decide (getField "name" cfg = pget w r "name"))
  then mret tt
  else
    catch
      (_ ← await (writeJson (configFile (pget w r "name")) (Obj cfg));
       _ ← modify (setConfigJson r (Some c));
       _ ← markRestart r restartRequired;
       w ← ask;
       match platform (plugin w r) with
       | None => mret tt
       | Some p =>
           _ ← modify (setPlatformConfig p c);
           catch (onConfigChanged env p c) (fun _ => mret tt)
       end)
      (fun _ => mret tt).

(** ** Life cycle *)

Definition configure (t : target) : async World (option ref) :=
  w ← ask;
  match find w t with
  | None => mret None
  | Some r =>
      if negb (truthy (pget w r "loaded")) then mret None
      else if negb (truthy (pget w r "started")) then mret None
      else match platform (plugin w r) with
           | None => mret None
           | Some p =>
               if truthy (pget w r "configured") then mret None
               else
                 catch
                   (_ ← await (onConfigure env p);
                    _ ← modify (pset r [("configured", Bool true)]);
                    p ← thePlatform r;
                    _ ← modify (platformSet p [("isConfigured", Bool true)]);
                    w ← ask;
                    _ ← emit "configured" (pget w r "name");
                    mret (Some r))
                   (fun _ => _ ← modify (pset r [("error", Bool true)]); mret None)
           end
  end.

Definition start (t : target) (message : value) (configure_ : bool) : async World (option ref) :=
  w ← ask;
  match find w t with
  | None => mret None
  | Some r =>
      if negb (truthy (pget w r "loaded")) then mret None
      else match platform (plugin w r) with
           | None => mret None
           | Some p =>
               if truthy (pget w r "started") then mret None
               else
                 catch
                   (_ ← await (onStart env p message);
                    _ ← modify (pset r [("started", Bool true)]);
                    p ← thePlatform r;
                    _ ← modify (platformSet p [("isStarted", Bool true)]);
                    _ ← await (saveConfigFromPlugin r false);
                    w ← ask;
                    _ ← emit "started" (pget w r "name");
                    _ ← (if configure_ then _ ← await (configure (ByRef r)); mret tt else mret tt);
                    mret (Some r))
                   (fun _ => _ ← modify (pset r [("error", Bool true)]); mret None)
           end
  end.

(** What [shutdown] leaves of a plugin. *)
Definition resetPlugin (r : ref) (w : World) : World :=
  let p := plugin w r in
  setObject r (mkPlugin (assign [("locked", Undefined); ("error", Undefined); ("loaded", Undefined);
                                 ("started", Undefined); ("configured", Undefined)] (fields p))
                 None (serverNode p) (configJson p)) w.

Definition shutdown (t : target) (reason : value) (removeAllDevices force : bool) : async World (option ref) :=
  w ← ask;
  match find w t with
  | None => mret None
  | Some r =>
      if negb (truthy (pget w r "loaded")) && negb force then mret None
      else if negb (truthy (pget w r "started")) && negb force then mret None
      else match platform (plugin w r) with
           | None => mret None
           | Some p =>
               catch
                 (_ ← modify (platformSet p [("isShuttingDown", Bool true)]);
                  _ ← await (onShutdown env p reason);
                  p ← thePlatform r;
                  _ ← modify (platformSet p [("isReady", Bool false); ("isLoaded", Bool false); ("isStarted", Bool false);
                                             ("isConfigured", Bool false); ("isShuttingDown", Bool false)]);
                  _ ← modify (resetPlugin r);
                  _ ← (if removeAllDevices
                       then w ← ask; await (removeAllBridgedEndpoints env (pget w r "name"))
                       else mret tt);
                  _ ← modify (pset r [("registeredDevices", Undefined)]);
                  w ← ask;
                  _ ← emit "shutdown" (pget w r "name");
                  mret (Some r))
                 (fun _ => mret None)
           end
  end.

(** [config.k = v]. *)
Definition configSet (c : ref) (kvs : object) (w : World) : World := setConfig c (assign kvs (configOf w c)) w.

(** What [load] writes into the plugin before it makes the platform. *)
Definition presets (packageJson : value) : object :=
  [("name", optProp packageJson "name"); ("description", getDescription packageJson);
   ("version", optProp packageJson "version"); ("author", getAuthor packageJson)].

(** What [load] writes into the plugin once the platform exists. *)
Definition loadedPlugin (packageJson : value) (p : ref) (r : ref) (w : World) : World :=
  let q := plugin w r in
  let f := assign (presets packageJson ++
                   [("private", orElse (optProp packageJson "private") (Bool false));
                    ("homepage", getHomepage packageJson); ("help", getHelp packageJson);
                    ("changelog", getChangelog packageJson); ("funding", getFunding packageJson);
                    ("type", getField "type" (pfields (platformOf w p))); ("loaded", Bool true);
                    ("registeredDevices", Num 0)])%list (fields q) in
  setObject r (mkPlugin f (Some p) (serverNode q) (configJson q)) w.

(** The platform made by the default export, checked. *)
Definition makePlatform (make : ref -> async World (option ref)) (c : ref) (r : ref) : async World ref :=
  made ← make c;
  w ← ask;
  match made with
  | None => Raise TypeError
  | Some p =>
      if negb (isMatterbridgePlatform (platformOf w p)) then Raise TypeError
      else if negb (isMatterbridgeAccessoryPlatform (platformOf w p)) && negb (isMatterbridgeDynamicPlatform (platformOf w p)) then
        _ ← await (onShutdown env p Undefined);
        w ← ask;
        Raise (Error (js ("Plugin " ++ toText (pget w r "name") ++
          " does not export a valid MatterbridgeAccessoryPlatform or MatterbridgeDynamicPlatform")))
      else mret p
  end.

Definition load (t : target) (start_ : bool) (message : value) (configure_ : bool) : async World (option ref) :=
  _ ← imported; _ ← imported;
  w ← ask;
  match find w t with
  | None => mret None
  | Some r =>
      if negb (truthy (pget w r "enabled")) then mret None
      else match platform (plugin w r) with
      | Some p => mret (Some p)
      | None =>
          catch
            (path ← asString (pget w r "path");
             packageJson ← readJson path;
             main ← liftRes (getProp packageJson "main");
             main ← asString main;
             let pluginEntry := pathResolve (cwd env) [pathDirname path; main] in
             _ ← imported;
             pluginInstance ← await (match importModule env pluginEntry with ImportFails e => Raise e | m => mret m end);
             match pluginInstance with
             | Default make =>
                 c ← await (loadConfig r);
                 _ ← modify (fun w => setConfigJson r (Some c) (pset r (presets packageJson) w));
                 schema ← await (loadSchema r);
                 _ ← modify (pset r [("schemaJson", schema)]);
                 _ ← modify (configSet c [("name", optProp packageJson "name"); ("version", optProp packageJson "version")]);
                 p ← makePlatform make c r;
                 _ ← modify (fun w => configSet c [("type", getField "type" (pfields (platformOf w p)))] w);
                 _ ← modify (fun w => setPlatformConfig p c
                       (platformSet p [("name", optProp packageJson "name"); ("version", optProp packageJson "version");
                                       ("isLoaded", Bool true)] w));
                 _ ← modify (loadedPlugin packageJson p r);
                 _ ← await saveToStorage;
                 w ← ask;
                 _ ← emit "loaded" (pget w r "name");
                 _ ← (if start_ then _ ← await (start (ByRef r) message false); mret tt else mret tt);
                 _ ← (if configure_ then _ ← await (configure (ByRef r)); mret tt else mret tt);
                 mret (Some p)
             | _ => _ ← modify (pset r [("error", Bool true)]); mret None
             end)
            (fun _ => _ ← modify (pset r [("error", Bool true)]); mret None)
      end
  end.

(** ** Broadcast messages *)

Definition isDigitChar (c : Ascii.ascii) : bool :=
  let n := Ascii.nat_of_ascii c in (48 <=? n)%nat && (n <=? 57)%nat.

(** [s.replace(/-\d.*$/, '')]: everything from the first dash before a digit. *)
Fixpoint stripTarball (s : string) : string :=
  match s with
  | String a (String b _ as s') =>
      if bool_decide (String a EmptyString = "-") && isDigitChar b then EmptyString else String a (stripTarball s')
  | _ => s
  end.

(** [s.replace(/@.*$/, '')]: everything from the first at sign. *)
Fixpoint stripVersion (s : string) : string :=
  match s with
  | EmptyString => EmptyString
  | String a s' => if bool_decide (String a EmptyString = "@") then EmptyString else String a (stripVersion s')
  end.

(** A plugin object that arrives in a message is a new object, without a platform. *)
Definition importPlugin (v : value) : async World ref :=
  f ← asObject v;
  r ← newPlugin f;
  match getField "configJson" f with
  | Obj c => c ← newConfig c; _ ← modify (setConfigJson r (Some c)); mret r
  | _ => mret r
  end.

Definition targetOf (v : value) : async World target :=
  match v with
  | Str n => mret (ByName n)
  | v => r ← importPlugin v; mret (ByRef r)
  end.

(** The argument of [add], [remove], [enable] and [disable]: a value that is falsy
    counts as no name, any other value that is no string fails in [resolve]. *)
Definition nameArg (v : value) : async World string :=
  if truthy v then asString v else mret EmptyString.

Definition answer (msg : object) (result : object) : async World unit :=
  modify (addPost (Obj (setField "result" (Obj result) msg))).

Definition answerError (msg : object) (message : string) : async World unit :=
  modify (addPost (Obj (setField "error" (Str message) msg))).

(** [plugin ? { plugin: this.toApiPlugin(plugin) } : { plugin }]. *)
Definition answerPlugin (msg : object) (none : value) (o : option ref) : async World unit :=
  w ← ask;
  answer msg [("plugin", match o with Some r => Obj (toApiPlugin w r) | None => none end)].

Definition param (msg : object) (k : string) : async World value := liftRes (getProp (getField "params" msg) k).

(** The plugin named in a parameter, or an error response. *)
Definition withNamed (msg : object) (n : value) (k : ref -> async World unit) : async World unit :=
  w ← ask;
  match get w n with
  | Some r => k r
  | None => answerError msg ("Plugin " ++ toText n ++ " not found")
  end.

Definition handleRequest (msg : object) : async World unit :=
  w ← ask;
  let type := getField "type" msg in
  if isStr type "get_log_level" then answer msg [("logLevel", logLevel w)]
  else if isStr type "set_log_level" then
    level ← param msg "logLevel"; _ ← modify (setLogLevel level); answer msg [("logLevel", level)]
  else if isStr type "plugins_length" then answer msg [("length", Num (size w))]
  else if isStr type "plugins_size" then answer msg [("size", Num (size w))]
  else if isStr type "plugins_has" then n ← param msg "name"; answer msg [("has", Bool (has w n))]
  else if isStr type "plugins_get" then n ← param msg "name"; answerPlugin msg Undefined (get w n)
  else if isStr type "plugins_set" then
    v ← param msg "plugin"; r ← importPlugin v; r ← set r;
    w ← ask; answer msg [("plugin", Obj (fields (plugin w r)))]
  else if isStr type "plugins_storagepluginarray" then answer msg [("plugins", Arr (map Obj (storagePluginArray w)))]
  else if isStr type "plugins_apipluginarray" then answer msg [("plugins", Arr (map Obj (apiPluginArray w)))]
  else if isStr type "plugins_install" then
    n ← param msg "packageName"; _ ← install n; answer msg [("packageName", n)]
  else if isStr type "plugins_uninstall" then
    n ← param msg "packageName"; _ ← uninstall n; answer msg [("packageName", n)]
  else if isStr type "plugins_add" then
    n ← param msg "nameOrPath"; s ← nameArg n; o ← await (add s); answerPlugin msg Null o
  else if isStr type "plugins_remove" then
    n ← param msg "nameOrPath"; s ← nameArg n; o ← await (remove s);
    answer msg [("success", Bool (match o with Some _ => true | None => false end))]
  else if isStr type "plugins_enable" then
    n ← param msg "nameOrPath"; s ← nameArg n; o ← await (enable s); answerPlugin msg Null o
  else if isStr type "plugins_disable" then
    n ← param msg "nameOrPath"; s ← nameArg n; o ← await (disable s); answerPlugin msg Null o
  else if isStr type "plugins_load" then
    v ← param msg "plugin"; t ← targetOf v; o ← await (load t false (Str EmptyString) false);
    answer msg [("platform", match o with Some _ => Obj [] | None => Undefined end)]
  else if isStr type "plugins_start" then
    v ← param msg "plugin"; message ← param msg "message"; c ← param msg "configure";
    t ← targetOf v; o ← await (start t message (truthy c)); answerPlugin msg Undefined o
  else if isStr type "plugins_configure" then
    v ← param msg "plugin"; t ← targetOf v; o ← await (configure t); answerPlugin msg Undefined o
  else if isStr type "plugins_shutdown" then
    v ← param msg "plugin"; reason ← param msg "reason"; all ← param msg "removeAllDevices"; force ← param msg "force";
    t ← targetOf v; o ← await (shutdown t reason (truthy all) (truthy force)); answerPlugin msg Undefined o
  else if isStr type "plugins_getschema" then
    n ← param msg "name";
    answer msg [("schema", match get w n with Some r => pget w r "schemaJson" | None => Undefined end)]
  else if isStr type "plugins_setschema" then
    n ← param msg "name"; schema ← param msg "schema";
    withNamed msg n (fun r => _ ← modify (pset r [("schemaJson", schema)]); answer msg [("success", Bool true)])
  else if isStr type "plugins_saveconfigfromjson" then
    n ← param msg "name"; cfg ← param msg "config"; restart ← param msg "restartRequired";
    withNamed msg n (fun r =>
      _ ← answer msg [("success", Bool true)];
      catch (cfg ← asObject cfg; c ← newConfig cfg; saveConfigFromJson r c (truthy restart)) (fun _ => mret tt))
  else if isStr type "plugins_set_latest_version" then
    v ← param msg "plugin"; n ← liftRes (getProp v "name"); version ← param msg "version";
    withNamed msg n (fun r => _ ← modify (pset r [("latestVersion", version)]); answer msg [("success", Bool true)])
  else if isStr type "plugins_set_dev_version" then
    v ← param msg "plugin"; n ← liftRes (getProp v "name"); version ← param msg "version";
    withNamed msg n (fun r => _ ← modify (pset r [("devVersion", version)]); answer msg [("success", Bool true)])
  else mret tt.

(** After a package has been installed: register it, note the tarball, save, load. *)
Definition registerInstalled (packageName : string) (tarball : value) : async World unit :=
  w ← ask;
  _ ← (if has w (Str packageName) then mret tt else _ ← await (add packageName); mret tt);
  w ← ask;
  let o := get w (Str packageName) in
  _ ← match o with Some r => modify (pset r [("tarballPath", tarball)]) | None => mret tt end;
  _ ← await saveToStorage;
  w ← ask;
  match o with
  | Some r => if truthy (pget w r "loaded") then mret tt
              else _ ← await (load (ByRef r) false (Str EmptyString) false); mret tt
  | None => mret tt
  end.

Definition handleSpawnResponse (result : value) : async World unit :=
  let command := optProp result "packageCommand" in
  if isStr command "install" then
    if negb (truthy (optProp result "success")) then mret tt
    else
      packageName ← asString (optProp result "packageName");
      if strEndsWith packageName ".tgz" then
        if strStartsWith packageName "matterbridge-" && strEndsWith packageName ".tgz"
        then registerInstalled (stripTarball packageName) (Str packageName) else mret tt
      else
        let name := stripVersion packageName in
        if bool_decide (name = "matterbridge") then mret tt else registerInstalled name Undefined
  else if isStr command "uninstall" then
    if truthy (optProp result "success") then
      packageName ← asString (optProp result "packageName");
      w ← ask;
      match get w (Str packageName) with
      | None => mret tt
      | Some r =>
          _ ← (if truthy (pget w r "loaded")
               then _ ← await (shutdown (ByRef r) (Str "Matterbridge is uninstalling the plugin") false false); mret tt
               else mret tt);
          _ ← await (remove packageName);
          mret tt
      end
    else mret tt
  else mret tt.

Definition msgHandler (m : value) : async World unit :=
  _ ← match m with
      | Obj msg => if isWorkerRequest m then handleRequest msg else mret tt
      | _ => mret tt
      end;
  if isWorkerResponse m && (isStr (optProp m "dst") "all" || isStr (optProp m "dst") "plugins") then
    if isStr (optProp m "type") "manager_spawn_response" then handleSpawnResponse (optProp m "result") else mret tt
  else mret tt.

End Manager.
End PluginManager.
