(* ===== verification/PluginFacts.v ===== *)
(** Packages, registry and storage of the plugin manager: which packages are
    refused, where a plugin is found, what adding, enabling and removing do, and
    that the stored plugins are the registered ones. *)
From S2P Require Import Prelude JsValue JsMap NodePath Async Broadcast PluginManager.
From stdpp Require Import gmap.
Import PluginManager.
#[local] Open Scope string_scope.

(** ** Forbidden dependencies *)

(** A package a plugin may not depend on. *)
Definition forbidden (s : string) : bool :=
  strStartsWith s "matterbridge" || strStartsWith s "@matter" || strStartsWith s "@project-chip".

(** The six lists name packages by strings. *)
Definition dependenciesOk (f : list (string * value)) : Prop :=
  Forall (fun t => Forall (fun v => isString v = true) (getDependencyNames (getField t f))) dependencyTypes.

#[export] Instance dependenciesOk_dec f : Decision (dependenciesOk f).
Proof. unfold dependenciesOk. apply _. Defined.

(** A property of strings, false of other values. *)
Definition strHolds (p : string -> bool) (v : value) : bool := match v with Str s => p s | _ => false end.

Lemma filterE_strings (p : string -> bool) (g : value -> res bool) l :
  (forall s, g (Str s) = Ok (p s)) -> Forall (fun v => isString v = true) l ->
  filterE g l = Ok (List.filter (strHolds p) l).
Proof.
  intros Hg Hl. induction Hl as [|v l Hv Hl IH]; [done|]. destruct v as [| | | |s| |]; try done.
  cbn [filterE]. by rewrite Hg, bind_Ok, IH, bind_Ok.
Qed.

Lemma filter_nil_iff {A} (p : A -> bool) l : List.filter p l = [] <-> forall x, x ∈ l -> p x = false.
Proof.
  induction l as [|x l IH]; cbn [List.filter]; [split; [intros _ x Hx; by apply not_elem_of_nil in Hx|done]|].
  destruct (p x) eqn:E.
  - split; [done|]. intros H. rewrite (H x) in E by apply list_elem_of_here. done.
  - rewrite IH. split; intros H y Hy; [|apply H; by apply list_elem_of_further].
    apply elem_of_cons in Hy as [->|Hy]; [done|by apply H].
Qed.

Definition offending (v : value) : bool := strHolds forbidden v.

(** What the two filters of one kind of dependencies look for. *)
Definition plain (s : string) : bool := strStartsWith s "matterbridge".
Definition scoped (s : string) : bool :=
  strStartsWith s "@project-chip" || strStartsWith s "@matterbridge" || strStartsWith s "@matter".

Lemma offending_split v : offending v = strHolds plain v || strHolds scoped v.
Proof.
  destruct v as [| | | |s| |]; try done. unfold offending, strHolds, forbidden, plain, scoped, strStartsWith.
  assert (strPrefix "@matterbridge" s = true -> strPrefix "@matter" s = true) as H.
  { rewrite !strPrefix_spec. intros [t ->]. by exists ("bridge" ++ t). }
  destruct (strPrefix "@matterbridge" s); [rewrite H by done|]; by destruct (strPrefix "matterbridge" s),
    (strPrefix "@project-chip" s), (strPrefix "@matter" s).
Qed.

Lemma findInvalid_spec f types :
  Forall (fun t => Forall (fun v => isString v = true) (getDependencyNames (getField t f))) types ->
  match findInvalid (Obj f) types with
  | Ok None => forall t v, t ∈ types -> v ∈ getDependencyNames (getField t f) -> offending v = false
  | Ok (Some i) =>
      dependencyType i ∈ types /\ packages i <> [] /\
      forall v, v ∈ packages i -> v ∈ getDependencyNames (getField (dependencyType i) f) /\ offending v = true
  | Throw _ => False
  end.
Proof.
  induction 1 as [|t types Ht Htypes IH]; [intros t v Hin; by apply not_elem_of_nil in Hin|].
  cbn [findInvalid getProp]. rewrite bind_Ok, (filterE_strings plain (valueStartsWith "matterbridge")), bind_Ok by (done || (intros; reflexivity)).
  assert (forall p vs, List.filter (strHolds p) (getDependencyNames (getField t f)) = vs -> vs <> [] ->
            (forall v, strHolds p v = true -> offending v = true) ->
            t ∈ t :: types /\ vs <> [] /\
            forall v, v ∈ vs -> v ∈ getDependencyNames (getField t f) /\ offending v = true) as Hfound.
  { intros p vs <- Hne Hp. split; [apply list_elem_of_here|]. split; [done|].
    intros v [Hin Hv]%list_elem_of_In%filter_In. split; [by apply list_elem_of_In|by apply Hp]. }
  destruct (List.filter (strHolds plain) _) as [|v vs] eqn:E1; cycle 1.
  { apply (Hfound plain); [done|done|]. intros x Hx. by rewrite offending_split, Hx. }
  rewrite (filterE_strings scoped isScopedPackage), bind_Ok by (done || (intros; reflexivity)).
  destruct (List.filter (strHolds scoped) _) as [|v vs] eqn:E2; cycle 1.
  { apply (Hfound scoped); [done|done|]. intros x Hx. by rewrite offending_split, Hx, orb_true_r. }
  rewrite filter_nil_iff in E1. rewrite filter_nil_iff in E2.
  destruct (findInvalid (Obj f) types) as [[i|]|]; [| |done].
  - destruct IH as (Hi & Hne & Hall). split; [by apply list_elem_of_further|done].
  - intros t' v Ht' Hv. apply elem_of_cons in Ht' as [->|Ht']; [|by eapply IH].
    by rewrite offending_split, E1, E2.
Qed.

(** A package is accepted exactly when none of its six dependency lists names
    a Matterbridge, matter.js or project-chip package; what is reported for a
    refused package is non-empty and consists of such dependencies of the
    reported list. *)
Theorem checkDependencies_exact f :
  dependenciesOk f ->
  (checkDependencies (Obj f) = Ok true <->
   forall t v, t ∈ dependencyTypes -> v ∈ getDependencyNames (getField t f) -> offending v = false) /\
  (forall i, findInvalidDependencies (Obj f) = Ok (Some i) ->
     packages i <> [] /\
     forall v, v ∈ packages i -> v ∈ getDependencyNames (getField (dependencyType i) f) /\ offending v = true).
Proof.
  intros Hf. pose proof (findInvalid_spec f dependencyTypes Hf) as Hspec.
  unfold checkDependencies, findInvalidDependencies in *.
  destruct (findInvalid (Obj f) dependencyTypes) as [[i|]|]; [| |done]; rewrite bind_Ok.
  - destruct Hspec as (Hi & Hne & Hall). split; [|by intros ? [= <-]]. split; [done|]. intros Hno.
    destruct (packages i) as [|v vs] eqn:E; [done|].
    destruct (Hall v (list_elem_of_here _ _)) as [Hin Hoff]. by rewrite (Hno _ _ Hi Hin) in Hoff.
  - by split.
Qed.

Lemma checkDependencies_exact_witness :
  dependenciesOk [("name", Str "matterbridge-test"); ("dependencies", Obj [("node-ansi-logger", Str "3.0.0")]);
                  ("devDependencies", Obj [("@matterbridge/core", Str "1.0.0")])] /\
  findInvalidDependencies (Obj [("name", Str "matterbridge-test"); ("dependencies", Obj [("node-ansi-logger", Str "3.0.0")]);
                  ("devDependencies", Obj [("@matterbridge/core", Str "1.0.0")])]) =
    Ok (Some (mkInvalid "devDependencies" [Str "@matterbridge/core"] false)) /\
  offending (Str "@matterbridge/core") = true.
Proof.
  set (f := [("name", Str "matterbridge-test"); ("dependencies", Obj [("node-ansi-logger", Str "3.0.0")]);
             ("devDependencies", Obj [("@matterbridge/core", Str "1.0.0")])]).
  assert (dependenciesOk f) as Hf by evaluate. split; [exact Hf|]. split; [by vm_compute|].
  destruct (proj2 (checkDependencies_exact f Hf) (mkInvalid "devDependencies" [Str "@matterbridge/core"] false))
    as [_ Hall]; [by vm_compute|]. apply (Hall (Str "@matterbridge/core")). apply list_elem_of_here.
Defined.

(** ** Finding packages *)

Section Facts.
Context (env : Env).

Definition accessible (w : World) (f : string) : bool :=
  match files w !! f with Some (Json _) | Some Garbled => true | _ => false end.

Lemma run_orAt w p q : run (orAt p q) w = (w, Ok (if accessible w p then p else q)).
Proof.
  unfold orAt, fileAccess, accessible. running. destruct (files w !! p) as [[v| |]|]; by running.
Qed.

Lemma run_readJson w f :
  run (readJson f) w = (w, match files w !! f with
                           | Some (Json v) => Ok v
                           | Some Garbled => Throw SyntaxError
                           | Some Denied => Throw (SystemError "EACCES")
                           | None => Throw (SystemError "ENOENT")
                           end).
Proof. unfold readJson, readFile. running. destruct (files w !! f) as [[v| |]|]; by running. Qed.

Lemma run_imported w : run imported w = (w, Ok tt).
Proof. reflexivity. Qed.

(** The package file looked at: in place, else among the global modules, else in
    the plugin directory. *)
Definition packageFile (n : string) : string :=
  if strEndsWith n "package.json" then n else pathJoin [n; "package.json"].

Definition candidate (w : World) (n : string) : string :=
  let p := pathResolve (cwd env) [packageFile n] in
  let p := if accessible w p then p else pathJoin [globalModulesDirectory env; packageFile n] in
  if accessible w p then p else pathJoin [matterbridgePluginDirectory env; packageFile n].

(** A package that may be a plugin. *)
Definition acceptable (packageJson : value) : Prop :=
  truthy (optProp packageJson "name") = true /\ optProp packageJson "type" = Str "module" /\
  truthy (optProp packageJson "main") = true /\ findInvalidDependencies packageJson = Ok None.

#[export] Instance InvalidDependencies_eq_dec : EqDecision InvalidDependencies.
Proof. solve_decision. Defined.
#[export] Instance acceptable_dec v : Decision (acceptable v).
Proof. unfold acceptable. apply _. Defined.

(** The lookup, in closed form: it never throws, and only a refusal posts a message. *)
Definition resolved (w : World) (n : string) : option string :=
  match files w !! candidate w n with
  | Some (Json v) => if decide (acceptable v) then Some (candidate w n) else None
  | _ => None
  end.

Lemma run_snackbar {A} m (a : A) w : exists x, run (_ ← snackbar m; mret a) w = (addPost x w, Ok a).
Proof. eexists. unfold snackbar, request. running. done. Qed.

Lemma run_resolve w n :
  exists w', run (resolve env n) w = (w', Ok (resolved w n)) /\
    (w' = w \/ resolved w n = None /\ exists x, w' = addPost x w).
Proof.
  unfold resolve, resolved. running. rewrite !run_imported. cbv beta iota zeta. running. rewrite run_imported.
  cbv beta iota zeta. fold (packageFile n). running. rewrite run_orAt. cbv beta iota zeta. running.
  rewrite run_orAt. cbv beta iota zeta. fold (candidate w n). running. rewrite run_readJson.
  set (snack := snackbar _). assert (exists x, run (_ ← snack; mret (None : option string)) w = (addPost x w, Ok None))
    as [x Hx] by apply run_snackbar.
  destruct (files w !! candidate w n) as [[v| |]|]; cbv beta iota zeta; try (rewrite Hx; eauto 6).
  running. destruct (getProp v "name") as [name|e] eqn:En; cbv beta iota zeta; cycle 1.
  { rewrite Hx, decide_False; [by eauto 6|]. unfold acceptable. destruct v; try done; by intros [? _]. }
  assert (optProp v "name" = name) as Hname by (destruct v; cbn in En |- *; congruence).
  assert (forall b P, b = false -> (acceptable v -> b = true) -> 
    exists w', (w, @Ok (option string) None) = (w', Ok (if decide (acceptable v) then P else None)) /\
      (w' = w \/ (if decide (acceptable v) then P else None) = None /\ exists x, w' = addPost x w)) as Hno.
  { intros b P Hb Ha. exists w. destruct (decide (acceptable v)); [|by auto]. by rewrite Ha in Hb. }
  destruct (truthy name) eqn:Et; cbn [negb]; running;
    [|by apply (Hno (truthy name)); [|rewrite <- Hname; intros (? & _)]].
  destruct (isStr (optProp v "type") "module") eqn:Em; cbn [negb]; running;
    [|apply (Hno (isStr (optProp v "type") "module")); [done|intros (_ & Ht & _); by apply isStr_true]].
  destruct (truthy (optProp v "main")) eqn:Emain; cbn [negb]; running;
    [|by apply (Hno (truthy (optProp v "main"))); [|intros (_ & _ & ? & _)]].
  running. destruct (findInvalidDependencies v) as [[i|]|e] eqn:Ei; cbv beta iota zeta.
  - unfold logInvalidDependencies. destruct (run_snackbar
      ("Found not allowed package in plugin " ++ toText (optProp v "name") ++ " package.json") (None : option string) w) as [y Hy].
    rewrite Hy, decide_False; [by eauto 6|]. intros (_ & _ & _ & Hf). congruence.
  - running. rewrite decide_True; [by eauto|]. unfold acceptable. rewrite Hname. by apply isStr_true in Em.
  - rewrite Hx, decide_False; [by eauto 6|]. intros (_ & _ & _ & Hf). congruence.
Qed.

(** A plugin is looked for in place, then among the global modules, then in
    the plugin directory; it is found exactly when the file at the first
    accessible of these places is a package with a name, of type module, with an
    entry point and without forbidden dependencies. Looking never throws, and
    changes nothing but the messages sent. *)
Theorem resolve_exact w n :
  exists w' o, run (resolve env n) w = (w', Ok o) /\ (w' = w \/ exists x, w' = addPost x w) /\
    forall p, o = Some p <->
      p = candidate w n /\ exists v, files w !! p = Some (Json v) /\ acceptable v.
Proof.
  destruct (run_resolve w n) as (w' & Hrun & Hw). exists w', (resolved w n). split; [done|].
  split; [destruct Hw as [|[_ ?]]; auto|]. intros p. unfold resolved. split.
  - destruct (files w !! candidate w n) as [[v| |]|] eqn:E; try done. destruct (decide (acceptable v)); [|done].
    intros [= <-]. by eauto.
  - intros (-> & v & -> & Ha). by rewrite decide_True.
Qed.

(** ** Storage *)

(** What the storage holds for the registered plugins. *)
Definition stored (w : World) : value :=
  jsonClone (Arr (map (fun r => Obj (copy (storageKeys ++ ["tarballPath"])%list (fields (plugin w r)))) (array w))).

Lemma run_saveToStorage w :
  is_Some (nodeContext w) -> run saveToStorage w = (setStorage (stored w) w, Ok (Z.of_nat (length (array w)))).
Proof.
  intros [v Hv]. unfold saveToStorage. running. rewrite Hv. running. unfold stored. by rewrite length_map.
Qed.

Lemma stored_setStorage w v : stored (setStorage v w) = stored w.
Proof. reflexivity. Qed.

Lemma stored_addEvent w e n : stored (addEvent e n w) = stored w.
Proof. reflexivity. Qed.

(** ** Adding *)

Lemma resolved_file w n p : resolved w n = Some p -> exists v, files w !! p = Some (Json v) /\ acceptable v.
Proof.
  unfold resolved. destruct (files w !! candidate w n) as [[v| |]|] eqn:E; try done.
  destruct (decide (acceptable v)); [|done]. intros [= <-]. by eauto.
Qed.

Lemma acceptable_getProp v k : acceptable v -> getProp v k = Ok (optProp v k).
Proof. intros (Hn & _). by destruct v. Qed.

(** The two outcomes of [add] for a package that can be resolved. *)
Lemma run_add w n p v :
  n <> EmptyString -> resolved w n = Some p -> files w !! p = Some (Json v) -> is_Some (nodeContext w) ->
  run (add env n) w =
    match get w (optProp v "name") with
    | Some _ => (w, Ok None)
    | None =>
        let r := fresh (dom (objects w)) in
        let w1 := setPlugins (mset (optProp v "name") r (_plugins w)) (setObject r (mkPlugin (added v p) None None None) w) in
        (addEvent "added" (optProp v "name") (setStorage (stored w1) w1), Ok (Some r))
    end.
Proof.
  intros Hn Hr Hf Hc. destruct (resolved_file _ _ _ Hr) as (v' & Hf' & Ha). assert (v' = v) as -> by congruence.
  unfold add. running. rewrite run_imported. cbv beta iota zeta.
  assert (truthy (Str n) = true) as -> by (cbn; by rewrite bool_decide_eq_false_2). cbn [negb]. running.
  destruct (run_resolve w n) as (w' & Hrun & Hw). rewrite Hrun, Hr. cbv beta iota zeta.
  destruct Hw as [->|[Hw _]]; [|congruence]. running. rewrite run_readJson, Hf. cbv beta iota zeta. running.
  rewrite (acceptable_getProp v "name" Ha). cbv beta iota zeta. running.
  destruct (get w (optProp v "name")) as [r0|] eqn:Eg; [by running|]. running. unfold newPlugin. running.
  rewrite run_saveToStorage by done. cbv beta iota zeta. unfold emit. running.
  unfold get. cbn [_plugins setStorage setPlugins]. by rewrite mget_set.
Qed.

(** Adding a package that can be resolved and is not registered puts one new
    enabled plugin at the end of the registry, saves the registry and announces
    the plugin; every other plugin is untouched; adding it again changes nothing. *)
Theorem add_registers w n p v :
  n <> EmptyString -> resolved w n = Some p -> files w !! p = Some (Json v) -> is_Some (nodeContext w) ->
  get w (optProp v "name") = None ->
  exists r w', run (add env n) w = (w', Ok (Some r)) /\ objects w !! r = None /\
    _plugins w' = (_plugins w ++ [(optProp v "name", r)])%list /\
    pget w' r "enabled" = Bool true /\ pget w' r "path" = Str p /\ pget w' r "name" = optProp v "name" /\
    (forall r', r' <> r -> plugin w' r' = plugin w r') /\
    nodeContext w' = Some (stored w') /\ emitted w' = (emitted w ++ [("added", optProp v "name")])%list /\
    run (add env n) w' = (w', Ok None).
Proof.
  intros Hn Hr Hf Hc Hg. pose proof (run_add w n p v Hn Hr Hf Hc) as Hrun. rewrite Hg in Hrun. cbv zeta in Hrun.
  set (r := fresh (dom (objects w))) in *.
  set (w1 := setPlugins _ _) in Hrun. set (w' := addEvent _ _ _) in Hrun.
  assert (plugin w' r = mkPlugin (added v p) None None None) as Hp.
  { unfold plugin. subst w' w1. cbn. by rewrite lookup_insert_eq. }
  assert (_plugins w' = (_plugins w ++ [(optProp v "name", r)])%list) as Hplugins by (apply mset_fresh; done).
  exists r, w'. split; [done|]. split_and!; try done.
  - apply not_elem_of_dom, is_fresh.
  - by unfold pget; rewrite Hp.
  - by unfold pget; rewrite Hp.
  - by unfold pget; rewrite Hp.
  - intros r' Hne. unfold plugin. subst w' w1. cbn. by rewrite lookup_insert_ne.
  - assert (resolved w' n = Some p) as Hr' by exact Hr. rewrite (run_add w' n p v) by (done || by eexists).
    unfold get. rewrite Hplugins. by rewrite <- mset_fresh, mget_set by done.
Qed.

(** ** Enabling, disabling and removing *)

Lemma run_withPlugin w n act r :
  n <> EmptyString -> get w (Str n) = Some r -> run (withPlugin env n act) w = run (act (Str n) r) w.
Proof.
  intros Hn Hg. unfold withPlugin. running. rewrite run_imported. cbv beta iota zeta.
  assert (truthy (Str n) = true) as -> by (cbn; by rewrite bool_decide_eq_false_2). cbn [negb]. running.
  by rewrite Hg.
Qed.

Lemma plugin_pset w r kvs : plugin (pset r kvs w) r =
  mkPlugin (assign kvs (fields (plugin w r))) (platform (plugin w r)) (serverNode (plugin w r)) (configJson (plugin w r)).
Proof. unfold plugin at 1. cbn. by rewrite lookup_insert_eq. Qed.

Lemma plugin_pset_ne w r r' kvs : r' <> r -> plugin (pset r kvs w) r' = plugin w r'.
Proof. intros Hne. unfold plugin. cbn. by rewrite lookup_insert_ne. Qed.

(** Enabling or disabling a registered plugin sets that one property of that
    one plugin, saves the registry and announces the change; registration,
    platform and life cycle of every plugin stay as they were. *)
Theorem enable_disable_exact w n r (b : bool) :
  n <> EmptyString -> get w (Str n) = Some r -> is_Some (nodeContext w) ->
  exists w', run (if b then enable env n else disable env n) w = (w', Ok (Some r)) /\
    pget w' r "enabled" = Bool b /\ (forall k, k <> "enabled" -> pget w' r k = pget w r k) /\
    platform (plugin w' r) = platform (plugin w r) /\
    (forall r', r' <> r -> plugin w' r' = plugin w r') /\ _plugins w' = _plugins w /\
    nodeContext w' = Some (stored w') /\
    emitted w' = (emitted w ++ [(if b then "enabled" else "disabled", pget w r "name")])%list.
Proof.
  intros Hn Hg Hc.
  assert (forall b e, exists w', run (setEnabled b e (Str n) r) w = (w', Ok (Some r)) /\
    pget w' r "enabled" = Bool b /\ (forall k, k <> "enabled" -> pget w' r k = pget w r k) /\
    platform (plugin w' r) = platform (plugin w r) /\
    (forall r', r' <> r -> plugin w' r' = plugin w r') /\ _plugins w' = _plugins w /\
    nodeContext w' = Some (stored w') /\ emitted w' = (emitted w ++ [(e, pget w r "name")])%list) as H; cycle 1.
  { destruct b; unfold enable, disable; rewrite (run_withPlugin w n _ r) by done; apply H. }
  clear b. intros b e. unfold setEnabled. running. rewrite run_saveToStorage by done. cbv beta iota zeta. unfold emit.
  running. set (w1 := pset r _ w). eexists. split; [done|].
  assert (pget w1 r "name" = pget w r "name") as Hname
    by (unfold pget, w1; rewrite plugin_pset; cbn [fields assign foldl fst snd]; by rewrite getField_setField_ne).
  split_and!; try done.
  - unfold pget. change (plugin (addEvent _ _ _) r) with (plugin w1 r). unfold w1. rewrite plugin_pset. apply getField_setField.
  - intros k Hk. unfold pget. change (plugin (addEvent _ _ _) r) with (plugin w1 r). unfold w1. rewrite plugin_pset.
    cbn [fields assign foldl fst snd]. by rewrite getField_setField_ne.
  - change (plugin (addEvent _ _ _) r) with (plugin w1 r). unfold w1. by rewrite plugin_pset.
  - intros r' Hne. change (plugin (addEvent _ _ _) r') with (plugin w1 r'). by apply plugin_pset_ne.
  - cbn [emitted addEvent]. f_equal. by rewrite <- Hname.
Qed.

(** Removing a registered plugin takes exactly its entry out of the registry,
    saves the registry and announces the removal; the plugin object is returned
    and no object changes. *)
Theorem remove_exact w n r :
  n <> EmptyString -> get w (Str n) = Some r -> is_Some (nodeContext w) -> mwf (_plugins w) ->
  exists w', run (remove env n) w = (w', Ok (Some r)) /\
    get w' (Str n) = None /\ (forall k, k <> Str n -> get w' k = get w k) /\ objects w' = objects w /\
    nodeContext w' = Some (stored w') /\ emitted w' = (emitted w ++ [("removed", pget w r "name")])%list.
Proof.
  intros Hn Hg Hc Hwf. unfold remove. rewrite (run_withPlugin w n _ r) by done. running.
  rewrite run_saveToStorage by done. cbv beta iota zeta. unfold emit. running. eexists. split; [done|].
  split_and!; try done; unfold get; cbn [_plugins addEvent setStorage setPlugins].
  - by apply mget_delete.
  - intros k Hk. by apply mget_delete_ne.
Qed.

(** ** Loading what was saved *)

Definition savedKeys : list string := (storageKeys ++ ["tarballPath"])%list.

(** What is saved of a plugin. *)
Definition saved (w : World) (r : ref) : list (string * value) := copy savedKeys (fields (plugin w r)).

Lemma stored_saved w : stored w = Arr (map (fun r => Obj (cloneFields (saved w r))) (array w)).
Proof.
  unfold stored. rewrite <- (map_map (saved w) Obj), jsonClone_objects, map_map. done.
Qed.

Lemma getField_copy keys k f : k ∈ keys -> getField k (copy keys f) = getField k f.
Proof. apply getField_pick. Qed.

Lemma copy_keys keys f : map fst (copy keys f) = keys.
Proof. unfold copy. rewrite map_map. cbn [fst]. apply map_id. Qed.

Lemma savedKeys_NoDup : NoDup savedKeys.
Proof. evaluate. Qed.

(** The properties of a plugin survive a JSON file. *)
Definition savable (w : World) (r : ref) : Prop :=
  Forall (fun k => jsonClone (pget w r k) = pget w r k) savedKeys /\
  coalesce (pget w r "private") (Bool false) = pget w r "private".

#[export] Instance savable_dec w r : Decision (savable w r).
Proof. unfold savable. apply _. Defined.

(** The object [restore] makes of a saved plugin. *)
Definition restored (f : list (string * value)) : list (string * value) :=
  setField "private" (coalesce (getField "private" f) (Bool false)) f.

Lemma restored_saved w r :
  savable w r -> forall k, k ∈ savedKeys -> getField k (restored (cloneFields (saved w r))) = pget w r k.
Proof.
  intros [Hj Hp] k Hk. rewrite Forall_forall in Hj.
  assert (forall k, k ∈ savedKeys -> getField k (cloneFields (saved w r)) = pget w r k) as Hc.
  { intros k' Hk'. rewrite getField_cloneFields; [|unfold saved; rewrite copy_keys; apply savedKeys_NoDup].
    unfold saved. rewrite getField_copy by done. by apply Hj. }
  unfold restored. destruct (decide (k = "private")) as [->|Hne].
  - by rewrite getField_setField, Hc.
  - rewrite getField_setField_ne by congruence. by apply Hc.
Qed.

Lemma run_restore w g :
  let r := fresh (dom (objects w)) in
  run (restore (Obj g)) w =
    (setPlugins (mset (getField "name" g) r (_plugins w)) (setObject r (mkPlugin (restored g) None None None) w), Ok tt).
Proof. reflexivity. Qed.

Lemma run_restores gs w :
  NoDup (mkeys (_plugins w) ++ map (getField "name") gs)%list ->
  exists w' rs, run (forEachE restore (map Obj gs)) w = (w', Ok tt) /\
    _plugins w' = (_plugins w ++ zip (map (getField "name") gs) rs)%list /\
    Forall2 (fun r g => fields (plugin w' r) = restored g) rs gs /\
    (forall r o, objects w !! r = Some o -> objects w' !! r = Some o).
Proof.
  revert w. induction gs as [|g gs IH]; intros w Hnd.
  - exists w, []. cbn [map zip]. rewrite app_nil_r. split_and!; [done|done|constructor|done].
  - cbn [map forEachE]. rewrite run_bind, run_restore. cbv beta iota zeta.
    set (r := fresh (dom (objects w))). set (w1 := setPlugins _ _).
    assert (objects w !! r = None) as Hr by (apply not_elem_of_dom, is_fresh).
    assert (mget (getField "name" g) (_plugins w) = None) as Hg.
    { apply mget_None. apply NoDup_app in Hnd as (_ & Hd & _). intros Hin. apply (Hd _ Hin), list_elem_of_here. }
    assert (_plugins w1 = (_plugins w ++ [(getField "name" g, r)])%list) as Hp by (by apply mset_fresh).
    destruct (IH w1) as (w' & rs & Hrun & Hp' & Hf & Hold).
    { rewrite Hp. unfold mkeys in *. rewrite map_app, <- app_assoc. exact Hnd. }
    exists w', (r :: rs). split_and!; [done| | |].
    + rewrite Hp', Hp, <- app_assoc. done.
    + constructor; [|done]. unfold plugin. rewrite (Hold r (mkPlugin (restored g) None None None)); [done|].
      apply lookup_insert_eq.
    + intros r' o Ho. apply Hold. cbn. rewrite lookup_insert_ne; [done|]. intros <-. congruence.
Qed.

Lemma saved_restored w w3 refs rs :
  Forall (savable w) refs ->
  Forall2 (fun r g => fields (plugin w3 r) = restored g) rs (map (fun r => cloneFields (saved w r)) refs) ->
  map (saved w3) rs = map (saved w) refs.
Proof.
  intros Hs. revert rs. induction Hs as [|r refs Hr Hs IH]; intros rs Hf.
  - apply Forall2_nil_inv_r in Hf as ->. done.
  - apply Forall2_cons_inv_r in Hf as (r' & rs' & Hr' & Hf & ->). cbn [map]. f_equal; [|by apply IH].
    unfold saved at 1 2, copy. apply map_ext_Forall, Forall_forall. intros k Hk. f_equal.
    rewrite Hr'. by apply restored_saved.
Qed.

(** Names in the registry are the names of the plugins. *)
Definition consistent (w : World) : Prop :=
  mwf (_plugins w) /\ Forall (fun kr => pget w (snd kr) "name" = fst kr /\ savable w (snd kr)) (_plugins w).

#[export] Instance consistent_dec w : Decision (consistent w).
Proof. unfold consistent, mwf. apply _. Defined.

(** What a restarted manager loads from storage is what was saved: the same
    plugins under the same names in the same order, with the same saved
    properties. *)
Theorem storage_roundtrip w :
  is_Some (nodeContext w) -> consistent w ->
  exists w3 l, run loadFromStorage (setPlugins [] (fst (run saveToStorage w))) = (w3, Ok l) /\
    mkeys (_plugins w3) = mkeys (_plugins w) /\
    map (saved w3) (array w3) = map (saved w) (array w) /\
    stored w3 = stored w.
Proof.
  intros Hc [Hwf Hk]. rewrite run_saveToStorage by done. cbn [fst].
  set (w2 := setPlugins [] (setStorage (stored w) w)). set (gs := map (fun r => cloneFields (saved w r)) (array w)).
  assert (map (getField "name") gs = mkeys (_plugins w)) as Hnames.
  { unfold gs, array, mvalues, mkeys. rewrite !map_map. apply map_ext_Forall. eapply Forall_impl; [exact Hk|].
    intros [k r] [Hn Hs]. cbn [fst snd] in *. rewrite <- Hn.
    rewrite getField_cloneFields by (unfold saved; rewrite copy_keys; apply savedKeys_NoDup).
    unfold saved. rewrite getField_copy by apply list_elem_of_here. destruct Hs as [Hj _].
    rewrite Forall_forall in Hj. apply Hj, list_elem_of_here. }
  destruct (run_restores gs w2) as (w3 & rs & Hrun & Hp & Hf & _).
  { cbn [_plugins w2 setPlugins]. rewrite Hnames. exact Hwf. }
  assert (length rs = length gs) as Hlen by (by apply Forall2_length in Hf).
  assert (array w3 = rs) as Harr.
  { unfold array. rewrite Hp. cbn [_plugins w2 setPlugins app]. apply snd_zip. rewrite length_map. lia. }
  assert (map (saved w3) (array w3) = map (saved w) (array w)) as Hsaved.
  { rewrite Harr. apply saved_restored; [|done]. unfold array, mvalues. apply Forall_map.
    eapply Forall_impl; [exact Hk|]. by intros [k r] [_ Hs]. }
  exists w3, (map Obj gs). split_and!; [| |done|].
  - unfold loadFromStorage. running. cbn [nodeContext w2 setPlugins setStorage]. running.
    rewrite stored_saved, <- (map_map (fun r => cloneFields (saved w r)) Obj). fold gs. by rewrite Hrun.
  - rewrite Hp. cbn [_plugins w2 setPlugins app]. unfold mkeys at 1. etransitivity; [|exact Hnames].
    apply fst_zip. rewrite length_map. lia.
  - rewrite !stored_saved. f_equal. apply (f_equal (map (fun f => Obj (cloneFields f)))) in Hsaved.
    by rewrite !map_map in Hsaved.
Qed.

End Facts.

(** ** A small installation *)

Definition samplePackage : value :=
  Obj [("name", Str "matterbridge-test"); ("version", Str "1.0.0"); ("type", Str "module"); ("main", Str "dist/module.js");
       ("description", Str "Matterbridge test plugin"); ("author", Obj [("name", Str "Author")]);
       ("homepage", Str "git+https://github.com/author/matterbridge-test.git"); ("dependencies", Obj [("chalk", Str "5.0.0")])].

Definition sampleFile : string := "/usr/lib/node_modules/matterbridge-test/package.json".

(** The default export of the sample plugin: a dynamic platform. *)
Definition sampleMake (c : nat) : async World (option nat) :=
  r ← gets (fun w => fresh (dom (platforms w)));
  _ ← modify (setPlatform r (mkPlatform true false true true false (Some c)
         [("name", Str "sample"); ("type", Str "DynamicPlatform"); ("version", Str "1.0.0")]));
  mret (Some r).

Definition sampleEnv : Env :=
  mkEnv "/root/.matterbridge" "/usr/lib/node_modules" "/root/Matterbridge" "/root" false (fun _ => true)
    (fun _ => Default sampleMake) (fun _ _ => await (mret tt)) (fun _ => await (mret tt)) (fun _ _ => await (mret tt))
    (fun _ _ => mret tt) (fun _ => mret tt) (fun _ => Undefined) "<" ">".

Definition sampleWorld : World :=
  mkWorld [] ∅ ∅ ∅ (Some (Arr [])) (<[sampleFile := Json samplePackage]> ∅) [] [] (Str "info").

(** The sample plugin added, and loaded. *)
Definition addedWorld : World := fst (run (add sampleEnv "matterbridge-test") sampleWorld).
Definition loadedWorld : World :=
  fst (run (load sampleEnv (ByName "matterbridge-test") false Undefined false) addedWorld).

Lemma add_registers_witness :
  exists r w', run (add sampleEnv "matterbridge-test") sampleWorld = (w', Ok (Some r)) /\
    pget w' r "enabled" = Bool true /\ run (add sampleEnv "matterbridge-test") w' = (w', Ok None).
Proof.
  destruct (add_registers sampleEnv sampleWorld "matterbridge-test" sampleFile samplePackage)
    as (r & w' & Hrun & _ & _ & He & _ & _ & _ & _ & _ & Hagain); [done|by vm_compute|by vm_compute|by eexists|done|].
  exists r, w'. split; [exact Hrun|]. split; [exact He|exact Hagain].
Defined.

Lemma enable_disable_exact_witness :
  exists w', run (disable sampleEnv "matterbridge-test") addedWorld = (w', Ok (Some 0%nat)) /\
    pget w' 0 "enabled" = Bool false.
Proof.
  destruct (enable_disable_exact sampleEnv addedWorld "matterbridge-test" 0 false) as (w' & Hrun & He & _);
    [done|by vm_compute|by vm_compute; eexists|]. exists w'. split; [exact Hrun|exact He].
Defined.

Lemma remove_exact_witness :
  exists w', run (remove sampleEnv "matterbridge-test") addedWorld = (w', Ok (Some 0%nat)) /\
    get w' (Str "matterbridge-test") = None.
Proof.
  destruct (remove_exact sampleEnv addedWorld "matterbridge-test" 0) as (w' & Hrun & Hg & _);
    [done|by vm_compute|by vm_compute; eexists|vm_compute; repeat constructor; apply not_elem_of_nil|].
  exists w'. split; [exact Hrun|exact Hg].
Defined.

Lemma storage_roundtrip_witness :
  consistent addedWorld /\
  exists w3 l, run loadFromStorage (setPlugins [] (fst (run saveToStorage addedWorld))) = (w3, Ok l) /\
    mkeys (_plugins w3) = [Str "matterbridge-test"].
Proof.
  assert (consistent addedWorld) as Hc by evaluate. split; [exact Hc|].
  destruct (storage_roundtrip addedWorld) as (w3 & l & Hrun & Hk & _); [by vm_compute; eexists|exact Hc|].
  exists w3, l. split; [exact Hrun|]. rewrite Hk. by vm_compute.
Defined.

(** The sample plugin loads. *)
Example sample_loads : pget loadedWorld 0 "loaded" = Bool true /\ platform (plugin loadedWorld 0) = Some 0%nat.
Proof. split; by vm_compute. Qed.
