(* ===== verification/PluginLifecycle.v ===== *)
(** The life cycle of plugins: what the operations of the plugin manager preserve
    when each runs to its end, what they preserve under every interleaving, and a
    race between [start] and [shutdown]. *)
From S2P Require Import Prelude JsValue JsMap NodePath Async Broadcast PluginManager PluginFacts.
From stdpp Require Import gmap relations.
Import Broadcast PluginManager.
#[local] Open Scope string_scope.

(** ** Stages *)

Definition stage (k : string) (f : object) : bool := truthy (getField k f).

(** The fields of a plugin that has not been loaded. *)
Definition unstaged (f : object) : Prop :=
  stage "loaded" f = false /\ stage "started" f = false /\ stage "configured" f = false.

(** A plugin has a platform exactly if it is loaded. *)
Definition paired (p : Plugin) : Prop := is_Some (platform p) <-> stage "loaded" (fields p) = true.

(** Configured plugins are started, started plugins are loaded, and loaded plugins
    are those with a platform. *)
Definition staged (p : Plugin) : Prop :=
  paired p /\ (stage "started" (fields p) = true -> stage "loaded" (fields p) = true) /\
  (stage "configured" (fields p) = true -> stage "started" (fields p) = true).

(** What is stored says nothing about stages. *)
Definition storedOk (v : value) : Prop := unstaged (spread v).

Definition storageOk (o : option value) : Prop :=
  match o with Some (Arr l) => Forall storedOk l | _ => True end.

(** Every plugin object satisfies [ok], and the storage holds no stages. *)
Definition Inv (ok : Plugin -> Prop) (w : World) : Prop :=
  (forall r, ok (plugin w r)) /\ storageOk (nodeContext w).

(** What is asked of a property of plugins: it depends on the platform and the
    stages only, new plugins have it, [load] establishes it and [shutdown] too. *)
Class Stable (ok : Plugin -> Prop) := {
  stable_same p f s c :
    stage "loaded" f = stage "loaded" (fields p) -> stage "started" f = stage "started" (fields p) ->
    stage "configured" f = stage "configured" (fields p) -> ok p -> ok (mkPlugin f (platform p) s c);
  stable_new f s c : unstaged f -> ok (mkPlugin f None s c);
  stable_loaded p f q s c :
    stage "loaded" f = true -> stage "started" f = stage "started" (fields p) ->
    stage "configured" f = stage "configured" (fields p) -> ok p -> ok (mkPlugin f (Some q) s c)
}.

#[export] Instance paired_stable : Stable paired.
Proof.
  split; unfold paired; cbn.
  - by intros p f _ _ -> _ _.
  - intros f _ _ (-> & _). split; [by intros [? ?]|done].
  - intros p f q _ _ -> _ _ _. split; [done|by eexists].
Qed.

#[export] Instance staged_stable : Stable staged.
Proof.
  split; unfold staged.
  - intros p f s c Hl Hs Hc (Hp & H1 & H2). split_and!; cbn; rewrite ?Hl, ?Hs, ?Hc; try done.
    unfold paired in *. cbn. by rewrite Hl.
  - intros f s c (Hl & Hs & Hc). unfold paired. cbn. rewrite Hl, Hs, Hc.
    split_and!; try done. all: by intros [? ?].
  - intros p f q s c Hl Hs Hc (_ & _ & H2). unfold paired. cbn. rewrite Hl, Hs, Hc.
    split_and!; try done.
Qed.

(** The part of the world the invariants are about: the platforms and the stages of
    the plugins, and the storage. *)
Definition stages (p : Plugin) : option nat * bool * bool * bool :=
  (platform p, stage "loaded" (fields p), stage "started" (fields p), stage "configured" (fields p)).

Definition view (w : World) := (stages <$> objects w, nodeContext w).

Lemma view_stages w w' r : view w' = view w -> stages (plugin w' r) = stages (plugin w r).
Proof.
  intros [= Hv _]. apply (f_equal (lookup r)) in Hv. rewrite !lookup_fmap in Hv. unfold plugin.
  destruct (objects w' !! r), (objects w !! r); cbn -[stages] in Hv |- *; congruence.
Qed.

Lemma Inv_view ok `{!Stable ok} w w' : view w' = view w -> Inv ok w -> Inv ok w'.
Proof.
  intros Hv [Ho Hs]. split; [|by injection Hv as _ ->]. intros r. pose proof (view_stages w w' r Hv) as Hr.
  specialize (Ho r). destruct (plugin w' r) as [f q n c], (plugin w r) as [f' q' n' c']. unfold stages in Hr. cbn in Hr.
  injection Hr as -> Hl Hst Hc. by apply (stable_same (mkPlugin f' q' n' c')).
Qed.

(** ** Writes *)

Definition stageKeys : list string := ["loaded"; "started"; "configured"].

(** Assignments that touch no stage. *)
Definition harmless (kvs : object) : bool := forallb (fun kv => negb (bool_decide (fst kv ∈ stageKeys))) kvs.

Lemma getField_assign_ne k kvs f : k ∉ map fst kvs -> getField k (assign kvs f) = getField k f.
Proof.
  unfold assign. revert f. induction kvs as [|[k' v] kvs IH]; intros f; [done|]. cbn [map fst foldl snd].
  rewrite not_elem_of_cons. intros [Hne Hin]. rewrite IH by done. by apply getField_setField_ne.
Qed.

Lemma stage_assign k kvs f : k ∈ stageKeys -> harmless kvs = true -> stage k (assign kvs f) = stage k f.
Proof.
  intros Hk Hh. unfold stage. rewrite getField_assign_ne; [done|]. unfold harmless in Hh.
  rewrite forallb_forall in Hh. rewrite list_elem_of_In, in_map_iff. intros ([k' v] & <- & Hin).
  specialize (Hh (k', v) Hin). by rewrite bool_decide_eq_true_2 in Hh.
Qed.

Lemma plugin_setObject r p w r' : plugin (setObject r p w) r' = if decide (r = r') then p else plugin w r'.
Proof.
  unfold plugin. cbn [objects setObject]. case_decide as E; [subst; by rewrite lookup_insert_eq|].
  by rewrite lookup_insert_ne.
Qed.

Section Writes.
Context (ok : Plugin -> Prop) `{!Stable ok}.

Lemma Inv_setObject w r p : Inv ok w -> ok p -> Inv ok (setObject r p w).
Proof. intros [Ho Hs] Hp. split; [|done]. intros r'. rewrite plugin_setObject. by case_decide. Qed.

Lemma Inv_pset w r kvs : harmless kvs = true -> Inv ok w -> Inv ok (pset r kvs w).
Proof.
  intros Hh Hw. apply Inv_setObject; [done|]. destruct Hw as [Ho _].
  apply stable_same; [..|apply Ho]; (apply stage_assign; [by repeat constructor|done]).
Qed.

Lemma Inv_setConfigJson w r c : Inv ok w -> Inv ok (setConfigJson r c w).
Proof. intros Hw. apply Inv_setObject; [done|]. destruct Hw as [Ho _]. by apply stable_same. Qed.

Lemma Inv_new w r f : unstaged f -> Inv ok w -> Inv ok (setObject r (mkPlugin f None None None) w).
Proof. intros Hf Hw. apply Inv_setObject; [done|]. by apply stable_new. Qed.

Lemma Inv_resetPlugin w r : Inv ok w -> Inv ok (resetPlugin r w).
Proof.
  intros Hw. apply Inv_setObject; [done|]. apply stable_new.
  unfold unstaged, stage, assign. cbn [foldl fst snd]. by fields.
Qed.

Lemma Inv_loadedPlugin w v p r : Inv ok w -> Inv ok (loadedPlugin v p r w).
Proof.
  intros Hw. apply Inv_setObject; [done|]. destruct Hw as [Ho _].
  apply (stable_loaded (plugin w r)); [..|apply Ho];
    unfold stage, assign, presets; cbn [app foldl fst snd]; by fields.
Qed.

Lemma Inv_setStorage w v : storageOk (Some v) -> Inv ok w -> Inv ok (setStorage v w).
Proof. intros Hv [Ho _]. by split. Qed.
End Writes.

(** What is saved holds no stages. *)
Lemma saved_unstaged w r : storedOk (Obj (cloneFields (saved w r))).
Proof.
  assert (forall k, k ∈ stageKeys -> stage k (cloneFields (saved w r)) = false) as H.
  { intros k Hk. unfold stage. rewrite getField_cloneFields; [|unfold saved; rewrite copy_keys; apply savedKeys_NoDup].
    rewrite getField_absent; [done|]. unfold saved. rewrite copy_keys. revert k Hk.
    apply (Forall_forall (fun k => k ∉ savedKeys)). evaluate. }
  unfold storedOk, unstaged. cbn [spread]. split_and!; apply H; evaluate.
Qed.

Lemma stored_unstaged w : storageOk (Some (stored w)).
Proof. rewrite stored_saved. cbn [storageOk]. apply Forall_map, Forall_true. intros r. apply saved_unstaged. Qed.

(** ** Operations *)

Create HintDb lifecycle.

(** Plugin code does not change the platforms and the stages of plugins, nor the
    storage of the manager: its platforms get a copy of some settings of the bridge,
    and functions that add and remove endpoints. *)
Class QuietHooks (env : Env) := {
  onStart_quiet p m : quiet view (onStart env p m);
  onConfigure_quiet p : quiet view (onConfigure env p);
  onShutdown_quiet p m : quiet view (onShutdown env p m);
  onConfigChanged_quiet p c : quiet view (onConfigChanged env p c);
  removeAllBridgedEndpoints_quiet n : quiet view (removeAllBridgedEndpoints env n);
  make_quiet e make c : importModule env e = Default make -> quiet view (make c)
}.

(** The calls the rest of the program makes to the manager. *)
Inductive Op :=
  | LoadFromStorage
  | SaveToStorage
  | Resolve (nameOrPath : string)
  | Parse (t : target)
  | Enable (nameOrPath : string)
  | Disable (nameOrPath : string)
  | Remove (nameOrPath : string)
  | Add (nameOrPath : string)
  | Install (packageName : value)
  | Uninstall (packageName : value)
  | Load (t : target) (start : bool) (message : value) (configure : bool)
  | Start (t : target) (message : value) (configure : bool)
  | Configure (t : target)
  | Shutdown (t : target) (reason : value) (removeAllDevices force : bool)
  | LoadConfig (r : nat)
  | LoadSchema (r : nat)
  | SaveConfigFromPlugin (r : nat) (restartRequired : bool)
  | SaveConfigFromJson (r c : nat) (restartRequired : bool)
  | Clear
  | Message (m : value).

Definition void {A} (m : async World A) : async World unit := _ ← m; mret tt.

Definition perform (env : Env) (op : Op) : async World unit :=
  match op with
  | LoadFromStorage => void loadFromStorage
  | SaveToStorage => void saveToStorage
  | Resolve n => void (resolve env n)
  | Parse t => void (parse env t)
  | Enable n => void (enable env n)
  | Disable n => void (disable env n)
  | Remove n => void (remove env n)
  | Add n => void (add env n)
  | Install n => install env n
  | Uninstall n => uninstall env n
  | Load t s m c => void (load env t s m c)
  | Start t m c => void (start env t m c)
  | Configure t => void (configure env t)
  | Shutdown t reason all force => void (shutdown env t reason all force)
  | LoadConfig r => void (loadConfig env r)
  | LoadSchema r => void (loadSchema r)
  | SaveConfigFromPlugin r b => saveConfigFromPlugin env r b
  | SaveConfigFromJson r c b => saveConfigFromJson env r c b
  | Clear => clear
  | Message m => msgHandler env m
  end.

(** A plugin object in a message claims no stage. *)
Definition messageOk (msg : object) : Prop :=
  forall f, getProp (getField "params" msg) "plugin" = Ok (Obj f) -> unstaged f.

Definition opOk (op : Op) : Prop :=
  match op with Message (Obj msg) => messageOk msg | _ => True end.

(** Opens a computation along its structure; what is left are writes and calls. *)
Ltac preserving :=
  repeat match goal with
  | |- _ (mbind _ ask) => eapply pres_ask; intros ? ?
  | |- _ (mbind _ (liftRes _)) => eapply pres_liftRes_bind; [exact _|]; intros ? ?
  | |- _ (mbind _ (await (match ?x with _ => _ end))) => destruct x eqn:?
  | |- _ (mbind _ (await (mret _))) => eapply pres_tick_bind; [exact _|]; cbv beta iota
  | |- _ (mbind _ (mret _)) => eapply pres_mret_bind; cbv beta iota
  | |- _ (mbind _ (Raise _)) => eapply pres_raise_bind; exact _
  | |- _ (mbind _ (await (Raise _))) => eapply pres_rejected_bind; exact _
  | |- _ (mbind _ _) => eapply pres_bind; [|intros ?]
  | |- _ (catch _ _) => eapply pres_catch; [|intros ?]
  | |- _ (await _) => eapply pres_await
  | |- _ ask => eapply pres_askonly; exact _
  | |- _ (gets _) => eapply pres_gets; exact _
  | |- _ (liftRes _) => eapply pres_liftRes; exact _
  | |- _ (Ret _) => eapply pres_ret
  | |- _ (mret _) => eapply pres_mret; exact _
  | |- _ (Raise _) => eapply pres_raise
  | |- _ (if ?b then _ else _) => destruct b
  | |- _ (match ?x with _ => _ end) => destruct x
  | |- _ (modify _) => eapply pres_modify; intros ? ?
  end.

Ltac writes :=
  repeat first [assumption | apply Inv_pset; [exact _|reflexivity|] | apply Inv_setConfigJson; [exact _|] |
                apply Inv_resetPlugin; [exact _|] | apply Inv_loadedPlugin; [exact _|] | eapply Inv_view; [exact _|reflexivity|]].

Section Operations.
Context (env : Env) `{!QuietHooks env} (ok : Plugin -> Prop) `{!Stable ok}.
Context (P : forall A, async World A -> Prop) `{HP : !Preserves (Inv ok) P}.
Hypothesis P_quiet : forall A (m : async World A), quiet view m -> P A m.

#[local] Ltac preserve := preserving; eauto with lifecycle; try (by writes).

Lemma P_imported : P _ imported.
Proof. unfold imported. preserve. Qed.
#[local] Hint Resolve P_imported : lifecycle.

Lemma P_fileAccess f : P _ (fileAccess f).
Proof. unfold fileAccess. preserve. Qed.

Lemma P_readJson f : P _ (readJson f).
Proof. unfold readJson, readFile, parseJson. preserve. Qed.

Lemma P_asString v : P _ (asString v).
Proof. unfold asString. preserve. Qed.

Lemma P_asObject v : P _ (asObject v).
Proof. unfold asObject. preserve. Qed.

Lemma P_writeJson f v : P _ (writeJson env f v).
Proof. unfold writeJson. preserve. Qed.

Lemma P_newConfig c : P _ (newConfig c).
Proof. unfold newConfig. preserve. Qed.

Lemma P_newPlugin f : unstaged f -> P _ (newPlugin f).
Proof. intros Hf. unfold newPlugin. preserve. by apply Inv_new. Qed.

Lemma P_emit e n : P _ (emit e n).
Proof. unfold emit. preserve. Qed.

Lemma P_snackbar m : P _ (snackbar m).
Proof. unfold snackbar, PluginManager.request. preserve. Qed.

Lemma P_logInvalidDependencies v : P _ (logInvalidDependencies v).
Proof. apply P_snackbar. Qed.

Lemma P_saveToStorage : P _ saveToStorage.
Proof. unfold saveToStorage. preserve. by apply Inv_setStorage; [apply stored_unstaged|]. Qed.

Lemma P_orAt p q : P _ (orAt p q).
Proof. unfold orAt. preserve. apply P_fileAccess. Qed.

#[local] Hint Resolve P_fileAccess P_readJson P_asString P_asObject P_writeJson P_newConfig P_newPlugin P_emit P_snackbar
  P_logInvalidDependencies P_saveToStorage P_orAt : lifecycle.

(** *** Registry and storage *)

Lemma P_restore v : storedOk v -> P _ (restore v).
Proof.
  intros Hv. unfold restore. preserve. apply P_newPlugin. revert Hv. unfold storedOk, unstaged, stage.
  by rewrite !getField_setField_ne by done.
Qed.

Lemma P_forEachE {A} (f : A -> async World unit) l : Forall (fun x => P _ (f x)) l -> P _ (forEachE f l).
Proof. induction 1; cbn [forEachE]; preserve. Qed.

Lemma P_loadFromStorage : P _ loadFromStorage.
Proof.
  unfold loadFromStorage. eapply pres_ask. intros w [_ Hs]. destruct (nodeContext w) as [v|]; [|preserve].
  eapply pres_tick_bind; [done|]. preserve. apply P_forEachE.
  assert (Forall storedOk (match v with Arr l => l | _ => [] end)) as Hl by (by destruct v).
  eapply Forall_impl; [exact Hl|]. simpl. intros x Hx. by apply P_restore.
Qed.

Lemma P_resolve n : P _ (resolve env n).
Proof. unfold resolve. preserve. Qed.
#[local] Hint Resolve P_resolve : lifecycle.

Lemma P_withPlugin n act : (forall k r, P _ (act k r)) -> P _ (withPlugin env n act).
Proof. intros Hact. unfold withPlugin. preserve. Qed.

Lemma P_enable n : P _ (enable env n).
Proof. apply P_withPlugin. intros k r. unfold setEnabled. preserve. Qed.

Lemma P_disable n : P _ (disable env n).
Proof. apply P_withPlugin. intros k r. unfold setEnabled. preserve. Qed.

Lemma P_remove n : P _ (remove env n).
Proof. apply P_withPlugin. intros k r. preserve. Qed.

Lemma P_add n : P _ (add env n).
Proof. unfold add. preserve. by apply P_newPlugin. Qed.

Lemma P_relocate r d : P _ (relocate r d).
Proof. unfold relocate. preserve. Qed.
#[local] Hint Resolve P_relocate : lifecycle.

Lemma P_parse t : P _ (parse env t).
Proof. unfold parse. preserve. Qed.

(** *** Configuration *)

Lemma P_besidePackage w r suffix : P _ (besidePackage w r suffix).
Proof. unfold besidePackage. preserve. Qed.
#[local] Hint Resolve P_besidePackage : lifecycle.

Lemma P_loadConfig r : P _ (loadConfig env r).
Proof. unfold loadConfig. preserve. Qed.

Lemma P_loadSchema r : P _ (loadSchema r).
Proof. unfold loadSchema. preserve. Qed.

Lemma P_markRestart r b : P _ (markRestart r b).
Proof. unfold markRestart. preserve. Qed.

Lemma P_thePlatform r : P _ (thePlatform r).
Proof. unfold thePlatform. preserve. Qed.
#[local] Hint Resolve P_loadConfig P_loadSchema P_markRestart P_thePlatform : lifecycle.

Lemma P_saveConfigFromPlugin r b : P _ (saveConfigFromPlugin env r b).
Proof. unfold saveConfigFromPlugin. preserve. Qed.

Lemma P_saveConfigFromJson r c b : P _ (saveConfigFromJson env r c b).
Proof. unfold saveConfigFromJson. preserve. apply P_quiet, onConfigChanged_quiet. Qed.

(** *** Life cycle *)

Lemma P_shutdown t reason all force : P _ (shutdown env t reason all force).
Proof.
  unfold shutdown. preserve; apply P_quiet; [apply onShutdown_quiet|apply removeAllBridgedEndpoints_quiet].
Qed.

Lemma P_makePlatform make c r : quiet view (make c) -> P _ (makePlatform env make c r).
Proof. intros Hm. unfold makePlatform. preserve. apply P_quiet, onShutdown_quiet. Qed.

Hypothesis P_start : forall t m c, P _ (start env t m c).
Hypothesis P_configure : forall t, P _ (configure env t).

Lemma P_load t s m c : P _ (load env t s m c).
Proof.
  unfold load. preserve. apply P_makePlatform. by eapply make_quiet.
Qed.

(** *** Messages *)

Lemma P_importPlugin v : (forall f, v = Obj f -> unstaged f) -> P _ (importPlugin v).
Proof. intros Hv. unfold importPlugin, asObject. destruct v; preserve. Qed.

Lemma P_targetOf v : (forall f, v = Obj f -> unstaged f) -> P _ (targetOf v).
Proof. intros Hv. unfold targetOf. destruct v; preserve; by apply P_importPlugin. Qed.

Lemma P_answer msg l : P _ (answer msg l).
Proof. unfold answer. preserve. Qed.

Lemma P_answerError msg e : P _ (answerError msg e).
Proof. unfold answerError. preserve. Qed.

Lemma P_answerPlugin msg v o : P _ (answerPlugin env msg v o).
Proof. unfold answerPlugin. preserve. apply P_answer. Qed.

Lemma P_spawn n c cmd args : P _ (spawn n c cmd args).
Proof. unfold spawn, PluginManager.request. preserve. Qed.

Lemma P_nameArg v : P _ (nameArg v).
Proof. unfold nameArg. preserve. Qed.

Lemma P_set r : P _ (set r).
Proof. unfold set. preserve. Qed.

#[local] Hint Resolve P_answer P_answerError P_answerPlugin P_spawn P_nameArg P_set P_add P_remove P_enable P_disable P_load
  P_shutdown P_saveConfigFromJson : lifecycle.

Lemma P_withNamed msg n k : (forall r, P _ (k r)) -> P _ (withNamed msg n k).
Proof. intros Hk. unfold withNamed. preserve. Qed.

Lemma P_handleRequest msg : messageOk msg -> P _ (handleRequest env msg).
Proof.
  intros Hmsg. unfold handleRequest, param, install, uninstall. preserve;
    first [apply P_importPlugin | apply P_targetOf | apply P_withNamed; intros ?; preserve]; intros f ->; by apply Hmsg.
Qed.

Lemma P_registerInstalled n t : P _ (registerInstalled env n t).
Proof. unfold registerInstalled. preserve. Qed.

Lemma P_handleSpawnResponse v : P _ (handleSpawnResponse env v).
Proof. unfold handleSpawnResponse. preserve; apply P_registerInstalled. Qed.

Lemma P_msgHandler m : opOk (Message m) -> P _ (msgHandler env m).
Proof. intros Hm. unfold msgHandler. preserve; [|apply P_handleSpawnResponse]. by apply P_handleRequest. Qed.

#[local] Hint Resolve P_loadFromStorage P_parse P_saveConfigFromPlugin P_msgHandler : lifecycle.

Lemma P_perform op : opOk op -> P _ (perform env op).
Proof.
  intros Hop. destruct op; cbn [perform]; unfold void, install, uninstall, clear; preserve.
Qed.
End Operations.

(** ** Under every interleaving *)

Section Interleaving.
Context (env : Env) `{!QuietHooks env}.

Lemma paired_pset w r kvs : "loaded" ∉ map fst kvs -> Inv paired w -> Inv paired (pset r kvs w).
Proof.
  intros Hk Hw. apply Inv_setObject; [done|]. destruct Hw as [Ho _]. specialize (Ho r). revert Ho.
  unfold paired, stage. cbn [platform fields]. by rewrite getField_assign_ne.
Qed.

#[local] Abbreviation K := (fun A => @keeps World (Inv paired) A) (only parsing).

Lemma quiet_paired A (m : async World A) : quiet view m -> keeps (Inv paired) m.
Proof. apply quiet_keeps. intros w w'. apply (Inv_view paired). Qed.

#[local] Ltac calls :=
  first [by writes | by apply paired_pset; [evaluate|] | apply (P_thePlatform paired K) | apply (P_emit paired K) |
         by apply (P_saveConfigFromPlugin env paired K) | apply quiet_paired, onStart_quiet |
         apply quiet_paired, onConfigure_quiet].

Lemma configure_keeps t : keeps (Inv paired) (configure env t).
Proof. unfold configure. preserving; calls. Qed.

Lemma start_keeps t m c : keeps (Inv paired) (start env t m c).
Proof. unfold start. preserving; first [calls | apply configure_keeps]. Qed.

End Interleaving.

(** ** One operation at a time *)

Section Sequential.
Context (env : Env) `{!QuietHooks env}.
#[local] Abbreviation H := (holds (Inv staged)) (only parsing).

Lemma quiet_staged A (m : async World A) : quiet view m -> H A m.
Proof. apply quiet_holds. intros w w'. apply (Inv_view staged). Qed.

(** A computation that preserves the invariant once its first part has run. *)
Lemma holds_after {A B} (m : async World A) (k : A -> async World B) h w :
  (forall w1 a, run m w = (w1, Ok a) -> Inv staged (fst (run (catch (k a) h) w1))) ->
  (forall w1 e, run m w = (w1, Throw e) -> Inv staged (fst (run (h e) w1))) ->
  Inv staged (fst (run (catch (m ≫= k) h) w)).
Proof.
  intros Hk Hh. rewrite run_catch, run_bind. destruct (run m w) as [w1 [a|e]]; [|by apply Hh].
  rewrite <- run_catch. by apply Hk.
Qed.

(** The stage [k] may be set once the stage below it is. *)
Lemma staged_next w r k below :
  (k, below) ∈ [("started", "loaded"); ("configured", "started")] -> truthy (pget w r below) = true ->
  Inv staged w -> Inv staged (pset r [(k, Bool true)] w).
Proof.
  intros Hk Hb Hw. apply Inv_setObject; [done|]. destruct Hw as [Ho _]. destruct (Ho r) as (Hp & H1 & H2).
  unfold staged, paired, stage in *. cbn [platform fields assign foldl fst snd].
  rewrite !elem_of_cons in Hk. destruct Hk as [[= -> ->]|[[= -> ->]|Hk]]; [| |by apply not_elem_of_nil in Hk];
    fields; split_and!; try done; try apply Hp.
Qed.

Lemma quiet_await_run {A} (m : async World A) w w1 o :
  quiet view m -> run (await m) w = (w1, o) -> Inv staged w -> Inv staged w1 /\ forall r, stages (plugin w1 r) = stages (plugin w r).
Proof.
  rewrite run_await. intros Hq Hrun Hw. pose proof (quiet_run view m w Hq) as Hv. rewrite Hrun in Hv. cbn [fst] in Hv.
  split; [by apply (Inv_view staged w)|]. intros r. by apply view_stages.
Qed.

Lemma stages_get w w1 r :
  stages (plugin w1 r) = stages (plugin w r) ->
  truthy (pget w1 r "loaded") = truthy (pget w r "loaded") /\ truthy (pget w1 r "started") = truthy (pget w r "started").
Proof. intros H. unfold stages, stage in H. injection H as _ Hl Hs _. by split. Qed.

#[local] Ltac calls :=
  first [by writes | apply (P_thePlatform staged H) | apply (P_emit staged H) |
         by apply (P_saveConfigFromPlugin env staged H)].

(** What is left of a run as a computation of its own. *)
#[local] Ltac rest Hrest := match goal with |- context [run ?m _] => enough (H _ m) as Hrest end.

(** The handlers of [start] and [configure]. *)
Lemma holds_failed r : H (option nat) (_ ← modify (pset r [("error", Bool true)]); mret None).
Proof. preserving. by writes. Qed.

Lemma configure_holds t : H _ (configure env t).
Proof.
  intros w Hw. unfold configure. rewrite run_bind, run_ask. destruct (find w t) as [r|]; [|done].
  destruct (truthy (pget w r "loaded")); [|done]. destruct (truthy (pget w r "started")) eqn:Hs; [|done].
  cbn [negb]. destruct (platform (plugin w r)) as [p|]; [|done]. destruct (truthy (pget w r "configured")); [done|].
  apply holds_after; intros w1 a Hrun;
    destruct (quiet_await_run _ w w1 _ (onConfigure_quiet p) Hrun Hw) as [Hw1 Hget]; [|by apply holds_failed].
  apply holds_after; [|done]. intros w2 [] [= <-].
  rest Hrest; [apply Hrest, (staged_next w1 r "configured" "started"); [evaluate|by rewrite (proj2 (stages_get _ _ _ (Hget r)))|done]|].
  preserving; calls.
Qed.

Lemma start_holds t m c : H _ (start env t m c).
Proof.
  intros w Hw. unfold start. rewrite run_bind, run_ask. destruct (find w t) as [r|]; [|done].
  destruct (truthy (pget w r "loaded")) eqn:Hl; [|done]. cbn [negb].
  destruct (platform (plugin w r)) as [p|]; [|done]. destruct (truthy (pget w r "started")); [done|].
  apply holds_after; intros w1 a Hrun;
    destruct (quiet_await_run _ w w1 _ (onStart_quiet p m) Hrun Hw) as [Hw1 Hget]; [|by apply holds_failed].
  apply holds_after; [|done]. intros w2 [] [= <-].
  rest Hrest; [apply Hrest, (staged_next w1 r "started" "loaded"); [evaluate|by rewrite (proj1 (stages_get _ _ _ (Hget r)))|done]|].
  preserving; first [calls | apply configure_holds].
Qed.

End Sequential.

(** ** The sample installation *)

#[export] Instance sampleEnv_quiet : QuietHooks sampleEnv.
Proof.
  split; try done. intros e make c [= <-]. cbn. by repeat split.
Qed.

(** The invariant of a world whose plugin objects are known. *)
Lemma Inv_objects ok w :
  Stable ok -> storageOk (nodeContext w) -> map_Forall (fun _ p => ok p) (objects w) -> Inv ok w.
Proof.
  intros Hs Hc Ho. split; [|done]. intros r. unfold plugin. destruct (objects w !! r) as [p|] eqn:E; [by apply (Ho r)|].
  by apply stable_new.
Qed.

Lemma loadedWorld_staged : Inv staged loadedWorld.
Proof.
  apply Inv_objects; [exact _|vm_compute; by repeat constructor|].
  assert (objects loadedWorld = {[0%nat := plugin loadedWorld 0]}) as -> by (by vm_compute).
  apply map_Forall_singleton. unfold staged, paired. split_and!; try by vm_compute. split; [by vm_compute|by eexists].
Qed.


(** Two calls that overlap: a start, and a forced shutdown while it waits. *)
Definition racing : list Op :=
  [Start (ByName "matterbridge-test") Undefined false; Shutdown (ByName "matterbridge-test") Undefined false true].

Definition raceOrder : list nat := 0%nat :: replicate 8 1%nat ++ replicate 8 0%nat.

Definition raced : World * list (async World unit) := schedule raceOrder loadedWorld (map (perform sampleEnv) racing).


(** A start that is overtaken by a forced shutdown leaves a plugin that is
    marked as started and is not loaded; the plugin can be loaded again, but then
    [start] refuses it, with its platform never started. *)
Theorem start_shutdown_race :
  exists w pool w2 p,
    rtc turn (loadedWorld, map (perform sampleEnv) racing) (w, pool) /\ settledPool pool = true /\
    truthy (pget w 0 "started") = true /\ truthy (pget w 0 "loaded") = false /\ platform (plugin w 0) = None /\
    run (load sampleEnv (ByRef 0) false Undefined false) w = (w2, Ok (Some p)) /\
    run (start sampleEnv (ByRef 0) Undefined false) w2 = (w2, Ok None) /\
    getField "isStarted" (pfields (platformOf w2 p)) = Undefined.
Proof.
  exists (fst raced), (snd raced), (fst (run (load sampleEnv (ByRef 0) false Undefined false) (fst raced))), 1%nat.
  split; [rewrite <- surjective_pairing; apply schedule_turns|]. split_and!; by vm_compute.
Qed.

(** Two loads that overlap make two platforms; the plugin keeps the later one
    and the earlier one is never shut down. *)
Theorem concurrent_loads_duplicate :
  exists w pool,
    rtc turn (addedWorld, map (perform sampleEnv) (replicate 2 (Load (ByName "matterbridge-test") true Undefined false))) (w, pool) /\
    settledPool pool = true /\ platform (plugin w 0) = Some 1%nat /\
    getField "isLoaded" (pfields (platformOf w 0)) = Bool true /\
    forall reason, platforms (fst (run (shutdown sampleEnv (ByRef 0) reason true true) w)) !! 0%nat = platforms w !! 0%nat.
Proof.
  set (loads := replicate 2 (Load (ByName "matterbridge-test") true Undefined false)).
  set (c := schedule (concat (replicate 30 [0%nat; 1%nat])) addedWorld (map (perform sampleEnv) loads)).
  exists (fst c), (snd c). split; [rewrite <- surjective_pairing; apply schedule_turns|].
  split_and!; [by vm_compute..|]. intros reason. by vm_compute.
Qed.
