(* ===== verification/Threads.v ===== *)
(** The threads manager of [packages/thread/src/threadsManager.ts] and the worker
    side of its protocol ([packages/thread/src/workerWrapper.ts]): starting
    workers, the handlers of their events, the watchdog and the requests. *)
From S2P Require Import Prelude JsValue NodePath Broadcast.
From stdpp Require Import gmap relations.
#[local] Open Scope string_scope.
#[local] Open Scope Z_scope.

Module Threads.
Import Broadcast.

(** ** State *)

Inductive kind := Worker | Thread.

(** A worker is known by its thread id. *)
Record ThreadInfo := mkThread {
  name : string; path : string; type : kind;
  worker : option Z;
  runCount : option Z; errorCount : option Z;
  lastStarted : option Z; lastStopped : option Z; lastDuration : option Z; lastSeen : option Z
}.

(** The options a worker is created with. *)
Record WorkerOptions := mkOptions {
  file : string; workerName : string; workerData : list (string * value);
  argv : value; environment : value; execArgv : value; pipedOutput : bool
}.

Record ThreadsManager := mkManager {
  debug : bool; verbose : bool; tracker : bool;
  logLevel : value;
  server : BroadcastServer;
  interval : bool;          (* the timer is set *)
  intervalMs : Z;
  threads : list ThreadInfo;
  created : list (Z * WorkerOptions)   (* every worker created so far *)
}.

Definition idle (name path : string) : ThreadInfo := mkThread name path Worker None None None None None None None.

Definition initialThreads : list ThreadInfo :=
  [idle "CheckUpdates" "workerCheckUpdates.js"; idle "SystemCheck" "workerSystemCheck.js";
   idle "GlobalPrefix" "workerGlobalPrefix.js"; idle "SpawnCommand" "workerSpawnCommand.js";
   idle "ArchiveCommand" "workerArchiveCommand.js"; idle "DockerVersion" "workerDockerVersion.js"].

(** The constructor, with the command line flags. *)
Definition initial (debug verbose tracker : bool) (intervalMs : Z) : ThreadsManager :=
  mkManager debug verbose tracker (Str (if debug then "debug" else "info")) (mkServer "manager" false) true intervalMs
    initialThreads [].

Definition destroy (s : ThreadsManager) : ThreadsManager :=
  mkManager (debug s) (verbose s) (tracker s) (logLevel s) (close (server s)) false (intervalMs s) (threads s) (created s).

Definition setThreads (l : list ThreadInfo) (s : ThreadsManager) : ThreadsManager :=
  mkManager (debug s) (verbose s) (tracker s) (logLevel s) (server s) (interval s) (intervalMs s) l (created s).

(** ** Starting workers *)

Section Surroundings.
(** The directory of the running module, the files, the arguments and the
    environment of the process. *)
Context (moduleDirectory cwd : string) (existsSync : string -> bool) (processArgv processEnv : value).

Definition candidates (fileName : string) : list string :=
  [pathJoin [moduleDirectory; fileName]; pathJoin [moduleDirectory; ".."; "dist"; fileName];
   pathJoin [moduleDirectory; "workers"; fileName]].

Definition resolvePath (fileName : string) : string :=
  match List.find existsSync (candidates fileName) with
  | Some candidate => candidate
  | None => pathJoin [moduleDirectory; fileName]
  end.

(** [new Worker(url, options)]: the options, with the data of the caller overridden
    by the flags of the manager. *)
Definition createESMWorker (s : ThreadsManager) (name relativePath : string) (data : list (string * value))
    (argv env execArgv : value) (piped : bool) : WorkerOptions :=
  mkOptions (pathResolve cwd [relativePath]) name
    (setField "tracker" (Bool (tracker s)) (setField "logLevel" (logLevel s) (setField "verbose" (Bool (verbose s))
      (setField "debug" (Bool (debug s)) (setField "threadName" (Str name) data)))))
    (coalesce argv processArgv) (coalesce env processEnv) execArgv piped.

(** The index of the entry with the name. *)
Fixpoint findThread (n : value) (l : list ThreadInfo) : option nat :=
  match l with
  | [] => None
  | t :: l => if isStr n (name t) then Some O else S <$> findThread n l
  end.

(** The entry once its worker has been created. *)
Definition started (id : Z) (t : ThreadInfo) : ThreadInfo :=
  mkThread (name t) (path t) (type t) (Some id) (runCount t) (errorCount t) None None None (lastSeen t).

(** [id] is the thread id of the new worker. *)
Definition runThread (s : ThreadsManager) (id : Z) (n : value) (data : value) (argv env execArgv : value) (piped : bool)
    : res (ThreadsManager * Z) :=
  match findThread n (threads s) with
  | None => Throw (Error (js ("Thread " ++ toText n ++ " not found")))
  | Some i =>
      match threads s !! i with
      | None => Throw TypeError
      | Some t =>
          match worker t with
          | Some running =>
              Throw (Error (js ("Thread " ++ toText n ++ " is already running with thread ID " ++ toText (Num running))))
          | None =>
              let path := resolvePath (path t) in
              if negb (existsSync path) then
                Throw (Error (js ("Thread " ++ toText n ++ " file not found at path " ++ path)))
              else
                let data := setField "logLevel" (logLevel s)
                              (setField "verbose" (Bool (verbose s)) (setField "debug" (Bool (debug s)) (spread data))) in
                let options := createESMWorker s (name t) path data argv env execArgv piped in
                let s' := setThreads (<[i := started id t]> (threads s)) s in
                Ok (mkManager (debug s') (verbose s') (tracker s') (logLevel s') (server s') (interval s') (intervalMs s')
                      (threads s') (created s' ++ [(id, options)])%list, id)
          end
      end
  end.

(** ** Events of workers *)

Inductive ParentPortMessage := Init | Ping | Pong | Log | Exit.

Inductive WorkerEvent :=
  | Online
  | Exited
  | Message (m : ParentPortMessage)
  | MessageError
  | Failed.

(** [Math.max(0, now - (threadInfo.lastStarted ?? now))]. *)
Definition duration (t : ThreadInfo) (now : Z) : Z := Z.max 0 (now - default now (lastStarted t)).

Definition increment (o : option Z) : option Z := Some (default 0 o + 1).

(** The entry after it has been told that its worker stopped. *)
Definition stopped (now : Z) (seen : option Z) (errors : option Z) (t : ThreadInfo) : ThreadInfo :=
  mkThread (name t) (path t) (type t) None (runCount t) errors (lastStarted t) (Some now) (Some (duration t now)) seen.

(** What the listeners that [runThread] attached to worker [id] do to its entry. *)
Definition onEvent (id : Z) (now : Z) (e : WorkerEvent) (t : ThreadInfo) : ThreadInfo :=
  match e with
  | Online => t
  | Exited =>
      if bool_decide (worker t = Some id) then stopped now (Some now) (errorCount t) t else t
  | Message m =>
      let t := mkThread (name t) (path t) (type t) (worker t) (runCount t) (errorCount t) (lastStarted t) (lastStopped t)
                 (lastDuration t) (Some now) in
      match m with
      | Init => mkThread (name t) (path t) (type t) (worker t) (increment (runCount t)) (errorCount t) (Some now)
                  (lastStopped t) (lastDuration t) (lastSeen t)
      | Exit => stopped now (lastSeen t) (errorCount t) t
      | _ => t
      end
  | MessageError =>
      mkThread (name t) (path t) (type t) (worker t) (runCount t) (increment (errorCount t)) (lastStarted t) (lastStopped t)
        (lastDuration t) (lastSeen t)
  | Failed => stopped now (Some now) (increment (errorCount t)) t
  end.

Definition workerEvent (s : ThreadsManager) (i : nat) (id now : Z) (e : WorkerEvent) : ThreadsManager :=
  setThreads (alter (onEvent id now e) i (threads s)) s.

(** ** The watchdog *)

(** The worker of an entry that has been silent for longer than [limit]. *)
Definition silent (now limit : Z) (t : ThreadInfo) : option Z :=
  match worker t with
  | Some id => if limit <? now - default 0 (lastSeen t) then Some id else None
  | None => None
  end.

(** The workers that get a ping, and the entries that are reported. *)
Definition intervalHandler (s : ThreadsManager) (now : Z) : list (Z * string) * list string :=
  (omap (fun t => (fun id => (id, name t)) <$> silent now (intervalMs s) t) (threads s),
   omap (fun t => (fun _ => name t) <$> silent now (intervalMs s * 2) t) (threads s)).

(** ** Requests *)

Definition reply (s : ThreadsManager) (now : Z) (msg : list (string * value)) (result : list (string * value)) : option value :=
  respond (server s) now (Obj (setField "result" (Obj result) msg)).

(** [msg.params.k]. *)
Definition param (msg : list (string * value)) (k : string) : res value := getProp (getField "params" msg) k.

Definition setLevel (l : value) (s : ThreadsManager) : ThreadsManager :=
  mkManager (debug s) (verbose s) (tracker s) l (server s) (interval s) (intervalMs s) (threads s) (created s).

Definition runRequest (s : ThreadsManager) (id : Z) (msg : list (string * value)) : res (ThreadsManager * Z) :=
  n ← param msg "name"; data ← param msg "workerData"; argv ← param msg "argv"; env ← param msg "env";
  execArgv ← param msg "execArgv"; piped ← param msg "pipedOutput";
  runThread s id n data argv env execArgv (truthy piped).

(** The new state and the response posted, if any. *)
Definition msgHandler (s : ThreadsManager) (id now : Z) (m : value) : res (ThreadsManager * option value) :=
  match m with
  | Obj msg =>
      if isWorkerRequest m && (isStr (getField "dst" msg) "all" || isStr (getField "dst" msg) "manager") then
        let type := getField "type" msg in
        if isStr type "get_log_level" then Ok (s, reply s now msg [("logLevel", logLevel s)])
        else if isStr type "set_log_level" then
          s ← (if debug s then Ok s else level ← param msg "logLevel"; Ok (setLevel level s));
          Ok (s, reply s now msg [("logLevel", logLevel s)])
        else if isStr type "manager_run" then
          match runRequest s id msg with
          | Ok (s, _) => Ok (s, reply s now msg [("success", Bool true)])
          | Throw _ => _ ← param msg "name"; Ok (s, reply s now msg [("success", Bool false)])
          end
        else Ok (s, None)
      else Ok (s, None)
  | _ => Ok (s, None)
  end.

(** ** Running in the main thread *)

(** The default export of a worker file. *)
Record WorkerModule := mkModule { moduleName : value; callback : option (value -> res bool) }.

(** The result, and what the wrapper was destroyed with. *)
Definition runInMainThread (importModule : string -> res (option WorkerModule)) (s : ThreadsManager) (n data : value)
    : res (bool * option bool) :=
  match findThread n (threads s) ≫= (threads s !!.) with
  | None => Throw (Error (js ("Thread " ++ toText n ++ " not found")))
  | Some t =>
      workerWrapper ← importModule (resolvePath (path t));
      match workerWrapper with
      | Some (mkModule n' (Some callback)) =>
          if bool_decide (n' = n) then success ← callback data; Ok (success, Some success) else Ok (false, None)
      | _ => Ok (false, None)
      end
  end.

End Surroundings.

(** ** The worker side *)

(** What the constructor of [WorkerWrapper] posts in a worker thread. *)
Definition wrapperInit (debug : bool) : list ParentPortMessage := Init :: (if debug then [Log] else []).

(** What it posts for a message of the parent. *)
Definition wrapperMessage (m : ParentPortMessage) : list ParentPortMessage :=
  match m with
  | Ping => [Log; Pong; Log]
  | _ => [Log]
  end.

(** What [destroy] posts before it closes the port. *)
Definition wrapperDestroy (debug : bool) : list ParentPortMessage := (if debug then [Log] else []) ++ [Exit].

(** What happens while the callback runs: the parent sends a message, or the
    callback logs a line. *)
Inductive activity := FromParent (m : ParentPortMessage) | Logged.

Definition wrapperActivity (a : activity) : list ParentPortMessage :=
  match a with FromParent m => wrapperMessage m | Logged => [Log] end.

(** All messages of a worker, whether its callback succeeds or throws. *)
Definition wrapperTrace (debug : bool) (during : list activity) : list ParentPortMessage :=
  wrapperInit debug ++ concat (map wrapperActivity during) ++ wrapperDestroy debug.
End Threads.
