(* ===== verification/ThreadFacts.v ===== *)
(** Properties of the threads manager: starting workers, the protocol of their
    events, and how many workers of one kind run at the same time. *)
From S2P Require Import Prelude JsValue NodePath Broadcast Threads.
From stdpp Require Import gmap relations.
Import Broadcast Threads.
#[local] Open Scope string_scope.
#[local] Open Scope Z_scope.

(** ** Starting workers *)

Section Start.
Context (moduleDirectory cwd : string) (existsSync : string -> bool) (processArgv processEnv : value).

#[local] Abbreviation runThread := (runThread moduleDirectory cwd existsSync processArgv processEnv).
#[local] Abbreviation resolvePath := (resolvePath moduleDirectory existsSync).

Lemma findThread_spec n l i :
  findThread n l = Some i <->
  exists t, l !! i = Some t /\ n = Str (name t) /\ forall j u, (j < i)%nat -> l !! j = Some u -> n <> Str (name u).
Proof.
  revert i. induction l as [|t l IH]; intros i; cbn [findThread]; [split; [done|by intros (? & ? & _)]|].
  destruct (isStr n (name t)) eqn:E.
  - apply isStr_true in E. split.
    + intros [= <-]. exists t. split_and!; [done|done|lia].
    + intros (u & Hu & -> & Hfirst). destruct i as [|i]; [done|]. by destruct (Hfirst O t ltac:(lia) eq_refl).
  - assert (n <> Str (name t)) as Hne by (intros ->; cbn in E; by rewrite bool_decide_eq_true_2 in E).
    destruct i as [|i].
    + split; [by destruct (findThread n l)|]. intros (u & [= <-] & -> & _). done.
    + rewrite fmap_Some. split.
      * intros (i' & Hi & [= <-]). apply IH in Hi as (u & Hu & -> & Hfirst). exists u. split_and!; [done|done|].
        intros [|j] v Hj; [by intros [= <-]|]. apply Hfirst. lia.
      * intros (u & Hu & -> & Hfirst). exists i. split; [|done]. apply IH. exists u. split_and!; [done|done|].
        intros j v Hj. apply (Hfirst (S j)). lia.
Qed.

(** The options of a worker: the flags of the manager, and the caller's data. *)
Definition optionsOk (s : ThreadsManager) (t : ThreadInfo) (data : value) (o : WorkerOptions) : Prop :=
  getField "threadName" (workerData o) = Str (name t) /\ getField "debug" (workerData o) = Bool (debug s) /\
  getField "verbose" (workerData o) = Bool (verbose s) /\ getField "logLevel" (workerData o) = logLevel s /\
  getField "tracker" (workerData o) = Bool (tracker s) /\ workerName o = name t /\
  file o = pathResolve cwd [resolvePath (path t)] /\
  forall k, k ∉ ["threadName"; "debug"; "verbose"; "logLevel"; "tracker"] -> getField k (workerData o) = getField k (spread data).

(** A thread is started exactly when its name is known, it is not running and
    its file exists; then its entry alone changes and one worker is created, with
    the flags of the manager whatever the caller passes. *)
Theorem runThread_exact s id n data argv env execArgv piped :
  match runThread s id n data argv env execArgv piped with
  | Ok (s', id') =>
      exists i t o, threads s !! i = Some t /\ n = Str (name t) /\ worker t = None /\
        existsSync (resolvePath (path t)) = true /\ id' = id /\ threads s' = <[i := started id t]> (threads s) /\
        created s' = (created s ++ [(id, o)])%list /\ optionsOk s t data o
  | Throw e =>
      findThread n (threads s) = None \/
      exists i t, findThread n (threads s) = Some i /\ threads s !! i = Some t /\
        (is_Some (worker t) \/ worker t = None /\ existsSync (resolvePath (path t)) = false)
  end.
Proof.
  unfold Threads.runThread. destruct (findThread n (threads s)) as [i|] eqn:Hf; [|by left].
  pose proof (proj1 (findThread_spec _ _ _) Hf) as (t & Ht & Hn & _). rewrite Ht.
  destruct (worker t) as [id0|] eqn:Hw.
  - right. exists i, t. rewrite Hw. split_and!; [done|done|left; by eexists].
  - destruct (existsSync (Threads.resolvePath _ _ _)) eqn:He; cbn [negb].
    + exists i, t. eexists. split_and!; try done. unfold optionsOk. cbn [workerData createESMWorker workerName file].
      fields. split_and!; try done. intros k Hk. rewrite !not_elem_of_cons in Hk.
      destruct Hk as (H1 & H2 & H3 & H4 & H5 & _). by rewrite !getField_setField_ne by congruence.
    + right. exists i, t. split_and!; [done|done|right; done].
Qed.
End Start.

(** ** The protocol of a worker *)

Inductive phase := Booting | Live | Finished | Fallen | Gone.

(** The events a worker may cause, and the phase behind each: messages between
    [init] and [exit], nothing but its end after a failure or its end. With [late],
    it may also fail after it has sent [exit]. *)
Definition allowed (late : bool) (p : phase) (e : WorkerEvent) : option phase :=
  match p, e with
  | Gone, _ => None
  | _, Exited => Some Gone
  | Fallen, _ => None
  | Booting, Online => Some Booting
  | Booting, Message Init => Some Live
  | Booting, Failed => Some Fallen
  | Live, Online => Some Live
  | Live, Message Exit => Some Finished
  | Live, Message Init => None
  | Live, Message _ => Some Live
  | Live, MessageError => Some Live
  | Live, Failed => Some Fallen
  | Finished, Failed => if late then Some Fallen else None
  | _, _ => None
  end.

Fixpoint follows (p : phase) (l : list ParentPortMessage) : option phase :=
  match l with
  | [] => Some p
  | m :: l => allowed false p (Message m) ≫= fun p => follows p l
  end.

Lemma follows_app p l l' : follows p (l ++ l') = follows p l ≫= fun p => follows p l'.
Proof.
  revert p. induction l as [|m l IH]; intros p; [done|]. cbn [app follows].
  destruct (allowed false p (Message m)); [apply IH|done].
Qed.

(** Whatever happens while the callback of a worker runs, the messages its
    wrapper posts follow the protocol: [init] first, [exit] last, and only log and
    pong messages in between. *)
Theorem wrapper_protocol debug during : follows Booting (wrapperTrace debug during) = Some Finished.
Proof.
  unfold wrapperTrace. rewrite follows_app.
  assert (follows Booting (wrapperInit debug) = Some Live) as -> by (by destruct debug). cbn.
  rewrite follows_app.
  assert (follows Live (concat (map wrapperActivity during)) = Some Live) as ->; [|by destruct debug].
  induction during as [|a during IH]; [done|]. cbn [map concat]. rewrite follows_app.
  assert (follows Live (wrapperActivity a) = Some Live) as -> by (by destruct a as [[]|]). exact IH.
Qed.

(** ** Manager and workers together *)

Definition active (p : phase) : bool := match p with Booting | Live => true | _ => false end.

(** The manager, and for each worker created its entry and its phase. *)
Record System := mkSystem { manager : ThreadsManager; workers : gmap Z (nat * phase) }.

Section System.
Context (moduleDirectory cwd : string) (existsSync : string -> bool) (processArgv processEnv : value).
#[local] Abbreviation runThread := (runThread moduleDirectory cwd existsSync processArgv processEnv).

Inductive step (late : bool) : System -> System -> Prop :=
  | step_run s id n data argv env execArgv piped i m :
      workers s !! id = None -> findThread n (threads (manager s)) = Some i ->
      runThread (manager s) id n data argv env execArgv piped = Ok (m, id) ->
      step late s (mkSystem m (<[id := (i, Booting)]> (workers s)))
  | step_event s id i p e p' now :
      workers s !! id = Some (i, p) -> allowed late p e = Some p' ->
      step late s (mkSystem (workerEvent (manager s) i id now e) (<[id := (i, p')]> (workers s))).

(** An entry refers to its active worker. *)
Definition tracked (s : System) : Prop :=
  forall i t, threads (manager s) !! i = Some t ->
    forall id, worker t = Some id <-> exists p, workers s !! id = Some (i, p) /\ active p = true.

Lemma tracked_initial debug verbose tracker ms : tracked (mkSystem (initial debug verbose tracker ms) ∅).
Proof.
  intros i t Ht id. cbn [manager threads initial] in Ht. split; [|by intros (p & Hp & _)].
  assert (Forall (fun t => worker t = None) initialThreads) as Hall by (by repeat constructor).
  rewrite (Forall_lookup_1 _ _ _ _ Hall Ht). done.
Qed.

(** The worker an entry refers to after an event of worker [id]. *)
Lemma worker_onEvent id now e t :
  worker (onEvent id now e t) =
  match e with
  | Exited => if bool_decide (worker t = Some id) then None else worker t
  | Message Exit | Failed => None
  | _ => worker t
  end.
Proof. destruct e as [| |[]| |]; cbn [onEvent]; try done. by case_bool_decide. Qed.

(** Phases and events: what ends the activity of a worker. *)
Lemma allowed_active p e p' :
  allowed false p e = Some p' ->
  active p = match e with Exited => active p | Message Exit | Failed => true | _ => active p' end /\
  (active p' = true -> e <> Exited /\ e <> Message Exit /\ e <> Failed).
Proof. by destruct p, e as [| |[]| |]; intros [= <-]. Qed.

(** The entry of the worker, after an event that is not late. *)
Lemma tracked_entry (ws : gmap Z (nat * phase)) id i p e p' now t :
  ws !! id = Some (i, p) -> allowed false p e = Some p' ->
  (forall x, worker t = Some x <-> exists q, ws !! x = Some (i, q) /\ active q = true) ->
  forall x, worker (onEvent id now e t) = Some x <->
            exists q, <[id := (i, p')]> ws !! x = Some (i, q) /\ active q = true.
Proof.
  intros Hid Hp Hold x. rewrite worker_onEvent. apply allowed_active in Hp as [Hpa Hpe].
  assert (worker t = Some id <-> active p = true) as Hme.
  { rewrite Hold, Hid. split; [by intros (q & [= <-] & Hq)|intros Hq; by exists p]. }
  assert (active p' = true -> worker t = Some id) as Hp'.
  { intros Ha. apply Hme. rewrite Hpa. destruct (Hpe Ha) as (? & ? & ?). by destruct e as [| |[]| |]. }
  destruct (decide (x = id)) as [->|Hne].
  - rewrite lookup_insert_eq. transitivity (active p' = true).
    + split; [|intros Ha; rewrite <- (Hp' Ha); destruct (Hpe Ha) as (? & ? & ?); by destruct e as [| |[]| |]].
      destruct e as [| |[]| |]; try done; rewrite ?Hme, ?Hpa; try done. by case_bool_decide.
    + split; [intros Ha; by exists p'|by intros (q & [= <-] & Hq)].
  - rewrite lookup_insert_ne by congruence. rewrite <- Hold.
    assert (active p = true -> worker t <> Some x) as Hx by (rewrite <- Hme; congruence).
    destruct e as [| |[]| |]; try done; try (split; [done|intros Hw; by destruct (Hx Hpa)]).
    case_bool_decide; [|done]. split; [done|congruence].
Qed.

Lemma runThread_threads m id n data argv env execArgv piped m' i :
  findThread n (threads m) = Some i -> runThread m id n data argv env execArgv piped = Ok (m', id) ->
  exists t, threads m !! i = Some t /\ worker t = None /\ threads m' = <[i := started id t]> (threads m).
Proof.
  unfold Threads.runThread. intros ->. destruct (threads m !! i) as [t|]; [|done].
  destruct (worker t) eqn:Hw; [done|]. destruct (existsSync _); [|done]. cbn [negb]. intros [= <-]. by exists t.
Qed.

(** Every worker belongs to an entry. *)
Definition owned (s : System) : Prop :=
  forall id i p, workers s !! id = Some (i, p) -> is_Some (threads (manager s) !! i).

Lemma owned_initial debug verbose tracker ms : owned (mkSystem (initial debug verbose tracker ms) ∅).
Proof. by intros id i p. Qed.

Lemma owned_step late s s' : step late s s' -> owned s -> owned s'.
Proof.
  intros Hstep Hs. destruct Hstep as [s id n data argv env execArgv piped i m Hfresh Hi Hrun | s id i p e p' now Hid Hp].
  - destruct (runThread_threads _ _ _ _ _ _ _ _ _ _ Hi Hrun) as (t0 & Ht0 & _ & Hm).
    intros x j q Hx. cbn [manager workers] in *. rewrite Hm, lookup_lt_is_Some, length_insert.
    destruct (decide (x = id)) as [->|Hne].
    + rewrite lookup_insert_eq in Hx. injection Hx as <- <-. by eapply lookup_lt_Some.
    + rewrite lookup_insert_ne in Hx by congruence. by apply lookup_lt_is_Some, (Hs x j q).
  - intros x j q Hx. cbn [manager workers workerEvent setThreads threads] in *.
    rewrite lookup_lt_is_Some, length_alter. destruct (decide (x = id)) as [->|Hne].
    + rewrite lookup_insert_eq in Hx. injection Hx as <- <-. by apply lookup_lt_is_Some, (Hs id i p).
    + rewrite lookup_insert_ne in Hx by congruence. by apply lookup_lt_is_Some, (Hs x j q).
Qed.

Lemma tracked_step s s' : step false s s' -> tracked s -> tracked s'.
Proof.
  intros Hstep Hs. destruct Hstep as [s id n data argv env execArgv piped i m Hfresh Hi Hrun | s id i p e p' now Hid Hp].
  - destruct (runThread_threads _ _ _ _ _ _ _ _ _ _ Hi Hrun) as (t0 & Ht0 & Hw & Hm).
    intros j t Ht x. cbn [manager workers] in *. rewrite Hm in Ht. destruct (decide (j = i)) as [->|Hne].
    + rewrite list_lookup_insert_eq in Ht by (by eapply lookup_lt_Some). injection Ht as <-. cbn [worker started].
      pose proof (Hs i t0 Ht0 x) as Hx. rewrite Hw in Hx. destruct (decide (x = id)) as [->|Hxid].
      * rewrite lookup_insert_eq. split; [intros _; by exists Booting|done].
      * rewrite lookup_insert_ne by congruence. rewrite <- Hx. split; [congruence|done].
    + rewrite list_lookup_insert_ne in Ht by done. rewrite (Hs j t Ht).
      destruct (decide (x = id)) as [->|Hxid]; [|by rewrite lookup_insert_ne].
      rewrite Hfresh, lookup_insert_eq. split; intros (q & [= ? ?] & _); congruence.
  - intros j t Ht. cbn [manager workers workerEvent setThreads threads] in *.
    destruct (decide (j = i)) as [->|Hne].
    + rewrite list_lookup_alter_eq in Ht. apply fmap_Some in Ht as (t0 & Ht0 & ->).
      by apply (tracked_entry _ id i p e p'); [..|apply Hs].
    + rewrite list_lookup_alter_ne in Ht by done. intros x. rewrite (Hs j t Ht).
      destruct (decide (x = id)) as [->|Hx]; [|by rewrite lookup_insert_ne].
      rewrite Hid, lookup_insert_eq. split; intros (q & [= ? ?] & _); congruence.
Qed.

(** C8: as long as no worker fails after it has announced its exit, every entry of
    the manager refers to its active worker if it has one: no thread ever has two
    active workers, and it can be started whenever it has none. *)
Theorem threads_exclusive debug verbose tracker ms s :
  rtc (step false) (mkSystem (initial debug verbose tracker ms) ∅) s ->
  (forall id id' i p p', workers s !! id = Some (i, p) -> workers s !! id' = Some (i, p') ->
     active p = true -> active p' = true -> id = id') /\
  (forall i t, threads (manager s) !! i = Some t ->
     (worker t = None <-> forall id p, workers s !! id = Some (i, p) -> active p = false)).
Proof.
  intros Hr. assert (tracked s /\ owned s) as [Hs Ho].
  { revert Hr. generalize (tracked_initial debug verbose tracker ms), (owned_initial debug verbose tracker ms).
    generalize (mkSystem (initial debug verbose tracker ms) ∅). intros s0 H1 H2 Hr.
    induction Hr as [|s1 s2 s3 H12 _ IH]; [done|]. apply IH; [by eapply tracked_step|by eapply owned_step]. }
  split.
  - intros id id' i p p' H1 H2 Hp Hp'. destruct (Ho id i p H1) as [t Ht].
    pose proof (proj2 (Hs i t Ht id)) as E1. pose proof (proj2 (Hs i t Ht id')) as E2.
    rewrite E1 in E2 by (by eexists). injection E2; [done|by eexists].
  - intros i t Ht. split.
    + intros Hn id p Hp. destruct (active p) eqn:Ha; [|done]. pose proof (proj2 (Hs i t Ht id)) as E.
      rewrite Hn in E. by discriminate E; eexists.
    + intros Hall. destruct (worker t) as [id|] eqn:Hw; [|done]. apply (Hs i t Ht) in Hw as (p & Hp & Ha).
      by rewrite (Hall id p Hp) in Ha.
Qed.

(** *** Executing steps *)

Inductive action := Run (id : Z) (n : string) | Event (id now : Z) (e : WorkerEvent).

Definition act (late : bool) (s : System) (a : action) : option System :=
  match a with
  | Run id n =>
      match workers s !! id, findThread (Str n) (threads (manager s)),
            runThread (manager s) id (Str n) Undefined Undefined Undefined Undefined false with
      | None, Some i, Ok (m, id') =>
          if bool_decide (id' = id) then Some (mkSystem m (<[id := (i, Booting)]> (workers s))) else None
      | _, _, _ => None
      end
  | Event id now e =>
      match workers s !! id with
      | Some (i, p) => (fun p' => mkSystem (workerEvent (manager s) i id now e) (<[id := (i, p')]> (workers s))) <$> allowed late p e
      | None => None
      end
  end.

Fixpoint replay (late : bool) (s : System) (l : list action) : option System :=
  match l with
  | [] => Some s
  | a :: l => act late s a ≫= fun s => replay late s l
  end.

Lemma act_step late s a s' : act late s a = Some s' -> step late s s'.
Proof.
  destruct a as [id n|id now e]; cbn [act].
  - destruct (workers s !! id) eqn:Hw; [done|]. destruct (findThread (Str n) (threads (manager s))) as [i|] eqn:Hf; [|done].
    destruct (runThread _ _ _ _ _ _ _ _) as [[m id']|] eqn:Hr; [|done]. case_bool_decide as Hid; [|done]. subst id'.
    intros [= <-]. by eapply step_run.
  - destruct (workers s !! id) as [[i p]|] eqn:Hw; [|done]. rewrite fmap_Some. intros (p' & Hp & ->). by eapply step_event.
Qed.

Lemma replay_steps late s l s' : replay late s l = Some s' -> rtc (step late) s s'.
Proof.
  revert s. induction l as [|a l IH]; intros s; cbn [replay]; [intros [= <-]; apply rtc_refl|].
  rewrite bind_Some. intros (s1 & Ha & Hl). eapply rtc_l; [by eapply act_step|by apply IH].
Qed.
End System.

(** ** A sample installation *)

Definition threadDirectory : string := "/usr/lib/node_modules/@matterbridge/thread/dist".

Definition sampleReplay (late : bool) : list action -> option System :=
  replay threadDirectory "/" (fun _ => true) (Arr []) (Obj []) late (mkSystem (initial false false false 60000) ∅).

(** A worker that runs to its end, and a second one of the same thread. *)
Definition orderly : list action :=
  [Run 1 "SpawnCommand"; Event 1 10 Online; Event 1 20 (Message Init); Event 1 30 (Message Log); Event 1 50 (Message Exit);
   Run 2 "SpawnCommand"; Event 1 60 Exited; Event 2 70 (Message Init)].

Lemma threads_exclusive_witness :
  exists s, sampleReplay false orderly = Some s /\ workers s !! 2 = Some (3%nat, Live) /\
    forall id p, workers s !! id = Some (3%nat, p) -> active p = true -> id = 2.
Proof.
  destruct (sampleReplay false orderly) as [s|] eqn:Hs; [|exfalso; revert Hs; by vm_compute].
  exists s. split; [done|]. assert (workers s !! 2 = Some (3%nat, Live)) as H2 by (revert Hs; vm_compute; by intros [= <-]).
  split; [done|]. intros id p Hid Hp.
  destruct (threads_exclusive threadDirectory "/" (fun _ => true) (Arr []) (Obj []) false false false 60000 s) as [Hx _].
  - by eapply replay_steps.
  - by apply (Hx id 2 3%nat p Live).
Defined.

(** The listeners of the events [message] and [error] do not ask whose event
    it is. A worker that fails after its exit message erases the worker that was
    started since: the manager starts a third one while the second is active. *)
Theorem late_failure_duplicates :
  exists s i, rtc (step threadDirectory "/" (fun _ => true) (Arr []) (Obj []) true)
                  (mkSystem (initial false false false 60000) ∅) s /\
    workers s !! 2 = Some (i, Live) /\ workers s !! 3 = Some (i, Booting) /\
    (worker <$> threads (manager s) !! i) = Some (Some 3).
Proof.
  set (l := [Run 1 "SpawnCommand"; Event 1 20 (Message Init); Event 1 50 (Message Exit); Run 2 "SpawnCommand";
             Event 2 70 (Message Init); Event 1 80 Failed; Run 3 "SpawnCommand"]).
  destruct (sampleReplay true l) as [s|] eqn:Hs; [|exfalso; revert Hs; by vm_compute].
  exists s, 3%nat. split; [by eapply replay_steps|]. revert Hs. vm_compute. by intros [= <-].
Qed.

(** ** Records of a run *)

Definition chatter (m : ParentPortMessage) : bool := match m with Log | Ping | Pong => true | _ => false end.

(** The messages of a worker between [init] and [exit], with their times. *)
Definition deliver (id : Z) (t : ThreadInfo) (l : list (Z * ParentPortMessage)) : ThreadInfo :=
  foldl (fun t tm => onEvent id (fst tm) (Message (snd tm)) t) t l.

Lemma deliver_chatter id t l :
  Forall (fun tm => chatter (snd tm) = true) l ->
  worker (deliver id t l) = worker t /\ runCount (deliver id t l) = runCount t /\
  errorCount (deliver id t l) = errorCount t /\ lastStarted (deliver id t l) = lastStarted t /\
  name (deliver id t l) = name t /\ path (deliver id t l) = path t.
Proof.
  intros Hl. revert t. induction Hl as [|[now m] l Hm _ IH]; intros t; [done|].
  specialize (IH (onEvent id now (Message m) t)). unfold deliver in *. cbn [foldl fst snd].
  destruct IH as (-> & -> & -> & -> & -> & ->). by destruct m.
Qed.

(** A worker that is started, announces itself, logs what it likes and exits
    is recorded with its times: the entry is free again, counts one more run and no
    more errors, and its duration is the time between the two announcements, also
    when the clock is set back. *)
Theorem run_recorded id t t0 l t1 :
  Forall (fun tm => chatter (snd tm) = true) l ->
  let t' := onEvent id t1 (Message Exit) (deliver id (onEvent id t0 (Message Init) (started id t)) l) in
  worker t' = None /\ runCount t' = Some (default 0 (runCount t) + 1) /\ errorCount t' = errorCount t /\
  lastStarted t' = Some t0 /\ lastStopped t' = Some t1 /\ lastSeen t' = Some t1 /\
  lastDuration t' = Some (if t0 <=? t1 then t1 - t0 else 0) /\
  (forall now, onEvent id now Exited t' = t').
Proof.
  intros Hl t'. destruct (deliver_chatter id (onEvent id t0 (Message Init) (started id t)) l Hl)
    as (Hw & Hr & He & Hs & Hn & Hp).
  subst t'. set (u := deliver id _ l) in *. cbn [onEvent stopped worker runCount errorCount lastStarted lastStopped lastSeen
    lastDuration duration] in *. unfold duration. cbn [lastStarted default].
  rewrite Hr, He, Hs. cbn. split_and!; try done. f_equal. destruct (Z.leb_spec t0 t1); lia.
Qed.

Lemma run_recorded_witness :
  lastDuration (onEvent 7 50 (Message Exit) (deliver 7 (onEvent 7 20 (Message Init)
    (started 7 (idle "SystemCheck" "workerSystemCheck.js"))) [(30, Log); (40, Pong)])) = Some 30.
Proof.
  destruct (run_recorded 7 (idle "SystemCheck" "workerSystemCheck.js") 20 [(30, Log); (40, Pong)] 50)
    as (_ & _ & _ & _ & _ & _ & Hd & _); [by repeat constructor|exact Hd].
Defined.

(** ** Requests *)

(** The response to a request [id] of server [src], as server [other] sees it. *)
Definition runAnswer (src : string) (id : Z) (other : string) (b : bool) (g : list (string * value)) : Prop :=
  isWorkerResponse (Obj g) = true /\ getField "id" g = Num id /\ getField "result" g = Obj [("success", Bool b)] /\
  broadcastMessageHandler (mkServer other false) (Obj g) = Ok (if bool_decide (other = src) then Some (Obj g) else None).

Section Requests.
Context (moduleDirectory cwd : string) (existsSync : string -> bool) (processArgv processEnv : value).
#[local] Abbreviation runRequest := (runRequest moduleDirectory cwd existsSync processArgv processEnv).
#[local] Abbreviation msgHandler := (Threads.msgHandler moduleDirectory cwd existsSync processArgv processEnv).

Lemma runRequest_inv s wid msg s' wid' :
  runRequest s wid msg = Ok (s', wid') -> wid' = wid /\ server s' = server s.
Proof.
  unfold Threads.runRequest. intros H.
  repeat match type of H with
  | (param msg ?k ≫= _) = _ => destruct (param msg k); [rewrite bind_Ok in H|by rewrite bind_Throw in H]
  end.
  revert H. unfold Threads.runThread. destruct (findThread _ _) as [i|]; [|done].
  destruct (threads s !! i) as [t|]; [|done]. destruct (worker t); [done|]. destruct (negb _); [done|]. by intros [= <- <-].
Qed.

(** A request to run a thread is always answered, to its sender only and under
    its id: with success exactly when the thread could be started, and otherwise
    with failure and nothing changed. *)
Theorem manager_run_answered s wid now msg f src id ts other :
  server s = mkServer "manager" false -> requestFields msg "manager_run" src "manager" id ts -> src <> "all" ->
  getField "params" msg = Obj f ->
  exists s' b g, msgHandler s wid now (Obj msg) = Ok (s', Some (Obj g)) /\
    runAnswer src id other b g /\
    (if b : bool then runRequest s wid msg = Ok (s', wid) else s' = s /\ exists e, runRequest s wid msg = Throw e).
Proof.
  intros Hsrv Hreq Hall Hparams. unfold Threads.msgHandler.
  assert (isWorkerRequest (Obj msg) = true) as Hw.
  { apply isWorkerRequest_spec. destruct Hreq as (? & ? & ? & ? & ? & ? & ?). by repeat eexists. }
  pose proof Hreq as (Ht & Hsrc & Hd & _). rewrite Hw, Hd, Ht. cbn.
  assert (forall b, exists g, reply s now msg [("success", Bool b)] = Some (Obj g) /\ runAnswer src id other b g) as Hreply.
  { intros b. unfold reply. rewrite Hsrv.
    destruct (respond_ok msg "manager_run" src "manager" id ts (Result (Obj [("success", Bool b)])) now Hreq)
      as (g & Hg & _ & _ & Hdst & Hid & _ & _ & Hres & _ & Hok); [done|].
    exists g. split; [done|]. split_and!; try done. by apply delivered_to. }
  destruct (runRequest s wid msg) as [[s' wid']|e] eqn:Hrun.
  - destruct (Hreply true) as (g & Hg & Ha). exists s', true, g.
    destruct (runRequest_inv _ _ _ _ _ Hrun) as [-> Hs']. unfold reply in *. by rewrite Hs', Hg.
  - destruct (Hreply false) as (g & Hg & Ha). exists s, false, g.
    unfold param. rewrite Hparams. cbn [getProp]. rewrite bind_Ok, Hg. split_and!; try done. by eexists.
Qed.
End Requests.

Definition sampleRun : list (string * value) :=
  [("type", Str "manager_run"); ("src", Str "plugins"); ("dst", Str "manager"); ("id", Num 5); ("timestamp", Num 100);
   ("params", Obj [("name", Str "SpawnCommand"); ("workerData", Obj [("debug", Bool true); ("command", Str "npm")])])].

Lemma manager_run_answered_witness :
  exists s' b g,
    Threads.msgHandler threadDirectory "/" (fun _ => true) (Arr []) (Obj []) (initial false false false 60000) 9 130
      (Obj sampleRun) = Ok (s', Some (Obj g)) /\ getField "result" g = Obj [("success", Bool b)].
Proof.
  destruct (manager_run_answered threadDirectory "/" (fun _ => true) (Arr []) (Obj []) (initial false false false 60000)
              9 130 sampleRun [("name", Str "SpawnCommand"); ("workerData", Obj [("debug", Bool true); ("command", Str "npm")])]
              "plugins" 5 100 "frontend") as (s' & b & g & Hm & (_ & _ & Hr & _) & _); [done|by repeat split|done|done|].
  exists s', b, g. split; [exact Hm|exact Hr].
Defined.

(** ** The watchdog *)

(** With a positive interval, every thread that is reported as unresponsive has
    been sent a ping by the same pass, and a thread that was heard from during the
    last interval gets neither. *)
Lemma watchdog_reports s now n :
  0 <= intervalMs s -> n ∈ snd (intervalHandler s now) -> exists id, (id, n) ∈ fst (intervalHandler s now).
Proof.
  intros Hms. unfold intervalHandler. cbn [fst snd]. rewrite !list_elem_of_omap.
  intros (t & Ht & Hn). unfold silent in Hn. destruct (worker t) as [id|] eqn:Hw; [|done]. cbn in Hn.
  destruct (Z.ltb_spec (intervalMs s * 2) (now - default 0 (lastSeen t))); [|done]. injection Hn as <-.
  exists id. rewrite list_elem_of_omap. exists t. split; [done|]. unfold silent. rewrite Hw.
  destruct (Z.ltb_spec (intervalMs s) (now - default 0 (lastSeen t))); [done|lia].
Qed.
