(* ===== verification/Bridge.v ===== *)
(** The bridge of [packages/core/src/matterbridge.ts]: server and aggregator nodes,
    their numbers and storage contexts, and the endpoints that plugins add and
    remove; with [helpers.ts] for the virtual devices. The plugin manager and the
    device manager are the components of their own files, on the bridge's state. *)
From S2P Require Import Prelude JsNumber JsValue JsMap Async Wait Validate Broadcast DeviceManager PluginManager.
From stdpp Require Import gmap.
#[local] Open Scope string_scope.

Module Bridge.
Import Broadcast Validate Wait.

(** ** State *)

Abbreviation object := (list (string * value)) (only parsing).
Abbreviation ref := nat (only parsing).

(** A [MatterbridgeEndpoint]: its plain properties, its device types by code, the
    device type list of its descriptor options, its cluster servers, the ids and
    numbers of its child endpoints, and its server node in mode server. *)
Record Device := mkDevice {
  isEndpoint : bool;
  fields : object;
  deviceTypes : list Z;
  deviceTypeList : option (list (Z * Z));
  clusters : list Z;
  childEndpoints : list (value * value);
  ownNode : option ref
}.

(** What a server node is created with. *)
Record NodeOptions := mkOptions { o_id : value; o_port : value; o_passcode : value; o_discriminator : value; o_info : object }.

(** A server node, or without options an aggregator; and the ids of its parts. *)
Record Node := mkNode { n_id : value; n_options : option NodeOptions; n_parts : list value }.

(** The properties of a plugin object that only the bridge uses. *)
Record Extra := mkExtra { aggregator : option ref; storageContext : option string; accessory : option ref }.

(** The part of the state that concerns matter.js. *)
Record Matter := mkMatter {
  nodes : gmap ref Node;
  serverNode : option ref;
  aggregatorNode : option ref;
  port : value; passcode : value; discriminator : value;
  storageService : bool;
  managers : list string;               (* the store ids with an open storage manager *)
  contexts : gmap string object;        (* the context persist of each store *)
  draws : nat                           (* random numbers drawn so far *)
}.

Record World := mkWorld {
  pm : PluginManager.World;
  extras : gmap ref Extra;
  devices : gmap ref Device;
  registry : jsmap value ref;           (* [_devices] of the device manager *)
  bridgeMode : value;
  matterbridgeVersion : string;
  osRelease : string;
  matter : Matter;
  subscriptions : list (ref * option nat * string * string)
}.

Definition noDevice : Device := mkDevice false [] [] None [] [] None.
Definition device (w : World) (r : ref) : Device := default noDevice (devices w !! r).
Definition dget (w : World) (r : ref) (k : string) : value := getField k (fields (device w r)).
Definition extra (w : World) (r : ref) : Extra := default (mkExtra None None None) (extras w !! r).
Definition node (w : World) (r : ref) : Node := default (mkNode Undefined None []) (nodes (matter w) !! r).
Definition pget (w : World) (r : ref) (k : string) : value := PluginManager.pget (pm w) r k.
Definition pluginNode (w : World) (r : ref) : option ref := PluginManager.serverNode (PluginManager.plugin (pm w) r).

Definition setPm (p : PluginManager.World) (w : World) : World :=
  mkWorld p (extras w) (devices w) (registry w) (bridgeMode w) (matterbridgeVersion w) (osRelease w) (matter w) (subscriptions w).
Definition setExtra (r : ref) (e : Extra) (w : World) : World :=
  mkWorld (pm w) (<[r := e]> (extras w)) (devices w) (registry w) (bridgeMode w) (matterbridgeVersion w) (osRelease w) (matter w)
    (subscriptions w).
Definition setDevice (r : ref) (d : Device) (w : World) : World :=
  mkWorld (pm w) (extras w) (<[r := d]> (devices w)) (registry w) (bridgeMode w) (matterbridgeVersion w) (osRelease w) (matter w)
    (subscriptions w).
Definition setRegistry (m : jsmap value ref) (w : World) : World :=
  mkWorld (pm w) (extras w) (devices w) m (bridgeMode w) (matterbridgeVersion w) (osRelease w) (matter w) (subscriptions w).
Definition setMatter (m : Matter) (w : World) : World :=
  mkWorld (pm w) (extras w) (devices w) (registry w) (bridgeMode w) (matterbridgeVersion w) (osRelease w) m (subscriptions w).
Definition addSubscriptions (l : list (ref * option nat * string * string)) (w : World) : World :=
  mkWorld (pm w) (extras w) (devices w) (registry w) (bridgeMode w) (matterbridgeVersion w) (osRelease w) (matter w)
    (subscriptions w ++ l)%list.

(** Assignments to properties of plugins and devices. *)
Definition pset (r : ref) (kvs : object) (w : World) : World := setPm (PluginManager.pset r kvs (pm w)) w.
Definition setPluginNode (r : ref) (n : option ref) (w : World) : World :=
  let p := PluginManager.plugin (pm w) r in
  setPm (PluginManager.setObject r
    (PluginManager.mkPlugin (PluginManager.fields p) (PluginManager.platform p) n (PluginManager.configJson p)) (pm w)) w.
Definition assigned (kvs : object) (d : Device) : Device :=
  mkDevice (isEndpoint d) (foldl (fun f kv => setField (fst kv) (snd kv) f) (fields d) kvs) (deviceTypes d)
    (deviceTypeList d) (clusters d) (childEndpoints d) (ownNode d).
Definition dset (r : ref) (kvs : object) (w : World) : World := setDevice r (assigned kvs (device w r)) w.
Definition setOwnNode (r : ref) (n : option ref) (w : World) : World :=
  let d := device w r in
  setDevice r (mkDevice (isEndpoint d) (fields d) (deviceTypes d) (deviceTypeList d) (clusters d) (childEndpoints d) n) w.

Definition setNodes (n : gmap ref Node) (m : Matter) : Matter :=
  mkMatter n (serverNode m) (aggregatorNode m) (port m) (passcode m) (discriminator m) (storageService m) (managers m)
    (contexts m) (draws m).
Definition setNumbers (p c d : value) (m : Matter) : Matter :=
  mkMatter (nodes m) (serverNode m) (aggregatorNode m) p c d (storageService m) (managers m) (contexts m) (draws m).
Definition setManagers (l : list string) (m : Matter) : Matter :=
  mkMatter (nodes m) (serverNode m) (aggregatorNode m) (port m) (passcode m) (discriminator m) (storageService m) l (contexts m)
    (draws m).
Definition setContext (s : string) (c : object) (m : Matter) : Matter :=
  mkMatter (nodes m) (serverNode m) (aggregatorNode m) (port m) (passcode m) (discriminator m) (storageService m) (managers m)
    (<[s := c]> (contexts m)) (draws m).
Definition setDraws (n : nat) (m : Matter) : Matter :=
  mkMatter (nodes m) (serverNode m) (aggregatorNode m) (port m) (passcode m) (discriminator m) (storageService m) (managers m)
    (contexts m) n.
Definition setMainNodes (s a : option ref) (m : Matter) : Matter :=
  mkMatter (nodes m) s a (port m) (passcode m) (discriminator m) (storageService m) (managers m) (contexts m) (draws m).

(** ** Calls of matter.js *)

(** An endpoint that can be added to a node: a device, an aggregator, or a virtual
    device by its id. *)
Inductive Part := DevicePart (r : ref) | AggregatorPart (n : ref) | VirtualPart (id : string).

Inductive Call :=
  | OpenStorage (storeId : string)      (* createDirectory and StorageService.open *)
  | CreateServerNode (o : NodeOptions)
  | Add (parent : ref) (part : Part)
  | Ready (part : Part)
  | AddDeviceTypes (part : Part) (deviceType : string)
  | TurnOff (part : Part)
  | Delete (d : ref)
  | StartNode (n : ref)
  | CloseNode (n : ref).

Definition pause : async World unit := await (mret tt).

(** A parameter with a default value. *)
Definition defaulted (v d : value) : value := if isUndefined v then d else v.

(** What the bridge is surrounded by: what matter.js does on a call, the random
    numbers, the answer of [hasAttributeServer] (a child endpoint is given by its
    place), the ticks of a [waiter] before its timer, the escape sequences of a log
    line, and the description of the aggregators from the command line. *)
Record Env := mkEnv {
  matterjs : Call -> async World unit;
  randomPasscode : nat -> Z;
  randomDiscriminator : nat -> Z;
  randomHex : nat -> string;
  hasAttributeServer : World -> ref -> option nat -> string -> string -> bool;
  ticks : nat;
  dev : string;
  er : string;
  aggregatorDeviceType : value;
  aggregatorVendorId : value;
  aggregatorVendorName : value;
  aggregatorProductId : value;
  aggregatorProductName : value
}.

Section Bridge.
Context (env : Env).

Definition draw : async World nat :=
  n ← gets (fun w => draws (matter w));
  _ ← modify (fun w => setMatter (setDraws (S n) (matter w)) w);
  mret n.

(** ** Server nodes *)

Definition newNode (n : Node) : async World ref :=
  r ← gets (fun w => fresh (dom (nodes (matter w))));
  _ ← modify (fun w => setMatter (setNodes (<[r := n]> (nodes (matter w))) (matter w)) w);
  mret r.

(** [await storageContext.set(k, v)]. *)
Definition storeSet (storeId k : string) (v : value) : async World unit :=
  await (modify (fun w =>
    setMatter (setContext storeId (setField k v (default [] (contexts (matter w) !! storeId))) (matter w)) w)).

(** [await storageContext.get(k, d)]. *)
Definition storeGet (storeId k : string) (d : value) : async World value :=
  await (gets (fun w => defaulted (getField k (default [] (contexts (matter w) !! storeId))) d)).

Definition slice32 (v : value) : value := Str (strTake 32 (toText v)).

(** The number of a version, or 1. *)
Definition versionNumber (v : string) (max : Z) : value :=
  match parseVersionString (Str v) with
  | Some n => if isValidNumber (Num n) (Some 0%Z) (Some max) then Num n else Num 1
  | None => Num 1
  end.

Definition versionText (v : string) : value :=
  if isValidString (Str v) (Some 5%Z) (Some 64%Z) then Str v else Str "1.0.0".

(** The store id stands for the storage context. *)
Definition createServerNodeContext (storeId : string) (deviceName deviceType vendorId vendorName productId productName
    serialNumber uniqueId : value) : async World string :=
  _ ← pause;
  w ← ask;
  if negb (storageService (matter w)) then Raise (Error (js "No storage service initialized"))
  else
    _ ← await (matterjs env (OpenStorage storeId));
    _ ← modify (fun w => setMatter (setManagers (if bool_decide (storeId ∈ managers (matter w)) then managers (matter w)
                                                  else managers (matter w) ++ [storeId])%list (matter w)) w);
    n ← draw;
    _ ← storeSet storeId "storeId" (Str storeId);
    _ ← storeSet storeId "deviceName" deviceName;
    _ ← storeSet storeId "deviceType" deviceType;
    _ ← storeSet storeId "vendorId" vendorId;
    _ ← storeSet storeId "vendorName" (slice32 vendorName);
    _ ← storeSet storeId "productId" productId;
    _ ← storeSet storeId "productName" (slice32 productName);
    _ ← storeSet storeId "productLabel" (Str (strTake 32 (strTrim (strReplace (toText productName) (toText vendorName) ""))));
    _ ← storeSet storeId "nodeLabel" (slice32 deviceName);
    sn ← storeGet storeId "serialNumber" (if truthy serialNumber then slice32 serialNumber else Str ("SN" ++ randomHex env n));
    _ ← storeSet storeId "serialNumber" sn;
    ui ← storeGet storeId "uniqueId" (if truthy uniqueId then slice32 uniqueId else Str ("UI" ++ randomHex env n));
    _ ← storeSet storeId "uniqueId" ui;
    _ ← storeSet storeId "softwareVersion" (versionNumber (matterbridgeVersion w) 0xffffffff);
    _ ← storeSet storeId "softwareVersionString" (versionText (matterbridgeVersion w));
    _ ← storeSet storeId "hardwareVersion" (versionNumber (osRelease w) 0xffff);
    _ ← storeSet storeId "hardwareVersionString" (versionText (osRelease w));
    mret storeId.

(** A number out of range is replaced by a random one. *)
Definition inRange (lo hi : Z) (random : nat -> Z) (v : value) : async World value :=
  match v with
  | Num n => if (n <? lo)%Z || (hi <? n)%Z then i ← draw; mret (Num (random i)) else mret v
  | _ => mret v
  end.

Definition createServerNode (ctx : string) (port passcode discriminator : value) : async World ref :=
  let port := defaulted port (Num 5540) in
  let passcode := defaulted passcode (Num 20242025) in
  let discriminator := defaulted discriminator (Num 3850) in
  storeId ← storeGet ctx "storeId" Undefined;
  passcode ← inRange 0 99999999 (randomPasscode env) passcode;
  discriminator ← inRange 0 0xfff (randomDiscriminator env) discriminator;
  info ← await (gets (fun w => default [] (contexts (matter w) !! ctx)));
  let o := mkOptions storeId port passcode discriminator info in
  _ ← await (matterjs env (CreateServerNode o));
  newNode (mkNode storeId (Some o) []).

Definition createAggregatorNode (ctx : string) : async World ref :=
  storeId ← storeGet ctx "storeId" Undefined;
  newNode (mkNode storeId None []).

(** [this.n ? this.n++ : undefined], for the three numbers of a node. *)
Definition bump (v : value) : value := match v with Num n => if truthy v then Num (n + 1) else v | _ => v end.
Definition taken (v : value) : value := if truthy v then v else Undefined.

Definition takeNumbers : async World (value * value * value) :=
  w ← ask;
  let m := matter w in
  _ ← modify (fun w => setMatter (setNumbers (bump (port m)) (bump (passcode m)) (bump (discriminator m)) (matter w)) w);
  mret (taken (port m), taken (passcode m), taken (discriminator m)).

(** The properties every server node of a device needs. *)
Definition describesNode (w : World) (d : ref) : bool :=
  truthy (dget w d "deviceType") && truthy (dget w d "deviceName") && truthy (dget w d "vendorId") &&
  truthy (dget w d "productId") && truthy (dget w d "vendorName") && truthy (dget w d "productName").

Definition createAccessoryPlugin (p d : ref) : async World unit :=
  w ← ask;
  if negb (truthy (pget w p "locked")) && describesNode w d then
    _ ← modify (pset p [("locked", Bool true)]);
    _ ← modify (fun w => setExtra p (mkExtra (aggregator (extra w p)) (storageContext (extra w p)) (Some d)) w);
    ctx ← await (createServerNodeContext (toText (pget w p "name")) (dget w d "deviceName") (dget w d "deviceType")
                   (dget w d "vendorId") (dget w d "vendorName") (dget w d "productId") (dget w d "productName")
                   (dget w d "serialNumber") (dget w d "uniqueId"));
    _ ← modify (fun w => setExtra p (mkExtra (aggregator (extra w p)) (Some ctx) (accessory (extra w p))) w);
    '(a, b, c) ← takeNumbers;
    n ← await (createServerNode ctx a b c);
    _ ← modify (setPluginNode p (Some n));
    await (matterjs env (Add n (DevicePart d)))
  else mret tt.

Definition createDynamicPlugin (p : ref) : async World unit :=
  w ← ask;
  if negb (truthy (pget w p "locked")) then
    _ ← modify (pset p [("locked", Bool true)]);
    ctx ← await (createServerNodeContext (toText (pget w p "name")) (pget w p "description") (aggregatorDeviceType env)
                   (aggregatorVendorId env) (aggregatorVendorName env) (aggregatorProductId env) (aggregatorProductName env) Undefined Undefined);
    _ ← modify (fun w => setExtra p (mkExtra (aggregator (extra w p)) (Some ctx) (accessory (extra w p))) w);
    '(a, b, c) ← takeNumbers;
    n ← await (createServerNode ctx a b c);
    _ ← modify (setPluginNode p (Some n));
    g ← await (createAggregatorNode ctx);
    _ ← modify (fun w => setExtra p (mkExtra (Some g) (storageContext (extra w p)) (accessory (extra w p))) w);
    await (matterjs env (Add n (AggregatorPart g)))
  else mret tt.

(** [deviceName.replace(/[ .]/g, '')]. *)
Definition deviceStoreId (deviceName : string) : string :=
  strKeep (fun a => negb (charIs 32 a) && negb (charIs 46 a)) deviceName.

Definition createDeviceServerNode (p d : ref) : async World unit :=
  w ← ask;
  if isStr (dget w d "mode") "server" && (match ownNode (device w d) with None => true | Some _ => false end) &&
     describesNode w d
  then
    ctx ← await (createServerNodeContext (deviceStoreId (toText (dget w d "deviceName"))) (dget w d "deviceName")
                   (dget w d "deviceType") (dget w d "vendorId") (dget w d "vendorName") (dget w d "productId")
                   (dget w d "productName") (dget w d "serialNumber") (dget w d "uniqueId"));
    '(a, b, c) ← takeNumbers;
    n ← await (createServerNode ctx a b c);
    _ ← modify (setOwnNode d (Some n));
    await (matterjs env (Add n (DevicePart d)))
  else mret tt.

(** ** Endpoints of the plugins *)

(** The device manager of its own file, on the devices of the bridge. *)
Definition manager (w : World) : DeviceManager.DeviceManager :=
  DeviceManager.mkManager (registry w) (fields <$> devices w) (mkServer "devices" false) (Str "info").

(** [this.devices.set(device)] and [this.devices.remove(device)]. *)
Definition devicesSet (d : ref) : async World unit :=
  w ← ask;
  '(s, _) ← liftRes (DeviceManager.set (dev env) (er env) (manager w) d);
  modify (setRegistry (DeviceManager._devices s)).

Definition devicesRemove (d : ref) : async World unit :=
  w ← ask;
  '(s, _) ← liftRes (DeviceManager.remove (dev env) (er env) (manager w) (fields (device w d)));
  modify (setRegistry (DeviceManager._devices s)).

(** [if (plugin.registeredDevices !== undefined) plugin.registeredDevices += n]. *)
Definition count (p : ref) (n : Z) (w : World) : World :=
  match pget w p "registeredDevices" with
  | Num k => pset p [("registeredDevices", Num (k + n))] w
  | _ => w
  end.

(** The attributes the frontend follows. *)
Definition subscribed : list (string * string) :=
  [("BridgedDeviceBasicInformation", "reachable"); ("OnOff", "onOff"); ("LevelControl", "currentLevel");
   ("ColorControl", "colorMode"); ("ColorControl", "currentHue"); ("ColorControl", "currentSaturation");
   ("ColorControl", "currentX"); ("ColorControl", "currentY"); ("ColorControl", "colorTemperatureMireds");
   ("Thermostat", "localTemperature"); ("Thermostat", "occupiedCoolingSetpoint"); ("Thermostat", "occupiedHeatingSetpoint");
   ("Thermostat", "systemMode"); ("Thermostat", "thermostatRunningMode"); ("Thermostat", "thermostatRunningState");
   ("WindowCovering", "operationalStatus"); ("WindowCovering", "currentPositionLiftPercent100ths"); ("DoorLock", "lockState");
   ("PumpConfigurationAndControl", "pumpStatus"); ("FanControl", "fanMode"); ("FanControl", "fanModeSequence");
   ("FanControl", "percentSetting"); ("ModeSelect", "currentMode"); ("RvcRunMode", "currentMode");
   ("RvcCleanMode", "currentMode"); ("RvcOperationalState", "operationalState"); ("RvcOperationalState", "operationalError");
   ("ServiceArea", "currentArea"); ("AirQuality", "airQuality");
   ("TotalVolatileOrganicCompoundsConcentrationMeasurement", "measuredValue"); ("BooleanState", "stateValue");
   ("OccupancySensing", "occupancy"); ("IlluminanceMeasurement", "measuredValue"); ("TemperatureMeasurement", "measuredValue");
   ("RelativeHumidityMeasurement", "measuredValue"); ("PressureMeasurement", "measuredValue");
   ("FlowMeasurement", "measuredValue"); ("SmokeCoAlarm", "smokeState"); ("SmokeCoAlarm", "coState")].

(** The subscriptions to one attribute: on the device, then on its children. *)
Definition subscriptionsOf (w : World) (d : ref) (ca : string * string) : list (ref * option nat * string * string) :=
  let at_ i := if hasAttributeServer env w d i (fst ca) (snd ca) then [(d, i, fst ca, snd ca)] else [] in
  (at_ None ++ concat (map (fun i => at_ (Some i)) (seq 0 (length (childEndpoints (device w d))))))%list.

Definition subscribeAttributeChanged (p d : ref) : async World unit :=
  w ← ask;
  if negb (truthy (dget w d "plugin")) || negb (truthy (dget w d "serialNumber")) || negb (truthy (dget w d "uniqueId")) ||
     negb (truthy (dget w d "maybeNumber"))
  then mret tt
  else
    _ ← (if isStr (bridgeMode w) "childbridge" && isStr (pget w p "type") "AccessoryPlatform" &&
            (match pluginNode w p with Some _ => true | None => false end)
         then modify (addSubscriptions [(d, None, "BasicInformation", "reachable")]) else mret tt);
    modify (addSubscriptions (concat (map (subscriptionsOf w d) subscribed))).

(** [try { .. } catch { inspectError; return }]: false where the caller returns. *)
Definition attempt (m : async World bool) : async World bool := catch m (fun _ => mret false).

Definition addPart (n d : ref) : async World bool := _ ← await (matterjs env (Add n (DevicePart d))); mret true.

(** [serverNode?.hasParts === true]. *)
Definition hasParts (w : World) (n : option ref) : bool :=
  match n with Some n => match n_parts (node w n) with [] => false | _ => true end | None => false end.

(** An endpoint of an accessory platform in mode childbridge. *)
Definition placeAccessory (p d : ref) : async World bool :=
  w ← ask;
  match pluginNode w p with
  | Some n => if isStr (dget w d "mode") "matter" then addPart n d else mret false
  | None => _ ← await (createAccessoryPlugin p d); mret true
  end.

(** An endpoint of a dynamic platform in mode childbridge. *)
Definition placeDynamic (p d : ref) : async World bool :=
  _ ← await (createDynamicPlugin p);
  _ ← await (waiter (fun w => hasParts w (pluginNode w p)) false (ticks env));
  w ← ask;
  match aggregator (extra w p) with
  | None => mret false
  | Some g =>
      if isStr (dget w d "mode") "matter" then
        match pluginNode w p with Some n => addPart n d | None => mret true end
      else addPart g d
  end.

(** The node of an endpoint by its mode and the mode of the bridge; false where
    [addBridgedEndpoint] returns. *)
Definition place (p d : ref) : async World bool :=
  w ← ask;
  if isStr (dget w d "mode") "server" then attempt (_ ← await (createDeviceServerNode p d); mret true)
  else if isStr (bridgeMode w) "bridge" then
    match (if isStr (dget w d "mode") "matter" then serverNode (matter w) else aggregatorNode (matter w)) with
    | None => mret false
    | Some n => attempt (addPart n d)
    end
  else if isStr (bridgeMode w) "childbridge" then
    placed ← (if isStr (pget w p "type") "AccessoryPlatform" then attempt (placeAccessory p d) else mret true);
    if placed : bool then
      w ← ask;
      if isStr (pget w p "type") "DynamicPlatform" then attempt (placeDynamic p d) else mret true
    else mret false
  else mret true.

Definition addBridgedEndpoint (pluginName : value) (d : ref) : async World unit :=
  _ ← pause;
  w ← ask;
  match PluginManager.get (pm w) pluginName with
  | None => mret tt
  | Some p =>
      placed ← place p d;
      if placed : bool then
        _ ← devicesSet d;
        _ ← await (subscribeAttributeChanged p d);
        modify (count p 1)
      else mret tt
  end.

Definition removeBridgedEndpoint (pluginName : value) (d : ref) : async World unit :=
  w ← ask;
  match PluginManager.get (pm w) pluginName with
  | None => mret tt
  | Some p =>
      if isStr (dget w d "mode") "server" then devicesRemove d
      else if isStr (bridgeMode w) "bridge" then
        match aggregatorNode (matter w) with
        | None => mret tt
        | Some _ =>
            _ ← await (matterjs env (Delete d));
            _ ← modify (count p (-1));
            devicesRemove d
        end
      else if isStr (bridgeMode w) "childbridge" then
        if isStr (pget w p "type") "AccessoryPlatform" then _ ← modify (count p (-1)); devicesRemove d
        else if isStr (pget w p "type") "DynamicPlatform" then
          match aggregator (extra w p) with
          | None => mret tt
          | Some _ =>
              _ ← await (matterjs env (Delete d));
              _ ← modify (count p (-1));
              devicesRemove d
          end
        else _ ← modify (count p (-1)); devicesRemove d
      else devicesRemove d
  end.

(** The devices of the list, one after the other. *)
Fixpoint removeEach (pluginName : value) (delay : Z) (l : list ref) : async World unit :=
  match l with
  | [] => mret tt
  | d :: l =>
      _ ← await (removeBridgedEndpoint pluginName d);
      _ ← (if (0 <? delay)%Z then wait else mret tt);
      removeEach pluginName delay l
  end.

Definition removeAllBridgedEndpoints (pluginName : value) (delay : Z) : async World unit :=
  _ ← pause;
  w ← ask;
  _ ← removeEach pluginName delay
        (List.filter (fun d => bool_decide (dget w d "plugin" = pluginName)) (DeviceManager.array (manager w)));
  if (0 <? delay)%Z then wait else mret tt.

(** *** Virtual devices *)

Definition withoutSpaces (s : string) : string := strKeep (fun a => negb (charIs 32 a)) s.
Definition virtualId (n t : string) : string := withoutSpaces n ++ ":" ++ t.

(** [addVirtualDevice] of [helpers.ts]. *)
Definition addVirtualDevice (g : ref) (n t : string) : async World unit :=
  let part := VirtualPart (virtualId n t) in
  _ ← await (matterjs env (Add g part));
  _ ← await (matterjs env (Ready part));
  _ ← (if bool_decide (t = "mounted_switch") then await (matterjs env (AddDeviceTypes part "OnOffPlugInUnit")) else mret tt);
  await (matterjs env (TurnOff part)).

Definition addVirtualEndpoint (pluginName : value) (n t : string) : async World bool :=
  w ← ask;
  match PluginManager.get (pm w) pluginName with
  | None => mret false
  | Some p =>
      match (if isStr (bridgeMode w) "bridge" then aggregatorNode (matter w)
             else if isStr (bridgeMode w) "childbridge" && isStr (pget w p "type") "DynamicPlatform"
             then aggregator (extra w p) else None) with
      | None => mret false
      | Some g =>
          if bool_decide (Str (virtualId n t) ∈ n_parts (node w g)) then mret false
          else _ ← await (addVirtualDevice g (strTake 32 n) t); mret true
      end
  end.
End Bridge.
End Bridge.
