(* ===== verification/BridgeFacts.v ===== *)
(** Properties of the bridge: the numbers of the server nodes, the nodes of the
    plugins, and the counts of registered devices, under every interleaving of the
    operations that plugins and the frontend start. *)
From S2P Require Import Prelude JsValue JsMap Async Ownership Wait Validate Broadcast DeviceManager PluginManager Bridge.
From stdpp Require Import gmap relations.
Import Broadcast Bridge.
#[local] Open Scope string_scope.

(** ** What matter.js leaves alone *)

(** The properties of a device that matter.js does not set. *)
Definition ownFields (d : Device) : bool * list (string * value) * option nat :=
  (isEndpoint d, List.filter (fun kv => negb (bool_decide (fst kv = "maybeNumber"))) (fields d), ownNode d).

(** The state of the bridge itself: not the parts of the nodes, which matter.js
    adds, and not the numbers it gives to endpoints. *)
Definition ownState (w : World) :=
  (pm w, extras w, ownFields <$> devices w, registry w, bridgeMode w,
   (fun n => (n_id n, n_options n)) <$> nodes (matter w),
   (serverNode (matter w), aggregatorNode (matter w)),
   (port (matter w), passcode (matter w), discriminator (matter w)),
   contexts (matter w), draws (matter w)).

(** matter.js works on its nodes and endpoints only. *)
Definition MatterQuiet (env : Env) : Prop := forall c, quiet ownState (matterjs env c).

(** ** The operations that run side by side *)

Inductive Op :=
  | AddEndpoint (pluginName : value) (d : nat)
  | RemoveEndpoint (pluginName : value) (d : nat)
  | RemoveAll (pluginName : value) (delay : Z)
  | AddVirtual (pluginName : value) (name type : string)
  | CreateDynamic (p : nat).

Definition perform (env : Env) (op : Op) : async World unit :=
  match op with
  | AddEndpoint n d => addBridgedEndpoint env n d
  | RemoveEndpoint n d => removeBridgedEndpoint env n d
  | RemoveAll n delay => removeAllBridgedEndpoints env n delay
  | AddVirtual n name type => _ ← addVirtualEndpoint env n name type; mret tt
  | CreateDynamic p => createDynamicPlugin env p
  end.

(** ** Numbers *)

Definition portOf (w : World) (r : nat) : option Z :=
  match n_options (node w r) with
  | Some o => match o_port o with Num p => Some p | _ => None end
  | None => None
  end.

(** Server nodes have different ports, and the ports that were handed out, to nodes
    or to tasks that are about to create one, are below the next one. *)
Definition PortsOk (rho : list Z) (w : World) : Prop :=
  exists p, port (matter w) = Num p /\ (0 < p)%Z /\ NoDup rho /\ Forall (fun q => (q < p)%Z) rho /\
    (forall r q, portOf w r = Some q -> (q < p)%Z /\ (q ∉ rho)) /\
    (forall r r' q, portOf w r = Some q -> portOf w r' = Some q -> r = r').

Lemma PortsOk_perm rho rho' w : rho ≡ₚ rho' -> PortsOk rho w -> PortsOk rho' w.
Proof.
  intros Hp (p & Hport & Hpos & Hnd & Hall & Hn & Hinj). exists p. rewrite <- Hp. split_and!; [done..| |done].
  intros r q Hq. rewrite <- Hp. by apply (Hn r).
Qed.

(** What the invariant looks at. *)
Definition portView (w : World) := (port (matter w), n_options <$> nodes (matter w)).

Lemma portView_portOf w w' r : portView w' = portView w -> portOf w' r = portOf w r.
Proof.
  intros Hv. injection Hv as _ Hn. apply (f_equal (lookup r)) in Hn. rewrite !lookup_fmap in Hn. unfold portOf, node.
  destruct (nodes (matter w') !! r) as [n|], (nodes (matter w) !! r) as [n'|]; cbn in *; try done. by injection Hn as ->.
Qed.

Lemma PortsOk_view rho w w' : portView w' = portView w -> PortsOk rho w -> PortsOk rho w'.
Proof.
  intros Hv (p & Hport & Hpos & Hnd & Hall & Hlt & Hinj). exists p. split_and!; [|done..| |].
  - injection Hv as Hp _. by rewrite Hp.
  - intros r q. rewrite (portView_portOf w w') by done. apply Hlt.
  - intros r r' q. rewrite !(portView_portOf w w') by done. apply Hinj.
Qed.

Lemma ownState_portView w w' : ownState w' = ownState w -> portView w' = portView w.
Proof.
  intros Hv. unfold ownState in Hv. unfold portView. injection Hv as _ _ _ _ _ Hn _ _ Hp _ _ _ _. f_equal; [done|].
  apply (f_equal (fmap snd)) in Hn. rewrite <- !map_fmap_compose in Hn. exact Hn.
Qed.

Section Ports.
Context (env : Env) (Hquiet : MatterQuiet env).

Lemma quiet_free {A} (m : async World A) : quiet portView m -> free PortsOk m.
Proof. apply free_quiet. exact PortsOk_view. Qed.

Lemma matter_ports c : quiet portView (matterjs env c).
Proof. eapply quiet_mono; [exact ownState_portView|apply Hquiet]. Qed.

Lemma draw_ports : quiet portView draw.
Proof. unfold draw. by quieting. Qed.

Lemma inRange_ports lo hi random v : quiet portView (inRange lo hi random v).
Proof. unfold inRange. quieting; apply draw_ports. Qed.

Lemma context_ports a b c d e f g h i : quiet portView (createServerNodeContext env a b c d e f g h i).
Proof. unfold createServerNodeContext, pause, storeSet, storeGet. quieting; by try (apply matter_ports || apply draw_ports). Qed.

(** A port is taken out of the counter. *)
Lemma wp_takeNumbers rho w (Q : res (value * value * value) -> list Z -> World -> Prop) :
  (forall q b c w', ok PortsOk (q :: rho) w' -> Q (Ok (Num q, b, c)) (q :: rho) w') -> wp PortsOk takeNumbers rho w Q.
Proof.
  intros HQ. unfold takeNumbers. owning. destruct H as (sigma & p & Hport & Hpos & _).
  rewrite Hport. assert (bump (Num p) = Num (p + 1)) as Hb.
  { cbn. by rewrite (proj2 (Z.eqb_neq p 0)) by lia. }
  assert (taken (Num p) = Num p) as Ht. { unfold taken. cbn. by rewrite (proj2 (Z.eqb_neq p 0)) by lia. }
  rewrite Hb, Ht. apply (wp_modify _ (p :: rho)).
  - intros tau (p' & Hport' & _ & Hnd & Hall & Hlt & Hinj). assert (p' = p) as -> by congruence.
    exists (p + 1)%Z. split_and!; [done|lia| | | |exact Hinj].
    + cbn. constructor; [|done]. intros Hin. rewrite Forall_forall in Hall. specialize (Hall p Hin). lia.
    + cbn. constructor; [lia|]. eapply Forall_impl; [exact Hall|]. cbn. lia.
    + intros r q Hq. destruct (Hlt r q Hq) as [H1 H2]. split; [lia|]. cbn. apply not_elem_of_cons. split; [lia|done].
  - intros Hok. apply wp_mret. intros _. by apply HQ.
Qed.

Lemma portOf_newNode r n w r' :
  portOf (setMatter (setNodes (<[r := n]> (nodes (matter w))) (matter w)) w) r' =
  if decide (r = r') then match n_options n with Some o => match o_port o with Num p => Some p | _ => None end | None => None end
  else portOf w r'.
Proof.
  unfold portOf, node. cbn. case_decide as E; [subst; by rewrite lookup_insert_eq|by rewrite lookup_insert_ne].
Qed.

(** A node uses up the port of its task. *)
Lemma wp_newNode q n o rho w (Q : res nat -> list Z -> World -> Prop) :
  n_options n = Some o -> o_port o = Num q ->
  (forall r w', Q (Ok r) rho w') -> wp PortsOk (newNode n) (q :: rho) w Q.
Proof.
  intros Hn Ho HQ. unfold newNode. owning. set (r := fresh (dom (nodes (matter w)))). apply (wp_modify _ rho).
  - intros tau (p & Hport & Hpos & Hnd & Hall & Hlt & Hinj). cbn in Hnd, Hall.
    apply NoDup_cons in Hnd as [Hq Hnd]. apply Forall_cons in Hall as [Hqp Hall].
    exists p. split_and!; [done..| |]; intros r'; setoid_rewrite portOf_newNode; rewrite Hn, Ho.
    + intros q'. case_decide; [intros [= <-]; done|]. intros Hq'. destruct (Hlt r' q' Hq') as [H1 H2].
      split; [done|]. cbn in H2. by apply not_elem_of_cons in H2 as [_ ?].
    + intros r'' q'. repeat case_decide; [congruence| | |apply Hinj]; subst; intros Ha Hb; exfalso.
      * injection Ha as <-. destruct (Hlt _ _ Hb) as [_ Hc]. cbn in Hc. by apply not_elem_of_cons in Hc as [? _].
      * injection Hb as <-. destruct (Hlt _ _ Ha) as [_ Hc]. cbn in Hc. by apply not_elem_of_cons in Hc as [? _].
  - intros _. apply wp_mret. intros _. apply HQ.
Qed.

(** A quiet computation keeps the tokens of its task. *)
Lemma wp_ports {A} (m : async World A) rho w (Q : res A -> list Z -> World -> Prop) :
  quiet portView m -> (forall r w', ok PortsOk rho w' -> Q r rho w') -> wp PortsOk m rho w Q.
Proof. apply wp_quiet. exact PortsOk_view. Qed.

Lemma wp_createServerNode ctx q b c rho w (Q : res nat -> list Z -> World -> Prop) :
  (forall r rho w, Q r rho w) -> wp PortsOk (createServerNode env ctx (Num q) b c) (q :: rho) w Q.
Proof.
  intros HQ. unfold createServerNode, storeGet. change (defaulted (Num q) (Num 5540)) with (Num q). owning.
  apply wp_ports; [apply inRange_ports|]. intros [pc|e] w1 _; [|apply HQ]. owning.
  apply wp_ports; [apply inRange_ports|]. intros [dc|e] w2 _; [|apply HQ]. owning.
  apply wp_ports; [apply matter_ports|]. intros [u|e] w3 _ w4 _; [|apply HQ].
  eapply wp_newNode; [done|done|]. intros. apply HQ.
Qed.

(** The pattern of every creation of a server node. *)
Lemma numbered_free {B} ctx (k : nat -> async World B) :
  (forall n, free PortsOk (k n)) ->
  free PortsOk ('(a, b, c) ← takeNumbers; n ← await (createServerNode env ctx a b c); k n).
Proof.
  intros Hk rho w. apply wp_bind, wp_takeNumbers. intros q b c w' _. apply wp_bind, wp_await, wp_createServerNode.
  intros [n|e] rho' w1 w2 _; [apply Hk|done].
Qed.

(** Opens an operation; what is left are the writes and calls that should be quiet. *)
Ltac ports :=
  repeat first [match goal with |- free _ (mbind _ takeNumbers) => apply numbered_free; intros ? end | freeing_step];
  try (apply quiet_free; quieting; first [done | apply matter_ports | apply context_ports | apply quiet_waiter]).

Lemma accessory_free p d : free PortsOk (createAccessoryPlugin env p d).
Proof. unfold createAccessoryPlugin. ports. Qed.

Lemma aggregator_free ctx : free PortsOk (createAggregatorNode ctx).
Proof.
  unfold createAggregatorNode, storeGet, newNode. freeing. apply free_modify.
  intros rho w (p & Hport & Hpos & Hnd & Hall & Hlt & Hinj). exists p. split_and!; [done..| |].
  - intros r q. rewrite portOf_newNode. case_decide; [done|apply Hlt].
  - intros r r' q. rewrite !portOf_newNode. repeat case_decide; try done. apply Hinj.
Qed.

Lemma dynamic_free p : free PortsOk (createDynamicPlugin env p).
Proof. unfold createDynamicPlugin. ports. apply aggregator_free. Qed.

Lemma deviceNode_free p d : free PortsOk (createDeviceServerNode env p d).
Proof. unfold createDeviceServerNode. ports. Qed.

Lemma count_ports p n w : portView (count p n w) = portView w.
Proof. unfold count. by destruct (pget w p "registeredDevices"). Qed.

Lemma place_free p d : free PortsOk (place env p d).
Proof.
  unfold place, attempt, placeAccessory, placeDynamic, addPart. ports; try apply deviceNode_free; try apply accessory_free;
    try apply dynamic_free.
Qed.

Lemma remove_free n d : free PortsOk (removeBridgedEndpoint env n d).
Proof.
  unfold removeBridgedEndpoint, devicesRemove. ports; apply quiet_free; quieting; apply count_ports.
Qed.

Lemma removeEach_free n delay l : free PortsOk (removeEach env n delay l).
Proof.
  induction l as [|d l IH]; cbn [removeEach]; unfold Wait.wait; freeing; [apply remove_free|exact IH].
Qed.

Lemma perform_free op : free PortsOk (perform env op).
Proof.
  destruct op as [n d|n d|n delay|n name type|p]; cbn [perform].
  - unfold addBridgedEndpoint, pause, devicesSet, subscribeAttributeChanged. ports; try apply place_free.
    apply quiet_free. quieting. apply count_ports.
  - apply remove_free.
  - unfold removeAllBridgedEndpoints, pause, Wait.wait. freeing; apply removeEach_free.
  - unfold addVirtualEndpoint, addVirtualDevice. ports.
  - apply dynamic_free.
Qed.
End Ports.

(** C12: server nodes never share a port, whatever operations of the bridge run side
    by side and however they interleave at their awaits. *)
Theorem ports_distinct env ops w w' pool p :
  MatterQuiet env -> port (matter w) = Num p -> (0 < p)%Z ->
  (forall r q, portOf w r = Some q -> (q < p)%Z) ->
  (forall r r' q, portOf w r = Some q -> portOf w r' = Some q -> r = r') ->
  rtc turn (w, map (perform env) ops) (w', pool) ->
  forall r r' q, portOf w' r = Some q -> portOf w' r' = Some q -> r = r'.
Proof.
  intros Hquiet Hport Hpos Hlt Hinj Hr.
  destruct (free_turns PortsOk w w' (map (perform env) ops) pool PortsOk_perm) as (rho & q & _ & _ & _ & _ & _ & Hres);
    [| |exact Hr|exact Hres].
  - apply Forall_map, Forall_true. intros op. by apply perform_free.
  - exists p. split_and!; [done|done|constructor|constructor| |done]. intros r q Hq. split; [by eapply Hlt|apply not_elem_of_nil].
Qed.

(** *** A bridge with two dynamic plugins *)

Definition samplePlugin (name : string) : PluginManager.Plugin :=
  PluginManager.mkPlugin [("name", Str name); ("type", Str "DynamicPlatform"); ("description", Str "Lights"); ("registeredDevices", Num 0)]
    None None None.

Definition twoPlugins : World :=
  mkWorld (PluginManager.mkWorld [(Str "hue", 0); (Str "zigbee", 1)] {[ 0 := samplePlugin "hue"; 1 := samplePlugin "zigbee" ]} ∅ ∅ None ∅ [] []
             (Str "info"))
    ∅ ∅ [] (Str "childbridge") "3.5.0" "6.1.0" (mkMatter ∅ None None (Num 5540) (Num 20242025) (Num 3850) true [] ∅ 0) [].

(** matter.js settles every call in a turn of its own, and a node has the parts that
    were added. *)
Definition partId (w : World) (part : Part) : value :=
  match part with
  | DevicePart d => dget w d "uniqueId"
  | AggregatorPart n => n_id (node w n)
  | VirtualPart s => Str s
  end.

Definition addsPart (n : nat) (part : Part) (w : World) : World :=
  setMatter (setNodes (alter (fun x => mkNode (n_id x) (n_options x) (n_parts x ++ [partId w part])%list) n (nodes (matter w)))
    (matter w)) w.

Definition sampleMatter (c : Call) : async World unit :=
  match c with Add n part => await (modify (addsPart n part)) | _ => await (mret tt) end.

Definition sampleEnv : Env :=
  mkEnv sampleMatter (fun _ => 20252026%Z) (fun _ => 1234%Z) (fun _ => "0123456789abcdef")
    (fun _ _ _ _ _ => false) 40 "" "" (Num 14) (Num 65521) (Str "Matterbridge") (Num 32768) (Str "Matterbridge aggregator").

Lemma sampleEnv_quiet : MatterQuiet sampleEnv.
Proof.
  intros c. destruct c as [| |n part| | | | | |]; cbn -[await]; quieting. unfold ownState, addsPart. cbn. do 5 f_equal.
  apply map_eq. intros i. rewrite !lookup_fmap, lookup_alter. case_decide as Hi; [|done]. subst. by destruct (nodes (matter _) !! i).
Qed.

(** Turns of two tasks, one after the other. *)
Fixpoint alternating (n : nat) : list nat := match n with O => [] | S n => 0 :: 1 :: alternating n end.

Lemma ports_distinct_witness :
  let '(w', pool) := schedule (alternating 60) twoPlugins (map (perform sampleEnv) [CreateDynamic 0; CreateDynamic 1]) in
  settledPool pool = true /\ map (portOf w') [0; 1] = [Some 5540%Z; Some 5541%Z] /\
  forall r r' q, portOf w' r = Some q -> portOf w' r' = Some q -> r = r'.
Proof.
  pose proof (schedule_turns (alternating 60) twoPlugins (map (perform sampleEnv) [CreateDynamic 0; CreateDynamic 1])) as Hr.
  pose proof (ports_distinct sampleEnv [CreateDynamic 0; CreateDynamic 1] twoPlugins
    (fst (schedule (alternating 60) twoPlugins (map (perform sampleEnv) [CreateDynamic 0; CreateDynamic 1])))
    (snd (schedule (alternating 60) twoPlugins (map (perform sampleEnv) [CreateDynamic 0; CreateDynamic 1])))
    5540%Z sampleEnv_quiet eq_refl eq_refl) as H.
  rewrite <- surjective_pairing in H. specialize (fun a b => H a b Hr).
  destruct (schedule _ _ _) as [w' pool] eqn:E. split_and!.
  - transitivity (settledPool (snd (w', pool))); [done|]. rewrite <- E. by vm_compute.
  - transitivity (map (portOf (fst (w', pool))) [0; 1]); [done|]. rewrite <- E. by vm_compute.
  - apply H; intros r; unfold portOf, node; cbn; by rewrite lookup_empty.
Defined.
