(* ===== verification/BridgeNodes.v ===== *)
(** A plugin has one server node: the lock of [createAccessoryPlugin] and
    [createDynamicPlugin] holds under every interleaving. *)
From S2P Require Import Prelude JsValue JsMap Async Ownership Wait Validate Broadcast DeviceManager PluginManager Bridge BridgeFacts.
From stdpp Require Import gmap relations.
Import Broadcast Bridge.
#[local] Open Scope string_scope.

(** A server node of the store [s]. *)
Definition serverNamed (w : World) (r : nat) (s : string) : Prop :=
  n_options (node w r) <> None /\ n_id (node w r) = Str s.

Definition locked (w : World) (p : nat) : bool := truthy (pget w p "locked").

(** The plugins are those of [D] and have the names [nm]; no device has a server
    node of its own. *)
Definition setting (D : nat -> Prop) (nm : nat -> string) (w : World) : Prop :=
  (forall d, isStr (dget w d "mode") "server" = false) /\
  (forall p, D p -> is_Some (PluginManager.objects (pm w) !! p) /\ toText (pget w p "name") = nm p) /\
  (forall n p, PluginManager.get (pm w) n = Some p -> D p).

(** A store has at most one server node; a task that owns a store is about to create
    it; and nobody does for a plugin that is not locked. *)
Definition LockOk (D : nat -> Prop) (nm : nat -> string) (rho : list string) (w : World) : Prop :=
  setting D nm w /\
  (forall s c, contexts (matter w) !! s = Some c -> getField "storeId" c = Undefined \/ getField "storeId" c = Str s) /\
  NoDup rho /\
  (forall r s, serverNamed w r s -> s ∉ rho) /\
  (forall r r' s, serverNamed w r s -> serverNamed w r' s -> r = r') /\
  (forall p, D p -> locked w p = false -> (nm p ∉ rho) /\ forall r, ~ serverNamed w r (nm p)).

(** What the invariant looks at. *)
Definition isServer (n : Node) : bool := match n_options n with Some _ => true | None => false end.
Definition lockView (w : World) :=
  ((fun d => getField "mode" (fields d)) <$> devices w,
   (fun p => (getField "name" (PluginManager.fields p), getField "locked" (PluginManager.fields p))) <$> PluginManager.objects (pm w),
   PluginManager._plugins (pm w),
   (fun n => (n_id n, isServer n)) <$> nodes (matter w),
   contexts (matter w)).

(** A property of an object of a heap, by the property of all of them. *)
Lemma heap_view {A B} (f : A -> B) (m m' : gmap nat A) (a : A) r :
  f <$> m' = f <$> m -> f (default a (m' !! r)) = f (default a (m !! r)).
Proof.
  intros H. apply (f_equal (lookup r)) in H. rewrite !lookup_fmap in H. destruct (m' !! r), (m !! r); cbn in *; by simplify_eq.
Qed.

Lemma heap_domain {A B} (f : A -> B) (m m' : gmap nat A) r : f <$> m' = f <$> m -> is_Some (m !! r) -> is_Some (m' !! r).
Proof. intros H. rewrite <- !(fmap_is_Some f), <- !lookup_fmap. by rewrite H. Qed.

Lemma serverNamed_server w r s : serverNamed w r s <-> isServer (node w r) = true /\ n_id (node w r) = Str s.
Proof. unfold serverNamed, isServer. by destruct (n_options (node w r)); split; intros [? ?]. Qed.

Section View.
Context (w w' : World) (Hview : lockView w' = lockView w).

Lemma view_named r s : serverNamed w' r s -> serverNamed w r s.
Proof.
  injection Hview as _ _ _ Hn _. rewrite !serverNamed_server. unfold node.
  pose proof (heap_view _ _ _ (mkNode Undefined None []) r Hn) as H. cbn in H. injection H as H1 H2. by rewrite H1, H2.
Qed.

Lemma view_plugin p : pget w' p "name" = pget w p "name" /\ locked w' p = locked w p.
Proof.
  injection Hview as _ Hp _ _ _. unfold locked, pget, PluginManager.pget, PluginManager.plugin.
  pose proof (heap_view _ _ _ (PluginManager.mkPlugin [] None None None) p Hp) as H. cbn in H. injection H as H1 H2.
  by rewrite H1, H2.
Qed.

Lemma setting_view D nm : setting D nm w -> setting D nm w'.
Proof.
  intros (Hd & Hp & Hr). split_and!.
  - intros d. injection Hview as Hm _ _ _ _. unfold dget, device. rewrite (heap_view _ _ _ noDevice d Hm). apply Hd.
  - intros p HD. destruct (Hp p HD) as [H1 H2]. destruct (view_plugin p) as [-> _]. split; [|done].
    injection Hview as _ Hm _ _ _. by eapply heap_domain.
  - intros n p. injection Hview as _ _ Hm _ _. unfold PluginManager.get. rewrite Hm. apply Hr.
Qed.
End View.

Lemma getField_filter k k' f :
  k <> k' -> getField k (List.filter (fun kv => negb (bool_decide (fst kv = k'))) f) = getField k f.
Proof.
  intros Hk. induction f as [|[k1 v] f IH]; [done|]. cbn [List.filter fst]. destruct (decide (k1 = k')) as [->|Hne].
  - rewrite bool_decide_eq_true_2 by done. cbn [negb getField]. by rewrite IH, bool_decide_eq_false_2.
  - rewrite bool_decide_eq_false_2 by done. cbn [negb getField]. by rewrite IH.
Qed.

Lemma ownState_lockView w w' : ownState w' = ownState w -> lockView w' = lockView w.
Proof.
  intros Hv. unfold ownState in Hv. unfold lockView. injection Hv as Hpm _ Hd _ _ Hn _ _ _ _ _ Hc _. rewrite Hpm, Hc.
  assert (((fun d => getField "mode" (fields d)) <$> devices w') = ((fun d => getField "mode" (fields d)) <$> devices w)) as ->.
  { apply (f_equal (fmap (fun x => getField "mode" (snd (fst x))))) in Hd. rewrite <- !map_fmap_compose in Hd.
    etransitivity; [|etransitivity; [exact Hd|]]; apply map_fmap_ext; intros; cbn; by rewrite getField_filter. }
  apply (f_equal (fmap (fun x => (fst x, match snd x with Some _ => true | None => false end)))) in Hn.
  rewrite <- !map_fmap_compose in Hn. do 2 f_equal. exact Hn.
Qed.

Section Lock.
Context (env : Env) (Hquiet : MatterQuiet env).
Context (D : nat -> Prop) (nm : nat -> string) (nm_inj : forall p p', D p -> D p' -> nm p = nm p' -> p = p').

Abbreviation I := (LockOk D nm).

Lemma LockOk_perm rho rho' w : rho ≡ₚ rho' -> I rho w -> I rho' w.
Proof.
  intros Hp (Hs & Hc & Hnd & Hn & Hinj & Hu). split_and!; try done.
  - by rewrite <- Hp.
  - intros r s. rewrite <- Hp. apply Hn.
  - intros p HD Hl. rewrite <- Hp. by apply Hu.
Qed.

Lemma LockOk_view rho w w' : lockView w' = lockView w -> I rho w -> I rho w'.
Proof.
  intros Hv (Hs & Hc & Hnd & Hn & Hinj & Hu). pose proof (view_named _ _ Hv) as Hback. split_and!.
  - by eapply setting_view.
  - injection Hv as _ _ _ _ Hx. by rewrite Hx.
  - done.
  - intros r s Hr. by eapply Hn, Hback.
  - intros r r' s Hr Hr'. by eapply Hinj; apply Hback.
  - intros p HD. destruct (view_plugin _ _ Hv p) as [_ ->]. intros Hl. destruct (Hu p HD Hl) as [H1 H2]. split; [done|].
    intros r Hr. by eapply H2, Hback.
Qed.

Lemma quiet_lock {A} (m : async World A) : quiet lockView m -> steady I m.
Proof. apply steady_quiet. exact LockOk_view. Qed.

Lemma matter_lock c : steady I (matterjs env c).
Proof. apply quiet_lock. eapply quiet_mono; [exact ownState_lockView|apply Hquiet]. Qed.

Lemma draw_lock : steady I draw.
Proof. apply quiet_lock. unfold draw. by quieting. Qed.

Lemma storeSet_lock s k v : (k = "storeId" -> v = Str s) -> steady I (storeSet s k v).
Proof.
  intros Hv. unfold storeSet. steadying. apply steady_modify. intros rho w (Hs & Hc & Hnd & Hn & Hinj & Hu).
  split_and!; try done. intros s' c. cbn. destruct (decide (s = s')) as [->|Hne];
    [rewrite lookup_insert_eq; intros [= <-]|by rewrite lookup_insert_ne; [apply Hc|]].
  destruct (decide (k = "storeId")) as [->|Hk]; [rewrite getField_setField; right; by apply Hv|].
  rewrite getField_setField_ne by done. destruct (contexts (matter w) !! s') eqn:E; [by eapply Hc|by left].
Qed.

(** A context is the one of its store. *)
Lemma wp_context a b c d e f g h i rho w (Q : res string -> list string -> World -> Prop) :
  (forall e w', Q (Throw e) rho w') -> (forall w', Q (Ok a) rho w') ->
  wp I (createServerNodeContext env a b c d e f g h i) rho w Q.
Proof.
  intros Ht Hr. unfold createServerNodeContext, pause.
  repeat match goal with
  | |- wp _ (storeSet _ _ _) _ _ _ => apply wp_steady; [by apply storeSet_lock|intros [?|?] ? _; [|apply Ht]]
  | |- wp _ (matterjs _ _) _ _ _ => apply wp_steady; [apply matter_lock|intros [?|?] ? _ ? _; [|apply Ht]]
  | |- wp _ draw _ _ _ => apply wp_steady; [apply draw_lock|intros [?|?] ? _; [|apply Ht]]
  | |- wp _ (modify _) _ _ _ => apply wp_steady; [apply quiet_lock; by quieting|intros [?|?] ? _; [|apply Ht]]
  | |- wp _ (if ?b then _ else _) _ _ _ => destruct b
  | |- wp _ (storeGet _ _ _) _ _ _ => unfold storeGet
  | |- Q (Ok _) _ _ => apply Hr
  | |- Q (Throw _) _ _ => apply Ht
  | |- wp _ _ _ _ _ => progress owning
  end.
Qed.

(** *** Plugins *)

Lemma replaced_view {A B} (f : A -> B) (m : gmap nat A) (a a' : A) r :
  is_Some (m !! r) -> f a' = f (default a (m !! r)) -> f <$> <[r := a']> m = f <$> m.
Proof.
  intros [b Hb] Hf. rewrite Hb in Hf. rewrite fmap_insert, Hf. apply insert_id. by rewrite lookup_fmap, Hb.
Qed.

(** An assignment to other properties of a plugin than the name and the lock. *)
Lemma plugin_lock (f : World -> World) p :
  D p ->
  (forall w, f w = w \/ exists q, f w = setPm (PluginManager.setObject p q (pm w)) w /\
     getField "name" (PluginManager.fields q) = pget w p "name" /\ getField "locked" (PluginManager.fields q) = pget w p "locked") ->
  steady I (modify f).
Proof.
  intros HD Hf. apply steady_modify. intros rho w HI. apply (LockOk_view rho w); [|done].
  destruct (Hf w) as [->|(q & -> & Hq1 & Hq2)]; [done|]. destruct HI as ((_ & Hp & _) & _). destruct (Hp p HD) as [Hx _].
  unfold lockView. do 3 f_equal. cbn.
  rewrite (replaced_view (fun p => (getField "name" (PluginManager.fields p), getField "locked" (PluginManager.fields p))) _
             (PluginManager.mkPlugin [] None None None)); [done..|]. by rewrite Hq1, Hq2.
Qed.

Lemma pluginNode_lock p n : D p -> steady I (modify (setPluginNode p n)).
Proof. intros HD. apply (plugin_lock _ p); [done|]. intros w. right. by eexists. Qed.

Lemma count_lock p n : D p -> steady I (modify (count p n)).
Proof.
  intros HD. apply (plugin_lock _ p); [done|]. intros w. unfold count.
  destruct (pget w p "registeredDevices"); try (by left). right. eexists. split; [done|]. cbn. by rewrite !getField_setField_ne.
Qed.

(** *** The lock *)

Lemma locked_pset p w p' :
  locked (pset p [("locked", Bool true)] w) p' = if decide (p = p') then true else locked w p'.
Proof.
  unfold locked, pget, PluginManager.pget, PluginManager.plugin. cbn. case_decide as E.
  - subst. rewrite lookup_insert_eq. cbn. by rewrite getField_setField.
  - by rewrite lookup_insert_ne.
Qed.

Lemma setting_locked p w : D p -> setting D nm w -> setting D nm (pset p [("locked", Bool true)] w).
Proof.
  intros HD (Hd & Hp & Hr). split_and!; [done| |done]. intros p' HD'. destruct (Hp p' HD') as [Hx Hnm].
  unfold pget, PluginManager.pget, PluginManager.plugin in *. cbn. destruct (decide (p = p')) as [->|Hne].
  - rewrite lookup_insert_eq. cbn. rewrite getField_setField_ne by done. by split.
  - by rewrite lookup_insert_ne.
Qed.

(** Who locks a plugin owns its store. *)
Lemma wp_lock p rho w (Q : res unit -> list string -> World -> Prop) :
  D p -> locked w p = false -> (forall w', Q (Ok tt) (nm p :: rho) w') ->
  wp I (modify (pset p [("locked", Bool true)])) rho w Q.
Proof.
  intros HD Hl HQ. apply (wp_modify _ (nm p :: rho)); [|intros _; apply HQ].
  intros sigma (Hs & Hc & Hnd & Hn & Hinj & Hu). destruct (Hu p HD Hl) as [Hfree Hnone]. split_and!.
  - by apply setting_locked.
  - exact Hc.
  - cbn. by constructor.
  - intros r s Hr. cbn. apply not_elem_of_cons. split; [intros ->; by apply (Hnone r)|by eapply Hn].
  - exact Hinj.
  - intros p' HD'. rewrite locked_pset. case_decide as E; [done|]. intros Hl'. destruct (Hu p' HD' Hl') as [H1 H2].
    split; [|done]. cbn. apply not_elem_of_cons. split; [|done]. intros Heq. apply E. by apply nm_inj.
Qed.

(** *** Nodes *)

Lemma serverNamed_newNode r n w r' s :
  serverNamed (setMatter (setNodes (<[r := n]> (nodes (matter w))) (matter w)) w) r' s <->
  if decide (r = r') then n_options n <> None /\ n_id n = Str s else serverNamed w r' s.
Proof.
  unfold serverNamed, node. cbn. case_decide as E; [subst; by rewrite lookup_insert_eq|by rewrite lookup_insert_ne].
Qed.

(** A node that is not the server of a store changes nothing. *)
Lemma newNode_lock n : (forall s, ~ (n_options n <> None /\ n_id n = Str s)) -> steady I (newNode n).
Proof.
  intros Hno. unfold newNode. steadying. apply steady_modify. intros rho w (Hs & Hc & Hnd & Hn & Hinj & Hu).
  split_and!; [done..| | |].
  - intros r s. rewrite serverNamed_newNode. case_decide; [intros []%Hno|apply Hn].
  - intros r r' s. rewrite !serverNamed_newNode. repeat case_decide; try (intros []%Hno || intros ? []%Hno). apply Hinj.
  - intros p HD Hl. destruct (Hu p HD Hl) as [H1 H2]. split; [done|]. intros r. rewrite serverNamed_newNode.
    case_decide; [apply Hno|apply H2].
Qed.

(** The server node of a store that the task owns. *)
Lemma wp_newNode_lock s n rho w (Q : res nat -> list string -> World -> Prop) :
  n_id n = Str s -> (forall r w', Q (Ok r) rho w') -> wp I (newNode n) (s :: rho) w Q.
Proof.
  intros Hid HQ. unfold newNode. owning. set (r := fresh (dom (nodes (matter w)))). apply (wp_modify _ rho).
  - intros sigma (Hs & Hc & Hnd & Hn & Hinj & Hu). cbn in Hnd. apply NoDup_cons in Hnd as [Hq Hnd].
    assert (forall r, serverNamed w r s -> False) as Hnew.
    { intros r' Hr. destruct (Hn r' s Hr). cbn. by left. }
    split_and!; [done..| | |].
    + intros r' s'. rewrite serverNamed_newNode. case_decide; [intros [_ Hs']; congruence|]. intros Hr.
      specialize (Hn r' s' Hr). cbn in Hn. by apply not_elem_of_cons in Hn as [_ ?].
    + intros r1 r2 s'. rewrite !serverNamed_newNode. repeat case_decide; [congruence| | |apply Hinj];
        intros Ha Hb; exfalso; apply (Hnew (if decide (r = r1) then r2 else r1)); case_decide; try done;
        [destruct Ha as [_ Ha]|destruct Hb as [_ Hb]]; assert (s' = s) as -> by congruence; done.
    + intros p HD Hl. destruct (Hu p HD Hl) as [H1 H2]. cbn in H1. apply not_elem_of_cons in H1 as [Hne H1]. split; [done|].
      intros r'. rewrite serverNamed_newNode. case_decide; [intros [_ ?]; congruence|apply H2].
  - intros _. apply wp_mret. intros _. apply HQ.
Qed.

Lemma inRange_lock lo hi random v : steady I (inRange lo hi random v).
Proof. unfold inRange. steadying; apply draw_lock. Qed.

Lemma wp_serverNode s a b c rho w (Q : res nat -> list string -> World -> Prop) :
  (forall r rho w, Q r rho w) -> wp I (createServerNode env s a b c) (s :: rho) w Q.
Proof.
  intros HQ. unfold createServerNode, storeGet. do 3 (apply wp_bind || apply wp_await || apply wp_gets).
  intros (sigma & _ & Hc & _) w1 Hok1.
  assert (defaulted (getField "storeId" (default [] (contexts (matter w) !! s))) Undefined ∈ [Undefined; Str s]) as Hid.
  { destruct (contexts (matter w) !! s) as [x|] eqn:E; [|left]. destruct (Hc s x E) as [Hv|Hv]; cbn; rewrite Hv; [left|right; left]. }
  set (v := defaulted _ _) in *. clearbody v. clear sigma Hc Hok1. owning.
  apply wp_steady; [apply inRange_lock|]. intros [pc|e] w2 _; [|apply HQ]. owning.
  apply wp_steady; [apply inRange_lock|]. intros [dc|e] w3 _; [|apply HQ]. owning.
  apply wp_steady; [apply matter_lock|]. intros [u|e] w4 _ w5 _; [|apply HQ].
  apply elem_of_cons in Hid as [->|[->|[]%not_elem_of_nil]%elem_of_cons].
  - apply wp_steady; [by apply newNode_lock; intros s' [_ ?]|]. intros. apply HQ.
  - by apply wp_newNode_lock.
Qed.

Lemma takeNumbers_lock : steady I takeNumbers.
Proof. unfold takeNumbers. steadying. apply quiet_lock. by quieting. Qed.

(** The pattern of the creation of a plugin's server node: lock, context, numbers, node. *)
Lemma creation_free {B} p (pre : async World unit) (mid : string -> async World unit) c1 c2 c3 c4 c5 c6 c7 c8 (k : string -> nat -> async World B) rho w :
  D p -> locked w p = false -> steady I pre -> (forall s, steady I (mid s)) -> (forall s n, free I (k s n)) ->
  wp I (_ ← modify (pset p [("locked", Bool true)]); _ ← pre;
        ctx ← await (createServerNodeContext env (nm p) c1 c2 c3 c4 c5 c6 c7 c8); _ ← mid ctx;
        '(a, b, c) ← takeNumbers; n ← await (createServerNode env ctx a b c); k ctx n) rho w (fun _ _ _ => True).
Proof.
  intros HD Hl Hpre Hmid Hk. apply wp_bind, wp_lock; [done..|]. intros w1. apply wp_bind, wp_steady; [done|].
  intros [u|e] w2 _; [|done]. apply wp_bind, wp_await, wp_context; [done|]. intros w3 w4 _.
  apply wp_bind, wp_steady; [apply Hmid|]. intros [v|e] w5 _; [|done].
  apply wp_bind, wp_steady; [apply takeNumbers_lock|]. intros [[[a b] c]|e] w6 _; [|done].
  apply wp_bind, wp_await, wp_serverNode. intros [n|e] rho' w7 w8 _; [apply Hk|done].
Qed.

Lemma name_nm p rho w : D p -> ok I rho w -> toText (pget w p "name") = nm p.
Proof. intros HD (sigma & (_ & Hp & _) & _). by apply Hp. Qed.

Lemma wp_ask_bind {A} (k : World -> async World A) rho w Q : (ok I rho w -> wp I (k w) rho w Q) -> wp I (ask ≫= k) rho w Q.
Proof. intros H Hok. by apply H. Qed.

Lemma extra_lock p e : steady I (modify (fun w => setExtra p (e w) w)).
Proof. apply quiet_lock. by quieting. Qed.

Lemma accessory_lock p d : D p -> free I (createAccessoryPlugin env p d).
Proof.
  intros HD rho w. unfold createAccessoryPlugin. apply wp_ask_bind. intros Hok. rewrite (name_nm p rho) by done.
  destruct (truthy (pget w p "locked")) eqn:El, (describesNode w d); try (by apply wp_mret). cbn [negb andb].
  apply (creation_free p (modify _) (fun ctx => modify _)); [done|done|apply extra_lock|intros; apply extra_lock|]. intros s n.
  apply free_bind; [by apply steady_free, pluginNode_lock|]. intros _. apply free_await, steady_free, matter_lock.
Qed.

Lemma dynamic_lock p : D p -> free I (createDynamicPlugin env p).
Proof.
  intros HD rho w. unfold createDynamicPlugin. apply wp_ask_bind. intros Hok. rewrite (name_nm p rho) by done.
  destruct (truthy (pget w p "locked")) eqn:El; [by apply wp_mret|]. cbn [negb].
  apply (creation_free p (mret tt) (fun ctx => modify _)); [done|done|apply steady_mret|intros; apply extra_lock|]. intros s n.
  apply free_bind; [by apply steady_free, pluginNode_lock|]. intros _. apply steady_free.
  unfold createAggregatorNode, storeGet. steadying; [|apply extra_lock|apply matter_lock]. apply newNode_lock. by intros ? [? _].
Qed.

(** *** The operations *)

Lemma place_lock p d : D p -> free I (place env p d).
Proof.
  intros HD. unfold place. apply free_ask. intros w (rho & sigma & (Hd & _) & _). rewrite Hd.
  unfold attempt, placeAccessory, placeDynamic, addPart.
  freeing; first [by apply accessory_lock | by apply dynamic_lock | apply steady_free, matter_lock
                 | apply steady_free, quiet_lock, Wait.quiet_waiter].
Qed.

Lemma registered_D w rho n p : ok I rho w -> PluginManager.get (pm w) n = Some p -> D p.
Proof. intros (sigma & (_ & _ & Hr) & _). apply Hr. Qed.

(** Opens an operation that finds its plugin by name. *)
Ltac locking :=
  freeing;
  try match goal with
  | H : exists rho, ok I rho ?w, E : PluginManager.get (pm ?w) _ = Some _ |- _ =>
      let Hok := fresh in destruct H as [? Hok]; pose proof (registered_D _ _ _ _ Hok E)
  end;
  try first [apply steady_free, matter_lock | by apply steady_free, count_lock | apply steady_free, quiet_lock; by quieting].

Lemma remove_lock n d : free I (removeBridgedEndpoint env n d).
Proof. unfold removeBridgedEndpoint, devicesRemove. locking. Qed.

Lemma removeEach_lock n delay l : free I (removeEach env n delay l).
Proof. induction l as [|d l IH]; cbn [removeEach]; unfold Wait.wait; freeing; [apply remove_lock|exact IH]. Qed.

(** The plugin of an operation is one of the plugins. *)
Definition opOk (op : Op) : Prop := match op with CreateDynamic p => D p | _ => True end.

Lemma perform_lock op : opOk op -> free I (perform env op).
Proof.
  destruct op as [n d|n d|n delay|n name type|p]; intros Hop; cbn [perform].
  - unfold addBridgedEndpoint, pause, devicesSet, subscribeAttributeChanged. locking. by apply place_lock.
  - apply remove_lock.
  - unfold removeAllBridgedEndpoints, pause, Wait.wait. freeing; apply removeEach_lock.
  - unfold addVirtualEndpoint, addVirtualDevice. locking.
  - by apply dynamic_lock.
Qed.
End Lock.


(** Two endpoints added to one plugin at once. *)
Definition sampleEndpoint (name : string) : Device :=
  mkDevice true [("plugin", Str "hue"); ("deviceName", Str name); ("serialNumber", Str name); ("uniqueId", Str name)] [] None [] [] None.

Definition twoEndpoints : World :=
  mkWorld (pm twoPlugins) ∅ {[ 0 := sampleEndpoint "lamp"; 1 := sampleEndpoint "plug" ]} [] (Str "childbridge") "3.5.0" "6.1.0"
    (matter twoPlugins) [].

Definition twoAdds : list Op := [AddEndpoint (Str "hue") 0; AddEndpoint (Str "hue") 1].

Definition twoNames (p : nat) : string := match p with 0 => "hue" | _ => "zigbee" end.

Lemma twoNames_inj p p' : p < 2 -> p' < 2 -> twoNames p = twoNames p' -> p = p'.
Proof. destruct p as [|[|p]], p' as [|[|p']]; cbn; intros; first [done|lia]. Qed.

Lemma twoEndpoints_setting : setting (fun p => p < 2) twoNames twoEndpoints.
Proof.
  split_and!.
  - intros [|[|d]]; [done..|]. unfold dget, device. cbn. by rewrite lookup_insert_ne, lookup_singleton_ne by lia.
  - intros [|[|p]] Hp; [by split; [eexists|]..|lia].
  - intros n p. unfold PluginManager.get. cbn. repeat case_decide; intros Hp; simplify_eq; lia.
Qed.

Lemma twoEndpoints_unnamed r s : ~ serverNamed twoEndpoints r s.
Proof. intros [H _]. unfold node in H. cbn in H. by rewrite lookup_empty in H. Qed.

