(* ===== verification/CommandLine.v ===== *)
(** The parameters of the command line: [packages/utils/src/commandLine.ts]. The
    arguments are those after the program, [process.argv.slice(2)]. *)
From S2P Require Import Prelude JsString JsNumber JsValue.
#[local] Open Scope string_scope.

Module CommandLine.
Section Arguments.
Context (args : list string).

Definition hasParameter (n : string) : bool :=
  if bool_decide (("-" ++ n) ∈ args) then true else bool_decide (("--" ++ n) ∈ args).

Definition hasAnyParameter (params : list string) : bool := existsb hasParameter params.

(** [args.slice(args.indexOf(s))], nothing for -1. *)
Fixpoint from (s : string) (l : list string) : option (list string) :=
  match l with
  | [] => None
  | x :: l' => if bool_decide (x = s) then Some l else from s l'
  end.

(** What follows the first of two markers, or the first of the other. *)
Definition after (first second : string) : option (list string) :=
  match from first args with
  | Some (_ :: l) => Some l
  | _ => match from second args with Some (_ :: l) => Some l | _ => None end
  end.

Definition getParameter (n : string) : option string :=
  match after ("-" ++ n) ("--" ++ n) with
  | Some (v :: _) => if strStartsWith v "-" then None else Some v
  | _ => None
  end.

(** [Number.parseInt(s, 10)]. *)
Definition parseInt10 (s : jsstr) : double :=
  let '(neg, s) := stripSign (trimStart s) in
  let '(v, n, _) := readDigits 10 s 0 0 in
  if (n =? 0)%Z then DNaN else if neg then negate (toDouble v 1) else toDouble v 1.

(** [isValidNumber] rejects what is not finite; the integers are those that
    [parseInt] gives. *)
Definition intOf (s : string) : option Z := toInteger (parseInt10 (js s)).

Definition getIntParameter (n : string) : option Z :=
  match getParameter n with
  | Some v => intOf v
  | None => None
  end.

(** The arguments up to the next marker. *)
Fixpoint values (l : list string) : list string :=
  match l with
  | [] => []
  | v :: l => if strStartsWith v "-" then [] else v :: values l
  end.

Definition nonEmpty {A} (l : list A) : option (list A) := match l with [] => None | _ => Some l end.

Definition getIntArrayParameter (n : string) : option (list Z) :=
  match after ("--" ++ n) ("-" ++ n) with
  | Some l => nonEmpty (omap intOf (values l))
  | None => None
  end.

Definition getStringArrayParameter (n : string) : option (list string) :=
  match after ("--" ++ n) ("-" ++ n) with
  | Some l => nonEmpty (values l)
  | None => None
  end.
End Arguments.

(** ** What the parameters mean *)

Lemma from_elem s l : from s l <> None <-> s ∈ l.
Proof.
  induction l as [|x l IH]; cbn; [split; [done|intros []%not_elem_of_nil]|].
  rewrite elem_of_cons. case_bool_decide as E; [by split; [left|]|]. rewrite IH. split; [by right|]. intros [->|?]; done.
Qed.

Lemma from_split s l r : from s l = Some r -> exists pre post, l = (pre ++ s :: post)%list /\ (s ∉ pre) /\ r = s :: post.
Proof.
  induction l as [|x l IH]; cbn; [done|]. case_bool_decide as E.
  - intros [= <-]. subst. exists [], l. split_and!; [done|apply not_elem_of_nil|done].
  - intros H. destruct (IH H) as (pre & post & -> & Hs & ->). exists (x :: pre), post. split_and!; [done| |done].
    by apply not_elem_of_cons.
Qed.

Lemma from_app s pre post : s ∉ pre -> from s (pre ++ s :: post) = Some (s :: post).
Proof.
  induction pre as [|x pre IH]; cbn; intros Hs; [by rewrite bool_decide_eq_true_2|].
  apply not_elem_of_cons in Hs as [Hne Hs]. rewrite bool_decide_eq_false_2 by done. by apply IH.
Qed.

Lemma from_absent s l : s ∉ l -> from s l = None.
Proof. intros Hs. destruct (from s l) eqn:E; [|done]. destruct Hs. apply from_elem. by rewrite E. Qed.

(** A parameter has a value only if it is present. *)
Lemma getParameter_has args n v : getParameter args n = Some v -> hasParameter args n = true.
Proof.
  unfold getParameter, after, hasParameter. case_bool_decide as E1; [done|]. rewrite from_absent by done.
  case_bool_decide as E2; [done|]. by rewrite from_absent.
Qed.

(** [-name value] and [--name value] give the value, unless it looks like a marker;
    the form with one dash wins. *)
Theorem getParameter_exact args n v :
  getParameter args n = Some v <->
  strStartsWith v "-" = false /\
  exists pre post m, args = (pre ++ m :: v :: post)%list /\ (m ∉ pre) /\
    (m = "-" ++ n \/ m = "--" ++ n /\ ("-" ++ n) ∉ args).
Proof.
  unfold getParameter, after. split.
  - destruct (from ("-" ++ n) args) as [r|] eqn:E1.
    + destruct (from_split _ _ _ E1) as (pre & post & Ha & Hpre & ->). destruct post as [|v' post]; [done|].
      destruct (strStartsWith v' "-") eqn:Es; [done|]. intros [= ->]. split; [done|]. exists pre, post, ("-" ++ n). auto.
    + destruct (from ("--" ++ n) args) as [r|] eqn:E2; [|done].
      destruct (from_split _ _ _ E2) as (pre & post & Ha & Hpre & ->). destruct post as [|v' post]; [done|].
      destruct (strStartsWith v' "-") eqn:Es; [done|]. intros [= ->]. split; [done|]. exists pre, post, ("--" ++ n).
      split_and!; [done|done|]. right. split; [done|]. intros Hin%from_elem. by rewrite E1 in Hin.
  - intros (Hv & pre & post & m & -> & Hpre & [->|[-> Hn]]).
    + rewrite from_app by done. by rewrite Hv.
    + rewrite from_absent by done. rewrite from_app by done. by rewrite Hv.
Qed.
End CommandLine.
