(* ===== verification/Matterbridge.v ===== *)
(** The application of [packages/core/src/matterbridge.ts]: starting the plugins and
    the bridge, the interval that waits for the plugins, requests, restarts and the
    cleanup. Nodes and endpoints are in [Bridge.v]. *)
From S2P Require Import Prelude JsValue JsMap NodePath Async Wait Validate Broadcast DeviceManager PluginManager CommandLine Bridge.
From stdpp Require Import gmap.
#[local] Open Scope string_scope.

Module Matterbridge.
Import Broadcast Validate CommandLine Bridge.

Abbreviation object := (list (string * value)) (only parsing).
Abbreviation ref := nat (only parsing).

(** ** State *)

(** What the application asks of others: messages to the frontend and to the thread
    manager, events, and calls of matter.js, of storages and of the file system. *)
Inductive Action :=
  | Request (type dst : string) (params : object)
  | Respond (msg : object)
  | Frontend (method : string) (args : list value)
  | Emit (event : string)
  | StartNode (n : ref)
  | CloseNode (n : ref)
  | SetConfigurationVersion (n : ref)
  | OpenStore (store : string)
  | CloseStore (store : string)
  | ClearAll (store : string) (context : list string)
  | SetStored (store key : string) (v : value)
  | CloseContext (context : string)
  | Unlink (path : string)
  | RemoveDirectory (path : string)
  | Other (what : string).

(** Tasks that run beside the one that starts them: [fireAndForget], and the
    callbacks of timers. *)
Inductive Task :=
  | LoadPlugin (p : ref) (start : bool)
  | StartPlugin (p : ref)
  | ConfigurePlugins.

(** The plain properties of the application are an object: [bridgeStatus], the marks
    of the initialization and the cleanup, and the timers, which are truthy while they
    are set. [failCount] belongs to the callback of the running interval. *)
Record World := mkWorld {
  bridge : Bridge.World;
  properties : object;
  stored : object;                      (* nodeContext *)
  failCount : Z;
  trace : list Action;
  tasks : list Task
}.

Definition this (w : World) (k : string) : value := getField k (properties w).
Definition setBridge (b : Bridge.World) (w : World) : World :=
  mkWorld b (properties w) (stored w) (failCount w) (trace w) (tasks w).
Definition setThis (kvs : object) (w : World) : World :=
  mkWorld (bridge w) (foldl (fun f kv => setField (fst kv) (snd kv) f) (properties w) kvs) (stored w) (failCount w) (trace w)
    (tasks w).
Definition setStored (k : string) (v : value) (w : World) : World :=
  mkWorld (bridge w) (properties w) (setField k v (stored w)) (failCount w) (trace w) (tasks w).
Definition setFailCount (n : Z) (w : World) : World :=
  mkWorld (bridge w) (properties w) (stored w) n (trace w) (tasks w).
Definition addAction (a : Action) (w : World) : World :=
  mkWorld (bridge w) (properties w) (stored w) (failCount w) (trace w ++ [a])%list (tasks w).
Definition addTask (t : Task) (w : World) : World :=
  mkWorld (bridge w) (properties w) (stored w) (failCount w) (trace w) (tasks w ++ [t])%list.

Definition pget (w : World) (p : ref) (k : string) : value := Bridge.pget (bridge w) p k.
Definition pset (p : ref) (kvs : object) (w : World) : World := setBridge (Bridge.pset p kvs (bridge w)) w.
Definition plugins (w : World) : list ref := PluginManager.array (pm (bridge w)).
Definition devices (w : World) : list ref := DeviceManager.array (manager (bridge w)).

(** Parts of the world. *)
Definition onBridge {A} (m : async Bridge.World A) : async World A := lift bridge setBridge m.
Definition onPlugins {A} (m : async PluginManager.World A) : async World A :=
  lift (fun w => pm (bridge w)) (fun p w => setBridge (setPm p (bridge w)) w) m.

(** What surrounds the application: the plugin manager's and the bridge's
    surroundings, the outcome of actions, the command line, and three settings. *)
Record Env := mkEnv {
  plugged : PluginManager.Env;
  bridged : Bridge.Env;
  external : Action -> async World unit;
  args : list string;
  matterbridgeDirectory : string;
  bun : bool;
  uptime : Z
}.

Definition failCountLimit : Z := 300.
Definition MATTER_STORAGE_DIR : string := "matterstorage".
Definition NODE_STORAGE_DIR : string := "storage".

(** A message, event or call whose outcome nobody awaits. *)
Definition act (a : Action) : async World unit := modify (addAction a).

Definition status (s : string) : async World unit :=
  _ ← modify (setThis [("bridgeStatus", Str s)]);
  act (Request "frontend_matterbridgestatusupdate" "frontend" [("status", Str s)]).

Definition wssSendSnackbarMessage (message : string) (timeout : Z) (severity : string) : async World unit :=
  act (Frontend "wssSendSnackbarMessage" [Str message; Num timeout; Str severity]).
Definition wssSendRefreshRequired (changed : string) : async World unit := act (Frontend "wssSendRefreshRequired" [Str changed]).
Definition wssSendCloseSnackbarMessage (message : string) : async World unit :=
  act (Frontend "wssSendCloseSnackbarMessage" [Str message]).

Definition sendPluginStatusUpdate (p : ref) : async World unit :=
  w ← ask;
  act (Request "frontend_pluginstatusupdate" "frontend"
         [("plugin", pget w p "name");
          ("status", Obj (map (fun k => (k, pget w p k))
             ["locked"; "error"; "enabled"; "loaded"; "started"; "configured"; "registeredDevices"]))]).

Section Application.
Context (env : Env).

(** A call whose outcome is awaited; it may fail. *)
Definition perform (a : Action) : async World unit := _ ← act a; await (external env a).

Definition perhaps (b : bool) (m : async World unit) : async World unit := if b then m else mret tt.

(** ** Starting the plugins *)

Definition starting : value := Str "Matterbridge is starting".

(** The loop over the registered plugins. A plugin that is removed meanwhile is not
    visited. *)
Fixpoint startEach (wait start : bool) (l : list ref) : async World unit :=
  match l with
  | [] => mret tt
  | p :: l =>
      w ← ask;
      if negb (bool_decide (p ∈ plugins w)) then startEach wait start l
      else
        c ← onPlugins (await (PluginManager.loadConfig (plugged env) p));
        _ ← onPlugins (modify (PluginManager.setConfigJson p (Some c)));
        s ← onPlugins (await (PluginManager.loadSchema p));
        _ ← modify (pset p [("schemaJson", s)]);
        w ← ask;
        if negb (truthy (pget w p "enabled")) then startEach wait start l
        else
          found ← onPlugins (await (PluginManager.resolve (plugged env) (toText (pget w p "path"))));
          match found with
          | None => _ ← modify (pset p [("enabled", Bool false); ("error", Bool true)]); startEach wait start l
          | Some _ =>
              _ ← modify (pset p [("error", Bool false); ("locked", Bool false); ("loaded", Bool false); ("started", Bool false);
                                  ("configured", Bool false); ("registeredDevices", Undefined)]);
              _ ← (if wait then
                     _ ← onPlugins (await (PluginManager.load (plugged env) (PluginManager.ByRef p) start starting false)); mret tt
                   else modify (addTask (LoadPlugin p start)));
              startEach wait start l
          end
  end.

Definition startPlugins (wait start : bool) : async World unit :=
  w ← ask;
  _ ← startEach wait start (plugins w);
  wssSendRefreshRequired "plugins".

(** ** Waiting for the plugins *)

Definition theBridgeIsStarting : string := "The bridge is starting...".

(** The callback is still running every second. *)
Definition stillStarting : async World unit :=
  w ← ask;
  perhaps (negb (failCount w =? 0)%Z && (failCount w mod 10 =? 0)%Z)
    (wssSendSnackbarMessage "The bridge is still starting..." 10 "info").

Definition clearStartInterval : async World unit := modify (setThis [("startMatterInterval", Undefined)]).

(** A plugin is in error state: the bridge does not start. *)
Definition halt (p : ref) : async World unit :=
  w ← ask;
  _ ← clearStartInterval;
  _ ← wssSendSnackbarMessage ("The plugin " ++ toText (pget w p "name") ++ " is in error state. Check the logs.") 0 "error";
  _ ← wssSendSnackbarMessage "The bridge is offline. Startup halted due to plugin errors." 0 "error";
  _ ← wssSendRefreshRequired "plugins";
  _ ← wssSendCloseSnackbarMessage theBridgeIsStarting;
  status "error".

(** A plugin that is not ready, once more; after too many times it is in error. *)
Definition failed (p : ref) : async World unit :=
  _ ← modify (fun w => setFailCount (failCount w + 1) w);
  w ← ask;
  perhaps (failCountLimit <? failCount w)%Z (modify (pset p [("error", Bool true)])).

Definition isReady (w : World) (p : ref) : bool := truthy (pget w p "loaded") && truthy (pget w p "started").

(** The loop of the callback in mode bridge: true if all enabled plugins are ready. *)
Fixpoint bridgeCheck (l : list ref) : async World bool :=
  match l with
  | [] => mret true
  | p :: l =>
      w ← ask;
      if negb (truthy (pget w p "enabled")) then bridgeCheck l
      else if truthy (pget w p "error") then _ ← halt p; mret false
      else
        _ ← sendPluginStatusUpdate p;
        if isReady w p then bridgeCheck l else _ ← failed p; mret false
  end.

(** The loop in mode childbridge, which looks at all plugins. *)
Fixpoint childbridgeCheck (allStarted : bool) (l : list ref) : async World bool :=
  match l with
  | [] => mret allStarted
  | p :: l =>
      w ← ask;
      if negb (truthy (pget w p "enabled")) then childbridgeCheck allStarted l
      else if truthy (pget w p "error") then _ ← halt p; mret false
      else
        _ ← sendPluginStatusUpdate p;
        if isReady w p then childbridgeCheck allStarted l else _ ← failed p; childbridgeCheck false l
  end.

(** [fireAndForget(this.startServerNode(n))]. *)
Definition startServerNode (n : option ref) : async World unit := match n with None => mret tt | Some n => act (StartNode n) end.

(** The server nodes of devices in mode server. *)
Fixpoint startDevices (l : list ref) : async World unit :=
  match l with
  | [] => mret tt
  | d :: l =>
      w ← ask;
      _ ← perhaps (isStr (dget (bridge w) d "mode") "server") (startServerNode (ownNode (device (bridge w) d)));
      startDevices l
  end.

(** The end of both callbacks. *)
Definition started (event : string) : async World unit :=
  _ ← act (Emit event);
  _ ← status "started";
  _ ← act (Request "frontend_refreshrequired" "frontend" [("changed", Str "plugins")]);
  act (Request "frontend_closesnackbarmessage" "frontend" [("message", Str theBridgeIsStarting)]).

Definition bridgeTick : async World unit :=
  _ ← stillStarting;
  w ← ask;
  ready ← bridgeCheck (plugins w);
  if ready : bool then
    _ ← clearStartInterval;
    w ← ask;
    _ ← startServerNode (serverNode (matter (bridge w)));
    w ← ask;
    _ ← startDevices (devices w);
    _ ← modify (setThis [("configureTimeout", Bool true)]);
    _ ← modify (setThis [("reachabilityTimeout", Bool true)]);
    started "bridge_started"
  else mret tt.

(** The server nodes of the plugins in mode childbridge. *)
Fixpoint startPluginNodes (l : list ref) : async World unit :=
  match l with
  | [] => mret tt
  | p :: l =>
      w ← ask;
      if negb (truthy (pget w p "enabled")) || truthy (pget w p "error") then startPluginNodes l
      else if negb (isStr (pget w p "type") "DynamicPlatform") && negb (truthy (pget w p "registeredDevices")) then startPluginNodes l
      else
        match pluginNode (bridge w) p, storageContext (extra (bridge w) p) with
        | Some n, Some _ =>
            if negb (truthy (pget w p "nodeContext")) then startPluginNodes l
            else
              _ ← startServerNode (Some n);
              _ ← modify (pset p [("reachabilityTimeout", Bool true)]);
              startPluginNodes l
        | _, _ => startPluginNodes l
        end
  end.

Definition childbridgeTick (delay : Z) : async World unit :=
  _ ← stillStarting;
  w ← ask;
  ready ← childbridgeCheck true (plugins w);
  if ready : bool then
    _ ← clearStartInterval;
    _ ← perhaps (0 <? delay)%Z Wait.wait;
    _ ← modify (setThis [("configureTimeout", Bool true)]);
    w ← ask;
    _ ← startPluginNodes (plugins w);
    w ← ask;
    _ ← startDevices (devices w);
    started "childbridge_started"
  else mret tt.

(** The callback of [configureTimeout]. *)
Fixpoint configureEach (l : list ref) : async World unit :=
  match l with
  | [] => mret tt
  | p :: l =>
      w ← ask;
      if negb (truthy (pget w p "enabled")) || negb (isReady w p) || truthy (pget w p "error") then configureEach l
      else
        _ ← catch
              (r ← onPlugins (await (PluginManager.configure (plugged env) (PluginManager.ByRef p)));
               w ← ask;
               perhaps (match r with None => negb (bool_decide (pget w p "configured" = Bool true)) | Some _ => false end)
                 (wssSendSnackbarMessage ("The plugin " ++ toText (pget w p "name") ++ " failed to configure. Check the logs.") 0 "error"))
              (fun _ => modify (pset p [("error", Bool true)]));
        _ ← sendPluginStatusUpdate p;
        configureEach l
  end.

Definition configurePlugins : async World unit := w ← ask; configureEach (plugins w).

(** ** Starting the bridge *)

(** [addVirtualDevices] of [helpers.ts]. *)
Definition addVirtualDevices (g : ref) : async World unit :=
  w ← ask;
  match this w "virtualMode" with
  | Str mode =>
      if negb (bool_decide (mode = "disabled")) && isStr (bridgeMode (bridge w)) "bridge" then
        _ ← onBridge (await (addVirtualDevice (bridged env) g "Restart Matterbridge" mode));
        onBridge (await (addVirtualDevice (bridged env) g "Update Matterbridge" mode))
      else mret tt
  | _ => mret tt
  end.

(** The interval begins with a new count. *)
Definition startInterval : async World unit :=
  _ ← wssSendSnackbarMessage theBridgeIsStarting 0 "info";
  _ ← modify (setFailCount 0);
  modify (setThis [("startMatterInterval", Bool true)]).

Definition startBridge : async World unit :=
  w ← ask;
  match this w "matterStorageManager", this w "matterbridgeContext" with
  | Str _, Str ctx =>
      _ ← status "starting";
      '(a, b, c) ← onBridge takeNumbers;
      n ← onBridge (await (createServerNode (bridged env) ctx a b c));
      _ ← onBridge (modify (fun w => setMatter (setMainNodes (Some n) (aggregatorNode (matter w)) (matter w)) w));
      g ← onBridge (await (createAggregatorNode ctx));
      _ ← onBridge (modify (fun w => setMatter (setMainNodes (serverNode (matter w)) (Some g) (matter w)) w));
      _ ← onBridge (await (matterjs (bridged env) (Add n (AggregatorPart g))));
      _ ← await (addVirtualDevices g);
      _ ← await (startPlugins false true);
      startInterval
  | Str _, _ => Raise (Error (js "No storage context initialized"))
  | _, _ => Raise (Error (js "No storage manager initialized"))
  end.

(** Server nodes of dynamic platforms, and all plugins. *)
Fixpoint startChildren (l : list ref) : async World unit :=
  match l with
  | [] => mret tt
  | p :: l =>
      w ← ask;
      _ ← perhaps (isStr (pget w p "type") "DynamicPlatform") (onBridge (await (createDynamicPlugin (bridged env) p)));
      _ ← modify (addTask (StartPlugin p));
      startChildren l
  end.

Definition startChildbridge : async World unit :=
  w ← ask;
  match this w "matterStorageManager" with
  | Str _ =>
      _ ← await (mret tt);
      _ ← status "starting";
      _ ← await (startPlugins true false);
      w ← ask;
      _ ← startChildren (List.filter (fun p => truthy (pget w p "enabled") && negb (truthy (pget w p "error"))) (plugins w));
      startInterval
  | _ => Raise (Error (js "No storage manager initialized"))
  end.

(** What a task does. *)
Definition taskOf (t : Task) : async World unit :=
  match t with
  | LoadPlugin p start =>
      catch (_ ← onPlugins (PluginManager.load (plugged env) (PluginManager.ByRef p) start starting false); mret tt) (fun _ => mret tt)
  | StartPlugin p =>
      catch (_ ← onPlugins (PluginManager.start (plugged env) (PluginManager.ByRef p) starting false); mret tt) (fun _ => mret tt)
  | ConfigurePlugins => configurePlugins
  end.

(** ** Stopping *)

(** A failure, or a time-out, is logged and forgotten. *)
Definition stopServerNode (n : ref) : async World unit :=
  _ ← await (mret tt);
  catch (perform (CloseNode n)) (fun _ => mret tt).

(** A loop that awaits its body. *)
Fixpoint forEach {A} (l : list A) (body : A -> async World unit) : async World unit :=
  match l with
  | [] => mret tt
  | a :: l => _ ← body a; forEach l body
  end.

Definition stopMatterStorage : async World unit :=
  w ← ask;
  _ ← match this w "matterStorageManager" with Str s => perform (CloseStore s) | _ => mret tt end;
  w ← ask;
  _ ← forEach (managers (matter (bridge w))) (fun s => perform (CloseStore s));
  _ ← onBridge (modify (fun w =>
        let m := setManagers [] (matter w) in
        setMatter (mkMatter (nodes m) (serverNode m) (aggregatorNode m) (port m) (passcode m) (discriminator m) false (managers m)
                     (contexts m) (draws m)) w));
  modify (setThis [("matterStorageManager", Undefined); ("matterbridgeContext", Undefined)]).

(** [clearTimeout] or [clearInterval] for each timer. *)
Definition timers : list string :=
  ["startMatterInterval"; "systemCheckTimeout"; "checkUpdateTimeout"; "checkUpdateInterval"; "configureTimeout";
   "reachabilityTimeout"].

Definition clearTimers : async World unit :=
  modify (fun w => setThis (map (fun k => (k, Undefined)) (List.filter (fun k => truthy (this w k)) timers)) w).

Definition shutdownPlugin (message : string) (p : ref) : async World unit :=
  w ← ask;
  if negb (bool_decide (p ∈ plugins w)) || negb (truthy (pget w p "enabled")) || truthy (pget w p "error") then mret tt
  else
    _ ← onPlugins (await (PluginManager.shutdown (plugged env) (PluginManager.ByRef p)
                            (Str ("Matterbridge is closing: " ++ message)) false false));
    modify (pset p [("reachabilityTimeout", Undefined)]).

Definition stopPluginNode (p : ref) : async World unit :=
  w ← ask;
  match pluginNode (bridge w) p with
  | None => mret tt
  | Some n => _ ← await (stopServerNode n); onBridge (modify (setPluginNode p None))
  end.

Definition stopDeviceNode (d : ref) : async World unit :=
  w ← ask;
  match ownNode (device (bridge w) d) with
  | Some n =>
      if isStr (dget (bridge w) d "mode") "server" then
        _ ← await (stopServerNode n); onBridge (modify (setOwnNode d None))
      else mret tt
  | None => mret tt
  end.

Definition stopNodes : async World unit :=
  w ← ask;
  _ ← (if isStr (bridgeMode (bridge w)) "bridge" then
         match serverNode (matter (bridge w)) with
         | None => mret tt
         | Some n =>
             _ ← await (stopServerNode n);
             onBridge (modify (fun w => setMatter (setMainNodes None (aggregatorNode (matter w)) (matter w)) w))
         end
       else mret tt);
  w ← ask;
  _ ← perhaps (isStr (bridgeMode (bridge w)) "childbridge") (forEach (plugins w) stopPluginNode);
  w ← ask;
  forEach (devices w) stopDeviceNode.

(** The contexts that hold the commissioning. *)
Definition commissioning : list string := ["events"; "fabrics"; "root"; "sessions"].

(** [storageService?.open(s)], the contexts, and [close]. *)
Definition clearStore (s : string) (names : list string) : async World unit :=
  w ← ask;
  if storageService (matter (bridge w)) then
    _ ← perform (OpenStore s);
    _ ← forEach names (fun c => perform (ClearAll s [c]));
    perform (CloseStore s)
  else _ ← await (mret tt); mret tt.

Definition reset : async World unit :=
  w ← ask;
  _ ← match this w "matterbridgeContext" with Str s => perform (ClearAll s ["persist"]) | _ => mret tt end;
  w ← ask;
  _ ← (if isStr (bridgeMode (bridge w)) "bridge" then
         match this w "matterStorageManager" with
         | Str s => forEach commissioning (fun c => perform (ClearAll s [c]))
         | _ => mret tt
         end
       else if isStr (bridgeMode (bridge w)) "childbridge" then
         forEach (plugins w) (fun p =>
           w ← ask;
           _ ← match storageContext (extra (bridge w) p) with Some s => act (ClearAll s ["persist"]) | None => mret tt end;
           clearStore (toText (pget w p "name")) commissioning)
       else mret tt);
  w ← ask;
  forEach (devices w) (fun d =>
    w ← ask;
    if isStr (dget (bridge w) d "mode") "server" && truthy (dget (bridge w) d "deviceName")
    then clearStore (withoutSpaces (toText (dget (bridge w) d "deviceName"))) ("persist" :: commissioning)
    else mret tt).

(** [storageContext?.createContext(..)?.clearAll()]. *)
Definition clearContext (s : option string) (path : list string) : async World unit :=
  match s with Some s => perform (ClearAll s path) | None => mret tt end.

Definition unregister : async World unit :=
  w ← ask;
  if isStr (bridgeMode (bridge w)) "bridge" then
    let s := match this w "matterStorageManager" with Str s => Some s | _ => None end in
    _ ← clearContext s ["root"; "parts"; "Matterbridge"; "parts"];
    _ ← clearContext s ["root"; "subscription"];
    clearContext s ["sessions"]
  else if isStr (bridgeMode (bridge w)) "childbridge" then
    forEach (plugins w) (fun p =>
      w ← ask;
      let s := storageContext (extra (bridge w) p) in
      _ ← perhaps (isStr (pget w p "type") "DynamicPlatform")
            (clearContext s ["persist"; "root"; "parts"; toText (pget w p "name"); "parts"]);
      _ ← clearContext s ["persist"; "root"; "subscription"];
      clearContext s ["persist"; "sessions"])
  else mret tt.

(** [unlinkSafe] for the sessions and subscriptions of a store. *)
Definition unlinkSessions (s : string) : async World unit :=
  _ ← act (Unlink (pathJoin [matterbridgeDirectory env; MATTER_STORAGE_DIR; s; "sessions.resumptionRecords"]));
  act (Unlink (pathJoin [matterbridgeDirectory env; MATTER_STORAGE_DIR; s; "root.subscriptions.subscriptions"])).

Definition resetSessions : async World unit :=
  w ← ask;
  _ ← unlinkSessions "Matterbridge";
  _ ← forEach (plugins w) (fun p => w ← ask; unlinkSessions (toText (pget w p "name")));
  forEach (List.filter (fun d => isStr (dget (bridge w) d "mode") "server") (devices w)) (fun d =>
    w ← ask;
    perhaps (truthy (dget (bridge w) d "deviceName")) (unlinkSessions (deviceStoreId (toText (dget (bridge w) d "deviceName"))))).

Definition closeNodeStorage : async World unit :=
  w ← ask;
  if truthy (this w "nodeStorage") && truthy (this w "nodeContext") then
    _ ← perform (CloseContext "matterbridge");
    _ ← modify (setThis [("nodeContext", Undefined)]);
    w ← ask;
    _ ← forEach (plugins w) (fun p =>
          w ← ask;
          if truthy (pget w p "nodeContext") then
            _ ← perform (CloseContext (toText (pget w p "name"))); modify (pset p [("nodeContext", Undefined)])
          else mret tt);
    _ ← perform (Other "nodeStorage.close");
    modify (setThis [("nodeStorage", Undefined)])
  else mret tt.

(** A directory and its backup; an error ends the two removals and is only logged. *)
Definition removeWithBackup (dir : string) : async World unit :=
  catch
    (_ ← perform (RemoveDirectory (pathJoin [matterbridgeDirectory env; dir]));
     perform (RemoveDirectory (pathJoin [matterbridgeDirectory env; dir ++ ".backup"])))
    (fun _ => mret tt).

(** The event at the end of the cleanup. *)
Definition finish (message : string) (restart : bool) : async World unit :=
  if restart then
    if bool_decide (message = "updating...") then _ ← modify (setThis [("instance", Undefined)]); act (Emit "update")
    else if bool_decide (message = "restarting...") then _ ← modify (setThis [("instance", Undefined)]); act (Emit "restart")
    else mret tt
  else _ ← modify (setThis [("instance", Undefined)]); act (Emit "shutdown").

Definition clearManagers : async World unit :=
  _ ← onPlugins PluginManager.clear;
  onBridge (modify (setRegistry [])).

Definition cleanup (message : string) (restart : bool) (pause : Z) : async World unit :=
  w ← ask;
  if truthy (this w "initialized") && negb (truthy (this w "hasCleanupStarted")) then
    _ ← act (Emit "cleanup_started");
    _ ← modify (setThis [("hasCleanupStarted", Bool true)]);
    _ ← status "stopping";
    _ ← clearTimers;
    w ← ask;
    _ ← forEach (plugins w) (shutdownPlugin message);
    _ ← perhaps (0 <? pause)%Z (_ ← await (mret tt); Wait.wait);
    _ ← stopNodes;
    _ ← perhaps (bool_decide (message = "shutting down with reset...")) reset;
    _ ← perhaps (bool_decide (message = "unregistered all devices and shutting down...")) unregister;
    _ ← await stopMatterStorage;
    _ ← perhaps (hasParameter (args env) "reset-sessions") resetSessions;
    _ ← status "stopped";
    _ ← perform (Other "frontend.stop");
    _ ← act (Other "frontend.destroy");
    _ ← act (Other "plugins.destroy");
    _ ← act (Other "devices.destroy");
    _ ← act (Other "server.close");
    _ ← closeNodeStorage;
    _ ← clearManagers;
    _ ← perhaps (bool_decide (message = "shutting down with factory reset..."))
          (_ ← removeWithBackup MATTER_STORAGE_DIR; removeWithBackup NODE_STORAGE_DIR);
    _ ← act (Other "deregisterProcessHandlers");
    _ ← finish message restart;
    _ ← modify (setThis [("hasCleanupStarted", Bool false); ("initialized", Bool false)]);
    act (Emit "cleanup_completed")
  else
    perhaps (negb (truthy (this w "initialized")))
      (_ ← act (Other "destroy");
       _ ← act (Other "frontend.destroy");
       _ ← act (Other "plugins.destroy");
       act (Other "devices.destroy")).

Definition restartProcess : async World unit := await (cleanup "restarting..." true 1000).
Definition shutdownProcess : async World unit := await (cleanup "shutting down..." false 1000).
Definition shutdownProcessAndReset : async World unit := await (cleanup "shutting down with reset..." false 1000).
Definition shutdownProcessAndFactoryReset : async World unit := await (cleanup "shutting down with factory reset..." false 1000).

(** The handlers of SIGINT and SIGTERM. *)
Definition signalHandler (name : string) : async World unit :=
  catch (cleanup (name ++ " received, cleaning up...") false 1000) (fun _ => mret tt).

(** Callback of the virtual device Restart Matterbridge. *)
Definition restartCallback : async World unit :=
  w ← ask;
  if isStr (this w "restartMode") "none" then await restartProcess else await shutdownProcess.

Definition updateProcess : async World unit :=
  act (Request "manager_run" "manager"
    [("name", Str "SpawnCommand");
     ("workerData", Obj [("threadName", Str "SpawnCommand"); ("command", Str (if bun env then "bun" else "npm"));
        ("args", Arr (map Str (if bun env then ["install"; "-g"; "matterbridge"; "--production"]
                               else ["install"; "-g"; "matterbridge"; "--omit=dev"; "--verbose"])));
        ("packageCommand", Str "install"); ("packageName", Str "matterbridge")])]).

Definition unregisterPlugin (p : ref) : async World unit :=
  w ← ask;
  if truthy (pget w p "error") || negb (truthy (pget w p "enabled")) then mret tt
  else
    _ ← match pluginNode (bridge w) p with Some n => perform (SetConfigurationVersion n) | None => mret tt end;
    w ← ask;
    let registered := pget w p "registeredDevices" in
    _ ← onPlugins (await (PluginManager.shutdown (plugged env) (PluginManager.ByRef p)
                            (Str "unregistering all devices and shutting down...") false true));
    _ ← modify (pset p [("registeredDevices", registered)]);
    w ← ask;
    onBridge (await (removeAllBridgedEndpoints (bridged env) (pget w p "name") 100)).

Definition unregisterAndShutdownProcess (timeout : Z) : async World unit :=
  _ ← await (mret tt);
  w ← ask;
  _ ← match serverNode (matter (bridge w)) with Some n => perform (SetConfigurationVersion n) | None => mret tt end;
  w ← ask;
  _ ← forEach (plugins w) unregisterPlugin;
  _ ← Wait.wait;
  await (cleanup "unregistered all devices and shutting down..." false timeout).

(** ** The command line *)

(** [await this.nodeContext?.get(k, d)] and [set(k, v)]. *)
Definition storedGet (k : string) (d : value) : async World value :=
  await (gets (fun w => if truthy (this w "nodeContext") then defaulted (getField k (stored w)) d else Undefined)).
Definition storedSet (k : string) (v : value) : async World unit :=
  await (modify (fun w => if truthy (this w "nodeContext") then setStored k v w else w)).

Definition optional (s : option string) : value := match s with Some s => Str s | None => Undefined end.

Definition startMatterStorage : async World unit :=
  _ ← onBridge (modify (fun w =>
        let m := matter w in
        setMatter (mkMatter (nodes m) (serverNode m) (aggregatorNode m) (port m) (passcode m) (discriminator m) true (managers m)
                     (contexts m) (draws m)) w));
  _ ← perform (Other "createDirectory");
  _ ← perform (OpenStore "Matterbridge");
  _ ← modify (setThis [("matterStorageManager", Str "Matterbridge")]);
  ctx ← onBridge (await (createServerNodeContext (bridged env) "Matterbridge" (Str "Matterbridge") (aggregatorDeviceType (bridged env))
          (aggregatorVendorId (bridged env)) (aggregatorVendorName (bridged env)) (aggregatorProductId (bridged env))
          (aggregatorProductName (bridged env)) (optional (getParameter (args env) "serialNumber"))
          (optional (getParameter (args env) "uniqueId"))));
  _ ← modify (setThis [("matterbridgeContext", Str ctx)]);
  catch (perform (Other "copyDirectory")) (fun _ => mret tt).

(** The text of an error of the engine or the system is not kept. *)
Definition getErrorMessage (e : exn) : jsstr := match e with Error m => m | _ => [] end.

(** The matter storage, with the serial number and unique id of the command line. *)
Definition initializeStorage : async World unit :=
  catch
    (_ ← await startMatterStorage;
     w ← ask;
     match getParameter (args env) "serialNumber", getParameter (args env) "uniqueId" with
     | Some sn, Some ui =>
         if truthy (Str sn) && truthy (Str ui) && storageService (matter (bridge w)) then
           _ ← perform (OpenStore "Matterbridge");
           _ ← onBridge (storeSet "Matterbridge" "serialNumber" (Str sn));
           _ ← onBridge (storeSet "Matterbridge" "uniqueId" (Str ui));
           perform (CloseStore "Matterbridge")
         else mret tt
     | _, _ => mret tt
     end)
    (fun e => Raise (Error (js "Fatal error creating matter storage: " ++ getErrorMessage e)%list)).

Definition setMode (mode : string) : async World unit :=
  onBridge (modify (fun w => Bridge.mkWorld (pm w) (extras w) (Bridge.devices w) (registry w) (Str mode) (matterbridgeVersion w)
                               (osRelease w) (matter w) (subscriptions w))).

(** The command was carried out: the process ends. *)
Definition done_ : async World unit := modify (setThis [("shutdown", Bool true)]).

(** The parameters that name a plugin. *)
Definition pluginCommand (n : string) (m : string -> async PluginManager.World (option ref)) (rest : async World unit) : async World unit :=
  match getParameter (args env) n with
  | Some p => if truthy (Str p) then _ ← onPlugins (await (m p)); done_ else rest
  | None => rest
  end.

Definition resetPluginCommand (n : string) : async World unit :=
  w ← ask;
  _ ← match PluginManager.get (pm (bridge w)) (Str n) with
      | Some p => clearStore (toText (pget w p "name")) (commissioning ++ ["persist"])%list
      | None => mret tt
      end;
  _ ← await stopMatterStorage;
  done_.

Definition delays : async World unit :=
  _ ← perhaps (hasParameter (args env) "delay" && (uptime env <=? 300)%Z) (_ ← await (mret tt); Wait.wait);
  perhaps (hasParameter (args env) "fixed_delay") (_ ← await (mret tt); Wait.wait).

(** The mode of the command line, or the stored one, which is bridge by default. *)
Definition startMode : async World unit :=
  let has := hasParameter (args env) in
  _ ← (if negb (has "bridge") && negb (has "childbridge") then
         mode ← storedGet "bridgeMode" (Str "");
         perhaps (isStr mode "") (storedSet "bridgeMode" (Str "bridge"))
       else mret tt);
  _ ← delays;
  bridge ← (if has "bridge" then mret true
            else if has "childbridge" then mret false
            else mode ← storedGet "bridgeMode" (Str ""); mret (isStr mode "bridge"));
  if bridge : bool then _ ← setMode "bridge"; await startBridge
  else
    childbridge ← (if has "childbridge" then mret true
                   else if has "bridge" then mret false
                   else mode ← storedGet "bridgeMode" (Str ""); mret (isStr mode "childbridge"));
    if childbridge : bool then _ ← setMode "childbridge"; await startChildbridge else mret tt.

Definition scheduleChecks : async World unit :=
  modify (setThis [("systemCheckTimeout", Bool true); ("checkUpdateTimeout", Bool true); ("checkUpdateInterval", Bool true)]).

Definition startCommand : async World unit :=
  let has := hasParameter (args env) in
  _ ← perhaps (negb (bool_decide (getIntParameter (args env) "frontend" = Some 0%Z))) (perform (Other "frontend.start"));
  _ ← initializeStorage;
  match has "reset", getParameter (args env) "reset" with
  | true, None => _ ← modify (setThis [("initialized", Bool true)]); _ ← await shutdownProcessAndReset; done_
  | true, Some p => resetPluginCommand p
  | false, _ =>
      _ ← scheduleChecks;
      if has "test" then setMode "bridge"
      else if has "controller" then _ ← setMode "controller"; perform (Other "startController")
      else startMode
  end.

Definition parseCommandLine : async World unit :=
  let has := hasParameter (args env) in
  if has "list" then done_
  else if has "logstorage" then
    w ← ask;
    _ ← perhaps (truthy (this w "nodeContext")) (perform (Other "logStorage"));
    _ ← forEach (plugins w) (fun p => w ← ask; perhaps (truthy (pget w p "nodeContext")) (perform (Other "logStorage")));
    done_
  else if has "loginterfaces" then _ ← await (mret tt); _ ← act (Other "logInterfaces"); done_
  else if has "systemcheck" then _ ← await (mret tt); _ ← perform (Other "systemCheck"); _ ← Wait.wait; done_
  else
    pluginCommand "add" (PluginManager.add (plugged env))
    (pluginCommand "remove" (PluginManager.remove (plugged env))
    (pluginCommand "enable" (PluginManager.enable (plugged env))
    (pluginCommand "disable" (PluginManager.disable (plugged env))
      (if has "factoryreset" then
         _ ← modify (setThis [("initialized", Bool true)]); _ ← await shutdownProcessAndFactoryReset; done_
       else startCommand)))).

(** ** Broadcast requests *)

(** [this.k], wherever the model keeps it. *)
Definition property (w : World) (k : string) : value :=
  let m := matter (bridge w) in
  if bool_decide (k = "bridgeMode") then bridgeMode (bridge w)
  else if bool_decide (k = "matterbridgeVersion") then Str (matterbridgeVersion (bridge w))
  else if bool_decide (k = "matterbridgeDirectory") then Str (matterbridgeDirectory env)
  else if bool_decide (k = "port") then port m
  else if bool_decide (k = "passcode") then passcode m
  else if bool_decide (k = "discriminator") then discriminator m
  else if bool_decide (k = "profile") then optional (getParameter (args env) "profile")
  else if bool_decide (k = "aggregatorVendorId") then aggregatorVendorId (bridged env)
  else if bool_decide (k = "aggregatorVendorName") then aggregatorVendorName (bridged env)
  else if bool_decide (k = "aggregatorProductId") then aggregatorProductId (bridged env)
  else if bool_decide (k = "aggregatorProductName") then aggregatorProductName (bridged env)
  else this w k.

Definition picked (w : World) (ks : list string) : object := map (fun k => (k, property w k)) ks.

Definition directories : list string :=
  ["rootDirectory"; "homeDirectory"; "matterbridgeDirectory"; "matterbridgePluginDirectory"; "matterbridgeCertDirectory";
   "globalModulesDirectory"; "matterbridgeVersion"; "matterbridgeLatestVersion"; "matterbridgeDevVersion"; "frontendVersion"].
Definition docker : list string := ["dockerDev"; "dockerVersion"; "dockerLatestVersion"; "dockerDevVersion"].
Definition modes : list string := ["bridgeMode"; "restartMode"; "virtualMode"].

Definition getPlatformMatterbridge (w : World) : object :=
  picked w (["systemInformation"; "uuid"] ++ directories ++ modes ++
            ["aggregatorVendorId"; "aggregatorVendorName"; "aggregatorProductId"; "aggregatorProductName"])%list.

Definition getSharedMatterbridge (w : World) : object :=
  picked w (["systemInformation"; "uuid"] ++ directories ++ docker ++ modes ++
            ["profile"; "logLevel"; "fileLogger"; "matterLogLevel"; "matterFileLogger"; "mdnsInterface"; "ipv4Address"; "ipv6Address";
             "port"; "discriminator"; "passcode"])%list.

Definition getApiSettings (w : World) : object :=
  [("systemInformation", this w "systemInformation");
   ("matterbridgeInformation",
     Obj (picked w (directories ++ docker ++ modes ++ ["bridgeStatus"; "profile"]) ++
          [("readOnly", Bool (hasParameter (args env) "readonly"));
           ("shellyBoard", Bool false); ("shellySysUpdate", Bool false); ("shellyMainUpdate", Bool false);
           ("loggerLevel", this w "logLevel"); ("fileLogger", this w "fileLogger");
           ("matterLoggerLevel", this w "matterLogLevel"); ("matterFileLogger", this w "matterFileLogger");
           ("matterMdnsInterface", this w "mdnsInterface"); ("matterIpv4Address", this w "ipv4Address");
           ("matterIpv6Address", this w "ipv6Address"); ("matterPort", coalesce (port (matter (bridge w))) (Num 5540));
           ("matterDiscriminator", discriminator (matter (bridge w))); ("matterPasscode", passcode (matter (bridge w)));
           ("restartRequired", Bool false); ("fixedRestartRequired", Bool false); ("updateRequired", Bool false)])%list)].

Definition respond (msg : object) (result : object) : async World unit := act (Respond (setField "result" (Obj result) msg)).
Definition success (msg : object) : async World unit := respond msg [("success", Bool true)].
Definition param (msg : object) (k : string) : async World value := liftRes (getProp (getField "params" msg) k).

(** A version, or the prefix, is remembered and stored. *)
Definition remember (msg : object) (k k' : string) : async World unit :=
  v ← param msg k;
  _ ← modify (setThis [(k', v)]);
  _ ← storedSet k' v;
  success msg.

(** The server node of a plugin or of a device. *)
Definition startNodeOf (n : option ref) : async World unit :=
  match n with Some n => await (perform (StartNode n)) | None => mret tt end.

Definition handleRequest (msg : object) : async World unit :=
  w ← ask;
  let type := getField "type" msg in
  if isStr type "get_log_level" then respond msg [("logLevel", this w "log.logLevel")]
  else if isStr type "set_log_level" then
    level ← param msg "logLevel"; _ ← modify (setThis [("log.logLevel", level)]); respond msg [("logLevel", level)]
  else if isStr type "matterbridge_latest_version" then remember msg "version" "matterbridgeLatestVersion"
  else if isStr type "matterbridge_dev_version" then remember msg "version" "matterbridgeDevVersion"
  else if isStr type "matterbridge_docker_version" then
    v ← param msg "dockerVersion"; _ ← modify (setThis [("dockerVersion", v)]);
    v ← param msg "dockerDev"; _ ← modify (setThis [("dockerDev", v)]);
    v ← param msg "dockerDevVersion"; _ ← modify (setThis [("dockerDevVersion", v)]);
    v ← param msg "dockerLatestVersion"; _ ← modify (setThis [("dockerLatestVersion", v)]);
    success msg
  else if isStr type "matterbridge_global_prefix" then remember msg "prefix" "globalModulesDirectory"
  else if isStr type "matterbridge_platform" then respond msg [("data", Obj (getPlatformMatterbridge w)); ("success", Bool true)]
  else if isStr type "matterbridge_shared" then respond msg [("data", Obj (getSharedMatterbridge w)); ("success", Bool true)]
  else if isStr type "matterbridge_apisettings" then respond msg [("data", Obj (getApiSettings w)); ("success", Bool true)]
  else if isStr type "matterbridge_start_plugin_server" then
    n ← param msg "pluginName";
    _ ← match PluginManager.get (pm (bridge w)) n with Some p => startNodeOf (pluginNode (bridge w) p) | None => mret tt end;
    success msg
  else if isStr type "matterbridge_stop_plugin_server" then
    n ← param msg "pluginName";
    _ ← match PluginManager.get (pm (bridge w)) n with
        | Some p =>
            _ ← match pluginNode (bridge w) p with Some n => await (stopServerNode n) | None => mret tt end;
            onBridge (modify (setPluginNode p None))
        | None => mret tt
        end;
    success msg
  else if isStr type "matterbridge_start_device_server" then
    u ← param msg "deviceUniqueId";
    _ ← match mget u (registry (bridge w)) with Some d => startNodeOf (ownNode (device (bridge w) d)) | None => mret tt end;
    success msg
  else if isStr type "matterbridge_stop_device_server" then
    u ← param msg "deviceUniqueId";
    _ ← match mget u (registry (bridge w)) with
        | Some d =>
            _ ← match ownNode (device (bridge w) d) with Some n => await (stopServerNode n) | None => mret tt end;
            onBridge (modify (setOwnNode d None))
        | None => mret tt
        end;
    success msg
  else mret tt.

(** matterbridge itself was installed: a service or a container starts it again. *)
Definition handleSpawnResponse (result : value) : async World unit :=
  if truthy (optProp result "success") && isStr (optProp result "packageCommand") "install" then
    match optProp result "packageName" with
    | Str n =>
        w ← ask;
        perhaps (bool_decide (PluginManager.stripVersion n = "matterbridge") && negb (isStr (this w "restartMode") "none"))
          (await (cleanup "updating..." false 1000))
    | _ => Raise TypeError
    end
  else mret tt.

Definition toUs (m : value) : bool := isStr (optProp m "dst") "all" || isStr (optProp m "dst") "matterbridge".

Definition msgHandler (m : value) : async World unit :=
  _ ← match m with
      | Obj msg => if isWorkerRequest m && toUs m then handleRequest msg else mret tt
      | _ => mret tt
      end;
  if isWorkerResponse m && toUs m && isStr (optProp m "type") "manager_spawn_response"
  then handleSpawnResponse (optProp m "result") else mret tt.
End Application.
End Matterbridge.
