(* ===== verification/MatterbridgeFacts.v ===== *)
(** Properties of the application's start: the plugins that are in error stay in
    error, the wait for the plugins ends, and no server node is started before all
    enabled plugins are. *)
From S2P Require Import Prelude JsValue JsMap Async Ownership Wait Broadcast DeviceManager PluginManager PluginFacts PluginLifecycle Bridge BridgeFacts Matterbridge.
From stdpp Require Import gmap relations.
#[local] Open Scope string_scope.

(** ** Marks of the plugins *)

Section Marks.
Import Broadcast PluginManager.

(** Enabled and in error. *)
Definition marked (w : World) (p : nat) : bool := truthy (pget w p "enabled") && truthy (pget w p "error").

(** The registry is the same and no mark is lost. *)
Definition grows (w0 w : World) : Prop :=
  _plugins w = _plugins w0 /\ forall p, marked w0 p = true -> marked w p = true.

#[export] Instance grows_preorder : PreOrder grows.
Proof.
  split; [done|]. intros w1 w2 w3 [Hp Hm] [Hp' Hm']. split; [congruence|]. intros p H. by apply Hm', Hm.
Qed.

Lemma grows_same w w' : _plugins w' = _plugins w -> objects w' = objects w -> grows w w'.
Proof. intros Hp Ho. split; [done|]. intros p. unfold marked, pget, plugin. by rewrite Ho. Qed.

Lemma grows_setObject w r q :
  (marked w r = true -> stage "enabled" (fields q) && stage "error" (fields q) = true) -> grows w (setObject r q w).
Proof.
  intros Hq. split; [done|]. intros p Hp. unfold marked, pget in *. rewrite plugin_setObject. case_decide as E; [subst|done]. by apply Hq.
Qed.

Lemma grows_pset w r kvs :
  forallb (fun kv => negb (bool_decide (fst kv ∈ ["enabled"; "error"]))) kvs = true -> grows w (pset r kvs w).
Proof.
  intros Hk. apply grows_setObject. cbn [fields]. unfold marked, pget, stage.
  assert (forall k, k ∈ ["enabled"; "error"] -> k ∉ map fst kvs) as Hno.
  { intros k Hin. rewrite forallb_forall in Hk. rewrite list_elem_of_In, in_map_iff. intros ([k' v] & <- & H).
    specialize (Hk (k', v) H). by rewrite bool_decide_eq_true_2 in Hk. }
  by rewrite !getField_assign_ne by (apply Hno; set_solver).
Qed.

Lemma marked_error w r : truthy (pget w r "enabled") = true -> marked (pset r [("error", Bool true)] w) r = true.
Proof.
  unfold marked, pget, pset. intros He. rewrite plugin_setObject, decide_True by done. cbn [fields assign foldl fst snd].
  fields. by rewrite He.
Qed.

Lemma grows_error w r : grows w (pset r [("error", Bool true)] w).
Proof.
  apply grows_setObject. cbn. unfold marked, pget, stage. fields. intros [H _]%andb_true_iff. by rewrite H.
Qed.

Lemma grows_loadedPlugin w v p r : grows w (loadedPlugin v p r w).
Proof.
  apply grows_setObject. cbn [fields]. unfold marked, pget, stage, presets. cbn [app]. by rewrite !getField_assign_ne by evaluate.
Qed.

Lemma grows_presets w v c r : grows w (setConfigJson r c (pset r (presets v) w)).
Proof. transitivity (pset r (presets v) w); [by apply grows_pset|]. by apply grows_setObject. Qed.

(** Plugin code keeps the registry and takes no plugin out of error. *)
Class MarkedHooks (env : Env) := {
  onStart_marked p m : guarded grows (onStart env p m);
  onConfigure_marked p : guarded grows (onConfigure env p);
  onShutdown_marked p m : guarded grows (onShutdown env p m);
  make_marked e make c : importModule env e = Default make -> guarded grows (make c)
}.

Context (env : Env) `{!MarkedHooks env}.

#[local] Ltac marking :=
  unfold imported, fileAccess, readJson, readFile, parseJson, asString, asObject, newConfig, writeJson, emit, thePlatform, markRestart,
    saveToStorage; guarding;
  try first [by apply grows_same | by apply grows_pset | apply grows_error | apply grows_loadedPlugin | apply grows_presets
            | by apply grows_setObject].

Lemma loadConfig_marked r : guarded grows (loadConfig env r).
Proof. unfold loadConfig, besidePackage. marking. Qed.

Lemma loadSchema_marked r : guarded grows (loadSchema r).
Proof. unfold loadSchema, besidePackage. marking. Qed.

Lemma saveConfig_marked r b : guarded grows (saveConfigFromPlugin env r b).
Proof. unfold saveConfigFromPlugin. marking. Qed.

Lemma configure_marked t : guarded grows (configure env t).
Proof. unfold configure. marking. apply onConfigure_marked. Qed.

Lemma start_marked t m c : guarded grows (start env t m c).
Proof. unfold start. marking; first [apply onStart_marked | apply saveConfig_marked | apply configure_marked]. Qed.

Lemma load_marked t s m c : guarded grows (load env t s m c).
Proof.
  unfold load, makePlatform. marking;
    first [apply loadConfig_marked | apply loadSchema_marked | apply start_marked | apply configure_marked | apply onShutdown_marked
          | by eapply make_marked].
Qed.
End Marks.

(** ** Between the ticks *)

Import Broadcast Bridge Matterbridge.

Abbreviation interval w := (this w "startMatterInterval").

(** Other tasks leave the interval alone, and the marks of the plugins grow. *)
Definition calm (w w' : World) : Prop :=
  interval w' = interval w /\ failCount w' = failCount w /\ grows (pm (bridge w)) (pm (bridge w')).

#[export] Instance calm_preorder : PreOrder calm.
Proof.
  split; [done|]. intros w1 w2 w3 (Hi & Hf & Hg) (Hi' & Hf' & Hg'). split_and!; [congruence..|by etransitivity].
Qed.

Section Tasks.
Context (env : Env) `{!MarkedHooks (plugged env)}.

Lemma onPlugins_calm {A} (m : async PluginManager.World A) : guarded grows m -> guarded calm (onPlugins m).
Proof. by apply guarded_lift. Qed.

(** Loading, starting and configuring plugins goes on between the ticks. *)
Lemma task_calm t : guarded calm (taskOf env t).
Proof.
  destruct t as [p s|p|]; cbn [taskOf].
  - guarding. by apply onPlugins_calm, load_marked.
  - guarding. by apply onPlugins_calm, start_marked.
  - unfold configurePlugins. guarding. generalize (plugins a). intros l. induction l as [|p l IH]; [done|]. cbn [configureEach].
    unfold perhaps, sendPluginStatusUpdate, wssSendSnackbarMessage, act. guarding; try exact IH; try done.
    + by apply onPlugins_calm, guarded_await, configure_marked.
    + split_and!; [done..|]. apply grows_error.
Qed.
End Tasks.

(** ** A tick *)

(** The nodes that were started. *)
Definition starts (w : World) : list nat := omap (fun a => match a with StartNode n => Some n | _ => None end) (trace w).

Abbreviation plugged_ w := (pm (bridge w)).

(** A part of a tick that starts no node and stops no wait. *)
Definition goesOn (w w' : World) : Prop :=
  interval w' = interval w /\ (failCount w <= failCount w')%Z /\ grows (plugged_ w) (plugged_ w') /\ starts w' = starts w.

Lemma goesOn_refl w : goesOn w w.
Proof. split_and!; [done|lia|done|done]. Qed.

Lemma goesOn_trans w1 w2 w3 : goesOn w1 w2 -> goesOn w2 w3 -> goesOn w1 w3.
Proof.
  intros (Hi & Hf & (Hp & Hm) & Hs) (Hi' & Hf' & (Hp' & Hm') & Hs'). split_and!; [congruence|lia| |congruence].
  split; [congruence|]. intros p Hp1. by apply Hm', Hm.
Qed.

(** An enabled plugin of the list is not ready; too many failures mark it. *)
Definition stuck (l : list nat) (w w' : World) : Prop :=
  exists p, p ∈ l /\ marked (plugged_ w) p = false /\ (failCount w < failCount w')%Z /\
    ((failCountLimit < failCount w')%Z -> marked (plugged_ w') p = true).

(** The bridge is not started because a plugin is in error. *)
Definition halted (w w' : World) : Prop :=
  truthy (interval w') = false /\ this w' "bridgeStatus" = Str "error" /\ starts w' = starts w.

Definition fine (w : World) (p : nat) : Prop :=
  truthy (pget w p "enabled") = true -> truthy (pget w p "error") = false /\ isReady w p = true.

Lemma starts_act a w : (forall n, a <> StartNode n) -> starts (addAction a w) = starts w.
Proof.
  intros Ha. unfold starts. cbn. rewrite omap_app. cbn. destruct a; try (by rewrite app_nil_r). by destruct (Ha n).
Qed.

Lemma goesOn_act a w : (forall n, a <> StartNode n) -> goesOn w (addAction a w).
Proof. intros Ha. split_and!; [done|cbn; lia|done|by apply starts_act]. Qed.

Lemma run_status p w :
  exists w', run (sendPluginStatusUpdate p) w = (w', Ok tt) /\ goesOn w w' /\ bridge w' = bridge w /\ failCount w' = failCount w.
Proof. eexists. split; [reflexivity|]. split_and!; [by apply goesOn_act|done|done]. Qed.

Lemma run_halt p w : exists w', run (halt p) w = (w', Ok tt) /\ halted w w'.
Proof.
  eexists. split; [reflexivity|]. split_and!.
  - unfold this. cbn. by rewrite getField_setField_ne, getField_setField.
  - unfold this. cbn. by rewrite getField_setField.
  - unfold starts. cbn. rewrite !omap_app. cbn. by rewrite !app_nil_r.
Qed.

Lemma run_failed p w :
  truthy (pget w p "enabled") = true ->
  exists w', run (failed p) w = (w', Ok tt) /\ goesOn w w' /\ (failCount w < failCount w')%Z /\
    ((failCountLimit < failCount w')%Z -> marked (plugged_ w') p = true).
Proof.
  intros He. unfold failed, perhaps. running. cbn [failCount setFailCount].
  destruct (failCountLimit <? failCount w + 1)%Z eqn:E; running; eexists; (split; [reflexivity|]).
  - split; [split_and!; [done|cbn; lia|by apply grows_error|done]|]. split; [cbn; lia|]. intros _.
    by apply (marked_error (plugged_ w)).
  - split; [split_and!; [done|cbn; lia|done|done]|]. split; [cbn; lia|]. cbn. apply Z.ltb_ge in E. lia.
Qed.

(** Plugins are judged by their properties only. *)
Lemma fine_bridge w w' p : bridge w' = bridge w -> fine w' p -> fine w p.
Proof. intros Hb. unfold fine, isReady, pget. by rewrite Hb. Qed.

Lemma stuck_mono l l' w0 w w' :
  (forall p, p ∈ l -> p ∈ l') -> goesOn w0 w -> stuck l w w' -> stuck l' w0 w'.
Proof.
  intros Hl (_ & Hf & (_ & Hg) & _) (p & Hp & Hm & Hlt & Hmark). exists p. split_and!; [by apply Hl| |lia|done].
  destruct (marked (plugged_ w0) p) eqn:E; [|done]. by rewrite Hg in Hm.
Qed.

Lemma halted_after w0 w w' : goesOn w0 w -> halted w w' -> halted w0 w'.
Proof. intros (_ & _ & _ & Hs) (Hi & Hst & Hs'). split_and!; [done..|congruence]. Qed.

(** What the loop of the callback does: all plugins are fine, or a plugin is in
    error, or one is not ready. *)
Definition checked (l : list nat) (w w' : World) (ready : bool) : Prop :=
  if ready then goesOn w w' /\ bridge w' = bridge w /\ Forall (fine w) l
  else ~ Forall (fine w) l /\ (halted w w' \/ (goesOn w w' /\ stuck l w w')).

Lemma checked_skip p l w w1 w' b :
  goesOn w w1 -> bridge w1 = bridge w -> fine w p -> checked l w1 w' b -> checked (p :: l) w w' b.
Proof.
  intros Hg Hb Hf. destruct b; cbn.
  - intros (Hg' & Hb' & Hall). split_and!; [by eapply goesOn_trans|congruence|]. constructor; [done|].
    eapply Forall_impl; [exact Hall|]. intros q. by apply fine_bridge.
  - intros [Hno Hout]. split.
    { intros [_ Hall]%Forall_cons. apply Hno. eapply Forall_impl; [exact Hall|]. intros q. by apply fine_bridge. }
    destruct Hout as [Hh|[Hg' Hs]]; [left; by eapply halted_after|right]. split; [by eapply goesOn_trans|].
    eapply stuck_mono; [|exact Hg|exact Hs]. intros q Hq. by right.
Qed.

(** A plugin that stops the loop. *)
Lemma not_fine w p l :
  truthy (pget w p "enabled") = true -> truthy (pget w p "error") = true \/ isReady w p = false -> ~ Forall (fine w) (p :: l).
Proof. intros He Hor [Hf _]%Forall_cons. destruct (Hf He) as [H1 H2]. destruct Hor; congruence. Qed.

Lemma bridgeCheck_checked l w : exists w' b, run (bridgeCheck l) w = (w', Ok b) /\ checked l w w' b.
Proof.
  revert w. induction l as [|p l IH]; intros w; cbn [bridgeCheck].
  { exists w, true. split; [done|]. split_and!; [apply goesOn_refl|done|constructor]. }
  running. destruct (truthy (pget w p "enabled")) eqn:He; cbn [negb].
  2:{ destruct (IH w) as (w' & b & Hr & Hc). exists w', b. split; [done|]. apply (checked_skip p l w w); [apply goesOn_refl|done| |done].
      unfold fine. by rewrite He. }
  destruct (truthy (pget w p "error")) eqn:Herr.
  { running. destruct (run_halt p w) as (w' & -> & Hh). running. exists w', false. split; [done|].
    split; [by apply not_fine; [|left]|by left]. }
  running. destruct (run_status p w) as (w1 & -> & Hg & Hb & Hfc). destruct (isReady w p) eqn:Hr.
  { destruct (IH w1) as (w' & b & Hrun & Hc). exists w', b. split; [done|]. by apply (checked_skip p l w w1). }
  running. destruct (run_failed p w1) as (w' & -> & Hg' & Hlt & Hmark); [by unfold pget; rewrite Hb|]. running.
  exists w', false. split; [done|]. split; [by apply not_fine; [|right]|]. right. split; [by eapply goesOn_trans|].
  exists p. split_and!; [by left| |lia|done].
  unfold marked. unfold pget, Bridge.pget in Herr. by rewrite Herr, andb_false_r.
Qed.

(** The loop of mode childbridge after a plugin that is not ready. *)
Definition checkedOn (l : list nat) (w w' : World) (ready : bool) : Prop :=
  ready = false /\ (halted w w' \/ goesOn w w' /\ (failCount w' = failCount w \/ stuck l w w')).

Lemma checkedOn_skip p l w w1 w' b :
  goesOn w w1 -> failCount w1 = failCount w -> checkedOn l w1 w' b -> checkedOn (p :: l) w w' b.
Proof.
  intros Hg Hf [-> [Hh|[Hg' Hs]]]; (split; [done|]); [left; by eapply halted_after|right]. split; [by eapply goesOn_trans|].
  destruct Hs as [Hs|Hs]; [left; congruence|right]. eapply stuck_mono; [|exact Hg|exact Hs]. intros q Hq. by right.
Qed.

(** The last plugin that was not ready is the one that counts. *)
Lemma stuck_then p l w w2 w' :
  goesOn w w2 -> marked (plugged_ w) p = false -> (failCount w < failCount w2)%Z ->
  ((failCountLimit < failCount w2)%Z -> marked (plugged_ w2) p = true) ->
  goesOn w2 w' -> failCount w' = failCount w2 \/ stuck l w2 w' -> stuck (p :: l) w w'.
Proof.
  intros Hg Hm Hlt Hmark Hg' [Hs|Hs].
  - exists p. destruct Hg' as (_ & _ & (_ & Hgr) & _). split_and!; [by left|done|lia|]. intros Hlim. apply Hgr, Hmark. lia.
  - eapply stuck_mono; [|exact Hg|exact Hs]. intros q Hq. by right.
Qed.

Lemma childbridgeCheck_checked l w started :
  exists w' b, run (childbridgeCheck started l) w = (w', Ok b) /\ (if started then checked else checkedOn) l w w' b.
Proof.
  revert w started. induction l as [|p l IH]; intros w started; cbn [childbridgeCheck].
  { exists w, started. split; [done|]. destruct started.
    - split_and!; [apply goesOn_refl|done|constructor].
    - split; [done|]. right. split; [apply goesOn_refl|by left]. }
  running. destruct (truthy (pget w p "enabled")) eqn:He; cbn [negb].
  2:{ destruct (IH w started) as (w' & b & Hr & Hc). exists w', b. split; [done|].
      destruct started; [|by apply (checkedOn_skip p l w w); [apply goesOn_refl| |]].
      apply (checked_skip p l w w); [apply goesOn_refl|done| |done]. unfold fine. by rewrite He. }
  destruct (truthy (pget w p "error")) eqn:Herr.
  { running. destruct (run_halt p w) as (w' & -> & Hh). running. exists w', false. split; [done|].
    destruct started; [split; [by apply not_fine; [|left]|by left]|split; [done|by left]]. }
  running. destruct (run_status p w) as (w1 & -> & Hg & Hb & Hfc). destruct (isReady w p) eqn:Hr.
  { destruct (IH w1 started) as (w' & b & Hrun & Hc). exists w', b. split; [done|].
    destruct started; [by apply (checked_skip p l w w1)|by apply (checkedOn_skip p l w w1)]. }
  running. destruct (run_failed p w1) as (w2 & -> & Hg' & Hlt & Hmark); [by unfold pget; rewrite Hb|]. running.
  destruct (IH w2 false) as (w' & b & Hrun & -> & Hend). exists w', false. split; [done|].
  pose proof (goesOn_trans _ _ _ Hg Hg') as Hg2.
  assert (halted w w' \/ goesOn w w' /\ stuck (p :: l) w w') as Hout.
  { destruct Hend as [Hh|[Hg3 Hs]]; [left; by eapply halted_after|right]. split; [by eapply goesOn_trans|].
    apply (stuck_then p l w w2); [done| |lia|done..]. unfold marked. unfold pget, Bridge.pget in Herr. by rewrite Herr, andb_false_r. }
  destruct started; [split; [by apply not_fine; [|right]|exact Hout]|]. split; [done|]. destruct Hout as [?|[? ?]]; [by left|right]. split; [done|by right].
Qed.

(** *** The whole callback *)

(** A tick ends with the bridge halted or started, or the wait goes on. *)
Definition outcome (w w' : World) : Prop :=
  halted w w' \/
  (truthy (interval w') = false /\ this w' "bridgeStatus" = Str "started" /\ Forall (fine w) (plugins w)) \/
  (goesOn w w' /\ stuck (plugins w) w w').

Lemma run_stillStarting w :
  exists w', run stillStarting w = (w', Ok tt) /\ goesOn w w' /\ bridge w' = bridge w.
Proof.
  unfold stillStarting, perhaps. running. destruct (negb _ && _).
  - eexists. split; [reflexivity|]. split; [by apply goesOn_act|done].
  - exists w. split; [done|]. split; [apply goesOn_refl|done].
Qed.

Lemma checked_outcome w w1 w2 b :
  goesOn w w1 -> bridge w1 = bridge w -> checked (plugins w1) w1 w2 b ->
  if b then Forall (fine w) (plugins w) else outcome w w2.
Proof.
  intros Hg Hb. assert (plugins w1 = plugins w) as -> by (unfold plugins; by rewrite Hb). destruct b; cbn.
  - intros (_ & _ & Hall). eapply Forall_impl; [exact Hall|]. intros p. by apply fine_bridge.
  - intros [_ [Hh|[Hg' Hs]]]; [left; by eapply halted_after|right; right]. split; [by eapply goesOn_trans|].
    by eapply stuck_mono; [|exact Hg|exact Hs].
Qed.

(** The end of a start clears the interval and sets the status. *)
Definition finishes (m : async World unit) : Prop :=
  forall w, truthy (interval w) = false ->
    truthy (interval (fst (run m w))) = false /\ this (fst (run m w)) "bridgeStatus" = Str "started".

Lemma run_started e : finishes (started e).
Proof. intros w Hw. unfold this in *. cbn. by rewrite getField_setField_ne, getField_setField. Qed.

(** Parts before that keep the interval cleared and do not fail. *)
Lemma finishes_after {A} (m : async World A) k :
  (forall w, exists w' a, run m w = (w', Ok a) /\ interval w' = interval w) -> (forall a, finishes (k a)) -> finishes (m ≫= k).
Proof.
  intros Hm Hk w Hw. destruct (Hm w) as (w' & a & Hrun & Hi). rewrite run_bind, Hrun. apply Hk. by rewrite Hi.
Qed.

Lemma run_startServerNode n w : exists w' a, run (startServerNode n) w = (w', Ok a) /\ interval w' = interval w.
Proof. destruct n; by do 2 eexists. Qed.

Lemma run_startDevices l w : exists w' a, run (startDevices l) w = (w', Ok a) /\ interval w' = interval w.
Proof.
  revert w. induction l as [|d l IH]; intros w; [by do 2 eexists|]. cbn [startDevices]. running. unfold perhaps.
  assert (exists w' a, run (if isStr (dget (bridge w) d "mode") "server" then startServerNode (ownNode (device (bridge w) d)) else mret tt) w
            = (w', Ok a) /\ interval w' = interval w) as (w1 & a & -> & Hi).
  { case_match; [apply run_startServerNode|by do 2 eexists]. }
  destruct (IH w1) as (w' & b & -> & Hi'). do 2 eexists. split; [done|congruence].
Qed.

Lemma run_startPluginNodes l w : exists w' a, run (startPluginNodes l) w = (w', Ok a) /\ interval w' = interval w.
Proof.
  revert w. induction l as [|p l IH]; intros w; [by do 2 eexists|]. cbn [startPluginNodes]. running.
  repeat case_match; try apply IH. running. destruct (run_startServerNode (Some n) w) as (w1 & a & -> & Hi). running.
  destruct (IH (pset p [("reachabilityTimeout", Bool true)] w1)) as (w' & b & -> & Hi'). do 2 eexists. split; [done|]. by rewrite Hi'.
Qed.

Lemma run_ask_interval w : exists w' a, run ask w = (w', Ok a) /\ interval w' = interval w.
Proof. by do 2 eexists. Qed.

Lemma run_setTimer k v w :
  k <> "startMatterInterval" -> exists w' a, run (modify (setThis [(k, v)])) w = (w', Ok a) /\ interval w' = interval w.
Proof. intros Hk. do 2 eexists. split; [reflexivity|]. unfold this. cbn. by rewrite getField_setField_ne. Qed.

Lemma bridgeTick_outcome w : outcome w (fst (run bridgeTick w)).
Proof.
  unfold bridgeTick. running. destruct (run_stillStarting w) as (w1 & -> & Hg & Hb). running.
  destruct (bridgeCheck_checked (plugins w1) w1) as (w2 & b & -> & Hc). pose proof (checked_outcome w w1 w2 b Hg Hb Hc) as Ho.
  destruct b; [|exact Ho]. right. left.
  match goal with |- truthy (interval (fst (run (clearStartInterval ≫= ?k) w2))) = _ /\ _ => assert (finishes (k tt)) as Hf end.
  { repeat (apply finishes_after; [intros ?; first [apply run_ask_interval | apply run_startServerNode | apply run_startDevices
              | by apply run_setTimer]|intros ?]). apply run_started. }
  unfold clearStartInterval. rewrite run_bind, run_modify. destruct (Hf (setThis [("startMatterInterval", Undefined)] w2)) as [H1 H2]; [|by split_and!].
  unfold this. cbn. by rewrite getField_setField.
Qed.

Lemma childbridgeTick_outcome delay w : outcome w (fst (run (childbridgeTick delay) w)).
Proof.
  unfold childbridgeTick. running. destruct (run_stillStarting w) as (w1 & -> & Hg & Hb). running.
  destruct (childbridgeCheck_checked (plugins w1) w1 true) as (w2 & b & -> & Hc).
  pose proof (checked_outcome w w1 w2 b Hg Hb Hc) as Ho. destruct b; [|exact Ho]. right. left.
  match goal with |- truthy (interval (fst (run (clearStartInterval ≫= ?k) w2))) = _ /\ _ => assert (finishes (k tt)) as Hf end.
  { repeat (apply finishes_after; [intros ?; first [apply run_ask_interval | apply run_startPluginNodes | apply run_startDevices
              | by apply run_setTimer | unfold perhaps; case_match; by do 2 eexists]|intros ?]). apply run_started. }
  unfold clearStartInterval. rewrite run_bind, run_modify. destruct (Hf (setThis [("startMatterInterval", Undefined)] w2)) as [H1 H2]; [|by split_and!].
  unfold this. cbn. by rewrite getField_setField.
Qed.

(** *** What is started *)

Definition fineb (w : World) (p : nat) : bool :=
  negb (truthy (pget w p "enabled")) || (negb (truthy (pget w p "error")) && isReady w p).

Lemma fineb_fine w p : fineb w p = true <-> fine w p.
Proof.
  unfold fineb, fine. destruct (truthy (pget w p "enabled")), (truthy (pget w p "error")), (isReady w p); cbn; split; try done;
    intros H; by destruct (H eq_refl).
Qed.

(** The server node of the bridge and those of devices in mode server. *)
Definition deviceNode (w : World) (d : nat) : option nat :=
  if isStr (dget (bridge w) d "mode") "server" then ownNode (device (bridge w) d) else None.
Definition bridgeNodes (w : World) : list nat :=
  (option_list (serverNode (matter (bridge w))) ++ omap (deviceNode w) (devices w))%list.

Lemma starts_startServerNode n w :
  exists w', run (startServerNode n) w = (w', Ok tt) /\ starts w' = (starts w ++ option_list n)%list /\ bridge w' = bridge w.
Proof.
  destruct n as [n|]; eexists; (split; [reflexivity|]); (split; [|done]).
  - unfold starts. cbn. by rewrite omap_app.
  - by rewrite app_nil_r.
Qed.

Lemma starts_startDevices l w :
  exists w', run (startDevices l) w = (w', Ok tt) /\ starts w' = (starts w ++ omap (deviceNode w) l)%list /\ bridge w' = bridge w.
Proof.
  revert w. induction l as [|d l IH]; intros w; cbn [startDevices omap list_omap].
  { exists w. by rewrite app_nil_r. }
  running. unfold perhaps.
  assert (exists w1, run (if isStr (dget (bridge w) d "mode") "server" then startServerNode (ownNode (device (bridge w) d)) else mret tt) w
            = (w1, Ok tt) /\ starts w1 = (starts w ++ option_list (deviceNode w d))%list /\ bridge w1 = bridge w) as (w1 & -> & Hs & Hb).
  { unfold deviceNode. case_match; [apply starts_startServerNode|]. exists w. by rewrite app_nil_r. }
  destruct (IH w1) as (w' & -> & Hs' & Hb'). exists w'. split; [done|].
  assert (deviceNode w1 = deviceNode w) as Hd by (unfold deviceNode; by rewrite Hb). rewrite Hs', Hs, Hd.
  split; [|congruence]. destruct (deviceNode w d); cbn; by rewrite <- (assoc_L (++)%list).
Qed.

(** C15: in mode bridge a tick starts server nodes only if every enabled plugin is
    loaded and started and none is in error, and then exactly the node of the bridge
    and those of the registered devices in mode server: controllers never see a
    bridge without the devices of a plugin that is late. *)
Theorem bridge_starts_exact w :
  starts (fst (run bridgeTick w)) =
  (if forallb (fineb w) (plugins w) then starts w ++ bridgeNodes w else starts w)%list.
Proof.
  unfold bridgeTick. running. destruct (run_stillStarting w) as (w1 & -> & Hg & Hb). running.
  assert (plugins w1 = plugins w) as Hp by (unfold plugins; by rewrite Hb).
  destruct (bridgeCheck_checked (plugins w1) w1) as (w2 & b & -> & Hc). rewrite Hp in Hc.
  assert (forall p, fineb w1 p = fineb w p) as Hfine by (intros p; unfold fineb, isReady, pget; by rewrite Hb).
  destruct b.
  - destruct Hc as (Hg2 & Hb2 & Hall).
    assert (forallb (fineb w) (plugins w) = true) as ->.
    { apply forallb_forall. intros p Hin. rewrite <- Hfine. apply fineb_fine. rewrite Forall_forall in Hall. apply Hall.
      by apply list_elem_of_In. }
    unfold clearStartInterval. running.
    set (w3 := setThis _ w2). destruct (starts_startServerNode (serverNode (matter (bridge w3))) w3) as (w4 & -> & Hs4 & Hb4). running.
    destruct (starts_startDevices (devices w4) w4) as (w5 & -> & Hs5 & Hb5). running.
    assert (bridge w4 = bridge w) as Hb4' by (rewrite Hb4; subst w3; cbn; congruence).
    assert (deviceNode w4 = deviceNode w) as Hd by (unfold deviceNode; by rewrite Hb4').
    assert (devices w4 = devices w) as Hd' by (unfold devices; by rewrite Hb4').
    rewrite Hd, Hd', Hs4 in Hs5. assert (starts w3 = starts w) as Hs3.
    { destruct Hg as (_ & _ & _ & Hs), Hg2 as (_ & _ & _ & Hs'). by rewrite <- Hs, <- Hs'. }
    assert (serverNode (matter (bridge w3)) = serverNode (matter (bridge w))) as Hm by (subst w3; cbn; by rewrite Hb2, Hb).
    unfold started, status, act. running. cbn [fst].
    transitivity (starts w5); [unfold starts; cbn; rewrite !omap_app; cbn; by rewrite !app_nil_r|].
    unfold bridgeNodes. by rewrite Hs5, Hs3, Hm, (assoc_L (++)%list).
  - destruct Hc as [Hno Hout]. assert (forallb (fineb w) (plugins w) = false) as ->.
    { destruct (forallb (fineb w) (plugins w)) eqn:E; [|done]. destruct Hno. rewrite forallb_forall in E.
      apply Forall_forall. intros p Hin. apply fineb_fine. rewrite Hfine. apply E. by apply list_elem_of_In. }
    destruct Hg as (_ & _ & _ & Hs). destruct Hout as [(_ & _ & Hs')|[(_ & _ & _ & Hs') _]]; cbn; congruence.
Qed.

(** ** The wait ends *)

Lemma filter_mono {A} (f g : A -> bool) l :
  (forall x, f x = true -> g x = true) -> length (List.filter f l) <= length (List.filter g l).
Proof.
  intros H. induction l as [|x l IH]; cbn; [lia|]. destruct (f x) eqn:E; [rewrite (H x E)|destruct (g x)]; cbn; lia.
Qed.

Lemma filter_strict {A} (f g : A -> bool) l x :
  (forall x, f x = true -> g x = true) -> x ∈ l -> f x = false -> g x = true ->
  length (List.filter f l) < length (List.filter g l).
Proof.
  intros H Hx Hf Hg. induction l as [|y l IH]; [by apply not_elem_of_nil in Hx|]. apply elem_of_cons in Hx as [->|Hx].
  - cbn. rewrite Hf, Hg. cbn. pose proof (filter_mono f g l H). lia.
  - specialize (IH Hx). cbn. destruct (f y) eqn:E; [rewrite (H y E)|destruct (g y)]; cbn; lia.
Qed.

Lemma filter_all {A} (l : list A) : List.filter (fun _ => true) l = l.
Proof. induction l as [|x l IH]; cbn; congruence. Qed.

(** The number of plugins in error. *)
Definition marks (w : World) : nat := length (List.filter (marked (plugged_ w)) (plugins w)).

Lemma grows_plugins w w' : grows (plugged_ w) (plugged_ w') -> plugins w' = plugins w.
Proof. intros [H _]. unfold plugins, PluginManager.array. by rewrite H. Qed.

Lemma grows_marks w w' : grows (plugged_ w) (plugged_ w') -> marks w <= marks w'.
Proof. intros H. unfold marks. rewrite (grows_plugins w w' H). apply filter_mono, H. Qed.

Lemma stuck_marks w w' :
  goesOn w w' -> stuck (plugins w) w w' ->
  marks w < length (plugins w) /\ ((failCountLimit < failCount w')%Z -> marks w < marks w').
Proof.
  intros (_ & _ & Hg & _) (p & Hp & Hm & _ & Hmark). split.
  - unfold marks. rewrite <- (filter_all (plugins w)) at 2. by apply (filter_strict _ (fun _ => true) _ p).
  - intros Hlim. unfold marks. rewrite (grows_plugins w w' Hg). apply (filter_strict _ _ _ p); [apply Hg|done|done|by apply Hmark].
Qed.

(** The interval fires while it is set. *)
Definition fire (tick : async World unit) (w : World) : World := if truthy (interval w) then fst (run tick w) else w.

(** A tick of one of the two modes. *)
Inductive isTick : async World unit -> Prop :=
  | tickBridge : isTick bridgeTick
  | tickChildbridge delay : isTick (childbridgeTick delay).

Lemma tick_outcome tick w : isTick tick -> outcome w (fst (run tick w)).
Proof. intros [|delay]; [apply bridgeTick_outcome|apply childbridgeTick_outcome]. Qed.

Section Startup.
Context (env : Env) `{!MarkedHooks (plugged env)} (tick : async World unit) (Htick : isTick tick).
Context (s : nat -> World * list (async World unit)).
Hypothesis Hstep : forall i, rtc turn (fire tick (fst (s i)), snd (s i)) (s (S i)).

(** The wait ends with tick [i]. *)
Definition endsAt (i : nat) : Prop :=
  let w := fst (s i) in let w' := fire tick w in
  truthy (interval w) = true /\ truthy (interval w') = false /\
  (this w' "bridgeStatus" = Str "error" /\ starts w' = starts w \/
   this w' "bridgeStatus" = Str "started" /\ Forall (fine w) (plugins w)).

(** As long as it does not end, failures and then errors accumulate. *)
Definition waiting (n i : nat) : Prop :=
  let w := fst (s i) in
  truthy (interval w) = true /\ length (plugins w) = n /\ (Z.of_nat i <= failCount w)%Z /\
  (Z.of_nat i <= failCountLimit + Z.of_nat (marks w))%Z /\ Forall (guarded calm) (snd (s i)).

Lemma waiting_step n i : waiting n i -> endsAt i \/ (marks (fst (s i)) < n /\ waiting n (S i)).
Proof.
  unfold waiting, endsAt, fire. intros (Hi & Hn & Hf & Hm & Hpool). pose proof (Hstep i) as Hr. unfold fire in Hr. rewrite Hi in *.
  destruct (s i) as [w pool] eqn:Es. cbn [fst snd] in *. set (w1 := fst (run tick w)) in *.
  destruct (tick_outcome tick w Htick) as [(H1 & H2 & H3)|[(H1 & H2 & H3)|[Hg Hs]]]; fold w1 in H1 || fold w1 in Hg.
  - left. split_and!; [done..|by left].
  - left. split_and!; [done..|by right].
  - right. fold w1 in Hs. destruct (stuck_marks w w1 Hg Hs) as [Hlt Hlim]. split; [lia|].
    destruct (s (S i)) as [w2 pool2]. cbn [fst snd].
    destruct (guarded_turns calm w1 w2 pool pool2 Hpool Hr) as [(Hi2 & Hf2 & Hg2) Hpool2].
    destruct Hg as (Hi1 & Hf1 & Hg1 & _). destruct Hs as (p & _ & _ & Hfc & _).
    assert (plugins w2 = plugins w) as Hp by (rewrite (grows_plugins w1 w2 Hg2); by apply grows_plugins).
    pose proof (grows_marks w1 w2 Hg2). pose proof (grows_marks w w1 Hg1).
    split_and!; [by rewrite Hi2, Hi1|congruence|lia| |done].
    destruct (Z.lt_ge_cases failCountLimit (failCount w1)) as [Hl|Hl]; [specialize (Hlim Hl)|]; lia.
Qed.

Lemma waiting_until n i : waiting n 0 -> (exists j, j < i /\ endsAt j) \/ waiting n i.
Proof.
  intros H0. induction i as [|i [(j & Hj & He)|IH]]; [by right|left; exists j; split; [lia|done]|].
  destruct (waiting_step n i IH) as [He|[_ Hw]]; [left; exists i; split; [lia|done]|by right].
Qed.
End Startup.


(** *** A start with one plugin *)

#[local] Instance sampleHooks : MarkedHooks PluginFacts.sampleEnv.
Proof.
  split; [done..|]. intros e make c [= <-]. unfold PluginFacts.sampleMake. cbn. intros w. split; [|done]. intros w1. by apply grows_same.
Qed.

Definition sampleMatterbridge : Env :=
  mkEnv PluginFacts.sampleEnv BridgeFacts.sampleEnv (fun _ => await (mret tt)) [] "/root/.matterbridge" false 1000.

(** The interval is set, and the plugin is being loaded. *)
Definition startingWorld : World :=
  mkWorld (setPm PluginFacts.addedWorld twoPlugins) [("startMatterInterval", Bool true); ("bridgeStatus", Str "starting")] [] 0 [] [].

Fixpoint startingRun (i : nat) : World * list (async World unit) :=
  match i with
  | O => (startingWorld, map (taskOf sampleMatterbridge) [LoadPlugin 0 true])
  | S i => let '(w, pool) := startingRun i in schedule [0] (fire bridgeTick w) pool
  end.

