(* ===== verification/CleanupFacts.v ===== *)
(** Properties of the cleanup: it happens once, and what it does and does not
    reset. *)
From S2P Require Import Prelude JsValue JsMap Async Ownership Wait Broadcast DeviceManager PluginManager PluginFacts CommandLine Bridge BridgeFacts Matterbridge MatterbridgeFacts.
From stdpp Require Import gmap relations.
Import Broadcast Bridge Matterbridge.
#[local] Open Scope string_scope.

(** ** One cleanup *)

(** The events that end the life of the application. *)
Definition isFinal (a : Action) : bool :=
  match a with Emit e => bool_decide (e ∈ ["update"; "restart"; "shutdown"]) | _ => false end.

Definition finals (w : World) : nat := length (List.filter isFinal (trace w)).

Definition flags (w : World) : bool * bool * nat :=
  (truthy (this w "initialized"), truthy (this w "hasCleanupStarted"), finals w).

(** Code outside the sources does not touch the marks of the application. *)
Definition ExternalQuiet (env : Env) : Prop := forall a, quiet flags (external env a).

(** The operations that users, signals, timers and messages start. *)
Inductive Op :=
  | Signal (name : string)
  | Restart
  | Shutdown
  | Reset
  | FactoryReset
  | Unregister (timeout : Z)
  | RestartCallback
  | Message (m : value)
  | Tick (tick : async World unit)
  | Background (t : Task).

Definition perform (env : Env) (op : Op) : async World unit :=
  match op with
  | Signal n => signalHandler env n
  | Restart => restartProcess env
  | Shutdown => shutdownProcess env
  | Reset => shutdownProcessAndReset env
  | FactoryReset => shutdownProcessAndFactoryReset env
  | Unregister t => unregisterAndShutdownProcess env t
  | RestartCallback => restartCallback env
  | Message m => msgHandler env m
  | Tick tick => tick
  | Background t => taskOf env t
  end.

Definition opOk (op : Op) : Prop := match op with Tick tick => isTick tick | _ => True end.

(** The task that cleans up is running, or has emitted the final event. *)
Inductive Phase := Running | Emitted.

Definition Once (rho : list Phase) (w : World) : Prop :=
  match rho with
  | [] => flags w = (true, false, 0) \/ exists n, flags w = (false, false, n) /\ n <= 1
  | [Running] => flags w = (true, true, 0)
  | [Emitted] => exists n, flags w = (true, true, n) /\ n <= 1
  | _ => False
  end.

Lemma Once_perm rho rho' w : rho ≡ₚ rho' -> Once rho w -> Once rho' w.
Proof.
  destruct rho as [|x [|y rho]]; [intros ->%Permutation_nil_l|intros <-%Permutation_singleton_l|]; try done. by destruct x.
Qed.

Lemma Once_view rho w w' : flags w' = flags w -> Once rho w -> Once rho w'.
Proof. intros Hv. unfold Once. by rewrite Hv. Qed.

Lemma quiet_once {A} (m : async World A) : quiet flags m -> steady Once m.
Proof. apply steady_quiet. exact Once_view. Qed.

(** Work on the bridge and on the plugins does not touch the marks. *)
Lemma quiet_part {W V S} (get : W -> V) (put : V -> W -> W) (view : W -> S) {A} (m : async V A) :
  (forall v w, view (put v w) = view w) -> quiet view (lift get put m).
Proof.
  intros Hv. by induction m as [a|e|k IH|f m IH|m IH]; cbn.
Qed.

Lemma onBridge_quiet {A} (m : async Bridge.World A) : quiet flags (onBridge m).
Proof. by apply quiet_part. Qed.

Lemma onPlugins_quiet {A} (m : async PluginManager.World A) : quiet flags (onPlugins m).
Proof. by apply quiet_part. Qed.

Lemma addAction_flags a w : isFinal a = false -> flags (addAction a w) = flags w.
Proof. intros Ha. unfold flags, finals. cbn. rewrite List.filter_app. cbn. rewrite Ha. cbn. by rewrite app_nil_r. Qed.

Lemma act_quiet a : isFinal a = false -> quiet flags (act a).
Proof. intros Ha. apply quiet_modify. intros w. by apply addAction_flags. Qed.

Lemma this_setThis k kvs w :
  k ∉ map fst kvs -> this (setThis kvs w) k = this w k.
Proof.
  unfold this, setThis. cbn. generalize (properties w). induction kvs as [|[k' v] kvs IH]; intros f Hk; [done|]. cbn in *.
  apply not_elem_of_cons in Hk as [Hne Hk]. rewrite IH by done. by apply getField_setField_ne.
Qed.

Lemma setThis_flags kvs w :
  forallb (fun kv => negb (bool_decide (fst kv ∈ ["initialized"; "hasCleanupStarted"]))) kvs = true -> flags (setThis kvs w) = flags w.
Proof.
  intros Hk. unfold flags. assert (forall k, k ∈ ["initialized"; "hasCleanupStarted"] -> k ∉ map fst kvs) as Hno.
  { intros k Hin. rewrite forallb_forall in Hk. rewrite list_elem_of_In, in_map_iff. intros ([k' v] & <- & H).
    specialize (Hk (k', v) H). by rewrite bool_decide_eq_true_2 in Hk. }
  by rewrite !this_setThis by (apply Hno; set_solver).
Qed.

Lemma pset_flags p kvs w : flags (pset p kvs w) = flags w.
Proof. done. Qed.

Section Cleanup.
Context (env : Env) (Hext : ExternalQuiet env).

Lemma forEach_quiet {A} (l : list A) body : (forall a, quiet flags (body a)) -> quiet flags (forEach l body).
Proof. intros Hb. induction l as [|a l IH]; cbn [forEach]; [done|]. apply quiet_bind; [apply Hb|done]. Qed.

(** Opens code that does not touch the marks. *)
#[local] Ltac hush :=
  repeat first
    [ progress quieting
    | apply forEach_quiet; intros ?
    | match goal with |- quiet _ (perform _ _) => unfold perform | |- quiet _ (perhaps _ _) => unfold perhaps end
    | apply Hext | apply onBridge_quiet | apply onPlugins_quiet | by apply act_quiet | by apply setThis_flags | apply pset_flags
    | done ].

Lemma status_quiet s : quiet flags (status s).
Proof. unfold status. hush. Qed.

Lemma stopServerNode_quiet n : quiet flags (stopServerNode env n).
Proof. unfold stopServerNode, Matterbridge.perform. hush. Qed.

Lemma clearTimers_quiet : quiet flags clearTimers.
Proof.
  unfold clearTimers. quieting. apply setThis_flags. unfold timers. apply forallb_forall. intros kv (k & <- & Hk)%in_map_iff.
  apply filter_In in Hk as [Hk _]. cbn in Hk. by repeat destruct Hk as [<-|Hk].
Qed.

Lemma stopMatterStorage_quiet : quiet flags (stopMatterStorage env).
Proof. unfold stopMatterStorage, Matterbridge.perform. hush. Qed.

Lemma stopNodes_quiet : quiet flags (stopNodes env).
Proof. unfold stopNodes, stopPluginNode, stopDeviceNode. hush; apply stopServerNode_quiet. Qed.

Lemma clearStore_quiet s l : quiet flags (clearStore env s l).
Proof. unfold clearStore, Matterbridge.perform. hush. Qed.

Lemma reset_quiet : quiet flags (reset env).
Proof. unfold reset, Matterbridge.perform. hush; apply clearStore_quiet. Qed.

Lemma unregister_quiet : quiet flags (unregister env).
Proof. unfold unregister, clearContext, Matterbridge.perform. hush. Qed.

Lemma closing_quiet dir : quiet flags (resetSessions env) /\ quiet flags (closeNodeStorage env) /\ quiet flags (removeWithBackup env dir).
Proof.
  unfold resetSessions, unlinkSessions, closeNodeStorage, removeWithBackup, Matterbridge.perform. split_and!; hush.
Qed.

Lemma Once_idle rho w n : Once rho w -> flags w = (true, false, n) -> rho = [] /\ finals w = 0.
Proof.
  intros HI Hw. unfold Once in HI. rewrite Hw in HI. destruct rho as [|[] [|? ?]]; try done; [|by destruct HI as (? & ? & _)].
  split; [done|]. injection Hw as _ _ Hf. destruct HI as [[= ->]|(? & ? & _)]; done.
Qed.

(** Only a task that finds no cleanup running becomes the one that cleans up. *)
Lemma wp_begin rho w (Q : res unit -> list Phase -> World -> Prop) :
  truthy (this w "initialized") && negb (truthy (this w "hasCleanupStarted")) = true ->
  (forall rho' w', Q (Ok tt) (Running :: rho') w') ->
  wp Once (modify (setThis [("hasCleanupStarted", Bool true)])) rho w Q.
Proof.
  intros [Hi Hs]%andb_true_iff HQ. apply negb_true_iff in Hs. apply (wp_modify _ (Running :: rho)); [|intros _; apply HQ].
  intros sigma HI. assert (rho = [] /\ sigma = [] /\ finals w = 0) as (-> & -> & Hf).
  { destruct (Once_idle _ w (finals w) HI) as [[-> ->]%app_eq_nil Hf]; [unfold flags; congruence|done]. }
  cbn. unfold flags. f_equal; [f_equal|exact Hf]; unfold this; cbn; [by rewrite getField_setField_ne|by rewrite getField_setField].
Qed.

(** Its final event is the first one. *)
Lemma wp_final e rho w (Q : res unit -> list Phase -> World -> Prop) :
  isFinal (Emit e) = true -> (forall w', Q (Ok tt) (Emitted :: rho) w') -> wp Once (act (Emit e)) (Running :: rho) w Q.
Proof.
  intros He HQ. apply (wp_modify _ (Emitted :: rho)); [|intros _; apply HQ]. intros sigma HI.
  destruct rho as [|? ?], sigma as [|? ?]; cbn in HI |- *; try done. exists 1. split; [|lia]. unfold flags, finals in *. cbn.
  rewrite List.filter_app, length_app. cbn [List.filter]. rewrite He. injection HI as H1 H2 H3. unfold this in *. cbn. rewrite H1, H2, H3. done.
Qed.

Lemma wp_end t rho w (Q : res unit -> list Phase -> World -> Prop) :
  (forall w', Q (Ok tt) rho w') ->
  wp Once (modify (setThis [("hasCleanupStarted", Bool false); ("initialized", Bool false)])) (t :: rho) w Q.
Proof.
  intros HQ. apply (wp_modify _ rho); [|intros _; apply HQ]. intros sigma HI.
  assert (rho = [] /\ sigma = [] /\ finals w <= 1) as (-> & -> & Hf).
  { destruct rho as [|? ?], sigma as [|? ?], t; cbn in HI; try done; unfold flags in HI.
    - injection HI as _ _ ->. split_and!; [done..|lia].
    - destruct HI as (n & [= _ _ ->] & Hn). done. }
  cbn. right. exists (finals w). split; [|done]. unfold flags, this. cbn.
  by rewrite getField_setField, getField_setField_ne, getField_setField by done.
Qed.

(** A part of the cleanup that keeps the marks. *)
Lemma wp_hush {A} (m : async World A) (k : A -> async World unit) rho w :
  quiet flags m -> (forall a w, wp Once (k a) rho w (fun _ _ _ => True)) -> wp Once (m ≫= k) rho w (fun _ _ _ => True).
Proof. intros Hm Hk. apply wp_bind, wp_steady; [by apply quiet_once|]. intros [a|e] w' _; [apply Hk|done]. Qed.

(** The end of the cleanup, from the final event on. *)
Lemma wp_finish message restart rho w :
  wp Once (_ ← finish message restart;
           _ ← modify (setThis [("hasCleanupStarted", Bool false); ("initialized", Bool false)]);
           act (Emit "cleanup_completed")) (Running :: rho) w (fun _ _ _ => True).
Proof.
  assert (forall t w, wp Once (_ ← modify (setThis [("hasCleanupStarted", Bool false); ("initialized", Bool false)]);
                               act (Emit "cleanup_completed")) (t :: rho) w (fun _ _ _ => True)) as Hend.
  { intros t w1. apply wp_bind, wp_end. intros w2. apply wp_steady; [by apply quiet_once, act_quiet|done]. }
  assert (forall e, isFinal (Emit e) = true ->
            wp Once (_ ← modify (setThis [("instance", Undefined)]); act (Emit e)) (Running :: rho) w
              (fun _ rho' _ => exists t, rho' = t :: rho)) as Hfinal.
  { intros e He. apply wp_bind, wp_steady; [apply quiet_once; quieting; by apply setThis_flags|]. intros [u|u] w1 _; [|by eexists].
    apply wp_final; [done|by eexists]. }
  apply wp_bind. unfold finish. repeat case_match; try (eapply wp_mono; [|by apply Hfinal]; by intros [u|u] ? ? _ [? ->]; [apply Hend|]).
  apply wp_mret. intros _. apply Hend.
Qed.

Lemma cleanup_free message restart pause : free Once (cleanup env message restart pause).
Proof.
  intros rho w. unfold cleanup. apply wp_bind, wp_ask. intros _.
  destruct (truthy (this w "initialized") && negb (truthy (this w "hasCleanupStarted"))) eqn:Hc.
  - assert (forall b m, quiet flags m -> quiet flags (perhaps b m)) as Hperhaps by (by intros []).
    apply wp_bind. apply (wp_modify _ rho); [intros sigma; by apply Once_view, addAction_flags|].
    intros _. apply wp_bind, wp_begin; [done|]. clear rho. intros rho w1.
    repeat (apply wp_hush; [first [apply status_quiet | apply clearTimers_quiet | apply stopNodes_quiet
      | apply quiet_await, stopMatterStorage_quiet
      | apply Hperhaps; first [apply reset_quiet | apply unregister_quiet | by apply closing_quiet]
      | by apply closing_quiet | by apply act_quiet
      | apply Hperhaps, quiet_bind; [by apply (closing_quiet MATTER_STORAGE_DIR)|intros _; by apply (closing_quiet NODE_STORAGE_DIR)]
      | solve [unfold Matterbridge.perform, clearManagers, shutdownPlugin, Wait.wait; hush]]|intros ? ?]).
    apply wp_finish.
  - apply wp_steady; [|done]. apply quiet_once. hush.
Qed.

Lemma quiet_free_once {A} (m : async World A) : quiet flags m -> free Once m.
Proof. intros Hm. by apply steady_free, quiet_once. Qed.

(** The callbacks of the interval. *)
Lemma failed_quiet p : quiet flags (failed p).
Proof. unfold failed. hush. Qed.

Lemma halt_quiet p : quiet flags (halt p).
Proof.
  unfold halt, clearStartInterval, wssSendSnackbarMessage, wssSendRefreshRequired, wssSendCloseSnackbarMessage. hush. apply status_quiet.
Qed.

Lemma check_quiet l : quiet flags (bridgeCheck l) /\ forall b, quiet flags (childbridgeCheck b l).
Proof.
  induction l as [|p l [IH1 IH2]]; [done|]. cbn [bridgeCheck childbridgeCheck]. unfold sendPluginStatusUpdate.
  split; [|intros b]; hush; first [exact IH1 | apply IH2 | apply failed_quiet | apply halt_quiet].
Qed.

Lemma startDevices_quiet l : quiet flags (startDevices l).
Proof. induction l as [|d l IH]; [done|]. cbn [startDevices]. unfold startServerNode. hush; exact IH. Qed.

Lemma startPluginNodes_quiet l : quiet flags (startPluginNodes l).
Proof. induction l as [|p l IH]; [done|]. cbn [startPluginNodes]. unfold startServerNode. hush; exact IH. Qed.

Lemma tick_quiet tick : isTick tick -> quiet flags tick.
Proof.
  intros [|delay]; unfold bridgeTick, childbridgeTick, stillStarting, clearStartInterval, started, wssSendSnackbarMessage, Wait.wait;
    hush; first [apply check_quiet | apply startDevices_quiet | apply startPluginNodes_quiet | apply status_quiet
                | unfold startServerNode; hush].
Qed.

Lemma task_quiet t : quiet flags (taskOf env t).
Proof.
  destruct t as [p b|p|]; cbn [taskOf]; hush. unfold configurePlugins. hush. generalize (plugins a). intros l.
  induction l as [|p l IH]; [done|]. cbn [configureEach]. unfold sendPluginStatusUpdate, wssSendSnackbarMessage. hush; exact IH.
Qed.

(** Messages. *)
Lemma handleRequest_quiet msg : quiet flags (handleRequest env msg).
Proof.
  unfold handleRequest, respond, success, remember, param, storedSet, startNodeOf, Matterbridge.perform. hush;
    try apply stopServerNode_quiet; try (by case_match).
Qed.

Lemma op_free op : opOk op -> free Once (perform env op).
Proof.
  assert (forall m r p, free Once (await (cleanup env m r p))) as Hclean by (intros; apply free_await, cleanup_free).
  destruct op as [n| | | | |t| |m|tick|t]; intros Hop; cbn [perform]; try apply Hclean.
  - unfold signalHandler. apply free_catch; [apply cleanup_free|]. intros _. apply free_mret.
  - unfold unregisterAndShutdownProcess, Wait.wait. freeing; try apply cleanup_free; apply quiet_free_once;
      unfold unregisterPlugin, Matterbridge.perform; hush.
  - unfold restartCallback, restartProcess, shutdownProcess. freeing; apply cleanup_free.
  - unfold msgHandler, handleSpawnResponse, perhaps. freeing; try apply cleanup_free.
    + apply quiet_free_once, handleRequest_quiet.
  - by apply quiet_free_once, tick_quiet.
  - apply quiet_free_once, task_quiet.
Qed.
End Cleanup.


(** *** A running application *)

Lemma sampleExternal : ExternalQuiet sampleMatterbridge.
Proof. by intros a. Qed.

Definition runningWorld : World :=
  setThis [("initialized", Bool true); ("bridgeStatus", Str "started"); ("nodeStorage", Bool true); ("nodeContext", Bool true)] startingWorld.

Definition threeEnds : list Op := [Signal "SIGINT"; Restart; Signal "SIGTERM"].

(** Turns of three tasks, one after the other. *)
Fixpoint threeInTurn (n : nat) : list nat := match n with O => [] | S n => 0 :: 1 :: 2 :: threeInTurn n end.


(** ** A cleanup during the start *)

(** A dynamic plugin that is loaded and started, with its server node; the interval is
    about to fire for the last time. *)
Definition childPlugin : PluginManager.Plugin :=
  PluginManager.mkPlugin
    [("name", Str "hue"); ("type", Str "DynamicPlatform"); ("enabled", Bool true); ("loaded", Bool true); ("started", Bool true);
     ("nodeContext", Bool true)] (Some 0) (Some 7) None.

Definition childWorld : World :=
  mkWorld
    (Bridge.mkWorld (PluginManager.mkWorld [(Str "hue", 0)] {[ 0 := childPlugin ]} ∅ ∅ None ∅ [] [] (Str "info"))
       {[ 0 := mkExtra (Some 8) (Some "hue") None ]} ∅ [] (Str "childbridge") "3.5.0" "6.1.0" (matter twoPlugins) [])
    [("initialized", Bool true); ("startMatterInterval", Bool true); ("bridgeStatus", Str "starting"); ("nodeStorage", Bool true);
     ("nodeContext", Bool true)] [] 0 [] [].

(** What happened to server nodes and to the status. *)
Definition story (w : World) : list Action :=
  List.filter (fun a => match a with
                        | StartNode _ | CloseNode _ | Request "frontend_matterbridgestatusupdate" _ _ => true
                        | _ => false
                        end) (trace w).

(** The tick, which waits before it starts the server nodes, [k] turns of a shutdown,
    the rest of the tick, and the rest of the shutdown. *)
Definition lateStart (k : nat) : World * list (async World unit) :=
  schedule (0 :: replicate k 1 ++ [0] ++ replicate 40 1)%list childWorld
    (map (perform sampleMatterbridge) [Tick (childbridgeTick 1000); Shutdown]).

Definition statusIs (s : string) : Action := Request "frontend_matterbridgestatusupdate" "frontend" [("status", Str s)].

(** A shutdown does not stop a start that is waiting for its delay in mode
    childbridge. If the delay ends while the server nodes are being closed, the node of a
    plugin that has been shut down is started again after it was closed; if it ends
    after the shutdown, the status is started for good and the timer that configures the
    plugins is set again. *)
Theorem late_start_survives :
  rtc turn (childWorld, map (perform sampleMatterbridge) [Tick (childbridgeTick 1000); Shutdown]) (lateStart 7) /\
  settledPool (snd (lateStart 7)) = true /\
  story (fst (lateStart 7)) = [statusIs "stopping"; CloseNode 7; StartNode 7; statusIs "started"; statusIs "stopped"] /\
  rtc turn (childWorld, map (perform sampleMatterbridge) [Tick (childbridgeTick 1000); Shutdown]) (lateStart 40) /\
  settledPool (snd (lateStart 40)) = true /\
  story (fst (lateStart 40)) = [statusIs "stopping"; CloseNode 7; statusIs "stopped"; statusIs "started"] /\
  this (fst (lateStart 40)) "bridgeStatus" = Str "started" /\ this (fst (lateStart 40)) "configureTimeout" = Bool true.
Proof. split_and!; try apply schedule_turns; by vm_compute. Qed.

(** ** What a reset resets *)

(** The contexts that are cleared. *)
Definition cleared (w : World) : list (string * list string) :=
  omap (fun a => match a with ClearAll s c => Some (s, c) | _ => None end) (trace w).

(** A process started with [--reset], in mode bridge by its settings. *)
Definition resetEnv : Env :=
  mkEnv PluginFacts.sampleEnv BridgeFacts.sampleEnv (fun _ => await (mret tt)) ["--reset"] "/root/.matterbridge" false 1000.

Definition resetWorld : World :=
  mkWorld (Bridge.mkWorld PluginFacts.addedWorld ∅ ∅ [] (Str "none") "3.5.0" "6.1.0" (matter twoPlugins) [])
    [("nodeStorage", Bool true); ("nodeContext", Bool true); ("virtualMode", Str "outlet")] [("bridgeMode", Str "bridge")] 0 [] [].

(** The parameter reset is handled before the mode of the bridge is known, so that
    of the storage of the bridge only the context persist is cleared: the contexts with
    the fabrics, sessions and events, which the same reset clears in a running bridge,
    keep their content. *)
Theorem reset_command_partial :
  exists w', run (parseCommandLine resetEnv) resetWorld = (w', Ok tt) /\
    cleared w' = [("Matterbridge", ["persist"])] /\ this w' "shutdown" = Bool true /\
    cleared (fst (run (_ ← setMode "bridge"; reset resetEnv)
                    (setThis [("matterStorageManager", Str "Matterbridge"); ("matterbridgeContext", Str "Matterbridge")] resetWorld))) =
      [("Matterbridge", ["persist"]); ("Matterbridge", ["events"]); ("Matterbridge", ["fabrics"]); ("Matterbridge", ["root"]);
       ("Matterbridge", ["sessions"])].
Proof. eexists. split; [vm_compute; reflexivity|]. split_and!; by vm_compute. Qed.

Fixpoint dotted (s : string) : bool :=
  match s with EmptyString => false | String a s => charIs 46 a || dotted s end.

Lemma strKeep_shorter (p q : Ascii.ascii -> bool) s :
  (forall a, p a = true -> q a = true) -> (String.length (strKeep p s) <= String.length (strKeep q s))%nat.
Proof.
  intros H. induction s as [|a s IH]; simpl; [done|]. specialize (H a).
  destruct (p a), (q a); simpl; lia || by specialize (H eq_refl).
Qed.

(** The store of a device in mode server has the name of the device without
    spaces and dots; a reset opens the one without spaces only. The two are the same
    exactly for the names that have no dot, so that the commissioning of a device with a
    dotted name survives a reset. *)
Theorem reset_store_exact (n : string) : withoutSpaces n = deviceStoreId n <-> dotted n = false.
Proof.
  unfold withoutSpaces, deviceStoreId. induction n as [|a n IH]; simpl; [done|].
  destruct (charIs 46 a) eqn:D; simpl.
  - split; [|done]. rewrite andb_false_r. unfold charIs in *.
    destruct (N.eqb_spec (Ascii.N_of_ascii a) 32) as [S|S]; simpl; [by rewrite S in D|]. intros H. apply (f_equal String.length) in H. simpl in H.
    assert (L := strKeep_shorter (fun a => negb (charIs 32 a) && negb (charIs 46 a)) (fun a => negb (charIs 32 a)) n).
    unfold charIs in L. specialize (L ltac:(by intros b [? _]%andb_prop)). lia.
  - rewrite andb_true_r. destruct (charIs 32 a); simpl; [done|]. rewrite <- IH. split; [by intros [= ?]|by intros ->].
Qed.
