(* ===== verification/Platform.v ===== *)
(** The base platform of [packages/core/src/matterbridgePlatform.ts]: registration
    of devices, the selects of the configuration editor and their storage, the
    version check, the white and black lists, and the endpoint numbers; with the
    parts of [matterbridgeEndpoint.ts] that registration calls. *)
From S2P Require Import Prelude JsString JsNumber JsValue JsMap Async Validate Broadcast Bridge.
From stdpp Require Import gmap.
#[local] Open Scope string_scope.

Module Platform.
Import Broadcast Validate Bridge.

(** ** State *)

Abbreviation object := (list (string * value)) (only parsing).
Abbreviation ref := nat (only parsing).

Record SelectEntity := mkEntity { e_name : value; e_description : value; e_icon : value }.

(** The entities of a select device are an array shared with the caller. *)
Record SelectDevice := mkSelect { s_serial : value; s_name : value; s_configUrl : value; s_icon : value; s_entities : option ref }.

(** What the storage of the platform holds: arrays are written out. *)
Record Storage := mkStorage {
  selectDevice : list (SelectDevice * list SelectEntity);
  selectEntity : list SelectEntity;
  endpointMap : jsmap value value
}.

Record World := mkWorld {
  config : object;
  name : value; type : value; version : value;
  isReady : bool;
  context : bool;                       (* the context storage is open *)
  selectDevices : jsmap value SelectDevice;
  selectEntities : jsmap value SelectEntity;
  arrays : gmap ref (list SelectEntity);
  registeredEndpoints : jsmap value ref;
  bridge : Bridge.World;                (* the bridge and the endpoints, shared with it *)
  matterNode : bool;                    (* the helpers have been injected *)
  storage : Storage;
  server : BroadcastServer
}.

Definition device (w : World) (r : ref) : Device := Bridge.device (bridge w) r.
Definition array (w : World) (r : ref) : list SelectEntity := default [] (arrays w !! r).
Definition dget (w : World) (r : ref) (k : string) : value := Bridge.dget (bridge w) r k.

Definition setRegistered (m : jsmap value ref) (w : World) : World :=
  mkWorld (config w) (name w) (type w) (version w) (isReady w) (context w)
    (selectDevices w) (selectEntities w) (arrays w) m (bridge w) (matterNode w) (storage w) (server w).
Definition setSelects (d : jsmap value SelectDevice) (e : jsmap value SelectEntity) (w : World) : World :=
  mkWorld (config w) (name w) (type w) (version w) (isReady w) (context w)
    d e (arrays w) (registeredEndpoints w) (bridge w) (matterNode w) (storage w) (server w).
Definition setArray (r : ref) (l : list SelectEntity) (w : World) : World :=
  mkWorld (config w) (name w) (type w) (version w) (isReady w) (context w)
    (selectDevices w) (selectEntities w) (<[r := l]> (arrays w)) (registeredEndpoints w) (bridge w) (matterNode w)
    (storage w) (server w).
Definition setBridge (b : Bridge.World) (w : World) : World :=
  mkWorld (config w) (name w) (type w) (version w) (isReady w) (context w)
    (selectDevices w) (selectEntities w) (arrays w) (registeredEndpoints w) b (matterNode w) (storage w) (server w).
Definition setDevice (r : ref) (d : Device) (w : World) : World := setBridge (Bridge.setDevice r d (bridge w)) w.
Definition setStorage (s : Storage) (w : World) : World :=
  mkWorld (config w) (name w) (type w) (version w) (isReady w) (context w)
    (selectDevices w) (selectEntities w) (arrays w) (registeredEndpoints w) (bridge w) (matterNode w) s (server w).

(** ** Construction *)

(** The constructor: the platform of a plugin whose name is missing is refused. The
    storage of the platform is what an earlier run has left. *)
Definition construct (cfg : object) (b : Bridge.World) (stored : Storage) : res World :=
  if negb (isValidString (getField "name" cfg) (Some 1%Z) None)
  then throwError "Platform: the plugin name is missing or invalid."
  else Ok (mkWorld cfg (getField "name" cfg) (Str "AnyPlatform") (Str "1.0.0") false false [] [] ∅ [] b false stored
             (mkServer "platform" false)).

(** The constructors of [MatterbridgeDynamicPlatform] and [MatterbridgeAccessoryPlatform],
    which also set the type in the configuration. *)
Definition constructAs (t : string) (cfg : object) (b : Bridge.World) (stored : Storage) : res World :=
  w ← construct cfg b stored;
  Ok (mkWorld (setField "type" (Str t) (config w)) (name w) (Str t) (version w) (isReady w) (context w) (selectDevices w)
        (selectEntities w) (arrays w) (registeredEndpoints w) (bridge w) (matterNode w) (storage w) (server w)).

Definition constructDynamic := constructAs "DynamicPlatform".
Definition constructAccessory := constructAs "AccessoryPlatform".

(** [onStart], which a plugin must override. *)
Definition onStart : async World unit := Raise (Error (js "Plugins must override onStart.")).

(** ** Requests *)

(** The message posted, if any; [uniqueId] and [now] are what [getUniqueId()] and
    [Date.now()] return. *)
Definition platformRequest (type dst : string) (params : object) : value :=
  Obj [("type", Str type); ("src", Str "platform"); ("dst", Str dst); ("params", Obj params)].

Definition saveConfig (w : World) (uniqueId now : Z) (cfg : value) : option value :=
  request (server w) uniqueId now (platformRequest "plugins_saveconfigfromjson" "plugins" [("name", name w); ("config", cfg)]).

Definition setSchema (w : World) (uniqueId now : Z) (schema : value) : option value :=
  request (server w) uniqueId now (platformRequest "plugins_setschema" "plugins" [("name", name w); ("schema", schema)]).

(** The promise of the fetch and the request; then the schema of the response. *)
Definition getSchema (w : World) (uniqueId now : Z) : FetchState * option value :=
  fetch (server w) uniqueId now (platformRequest "plugins_getschema" "plugins" [("name", name w)]).
Definition schemaOf (msg : value) : res value := r ← getProp msg "result"; getProp r "schema".

Definition wssSendRestartRequired (w : World) (uniqueId now : Z) (snackbar fixed : bool) : option value :=
  request (server w) uniqueId now (platformRequest "frontend_restartrequired" "frontend" [("snackbar", Bool snackbar); ("fixed", Bool fixed)]).

Definition wssSendSnackbarMessage (w : World) (uniqueId now : Z) (message timeout severity : value) : option value :=
  request (server w) uniqueId now
    (platformRequest "frontend_snackbarmessage" "frontend" [("message", message); ("timeout", timeout); ("severity", severity)]).

(** ** Devices *)

Definition size (w : World) : Z := msize (registeredEndpoints w).
Definition getDevices (w : World) : list ref := mvalues (registeredEndpoints w).

(** The first registered device with the value in property [k]. *)
Definition findDevice (k : string) (w : World) (v : value) : option ref :=
  List.find (fun r => bool_decide (dget w r k = v)) (getDevices w).

Definition getDeviceByName : World -> value -> option ref := findDevice "deviceName".
Definition getDeviceByUniqueId : World -> value -> option ref := findDevice "uniqueId".
Definition getDeviceBySerialNumber : World -> value -> option ref := findDevice "serialNumber".
Definition getDeviceById : World -> value -> option ref := findDevice "maybeId".
Definition getDeviceByOriginalId : World -> value -> option ref := findDevice "originalId".
Definition getDeviceByNumber : World -> value -> option ref := findDevice "maybeNumber".

Definition hasDeviceName (w : World) (n : value) : bool :=
  match findDevice "deviceName" w n with Some _ => true | None => false end.
Definition hasDeviceUniqueId (w : World) (u : value) : bool := mhas u (registeredEndpoints w).

(** [device.k = v] for several properties. *)
Definition dset (r : ref) (kvs : object) (w : World) : World := setBridge (Bridge.dset r kvs (bridge w)) w.

(** The code and revision of [bridgedNode] ([matterbridgeDeviceTypes.ts]) and the id
    of the cluster [BridgedDeviceBasicInformation]. *)
Definition bridgedNodeCode : Z := 0x0013.
Definition bridgedNodeRevision : Z := 3.
Definition bridgedInformationId : Z := 0x0039.

Section Surroundings.
(** The hash of the unique ids, and the helpers of the bridge that
    [PluginManager.load] injects. *)
Context (md5 : string -> string).
Context (addBridgedEndpoint removeBridgedEndpoint : value -> ref -> async World unit).
Context (removeAllBridgedEndpoints : value -> Z -> async World unit).
Context (addVirtualEndpoint : value -> value -> value -> async World value).

Definition createUniqueId (param1 param2 param3 param4 : value) : value :=
  Str (md5 (toText param1 ++ toText param2 ++ toText param3 ++ toText param4)).

(** [createDefaultBridgedDeviceBasicInformationClusterServer]. *)
Definition createBridgedInformation (r : ref) (deviceName serialNumber vendorId vendorName productName softwareVersion
    softwareVersionString hardwareVersion hardwareVersionString : value) (w : World) : World :=
  let vendorId := defaulted vendorId (Num 0xfff1) in
  let vendorName := defaulted vendorName (Str "Matterbridge") in
  let productName := defaulted productName (Str "Matterbridge device") in
  let w := dset r [("deviceName", deviceName); ("serialNumber", serialNumber);
                   ("uniqueId", createUniqueId deviceName serialNumber vendorName productName); ("productId", Undefined);
                   ("productName", productName); ("vendorId", vendorId); ("vendorName", vendorName);
                   ("softwareVersion", defaulted softwareVersion (Num 1));
                   ("softwareVersionString", defaulted softwareVersionString (Str "1.0.0"));
                   ("hardwareVersion", defaulted hardwareVersion (Num 1));
                   ("hardwareVersionString", defaulted hardwareVersionString (Str "1.0.0"))] w in
  let d := device w r in
  setDevice r (mkDevice (isEndpoint d) (fields d) (deviceTypes d) (deviceTypeList d)
    (if bool_decide (bridgedInformationId ∈ clusters d) then clusters d else clusters d ++ [bridgedInformationId])%list
    (childEndpoints d) (ownNode d)) w.

(** The device is exposed behind a bridge. *)
Definition bridged (w : World) (r : ref) : bool :=
  isUndefined (dget w r "mode") &&
  (isStr (bridgeMode (bridge w)) "bridge" || (isStr (bridgeMode (bridge w)) "childbridge" && isStr (type w) "DynamicPlatform")).

(** The device type and the cluster every bridged device has. *)
Definition makeBridged (r : ref) (w : World) : World :=
  let d := device w r in
  let w := if bool_decide (bridgedNodeCode ∈ deviceTypes d) then w
           else
             let list := match deviceTypeList d with
                         | Some l => Some (if existsb (fun dt => Z.eqb (fst dt) bridgedNodeCode) l then l
                                           else l ++ [(bridgedNodeCode, bridgedNodeRevision)])%list
                         | None => None
                         end in
             setDevice r (mkDevice (isEndpoint d) (fields d) (deviceTypes d ++ [bridgedNodeCode])%list list (clusters d)
               (childEndpoints d) (ownNode d)) w in
  let d := device w r in
  if bool_decide (bridgedInformationId ∈ clusters d) then w
  else createBridgedInformation r (dget w r "deviceName") (dget w r "serialNumber") (dget w r "vendorId")
         (dget w r "vendorName") (dget w r "productName") (dget w r "softwareVersion") (dget w r "softwareVersionString")
         (dget w r "hardwareVersion") (dget w r "hardwareVersionString") w.

(** [this.#helper?.(...)]. *)
Definition whenInjected (m : async World unit) : async World unit :=
  w ← ask; if matterNode w then m else mret tt.

Definition assertMatterbridgeEndpoint (r : ref) : async World unit :=
  w ← ask; if isEndpoint (device w r) then mret tt else Raise TypeError.

Definition registerDevice (r : ref) : async World unit :=
  _ ← assertMatterbridgeEndpoint r;
  w ← ask;
  _ ← modify (dset r [("plugin", name w)]);
  w ← ask;
  if negb (truthy (dget w r "uniqueId")) then mret tt
  else if negb (truthy (dget w r "deviceName")) then mret tt
  else if negb (truthy (dget w r "serialNumber")) then mret tt
  else if hasDeviceName w (dget w r "deviceName") then mret tt
  else
    _ ← (if bridged w r then modify (makeBridged r) else mret tt);
    _ ← await (whenInjected (addBridgedEndpoint (name w) r));
    modify (fun w => setRegistered (mset (dget w r "uniqueId") r (registeredEndpoints w)) w).

Definition unregisterDevice (r : ref) : async World unit :=
  _ ← assertMatterbridgeEndpoint r;
  w ← ask;
  _ ← await (whenInjected (removeBridgedEndpoint (name w) r));
  modify (fun w => if truthy (dget w r "uniqueId")
                   then setRegistered (mdelete (dget w r "uniqueId") (registeredEndpoints w)) w else w).

Definition unregisterAllDevices (delay : Z) : async World unit :=
  w ← ask;
  _ ← await (whenInjected (removeAllBridgedEndpoints (name w) delay));
  modify (setRegistered []).

Definition registerVirtualDevice (n t : value) : async World value :=
  w ← ask;
  v ← await (if matterNode w then addVirtualEndpoint (name w) n t else mret Undefined);
  mret (coalesce v (Bool false)).
End Surroundings.

(** [createDefaultBasicInformationClusterServer], for the unique id. *)
Definition createBasicInformation (md5 : string -> string) (r : ref) (deviceName serialNumber vendorId vendorName productId
    productName softwareVersion softwareVersionString hardwareVersion hardwareVersionString : value) (w : World) : World :=
  let vendorId := defaulted vendorId (Num 0xfff1) in
  let vendorName := defaulted vendorName (Str "Matterbridge") in
  let productName := defaulted productName (Str "Matterbridge device") in
  dset r [("deviceName", deviceName); ("serialNumber", serialNumber);
          ("uniqueId", createUniqueId md5 deviceName serialNumber vendorName productName);
          ("productId", defaulted productId (Num 0x8000));
          ("productName", productName); ("vendorId", vendorId); ("vendorName", vendorName);
          ("softwareVersion", defaulted softwareVersion (Num 1));
          ("softwareVersionString", defaulted softwareVersionString (Str "1.0.0"));
          ("hardwareVersion", defaulted hardwareVersion (Num 1));
          ("hardwareVersionString", defaulted hardwareVersionString (Str "1.0.0"))] w.

(** [setMatterNode], which removes itself once it has been called. *)
Definition setMatterNode (w : World) : World :=
  mkWorld (config w) (name w) (type w) (version w) (isReady w) (context w)
    (selectDevices w) (selectEntities w) (arrays w) (registeredEndpoints w) (bridge w) true (storage w) (server w).

(** ** Selects *)

(** The optional arguments are undefined where the caller leaves them out. *)
Definition setSelectDevice (serial n configUrl icon : value) (entities : option ref) (w : World) : World :=
  let d := match mget serial (selectDevices w) with
           | Some d => mkSelect serial n (if truthy configUrl then configUrl else s_configUrl d)
                         (if truthy icon then icon else s_icon d)
                         (match entities with Some e => Some e | None => s_entities d end)
           | None => mkSelect serial n configUrl icon entities
           end in
  setSelects (mset serial d (selectDevices w)) (selectEntities w) w.

Definition getSelectDevice (w : World) (serial : value) : option SelectDevice := mget serial (selectDevices w).

(** The entity is appended to the array of the device, unless one has its name. *)
Definition setSelectDeviceEntity (serial entityName entityDescription entityIcon : value) (w : World) : World :=
  match mget serial (selectDevices w) with
  | None => w
  | Some d =>
      let '(w, a) := match s_entities d with
                     | Some a => (w, a)
                     | None =>
                         let a := fresh (dom (arrays w)) in
                         let d := mkSelect (s_serial d) (s_name d) (s_configUrl d) (s_icon d) (Some a) in
                         (setSelects (mset serial d (selectDevices w)) (selectEntities w) (setArray a [] w), a)
                     end in
      if existsb (fun e => bool_decide (e_name e = entityName)) (array w a) then w
      else setArray a (array w a ++ [mkEntity entityName entityDescription entityIcon])%list w
  end.

Definition setSelectEntity (n description icon : value) (w : World) : World :=
  setSelects (selectDevices w) (mset n (mkEntity n description icon) (selectEntities w)) w.

Definition getSelectEntity (w : World) (n : value) : option SelectEntity := mget n (selectEntities w).

(** A device with its entities, as the interface and the storage see it. *)
Definition written (w : World) (d : SelectDevice) : SelectDevice * list SelectEntity :=
  (d, match s_entities d with Some a => array w a | None => [] end).

Definition getSelectDevices (w : World) : list (value * (SelectDevice * list SelectEntity)) :=
  map (fun d => (name w, written w d)) (mvalues (selectDevices w)).

Definition getSelectEntities (w : World) : list (value * SelectEntity) :=
  map (fun e => (name w, e)) (mvalues (selectEntities w)).

(** ** Storage *)

(** [await this.#storage.createStorage(...)] and [await context.close()]. *)
Definition pause : async World unit := await (mret tt).

Definition storeDevices (w : World) : World :=
  setStorage (mkStorage (map (written w) (mvalues (selectDevices w))) (selectEntity (storage w)) (endpointMap (storage w))) w.
Definition storeEntities (w : World) : World :=
  setStorage (mkStorage (selectDevice (storage w)) (mvalues (selectEntities w)) (endpointMap (storage w))) w.
Definition storeEndpoints (m : jsmap value value) (w : World) : World :=
  setStorage (mkStorage (selectDevice (storage w)) (selectEntity (storage w)) m) w.

Definition saveSelects : async World unit :=
  _ ← pause; _ ← await (modify storeDevices); _ ← pause;
  _ ← pause; _ ← await (modify storeEntities); pause.

Definition clearSelect : async World unit := _ ← modify (setSelects [] []); await saveSelects.

Definition clearDeviceSelect (serial : value) : async World unit :=
  _ ← modify (fun w => setSelects (mdelete serial (selectDevices w)) (selectEntities w) w); await saveSelects.

Definition clearEntitySelect (n : value) : async World unit :=
  _ ← modify (fun w => setSelects (selectDevices w) (mdelete n (selectEntities w)) w); await saveSelects.

(** One stored device comes back with an array of its own, if it had one. *)
Definition loadDevice (w : World) (dl : SelectDevice * list SelectEntity) : World :=
  let d := fst dl in
  match s_entities d with
  | Some _ =>
      let a := fresh (dom (arrays w)) in
      let d := mkSelect (s_serial d) (s_name d) (s_configUrl d) (s_icon d) (Some a) in
      setSelects (mset (s_serial d) d (selectDevices w)) (selectEntities w) (setArray a (snd dl) w)
  | None => setSelects (mset (s_serial d) d (selectDevices w)) (selectEntities w) w
  end.

Definition loadEntity (w : World) (e : SelectEntity) : World :=
  setSelects (selectDevices w) (mset (e_name e) e (selectEntities w)) w.

(** What the constructor starts: the context and the two selects; [ready] resolves
    when the three have been loaded. *)
Definition contextReady : async World unit :=
  _ ← pause;
  modify (fun w => mkWorld (config w) (name w) (type w) (version w) (isReady w) true
    (selectDevices w) (selectEntities w) (arrays w) (registeredEndpoints w) (bridge w) (matterNode w) (storage w) (server w)).

Definition selectDeviceReady : async World unit :=
  _ ← pause; l ← await (gets (fun w => selectDevice (storage w))); modify (fun w => foldl loadDevice w l).

Definition selectEntityReady : async World unit :=
  _ ← pause; l ← await (gets (fun w => selectEntity (storage w))); modify (fun w => foldl loadEntity w l).

Definition setReady (b : bool) (w : World) : World :=
  mkWorld (config w) (name w) (type w) (version w) b (context w) (selectDevices w)
    (selectEntities w) (arrays w) (registeredEndpoints w) (bridge w) (matterNode w) (storage w) (server w).

(** [ready], with the three promises one after the other. *)
Definition ready : async World unit :=
  _ ← contextReady; _ ← selectDeviceReady; _ ← selectEntityReady; modify (setReady true).

Definition destroy : async World unit :=
  _ ← modify (fun w => setRegistered [] (setSelects [] [] w));
  _ ← pause;
  _ ← modify (fun w => mkWorld (config w) (name w) (type w) (version w) (isReady w) false
        (selectDevices w) (selectEntities w) (arrays w) (registeredEndpoints w) (bridge w) (matterNode w) (storage w) (server w));
  _ ← pause;
  modify (fun w => mkWorld (config w) (name w) (type w) (version w) false (context w)
    (selectDevices w) (selectEntities w) (arrays w) (registeredEndpoints w) (bridge w) (matterNode w) (storage w)
    (close (server w))).

(** ** Endpoint numbers *)

Definition separator : string := "|.|".

(** The entry of one endpoint: changed if it differs, added if it is missing. *)
Definition recordNumber (key number : value) (m : jsmap value value) : jsmap value value :=
  let m := if mhas key m && negb (bool_decide (mget key m = Some number)) then mset key number m else m in
  if negb (mhas key m) then mset key number m else m.

Definition childKey (uniqueId id : value) : value := Str (toText uniqueId ++ separator ++ toText id).

Definition recordChild (uniqueId : value) (m : jsmap value value) (child : value * value) : jsmap value value :=
  if negb (truthy (fst child)) || negb (truthy (snd child)) then m
  else recordNumber (childKey uniqueId (fst child)) (snd child) m.

Definition recordDevice (w : World) (m : jsmap value value) (r : ref) : jsmap value value :=
  let uniqueId := dget w r "uniqueId" in
  let number := dget w r "maybeNumber" in
  if isUndefined uniqueId || isUndefined number then m
  else foldl (recordChild uniqueId) (recordNumber uniqueId number m) (childEndpoints (device w r)).

Definition checkEndpointNumbers : async World Z :=
  _ ← pause;
  m ← await (gets (fun w => endpointMap (storage w)));
  w ← ask;
  let m := foldl (recordDevice w) m (getDevices w) in
  _ ← await (modify (storeEndpoints m));
  _ ← pause;
  mret (msize m).

Definition clearEndpointNumbers : async World unit := _ ← pause; await (modify (storeEndpoints [])).

Definition onConfigure : async World unit := _ ← await saveSelects; _ ← await checkEndpointNumbers; mret tt.

Definition onShutdown : async World unit :=
  _ ← await saveSelects; _ ← await checkEndpointNumbers; await destroy.

(** ** Versions *)

Definition stripTag (v : jsstr) : jsstr := default [] (head (splitChar 45 v)).

Definition versionParts (v : jsstr) : list double := map toNumber (splitChar 46 (stripTag v)).

(** [parts[i] || 0]. *)
Definition part (l : list double) (i : nat) : double := match l !! i with Some d => orZero d | None => DFin 0 0 end.

(** The loop over the parts, from [i] on for [n] more of them. *)
Fixpoint compareParts (n : nat) (l1 l2 : list double) (i : nat) : bool :=
  match n with
  | O => true
  | S n =>
      if dlt (part l1 i) (part l2 i) then false
      else if dlt (part l2 i) (part l1 i) then true
      else compareParts n l1 l2 (S i)
  end.

Definition compareVersions (matterbridgeVersion requiredVersion : jsstr) : bool :=
  let v1Parts := versionParts matterbridgeVersion in
  let v2Parts := versionParts requiredVersion in
  compareParts (max (length v1Parts) (length v2Parts)) v1Parts v2Parts 0.

(** The answer, and whether the platform is destroyed. *)
Definition verifyMatterbridgeVersion (w : World) (requiredVersion : string) (destroy : bool) : bool * bool :=
  if compareVersions (js (matterbridgeVersion (bridge w))) (js requiredVersion) then (true, false) else (false, destroy).

(** ** White and black lists *)

(** [isValidArray(v, 1)] and [isValidObject(v, 1)], with what they hold. *)
Definition validArray (v : value) : option (list value) :=
  match v with Arr (x :: l) => Some (x :: l) | _ => None end.
Definition validObject (v : value) : option object :=
  match v with Obj (x :: l) => Some (x :: l) | _ => None end.

(** [l.includes(v)]. *)
Definition includesValue (l : list value) (v : value) : bool := existsb (fun x => bool_decide (x = v)) l.

(** How many of the names are in the list. *)
Definition countIn (l names : list value) : nat := length (List.filter (includesValue l) names).

(** [device] is the list of names; a single name is a list of one. *)
Definition validateDevice (w : World) (device : list value) : bool :=
  let blackListBlocked := match validArray (getField "blackList" (config w)) with
                          | Some l => countIn l device
                          | None => O
                          end in
  if (0 <? blackListBlocked)%nat then false
  else
    let whiteListPassed := match validArray (getField "whiteList" (config w)) with
                           | Some l => countIn l device
                           | None => 1%nat
                           end in
    (0 <? whiteListPassed)%nat.

(** [l.find((e) => e === entity)] where it is used as a condition. *)
Definition finds (l : list value) (entity : value) : bool :=
  match List.find (fun e => bool_decide (e = entity)) l with Some e => truthy e | None => false end.

(** [(o as Record<string, string[]>)[device].includes(entity)]: a method of arrays
    and of strings. *)
Definition deviceListIncludes (v : value) (entity : string) : res bool :=
  match v with
  | Arr l => Ok (includesValue l (Str entity))
  | Str s => Ok (strIncludes s entity)
  | _ => Throw TypeError
  end.

(** The names every object inherits: [k in o] is true of them, and none of the values
    has a method [includes]. *)
Definition objectPrototype : list string :=
  ["constructor"; "__defineGetter__"; "__defineSetter__"; "hasOwnProperty"; "__lookupGetter__"; "__lookupSetter__";
   "isPrototypeOf"; "propertyIsEnumerable"; "toString"; "valueOf"; "__proto__"; "toLocaleString"].

Definition validateEntity (w : World) (device entity : string) : res bool :=
  if match validArray (getField "entityBlackList" (config w)) with Some l => finds l (Str entity) | None => false end
  then Ok false
  else if match validArray (getField "entityWhiteList" (config w)) with
          | Some l => negb (finds l (Str entity)) | None => false end
  then Ok false
  else
    listed ← match validObject (getField "deviceEntityBlackList" (config w)) with
             | Some o => if hasProp (Obj o) device then deviceListIncludes (getField device o) entity
                         else if bool_decide (device ∈ objectPrototype) then Throw TypeError else Ok false
             | None => Ok false
             end;
    Ok (negb listed).
End Platform.
