(* ===== verification/PlatformFacts.v ===== *)
(** Properties of the base platform: the white and black lists, the order of
    versions, the registration of devices, the selects and the endpoint numbers. *)
From S2P Require Import Prelude JsString JsNumber JsValue JsMap Async Validate Broadcast PluginManager Bridge Platform.
From stdpp Require Import gmap relations.
Import Broadcast Bridge Platform.
#[local] Open Scope string_scope.

(** ** White and black lists *)

(** The entries of a list of the configuration; a list that is missing, empty or no
    array counts as empty. *)
Definition entries (w : World) (k : string) : list value :=
  match getField k (config w) with Arr l => l | _ => [] end.

Definition nonEmpty (l : list value) : option (list value) := match l with [] => None | _ => Some l end.

Lemma validArray_entries w k : validArray (getField k (config w)) = nonEmpty (entries w k).
Proof. unfold entries, validArray. destruct (getField k (config w)) as [| | | | |l|]; try done. by destruct l. Qed.

Lemma includesValue_spec l v : includesValue l v = true <-> v ∈ l.
Proof.
  unfold includesValue. rewrite existsb_exists. setoid_rewrite bool_decide_eq_true. split.
  - intros (x & Hx & ->). by apply list_elem_of_In.
  - intros Hv. exists v. split; [by apply list_elem_of_In|done].
Qed.

Lemma countIn_pos l names : (0 <? countIn l names)%nat = true <-> exists n, n ∈ names /\ n ∈ l.
Proof.
  unfold countIn. rewrite Nat.ltb_lt. split.
  - intros H. destruct (List.filter (includesValue l) names) as [|n rest] eqn:E; [by cbn in H; lia|].
    assert (In n (List.filter (includesValue l) names)) as Hn by (rewrite E; by left).
    apply filter_In in Hn as [Hn1 Hn2]. exists n. split; [by apply list_elem_of_In|by apply includesValue_spec].
  - intros (n & Hn & Hl). assert (In n (List.filter (includesValue l) names)) as H.
    { apply filter_In. split; [by apply list_elem_of_In|by apply includesValue_spec]. }
    destruct (List.filter (includesValue l) names); [done|cbn; lia].
Qed.

(** A device is allowed exactly when none of its names is in the black list,
    and one of them is in the white list if that list has entries: the black list
    has priority. *)
Theorem validateDevice_exact w names :
  validateDevice w names = true <->
  (forall n, n ∈ names -> n ∉ entries w "blackList") /\
  (entries w "whiteList" = [] \/ exists n, n ∈ names /\ n ∈ entries w "whiteList").
Proof.
  unfold validateDevice. rewrite !validArray_entries.
  assert (forall l names, (0 <? match nonEmpty l with Some l => countIn l names | None => O end)%nat = true <->
            exists n, n ∈ names /\ n ∈ l) as Hb.
  { intros l ns. destruct l; [|apply countIn_pos]. split; [done|]. intros (n & _ & Hn). by apply not_elem_of_nil in Hn. }
  destruct (0 <? _)%nat eqn:E.
  - apply Hb in E as (n & Hn & Hl). split; [done|]. intros [H _]. by destruct (H n Hn).
  - assert (forall n, n ∈ names -> n ∉ entries w "blackList") as Hblack.
    { intros n Hn Hl. apply not_true_iff_false in E. apply E, Hb. by exists n. }
    destruct (entries w "whiteList") as [|x l] eqn:Hw.
    + split; [intros _; split; [done|by left]|done].
    + cbn [nonEmpty]. rewrite countIn_pos. split; [intros Hex; split; [done|by right]|by intros [_ [?|?]]].
Qed.

(** The entities that are black-listed for one device. *)
Definition deviceEntries (w : World) (device : string) : list value :=
  match getField "deviceEntityBlackList" (config w) with
  | Obj o => match getField device o with Arr l => l | _ => [] end
  | _ => []
  end.

(** The list of the device is an array, where there is one, and the name of the
    device is none that every object has. *)
Definition deviceListOk (w : World) (device : string) : Prop :=
  match getField "deviceEntityBlackList" (config w) with
  | Obj o => (device ∉ objectPrototype) /\ (hasProp (Obj o) device = true -> exists l, getField device o = Arr l)
  | _ => True
  end.

Lemma finds_spec l entity : entity <> EmptyString -> finds l (Str entity) = true <-> Str entity ∈ l.
Proof.
  intros He. unfold finds. destruct (List.find _ l) as [e|] eqn:Hf.
  - apply List.find_some in Hf as [Hin Hd]. apply bool_decide_eq_true in Hd as ->.
    cbn [truthy]. rewrite bool_decide_eq_false_2 by done. cbn [negb]. split; [intros _; by apply list_elem_of_In|done].
  - split; [done|]. intros Hin. apply list_elem_of_In in Hin.
    pose proof (List.find_none _ _ Hf _ Hin) as Hd. cbn beta in Hd. by rewrite bool_decide_eq_true_2 in Hd.
Qed.

Lemma blackListed w k entity :
  entity <> EmptyString ->
  match validArray (getField k (config w)) with Some l => finds l (Str entity) | None => false end = true <->
  Str entity ∈ entries w k.
Proof.
  intros He. rewrite validArray_entries. destruct (entries w k) as [|x l]; [|by apply finds_spec].
  split; [done|]. intros H. by apply not_elem_of_nil in H.
Qed.

Lemma notWhiteListed w k entity :
  entity <> EmptyString ->
  match validArray (getField k (config w)) with Some l => negb (finds l (Str entity)) | None => false end = false <->
  entries w k = [] \/ Str entity ∈ entries w k.
Proof.
  intros He. rewrite validArray_entries. destruct (entries w k) as [|x l]; [split; [by left|done]|].
  cbn [nonEmpty]. rewrite negb_false_iff, finds_spec by done. split; [by right|by intros [?|?]].
Qed.

(** The check of the list of the device. *)
Lemma deviceListed w device entity :
  deviceListOk w device ->
  exists b, match validObject (getField "deviceEntityBlackList" (config w)) with
            | Some o => if hasProp (Obj o) device then deviceListIncludes (getField device o) entity
                        else if bool_decide (device ∈ objectPrototype) then Throw TypeError else Ok false
            | None => Ok false
            end = Ok b /\ (b = true <-> Str entity ∈ deviceEntries w device).
Proof.
  unfold deviceListOk, deviceEntries, validObject. intros Hok.
  assert (false = true <-> Str entity ∈ []) as Hnil by (split; [done|intros H; by apply not_elem_of_nil in H]).
  destruct (getField "deviceEntityBlackList" (config w)) as [| | | | | |o]; try (by exists false).
  destruct o as [|kv o]; [by exists false|]. destruct Hok as [Hproto Hok].
  destruct (hasProp (Obj (kv :: o)) device) eqn:Hp.
  - destruct (Hok eq_refl) as [l ->]. eexists. split; [done|]. apply includesValue_spec.
  - rewrite bool_decide_eq_false_2 by done. exists false. split; [done|]. pose proof (hasProp_false _ _ Hp) as Hu. cbn [optProp] in Hu. by rewrite Hu.
Qed.


(** A bridge that has not started, in mode bridge. *)
Definition sampleBridge : Bridge.World :=
  Bridge.mkWorld (PluginManager.mkWorld [] ∅ ∅ ∅ None ∅ [] [] (Str "info")) ∅ ∅ [] (Str "bridge") "3.5.0" "6.1.0"
    (mkMatter ∅ None None (Num 5540) (Num 20242025) (Num 3850) true [] ∅ 0) [].

(** A platform without devices, with the given configuration and version. *)
Definition samplePlatform (cfg : list (string * value)) : World :=
  mkWorld cfg (Str "matterbridge-test") (Str "DynamicPlatform") (Str "1.0.0") true true [] [] ∅ [] sampleBridge true
    (mkStorage [] [] []) (mkServer "platform" false).

Definition sampleLists : list (string * value) :=
  [("entityBlackList", Arr [Str "hidden"]); ("deviceEntityBlackList", Obj [("Lamp", Arr [Str "effect"])])].


(** ** Versions *)

#[local] Open Scope Z_scope.

(** The text of a version: numbers with dots between them, and a tag. *)
Definition versionText (l : list Z) (tag : jsstr) : jsstr := (joinWith [46] (map dec l) ++ tag)%list.

Definition tagOk (tag : jsstr) : Prop := tag = [] \/ exists t, tag = 45 :: t.

Definition numberOk (n : Z) : Prop := 0 <= n < 2 ^ 53.

Lemma joinWith_free c sep ls : c ∉ sep -> Forall (fun l => c ∉ l) ls -> c ∉ joinWith sep ls.
Proof.
  intros Hs. induction 1 as [|l ls Hl Hls IH]; [apply not_elem_of_nil|].
  destruct ls as [|l' ls]; [done|].
  change (joinWith sep (l :: l' :: ls)) with (l ++ sep ++ joinWith sep (l' :: ls))%list. by rewrite !not_elem_of_app.
Qed.

Lemma versionParts_text l tag :
  l <> [] -> Forall numberOk l -> tagOk tag -> versionParts (versionText l tag) = map (fun n => toDouble n 1) l.
Proof.
  intros Hne Hl Htag. unfold versionParts, stripTag, versionText.
  assert (forall c, ~ (48 <= c <= 57) -> Forall (fun s => c ∉ s) (map dec l)) as Hfree.
  { intros c Hc. apply Forall_map. eapply Forall_impl; [exact Hl|]. simpl. intros n [Hn _]. by apply dec_no_unit. }
  assert (45 ∉ joinWith [46] (map dec l)) as H45.
  { apply joinWith_free; [rewrite list_elem_of_singleton; lia|apply Hfree; lia]. }
  assert (default [] (head (splitChar 45 (joinWith [46] (map dec l) ++ tag))) = joinWith [46] (map dec l)) as ->.
  { destruct Htag as [->|[t ->]]; [by rewrite app_nil_r, splitChar_one|by rewrite splitChar_app]. }
  rewrite splitChar_join; [|by destruct l|apply Hfree; lia]. rewrite map_map.
  apply map_ext_Forall. eapply Forall_impl; [exact Hl|]. simpl. intros n [Hn _]. by apply toNumber_dec.
Qed.

(** The number at a place of a version; missing ones are zero. *)
Definition place (l : list Z) (i : nat) : Z := default 0 (l !! i).

(** The order of versions. *)
Definition atLeast (l1 l2 : list Z) : Prop :=
  (forall i, place l1 i = place l2 i) \/
  exists i, place l2 i < place l1 i /\ forall j, (j < i)%nat -> place l1 j = place l2 j.

Lemma part_place l i : Forall numberOk l -> part (map (fun n => toDouble n 1) l) i = toDouble (place l i) 1 /\ numberOk (place l i).
Proof.
  intros Hl. unfold part, place. rewrite list_lookup_fmap. destruct (l !! i) as [n|] eqn:E; cbn [fmap option_fmap option_map default].
  - pose proof (Forall_lookup_1 _ _ _ _ Hl E) as Hn. split; [|done]. cbn [id].
    destruct (toDouble_integer n Hn) as (e & _ & ->). done.
  - by split.
Qed.

Lemma compareParts_spec n l1 l2 i :
  Forall numberOk l1 -> Forall numberOk l2 ->
  compareParts n (map (fun n => toDouble n 1) l1) (map (fun n => toDouble n 1) l2) i = true <->
  (forall j, (i <= j < i + n)%nat -> place l1 j = place l2 j) \/
  exists j, (i <= j < i + n)%nat /\ place l2 j < place l1 j /\ forall k, (i <= k < j)%nat -> place l1 k = place l2 k.
Proof.
  intros H1 H2. revert i. induction n as [|n IH]; intros i; cbn [compareParts].
  { split; [intros _; left; intros; lia|done]. }
  destruct (part_place l1 i H1) as [-> Hn1]. destruct (part_place l2 i H2) as [-> Hn2]. rewrite !dlt_integers by done.
  destruct (Z.ltb_spec (place l1 i) (place l2 i)) as [Hlt|Hge].
  { split; [done|]. intros [Hall|(j & Hj & Hgt & Hb)].
    - specialize (Hall i). lia.
    - destruct (decide (i = j)) as [->|Hne]; [lia|]. specialize (Hb i). lia. }
  destruct (Z.ltb_spec (place l2 i) (place l1 i)) as [Hlt|Hge'].
  { split; [|done]. intros _. right. exists i. split; [lia|]. split; [done|]. intros k Hk. lia. }
  rewrite IH. split.
  - intros [Hall|(j & Hj & Hgt & Hb)].
    + left. intros j Hj. destruct (decide (j = i)) as [->|Hne]; [lia|]. apply Hall. lia.
    + right. exists j. split; [lia|]. split; [done|]. intros k Hk. destruct (decide (k = i)) as [->|Hne]; [lia|]. apply Hb. lia.
  - intros [Hall|(j & Hj & Hgt & Hb)].
    + left. intros j Hj. apply Hall. lia.
    + right. exists j. destruct (decide (j = i)) as [->|Hne]; [lia|]. split; [lia|]. split; [done|]. intros k Hk. apply Hb. lia.
Qed.

(** A version meets a requirement exactly when it is not below it in the order
    of its numbers, the most significant one first; tags do not count, and numbers
    that are left out are zero. *)
Theorem compareVersions_exact l1 tag1 l2 tag2 :
  l1 <> [] -> l2 <> [] -> Forall numberOk l1 -> Forall numberOk l2 -> tagOk tag1 -> tagOk tag2 ->
  compareVersions (versionText l1 tag1) (versionText l2 tag2) = true <-> atLeast l1 l2.
Proof.
  intros Hn1 Hn2 H1 H2 Ht1 Ht2. unfold compareVersions. rewrite !versionParts_text by done. rewrite !length_map.
  rewrite compareParts_spec by done. set (n := max (length l1) (length l2)).
  assert (forall i, (n <= i)%nat -> place l1 i = 0 /\ place l2 i = 0) as Hout.
  { intros i Hi. unfold place. rewrite !(proj2 (lookup_ge_None _ _)) by lia. done. }
  unfold atLeast. split.
  - intros [Hall|(j & Hj & Hgt & Hb)].
    + left. intros i. destruct (decide (i < n)%nat) as [Hi|Hi]; [apply Hall; lia|]. destruct (Hout i); lia.
    + right. exists j. split; [done|]. intros k Hk. apply Hb. lia.
  - intros [Hall|(j & Hgt & Hb)]; [left; intros; apply Hall|].
    right. exists j. split; [|split; [done|intros k Hk; apply Hb; lia]].
    destruct (decide (j < n)%nat) as [Hi|Hi]; [lia|]. destruct (Hout j); lia.
Qed.

Lemma compareVersions_exact_witness :
  versionText [3; 10; 0] (js "-dev-20260430") = js "3.10.0-dev-20260430" /\
  (compareVersions (versionText [3; 10; 0] (js "-dev-20260430")) (versionText [3; 9] []) = true <-> atLeast [3; 10; 0] [3; 9]).
Proof.
  split; [by vm_compute|].
  apply compareVersions_exact; [done|done|by repeat constructor|by repeat constructor|right; by eexists|by left].
Defined.

(** ** Endpoint numbers *)

(** The keys and numbers of a device and its children. *)
Definition childNumbers (uniqueId : value) (l : list (value * value)) : list (value * value) :=
  map (fun c => (childKey uniqueId (fst c), snd c)) (List.filter (fun c => truthy (fst c) && truthy (snd c)) l).

Definition deviceNumbers (w : World) (r : nat) : list (value * value) :=
  let uniqueId := dget w r "uniqueId" in
  let number := dget w r "maybeNumber" in
  if isUndefined uniqueId || isUndefined number then []
  else (uniqueId, number) :: childNumbers uniqueId (childEndpoints (device w r)).

Definition allNumbers (w : World) : list (value * value) := concat (map (deviceNumbers w) (getDevices w)).

Definition recordAll (m : jsmap value value) (l : list (value * value)) : jsmap value value :=
  foldl (fun m kv => recordNumber (fst kv) (snd kv) m) m l.

Lemma recordNumber_eq key n m : recordNumber key n m = if bool_decide (mget key m = Some n) then m else mset key n m.
Proof.
  unfold recordNumber. case_bool_decide as E.
  - assert (mhas key m = true) as -> by (apply mhas_get; by exists n). cbn [andb negb].
    by rewrite (proj2 (mhas_get key m)) by (by exists n).
  - cbn [negb]. rewrite andb_true_r. destruct (mhas key m) eqn:Hh; [|by rewrite Hh].
    by rewrite (proj2 (mhas_get key _)) by (rewrite mget_set; by eexists).
Qed.

Lemma recordAll_app m l l' : recordAll m (l ++ l') = recordAll (recordAll m l) l'.
Proof. apply foldl_app. Qed.

Lemma recordDevice_all w m r : recordDevice w m r = recordAll m (deviceNumbers w r).
Proof.
  unfold recordDevice, deviceNumbers. destruct (_ || _); [done|]. unfold recordAll at 1. cbn [foldl fst snd].
  set (u := dget w r "uniqueId"). generalize (recordNumber u (dget w r "maybeNumber") m).
  induction (childEndpoints (device w r)) as [|c l IH]; intros m'; [done|]. cbn [foldl]. rewrite IH.
  unfold recordChild at 1, childNumbers. cbn [List.filter]. destruct (truthy (fst c)), (truthy (snd c)); done.
Qed.

Lemma recordDevices_all w m : foldl (recordDevice w) m (getDevices w) = recordAll m (allNumbers w).
Proof.
  unfold allNumbers. revert m. induction (getDevices w) as [|r l IH]; intros m; [done|].
  cbn [foldl map concat]. by rewrite recordAll_app, IH, recordDevice_all.
Qed.

Lemma recordAll_get m l :
  NoDup (map fst l) ->
  (forall k v, (k, v) ∈ l -> mget k (recordAll m l) = Some v) /\
  (forall k, k ∉ map fst l -> mget k (recordAll m l) = mget k m).
Proof.
  revert m. induction l as [|[k v] l IH]; intros m Hnd.
  { split; [intros k v H; by apply not_elem_of_nil in H|done]. }
  cbn [map fst] in Hnd. apply NoDup_cons in Hnd as [Hk Hnd].
  unfold recordAll. cbn [foldl fst snd]. fold (recordAll (recordNumber k v m) l).
  destruct (IH (recordNumber k v m) Hnd) as [H1 H2].
  assert (mget k (recordNumber k v m) = Some v) as Hkv.
  { rewrite recordNumber_eq. case_bool_decide; [done|apply mget_set]. }
  split.
  - intros k' v' [[= -> ->]|Hin]%elem_of_cons; [by rewrite H2|by apply H1].
  - cbn [map fst]. intros k' [Hne Hk']%not_elem_of_cons. rewrite H2 by done. rewrite recordNumber_eq.
    case_bool_decide; [done|by apply mget_set_ne].
Qed.

Lemma recordAll_idem m l : NoDup (map fst l) -> recordAll (recordAll m l) l = recordAll m l.
Proof.
  intros Hnd. destruct (recordAll_get m l Hnd) as [H1 _]. revert H1. generalize (recordAll m l). clear.
  intros m H1. unfold recordAll. induction l as [|[k v] l IH]; [done|]. cbn [foldl fst snd].
  rewrite recordNumber_eq, bool_decide_eq_true_2 by (apply H1, elem_of_cons; by left).
  apply IH. intros k' v' Hin. apply H1, elem_of_cons. by right.
Qed.

Lemma run_checkEndpointNumbers w :
  run checkEndpointNumbers w =
  (storeEndpoints (recordAll (endpointMap (storage w)) (allNumbers w)) w,
   Ok (msize (recordAll (endpointMap (storage w)) (allNumbers w)))).
Proof. unfold checkEndpointNumbers, pause. running. by rewrite recordDevices_all. Qed.

(** After a check every registered device, and every child endpoint of one, is
    stored under its own key with its present number; entries of other devices
    are kept, the size of the map is returned, and a second check changes nothing. *)
Theorem endpointNumbers_exact w :
  NoDup (map fst (allNumbers w)) ->
  exists w' n, run checkEndpointNumbers w = (w', Ok n) /\ n = msize (endpointMap (storage w')) /\
    (forall k v, (k, v) ∈ allNumbers w -> mget k (endpointMap (storage w')) = Some v) /\
    (forall k, k ∉ map fst (allNumbers w) -> mget k (endpointMap (storage w')) = mget k (endpointMap (storage w))) /\
    run checkEndpointNumbers w' = (w', Ok n).
Proof.
  intros Hnd. rewrite run_checkEndpointNumbers. do 2 eexists. split; [done|]. split; [done|].
  destruct (recordAll_get (endpointMap (storage w)) (allNumbers w) Hnd) as [H1 H2]. split; [exact H1|]. split; [exact H2|].
  rewrite run_checkEndpointNumbers. set (m := recordAll _ (allNumbers w)).
  change (allNumbers (storeEndpoints m w)) with (allNumbers w). cbn [storage storeEndpoints setStorage endpointMap].
  subst m. by rewrite recordAll_idem.
Qed.

Definition sampleLamp : Device :=
  mkDevice true [("deviceName", Str "Lamp"); ("uniqueId", Str "0a1b"); ("serialNumber", Str "S1"); ("maybeNumber", Num 3)]
    [0x0100] (Some [(0x0100, 3)]) [] [(Str "outlet", Num 4); (Str "spare", Undefined)] None.

Definition numbered : World := setRegistered [(Str "0a1b", 0%nat)] (setDevice 0 sampleLamp (samplePlatform [])).

Lemma endpointNumbers_exact_witness :
  NoDup (map fst (allNumbers numbered)) /\
  exists w' n, run checkEndpointNumbers numbered = (w', Ok n) /\
    mget (Str "0a1b|.|outlet") (endpointMap (storage w')) = Some (Num 4).
Proof.
  assert (NoDup (map fst (allNumbers numbered))) as Hnd by evaluate. split; [exact Hnd|].
  destruct (endpointNumbers_exact numbered Hnd) as (w' & n & Hrun & _ & H1 & _). exists w', n. split; [exact Hrun|].
  apply H1. evaluate.
Defined.

(** ** Registration *)

(** What registration looks at: the registry, names and unique ids. *)
Definition naming (d : Device) : value * value := (getField "deviceName" (fields d), getField "uniqueId" (fields d)).

Definition pview (w : World) : jsmap value nat * gmap nat (value * value) :=
  (registeredEndpoints w, naming <$> devices (bridge w)).

(** Devices are registered under their unique ids, and their names differ. *)
Definition registryOk (w : World) : Prop :=
  mwf (registeredEndpoints w) /\ (forall k r, (k, r) ∈ registeredEndpoints w -> dget w r "uniqueId" = k) /\
  NoDup (map (fun r => dget w r "deviceName") (getDevices w)).

Lemma pview_dget w w' r k :
  pview w' = pview w -> k ∈ ["deviceName"; "uniqueId"] -> dget w' r k = dget w r k.
Proof.
  intros Hv Hk. assert (naming (device w' r) = naming (device w r)) as Hn.
  { injection Hv as _ Hv. apply (f_equal (lookup r)) in Hv. rewrite !lookup_fmap in Hv. unfold device, Bridge.device.
    destruct (devices (bridge w') !! r), (devices (bridge w) !! r); cbn in *; congruence. }
  unfold naming in Hn. injection Hn as H1 H2. unfold dget, Bridge.dget. apply elem_of_cons in Hk as [->|Hk]; [done|].
  by apply list_elem_of_singleton in Hk as ->.
Qed.

Lemma registryOk_pview w w' : pview w' = pview w -> registryOk w -> registryOk w'.
Proof.
  intros Hv (Hwf & Hk & Hn). pose proof Hv as Hr. injection Hr as Hr _. unfold registryOk, getDevices. rewrite Hr.
  split_and!; [done| |].
  - intros k r Hin. rewrite (pview_dget w w') by (done || evaluate). by apply Hk.
  - replace (map (fun r => dget w' r "deviceName") (mvalues (registeredEndpoints w)))
      with (map (fun r => dget w r "deviceName") (mvalues (registeredEndpoints w))); [done|].
    apply map_ext. intros r. symmetry. apply pview_dget; [done|evaluate].
Qed.

Lemma device_setDevice r d w : device (setDevice r d w) r = d.
Proof. unfold device, Bridge.device. cbn. by rewrite lookup_insert_eq. Qed.

Lemma dget_setDevice r d w r' k :
  dget (setDevice r d w) r' k = if decide (r = r') then getField k (fields d) else dget w r' k.
Proof.
  unfold dget, Bridge.dget, Bridge.device. cbn. case_decide as E; [subst; by rewrite lookup_insert_eq|].
  by rewrite lookup_insert_ne.
Qed.

Lemma dset_setDevice r kvs w : dset r kvs w = setDevice r (assigned kvs (device w r)) w.
Proof. reflexivity. Qed.

Lemma dget_dset_ne r kvs w r' k : r' <> r -> dget (dset r kvs w) r' k = dget w r' k.
Proof. intros Hne. by rewrite dset_setDevice, dget_setDevice, decide_False by congruence. Qed.

(** The registry when a device with a new name is put under its unique id. *)
Lemma mset_elem (k k' : value) (r r' : nat) m : (k', r') ∈ mset k r m -> (k', r') = (k, r) \/ (k', r') ∈ m.
Proof.
  induction m as [|[k0 r0] m IH]; cbn [mset]; [intros H%list_elem_of_singleton; by left|].
  destruct (decide (k = k0)); rewrite !elem_of_cons; [tauto|]. intros [H|H]; [tauto|]. apply IH in H. tauto.
Qed.

Lemma mset_NoDup {B} (f : nat -> B) (k : value) (r : nat) m :
  NoDup (map f (mvalues m)) -> f r ∉ map f (mvalues m) -> NoDup (map f (mvalues (mset k r m))).
Proof.
  unfold mvalues. induction m as [|[k0 r0] m IH]; cbn [mset map snd]; intros Hnd Hr; [by apply NoDup_singleton|].
  apply NoDup_cons in Hnd as [H0 Hnd]. apply not_elem_of_cons in Hr as [Hne Hr].
  destruct (decide (k = k0)); cbn [map snd]; constructor; [done|done| |by apply IH].
  intros Hin. apply list_elem_of_In, in_map_iff in Hin as (r1 & Hf & Hin). apply in_map_iff in Hin as ([k1 r2] & <- & Hin).
  cbn in Hf. apply list_elem_of_In, mset_elem in Hin as [[= -> ->]|Hin]; [congruence|].
  apply H0. rewrite <- Hf. apply list_elem_of_In, in_map. apply list_elem_of_In in Hin. by apply (in_map snd) in Hin.
Qed.

Lemma fresh_name w r :
  hasDeviceName w (dget w r "deviceName") = false ->
  (dget w r "deviceName" ∉ map (fun r => dget w r "deviceName") (getDevices w)) /\ (r ∉ getDevices w).
Proof.
  unfold hasDeviceName, findDevice. destruct (List.find _ _) eqn:Hf; [done|]. intros _.
  assert (dget w r "deviceName" ∉ map (fun r => dget w r "deviceName") (getDevices w)) as Hfresh.
  { intros Hin. apply list_elem_of_In, in_map_iff in Hin as (r' & Hd & Hin).
    pose proof (List.find_none _ _ Hf _ Hin) as Hb. cbn beta in Hb. rewrite bool_decide_eq_false in Hb. congruence. }
  split; [done|]. intros Hin. apply Hfresh. apply list_elem_of_In, in_map_iff. exists r. split; [done|by apply list_elem_of_In].
Qed.

Lemma registered_device w k r : (k, r) ∈ registeredEndpoints w -> r ∈ getDevices w.
Proof.
  intros Hin. unfold getDevices, mvalues. apply list_elem_of_In, in_map_iff. exists (k, r).
  split; [done|by apply list_elem_of_In].
Qed.

(** Changes of devices that are not registered do not matter. *)
Definition agreeOn (w w' : World) : Prop :=
  registeredEndpoints w' = registeredEndpoints w /\
  forall r k, r ∈ getDevices w -> k ∈ ["deviceName"; "uniqueId"] -> dget w' r k = dget w r k.

Lemma agreeOn_names w w' :
  agreeOn w w' -> map (fun r => dget w' r "deviceName") (getDevices w) = map (fun r => dget w r "deviceName") (getDevices w).
Proof. intros [_ Hsame]. apply map_ext_in. intros r Hin. apply Hsame; [by apply list_elem_of_In|evaluate]. Qed.

Lemma registryOk_agree w w' : agreeOn w w' -> registryOk w -> registryOk w'.
Proof.
  intros Ha (Hwf & Hk & Hn). pose proof (agreeOn_names w w' Ha) as Hmap. destruct Ha as [Hr Hsame].
  unfold registryOk, getDevices in *. rewrite Hr. split_and!; [done| |by rewrite Hmap].
  intros k r Hin. rewrite Hsame; [by apply Hk|by eapply registered_device|evaluate].
Qed.

Lemma registryOk_register w w' r :
  registryOk w -> agreeOn w w' -> hasDeviceName w (dget w r "deviceName") = false ->
  dget w' r "deviceName" = dget w r "deviceName" ->
  registryOk (setRegistered (mset (dget w' r "uniqueId") r (registeredEndpoints w')) w').
Proof.
  intros Hok Ha Hnew Hname. destruct (fresh_name _ _ Hnew) as [Hfresh _].
  pose proof (agreeOn_names w w' Ha) as Hmap. destruct (registryOk_agree w w' Ha Hok) as (Hwf & Hk & Hn).
  destruct Ha as [Hr _]. unfold registryOk. cbn [registeredEndpoints setRegistered]. split_and!.
  - by apply mset_wf.
  - intros k r' [[= -> ->]|Hin]%mset_elem; [done|by apply Hk].
  - apply (mset_NoDup (fun r => dget w' r "deviceName")); [done|].
    rewrite Hname. unfold getDevices in *. by rewrite Hr, Hmap.
Qed.

(** *** Bridging a device *)

Section Register.
Context (md5 : string -> string).
Context (addBridgedEndpoint : value -> nat -> async World unit).

Lemma makeBridged_registered r w : registeredEndpoints (makeBridged md5 r w) = registeredEndpoints w.
Proof. unfold makeBridged, createBridgedInformation. by repeat case_bool_decide. Qed.

Lemma createBridgedInformation_other r r' a1 a2 a3 a4 a5 a6 a7 a8 a9 w k :
  r' <> r -> dget (createBridgedInformation md5 r a1 a2 a3 a4 a5 a6 a7 a8 a9 w) r' k = dget w r' k.
Proof. intros Hne. unfold createBridgedInformation. rewrite dget_setDevice, decide_False by congruence. by apply dget_dset_ne. Qed.

Lemma makeBridged_other r r' w k : r' <> r -> dget (makeBridged md5 r w) r' k = dget w r' k.
Proof.
  intros Hne. unfold makeBridged.
  repeat case_bool_decide; rewrite ?createBridgedInformation_other by done;
    rewrite ?dget_setDevice, ?decide_False by congruence; done.
Qed.

(** What bridging does to the device itself. *)
Lemma dget_created r a1 a2 a3 a4 a5 a6 a7 a8 a9 w :
  let w' := createBridgedInformation md5 r a1 a2 a3 a4 a5 a6 a7 a8 a9 w in
  dget w' r "deviceName" = a1 /\ dget w' r "serialNumber" = a2 /\
  dget w' r "uniqueId" = createUniqueId md5 a1 a2 (defaulted a4 (Str "Matterbridge")) (defaulted a5 (Str "Matterbridge device")).
Proof.
  cbn zeta. unfold createBridgedInformation. rewrite !dget_setDevice, !decide_True by done.
  rewrite dset_setDevice, device_setDevice. cbn [fields assigned foldl fst snd]. by fields.
Qed.

Lemma created_name r a1 a2 a3 a4 a5 a6 a7 a8 a9 w :
  dget (createBridgedInformation md5 r a1 a2 a3 a4 a5 a6 a7 a8 a9 w) r "deviceName" = a1.
Proof. apply dget_created. Qed.

Lemma makeBridged_name r w : dget (makeBridged md5 r w) r "deviceName" = dget w r "deviceName".
Proof.
  unfold makeBridged. repeat case_bool_decide; rewrite ?created_name, ?dget_setDevice, ?decide_True by done; done.
Qed.

Lemma hasDeviceName_pview w w' n : pview w' = pview w -> hasDeviceName w' n = hasDeviceName w n.
Proof.
  intros Hv. unfold hasDeviceName, findDevice, getDevices. pose proof Hv as Hr. injection Hr as -> _.
  assert (forall l, List.find (fun r => bool_decide (dget w' r "deviceName" = n)) l =
                    List.find (fun r => bool_decide (dget w r "deviceName" = n)) l) as ->; [|done].
  induction l as [|r l IH]; [done|]. cbn [List.find]. by rewrite IH, (pview_dget w w') by (done || evaluate).
Qed.

Lemma pview_plugin w r v : pview (dset r [("plugin", v)] w) = pview w \/ devices (bridge w) !! r = None.
Proof.
  destruct (devices (bridge w) !! r) as [d|] eqn:E; [left|by right]. unfold pview. cbn. f_equal. rewrite fmap_insert.
  apply insert_id. rewrite lookup_fmap, E. cbn. f_equal. unfold naming, Bridge.device. rewrite E. cbn [default fields assigned foldl fst snd].
  by fields.
Qed.

Lemma bridged_agree w w' r :
  hasDeviceName w (dget w r "deviceName") = false ->
  pview w' = pview (if bridged w r then makeBridged md5 r w else w) -> agreeOn w w'.
Proof.
  intros Hnew Hv. destruct (fresh_name _ _ Hnew) as [_ Hr]. pose proof Hv as He. injection He as He _. split.
  - rewrite He. destruct (bridged w r); [apply makeBridged_registered|done].
  - intros r' k Hin Hk. rewrite (pview_dget _ _ _ _ Hv) by done. destruct (bridged w r); [|done].
    apply makeBridged_other. intros ->. done.
Qed.

Hypothesis add_quiet : forall n r, quiet pview (addBridgedEndpoint n r).

(** Registering a device, with or without success, keeps the registry in
    order: devices are found under their own unique ids, and no two of them have the
    same name. *)
Theorem registerDevice_keeps w r :
  registryOk w -> registryOk (fst (run (registerDevice md5 addBridgedEndpoint r) w)).
Proof.
  intros Hok. unfold registerDevice, assertMatterbridgeEndpoint. running.
  destruct (isEndpoint (device w r)) eqn:He; running; [|done].
  assert (pview (dset r [("plugin", name w)] w) = pview w) as Hv1.
  { destruct (pview_plugin w r (name w)) as [?|Hn]; [done|]. unfold device, Bridge.device in He. by rewrite Hn in He. }
  assert (registryOk (dset r [("plugin", name w)] w)) as Hok1 by (by eapply registryOk_pview).
  set (w1 := dset r [("plugin", name w)] w) in *.
  destruct (negb (truthy (dget w1 r "uniqueId"))); running; [done|].
  destruct (negb (truthy (dget w1 r "deviceName"))); running; [done|].
  destruct (negb (truthy (dget w1 r "serialNumber"))); running; [done|].
  destruct (hasDeviceName w1 (dget w1 r "deviceName")) eqn:Hname; running; [done|].
  set (w2 := if bridged w1 r then makeBridged md5 r w1 else w1).
  assert (run (if bridged w1 r then modify (makeBridged md5 r) else mret tt) w1 = (w2, Ok tt)) as Hrun2
    by (subst w2; by destruct (bridged w1 r)).
  rewrite Hrun2. running. unfold whenInjected. running.
  assert (exists w3 o, run (if matterNode w2 then addBridgedEndpoint (name w1) r else mret tt) w2 = (w3, o) /\ pview w3 = pview w2)
    as (w3 & o & Hrun3 & Hv3).
  { destruct (matterNode w2); [|by exists w2, (Ok tt)]. exists (fst (run (addBridgedEndpoint (name w1) r) w2)), (snd (run (addBridgedEndpoint (name w1) r) w2)).
    split; [by destruct (run _ w2)|by apply quiet_run]. }
  rewrite Hrun3.
  assert (agreeOn w1 w3) as Ha by (by apply (bridged_agree w1 w3 r)).
  destruct o as [[]|e]; running; [|by apply (registryOk_agree w1)].
  apply (registryOk_register w1 w3 r); [done|done|done|].
  rewrite (pview_dget w2 w3) by (done || evaluate). subst w2. destruct (bridged w1 r); [apply makeBridged_name|done].
Qed.
End Register.

(** A bridge node that takes its time and accepts the device. *)
Definition acceptingNode (n : value) (r : nat) : async World unit := await (mret tt).

Lemma registerDevice_keeps_witness :
  registryOk (samplePlatform []) /\
  registryOk (fst (run (registerDevice id acceptingNode 0) (setDevice 0 sampleLamp (samplePlatform [])))) /\
  size (fst (run (registerDevice id acceptingNode 0) (setDevice 0 sampleLamp (samplePlatform [])))) = 1.
Proof.
  assert (forall w, registeredEndpoints w = [] -> registryOk w) as Hempty.
  { intros w Hw. unfold registryOk, getDevices. rewrite Hw. split_and!; [constructor|intros k r H; by apply not_elem_of_nil in H|constructor]. }
  split; [by apply Hempty|]. split; [|by vm_compute].
  apply registerDevice_keeps; [|by apply Hempty]. intros n r. unfold acceptingNode, await. by repeat constructor.
Defined.
