(* ===== verification/Behaviors.v ===== *)
(** The servers of clusters of [packages/core/src/behaviors] and
    [packages/core/src/devices]: how they pass commands on to the handlers that plugins
    register ([matterbridgeEndpointCommandHandler.ts]), and how they change the
    attributes of an endpoint. *)
From S2P Require Import Prelude JsValue Async.
From stdpp Require Import gmap strings.
#[local] Open Scope string_scope.
#[local] Open Scope Z_scope.

Module Behaviors.

Abbreviation object := (list (string * value)) (only parsing).
Abbreviation ref := nat (only parsing).

(** ** State *)

(** Calls of handlers and of the implementations that servers inherit from matter.js, and
    events that are emitted. *)
Inductive Call :=
  | Handled (command : string) (h : ref)
  | Inherited (server command : string)
  | Emitted (server event : string) (payload : value).

(** An endpoint: the attributes of its servers, by the name of the cluster, the
    registered handlers, functions that are compared by identity, and whether its
    construction is completed. *)
Record World := mkWorld {
  servers : gmap string (list (string * value));
  handler : list (string * ref);
  calls : list Call;
  active : bool
}.

(** [handle] is the code of plugins, [matterjs] the inherited implementation of a
    command, [accept] the validation of attributes by matter.js, [now] the time in
    milliseconds. *)
Record Env := mkEnv {
  handle : ref -> object -> async World value;
  matterjs : string -> string -> value -> async World value;
  accept : string -> object -> res unit;
  now : Z
}.

Definition attributes (w : World) (c : string) : object := default [] (servers w !! c).
Definition attr (w : World) (c k : string) : value := getField k (attributes w c).
Definition setAttrs (c : string) (kvs : object) (w : World) : World :=
  mkWorld (<[c := foldl (fun f kv => setField (fst kv) (snd kv) f) (attributes w c) kvs]> (servers w)) (handler w) (calls w) (active w).
Definition setHandler (l : list (string * ref)) (w : World) : World := mkWorld (servers w) l (calls w) (active w).
Definition addCall (c : Call) (w : World) : World := mkWorld (servers w) (handler w) (calls w ++ [c])%list (active w).

(** Members of the enumerations of matter.js stand for themselves. *)
Definition enum (e m : string) : value := Str (e ++ "." ++ m).

(** Attributes that are arrays, and comparisons of numbers. *)
Definition items (v : value) : list value := match v with Arr l => l | _ => [] end.
Definition le (a b : value) : bool := match a, b with Num x, Num y => x <=? y | _, _ => false end.
Definition lt (a b : value) : bool := match a, b with Num x, Num y => x <? y | _, _ => false end.
Definition numOf (v : value) : Z := match v with Num n => n | _ => 0 end.
Definition mapNum (f : Z -> Z) (v : value) : value := match v with Num n => Num (f n) | _ => Undefined end.

(** ** The command handler *)

Definition hasHandler (command : string) (w : World) : bool :=
  existsb (fun e => bool_decide (fst e = command)) (handler w).

Definition addHandler (command : string) (h : ref) (w : World) : World := setHandler (handler w ++ [(command, h)])%list w.

Definition removeHandler (command : string) (h : ref) (w : World) : World :=
  setHandler (List.filter (fun e => negb (bool_decide (fst e = command)) || negb (bool_decide (snd e = h))) (handler w)) w.

Definition findHandler (command : string) (l : list (string * ref)) : option ref :=
  snd <$> List.find (fun e => bool_decide (fst e = command)) l.

(** [command.split('.').pop()], with the part in front of [s] in [part]. *)
Fixpoint lastPart (part s : string) : string :=
  match s with
  | EmptyString => part
  | String a s => if (Ascii.N_of_ascii a =? 46)%N then lastPart "" s else lastPart (part ++ String a "") s
  end.

Definition fallbackCommand (command : string) : option string :=
  if strIncludes command "." then Some (lastPart "" command) else None.

(** The handler that executes a command. *)
Definition chosen (command : string) (l : list (string * ref)) : option ref :=
  match findHandler command l with
  | Some h => Some h
  | None => f ← fallbackCommand command; findHandler f l
  end.

Section Endpoint.
Context (env : Env).

Definition executeHandler (command : string) (args : object) : async World value :=
  w ← ask;
  match chosen command (handler w) with
  | Some h => _ ← modify (addCall (Handled command h)); await (handle env h args)
  | None => mret Undefined
  end.

(** ** Commands *)

Definition lowercaseFirstLetter (s : string) : string :=
  match s with
  | EmptyString => EmptyString
  | String a s =>
      let n := Ascii.N_of_ascii a in
      String (if (65 <=? n)%N && (n <=? 90)%N then Ascii.ascii_of_N (n + 32)%N else a) s
  end.

(** [await device.commandHandler.executeHandler('c.m', { command, request, cluster, ... })]. *)
Definition forward (c m : string) (request : object) : async World value :=
  await (executeHandler (c ++ "." ++ m)
           [("command", Str m); ("request", Obj request); ("cluster", Str (lowercaseFirstLetter c))]).

(** [await super.m(request)]. *)
Definition inherited (c m : string) (request : object) : async World value :=
  _ ← modify (addCall (Inherited c m));
  await (matterjs env c m (Obj request)).

(** [await this.endpoint.setStateOf(c, kvs)], which fails if the endpoint has no such
    server or matter.js does not accept the values. *)
Definition setStateOf (c : string) (kvs : object) : async World unit :=
  _ ← await (liftRes (accept env c kvs));
  w ← ask;
  match servers w !! c with
  | Some _ => modify (setAttrs c kvs)
  | None => Raise (Error [])
  end.

Definition forwarding (c m : string) (request : object) : async World value :=
  _ ← forward c m request;
  _ ← inherited c m request;
  mret Undefined.

Definition on : async World value := forwarding "OnOff" "on" [].
Definition off : async World value := forwarding "OnOff" "off" [].
Definition toggle : async World value := forwarding "OnOff" "toggle" [].

Definition identify (request : object) : async World value := forwarding "Identify" "identify" request.
Definition triggerEffect (request : object) : async World value := forwarding "Identify" "triggerEffect" request.

Definition moveToLevel (request : object) : async World value := forwarding "LevelControl" "moveToLevel" request.
Definition moveToLevelWithOnOff (request : object) : async World value := forwarding "LevelControl" "moveToLevelWithOnOff" request.

Definition moveToHue (request : object) : async World value := forwarding "ColorControl" "moveToHue" request.
Definition enhancedMoveToHue (request : object) : async World value := forwarding "ColorControl" "enhancedMoveToHue" request.
Definition moveToSaturation (request : object) : async World value := forwarding "ColorControl" "moveToSaturation" request.
Definition moveToHueAndSaturation (request : object) : async World value :=
  forwarding "ColorControl" "moveToHueAndSaturation" request.
Definition enhancedMoveToHueAndSaturation (request : object) : async World value :=
  forwarding "ColorControl" "enhancedMoveToHueAndSaturation" request.
Definition moveToColor (request : object) : async World value := forwarding "ColorControl" "moveToColor" request.
Definition moveToColorTemperature (request : object) : async World value :=
  forwarding "ColorControl" "moveToColorTemperature" request.

(** [WindowCovering]; the movement is left to the device. *)
Definition upOrOpen : async World value := forwarding "WindowCovering" "upOrOpen" [].
Definition downOrClose : async World value := forwarding "WindowCovering" "downOrClose" [].
Definition stopMotion : async World value := forwarding "WindowCovering" "stopMotion" [].
Definition goToLiftPercentage (request : object) : async World value := forwarding "WindowCovering" "goToLiftPercentage" request.
Definition goToTiltPercentage (request : object) : async World value := forwarding "WindowCovering" "goToTiltPercentage" request.

(** [DoorLock]: a disabled actuator ignores commands. *)
Definition actuated (c m : string) (request : object) : async World value :=
  w ← ask;
  if negb (truthy (attr w c "actuatorEnabled")) then mret Undefined else forwarding c m request.

Definition lockDoor (request : object) : async World value := actuated "DoorLock" "lockDoor" request.
Definition unlockDoor (request : object) : async World value := actuated "DoorLock" "unlockDoor" request.
Definition unlockWithTimeout (request : object) : async World value := actuated "DoorLock" "unlockWithTimeout" request.
Definition setUser (request : object) : async World value := forwarding "DoorLock" "setUser" request.
Definition clearUser (request : object) : async World value := forwarding "DoorLock" "clearUser" request.
Definition clearCredential (request : object) : async World value := forwarding "DoorLock" "clearCredential" request.

(** The answer of the handler goes before the inherited one. *)
Definition getUser (request : object) : async World value :=
  response ← forward "DoorLock" "getUser" request;
  if negb (isUndefined response) then mret response else inherited "DoorLock" "getUser" request.

Definition answering (c m : string) (request : object) : async World value :=
  _ ← forward c m request; inherited c m request.

Definition setCredential (request : object) : async World value := answering "DoorLock" "setCredential" request.
Definition getCredentialStatus (request : object) : async World value := answering "DoorLock" "getCredentialStatus" request.
Definition selectAreas (request : object) : async World value := answering "ServiceArea" "selectAreas" request.

Definition setpointRaiseLower (request : object) : async World value := forwarding "Thermostat" "setpointRaiseLower" request.
Definition setActivePresetRequest (request : object) : async World value := forwarding "Thermostat" "setActivePresetRequest" request.
Definition ModeSelect_changeToMode (request : object) : async World value := forwarding "ModeSelect" "changeToMode" request.

(** Commands that matter.js does not implement. *)
Definition reporting (c m : string) (request : object) : async World value := _ ← forward c m request; mret Undefined.

Definition enableDisableAlarm (request : object) : async World value :=
  reporting "BooleanStateConfiguration" "enableDisableAlarm" request.
Definition selfTestRequest : async World value := reporting "SmokeCoAlarm" "selfTestRequest" [].
Definition powerAdjustRequest (request : object) : async World value :=
  reporting "DeviceEnergyManagement" "powerAdjustRequest" request.
Definition cancelPowerAdjustRequest : async World value := reporting "DeviceEnergyManagement" "cancelPowerAdjustRequest" [].

Definition resetCondition (c : string) : async World value :=
  _ ← forward c "resetCondition" [];
  _ ← modify (setAttrs c [("condition", Num 100); ("lastChangedTime", Num (now env / 1000))]);
  mret Undefined.
Definition Hepa_resetCondition : async World value := resetCondition "HepaFilterMonitoring".
Definition ActivatedCarbon_resetCondition : async World value := resetCondition "ActivatedCarbonFilterMonitoring".

(** ** Fans, valves, closures *)

Definition lowest (request : object) : Z := if truthy (getField "lowestOff" request) then 0 else 10.

Definition stepped (request : object) (current : value) : value :=
  if bool_decide (getField "direction" request = enum "StepDirection" "Increase") then
    if truthy (getField "wrap" request) && bool_decide (current = Num 100) then Num (lowest request)
    else mapNum (fun n => Z.min (n + 10) 100) current
  else if bool_decide (getField "direction" request = enum "StepDirection" "Decrease") then
    if truthy (getField "wrap" request) && bool_decide (current = Num (lowest request)) then Num 100
    else mapNum (fun n => Z.max (n - 10) (lowest request)) current
  else current.

Definition FanControl_step (request : object) : async World value :=
  _ ← forward "FanControl" "step" request;
  _ ← modify (fun w => setAttrs "FanControl" [("percentCurrent", stepped request (attr w "FanControl" "percentCurrent"))] w);
  mret Undefined.

Definition opened (request : object) (w : World) : World :=
  let c := "ValveConfigurationAndControl" in
  let level := coalesce (getField "targetLevel" request) (Num 100) in
  let duration := coalesce (getField "openDuration" request) (attr w c "defaultOpenDuration") in
  setAttrs c ([("targetState", enum "ValveState" "Open"); ("currentState", enum "ValveState" "Open");
               ("targetLevel", level); ("currentLevel", level); ("openDuration", duration)] ++
              (if bool_decide (duration = Null) then [("remainingDuration", Null)] else []))%list w.

Definition open (request : object) : async World value :=
  _ ← forward "ValveConfigurationAndControl" "open" request;
  _ ← modify (opened request);
  mret Undefined.

Definition close : async World value :=
  _ ← forward "ValveConfigurationAndControl" "close" [];
  _ ← modify (setAttrs "ValveConfigurationAndControl"
         [("targetState", enum "ValveState" "Closed"); ("currentState", enum "ValveState" "Closed");
          ("targetLevel", Num 0); ("currentLevel", Num 0); ("openDuration", Null); ("remainingDuration", Null)]);
  mret Undefined.

(** [x ?? {}]. *)
Definition fields (v : value) : object := match v with Obj f => f | _ => [] end.

(** The target after a request: what the request leaves out stays. *)
Definition nextTarget (request : object) (previous : object) : object :=
  let set k f := if isUndefined (getField k request) then f else setField k (getField k request) f in
  setField "speed" (coalesce (getField "speed" request) (coalesce (getField "speed" previous) (enum "ThreeLevelAuto" "Auto")))
    (set "latch" (set "position" previous)).

Definition moveTo (request : object) : async World value :=
  _ ← forward "ClosureControl" "moveTo" request;
  _ ← modify (fun w => setAttrs "ClosureControl"
         [("overallTargetState", Obj (nextTarget request (fields (attr w "ClosureControl" "overallTargetState"))));
          ("mainState", enum "MainState" "Moving")] w);
  mret Undefined.

Definition ClosureControl_stop : async World value :=
  _ ← forward "ClosureControl" "stop" [];
  _ ← modify (setAttrs "ClosureControl" [("mainState", enum "MainState" "Stopped")]);
  mret Undefined.

Definition setTarget (request : object) : async World value :=
  _ ← forward "ClosureDimension" "setTarget" request;
  _ ← modify (fun w => setAttrs "ClosureDimension"
         [("targetState", Obj (nextTarget request (fields (attr w "ClosureDimension" "targetState"))))] w);
  mret Undefined.

(** The position that a step of the panel leads to, from the current or, if it is
    unknown, the target position. *)
Definition clamp (n : Z) : Z := Z.max 0 (Z.min 10000 n).

Definition positionOf (current target : object) : Z :=
  match getField "position" current, getField "position" target with
  | Num n, _ => n
  | _, Num n => n
  | _, _ => 0
  end.

Definition dimensionStep (request : object) (delta : Z) (current target : object) : Z :=
  clamp (if bool_decide (getField "direction" request = enum "StepDirection" "Increase")
         then positionOf current target + delta else positionOf current target - delta).

Definition stepSpeed (request current target : object) : value :=
  coalesce (getField "speed" request)
    (coalesce (getField "speed" current) (coalesce (getField "speed" target) (enum "ThreeLevelAuto" "Auto"))).

Definition ClosureDimension_step (request : object) : async World value :=
  _ ← forward "ClosureDimension" "step" request;
  _ ← modify (fun w =>
        let c := "ClosureDimension" in
        let current := fields (attr w c "currentState") in
        let target := fields (attr w c "targetState") in
        let delta := numOf (attr w c "stepValue") * numOf (getField "numberOfSteps" request) in
        let next := Num (dimensionStep request delta current target) in
        let speed := stepSpeed request current target in
        setAttrs c [("currentState", Obj (setField "speed" speed (setField "position" next current)));
                    ("targetState", Obj (setField "speed" speed (setField "position" next target)))] w);
  mret Undefined.

(** ** Modes *)

Definition supportedMode (w : World) (c : string) (newMode : value) : option value :=
  List.find (fun m => bool_decide (optProp m "mode" = newMode)) (items (attr w c "supportedModes")).

Definition hasTag (mode : value) (tag : value) : bool :=
  existsb (fun t => bool_decide (optProp t "value" = tag)) (items (optProp mode "modeTags")).

Definition answer (status statusText : string) : value :=
  Obj [("status", enum "ModeChangeStatus" status); ("statusText", Str statusText)].

(** Validates and applies a mode; [refusal] is the answer to a mode that is not supported. *)
Definition applyMode (refusal : value) (c : string) (newMode : value) : async World value :=
  w ← ask;
  match supportedMode w c newMode with
  | None => mret refusal
  | Some _ => _ ← modify (setAttrs c [("currentMode", newMode)]); mret (answer "Success" "Success")
  end.

Definition unsupported : value := answer "UnsupportedMode" "Unsupported mode".
Definition invalid : value := answer "InvalidInMode" "Invalid mode".

Definition modeRequest (newMode : value) : object := [("newMode", newMode)].

Definition RvcCleanMode_changeToMode (newMode : value) : async World value :=
  _ ← forward "RvcCleanMode" "changeToMode" (modeRequest newMode); applyMode unsupported "RvcCleanMode" newMode.
Definition EnergyEvseMode_changeToMode (newMode : value) : async World value :=
  _ ← forward "EnergyEvseMode" "changeToMode" (modeRequest newMode); applyMode unsupported "EnergyEvseMode" newMode.
Definition WaterHeaterMode_changeToMode (newMode : value) : async World value :=
  _ ← forward "WaterHeaterMode" "changeToMode" (modeRequest newMode); applyMode unsupported "WaterHeaterMode" newMode.
Definition LaundryWasherMode_changeToMode (newMode : value) : async World value :=
  _ ← forward "LaundryWasherMode" "changeToMode" (modeRequest newMode); applyMode invalid "LaundryWasherMode" newMode.
Definition DishwasherMode_changeToMode (newMode : value) : async World value :=
  _ ← forward "DishwasherMode" "changeToMode" (modeRequest newMode); applyMode invalid "DishwasherMode" newMode.
Definition OvenMode_changeToMode (newMode : value) : async World value := applyMode invalid "OvenMode" newMode.
Definition RefrigeratorMode_changeToMode (newMode : value) : async World value :=
  applyMode invalid "RefrigeratorAndTemperatureControlledCabinetMode" newMode.

(** The dead front: when it is switched off, the mode is 2. *)
Definition handleOnOffChange (c : string) (onOff : bool) (w : World) : World :=
  if onOff then w else setAttrs c [("currentMode", Num 2)] w.
Definition LaundryWasher_handleOnOffChange : bool -> World -> World := handleOnOffChange "LaundryWasherMode".
Definition Dishwasher_handleOnOffChange : bool -> World -> World := handleOnOffChange "DishwasherMode".
Definition Dishwasher_initialize (w : World) : World := setAttrs "DishwasherMode" [("currentMode", Num 2)] w.

(** Opting out of the energy management belongs to the mode without optimization. *)
Definition optOut (mode : value) : value :=
  enum "OptOutState" (if hasTag mode (enum "ModeTag" "NoOptimization") then "OptOut" else "NoOptOut").

Definition DeviceEnergyManagementMode_changeToMode (newMode : value) : async World value :=
  let c := "DeviceEnergyManagementMode" in
  _ ← forward c "changeToMode" (modeRequest newMode);
  w ← ask;
  match supportedMode w c newMode with
  | None => mret unsupported
  | Some mode =>
      _ ← modify (setAttrs c [("currentMode", newMode)]);
      _ ← match servers w !! "DeviceEnergyManagement" with
          | Some _ => setStateOf "DeviceEnergyManagement" [("optOutState", optOut mode)]
          | None => mret tt
          end;
      inherited c "changeToMode" (modeRequest newMode)
  end.

(** ** Operational states *)

Definition noError : value := Obj [("errorStateId", enum "ErrorState" "NoError"); ("errorStateDetails", Str "Fully operational")].
Definition commandResponse : value := Obj [("commandResponseState", noError)].
Definition operational (e m : string) : object := [("operationalState", enum e m); ("operationalError", noError)].

Definition operate (m state : string) : async World value :=
  _ ← forward "OperationalState" m [];
  _ ← modify (setAttrs "OperationalState" (operational "OperationalState" state));
  mret commandResponse.

(** [super.initialize()] is called last and not awaited: it has no suspension points. *)
Definition OperationalState_initialize : async World unit :=
  _ ← modify (setAttrs "OperationalState" (operational "OperationalState" "Stopped"));
  _ ← modify (addCall (Inherited "OperationalState" "initialize"));
  _ ← matterjs env "OperationalState" "initialize" (Obj []);
  mret tt.
Definition OperationalState_pause : async World value := operate "pause" "Paused".
Definition OperationalState_stop : async World value := operate "stop" "Stopped".
Definition OperationalState_start : async World value := operate "start" "Running".
Definition OperationalState_resume : async World value := operate "resume" "Running".

Definition OvenCavity_operate (state : string) : async World value :=
  _ ← modify (setAttrs "OvenCavityOperationalState" (operational "OperationalState" state)); mret commandResponse.
Definition OvenCavity_initialize (w : World) : World :=
  setAttrs "OvenCavityOperationalState" (operational "OperationalState" "Stopped") w.
Definition OvenCavity_stop : async World value := OvenCavity_operate "Stopped".
Definition OvenCavity_start : async World value := OvenCavity_operate "Running".

(** The vacuum cleaner. The mode and the state change together, without a suspension
    point between them. *)
Definition rvcState (m : string) : value := enum "RvcOperationalState" m.

Definition runMode (mode : value) : string * string :=
  if hasTag mode (enum "ModeTag" "Cleaning") then ("Running", "Running")
  else if hasTag mode (enum "ModeTag" "Idle") then ("Docked", "Docked")
  else ("Running", "Success").

Definition RvcRunMode_changeToMode (newMode : value) : async World value :=
  _ ← forward "RvcRunMode" "changeToMode" (modeRequest newMode);
  w ← ask;
  match supportedMode w "RvcRunMode" newMode with
  | None => mret unsupported
  | Some mode =>
      let (state, text) := runMode mode in
      _ ← modify (fun w => setAttrs "RvcOperationalState" [("operationalState", rvcState state)]
                             (setAttrs "RvcRunMode" [("currentMode", newMode)] w));
      mret (answer "Success" text)
  end.

Definition rvcOperate (m : string) (mode : Z) (state : string) : async World value :=
  _ ← forward "RvcOperationalState" m [];
  _ ← modify (fun w => setAttrs "RvcOperationalState" (operational "RvcOperationalState" state)
                         (setAttrs "RvcRunMode" [("currentMode", Num mode)] w));
  mret commandResponse.
Definition Rvc_pause : async World value := rvcOperate "pause" 1 "Paused".
Definition Rvc_resume : async World value := rvcOperate "resume" 2 "Running".
Definition Rvc_goHome : async World value := rvcOperate "goHome" 1 "Docked".

(** ** Charging and heating water *)

Definition evseState (m : string) : value := enum "EvseState" m.
Definition supply (m : string) : value := enum "SupplyState" m.

(** Moves the state of the connection from [a] to [b]. *)
Definition replug (a b : string) (w : World) : object :=
  if bool_decide (attr w "EnergyEvse" "state" = evseState a) then [("state", evseState b)] else [].

Definition disable : async World value :=
  _ ← forward "EnergyEvse" "disable" [];
  _ ← modify (fun w => setAttrs "EnergyEvse"
         (("supplyState", supply "Disabled") :: replug "PluggedInCharging" "PluggedInDemand" w) w);
  mret Undefined.

Definition enableCharging (request : object) : async World value :=
  _ ← forward "EnergyEvse" "enableCharging" request;
  _ ← modify (fun w => setAttrs "EnergyEvse"
         ((("supplyState", supply "ChargingEnabled") :: replug "PluggedInDemand" "PluggedInCharging" w) ++
          map (fun k => (k, getField k request)) ["chargingEnabledUntil"; "minimumChargeCurrent"; "maximumChargeCurrent"])%list w);
  mret Undefined.

Definition setTargets (request : object) : async World value := mret Undefined.
Definition getTargets : async World value := mret (Obj [("chargingTargetSchedules", Arr [])]).
Definition clearTargets : async World value := mret Undefined.

Definition boosting (m state : string) (request : object) : async World value :=
  _ ← forward "WaterHeaterManagement" m request;
  _ ← modify (setAttrs "WaterHeaterManagement" [("boostState", enum "BoostState" state)]);
  mret Undefined.
Definition boost (request : object) : async World value := boosting "boost" "Active" request.
Definition cancelBoost : async World value := boosting "cancelBoost" "Inactive" [].

(** ** Cooking and temperatures *)

Definition Level_setTemperature (request : object) : async World value :=
  _ ← forward "TemperatureControl" "setTemperature" request;
  w ← ask;
  let level := getField "targetTemperatureLevel" request in
  let levels := Z.of_nat (length (items (attr w "TemperatureControl" "supportedTemperatureLevels"))) in
  _ ← (if negb (isUndefined level) && le (Num 0) level && lt level (Num levels)
       then modify (setAttrs "TemperatureControl" [("selectedTemperatureLevel", level)]) else mret tt);
  mret Undefined.

Definition Number_setTemperature (request : object) : async World value :=
  _ ← forward "TemperatureControl" "setTemperature" request;
  w ← ask;
  let target := getField "targetTemperature" request in
  _ ← (if negb (isUndefined target) && le (attr w "TemperatureControl" "minTemperature") target &&
          le target (attr w "TemperatureControl" "maxTemperature")
       then modify (setAttrs "TemperatureControl" [("temperatureSetpoint", target)]) else mret tt);
  mret Undefined.

Definition normalMode (w : World) : value :=
  match List.find (fun m => hasTag m (enum "ModeTag" "Normal")) (items (attr w "MicrowaveOvenMode" "supportedModes")) with
  | Some m => optProp m "mode"
  | None => Undefined
  end.

Definition cookTimeOf (request : object) (w : World) : value :=
  let t := getField "cookTime" request in
  if negb (isUndefined t) && le (Num 0) t && le t (attr w "MicrowaveOvenControl" "maxCookTime") then t else Num 30.

Definition wattIndexOf (request : object) (w : World) : value :=
  let i := getField "wattSettingIndex" request in
  let watts := Z.of_nat (length (items (attr w "MicrowaveOvenControl" "supportedWatts"))) in
  if negb (isUndefined i) && le (Num 0) i && lt i (Num watts) then i else Num (watts - 1).

Definition setCookingParameters (request : object) : async World value :=
  _ ← forward "MicrowaveOvenControl" "setCookingParameters" request;
  w ← ask;
  let mode := getField "cookMode" request in
  _ ← setStateOf "MicrowaveOvenMode" [("currentMode", if isUndefined mode then normalMode w else mode)];
  _ ← modify (fun w => setAttrs "MicrowaveOvenControl" [("cookTime", cookTimeOf request w); ("selectedWattIndex", wattIndexOf request w)] w);
  _ ← (if bool_decide (getField "startAfterSetting" request = Bool true)
       then setStateOf "OperationalState" [("operationalState", enum "OperationalState" "Running")] else mret tt);
  mret Undefined.

Definition addMoreTime (request : object) : async World value :=
  _ ← forward "MicrowaveOvenControl" "addMoreTime" request;
  w ← ask;
  _ ← match getField "timeToAdd" request, attr w "MicrowaveOvenControl" "cookTime" with
      | Num t, Num n =>
          if (0 <? t) && le (Num (n + t)) (attr w "MicrowaveOvenControl" "maxCookTime")
          then modify (setAttrs "MicrowaveOvenControl" [("cookTime", Num (n + t))]) else mret tt
      | _, _ => mret tt
      end;
  mret Undefined.

(** ** Media *)

Definition success : value := Obj [("status", enum "Status" "Success")].

(** The state of a player that is switched off does not change. *)
Definition playback (m : string) (state : option string) : async World value :=
  _ ← forward "MediaPlayback" m [];
  w ← ask;
  _ ← match state with
      | Some s =>
          if truthy (attr w "OnOff" "onOff") then modify (setAttrs "MediaPlayback" [("currentState", enum "PlaybackState" s)])
          else mret tt
      | None => mret tt
      end;
  mret success.
Definition play : async World value := playback "play" (Some "Playing").
Definition MediaPlayback_pause : async World value := playback "pause" (Some "Paused").
Definition MediaPlayback_stop : async World value := playback "stop" (Some "NotPlaying").
Definition previous : async World value := playback "previous" None.
Definition next : async World value := playback "next" None.
Definition MediaPlayback_handleOnOffChange (onOff : bool) (w : World) : World :=
  setAttrs "MediaPlayback" [("currentState", enum "PlaybackState" "NotPlaying")] w.

Definition skip (m : string) (request : object) : async World value := _ ← forward "MediaPlayback" m request; mret success.
Definition skipForward (request : object) : async World value := skip "skipForward" request.
Definition skipBackward (request : object) : async World value := skip "skipBackward" request.
Definition sendKey (request : object) : async World value := _ ← forward "KeypadInput" "sendKey" request; mret success.

(** ** Initialization and other attributes *)

(** After the construction: only the first command is accepted. *)
Definition Thermostat_constructed : async World unit :=
  setStateOf "Thermostat" [("acceptedCommandList", Arr [Num 0]); ("generatedCommandList", Arr [])].

(** The endpoint and its parts that are ready. *)
Definition endpointList (number : Z) (parts : list (bool * Z)) : list Z := number :: map snd (List.filter fst parts).
Definition PowerSource_initialize (number : Z) : async World unit :=
  _ ← inherited "PowerSource" "initialize" [];
  modify (setAttrs "PowerSource" [("endpointList", Arr [Num number])]).
Definition PowerSource_constructed (number : Z) (parts : list (bool * Z)) : async World unit :=
  setStateOf "PowerSource" [("endpointList", Arr (map Num (endpointList number parts)))].

(** [Binding]: the clusters of the client list that the descriptor lacks. *)
Definition toAddClientList (clientList current : list Z) : list Z :=
  List.filter (fun id => negb (bool_decide (id ∈ current))) clientList.
Definition numbers (v : value) : list Z := omap (fun v => match v with Num n => Some n | _ => None end) (items v).
Definition Binding_constructed : async World unit :=
  w ← ask;
  let current := numbers (attr w "Descriptor" "clientList") in
  let add := toAddClientList (numbers (attr w "Binding" "clientList")) current in
  if bool_decide (add = []) then mret tt
  else setStateOf "Descriptor" [("clientList", Arr (map Num (current ++ add)%list))].

(** ** All commands *)

(** The methods that execute commands, by cluster and command, on the request as it is
    received. *)
Definition byMode (f : value -> async World value) (request : object) : async World value := f (getField "newMode" request).

Definition commands : list (string * string * (object -> async World value)) :=
  [("OnOff", "on", fun _ => on); ("OnOff", "off", fun _ => off); ("OnOff", "toggle", fun _ => toggle);
   ("Identify", "identify", identify); ("Identify", "triggerEffect", triggerEffect);
   ("LevelControl", "moveToLevel", moveToLevel); ("LevelControl", "moveToLevelWithOnOff", moveToLevelWithOnOff);
   ("ColorControl", "moveToHue", moveToHue); ("ColorControl", "enhancedMoveToHue", enhancedMoveToHue);
   ("ColorControl", "moveToSaturation", moveToSaturation); ("ColorControl", "moveToHueAndSaturation", moveToHueAndSaturation);
   ("ColorControl", "enhancedMoveToHueAndSaturation", enhancedMoveToHueAndSaturation); ("ColorControl", "moveToColor", moveToColor);
   ("ColorControl", "moveToColorTemperature", moveToColorTemperature);
   ("WindowCovering", "upOrOpen", fun _ => upOrOpen); ("WindowCovering", "downOrClose", fun _ => downOrClose);
   ("WindowCovering", "stopMotion", fun _ => stopMotion); ("WindowCovering", "goToLiftPercentage", goToLiftPercentage);
   ("WindowCovering", "goToTiltPercentage", goToTiltPercentage);
   ("DoorLock", "lockDoor", lockDoor); ("DoorLock", "unlockDoor", unlockDoor); ("DoorLock", "unlockWithTimeout", unlockWithTimeout);
   ("DoorLock", "setUser", setUser); ("DoorLock", "getUser", getUser); ("DoorLock", "clearUser", clearUser);
   ("DoorLock", "setCredential", setCredential); ("DoorLock", "getCredentialStatus", getCredentialStatus);
   ("DoorLock", "clearCredential", clearCredential); ("ServiceArea", "selectAreas", selectAreas);
   ("Thermostat", "setpointRaiseLower", setpointRaiseLower); ("Thermostat", "setActivePresetRequest", setActivePresetRequest);
   ("ModeSelect", "changeToMode", ModeSelect_changeToMode);
   ("BooleanStateConfiguration", "enableDisableAlarm", enableDisableAlarm); ("SmokeCoAlarm", "selfTestRequest", fun _ => selfTestRequest);
   ("DeviceEnergyManagement", "powerAdjustRequest", powerAdjustRequest);
   ("DeviceEnergyManagement", "cancelPowerAdjustRequest", fun _ => cancelPowerAdjustRequest);
   ("HepaFilterMonitoring", "resetCondition", fun _ => Hepa_resetCondition);
   ("ActivatedCarbonFilterMonitoring", "resetCondition", fun _ => ActivatedCarbon_resetCondition);
   ("FanControl", "step", FanControl_step); ("ValveConfigurationAndControl", "open", open);
   ("ValveConfigurationAndControl", "close", fun _ => close); ("ClosureControl", "moveTo", moveTo);
   ("ClosureControl", "stop", fun _ => ClosureControl_stop); ("ClosureDimension", "setTarget", setTarget);
   ("ClosureDimension", "step", ClosureDimension_step);
   ("RvcCleanMode", "changeToMode", byMode RvcCleanMode_changeToMode); ("EnergyEvseMode", "changeToMode", byMode EnergyEvseMode_changeToMode);
   ("WaterHeaterMode", "changeToMode", byMode WaterHeaterMode_changeToMode);
   ("LaundryWasherMode", "changeToMode", byMode LaundryWasherMode_changeToMode);
   ("DishwasherMode", "changeToMode", byMode DishwasherMode_changeToMode);
   ("DeviceEnergyManagementMode", "changeToMode", byMode DeviceEnergyManagementMode_changeToMode);
   ("OperationalState", "pause", fun _ => OperationalState_pause); ("OperationalState", "stop", fun _ => OperationalState_stop);
   ("OperationalState", "start", fun _ => OperationalState_start); ("OperationalState", "resume", fun _ => OperationalState_resume);
   ("RvcRunMode", "changeToMode", byMode RvcRunMode_changeToMode); ("RvcOperationalState", "pause", fun _ => Rvc_pause);
   ("RvcOperationalState", "resume", fun _ => Rvc_resume); ("RvcOperationalState", "goHome", fun _ => Rvc_goHome);
   ("EnergyEvse", "disable", fun _ => disable); ("EnergyEvse", "enableCharging", enableCharging);
   ("WaterHeaterManagement", "boost", boost); ("WaterHeaterManagement", "cancelBoost", fun _ => cancelBoost);
   ("TemperatureControl", "setTemperature", Level_setTemperature); ("TemperatureControl", "setTemperature", Number_setTemperature);
   ("MicrowaveOvenControl", "setCookingParameters", setCookingParameters); ("MicrowaveOvenControl", "addMoreTime", addMoreTime);
   ("MediaPlayback", "play", fun _ => play); ("MediaPlayback", "pause", fun _ => MediaPlayback_pause);
   ("MediaPlayback", "stop", fun _ => MediaPlayback_stop); ("MediaPlayback", "previous", fun _ => previous);
   ("MediaPlayback", "next", fun _ => next); ("MediaPlayback", "skipForward", skipForward);
   ("MediaPlayback", "skipBackward", skipBackward); ("KeypadInput", "sendKey", sendKey)].

(** Commands that no handler hears of. *)
Definition localCommands : list (string * string * (object -> async World value)) :=
  [("OvenMode", "changeToMode", byMode OvenMode_changeToMode);
   ("RefrigeratorAndTemperatureControlledCabinetMode", "changeToMode", byMode RefrigeratorMode_changeToMode);
   ("OvenCavityOperationalState", "stop", fun _ => OvenCavity_stop); ("OvenCavityOperationalState", "start", fun _ => OvenCavity_start);
   ("EnergyEvse", "setTargets", setTargets); ("EnergyEvse", "getTargets", fun _ => getTargets);
   ("EnergyEvse", "clearTargets", fun _ => clearTargets)].
End Endpoint.
End Behaviors.
