(* ===== verification/BehaviorFacts.v ===== *)
(** Properties of the servers of clusters: which handler executes a command, that it
    goes before every change the server makes, and that the attributes of an endpoint
    stay well formed under every interleaving of commands. *)
From S2P Require Import Prelude JsValue Async Ownership Behaviors.
From stdpp Require Import gmap strings relations.
#[local] Open Scope string_scope.
#[local] Open Scope Z_scope.
Import Behaviors.

(** ** The command handler *)

(** The first entry for a command has handler [h]. *)
Definition firstFor (command : string) (h : nat) (l : list (string * nat)) : Prop :=
  exists l1 l2, l = (l1 ++ (command, h) :: l2)%list /\ command ∉ map fst l1.

Lemma findHandler_Some c l h : findHandler c l = Some h <-> firstFor c h l.
Proof.
  unfold findHandler, firstFor. induction l as [|[c' h'] l IH]; simpl.
  - split; [done|]. intros (l1 & l2 & Hl & _). by destruct l1.
  - case_bool_decide as Hc; simpl in *.
    + subst c'. split.
      * intros [= ->]. exists [], l. split; [done|]. apply not_elem_of_nil.
      * intros (l1 & l2 & Hl & Hn). destruct l1 as [|e l1]; [by injection Hl as -> ->|].
        injection Hl as <- ->. contradict Hn. by left.
    + rewrite IH. split.
      * intros (l1 & l2 & -> & Hn). exists ((c', h') :: l1), l2. split; [done|]. by apply not_elem_of_cons.
      * intros (l1 & l2 & Hl & Hn). destruct l1 as [|e l1]; [by injection Hl as -> ->|].
        injection Hl as <- ->. apply not_elem_of_cons in Hn as [_ Hn]. by exists l1, l2.
Qed.

Lemma findHandler_None c l : findHandler c l = None <-> c ∉ map fst l.
Proof.
  unfold findHandler. induction l as [|[c' h'] l IH]; simpl; [split; [intros _; apply not_elem_of_nil|done]|].
  rewrite not_elem_of_cons. case_bool_decide as Hc; simpl in *; [split; [done|by intros [? _]]|].
  rewrite IH. split; [by split|by intros [_ ?]].
Qed.

Lemma lastPart_plain p s : strIncludes s "." = false -> lastPart p s = p ++ s.
Proof.
  revert p. induction s as [|a s IH]; intros p H; cbn [lastPart].
  - clear. induction p as [|b p IHp]; [done|exact (f_equal (String b) IHp)].
  - cbn [strIncludes strPrefix] in H. rewrite andb_true_r in H. apply orb_false_iff in H as [Ha Hs].
    destruct (N.eqb_spec (Ascii.N_of_ascii a) 46) as [E|E].
    + exfalso. apply bool_decide_eq_false in Ha. apply Ha. rewrite <- (Ascii.ascii_N_embedding a), E. done.
    + rewrite IH by done. clear. induction p as [|b p IHp]; [done|exact (f_equal (String b) IHp)].
Qed.

Lemma lastPart_dot p c m : lastPart p (c ++ "." ++ m) = lastPart "" m.
Proof.
  revert p. induction c as [|a c IH]; intros p; [done|].
  change (lastPart p (String a (c ++ "." ++ m)) = lastPart "" m). cbn [lastPart].
  destruct (N.eqb (Ascii.N_of_ascii a) 46); apply IH.
Qed.

Lemma includes_dot c m : strIncludes (c ++ "." ++ m) "." = true.
Proof.
  induction c as [|a c IH]; [done|]. change (strIncludes (String a (c ++ "." ++ m)) "." = true).
  cbn [strIncludes]. rewrite IH. by rewrite orb_true_r.
Qed.

Lemma fallback_plain c m : strIncludes m "." = false -> fallbackCommand (c ++ "." ++ m) = Some m.
Proof. intros Hm. unfold fallbackCommand. rewrite includes_dot, lastPart_dot, lastPart_plain; done. Qed.

(** The handler that executes the command [m] of the cluster [c] is the first one
    that was registered for the cluster and the command and, if there is none, the
    first one that was registered for the command alone. *)
Theorem chosen_exact (c m : string) (l : list (string * nat)) (h : nat) :
  strIncludes m "." = false ->
  chosen (c ++ "." ++ m) l = Some h <->
  firstFor (c ++ "." ++ m) h l \/ (~ (c ++ "." ++ m ∈ map fst l) /\ firstFor m h l).
Proof.
  intros Hm. unfold chosen. rewrite fallback_plain by done. simpl.
  destruct (findHandler (c ++ "." ++ m) l) as [h'|] eqn:E.
  - assert (Hn : ~ ~ (c ++ "." ++ m ∈ map fst l)) by (rewrite <- findHandler_None; congruence).
    rewrite <- findHandler_Some, E. split; [by left|]. by intros [?|[? _]].
  - apply findHandler_None in E as Hn. rewrite findHandler_Some. split; [by right|].
    intros [H|[_ H]]; [|done]. apply findHandler_Some in H. congruence.
Qed.

Lemma chosen_exact_witness :
  chosen "OnOff.on" [("on", 1%nat); ("OnOff.on", 2%nat); ("OnOff.on", 3%nat)] = Some 2%nat /\
  firstFor "OnOff.on" 2 [("on", 1%nat); ("OnOff.on", 2%nat); ("OnOff.on", 3%nat)].
Proof.
  split; [reflexivity|]. assert (H := proj1 (chosen_exact "OnOff" "on" [("on", 1%nat); ("OnOff.on", 2%nat); ("OnOff.on", 3%nat)] 2 eq_refl) eq_refl).
  destruct H as [H|[H _]]; [exact H|]. exfalso. apply H. right. left.
Defined.

(** Removing a handler undoes registering it. *)
Lemma remove_add c h w : (c, h) ∉ handler w -> removeHandler c h (addHandler c h w) = w.
Proof.
  intros Hn. destruct w as [s l t]. unfold removeHandler, addHandler, setHandler. simpl in *. f_equal.
  rewrite List.filter_app. simpl. rewrite !bool_decide_true by done. simpl. rewrite app_nil_r.
  induction l as [|[c' h'] l IH]; simpl in *; [done|]. apply not_elem_of_cons in Hn as [Hne Hn].
  destruct (bool_decide (c' = c)) eqn:Hc; simpl; [|f_equal; by apply IH].
  destruct (bool_decide (h' = h)) eqn:Hh; simpl; [|f_equal; by apply IH].
  apply bool_decide_eq_true in Hc as ->, Hh as ->. done.
Qed.

(** ** Handlers go first *)

(** Calls of the inherited implementation of the cluster [c], and nothing else. *)
Definition onlyInherited (c : string) (w w' : World) : Prop :=
  exists t, calls w' = (calls w ++ t)%list /\ Forall (fun x => exists m, x = Inherited c m) t.

#[export] Instance onlyInherited_preorder c : PreOrder (onlyInherited c).
Proof.
  split.
  - intros w. exists []. by rewrite app_nil_r.
  - intros w1 w2 w3 (t & H1 & F1) (u & H2 & F2). exists (t ++ u)%list. rewrite H2, H1, app_assoc. split; [done|].
    by apply Forall_app.
Qed.

Lemma onlyInherited_same c w w' : calls w' = calls w -> onlyInherited c w w'.
Proof. intros H. exists []. by rewrite app_nil_r. Qed.

Lemma onlyInherited_call c m w : onlyInherited c w (addCall (Inherited c m) w).
Proof. exists [Inherited c m]. split; [done|]. constructor; [by exists m|done]. Qed.

Lemma quiet_guarded {W S} (view : W -> S) (R : W -> W -> Prop) {A} (m : async W A) :
  (forall w w', view w' = view w -> R w w') -> quiet view m -> guarded R m.
Proof. intros HR. induction m as [a|e|k IH|f m IH|m IH]; simpl; firstorder. Qed.

Section Handlers.
Context (env : Env).

(** Neither plugins nor matter.js touch the record of calls. *)
Definition CallsQuiet : Prop :=
  (forall h args, quiet calls (handle env h args)) /\ (forall c m r, quiet calls (matterjs env c m r)).

(** A command begins with its handler; what follows calls only the inherited
    implementation. *)
Definition begins (c m : string) (f : list (string * value) -> async World value) : Prop :=
  forall request w, truthy (attr w "DoorLock" "actuatorEnabled") = true ->
  exists r k, run (f request) w = run (v ← forward env c m r; k v) w /\
    (CallsQuiet -> forall v, guarded (onlyInherited c) (k v)).

Lemma inherited_guarded c m r : CallsQuiet -> guarded (onlyInherited c) (inherited env c m r).
Proof.
  intros [_ Hm]. unfold inherited. guarding; [apply onlyInherited_call|].
  apply (quiet_guarded calls); [apply onlyInherited_same|apply Hm].
Qed.

#[local] Ltac following :=
  intros Hq ?; unfold inherited, applyMode, setStateOf;
  repeat (progress guarding || (by apply onlyInherited_same) || apply onlyInherited_call ||
          (apply (quiet_guarded calls); [apply onlyInherited_same|apply Hq])).

Lemma commands_begin : Forall (fun '(c, m, f) => begins c m f) (commands env).
Proof.
  unfold commands. repeat (apply Forall_cons; split); [..|constructor].
  all: cbv beta iota; unfold begins; intros request w Hact.
  all: try (unfold lockDoor, unlockDoor, unlockWithTimeout, actuated; rewrite run_bind, run_ask, Hact; cbn [negb]).
  all: eexists _, _; split; [unfold byMode; reflexivity|].
  all: cbv beta; following.
Qed.

Lemma forward_run c m r h w : chosen (c ++ "." ++ m) (handler w) = Some h ->
  exists args, run (forward env c m r) w = run (handle env h args) (addCall (Handled (c ++ "." ++ m) h) w).
Proof.
  intros Hc. eexists. unfold forward, executeHandler. rewrite run_await, run_bind, run_ask, Hc, run_bind, run_modify, run_await.
  reflexivity.
Qed.


(** Every command is executed by exactly one handler, the chosen one, before the
    implementation of matter.js is called; nothing but that implementation follows. *)
Theorem handled_once (c m : string) (f : list (string * value) -> async World value)
    (request : list (string * value)) (h : nat) (w : World) :
  CallsQuiet -> (c, m, f) ∈ commands env -> chosen (c ++ "." ++ m) (handler w) = Some h ->
  truthy (attr w "DoorLock" "actuatorEnabled") = true ->
  exists t, calls (fst (run (f request) w)) = (calls w ++ Handled (c ++ "." ++ m) h :: t)%list /\
    Forall (fun x => exists m', x = Inherited c m') t.
Proof.
  intros Hq Hin Hc Hact. pose proof (proj1 (Forall_forall _ _) commands_begin _ Hin) as Hb.
  destruct (Hb request w Hact) as (r & k & -> & Hk). destruct (forward_run c m r h w Hc) as [args Hf].
  rewrite run_bind, Hf. pose proof (quiet_run calls (handle env h args) (addCall (Handled (c ++ "." ++ m) h) w) (proj1 Hq h args)) as Hcalls.
  destruct (run (handle env h args) _) as [w1 [v|e]]; simpl in *.
  - destruct (guarded_run (onlyInherited c) (k v) w1 (Hk Hq v)) as (t & Ht & HF). exists t. split; [|done].
    rewrite Ht, Hcalls. simpl. by rewrite <- app_assoc.
  - by exists [].
Qed.
End Handlers.

(** *** An example *)

(** Handler 1 refuses; the others, and matter.js, do nothing. *)
Definition refusingEnv : Env :=
  mkEnv (fun h _ => if Nat.eqb h 1 then Raise TypeError else mret Undefined) (fun _ _ _ => mret Undefined) (fun _ _ => Ok tt) 0.

Definition twoHandlers : World :=
  mkWorld {["DoorLock" := [("actuatorEnabled", Bool true)]; "OnOff" := [("onOff", Bool false)]]}
    [("off", 1%nat); ("OnOff.on", 2%nat)] [] true.


Lemma handled_once_witness :
  exists t, calls (fst (run (on refusingEnv) twoHandlers)) = Handled "OnOff.on" 2 :: t /\
    Forall (fun x => exists m', x = Inherited "OnOff" m') t.
Proof.
  assert (Hq : CallsQuiet refusingEnv) by (split; [intros h args; simpl; by destruct (Nat.eqb h 1)|done]).
  apply (handled_once refusingEnv "OnOff" "on" (fun _ => on refusingEnv) [] 2 twoHandlers Hq); try reflexivity.
  apply (list_elem_of_lookup_2 _ 0). reflexivity.
Defined.

(** ** Well-formed attributes *)

Definition between (lo hi : Z) (v : value) : Prop := exists n, v = Num n /\ lo <= n <= hi.

Definition modeIn (f : list (string * value)) (v : value) : option value :=
  List.find (fun m => bool_decide (optProp m "mode" = v)) (items (getField "supportedModes" f)).

Definition currentSupported (f : list (string * value)) : Prop := is_Some (modeIn f (getField "currentMode" f)).

(** The modes that the state of the vacuum cleaner is set with: 1 is an idle mode and 2
    one in which it moves. *)
Definition runModes (f : list (string * value)) : Prop :=
  (exists m, modeIn f (Num 1) = Some m /\ fst (runMode m) = "Docked") /\
  (exists m, modeIn f (Num 2) = Some m /\ fst (runMode m) = "Running").

Definition indexIn (l v : value) : Prop := forall vs, l = Arr vs -> between 0 (Z.of_nat (length vs) - 1) v.

(** What the attributes of the servers promise. *)
Definition shapes : list (string * (list (string * value) -> Prop)) :=
  [("FanControl", fun f => between 0 100 (getField "percentCurrent" f));
   ("TemperatureControl", fun f =>
      indexIn (getField "supportedTemperatureLevels" f) (getField "selectedTemperatureLevel" f) /\
      forall a b, getField "minTemperature" f = Num a -> getField "maxTemperature" f = Num b ->
        between a b (getField "temperatureSetpoint" f));
   ("MicrowaveOvenControl", fun f =>
      exists most watts, getField "maxCookTime" f = Num most /\ 30 <= most /\ between 0 most (getField "cookTime" f) /\
        getField "supportedWatts" f = Arr watts /\ watts <> [] /\ indexIn (Arr watts) (getField "selectedWattIndex" f));
   ("ValveConfigurationAndControl", fun f =>
      getField "currentState" f = getField "targetState" f /\ getField "currentLevel" f = getField "targetLevel" f);
   ("ClosureDimension", fun f =>
      forall n, getField "position" (fields (getField "currentState" f)) = Num n -> 0 <= n <= 10000);
   ("EnergyEvse", fun f =>
      getField "state" f = evseState "PluggedInCharging" -> getField "supplyState" f = supply "ChargingEnabled");
   ("RvcRunMode", fun f => currentSupported f /\ runModes f);
   ("RvcCleanMode", currentSupported); ("EnergyEvseMode", currentSupported); ("WaterHeaterMode", currentSupported);
   ("LaundryWasherMode", currentSupported); ("DishwasherMode", currentSupported); ("OvenMode", currentSupported);
   ("RefrigeratorAndTemperatureControlledCabinetMode", currentSupported); ("DeviceEnergyManagementMode", currentSupported)].

Definition shape (c : string) : list (string * value) -> Prop :=
  match List.find (fun s => bool_decide (fst s = c)) shapes with Some s => snd s | None => fun _ => True end.

(** The vacuum cleaner is running exactly in the modes in which it moves. *)
Definition rvcAgrees (w : World) : Prop :=
  "RvcRunMode" ∈ dom (servers w) -> "RvcOperationalState" ∈ dom (servers w) ->
  exists m, modeIn (attributes w "RvcRunMode") (attr w "RvcRunMode" "currentMode") = Some m /\
    (attr w "RvcOperationalState" "operationalState" = rvcState "Running" <-> fst (runMode m) = "Running").

(** An endpoint with the servers [D]. *)
Definition WellFormed (D : gset string) (w : World) : Prop :=
  dom (servers w) = D /\ (forall c, c ∈ D -> shape c (attributes w c)) /\ rvcAgrees w.

Definition updated (kvs f : list (string * value)) : list (string * value) :=
  foldl (fun f kv => setField (fst kv) (snd kv) f) f kvs.

Lemma attributes_set c kvs w : attributes (setAttrs c kvs w) c = updated kvs (attributes w c).
Proof. unfold attributes, setAttrs. simpl. by rewrite lookup_insert_eq. Qed.

Lemma attributes_set_ne c c' kvs w : c <> c' -> attributes (setAttrs c kvs w) c' = attributes w c'.
Proof. intros Hne. unfold attributes, setAttrs. simpl. by rewrite lookup_insert_ne. Qed.

Lemma dom_set c kvs w : c ∈ dom (servers w) -> dom (servers (setAttrs c kvs w)) = dom (servers w).
Proof. intros Hc. simpl. rewrite dom_insert_L. by apply subseteq_union_1_L, singleton_subseteq_l. Qed.

(** A write to one server, which is not one of the vacuum cleaner. *)
Lemma set_wellFormed D c kvs w :
  c ∈ D -> c <> "RvcRunMode" -> c <> "RvcOperationalState" ->
  (shape c (attributes w c) -> shape c (updated kvs (attributes w c))) -> WellFormed D w -> WellFormed D (setAttrs c kvs w).
Proof.
  intros Hc H1 H2 Hs (Hd & Hw & Hr). split_and!.
  - rewrite dom_set; [done|by rewrite Hd].
  - intros c' Hc'. destruct (decide (c = c')) as [<-|Hne].
    + rewrite attributes_set. by apply Hs, Hw.
    + rewrite attributes_set_ne by done. by apply Hw.
  - unfold rvcAgrees, attr. rewrite dom_set by (by rewrite Hd). by rewrite !attributes_set_ne by done.
Qed.

(** Looks up attributes that have been written. *)
Ltac attributing :=
  unfold updated in *; cbn [foldl fst snd app map] in *;
  repeat (rewrite getField_setField in * || rewrite getField_setField_ne in * by done).

Section Commands.
Context (env : Env) (D : gset string).

(** Plugins and matter.js keep the attributes well formed. *)
Definition KeepsShape : Prop :=
  (forall h args, keeps (WellFormed D) (handle env h args)) /\ (forall c m r, keeps (WellFormed D) (matterjs env c m r)).

Context (Hkeep : KeepsShape).
#[local] Abbreviation I := (fun (_ : list unit) w => WellFormed D w).

Lemma keeps_free {A} (m : async World A) : keeps (WellFormed D) m -> free I m.
Proof.
  intros Hm rho w. revert w Hm. induction m as [a|e|k IH|f m IH|m IH]; intros w Hm; cbn in *; auto.
  - intros [s Hw]. by apply IH, Hm.
  - destruct Hm as [Hf Hm]. intros _. exists rho. split; [|by apply IH]. intros _. apply Hf.
Qed.

Lemma forward_free c m r : free I (forward env c m r).
Proof.
  unfold forward, executeHandler. freeing; [by apply free_modify|]. apply keeps_free, Hkeep.
Qed.

Lemma inherited_free c m r : free I (inherited env c m r).
Proof. unfold inherited. freeing; [by apply free_modify|]. apply keeps_free, Hkeep. Qed.

(** The shape of a server allows every value of these attributes. *)
Definition harmless (c : string) (kvs : list (string * value)) : Prop :=
  c <> "RvcRunMode" /\ c <> "RvcOperationalState" /\ forall f, shape c f -> shape c (updated kvs f).

Lemma set_free c kvs : c ∈ D -> harmless c kvs -> free I (modify (setAttrs c kvs)).
Proof. intros Hc (H1 & H2 & Hs). apply free_modify. intros _ w. apply set_wellFormed; auto. Qed.

Lemma setStateOf_free c kvs : harmless c kvs -> free I (setStateOf env c kvs).
Proof.
  intros Hs. unfold setStateOf. freeing. apply set_free; [|done].
  match goal with H : exists _, ok _ _ _ |- _ => destruct H as (_ & _ & <- & _) end. by apply elem_of_dom_2 in Heqo.
Qed.

(** Writes that depend on the attributes they change. *)
Lemma change_free c (kvs : World -> list (string * value)) :
  c ∈ D -> c <> "RvcRunMode" -> c <> "RvcOperationalState" ->
  (forall w, shape c (attributes w c) -> shape c (updated (kvs w) (attributes w c))) ->
  free I (modify (fun w => setAttrs c (kvs w) w)).
Proof. intros Hc H1 H2 Hs. apply free_modify. intros _ w. apply set_wellFormed; auto. Qed.

Create HintDb serving.
#[local] Hint Resolve forward_free inherited_free setStateOf_free : serving.

(** A command whose code passes its request on and then leaves alone what shapes speak
    of. *)
#[local] Ltac serving :=
  freeing; auto with serving;
  try (apply set_free; [done|]); try apply setStateOf_free; try (split_and!; by intros).

Lemma stepped_between request v : between 0 100 v -> between 0 100 (stepped request v).
Proof.
  intros (n & -> & Hn). unfold stepped, between. assert (0 <= lowest request <= 10) by (unfold lowest; destruct (truthy _); lia).
  repeat case_match; simpl; eexists; (split; [done|lia]).
Qed.

Lemma FanControl_step_free request : "FanControl" ∈ D -> free I (FanControl_step env request).
Proof.
  intros Hc. unfold FanControl_step. serving. apply change_free; [done..|]. intros w. unfold shape. simpl. intros Hs. attributing.
  by apply stepped_between.
Qed.

Lemma valve_free request :
  "ValveConfigurationAndControl" ∈ D -> free I (open env request) /\ free I (close env).
Proof.
  intros Hc. split.
  - unfold open, opened. serving. apply change_free; [done..|]. intros w _. unfold shape. simpl. case_bool_decide; by attributing.
  - unfold close. serving. split_and!; [done..|]. intros f _. unfold shape. simpl. by attributing.
Qed.

Lemma closure_free request : "ClosureDimension" ∈ D -> free I (setTarget env request) /\ free I (ClosureDimension_step env request).
Proof.
  intros Hc. split.
  - unfold setTarget. serving. apply change_free; [done..|]. intros w. unfold shape. simpl. intros Hs. by attributing.
  - unfold ClosureDimension_step. serving. apply change_free; [done..|]. intros w. unfold shape. simpl. intros _. attributing.
    cbn [fields]. attributing. intros n [= <-]. unfold dimensionStep, clamp. lia.
Qed.

Lemma evse_free request : "EnergyEvse" ∈ D -> free I (disable env) /\ free I (enableCharging env request).
Proof.
  intros Hc. split.
  - unfold disable. serving. apply change_free; [done..|]. intros w. unfold shape, replug, attr. simpl. intros Hs.
    case_bool_decide as H; attributing; [done|]. by intros ?%H.
  - unfold enableCharging. serving. apply change_free; [done..|]. intros w. unfold shape, replug. simpl. intros Hs.
    case_bool_decide; by attributing.
Qed.

(** A mode that is supported may become the current one. *)
Lemma modeIn_updated v u f : modeIn (updated [("currentMode", v)] f) u = modeIn f u.
Proof. unfold modeIn. by attributing. Qed.

Lemma applyMode_free r c v :
  c ∈ D -> c <> "RvcRunMode" -> c <> "RvcOperationalState" -> shape c = currentSupported -> free I (applyMode r c v).
Proof.
  intros Hc H1 H2 Hs rho w. unfold applyMode. owning. destruct (supportedMode w c v) as [m|] eqn:E; owning; [|done].
  apply (wp_modify _ rho); [|done]. intros _ Hw. apply set_wellFormed; try done. rewrite Hs. intros _.
  unfold currentSupported. rewrite modeIn_updated. attributing. by exists m.
Qed.

Lemma energyMode_free v : "DeviceEnergyManagementMode" ∈ D -> free I (DeviceEnergyManagementMode_changeToMode env v).
Proof.
  intros Hc. unfold DeviceEnergyManagementMode_changeToMode. apply free_bind; [auto with serving|]. intros _ rho w.
  owning. destruct (supportedMode w _ v) as [m|] eqn:E; owning; [|done].
  apply (wp_modify _ rho).
  - intros _ Hw. apply set_wellFormed; try done. intros _.
    change (currentSupported (updated [("currentMode", v)] (attributes w "DeviceEnergyManagementMode"))).
    unfold currentSupported. rewrite modeIn_updated. attributing. by exists m.
  - intros _. apply free_bind; [|auto with serving]. serving.
Qed.

Lemma le_true v u : le v u = true -> exists a b, v = Num a /\ u = Num b /\ a <= b.
Proof. destruct v, u; simpl; try done. intros H%Z.leb_le. eauto. Qed.

Lemma lt_true v u : lt v u = true -> exists a b, v = Num a /\ u = Num b /\ a < b.
Proof. destruct v, u; simpl; try done. intros H%Z.ltb_lt. eauto. Qed.

Lemma temperature_free request :
  "TemperatureControl" ∈ D -> free I (Level_setTemperature env request) /\ free I (Number_setTemperature env request).
Proof.
  intros Hc. split.
  - unfold Level_setTemperature. apply free_bind; [auto with serving|]. intros _ rho w. owning. case_match eqn:E; owning; [|done].
    apply andb_prop in E as [[_ H1]%andb_prop H2]. apply le_true in H1 as (a & b & [= <-] & Hl & H1).
    rewrite Hl in *. simpl in H2. apply Z.ltb_lt in H2. apply (wp_modify _ rho); [|by owning]. intros _ Hw.
    apply set_wellFormed; try done. unfold shape, attr in *. simpl. intros [_ Hn]. split; attributing; [|done].
    intros vs Hvs. rewrite Hvs in H2. simpl in H2. exists b. split; [done|lia].
  - unfold Number_setTemperature. apply free_bind; [auto with serving|]. intros _ rho w. owning. case_match eqn:E; owning; [|done].
    apply andb_prop in E as [[_ H1]%andb_prop H2]. apply le_true in H1 as (a & t & Ha & Ht & H1). apply le_true in H2 as (t' & b & Ht' & Hb & H2).
    rewrite Ht in *. injection Ht' as <-. apply (wp_modify _ rho); [|by owning]. intros _ Hw.
    apply set_wellFormed; try done. unfold shape, attr in *. simpl. intros [Hl _]. split; attributing; [done|].
    intros a' b' Ha' Hb'. exists t. split; [done|]. rewrite Ha in Ha'. rewrite Hb in Hb'. simplify_eq. lia.
Qed.

Lemma cookTimeOf_between request w most :
  attr w "MicrowaveOvenControl" "maxCookTime" = Num most -> 30 <= most -> between 0 most (cookTimeOf request w).
Proof.
  intros Hm H30. unfold cookTimeOf. case_match eqn:E; [|exists 30; split; [done|lia]].
  apply andb_prop in E as [[_ H1]%andb_prop H2]. apply le_true in H1 as (a & t & [= <-] & Ht & H1).
  apply le_true in H2 as (t' & b & Ht' & Hb & H2). exists t. split; [done|]. rewrite Ht in Ht'. rewrite Hm in Hb. simplify_eq. lia.
Qed.

Lemma wattIndexOf_in request w watts :
  attr w "MicrowaveOvenControl" "supportedWatts" = Arr watts -> watts <> [] -> indexIn (Arr watts) (wattIndexOf request w).
Proof.
  intros Hw Hne vs [= <-]. unfold wattIndexOf. rewrite Hw. cbn [items]. case_match eqn:E.
  - apply andb_prop in E as [[_ H1]%andb_prop H2]. apply le_true in H1 as (a & i & [= <-] & Hi & H1).
    apply lt_true in H2 as (i' & b & Hi' & [= <-] & H2). exists i. split; [done|]. rewrite Hi in Hi'. simplify_eq. lia.
  - exists (Z.of_nat (length watts) - 1). split; [done|]. destruct watts; [done|]. simpl. lia.
Qed.

Lemma microwave_free request :
  "MicrowaveOvenControl" ∈ D -> free I (setCookingParameters env request) /\ free I (addMoreTime env request).
Proof.
  intros Hc. split.
  - unfold setCookingParameters. serving. apply change_free; [done..|]. intros u. unfold shape. simpl.
    intros (most & watts & Hm & H30 & _ & Hw & Hne & _). exists most, watts. attributing. split_and!; try done.
    + by apply cookTimeOf_between.
    + by apply wattIndexOf_in.
  - unfold addMoreTime. apply free_bind; [auto with serving|]. intros _ rho w. owning.
    destruct (getField "timeToAdd" request) as [| | |t| | |] eqn:Et; owning; try done.
    destruct (attr w "MicrowaveOvenControl" "cookTime") as [| | |n| | |] eqn:En; owning; try done.
    destruct (_ && _) eqn:E; owning; [|done]. apply andb_prop in E as [H0 H1]. apply Z.ltb_lt in H0.
    apply (wp_modify _ rho); [|by owning]. intros _ Hf. apply set_wellFormed; try done. unfold shape, attr in *. simpl.
    intros (most & watts & Hm & H30 & (n' & Hn' & Hb) & Hw). exists most, watts. attributing. rewrite Hm in H1. apply Z.leb_le in H1.
    rewrite En in Hn'. simplify_eq. split_and!; try done; try apply Hw. exists (n' + t). split; [done|lia].
Qed.

(** *** The vacuum cleaner *)

(** A mode and a state that agree may be set together. *)
Lemma rvc_wellFormed v m kvs w :
  "RvcRunMode" ∈ D -> "RvcOperationalState" ∈ D -> WellFormed D w ->
  modeIn (attributes w "RvcRunMode") v = Some m ->
  (getField "operationalState" (updated kvs (attributes w "RvcOperationalState")) = rvcState "Running" <-> fst (runMode m) = "Running") ->
  WellFormed D (setAttrs "RvcOperationalState" kvs (setAttrs "RvcRunMode" [("currentMode", v)] w)).
Proof.
  intros H1 H2 (Hd & Hs & Hr) Hv Hst.
  assert (Hd' : dom (servers (setAttrs "RvcRunMode" [("currentMode", v)] w)) = D) by (rewrite dom_set; [done|by rewrite Hd]).
  split_and!.
  - rewrite dom_set; [done|by rewrite Hd'].
  - intros c Hc. destruct (decide (c = "RvcOperationalState")) as [->|Hc1]; [done|].
    rewrite attributes_set_ne by done. destruct (decide (c = "RvcRunMode")) as [->|Hc2]; [|rewrite attributes_set_ne by done; by apply Hs].
    rewrite attributes_set. destruct (Hs _ Hc) as [_ Hrun]. split; [|by unfold runModes; rewrite !modeIn_updated].
    unfold currentSupported. rewrite modeIn_updated. attributing. by exists m.
  - intros _ _. unfold attr. rewrite attributes_set, !attributes_set_ne, attributes_set, modeIn_updated by done.
    exists m. split; [by attributing|]. by rewrite attributes_set_ne by done.
Qed.

Lemma rvc_free v :
  "RvcRunMode" ∈ D -> "RvcOperationalState" ∈ D ->
  free I (RvcRunMode_changeToMode env v) /\ free I (Rvc_pause env) /\ free I (Rvc_resume env) /\ free I (Rvc_goHome env).
Proof.
  intros H1 H2. split_and!.
  - unfold RvcRunMode_changeToMode. apply free_bind; [auto with serving|]. intros _ rho w. owning.
    destruct (supportedMode w _ v) as [m|] eqn:E; owning; [|done]. destruct (runMode m) as [st text] eqn:Em. owning.
    apply (wp_modify _ rho); [|by owning]. intros _ Hw. apply (rvc_wellFormed v m); try done. attributing. rewrite Em. simpl.
    revert Em. unfold runMode. repeat case_match; intros [= <- <-]; done.
  - unfold Rvc_pause, rvcOperate. serving. apply free_modify. intros _ w Hw.
    pose proof Hw as (_ & Hs & _). destruct (Hs _ H1) as (_ & (m & Hm & Hd) & _). apply (rvc_wellFormed _ m); try done. rewrite Hd. unfold operational. attributing. by split.
  - unfold Rvc_resume, rvcOperate. serving. apply free_modify. intros _ w Hw.
    pose proof Hw as (_ & Hs & _). destruct (Hs _ H1) as (_ & _ & m & Hm & Hd). apply (rvc_wellFormed _ m); try done. rewrite Hd. unfold operational. attributing. by split.
  - unfold Rvc_goHome, rvcOperate. serving. apply free_modify. intros _ w Hw.
    pose proof Hw as (_ & Hs & _). destruct (Hs _ H1) as (_ & (m & Hm & Hd) & _). apply (rvc_wellFormed _ m); try done. rewrite Hd. unfold operational. attributing. by split.
Qed.

(** The endpoint has the server of a command; the two servers of the vacuum cleaner
    come together. *)
Definition has (c : string) : Prop :=
  c ∈ D /\ ("RvcRunMode" ∈ D <-> "RvcOperationalState" ∈ D).

Definition serves (e : string * string * (list (string * value) -> async World value)) : Prop :=
  let '(c, _, f) := e in has c -> forall request, free I (f request).

Lemma forwarding_free c m r : free I (forwarding env c m r).
Proof. unfold forwarding. serving. Qed.

Lemma answering_free c m r : free I (answering env c m r).
Proof. unfold answering. serving. Qed.

Lemma reporting_free c m r : free I (reporting env c m r).
Proof. unfold reporting. serving. Qed.

Lemma actuated_free c m r : free I (actuated env c m r).
Proof. unfold actuated. freeing. apply forwarding_free. Qed.

Lemma playback_free m s : "MediaPlayback" ∈ D -> free I (playback env m s).
Proof. intros Hc. unfold playback. serving. Qed.

Lemma operate_free m s : "OperationalState" ∈ D -> free I (operate env m s).
Proof. intros Hc. unfold operate. serving. Qed.

Lemma mode_free r c v : shape c = currentSupported ->
  c <> "RvcRunMode" -> c <> "RvcOperationalState" -> c ∈ D ->
  free I (_ ← forward env c "changeToMode" (modeRequest v); applyMode r c v).
Proof. intros. apply free_bind; [auto with serving|]. intros _. by apply applyMode_free. Qed.

Lemma other_free request :
  (free I (getUser env request) /\ free I (skip env "skipForward" request) /\ free I (skip env "skipBackward" request) /\
   free I (sendKey env request)) /\
  ("HepaFilterMonitoring" ∈ D -> free I (Hepa_resetCondition env)) /\
  ("ActivatedCarbonFilterMonitoring" ∈ D -> free I (ActivatedCarbon_resetCondition env)) /\
  ("ClosureControl" ∈ D -> free I (moveTo env request) /\ free I (ClosureControl_stop env)) /\
  ("WaterHeaterManagement" ∈ D -> free I (boost env request) /\ free I (cancelBoost env)).
Proof.
  unfold getUser, skip, sendKey, Hepa_resetCondition, ActivatedCarbon_resetCondition, resetCondition, moveTo, ClosureControl_stop,
    boost, cancelBoost, boosting.
  split_and!; intros; split_and?; serving. by apply change_free.
Qed.

(** Proves that a command of the table serves, by its code. *)
#[local] Ltac commanding :=
  lazymatch goal with
  | |- free _ (forwarding _ _ _ _) => apply forwarding_free
  | |- free _ (answering _ _ _ _) => apply answering_free
  | |- free _ (reporting _ _ _ _) => apply reporting_free
  | |- free _ (actuated _ _ _ _) => apply actuated_free
  | |- free _ (playback _ _ _) => by apply playback_free
  | |- free _ (operate _ _ _) => by apply operate_free
  | |- free _ (FanControl_step _ _) => by apply FanControl_step_free
  | |- free _ (open _ _) => refine (proj1 (valve_free _ _)); assumption
  | |- free _ (close _) => refine (proj2 (valve_free [] _)); assumption
  | |- free _ (setTarget _ _) => refine (proj1 (closure_free _ _)); assumption
  | |- free _ (ClosureDimension_step _ _) => refine (proj2 (closure_free _ _)); assumption
  | |- free _ (disable _) => refine (proj1 (evse_free [] _)); assumption
  | |- free _ (enableCharging _ _) => refine (proj2 (evse_free _ _)); assumption
  | |- free _ (DeviceEnergyManagementMode_changeToMode _ _) => by apply energyMode_free
  | |- free _ (Level_setTemperature _ _) => refine (proj1 (temperature_free _ _)); assumption
  | |- free _ (Number_setTemperature _ _) => refine (proj2 (temperature_free _ _)); assumption
  | |- free _ (setCookingParameters _ _) => refine (proj1 (microwave_free _ _)); assumption
  | |- free _ (addMoreTime _ _) => refine (proj2 (microwave_free _ _)); assumption
  | |- free _ (RvcRunMode_changeToMode _ _) => refine (proj1 (rvc_free _ _ _)); tauto
  | |- free _ (Rvc_pause _) => refine (proj1 (proj2 (rvc_free Undefined _ _))); tauto
  | |- free _ (Rvc_resume _) => refine (proj1 (proj2 (proj2 (rvc_free Undefined _ _)))); tauto
  | |- free _ (Rvc_goHome _) => refine (proj2 (proj2 (proj2 (rvc_free Undefined _ _)))); tauto
  | |- free _ (mbind _ _) => by apply mode_free
  | |- free _ (applyMode _ _ _) => by apply applyMode_free
  | _ => idtac
  end.

Lemma commands_free : Forall serves (commands env).
Proof.
  unfold commands. repeat (apply Forall_cons; split); [..|constructor].
  all: intros [Hc Hrvc] request.
  all: unfold byMode, on, off, toggle, identify, triggerEffect, moveToLevel, moveToLevelWithOnOff, moveToHue, enhancedMoveToHue,
    moveToSaturation, moveToHueAndSaturation, enhancedMoveToHueAndSaturation, moveToColor, moveToColorTemperature, upOrOpen,
    downOrClose, stopMotion, goToLiftPercentage, goToTiltPercentage, lockDoor, unlockDoor, unlockWithTimeout, setUser, clearUser,
    setCredential, getCredentialStatus, clearCredential, selectAreas, setpointRaiseLower, setActivePresetRequest,
    ModeSelect_changeToMode, enableDisableAlarm, selfTestRequest, powerAdjustRequest, cancelPowerAdjustRequest,
    RvcCleanMode_changeToMode, EnergyEvseMode_changeToMode, WaterHeaterMode_changeToMode, LaundryWasherMode_changeToMode,
    DishwasherMode_changeToMode, OperationalState_pause, OperationalState_stop, OperationalState_start, OperationalState_resume,
    play, MediaPlayback_pause, MediaPlayback_stop, previous, next, skipForward, skipBackward; commanding.
  all: pose proof (other_free request) as (Hu & H1 & H2 & H3 & H4); tauto.
Qed.

Lemma localCommands_free : Forall serves localCommands.
Proof.
  unfold localCommands. repeat (apply Forall_cons; split); [..|constructor].
  all: intros [Hc Hrvc] request.
  all: unfold byMode, OvenMode_changeToMode, RefrigeratorMode_changeToMode, OvenCavity_stop, OvenCavity_start, OvenCavity_operate,
    setTargets, getTargets, clearTargets; try (by apply applyMode_free); serving.
Qed.
End Commands.

(** ** Steps *)

(** The speeds that wrapping steps visit. *)
Definition onCycle (request : list (string * value)) (n : Z) : Prop := exists k, n = 10 * k /\ lowest request <= n <= 100.

(** With wrapping, a step up is undone by a step down and a step down by a step up,
    on all speeds that are multiples of ten and not below the lowest one. *)
Theorem fan_steps_inverse (request : list (string * value)) (n : Z) :
  truthy (getField "wrap" request) = true -> onCycle request n ->
  let up := setField "direction" (enum "StepDirection" "Increase") request in
  let down := setField "direction" (enum "StepDirection" "Decrease") request in
  stepped down (stepped up (Num n)) = Num n /\ stepped up (stepped down (Num n)) = Num n.
Proof.
  intros Hwrap (k & -> & Hk) up down. unfold stepped, lowest, up, down in *.
  rewrite !getField_setField, !getField_setField_ne by done. rewrite Hwrap.
  rewrite (bool_decide_true (enum "StepDirection" "Increase" = enum "StepDirection" "Increase")) by done.
  rewrite (bool_decide_true (enum "StepDirection" "Decrease" = enum "StepDirection" "Decrease")) by done.
  rewrite (bool_decide_false (enum "StepDirection" "Decrease" = enum "StepDirection" "Increase")) by done.
  cbn [andb]. destruct (truthy (getField "lowestOff" request)).
  - assert (Hin : List.In k [0; 1; 2; 3; 4; 5; 6; 7; 8; 9; 10]) by (simpl; lia). simpl in Hin.
    repeat (destruct Hin as [<-|Hin]; [by vm_compute|]). done.
  - assert (Hin : List.In k [1; 2; 3; 4; 5; 6; 7; 8; 9; 10]) by (simpl; lia). simpl in Hin.
    repeat (destruct Hin as [<-|Hin]; [by vm_compute|]). done.
Qed.

Lemma fan_steps_inverse_witness :
  let request := [("wrap", Bool true); ("lowestOff", Bool false)] in
  stepped (setField "direction" (enum "StepDirection" "Decrease") request)
    (stepped (setField "direction" (enum "StepDirection" "Increase") request) (Num 100)) = Num 100.
Proof.
  intros request. apply (fan_steps_inverse request 100); [reflexivity|]. exists 10. split; [reflexivity|]. vm_compute. by split.
Defined.

(** The position of a panel. *)
Definition panelPosition (w : World) : value := getField "position" (fields (attr w "ClosureDimension" "currentState")).

Definition panelStep (direction : value) (n : Z) : list (string * value) := [("direction", direction); ("numberOfSteps", Num n)].

Lemma panel_run env direction n w :
  chosen "ClosureDimension.step" (handler w) = None ->
  exists w', run (ClosureDimension_step env (panelStep direction n)) w = (w', Ok Undefined) /\ handler w' = handler w /\
    attr w' "ClosureDimension" "stepValue" = attr w "ClosureDimension" "stepValue" /\
    panelPosition w' = Num (dimensionStep (panelStep direction n) (numOf (attr w "ClosureDimension" "stepValue") * n)
      (fields (attr w "ClosureDimension" "currentState")) (fields (attr w "ClosureDimension" "targetState"))).
Proof.
  intros Hc. unfold ClosureDimension_step, forward, executeHandler. running.
  change ("ClosureDimension" ++ "." ++ "step") with "ClosureDimension.step". rewrite Hc. running.
  eexists. split; [done|]. split; [done|]. unfold panelPosition, attr. rewrite !attributes_set. attributing. split; [done|].
  cbn [fields]. by attributing.
Qed.

(** Without a handler, steps of a panel in one direction add up, also when they end
    at a limit: [a] steps followed by [b] steps lead where [a + b] steps lead. *)
Theorem panel_steps_add (env : Env) (direction : value) (a b size : Z) (w : World) :
  chosen "ClosureDimension.step" (handler w) = None -> 0 <= a -> 0 <= b -> 0 <= size ->
  attr w "ClosureDimension" "stepValue" = Num size ->
  0 <= positionOf (fields (attr w "ClosureDimension" "currentState")) (fields (attr w "ClosureDimension" "targetState")) <= 10000 ->
  panelPosition (fst (run (_ ← ClosureDimension_step env (panelStep direction a); ClosureDimension_step env (panelStep direction b)) w)) =
  panelPosition (fst (run (ClosureDimension_step env (panelStep direction (a + b))) w)).
Proof.
  intros Hc Ha Hb Hs Hv Hpos. destruct (panel_run env direction a w Hc) as (w1 & Hr1 & Hh1 & Hv1 & Hp1).
  destruct (panel_run env direction b w1) as (w2 & Hr2 & _ & _ & Hp2); [by rewrite Hh1|].
  destruct (panel_run env direction (a + b) w Hc) as (w3 & Hr3 & _ & _ & Hp3).
  rewrite run_bind, Hr1, Hr2, Hr3. simpl. rewrite Hp2, Hp3, Hv1, Hv. f_equal. cbn [numOf].
  unfold dimensionStep at 1. unfold positionOf. unfold panelPosition in Hp1. rewrite Hp1, Hv. cbn [numOf].
  unfold dimensionStep, clamp. revert Hpos. generalize (positionOf (fields (attr w "ClosureDimension" "currentState"))
    (fields (attr w "ClosureDimension" "targetState"))). intros p Hpos. unfold panelStep, getField. simpl.
  assert (0 <= size * a /\ 0 <= size * b) by nia. rewrite Z.mul_add_distr_l. case_bool_decide; lia.
Qed.

Lemma panel_steps_add_witness :
  let w := mkWorld {["ClosureDimension" := [("currentState", Null); ("targetState", Null); ("stepValue", Num 3000)]]} [] [] true in
  panelPosition (fst (run (_ ← ClosureDimension_step refusingEnv (panelStep (enum "StepDirection" "Increase") 1);
                           ClosureDimension_step refusingEnv (panelStep (enum "StepDirection" "Increase") 4)) w)) = Num 10000.
Proof.
  intros w. rewrite (panel_steps_add refusingEnv (enum "StepDirection" "Increase") 1 4 3000 w); [|reflexivity|lia..|reflexivity|by vm_compute].
  by vm_compute.
Defined.
