(* ===== verification/Endpoint.v ===== *)
(** The attributes of an endpoint as plugins and devices use them: the helpers of
    [packages/core/src/matterbridgeEndpointHelpers.ts], and the methods of
    [packages/core/src/matterbridgeEndpoint.ts] and [packages/core/src/devices/speaker.ts]
    that are built on them. *)
From S2P Require Import Prelude JsValue Validate Async Ownership Deep Behaviors.
From stdpp Require Import gmap strings.
#[local] Open Scope string_scope.
#[local] Open Scope Z_scope.
Import Behaviors Validate.

Module Endpoint.
Abbreviation object := (list (string * value)) (only parsing).

(** ** Clusters *)

Definition capitalizeFirstLetter (s : string) : string :=
  match s with
  | EmptyString => EmptyString
  | String a s =>
      let n := Ascii.N_of_ascii a in
      String (if (97 <=? n)%N && (n <=? 122)%N then Ascii.ascii_of_N (n - 32)%N else a) s
  end.

(** The ways to name a cluster: a string, an id (given by the name [getClusterNameById]
    finds for it), a cluster object or a class of servers (given by its id). *)
Inductive Cluster :=
  | ByName (s : string)
  | ById (name : string)
  | ByType (name : string)
  | ByBehavior (id : string).

(** [endpoint.behaviors.supported[id]]: the servers are listed by the names of clusters. *)
Definition supported (w : World) (id : string) : option object := servers w !! capitalizeFirstLetter id.

(** [getBehavior(endpoint, cluster)?.id]. A class is taken as it is, supported or not. *)
Definition getBehavior (w : World) (cluster : Cluster) : option string :=
  match cluster with
  | ByName s | ById s | ByType s =>
      match supported w (lowercaseFirstLetter s) with Some _ => Some (lowercaseFirstLetter s) | None => None end
  | ByBehavior id => Some id
  end.

Definition hasClusterServer (w : World) (cluster : Cluster) : bool :=
  match getBehavior w cluster with
  | Some id => match supported w id with Some _ => true | None => false end
  | None => false
  end.

Definition hasKey (k : string) (f : object) : bool := existsb (fun kv => bool_decide (fst kv = k)) f.

(** What a server was given and what it defines by default are the attributes it has. *)
Definition hasAttributeServer (w : World) (cluster : Cluster) (attribute : string) : bool :=
  match getBehavior w cluster with
  | Some id => match supported w id with Some f => hasKey (lowercaseFirstLetter attribute) f | None => false end
  | None => false
  end.

Definition featuresFor (w : World) (cluster : Cluster) : value :=
  match getBehavior w cluster with
  | Some id => match supported w id with Some f => getField "featureMap" f | None => Obj [] end
  | None => Obj []
  end.

(** [endpoint.behaviors.require(server, attributes)], which leaves a server that is there. *)
Definition require (c : string) (attributes : object) (w : World) : World :=
  match servers w !! c with
  | Some _ => w
  | None => mkWorld (<[c := attributes]> (servers w)) (handler w) (calls w) (active w)
  end.

(** ** Attributes *)

(** [attribute in state[clusterName]], which fails if there is no such state. *)
Definition attributeIn (w : World) (id attribute : string) : res bool :=
  match supported w id with Some f => Ok (hasKey attribute f) | None => Throw TypeError end.

(** The checks that the functions share: the server, the endpoint, the attribute. *)
Definition locate (w : World) (cluster : Cluster) (attribute : string) : res (option (string * value)) :=
  match getBehavior w cluster with
  | None => Ok None
  | Some id =>
      if negb (active w) then Ok None
      else attributeIn w id (lowercaseFirstLetter attribute) ≫= fun b : bool =>
           Ok (if b then Some (id, attr w (capitalizeFirstLetter id) (lowercaseFirstLetter attribute)) else None)
  end.

(** A snapshot of data is the data. *)
Definition getAttribute (w : World) (cluster : Cluster) (attribute : string) : res value :=
  locate w cluster attribute ≫= fun found => Ok (match found with Some (_, v) => v | None => Undefined end).

Definition getCluster (w : World) (cluster : Cluster) : option object :=
  id ← getBehavior w cluster; if active w then supported w id else None.

Section Access.
Context (env : Env).

Definition setAttribute (cluster : Cluster) (attribute : string) (v : value) : async World bool :=
  w ← ask;
  found ← liftRes (locate w cluster attribute);
  match found with
  | Some (id, _) => _ ← await (setStateOf env (capitalizeFirstLetter id) [(lowercaseFirstLetter attribute, v)]); mret true
  | None => mret false
  end.

(** [oldValue === value] for values that are not objects; [typeof null] is object. *)
Definition unchanged (oldValue v : value) : bool :=
  match oldValue with Null | Arr _ | Obj _ => Deep.equal oldValue v | _ => bool_decide (oldValue = v) end.

Definition updateAttribute (cluster : Cluster) (attribute : string) (v : value) : async World bool :=
  w ← ask;
  found ← liftRes (locate w cluster attribute);
  match found with
  | Some (id, oldValue) =>
      if unchanged oldValue v then mret false
      else _ ← await (setStateOf env (capitalizeFirstLetter id) [(lowercaseFirstLetter attribute, v)]); mret true
  | None => mret false
  end.

Definition setCluster (cluster : Cluster) (kvs : object) : async World bool :=
  w ← ask;
  match getBehavior w cluster with
  | Some id =>
      if negb (active w) then mret false
      else _ ← await (setStateOf env (capitalizeFirstLetter id) kvs); mret true
  | None => mret false
  end.

(** [events] are those of a server. They are emitted by [endpoint.act], which is awaited. *)
Definition triggerEvent (events : string -> list string) (cluster : Cluster) (event : string) (payload : object) : async World bool :=
  w ← ask;
  match getBehavior w cluster with
  | None => mret false
  | Some id =>
      if negb (active w) then mret false
      else match supported w id with
           | Some _ =>
               if bool_decide (event ∈ events (capitalizeFirstLetter id)) then
                 _ ← modify (addCall (Emitted (capitalizeFirstLetter id) event (Obj payload)));
                 _ ← await (mret tt); mret true
               else mret false
           | None => mret false
           end
  end.

(** ** Labels *)

Definition labelEntry (label v : string) : value := Obj [("label", Str (strTake 16 label)); ("value", Str (strTake 16 v))].

Definition addLabel (c label v : string) : async World unit :=
  w ← ask;
  if negb (hasClusterServer w (ById c)) then modify (require c [("labelList", Arr [labelEntry label v])])
  else
    labelList ← liftRes (getAttribute w (ById c) "labelList");
    match labelList with
    | Arr l =>
        let l := List.filter (fun e => negb (bool_decide (optProp e "label" = Str (strTake 16 label)))) l in
        _ ← await (setAttribute (ById c) "labelList" (Arr (l ++ [labelEntry label v])%list)); mret tt
    | _ => mret tt
    end.

Definition addFixedLabel : string -> string -> async World unit := addLabel "FixedLabel".
Definition addUserLabel : string -> string -> async World unit := addLabel "UserLabel".

(** ** Colors and window coverings *)

Definition configureColorControlMode (colorMode : value) : async World unit :=
  if isValidNumber colorMode (Some 0) (Some 2) then
    _ ← await (setAttribute (ById "ColorControl") "colorMode" colorMode);
    _ ← await (setAttribute (ById "ColorControl") "enhancedColorMode" colorMode);
    mret tt
  else mret tt.

(** The enhanced mode 3 is the mode 0 with an enhanced hue. *)
Definition configureEnhancedColorControlMode (colorMode : value) : async World unit :=
  if isValidNumber colorMode (Some 0) (Some 3) then
    _ ← await (setAttribute (ById "ColorControl") "colorMode" (if bool_decide (colorMode = Num 3) then Num 0 else colorMode));
    _ ← await (setAttribute (ById "ColorControl") "enhancedColorMode" colorMode);
    mret tt
  else mret tt.

Definition covering : Cluster := ByType "WindowCovering".

(** The status of a covering; 0 is stopped. *)
Definition movement (status : value) : value := Obj [("global", status); ("lift", status); ("tilt", status)].

Definition setWindowCoveringTargetAsCurrentAndStopped : async World unit :=
  w ← ask;
  position ← liftRes (getAttribute w covering "currentPositionLiftPercent100ths");
  _ ← (if isValidNumber position (Some 0) (Some 10000) then
         _ ← await (setAttribute covering "targetPositionLiftPercent100ths" position);
         _ ← await (setAttribute covering "operationalStatus" (movement (Num 0)));
         mret tt
       else mret tt);
  w ← ask;
  if hasAttributeServer w covering "currentPositionTiltPercent100ths" then
    position ← liftRes (getAttribute w covering "currentPositionTiltPercent100ths");
    if isValidNumber position (Some 0) (Some 10000) then
      _ ← await (setAttribute covering "targetPositionTiltPercent100ths" position); mret tt
    else mret tt
  else mret tt.

Definition setWindowCoveringCurrentTargetStatus (current target status : value) : async World unit :=
  _ ← await (setAttribute covering "currentPositionLiftPercent100ths" current);
  _ ← await (setAttribute covering "targetPositionLiftPercent100ths" target);
  _ ← await (setAttribute covering "operationalStatus" (movement status));
  mret tt.

Definition setWindowCoveringStatus (status : value) : async World unit :=
  _ ← await (setAttribute covering "operationalStatus" (movement status)); mret tt.

Definition getWindowCoveringStatus (w : World) : res value :=
  getAttribute w covering "operationalStatus" ≫= fun status =>
  Ok (if isValidObject status (Some 3) None && hasProp status "global" && isNumber (optProp status "global")
      then optProp status "global" else Undefined).

Definition setWindowCoveringTargetAndCurrentPosition (liftPosition tiltPosition : value) : async World unit :=
  _ ← await (setAttribute covering "currentPositionLiftPercent100ths" liftPosition);
  _ ← await (setAttribute covering "targetPositionLiftPercent100ths" liftPosition);
  w ← ask;
  if truthy tiltPosition && hasAttributeServer w covering "currentPositionTiltPercent100ths" then
    _ ← await (setAttribute covering "currentPositionTiltPercent100ths" tiltPosition);
    _ ← await (setAttribute covering "targetPositionTiltPercent100ths" tiltPosition);
    mret tt
  else mret tt.

(** ** Switches *)

Section Events.
Context (events : string -> list string).

Definition switch : Cluster := ById "Switch".
Definition setPosition (n : Z) : async World unit := _ ← await (setAttribute switch "currentPosition" (Num n)); mret tt.
Definition press (event : string) (payload : object) : async World unit :=
  _ ← await (triggerEvent events switch event payload); mret tt.
Definition newPosition (n : Z) : string * value := ("newPosition", Num n).
Definition previousPosition : string * value := ("previousPosition", Num 1).

Definition singlePress : async World unit :=
  _ ← setPosition 1; _ ← press "initialPress" [newPosition 1]; _ ← setPosition 0;
  w ← ask;
  if truthy (optProp (featuresFor w (ByName "Switch")) "momentarySwitchRelease") then
    _ ← press "shortRelease" [previousPosition]; _ ← setPosition 0;
    press "multiPressComplete" [previousPosition; ("totalNumberOfPressesCounted", Num 1)]
  else mret tt.

Definition doublePress : async World unit :=
  _ ← setPosition 1; _ ← press "initialPress" [newPosition 1]; _ ← setPosition 0; _ ← press "shortRelease" [previousPosition];
  _ ← setPosition 1; _ ← press "initialPress" [newPosition 1];
  _ ← press "multiPressOngoing" [newPosition 1; ("currentNumberOfPressesCounted", Num 2)];
  _ ← setPosition 0; _ ← press "shortRelease" [previousPosition];
  press "multiPressComplete" [previousPosition; ("totalNumberOfPressesCounted", Num 2)].

Definition longPress : async World unit :=
  _ ← setPosition 1; _ ← press "initialPress" [newPosition 1]; _ ← press "longPress" [newPosition 1]; _ ← setPosition 0;
  press "longRelease" [previousPosition].

(** [!this.hasClusterServer(Switch.id) || !this.getAttribute(Switch.id, 'featureMap')[feature]]. *)
Definition hasFeature (w : World) (feature : string) : res bool :=
  if negb (hasClusterServer w switch) then Ok false
  else featureMap ← getAttribute w switch "featureMap"; v ← getProp featureMap feature; Ok (truthy v).

Inductive SwitchEvent := Single | Double | Long | Press | Release.

Definition triggerSwitchEvent (maybeNumber : option Z) (event : SwitchEvent) : async World bool :=
  match maybeNumber with
  | None => mret false
  | Some _ =>
      w ← ask;
      let feature := match event with Single | Double | Long => "momentarySwitch" | Press | Release => "latchingSwitch" end in
      liftRes (hasFeature w feature) ≫= fun b : bool =>
      if negb b then mret false
      else
        _ ← match event with
            | Single => singlePress
            | Double => doublePress
            | Long => longPress
            | Press => _ ← setPosition 1; press "switchLatched" [newPosition 1]
            | Release => _ ← setPosition 0; press "switchLatched" [newPosition 0]
            end;
        mret true
  end.
End Events.

(** ** The speaker *)

(** [None] is a number that is not finite. *)
Definition coerced (level : Z) : Z :=
  let level := if level <? 1 then 1 else level in
  if 254 <? level then 254 else level.
Definition initialVolume (volume : option Z) : Z := coerced (default 128 volume).

Definition setVolume (level : option Z) : async World unit :=
  match level with
  | None => mret tt
  | Some n => _ ← await (setAttribute (ByType "LevelControl") "currentLevel" (Num (coerced n))); mret tt
  end.
Definition getVolume (w : World) : res value := getAttribute w (ByType "LevelControl") "currentLevel".
Definition setMuted (muted : bool) : async World unit :=
  _ ← await (setAttribute (ById "OnOff") "onOff" (Bool (negb muted))); mret tt.
Definition isMuted (w : World) : res bool := v ← getAttribute w (ById "OnOff") "onOff"; Ok (negb (truthy v)).
End Access.
End Endpoint.
