(* ===== verification/EndpointFacts.v ===== *)
(** What the helpers for attributes, labels, switches and window coverings do. *)
From S2P Require Import Prelude JsValue Validate Async Ownership Deep Behaviors BehaviorFacts Endpoint.
From stdpp Require Import gmap strings.
#[local] Open Scope string_scope.
#[local] Open Scope Z_scope.
Import Behaviors Validate Endpoint.

(** ** Attributes *)

Lemma run_setStateOf env c kvs w :
  run (setStateOf env c kvs) w =
  match accept env c kvs with
  | Throw e => (w, Throw e)
  | Ok _ => match servers w !! c with Some _ => (setAttrs c kvs w, Ok tt) | None => (w, Throw (Error [])) end
  end.
Proof.
  unfold setStateOf. rewrite run_bind, run_await, run_liftRes. destruct (accept env c kvs); [|done].
  rewrite run_bind, run_ask. by destruct (servers w !! c).
Qed.

(** A server that is there, whose attribute is there, on an endpoint that is active. *)
Definition Located (w : World) (cluster : Cluster) (attribute c k : string) : Prop :=
  active w = true /\ k = lowercaseFirstLetter attribute /\
  exists id, getBehavior w cluster = Some id /\ c = capitalizeFirstLetter id /\ exists f, servers w !! c = Some f /\ hasKey k f = true.

Lemma locate_Located w cluster attribute c k :
  Located w cluster attribute c k -> exists id, locate w cluster attribute = Ok (Some (id, attr w c k)) /\ c = capitalizeFirstLetter id.
Proof.
  intros (Ha & -> & id & Hid & -> & f & Hf & Hk). exists id. split; [|done]. unfold locate. rewrite Hid, Ha. cbn [negb].
  unfold attributeIn, supported. by rewrite Hf, bind_Ok, Hk.
Qed.

Lemma hasKey_setField k k' v f : hasKey k (setField k' v f) = bool_decide (k = k') || hasKey k f.
Proof.
  induction f as [|[k0 v0] f IH]; cbn [setField hasKey existsb fst].
  - rewrite orb_false_r. by rewrite orb_false_r, (bool_decide_ext (k' = k) (k = k')) by (split; congruence).
  - destruct (decide (k' = k0)) as [<-|Hne].
    + rewrite (bool_decide_eq_true_2 (k' = k')) by done. cbn [existsb fst].
      rewrite (bool_decide_ext (k' = k) (k = k')) by (split; congruence). by destruct (bool_decide (k = k')).
    + rewrite (bool_decide_eq_false_2 (k' = k0)) by done. cbn [existsb fst]. unfold hasKey in IH. rewrite IH.
      by destruct (bool_decide (k0 = k)), (bool_decide (k = k')).
Qed.

Lemma getBehavior_set w c kvs cluster id :
  is_Some (servers w !! c) -> getBehavior w cluster = Some id -> getBehavior (setAttrs c kvs w) cluster = Some id.
Proof.
  intros [f Hf]. unfold getBehavior, supported. destruct cluster as [s|s|s|i]; try done;
    (destruct (decide (c = capitalizeFirstLetter (lowercaseFirstLetter s))) as [->|Hne];
      [simpl; rewrite lookup_insert_eq, Hf; done|simpl; by rewrite lookup_insert_ne]).
Qed.

Lemma Located_set w cluster attribute c k v :
  Located w cluster attribute c k -> Located (setAttrs c [(k, v)] w) cluster attribute c k /\ attr (setAttrs c [(k, v)] w) c k = v.
Proof.
  intros (Ha & -> & id & Hid & -> & f & Hf & Hk). split.
  - split; [done|]. split; [done|]. exists id. split; [apply getBehavior_set; [by eexists|done]|]. split; [done|].
    eexists. split; [simpl; by rewrite lookup_insert_eq|]. cbn [foldl fst snd]. by rewrite hasKey_setField, bool_decide_eq_true_2.
  - unfold attr. rewrite attributes_set. cbn [updated foldl fst snd]. apply getField_setField.
Qed.

Lemma attr_set_other w c k v c' k' : (c', k') <> (c, k) -> attr (setAttrs c [(k, v)] w) c' k' = attr w c' k'.
Proof.
  intros Hne. unfold attr. destruct (decide (c = c')) as [<-|Hc].
  - rewrite attributes_set. cbn [updated foldl fst snd]. apply getField_setField_ne. congruence.
  - by rewrite attributes_set_ne.
Qed.

Lemma run_setAttribute env cluster attribute v w c k :
  Located w cluster attribute c k ->
  run (setAttribute env cluster attribute v) w =
    match accept env c [(k, v)] with Ok _ => (setAttrs c [(k, v)] w, Ok true) | Throw e => (w, Throw e) end.
Proof.
  intros HL. pose proof HL as (_ & -> & _ & _ & _ & f & Hf & _). destruct (locate_Located _ _ _ _ _ HL) as (id & Hl & ->).
  unfold setAttribute. rewrite run_bind, run_ask, run_bind, Hl, run_liftRes, run_bind, run_await, run_setStateOf, Hf.
  by destruct (accept _ _ _).
Qed.

Lemma run_updateAttribute env cluster attribute v w c k :
  Located w cluster attribute c k ->
  run (updateAttribute env cluster attribute v) w =
    if unchanged (attr w c k) v then (w, Ok false)
    else match accept env c [(k, v)] with Ok _ => (setAttrs c [(k, v)] w, Ok true) | Throw e => (w, Throw e) end.
Proof.
  intros HL. pose proof HL as (_ & -> & _ & _ & _ & f & Hf & _). destruct (locate_Located _ _ _ _ _ HL) as (id & Hl & ->).
  unfold updateAttribute. rewrite run_bind, run_ask, run_bind, Hl, run_liftRes. destruct (unchanged _ v); [done|].
  rewrite run_bind, run_await, run_setStateOf, Hf. by destruct (accept _ _ _).
Qed.

Lemma unchanged_refl v : tidy v -> unchanged v v = true.
Proof. intros Hv. destruct v; cbn [unchanged]; try (by apply bool_decide_eq_true_2); by apply equal_refl. Qed.

(** An update of an attribute that exists settles it: a value that matter.js accepts
    and that differs from the present one is stored, and read back; no other attribute
    changes; and the same update once more finds nothing to do. A value that is refused
    changes nothing. *)
Theorem update_settles (env : Env) (cluster : Cluster) (attribute c k : string) (v : value) (w : World) :
  Located w cluster attribute c k -> tidy v ->
  let (w', r) := run (updateAttribute env cluster attribute v) w in
  (forall c' k', (c', k') <> (c, k) -> attr w' c' k' = attr w c' k') /\
  match r with
  | Throw e => w' = w /\ accept env c [(k, v)] = Throw e
  | Ok b => getAttribute w' cluster attribute = Ok (if b then v else attr w c k) /\ b = negb (unchanged (attr w c k) v) /\
            run (updateAttribute env cluster attribute v) w' = (w', Ok false)
  end.
Proof.
  intros HL Hv. rewrite (run_updateAttribute env cluster attribute v w c k HL).
  destruct (unchanged (attr w c k) v) eqn:E.
  - split; [done|]. split; [|split; [done|by rewrite (run_updateAttribute env cluster attribute v w c k HL), E]].
    unfold getAttribute. destruct (locate_Located _ _ _ _ _ HL) as (id & -> & _). done.
  - destruct (accept env c [(k, v)]) eqn:Ea; [|by split].
    destruct (Located_set w cluster attribute c k v HL) as [HL' Hattr].
    split; [intros c' k'; apply attr_set_other|]. split; [|split; [done|]].
    + unfold getAttribute. destruct (locate_Located _ _ _ _ _ HL') as (id & -> & _). by rewrite bind_Ok, Hattr.
    + rewrite (run_updateAttribute env cluster attribute v _ c k HL'), Hattr. by rewrite unchanged_refl.
Qed.

(** An endpoint with two attributes, whose values matter.js accepts unless they are null. *)
Definition strictEnv : Env :=
  mkEnv (fun _ _ => mret Undefined) (fun _ _ _ => mret Undefined)
    (fun _ kvs => if existsb (fun kv => bool_decide (snd kv = Null)) kvs then Throw TypeError else Ok tt) 0.
(** One that accepts everything. *)
Definition sampleLabels : Env := mkEnv (fun _ _ => mret Undefined) (fun _ _ _ => mret Undefined) (fun _ _ => Ok tt) 0.
Definition lamp : World := mkWorld {["OnOff" := [("onOff", Bool true); ("options", Obj [("a", Num 1); ("b", Num 2)])]]} [] [] true.

Lemma update_settles_witness :
  run (updateAttribute strictEnv (ById "OnOff") "options" (Obj [("b", Num 2); ("a", Num 1)])) lamp = (lamp, Ok false) /\
  getAttribute (fst (run (updateAttribute strictEnv (ById "OnOff") "OnOff" (Bool false)) lamp)) (ById "OnOff") "OnOff" = Ok (Bool false).
Proof.
  split; [by vm_compute|].
  assert (HL : Located lamp (ById "OnOff") "OnOff" "OnOff" "onOff")
    by (split; [done|]; split; [done|]; exists "onOff"; split; [by vm_compute|]; split; [done|]; eexists; split; by vm_compute).
  pose proof (update_settles strictEnv (ById "OnOff") "OnOff" "OnOff" "onOff" (Bool false) lamp HL I) as H.
  destruct (run (updateAttribute strictEnv (ById "OnOff") "OnOff" (Bool false)) lamp) as [w' r] eqn:E.
  assert (Hr : r = Ok true) by (change (snd (w', r) = Ok true); rewrite <- E; by vm_compute). subst r. apply H.
Defined.

(** ** Labels *)

Definition labelOf (e : value) : value := optProp e "label".

(** Entries of at most 16 characters, with distinct labels. *)
Definition LabelList (l : list value) : Prop :=
  NoDup (map labelOf l) /\
  Forall (fun e => exists label v, e = Obj [("label", Str label); ("value", Str v)] /\ (String.length label <= 16)%nat /\ (String.length v <= 16)%nat) l.

Lemma length_strTake n s : (String.length (strTake n s) <= n)%nat.
Proof.
  unfold strTake. revert n. induction s as [|a s IH]; intros [|n]; cbn; try lia. apply le_n_S, IH.
Qed.

Lemma labelOf_entry label v : labelOf (labelEntry label v) = Str (strTake 16 label).
Proof. done. Qed.

(** The list with a label added or replaced. *)
Definition relabel (label v : string) (l : list value) : list value :=
  (List.filter (fun e => negb (bool_decide (labelOf e = Str (strTake 16 label)))) l ++ [labelEntry label v])%list.

Lemma relabel_elem label v l e : e ∈ relabel label v l <-> e = labelEntry label v \/ (e ∈ l /\ labelOf e <> Str (strTake 16 label)).
Proof.
  unfold relabel. rewrite elem_of_app, list_elem_of_singleton, !list_elem_of_In, filter_In, negb_true_iff, bool_decide_eq_false. tauto.
Qed.

Lemma relabel_labels label v l : LabelList l -> LabelList (relabel label v l).
Proof.
  intros [Hnd HF]. split.
  - unfold relabel. rewrite map_app. apply NoDup_app. split_and!.
    + clear HF. induction l as [|e l IH]; [constructor|]. cbn [map] in Hnd. apply NoDup_cons in Hnd as [He Hnd]. cbn [List.filter].
      destruct (negb _); [|by apply IH]. cbn [map]. constructor; [|by apply IH]. intros Hin. apply He.
      apply list_elem_of_fmap_1 in Hin as (e' & -> & Hin). apply list_elem_of_In, filter_In in Hin as [Hin _].
      apply list_elem_of_fmap_2. by apply list_elem_of_In.
    + intros x Hx Hl. apply list_elem_of_singleton in Hl as ->. apply list_elem_of_fmap_1 in Hx as (e & He & Hin).
      apply list_elem_of_In, filter_In in Hin as [_ Hin]. by rewrite <- He, bool_decide_eq_true_2 in Hin.
    + cbn [map]. apply NoDup_singleton.
  - apply Forall_forall. intros e [->|[He _]]%relabel_elem; [|rewrite Forall_forall in HF; by apply HF].
    eexists _, _. split; [done|]. split; apply length_strTake.
Qed.

Definition labels (w : World) (c : string) : list value := items (attr w c "labelList").

(** The two kinds of labels. *)
Definition labelled (env : Env) (c : string) (add : string -> string -> async World unit) : Prop :=
  (c = "FixedLabel" /\ add = addFixedLabel env) \/ (c = "UserLabel" /\ add = addUserLabel env).

(** A label is added, in the place of one with the same (shortened) name, to an
    endpoint without labels or to one that is active, and the labels stay distinct and
    within their lengths. But to an endpoint that has labels and is not active yet, as
    when a device class has added its own, no further label is added. *)
Theorem label_exact (env : Env) (c label v : string) (add : string -> string -> async World unit) (w : World) :
  labelled env c add -> (forall kvs, accept env c kvs = Ok tt) ->
  (forall f, servers w !! c = Some f -> exists l, attr w c "labelList" = Arr l /\ hasKey "labelList" f = true /\ LabelList l) ->
  let (w', r) := run (add label v) w in
  r = Ok tt /\ LabelList (labels w' c) /\
  match servers w !! c, active w with
  | None, _ => labels w' c = [labelEntry label v]
  | Some _, true => forall e, e ∈ labels w' c <-> e = labelEntry label v \/ (e ∈ labels w c /\ labelOf e <> Str (strTake 16 label))
  | Some _, false => w' = w
  end.
Proof.
  intros Hadd Hacc Hl.
  assert (add = addLabel env c /\ capitalizeFirstLetter (lowercaseFirstLetter c) = c) as [-> Hc] by (by destruct Hadd as [[-> ->]|[-> ->]]).
  clear Hadd. unfold addLabel. rewrite run_bind, run_ask. unfold hasClusterServer, getBehavior, supported at 1. rewrite Hc.
  destruct (servers w !! c) as [f|] eqn:Hf.
  - unfold supported. rewrite Hc, Hf. cbn [negb]. destruct (Hl f eq_refl) as (l & Hattr & Hk & HL). unfold labels at 3. rewrite Hattr. cbn [items].
    destruct (active w) eqn:Ha.
    + assert (HLoc : Located w (ById c) "labelList" c "labelList").
      { split; [done|]. split; [done|]. exists (lowercaseFirstLetter c). split; [unfold getBehavior, supported; by rewrite Hc, Hf|].
        split; [done|]. by exists f. }
      unfold getAttribute. destruct (locate_Located _ _ _ _ _ HLoc) as (id & -> & _). rewrite bind_Ok, Hattr, run_bind, run_liftRes.
      rewrite run_bind, run_await, (run_setAttribute env _ _ _ _ _ _ HLoc), Hacc, run_ret.
      destruct (Located_set w (ById c) "labelList" c "labelList" (Arr (relabel label v l)) HLoc) as [_ Hset].
      change (_ ++ [labelEntry label v])%list with (relabel label v l). unfold labels. rewrite Hset. cbn [items].
      split; [done|]. split; [by apply relabel_labels|]. apply relabel_elem.
    + unfold getAttribute, locate, getBehavior, supported. rewrite Hc, Hf, Ha. cbn [negb]. rewrite bind_Ok, run_bind, run_liftRes, run_ret.
      split; [done|]. split; [|done]. unfold labels. by rewrite Hattr.
  - cbn [negb]. rewrite run_modify. unfold require. rewrite Hf. unfold labels, attr, attributes. simpl. rewrite lookup_insert_eq. simpl.
    split; [done|]. split; [|done]. apply (relabel_labels label v []). split; constructor.
Qed.

Lemma label_exact_witness :
  labels (fst (run (addFixedLabel strictEnv "composed" "Oven") (fst (run (addFixedLabel strictEnv "room" "Kitchen") lamp)))) "FixedLabel" =
    [labelEntry "room" "Kitchen"; labelEntry "composed" "Oven"] /\
  LabelList (labels (fst (run (addUserLabel sampleLabels "a label of more than 16" "x") lamp)) "UserLabel").
Proof.
  split; [by vm_compute|].
  pose proof (label_exact sampleLabels "UserLabel" "a label of more than 16" "x" (addUserLabel sampleLabels) lamp
    (or_intror (conj eq_refl eq_refl)) (fun _ => eq_refl) ltac:(intros f Hf; by vm_compute in Hf)) as H.
  destruct (run (addUserLabel sampleLabels "a label of more than 16" "x") lamp) as [w' r]. apply H.
Defined.

(** ** Switches *)

(** A switch with all the features and events of a momentary one. *)
Definition momentaryEvents : list string :=
  ["initialPress"; "longPress"; "shortRelease"; "longRelease"; "multiPressOngoing"; "multiPressComplete"].

Record SwitchReady (w : World) : Prop := {
  switch_active : active w = true;
  switch_fields : exists f, servers w !! "Switch" = Some f /\ hasKey "currentPosition" f = true /\ hasKey "featureMap" f = true;
  switch_features : truthy (optProp (attr w "Switch" "featureMap") "momentarySwitch") = true /\
                    truthy (optProp (attr w "Switch" "featureMap") "momentarySwitchRelease") = true
}.

(** What a press of a button is reported as. *)
Definition protocol (event : SwitchEvent) : list (string * list (string * value)) :=
  match event with
  | Single => [("initialPress", [newPosition 1]); ("shortRelease", [previousPosition]);
               ("multiPressComplete", [previousPosition; ("totalNumberOfPressesCounted", Num 1)])]
  | Double => [("initialPress", [newPosition 1]); ("shortRelease", [previousPosition]); ("initialPress", [newPosition 1]);
               ("multiPressOngoing", [newPosition 1; ("currentNumberOfPressesCounted", Num 2)]); ("shortRelease", [previousPosition]);
               ("multiPressComplete", [previousPosition; ("totalNumberOfPressesCounted", Num 2)])]
  | Long => [("initialPress", [newPosition 1]); ("longPress", [newPosition 1]); ("longRelease", [previousPosition])]
  | Press | Release => []
  end.

Lemma switch_found f w cluster :
  servers w !! "Switch" = Some f -> cluster = ByName "Switch" \/ cluster = ById "Switch" ->
  getBehavior w cluster = Some "switch" /\ supported w "switch" = Some f.
Proof.
  intros Hf Hc. assert (Hs : supported w "switch" = Some f) by exact Hf. split; [|done]. destruct Hc as [-> | ->]; unfold getBehavior;
    change (lowercaseFirstLetter "Switch") with "switch"; by rewrite Hs.
Qed.

Section Switches.
Context (env : Env) (events : string -> list string).
Hypothesis Hacc : forall kvs, accept env "Switch" kvs = Ok tt.
Hypothesis Hev : forall e, e ∈ momentaryEvents -> e ∈ events "Switch".

(** The positions and the events of a run, in its order. *)
Definition positioned (n : Z) (w : World) : World := setAttrs "Switch" [("currentPosition", Num n)] w.
Definition emitted (e : string) (payload : list (string * value)) (w : World) : World := addCall (Emitted "Switch" e (Obj payload)) w.

Lemma ready_positioned n w : SwitchReady w -> SwitchReady (positioned n w).
Proof.
  intros [Ha (f & Hf & Hp & Hm) Hfeat]. split; [done| |].
  - eexists. split; [simpl; by rewrite lookup_insert_eq|]. cbn [foldl fst snd]. unfold attributes. rewrite Hf. cbn [default from_option id].
    by rewrite !hasKey_setField, Hm, orb_true_r.
  - unfold positioned. by rewrite !attr_set_other.
Qed.

Lemma ready_emitted e p w : SwitchReady w -> SwitchReady (emitted e p w).
Proof. by intros [? ? ?]. Qed.

Lemma run_setPosition n w : SwitchReady w -> run (setPosition env n) w = (positioned n w, Ok tt).
Proof.
  intros [Ha (f & Hf & Hp & Hm) _]. unfold setPosition. rewrite run_bind, run_await.
  rewrite (run_setAttribute env switch "currentPosition" (Num n) w "Switch" "currentPosition"); [by rewrite Hacc|].
  split; [done|]. split; [done|]. exists "switch". split; [by eapply switch_found; [|right]|]. split; [done|]. by exists f.
Qed.

Lemma run_press e p w : SwitchReady w -> e ∈ momentaryEvents -> run (press events e p) w = (emitted e p w, Ok tt).
Proof.
  intros [Ha (f & Hf & Hp & Hm) _] He. unfold press, triggerEvent. rewrite run_bind, run_await, run_bind, run_ask.
  destruct (switch_found f w switch Hf (or_intror eq_refl)) as [-> Hs]. rewrite Ha, Hs. cbn [negb].
  by rewrite bool_decide_eq_true_2 by by apply Hev.
Qed.

Lemma ready_hasFeature w : SwitchReady w -> hasFeature w "momentarySwitch" = Ok true /\ truthy (optProp (featuresFor w (ByName "Switch")) "momentarySwitchRelease") = true.
Proof.
  intros [Ha (f & Hf & Hp & Hm) [H1 H2]]. unfold attr, attributes in H1, H2. rewrite Hf in H1, H2. cbn [default from_option id] in H1, H2. split.
  - unfold hasFeature, hasClusterServer, getAttribute, locate, attributeIn.
    destruct (switch_found f w switch Hf (or_intror eq_refl)) as [-> Hs]. rewrite Hs, Ha. cbn [negb]. rewrite !bind_Ok.
    change (lowercaseFirstLetter "featureMap") with "featureMap". rewrite Hm.
    change (capitalizeFirstLetter "switch") with "Switch". unfold attr, attributes. rewrite Hf. cbn [default from_option id].
    destruct (getField "featureMap" f) as [| | | | | |fs]; try done. cbn [getProp optProp] in *. by rewrite bind_Ok, H1.
  - unfold featuresFor. destruct (switch_found f w (ByName "Switch") Hf (or_introl eq_refl)) as [-> Hs]. by rewrite Hs.
Qed.
End Switches.

Ltac pressing Hacc Hev :=
  repeat (rewrite ?run_bind;
    first [rewrite (run_setPosition _ Hacc) by auto 20 using ready_positioned, ready_emitted
          |rewrite (run_press _ Hev) by (auto 20 using ready_positioned, ready_emitted || (apply (bool_decide_unpack _); by vm_compute))]).

Lemma attr_positioned n w : attr (positioned n w) "Switch" "currentPosition" = Num n.
Proof. unfold positioned, attr. rewrite attributes_set. cbn [updated foldl fst snd]. apply getField_setField. Qed.

Ltac settled :=
  rewrite run_ret; split; [done|]; split; [cbn [positioned emitted calls addCall setAttrs]; rewrite <- !app_assoc; reflexivity|];
  split; [|solve [auto 20 using ready_positioned, ready_emitted]];
  repeat match goal with |- attr (emitted _ _ ?w) ?c ?k = _ => change (attr w c k = Num 0) end; apply attr_positioned.

(** A press of a momentary switch is reported by the events of the Matter
    specification in their order, each press followed by its release, and leaves the
    switch in the position in which it was not pressed. *)
Theorem switch_protocol (env : Env) (events : string -> list string) (event : SwitchEvent) (n : Z) (w : World) :
  (forall kvs, accept env "Switch" kvs = Ok tt) -> (forall e, e ∈ momentaryEvents -> e ∈ events "Switch") ->
  SwitchReady w -> event = Single \/ event = Double \/ event = Long ->
  let (w', r) := run (triggerSwitchEvent env events (Some n) event) w in
  r = Ok true /\ calls w' = (calls w ++ map (fun e => Emitted "Switch" (fst e) (Obj (snd e))) (protocol event))%list /\
  attr w' "Switch" "currentPosition" = Num 0 /\ SwitchReady w'.
Proof.
  intros Hacc Hev Hw Hevent. unfold triggerSwitchEvent. rewrite run_bind, run_ask.
  destruct (ready_hasFeature w Hw) as [Hf Hrel].
  destruct Hevent as [-> |[-> | ->]]; rewrite Hf, run_bind, run_liftRes; cbn [negb]; rewrite run_bind.
  - unfold singlePress. pressing Hacc Hev. rewrite run_bind, run_ask.
    rewrite (proj2 (ready_hasFeature _ (ready_positioned _ _ (ready_emitted _ _ _ (ready_positioned _ _ Hw))))).
    cbv iota. pressing Hacc Hev. settled.
  - unfold doublePress. pressing Hacc Hev. settled.
  - unfold longPress. pressing Hacc Hev. settled.
Qed.

Definition button : World :=
  mkWorld {["Switch" := [("currentPosition", Num 0); ("featureMap", Obj [("momentarySwitch", Bool true); ("momentarySwitchRelease", Bool true)])]]} [] [] true.
Definition buttonEvents (c : string) : list string := momentaryEvents.

Lemma switch_protocol_witness :
  calls (fst (run (triggerSwitchEvent sampleLabels buttonEvents (Some 1) Long) button)) =
    [Emitted "Switch" "initialPress" (Obj [newPosition 1]); Emitted "Switch" "longPress" (Obj [newPosition 1]);
     Emitted "Switch" "longRelease" (Obj [previousPosition])].
Proof.
  assert (Hw : SwitchReady button) by (split; [done|eexists; split; [by vm_compute|by split]|by split; vm_compute]).
  pose proof (switch_protocol sampleLabels buttonEvents Long 1 button (fun _ => eq_refl) (fun _ H => H) Hw (or_intror (or_intror eq_refl))) as H.
  destruct (run (triggerSwitchEvent sampleLabels buttonEvents (Some 1) Long) button) as [w' r]. apply H.
Defined.

(** ** Positions and volumes *)

(** A window covering that can be tilted. *)
Definition blind : World :=
  mkWorld {["WindowCovering" := [("operationalStatus", movement (Num 0)); ("targetPositionLiftPercent100ths", Num 5000);
              ("currentPositionLiftPercent100ths", Num 5000); ("targetPositionTiltPercent100ths", Num 7000);
              ("currentPositionTiltPercent100ths", Num 7000)]]} [] [] true.

(** Positions are set as they are given, but for the tilt that is fully open: 0 counts
    as no position, and a covering that is to be opened stays tilted. *)
Theorem tilt_zero_ignored :
  let w := fst (run (setWindowCoveringTargetAndCurrentPosition sampleLabels (Num 0) (Num 100)) blind) in
  let w' := fst (run (setWindowCoveringTargetAndCurrentPosition sampleLabels (Num 0) (Num 0)) blind) in
  (attr w "WindowCovering" "currentPositionTiltPercent100ths" = Num 100 /\ attr w "WindowCovering" "targetPositionTiltPercent100ths" = Num 100) /\
  attr w' "WindowCovering" "currentPositionLiftPercent100ths" = Num 0 /\
  attr w' "WindowCovering" "currentPositionTiltPercent100ths" = Num 7000 /\ attr w' "WindowCovering" "targetPositionTiltPercent100ths" = Num 7000.
Proof. by vm_compute. Qed.

(** An endpoint that is not active yet. *)
Definition asleep (w : World) : World := mkWorld (servers w) (handler w) (calls w) false.

(** The functions that are said to answer [undefined] or [false] for what is missing
    throw instead in two cases: a class of servers that the endpoint does not have, and an
    event of a switch on an endpoint that has a number and is not active yet. *)
Theorem missing_throws :
  getAttribute lamp (ByBehavior "levelControl") "currentLevel" = Throw TypeError /\
  getAttribute lamp (ById "LevelControl") "currentLevel" = Ok Undefined /\
  run (triggerSwitchEvent sampleLabels buttonEvents (Some 1) Single) (asleep button) = (asleep button, Throw TypeError) /\
  run (triggerSwitchEvent sampleLabels buttonEvents None Single) (asleep button) = (asleep button, Ok false).
Proof. by vm_compute. Qed.

Lemma coerced_range n : 1 <= coerced n <= 254 /\ (1 <= n <= 254 -> coerced n = n).
Proof.
  unfold coerced. destruct (n <? 1) eqn:E1; [|destruct (254 <? n) eqn:E2]; bool_facts; cbn; try lia.
Qed.

(** A volume that is set is read back, coerced into its range. *)
Theorem speaker_volume (env : Env) (w : World) (n : Z) :
  Located w (ByType "LevelControl") "currentLevel" "LevelControl" "currentLevel" -> (forall kvs, accept env "LevelControl" kvs = Ok tt) ->
  exists level, 1 <= level <= 254 /\ (1 <= n <= 254 -> level = n) /\
    getVolume (fst (run (setVolume env (Some n)) w)) = Ok (Num level).
Proof.
  intros HL Hacc. exists (coerced n). split; [apply coerced_range|]. split; [apply coerced_range|].
  unfold setVolume. rewrite run_bind, run_await, (run_setAttribute env _ _ _ _ _ _ HL), Hacc, run_ret. cbn [fst].
  destruct (Located_set w _ _ _ _ (Num (coerced n)) HL) as [HL' Hattr]. unfold getVolume, getAttribute.
  destruct (locate_Located _ _ _ _ _ HL') as (id & -> & _). by rewrite bind_Ok, Hattr.
Qed.
