(* ===== verification/DeviceTypes.v ===== *)
(** The device types of [packages/core/src/matterbridgeDeviceTypes.ts]: what the Matter device
    library requires of an endpoint of each type. Clusters stand for their ids. *)
From S2P Require Import Prelude.
From stdpp Require Import strings.
#[local] Open Scope string_scope.
#[local] Open Scope Z_scope.
#[local] Set Warnings "-register-all".

Module DeviceTypes.

Inductive DeviceClasses := Node | App | Utility | Simple | Dynamic | Composed | Client | Server | Duplicate | BridgedPowerSourceInfo.
Inductive DeviceScopes := EndpointScope | NodeScope.

Inductive DeviceTypeDefinition := DeviceType {
  name : string;
  code : Z;
  deviceClass : DeviceClasses;
  deviceScope : DeviceScopes;
  revision : Z;
  requiredServerClusters : list string;
  optionalServerClusters : list string;
  requiredClientClusters : list string;
  optionalClientClusters : list string;
  requiredDeviceTypes : list DeviceTypeDefinition;
  requiredServerClustersOneOf : list string;
  composedOf : list DeviceTypeDefinition
}.

Definition baseDeviceType : DeviceTypeDefinition :=
  DeviceType "BaseDeviceType" 0x0000 Simple EndpointScope 3
    ["Descriptor"] ["Binding"; "FixedLabel"; "UserLabel"] [] [] [] [] [].

Definition rootNode : DeviceTypeDefinition :=
  DeviceType "RootNode" 0x0016 Node NodeScope 4
    [] [] [] [] [] [] [].

Definition powerSource : DeviceTypeDefinition :=
  DeviceType "PowerSource" 0x0011 Utility NodeScope 1
    ["PowerSource"] [] [] [] [] [] [].

Definition otaRequestor : DeviceTypeDefinition :=
  DeviceType "OTARequestor" 0x0012 Utility NodeScope 1
    ["OtaSoftwareUpdateRequestor"] [] ["OtaSoftwareUpdateProvider"] [] [] [] [].

Definition otaProvider : DeviceTypeDefinition :=
  DeviceType "OTAProvider" 0x0014 Utility NodeScope 1
    ["OtaSoftwareUpdateProvider"] [] [] ["OtaSoftwareUpdateRequestor"] [] [] [].

Definition bridgedNode : DeviceTypeDefinition :=
  DeviceType "BridgedNode" 0x0013 Utility EndpointScope 3
    ["BridgedDeviceBasicInformation"] ["PowerSource"; "EcosystemInformation"; "AdministratorCommissioning"] [] [] [] [] [].

Definition electricalSensor : DeviceTypeDefinition :=
  DeviceType "ElectricalSensor" 0x0510 Utility EndpointScope 1
    ["PowerTopology"] ["ElectricalPowerMeasurement"; "ElectricalEnergyMeasurement"] [] [] [] ["ElectricalPowerMeasurement";
     "ElectricalEnergyMeasurement"] [].

Definition deviceEnergyManagement : DeviceTypeDefinition :=
  DeviceType "DeviceEnergyManagement" 0x050d Utility EndpointScope 3
    ["DeviceEnergyManagement"] ["DeviceEnergyManagementMode"] [] ["ElectricalGridConditions"] [] [] [].

Definition onOffLight : DeviceTypeDefinition :=
  DeviceType "OnOffLight" 0x0100 Simple EndpointScope 3
    ["Identify"; "Groups"; "ScenesManagement"; "OnOff"] ["LevelControl"] [] ["OccupancySensing"] [] [] [].

Definition dimmableLight : DeviceTypeDefinition :=
  DeviceType "DimmableLight" 0x0101 Simple EndpointScope 3
    ["Identify"; "Groups"; "ScenesManagement"; "OnOff"; "LevelControl"] [] [] ["OccupancySensing"] [] [] [].

Definition colorTemperatureLight : DeviceTypeDefinition :=
  DeviceType "ColorTemperatureLight" 0x010c Simple EndpointScope 4
    ["Identify"; "Groups"; "ScenesManagement"; "OnOff"; "LevelControl"; "ColorControl"] [] [] ["OccupancySensing"] [] [] [].

Definition extendedColorLight : DeviceTypeDefinition :=
  DeviceType "ExtendedColorLight" 0x010d Simple EndpointScope 4
    ["Identify"; "Groups"; "ScenesManagement"; "OnOff"; "LevelControl"; "ColorControl"] [] [] ["OccupancySensing"] [] [] [].

Definition onOffPlugInUnit : DeviceTypeDefinition :=
  DeviceType "OnOffPlugInUnit" 0x010a Simple EndpointScope 4
    ["Identify"; "Groups"; "ScenesManagement"; "OnOff"] ["LevelControl"] [] ["OccupancySensing"] [] [] [].

Definition dimmablePlugInUnit : DeviceTypeDefinition :=
  DeviceType "DimmablePlugInUnit" 0x010b Simple EndpointScope 5
    ["Identify"; "Groups"; "ScenesManagement"; "OnOff"; "LevelControl"] [] [] ["OccupancySensing"] [] [] [].

Definition mountedOnOffControl : DeviceTypeDefinition :=
  DeviceType "MountedOnOffControl" 0x010f Simple EndpointScope 2
    ["Identify"; "Groups"; "ScenesManagement"; "OnOff"] ["LevelControl"] [] ["OccupancySensing"] [] [] [].

Definition mountedDimmableLoadControl : DeviceTypeDefinition :=
  DeviceType "MountedDimmableLoadControl" 0x0110 Simple EndpointScope 2
    ["Identify"; "Groups"; "ScenesManagement"; "OnOff"; "LevelControl"] [] [] ["OccupancySensing"] [] [] [].

Definition pump : DeviceTypeDefinition :=
  DeviceType "Pump" 0x303 Simple EndpointScope 3
    ["OnOff"; "PumpConfigurationAndControl"; "Identify"] ["LevelControl"; "Groups"; "ScenesManagement"; "TemperatureMeasurement";
     "PressureMeasurement"; "FlowMeasurement"] [] ["TemperatureMeasurement"; "PressureMeasurement"; "FlowMeasurement";
     "OccupancySensing"] [] [] [].

Definition waterValve : DeviceTypeDefinition :=
  DeviceType "WaterValve" 0x42 Simple EndpointScope 1
    ["Identify"; "ValveConfigurationAndControl"] ["FlowMeasurement"] [] ["FlowMeasurement"] [] [] [].

Definition irrigationSystem : DeviceTypeDefinition :=
  DeviceType "IrrigationSystem" 0x0040 Simple EndpointScope 1
    [] ["Identify"; "OperationalState"; "FlowMeasurement"] [] ["FlowMeasurement"] [] [] [waterValve].

Definition onOffLightSwitch : DeviceTypeDefinition :=
  DeviceType "OnOffLightSwitch" 0x0103 Simple EndpointScope 3
    ["Identify"] [] ["Identify"; "OnOff"] ["Groups"; "ScenesManagement"] [] [] [].

Definition dimmerSwitch : DeviceTypeDefinition :=
  DeviceType "DimmerSwitch" 0x0104 Simple EndpointScope 3
    ["Identify"] [] ["Identify"; "OnOff"; "LevelControl"] ["Groups"; "ScenesManagement"] [] [] [].

Definition colorDimmerSwitch : DeviceTypeDefinition :=
  DeviceType "ColorDimmerSwitch" 0x0105 Simple EndpointScope 3
    ["Identify"] [] ["Identify"; "OnOff"; "LevelControl"; "ColorControl"] ["Groups"; "ScenesManagement"] [] [] [].

Definition controlBridge : DeviceTypeDefinition :=
  DeviceType "ControlBridge" 0x0840 Simple EndpointScope 3
    ["Identify"] [] ["Identify"; "Groups"; "ScenesManagement"; "OnOff"; "LevelControl"; "ColorControl"] ["IlluminanceMeasurement";
     "OccupancySensing"] [] [] [].

Definition pumpController : DeviceTypeDefinition :=
  DeviceType "PumpController" 0x0304 Simple EndpointScope 4
    ["Identify"] [] ["OnOff"; "PumpConfigurationAndControl"] ["Identify"; "Groups"; "LevelControl"; "ScenesManagement";
     "TemperatureMeasurement"; "PressureMeasurement"; "FlowMeasurement"] [] [] [].

Definition genericSwitch : DeviceTypeDefinition :=
  DeviceType "GenericSwitch" 0x000f Simple EndpointScope 3
    ["Identify"; "Switch"] [] [] [] [] [] [].

Definition contactSensor : DeviceTypeDefinition :=
  DeviceType "ContactSensor" 0x0015 Simple EndpointScope 2
    ["Identify"; "BooleanState"] ["BooleanStateConfiguration"] [] [] [] [] [].

Definition lightSensor : DeviceTypeDefinition :=
  DeviceType "LightSensor" 0x0106 Simple EndpointScope 4
    ["Identify"; "IlluminanceMeasurement"] [] [] [] [] [] [].

Definition occupancySensor : DeviceTypeDefinition :=
  DeviceType "OccupancySensor" 0x0107 Simple EndpointScope 4
    ["Identify"; "OccupancySensing"] ["BooleanStateConfiguration"] [] [] [] [] [].

Definition temperatureSensor : DeviceTypeDefinition :=
  DeviceType "TemperatureSensor" 0x0302 Simple EndpointScope 3
    ["Identify"; "TemperatureMeasurement"] ["ThermostatUserInterfaceConfiguration"] [] [] [] [] [].

Definition pressureSensor : DeviceTypeDefinition :=
  DeviceType "PressureSensor" 0x0305 Simple EndpointScope 3
    ["Identify"; "PressureMeasurement"] [] [] [] [] [] [].

Definition flowSensor : DeviceTypeDefinition :=
  DeviceType "FlowSensor" 0x0306 Simple EndpointScope 3
    ["Identify"; "FlowMeasurement"] [] [] [] [] [] [].

Definition humiditySensor : DeviceTypeDefinition :=
  DeviceType "HumiditySensor" 0x0307 Simple EndpointScope 3
    ["Identify"; "RelativeHumidityMeasurement"] [] [] [] [] [] [].

Definition onOffSensor : DeviceTypeDefinition :=
  DeviceType "OnOffSensor" 0x0850 Simple EndpointScope 3
    ["Identify"] [] ["Identify"; "OnOff"] ["Groups"; "LevelControl"; "ColorControl"; "ScenesManagement"] [] [] [].

Definition smokeCoAlarm : DeviceTypeDefinition :=
  DeviceType "SmokeCOAlarm" 0x0076 Simple EndpointScope 1
    ["Identify"; "SmokeCoAlarm"] ["Groups"; "TemperatureMeasurement"; "RelativeHumidityMeasurement";
     "CarbonMonoxideConcentrationMeasurement"] [] [] [powerSource] [] [].

Definition airQualitySensor : DeviceTypeDefinition :=
  DeviceType "AirQualitySensor" 0x002c Simple EndpointScope 1
    ["Identify"; "AirQuality"] ["TemperatureMeasurement"; "RelativeHumidityMeasurement"; "CarbonMonoxideConcentrationMeasurement";
     "CarbonDioxideConcentrationMeasurement"; "NitrogenDioxideConcentrationMeasurement"; "OzoneConcentrationMeasurement";
     "FormaldehydeConcentrationMeasurement"; "Pm1ConcentrationMeasurement"; "Pm25ConcentrationMeasurement";
     "Pm10ConcentrationMeasurement"; "RadonConcentrationMeasurement"; "TotalVolatileOrganicCompoundsConcentrationMeasurement"] []
     [] [] [] [].

Definition waterFreezeDetector : DeviceTypeDefinition :=
  DeviceType "WaterFreezeDetector" 0x0041 Simple EndpointScope 1
    ["Identify"; "BooleanState"] ["BooleanStateConfiguration"] [] [] [] [] [].

Definition waterLeakDetector : DeviceTypeDefinition :=
  DeviceType "WaterLeakDetector" 0x0043 Simple EndpointScope 1
    ["Identify"; "BooleanState"] ["BooleanStateConfiguration"] [] [] [] [] [].

Definition rainSensor : DeviceTypeDefinition :=
  DeviceType "RainSensor" 0x0044 Simple EndpointScope 1
    ["Identify"; "BooleanState"] ["BooleanStateConfiguration"] [] [] [] [] [].

Definition soilSensor : DeviceTypeDefinition :=
  DeviceType "SoilSensor" 0x0045 Simple EndpointScope 1
    ["Identify"; "SoilMeasurement"] ["TemperatureMeasurement"] [] [] [] [] [].

Definition doorLock : DeviceTypeDefinition :=
  DeviceType "DoorLock" 0xa Simple EndpointScope 4
    ["Identify"; "DoorLock"] [] [] [] [] [] [].

Definition doorLockController : DeviceTypeDefinition :=
  DeviceType "DoorLockController" 0x00b Simple EndpointScope 3
    [] [] ["DoorLock"] ["Groups"; "ScenesManagement"] [] [] [].

Definition windowCovering : DeviceTypeDefinition :=
  DeviceType "WindowCovering" 0x202 Simple EndpointScope 6
    ["Identify"; "WindowCovering"] ["Groups"] [] [] [] [] [].

Definition windowCoveringController : DeviceTypeDefinition :=
  DeviceType "WindowCoveringController" 0x203 Simple EndpointScope 4
    [] ["Identify"] ["WindowCovering"] ["Identify"; "Groups"] [] [] [].

Definition closure : DeviceTypeDefinition :=
  DeviceType "Closure" 0x0230 Simple EndpointScope 1
    ["Identify"; "ClosureControl"] [] [] [] [] [] [].

Definition closurePanel : DeviceTypeDefinition :=
  DeviceType "ClosurePanel" 0x0231 Simple EndpointScope 1
    ["ClosureDimension"] [] [] [] [] [] [].

Definition closureController : DeviceTypeDefinition :=
  DeviceType "ClosureController" 0x023e Simple EndpointScope 1
    [] [] ["ClosureControl"] ["Identify"; "Groups"; "ClosureDimension"] [] [] [].

Definition thermostat : DeviceTypeDefinition :=
  DeviceType "Thermostat" 0x301 Simple EndpointScope 5
    ["Identify"; "Thermostat"] ["Groups"; "ThermostatUserInterfaceConfiguration"; "EnergyPreference"] [] ["FanControl";
     "TemperatureMeasurement"; "RelativeHumidityMeasurement"; "OccupancySensing"] [] [] [].

Definition fan : DeviceTypeDefinition :=
  DeviceType "Fan" 0x2b Simple EndpointScope 4
    ["Identify"; "Groups"; "FanControl"] ["OnOff"] [] [] [] [] [].

Definition airPurifier : DeviceTypeDefinition :=
  DeviceType "AirPurifier" 0x2d Simple EndpointScope 2
    ["Identify"; "FanControl"] ["Groups"; "OnOff"; "HepaFilterMonitoring"; "ActivatedCarbonFilterMonitoring"] [] [] [] [] [].

Definition thermostatController : DeviceTypeDefinition :=
  DeviceType "ThermostatController" 0x030a Simple EndpointScope 1
    [] [] ["Thermostat"] ["Identify"; "Groups"; "ScenesManagement"] [] [] [].

Definition basicVideoPlayer : DeviceTypeDefinition :=
  DeviceType "BasicVideoPlayer" 0x0028 Simple EndpointScope 2
    ["OnOff"; "MediaPlayback"; "KeypadInput"] ["WakeOnLan"; "Channel"; "TargetNavigator"; "MediaInput"; "LowPower"; "AudioOutput";
     "ContentControl"; "Messages"] [] [] [] [] [].

Definition castingVideoPlayer : DeviceTypeDefinition :=
  DeviceType "CastingVideoPlayer" 0x0023 Simple EndpointScope 2
    ["OnOff"; "MediaPlayback"; "KeypadInput"; "ContentLauncher"] ["WakeOnLan"; "Channel"; "TargetNavigator"; "MediaInput";
     "LowPower"; "AudioOutput"; "ApplicationLauncher"; "AccountLogin"; "ContentControl"; "Messages"] [] [] [] [] [].

Definition speaker : DeviceTypeDefinition :=
  DeviceType "Speaker" 0x0022 Simple EndpointScope 1
    ["OnOff"; "LevelControl"] [] [] [] [] [] [].

Definition contentApp : DeviceTypeDefinition :=
  DeviceType "ContentApp" 0x0024 Simple EndpointScope 2
    ["KeypadInput"; "ApplicationLauncher"; "ApplicationBasic"] ["Channel"; "TargetNavigator"; "MediaPlayback"; "ContentLauncher";
     "AccountLogin"] [] ["ContentAppObserver"] [] [] [].

Definition castingVideoClient : DeviceTypeDefinition :=
  DeviceType "CastingVideoClient" 0x0029 Simple EndpointScope 2
    [] ["ContentAppObserver"] ["OnOff"; "KeypadInput"; "ContentLauncher"; "ApplicationBasic"] ["LevelControl"; "Messages";
     "WakeOnLan"; "Channel"; "TargetNavigator"; "MediaPlayback"; "MediaInput"; "LowPower"; "AudioOutput"; "ApplicationLauncher";
     "AccountLogin"; "ContentControl"] [] [] [].

Definition videoRemoteControl : DeviceTypeDefinition :=
  DeviceType "VideoRemoteControl" 0x002a Simple EndpointScope 2
    [] [] ["OnOff"; "MediaPlayback"; "KeypadInput"] ["LevelControl"; "WakeOnLan"; "Channel"; "TargetNavigator"; "MediaInput";
     "LowPower"; "ContentLauncher"; "AudioOutput"; "ApplicationLauncher"; "AccountLogin"; "ContentControl"] [] [] [].

Definition modeSelect : DeviceTypeDefinition :=
  DeviceType "ModeSelect" 0x27 Simple EndpointScope 1
    ["ModeSelect"] [] [] [] [] [] [].

Definition aggregator : DeviceTypeDefinition :=
  DeviceType "Aggregator" 0x000e Dynamic EndpointScope 2
    [] ["Actions"; "Identify"; "CommissionerControl"] [] [] [] [] [].

Definition roboticVacuumCleaner : DeviceTypeDefinition :=
  DeviceType "RoboticVacuumCleaner" 0x74 Simple EndpointScope 4
    ["Identify"; "RvcRunMode"; "RvcOperationalState"] ["RvcCleanMode"; "ServiceArea"] [] [] [] [] [].

Definition laundryWasher : DeviceTypeDefinition :=
  DeviceType "LaundryWasher" 0x73 Simple EndpointScope 2
    ["OperationalState"] ["Identify"; "LaundryWasherMode"; "OnOff"; "LaundryWasherControls"; "TemperatureControl"] [] [] [] [] [].

Definition refrigerator : DeviceTypeDefinition :=
  DeviceType "Refrigerator" 0x70 Simple EndpointScope 2
    [] ["Identify"; "RefrigeratorAndTemperatureControlledCabinetMode"; "RefrigeratorAlarm"] [] [] [] [] [].

Definition roomAirConditioner : DeviceTypeDefinition :=
  DeviceType "RoomAirConditioner" 0x72 Simple EndpointScope 3
    ["Identify"; "OnOff"; "Thermostat"] ["Groups"; "ScenesManagement"; "FanControl"; "ThermostatUserInterfaceConfiguration";
     "TemperatureMeasurement"; "RelativeHumidityMeasurement"; "HepaFilterMonitoring"; "ActivatedCarbonFilterMonitoring"] [] [] []
     [] [].

Definition temperatureControlledCabinetCooler : DeviceTypeDefinition :=
  DeviceType "TemperatureControlledCabinet" 0x71 Simple EndpointScope 5
    ["TemperatureControl"; "RefrigeratorAndTemperatureControlledCabinetMode"] ["TemperatureMeasurement"] [] [] [] [] [].

Definition temperatureControlledCabinetHeater : DeviceTypeDefinition :=
  DeviceType "TemperatureControlledCabinet" 0x71 Simple EndpointScope 5
    ["TemperatureControl"; "OvenMode"; "OvenCavityOperationalState"] ["TemperatureMeasurement"] [] [] [] [] [].

Definition dishwasher : DeviceTypeDefinition :=
  DeviceType "Dishwasher" 0x75 Simple EndpointScope 2
    ["OperationalState"] ["Identify"; "OnOff"; "TemperatureControl"; "DishwasherMode"; "DishwasherAlarm"] [] [] [] [] [].

Definition laundryDryer : DeviceTypeDefinition :=
  DeviceType "LaundryDryer" 0x7c Simple EndpointScope 2
    ["OperationalState"] ["Identify"; "LaundryWasherMode"; "OnOff"; "LaundryDryerControls"; "TemperatureControl"] [] [] [] [] [].

Definition cookSurface : DeviceTypeDefinition :=
  DeviceType "CookSurface" 0x77 Simple EndpointScope 2
    [] ["TemperatureControl"; "TemperatureMeasurement"; "OnOff"] [] [] [] [] [].

Definition cooktop : DeviceTypeDefinition :=
  DeviceType "Cooktop" 0x78 Simple EndpointScope 1
    ["OnOff"] ["Identify"] [] [] [] [] [].

Definition oven : DeviceTypeDefinition :=
  DeviceType "Oven" 0x7b Simple EndpointScope 2
    [] ["Identify"] [] [] [] [] [].

Definition extractorHood : DeviceTypeDefinition :=
  DeviceType "ExtractorHood" 0x7a Simple EndpointScope 1
    ["FanControl"] ["Identify"; "HepaFilterMonitoring"; "ActivatedCarbonFilterMonitoring"] [] [] [] [] [].

Definition microwaveOven : DeviceTypeDefinition :=
  DeviceType "MicrowaveOven" 0x79 Simple EndpointScope 2
    ["OperationalState"; "MicrowaveOvenMode"; "MicrowaveOvenControl"] ["Identify"; "FanControl"] [] [] [] [] [].

Definition evse : DeviceTypeDefinition :=
  DeviceType "EnergyEVSE" 0x050c Simple EndpointScope 2
    ["EnergyEvse"; "EnergyEvseMode"] ["Identify"; "TemperatureMeasurement"] [] [] [] [] [].

Definition waterHeater : DeviceTypeDefinition :=
  DeviceType "WaterHeater" 0x050f Simple EndpointScope 1
    ["Thermostat"; "WaterHeaterManagement"; "WaterHeaterMode"] ["Identify"] [] [] [] [] [].

Definition solarPower : DeviceTypeDefinition :=
  DeviceType "SolarPower" 0x0017 Simple EndpointScope 1
    [] ["Identify"] [] [] [] [] [].

Definition batteryStorage : DeviceTypeDefinition :=
  DeviceType "BatteryStorage" 0x0018 Simple EndpointScope 2
    [] ["Identify"] [] [] [] [] [].

Definition heatPump : DeviceTypeDefinition :=
  DeviceType "HeatPump" 0x0309 Simple EndpointScope 1
    [] ["Identify"] [] ["Thermostat"] [] [] [].

Definition meterReferencePoint : DeviceTypeDefinition :=
  DeviceType "MeterReferencePoint" 0x0512 Simple EndpointScope 1
    ["Identify"] [] [] [] [] [] [].

Definition electricalEnergyTariff : DeviceTypeDefinition :=
  DeviceType "ElectricalEnergyTariff" 0x0513 Simple EndpointScope 1
    [] ["CommodityPrice"; "ElectricalGridConditions"; "CommodityTariff"] [] [] [] [] [].

Definition electricalMeter : DeviceTypeDefinition :=
  DeviceType "ElectricalMeter" 0x0514 Simple EndpointScope 1
    ["ElectricalPowerMeasurement"; "ElectricalEnergyMeasurement"] ["CommodityMetering"] [] [] [] [] [].

Definition electricalUtilityMeter : DeviceTypeDefinition :=
  DeviceType "ElectricalUtilityMeter" 0x0511 Simple EndpointScope 1
    ["MeterIdentification"] [] [] [] [] [] [].

Definition camera : DeviceTypeDefinition :=
  DeviceType "Camera" 0x0142 Simple EndpointScope 1
    ["CameraAvStreamManagement"; "WebRtcTransportProvider"] ["Identify"; "OccupancySensing"; "ZoneManagement";
     "CameraAvSettingsUserLevelManagement"; "WebRtcTransportRequestor"; "PushAvStreamTransport"] ["WebRtcTransportRequestor"]
     ["WebRtcTransportProvider"] [] [] [].

Definition floodlightCamera : DeviceTypeDefinition :=
  DeviceType "FloodlightCamera" 0x0144 Simple EndpointScope 1
    [] [] [] [] [] [] [].

Definition videoDoorbell : DeviceTypeDefinition :=
  DeviceType "VideoDoorbell" 0x0143 Simple EndpointScope 1
    [] [] [] [] [] [] [].

Definition intercom : DeviceTypeDefinition :=
  DeviceType "Intercom" 0x0140 Simple EndpointScope 2
    ["CameraAvStreamManagement"; "WebRtcTransportProvider"; "WebRtcTransportRequestor"] ["Identify";
     "CameraAvSettingsUserLevelManagement"] ["WebRtcTransportProvider"; "WebRtcTransportRequestor"] ["Chime"] [] [] [].

Definition audioDoorbell : DeviceTypeDefinition :=
  DeviceType "AudioDoorbell" 0x0141 Simple EndpointScope 2
    ["Identify"; "Switch"; "CameraAvStreamManagement"; "WebRtcTransportProvider"] ["WebRtcTransportRequestor";
     "PushAvStreamTransport"] ["WebRtcTransportRequestor"; "Chime"] ["WebRtcTransportProvider"] [] [] [].

Definition snapshotCamera : DeviceTypeDefinition :=
  DeviceType "SnapshotCamera" 0x0145 Simple EndpointScope 1
    ["CameraAvStreamManagement"] ["Identify"; "OccupancySensing"; "ZoneManagement"; "CameraAvSettingsUserLevelManagement"] [] []
     [] [] [].

Definition chime : DeviceTypeDefinition :=
  DeviceType "Chime" 0x0146 Simple EndpointScope 1
    ["Chime"] ["Identify"] [] [] [] [] [].

Definition cameraController : DeviceTypeDefinition :=
  DeviceType "CameraController" 0x0147 Simple EndpointScope 1
    ["WebRtcTransportRequestor"] [] ["WebRtcTransportProvider"] ["Identify"; "PowerSource"; "OccupancySensing"; "ZoneManagement";
     "CameraAvStreamManagement"; "CameraAvSettingsUserLevelManagement"; "PushAvStreamTransport"; "TlsCertificateManagement";
     "TlsClientManagement"] [] [] [].

Definition doorbell : DeviceTypeDefinition :=
  DeviceType "Doorbell" 0x0148 Simple EndpointScope 2
    ["Identify"; "Switch"] [] ["Chime"] [] [] [] [].

(** ** The lists *)

Definition supportedDeviceTypes : list DeviceTypeDefinition :=
  [baseDeviceType; rootNode; powerSource; otaRequestor; otaProvider; bridgedNode; electricalSensor; deviceEnergyManagement;
   onOffLight; dimmableLight; colorTemperatureLight; extendedColorLight; onOffPlugInUnit; dimmablePlugInUnit; mountedOnOffControl;
   mountedDimmableLoadControl; pump; waterValve; irrigationSystem; onOffLightSwitch; dimmerSwitch; colorDimmerSwitch;
   controlBridge; pumpController; genericSwitch; contactSensor; lightSensor; occupancySensor; temperatureSensor; pressureSensor;
   flowSensor; humiditySensor; onOffSensor; smokeCoAlarm; airQualitySensor; waterFreezeDetector; waterLeakDetector; rainSensor;
   soilSensor; doorLock; doorLockController; windowCovering; windowCoveringController; closure; closurePanel; closureController;
   thermostat; fan; airPurifier; thermostatController; basicVideoPlayer; castingVideoPlayer; speaker; contentApp;
   castingVideoClient; videoRemoteControl; modeSelect; aggregator; roboticVacuumCleaner; laundryWasher; refrigerator;
   roomAirConditioner; temperatureControlledCabinetCooler; temperatureControlledCabinetHeater; dishwasher; laundryDryer;
   cookSurface; cooktop; oven; extractorHood; microwaveOven; evse; waterHeater; solarPower; batteryStorage; heatPump;
   meterReferencePoint; electricalEnergyTariff; electricalMeter; electricalUtilityMeter; camera; floodlightCamera; videoDoorbell;
   intercom; audioDoorbell; snapshotCamera; chime; cameraController; doorbell].

(** A device type by its code or its name. *)
Definition getSupportedDeviceType (key : Z + string) : option DeviceTypeDefinition :=
  match key with
  | inl code_ => List.find (fun t => code t =? code_) supportedDeviceTypes
  | inr name_ => List.find (fun t => String.eqb (name t) name_) supportedDeviceTypes
  end.

Definition supportedClusters : list string :=
  ["AccountLogin"; "Actions"; "ActivatedCarbonFilterMonitoring"; "AdministratorCommissioning"; "AirQuality"; "ApplicationBasic";
   "ApplicationLauncher"; "AudioOutput"; "Binding"; "BooleanState"; "BooleanStateConfiguration"; "BridgedDeviceBasicInformation";
   "CameraAvSettingsUserLevelManagement"; "CameraAvStreamManagement"; "CarbonDioxideConcentrationMeasurement";
   "CarbonMonoxideConcentrationMeasurement"; "Channel"; "Chime"; "ClosureControl"; "ClosureDimension"; "ColorControl";
   "CommissionerControl"; "CommodityMetering"; "CommodityPrice"; "CommodityTariff"; "ContentAppObserver"; "ContentControl";
   "ContentLauncher"; "Descriptor"; "DeviceEnergyManagement"; "DeviceEnergyManagementMode"; "DishwasherAlarm"; "DishwasherMode";
   "DoorLock"; "EcosystemInformation"; "ElectricalEnergyMeasurement"; "ElectricalGridConditions"; "ElectricalPowerMeasurement";
   "EnergyEvse"; "EnergyEvseMode"; "EnergyPreference"; "FanControl"; "FixedLabel"; "FlowMeasurement";
   "FormaldehydeConcentrationMeasurement"; "Groups"; "HepaFilterMonitoring"; "Identify"; "IlluminanceMeasurement"; "KeypadInput";
   "LaundryDryerControls"; "LaundryWasherControls"; "LaundryWasherMode"; "LevelControl"; "LowPower"; "MediaInput";
   "MediaPlayback"; "Messages"; "MeterIdentification"; "MicrowaveOvenControl"; "MicrowaveOvenMode"; "ModeSelect";
   "NitrogenDioxideConcentrationMeasurement"; "OccupancySensing"; "OnOff"; "OperationalState"; "OtaSoftwareUpdateProvider";
   "OtaSoftwareUpdateRequestor"; "OvenCavityOperationalState"; "OvenMode"; "OzoneConcentrationMeasurement";
   "Pm1ConcentrationMeasurement"; "Pm10ConcentrationMeasurement"; "Pm25ConcentrationMeasurement"; "PowerSource"; "PowerTopology";
   "PressureMeasurement"; "PumpConfigurationAndControl"; "PushAvStreamTransport"; "RadonConcentrationMeasurement";
   "RefrigeratorAlarm"; "RefrigeratorAndTemperatureControlledCabinetMode"; "RelativeHumidityMeasurement"; "RvcCleanMode";
   "RvcOperationalState"; "RvcRunMode"; "ScenesManagement"; "ServiceArea"; "SmokeCoAlarm"; "SoilMeasurement"; "Switch";
   "TargetNavigator"; "TemperatureControl"; "TemperatureMeasurement"; "Thermostat"; "ThermostatUserInterfaceConfiguration";
   "TlsCertificateManagement"; "TlsClientManagement"; "TotalVolatileOrganicCompoundsConcentrationMeasurement"; "UserLabel";
   "ValveConfigurationAndControl"; "WakeOnLan"; "WaterHeaterManagement"; "WaterHeaterMode"; "WebRtcTransportProvider";
   "WebRtcTransportRequestor"; "WindowCovering"; "ZoneManagement"].

End DeviceTypes.
