(* ===== verification/ClusterServers.v ===== *)
(** The servers that an endpoint is given: the methods [createDefault...ClusterServer] of
    [packages/core/src/matterbridgeEndpoint.ts] with the attributes that
    [packages/core/src/matterbridgeEndpointHelpers.ts] computes for them, the servers that
    its device types require, and its child endpoints. *)
From S2P Require Import Prelude JsValue Validate Async Ownership Deep Behaviors BehaviorFacts Endpoint EndpointFacts DeviceTypes.
From stdpp Require Import gmap strings.
#[local] Open Scope string_scope.
#[local] Open Scope Z_scope.
Import Behaviors Validate Endpoint DeviceTypes.

Module ClusterServers.
Abbreviation object := (list (string * value)) (only parsing).

(** ** Servers *)

(** [this.behaviors.require(Server.with(...features), attributes)]; matter.js adds the map
    of the features. *)
Definition server (c : string) (features : list string) (attributes : object) : World -> World :=
  require c (attributes ++ [("featureMap", Obj (map (fun f => (f, Bool true)) features))])%list.

(** A parameter with a default, products with constants, and attributes that are only there
    if some parameter is. Numbers are integers. *)
Definition param (v d : value) : value := if isUndefined v then d else v.
Definition times (n : Z) (v : value) : value := mapNum (fun x => x * n) v.
Definition given (v : value) (attributes : object) : object := if isUndefined v then [] else attributes.
Definition flags (b : bool) (names : list string) : object := map (fun k => (k, Bool b)) names.

(** *** Power *)

Definition getDefaultPowerSourceWiredClusterServer (wiredCurrentType : value) : object :=
  let wiredCurrentType := param wiredCurrentType (enum "WiredCurrentType" "Ac") in
  [("status", enum "PowerSourceStatus" "Active"); ("order", Num 0);
   ("description", Str (if bool_decide (wiredCurrentType = enum "WiredCurrentType" "Ac") then "AC Power" else "DC Power"));
   ("endpointList", Arr []); ("wiredCurrentType", wiredCurrentType)].
Definition createDefaultPowerSourceWiredClusterServer (wiredCurrentType : value) : World -> World :=
  server "PowerSource" ["wired"] (getDefaultPowerSourceWiredClusterServer wiredCurrentType).

(** Percentages are counted in halves and cut to their range; null stays null. *)
Definition halves (percent : value) : value :=
  match percent with Num n => Num (Z.min (Z.max (n * 2) 0) 200) | v => v end.

Definition getDefaultPowerSourceBatteryClusterServer (batPercentRemaining batChargeLevel batVoltage batReplaceability : value) : object :=
  [("status", enum "PowerSourceStatus" "Active"); ("order", Num 0); ("description", Str "Primary battery"); ("endpointList", Arr []);
   ("batVoltage", param batVoltage Null); ("batPercentRemaining", halves (param batPercentRemaining Null));
   ("batChargeLevel", param batChargeLevel (enum "BatChargeLevel" "Ok")); ("batReplacementNeeded", Bool false);
   ("batReplaceability", param batReplaceability (enum "BatReplaceability" "Unspecified"))].
Definition createDefaultPowerSourceBatteryClusterServer (percent level voltage replaceability : value) : World -> World :=
  server "PowerSource" ["battery"] (getDefaultPowerSourceBatteryClusterServer percent level voltage replaceability).

Definition getDefaultPowerSourceReplaceableBatteryClusterServer
    (batPercentRemaining batChargeLevel batVoltage batReplacementDescription batQuantity batReplaceability : value) : object :=
  [("status", enum "PowerSourceStatus" "Active"); ("order", Num 0); ("description", Str "Primary battery"); ("endpointList", Arr []);
   ("batVoltage", param batVoltage (Num 1500)); ("batPercentRemaining", halves (param batPercentRemaining (Num 100)));
   ("batChargeLevel", param batChargeLevel (enum "BatChargeLevel" "Ok")); ("batReplacementNeeded", Bool false);
   ("batReplaceability", param batReplaceability (enum "BatReplaceability" "UserReplaceable")); ("activeBatFaults", Undefined);
   ("batReplacementDescription", param batReplacementDescription (Str "Battery type")); ("batQuantity", param batQuantity (Num 1))].
Definition createDefaultPowerSourceReplaceableBatteryClusterServer (percent level voltage description quantity replaceability : value) : World -> World :=
  server "PowerSource" ["battery"; "replaceable"]
    (getDefaultPowerSourceReplaceableBatteryClusterServer percent level voltage description quantity replaceability).

Definition getDefaultPowerSourceRechargeableBatteryClusterServer (batPercentRemaining batChargeLevel batVoltage batReplaceability : value) : object :=
  [("status", enum "PowerSourceStatus" "Active"); ("order", Num 0); ("description", Str "Primary battery"); ("endpointList", Arr []);
   ("batVoltage", param batVoltage (Num 1500)); ("batPercentRemaining", halves (param batPercentRemaining (Num 100)));
   ("batTimeRemaining", Null); ("batChargeLevel", param batChargeLevel (enum "BatChargeLevel" "Ok")); ("batReplacementNeeded", Bool false);
   ("batReplaceability", param batReplaceability (enum "BatReplaceability" "Unspecified")); ("batPresent", Bool true);
   ("activeBatFaults", Arr []); ("batChargeState", enum "BatChargeState" "IsNotCharging"); ("batFunctionalWhileCharging", Bool true)].
Definition createDefaultPowerSourceRechargeableBatteryClusterServer (percent level voltage replaceability : value) : World -> World :=
  server "PowerSource" ["battery"; "rechargeable"] (getDefaultPowerSourceRechargeableBatteryClusterServer percent level voltage replaceability).

Definition createDefaultPowerTopologyClusterServer : World -> World := server "PowerTopology" ["treeTopology"] [].

(** *** Electrical measurement *)

Definition maxSafe : Z := 9007199254740991.
Definition accuracyOf (measurementType : string) (lo hi : Z) : value :=
  Obj [("measurementType", enum "MeasurementType" measurementType); ("measured", Bool true); ("minMeasuredValue", Num lo);
       ("maxMeasuredValue", Num hi); ("accuracyRanges", Arr [Obj [("rangeMin", Num lo); ("rangeMax", Num hi); ("fixedMax", Num 1)]])].
Definition safeAccuracy (measurementType : string) : value := accuracyOf measurementType (- maxSafe) maxSafe.

(** An energy that is not negative. *)
Definition energyOf (energy : value) : value :=
  match energy with Num n => if 0 <=? n then Obj [("energy", Num n)] else Null | _ => Null end.

Definition getDefaultElectricalEnergyMeasurementClusterServer (energyImported energyExported : value) : object :=
  [("accuracy", safeAccuracy "ElectricalEnergy"); ("cumulativeEnergyReset", Null);
   ("cumulativeEnergyImported", energyOf energyImported); ("cumulativeEnergyExported", energyOf energyExported)].
Definition createDefaultElectricalEnergyMeasurementClusterServer (energyImported energyExported : value) : World -> World :=
  server "ElectricalEnergyMeasurement" ["importedEnergy"; "exportedEnergy"; "cumulativeEnergy"]
    (getDefaultElectricalEnergyMeasurementClusterServer energyImported energyExported).

Definition getDefaultElectricalPowerMeasurementClusterServer (voltage current power frequency : value) : object :=
  [("powerMode", enum "PowerMode" "Ac"); ("numberOfMeasurementTypes", Num 4);
   ("accuracy", Arr (map safeAccuracy ["Voltage"; "ActiveCurrent"; "ActivePower"; "Frequency"])); ("voltage", param voltage Null);
   ("activeCurrent", param current Null); ("activePower", param power Null); ("frequency", param frequency Null)].
Definition createDefaultElectricalPowerMeasurementClusterServer (voltage current power frequency : value) : World -> World :=
  server "ElectricalPowerMeasurement" ["alternatingCurrent"] (getDefaultElectricalPowerMeasurementClusterServer voltage current power frequency).

Definition getApparentElectricalPowerMeasurementClusterServer (voltage apparentCurrent apparentPower frequency : value) : object :=
  [("powerMode", enum "PowerMode" "Ac"); ("numberOfMeasurementTypes", Num 4);
   ("accuracy", Arr (map safeAccuracy ["Voltage"; "ApparentCurrent"; "ApparentPower"; "Frequency"])); ("voltage", param voltage Null);
   ("apparentCurrent", param apparentCurrent Null); ("apparentPower", param apparentPower Null); ("frequency", param frequency Null)].
Definition createApparentElectricalPowerMeasurementClusterServer (voltage current power frequency : value) : World -> World :=
  server "ElectricalPowerMeasurement" ["alternatingCurrent"] (getApparentElectricalPowerMeasurementClusterServer voltage current power frequency).

(** *** Energy management *)

Definition getDefaultDeviceEnergyManagementClusterServer (esaType esaCanGenerate esaState absMinPower absMaxPower : value) : object :=
  [("esaType", param esaType (enum "EsaType" "Other")); ("esaCanGenerate", param esaCanGenerate (Bool false));
   ("esaState", param esaState (enum "EsaState" "Online")); ("absMinPower", param absMinPower (Num 0)); ("absMaxPower", param absMaxPower (Num 0));
   ("powerAdjustmentCapability", Null); ("optOutState", enum "OptOutState" "NoOptOut"); ("forecast", Null)].
Definition createDefaultDeviceEnergyManagementClusterServer (esaType esaCanGenerate esaState absMinPower absMaxPower : value) : World -> World :=
  server "DeviceEnergyManagement" ["powerForecastReporting"; "powerAdjustment"]
    (getDefaultDeviceEnergyManagementClusterServer esaType esaCanGenerate esaState absMinPower absMaxPower).

Definition modeOption (label : string) (mode : Z) (tags : list string) : value :=
  Obj [("label", Str label); ("mode", Num mode); ("modeTags", Arr (map (fun t => Obj [("value", enum "ModeTag" t)]) tags))].

Definition defaultEnergyModes : value :=
  Arr [modeOption "No Energy Management (Forecast reporting only)" 1 ["NoOptimization"];
       modeOption "Device Energy Management" 2 ["DeviceOptimization"; "LocalOptimization"];
       modeOption "Home Energy Management" 3 ["GridOptimization"; "LocalOptimization"];
       modeOption "Grid Energy Management" 4 ["GridOptimization"];
       modeOption "Full Energy Management" 5 ["DeviceOptimization"; "LocalOptimization"; "GridOptimization"]].

Definition getDefaultDeviceEnergyManagementModeClusterServer (currentMode supportedModes : value) : object :=
  [("supportedModes", coalesce supportedModes defaultEnergyModes); ("currentMode", coalesce currentMode (Num 1))].
Definition createDefaultDeviceEnergyManagementModeClusterServer (currentMode supportedModes : value) : World -> World :=
  server "DeviceEnergyManagementMode" [] (getDefaultDeviceEnergyManagementModeClusterServer currentMode supportedModes).

(** *** Identification, groups and scenes *)

Definition createDefaultIdentifyClusterServer (identifyTime identifyType : value) : World -> World :=
  server "Identify" [] [("identifyTime", param identifyTime (Num 0)); ("identifyType", param identifyType (enum "IdentifyType" "None"))].
Definition createDefaultGroupsClusterServer : World -> World := server "Groups" [] [].
Definition createDefaultScenesManagementClusterServer : World -> World := server "ScenesManagement" [] [].

(** *** Lights *)

Definition createDefaultOnOffClusterServer (onOff globalSceneControl onTime offWaitTime startUpOnOff : value) : World -> World :=
  server "OnOff" ["lighting"]
    [("onOff", param onOff (Bool false)); ("globalSceneControl", param globalSceneControl (Bool false)); ("onTime", param onTime (Num 0));
     ("offWaitTime", param offWaitTime (Num 0)); ("startUpOnOff", param startUpOnOff Null)].
Definition createOnOffClusterServer (onOff : value) : World -> World := server "OnOff" [] [("onOff", param onOff (Bool false))].
Definition createDeadFrontOnOffClusterServer (onOff : value) : World -> World :=
  server "OnOff" ["deadFrontBehavior"] [("onOff", param onOff (Bool false))].
Definition createOffOnlyOnOffClusterServer (onOff : value) : World -> World :=
  server "OnOff" ["offOnly"] [("onOff", param onOff (Bool false))].

Definition levelOptions : value := Obj [("executeIfOff", Bool false); ("coupleColorTempToLevel", Bool false)].
Definition createDefaultLevelControlClusterServer (currentLevel minLevel maxLevel onLevel startUpCurrentLevel : value) : World -> World :=
  server "LevelControl" ["onOff"; "lighting"]
    [("currentLevel", param currentLevel (Num 254)); ("minLevel", param minLevel (Num 1)); ("maxLevel", param maxLevel (Num 254));
     ("onLevel", param onLevel Null); ("remainingTime", Num 0); ("startUpCurrentLevel", param startUpCurrentLevel Null); ("options", levelOptions)].
Definition createLevelControlClusterServer (currentLevel onLevel : value) : World -> World :=
  server "LevelControl" [] [("currentLevel", param currentLevel (Num 254)); ("onLevel", param onLevel Null); ("options", levelOptions)].

(** *** Colors *)

(** The modes of colors: hue and saturation, x and y, temperature, enhanced hue. *)
Definition hueAndSaturation : value := Num 0.
Definition xAndY : value := Num 1.
Definition mireds : value := Num 2.
Definition enhancedHue : value := Num 3.

(** The attributes that the servers for colors share. *)
Definition colors (mode enhancedMode : value) (xy hs enhanced : bool) (own : object)
    (colorTemperatureMireds colorTempPhysicalMinMireds colorTempPhysicalMaxMireds : value) : object :=
  ([("colorMode", mode); ("enhancedColorMode", enhancedMode);
    ("colorCapabilities", Obj [("xy", Bool xy); ("hueSaturation", Bool hs); ("colorLoop", Bool false); ("enhancedHue", Bool enhanced);
                               ("colorTemperature", Bool true)]);
    ("options", Obj [("executeIfOff", Bool false)]); ("numberOfPrimaries", Null)] ++ own ++
   [("colorTemperatureMireds", colorTemperatureMireds); ("colorTempPhysicalMinMireds", colorTempPhysicalMinMireds);
    ("colorTempPhysicalMaxMireds", colorTempPhysicalMaxMireds); ("coupleColorTempToLevelMinMireds", colorTempPhysicalMinMireds);
    ("startUpColorTemperatureMireds", Null); ("remainingTime", Num 0)])%list.

Definition createDefaultColorControlClusterServer (currentX currentY currentHue currentSaturation temperature least most : value) : World -> World :=
  server "ColorControl" ["xy"; "hueSaturation"; "colorTemperature"]
    (colors hueAndSaturation hueAndSaturation true true false
      [("currentX", param currentX (Num 0)); ("currentY", param currentY (Num 0)); ("currentHue", param currentHue (Num 0));
       ("currentSaturation", param currentSaturation (Num 0))]
      (param temperature (Num 500)) (param least (Num 147)) (param most (Num 500))).

(** [Math.round(x / 65535 * 254)]: no product is half way between two integers. *)
Definition hueOf (enhancedCurrentHue : value) : value := mapNum (fun x => (x * 508 + 65535) / 131070) enhancedCurrentHue.

Definition createEnhancedColorControlClusterServer (currentX currentY enhancedCurrentHue currentSaturation temperature least most : value) : World -> World :=
  server "ColorControl" ["xy"; "hueSaturation"; "enhancedHue"; "colorTemperature"]
    (colors hueAndSaturation enhancedHue true true true
      [("currentX", param currentX (Num 0)); ("currentY", param currentY (Num 0)); ("currentHue", hueOf (param enhancedCurrentHue (Num 0)));
       ("enhancedCurrentHue", param enhancedCurrentHue (Num 0)); ("currentSaturation", param currentSaturation (Num 0))]
      (param temperature (Num 500)) (param least (Num 147)) (param most (Num 500))).

Definition createXyColorControlClusterServer (currentX currentY temperature least most : value) : World -> World :=
  server "ColorControl" ["xy"; "colorTemperature"]
    (colors xAndY xAndY true false false [("currentX", param currentX (Num 0)); ("currentY", param currentY (Num 0))]
      (param temperature (Num 500)) (param least (Num 147)) (param most (Num 500))).

Definition createHsColorControlClusterServer (currentHue currentSaturation temperature least most : value) : World -> World :=
  server "ColorControl" ["hueSaturation"; "colorTemperature"]
    (colors hueAndSaturation hueAndSaturation false true false
      [("currentHue", param currentHue (Num 0)); ("currentSaturation", param currentSaturation (Num 0))]
      (param temperature (Num 500)) (param least (Num 147)) (param most (Num 500))).

Definition createCtColorControlClusterServer (temperature least most : value) : World -> World :=
  server "ColorControl" ["colorTemperature"]
    (colors mireds mireds false false false [] (param temperature (Num 250)) (param least (Num 147)) (param most (Num 500))).

(** *** Window coverings *)

Definition coveringConfig (tilt : bool) : value :=
  Obj [("operational", Bool true); ("onlineReserved", Bool false); ("liftMovementReversed", Bool false); ("liftPositionAware", Bool true);
       ("tiltPositionAware", Bool tilt); ("liftEncoderControlled", Bool false); ("tiltEncoderControlled", Bool false)].
Definition coveringMode : value := Obj (flags false ["motorDirectionReversed"; "calibrationMode"; "maintenanceMode"; "ledFeedback"]).

Definition createDefaultWindowCoveringClusterServer (position type endProductType : value) : World -> World :=
  server "WindowCovering" ["lift"; "positionAwareLift"]
    [("type", param type (enum "WindowCoveringType" "Rollershade")); ("numberOfActuationsLift", Num 0); ("configStatus", coveringConfig false);
     ("operationalStatus", movement (Num 0)); ("endProductType", param endProductType (enum "EndProductType" "RollerShade")); ("mode", coveringMode);
     ("targetPositionLiftPercent100ths", coalesce position (Num 0)); ("currentPositionLiftPercent100ths", coalesce position (Num 0))].

Definition createDefaultLiftTiltWindowCoveringClusterServer (lift tilt type endProductType : value) : World -> World :=
  server "WindowCovering" ["lift"; "positionAwareLift"; "tilt"; "positionAwareTilt"]
    [("type", param type (enum "WindowCoveringType" "TiltBlindLift")); ("numberOfActuationsLift", Num 0); ("numberOfActuationsTilt", Num 0);
     ("configStatus", coveringConfig true); ("operationalStatus", movement (Num 0));
     ("endProductType", param endProductType (enum "EndProductType" "InteriorBlind")); ("mode", coveringMode);
     ("targetPositionLiftPercent100ths", coalesce lift (Num 0)); ("currentPositionLiftPercent100ths", coalesce lift (Num 0));
     ("targetPositionTiltPercent100ths", coalesce tilt (Num 0)); ("currentPositionTiltPercent100ths", coalesce tilt (Num 0))].

(** *** Thermostats *)

Definition temperatures (localTemperature outdoorTemperature : value) : object :=
  ([("localTemperature", times 100 localTemperature); ("externalMeasuredIndoorTemperature", times 100 localTemperature)] ++
   given outdoorTemperature [("outdoorTemperature", match outdoorTemperature with Null => Null | v => times 100 v end)])%list.
Definition runningState : string * value :=
  ("thermostatRunningState", Obj (flags false ["heat"; "cool"; "fan"; "heatStage2"; "coolStage2"; "fanStage2"; "fanStage3"])).
Definition heating (setpoint least most : value) : object :=
  [("occupiedHeatingSetpoint", times 100 setpoint); ("minHeatSetpointLimit", times 100 least); ("maxHeatSetpointLimit", times 100 most);
   ("absMinHeatSetpointLimit", times 100 least); ("absMaxHeatSetpointLimit", times 100 most)].
Definition cooling (setpoint least most : value) : object :=
  [("occupiedCoolingSetpoint", times 100 setpoint); ("minCoolSetpointLimit", times 100 least); ("maxCoolSetpointLimit", times 100 most);
   ("absMinCoolSetpointLimit", times 100 least); ("absMaxCoolSetpointLimit", times 100 most)].
Definition autoMode (minSetpointDeadBand : value) : object :=
  [("minSetpointDeadBand", times 10 minSetpointDeadBand); ("thermostatRunningMode", enum "ThermostatRunningMode" "Off")].
Definition unoccupied (k : string) (setpoint : value) (d : Z) : string * value := (k, if isUndefined setpoint then Num d else times 100 setpoint).
Definition occupancy (occupied : value) : object := [("occupancy", Obj [("occupied", occupied)]); ("externallyMeasuredOccupancy", Bool true)].
Definition withOccupancy (occupied : value) (features : list string) : list string :=
  (features ++ if isUndefined occupied then [] else ["occupancy"])%list.

(** The attributes of thermostats that heat and cool, with what comes between the
    temperatures and the setpoints. *)
Definition autoThermostat (l hs cs dead hl hm cl cm uh uc occupied outdoor : value) (between : object) : object :=
  (temperatures (param l (Num 23)) outdoor ++ between ++ heating (param hs (Num 21)) (param hl (Num 0)) (param hm (Num 50)) ++
   cooling (param cs (Num 25)) (param cl (Num 0)) (param cm (Num 50)) ++ autoMode (param dead (Num 0)) ++
   given occupied (unoccupied "unoccupiedHeatingSetpoint" uh 1900 :: unoccupied "unoccupiedCoolingSetpoint" uc 2700 :: occupancy occupied))%list.
Definition coolingAndHeating : object :=
  [("controlSequenceOfOperation", enum "ControlSequenceOfOperation" "CoolingAndHeating"); ("systemMode", enum "SystemMode" "Auto")].

Definition createDefaultThermostatClusterServer (l hs cs dead hl hm cl cm uh uc occupied outdoor : value) : World -> World :=
  server "Thermostat" (withOccupancy occupied ["heating"; "cooling"; "autoMode"])
    (autoThermostat l hs cs dead hl hm cl cm uh uc occupied outdoor (coolingAndHeating ++ [runningState])).

Definition createDefaultHeatingThermostatClusterServer (l hs hl hm uh occupied outdoor : value) : World -> World :=
  server "Thermostat" (withOccupancy occupied ["heating"])
    (temperatures (param l (Num 23)) outdoor ++
     [("controlSequenceOfOperation", enum "ControlSequenceOfOperation" "HeatingOnly"); ("systemMode", enum "SystemMode" "Heat"); runningState] ++
     heating (param hs (Num 21)) (param hl (Num 0)) (param hm (Num 50)) ++
     given occupied (unoccupied "unoccupiedHeatingSetpoint" uh 1900 :: occupancy occupied)).

Definition createDefaultCoolingThermostatClusterServer (l cs cl cm uc occupied outdoor : value) : World -> World :=
  server "Thermostat" (withOccupancy occupied ["cooling"])
    (temperatures (param l (Num 23)) outdoor ++
     [("controlSequenceOfOperation", enum "ControlSequenceOfOperation" "CoolingOnly"); ("systemMode", enum "SystemMode" "Cool"); runningState] ++
     cooling (param cs (Num 25)) (param cl (Num 0)) (param cm (Num 50)) ++
     given occupied (unoccupied "unoccupiedCoolingSetpoint" uc 2700 :: occupancy occupied)).

(** Handles are arrays of bytes. [Uint8Array.from([handle])] makes one byte of a whole
    handle: the number that its text is, if it has one byte or none, and 0 otherwise. *)
Definition activeHandle (handle : value) : value :=
  match handle with
  | Arr [Num n] => Arr [Num n]
  | Arr _ => Arr [Num 0]
  | _ => Null
  end.

Definition presetOf (p : value) : value :=
  Obj [("presetHandle", if truthy (optProp p "presetHandle") then optProp p "presetHandle" else Null);
       ("presetScenario", optProp p "presetScenario"); ("name", optProp p "name"); ("coolingSetpoint", optProp p "coolingSetpoint");
       ("heatingSetpoint", optProp p "heatingSetpoint"); ("builtIn", coalesce (optProp p "builtIn") (Bool true))].

Definition presetFeatures : value := Obj [("automatic", Bool false); ("supportsNames", Bool true)].
Definition presetTypeOf (pt : value) : value :=
  let f := match pt with Obj f => f | _ => [] end in
  Obj (setField "presetTypeFeatures" (coalesce (getField "presetTypeFeatures" f) presetFeatures)
        (setField "numberOfPresets" (coalesce (getField "numberOfPresets" f) (Num 0)) f)).
Definition defaultPresetTypes : value :=
  Arr (map (fun s => Obj [("presetScenario", enum "PresetScenario" s); ("numberOfPresets", Num 2); ("presetTypeFeatures", presetFeatures)])
    ["Occupied"; "Unoccupied"]).

Definition createDefaultPresetsThermostatClusterServer
    (l hs cs dead hl hm cl cm uh uc occupied outdoor activePresetHandle presets presetTypes : value) : World -> World :=
  let presets := param presets (Arr []) in
  server "Thermostat" (withOccupancy occupied ["heating"; "cooling"; "autoMode"] ++ ["presets"])
    (autoThermostat l hs cs dead hl hm cl cm uh uc occupied outdoor coolingAndHeating ++
     [("numberOfPresets", Num (Z.max (Z.of_nat (length (items presets))) 10));
      ("activePresetHandle", activeHandle (param activePresetHandle Null));
      ("presets", Arr (map presetOf (items presets)));
      ("presetTypes", Arr (map presetTypeOf (items (param presetTypes defaultPresetTypes))))]).

Definition createDefaultThermostatUserInterfaceConfigurationClusterServer (displayMode keypadLockout visibility : value) : World -> World :=
  server "ThermostatUserInterfaceConfiguration" []
    [("temperatureDisplayMode", param displayMode (enum "TemperatureDisplayMode" "Celsius"));
     ("keypadLockout", param keypadLockout (enum "KeypadLockout" "NoLockout"));
     ("scheduleProgrammingVisibility", param visibility (enum "ScheduleProgrammingVisibility" "ScheduleProgrammingPermitted"))].

(** *** Fans and filters *)

Definition fan (fanMode fanModeSequence : value) (sequence : string) (percentSetting percentCurrent : value) : object :=
  [("fanMode", param fanMode (enum "FanMode" "Off")); ("fanModeSequence", param fanModeSequence (enum "FanModeSequence" sequence));
   ("percentSetting", param percentSetting (Num 0)); ("percentCurrent", param percentCurrent (Num 0))].
Definition speeds (speedMax speedSetting speedCurrent : value) : object :=
  [("speedMax", param speedMax (Num 10)); ("speedSetting", param speedSetting (Num 0)); ("speedCurrent", param speedCurrent (Num 0))].

Definition createDefaultFanControlClusterServer (fanMode sequence setting current : value) : World -> World :=
  server "FanControl" ["auto"; "step"] (fan fanMode sequence "OffLowMedHighAuto" setting current).
Definition createOnOffFanControlClusterServer (fanMode : value) : World -> World :=
  server "FanControl" [] (fan fanMode Undefined "OffHigh" (Num 0) (Num 0)).
Definition createBaseFanControlClusterServer (fanMode sequence setting current : value) : World -> World :=
  server "FanControl" [] (fan fanMode sequence "OffLowMedHigh" setting current).
Definition createMultiSpeedFanControlClusterServer (fanMode sequence setting current speedMax speedSetting speedCurrent : value) : World -> World :=
  server "FanControl" ["multiSpeed"; "auto"; "step"]
    (fan fanMode sequence "OffLowMedHighAuto" setting current ++ speeds speedMax speedSetting speedCurrent).

Definition rocking (leftRight upDown round : bool) : value :=
  Obj [("rockLeftRight", Bool leftRight); ("rockUpDown", Bool upDown); ("rockRound", Bool round)].
Definition winds (sleep natural : bool) : value := Obj [("sleepWind", Bool sleep); ("naturalWind", Bool natural)].
Definition createCompleteFanControlClusterServer
    (fanMode sequence setting current speedMax speedSetting speedCurrent rockSupport rockSetting windSupport windSetting direction : value) : World -> World :=
  server "FanControl" ["multiSpeed"; "auto"; "step"; "rocking"; "wind"; "airflowDirection"]
    (fan fanMode sequence "OffLowMedHighAuto" setting current ++ speeds speedMax speedSetting speedCurrent ++
     [("rockSupport", param rockSupport (rocking true true true)); ("rockSetting", param rockSetting (rocking true false false));
      ("windSupport", param windSupport (winds true true)); ("windSetting", param windSetting (winds false true));
      ("airflowDirection", param direction (enum "AirflowDirection" "Forward"))]).

Definition filter (condition changeIndication inPlaceIndicator lastChangedTime products : value) : object :=
  [("condition", param condition (Num 100)); ("degradationDirection", enum "DegradationDirection" "Down");
   ("replacementProductList", param products (Arr [])); ("changeIndication", param changeIndication (enum "ChangeIndication" "Ok"));
   ("inPlaceIndicator", param inPlaceIndicator (Bool true)); ("lastChangedTime", param lastChangedTime Null)].
Definition createDefaultHepaFilterMonitoringClusterServer (condition change inPlace lastChanged products : value) : World -> World :=
  server "HepaFilterMonitoring" ["condition"; "warning"; "replacementProductList"] (filter condition change inPlace lastChanged products).
Definition createDefaultActivatedCarbonFilterMonitoringClusterServer (condition change inPlace lastChanged products : value) : World -> World :=
  server "ActivatedCarbonFilterMonitoring" ["condition"; "warning"; "replacementProductList"] (filter condition change inPlace lastChanged products).

(** *** Locks, valves, pumps and modes *)

(** All operating modes that are not supported are set. *)
Definition operatingModes : value :=
  Obj [("normal", Bool false); ("vacation", Bool true); ("privacy", Bool true); ("noRemoteLockUnlock", Bool false); ("passage", Bool true);
       ("alwaysSet", Num 2047)].
Definition lock (lockState lockType autoRelockTime : value) : object :=
  [("lockState", param lockState (enum "LockState" "Locked")); ("lockType", param lockType (enum "LockType" "DeadBolt"));
   ("actuatorEnabled", Bool true); ("operatingMode", enum "OperatingMode" "Normal"); ("supportedOperatingModes", operatingModes);
   ("autoRelockTime", param autoRelockTime (Num 0))].
Definition createDefaultDoorLockClusterServer (lockState lockType autoRelockTime : value) : World -> World :=
  server "DoorLock" [] (lock lockState lockType autoRelockTime).
Definition createUserPinDoorLockClusterServer (lockState lockType autoRelockTime minPinCodeLength maxPinCodeLength : value) : World -> World :=
  server "DoorLock" ["user"; "pinCredential"]
    (lock lockState lockType autoRelockTime ++
     [("numberOfPinUsersSupported", Num 10); ("minPinCodeLength", param minPinCodeLength (Num 4)); ("maxPinCodeLength", param maxPinCodeLength (Num 10));
      ("wrongCodeEntryLimit", Num 5); ("userCodeTemporaryDisableTime", Num 60); ("numberOfTotalUsersSupported", Num 10);
      ("credentialRulesSupport", Obj [("single", Bool true)]); ("numberOfCredentialsSupportedPerUser", Num 10)]).

Definition createDefaultModeSelectClusterServer (description supportedModes currentMode startUpMode : value) : World -> World :=
  server "ModeSelect" []
    [("description", description); ("standardNamespace", Null); ("supportedModes", supportedModes); ("currentMode", param currentMode (Num 0));
     ("startUpMode", param startUpMode (Num 0))].

Definition createDefaultValveConfigurationAndControlClusterServer (valveState valveLevel : value) : World -> World :=
  let valveState := param valveState (enum "ValveState" "Closed") in
  let valveLevel := param valveLevel (Num 0) in
  server "ValveConfigurationAndControl" ["level"]
    [("currentState", valveState); ("targetState", valveState); ("openDuration", Null); ("defaultOpenDuration", Null); ("remainingDuration", Null);
     ("valveFault", Obj (flags false ["generalFault"; "blocked"; "leaking"; "notConnected"; "shortCircuit"; "currentExceeded"]));
     ("currentLevel", valveLevel); ("targetLevel", valveLevel); ("defaultOpenLevel", Num 100); ("levelStep", Num 1)].

Definition createDefaultPumpConfigurationAndControlClusterServer (pumpMode : value) : World -> World :=
  let pumpMode := param pumpMode (enum "OperationMode" "Normal") in
  server "PumpConfigurationAndControl" ["constantSpeed"]
    [("minConstSpeed", Null); ("maxConstSpeed", Null); ("maxPressure", Null); ("maxSpeed", Null); ("maxFlow", Null);
     ("effectiveOperationMode", pumpMode); ("effectiveControlMode", enum "ControlMode" "ConstantSpeed"); ("capacity", Null); ("operationMode", pumpMode)].

(** *** Alarms and switches *)

Definition alarm : object :=
  [("expressedState", enum "ExpressedState" "Normal"); ("batteryAlert", enum "AlarmState" "Normal"); ("deviceMuted", enum "MuteState" "NotMuted");
   ("testInProgress", Bool false); ("hardwareFaultAlert", Bool false); ("endOfServiceAlert", enum "EndOfService" "Normal")].
Definition createDefaultSmokeCOAlarmClusterServer (smokeState coState : value) : World -> World :=
  server "SmokeCoAlarm" ["smokeAlarm"; "coAlarm"]
    ([("smokeState", param smokeState (enum "AlarmState" "Normal")); ("coState", param coState (enum "AlarmState" "Normal"))] ++ alarm).
Definition createSmokeOnlySmokeCOAlarmClusterServer (smokeState : value) : World -> World :=
  server "SmokeCoAlarm" ["smokeAlarm"] (("smokeState", param smokeState (enum "AlarmState" "Normal")) :: alarm).
Definition createCoOnlySmokeCOAlarmClusterServer (coState : value) : World -> World :=
  server "SmokeCoAlarm" ["coAlarm"] (("coState", param coState (enum "AlarmState" "Normal")) :: alarm).

Definition positions : object := [("numberOfPositions", Num 2); ("currentPosition", Num 0)].
Definition createDefaultSwitchClusterServer : World -> World :=
  server "Switch" ["momentarySwitch"; "momentarySwitchRelease"; "momentarySwitchLongPress"; "momentarySwitchMultiPress"]
    (positions ++ [("multiPressMax", Num 2)]).
Definition createDefaultMomentarySwitchClusterServer : World -> World := server "Switch" ["momentarySwitch"] positions.
Definition createDefaultLatchingSwitchClusterServer : World -> World := server "Switch" ["latchingSwitch"] positions.

(** *** States *)

Definition getDefaultOperationalStateClusterServer (operationalState : value) : object :=
  [("phaseList", Arr []); ("currentPhase", Null); ("countdownTime", Null);
   ("operationalStateList", Arr (map (fun s => Obj [("operationalStateId", enum "OperationalState" s)]) ["Stopped"; "Running"; "Paused"; "Error"]));
   ("operationalState", param operationalState (enum "OperationalState" "Stopped")); ("operationalError", noError)].
Definition createDefaultOperationalStateClusterServer (operationalState : value) : World -> World :=
  server "OperationalState" [] (getDefaultOperationalStateClusterServer operationalState).

Definition createDefaultBooleanStateClusterServer (contact : value) : World -> World :=
  server "BooleanState" [] [("stateValue", coalesce contact (Bool true))].
Definition createDefaultBooleanStateConfigurationClusterServer (sensorFault current supported default : value) : World -> World :=
  let both (b : bool) := Obj (flags b ["visual"; "audible"]) in
  server "BooleanStateConfiguration" ["visual"; "audible"; "sensitivityLevel"]
    [("currentSensitivityLevel", param current (Num 0)); ("supportedSensitivityLevels", param supported (Num 2));
     ("defaultSensitivityLevel", param default (Num 0)); ("alarmsActive", both false); ("alarmsEnabled", both true); ("alarmsSupported", both true);
     ("sensorFault", Obj [("generalFault", param sensorFault (Bool false))])].

(** *** Measurements *)

Definition measurement (measured least most : value) : object :=
  [("measuredValue", param measured Null); ("minMeasuredValue", param least Null); ("maxMeasuredValue", param most Null); ("tolerance", Num 0)].
Definition getDefaultTemperatureMeasurementClusterServer : value -> value -> value -> object := measurement.
Definition getDefaultRelativeHumidityMeasurementClusterServer : value -> value -> value -> object := measurement.
Definition getDefaultPressureMeasurementClusterServer : value -> value -> value -> object := measurement.
Definition getDefaultIlluminanceMeasurementClusterServer : value -> value -> value -> object := measurement.
Definition getDefaultFlowMeasurementClusterServer : value -> value -> value -> object := measurement.
Definition createDefaultTemperatureMeasurementClusterServer (measured least most : value) : World -> World :=
  server "TemperatureMeasurement" [] (getDefaultTemperatureMeasurementClusterServer measured least most).
Definition createDefaultRelativeHumidityMeasurementClusterServer (measured least most : value) : World -> World :=
  server "RelativeHumidityMeasurement" [] (getDefaultRelativeHumidityMeasurementClusterServer measured least most).
Definition createDefaultPressureMeasurementClusterServer (measured least most : value) : World -> World :=
  server "PressureMeasurement" [] (getDefaultPressureMeasurementClusterServer measured least most).
Definition createDefaultIlluminanceMeasurementClusterServer (measured least most : value) : World -> World :=
  server "IlluminanceMeasurement" [] (getDefaultIlluminanceMeasurementClusterServer measured least most).
Definition createDefaultFlowMeasurementClusterServer (measured least most : value) : World -> World :=
  server "FlowMeasurement" [] (getDefaultFlowMeasurementClusterServer measured least most).

Definition getDefaultOccupancySensingClusterServer (occupied holdTime holdTimeMin holdTimeMax : value) : object :=
  let holdTime := param holdTime (Num 30) in
  [("occupancy", Obj [("occupied", param occupied (Bool false))]); ("occupancySensorType", enum "OccupancySensorType" "Pir");
   ("occupancySensorTypeBitmap", Obj [("pir", Bool true); ("ultrasonic", Bool false); ("physicalContact", Bool false)]);
   ("pirOccupiedToUnoccupiedDelay", holdTime); ("pirUnoccupiedToOccupiedDelay", holdTime); ("pirUnoccupiedToOccupiedThreshold", Num 1);
   ("holdTime", holdTime);
   ("holdTimeLimits", Obj [("holdTimeMin", param holdTimeMin (Num 1)); ("holdTimeMax", param holdTimeMax (Num 300)); ("holdTimeDefault", holdTime)])].
Definition createDefaultOccupancySensingClusterServer (occupied holdTime holdTimeMin holdTimeMax : value) : World -> World :=
  server "OccupancySensing" ["passiveInfrared"] (getDefaultOccupancySensingClusterServer occupied holdTime holdTimeMin holdTimeMax).

Definition getDefaultSoilMeasurementClusterServer (measured limits : value) : object :=
  [("soilMoistureMeasuredValue", param measured Null); ("soilMoistureMeasurementLimits", coalesce limits (accuracyOf "SoilMoisture" 0 100))].
Definition createDefaultSoilMeasurementClusterServer (measured limits : value) : World -> World :=
  server "SoilMeasurement" [] (getDefaultSoilMeasurementClusterServer measured limits).

(** *** Air quality *)

Definition createDefaultAirQualityClusterServer (airQuality : value) : World -> World :=
  server "AirQuality" ["fair"; "moderate"; "veryPoor"; "extremelyPoor"] [("airQuality", param airQuality (enum "AirQualityEnum" "Unknown"))].

Definition concentration (measured uncertainty unit_ medium : value) : object :=
  [("measuredValue", param measured Null); ("minMeasuredValue", Null); ("maxMeasuredValue", Null); ("uncertainty", uncertainty);
   ("measurementUnit", unit_); ("measurementMedium", param medium (enum "MeasurementMedium" "Air"))].
Definition createDefaultTvocMeasurementClusterServer (measured unit_ medium uncertainty : value) : World -> World :=
  server "TotalVolatileOrganicCompoundsConcentrationMeasurement" ["numericMeasurement"]
    (concentration measured uncertainty (param unit_ (enum "MeasurementUnit" "Ugm3")) medium).
Definition createLevelTvocMeasurementClusterServer (levelValue medium : value) : World -> World :=
  server "TotalVolatileOrganicCompoundsConcentrationMeasurement" ["levelIndication"; "mediumLevel"; "criticalLevel"]
    [("levelValue", param levelValue (enum "LevelValue" "Unknown")); ("measurementMedium", param medium (enum "MeasurementMedium" "Air"))].

(** The other concentrations: they differ in the default of the unit. *)
Definition concentrationOf (c u : string) (measured unit_ medium : value) : World -> World :=
  server c ["numericMeasurement"] (concentration measured (Num 0) (param unit_ (enum "MeasurementUnit" u)) medium).
Definition createDefaultCarbonMonoxideConcentrationMeasurementClusterServer : value -> value -> value -> World -> World :=
  concentrationOf "CarbonMonoxideConcentrationMeasurement" "Ppm".
Definition createDefaultCarbonDioxideConcentrationMeasurementClusterServer : value -> value -> value -> World -> World :=
  concentrationOf "CarbonDioxideConcentrationMeasurement" "Ppm".
Definition createDefaultFormaldehydeConcentrationMeasurementClusterServer : value -> value -> value -> World -> World :=
  concentrationOf "FormaldehydeConcentrationMeasurement" "Mgm3".
Definition createDefaultPm1ConcentrationMeasurementClusterServer : value -> value -> value -> World -> World :=
  concentrationOf "Pm1ConcentrationMeasurement" "Ugm3".
Definition createDefaultPm25ConcentrationMeasurementClusterServer : value -> value -> value -> World -> World :=
  concentrationOf "Pm25ConcentrationMeasurement" "Ugm3".
Definition createDefaultPm10ConcentrationMeasurementClusterServer : value -> value -> value -> World -> World :=
  concentrationOf "Pm10ConcentrationMeasurement" "Ugm3".
Definition createDefaultOzoneConcentrationMeasurementClusterServer : value -> value -> value -> World -> World :=
  concentrationOf "OzoneConcentrationMeasurement" "Ugm3".
Definition createDefaultRadonConcentrationMeasurementClusterServer : value -> value -> value -> World -> World :=
  concentrationOf "RadonConcentrationMeasurement" "Bqm3".
Definition createDefaultNitrogenDioxideConcentrationMeasurementClusterServer : value -> value -> value -> World -> World :=
  concentrationOf "NitrogenDioxideConcentrationMeasurement" "Ugm3".

(** ** Servers by the ids of clusters *)

(** The servers that can be created by default, in the order of their creation. *)
Definition defaultServers : list (string * (World -> World)) :=
  [("PowerSource", createDefaultPowerSourceWiredClusterServer Undefined);
   ("Identify", createDefaultIdentifyClusterServer Undefined Undefined);
   ("Groups", createDefaultGroupsClusterServer);
   ("ScenesManagement", createDefaultScenesManagementClusterServer);
   ("OnOff", createDefaultOnOffClusterServer Undefined Undefined Undefined Undefined Undefined);
   ("LevelControl", createDefaultLevelControlClusterServer Undefined Undefined Undefined Undefined Undefined);
   ("ColorControl", createDefaultColorControlClusterServer Undefined Undefined Undefined Undefined Undefined Undefined Undefined);
   ("WindowCovering", createDefaultWindowCoveringClusterServer Undefined Undefined Undefined);
   ("Thermostat", createDefaultThermostatClusterServer Undefined Undefined Undefined Undefined Undefined Undefined Undefined Undefined Undefined Undefined Undefined Undefined);
   ("FanControl", createDefaultFanControlClusterServer Undefined Undefined Undefined Undefined);
   ("DoorLock", createDefaultDoorLockClusterServer Undefined Undefined Undefined);
   ("ValveConfigurationAndControl", createDefaultValveConfigurationAndControlClusterServer Undefined Undefined);
   ("PumpConfigurationAndControl", createDefaultPumpConfigurationAndControlClusterServer Undefined);
   ("SmokeCoAlarm", createDefaultSmokeCOAlarmClusterServer Undefined Undefined);
   ("Switch", createDefaultSwitchClusterServer);
   ("OperationalState", createDefaultOperationalStateClusterServer Undefined);
   ("BooleanState", createDefaultBooleanStateClusterServer Undefined);
   ("BooleanStateConfiguration", createDefaultBooleanStateConfigurationClusterServer Undefined Undefined Undefined Undefined);
   ("PowerTopology", createDefaultPowerTopologyClusterServer);
   ("ElectricalPowerMeasurement", createDefaultElectricalPowerMeasurementClusterServer Undefined Undefined Undefined Undefined);
   ("ElectricalEnergyMeasurement", createDefaultElectricalEnergyMeasurementClusterServer Undefined Undefined);
   ("TemperatureMeasurement", createDefaultTemperatureMeasurementClusterServer Undefined Undefined Undefined);
   ("RelativeHumidityMeasurement", createDefaultRelativeHumidityMeasurementClusterServer Undefined Undefined Undefined);
   ("PressureMeasurement", createDefaultPressureMeasurementClusterServer Undefined Undefined Undefined);
   ("FlowMeasurement", createDefaultFlowMeasurementClusterServer Undefined Undefined Undefined);
   ("IlluminanceMeasurement", createDefaultIlluminanceMeasurementClusterServer Undefined Undefined Undefined);
   ("OccupancySensing", createDefaultOccupancySensingClusterServer Undefined Undefined Undefined Undefined);
   ("SoilMeasurement", createDefaultSoilMeasurementClusterServer Undefined Undefined);
   ("AirQuality", createDefaultAirQualityClusterServer Undefined);
   ("CarbonMonoxideConcentrationMeasurement", createDefaultCarbonMonoxideConcentrationMeasurementClusterServer Undefined Undefined Undefined);
   ("CarbonDioxideConcentrationMeasurement", createDefaultCarbonDioxideConcentrationMeasurementClusterServer Undefined Undefined Undefined);
   ("NitrogenDioxideConcentrationMeasurement", createDefaultNitrogenDioxideConcentrationMeasurementClusterServer Undefined Undefined Undefined);
   ("OzoneConcentrationMeasurement", createDefaultOzoneConcentrationMeasurementClusterServer Undefined Undefined Undefined);
   ("FormaldehydeConcentrationMeasurement", createDefaultFormaldehydeConcentrationMeasurementClusterServer Undefined Undefined Undefined);
   ("Pm1ConcentrationMeasurement", createDefaultPm1ConcentrationMeasurementClusterServer Undefined Undefined Undefined);
   ("Pm25ConcentrationMeasurement", createDefaultPm25ConcentrationMeasurementClusterServer Undefined Undefined Undefined);
   ("Pm10ConcentrationMeasurement", createDefaultPm10ConcentrationMeasurementClusterServer Undefined Undefined Undefined);
   ("RadonConcentrationMeasurement", createDefaultRadonConcentrationMeasurementClusterServer Undefined Undefined Undefined);
   ("TotalVolatileOrganicCompoundsConcentrationMeasurement", createDefaultTvocMeasurementClusterServer Undefined Undefined Undefined Undefined);
   ("DeviceEnergyManagement", createDefaultDeviceEnergyManagementClusterServer Undefined Undefined Undefined Undefined Undefined);
   ("DeviceEnergyManagementMode", createDefaultDeviceEnergyManagementModeClusterServer Undefined Undefined)].

Definition addClusterServers (serverList : list string) (w : World) : World :=
  foldl (fun w cs => if bool_decide (fst cs ∈ serverList) then snd cs w else w) w defaultServers.

(** Clusters of some lists, each once, that satisfy a condition. *)
Definition collect (p : string -> bool) (lists : list (list string)) : list string :=
  foldl (fun acc c => if negb (bool_decide (c ∈ acc)) && p c then (acc ++ [c])%list else acc) [] (concat lists).

Definition missing (w : World) (c : string) : bool := negb (hasClusterServer w (ById c)).

Definition addRequiredClusterServers (types : list DeviceTypeDefinition) (w : World) : World :=
  addClusterServers (collect (missing w) (map requiredServerClusters types)) w.
Definition addOptionalClusterServers (types : list DeviceTypeDefinition) (w : World) : World :=
  addClusterServers (collect (missing w) (map optionalServerClusters types)) w.

(** The clusters that [getBehaviourTypeFromClusterServerId] and
    [getBehaviourTypeFromClusterClientId] have a class for. *)
Definition serverBehaviors : list string :=
  ["PowerSource"; "UserLabel"; "FixedLabel"; "BasicInformation"; "BridgedDeviceBasicInformation"; "Identify"; "Groups";
   "ScenesManagement"; "OnOff"; "LevelControl"; "ColorControl"; "WindowCovering"; "Thermostat"; "FanControl"; "DoorLock";
   "ModeSelect"; "ValveConfigurationAndControl"; "PumpConfigurationAndControl"; "SmokeCoAlarm"; "Switch"; "OperationalState";
   "BooleanState"; "BooleanStateConfiguration"; "PowerTopology"; "ElectricalPowerMeasurement"; "ElectricalEnergyMeasurement";
   "TemperatureMeasurement"; "RelativeHumidityMeasurement"; "PressureMeasurement"; "FlowMeasurement"; "IlluminanceMeasurement";
   "OccupancySensing"; "SoilMeasurement"; "AirQuality"; "CarbonMonoxideConcentrationMeasurement";
   "CarbonDioxideConcentrationMeasurement"; "NitrogenDioxideConcentrationMeasurement"; "OzoneConcentrationMeasurement";
   "FormaldehydeConcentrationMeasurement"; "Pm1ConcentrationMeasurement"; "Pm25ConcentrationMeasurement";
   "Pm10ConcentrationMeasurement"; "RadonConcentrationMeasurement"; "TotalVolatileOrganicCompoundsConcentrationMeasurement";
   "DeviceEnergyManagement"; "DeviceEnergyManagementMode"].
Definition clientBehaviors : list string :=
  ["Identify"; "Groups"; "OnOff"; "LevelControl"; "ColorControl"; "OccupancySensing"; "ScenesManagement"; "DoorLock";
   "ElectricalGridConditions"; "FanControl"; "FlowMeasurement"; "IlluminanceMeasurement"; "OtaSoftwareUpdateProvider";
   "OtaSoftwareUpdateRequestor"; "PressureMeasurement"; "PumpConfigurationAndControl"; "RelativeHumidityMeasurement";
   "TemperatureMeasurement"; "Thermostat"; "WindowCovering"].

(** ** Clients *)

(** [[...new Set(l)]]. *)
Definition unique (l : list value) : list value :=
  foldl (fun acc v => if bool_decide (v ∈ acc) then acc else (acc ++ [v])%list) [] l.

(** [idOf] is the id of a cluster; the second component are the classes in the client
    clusters of the type of the endpoint, by the keys they are stored with. *)
Definition addClusterClients (idOf : string -> Z) (clientList : list string) (st : World * list string) : World * list string :=
  if bool_decide (clientList = []) then st
  else
    let '(w, clients) := st in
    let ids := map (fun c => Num (idOf c)) clientList in
    let w := match servers w !! "Binding" with
             | None => require "Binding" [("clientList", Arr ids)] w
             | Some _ => setAttrs "Binding" [("clientList", Arr (unique (items (attr w "Binding" "clientList") ++ ids)%list))] w
             end in
    (w, foldl (fun clients c =>
           let key := lowercaseFirstLetter c in
           if negb (bool_decide (key ∈ clients)) && bool_decide (c ∈ clientBehaviors) then (clients ++ [key])%list else clients) clients clientList).

Definition addRequiredClusterClients (idOf : string -> Z) (types : list DeviceTypeDefinition) : World * list string -> World * list string :=
  addClusterClients idOf (collect (fun _ => true) (map requiredClientClusters types)).
Definition addOptionalClusterClients (idOf : string -> Z) (types : list DeviceTypeDefinition) : World * list string -> World * list string :=
  addClusterClients idOf (collect (fun _ => true) (map optionalClientClusters types)).
Definition createDefaultBindingClusterServer : (string -> Z) -> list string -> World * list string -> World * list string := addClusterClients.
End ClusterServers.
