(* ===== verification/ClusterServerFacts.v ===== *)
(** The servers that endpoints are given: those that their device types require, exactly,
    and the consistency of the tables of device types. *)
From S2P Require Import Prelude JsValue Validate Async Ownership Deep Behaviors BehaviorFacts Endpoint EndpointFacts DeviceTypes ClusterServers.
From stdpp Require Import gmap strings.
#[local] Open Scope string_scope.
#[local] Open Scope Z_scope.
Import Behaviors Validate Endpoint DeviceTypes ClusterServers.

(** ** Servers that are required *)

Lemma require_lookup c attributes w c' :
  servers (require c attributes w) !! c' =
    match servers w !! c' with Some f => Some f | None => if bool_decide (c = c') then Some attributes else None end.
Proof.
  unfold require. destruct (servers w !! c) as [f|] eqn:E.
  - destruct (servers w !! c') eqn:E'; [done|]. rewrite bool_decide_eq_false_2; [done|]. intros ->. congruence.
  - simpl. case_bool_decide as Hc.
    + subst c'. by rewrite lookup_insert_eq, E.
    + rewrite lookup_insert_ne by done. by destruct (servers w !! c').
Qed.

(** A function that requires one server. *)
Definition requires (c : string) (create : World -> World) : Prop := exists attributes, forall w, create w = require c attributes w.

Lemma defaultServers_require : Forall (fun cs => requires (fst cs) (snd cs)) defaultServers.
Proof. repeat (constructor; [eexists; intros w; reflexivity|]). constructor. Qed.

Definition defaultNames : list string := map fst defaultServers.

(** The attributes that a server has when it is created by default. *)
Definition defaultAttributes (c : string) : list (string * value) :=
  match List.find (fun cs => bool_decide (fst cs = c)) defaultServers with
  | Some cs => attributes (snd cs (mkWorld ∅ [] [] false)) c
  | None => []
  end.

Lemma requires_exact c create w c' :
  requires c create ->
  servers (create w) !! c' =
    match servers w !! c' with
    | Some f => Some f
    | None => if bool_decide (c = c') then Some (attributes (create (mkWorld ∅ [] [] false)) c) else None
    end.
Proof.
  intros [attrs H]. rewrite !H, require_lookup. destruct (servers w !! c'); [done|]. case_bool_decide; [|done].
  f_equal. unfold attributes. rewrite require_lookup. simpl. rewrite lookup_empty. by rewrite bool_decide_eq_true_2.
Qed.

Lemma addServers_exact l (serverList : list string) w c :
  Forall (fun cs => requires (fst cs) (snd cs)) l -> NoDup (map fst l) ->
  servers (foldl (fun w cs => if bool_decide (fst cs ∈ serverList) then snd cs w else w) w l) !! c =
    match servers w !! c with
    | Some f => Some f
    | None => if bool_decide (c ∈ serverList)
              then cs ← List.find (fun cs => bool_decide (fst cs = c)) l; Some (attributes (snd cs (mkWorld ∅ [] [] false)) c)
              else None
    end.
Proof.
  intros HF Hnd. revert w. induction HF as [|[c0 create] l Hc HF IH]; intros w; cbn [foldl fst snd map] in *.
  - destruct (servers w !! c); [done|]. by case_bool_decide.
  - apply NoDup_cons in Hnd as [Hc0 Hnd]. rewrite (IH Hnd). cbn [List.find fst].
    destruct (decide (c0 = c)) as [->|Hne].
    + rewrite (bool_decide_eq_true_2 (c = c)) by done. cbn [mbind option_bind snd].
      case_bool_decide as Hin; [|by destruct (servers w !! c)]. rewrite (requires_exact c create w c Hc).
      destruct (servers w !! c); [done|]. by rewrite bool_decide_eq_true_2.
    + rewrite (bool_decide_eq_false_2 (c0 = c)) by done. destruct (bool_decide (c0 ∈ serverList)); [|done].
      rewrite (requires_exact c0 create w c Hc), (bool_decide_eq_false_2 (c0 = c)) by done. by destruct (servers w !! c).
Qed.

Lemma find_default c (l : list (string * (World -> World))) : c ∈ map fst l <-> is_Some (List.find (fun cs => bool_decide (fst cs = c)) l).
Proof.
  induction l as [|[c0 f] l IH]; cbn [map fst List.find]; [split; [by intros H%not_elem_of_nil|by intros [? ?]]|].
  rewrite elem_of_cons, IH. case_bool_decide as E; [split; [by eexists|by left]|]. split; [intros [->|?]; done|by right].
Qed.

Lemma addClusterServers_exact serverList w c :
  servers (addClusterServers serverList w) !! c =
    match servers w !! c with
    | Some f => Some f
    | None => if bool_decide (c ∈ serverList /\ c ∈ defaultNames) then Some (defaultAttributes c) else None
    end.
Proof.
  unfold addClusterServers. rewrite addServers_exact by (apply defaultServers_require || (apply (bool_decide_unpack _); by vm_compute)).
  destruct (servers w !! c) as [f|]; [done|]. pose proof (find_default c defaultServers) as Hfind.
  change (map fst defaultServers) with defaultNames in Hfind. unfold defaultAttributes.
  destruct (List.find _ defaultServers) as [cs|] eqn:E; cbn [mbind option_bind].
  - assert (Hd : c ∈ defaultNames) by (apply Hfind; by eexists).
    by rewrite (bool_decide_ext (c ∈ serverList) (c ∈ serverList /\ c ∈ defaultNames)) by tauto.
  - rewrite (bool_decide_eq_false_2 (_ /\ c ∈ defaultNames)); [by case_bool_decide|]. intros [_ Hd]. apply Hfind in Hd as [? ?]. done.
Qed.

Lemma collect_elem p lists c : c ∈ collect p lists <-> c ∈ concat lists /\ p c = true.
Proof.
  unfold collect. assert (H : forall l acc, c ∈ foldl (fun acc c => if negb (bool_decide (c ∈ acc)) && p c then (acc ++ [c])%list else acc) acc l <->
    c ∈ acc \/ (c ∈ l /\ p c = true)).
  { induction l as [|x l IH]; intros acc; cbn [foldl]; [rewrite elem_of_nil; tauto|]. rewrite IH, elem_of_cons.
    destruct (bool_decide (x ∈ acc)) eqn:E; cbn [negb andb].
    - apply bool_decide_eq_true in E. split; [tauto|]. intros [?|[[->|?] ?]]; tauto.
    - destruct (p x) eqn:Ep; [rewrite elem_of_app, list_elem_of_singleton|]; split; intros; destruct_or?; destruct_and?; destruct_or?; subst; try tauto; congruence. }
  rewrite H, elem_of_nil. tauto.
Qed.

(** Names that begin with a capital letter. *)
Definition capital (c : string) : bool := bool_decide (capitalizeFirstLetter (lowercaseFirstLetter c) = c).

Lemma missing_capital w c : capital c = true -> missing w c = match servers w !! c with Some _ => false | None => true end.
Proof.
  intros Hc%bool_decide_eq_true. unfold missing, hasClusterServer, getBehavior, supported. rewrite Hc.
  destruct (servers w !! c) eqn:E; [|done]. by rewrite Hc, E.
Qed.

Lemma supported_capital t : t ∈ supportedDeviceTypes -> Forall (fun c => capital c = true) (requiredServerClusters t ++ optionalServerClusters t)%list.
Proof.
  assert (H : Forall (fun t => Forall (fun c => capital c = true) (requiredServerClusters t ++ optionalServerClusters t)%list) supportedDeviceTypes)
    by (apply (bool_decide_unpack _); by vm_compute).
  rewrite Forall_forall in H. apply H.
Qed.

Lemma required_missing types w c :
  Forall (fun t => t ∈ supportedDeviceTypes) types -> servers w !! c = None ->
  c ∈ collect (missing w) (map requiredServerClusters types) <-> c ∈ concat (map requiredServerClusters types).
Proof.
  intros Ht Hf. rewrite collect_elem. split; [by intros [? _]|]. intros H. split; [done|]. rewrite missing_capital, Hf; [done|].
  apply list_elem_of_In, in_concat in H as (l & (t & <- & Htin)%in_map_iff & Hc). rewrite Forall_forall in Ht.
  pose proof (supported_capital t (Ht t (proj2 (list_elem_of_In _ _) Htin))) as HF. rewrite Forall_forall in HF.
  apply HF, elem_of_app. left. by apply list_elem_of_In.
Qed.

(** An endpoint is given exactly the servers that its device types require and that
    can be created by default, with their default attributes; the servers that it has
    already keep theirs. *)
Theorem required_exact (types : list DeviceTypeDefinition) (w : World) (c : string) :
  Forall (fun t => t ∈ supportedDeviceTypes) types ->
  servers (addRequiredClusterServers types w) !! c =
    match servers w !! c with
    | Some f => Some f
    | None => if bool_decide (c ∈ concat (map requiredServerClusters types) /\ c ∈ defaultNames) then Some (defaultAttributes c) else None
    end.
Proof.
  intros Ht. unfold addRequiredClusterServers. rewrite addClusterServers_exact.
  destruct (servers w !! c) as [f|] eqn:Hf; [done|]. pose proof (required_missing types w c Ht Hf).
  by rewrite (bool_decide_ext (_ /\ _) (c ∈ concat (map requiredServerClusters types) /\ c ∈ defaultNames)) by tauto.
Qed.

Lemma required_exact_witness :
  servers (addRequiredClusterServers [onOffLight; bridgedNode] (require "OnOff" [("onOff", Bool true)] (mkWorld ∅ [] [] false))) !! "Groups" =
    Some (defaultAttributes "Groups") /\
  servers (addRequiredClusterServers [onOffLight; bridgedNode] (require "OnOff" [("onOff", Bool true)] (mkWorld ∅ [] [] false))) !! "OnOff" =
    Some [("onOff", Bool true)] /\
  servers (addRequiredClusterServers [onOffLight; bridgedNode] (require "OnOff" [("onOff", Bool true)] (mkWorld ∅ [] [] false))) !!
    "BridgedDeviceBasicInformation" = None.
Proof.
  pose proof (required_exact [onOffLight; bridgedNode] (require "OnOff" [("onOff", Bool true)] (mkWorld ∅ [] [] false))) as H.
  assert (Ht : Forall (fun t => t ∈ supportedDeviceTypes) [onOffLight; bridgedNode]).
  { repeat constructor; apply list_elem_of_In; unfold supportedDeviceTypes; repeat ((left; reflexivity) || right). }
  split; [|split]; rewrite (H _ Ht); by vm_compute.
Defined.

(** ** Tables *)

(** The clusters that an endpoint of some type shall have, or have one of. *)
Definition mentioned (t : DeviceTypeDefinition) : list string :=
  (requiredServerClusters t ++ optionalServerClusters t ++ requiredClientClusters t ++ optionalClientClusters t ++ requiredServerClustersOneOf t)%list.

(** Types by code and by name. *)
Definition foundBy (t : DeviceTypeDefinition) : Prop :=
  getSupportedDeviceType (inl (code t)) = Some t /\ getSupportedDeviceType (inr (name t)) = Some t.

(** The device types are found by their codes and by their names, but for the heater
    cabinet, which has those of the cooler cabinet; none of them lists a cluster twice, as
    required and as optional, or one that is not supported; and the clusters that have
    default servers are supported and have a class. *)
Theorem device_types_consistent :
  Forall (fun t => foundBy t \/ t = temperatureControlledCabinetHeater) supportedDeviceTypes /\
  getSupportedDeviceType (inl (code temperatureControlledCabinetHeater)) = Some temperatureControlledCabinetCooler /\
  getSupportedDeviceType (inr (name temperatureControlledCabinetHeater)) = Some temperatureControlledCabinetCooler /\
  Forall (fun t => NoDup (requiredServerClusters t ++ optionalServerClusters t)%list /\
                   NoDup (requiredClientClusters t ++ optionalClientClusters t)%list /\
                   Forall (fun c => c ∈ supportedClusters) (mentioned t)) supportedDeviceTypes /\
  Forall (fun c => c ∈ serverBehaviors /\ c ∈ supportedClusters) defaultNames.
Proof.
  split; [repeat (constructor; [first [left; split; reflexivity|right; reflexivity]|]); constructor|].
  split; [reflexivity|]. split; [reflexivity|]. split; apply (bool_decide_unpack _); by vm_compute.
Qed.

(** ** Default attributes *)

Lemma server_lookup c features attrs w : servers w !! c = None ->
  servers (server c features attrs w) !! c = Some (attrs ++ [("featureMap", Obj (map (fun f => (f, Bool true)) features))])%list.
Proof. intros H. unfold server. rewrite require_lookup, H. by rewrite bool_decide_eq_true_2. Qed.

(** The active preset of a new thermostat is kept if its handle has one byte; of a
    handle of two bytes or more, nothing is left but a zero. *)
Theorem preset_handle_lost (w : World) (l hs cs dead hl hm cl cm uh uc occupied outdoor presets types : value) (n m : Z) (handle : list value) :
  let created handle := createDefaultPresetsThermostatClusterServer l hs cs dead hl hm cl cm uh uc occupied outdoor handle presets types w in
  servers w !! "Thermostat" = None ->
  attr (created (Arr [Num n])) "Thermostat" "activePresetHandle" = Arr [Num n] /\
  attr (created (Arr (Num n :: Num m :: handle))) "Thermostat" "activePresetHandle" = Arr [Num 0].
Proof.
  intros created H. subst created. cbv beta. unfold createDefaultPresetsThermostatClusterServer.
  unfold attr, attributes. rewrite !server_lookup by done. by destruct occupied, outdoor.
Qed.

Lemma preset_handle_lost_witness :
  attr (createDefaultPresetsThermostatClusterServer Undefined Undefined Undefined Undefined Undefined Undefined Undefined Undefined
          Undefined Undefined Undefined Undefined (Arr [Num 1; Num 2]) Undefined Undefined (mkWorld ∅ [] [] false))
    "Thermostat" "activePresetHandle" = Arr [Num 0].
Proof. by apply (preset_handle_lost (mkWorld ∅ [] [] false) Undefined Undefined Undefined Undefined Undefined Undefined Undefined Undefined Undefined Undefined Undefined Undefined Undefined Undefined 1 2 []). Defined.

(** A switch with its default server reports what is done with it. *)
Lemma default_switch_ready (w : World) : servers w !! "Switch" = None -> active w = true -> SwitchReady (createDefaultSwitchClusterServer w).
Proof.
  intros Hs Ha. unfold createDefaultSwitchClusterServer. split.
  - unfold server, require. by rewrite Hs.
  - eexists. split; [by apply server_lookup|]. by vm_compute.
  - unfold attr, attributes. rewrite server_lookup by done. by vm_compute.
Qed.
