(* ===== verification/EndpointTree.v ===== *)
(** Endpoints and their children: the class [MatterbridgeEndpoint] of
    [packages/core/src/matterbridgeEndpoint.ts], its constructor with the ids it makes,
    children that are looked up and added, and endpoints that are written out and read
    back. *)
From S2P Require Import Prelude JsString JsValue JsRegExp Validate Async Ownership NodePath Bridge Platform Deep Behaviors BehaviorFacts Endpoint EndpointFacts.
From S2P Require Import DeviceTypes ClusterServers.
From stdpp Require Import gmap strings.
#[local] Open Scope string_scope.
#[local] Open Scope Z_scope.
Import Behaviors Validate Endpoint DeviceTypes ClusterServers.

Module Tree.
Abbreviation object := (list (string * value)) (only parsing).

(** ** State *)

(** An endpoint; [fields] are those that describe the device, [types] is the map
    [deviceTypes], [behaviors] has the servers and [parts] are references. *)
Record MatterbridgeEndpoint := mkEndpoint {
  id : option jsstr;
  number : option Z;
  originalId : option jsstr;
  mode : value;
  firstName : string;
  deviceType : Z;
  tagList : value;
  types : list (Z * DeviceTypeDefinition);
  fields : object;
  behaviors : World;
  parts : list nat
}.

Record Tree := mkTree { next : nat; nodes : gmap nat MatterbridgeEndpoint }.

Record MatterbridgeEndpointOptions := mkOptions {
  optId : option jsstr;
  optNumber : option Z;
  optTagList : option value;
  optMode : value
}.

Definition alter (f : MatterbridgeEndpoint -> MatterbridgeEndpoint) (r : nat) (t : Tree) : Tree := mkTree (next t) (base.alter f r (nodes t)).
Definition setFields (kvs : object) (e : MatterbridgeEndpoint) : MatterbridgeEndpoint :=
  mkEndpoint (id e) (number e) (originalId e) (mode e) (firstName e) (deviceType e) (tagList e) (types e)
    (foldl (fun f kv => setField (fst kv) (snd kv) f) (fields e) kvs) (behaviors e) (parts e).
Definition setBehaviors (f : World -> World) (e : MatterbridgeEndpoint) : MatterbridgeEndpoint :=
  mkEndpoint (id e) (number e) (originalId e) (mode e) (firstName e) (deviceType e) (tagList e) (types e) (fields e) (f (behaviors e)) (parts e).
Definition setParts (l : list nat) (e : MatterbridgeEndpoint) : MatterbridgeEndpoint :=
  mkEndpoint (id e) (number e) (originalId e) (mode e) (firstName e) (deviceType e) (tagList e) (types e) (fields e) (behaviors e) l.

(** The servers of an endpoint are changed. *)
Definition onServers (r : nat) (f : World -> World) : Tree -> Tree := alter (setBehaviors f) r.

Definition partsOf (t : Tree) (r : nat) : list nat := from_option parts [] (nodes t !! r).
Definition serversOf (t : Tree) (r : nat) : World := from_option behaviors (mkWorld ∅ [] [] false) (nodes t !! r).
Definition fieldsOf (t : Tree) (r : nat) : object := from_option fields [] (nodes t !! r).

(** ** Ids *)

Definition nonLatinRegexList : list re :=
  map (fun ranges => Char (fun u => existsb (fun ab : Z * Z => range (fst ab) (snd ab) u) ranges))
    [[(0x0400, 0x04ff); (0x0500, 0x052f)]; [(0x2e80, 0x9fff)]; [(0xac00, 0xd7af)]; [(0x0600, 0x06ff); (0x0750, 0x077f)];
     [(0x0590, 0x05ff)]; [(0x0900, 0x097f)]; [(0x0e00, 0x0e7f)]; [(0x1200, 0x137f)]].
Definition checkNotLatinCharacters (deviceName : jsstr) : bool := existsb (fun r => test r deviceName) nonLatinRegexList.

(** A tag with its label, cut to 64 characters. *)
Definition getSemtag (semtag label mfgCode : value) : value :=
  let label := match label with Str s => Str (strTake 64 (strTrim s)) | v => v end in
  let tag := [("mfgCode", param mfgCode Null); ("namespaceId", optProp semtag "namespaceId"); ("tag", optProp semtag "tag")] in
  Obj (if isUndefined label then tag else tag ++ [("label", label)])%list.

Section Hashes.
(** The hashes of ids, of the texts that describe a device, and whether matter.js takes an
    endpoint as a part of another one. *)
Context (md5 : jsstr -> jsstr) (hash : string -> string).
Context (admits : Tree -> nat -> nat -> bool).

Definition generateUniqueId (deviceName : jsstr) : jsstr := md5 deviceName.

Definition separator (u : Z) : bool := (u =? 32) || (u =? 46).
Definition endpointId (given : jsstr) : jsstr :=
  let given := if negb (bool_decide (given = [])) && checkNotLatinCharacters given then generateUniqueId given else given in
  List.filter (fun u => negb (separator u)) given.

(** ** The constructor *)

(** [this.deviceTypes.set(code, deviceType)]. *)
Fixpoint setType (dt : DeviceTypeDefinition) (l : list (Z * DeviceTypeDefinition)) : list (Z * DeviceTypeDefinition) :=
  match l with
  | [] => [(code dt, dt)]
  | (c, d) :: l => if c =? code dt then (c, dt) :: l else (c, d) :: setType dt l
  end.

Definition typeEntry (dt : DeviceTypeDefinition) : value := Obj [("deviceType", Num (code dt)); ("revision", Num (revision dt))].

(** A definition is a type, or a list of them. *)
Definition newEndpoint (definition : DeviceTypeDefinition * list DeviceTypeDefinition) (options : MatterbridgeEndpointOptions) : MatterbridgeEndpoint :=
  let all := fst definition :: snd definition in
  let tags := default Undefined (optTagList options) in
  let descriptor := if truthy tags
                    then [("tagList", tags); ("deviceTypeList", Arr (map typeEntry all)); ("featureMap", Obj [("tagList", Bool true)])]
                    else [("deviceTypeList", Arr (map typeEntry all)); ("featureMap", Obj [])] in
  mkEndpoint (endpointId <$> optId options) (optNumber options) (optId options) (optMode options) (DeviceTypes.name (fst definition))
    (code (fst definition)) tags (foldl (fun m dt => setType dt m) [] all)
    [("productUrl", Str "https://www.npmjs.com/package/matterbridge")]
    (require "Matterbridge" [] (mkWorld {["Descriptor" := descriptor]} [] [] false)) [].

Definition alloc (e : MatterbridgeEndpoint) (t : Tree) : Tree * nat := (mkTree (S (next t)) (<[next t := e]> (nodes t)), next t).

Definition getDeviceTypes (e : MatterbridgeEndpoint) : list DeviceTypeDefinition := map snd (types e).

(** ** Children *)

Definition findPart (p : MatterbridgeEndpoint -> bool) (t : Tree) (r : nat) : option nat :=
  List.find (fun c => from_option p false (nodes t !! c)) (partsOf t r).
Definition getChildEndpointById (t : Tree) (r : nat) (given : jsstr) : option nat := findPart (fun e => bool_decide (id e = Some given)) t r.
Definition getChildEndpointByName (t : Tree) (r : nat) (endpointName : jsstr) : option nat :=
  findPart (fun e => bool_decide (id e = Some endpointName)) t r.
Definition getChildEndpointByOriginalId (t : Tree) (r : nat) (given : jsstr) : option nat :=
  findPart (fun e => bool_decide (originalId e = Some given)) t r.
Definition getChildEndpoint (t : Tree) (r : nat) (endpointNumber : Z) : option nat :=
  findPart (fun e => bool_decide (number e = Some endpointNumber)) t r.
Definition getChildEndpoints (t : Tree) (r : nat) : list nat := partsOf t r.

(** A child that is made for a parent. Tags that are given as [undefined] are not
    iterable. *)
Definition newChild (endpointName : jsstr) (definition : DeviceTypeDefinition * list DeviceTypeDefinition) (options : MatterbridgeEndpointOptions)
    (t : Tree) : res (Tree * nat) :=
  match optTagList options with
  | Some (Arr tags) => Ok (alloc (newEndpoint definition (mkOptions (Some endpointName) (optNumber options) (Some (Arr tags)) Undefined)) t)
  | Some _ => Throw TypeError
  | None => Ok (alloc (newEndpoint definition (mkOptions (Some endpointName) (optNumber options) None Undefined)) t)
  end.

(** [this.add(child)] or [this.parts.add(child)], whose errors are only logged. *)
Definition addPart (r child : nat) (t : Tree) : Tree :=
  if admits t r child then alter (fun e => setParts (parts e ++ [child])%list e) r t else t.

Definition addChildDeviceType (endpointName : jsstr) (definition : DeviceTypeDefinition * list DeviceTypeDefinition)
    (options : MatterbridgeEndpointOptions) (r : nat) (t : Tree) : res (Tree * nat) :=
  match getChildEndpointById t r endpointName with
  | Some child => Ok (t, child)
  | None => '(t, child) ← newChild endpointName definition options t; Ok (addPart r child t, child)
  end.

(** [list.splice(list.indexOf(c), 1)]. *)
Fixpoint spliceOut (c : string) (l : list string) : list string :=
  match l with [] => [] | c' :: l => if String.eqb c c' then l else c' :: spliceOut c l end.

(** [forEach] visits the positions that there were at first, in the array as it is then:
    what follows a cluster that is taken out is not visited. *)
Fixpoint pruneFrom (has : string -> bool) (n i : nat) (l : list string) : list string :=
  match n with
  | O => l
  | S n => match l !! i with
           | Some c => pruneFrom has n (S i) (if has c then spliceOut c l else l)
           | None => pruneFrom has n (S i) l
           end
  end.
Definition prune (has : string -> bool) (l : list string) : list string := pruneFrom has (length l) 0 l.

(** The clusters that the types require are pushed. *)
Definition pushRequired (all : list DeviceTypeDefinition) (serverList : list string) : list string :=
  foldl (fun l c => if bool_decide (c ∈ l) then l else l ++ [c])%list serverList (concat (map requiredServerClusters all)).

(** The child, and the caller's list as it is left. *)
Definition addChildDeviceTypeWithClusterServer (endpointName : jsstr) (definition : DeviceTypeDefinition * list DeviceTypeDefinition)
    (serverList : list string) (options : MatterbridgeEndpointOptions) (r : nat) (t : Tree) : res (Tree * nat * list string) :=
  let found := getChildEndpointById t r endpointName in
  '(t, child) ← match found with Some child => Ok (t, child) | None => newChild endpointName definition options t end;
  let has c := hasClusterServer (serversOf t child) (ById c) in
  let serverList := prune has (pushRequired (fst definition :: snd definition) serverList) in
  let serverList := match found with Some _ => prune has serverList | None => serverList end in
  let t := onServers child (addClusterServers serverList) t in
  Ok (match found with Some _ => t | None => addPart r child t end, child, serverList).

(** ** Descriptions *)

Definition described (deviceName serialNumber vendorId vendorName productId productName softwareVersion softwareVersionString
    hardwareVersion hardwareVersionString : value) : object :=
  [("deviceName", deviceName); ("serialNumber", serialNumber);
   ("uniqueId", Platform.createUniqueId hash deviceName serialNumber vendorName productName); ("productId", productId);
   ("productName", productName); ("vendorId", vendorId); ("vendorName", vendorName); ("softwareVersion", softwareVersion);
   ("softwareVersionString", softwareVersionString); ("hardwareVersion", hardwareVersion); ("hardwareVersionString", hardwareVersionString)].

Definition createDefaultBasicInformationClusterServer (deviceName serialNumber vendorId vendorName productId productName softwareVersion
    softwareVersionString hardwareVersion hardwareVersionString : value) : MatterbridgeEndpoint -> MatterbridgeEndpoint :=
  setFields (described deviceName serialNumber (param vendorId (Num 0xfff1)) (param vendorName (Str "Matterbridge"))
    (param productId (Num 0x8000)) (param productName (Str "Matterbridge device")) (param softwareVersion (Num 1))
    (param softwareVersionString (Str "1.0.0")) (param hardwareVersion (Num 1)) (param hardwareVersionString (Str "1.0.0"))).

(** [s.slice(0, n)] of texts. *)
Definition sliceOf (n : nat) (v : value) : value := Str (strTake n (toText v)).

Definition createDefaultBridgedDeviceBasicInformationClusterServer (deviceName serialNumber vendorId vendorName productName softwareVersion
    softwareVersionString hardwareVersion hardwareVersionString : value) (e : MatterbridgeEndpoint) : MatterbridgeEndpoint :=
  let vendorId := param vendorId (Num 0xfff1) in
  let vendorName := param vendorName (Str "Matterbridge") in
  let productName := param productName (Str "Matterbridge device") in
  let softwareVersion := param softwareVersion (Num 1) in
  let softwareVersionString := param softwareVersionString (Str "1.0.0") in
  let hardwareVersion := param hardwareVersion (Num 1) in
  let hardwareVersionString := param hardwareVersionString (Str "1.0.0") in
  let e := setFields (described deviceName serialNumber vendorId vendorName Undefined productName softwareVersion softwareVersionString
             hardwareVersion hardwareVersionString) e in
  setBehaviors (require "BridgedDeviceBasicInformation"
    [("vendorId", vendorId); ("vendorName", sliceOf 32 vendorName); ("productName", sliceOf 32 productName);
     ("productUrl", sliceOf 256 (getField "productUrl" (fields e)));
     ("productLabel", Str (strTake 64 (strTrim (strReplace (toText productName) (toText vendorName) ""))));
     ("nodeLabel", sliceOf 32 deviceName); ("serialNumber", sliceOf 32 serialNumber);
     ("uniqueId", sliceOf 32 (getField "uniqueId" (fields e)));
     ("softwareVersion", if isValidNumber softwareVersion (Some 0) (Some 0xffffffff) then softwareVersion else Undefined);
     ("softwareVersionString", if isValidString softwareVersionString None None then sliceOf 64 softwareVersionString else Undefined);
     ("hardwareVersion", if isValidNumber hardwareVersion (Some 0) (Some 0xffff) then hardwareVersion else Undefined);
     ("hardwareVersionString", if isValidString hardwareVersionString None None then sliceOf 64 hardwareVersionString else Undefined);
     ("reachable", Bool true)]) e.

(** ** Serialization *)

Record SerializedMatterbridgeEndpoint := mkSerialized {
  sPluginName : value; sDeviceName : value; sSerialNumber : value; sUniqueId : value; sProductId : value; sProductName : value;
  sVendorId : value; sVendorName : value; sDeviceTypes : list DeviceTypeDefinition; sId : option jsstr; sNumber : option Z;
  sClusterServersId : list string
}.

Definition missingText (s : option jsstr) : bool := match s with None | Some [] => true | Some _ => false end.
Definition missingNumber (n : option Z) : bool := match n with None | Some 0 => true | Some _ => false end.

Definition serialize (e : MatterbridgeEndpoint) : option SerializedMatterbridgeEndpoint :=
  let field k := getField k (fields e) in
  if negb (truthy (field "serialNumber")) || negb (truthy (field "deviceName")) || negb (truthy (field "uniqueId")) ||
     missingText (id e) || missingNumber (number e)
  then None
  else Some (mkSerialized (coalesce (field "plugin") (Str "")) (field "deviceName") (field "serialNumber") (field "uniqueId")
         (field "productId") (field "productName") (field "vendorId") (field "vendorName") (getDeviceTypes e) (id e) (number e)
         (List.filter (fun c => bool_decide (is_Some (servers (behaviors e) !! c))) ["BridgedDeviceBasicInformation"; "PowerSource"])).

Definition restoreServer (s : SerializedMatterbridgeEndpoint) (e : MatterbridgeEndpoint) (c : string) : MatterbridgeEndpoint :=
  if String.eqb c "BridgedDeviceBasicInformation"
  then createDefaultBridgedDeviceBasicInformationClusterServer (sDeviceName s) (sSerialNumber s) (coalesce (sVendorId s) (Num 0xfff1))
         (coalesce (sVendorName s) (Str "Matterbridge")) (coalesce (sProductName s) (Str "Matterbridge device"))
         Undefined Undefined Undefined Undefined e
  else if String.eqb c "PowerSource" then setBehaviors (createDefaultPowerSourceWiredClusterServer Undefined) e
  else e.

Definition deserialize (s : SerializedMatterbridgeEndpoint) : res MatterbridgeEndpoint :=
  match sDeviceTypes s with
  | [] => Throw TypeError
  | first :: others =>
      let e := newEndpoint (first, others) (mkOptions (sId s) (sNumber s) None Undefined) in
      let e := setFields [("plugin", sPluginName s); ("deviceName", sDeviceName s); ("serialNumber", sSerialNumber s);
                          ("uniqueId", sUniqueId s); ("vendorId", sVendorId s); ("vendorName", sVendorName s);
                          ("productId", sProductId s); ("productName", sProductName s)] e in
      Ok (foldl (restoreServer s) e (sClusterServersId s))
  end.
End Hashes.
End Tree.
