(* ===== verification/EndpointTreeFacts.v ===== *)
(** Trees of endpoints: their ids are stable, children are found again exactly if their
    names are their ids, they get the servers that they shall have, and endpoints that are
    written out are read back. *)
From S2P Require Import Prelude JsString JsValue JsRegExp Validate Async Ownership NodePath Bridge Platform Deep Behaviors BehaviorFacts Endpoint EndpointFacts.
From S2P Require Import DeviceTypes ClusterServers ClusterServerFacts EndpointTree.
From stdpp Require Import gmap strings.
#[local] Open Scope string_scope.
#[local] Open Scope Z_scope.
#[local] Set Warnings "-clear-no-such-hyp".
Import Behaviors Validate Endpoint DeviceTypes ClusterServers Tree.

(** ** Ids *)

Lemma test_char p s : test (Char p) s = existsb p s.
Proof.
  unfold test. generalize (@None Z) as prev. induction s as [|u s IH]; intros prev; cbn [search mt existsb]; [done|].
  rewrite IH, andb_true_r. by destruct (p u).
Qed.

Definition nonLatin (u : Z) : bool := existsb (fun r => test r [u]) nonLatinRegexList.

Lemma existsb_swap {A B} (p : A -> B -> bool) l m : existsb (fun a => existsb (p a) m) l = existsb (fun b => existsb (fun a => p a b) l) m.
Proof.
  apply eq_true_iff_eq. rewrite !existsb_exists. split.
  - intros (a & Ha & (b & Hb & H)%existsb_exists). exists b. split; [done|]. apply existsb_exists. by exists a.
  - intros (b & Hb & (a & Ha & H)%existsb_exists). exists a. split; [done|]. apply existsb_exists. by exists b.
Qed.

Lemma checkNotLatin_units s : checkNotLatinCharacters s = existsb nonLatin s.
Proof.
  unfold checkNotLatinCharacters, nonLatin. rewrite <- (existsb_swap (fun r u => test r [u])).
  assert (H : Forall (fun r => test r s = existsb (fun u => test r [u]) s) nonLatinRegexList).
  { unfold nonLatinRegexList. apply Forall_forall. intros r (ranges & -> & _)%list_elem_of_fmap_1. rewrite test_char.
    induction s as [|u s IH]; cbn [existsb]; [done|]. rewrite test_char, IH. cbn [existsb]. by rewrite orb_false_r. }
  induction H as [|r l Hr H IH]; cbn [existsb]; [done|]. by rewrite Hr, IH.
Qed.

Section Ids.
Context (md5 : jsstr -> jsstr).
Hypothesis md5_hex : forall s, Forall (fun u => 48 <= u <= 57 \/ 97 <= u <= 102) (md5 s).

Lemma hex_latin u : 48 <= u <= 57 \/ 97 <= u <= 102 -> nonLatin u = false.
Proof.
  intros H. destruct (nonLatin u) eqn:E; [|done]. unfold nonLatin in E. apply existsb_exists in E as (r & Hr & E).
  unfold nonLatinRegexList in Hr. apply in_map_iff in Hr as (ranges & <- & Hr). rewrite test_char in E. cbn [existsb] in E.
  rewrite orb_false_r in E. apply existsb_exists in E as ([a b] & Hab & E). unfold range in E. cbn [fst snd] in E.
  assert (128 <= a); [|lia].
  assert (HF : Forall (Forall (fun ab : Z * Z => 128 <= fst ab)) 
    [[(0x0400, 0x04ff); (0x0500, 0x052f)]; [(0x2e80, 0x9fff)]; [(0xac00, 0xd7af)]; [(0x0600, 0x06ff); (0x0750, 0x077f)];
     [(0x0590, 0x05ff)]; [(0x0900, 0x097f)]; [(0x0e00, 0x0e7f)]; [(0x1200, 0x137f)]]) by (repeat constructor; cbn; lia).
  rewrite Forall_forall in HF. specialize (HF ranges (proj2 (list_elem_of_In _ _) Hr)). rewrite Forall_forall in HF.
  exact (HF (a, b) (proj2 (list_elem_of_In _ _) Hab)).
Qed.

(** Ids that the constructor leaves as they are. *)
Definition clean (u : Z) : Prop := separator u = false /\ nonLatin u = false.

Lemma clean_id s : Forall clean s -> endpointId md5 s = s.
Proof.
  intros H. unfold endpointId. rewrite checkNotLatin_units.
  assert (Hn : existsb nonLatin s = false) by (induction H as [|u s [_ Hu] H IH]; cbn [existsb]; [done|]; by rewrite Hu).
  rewrite Hn, andb_false_r. induction H as [|u s [Hu _] H IH]; cbn [List.filter]; [done|]. rewrite Hu. cbn [negb].
  f_equal. apply IH. cbn [existsb] in Hn. by apply orb_false_iff in Hn as [_ ?].
Qed.

Lemma endpointId_clean s : Forall clean (endpointId md5 s).
Proof.
  unfold endpointId. rewrite checkNotLatin_units. apply Forall_forall. intros u (Hin & Hsep)%list_elem_of_In%filter_In.
  split; [by destruct (separator u)|]. destruct (existsb nonLatin s) eqn:E.
  - destruct (bool_decide_reflect (s = [])) as [->|_]; [done|]. cbn [negb andb] in Hin. unfold generateUniqueId in Hin.
    pose proof (md5_hex s) as Hh. rewrite Forall_forall in Hh. by apply hex_latin, Hh, list_elem_of_In.
  - rewrite andb_false_r in Hin. destruct (nonLatin u) eqn:Eu; [|done].
    rewrite <- E. symmetry. apply existsb_exists. by exists u.
Qed.

Lemma endpointId_stable s : endpointId md5 (endpointId md5 s) = endpointId md5 s.
Proof. apply clean_id, endpointId_clean. Qed.

(** ** Children *)

Context (admits : Tree -> nat -> nat -> bool).
Abbreviation addChild := (addChildDeviceType md5 admits) (only parsing).
Abbreviation addChildWith := (addChildDeviceTypeWithClusterServer md5 admits) (only parsing).

(** References are to endpoints that there are, and ids are those of the constructor. *)
Definition EndpointWF (t : Tree) (n : nat) (e : MatterbridgeEndpoint) : Prop :=
  (n < next t)%nat /\ Forall (fun c => is_Some (nodes t !! c)) (parts e) /\ (forall i, id e = Some i -> endpointId md5 i = i).
Definition TreeWF (t : Tree) : Prop := map_Forall (EndpointWF t) (nodes t).

Lemma newEndpoint_id d o i : id (newEndpoint md5 d o) = Some i -> endpointId md5 i = i.
Proof. cbn. intros (s & _ & ->)%fmap_Some. apply endpointId_stable. Qed.

Lemma alloc_WF t d o : TreeWF t -> TreeWF (fst (alloc (newEndpoint md5 d o) t)).
Proof.
  intros H n e He. cbn [fst alloc nodes next] in *. apply lookup_insert_Some in He as [[<- <-]|[Hne He]].
  - split; [cbn; lia|]. split; [constructor|apply newEndpoint_id].
  - destruct (H n e He) as (Hn & Hp & Hid). split; [cbn; lia|]. split; [|done]. eapply Forall_impl; [exact Hp|].
    intros c [e' Hc]. cbn [nodes]. destruct (decide (next t = c)) as [<-|?]; [rewrite lookup_insert_eq|rewrite lookup_insert_ne by done]; by eexists.
Qed.

(** Endpoints that keep their ids and only get parts that there are. *)
Lemma alter_WF t r f :
  TreeWF t -> (forall e, id (f e) = id e /\ (forall c, c ∈ parts (f e) -> c ∈ parts e \/ is_Some (nodes t !! c))) -> TreeWF (alter f r t).
Proof.
  intros H Hf n e He. cbn [alter nodes next] in *.
  assert (Hsome : forall c, is_Some (nodes t !! c) -> is_Some (base.alter f r (nodes t) !! c)).
  { intros c Hc. by rewrite lookup_alter_is_Some. }
  destruct (decide (r = n)) as [<-|Hne].
  - rewrite lookup_alter_eq in He. apply fmap_Some in He as (e0 & He0 & ->). destruct (H r e0 He0) as (Hn & Hp & Hid).
    destruct (Hf e0) as [Hi Hc]. split; [done|]. split; [|by rewrite Hi]. apply Forall_forall. intros c [Hin|?]%Hc; [|by apply Hsome].
    rewrite Forall_forall in Hp. by apply Hsome, Hp.
  - rewrite lookup_alter_ne in He by done. destruct (H n e He) as (Hn & Hp & Hid). split; [done|]. split; [|done].
    eapply Forall_impl; [exact Hp|]. intros c Hc. by apply Hsome.
Qed.

Lemma newChild_inv s d o t t' c :
  newChild md5 s d o t = Ok (t', c) ->
  c = next t /\ exists tags, t' = fst (alloc (newEndpoint md5 d (mkOptions (Some s) (optNumber o) tags Undefined)) t).
Proof. unfold newChild. destruct (optTagList o) as [[]|]; intros [= <- <-]; split; try done; by eexists. Qed.

Lemma addPart_WF r c t : TreeWF t -> is_Some (nodes t !! c) -> TreeWF (addPart admits r c t).
Proof.
  intros H Hc. unfold addPart. destruct (admits t r c); [|done]. apply alter_WF; [done|]. intros e. split; [done|].
  intros c'. cbn [parts setParts]. rewrite elem_of_app, list_elem_of_singleton. intros [?| ->]; by auto.
Qed.

(** Trees stay well formed when children are added to them: parts are endpoints of the
    tree, and ids are free of separators and of letters that are not latin. *)
Theorem tree_wf (t t' : Tree) (r c : nat) (s : jsstr) (d : DeviceTypeDefinition * list DeviceTypeDefinition) (o : MatterbridgeEndpointOptions)
    (serverList left : list string) :
  TreeWF t ->
  (addChild s d o r t = Ok (t', c) -> TreeWF t') /\ (addChildWith s d serverList o r t = Ok (t', c, left) -> TreeWF t').
Proof.
  intros H. split.
  - unfold addChildDeviceType. destruct (getChildEndpointById t r s); [by intros [= <- <-]|].
    destruct (newChild md5 s d o t) as [[t1 c1]|] eqn:E; cbn; [|done]. intros [= <- <-].
    apply newChild_inv in E as (-> & tags & ->). apply addPart_WF; [by apply alloc_WF|]. cbn. rewrite lookup_insert_eq. by eexists.
  - unfold addChildDeviceTypeWithClusterServer. destruct (getChildEndpointById t r s); cbn.
    { intros [= <- <- <-]. by apply alter_WF; [|split; [|left]]. }
    destruct (newChild md5 s d o t) as [[t1 c1]|] eqn:E; cbn; [|done]. intros [= <- <- <-].
    apply newChild_inv in E as (-> & tags & ->). apply addPart_WF.
    + apply alter_WF; [by apply alloc_WF|]. split; [done|by left].
    + cbn. rewrite lookup_alter_eq, lookup_insert_eq. by eexists.
Qed.

Lemma find_app_last {A} (p : A -> bool) l x : List.find p l = None -> p x = true -> List.find p (l ++ [x])%list = Some x.
Proof. intros Hl Hx. induction l as [|y l IH]; cbn in *; [by rewrite Hx|]. destruct (p y); [done|auto]. Qed.

Lemma find_ext_in {A} (p q : A -> bool) l : (forall x, x ∈ l -> p x = q x) -> List.find p l = List.find q l.
Proof.
  intros H. induction l as [|y l IH]; cbn; [done|]. rewrite H by by left. destruct (q y); [done|]. apply IH. intros x Hx. apply H. by right.
Qed.

(** Endpoints other than those that are named differently are not found. *)
Lemma not_an_id t r s : TreeWF t -> endpointId md5 s <> s -> getChildEndpointById t r s = None.
Proof.
  intros H Hs. unfold getChildEndpointById, findPart. destruct (List.find _ _) as [c|] eqn:E; [|done].
  apply find_some in E as [_ E]. destruct (nodes t !! c) as [e|] eqn:Ee; [|done]. cbn in E. apply bool_decide_eq_true in E.
  destruct (H c e Ee) as (_ & _ & Hid). by apply Hid in E.
Qed.

Lemma added_found s d o r t t' c :
  TreeWF t -> is_Some (nodes t !! r) -> endpointId md5 s = s -> addChild s d o r t = Ok (t', c) -> c ∈ partsOf t' r ->
  getChildEndpointById t' r s = Some c.
Proof.
  intros H [e He] Hs. unfold addChildDeviceType. destruct (getChildEndpointById t r s) as [c0|] eqn:Ef; [by intros [= <- <-]|].
  destruct (newChild md5 s d o t) as [[t1 c1]|] eqn:E; cbn; [|done]. intros [= <- <-] Hin.
  apply newChild_inv in E as (-> & tags & ->). destruct (H r e He) as (Hn & Hp & _).
  revert Hin. unfold addPart. cbn [fst alloc]. set (child := newEndpoint _ _ _). set (t1 := mkTree _ _).
  assert (Hr : nodes t1 !! r = Some e) by (unfold t1; cbn; rewrite lookup_insert_ne by lia; done).
  assert (Hparts : forall x, x ∈ parts e -> x <> next t).
  { intros x Hx ->. rewrite Forall_forall in Hp. destruct (Hp _ Hx) as [e' He']. destruct (H _ _ He') as [? _]. lia. }
  destruct (admits t1 r (next t)); intros Hin.
  - unfold getChildEndpointById, findPart, partsOf. cbn [alter nodes]. rewrite lookup_alter_eq, Hr. cbn [fmap option_fmap option_map from_option parts setParts].
    apply find_app_last.
    + revert Ef. unfold getChildEndpointById, findPart, partsOf. rewrite He. cbn [from_option]. intros <-. apply find_ext_in.
      intros x Hx. pose proof (Hparts x Hx). destruct (decide (r = x)) as [<-|?].
      * by rewrite lookup_alter_eq, Hr, He.
      * rewrite lookup_alter_ne by done. unfold t1. cbn [nodes]. by rewrite lookup_insert_ne by done.
    + rewrite lookup_alter_ne by lia. unfold t1. cbn [nodes]. rewrite lookup_insert_eq. cbn. by rewrite Hs, bool_decide_eq_true_2.
  - unfold partsOf in Hin. rewrite Hr in Hin. by apply Hparts in Hin.
Qed.

(** A child that was added under some name is found when it is added again exactly if
    the name is free of what is taken out of ids; otherwise there is a new child each time. *)
Theorem child_once (t t' : Tree) (r c : nat) (s : jsstr) (d d' : DeviceTypeDefinition * list DeviceTypeDefinition)
    (o o' : MatterbridgeEndpointOptions) :
  TreeWF t -> is_Some (nodes t !! r) -> addChild s d o r t = Ok (t', c) -> c ∈ partsOf t' r ->
  (endpointId md5 s = s -> addChild s d' o' r t' = Ok (t', c)) /\
  (endpointId md5 s <> s -> optTagList o' = None -> exists t2, addChild s d' o' r t' = Ok (t2, next t') /\ next t' <> c).
Proof.
  intros H Hr Ha Hin. split.
  - intros Hs. pose proof (added_found _ _ _ _ _ _ _ H Hr Hs Ha Hin) as Hf. unfold addChildDeviceType at 1. by rewrite Hf.
  - intros Hs Ho. assert (H' : TreeWF t' /\ (c < next t')%nat).
    { unfold addChildDeviceType in Ha. rewrite not_an_id in Ha by done.
      destruct (newChild md5 s d o t) as [[t1 c1]|] eqn:E; cbn in Ha; [|done]. injection Ha as <- <-.
      apply newChild_inv in E as (-> & tags & ->). split.
      - apply addPart_WF; [by apply alloc_WF|]. cbn. rewrite lookup_insert_eq. by eexists.
      - unfold addPart. destruct (admits _ _ _); cbn; lia. }
    destruct H' as [H' Hlt]. unfold addChildDeviceType. rewrite not_an_id by done. unfold newChild. rewrite Ho. cbn.
    eexists. split; [done|lia].
Qed.

Lemma spliceOut_sub c x l : x ∈ spliceOut c l -> x ∈ l.
Proof.
  induction l as [|y l IH]; cbn; [done|]. destruct (String.eqb c y); rewrite !elem_of_cons; tauto.
Qed.

Lemma spliceOut_other c x l : x <> c -> x ∈ l -> x ∈ spliceOut c l.
Proof.
  intros Hx. induction l as [|y l IH]; cbn; [done|]. rewrite elem_of_cons. destruct (String.eqb_spec c y) as [->|?]; [by intros [->|?]|].
  rewrite elem_of_cons. tauto.
Qed.

(** Though [forEach] misses some of them, no cluster is lost that is not there. *)
Lemma prune_missing has x l : has x = false -> x ∈ prune has l <-> x ∈ l.
Proof.
  intros Hx. unfold prune. generalize (length l) 0%nat. intros n. revert l. induction n as [|n IH]; intros l i; cbn [pruneFrom]; [done|].
  destruct (l !! i) as [c|]; rewrite IH; [|done]. destruct (has c) eqn:Hc; [|done].
  split; [apply spliceOut_sub|]. apply spliceOut_other. intros ->. congruence.
Qed.

Lemma pushRequired_elem all l x : x ∈ pushRequired all l <-> x ∈ l \/ x ∈ concat (map requiredServerClusters all).
Proof.
  unfold pushRequired. generalize (concat (map requiredServerClusters all)). intros m. revert l. induction m as [|y m IH]; intros l; cbn [foldl].
  - rewrite elem_of_nil. tauto.
  - rewrite IH, elem_of_cons. case_bool_decide; [|rewrite elem_of_app, list_elem_of_singleton; tauto].
    split; [tauto|]. intros [?|[->|?]]; tauto.
Qed.

Lemma default_capital c : c ∈ defaultNames -> capital c = true.
Proof.
  assert (H : Forall (fun c => capital c = true) defaultNames) by (apply (bool_decide_unpack _); by vm_compute).
  rewrite Forall_forall in H. apply H.
Qed.

(** The servers of a child in front of the call. *)
Definition startServers (t : Tree) (r : nat) (s : jsstr) (d : DeviceTypeDefinition * list DeviceTypeDefinition) (o : MatterbridgeEndpointOptions) : World :=
  match getChildEndpointById t r s with
  | Some c => serversOf t c
  | None => behaviors (newEndpoint md5 d (mkOptions (Some s) (optNumber o) (optTagList o) Undefined))
  end.

Lemma serversOf_addPart r c t : serversOf (addPart admits r c t) c = serversOf t c.
Proof.
  unfold addPart, serversOf. destruct (admits t r c); [|done]. cbn [alter nodes]. destruct (decide (r = c)) as [->|?].
  - rewrite lookup_alter_eq. by destruct (nodes t !! c).
  - by rewrite lookup_alter_ne.
Qed.


(** ** Serialization *)

Context (hash : string -> string).

Definition keyed (l : list (Z * DeviceTypeDefinition)) : Prop := Forall (fun cd => fst cd = code (snd cd)) l /\ NoDup (map fst l).

Lemma setType_keys dt l : map fst (setType dt l) = if bool_decide (code dt ∈ map fst l) then map fst l else (map fst l ++ [code dt])%list.
Proof.
  induction l as [|[c d] l IH]; cbn [setType map fst]; [done|]. destruct (Z.eqb_spec c (code dt)) as [->|Hne]; cbn [map fst].
  - by rewrite bool_decide_eq_true_2 by by left.
  - rewrite IH. destruct (decide (code dt ∈ map fst l)) as [Hin|Hin].
    + rewrite !bool_decide_eq_true_2 by (by right || done). done.
    + rewrite !bool_decide_eq_false_2; [done| |done]. by intros [?|?]%elem_of_cons.
Qed.

Lemma setType_keyed dt l : keyed l -> keyed (setType dt l).
Proof.
  intros [Hk Hn]. split.
  - clear Hn. induction Hk as [|[c d] l Hc Hk IH]; cbn [setType]; [by repeat constructor|].
    destruct (Z.eqb_spec c (code dt)) as [->|Hne]; by constructor.
  - rewrite setType_keys. case_bool_decide as Hin; [done|]. apply NoDup_app. split; [done|]. split; [|apply NoDup_singleton].
    by intros x Hx ->%list_elem_of_singleton.
Qed.

Lemma setType_fresh dt l : code dt ∉ map fst l -> setType dt l = (l ++ [(code dt, dt)])%list.
Proof.
  induction l as [|[c d] l IH]; cbn [setType map fst]; [done|]. rewrite not_elem_of_cons. intros [Hne Hin].
  destruct (Z.eqb_spec c (code dt)); [congruence|]. cbn. by rewrite IH.
Qed.

Lemma setTypes_keyed l m : keyed m -> keyed (foldl (fun m dt => setType dt m) m l).
Proof. revert m. induction l as [|dt l IH]; intros m Hm; cbn [foldl]; [done|]. by apply IH, setType_keyed. Qed.

(** The types of a map are put back into it as they were. *)
Lemma setTypes_again l : keyed l -> foldl (fun m dt => setType dt m) [] (map snd l) = l.
Proof.
  assert (H : forall l m, keyed (m ++ l) -> foldl (fun m dt => setType dt m) m (map snd l) = (m ++ l)%list).
  { induction l0 as [|[c d] l0 IH]; intros m Hk; cbn [map snd foldl]; [by rewrite app_nil_r|].
    destruct Hk as [HF HN]. pose proof (proj1 (Forall_app _ _ _) HF) as [_ Hc]. apply Forall_cons in Hc as [Hc _]. cbn in Hc. subst c.
    rewrite setType_fresh; [rewrite IH; rewrite <- app_assoc; [done|]; by split|].
    rewrite map_app in HN. apply NoDup_app in HN as (_ & HN & _). intros Hin. apply (HN _ Hin). cbn. by left. }
  intros Hl. by rewrite H.
Qed.

(** Endpoints with the id and the types of the constructor. *)
Definition Constructed (e : MatterbridgeEndpoint) : Prop :=
  exists d o, id e = id (newEndpoint md5 d o) /\ types e = types (newEndpoint md5 d o).

(** What is read back of an endpoint that was written out. *)
Lemma deserialize_constructed e s :
  Constructed e -> serialize e = Some s ->
  exists base, deserialize md5 hash s = Ok (foldl (restoreServer hash s) base (sClusterServersId s)) /\ id base = id e /\ number base = number e /\
    types base = types e /\ (forall c, c <> "Descriptor" -> c <> "Matterbridge" -> servers (behaviors base) !! c = None) /\
    fields base = [("productUrl", Str "https://www.npmjs.com/package/matterbridge"); ("plugin", sPluginName s); ("deviceName", sDeviceName s);
                   ("serialNumber", sSerialNumber s); ("uniqueId", sUniqueId s); ("vendorId", sVendorId s); ("vendorName", sVendorName s);
                   ("productId", sProductId s); ("productName", sProductName s)].
Proof.
  intros (d & o & Hid & Hty) Hs. unfold serialize in Hs. case_match; [done|]. injection Hs as <-.
  assert (Hk : keyed (types e)) by (rewrite Hty; apply setTypes_keyed; split; constructor).
  unfold deserialize. cbn [sDeviceTypes]. unfold getDeviceTypes. destruct (map snd (types e)) as [|first others] eqn:E.
  { exfalso. apply (f_equal length) in E. rewrite length_map, Hty in E. cbn in E. destruct d as [d0 ds]. cbn in E.
    assert (Hl : forall l m, (length m <= length (foldl (fun m dt => setType dt m) m l))%nat); [|specialize (Hl ds [(code d0, d0)]); cbn in Hl; lia].
    induction l as [|x l IH]; intros m; cbn [foldl]; [done|]. etransitivity; [|apply IH]. rewrite <- !(length_map fst), setType_keys.
    case_bool_decide; [done|]. rewrite length_app. lia. }
  eexists. split; [done|]. cbn [sId sNumber]. split; [|split; [done|]].
  { cbn. rewrite Hid. cbn. destruct (optId o); cbn; [by rewrite endpointId_stable|done]. }
  split; [|split; [|by vm_compute]].
  - cbn [setFields types newEndpoint fst snd]. rewrite <- E. by apply setTypes_again.
  - intros c H1 H2. cbn [setFields behaviors newEndpoint fst snd optTagList default from_option id truthy]. rewrite require_lookup. cbn [servers].
    rewrite lookup_singleton_ne by congruence. by rewrite bool_decide_eq_false_2 by congruence.
Qed.

Definition written : list string := ["BridgedDeviceBasicInformation"; "PowerSource"].

Lemma restored_same s e l : let e' := foldl (restoreServer hash s) e l in id e' = id e /\ number e' = number e /\ types e' = types e.
Proof.
  revert e. induction l as [|c l IH]; intros e; cbn [foldl]; [done|]. cbv zeta in IH. destruct (IH (restoreServer hash s e c)) as (-> & -> & ->).
  unfold restoreServer. by repeat case_match.
Qed.

Lemma restored_servers s e l c :
  is_Some (servers (behaviors (foldl (restoreServer hash s) e l)) !! c) <-> is_Some (servers (behaviors e) !! c) \/ (c ∈ l /\ c ∈ written).
Proof.
  revert e. induction l as [|c' l IH]; intros e; cbn [foldl]; [rewrite elem_of_nil; tauto|]. rewrite IH, elem_of_cons.
  assert (H : is_Some (servers (behaviors (restoreServer hash s e c')) !! c) <-> is_Some (servers (behaviors e) !! c) \/ (c = c' /\ c ∈ written)).
  { assert (Hreq : forall c0 attrs w, is_Some (servers (require c0 attrs w) !! c) <-> is_Some (servers w !! c) \/ c = c0).
    { intros c0 attrs w. rewrite require_lookup. destruct (servers w !! c); [split; [by left|by eexists]|].
      case_bool_decide; (split; [|intros [[? ?]|?]; [done|]]); [by right|by eexists|by intros [? ?]|congruence]. }
    unfold restoreServer. destruct (String.eqb_spec c' "BridgedDeviceBasicInformation") as [->|H1]; [|destruct (String.eqb_spec c' "PowerSource") as [->|H2]].
    - cbn [setBehaviors behaviors createDefaultBridgedDeviceBasicInformationClusterServer setFields]. rewrite Hreq.
      split; intros [?|?]; [by left| |by left|by right; destruct_and?]. right. subst. split; [done|]. by left.
    - cbn [setBehaviors behaviors]. unfold createDefaultPowerSourceWiredClusterServer, server. rewrite Hreq.
      split; intros [?|?]; [by left| |by left|by right; destruct_and?]. right. subst. split; [done|]. right. by left.
    - split; [by left|]. intros [?|[-> Hw]]; [done|]. by apply list_elem_of_In in Hw as [?|[?|[]]]. }
  rewrite H. tauto.
Qed.

(** An endpoint that is written out is read back with its id, number, types, name and
    serial number, and with the same of the servers that are written; with its vendor and
    product if it is not bridged, while a bridged one loses its product id and gets the
    unique id of its other fields. *)
Theorem serialized_back (e : MatterbridgeEndpoint) (s : SerializedMatterbridgeEndpoint) :
  Constructed e -> serialize e = Some s ->
  exists e', deserialize md5 hash s = Ok e' /\ id e' = id e /\ number e' = number e /\ getDeviceTypes e' = getDeviceTypes e /\
    Forall (fun k => getField k (fields e') = getField k (fields e)) ["deviceName"; "serialNumber"] /\
    Forall (fun c => is_Some (servers (behaviors e') !! c) <-> is_Some (servers (behaviors e) !! c)) ["BridgedDeviceBasicInformation"; "PowerSource"] /\
    (servers (behaviors e) !! "BridgedDeviceBasicInformation" = None ->
      Forall (fun k => getField k (fields e') = getField k (fields e)) ["uniqueId"; "vendorId"; "vendorName"; "productId"; "productName"]) /\
    (is_Some (servers (behaviors e) !! "BridgedDeviceBasicInformation") ->
      getField "productId" (fields e') = Undefined /\
      getField "uniqueId" (fields e') = Platform.createUniqueId hash (getField "deviceName" (fields e)) (getField "serialNumber" (fields e))
        (coalesce (getField "vendorName" (fields e)) (Str "Matterbridge")) (coalesce (getField "productName" (fields e)) (Str "Matterbridge device"))).
Proof.
  intros Hc Hs. destruct (deserialize_constructed e s Hc Hs) as (base & -> & Hid & Hn & Ht & Hsv & Hf). eexists. split; [done|].
  unfold serialize in Hs. case_match; [done|]. apply (inj Some) in Hs as <-. cbn [sClusterServersId] in *.
  cbn [sPluginName sDeviceName sSerialNumber sUniqueId sVendorId sVendorName sProductId sProductName] in Hf.
  set (s := mkSerialized _ _ _ _ _ _ _ _ _ _ _ _). set (l := List.filter _ _).
  destruct (restored_same s base l) as (Hid' & Hn' & Ht'). unfold getDeviceTypes. rewrite Hid', Hn', Ht', Hid, Hn, Ht. split; [done|]. split; [done|]. split; [done|].
  assert (Hfields : fields (foldl (restoreServer hash s) base l) =
    match servers (behaviors e) !! "BridgedDeviceBasicInformation" with
    | Some _ => fields (restoreServer hash s base "BridgedDeviceBasicInformation") | None => fields base end).
  { subst l. cbn [List.filter]. by destruct (servers (behaviors e) !! "BridgedDeviceBasicInformation"), (servers (behaviors e) !! "PowerSource"). }
  rewrite Hfields. split; [|split; [|split]].
  - destruct (servers (behaviors e) !! "BridgedDeviceBasicInformation"); [cbn [restoreServer]|rewrite Hf; by repeat constructor].
    repeat constructor; cbn; by rewrite Hf.
  - apply Forall_forall. intros c Hw. rewrite restored_servers, Hsv.
    + subst l. rewrite list_elem_of_In, filter_In, bool_decide_eq_true, <- list_elem_of_In.
      split; [by intros [[? ?]|[[_ ?] _]]|]. by right.
    + by intros ->; apply list_elem_of_In in Hw as [?|[?|[]]].
    + by intros ->; apply list_elem_of_In in Hw as [?|[?|[]]].
  - intros ->. rewrite Hf. by repeat constructor.
  - intros [a ->]. cbn [restoreServer]. split; cbn; rewrite Hf; [done|]. cbn. f_equal.
    by destruct (getField "vendorName" (fields e)), (getField "productName" (fields e)).
Qed.
End Ids.

(** ** Samples *)

Definition sampleMd5 (s : jsstr) : jsstr := js "1f3870be274f6c49b3e31a0c6728957f".
Lemma sampleMd5_hex s : Forall (fun u => 48 <= u <= 57 \/ 97 <= u <= 102) (sampleMd5 s).
Proof. apply (bool_decide_unpack _). by vm_compute. Qed.

Definition plainOptions : MatterbridgeEndpointOptions := mkOptions None None None Undefined.
Definition sampleRoot : MatterbridgeEndpoint := newEndpoint sampleMd5 (bridgedNode, [powerSource]) (mkOptions (Some (js "My lamp v1.0")) (Some 3) None Undefined).
Definition sampleTree : Tree := mkTree 1 {[0%nat := sampleRoot]}.
Definition takesAll (t : Tree) (r c : nat) : bool := true.

Lemma sampleTree_WF : TreeWF sampleMd5 sampleTree.
Proof.
  intros n e He. cbn [sampleTree nodes] in He. apply lookup_singleton_Some in He as [<- <-]. split; [cbn; lia|]. split; [constructor|].
  intros i [= <-]. by vm_compute.
Qed.

(** The tree that an addition leaves, if it gives some child. *)
Definition treeOf {A} (x : res (Tree * nat * A)) : Tree := match x with Ok (t, _, _) => t | Throw _ => sampleTree end.
Definition gives {A} (c : nat) (x : res (Tree * nat * A)) : bool := match x with Ok (_, c', _) => (c =? c')%nat | Throw _ => false end.
Definition plain (x : res (Tree * nat)) : res (Tree * nat * unit) := '(t, c) ← x; Ok (t, c, tt).
Lemma gives_plain c x : gives c (plain x) = true -> x = Ok (treeOf (plain x), c).
Proof. destruct x as [[t c']|e]; cbn; [|done]. by intros ->%Nat.eqb_eq. Qed.
Lemma gives_list c (x : res (Tree * nat * list string)) : gives c x = true -> exists l, x = Ok (treeOf x, c, l).
Proof. destruct x as [[[t c'] l]|e]; cbn; [|done]. intros ->%Nat.eqb_eq. by eexists. Qed.

(** A zone of an irrigation system, whose name has a space in it, and one without. *)
Definition addZone (s : string) (t : Tree) : res (Tree * nat) := addChildDeviceType sampleMd5 takesAll (js s) (onOffLight, []) plainOptions 0 t.
Definition zoned (s : string) : Tree := treeOf (plain (addZone s sampleTree)).

Lemma zone_added s : gives 1 (plain (addZone s sampleTree)) = true -> addZone s sampleTree = Ok (zoned s, 1%nat).
Proof. apply gives_plain. Qed.

Lemma tree_wf_witness : TreeWF sampleMd5 (zoned "Zone 1").
Proof.
  refine (proj1 (tree_wf sampleMd5 sampleMd5_hex takesAll sampleTree _ 0 1 (js "Zone 1") (onOffLight, []) plainOptions [] [] sampleTree_WF) _).
  apply zone_added. by vm_compute.
Defined.

Lemma child_once_witness :
  (exists t2, addZone "Zone 1" (zoned "Zone 1") = Ok (t2, next (zoned "Zone 1")) /\ next (zoned "Zone 1") <> 1%nat) /\
  addZone "Zone1" (zoned "Zone1") = Ok (zoned "Zone1", 1%nat).
Proof.
  assert (Hr : is_Some (nodes sampleTree !! 0%nat)) by by eexists.
  split.
  - apply (child_once sampleMd5 sampleMd5_hex takesAll sampleTree (zoned "Zone 1") 0 1 (js "Zone 1") (onOffLight, []) (onOffLight, [])
      plainOptions plainOptions sampleTree_WF Hr); [apply zone_added; by vm_compute|apply (bool_decide_unpack _); by vm_compute| |done].
    apply (bool_decide_unpack _). by vm_compute.
  - apply (child_once sampleMd5 sampleMd5_hex takesAll sampleTree (zoned "Zone1") 0 1 (js "Zone1") (onOffLight, []) (onOffLight, [])
      plainOptions plainOptions sampleTree_WF Hr); [apply zone_added; by vm_compute|apply (bool_decide_unpack _); by vm_compute|].
    apply (bool_decide_unpack _). by vm_compute.
Defined.

Definition addPlug : res (Tree * nat * list string) :=
  addChildDeviceTypeWithClusterServer sampleMd5 takesAll (js "Plug") (onOffLight, [bridgedNode]) ["PowerSource"; "Descriptor"] plainOptions 0 sampleTree.


Definition sampleDevice : MatterbridgeEndpoint :=
  createDefaultBasicInformationClusterServer (fun s => s) (Str "Lamp") (Str "0x1234") Undefined Undefined (Num 0x8001) Undefined Undefined Undefined Undefined
    Undefined (setBehaviors (createDefaultPowerSourceWiredClusterServer Undefined) sampleRoot).

Lemma serialized_back_witness : exists s e', serialize sampleDevice = Some s /\ deserialize sampleMd5 (fun s => s) s = Ok e' /\
  getDeviceTypes e' = [bridgedNode; powerSource] /\ getField "productId" (fields e') = Num 0x8001.
Proof.
  assert (Hc : Constructed sampleMd5 sampleDevice) by (eexists _, _; split; [|reflexivity]; reflexivity).
  destruct (serialize sampleDevice) as [s|] eqn:Hs; [|discriminate].
  destruct (serialized_back sampleMd5 sampleMd5_hex (fun s => s) sampleDevice s Hc Hs) as (e' & He & _ & _ & Ht & _ & _ & Hu & _).
  exists s, e'. split; [done|]. split; [done|]. split; [rewrite Ht; reflexivity|].
  specialize (Hu eq_refl). rewrite Forall_forall in Hu. rewrite (Hu "productId") by (apply list_elem_of_In; cbn; tauto). reflexivity.
Defined.
