(* ===== verification/Devices.v ===== *)
(** The device classes of [packages/core/src/devices]: the servers that each of them
    creates with their first attributes, their children, and what is added to them. *)
From S2P Require Import Prelude JsString JsValue Validate Async Ownership NodePath Bridge Platform Deep Behaviors BehaviorFacts Endpoint EndpointFacts.
From S2P Require Import DeviceTypes ClusterServers EndpointTree.
From stdpp Require Import gmap strings.
#[local] Open Scope string_scope.
#[local] Open Scope Z_scope.
Import Behaviors Endpoint DeviceTypes ClusterServers Tree.

Module Devices.
Abbreviation object := (list (string * value)) (only parsing).

(** Modes with one tag, counted from 1. *)
Definition modeOptions (l : list (string * string)) : value :=
  Arr (imap (fun i '(label, tag) => modeOption label (Z.of_nat i + 1) [tag]) l).
Definition sameTags (l : list string) : value := modeOptions (map (fun s => (s, s)) l).

Definition modes (currentMode supportedModes : value) : object := [("supportedModes", supportedModes); ("currentMode", currentMode)].

(** ** Servers of the classes *)

(** *** The vacuum cleaner *)

Definition defaultRunModes : value :=
  Arr [modeOption "Idle" 1 ["Idle"]; modeOption "Cleaning" 2 ["Cleaning"]; modeOption "Mapping" 3 ["Mapping"];
       modeOption "SpotCleaning" 4 ["Cleaning"; "Max"]].

Definition createDefaultRvcRunModeClusterServer (currentMode supportedModes : value) : World -> World :=
  server "RvcRunMode" [] (modes (coalesce currentMode (Num 1)) (coalesce supportedModes defaultRunModes)).

Definition createDefaultRvcCleanModeClusterServer (currentMode supportedModes : value) : World -> World :=
  server "RvcCleanMode" [] (modes (coalesce currentMode (Num 1)) (coalesce supportedModes (sameTags ["Vacuum"; "Mop"; "DeepClean"]))).

Definition area (areaId : Z) (locationName : string) (floorNumber : Z) (areaType : string) : value :=
  Obj [("areaId", Num areaId); ("mapId", Null);
       ("areaInfo", Obj [("locationInfo", Obj [("locationName", Str locationName); ("floorNumber", Num floorNumber);
                                               ("areaType", enum "CommonAreaNamespaceTag" areaType)]); ("landmarkInfo", Null)])].
Definition defaultAreas : value :=
  Arr [area 1 "Living" 0 "LivingRoom"; area 2 "Kitchen" 0 "Kitchen"; area 3 "Bedroom" 1 "Bedroom"; area 4 "Bathroom" 1 "Bathroom"].

Definition createDefaultServiceAreaClusterServer (supportedAreas selectedAreas currentArea supportedMaps : value) : World -> World :=
  server "ServiceArea" ["maps"]
    [("supportedAreas", coalesce supportedAreas defaultAreas); ("selectedAreas", coalesce selectedAreas (Arr []));
     ("currentArea", param currentArea (Num 1)); ("supportedMaps", coalesce supportedMaps (Arr [])); ("estimatedEndTime", Null)].

Definition defaultRvcStates : value :=
  Arr (map (fun s => Obj [("operationalStateId", rvcState s)])
    ["Stopped"; "Running"; "Paused"; "Error"; "SeekingCharger"; "Charging"; "Docked"]).

Definition createDefaultRvcOperationalStateClusterServer (phaseList currentPhase stateList state error : value) : World -> World :=
  server "RvcOperationalState" []
    [("phaseList", param phaseList Null); ("currentPhase", param currentPhase Null);
     ("operationalStateList", coalesce stateList defaultRvcStates); ("operationalState", coalesce state (rvcState "Docked"));
     ("operationalError", coalesce error noError)].

(** *** Charging, heating water *)

Definition createDefaultEnergyEvseClusterServer (state supplyState faultState : value) : World -> World :=
  server "EnergyEvse" ["chargingPreferences"]
    [("state", param state (evseState "NotPluggedIn")); ("supplyState", param supplyState (supply "ChargingEnabled"));
     ("faultState", param faultState (enum "FaultState" "NoError")); ("chargingEnabledUntil", Null); ("circuitCapacity", Num 32000);
     ("minimumChargeCurrent", Num 6000); ("maximumChargeCurrent", Num 32000); ("userMaximumChargeCurrent", Num 32000);
     ("sessionId", Null); ("sessionDuration", Null); ("sessionEnergyCharged", Null)].

Definition createDefaultEnergyEvseModeClusterServer (currentMode supportedModes : value) : World -> World :=
  server "EnergyEvseMode" [] (modes (coalesce currentMode (Num 1))
    (coalesce supportedModes (modeOptions [("On demand", "Manual"); ("Scheduled", "TimeOfUse"); ("Solar charging", "SolarCharging")]))).

Definition createDefaultWaterHeaterManagementClusterServer (heaterTypes heatDemand tankPercentage boostState : value) : World -> World :=
  server "WaterHeaterManagement" ["tankPercent"]
    [("heaterTypes", coalesce heaterTypes (Obj [("immersionElement1", Bool true)])); ("heatDemand", coalesce heatDemand (Obj []));
     ("tankPercentage", coalesce tankPercentage (Num 100)); ("boostState", coalesce boostState (enum "BoostState" "Inactive"))].

Definition createDefaultWaterHeaterModeClusterServer (currentMode supportedModes : value) : World -> World :=
  server "WaterHeaterMode" [] (modes (coalesce currentMode (Num 1))
    (coalesce supportedModes (sameTags ["Auto"; "Quick"; "Quiet"; "LowNoise"; "LowEnergy"; "Vacation"; "Min"; "Max"; "Night"; "Day";
       "Off"; "Manual"; "Timed"]))).

(** *** Kitchen and laundry *)

Definition createLevelTemperatureControlClusterServer (selected supported : value) : World -> World :=
  server "TemperatureControl" ["temperatureLevel"]
    [("selectedTemperatureLevel", param selected (Num 1));
     ("supportedTemperatureLevels", param supported (Arr (map Str ["Cold"; "Warm"; "Hot"; "30°"; "40°"; "60°"; "80°"])))].

Definition createNumberTemperatureControlClusterServer (setpoint least most step : value) : World -> World :=
  server "TemperatureControl" ["temperatureNumber"; "temperatureStep"]
    [("temperatureSetpoint", param setpoint (Num 4000)); ("minTemperature", param least (Num 3000));
     ("maxTemperature", param most (Num 6000)); ("step", param step (Num 1000))].

Definition createDefaultLaundryWasherModeClusterServer (currentMode supportedModes : value) : World -> World :=
  server "LaundryWasherMode" []
    (modes (param currentMode (Num 2)) (param supportedModes (sameTags ["Delicate"; "Normal"; "Heavy"; "Whites"]))).

Definition createDefaultLaundryWasherControlsClusterServer (spinSpeedCurrent spinSpeeds numberOfRinses supportedRinses : value) : World -> World :=
  server "LaundryWasherControls" ["spin"; "rinse"]
    [("spinSpeeds", param spinSpeeds (Arr (map Str ["400"; "800"; "1200"; "1600"]))); ("spinSpeedCurrent", param spinSpeedCurrent (Num 2));
     ("supportedRinses", param supportedRinses (Arr (map (enum "NumberOfRinses") ["None"; "Normal"; "Max"; "Extra"])));
     ("numberOfRinses", param numberOfRinses (enum "NumberOfRinses" "Normal"))].

Definition createDefaultLaundryDryerControlsClusterServer (selectedDrynessLevel supportedDrynessLevels : value) : World -> World :=
  server "LaundryDryerControls" []
    [("supportedDrynessLevels", coalesce supportedDrynessLevels (Arr (map (enum "DrynessLevel") ["Low"; "Normal"; "Extra"; "Max"])));
     ("selectedDrynessLevel", selectedDrynessLevel)].

Definition createDefaultDishwasherModeClusterServer (currentMode supportedModes : value) : World -> World :=
  server "DishwasherMode" [] (modes (param currentMode (Num 2)) (param supportedModes (sameTags ["Light"; "Normal"; "Heavy"]))).

Definition alarms : list string := ["inflowError"; "drainError"; "doorError"; "tempTooLow"; "tempTooHigh"; "waterLevelError"].
Definition createDefaultDishwasherAlarmClusterServer : World -> World :=
  server "DishwasherAlarm" [] [("mask", Obj (flags true alarms)); ("state", Obj (flags false alarms)); ("supported", Obj (flags true alarms))].

Definition createDefaultOvenModeClusterServer (currentMode supportedModes : value) : World -> World :=
  server "OvenMode" [] (modes currentMode supportedModes).

Definition createDefaultOvenCavityOperationalStateClusterServer (state currentPhase phaseList : value) : World -> World :=
  server "OvenCavityOperationalState" []
    [("phaseList", coalesce phaseList Null); ("currentPhase", coalesce currentPhase Null);
     ("operationalStateList", Arr (map (fun s => Obj [("operationalStateId", enum "OperationalState" s)]) ["Stopped"; "Running"; "Error"]));
     ("operationalState", param state (enum "OperationalState" "Stopped")); ("operationalError", noError)].

Definition createDefaultRefrigeratorAndTemperatureControlledCabinetModeClusterServer (currentMode supportedModes : value) : World -> World :=
  server "RefrigeratorAndTemperatureControlledCabinetMode" [] (modes currentMode supportedModes).

Definition doorOpens (b : value) : value := Obj [("doorOpen", b)].
Definition createDefaultRefrigeratorAlarmClusterServer (doorOpen : value) : World -> World :=
  server "RefrigeratorAlarm" []
    [("mask", doorOpens (Bool true)); ("supported", doorOpens (Bool true)); ("state", doorOpens (param doorOpen (Bool false)))].

Definition createDefaultMicrowaveOvenModeClusterServer (currentMode supportedModes : value) : World -> World :=
  server "MicrowaveOvenMode" [] (modes currentMode supportedModes).

Definition createDefaultMicrowaveOvenControlClusterServer (selectedWattIndex supportedWatts cookTime maxCookTime : value) : World -> World :=
  server "MicrowaveOvenControl" ["powerInWatts"]
    [("supportedWatts", supportedWatts); ("selectedWattIndex", selectedWattIndex); ("cookTime", cookTime); ("maxCookTime", maxCookTime)].

(** *** Video players *)

Definition createDefaultMediaPlaybackClusterServer (currentState : value) : World -> World := server "MediaPlayback" [] [("currentState", currentState)].
Definition createDefaultKeypadInputClusterServer : World -> World := server "KeypadInput" [] [].
Definition createDefaultContentLauncherClusterServer : World -> World := server "ContentLauncher" [] [].

(** ** Devices *)

Section Classes.
(** The hashes of ids and descriptions, the acceptance of parts, and matter.js. *)
Context (md5 : jsstr -> jsstr) (hash : string -> string) (admits : Tree -> nat -> nat -> bool) (env : Env).

(** Servers that are created one after the other. *)
Definition pipe (steps : list (World -> World)) (w : World) : World := foldl (fun w f => f w) w steps.

Definition deviceId (name serial : string) : jsstr :=
  js (strKeep (fun a => negb (charIs 32 a)) name ++ "-" ++ strKeep (fun a => negb (charIs 32 a)) serial).

Abbreviation definition := (DeviceTypeDefinition * list DeviceTypeDefinition)%type (only parsing).

(** The endpoint of a device, with its description and its servers. *)
Definition newDevice (d : definition) (name serial product : string) (tags : option value) (mode : value) (steps : list (World -> World)) : MatterbridgeEndpoint :=
  createDefaultBasicInformationClusterServer hash (Str name) (Str serial) (Num 0xfff1) (Str "Matterbridge") (Num 0x8000) (Str product)
    Undefined Undefined Undefined Undefined
    (setBehaviors (pipe steps) (newEndpoint md5 d (mkOptions (Some (deviceId name serial)) None tags mode))).

Definition single (d : definition) (name serial product : string) (steps : list (World -> World)) (t : Tree) : res (Tree * nat) :=
  Ok (alloc (newDevice d name serial product None Undefined steps) t).

Definition addRequired (d : definition) : World -> World := addRequiredClusterServers (fst d :: snd d).

(** A label that is added without waiting: a new endpoint has none, and there is no await. *)
Definition fixedLabel (label v : string) (w : World) : World := fst (run (addFixedLabel env label v) w).
Definition userLabel (label v : string) (w : World) : World := fst (run (addUserLabel env label v) w).

Definition child (name : string) (d : definition) (tags : option value) (steps : list (World -> World)) (r : nat) (t : Tree) : res (Tree * nat) :=
  '(t, c) ← addChildDeviceType md5 admits (js name) d (mkOptions None None tags Undefined) r t; Ok (onServers c (pipe steps) t, c).

Definition semtag (namespace tag : string) : value := Obj [("namespaceId", Str namespace); ("tag", Str tag)].
Definition tagged (l : list (value * value)) : option value := Some (Arr (map (fun '(tag, label) => getSemtag tag label Undefined) l)).
Definition powerTag (tag : string) : value * value := (semtag "PowerSourceTag" tag, Undefined).

(** *** Closures, soil, irrigation *)

Definition Closure (name serial : string) (o : object) : Tree -> res (Tree * nat) :=
  single (closure, []) name serial "Matterbridge Closure"
    [createDefaultIdentifyClusterServer Undefined Undefined;
     server "ClosureControl" ["positioning"; "motionLatching"; "speed"]
       [("mainState", coalesce (getField "mainState" o) (enum "MainState" "Stopped")); ("currentErrorList", Arr []);
        ("overallCurrentState", Null); ("overallTargetState", Null); ("countdownTime", Null)]].

Definition ClosurePanel (name serial : string) (o : object) : Tree -> res (Tree * nat) :=
  single (closurePanel, []) name serial "Matterbridge Closure Panel"
    [server "ClosureDimension" ["positioning"; "motionLatching"; "speed"]
       [("currentState", Null); ("targetState", Null); ("resolution", coalesce (getField "resolution" o) (Num 1));
        ("stepValue", coalesce (getField "stepValue" o) (Num 1))]].

Definition powered (o : object) : World -> World :=
  if truthy (getField "batteryPowered" o) then createDefaultPowerSourceBatteryClusterServer Undefined Undefined Undefined Undefined
  else createDefaultPowerSourceWiredClusterServer Undefined.

Definition SoilSensor (name serial : string) (o : object) : Tree -> res (Tree * nat) :=
  single (soilSensor, [powerSource]) name serial "Matterbridge Soil Sensor"
    [createDefaultIdentifyClusterServer Undefined Undefined; powered o;
     createDefaultSoilMeasurementClusterServer (getField "soilMoistureMeasuredValue" o) (getField "soilMoistureMeasurementLimits" o);
     fun w => if isUndefined (getField "temperatureMeasuredValue" o) then w
              else createDefaultTemperatureMeasurementClusterServer (getField "temperatureMeasuredValue" o) Undefined Undefined w].

Definition IrrigationSystem (name serial : string) (o : object) : Tree -> res (Tree * nat) :=
  let singleZone := truthy (getField "singleZone" o) in
  let d := (irrigationSystem, if singleZone then [waterValve; powerSource] else [powerSource]) in
  single d name serial "Matterbridge Irrigation System"
    [createDefaultIdentifyClusterServer Undefined Undefined; powered o;
     createDefaultOperationalStateClusterServer (coalesce (getField "operationalState" o) (enum "OperationalState" "Stopped"));
     (fun w => if isUndefined (getField "flowMeasuredValue" o) then w
               else createDefaultFlowMeasurementClusterServer (getField "flowMeasuredValue" o) Undefined Undefined w);
     (fun w => if singleZone then createDefaultValveConfigurationAndControlClusterServer Undefined Undefined w else w);
     addRequired d].

Definition IrrigationSystem_addZone (tag : value) : nat -> Tree -> res (Tree * nat) :=
  child ("Zone " ++ toText (optProp tag "tag")) (waterValve, []) (tagged [(tag, Undefined); (semtag "CommonLocationTag" "Zone", Undefined)])
    [createDefaultValveConfigurationAndControlClusterServer Undefined Undefined; addRequired (waterValve, [])].

(** *** The vacuum cleaner *)

Definition RoboticVacuumCleaner (name serial : string) (o : object) (t : Tree) : res (Tree * nat) :=
  let g k := getField k o in
  Ok (alloc (newDevice (roboticVacuumCleaner, [powerSource]) name serial "Matterbridge Robot Vacuum Cleaner" None (g "mode")
    [createDefaultIdentifyClusterServer Undefined Undefined;
     createDefaultPowerSourceRechargeableBatteryClusterServer (Num 80) (enum "BatChargeLevel" "Ok") (Num 5900) Undefined;
     createDefaultRvcRunModeClusterServer (g "currentRunMode") (g "supportedRunModes");
     createDefaultRvcCleanModeClusterServer (g "currentCleanMode") (g "supportedCleanModes");
     createDefaultRvcOperationalStateClusterServer (g "phaseList") (g "currentPhase") (g "operationalStateList") (g "operationalState") Undefined;
     createDefaultServiceAreaClusterServer (g "supportedAreas") (g "selectedAreas") (g "currentArea") (g "supportedMaps")]) t).

(** *** Appliances *)

Definition AirConditioner (name serial : string) (o : object) : Tree -> res (Tree * nat) :=
  let g k := getField k o in
  single (roomAirConditioner, [powerSource]) name serial "Matterbridge Air Conditioner"
    [createDefaultIdentifyClusterServer Undefined Undefined; createDefaultPowerSourceWiredClusterServer Undefined;
     createDeadFrontOnOffClusterServer (Bool true);
     createDefaultThermostatClusterServer (param (g "localTemperature") (Num 23)) (param (g "occupiedHeatingSetpoint") (Num 21))
       (param (g "occupiedCoolingSetpoint") (Num 25)) (param (g "minSetpointDeadBand") (Num 1)) (param (g "minHeatSetpointLimit") (Num 0))
       (param (g "maxHeatSetpointLimit") (Num 50)) (param (g "minCoolSetpointLimit") (Num 0)) (param (g "maxCoolSetpointLimit") (Num 50))
       Undefined Undefined Undefined Undefined;
     createDefaultThermostatUserInterfaceConfigurationClusterServer (param (g "temperatureDisplayMode") (enum "TemperatureDisplayMode" "Celsius"))
       (param (g "keypadLockout") (enum "KeypadLockout" "NoLockout"))
       (param (g "scheduleProgrammingVisibility") (enum "ScheduleProgrammingVisibility" "ScheduleProgrammingPermitted"));
     createDefaultFanControlClusterServer (param (g "fanMode") (enum "FanMode" "Off"))
       (param (g "fanModeSequence") (enum "FanModeSequence" "OffLowMedHighAuto")) (param (g "percentSetting") (Num 0)) (param (g "percentCurrent") (Num 0))].

Definition Cooktop (name serial : string) : Tree -> res (Tree * nat) :=
  single (cooktop, [powerSource]) name serial "Cooktop"
    [createDefaultIdentifyClusterServer Undefined Undefined; createDefaultPowerSourceWiredClusterServer Undefined;
     createOffOnlyOnOffClusterServer (Bool true); fixedLabel "composed" "Cooktop"].

Definition Cooktop_addSurface (name : string) (tagList : list value) (selected supported : value) : nat -> Tree -> res (Tree * nat) :=
  child name (cookSurface, []) (Some (Arr tagList))
    [createLevelTemperatureControlClusterServer (param selected (Num 2))
       (param supported (Arr (map Str ["Level 1"; "Level 2"; "Level 3"; "Level 4"; "Level 5"])));
     createDefaultTemperatureMeasurementClusterServer (Num 2000) Undefined Undefined; createOffOnlyOnOffClusterServer (Bool true)].

(** The choice of washers, driers and dishwashers. *)
Definition temperatureControl (o : object) : World -> World :=
  if truthy (getField "temperatureSetpoint" o)
  then createNumberTemperatureControlClusterServer (getField "temperatureSetpoint" o) (getField "minTemperature" o) (getField "maxTemperature" o)
         (getField "step" o)
  else createLevelTemperatureControlClusterServer (getField "selectedTemperatureLevel" o) (getField "supportedTemperatureLevels" o).

Definition Dishwasher (name serial : string) (o : object) : Tree -> res (Tree * nat) :=
  single (dishwasher, [powerSource]) name serial "Matterbridge Dishwasher"
    [createDefaultIdentifyClusterServer Undefined Undefined; createDefaultPowerSourceWiredClusterServer Undefined;
     createDeadFrontOnOffClusterServer (Bool true);
     createDefaultDishwasherModeClusterServer (getField "currentMode" o) (getField "supportedModes" o);
     createDefaultDishwasherAlarmClusterServer; temperatureControl o;
     createDefaultOperationalStateClusterServer (getField "operationalState" o)].

Definition ExtractorHood (name serial : string) (o : object) : Tree -> res (Tree * nat) :=
  let g k := getField k o in
  single (extractorHood, [powerSource]) name serial "Extractor Hood"
    [createDefaultIdentifyClusterServer Undefined Undefined; createDefaultPowerSourceWiredClusterServer Undefined;
     createBaseFanControlClusterServer Undefined Undefined Undefined Undefined;
     createDefaultHepaFilterMonitoringClusterServer (param (g "hepaCondition") (Num 100)) (param (g "hepaChangeIndication") (enum "ChangeIndication" "Ok"))
       (param (g "hepaInPlaceIndicator") (Bool true)) (param (g "hepaLastChangedTime") Null) (param (g "hepaReplacementProductList") (Arr []));
     createDefaultActivatedCarbonFilterMonitoringClusterServer (param (g "activatedCarbonCondition") (Num 100))
       (param (g "activatedCarbonChangeIndication") (enum "ChangeIndication" "Ok")) (param (g "activatedCarbonInPlaceIndicator") (Bool true))
       (param (g "activatedCarbonLastChangedTime") Null) (param (g "activatedCarbonReplacementProductList") (Arr []))].

(** What the listener of [percentSetting] does when a fabric has changed it. *)
Definition ExtractorHood_percentSetting (newValue : value) (fabric : bool) : async World unit :=
  if fabric then _ ← await (setAttribute env (ByName "fanControl") "percentCurrent" newValue); mret tt else mret tt.

Definition LaundryDryer (name serial : string) (o : object) : Tree -> res (Tree * nat) :=
  single (laundryDryer, [powerSource]) name serial "Matterbridge Laundry Dryer"
    [createDefaultIdentifyClusterServer Undefined Undefined; createDefaultPowerSourceWiredClusterServer Undefined;
     createDeadFrontOnOffClusterServer (Bool true);
     createDefaultLaundryWasherModeClusterServer (getField "currentMode" o) (getField "supportedModes" o);
     createDefaultLaundryDryerControlsClusterServer (Num 1) Undefined; temperatureControl o;
     createDefaultOperationalStateClusterServer (getField "operationalState" o)].

Definition LaundryWasher (name serial : string) (o : object) : Tree -> res (Tree * nat) :=
  let g k := getField k o in
  single (laundryWasher, [powerSource]) name serial "Matterbridge Laundry Washer"
    [createDefaultIdentifyClusterServer Undefined Undefined; createDefaultPowerSourceWiredClusterServer Undefined;
     createDeadFrontOnOffClusterServer (Bool true); createDefaultLaundryWasherModeClusterServer (g "currentMode") (g "supportedModes");
     createDefaultLaundryWasherControlsClusterServer (g "spinSpeedCurrent") (g "spinSpeeds") (g "numberOfRinses") (g "supportedRinses");
     temperatureControl o; createDefaultOperationalStateClusterServer (g "operationalState")].

Definition MicrowaveOven (name serial : string) (o : object) : Tree -> res (Tree * nat) :=
  let g k := getField k o in
  single (microwaveOven, [powerSource]) name serial "Microwave Oven"
    [createDefaultIdentifyClusterServer Undefined Undefined; createDefaultPowerSourceWiredClusterServer Undefined;
     createDefaultOperationalStateClusterServer (enum "OperationalState" "Stopped");
     createDefaultMicrowaveOvenModeClusterServer (param (g "currentMode") (Num 1))
       (param (g "supportedModes") (sameTags ["Auto"; "Quick"; "Quiet"; "Min"; "Max"; "Normal"; "Defrost"]));
     createDefaultMicrowaveOvenControlClusterServer (param (g "selectedWattIndex") (Num 5))
       (param (g "supportedWatts") (Arr (map Num [100; 200; 300; 400; 500; 600; 700; 800; 900; 1000])))
       (param (g "cookTime") (Num 60)) (param (g "maxCookTime") (Num 3600))].

Definition Oven (name serial : string) : Tree -> res (Tree * nat) :=
  single (oven, [powerSource]) name serial "Oven"
    [createDefaultIdentifyClusterServer Undefined Undefined; createDefaultPowerSourceWiredClusterServer Undefined; fixedLabel "composed" "Oven"].

(** The servers of a heated cabinet. *)
Definition ovenModes : value :=
  modeOptions [("Bake", "Bake"); ("Convection", "Convection"); ("Grill", "Grill"); ("Roast", "Roast"); ("Clean", "Clean");
    ("Convection Bake", "ConvectionBake"); ("Convection Roast", "ConvectionRoast"); ("Warming", "Warming"); ("Proofing", "Proofing");
    ("Steam", "Steam")].
Definition ovenCabinet (o : object) : list (World -> World) :=
  let g k := getField k o in
  [createNumberTemperatureControlClusterServer (param (g "targetTemperature") (Num 18000)) (param (g "minTemperature") (Num 3000))
     (param (g "maxTemperature") (Num 30000)) (param (g "step") (Num 1000));
   createDefaultTemperatureMeasurementClusterServer (param (g "currentTemperature") (Num 2000)) Undefined Undefined;
   createDefaultOvenModeClusterServer (param (g "currentMode") (Num 2)) (param (g "supportedModes") ovenModes);
   createDefaultOvenCavityOperationalStateClusterServer (param (g "operationalState") (enum "OperationalState" "Stopped"))
     (g "currentPhase") (g "phaseList")].
Definition Oven_addCabinet (name : string) (tagList : list value) (o : object) : nat -> Tree -> res (Tree * nat) :=
  child name (temperatureControlledCabinetHeater, []) (Some (Arr tagList)) (ovenCabinet o).

Definition Refrigerator (name serial : string) (o : object) : Tree -> res (Tree * nat) :=
  single (refrigerator, [powerSource]) name serial "Refrigerator"
    [createDefaultIdentifyClusterServer Undefined Undefined; createDefaultPowerSourceWiredClusterServer Undefined;
     fixedLabel "composed" "Refrigerator";
     createDefaultRefrigeratorAndTemperatureControlledCabinetModeClusterServer (param (getField "currentMode" o) (Num 1))
       (param (getField "supportedModes" o) (sameTags ["Auto"; "RapidCool"; "RapidFreeze"]));
     createDefaultRefrigeratorAlarmClusterServer (Bool false)].

(** The servers of a cooled cabinet. *)
Definition refrigeratorCabinet (o : object) : list (World -> World) :=
  let g k := getField k o in
  [createNumberTemperatureControlClusterServer (param (g "targetTemperature") (Num 1000)) (param (g "minTemperature") (Num (-3000)))
     (param (g "maxTemperature") (Num 2000)) (param (g "step") (Num 100));
   createDefaultTemperatureMeasurementClusterServer (param (g "currentTemperature") (Num 1000)) Undefined Undefined].
Definition Refrigerator_addCabinet (name : string) (tagList : list value) (o : object) : nat -> Tree -> res (Tree * nat) :=
  child name (temperatureControlledCabinetCooler, []) (Some (Arr tagList)) (refrigeratorCabinet o).

Definition Refrigerator_setDoorOpenState (doorOpen : value) : async World unit :=
  _ ← await (setAttribute env (ByName "RefrigeratorAlarm") "state" (doorOpens doorOpen)); mret tt.

Definition Refrigerator_triggerDoorOpenState (events : string -> list string) (doorOpen : bool) : async World unit :=
  _ ← await (triggerEvent events (ByName "RefrigeratorAlarm") "notify"
    [("active", doorOpens (Bool doorOpen)); ("inactive", doorOpens (Bool (negb doorOpen))); ("state", doorOpens (Bool doorOpen));
     ("mask", doorOpens (Bool true))]);
  mret tt.

(** *** Energy *)

(** The servers that the energy appliances share. *)
Definition energyServers (voltage current power imported exported : value) : list (World -> World) :=
  [createDefaultPowerTopologyClusterServer;
   createDefaultElectricalPowerMeasurementClusterServer (param voltage Null) (param current Null) (param power Null) Undefined;
   createDefaultElectricalEnergyMeasurementClusterServer imported exported].
Definition managementServers (esaType : string) (esaCanGenerate : bool) (absMinPower absMaxPower : value) : list (World -> World) :=
  [createDefaultDeviceEnergyManagementClusterServer (enum "EsaType" esaType) (Bool esaCanGenerate) (enum "EsaState" "Online") absMinPower absMaxPower;
   createDefaultDeviceEnergyManagementModeClusterServer Undefined Undefined].

Definition energyDevice (first : DeviceTypeDefinition) (name serial product tag : string) (servers : list (World -> World)) (t : Tree) : res (Tree * nat) :=
  let d := (first, [powerSource; electricalSensor; deviceEnergyManagement]) in
  Ok (alloc (newDevice d name serial product (tagged [powerTag tag]) Undefined
    ([createDefaultIdentifyClusterServer Undefined Undefined; createDefaultPowerSourceWiredClusterServer Undefined] ++ servers ++ [addRequired d])%list) t).

Definition BatteryStorage (name serial : string) (o : object) (t : Tree) : res (Tree * nat) :=
  let g k := getField k o in
  '(t, r) ← energyDevice batteryStorage name serial "Matterbridge Battery Storage" "Grid"
    (energyServers (g "voltage") (g "current") (g "power") (param (g "energyImported") Null) (param (g "energyExported") Null) ++
     managementServers "BatteryStorage" true (param (g "absMinPower") (Num 0)) (param (g "absMaxPower") (Num 0)))%list t;
  let t := onServers r (fixedLabel "composed" "Battery Storage") t in
  '(t, _) ← child "Battery" (powerSource, [electricalSensor]) (tagged [powerTag "Battery"])
    [createDefaultPowerSourceRechargeableBatteryClusterServer (param (g "batPercentRemaining") (Num 100))
       (param (g "batChargeLevel") (enum "BatChargeLevel" "Ok")) (Num 24000) Undefined;
     createDefaultPowerTopologyClusterServer;
     createDefaultElectricalEnergyMeasurementClusterServer (param (g "energyImported") Null) (param (g "energyExported") Null);
     server "ElectricalPowerMeasurement" ["directCurrent"]
       (getDefaultElectricalPowerMeasurementClusterServer (param (g "voltage") Null) (param (g "current") Null) (param (g "power") Null) Undefined)] r t;
  Ok (t, r).

(** The children that the charger and the water heater share. *)
Definition energyChildren (o : object) (esaType : string) (absMinPower absMaxPower : value) (r : nat) (t : Tree) : res Tree :=
  let g k := getField k o in
  '(t, _) ← child "PowerSource" (powerSource, []) None [createDefaultPowerSourceWiredClusterServer Undefined; addRequired (powerSource, [])] r t;
  '(t, _) ← child "ElectricalSensor" (electricalSensor, []) None
    (energyServers (g "voltage") (g "current") (g "power") (param (g "energy") Null) (Num 0) ++ [addRequired (electricalSensor, [])])%list r t;
  '(t, _) ← child "DeviceEnergyManagement" (deviceEnergyManagement, []) None
    (managementServers esaType false absMinPower absMaxPower ++ [addRequired (deviceEnergyManagement, [])])%list r t;
  Ok t.

Definition Evse (name serial : string) (o : object) (t : Tree) : res (Tree * nat) :=
  let g k := getField k o in
  '(t, r) ← single (evse, []) name serial "Matterbridge Evse"
    [createDefaultIdentifyClusterServer Undefined Undefined;
     createDefaultEnergyEvseClusterServer (g "state") (g "supplyState") (g "faultState");
     createDefaultEnergyEvseModeClusterServer (g "currentMode") (g "supportedModes");
     createDefaultTemperatureMeasurementClusterServer (Num 2400) Undefined Undefined; addRequired (evse, []); fixedLabel "composed" "EVSE"] t;
  t ← energyChildren o "Evse" (g "absMinPower") (g "absMaxPower") r t;
  Ok (t, r).

Definition WaterHeater (name serial : string) (o : object) (t : Tree) : res (Tree * nat) :=
  let g k := getField k o in
  '(t, r) ← single (waterHeater, []) name serial "Matterbridge Water Heater"
    [createDefaultIdentifyClusterServer Undefined Undefined;
     createDefaultHeatingThermostatClusterServer (param (g "waterTemperature") (Num 50)) (param (g "targetWaterTemperature") (Num 55))
       (param (g "minHeatSetpointLimit") (Num 20)) (param (g "maxHeatSetpointLimit") (Num 80)) Undefined Undefined Undefined;
     createDefaultWaterHeaterManagementClusterServer (param (g "heaterTypes") (Obj [("immersionElement1", Bool true)])) (Obj [])
       (param (g "tankPercentage") (Num 90)) Undefined;
     createDefaultWaterHeaterModeClusterServer Undefined Undefined; fixedLabel "composed" "Water Heater"] t;
  t ← energyChildren o "WaterHeating" (param (g "absMinPower") (Num 0)) (param (g "absMaxPower") (Num 0)) r t;
  Ok (t, r).

Definition temperatureChild (name : string) (number : string) (measured : Z) : nat -> Tree -> res (Tree * nat) :=
  child name (temperatureSensor, []) (tagged [(semtag "CommonNumberTag" number, Str name)])
    [createDefaultTemperatureMeasurementClusterServer (Num measured) Undefined Undefined; addRequired (temperatureSensor, [])].
Definition thermostatChild (name number areaTag room : string) : nat -> Tree -> res (Tree * nat) :=
  child name (thermostat, []) (tagged [(semtag "CommonNumberTag" number, Str name); (semtag "CommonAreaNamespaceTag" areaTag, Undefined)])
    [createDefaultThermostatClusterServer Undefined Undefined Undefined Undefined Undefined Undefined Undefined Undefined Undefined Undefined
       Undefined Undefined; addRequired (thermostat, []); userLabel "room" room].

Definition HeatPump (name serial : string) (o : object) (t : Tree) : res (Tree * nat) :=
  let g k := getField k o in
  '(t, r) ← energyDevice heatPump name serial "Matterbridge Heat Pump" "Grid"
    (energyServers (g "voltage") (g "current") (g "power") (param (g "energyImported") Null) Undefined ++
     managementServers "SpaceHeating" false (param (g "absMinPower") (Num 0)) (param (g "absMaxPower") (Num 0)))%list t;
  '(t, _) ← temperatureChild "FlowTemperature" "One" 4500 r t;
  '(t, _) ← temperatureChild "ReturnTemperature" "Two" 3500 r t;
  '(t, _) ← thermostatChild "LivingThermostat" "One" "LivingRoom" "Living Room" r t;
  '(t, _) ← thermostatChild "BedroomThermostat" "Two" "Bedroom" "Bedroom" r t;
  Ok (t, r).

Definition SolarPower (name serial : string) (o : object) (t : Tree) : res (Tree * nat) :=
  let g k := getField k o in
  energyDevice solarPower name serial "Matterbridge Solar Power" "Solar"
    (energyServers (g "voltage") (g "current") (g "power") (Num 0) (param (g "energyExported") (Num 0)) ++
     managementServers "SolarPv" true (param (g "absMinPower") (Num 0)) (param (g "absMaxPower") (Num 0)))%list t.

Definition SolarPower_addPanel (name : string) (tag : value) (o : object) : nat -> Tree -> res (Tree * nat) :=
  let g k := getField k o in
  child name (electricalSensor, []) (tagged [powerTag "Solar"; (tag, Undefined)])
    (energyServers (g "voltage") (g "current") (g "power") (Num 0) (param (g "energyExported") Null) ++
     [addRequired (electricalSensor, []); userLabel "panel" (strTake 16 name)])%list.

(** *** Sound and vision *)

Definition videoServers (o : object) : list (World -> World) :=
  [createDefaultPowerSourceWiredClusterServer Undefined; createOnOffClusterServer (param (getField "onOff" o) (Bool false));
   createDefaultMediaPlaybackClusterServer (param (getField "playbackState" o) (enum "PlaybackState" "NotPlaying")); createDefaultKeypadInputClusterServer].
Definition BasicVideoPlayer (name serial : string) (o : object) : Tree -> res (Tree * nat) :=
  single (basicVideoPlayer, [powerSource]) name serial "Matterbridge Basic Video Player" (videoServers o).
Definition CastingVideoPlayer (name serial : string) (o : object) : Tree -> res (Tree * nat) :=
  single (castingVideoPlayer, [powerSource]) name serial "Matterbridge Casting Video Player"
    (videoServers o ++ [createDefaultContentLauncherClusterServer])%list.

Definition Speaker (name serial : string) (muted : bool) (volume : option Z) : Tree -> res (Tree * nat) :=
  single (speaker, []) name serial "Matterbridge Speaker"
    [createOnOffClusterServer (Bool (negb muted)); createLevelControlClusterServer (Num (initialVolume volume)) Undefined].

(** ** The classes *)

Inductive DeviceClass :=
  | CAirConditioner | CBasicVideoPlayer | CBatteryStorage | CCastingVideoPlayer | CClosure | CClosurePanel | CCooktop | CDishwasher | CEvse
  | CExtractorHood | CHeatPump | CIrrigationSystem | CLaundryDryer | CLaundryWasher | CMicrowaveOven | COven | CRefrigerator
  | CRoboticVacuumCleaner | CSoilSensor | CSolarPower | CSpeaker | CWaterHeater.

(** [new Class(name, serial, ...)]; the other parameters by their names. *)
Definition construct (class : DeviceClass) : string -> string -> object -> Tree -> res (Tree * nat) :=
  match class with
  | CAirConditioner => AirConditioner | CBasicVideoPlayer => BasicVideoPlayer | CBatteryStorage => BatteryStorage
  | CCastingVideoPlayer => CastingVideoPlayer | CClosure => Closure | CClosurePanel => ClosurePanel
  | CCooktop => fun name serial _ => Cooktop name serial | CDishwasher => Dishwasher | CEvse => Evse | CExtractorHood => ExtractorHood
  | CHeatPump => HeatPump | CIrrigationSystem => IrrigationSystem | CLaundryDryer => LaundryDryer | CLaundryWasher => LaundryWasher
  | CMicrowaveOven => MicrowaveOven | COven => fun name serial _ => Oven name serial | CRefrigerator => Refrigerator
  | CRoboticVacuumCleaner => RoboticVacuumCleaner | CSoilSensor => SoilSensor | CSolarPower => SolarPower
  | CSpeaker => fun name serial o => Speaker name serial (truthy (getField "muted" o))
                  (match getField "volume" o with Num n => Some n | Undefined => Some 128 | _ => None end)
  | CWaterHeater => WaterHeater
  end.

(** What is added to a device. *)
Inductive Addition :=
  | Surface (name : string) (tagList : list value) (selected supported : value)
  | OvenCabinet (name : string) (tagList : list value) (o : object)
  | RefrigeratorCabinet (name : string) (tagList : list value) (o : object)
  | Panel (name : string) (tag : value) (o : object)
  | Zone (tag : value).

Definition add (a : Addition) : nat -> Tree -> res (Tree * nat) :=
  match a with
  | Surface name tagList selected supported => Cooktop_addSurface name tagList selected supported
  | OvenCabinet name tagList o => Oven_addCabinet name tagList o
  | RefrigeratorCabinet name tagList o => Refrigerator_addCabinet name tagList o
  | Panel name tag o => SolarPower_addPanel name tag o
  | Zone tag => IrrigationSystem_addZone tag
  end.
End Classes.
End Devices.
