(* ===== verification/DeviceFacts.v ===== *)
(** The devices: every endpoint that a class constructs has the servers that its device
    types require, and the commands that it executes keep its attributes well formed. *)
From S2P Require Import Prelude JsString JsValue Validate Async Ownership NodePath Bridge Platform Deep Behaviors BehaviorFacts Endpoint EndpointFacts.
From S2P Require Import DeviceTypes ClusterServers ClusterServerFacts EndpointTree EndpointTreeFacts Devices.
From stdpp Require Import gmap strings relations.
#[local] Open Scope string_scope.
#[local] Open Scope Z_scope.
Import Behaviors Endpoint DeviceTypes ClusterServers Tree Devices.

(** ** Servers that are created *)

(** Functions that take no server away, and those that leave a server behind. *)
Definition Grows (f : World -> World) : Prop := forall w c, is_Some (servers w !! c) -> is_Some (servers (f w) !! c).
Definition Creates (c : string) (f : World -> World) : Prop := forall w, is_Some (servers (f w) !! c).

Lemma require_grows c attrs : Grows (require c attrs).
Proof. intros w c' [f H]. rewrite require_lookup, H. by eexists. Qed.

Lemma server_grows c features attrs : Grows (server c features attrs).
Proof. apply require_grows. Qed.

Lemma server_creates c features attrs : Creates c (server c features attrs).
Proof.
  intros w. unfold server. rewrite require_lookup. destruct (servers w !! c); [by eexists|]. rewrite bool_decide_eq_true_2 by done. by eexists.
Qed.

Lemma id_grows : Grows (fun w => w).
Proof. by intros w c. Qed.

Lemma if_grows (b : bool) f g : Grows f -> Grows g -> Grows (if b then f else g).
Proof. by destruct b. Qed.

Lemma if_creates (b : bool) c f g : Creates c f -> Creates c g -> Creates c (if b then f else g).
Proof. by destruct b. Qed.

Lemma when_grows (b : bool) f : Grows f -> Grows (fun w => if b then f w else w).
Proof. intros H w c Hc. destruct b; [by apply H|done]. Qed.

Lemma unless_grows (b : bool) f : Grows f -> Grows (fun w => if b then w else f w).
Proof. intros H w c Hc. destruct b; [done|by apply H]. Qed.

Lemma addRequired_grows d : Grows (addRequired d).
Proof. intros w c [f H]. unfold addRequired, addRequiredClusterServers. rewrite addClusterServers_exact, H. by eexists. Qed.

Lemma addRequired_creates d c :
  Forall (fun t => t ∈ supportedDeviceTypes) (fst d :: snd d) -> c ∈ concat (map requiredServerClusters (fst d :: snd d)) -> c ∈ defaultNames ->
  Creates c (addRequired d).
Proof.
  intros Ht Hc Hd w. unfold addRequired, addRequiredClusterServers. rewrite addClusterServers_exact.
  destruct (servers w !! c) eqn:E; [by eexists|]. rewrite bool_decide_eq_true_2; [by eexists|]. split; [|done]. by apply required_missing.
Qed.

Lemma addLabel_grows env c label v : Grows (fun w => fst (run (addLabel env c label v) w)).
Proof.
  intros w c' Hc. apply (keeps_run (fun w => is_Some (servers w !! c'))); [|done].
  assert (Hset : forall c0 kvs, keeps (fun w => is_Some (servers w !! c')) (modify (setAttrs c0 kvs))).
  { intros c0 kvs. apply keeps_modify. intros w0 H0. cbn. destruct (decide (c0 = c')) as [->|?];
      [rewrite lookup_insert_eq|rewrite lookup_insert_ne by done]; [by eexists|done]. }
  unfold addLabel. apply keeps_bind; [apply keeps_ask|]. intros w0. destruct (negb _).
  { apply keeps_modify. intros w1 H1. by apply require_grows. }
  apply keeps_bind; [apply keeps_liftRes|]. intros [| | | | |l|]; try exact Logic.I.
  apply keeps_bind; [|intros; exact Logic.I]. apply keeps_await. unfold setAttribute.
  apply keeps_bind; [apply keeps_ask|]. intros w1. apply keeps_bind; [apply keeps_liftRes|]. intros [[id old]|]; [|exact Logic.I].
  apply keeps_bind; [|intros; exact Logic.I]. apply keeps_await. unfold setStateOf.
  apply keeps_bind; [apply keeps_await, keeps_liftRes|]. intros _. apply keeps_bind; [apply keeps_ask|]. intros w2.
  destruct (servers w2 !! _); [apply Hset|exact Logic.I].
Qed.

Lemma pipe_grows steps : Forall Grows steps -> Grows (pipe steps).
Proof. intros H. unfold pipe. induction H as [|f l Hf H IH]; intros w c Hc; cbn [foldl]; [done|]. by apply IH, Hf. Qed.

Lemma pipe_creates c steps : Forall Grows steps -> Exists (Creates c) steps -> Creates c (pipe steps).
Proof.
  intros Hg He w. revert w. induction He as [f l Hf|f l He IH]; intros w; apply Forall_cons in Hg as [Hf' Hg]; unfold pipe; cbn [foldl].
  - apply (pipe_grows l Hg), Hf.
  - by apply IH.
Qed.

(** Both follow the definitions down to the servers. *)
Ltac grow :=
  lazymatch goal with
  | |- Grows (addRequired _) => apply addRequired_grows
  | |- Grows (fixedLabel _ _ _) => apply addLabel_grows
  | |- Grows (userLabel _ _ _) => apply addLabel_grows
  | |- Grows (fun w => w) => apply id_grows
  | |- Grows (if _ then _ else _) => apply if_grows; grow
  | |- Grows (fun w => if _ then w else _) => apply unless_grows; grow
  | |- Grows (fun w => if _ then _ else w) => apply when_grows; grow
  | |- _ => apply server_grows
  end.
Ltac supported_types :=
  repeat constructor; apply list_elem_of_In; unfold supportedDeviceTypes; repeat ((left; reflexivity) || right).
Ltac create :=
  lazymatch goal with
  | |- Creates _ (addRequired _) => apply addRequired_creates; [supported_types|apply (bool_decide_unpack _); by vm_compute..]
  | |- Creates _ (if _ then _ else _) => apply if_creates; create
  | |- _ => apply server_creates
  end.
Ltac growing := repeat (apply Forall_cons; split; [grow|]); apply Forall_nil; exact Logic.I.
Ltac creating := repeat first [apply Exists_cons_hd; create|apply Exists_cons_tl].

(** ** Endpoints with all the servers that they shall have *)

Definition requiredOf (types : list DeviceTypeDefinition) : list string := concat (map requiredServerClusters types).
Definition Complete (e : MatterbridgeEndpoint) : Prop :=
  Forall (fun c => is_Some (servers (behaviors e) !! c)) (requiredOf (getDeviceTypes e)).
Definition AllComplete (t : Tree) : Prop := map_Forall (fun _ e => Complete e) (nodes t).

(** Steps that create the servers of some types. *)
Definition serving (types : list DeviceTypeDefinition) (steps : list (World -> World)) : Prop :=
  Forall Grows steps /\ Forall (fun c => Exists (Creates c) steps) (requiredOf types).

Lemma types_subset l m dt : dt ∈ map snd (foldl (fun m dt => setType dt m) m l) -> dt ∈ l \/ dt ∈ map snd m.
Proof.
  assert (H1 : forall d m, dt ∈ map snd (setType d m) -> dt = d \/ dt ∈ map snd m).
  { intros d m0. induction m0 as [|[c d'] m0 IH]; cbn [setType map snd]; [rewrite list_elem_of_singleton; by left|].
    destruct (c =? code d); cbn [map snd]; rewrite !elem_of_cons; [tauto|]. intros [?|?%IH]; tauto. }
  revert m. induction l as [|d l IH]; intros m; cbn [foldl]; [by right|]. intros [?|?%H1]%IH; rewrite elem_of_cons; tauto.
Qed.

Lemma requiredOf_mono l l' : (forall t, t ∈ l -> t ∈ l') -> forall c, c ∈ requiredOf l -> c ∈ requiredOf l'.
Proof.
  intros H c Hc. unfold requiredOf in *. apply list_elem_of_In, in_concat in Hc as (x & (t & <- & Ht)%in_map_iff & Hc).
  apply list_elem_of_In, in_concat. exists (requiredServerClusters t). split; [|done]. apply in_map, list_elem_of_In, H. by apply list_elem_of_In.
Qed.

Ltac serve :=
  unfold powered, temperatureControl, videoServers, energyServers, managementServers, ovenCabinet; cbn [app];
  split; [growing|unfold requiredOf; cbn [map concat fst snd app]; repeat (apply Forall_cons; split; [creating|]); apply Forall_nil; exact Logic.I].

Section Trees.
Context (md5 : jsstr -> jsstr) (hash : string -> string) (admits : Tree -> nat -> nat -> bool) (env : Env).

Lemma served_complete d o steps : serving (fst d :: snd d) steps -> Complete (setBehaviors (pipe steps) (newEndpoint md5 d o)).
Proof.
  intros [Hg Hs]. apply Forall_forall. intros c Hc. cbn [behaviors setBehaviors]. apply pipe_creates; [done|].
  rewrite Forall_forall in Hs. apply Hs. revert Hc. apply requiredOf_mono. intros t Ht.
  apply (types_subset (fst d :: snd d) [] t) in Ht as [?|Ht]; [done|]. by apply not_elem_of_nil in Ht.
Qed.

Lemma setFields_complete kvs e : Complete e -> Complete (setFields kvs e).
Proof. done. Qed.

Lemma grown_complete f e : Grows f -> Complete e -> Complete (setBehaviors f e).
Proof. intros Hf H. eapply Forall_impl; [exact H|]. intros c Hc. by apply Hf. Qed.

Lemma alloc_complete e t : AllComplete t -> Complete e -> AllComplete (fst (alloc e t)).
Proof. intros Ht He n e' H. cbn [fst alloc nodes] in H. apply lookup_insert_Some in H as [[<- <-]|[_ H]]; [done|]. by apply (Ht n). Qed.

Lemma onServers_complete r f t : AllComplete t -> Grows f -> AllComplete (onServers r f t).
Proof.
  intros Ht Hf n e H. cbn in H. destruct (decide (r = n)) as [<-|Hne].
  - rewrite lookup_alter_eq in H. apply fmap_Some in H as (e0 & He0 & ->). apply grown_complete; [done|]. by apply (Ht r).
  - rewrite lookup_alter_ne in H by done. by apply (Ht n).
Qed.

Lemma addPart_complete r c t : AllComplete t -> AllComplete (addPart admits r c t).
Proof.
  intros Ht. unfold addPart. destruct (admits t r c); [|done]. intros n e H. cbn in H. destruct (decide (r = n)) as [<-|Hne].
  - rewrite lookup_alter_eq in H. apply fmap_Some in H as (e0 & He0 & ->). exact (Ht r e0 He0).
  - rewrite lookup_alter_ne in H by done. by apply (Ht n).
Qed.

(** Trees that only grow: endpoints keep their device types. *)
Definition Fresh (t : Tree) : Prop := forall n, is_Some (nodes t !! n) -> (n < next t)%nat.
Definition extends (t t' : Tree) : Prop :=
  Fresh t' /\ forall n e, nodes t !! n = Some e -> exists e', nodes t' !! n = Some e' /\ deviceType e' = deviceType e.

Lemma alter_extends f r t : Fresh t -> (forall e, deviceType (f e) = deviceType e) -> extends t (alter f r t).
Proof.
  intros Hf Ht. split; [intros n Hn; cbn in *; apply Hf; by rewrite lookup_alter_is_Some in Hn|].
  intros n e Hn. cbn. destruct (decide (r = n)) as [->|?]; [rewrite lookup_alter_eq, Hn; by eexists|].
  rewrite lookup_alter_ne by done. by eexists.
Qed.

Lemma extends_trans t1 t2 t3 : extends t1 t2 -> extends t2 t3 -> extends t1 t3.
Proof.
  intros [_ H1] [Hf H2]. split; [done|]. intros n e (e' & He' & Ht')%H1. apply H2 in He' as (e2 & He2 & Ht2). exists e2. split; congruence.
Qed.

Lemma allocated_extends e t : Fresh t -> extends t (fst (alloc e t)).
Proof.
  intros Hf. split.
  - intros n [e' H]. cbn in *. destruct (decide (next t = n)) as [<-|?]; [lia|]. rewrite lookup_insert_ne in H by done.
    assert (n < next t)%nat by (apply Hf; by eexists). lia.
  - intros n e' Hn. cbn. assert (n < next t)%nat by (apply Hf; by eexists). rewrite lookup_insert_ne by lia. by eexists.
Qed.

Lemma addPart_extends r c t : Fresh t -> extends t (addPart admits r c t).
Proof. intros Hf. unfold addPart. destruct (admits t r c); [by apply alter_extends|]. split; [done|]. intros n e Hn. by exists e. Qed.

(** A child that is found keeps what it has. *)
Lemma child_complete name d tags steps r t :
  serving (fst d :: snd d) steps -> AllComplete t -> (forall v, tags = Some v -> exists l, v = Arr l) ->
  exists t' c, child md5 admits name d tags steps r t = Ok (t', c) /\ AllComplete t' /\ (Fresh t -> extends t t').
Proof.
  intros Hs Ht Htags. unfold child, addChildDeviceType. destruct (getChildEndpointById t r (js name)) as [c|].
  { eexists _, _. split; [done|]. split; [apply onServers_complete; [done|]; by apply pipe_grows, (proj1 Hs)|].
    intros Hf. by apply alter_extends. }
  assert (Hnew : exists tags', newChild md5 (js name) d (mkOptions None None tags Undefined) t =
    Ok (alloc (newEndpoint md5 d (mkOptions (Some (js name)) None tags' Undefined)) t)).
  { unfold newChild. cbn [optTagList optNumber]. destruct tags as [v|]; [destruct (Htags v eq_refl) as [l ->]|]; by eexists. }
  destruct Hnew as [tags' ->]. cbn [mbind alloc]. eexists _, _. split; [done|].
  set (e := newEndpoint _ _ _). set (t1 := mkTree _ _).
  assert (Hpart : forall n, nodes (addPart admits r (next t) t1) !! n = nodes t1 !! n \/
    exists e0, nodes t1 !! n = Some e0 /\ nodes (addPart admits r (next t) t1) !! n = Some (setParts (parts e0 ++ [next t])%list e0)).
  { intros n. unfold addPart. destruct (admits t1 r (next t)); [|by left]. cbn [alter nodes]. destruct (decide (r = n)) as [->|?].
    - rewrite lookup_alter_eq. destruct (nodes t1 !! n) as [e0|]; [right; by exists e0|by left].
    - rewrite lookup_alter_ne by done. by left. }
  split.
  - intros n e1 H. unfold onServers, alter in H. cbn [nodes] in H. destruct (decide (next t = n)) as [<-|Hne].
    + rewrite lookup_alter_eq in H. apply fmap_Some in H as (e2 & He2 & ->). pose proof (served_complete d (mkOptions (Some (js name)) None tags' Undefined) steps Hs) as Hc.
      destruct (Hpart (next t)) as [Hp|(e0 & H0 & Hp)]; rewrite Hp in He2.
      * unfold t1 in He2. cbn [nodes] in He2. rewrite lookup_insert_eq in He2. by injection He2 as <-.
      * unfold t1 in H0. cbn [nodes] in H0. rewrite lookup_insert_eq in H0. injection H0 as <-. by injection He2 as <-.
    + rewrite lookup_alter_ne in H by done. destruct (Hpart n) as [Hp|(e0 & H0 & Hp)]; rewrite Hp in H.
      * unfold t1 in H. cbn [nodes] in H. rewrite lookup_insert_ne in H by done. by apply (Ht n).
      * unfold t1 in H0. cbn [nodes] in H0. rewrite lookup_insert_ne in H0 by done. injection H as <-. exact (Ht n e0 H0).
  - intros Hf. pose proof (allocated_extends e t Hf) as H1. pose proof (addPart_extends r (next t) t1 (proj1 H1)) as H2.
    eapply extends_trans; [exact H1|]. eapply extends_trans; [exact H2|]. by apply alter_extends; [apply H2|].
Qed.

(** Constructions of complete trees whose root has some device type. *)
Definition Builds (dt : DeviceTypeDefinition) (m : Tree -> res (Tree * nat)) : Prop :=
  forall t, AllComplete t -> Fresh t ->
  exists t' r e, m t = Ok (t', r) /\ AllComplete t' /\ extends t t' /\ nodes t' !! r = Some e /\ deviceType e = code dt.

(** What is added to them, with what it returns of the tree and of its root. *)
Definition Adds {A} (out : Tree -> nat -> A) (k : nat -> Tree -> res A) : Prop :=
  forall r t, AllComplete t -> Fresh t -> exists t', k r t = Ok (out t' r) /\ AllComplete t' /\ extends t t'.

Lemma device_builds d name serial product tags mode steps :
  serving (fst d :: snd d) steps -> Builds (fst d) (fun t => Ok (alloc (newDevice md5 hash d name serial product tags mode steps) t)).
Proof.
  intros Hs t Ht Hf. eexists _, _, _. split; [done|]. split; [|split; [by apply allocated_extends|]].
  - apply alloc_complete; [done|]. by apply setFields_complete, served_complete.
  - cbn. rewrite lookup_insert_eq. by split.
Qed.

Lemma builds_then dt m k : Builds dt m -> Adds pair k -> Builds dt (fun t => '(t, r) ← m t; k r t).
Proof.
  intros Hm Hk t Ht Hf. destruct (Hm t Ht Hf) as (t1 & r & e & -> & Ht1 & H1 & He & Hd). rewrite bind_Ok.
  destruct (Hk r t1 Ht1 (proj1 H1)) as (t2 & -> & Ht2 & H2). destruct (proj2 H2 r e He) as (e2 & He2 & Hd2).
  exists t2, r, e2. split; [done|]. split; [done|]. split; [by eapply extends_trans|]. split; [done|]. by rewrite Hd2.
Qed.

Lemma adds_then {A} (out : Tree -> nat -> A) j k : Adds (fun t _ => t) j -> Adds out k -> Adds out (fun r t => t ← j r t; k r t).
Proof.
  intros Hj Hk r t Ht Hf. destruct (Hj r t Ht Hf) as (t1 & -> & Ht1 & H1). rewrite bind_Ok.
  destruct (Hk r t1 Ht1 (proj1 H1)) as (t2 & -> & Ht2 & H2). exists t2. split; [done|]. split; [done|]. by eapply extends_trans.
Qed.

Lemma adds_child {A} (out : Tree -> nat -> A) name d tags steps k :
  serving (fst d :: snd d) steps -> (forall v, tags = Some v -> exists l, v = Arr l) -> Adds out k ->
  Adds out (fun r t => '(t, _) ← child md5 admits name d tags steps r t; k r t).
Proof.
  intros Hs Htags Hk r t Ht Hf. destruct (child_complete name d tags steps r t Hs Ht Htags) as (t1 & c & -> & Ht1 & H1). rewrite bind_Ok.
  destruct (Hk r t1 Ht1 (proj1 (H1 Hf))) as (t2 & -> & Ht2 & H2). exists t2. split; [done|]. split; [done|]. by eapply extends_trans; [apply H1|].
Qed.

Lemma adds_servers {A} (out : Tree -> nat -> A) f k : Grows f -> Adds out k -> Adds out (fun r t => k r (onServers r f t)).
Proof.
  intros Hg Hk r t Ht Hf. assert (H1 : extends t (onServers r f t)) by by apply alter_extends.
  destruct (Hk r (onServers r f t)) as (t2 & -> & Ht2 & H2); [by apply onServers_complete|apply H1|].
  exists t2. split; [done|]. split; [done|]. by eapply extends_trans.
Qed.

Lemma adds_nothing {A} (out : Tree -> nat -> A) : Adds out (fun r t => Ok (out t r)).
Proof. intros r t Ht Hf. exists t. split; [done|]. split; [done|]. split; [done|]. intros n e Hn. by exists e. Qed.

Lemma tagged_array l v : tagged l = Some v -> exists m, v = Arr m.
Proof. intros [= <-]. by eexists. Qed.

(** *** The classes *)

Definition classType (class : DeviceClass) : DeviceTypeDefinition :=
  match class with
  | CAirConditioner => roomAirConditioner | CBasicVideoPlayer => basicVideoPlayer | CBatteryStorage => batteryStorage
  | CCastingVideoPlayer => castingVideoPlayer | CClosure => closure | CClosurePanel => closurePanel | CCooktop => cooktop
  | CDishwasher => dishwasher | CEvse => evse | CExtractorHood => extractorHood | CHeatPump => heatPump
  | CIrrigationSystem => irrigationSystem | CLaundryDryer => laundryDryer | CLaundryWasher => laundryWasher
  | CMicrowaveOven => microwaveOven | COven => oven | CRefrigerator => refrigerator | CRoboticVacuumCleaner => roboticVacuumCleaner
  | CSoilSensor => soilSensor | CSolarPower => solarPower | CSpeaker => speaker | CWaterHeater => waterHeater
  end.

Lemma AirConditioner_builds name serial o : Builds roomAirConditioner (AirConditioner md5 hash name serial o).
Proof. apply (device_builds (roomAirConditioner, [powerSource])). serve. Qed.
Lemma BasicVideoPlayer_builds name serial o : Builds basicVideoPlayer (BasicVideoPlayer md5 hash name serial o).
Proof. apply (device_builds (basicVideoPlayer, [powerSource])). serve. Qed.
Lemma CastingVideoPlayer_builds name serial o : Builds castingVideoPlayer (CastingVideoPlayer md5 hash name serial o).
Proof. apply (device_builds (castingVideoPlayer, [powerSource])). serve. Qed.
Lemma Closure_builds name serial o : Builds closure (Closure md5 hash name serial o).
Proof. apply (device_builds (closure, [])). serve. Qed.
Lemma ClosurePanel_builds name serial o : Builds closurePanel (ClosurePanel md5 hash name serial o).
Proof. apply (device_builds (closurePanel, [])). serve. Qed.
Lemma Cooktop_builds name serial : Builds cooktop (Cooktop md5 hash env name serial).
Proof. apply (device_builds (cooktop, [powerSource])). serve. Qed.
Lemma Dishwasher_builds name serial o : Builds dishwasher (Dishwasher md5 hash name serial o).
Proof. apply (device_builds (dishwasher, [powerSource])). serve. Qed.
Lemma ExtractorHood_builds name serial o : Builds extractorHood (ExtractorHood md5 hash name serial o).
Proof. apply (device_builds (extractorHood, [powerSource])). serve. Qed.
Lemma LaundryDryer_builds name serial o : Builds laundryDryer (LaundryDryer md5 hash name serial o).
Proof. apply (device_builds (laundryDryer, [powerSource])). serve. Qed.
Lemma LaundryWasher_builds name serial o : Builds laundryWasher (LaundryWasher md5 hash name serial o).
Proof. apply (device_builds (laundryWasher, [powerSource])). serve. Qed.
Lemma MicrowaveOven_builds name serial o : Builds microwaveOven (MicrowaveOven md5 hash name serial o).
Proof. apply (device_builds (microwaveOven, [powerSource])). serve. Qed.
Lemma Oven_builds name serial : Builds oven (Oven md5 hash env name serial).
Proof. apply (device_builds (oven, [powerSource])). serve. Qed.
Lemma Refrigerator_builds name serial o : Builds refrigerator (Refrigerator md5 hash env name serial o).
Proof. apply (device_builds (refrigerator, [powerSource])). serve. Qed.
Lemma RoboticVacuumCleaner_builds name serial o : Builds roboticVacuumCleaner (RoboticVacuumCleaner md5 hash name serial o).
Proof. apply (device_builds (roboticVacuumCleaner, [powerSource])). serve. Qed.
Lemma SoilSensor_builds name serial o : Builds soilSensor (SoilSensor md5 hash name serial o).
Proof. apply (device_builds (soilSensor, [powerSource])). serve. Qed.
Lemma Speaker_builds name serial muted volume : Builds speaker (Speaker md5 hash name serial muted volume).
Proof. apply (device_builds (speaker, [])). serve. Qed.
Lemma SolarPower_builds name serial o : Builds solarPower (SolarPower md5 hash name serial o).
Proof. apply (device_builds (solarPower, [powerSource; electricalSensor; deviceEnergyManagement])). serve. Qed.
Lemma IrrigationSystem_builds name serial o : Builds irrigationSystem (IrrigationSystem md5 hash name serial o).
Proof.
  unfold IrrigationSystem. destruct (truthy (getField "singleZone" o)).
  - apply (device_builds (irrigationSystem, [waterValve; powerSource])). serve.
  - apply (device_builds (irrigationSystem, [powerSource])). serve.
Qed.

Lemma energy_builds first name serial product tag servers :
  serving [first; powerSource; electricalSensor; deviceEnergyManagement]
    ([createDefaultIdentifyClusterServer Undefined Undefined; createDefaultPowerSourceWiredClusterServer Undefined] ++ servers ++
     [addRequired (first, [powerSource; electricalSensor; deviceEnergyManagement])])%list ->
  Builds first (energyDevice md5 hash first name serial product tag servers).
Proof. apply (device_builds (first, [powerSource; electricalSensor; deviceEnergyManagement])). Qed.

Ltac adds_children :=
  unfold temperatureChild, thermostatChild; repeat (apply (adds_child _); [serve|done || by apply tagged_array|]); apply (adds_nothing _).

Lemma energyChildren_adds o esaType lo hi : Adds (fun t _ => t) (energyChildren md5 admits o esaType lo hi).
Proof. unfold energyChildren. cbv zeta. adds_children. Qed.

Lemma BatteryStorage_builds name serial o : Builds batteryStorage (BatteryStorage md5 hash admits env name serial o).
Proof.
  apply builds_then; [apply energy_builds; serve|].
  eapply (adds_servers _ (fixedLabel env "composed" "Battery Storage") (fun r t => '(t, _) ← child md5 admits "Battery" _ _ _ r t; Ok (t, r)));
    [grow|]. adds_children.
Qed.
Lemma Evse_builds name serial o : Builds evse (Evse md5 hash admits env name serial o).
Proof.
  apply builds_then; [apply (device_builds (evse, [])); serve|]. apply adds_then; [apply energyChildren_adds|apply adds_nothing].
Qed.
Lemma WaterHeater_builds name serial o : Builds waterHeater (WaterHeater md5 hash admits env name serial o).
Proof.
  apply builds_then; [apply (device_builds (waterHeater, [])); serve|]. apply adds_then; [apply energyChildren_adds|apply adds_nothing].
Qed.
Lemma HeatPump_builds name serial o : Builds heatPump (HeatPump md5 hash admits env name serial o).
Proof.
  apply builds_then; [apply energy_builds; serve|]. adds_children.
Qed.
End Trees.

(** ** Whole devices *)

Section Whole.
Context (md5 : jsstr -> jsstr) (hash : string -> string) (admits : Tree -> nat -> nat -> bool) (env : Env).

Lemma construct_builds class name serial o : Builds (classType class) (construct md5 hash admits env class name serial o).
Proof.
  destruct class; cbn [construct classType].
  - apply AirConditioner_builds.
  - apply BasicVideoPlayer_builds.
  - apply BatteryStorage_builds.
  - apply CastingVideoPlayer_builds.
  - apply Closure_builds.
  - apply ClosurePanel_builds.
  - apply Cooktop_builds.
  - apply Dishwasher_builds.
  - apply Evse_builds.
  - apply ExtractorHood_builds.
  - apply HeatPump_builds.
  - apply IrrigationSystem_builds.
  - apply LaundryDryer_builds.
  - apply LaundryWasher_builds.
  - apply MicrowaveOven_builds.
  - apply Oven_builds.
  - apply Refrigerator_builds.
  - apply RoboticVacuumCleaner_builds.
  - apply SoilSensor_builds.
  - apply SolarPower_builds.
  - apply Speaker_builds.
  - apply WaterHeater_builds.
Qed.

(** The additions other than a cooled cabinet. *)
Definition regular (a : Addition) : bool := match a with RefrigeratorCabinet _ _ _ => false | _ => true end.

Lemma addition_adds a : regular a = true -> Adds (fun t _ => t) (fun r t => '(t, _) ← add md5 admits env a r t; Ok t).
Proof.
  destruct a; intros [=]; cbn [add]; unfold Cooktop_addSurface, Oven_addCabinet, SolarPower_addPanel, IrrigationSystem_addZone; cbv zeta.
  all: apply (adds_child md5 admits (fun t _ => t)); [serve|by intros ? [= <-]; eexists|apply (adds_nothing (fun t _ => t))].
Qed.

(** A device, and what is added to it one after the other. *)
Fixpoint addAll (l : list Addition) (r : nat) (t : Tree) : res (Tree * nat) :=
  match l with
  | [] => Ok (t, r)
  | a :: l => t ← ('(t, _) ← add md5 admits env a r t; Ok t); addAll l r t
  end.

Lemma addAll_adds l : Forall (fun a => regular a = true) l -> Adds pair (addAll l).
Proof.
  induction 1 as [|a l Ha _ IH]; [apply (adds_nothing pair)|]. cbn [addAll]. apply adds_then; [by apply addition_adds|done].
Qed.
End Whole.


(** Handlers that wait and do nothing; matter.js accepts every value. *)
Definition sampleEnv : Env := mkEnv (fun _ _ => await (mret Undefined)) (fun _ _ _ => await (mret Undefined)) (fun _ _ => Ok tt) 0.

(** An oven with two cabinets. *)
Definition noTree : Tree := mkTree 0 ∅.
Definition twoCabinets : list Addition := [OvenCabinet "Upper" [] []; OvenCabinet "Lower" [] []].


(** A cabinet that is added to a refrigerator is of a device type that requires the
    server of the refrigerator modes, and it is created without it. *)
Theorem cabinet_incomplete (md5 : jsstr -> jsstr) (admits : Tree -> nat -> nat -> bool) (name : string) (tagList : list value) (o : object)
    (r : nat) (t : Tree) :
  getChildEndpointById t r (js name) = None ->
  exists t' c e, Refrigerator_addCabinet md5 admits name tagList o r t = Ok (t', c) /\ nodes t' !! c = Some e /\
    In "RefrigeratorAndTemperatureControlledCabinetMode" (requiredOf (getDeviceTypes e)) /\
    servers (behaviors e) !! "RefrigeratorAndTemperatureControlledCabinetMode" = None.
Proof.
  intros Hid. unfold Refrigerator_addCabinet, child, addChildDeviceType. rewrite Hid. cbn [newChild optTagList optNumber mbind res_bind alloc].
  set (e := newEndpoint _ _ _). set (t1 := mkTree _ _).
  assert (He : exists ps, nodes (addPart admits r (next t) t1) !! next t = Some (setParts ps e)).
  { unfold addPart. destruct (admits t1 r (next t)); [|exists []; apply lookup_insert_eq]. cbn [alter nodes]. destruct (decide (r = next t)) as [->|?].
    - rewrite lookup_alter_eq. cbn [t1 nodes]. rewrite lookup_insert_eq. by eexists.
    - rewrite lookup_alter_ne by done. exists []. apply lookup_insert_eq. }
  destruct He as [ps He]. eexists _, _, _. split; [done|]. split; [|split].
  - cbn [onServers alter nodes]. rewrite lookup_alter_eq, He. done.
  - right. by left.
  - cbn [behaviors setBehaviors setParts]. unfold pipe, refrigeratorCabinet. cbn [foldl].
    unfold createDefaultTemperatureMeasurementClusterServer, createNumberTemperatureControlClusterServer, server. by rewrite !require_lookup.
Qed.

Lemma cabinet_incomplete_witness :
  exists t' c e, Refrigerator_addCabinet sampleMd5 takesAll "Top" [] [] 0 sampleTree = Ok (t', c) /\ nodes t' !! c = Some e /\
    In "RefrigeratorAndTemperatureControlledCabinetMode" (requiredOf (getDeviceTypes e)) /\
    servers (behaviors e) !! "RefrigeratorAndTemperatureControlledCabinetMode" = None.
Proof. apply (cabinet_incomplete sampleMd5 takesAll "Top" [] [] 0 sampleTree). by vm_compute. Defined.

(** ** Interleaved commands *)

(** Requests that arrive side by side. *)
Definition tasks : Type := list ((string * string * (list (string * value) -> async World value)) * list (string * value)).

Definition started (l : tasks) : list (async World value) := map (fun t => snd (fst t) (snd t)) l.


(** *** An example *)

Definition emptyWorld : World := mkWorld ∅ [("changeToMode", 1%nat); ("RvcOperationalState.pause", 2%nat); ("step", 3%nat)] [] true.

Definition vacuum : World :=
  createDefaultRvcRunModeClusterServer Undefined Undefined
    (createDefaultRvcCleanModeClusterServer Undefined Undefined
      (createDefaultRvcOperationalStateClusterServer Undefined Undefined Undefined Undefined Undefined emptyWorld)).

Definition vacuumServers : gset string := {["RvcRunMode"; "RvcCleanMode"; "RvcOperationalState"]}.

Lemma vacuum_wellFormed : WellFormed vacuumServers vacuum.
Proof.
  split_and!.
  - by apply leibniz_equiv, (bool_decide_unpack _); vm_compute.
  - intros c Hc. unfold vacuumServers in Hc. rewrite !elem_of_union, !elem_of_singleton in Hc. destruct Hc as [[-> | ->] | ->].
    + split; [by eexists|]. split; eexists; split; by vm_compute.
    + by eexists.
    + done.
  - intros _ _. eexists. split; [by vm_compute|]. by split.
Qed.

Lemma sample_keeps D : KeepsShape sampleEnv D.
Proof. by split. Qed.

(** A change to the mode Cleaning, which is overtaken by a pause. *)
Definition overtaken : tasks :=
  [(("RvcRunMode", "changeToMode", byMode (RvcRunMode_changeToMode sampleEnv)), [("newMode", Num 2)]);
   (("RvcOperationalState", "pause", fun _ => Rvc_pause sampleEnv), [])].


(** ** Modes with other numbers *)

(** A vacuum cleaner whose first mode is a cleaning mode. *)
Definition otherModes : value := Arr [modeOption "Cleaning" 1 ["Cleaning"]; modeOption "Idle" 2 ["Idle"]].

Definition otherVacuum : World :=
  createDefaultRvcRunModeClusterServer (Num 1) otherModes
    (createDefaultRvcOperationalStateClusterServer Undefined Undefined Undefined (rvcState "Running") Undefined emptyWorld).

(** The numbers of the modes that pause, resume and go home set are fixed, while a
    vacuum cleaner may be created with other modes: then a pause leaves it in a mode in
    which it cleans, and going home or resuming makes mode and state disagree. *)
Theorem fixed_modes_disagree :
  rvcAgrees otherVacuum /\
  Forall (fun m => let w := fst (run m otherVacuum) in
            ~ rvcAgrees w /\ is_Some (supportedMode w "RvcRunMode" (attr w "RvcRunMode" "currentMode")))
    [Rvc_pause sampleEnv; Rvc_goHome sampleEnv; Rvc_resume sampleEnv].
Proof.
  split; [intros _ _; eexists; split; [by vm_compute|by split]|].
  repeat (apply Forall_cons; split); [..|by constructor].
  all: split; [|by eexists]. all: intros H; destruct H as (m & Hm & Hr); [by apply (bool_decide_unpack _); vm_compute..|].
  all: vm_compute in Hm; injection Hm as <-; vm_compute in Hr; destruct Hr as [H1 H2]; (discriminate H1 || discriminate H2); reflexivity.
Qed.
