(* ===== verification/Frontend.v ===== *)
(** The frontend of [packages/core/src/frontend.ts]: the web socket clients and the
    messages that are sent to them, the login, the protected routes of the http
    server, and the handlers of broadcast messages and of the requests of the web
    application. The application is the component of [Matterbridge.v], on its state. *)
From S2P Require Import Prelude JsString JsNumber JsValue JsMap NodePath Async Wait Validate Broadcast DeviceManager PluginManager CommandLine Bridge.
From S2P Require Import Matterbridge Platform Behaviors.
From stdpp Require Import gmap.
#[local] Open Scope string_scope.
#[local] Open Scope Z_scope.

Module Frontend.
Import Broadcast Validate CommandLine.

Abbreviation object := (list (string * value)) (only parsing).
Abbreviation ref := nat (only parsing).

(** ** State *)

(** What a client receives: the response to a request of its own, or a message to all. *)
Inductive Sent := Response (m : value) | Broadcasted (m : value).

(** A web socket: whether its state is OPEN, and what was sent on it. *)
Record Socket := mkSocket { isOpen : bool; received : list Sent }.

(** The servers: [clients] is the set of the web socket server, without a server it
    is [None]. *)
Record Net := mkNet {
  port : Z;
  listening : bool;
  sockets : gmap nat Socket;
  clients : option (gset nat);
  httpServer : bool;
  httpsServer : bool
}.

Record Auth := mkAuth { storedPassword : value; authClients : gset string; authClientsTimeout : bool }.

Record Flags := mkFlags { restartRequired : bool; fixedRestartRequired : bool; updateRequired : bool }.

(** The levels of the logger of the frontend, of matter.js, and of the callback that
    all loggers call, if there is one. *)
Record Levels := mkLevels { logLevel : value; matterLevel : value; callbackLevel : value }.

(** [posts] are the messages handed to [server.request] and [server.respond],
    [temporary] the files in the directory for temporary files, and [moved] the files
    that were moved. *)
Record World := mkWorld {
  app : Matterbridge.World;
  net : Net;
  auth : Auth;
  flags : Flags;
  levels : Levels;
  advertisingNodes : jsmap value Z;
  posts : list value;
  emitted : list string;
  temporary : gmap string string;
  moved : list (string * string);
  saving : list (ref * object)          (* configurations that are being saved, by plugin *)
}.

Definition setApp (a : Matterbridge.World) (w : World) : World :=
  mkWorld a (net w) (auth w) (flags w) (levels w) (advertisingNodes w) (posts w) (emitted w) (temporary w) (moved w) (saving w).
Definition setNet (n : Net) (w : World) : World :=
  mkWorld (app w) n (auth w) (flags w) (levels w) (advertisingNodes w) (posts w) (emitted w) (temporary w) (moved w) (saving w).
Definition setAuth (a : Auth) (w : World) : World :=
  mkWorld (app w) (net w) a (flags w) (levels w) (advertisingNodes w) (posts w) (emitted w) (temporary w) (moved w) (saving w).
Definition setFlags (f : Flags) (w : World) : World :=
  mkWorld (app w) (net w) (auth w) f (levels w) (advertisingNodes w) (posts w) (emitted w) (temporary w) (moved w) (saving w).
Definition setLevels (l : Levels) (w : World) : World :=
  mkWorld (app w) (net w) (auth w) (flags w) l (advertisingNodes w) (posts w) (emitted w) (temporary w) (moved w) (saving w).
Definition setAdvertising (m : jsmap value Z) (w : World) : World :=
  mkWorld (app w) (net w) (auth w) (flags w) (levels w) m (posts w) (emitted w) (temporary w) (moved w) (saving w).
Definition addPost (m : value) (w : World) : World :=
  mkWorld (app w) (net w) (auth w) (flags w) (levels w) (advertisingNodes w) (posts w ++ [m])%list (emitted w) (temporary w) (moved w) (saving w).
Definition addEvent (e : string) (w : World) : World :=
  mkWorld (app w) (net w) (auth w) (flags w) (levels w) (advertisingNodes w) (posts w) (emitted w ++ [e])%list (temporary w) (moved w) (saving w).
Definition setTemporary (f s : string) (w : World) : World :=
  mkWorld (app w) (net w) (auth w) (flags w) (levels w) (advertisingNodes w) (posts w) (emitted w) (<[f := s]> (temporary w)) (moved w) (saving w).
Definition addMoved (f g : string) (w : World) : World :=
  mkWorld (app w) (net w) (auth w) (flags w) (levels w) (advertisingNodes w) (posts w) (emitted w) (temporary w) (moved w ++ [(f, g)])%list (saving w).

Definition addSaving (p : ref) (c : object) (w : World) : World :=
  mkWorld (app w) (net w) (auth w) (flags w) (levels w) (advertisingNodes w) (posts w) (emitted w) (temporary w) (moved w) (saving w ++ [(p, c)])%list.

Definition setSockets (s : gmap nat Socket) (w : World) : World :=
  let n := net w in setNet (mkNet (port n) (listening n) s (clients n) (httpServer n) (httpsServer n)) w.
Definition setClients (c : option (gset nat)) (w : World) : World :=
  let n := net w in setNet (mkNet (port n) (listening n) (sockets n) c (httpServer n) (httpsServer n)) w.
Definition setListening (b : bool) (w : World) : World :=
  let n := net w in setNet (mkNet (port n) b (sockets n) (clients n) (httpServer n) (httpsServer n)) w.
Definition setPort (p : Z) (w : World) : World :=
  let n := net w in setNet (mkNet p (listening n) (sockets n) (clients n) (httpServer n) (httpsServer n)) w.
Definition setServers (http https : bool) (w : World) : World :=
  let n := net w in setNet (mkNet (port n) (listening n) (sockets n) (clients n) http https) w.
Definition setPassword (v : value) (w : World) : World := setAuth (mkAuth v (authClients (auth w)) (authClientsTimeout (auth w))) w.
Definition setAuthClients (s : gset string) (w : World) : World := setAuth (mkAuth (storedPassword (auth w)) s (authClientsTimeout (auth w))) w.
Definition setAuthTimeout (b : bool) (w : World) : World := setAuth (mkAuth (storedPassword (auth w)) (authClients (auth w)) b) w.

Definition onApp {A} (m : async Matterbridge.World A) : async World A := lift app setApp m.
Definition appThis (w : World) (k : string) : value := Matterbridge.this (app w) k.
Definition setAppThis (kvs : object) (w : World) : World := setApp (Matterbridge.setThis kvs (app w)) w.
Definition thePlugins (w : World) : PluginManager.World := Bridge.pm (Matterbridge.bridge (app w)).

(** ** Messages to all clients *)

Definition receive (m : Sent) (s : Socket) : Socket := mkSocket (isOpen s) (received s ++ [m])%list.

(** [!this.listening || this.webSocketServer?.clients.size === 0]. *)
Definition silent (w : World) : bool :=
  negb (listening (net w)) || match clients (net w) with Some c => bool_decide (c = ∅) | None => false end.

Definition wssBroadcastMessage (msg : object) (w : World) : World :=
  if silent w then w
  else setSockets (map_imap (fun c s => Some (if bool_decide (c ∈ default ∅ (clients (net w))) && isOpen s
                                              then receive (Broadcasted (jsonClone (Obj msg))) s else s)) (sockets (net w))) w.

Definition message (method : string) (rest : object) : object :=
  ([("id", Num 0); ("src", Str "Matterbridge"); ("dst", Str "Frontend"); ("method", Str method); ("success", Bool true)] ++ rest)%list.
Definition broadcast (method : string) (response : object) : World -> World := wssBroadcastMessage (message method [("response", Obj response)]).

Definition wssSendSnackbarMessage (text : string) (timeout : Z) (severity : string) (w : World) : World :=
  if silent w then w else broadcast "snackbar" [("message", Str text); ("timeout", Num timeout); ("severity", Str severity)] w.

Definition wssSendCloseSnackbarMessage (text : string) (w : World) : World :=
  if silent w then w else broadcast "close_snackbar" [("message", Str text)] w.

(** [{ changed, lock: params?.lock, ...params }]. *)
Definition wssSendRefreshRequired (changed : value) (params : object) (w : World) : World :=
  if silent w then w
  else broadcast "refresh_required"
         (foldl (fun f kv => setField (fst kv) (snd kv) f) [("changed", changed); ("lock", getField "lock" params)] params) w.

Definition wssSendRestartRequired (snackbar fixed : bool) (w : World) : World :=
  if silent w then w
  else
    let w := setFlags (mkFlags true fixed (updateRequired (flags w))) w in
    let w := if snackbar then wssSendSnackbarMessage "Restart required" 0 "info" w else w in
    broadcast "restart_required" [("fixed", Bool fixed)] w.

Definition wssSendRestartNotRequired (snackbar : bool) (w : World) : World :=
  if silent w then w
  else
    let w := setFlags (mkFlags false (fixedRestartRequired (flags w)) (updateRequired (flags w))) w in
    let w := if snackbar then wssSendCloseSnackbarMessage "Restart required" w else w in
    wssBroadcastMessage (message "restart_not_required" []) w.

Definition wssSendUpdateRequired (version devVersion : value) (w : World) : World :=
  if silent w then w
  else broadcast "update_required" [("version", version); ("devVersion", devVersion)]
         (setFlags (mkFlags (restartRequired (flags w)) (fixedRestartRequired (flags w)) true) w).

Definition wssSendPluginUpdateRequired (plugin version devVersion : value) (w : World) : World :=
  if silent w then w else broadcast "plugin_update_required" [("plugin", plugin); ("version", version); ("devVersion", devVersion)] w.

Definition wssSendPluginStatusUpdate (plugin status : value) (w : World) : World :=
  if silent w then w else broadcast "plugin_status_update" [("plugin", plugin); ("status", status)] w.

Definition wssSendMatterbridgeStatusUpdate (status : value) (w : World) : World :=
  if silent w then w else broadcast "matterbridge_status_update" [("status", status)] w.

Definition wssSendMemoryUpdate (totalMemory freeMemory rss heapTotal heapUsed external arrayBuffers : value) (w : World) : World :=
  if silent w then w
  else broadcast "memory_update" [("totalMemory", totalMemory); ("freeMemory", freeMemory); ("rss", rss); ("heapTotal", heapTotal);
         ("heapUsed", heapUsed); ("external", external); ("arrayBuffers", arrayBuffers)] w.

Definition wssSendUptimeUpdate (systemUptime processUptime : value) (w : World) : World :=
  if silent w then w else broadcast "uptime_update" [("systemUptime", systemUptime); ("processUptime", processUptime)] w.

Definition wssSendAttributeChangedMessage (plugin serialNumber uniqueId number id cluster attribute v : value) (w : World) : World :=
  if silent w then w
  else broadcast "state_update" [("plugin", plugin); ("serialNumber", serialNumber); ("uniqueId", uniqueId); ("number", number);
         ("id", id); ("cluster", cluster); ("attribute", attribute); ("value", v)] w.

(** ** Log messages *)

Definition isDigitOrSemicolon (a : Ascii.ascii) : bool :=
  let n := Ascii.N_of_ascii a in (48 <=? n)%N && (n <=? 57)%N || charIs 59 a.
(** [[m|s|u|K]]. *)
Definition endsSequence (a : Ascii.ascii) : bool := charIs 109 a || charIs 124 a || charIs 115 a || charIs 117 a || charIs 75 a.

(** The length of [[0-9;]*[m|s|u|K]] in front of a string. *)
Fixpoint sequenceLength (s : string) : option nat :=
  match s with
  | EmptyString => None
  | String a s => if isDigitOrSemicolon a then S <$> sequenceLength s else if endsSequence a then Some 1%nat else None
  end.

(** The length of [\x1B\[[0-9;]*[m|s|u|K]] in front of a string. *)
Definition ansiLength (s : string) : option nat :=
  match s with
  | String a (String b s) => if charIs 27 a && charIs 91 b then (fun n => S (S n)) <$> sequenceLength s else None
  | _ => None
  end.

(** [s.replace(/\x1B\[[0-9;]*[m|s|u|K]/g, '')]: [skip] characters belong to a match. *)
Fixpoint stripAnsi (skip : nat) (s : string) : string :=
  match s with
  | EmptyString => EmptyString
  | String a s' =>
      match skip with
      | S k => stripAnsi k s'
      | O => match ansiLength s with Some n => stripAnsi (pred n) s' | None => String a (stripAnsi 0 s') end
      end
  end.

(** [s.replace(/^\*+/, '')]. *)
Fixpoint stripAsterisks (s : string) : string :=
  match s with String a s' => if charIs 42 a then stripAsterisks s' else s | EmptyString => s end.

Definition isControl (a : Ascii.ascii) : bool := (Ascii.N_of_ascii a <? 32)%N || charIs 127 a.

(** [s.replace(/\\Q/g, 'Q')] where Q is a quote. *)
Fixpoint unescapeQuotes (s : string) : string :=
  match s with
  | String a (String b s' as t) => if charIs 92 a && charIs 34 b then String b (unescapeQuotes s') else String a (unescapeQuotes t)
  | _ => s
  end.

(** [s.split(' ')] and [l.join(' ')]. *)
Fixpoint splitSpaces (s : string) : list string :=
  match s with
  | EmptyString => [""]
  | String a s =>
      if charIs 32 a then "" :: splitSpaces s
      else match splitSpaces s with [] => [String a ""] | x :: l => String a x :: l end
  end.
Fixpoint joinSpaces (l : list string) : string :=
  match l with [] => "" | [x] => x | x :: l => x ++ " " ++ joinSpaces l end.

Definition maxContinuousLength : nat := 100.
Definition keepStartLength : nat := 20.
Definition keepEndLength : nat := 20.

(** A word that is too long keeps its start and its end. *)
Definition shorten (word : string) : string :=
  if (maxContinuousLength <? String.length word)%nat
  then strTake keepStartLength word ++ " ... " ++ strDrop (String.length word - keepEndLength) word
  else word.

Definition logText (level text : string) : string :=
  let text := stripAsterisks (stripAnsi 0 text) in
  let text := strKeep (fun a => negb (charIs 9 a || charIs 10 a)) text in
  let text := unescapeQuotes (strKeep (fun a => negb (isControl a)) text) in
  if bool_decide (level = "spawn") then text else joinSpaces (map shorten (splitSpaces text)).

Definition wssSendLogMessage (level time name text : string) (w : World) : World :=
  if silent w then w
  else if negb (truthy (Str level) && truthy (Str time) && truthy (Str name) && truthy (Str text)) then w
  else broadcast "log" [("level", Str level); ("time", Str time); ("name", Str name); ("message", Str (logText level text))] w.

(** ** The surroundings *)

(** What the frontend reads of a device in matter.js: whether it is ready and active,
    the reachable attribute of its own server node, and the servers of the device and
    of its child endpoints. *)
Record View := mkView { isReady : bool; isActive : bool; nodeReachable : value; own : Behaviors.World; children : list Behaviors.World }.

(** What surrounds the frontend: the application, the answer of another component to
    [server.fetch], which throws when it does not come in time, files, calls of
    matter.js and of platforms, the state of server nodes and of devices, the time,
    what the system reports, the order of [localeCompare], and the texts that show the
    clusters of a device. *)
Record Env := mkEnv {
  application : Matterbridge.Env;
  fetch : string -> string -> object -> async World value;
  readText : string -> async World string;
  fileExists : string -> bool;
  rename : string -> string -> async World unit;
  createServer : object -> res unit;
  tmpdir : string;
  nodeState : World -> ref -> object;
  nodeCall : ref -> string -> list value -> async World unit;
  hasFabric : ref -> value -> res bool;
  view : World -> ref -> View;
  onAction : ref -> list value -> async World unit;
  onFetch : ref -> list value -> async World value;
  onChangeLoggerLevel : ref -> value -> async World unit;
  selects : World -> ref -> string -> list value;
  sortByName : list value -> list value;
  levelName : value -> value;
  generateDiagnostic : async World unit;
  generateHistoryPage : string -> async World unit;
  FORBIDDEN_PASSCODES : list Z;
  vendorName : value -> value;
  systemInformation : object;
  clusterText : World -> ref -> value;
  clusterList : World -> ref -> list value;
  errorText : exn -> string;
  now : Z
}.

Section Frontend.
Context (env : Env).

Definition perhaps (b : bool) (m : async World unit) : async World unit := if b then m else mret tt.
Definition has (p : string) : bool := hasParameter (Matterbridge.args (application env)) p.
Definition theParameter (p : string) : value := Matterbridge.optional (getParameter (Matterbridge.args (application env)) p).
Definition matterbridgeDirectory : string := Matterbridge.matterbridgeDirectory (application env).
Definition nodeContext (w : World) : bool := truthy (appThis w "nodeContext").
(** [await this.matterbridge.nodeContext?.get(k, d)] and [set(k, v)]. *)
Definition contextGet (k : string) (d : value) : async World value := onApp (Matterbridge.storedGet k d).
Definition contextSet (k : string) (v : value) : async World unit := onApp (Matterbridge.storedSet k v).

(** [a === b], which tells objects apart. *)
Definition same (a b : value) : bool := match a with Arr _ | Obj _ => false | _ => bool_decide (a = b) end.

(** ** Logger levels *)

Definition DEBUG : value := Str "debug".
Definition INFO : value := Str "info".
Definition NOTICE : value := Str "notice".
Definition MatterLogLevel (l : string) : value := Behaviors.enum "MatterLogLevel" l.

(** The level of the callback, for a level of the application. *)
Definition commonLevel (l : value) (pluginDebug : bool) (w : World) : value :=
  let m := matterLevel (levels w) in
  if same l DEBUG || same m (MatterLogLevel "DEBUG") || pluginDebug then DEBUG
  else if same l INFO || same m (MatterLogLevel "INFO") then INFO else NOTICE.

Definition setCallbackLevel (l : value) (w : World) : World := setLevels (mkLevels (logLevel (levels w)) (matterLevel (levels w)) l) w.
Definition appLevel (w : World) : value := appThis w "log.logLevel".

(** ** Clients *)

(** A client connects: the callback of the loggers is set. *)
Definition connect (w : World) : World :=
  let c := fresh (dom (sockets (net w))) in
  match clients (net w) with
  | None => w
  | Some cs =>
      let w := setCallbackLevel (commonLevel (appLevel w) false w) w in
      setClients (Some ({[c]} ∪ cs)) (setSockets (<[c := mkSocket true []]> (sockets (net w))) w)
  end.

Definition authorize (ip : option string) (w : World) : World :=
  match ip with
  | Some s => if truthy (Str s) then setAuthClients ({[s]} ∪ authClients (auth w)) w else w
  | None => w
  end.

(** The event upgrade: the status of a refusal, or none. The password is the one of
    the query of the url. *)
Definition upgrade (isWebSocket : bool) (password ip : option string) (w : World) : World * option Z :=
  if negb isWebSocket then (w, Some 400)
  else if negb (same (Str (default "" password)) (storedPassword (auth w))) then (w, Some 401)
  else (connect (authorize ip w), None).

(** The event close of a client: when it was the last one, the authorizations are
    forgotten after a while. *)
Definition disconnect (c : nat) (w : World) : World :=
  let w := setSockets (alter (fun s => mkSocket false (received s)) c (sockets (net w))) w in
  let w := setClients ((fun cs => cs ∖ {[c]}) <$> clients (net w)) w in
  match clients (net w) with
  | Some cs => if bool_decide (cs = ∅) then setAuthTimeout true (setCallbackLevel Undefined w) else w
  | None => w
  end.

Definition authClientsTimer (w : World) : World :=
  let w := setAuthTimeout false w in
  match clients (net w) with
  | Some cs => if bool_decide (cs = ∅) then setAuthClients ∅ w else w
  | None => w
  end.

Definition destroy (w : World) : World := setAuthTimeout false w.

(** ** Starting and stopping *)

Definition pause : async World unit := await (mret tt).
Definition emit (e : string) : async World unit := modify (addEvent e).

(** A file of the directory of certificates; the event server_error when it cannot be
    read. *)
Definition certificate (f : string) : async World (option string) :=
  catch (s ← await (readText env (pathJoin [matterbridgeDirectory; "certs"; f])); mret (Some s)) (fun _ => _ ← emit "server_error"; mret None).

(** The options of the https server: a p12 certificate with its passphrase, or a
    certificate and a key, with the chain of a CA certificate if there is one. *)
Definition httpsServerOptions : async World (option object) :=
  o ← (if fileExists env (pathJoin [matterbridgeDirectory; "certs"; "cert.p12"]) then
         pfx ← certificate "cert.p12";
         match pfx with
         | None => mret None
         | Some pfx =>
             passphrase ← certificate "cert.pass";
             match passphrase with
             | None => mret None
             | Some passphrase => mret (Some [("pfx", Str pfx); ("passphrase", Str (strTrim passphrase))])
             end
         end
       else
         cert ← certificate "cert.pem";
         match cert with
         | None => mret None
         | Some cert =>
             key ← certificate "key.pem";
             match key with
             | None => mret None
             | Some key =>
                 ca ← catch (s ← await (readText env (pathJoin [matterbridgeDirectory; "certs"; "ca.pem"])); mret (Some s)) (fun _ => mret None);
                 mret (Some [("cert", Str (match ca with Some ca => cert ++ String (Ascii.ascii_of_N 10) ca | None => cert end));
                             ("key", Str key); ("ca", Matterbridge.optional ca)])
             end
         end);
  match o with
  | Some o => mret (Some (if has "mtls" then (o ++ [("requestCert", Bool true); ("rejectUnauthorized", Bool true)])%list else o))
  | None => mret None
  end.

(** The server is created, or the event server_error is emitted; the callback of
    [listen] is [listens]. *)
Definition newServer (https : bool) (o : object) : async World unit :=
  match createServer env o with
  | Ok _ => modify (fun w => if https then setServers (httpServer (net w)) true w else setServers true (httpsServer (net w)) w)
  | Throw _ => emit "server_error"
  end.

Definition start (p : value) : async World unit :=
  _ ← modify (setPort (match p with Num n => n | _ => 8283 end));
  v ← contextGet "password" (Str "");
  _ ← modify (setPassword v);
  _ ← pause; _ ← pause; _ ← pause;
  _ ← modify (setClients (Some ∅));
  _ ← emit "websocket_server_listening";
  if negb (has "ssl") then _ ← pause; newServer false []
  else
    _ ← pause;
    o ← httpsServerOptions;
    match o with
    | None => mret tt
    | Some o => _ ← pause; newServer true o
    end.

Definition listens : async World unit := _ ← modify (setListening true); emit "server_listening".

(** The sockets of the clients are closed; [shut] tells whether the web socket server
    closed before the timeout, and without an error. *)
Definition stop (shut : bool) : async World unit :=
  _ ← pause;
  w ← ask;
  _ ← match clients (net w) with
      | None => mret tt
      | Some cs =>
          _ ← modify (fun w => setSockets (map_imap (fun c s => Some (if bool_decide (c ∈ cs) then mkSocket false (received s) else s))
                                             (sockets (net w))) w);
          _ ← pause;
          _ ← perhaps shut (emit "websocket_server_stopped");
          modify (setClients None)
      end;
  w ← ask;
  _ ← perhaps (httpServer (net w))
        (_ ← modify (setListening false); _ ← emit "server_stopped"; modify (fun w => setServers false (httpsServer (net w)) w));
  w ← ask;
  perhaps (httpsServer (net w))
    (_ ← modify (setListening false); _ ← emit "server_stopped"; modify (fun w => setServers (httpServer (net w)) false w)).

(** ** Login and protected routes *)

Inductive Body := Json (v : value) | Text (s : string) | File (path : string) | NoBody.
Record Reply := mkReply { status : Z; body : Body }.

Definition login (ip : option string) (reqBody : value) : async World Reply :=
  password ← liftRes (getProp reqBody "password");
  w ← ask;
  if same (storedPassword (auth w)) (Str "") || same password (storedPassword (auth w)) then
    _ ← modify (authorize ip);
    mret (mkReply 200 (Json (Obj [("valid", Bool true)])))
  else mret (mkReply 200 (Json (Obj [("valid", Bool false)]))).

Definition validateReq (w : World) (ip : option string) : bool :=
  match ip with
  | Some s => negb (truthy (Str s) && negb (bool_decide (s ∈ authClients (auth w))))
  | None => true
  end.

Definition protect (ip : option string) (m : async World Reply) : async World Reply :=
  w ← ask;
  if validateReq w ip then m else mret (mkReply 401 (Json (Obj [("error", Str "Unauthorized")]))).

Definition MATTERBRIDGE_LOGGER_FILE : string := "matterbridge.log".
Definition MATTER_LOGGER_FILE : string := "matter.log".
Definition MATTERBRIDGE_DIAGNOSTIC_FILE : string := "diagnostic.log".
Definition MATTERBRIDGE_HISTORY_FILE : string := "history.html".

Definition readOwn (f : string) : async World string := await (readText env (pathJoin [matterbridgeDirectory; f])).

(** A file of the application as text. *)
Definition viewFile (f : string) (skip : nat) (failure : string) : async World Reply :=
  catch (d ← readOwn f; mret (mkReply 200 (Text (strDrop skip d)))) (fun _ => mret (mkReply 500 (Text failure))).

Definition writeTemporary (f s : string) : async World unit :=
  let p := pathJoin [tmpdir env; f] in
  await (if PluginManager.writable (Matterbridge.plugged (application env)) p then modify (setTemporary p s) else Raise (SystemError "EACCES")).

(** A file of the application by way of a temporary file; [otherwise] is written there
    when the file cannot be read. *)
Definition copyFile (f : string) : async World unit := d ← readOwn f; writeTemporary f d.
Definition downloadFile (f otherwise : string) : async World Reply :=
  _ ← catch (copyFile f) (fun _ => writeTemporary f otherwise);
  mret (mkReply 200 (File (pathJoin [tmpdir env; f]))).

(** The archives that other requests create; the snackbar of their creation is closed
    when the download ends. *)
Definition downloadArchive (f text : string) : async World Reply :=
  _ ← modify (wssSendCloseSnackbarMessage text);
  mret (mkReply 200 (File (pathJoin [tmpdir env; f]))).

(** ** What the web application shows *)

Definition hasCleanupStarted (w : World) : bool := truthy (appThis w "hasCleanupStarted").
Definition theBridge (w : World) : Bridge.World := Matterbridge.bridge (app w).
Definition dget (w : World) (d : ref) (k : string) : value := Bridge.dget (theBridge w) d k.
Definition pget (w : World) (p : ref) (k : string) : value := Bridge.pget (theBridge w) p k.

(** [!device.lifecycle.isReady || device.construction.status !== Active]. *)
Definition inactive (v : View) : bool := negb (isReady v) || negb (isActive v).
Definition hasServer (b : Behaviors.World) (c : string) : bool := match Behaviors.servers b !! c with Some _ => true | None => false end.

Definition getReachability (w : World) (d : ref) : value :=
  let v := view env w d in
  if hasCleanupStarted w || inactive v then Bool false
  else if hasServer (own v) "BridgedDeviceBasicInformation" then Behaviors.attr (own v) "BridgedDeviceBasicInformation" "reachable"
  else if isStr (dget w d "mode") "server" && negb (isUndefined (nodeReachable v)) then nodeReachable v
  else Bool (isStr (Bridge.bridgeMode (theBridge w)) "childbridge").

(** [names[v]] for a member [v] of an enumeration with these members. *)
Fixpoint indexed (e : string) (members names : list string) (v : value) : value :=
  match members, names with
  | m :: members, n :: names => if bool_decide (v = Behaviors.enum e m) then Str n else indexed e members names v
  | _, _ => Undefined
  end.

(** Over a device and its children: the first one with a power source. *)
Definition onPowerSource {A} (f : Behaviors.World -> A) (none : A) (v : View) : A :=
  match List.find (fun b => hasServer b "PowerSource") (own v :: children v) with Some b => f b | None => none end.

Definition powerSource (b : Behaviors.World) : value :=
  let featureMap := Behaviors.attr b "PowerSource" "featureMap" in
  if truthy (optProp featureMap "wired") then indexed "WiredCurrentType" ["Ac"; "Dc"] ["ac"; "dc"] (Behaviors.attr b "PowerSource" "wiredCurrentType")
  else if truthy (optProp featureMap "battery")
  then indexed "BatChargeLevel" ["Ok"; "Warning"; "Critical"] ["ok"; "warning"; "critical"] (Behaviors.attr b "PowerSource" "batChargeLevel")
  else Undefined.

Definition getPowerSource (w : World) (d : ref) : value :=
  let v := view env w d in
  if hasCleanupStarted w || inactive v then Undefined else onPowerSource powerSource Undefined v.

(** A number that may end in a half: [None] is undefined. *)
Definition batteryLevel (b : Behaviors.World) : option (Z * bool) :=
  if truthy (optProp (Behaviors.attr b "PowerSource" "featureMap") "battery") then
    match Behaviors.attr b "PowerSource" "batPercentRemaining" with
    | Num n => Some (n / 2, Z.odd n)
    | _ => None
    end
  else None.

Definition getBatteryLevel (w : World) (d : ref) : option (Z * bool) :=
  let v := view env w d in
  if hasCleanupStarted w || inactive v then None else onPowerSource batteryLevel None v.

(** Values hold integers; a level that ends in a half is given by its text. *)
Definition levelValue (l : option (Z * bool)) : value :=
  match l with
  | Some (n, false) => Num n
  | Some (n, true) => Str (toText (Num n) ++ ".5")
  | None => Undefined
  end.

(** [info.k.toString()] for a number; fabrics and sessions. *)
Definition textual (f : object) (k : string) : string * value := (k, Str (toText (getField k f))).
Definition sanitizedFabric (v : value) : value :=
  match v with
  | Obj f => Obj [("fabricIndex", getField "fabricIndex" f); textual f "fabricId"; textual f "nodeId"; textual f "rootNodeId";
                  ("rootVendorId", getField "rootVendorId" f); ("rootVendorName", vendorName env (getField "rootVendorId" f)); ("label", getField "label" f)]
  | v => v
  end.
Definition sanitizeFabricInformations (l : list value) : list value := map sanitizedFabric l.
Definition sanitizedSession (f : object) : value :=
  let optionalText k := match getField k f with Undefined | Null => (k, Undefined) | _ => textual f k end in
  Obj [("name", getField "name" f); textual f "nodeId"; textual f "peerNodeId";
       ("fabric", if truthy (getField "fabric" f) then sanitizedFabric (getField "fabric" f) else Undefined);
       ("isPeerActive", getField "isPeerActive" f); optionalText "lastInteractionTimestamp"; optionalText "lastActiveTimestamp";
       ("numberOfActiveSubscriptions", getField "numberOfActiveSubscriptions" f)].
Definition sanitizeSessionInformation (l : list value) : list value :=
  omap (fun v => match v with Obj f => if truthy (getField "isPeerActive" f) then Some (sanitizedSession f) else None | _ => None end) l.

Definition arrayOf (v : value) : list value := match v with Arr l => l | _ => [] end.
Definition nodeId (w : World) (n : ref) : value := Bridge.n_id (Bridge.node (theBridge w) n).

Definition getServerNodeData (w : World) (n : ref) : object :=
  let s := nodeState env w n in
  let advertiseTime := default 0 (mget (nodeId w n) (advertisingNodes w)) in
  [("id", nodeId w n); ("online", getField "online" s); ("commissioned", getField "commissioned" s);
   ("advertising", Bool (0 <? advertiseTime)); ("advertiseTime", Num advertiseTime); ("windowStatus", getField "windowStatus" s);
   ("qrPairingCode", getField "qrPairingCode" s); ("manualPairingCode", getField "manualPairingCode" s);
   ("fabricInformations", Arr (sanitizeFabricInformations (arrayOf (getField "fabrics" s))));
   ("sessionInformations", Arr (sanitizeSessionInformation (arrayOf (getField "sessions" s))));
   ("serialNumber", getField "serialNumber" s)].

Definition matterOf (w : World) (n : option ref) : value := match n with Some n => Obj (getServerNodeData w n) | None => Undefined end.

(** The memory, uptime and cpu usage are up to date in the answer. *)
Definition shownSystem (w : World) : value :=
  Obj (foldl (fun f kv => setField (fst kv) (snd kv) f) (match appThis w "systemInformation" with Obj f => f | _ => [] end) (systemInformation env)).

Definition shown (w : World) (ks : list string) : object := Matterbridge.picked (application env) (app w) ks.

Definition getApiSettings (w : World) : value :=
  Obj [("systemInformation", shownSystem w);
       ("matterbridgeInformation",
         Obj (shown w ["homeDirectory"; "rootDirectory"; "matterbridgeDirectory"; "matterbridgePluginDirectory"; "matterbridgeCertDirectory";
                       "globalModulesDirectory"; "matterbridgeVersion"; "matterbridgeLatestVersion"; "matterbridgeDevVersion"; "frontendVersion";
                       "dockerDev"; "dockerVersion"; "dockerLatestVersion"; "dockerDevVersion"; "bridgeMode"; "restartMode"; "virtualMode";
                       "bridgeStatus"; "profile"] ++
              [("loggerLevel", appThis w "logLevel"); ("fileLogger", appThis w "fileLogger"); ("matterLoggerLevel", appThis w "matterLogLevel");
               ("matterFileLogger", appThis w "matterFileLogger"); ("matterMdnsInterface", appThis w "mdnsInterface");
               ("matterIpv4Address", appThis w "ipv4Address"); ("matterIpv6Address", appThis w "ipv6Address");
               ("matterPort", orElse (appThis w "initialPort") (Num 5540)); ("matterDiscriminator", appThis w "initialDiscriminator");
               ("matterPasscode", appThis w "initialPasscode"); ("readOnly", Bool (has "readonly" || has "shelly"));
               ("shellyBoard", Bool (has "shelly")); ("shellySysUpdate", Bool false); ("shellyMainUpdate", Bool false);
               ("restartRequired", Bool (restartRequired (flags w))); ("fixedRestartRequired", Bool (fixedRestartRequired (flags w)));
               ("updateRequired", Bool (updateRequired (flags w)))])%list)].

Definition theConfig (w : World) (p : ref) : option object :=
  PluginManager.configOf (thePlugins w) <$> PluginManager.configJson (PluginManager.plugin (thePlugins w) p).

Definition apiPlugin (w : World) (p : ref) : value :=
  let config := theConfig w p in
  let configHas k := match config with Some c => negb (isUndefined (getField k c)) | None => false end in
  Obj (map (fun k => (k, pget w p k))
         ["path"; "type"; "name"; "version"; "private"; "description"; "author"; "homepage"; "help"; "changelog"; "funding"; "latestVersion";
          "devVersion"; "locked"; "error"; "enabled"; "loaded"; "started"; "configured"; "restartRequired"; "registeredDevices"] ++
       [("configJson", match config with Some c => Obj c | None => Undefined end); ("schemaJson", pget w p "schemaJson");
        ("hasWhiteList", Bool (configHas "whiteList")); ("hasBlackList", Bool (configHas "blackList")); ("frontendPath", pget w p "frontendPath");
        ("matter", matterOf w (Bridge.pluginNode (theBridge w) p))])%list.

Definition getApiPlugins (w : World) : value :=
  Arr (if hasCleanupStarted w then [] else map (apiPlugin w) (Matterbridge.plugins (app w))).

(** [n.toString(16).padStart(width, '0')]. *)
Fixpoint hexDigits (fuel : nat) (n : Z) (acc : string) : string :=
  match fuel with
  | O => acc
  | S fuel =>
      let acc := String (Ascii.ascii_of_N (Z.to_N (digitChar (n mod 16)))) acc in
      if n / 16 =? 0 then acc else hexDigits fuel (n / 16) acc
  end.
Definition hexText (n : Z) : string := hexDigits (S (Z.to_nat (Z.log2 n))) n "".
Fixpoint padStart (width : nat) (s : string) : string :=
  match width with
  | O => s
  | S width => if (String.length s <=? width)%nat then String (Ascii.ascii_of_N 48) (padStart width s) else s
  end.

(** The endpoint number and id of a device in matter.js are its fields. *)
Definition apiDevice (w : World) (d : ref) : value :=
  Obj [("pluginName", dget w d "plugin");
       ("type", Str (toText (dget w d "name") ++ " (0x" ++ padStart 4 (match dget w d "deviceType" with Num n => hexText n | _ => "" end) ++ ")"));
       ("endpoint", dget w d "number"); ("name", dget w d "deviceName"); ("serial", dget w d "serialNumber");
       ("productUrl", dget w d "productUrl"); ("configUrl", dget w d "configUrl"); ("uniqueId", dget w d "uniqueId");
       ("reachable", getReachability w d); ("powerSource", getPowerSource w d); ("batteryLevel", levelValue (getBatteryLevel w d));
       ("matter", if isStr (dget w d "mode") "server" then matterOf w (Bridge.ownNode (Bridge.device (theBridge w) d)) else Undefined);
       ("cluster", clusterText env w d)].

Definition listed (w : World) (pluginName : option string) (d : ref) : bool :=
  match pluginName with
  | Some n => negb (truthy (Str n)) || isStr (dget w d "plugin") n
  | None => true
  end &&
  forallb (fun k => truthy (dget w d k)) ["plugin"; "deviceType"; "name"; "deviceName"; "serialNumber"; "uniqueId"] && isReady (view env w d).

Definition getApiDevices (pluginName : option string) (w : World) : value :=
  Arr (if hasCleanupStarted w then [] else map (apiDevice w) (List.filter (listed w pluginName) (Matterbridge.devices (app w)))).

(** The device that the clusters are asked of. *)
Definition clusterDevice (w : World) (pluginName endpointNumber serialNumber uniqueId : value) : option ref :=
  List.find (fun d => same (dget w d "plugin") pluginName && same (dget w d "number") endpointNumber &&
                      (negb (truthy serialNumber) || same (dget w d "serialNumber") serialNumber) &&
                      (negb (truthy uniqueId) || same (dget w d "uniqueId") uniqueId))
    (Matterbridge.devices (app w)).

Definition getClusters (pluginName endpointNumber serialNumber uniqueId : value) (w : World) : option value :=
  if hasCleanupStarted w then None
  else
    match clusterDevice w pluginName endpointNumber serialNumber uniqueId with
    | Some d =>
        if forallb (fun k => truthy (dget w d k)) ["plugin"; "number"; "id"; "deviceName"; "serialNumber"] then
          Some (Obj [("plugin", dget w d "plugin"); ("deviceName", dget w d "deviceName"); ("serialNumber", dget w d "serialNumber");
                     ("number", dget w d "number"); ("id", dget w d "id");
                     ("deviceTypes", Arr (map (fun t => Num (fst t)) (default [] (Bridge.deviceTypeList (Bridge.device (theBridge w) d)))));
                     ("clusters", Arr (clusterList env w d))])
        else None
    | None => None
    end.

(** ** Events of server nodes *)

Inductive NodeEvent :=
  | Commissioned | Decommissioned | Online (isCommissioned : bool) | Offline
  | FabricsChanged (action : string) | SessionOpened | SessionClosed | SubscriptionsChanged.

(** The listeners that [createServerNode] adds to the node with the store id [id]. *)
Definition onNodeEvent (n : ref) (id : string) (e : NodeEvent) (w : World) : World :=
  let unadvertised w := setAdvertising (mdelete (Str id) (advertisingNodes w)) w in
  let refresh w := wssSendRefreshRequired (Str "matter") [("matter", Obj (getServerNodeData w n))] w in
  match e with
  | Commissioned => wssSendSnackbarMessage ("Server node for " ++ id ++ " commissioned successfully!") 5 "success" (refresh (unadvertised w))
  | Decommissioned =>
      wssSendSnackbarMessage ("Server node for " ++ id ++ " fully decommissioned successfully!") 5 "success"
        (wssSendSnackbarMessage (id ++ " is offline") 5 "warning" (refresh (unadvertised w)))
  | Online b =>
      let w := if b : bool then unadvertised w else setAdvertising (mset (Str id) (now env) (advertisingNodes w)) w in
      addEvent "online" (wssSendSnackbarMessage (id ++ " is online") 5 "success" (refresh w))
  | Offline => addEvent "offline" (wssSendSnackbarMessage (id ++ " is offline") 5 "warning" (refresh (unadvertised w)))
  | FabricsChanged a => refresh (if bool_decide (a = "added") then unadvertised w else w)
  | SessionOpened | SessionClosed | SubscriptionsChanged => refresh w
  end.

(** ** What the application asks of the frontend *)

(** [stop] as the application calls it, without the events. *)
Definition stopped (w : World) : World :=
  let w := setSockets (map_imap (fun c s => Some (if bool_decide (c ∈ default ∅ (clients (net w))) then mkSocket false (received s) else s))
                         (sockets (net w))) w in
  setServers false false (setListening (listening (net w) && negb (httpServer (net w) || httpsServer (net w))) (setClients None w)).

Definition deliver (w : World) (a : Matterbridge.Action) : World :=
  match a with
  | Matterbridge.Other what =>
      if bool_decide (what = "frontend.stop") then stopped w else if bool_decide (what = "frontend.destroy") then destroy w else w
  | Matterbridge.Frontend method args =>
      match args with
      | [Str text; Num timeout; Str severity] =>
          if bool_decide (method = "wssSendSnackbarMessage") then wssSendSnackbarMessage text timeout severity w else w
      | [Str text] =>
          if bool_decide (method = "wssSendCloseSnackbarMessage") then wssSendCloseSnackbarMessage text w
          else if bool_decide (method = "wssSendRefreshRequired") then wssSendRefreshRequired (Str text) [] w else w
      | _ => w
      end
  | _ => w
  end.

(** A call of the application, and what it asked of the frontend meanwhile. *)
Definition calling (m : async Matterbridge.World unit) : async World unit :=
  w0 ← ask;
  e ← catch (_ ← onApp m; mret None) (fun e => mret (Some e));
  _ ← modify (fun w => foldl deliver w (drop (length (Matterbridge.trace (app w0))) (Matterbridge.trace (app w))));
  match e with Some e => Raise e | None => mret tt end.

(** ** Requests of the web application *)

Definition sendResponse (c : nat) (data : object) (w : World) : World :=
  match sockets (net w) !! c with
  | Some s => if isOpen s then setSockets (<[c := receive (Response (jsonClone (Obj data))) s]> (sockets (net w))) w else w
  | None => w
  end.

(** [this.server.request({ type, src, dst, params })]. *)
Definition request (type src dst : string) (params : object) : async World unit :=
  modify (addPost (Obj [("type", Str type); ("src", Str src); ("dst", Str dst); ("params", Obj params)])).

Definition isBun : bool := Matterbridge.bun (application env).

Definition spawning (args : list string) (command packageName : string) : async World unit :=
  request "manager_run" "frontend" "manager"
    [("name", Str "SpawnCommand");
     ("workerData", Obj [("threadName", Str "SpawnCommand"); ("command", Str (if isBun then "bun" else "npm")); ("args", Arr (map Str args));
                         ("packageCommand", Str command); ("packageName", Str packageName)])].
Definition spawn (command packageName : string) : async World unit :=
  spawning (if isBun then [command; "-g"; packageName; "--production"] else [command; "-g"; packageName; "--omit=dev"; "--verbose"])
    command packageName.

Definition zip (command archivePath : string) (sourcePaths : list value) (destinationPath : string) : async World unit :=
  request "manager_run" "frontend" "manager"
    [("name", Str "ArchiveCommand");
     ("workerData", Obj [("threadName", Str "ArchiveCommand"); ("command", Str command); ("archivePath", Str archivePath);
                         ("sourcePaths", Arr sourcePaths); ("destinationPath", Str destinationPath)])].

(** A package is uploaded: [file] is where the upload was stored. *)
Definition uploadpackage (file : option string) (filename : value) : async World Reply :=
  match file with
  | None => mret (mkReply 400 (Text "Invalid request: file and filename are required"))
  | Some file =>
      if negb (truthy filename) then mret (mkReply 400 (Text "Invalid request: file and filename are required"))
      else
        _ ← modify (wssSendSnackbarMessage ("Installing package " ++ toText filename ++ "...") 0 "info");
        match filename with
        | Str n =>
            let filePath := pathJoin [matterbridgeDirectory; "uploads"; n] in
            catch
              (_ ← pause;
               _ ← await (rename env file filePath);
               _ ← modify (addMoved file filePath);
               _ ← perhaps (strEndsWith n ".tgz")
                     (spawning (if isBun then ["install"; "-g"; filePath; "--production"] else ["install"; "-g"; filePath; "--omit=dev"; "--verbose"])
                        "install" n);
               mret (mkReply 200 (Text ("File " ++ n ++ " uploaded successfully"))))
              (fun _ =>
                 _ ← modify (wssSendCloseSnackbarMessage ("Installing package " ++ n ++ "..."));
                 _ ← modify (wssSendSnackbarMessage ("Error uploading or installing plugin package " ++ n) 10 "error");
                 mret (mkReply 500 (Text ("Error uploading or installing plugin package " ++ n))))
        | _ => Raise TypeError
        end
  end.

(** The routes behind [validateReq]. *)
Inductive Route :=
  | ApiSettings | ApiPlugins | ApiDevices | ViewMblog | DownloadMblog | ViewMjlog | DownloadMjlog | ViewDiagnostic | DownloadDiagnostic
  | ViewHistory | DownloadHistory | DownloadBackup | DownloadMbstorage | DownloadMjstorage | DownloadPluginstorage | DownloadPluginconfig
  | UploadPackage (file : option string) (filename : value).

Definition route (r : Route) : async World Reply :=
  match r with
  | ApiSettings => w ← ask; mret (mkReply 200 (Json (getApiSettings w)))
  | ApiPlugins => w ← ask; mret (mkReply 200 (Json (getApiPlugins w)))
  | ApiDevices => w ← ask; mret (mkReply 200 (Json (getApiDevices None w)))
  | ViewMblog => viewFile MATTERBRIDGE_LOGGER_FILE 0 "Error reading matterbridge log file. Please enable the matterbridge log on file in the settings."
  | DownloadMblog => downloadFile MATTERBRIDGE_LOGGER_FILE "Enable the matterbridge log on file in the settings to download the matterbridge log."
  | ViewMjlog => viewFile MATTER_LOGGER_FILE 0 "Error reading matter log file. Please enable the matter log on file in the settings."
  | DownloadMjlog => downloadFile MATTER_LOGGER_FILE "Enable the matter log on file in the settings to download the matter log."
  | ViewDiagnostic => _ ← await (generateDiagnostic env); viewFile MATTERBRIDGE_DIAGNOSTIC_FILE 29 "Error reading diagnostic log file."
  | DownloadDiagnostic =>
      _ ← await (generateDiagnostic env);
      _ ← catch (copyFile MATTERBRIDGE_DIAGNOSTIC_FILE) (fun _ => mret tt);
      mret (mkReply 200 (File (pathJoin [tmpdir env; MATTERBRIDGE_DIAGNOSTIC_FILE])))
  | ViewHistory => viewFile MATTERBRIDGE_HISTORY_FILE 0 "Error reading history file."
  | DownloadHistory =>
      catch (_ ← copyFile MATTERBRIDGE_HISTORY_FILE; mret (mkReply 200 (File (pathJoin [tmpdir env; MATTERBRIDGE_HISTORY_FILE]))))
        (fun _ => mret (mkReply 500 (Text "Error reading history file.")))
  | DownloadBackup => downloadArchive "matterbridge.backup.zip" "Creating matterbridge backup..."
  | DownloadMbstorage => downloadArchive ("matterbridge." ++ Matterbridge.NODE_STORAGE_DIR ++ ".zip") "Creating matterbridge storage backup..."
  | DownloadMjstorage => downloadArchive ("matterbridge." ++ Matterbridge.MATTER_STORAGE_DIR ++ ".zip") "Creating matter storage backup..."
  | DownloadPluginstorage => downloadArchive "matterbridge.pluginstorage.zip" "Creating plugin backup..."
  | DownloadPluginconfig => downloadArchive "matterbridge.pluginconfig.zip" "Creating config backup..."
  | UploadPackage file filename => uploadpackage file filename
  end.

Definition serve (ip : option string) (r : Route) : async World Reply := protect ip (route r).

(** A route of the api of a plugin. *)
Definition apiHandler (p : ref) (method : string) (path query reqBody : value) : async World Reply :=
  w ← ask;
  let name := toText (pget w p "name") in
  match PluginManager.platform (PluginManager.plugin (thePlugins w) p) with
  | None => mret (mkReply 503 (Json (Obj [("error", Str ("Plugin " ++ name ++ " platform is not running"))])))
  | Some q =>
      catch
        (v ← await (onFetch env q [Str method; path; query; reqBody]);
         if isUndefined v then mret (mkReply 404 (Json (Obj [("error", Str ("Not found in plugin " ++ name))])))
         else mret (if bool_decide (method = "DELETE") then mkReply 204 NoBody else mkReply 200 (Json v)))
        (fun _ => mret (mkReply 500 (Json (Obj [("error", Str ("Internal error in plugin " ++ name))]))))
  end.
End Frontend.
End Frontend.
