(* ===== verification/FrontendApi.v ===== *)
(** The requests of the web application and of the other components, as
    [packages/core/src/frontend.ts] answers them: [wsMessageHandler] for the messages
    of web socket clients and [broadcastMsgHandler] for broadcast messages. *)
From S2P Require Import Prelude JsString JsNumber JsValue JsMap NodePath Async Wait Validate Broadcast DeviceManager PluginManager CommandLine Bridge.
From S2P Require Import Matterbridge Platform Behaviors Frontend.
From stdpp Require Import gmap.
#[local] Open Scope string_scope.
#[local] Open Scope Z_scope.

Module FrontendApi.
Import Broadcast Validate CommandLine Frontend.

Abbreviation object := (list (string * value)) (only parsing).
Abbreviation ref := nat (only parsing).

(** [isValidString(v, min)]. *)
Definition validString (v : value) (min : Z) : bool := isValidString v (Some min) None.
Definition asArray (v : value) : res (list value) := match v with Arr l => Ok l | _ => Throw TypeError end.

(** [s.replace(/@.*$/, '')]: up to the first @ that no line break follows. *)
Definition lineBreak (a : Ascii.ascii) : bool := charIs 10 a || charIs 13 a.
Fixpoint noBreak (s : string) : bool := match s with EmptyString => true | String a s => negb (lineBreak a) && noBreak s end.
Fixpoint removeVersion (s : string) : string :=
  match s with
  | EmptyString => ""
  | String a s => if charIs 64 a && noBreak s then "" else String a (removeVersion s)
  end.

(** The entry of a table, for a chain of comparisons with texts. *)
Fixpoint chosen {A} (k : string) (table : list (string * A)) (none : A) : A :=
  match table with
  | [] => none
  | (k', a) :: table => if bool_decide (k = k') then a else chosen k table none
  end.

Section Requests.
Context (env : Env).

(** One request: the client [c] and the message. *)
Section Request.
Context (c : nat) (data : object).

Definition answer (rest : object) : async World unit :=
  modify (sendResponse c ([("id", getField "id" data); ("method", getField "method" data); ("src", Str "Matterbridge");
                           ("dst", getField "src" data)] ++ rest)%list).
Definition succeed : async World unit := answer [("success", Bool true)].
Definition succeedWith (v : value) : async World unit := answer [("success", Bool true); ("response", v)].
Definition refuse (e : string) : async World unit := answer [("error", Str e)].
(** [data.params.k]. *)
Definition prm (k : string) : async World value := liftRes (getProp (getField "params" data) k).
Definition snackbar (text : string) (timeout : Z) (severity : string) : async World unit := modify (wssSendSnackbarMessage text timeout severity).
Definition closeSnackbar (text : string) : async World unit := modify (wssSendCloseSnackbarMessage text).
Definition refresh (changed : string) : async World unit := modify (wssSendRefreshRequired (Str changed) []).
Definition restartNeeded : async World unit := modify (wssSendRestartRequired true false).
(** [await this.server.fetch({ type, dst, params })], its result. *)
Definition fetched (type dst : string) (params : object) : async World value := await (fetch env type dst params).

(** ** Login and packages *)

Definition apiLogin : async World unit :=
  w ← ask;
  if negb (nodeContext w) then refuse "Internal error: nodeContext not found"
  else
    stored ← contextGet "password" (Str "");
    if same stored (Str "") then succeed
    else
      password ← prm "password";
      if same stored password then succeed else refuse "Wrong password".

Definition apiInstall : async World unit :=
  n ← prm "packageName";
  r ← prm "restart";
  match n with
  | Str name =>
      if validString n 12 && isValidBoolean r then
        _ ← snackbar ("Installing package " ++ name ++ "...") 0 "info"; _ ← spawn env "install" name; succeed
      else refuse "Wrong parameter in /api/install"
  | _ => refuse "Wrong parameter in /api/install"
  end.

Definition apiUninstall : async World unit :=
  n ← prm "packageName";
  match n with
  | Str name =>
      if validString n 12 then _ ← snackbar ("Uninstalling package " ++ name ++ "...") 0 "info"; _ ← spawn env "uninstall" name; succeed
      else refuse "Wrong parameter packageName in /api/uninstall"
  | _ => refuse "Wrong parameter packageName in /api/uninstall"
  end.

(** ** Plugins *)

Definition apiAddplugin : async World unit :=
  v ← prm "pluginNameOrPath";
  match v with
  | Str given =>
      if validString v 10 then
        _ ← snackbar ("Adding plugin " ++ given ++ "...") 0 "info";
        let n := removeVersion given in
        result ← fetched "plugins_add" "plugins" [("nameOrPath", Str n)];
        plugin ← liftRes (getProp result "plugin");
        if truthy plugin then
          _ ← closeSnackbar ("Adding plugin " ++ n ++ "...");
          _ ← snackbar ("Added plugin " ++ n) 5 "success";
          name ← liftRes (getProp plugin "name");
          _ ← fetched "plugins_load" "plugins" [("plugin", name)];
          _ ← restartNeeded;
          _ ← refresh "plugins";
          _ ← refresh "devices";
          _ ← snackbar ("Loaded plugin " ++ n) 5 "success";
          succeed
        else
          _ ← closeSnackbar ("Adding plugin " ++ n ++ "...");
          _ ← snackbar ("Plugin " ++ n ++ " not added") 10 "error";
          refuse ("Plugin " ++ n ++ " not added")
      else
        _ ← refuse "Wrong parameter pluginNameOrPath in /api/addplugin"; snackbar ("Plugin " ++ given ++ " not added") 10 "error"
  | _ => _ ← refuse "Wrong parameter pluginNameOrPath in /api/addplugin"; snackbar ("Plugin " ++ toText v ++ " not added") 10 "error"
  end.

(** The name of a registered plugin, or the refusal. *)
Definition withPluginName (m : string -> async World unit) : async World unit :=
  v ← prm "pluginName";
  w ← ask;
  let wrong := refuse ("Wrong parameter pluginName in " ++ toText (getField "method" data)) in
  match v with
  | Str n => if validString v 10 && PluginManager.has (thePlugins w) v then m n else wrong
  | _ => wrong
  end.

(** The devices of a plugin in mode server, each of them by a request. *)
Fixpoint eachDevice (type : string) (l : list value) : async World unit :=
  match l with
  | [] => mret tt
  | d :: l =>
      u ← liftRes (getProp d "uniqueId");
      _ ← perhaps (truthy u) (_ ← fetched type "matterbridge" [("deviceUniqueId", u)]; mret tt);
      eachDevice type l
  end.

Definition isServer (v : value) : res bool := m ← getProp v "mode"; Ok (isStr m "server").

Definition eachServerDevice (type pluginName : string) : async World unit :=
  result ← fetched "devices_basearray" "devices" [("pluginName", Str pluginName)];
  devices ← liftRes (v ← getProp result "devices"; l ← asArray v; PluginManager.filterE isServer l);
  eachDevice type devices.

Definition shutdownParams (n reason : string) : object :=
  [("plugin", Str n); ("reason", Str reason); ("removeAllDevices", Bool true); ("force", Bool true)].

Definition refreshBoth : async World unit := _ ← refresh "plugins"; refresh "devices".

Definition apiRemoveplugin : async World unit :=
  withPluginName (fun n =>
    _ ← snackbar ("Removing plugin " ++ n ++ "...") 0 "info";
    _ ← eachServerDevice "matterbridge_stop_device_server" n;
    _ ← fetched "plugins_shutdown" "plugins" (shutdownParams n "The plugin has been removed.");
    _ ← fetched "matterbridge_stop_plugin_server" "matterbridge" [("pluginName", Str n)];
    _ ← fetched "plugins_remove" "plugins" [("nameOrPath", Str n)];
    _ ← closeSnackbar ("Removing plugin " ++ n ++ "...");
    _ ← snackbar ("Removed plugin " ++ n) 5 "success";
    _ ← refreshBoth;
    succeed).

Definition apiEnableplugin : async World unit :=
  withPluginName (fun n =>
    _ ← fetched "plugins_enable" "plugins" [("nameOrPath", Str n)];
    _ ← snackbar ("Enabled plugin " ++ n) 5 "success";
    _ ← fetched "plugins_load" "plugins" [("plugin", Str n)];
    _ ← fetched "plugins_start" "plugins" [("plugin", Str n)];
    _ ← fetched "plugins_configure" "plugins" [("plugin", Str n)];
    _ ← fetched "matterbridge_start_plugin_server" "matterbridge" [("pluginName", Str n)];
    _ ← eachServerDevice "matterbridge_start_device_server" n;
    _ ← snackbar ("Started plugin " ++ n) 5 "success";
    _ ← refreshBoth;
    succeed).

Definition apiDisableplugin : async World unit :=
  withPluginName (fun n =>
    _ ← eachServerDevice "matterbridge_stop_device_server" n;
    _ ← fetched "plugins_shutdown" "plugins" (shutdownParams n "The plugin has been disabled.");
    _ ← fetched "matterbridge_stop_plugin_server" "matterbridge" [("pluginName", Str n)];
    _ ← fetched "plugins_disable" "plugins" [("nameOrPath", Str n)];
    _ ← snackbar ("Disabled plugin " ++ n) 5 "success";
    _ ← refreshBoth;
    succeed).

(** [for (const device of devices)] with what is done for each. *)
Fixpoint forEach {A} (l : list A) (f : A -> async World unit) : async World unit :=
  match l with [] => mret tt | x :: l => _ ← f x; forEach l f end.

Definition plugged : PluginManager.Env := Matterbridge.plugged (application env).
Definition bridged : Bridge.Env := Matterbridge.bridged (application env).
Definition onPlugins {A} (m : async PluginManager.World A) : async World A := onApp (Matterbridge.onPlugins m).
Definition onBridge {A} (m : async Bridge.World A) : async World A := onApp (Matterbridge.onBridge m).
Definition devicesOf (w : World) (p : ref) : list ref :=
  List.filter (fun d => bool_decide (dget w d "plugin" = pget w p "name")) (Matterbridge.devices (app w)).

Definition stopDevice (d : ref) : async World unit :=
  w ← ask;
  _ ← match Bridge.ownNode (Bridge.device (theBridge w) d) with
      | Some n => onApp (await (Matterbridge.stopServerNode (application env) n))
      | None => mret tt
      end;
  _ ← onBridge (modify (Bridge.setOwnNode d None));
  onBridge (Bridge.devicesRemove bridged d).

Definition startNode (n : option ref) : async World unit := onApp (Matterbridge.startNodeOf (application env) n).

(** A plugin is shut down with its server nodes and devices, loaded and started again. *)
Definition restartPlugin (p : ref) : async World unit :=
  _ ← onPlugins (await (PluginManager.shutdown plugged (PluginManager.ByRef p) (Str "The plugin is restarting.") false true));
  w ← ask;
  _ ← match Bridge.pluginNode (theBridge w) p with
      | Some n => _ ← onApp (await (Matterbridge.stopServerNode (application env) n)); onBridge (modify (Bridge.setPluginNode p None))
      | None => mret tt
      end;
  w ← ask;
  _ ← forEach (devicesOf w p) stopDevice;
  w ← ask;
  _ ← perhaps (isStr (pget w p "type") "DynamicPlatform" && negb (truthy (pget w p "locked")))
        (onBridge (await (Bridge.createDynamicPlugin bridged p)));
  _ ← onPlugins (await (PluginManager.load plugged (PluginManager.ByRef p) true (Str "The plugin has been restarted") true));
  _ ← onPlugins (modify (PluginManager.pset p [("restartRequired", Bool false)]));
  w ← ask;
  _ ← perhaps (negb (existsb (fun q => truthy (pget w q "restartRequired")) (Matterbridge.plugins (app w))))
        (modify (wssSendRestartNotRequired true));
  w ← ask;
  _ ← startNode (Bridge.pluginNode (theBridge w) p);
  w ← ask;
  forEach (List.filter (fun d => match Bridge.ownNode (Bridge.device (theBridge w) d) with Some _ => true | None => false end) (devicesOf w p))
    (fun d => w ← ask; startNode (Bridge.ownNode (Bridge.device (theBridge w) d))).

Definition apiRestartplugin : async World unit :=
  withPluginName (fun n =>
    _ ← snackbar ("Restarting plugin " ++ n) 5 "info";
    w ← ask;
    match PluginManager.get (thePlugins w) (Str n) with
    | None => Raise TypeError
    | Some p =>
        _ ← restartPlugin p;
        _ ← snackbar ("Restarted plugin " ++ n) 5 "success";
        _ ← refreshBoth;
        succeed
    end).

(** The configuration is saved by a task of its own. *)
Definition saveConfig (p : ref) (formData : object) : async World unit :=
  onPlugins (r ← PluginManager.newConfig formData; PluginManager.saveConfigFromJson plugged p r true).

Definition apiSavepluginconfig : async World unit :=
  withPluginName (fun n =>
    f ← prm "formData";
    w ← ask;
    let wrong := refuse "Wrong parameter formData in /api/savepluginconfig" in
    match f with
    | Obj formData =>
        if isValidObject f (Some 5) None then
          match PluginManager.get (thePlugins w) (Str n) with
          | Some p =>
              _ ← modify (addSaving p formData);
              _ ← snackbar ("Saved config for plugin " ++ n) 5 "info";
              _ ← restartNeeded;
              succeed
          | None => mret tt
          end
        else wrong
    | _ => wrong
    end).

Definition apiCheckupdates : async World unit :=
  _ ← request "manager_run" "matterbridge" "manager" [("name", Str "CheckUpdates")];
  _ ← request "manager_run" "matterbridge" "manager" [("name", Str "DockerVersion")];
  succeed.

(** ** The process *)

Definition apiRestart : async World unit :=
  _ ← snackbar "Restarting matterbridge..." 0 "info"; _ ← calling (await (Matterbridge.restartProcess (application env))); succeed.
Definition apiShutdown : async World unit :=
  _ ← snackbar "Shutting down matterbridge..." 0 "info"; _ ← calling (await (Matterbridge.shutdownProcess (application env))); succeed.
Definition apiUnregister : async World unit :=
  _ ← snackbar "Unregistering all bridged devices..." 0 "info";
  _ ← calling (await (Matterbridge.unregisterAndShutdownProcess (application env) 1000));
  _ ← closeSnackbar "Unregistering all bridged devices...";
  succeed.
Definition apiReset : async World unit :=
  _ ← snackbar "Resetting matterbridge commissioning..." 10 "info";
  _ ← calling (await (Matterbridge.shutdownProcessAndReset (application env)));
  succeed.
Definition apiFactoryreset : async World unit :=
  _ ← snackbar "Factory reset of matterbridge..." 10 "info";
  _ ← calling (await (Matterbridge.shutdownProcessAndFactoryReset (application env)));
  succeed.

(** ** Archives *)

Definition appDirectory (w : World) (k : string) : value := Matterbridge.property (application env) (app w) k.

Definition backup (text file : string) (paths : list value) : async World unit :=
  _ ← snackbar text 0 "info"; _ ← zip "zip" (pathJoin [tmpdir env; file]) paths ""; succeed.

Definition apiCreateBackup : async World unit :=
  w ← ask;
  backup "Creating matterbridge backup..." "matterbridge.backup.zip"
    [Str (matterbridgeDirectory env); appDirectory w "matterbridgePluginDirectory"; appDirectory w "matterbridgeCertDirectory"].
Definition apiCreateMatterbridgeStorageBackup : async World unit :=
  backup "Creating matterbridge storage backup..." ("matterbridge." ++ Matterbridge.NODE_STORAGE_DIR ++ ".zip")
    [Str (pathJoin [matterbridgeDirectory env; Matterbridge.NODE_STORAGE_DIR])].
Definition apiCreateMatterStorageBackup : async World unit :=
  backup "Creating matter storage backup..." ("matterbridge." ++ Matterbridge.MATTER_STORAGE_DIR ++ ".zip")
    [Str (pathJoin [matterbridgeDirectory env; Matterbridge.MATTER_STORAGE_DIR])].
Definition apiCreatePluginBackup : async World unit :=
  w ← ask; backup "Creating plugin backup..." "matterbridge.pluginstorage.zip" [appDirectory w "matterbridgePluginDirectory"].

Definition configPath (p : value) : value := Str (pathJoin [matterbridgeDirectory env; toText (optProp p "name") ++ ".config.json"]).
Definition apiCreateConfigBackup : async World unit :=
  _ ← snackbar "Creating config backup..." 0 "info";
  result ← fetched "plugins_storagepluginarray" "plugins" [];
  v ← liftRes (getProp result "plugins");
  l ← liftRes (asArray (orElse v (Arr [])));
  _ ← zip "zip" (pathJoin [tmpdir env; "matterbridge.pluginconfig.zip"]) (map configPath l) "";
  succeed.

Definition apiHistorypage : async World unit :=
  _ ← generateHistoryPage env (pathJoin [matterbridgeDirectory env; MATTERBRIDGE_HISTORY_FILE]); succeed.

(** ** Server nodes *)

Definition findNode (w : World) (id : string) : option ref :=
  let named n := isStr (nodeId w n) id in
  let among (nodes : list (option ref)) := List.find named (omap (fun n => n) nodes) in
  if bool_decide (id = "Matterbridge") then Bridge.serverNode (Bridge.matter (theBridge w))
  else
    match among (map (Bridge.pluginNode (theBridge w)) (Matterbridge.plugins (app w))) with
    | Some n => Some n
    | None => among (map (fun d => Bridge.ownNode (Bridge.device (theBridge w) d)) (Matterbridge.devices (app w)))
    end.

Definition refreshMatter (matter : object) : async World unit := modify (wssSendRefreshRequired (Str "matter") [("matter", Obj matter)]).

(** A flag of the request, and what is done if it is set. *)
Definition flagged (k : string) (m : async World unit) : async World unit := v ← prm k; perhaps (truthy v) m.

Definition apiMatter : async World unit :=
  v ← prm "id";
  match v with
  | Str id =>
      w ← ask;
      match findNode w id with
      | None => refuse ("Unknown server node id " ++ id ++ " in /api/matter")
      | Some n =>
          let matter := getServerNodeData env w n in
          _ ← flagged "server" (refreshMatter matter);
          _ ← flagged "startCommission"
                (_ ← await (nodeCall env n "allowBasicCommissioning" []);
                 _ ← modify (fun w => setAdvertising (mset (nodeId w n) (now env) (advertisingNodes w)) w);
                 refreshMatter (setField "advertising" (Bool true) (setField "advertiseTime" (Num (now env)) matter)));
          _ ← flagged "stopCommission"
                (_ ← await (nodeCall env n "endCommissioning" []);
                 _ ← modify (fun w => setAdvertising (mdelete (nodeId w n) (advertisingNodes w)) w);
                 refreshMatter (setField "advertising" (Bool false) (setField "advertiseTime" (Num 0) matter)));
          _ ← flagged "advertise"
                (_ ← nodeCall env n "restartAdvertisement" []; refreshMatter (setField "advertising" (Bool true) matter));
          _ ← flagged "removeFabric"
                (i ← prm "removeFabric";
                 b ← liftRes (hasFabric env n i);
                 _ ← perhaps b (await (nodeCall env n "leave" [i]));
                 refreshMatter matter);
          succeedWith (Obj matter)
      end
  | _ => refuse "Wrong parameter id in /api/matter"
  end.

(** ** Settings, plugins and devices *)

Definition apiSettings : async World unit := w ← ask; succeedWith (getApiSettings env w).
Definition apiPlugins : async World unit := w ← ask; succeedWith (getApiPlugins env w).
Definition apiDevices : async World unit :=
  v ← prm "pluginName";
  w ← ask;
  succeedWith (getApiDevices env (match v with Str n => Some n | _ => None end) w).

Definition apiClusters : async World unit :=
  p ← prm "plugin";
  e ← prm "endpoint";
  if negb (validString p 10) then refuse "Wrong parameter plugin in /api/clusters"
  else if negb (isValidNumber e (Some 1) None) then refuse "Wrong parameter endpoint in /api/clusters"
  else
    s ← prm "serialNumber";
    u ← prm "uniqueId";
    w ← ask;
    match getClusters env p e s u w with
    | Some r => succeedWith r
    | None => refuse "Endpoint not found in /api/clusters"
    end.

(** A plugin by the parameter plugin, or the refusal. *)
Definition withPlugin (min : Z) (m : ref -> async World unit) : async World unit :=
  p ← prm "plugin";
  w ← ask;
  let method := toText (getField "method" data) in
  if negb (validString p min) then refuse ("Wrong parameter plugin in " ++ method)
  else match PluginManager.get (thePlugins w) p with Some r => m r | None => refuse ("Plugin not found in " ++ method) end.

Definition platform (w : World) (p : ref) : option ref := PluginManager.platform (PluginManager.plugin (thePlugins w) p).

Definition apiSelect (kind : string) : async World unit :=
  withPlugin 10 (fun p =>
    w ← ask;
    succeedWith (Arr (match platform w p with Some q => sortByName env (selects env w q kind) | None => [] end))).

Definition apiAction : async World unit :=
  p ← prm "plugin";
  a ← prm "action";
  w ← ask;
  if negb (validString p 5) || negb (validString a 1) then refuse "Wrong parameter in /api/action"
  else
    match PluginManager.get (thePlugins w) p with
    | None => refuse "Plugin not found in /api/action"
    | Some r =>
        v ← prm "value";
        i ← prm "id";
        f ← prm "formData";
        match platform w r with
        | None => mret tt
        | Some q =>
            catch (_ ← await (onAction env q [a; v; i; f]); succeed)
              (fun e => refuse ("Error in plugin " ++ toText (pget w r "name") ++ " action " ++ toText a ++ ": " ++ errorText env e))
        end
    end.

(** ** Configuration *)

(** [await this.matterbridge.nodeContext?.remove(k)]. *)
Definition removeStored (k : string) (w : Matterbridge.World) : Matterbridge.World :=
  Matterbridge.mkWorld (Matterbridge.bridge w) (Matterbridge.properties w)
    (List.filter (fun kv => negb (bool_decide (fst kv = k))) (Matterbridge.stored w)) (Matterbridge.failCount w) (Matterbridge.trace w)
    (Matterbridge.tasks w).
Definition contextRemove (k : string) : async World unit :=
  onApp (await (modify (fun w => if truthy (Matterbridge.this w "nodeContext") then removeStored k w else w))).

(** The levels by the names of the web application. *)
Definition LogLevel (v : value) : option value :=
  chosen (toText v) (map (fun '(n, l) => (n, Some l)) [("Debug", DEBUG); ("Info", INFO); ("Notice", NOTICE); ("Warn", Str "warn"); ("Error", Str "error"); ("Fatal", Str "fatal")]) None.
Definition matterLogLevel (v : value) : option value :=
  chosen (toText v) (map (fun '(n, l) => (n, Some (MatterLogLevel l)))
    [("Debug", "DEBUG"); ("Info", "INFO"); ("Notice", "NOTICE"); ("Warn", "WARN"); ("Error", "ERROR"); ("Fatal", "FATAL")]) None.

(** The platforms learn the level; a platform whose configuration says debug keeps that
    level. The answer tells whether there is one. *)
Fixpoint levelEach (l : value) (ps : list ref) : async World bool :=
  match ps with
  | [] => mret false
  | p :: ps =>
      w ← ask;
      let pw := thePlugins w in
      match platform w p with
      | None => levelEach l ps
      | Some q =>
          match PluginManager.config (PluginManager.platformOf pw q) with
          | None => levelEach l ps
          | Some c =>
              if truthy (getField "log" (PluginManager.pfields (PluginManager.platformOf pw q))) then
                let debug := truthy (getField "debug" (PluginManager.configOf pw c)) in
                let level := if debug then DEBUG else l in
                _ ← onPlugins (modify (PluginManager.platformSet q [("log.logLevel", level)]));
                _ ← await (onChangeLoggerLevel env q level);
                b ← levelEach l ps;
                mret (debug || b)
              else levelEach l ps
          end
      end
  end.

Definition setLogLevel (l : value) : async World unit :=
  _ ← modify (setAppThis [("logLevel", l); ("log.logLevel", l)]);
  _ ← modify (fun w => setLevels (mkLevels l (matterLevel (levels w)) (callbackLevel (levels w))) w);
  _ ← onPlugins (modify (PluginManager.setLogLevel l));
  w ← ask;
  debug ← levelEach l (Matterbridge.plugins (app w));
  modify (fun w => setCallbackLevel (commonLevel l debug w) w).

Definition setBridgeNumbers (f : value * value * value -> value * value * value) (w : World) : World :=
  let b := theBridge w in
  let m := Bridge.matter b in
  let '(p, c, d) := f (Bridge.port m, Bridge.passcode m, Bridge.discriminator m) in
  setApp (Matterbridge.setBridge (Bridge.setMatter (Bridge.setNumbers p c d m) b) (app w)) w.

(** A number of the settings: [None] is NaN, and a value that is no string counts as 0. *)
Definition settingNumber (v : value) : option Z := match v with Str s => intOf s | _ => Some 0 end.

(** A setting that is a text; the empty text stands for undefined. *)
Definition setText (property key text all : string) (v : value) : async World unit :=
  match v with
  | Str s =>
      _ ← modify (setAppThis [(property, if bool_decide (s = "") then Undefined else v)]);
      _ ← contextSet key v;
      _ ← restartNeeded;
      _ ← succeed;
      snackbar (text ++ " changed to " ++ (if bool_decide (s = "") then all else s)) 5 "info"
  | _ => mret tt
  end.

(** A number that is in range is set and stored; otherwise it is reset. *)
Definition setNumber (set : value -> World -> World) (property key text : string) (v : value) (valid : Z -> bool) (reset : value)
    (resetStored : async World unit) (refusal resetText : string) : async World unit :=
  match settingNumber v with
  | Some n =>
      if valid n then
        _ ← modify (fun w => set (Num n) (setAppThis [(property, Num n)] w));
        _ ← contextSet key (Num n);
        _ ← restartNeeded;
        _ ← succeed;
        snackbar (text ++ " changed to " ++ toText (Num n)) 5 "info"
      else
        _ ← modify (fun w => set reset (setAppThis [(property, reset)] w));
        _ ← resetStored;
        _ ← restartNeeded;
        _ ← refuse refusal;
        snackbar (text ++ resetText) 5 "error"
  | None =>
      _ ← modify (fun w => set reset (setAppThis [(property, reset)] w));
      _ ← resetStored;
      _ ← restartNeeded;
      _ ← refuse refusal;
      snackbar (text ++ resetText) 5 "error"
  end.

Definition within (lo hi n : Z) : bool := isValidNumber (Num n) (Some lo) (Some hi).

Definition setmatterport (v : value) : async World unit :=
  setNumber (fun n => setBridgeNumbers (fun '(p, c, d) => (n, c, d))) "initialPort" "matterport" "Matter port" v (within 5540 5600)
    (Num 5540) (contextSet "matterport" (Num 5540)) "Invalid value: reset matter commissioning port to default 5540" " reset to default 5540".
Definition setmatterdiscriminator (v : value) : async World unit :=
  setNumber (fun n => setBridgeNumbers (fun '(p, c, d) => (p, c, n))) "initialDiscriminator" "matterdiscriminator" "Matter discriminator" v
    (within 0 4095) Undefined (contextRemove "matterdiscriminator")
    "Invalid value: reset matter commissioning discriminator to default undefined" " reset to default".
Definition setmatterpasscode (v : value) : async World unit :=
  setNumber (fun n => setBridgeNumbers (fun '(p, c, d) => (p, n, d))) "initialPasscode" "matterpasscode" "Matter passcode" v
    (fun n => within 1 99999998 n && negb (bool_decide (n ∈ FORBIDDEN_PASSCODES env))) Undefined (contextRemove "matterpasscode")
    "Invalid value: reset matter commissioning passcode to default undefined" " reset to default".

Definition virtualModes : list string := ["disabled"; "light"; "outlet"; "switch"; "mounted_switch"].

Definition settings (v : value) : list (string * async World unit) :=
  [("setpassword",
      perhaps (isString v) (_ ← contextSet "password" v; _ ← modify (setPassword v); succeed));
   ("setbridgemode",
      perhaps (isStr v "bridge" || isStr v "childbridge") (_ ← contextSet "bridgeMode" v; _ ← restartNeeded; succeed));
   ("setmbloglevel",
      perhaps (validString v 4)
        (_ ← match LogLevel v with Some l => await (setLogLevel l) | None => mret tt end;
         w ← ask;
         _ ← contextSet "matterbridgeLogLevel" (logLevel (levels w));
         succeed));
   ("setmblogfile",
      perhaps (isValidBoolean v)
        (_ ← modify (setAppThis [("fileLogger", v)]);
         _ ← contextSet "matterbridgeFileLog" v;
         _ ← perhaps (truthy v) pause;
         _ ← modify (setAppThis [("globalLogfile",
               if truthy v then Str (pathJoin [matterbridgeDirectory env; MATTERBRIDGE_LOGGER_FILE]) else Undefined)]);
         succeed));
   ("setmjloglevel",
      perhaps (validString v 4)
        (_ ← match matterLogLevel v with
             | Some l => modify (fun w => setLevels (mkLevels (logLevel (levels w)) l (callbackLevel (levels w))) w)
             | None => mret tt
             end;
         _ ← modify (fun w => setAppThis [("matterLogLevel", levelName env (matterLevel (levels w)))] w);
         _ ← modify (fun w => setCallbackLevel (commonLevel (appLevel w) false w) w);
         w ← ask;
         _ ← contextSet "matterLogLevel" (matterLevel (levels w));
         succeed));
   ("setmjlogfile",
      perhaps (isValidBoolean v)
        (_ ← modify (setAppThis [("matterFileLogger", v)]);
         _ ← contextSet "matterFileLog" v;
         _ ← modify (setAppThis [("matterLog.logFilePath",
               if truthy v then Str (pathJoin [matterbridgeDirectory env; MATTER_LOGGER_FILE]) else Undefined)]);
         succeed));
   ("setmdnsinterface", setText "mdnsInterface" "mattermdnsinterface" "Mdns interface" "all interfaces" v);
   ("setipv4address", setText "ipv4Address" "matteripv4address" "IPv4 address" "all ipv4 addresses" v);
   ("setipv6address", setText "ipv6Address" "matteripv6address" "IPv6 address" "all ipv6 addresses" v);
   ("setmatterport", setmatterport v);
   ("setmatterdiscriminator", setmatterdiscriminator v);
   ("setmatterpasscode", setmatterpasscode v);
   ("setvirtualmode",
      _ ← perhaps (match v with Str s => bool_decide (s ∈ virtualModes) | _ => false end)
            (_ ← modify (setAppThis [("virtualMode", v)]); _ ← contextSet "virtualmode" v; restartNeeded);
      succeed)].

Definition setting (name : string) (v : value) : async World unit :=
  chosen name (settings v) (refuse ("Unknown parameter " ++ name ++ " in /api/config")).

Definition apiConfig : async World unit :=
  n ← prm "name";
  v ← prm "value";
  match n with
  | Str name => if validString n 5 && negb (isUndefined v) then setting name v else refuse "Wrong parameter in /api/config"
  | _ => refuse "Wrong parameter in /api/config"
  end.

(** ** White and black lists *)

(** [schemaJson?.properties?.blackList?.selectFrom]. *)
Definition selectFrom (w : World) (p : ref) : value :=
  optProp (optProp (optProp (pget w p "schemaJson") "properties") "blackList") "selectFrom".

(** An array of at least [min] entries: [x] is added to it, or taken out of it. *)
Definition pushed (min : nat) (x : value) (v : value) : value :=
  match v with Arr l => if (min <=? length l)%nat && negb (Platform.includesValue l x) then Arr (l ++ [x]) else v | _ => v end.
Definition filteredOut (x : value) (v : value) : value :=
  match v with
  | Arr ((_ :: _) as l) => if Platform.includesValue l x then Arr (List.filter (fun y => negb (bool_decide (y = x))) l) else v
  | _ => v
  end.

(** The property is assigned only where there is an array. *)
Definition update (k : string) (f : value -> value) (config : object) : object :=
  match getField k config with Arr _ => setField k (f (getField k config)) config | _ => config end.

Definition selectDevice (x : value) (config : object) : object := update "blackList" (filteredOut x) (update "whiteList" (pushed 1 x) config).
Definition unselectDevice (x : value) (config : object) : object := update "blackList" (pushed 0 x) (update "whiteList" (filteredOut x) config).

(** The serial number without the postfix of the configuration. *)
Definition bareSerial (config : object) (serial : string) : string :=
  if truthy (getField "postfix" config) then strReplace serial ("-" ++ toText (getField "postfix" config)) "" else serial.

(** The entry of the lists, by the serial number or the name. *)
Definition selected (config : object) (select : value) (serial name : string) : value :=
  if isStr select "serial" then Str (bareSerial config serial) else Str name.

Definition changeLists (change : value -> object -> object) (p : ref) (serial name : string) : async World unit :=
  w ← ask;
  let select := selectFrom w p in
  match PluginManager.configJson (PluginManager.plugin (thePlugins w) p) with
  | None => refuse ("SelectDevice: select " ++ toText select ++ " not supported")
  | Some r =>
      let config := PluginManager.configOf (thePlugins w) r in
      if isStr select "serial" || isStr select "name" then
        _ ← onPlugins (modify (PluginManager.setConfig r (change (selected config select serial name) config)));
        _ ← match platform w p with Some q => onPlugins (modify (PluginManager.setPlatformConfig q r)) | None => mret tt end;
        _ ← onPlugins (await (PluginManager.saveConfigFromPlugin plugged p true));
        _ ← modify (wssSendRestartRequired false false);
        _ ← modify (fun w => wssSendRefreshRequired (Str "plugins") [("lock", pget w p "name")] w);
        succeed
      else refuse ("SelectDevice: select " ++ toText select ++ " not supported")
  end.

Definition apiCommand : async World unit :=
  command ← prm "command";
  plugin ← prm "plugin";
  serial ← prm "serial";
  name ← prm "name";
  if negb (validString command 5) then refuse "Wrong parameter command in /api/command"
  else
    match serial, name with
    | Str s, Str n =>
        if (isStr command "selectdevice" || isStr command "unselectdevice") && validString plugin 10 && validString serial 1 && validString name 1 then
          w ← ask;
          match PluginManager.get (thePlugins w) plugin with
          | None => refuse "Plugin not found in /api/command"
          | Some p => changeLists (if isStr command "selectdevice" then selectDevice else unselectDevice) p s n
          end
        else mret tt
    | _, _ => mret tt
    end.

(** ** The dispatch *)

Definition methods : list (string * async World unit) :=
  [("ping", modify (sendResponse c [("id", getField "id" data); ("method", Str "pong"); ("src", Str "Matterbridge"); ("dst", getField "src" data);
                                    ("success", Bool true); ("response", Str "pong")]));
   ("/api/login", apiLogin); ("/api/install", apiInstall); ("/api/uninstall", apiUninstall); ("/api/addplugin", apiAddplugin);
   ("/api/removeplugin", apiRemoveplugin); ("/api/enableplugin", apiEnableplugin); ("/api/disableplugin", apiDisableplugin);
   ("/api/restartplugin", apiRestartplugin); ("/api/savepluginconfig", apiSavepluginconfig); ("/api/checkupdates", apiCheckupdates);
   ("/api/shellysysupdate", mret tt); ("/api/shellymainupdate", mret tt); ("/api/shellycreatesystemlog", mret tt);
   ("/api/shellynetconfig", mret tt); ("/api/softreset", mret tt); ("/api/hardreset", mret tt); ("/api/reboot", mret tt);
   ("/api/restart", apiRestart); ("/api/shutdown", apiShutdown); ("/api/create-backup", apiCreateBackup);
   ("/api/create-matterbridge-storage-backup", apiCreateMatterbridgeStorageBackup);
   ("/api/create-matter-storage-backup", apiCreateMatterStorageBackup); ("/api/create-plugin-backup", apiCreatePluginBackup);
   ("/api/create-config-backup", apiCreateConfigBackup); ("/api/unregister", apiUnregister); ("/api/reset", apiReset);
   ("/api/factoryreset", apiFactoryreset); ("/api/viewhistorypage", apiHistorypage); ("/api/downloadhistorypage", apiHistorypage); ("/api/matter", apiMatter);
   ("/api/settings", apiSettings); ("/api/plugins", apiPlugins); ("/api/devices", apiDevices); ("/api/clusters", apiClusters);
   ("/api/select/devices", apiSelect "devices"); ("/api/select/entities", apiSelect "entities"); ("/api/action", apiAction);
   ("/api/config", apiConfig); ("/api/command", apiCommand)].

Definition validMessage : bool :=
  isNumber (getField "id" data) && isString (getField "dst" data) && isString (getField "src" data) && isString (getField "method" data) &&
  isStr (getField "dst" data) "Matterbridge".

Definition dispatch : async World unit :=
  if validMessage then chosen (toText (getField "method" data)) methods (refuse "Invalid method") else refuse "Invalid message".
End Request.

(** The message, if it is JSON: an exception is logged. Other values than objects have
    no properties. *)
Definition wsMessageHandler (c : nat) (message : option value) : async World unit :=
  catch
    match message with
    | Some (Obj data) => dispatch c data
    | Some Undefined | Some Null => Raise TypeError
    | Some _ => dispatch c []
    | None => Raise SyntaxError
    end
    (fun _ => mret tt).

(** ** Broadcast messages *)

Section Broadcast.
Context (msg : object).

Definition respond (result : object) : async World unit := modify (addPost (Obj (setField "result" (Obj result) msg))).
(** [msg.params.k]. *)
Definition msgParam (k : string) : async World value := liftRes (getProp (getField "params" msg) k).
(** [msg.params.k] for each of several properties. *)
Fixpoint msgParams (ks : list string) : async World (list value) :=
  match ks with [] => mret [] | k :: ks => v ← msgParam k; vs ← msgParams ks; mret (v :: vs) end.

(** What is sent, then the answer. *)
Definition done_ (ks : list string) (f : list value -> World -> World) : async World unit :=
  vs ← msgParams ks; _ ← modify (f vs); respond [("success", Bool true)].

Definition arg (vs : list value) (i : nat) : value := nth i vs Undefined.
Definition defaultBool (v : value) (b : bool) : bool := match v with Undefined => b | _ => truthy v end.

Definition refreshWith (vs : list value) : World -> World :=
  wssSendRefreshRequired (arg vs 0) (if truthy (arg vs 1) then [("matter", arg vs 1)] else []).
Definition snackbarWith (vs : list value) : World -> World :=
  wssSendSnackbarMessage (toText (arg vs 0)) (match arg vs 1 with Num n => n | _ => 5 end) (match arg vs 2 with Str s => s | _ => "info" end).
Definition attributeWith (vs : list value) : World -> World :=
  wssSendAttributeChangedMessage (arg vs 0) (arg vs 1) (arg vs 2) (arg vs 3) (arg vs 4) (arg vs 5) (arg vs 6) (arg vs 7).

Definition broadcastRequests : list (string * async World unit) :=
  [("get_log_level", w ← ask; respond [("logLevel", logLevel (levels w))]);
   ("set_log_level",
      l ← msgParam "logLevel";
      _ ← modify (fun w => setLevels (mkLevels l (matterLevel (levels w)) (callbackLevel (levels w))) w);
      respond [("logLevel", l)]);
   ("frontend_start", p ← msgParam "port"; _ ← await (start env p); respond [("success", Bool true)]);
   ("frontend_stop", _ ← await (stop true); respond [("success", Bool true)]);
   ("frontend_refreshrequired", done_ ["changed"; "matter"] refreshWith);
   ("frontend_restartrequired",
      done_ ["snackbar"; "fixed"] (fun vs => wssSendRestartRequired (defaultBool (arg vs 0) true) (defaultBool (arg vs 1) false)));
   ("frontend_restartnotrequired", done_ ["snackbar"] (fun vs => wssSendRestartNotRequired (defaultBool (arg vs 0) true)));
   ("frontend_updaterequired",
      done_ ["version"; "devVersion"] (fun vs => wssSendUpdateRequired (arg vs 0) (Bridge.defaulted (arg vs 1) (Bool false))));
   ("frontend_pluginupdaterequired",
      done_ ["plugin"; "version"; "devVersion"]
        (fun vs => wssSendPluginUpdateRequired (arg vs 0) (arg vs 1) (Bridge.defaulted (arg vs 2) (Bool false))));
   ("frontend_pluginstatusupdate", done_ ["plugin"; "status"] (fun vs => wssSendPluginStatusUpdate (arg vs 0) (arg vs 1)));
   ("frontend_matterbridgestatusupdate", done_ ["status"] (fun vs => wssSendMatterbridgeStatusUpdate (arg vs 0)));
   ("frontend_snackbarmessage", done_ ["message"; "timeout"; "severity"] snackbarWith);
   ("frontend_closesnackbarmessage", done_ ["message"] (fun vs => wssSendCloseSnackbarMessage (toText (arg vs 0))));
   ("frontend_attributechanged",
      done_ ["plugin"; "serialNumber"; "uniqueId"; "number"; "id"; "cluster"; "attribute"; "value"] attributeWith);
   ("frontend_logmessage",
      done_ ["level"; "time"; "name"; "message"]
        (fun vs => wssSendLogMessage (toText (arg vs 0)) (toText (arg vs 1)) (toText (arg vs 2)) (toText (arg vs 3))));
   ("frontend_broadcast_message",
      done_ ["msg"] (fun vs => match arg vs 0 with Obj m => wssBroadcastMessage m | _ => fun w => w end))].

(** The end of an installation or of a removal; the refresh comes two seconds later. *)
Definition spawned (doing did undone name : string) (success : bool) (w : World) : World :=
  let w := wssSendCloseSnackbarMessage (doing ++ " package " ++ name ++ "...") w in
  if success then
    let w := setFlags (mkFlags true true (updateRequired (flags w))) w in
    wssSendSnackbarMessage (did ++ " package " ++ name) 5 "success" (wssSendRestartRequired true true w)
  else wssSendSnackbarMessage ("Package " ++ name ++ " not " ++ undone) 10 "error" w.

Definition handleSpawnResponse (result : value) (w : World) : World :=
  let name := toText (optProp result "packageName") in
  let success := truthy (optProp result "success") in
  if isStr (optProp result "packageCommand") "install" then spawned "Installing" "Installed" "installed" name success w
  else if isStr (optProp result "packageCommand") "uninstall" then spawned "Uninstalling" "Uninstalled" "uninstalled" name success w
  else w.

Definition handleArchiveResponse (result : value) (w : World) : World :=
  let g k := optProp result k in
  if truthy (g "success") && isString (g "command") && isString (g "archivePath") &&
     (match g "sourcePaths" with Arr _ => true | _ => false end) && isString (g "destinationPath")
  then broadcast "archive" (map (fun k => (k, g k)) ["command"; "archivePath"; "sourcePaths"; "destinationPath"]) w
  else w.

Definition broadcastMsgHandler : async World unit :=
  let m := Obj msg in
  let type := getField "type" msg in
  _ ← perhaps (isWorkerRequest m) (chosen (toText type) broadcastRequests (mret tt));
  perhaps (isWorkerResponse m && (isStr (getField "dst" msg) "all" || isStr (getField "dst" msg) "frontend"))
    (modify (fun w => if isStr type "manager_spawn_response" then handleSpawnResponse (getField "result" msg) w
                      else if isStr type "manager_archive_response" then handleArchiveResponse (getField "result" msg) w else w)).
End Broadcast.
End Requests.
End FrontendApi.
