(* ===== verification/FrontendFacts.v ===== *)
(** The frontend: requests that are answered once, settings that stay in their ranges,
    devices that are selected, clients that have logged in, and what is sent to them. *)
From S2P Require Import Prelude JsString JsNumber JsValue JsMap NodePath Async Ownership Wait Validate Broadcast DeviceManager PluginManager.
From S2P Require Import PluginFacts CommandLine Bridge BridgeFacts Matterbridge MatterbridgeFacts CleanupFacts Platform PlatformFacts Behaviors.
From S2P Require Import ClusterServers ClusterServerFacts Frontend FrontendApi.
From stdpp Require Import gmap relations.
#[local] Open Scope string_scope.
#[local] Open Scope Z_scope.
Import Frontend FrontendApi.

(** ** Responses *)

Definition onlyResponse (m : Sent) : option value := match m with Response v => Some v | Broadcasted _ => None end.

(** The responses that each client was sent. *)
Definition replies (w : World) : gmap nat (list value) := (fun s => omap onlyResponse (received s)) <$> sockets (net w).
Definition repliesOf (w : World) (c : nat) : list value := default [] (replies w !! c).

Lemma replies_setSockets g w :
  (forall c s, omap onlyResponse (received (g c s)) = omap onlyResponse (received s)) ->
  replies (setSockets (map_imap (fun c s => Some (g c s)) (sockets (net w))) w) = replies w.
Proof.
  intros H. apply map_eq. intros c. unfold replies. cbn. rewrite !lookup_fmap, map_lookup_imap.
  destruct (sockets (net w) !! c) as [s|]; [|done]. cbn. by rewrite H.
Qed.

Lemma replies_broadcast msg w : replies (wssBroadcastMessage msg w) = replies w.
Proof.
  unfold wssBroadcastMessage. destruct (silent w); [done|]. apply (replies_setSockets (fun c s => _)). intros c s.
  destruct (_ && _); [|done]. cbn. by rewrite omap_app, app_nil_r.
Qed.

(** Messages to all are no responses, and neither is anything that is no message. *)
Ltac no_reply :=
  intros; repeat match goal with
  | |- context [if ?b then _ else _] => destruct b
  | |- replies (wssBroadcastMessage _ _) = _ => rewrite replies_broadcast
  | |- replies (broadcast _ _ _) = _ => unfold broadcast
  end; try reflexivity.

Lemma replies_snackbar text t s w : replies (wssSendSnackbarMessage text t s w) = replies w.
Proof. unfold wssSendSnackbarMessage. no_reply. Qed.
Lemma replies_closeSnackbar text w : replies (wssSendCloseSnackbarMessage text w) = replies w.
Proof. unfold wssSendCloseSnackbarMessage. no_reply. Qed.
Lemma replies_refresh changed params w : replies (wssSendRefreshRequired changed params w) = replies w.
Proof. unfold wssSendRefreshRequired. no_reply. Qed.
Lemma replies_restart snackbar fixed w : replies (wssSendRestartRequired snackbar fixed w) = replies w.
Proof.
  unfold wssSendRestartRequired. destruct (silent w); [done|]. cbv zeta. unfold broadcast. rewrite replies_broadcast.
  destruct snackbar; [by rewrite replies_snackbar|done].
Qed.
Lemma replies_restartNot snackbar w : replies (wssSendRestartNotRequired snackbar w) = replies w.
Proof.
  unfold wssSendRestartNotRequired. destruct (silent w); [done|]. cbv zeta. rewrite replies_broadcast.
  destruct snackbar; [by rewrite replies_closeSnackbar|done].
Qed.

Lemma replies_stopped w : replies (stopped w) = replies w.
Proof.
  unfold stopped. transitivity (replies (setSockets (map_imap (fun c s => Some (if bool_decide (c ∈ default ∅ (clients (net w))) then mkSocket false (received s) else s)) (sockets (net w))) w)); [done|].
  apply (replies_setSockets (fun c s => _)). intros c s. by destruct (bool_decide _).
Qed.

Lemma replies_deliver a w : replies (deliver w a) = replies w.
Proof.
  assert (Hif : forall (b : bool) x y, replies x = replies w -> replies y = replies w -> replies (if b then x else y) = replies w) by by intros [].
  destruct a as [| |method args| | | | | | | | | | | |what]; cbn [deliver]; try exact eq_refl.
  - destruct args as [|[| | | |text| |] [|[| | |timeout| | |] [|[| | | |severity| |] [|]]]]; try exact eq_refl.
    + apply Hif; [apply replies_closeSnackbar|]. apply Hif; [apply replies_refresh|exact eq_refl].
    + apply Hif; [apply replies_snackbar|exact eq_refl].
  - apply Hif; [apply replies_stopped|]. apply Hif; exact eq_refl.
Qed.

Lemma replies_delivered l w : replies (foldl deliver w l) = replies w.
Proof. revert w. induction l as [|a l IH]; intros w; cbn; [done|]. by rewrite IH, replies_deliver. Qed.

(** Code of the application is far from the clients. *)
Lemma quiet_const {W S A} (s : S) (m : async W A) : quiet (fun _ => s) m.
Proof. induction m as [a|e|k IH|f m IH|m IH]; cbn; auto. Qed.

Lemma onApp_quiet {A} (m : async Matterbridge.World A) : quiet replies (onApp m).
Proof. apply (quiet_lift app setApp replies (fun _ => ∅)); [|apply quiet_const]. by intros v v' w _ _. Qed.

(** Surroundings that leave alone what [v] shows of the frontend. *)
Record Discreet {S} (v : World -> S) (env : Env) : Prop := {
  discreet_fetch : forall type dst params, quiet v (fetch env type dst params);
  discreet_readText : forall f, quiet v (readText env f);
  discreet_rename : forall f g, quiet v (rename env f g);
  discreet_nodeCall : forall n m l, quiet v (nodeCall env n m l);
  discreet_onAction : forall q l, quiet v (onAction env q l);
  discreet_onFetch : forall q l, quiet v (onFetch env q l);
  discreet_onChangeLoggerLevel : forall q l, quiet v (onChangeLoggerLevel env q l);
  discreet_generateDiagnostic : quiet v (generateDiagnostic env);
  discreet_generateHistoryPage : forall f, quiet v (generateHistoryPage env f)
}.

(** What is not answered leaves the responses alone. *)
Section Calm.
Context (env : Env) (He : Discreet replies env).

Lemma snackbar_calm text t s : quiet replies (snackbar text t s).
Proof. apply quiet_modify, replies_snackbar. Qed.
Lemma closeSnackbar_calm text : quiet replies (closeSnackbar text).
Proof. apply quiet_modify, replies_closeSnackbar. Qed.
Lemma refresh_calm changed : quiet replies (refresh changed).
Proof. apply quiet_modify, replies_refresh. Qed.
Lemma refreshBoth_calm : quiet replies refreshBoth.
Proof. apply quiet_bind; intros; apply refresh_calm. Qed.
Lemma refreshMatter_calm m : quiet replies (refreshMatter m).
Proof. apply quiet_modify. intros. apply replies_refresh. Qed.
Lemma restartNeeded_calm : quiet replies restartNeeded.
Proof. apply quiet_modify, replies_restart. Qed.
Lemma fetched_calm type dst params : quiet replies (fetched env type dst params).
Proof. apply quiet_await, He. Qed.
Lemma prm_calm data k : quiet replies (prm data k).
Proof. apply quiet_liftRes. Qed.
Lemma request_calm type src dst params : quiet replies (request type src dst params).
Proof. by apply quiet_modify. Qed.
Lemma calling_calm m : quiet replies (calling m).
Proof.
  unfold calling. quieting; [apply onApp_quiet|]. apply replies_delivered.
Qed.

Lemma forEach_calm {A} (l : list A) f : (forall x, quiet replies (f x)) -> quiet replies (forEach l f).
Proof. intros Hf. induction l as [|x l IH]; cbn [forEach]; [exact Logic.I|]. by apply quiet_bind; [|intros]. Qed.

Lemma plugins_calm {A} (m : async PluginManager.World A) : quiet replies (onPlugins m).
Proof. apply onApp_quiet. Qed.
Lemma bridge_calm {A} (m : async Bridge.World A) : quiet replies (onBridge m).
Proof. apply onApp_quiet. Qed.
End Calm.

Create HintDb calm.

(** Opens what leaves the responses alone. *)
Ltac calm :=
  lazymatch goal with
  | |- quiet _ (mbind _ _) => apply quiet_bind; [calm|intros ?; calm]
  | |- quiet _ (catch _ _) => apply quiet_catch; [calm|intros ?; calm]
  | |- quiet _ (await _) => apply quiet_await; calm
  | |- quiet _ (if ?b then _ else _) => destruct b; calm
  | |- quiet _ (match ?x with _ => _ end) => destruct x; calm
  | |- quiet _ (perhaps ?b _) => unfold perhaps; calm
  | |- quiet _ ask => intros ?; exact Logic.I
  | |- quiet _ (mret _) => exact Logic.I
  | |- quiet _ (Raise _) => exact Logic.I
  | |- quiet _ (liftRes _) => apply quiet_liftRes
  | |- quiet _ (prm _ _) => apply prm_calm
  | |- quiet _ (snackbar _ _ _) => apply snackbar_calm
  | |- quiet _ (closeSnackbar _) => apply closeSnackbar_calm
  | |- quiet _ (refresh _) => apply refresh_calm
  | |- quiet _ refreshBoth => apply refreshBoth_calm
  | |- quiet _ (refreshMatter _) => apply refreshMatter_calm
  | |- quiet _ restartNeeded => apply restartNeeded_calm
  | |- quiet _ (request _ _ _ _) => apply request_calm
  | |- quiet _ (calling _) => apply calling_calm
  | |- quiet _ (onPlugins _) => apply plugins_calm
  | |- quiet _ (onBridge _) => apply bridge_calm
  | |- quiet _ (onApp _) => apply onApp_quiet
  | |- quiet _ (contextSet _ _) => apply onApp_quiet
  | |- quiet _ (contextGet _ _) => apply onApp_quiet
  | |- quiet _ (contextRemove _) => apply onApp_quiet
  | |- quiet _ (spawn _ _ _) => apply request_calm
  | |- quiet _ (zip _ _ _ _) => apply request_calm
  | |- quiet _ pause => exact Logic.I
  | |- quiet _ (flagged _ _ _) => unfold flagged; calm
  | |- quiet _ (forEach _ _) => apply forEach_calm; intros ?; calm
  | |- quiet _ (fetched _ _ _ _) => by apply fetched_calm
  | |- quiet _ (nodeCall _ _ _ _) => by apply discreet_nodeCall
  | |- quiet _ (onAction _ _ _) => by apply discreet_onAction
  | |- quiet _ (onChangeLoggerLevel _ _ _) => by apply discreet_onChangeLoggerLevel
  | |- quiet _ (generateHistoryPage _ _) => by apply discreet_generateHistoryPage
  | |- quiet _ (modify _) => apply quiet_modify; intros ?;
      solve [exact eq_refl | apply replies_restart | apply replies_restartNot | apply replies_refresh]
  | |- _ => solve [auto with calm]
  end.

Section Loops.
Context (env : Env) (He : Discreet replies env).

Lemma eachDevice_calm type l : quiet replies (eachDevice env type l).
Proof. induction l as [|d l IH]; cbn [eachDevice]; [exact Logic.I|]. apply quiet_bind; [calm|]. intros u. by apply quiet_bind; [calm|]. Qed.

Lemma eachServerDevice_calm type n : quiet replies (eachServerDevice env type n).
Proof. unfold eachServerDevice. apply quiet_bind; [calm|]. intros r. apply quiet_bind; [calm|]. intros l. apply eachDevice_calm. Qed.

Lemma restartPlugin_calm p : quiet replies (restartPlugin env p).
Proof. unfold restartPlugin, stopDevice, startNode. calm. Qed.

Lemma levelEach_calm l ps : quiet replies (levelEach env l ps).
Proof.
  induction ps as [|p ps IH]; cbn [levelEach]; [exact Logic.I|]. apply quiet_bind; [calm|]. intros w.
  destruct (platform w p) as [q|]; [|done]. destruct (PluginManager.config _) as [c|]; [|done]. destruct (truthy _); [|done].
  apply quiet_bind; [calm|]. intros _. apply quiet_bind; [calm|]. intros _. apply quiet_bind; [done|]. intros b. calm.
Qed.

Lemma setLogLevel_calm l : quiet replies (setLogLevel env l).
Proof.
  unfold setLogLevel. do 3 (apply quiet_bind; [calm|intros _]). apply quiet_bind; [calm|]. intros w.
  apply quiet_bind; [apply levelEach_calm|]. intros b. calm.
Qed.
End Loops.
#[export] Hint Resolve eachServerDevice_calm restartPlugin_calm setLogLevel_calm : calm.

(** *** One response for a request *)

(** A request: the client and the message. *)
Abbreviation Req := (nat * option value)%type (only parsing).
Definition dataOf (m : option value) : list (string * value) := match m with Some (Obj d) => d | _ => [] end.

(** A response carries the id of the request, goes to where it came from, names its
    method, and is either a success or an error. *)
Definition answersTo (r : Req) (m : value) : Prop :=
  exists method rest,
    m = jsonClone (Obj ([("id", getField "id" (dataOf (snd r))); ("method", method); ("src", Str "Matterbridge");
                         ("dst", getField "src" (dataOf (snd r)))] ++ rest)) /\
    (method = getField "method" (dataOf (snd r)) \/ isStr (getField "method" (dataOf (snd r))) "ping" = true /\ method = Str "pong") /\
    ((exists e, rest = [("error", Str e)]) \/ rest = [("success", Bool true)] \/ exists v, rest = [("success", Bool true); ("response", v)]).

(** The requests of [l] were answered once, but for those of [rho]. *)
Definition toClient (c : nat) (d : Req * value) : option value := if bool_decide (fst (fst d) = c) then Some (snd d) else None.
Definition Answered (l : list Req) (w0 : World) (rho : list Req) (w : World) : Prop :=
  exists done_, map fst done_ ++ rho ≡ₚ l /\ Forall (fun d => answersTo (fst d) (snd d)) done_ /\
    forall c, repliesOf w c ≡ₚ repliesOf w0 c ++ omap (toClient c) done_.

Lemma answered_view l w0 rho w w' : replies w' = replies w -> Answered l w0 rho w -> Answered l w0 rho w'.
Proof. intros H (d & Hl & Hd & Hc). exists d. split; [done|]. split; [done|]. intros c. unfold repliesOf. rewrite H. apply Hc. Qed.

Lemma answered_perm l w0 rho rho' w : rho ≡ₚ rho' -> Answered l w0 rho w -> Answered l w0 rho' w.
Proof. intros H (d & Hl & Hd & Hc). exists d. split; [by rewrite <- H|done]. Qed.

Lemma replies_sent c o w c' :
  repliesOf (sendResponse c o w) c' =
  (repliesOf w c' ++ if bool_decide (c = c') && match sockets (net w) !! c with Some s => isOpen s | None => false end
                     then [jsonClone (Obj o)] else [])%list.
Proof.
  unfold sendResponse. destruct (sockets (net w) !! c) as [s|] eqn:E; [|by rewrite andb_false_r, app_nil_r].
  destruct (isOpen s) eqn:Eo; [|by rewrite andb_false_r, app_nil_r]. rewrite andb_true_r. unfold repliesOf, replies. cbn.
  rewrite !lookup_fmap. destruct (decide (c = c')) as [<-|Hne].
  - rewrite lookup_insert_eq, E, bool_decide_eq_true_2 by done. cbn. by rewrite omap_app.
  - rewrite lookup_insert_ne, bool_decide_eq_false_2 by done. by rewrite app_nil_r.
Qed.

Section Answers.
Context (l : list Req) (w0 : World).

Lemma sent_answered t o w sigma :
  answersTo t (jsonClone (Obj o)) -> Answered l w0 (t :: sigma) w ->
  match sockets (net w) !! fst t with Some s => isOpen s | None => false end = true ->
  Answered l w0 sigma (sendResponse (fst t) o w).
Proof.
  intros Ha (d & Hl & Hd & Hc) Ho. exists ((t, jsonClone (Obj o)) :: d). cbn [map fst snd]. split; [|split; [by constructor|]].
  - rewrite <- Hl. cbn. by rewrite Permutation_middle.
  - intros c. rewrite replies_sent, Ho, andb_true_r, Hc. cbn [omap list_omap toClient fst snd].
    unfold toClient at 2. cbn [fst snd]. destruct (bool_decide _); [|by rewrite app_nil_r]. by rewrite <- app_assoc, (Permutation_app_comm _ [_]).
Qed.

(** Code that owns the right to answer one request: it may have used it when it ends,
    unless it throws. *)
Definition Ends (t : Req) {A} (m : async World A) : Prop :=
  forall w, wp (Answered l w0) m [t] w (fun r rho _ => match r with Throw _ => rho = [t] | Ok _ => True end).

Lemma ends_quiet t {A} (m : async World A) : quiet replies m -> Ends t m.
Proof. intros Hq w. apply (wp_quiet _ replies); [by intros; eapply answered_view|done|]. by intros []. Qed.

Lemma ends_bind t {A B} (m : async World A) (k : A -> async World B) : quiet replies m -> (forall a, Ends t (k a)) -> Ends t (m ≫= k).
Proof.
  intros Hq Hk w. apply wp_bind, (wp_quiet _ replies); [by intros; eapply answered_view|done|]. intros [a|e] w' Hok; [apply Hk|done].
Qed.

Lemma ends_then t {A} (m : async World A) f : Ends t m -> (forall w, replies (f w) = replies w) -> Ends t (_ ← m; modify f).
Proof.
  intros Hm Hf w. apply wp_bind. eapply wp_mono; [|apply Hm]. intros [a|e] rho w' Hok; [|done]. intros _.
  apply (wp_modify _ rho); [|done]. intros sigma. by apply answered_view.
Qed.

Lemma ends_catch t {A} (m : async World A) h : Ends t m -> (forall e, Ends t (h e)) -> Ends t (catch m h).
Proof.
  intros Hm Hh w. apply wp_catch. eapply wp_mono; [|apply Hm]. intros [a|e] rho w' Hok; [done|]. intros ->. apply Hh.
Qed.

Lemma ends_sent t o : answersTo t (jsonClone (Obj o)) -> Ends t (modify (sendResponse (fst t) o)).
Proof.
  intros Ha w. destruct (match sockets (net w) !! fst t with Some s => isOpen s | None => false end) eqn:E.
  - apply (wp_modify _ []); [|done]. intros sigma HI. by apply sent_answered.
  - apply (wp_modify _ [t]); [|done]. intros sigma. apply answered_view. unfold sendResponse.
    destruct (sockets (net w) !! fst t) as [s|]; [by rewrite E|done].
Qed.
End Answers.

(** *** The methods *)

Section Own.
Context (l : list Req) (w0 : World) (c : nat) (data : list (string * value)).

Lemma answersTo_own rest :
  (exists e, rest = [("error", Str e)]) \/ rest = [("success", Bool true)] \/ (exists v, rest = [("success", Bool true); ("response", v)]) ->
  answersTo (c, Some (Obj data)) (jsonClone (Obj ([("id", getField "id" data); ("method", getField "method" data); ("src", Str "Matterbridge");
    ("dst", getField "src" data)] ++ rest))).
Proof. intros H. exists (getField "method" data), rest. split; [done|]. split; [by left|done]. Qed.

Lemma succeed_ends : Ends l w0 (c, Some (Obj data)) (succeed c data).
Proof. apply (ends_sent l w0 (c, Some (Obj data))), answersTo_own. by right; left. Qed.
Lemma succeedWith_ends v : Ends l w0 (c, Some (Obj data)) (succeedWith c data v).
Proof. apply (ends_sent l w0 (c, Some (Obj data))), answersTo_own. right; right. by eexists. Qed.
Lemma refuse_ends e : Ends l w0 (c, Some (Obj data)) (refuse c data e).
Proof. apply (ends_sent l w0 (c, Some (Obj data))), answersTo_own. left. by eexists. Qed.

End Own.

Lemma chosen_all {A} (P : A -> Prop) k table none : Forall (fun e => k = fst e -> P (snd e)) table -> P none -> P (chosen k table none).
Proof. induction 1 as [|[k' a] table Ha _ IH]; intros Hn; cbn [chosen]; [done|]. case_bool_decide; [by apply Ha|by apply IH]. Qed.

(** Follows a method to its answers. *)
Ltac ending :=
  lazymatch goal with
  | |- Ends _ _ _ (if ?b then _ else _) => destruct b; ending
  | |- Ends _ _ _ (match ?x with _ => _ end) => destruct x; ending
  | |- Ends _ _ _ (perhaps _ _) => unfold perhaps; ending
  | |- Ends _ _ _ (mret _) => apply ends_quiet; exact Logic.I
  | |- Ends _ _ _ (Raise _) => apply ends_quiet; exact Logic.I
  | |- Ends _ _ _ (succeed _ _) => apply succeed_ends
  | |- Ends _ _ _ (succeedWith _ _ _) => apply succeedWith_ends
  | |- Ends _ _ _ (refuse _ _ _) => apply refuse_ends
  | |- Ends _ _ _ (catch _ _) => apply ends_catch; [ending|intros ?; ending]
  | |- Ends _ _ _ (mbind _ (succeed _ _)) => apply ends_then; [ending|intros ?; apply replies_snackbar]
  | |- Ends _ _ _ (mbind _ (refuse _ _ _)) => apply ends_then; [ending|intros ?; apply replies_snackbar]
  | |- Ends _ _ _ (mbind _ _) => apply ends_bind; [calm|intros ?; ending]
  | |- Ends _ _ _ (?f _ _) => unfold f; ending
  end.

Section Methods.
Context (env : Env) (He : Discreet replies env) (l : list Req) (w0 : World) (c : nat) (data : list (string * value)).

Lemma withPluginName_ends m : (forall n, Ends l w0 (c, Some (Obj data)) (m n)) -> Ends l w0 (c, Some (Obj data)) (withPluginName c data m).
Proof.
  intros Hm. unfold withPluginName. apply ends_bind; [calm|]. intros v. apply ends_bind; [calm|]. intros w. cbv zeta.
  destruct v; try apply refuse_ends. destruct (_ && _); [apply Hm|apply refuse_ends].
Qed.
Lemma withPlugin_ends min m : (forall n, Ends l w0 (c, Some (Obj data)) (m n)) -> Ends l w0 (c, Some (Obj data)) (withPlugin c data min m).
Proof.
  intros Hm. unfold withPlugin. apply ends_bind; [calm|]. intros v. apply ends_bind; [calm|]. intros w. cbv zeta.
  destruct (negb _); [apply refuse_ends|]. destruct (PluginManager.get _ _); [apply Hm|apply refuse_ends].
Qed.
Lemma setText_ends property key text all v : Ends l w0 (c, Some (Obj data)) (setText c data property key text all v).
Proof. unfold setText, contextSet. ending. Qed.
Lemma setNumber_ends set property key text v valid reset m refusal resetText :
  (forall n w, replies (set n w) = replies w) -> quiet replies m ->
  Ends l w0 (c, Some (Obj data)) (setNumber c data set property key text v valid reset m refusal resetText).
Proof.
  intros Hs Hm. unfold setNumber, contextSet. destruct (settingNumber v) as [n|]; [destruct (valid n)|].
  all: apply ends_bind; [apply quiet_modify; intros w; rewrite Hs; exact eq_refl|intros _].
  all: apply ends_bind; [done || calm|intros _]. all: ending.
Qed.

Lemma setting_ends name v : Ends l w0 (c, Some (Obj data)) (setting env c data name v).
Proof.
  unfold setting. apply chosen_all; [|apply refuse_ends]. unfold settings.
  repeat (apply Forall_cons; split; [intros _; cbn [snd]|]); [..|by constructor].
  all: try apply setText_ends.
  7, 8, 9: apply setNumber_ends; [intros n w; unfold setBridgeNumbers; exact eq_refl|calm].
  all: ending.
Qed.

Lemma changeLists_ends change p s n : Ends l w0 (c, Some (Obj data)) (changeLists env c data change p s n).
Proof. unfold changeLists. ending. Qed.

Lemma backup_ends text file paths : Ends l w0 (c, Some (Obj data)) (backup env c data text file paths).
Proof. unfold backup. ending. Qed.

Lemma apiCommand_ends : Ends l w0 (c, Some (Obj data)) (apiCommand env c data).
Proof.
  unfold apiCommand. do 4 (apply ends_bind; [calm|intros ?]). destruct (negb _); [apply refuse_ends|]. destruct a1, a2; try ending.
  destruct (_ && _); [|ending]. apply ends_bind; [calm|]. intros w. destruct (PluginManager.get _ _); [apply changeLists_ends|apply refuse_ends].
Qed.

Lemma apiConfig_ends : Ends l w0 (c, Some (Obj data)) (apiConfig env c data).
Proof.
  unfold apiConfig. do 2 (apply ends_bind; [calm|intros ?]). destruct a; try apply refuse_ends.
  destruct (_ && _); [apply setting_ends|apply refuse_ends].
Qed.

Lemma pong_ends : getField "method" data = Str "ping" ->
  Ends l w0 (c, Some (Obj data)) (modify (sendResponse c [("id", getField "id" data); ("method", Str "pong"); ("src", Str "Matterbridge");
    ("dst", getField "src" data); ("success", Bool true); ("response", Str "pong")])).
Proof.
  intros Hm. apply (ends_sent l w0 (c, Some (Obj data))). exists (Str "pong"), [("success", Bool true); ("response", Str "pong")].
  cbn [snd dataOf]. split; [done|]. split; [right; split; [by rewrite Hm|done]|]. right; right. by eexists.
Qed.

Lemma methods_end : isString (getField "method" data) = true ->
  Forall (fun m => toText (getField "method" data) = fst m -> Ends l w0 (c, Some (Obj data)) (snd m)) (methods env c data).
Proof.
  intros Hm. unfold methods. apply Forall_cons; split.
  { cbn [fst snd]. intros Ht. apply pong_ends. destruct (getField "method" data); try done. cbn in Ht. by subst. }
  repeat (apply Forall_cons; split; [intros _; cbn [snd]|]); [..|by constructor].
  all: unfold apiLogin, apiInstall, apiUninstall, apiAddplugin, apiRemoveplugin, apiEnableplugin, apiDisableplugin, apiRestartplugin,
    apiSavepluginconfig, apiCheckupdates, apiRestart, apiShutdown, apiCreateBackup, apiCreateMatterbridgeStorageBackup, apiCreateMatterStorageBackup,
    apiUnregister, apiReset, apiFactoryreset, apiHistorypage, apiMatter, apiSettings, apiPlugins, apiDevices, apiClusters, apiSelect, apiAction,
    apiCreateConfigBackup, apiCreatePluginBackup.
  all: lazymatch goal with
       | |- Ends _ _ _ (apiCommand _ _ _) => apply apiCommand_ends
       | |- Ends _ _ _ (apiConfig _ _ _) => apply apiConfig_ends
       | |- Ends _ _ _ (withPluginName _ _ _) => apply withPluginName_ends; intros n; cbv zeta; ending
       | |- Ends _ _ _ (withPlugin _ _ _ _) => apply withPlugin_ends; intros n; ending
       | |- Ends _ _ _ (backup _ _ _ _ _ _) => apply backup_ends
       | |- Ends _ _ _ (mbind (fun _ => backup _ _ _ _ _ _) _) => apply ends_bind; [calm|intros ?; apply backup_ends]
       | |- _ => ending
       end.
Qed.

Lemma dispatch_ends : Ends l w0 (c, Some (Obj data)) (dispatch env c data).
Proof.
  unfold dispatch. destruct (validMessage data) eqn:E; [|apply refuse_ends]. apply chosen_all; [|apply refuse_ends]. apply methods_end.
  unfold validMessage in E. repeat (apply andb_true_iff in E as [E ?]). done.
Qed.
End Methods.

Lemma handler_ends env l w0 c m : Discreet replies env -> Ends l w0 (c, m) (wsMessageHandler env c m).
Proof.
  intros He. unfold wsMessageHandler. apply ends_catch; [|intros e; apply ends_quiet; exact Logic.I].
  assert (Hempty : forall m, dataOf m = [] -> Ends l w0 (c, m) (dispatch env c [])).
  { intros m' Hm'. apply (ends_sent l w0 (c, m')). exists Undefined, [("error", Str "Invalid message")]. cbn [snd]. rewrite Hm'.
    split; [done|]. split; [by left|]. left. by eexists. }
  destruct m as [[| | | | | |data]|]; try (by apply Hempty); try (apply ends_quiet; exact Logic.I). by apply dispatch_ends.
Qed.

(** C19: whatever requests the clients send, and however their handlers interleave at
    their awaits: every response goes to the client that sent a request, carries its id
    and its method, and is a success or an error; a request has at most one response,
    and nobody else is sent it. *)
Theorem answered_once (env : Env) (l : list Req) (w w' : World) (pool' : list (async World unit)) :
  Discreet replies env -> rtc turn (w, map (fun r => wsMessageHandler env (fst r) (snd r)) l) (w', pool') ->
  exists unanswered, Answered l w unanswered w'.
Proof.
  intros He Hr.
  destruct (safe_turns (Answered l w) (answered_perm l w) (fun A r rho => True) w w' (map (fun r => wsMessageHandler env (fst r) (snd r)) l) pool'
    (map (fun r => [r]) l)) as (rhos & _ & H); [| |done|by exists (concat rhos)].
  - apply Forall2_fmap, Forall_Forall2_diag, Forall_true. intros [c m] w1 _. eapply wp_mono; [|by apply handler_ends]. done.
  - exists []. split; [|split; [constructor|]].
    + cbn. clear. induction l as [|r l IH]; cbn; [done|by constructor].
    + intros c. by rewrite app_nil_r.
Qed.

(** *** An example *)

(** The other components in the same process, which answer in time. *)
Definition localFetch (type dst : string) (params : list (string * value)) : async World value :=
  let msg := Obj [("type", Str type); ("src", Str "frontend"); ("dst", Str dst); ("id", Num 1); ("timestamp", Num 0); ("params", Obj params)] in
  if bool_decide (dst = "plugins") then
    _ ← await (onPlugins (PluginManager.msgHandler PluginFacts.sampleEnv msg));
    gets (fun w => optProp (List.last (PluginManager.posted (thePlugins w)) Undefined) "result")
  else if bool_decide (dst = "devices") then await (mret (Obj [("devices", Arr [])]))
  else
    _ ← await (onApp (Matterbridge.msgHandler sampleMatterbridge msg)); mret (Obj [("success", Bool true)]).

Definition sampleView : View := mkView true true Undefined (Behaviors.mkWorld ∅ [] [] true) [].
Definition sampleFrontend : Env :=
  mkEnv sampleMatterbridge localFetch (fun _ => Raise (SystemError "ENOENT")) (fun _ => false) (fun _ _ => await (mret tt)) (fun _ => Ok tt) "/tmp"
    (fun _ _ => []) (fun _ _ _ => await (mret tt)) (fun _ _ => Ok false) (fun _ _ => sampleView) (fun _ _ => await (mret tt))
    (fun _ _ => await (mret Undefined)) (fun _ _ => await (mret tt)) (fun _ _ _ => []) (fun l => l) (fun l => l) (mret tt) (fun _ => mret tt)
    [0; 11111111] (fun _ => Undefined) [] (fun _ _ => Undefined) (fun _ _ => []) (fun _ => "Error") 1000.

Lemma sampleFrontend_discreet : Discreet replies sampleFrontend.
Proof. split; try (intros; exact Logic.I). intros type dst params. cbn [fetch sampleFrontend]. unfold localFetch. cbv zeta. quieting; apply onApp_quiet. Qed.

(** Two clients, of a bridge with one plugin. *)
Definition sampleClients : World :=
  mkWorld (Matterbridge.setThis [("nodeContext", Bool true)] startingWorld)
    (mkNet 8283 true {[1%nat := mkSocket true []; 2%nat := mkSocket true []]} (Some {[1%nat; 2%nat]}) true false)
    (mkAuth (Str "") ∅ false) (mkFlags false false false) (mkLevels NOTICE (MatterLogLevel "INFO") INFO) [] [] [] ∅ [] [].

Definition apiRequest (id : Z) (method : string) (params : list (string * value)) : option value :=
  Some (Obj [("id", Num id); ("src", Str "Frontend"); ("dst", Str "Matterbridge"); ("method", Str method); ("params", Obj params)]).

Definition twoRequests : list Req :=
  [(1%nat, apiRequest 7 "/api/config" [("name", Str "setmatterport"); ("value", Str "5550")]);
   (2%nat, apiRequest 8 "/api/disableplugin" [("pluginName", Str "matterbridge-test")])].

Definition twoAnswered : World * list (async World unit) :=
  schedule (alternating 60) sampleClients (map (fun r => wsMessageHandler sampleFrontend (fst r) (snd r)) twoRequests).

Lemma answered_once_witness :
  (exists unanswered, Answered twoRequests sampleClients unanswered (fst twoAnswered)) /\ settledPool (snd twoAnswered) = true /\
  map (fun c => length (repliesOf (fst twoAnswered) c)) [1; 2]%nat = [1; 1]%nat.
Proof.
  split; [|by split; vm_compute].
  apply (answered_once sampleFrontend twoRequests sampleClients (fst twoAnswered) (snd twoAnswered) sampleFrontend_discreet).
  rewrite <- surjective_pairing. apply schedule_turns.
Defined.
