(* ===== verification/FrontendSettings.v ===== *)
(** The settings that the web application changes: numbers stay in their ranges, and
    the lists of devices are those that the platforms go by. *)
From S2P Require Import Prelude JsString JsNumber JsValue JsMap Async Validate PluginManager PluginFacts CommandLine Bridge BridgeFacts Matterbridge.
From S2P Require Import MatterbridgeFacts Platform PlatformFacts Frontend FrontendApi FrontendFacts.
From stdpp Require Import gmap relations.
#[local] Open Scope string_scope.
#[local] Open Scope Z_scope.
#[local] Set Warnings "-clear-no-such-hyp".
Import Validate Frontend FrontendApi.

(** ** Numbers *)

Definition numberKeys : list string := ["matterport"; "matterdiscriminator"; "matterpasscode"].
Definition initialKeys : list string := ["initialPort"; "initialDiscriminator"; "initialPasscode"].

(** The stored numbers and those of the running application. *)
Definition numbersOf (a : Matterbridge.World) : list value :=
  (map (fun k => getField k (Matterbridge.stored a)) numberKeys ++ map (Matterbridge.this a) initialKeys)%list.
Definition numbers (w : World) : list value := numbersOf (app w).

(** A number may be undefined. *)
Definition among (P : Z -> bool) (v : value) : Prop := v = Undefined \/ exists n, v = Num n /\ P n = true.
Definition validPasscode (env : Env) (n : Z) : bool := within 1 99999998 n && negb (bool_decide (n ∈ FORBIDDEN_PASSCODES env)).

Definition InRange (env : Env) (l : list value) : Prop :=
  match l with
  | [port; discriminator; passcode; port'; discriminator'; passcode'] =>
      (among (within 5540 5600) port /\ among (within 5540 5600) port') /\
      (among (within 0 4095) discriminator /\ among (within 0 4095) discriminator') /\
      (among (validPasscode env) passcode /\ among (validPasscode env) passcode')
  | _ => False
  end.

(** *** What is not about the numbers *)

(** Messages leave the application alone. *)
Lemma app_broadcast m w : app (wssBroadcastMessage m w) = app w.
Proof. unfold wssBroadcastMessage. by destruct (silent w). Qed.
Lemma app_snackbar text t s w : app (wssSendSnackbarMessage text t s w) = app w.
Proof. unfold wssSendSnackbarMessage. destruct (silent w); [done|]. apply app_broadcast. Qed.
Lemma app_restart b f w : app (wssSendRestartRequired b f w) = app w.
Proof.
  unfold wssSendRestartRequired. destruct (silent w); [done|]. cbv zeta. unfold broadcast. rewrite app_broadcast. destruct b; [|done].
  by rewrite app_snackbar.
Qed.
Lemma app_sent c o w : app (sendResponse c o w) = app w.
Proof. unfold sendResponse. destruct (sockets (net w) !! c) as [s|]; [|done]. by destruct (isOpen s). Qed.

Lemma plain_quiet f : (forall w, app (f w) = app w) -> quiet numbers (modify f).
Proof. intros H. apply quiet_modify. intros w. unfold numbers. by rewrite H. Qed.

Lemma snackbar_quiet text t s : quiet numbers (snackbar text t s).
Proof. apply plain_quiet, app_snackbar. Qed.
Lemma restartNeeded_quiet : quiet numbers restartNeeded.
Proof. apply plain_quiet, app_restart. Qed.
Lemma answer_quiet c data rest : quiet numbers (answer c data rest).
Proof. apply plain_quiet. intros w. apply app_sent. Qed.

Lemma plugins_quiet {A} (m : async PluginManager.World A) : quiet numbers (onPlugins m).
Proof.
  apply (quiet_lift app setApp numbers numbersOf); [by intros v v' w H <-|].
  apply (quiet_lift _ _ numbersOf (fun _ => [])); [by intros v v' w _ _|apply quiet_const].
Qed.

(** Another property, or another key of the storage. *)
Lemma setAppThis_quiet k v : k ∉ initialKeys -> quiet numbers (modify (setAppThis [(k, v)])).
Proof.
  intros Hk. apply quiet_modify. intros w. unfold numbers, numbersOf. cbn [app setAppThis setApp]. f_equal. apply map_ext_in. intros k' Hk'.
  unfold Matterbridge.this. cbn. apply getField_setField_ne. intros ->. by apply Hk, list_elem_of_In.
Qed.

Lemma contextSet_quiet k v : k ∉ numberKeys -> quiet numbers (contextSet k v).
Proof.
  intros Hk. apply (quiet_lift app setApp numbers numbersOf); [by intros v' v'' w H <-|]. apply quiet_await, quiet_modify. intros w.
  destruct (truthy _); [|done]. unfold numbersOf. f_equal. apply map_ext_in. intros k' Hk'. cbn. apply getField_setField_ne. intros ->.
  by apply Hk, list_elem_of_In.
Qed.

(** *** What is *)

Lemma getField_removed k k' f :
  getField k' (List.filter (fun kv : string * value => negb (bool_decide (fst kv = k))) f) = if bool_decide (k' = k) then Undefined else getField k' f.
Proof.
  induction f as [|[k0 v] f IH]; cbn [List.filter getField fst]; [by destruct (bool_decide _)|].
  destruct (decide (k0 = k)) as [->|Hne].
  - rewrite bool_decide_eq_true_2 by done. cbn [negb]. rewrite IH. by destruct (bool_decide (k' = k)).
  - rewrite bool_decide_eq_false_2 by done. cbn [negb getField]. rewrite IH. destruct (decide (k' = k0)) as [->|?]; [|by rewrite (bool_decide_eq_false_2 (k' = k0))].
    by rewrite bool_decide_eq_true_2, (bool_decide_eq_false_2 (k0 = k)).
Qed.

(** Which of the numbers a key stands for, and the range. *)
Definition rangeOf (env : Env) (i : nat) : Z -> bool :=
  match i with O => within 5540 5600 | 1%nat => within 0 4095 | _ => validPasscode env end.

Lemma inRange_lookup env l : InRange env l <-> length l = 6%nat /\ forall i, (i < 3)%nat -> among (rangeOf env i) (nth i l Undefined) /\ among (rangeOf env i) (nth (i + 3) l Undefined).
Proof.
  split.
  - destruct l as [|a [|b [|c [|d [|e [|f [|]]]]]]]; cbn [InRange]; try done. intros (H1 & H2 & H3). split; [done|].
    intros [|[|[|i]]] Hi; [done..|lia].
  - intros [Hl H]. destruct l as [|a [|b [|c [|d [|e [|f [|]]]]]]]; try done. split; [apply (H 0%nat); lia|].
    split; [apply (H 1%nat); lia|apply (H 2%nat); lia].
Qed.

Section Numbers.
Context (env : Env).

Definition Fine (w : World) : Prop := InRange env (numbers w).
Arguments Fine : simpl never.

Lemma fine_replaced w w' i j v :
  (i < 3)%nat -> j = i \/ j = (i + 3)%nat -> numbers w' = <[j := v]> (numbers w) \/ numbers w' = numbers w -> among (rangeOf env i) v -> Fine w -> Fine w'.
Proof.
  intros Hi Hj [Hw|Hw] Hv; unfold Fine; rewrite Hw; [|done]. rewrite !inRange_lookup. intros [Hl H]. split; [by rewrite length_insert|].
  intros k Hk. specialize (H k Hk). rewrite !nth_lookup in *. destruct H as [H1 H2].
  split; [destruct (decide (j = k)) as [->|?]|destruct (decide (j = (k + 3)%nat)) as [->|?]].
  all: rewrite ?list_lookup_insert_ne by done; try done. all: rewrite list_lookup_insert_eq by lia. all: replace k with i by lia; done.
Qed.

Definition numberKey (i : nat) : string := nth i numberKeys "".
Definition initialKey (i : nat) : string := nth i initialKeys "".

Lemma bridgeNumbers_same f w : numbers (setBridgeNumbers f w) = numbers w.
Proof. unfold setBridgeNumbers. by destruct (f _) as [[p c] d]. Qed.

Lemma initial_replaced i v w f :
  (i < 3)%nat -> numbers (setBridgeNumbers f (setAppThis [(initialKey i, v)] w)) = <[(i + 3)%nat := v]> (numbers w).
Proof.
  intros Hi. rewrite bridgeNumbers_same. unfold numbers, numbersOf, Matterbridge.this. cbn.
  destruct i as [|[|[|i]]]; [..|lia]; cbn; rewrite getField_setField, !getField_setField_ne by done; done.
Qed.

Lemma stored_replaced i v w :
  (i < 3)%nat -> numbersOf (Matterbridge.setStored (numberKey i) v w) = <[i := v]> (numbersOf w).
Proof.
  intros Hi. unfold numbersOf. cbn. destruct i as [|[|[|i]]]; [..|lia]; cbn; rewrite getField_setField, !getField_setField_ne by done; done.
Qed.

Lemma removed_replaced i w : (i < 3)%nat -> numbersOf (removeStored (numberKey i) w) = <[i := Undefined]> (numbersOf w).
Proof.
  intros Hi. unfold numbersOf. cbn. rewrite !getField_removed. destruct i as [|[|[|i]]]; [..|lia]; done.
Qed.

Lemma fine_quiet {A} (m : async World A) : quiet numbers m -> keeps Fine m.
Proof. apply quiet_keeps. intros w w' H. unfold Fine. by rewrite H. Qed.

Lemma contextSet_fine i v : (i < 3)%nat -> among (rangeOf env i) v -> keeps Fine (contextSet (numberKey i) v).
Proof.
  intros Hi Hv. unfold contextSet, onApp, Matterbridge.storedSet. cbn. split; [|exact Logic.I]. intros w Hw.
  apply (fine_replaced w _ i i v); [done|by left| |done|done]. unfold numbers. cbn [app setApp].
  destruct (truthy _); [left; by apply stored_replaced|by right].
Qed.

Lemma contextRemove_fine i : (i < 3)%nat -> keeps Fine (contextRemove (numberKey i)).
Proof.
  intros Hi. unfold contextRemove, onApp. cbn. split; [|exact Logic.I]. intros w Hw.
  apply (fine_replaced w _ i i Undefined); [done|by left| |by left|done]. unfold numbers. cbn [app setApp].
  destruct (truthy _); [left; by apply removed_replaced|by right].
Qed.

Lemma initial_fine i v f : (i < 3)%nat -> among (rangeOf env i) v -> keeps Fine (modify (fun w => setBridgeNumbers f (setAppThis [(initialKey i, v)] w))).
Proof.
  intros Hi Hv. apply keeps_modify. intros w. apply (fine_replaced w _ i (i + 3)%nat v); [done|by right| |done]. left. by apply initial_replaced.
Qed.

Lemma setNumber_fine c data i f text v valid reset m refusal resetText :
  (i < 3)%nat -> (forall n, valid n = true -> rangeOf env i n = true) -> among (rangeOf env i) reset -> keeps Fine m ->
  keeps Fine (setNumber c data (fun n => setBridgeNumbers (f n)) (initialKey i) (numberKey i) text v valid reset m refusal resetText).
Proof.
  intros Hi Hvalid Hreset Hm. unfold setNumber.
  assert (Hrest : keeps Fine (_ ← modify (fun w => setBridgeNumbers (f reset) (setAppThis [(initialKey i, reset)] w)); _ ← m;
                              _ ← restartNeeded; _ ← refuse c data refusal; snackbar (text ++ resetText) 5 "error")).
  { apply keeps_bind; [by apply initial_fine|intros _]. apply keeps_bind; [done|intros _].
    apply fine_quiet. apply quiet_bind; [apply restartNeeded_quiet|intros _]. apply quiet_bind; [apply answer_quiet|intros _]. apply snackbar_quiet. }
  destruct (settingNumber v) as [n|]; [|done]. destruct (valid n) eqn:E; [|done].
  assert (Hn : among (rangeOf env i) (Num n)) by (right; exists n; auto).
  apply keeps_bind; [by apply initial_fine|intros _]. apply keeps_bind; [by apply contextSet_fine|intros _].
  apply fine_quiet. apply quiet_bind; [apply restartNeeded_quiet|intros _]. apply quiet_bind; [apply answer_quiet|intros _]. apply snackbar_quiet.
Qed.
End Numbers.

(** *** All settings *)

(** Opens a setting that is not about the numbers. *)
Ltac other_setting :=
  lazymatch goal with
  | |- quiet _ (mbind _ _) => apply quiet_bind; [other_setting|intros ?; other_setting]
  | |- quiet _ (if ?b then _ else _) => destruct b; other_setting
  | |- quiet _ (match ?x with _ => _ end) => destruct x; other_setting
  | |- quiet _ (perhaps ?b _) => unfold perhaps; other_setting
  | |- quiet _ (await _) => apply quiet_await; other_setting
  | |- quiet _ ask => intros ?; exact Logic.I
  | |- quiet _ (mret _) => exact Logic.I
  | |- quiet _ pause => exact Logic.I
  | |- quiet _ restartNeeded => apply restartNeeded_quiet
  | |- quiet _ (snackbar _ _ _) => apply snackbar_quiet
  | |- quiet _ (succeed _ _) => apply answer_quiet
  | |- quiet _ (refuse _ _ _) => apply answer_quiet
  | |- quiet _ (onPlugins _) => apply plugins_quiet
  | |- quiet _ (contextSet _ _) => apply contextSet_quiet, (bool_decide_unpack _); by vm_compute
  | |- quiet _ (modify (setAppThis [(_, _)])) => apply setAppThis_quiet, (bool_decide_unpack _); by vm_compute
  | |- quiet _ (modify _) => try (apply plain_quiet; intros ?; reflexivity)
  | |- _ => idtac
  end.

Section Settings.
Context (env : Env) (Hlevel : forall q l, quiet numbers (onChangeLoggerLevel env q l)).

Lemma levelEach_quiet l ps : quiet numbers (levelEach env l ps).
Proof.
  induction ps as [|p ps IH]; cbn [levelEach]; [exact Logic.I|]. apply quiet_bind; [intros w; exact Logic.I|]. intros w.
  destruct (platform w p) as [q|]; [|done]. destruct (PluginManager.config _) as [r|]; [|done]. destruct (truthy _); [|done].
  apply quiet_bind; [apply plugins_quiet|]. intros _. apply quiet_bind; [apply quiet_await, Hlevel|]. intros _. apply quiet_bind; [done|].
  intros b. exact Logic.I.
Qed.

Lemma setLogLevel_quiet l : quiet numbers (setLogLevel env l).
Proof.
  unfold setLogLevel. apply quiet_bind; [|intros _].
  { apply quiet_modify. intros w. unfold numbers, numbersOf, Matterbridge.this. cbn. by rewrite !getField_setField_ne. }
  apply quiet_bind; [by apply plain_quiet|intros _]. apply quiet_bind; [apply plugins_quiet|intros _].
  apply quiet_bind; [intros w; exact Logic.I|intros w]. apply quiet_bind; [apply levelEach_quiet|intros b]. by apply plain_quiet.
Qed.

Lemma setting_fine c data name v : keeps (Fine env) (setting env c data name v).
Proof.
  unfold setting. apply chosen_all; [|apply fine_quiet, answer_quiet]. unfold settings.
  repeat (apply Forall_cons; split; [intros _; cbn [snd]|]); [..|by constructor].
  10: apply (setNumber_fine env c data 0); [lia|done|right; by eexists|apply (contextSet_fine env 0); [lia|right; by eexists]].
  10: apply (setNumber_fine env c data 1); [lia|done|by left|apply (contextRemove_fine env 1); lia].
  10: apply (setNumber_fine env c data 2); [lia|done|by left|apply (contextRemove_fine env 2); lia].
  all: apply fine_quiet; unfold setText; other_setting.
  all: lazymatch goal with
       | |- quiet _ (setLogLevel _ _) => apply setLogLevel_quiet
       | |- _ => apply quiet_modify; intros w; unfold numbers, numbersOf, Matterbridge.this; cbn; by rewrite !getField_setField_ne
       end.
Qed.

Lemma apiConfig_fine c data : keeps (Fine env) (apiConfig env c data).
Proof.
  unfold apiConfig. apply keeps_bind; [apply keeps_liftRes|intros n]. apply keeps_bind; [apply keeps_liftRes|intros v].
  destruct n; try apply fine_quiet, answer_quiet. destruct (_ && _); [apply setting_fine|apply fine_quiet, answer_quiet].
Qed.
End Settings.


(** *** An example *)

Definition configuring (name : string) (v : value) : nat * list (string * value) :=
  (1%nat, match apiRequest 1 "/api/config" [("name", Str name); ("value", v)] with Some (Obj d) => d | _ => [] end).
Definition someSettings : list (nat * list (string * value)) :=
  [configuring "setmatterport" (Str "5600 or so"); configuring "setmatterport" (Str "5601"); configuring "setmatterpasscode" (Str "11111111")].
Definition someSet : World * list (async World unit) :=
  schedule [0; 1; 0; 2; 2; 1; 2; 0; 1]%nat sampleClients (map (fun r => apiConfig sampleFrontend (fst r) (snd r)) someSettings).


Lemma contextSet_run k v w :
  run (contextSet k v) w =
  (setApp (if truthy (Matterbridge.this (app w) "nodeContext") then Matterbridge.setStored k v (app w) else app w) w, Ok tt).
Proof.
  unfold contextSet, onApp, Matterbridge.storedSet. rewrite run_lift; [|done|done|by intros []]. by rewrite run_await, run_modify.
Qed.

(** A value that is no text counts as 0, which is a valid discriminator but neither a
    valid port nor a valid passcode: the discriminator is set to 0 with success, and
    the next server node takes its default instead. *)
Theorem discriminator_zeroed (c : nat) (data : list (string * value)) (n : Z) (w : World) :
  truthy (Matterbridge.this (app w) "nodeContext") = true ->
  let w' := fst (run (setmatterdiscriminator c data (Num n)) w) in
  Matterbridge.this (app w') "initialDiscriminator" = Num 0 /\ getField "matterdiscriminator" (Matterbridge.stored (app w')) = Num 0 /\
  Bridge.taken (Num 0) = Undefined.
Proof.
  intros Hn. cbv zeta. unfold setmatterdiscriminator, setNumber. cbn [settingNumber].
  change (within 0 4095 0) with true. cbv iota.
  unfold restartNeeded, succeed, answer, snackbar. rewrite run_bind, run_modify. cbv iota beta. set (w1 := setBridgeNumbers _ _).
  rewrite run_bind, contextSet_run. cbv iota beta. rewrite run_bind, run_modify. cbv iota beta. rewrite run_bind, run_modify. cbv iota beta.
  rewrite run_modify. cbn [fst].
  rewrite app_snackbar, app_sent, app_restart. cbn [app setApp].
  assert (Hc : truthy (Matterbridge.this (app w1) "nodeContext") = true).
  { unfold w1, Matterbridge.this in *. cbn. by rewrite getField_setField_ne. }
  rewrite Hc. unfold w1, Matterbridge.this. cbn. rewrite !getField_setField. done.
Qed.

(** ** Lists of devices *)

Definition configured (cfg : list (string * value)) (w : Platform.World) : Platform.World :=
  Platform.mkWorld cfg (Platform.name w) (Platform.type w) (Platform.version w) (Platform.isReady w) (Platform.context w)
    (Platform.selectDevices w) (Platform.selectEntities w) (Platform.arrays w) (Platform.registeredEndpoints w) (Platform.bridge w)
    (Platform.matterNode w) (Platform.storage w) (Platform.server w).

Definition listOf (k : string) (cfg : list (string * value)) : list value := match getField k cfg with Arr l => l | _ => [] end.

Lemma listOf_update k k' f cfg :
  listOf k' (update k f cfg) = if bool_decide (k' = k) then match getField k cfg with Arr l => match f (Arr l) with Arr l => l | _ => [] end | _ => [] end
                               else listOf k' cfg.
Proof.
  unfold listOf, update. case_bool_decide as Hk.
  - subst. destruct (getField k cfg) eqn:E; try (by rewrite E). by rewrite getField_setField.
  - destruct (getField k cfg); try done. by rewrite getField_setField_ne.
Qed.

Lemma elem_of_without (x y : value) l : y ∈ List.filter (fun z => negb (bool_decide (z = x))) l <-> y ∈ l /\ y <> x.
Proof. rewrite !list_elem_of_In, filter_In, negb_true_iff, bool_decide_eq_false. done. Qed.

Lemma pushed_elem min x y l : (min <= length l)%nat -> y ∈ match pushed min x (Arr l) with Arr l => l | _ => [] end <-> y ∈ l \/ y = x.
Proof.
  intros Hl. unfold pushed. rewrite (proj2 (Nat.leb_le _ _) Hl). destruct (Platform.includesValue l x) eqn:E; cbn [andb negb].
  - apply includesValue_spec in E. naive_solver.
  - rewrite elem_of_app, list_elem_of_singleton. done.
Qed.

Lemma filtered_elem x y l : y ∈ match filteredOut x (Arr l) with Arr l => l | _ => [] end <-> y ∈ l /\ y <> x.
Proof.
  unfold filteredOut. destruct l as [|z l]; [rewrite elem_of_nil; tauto|]. destruct (Platform.includesValue (z :: l) x) eqn:E; [apply elem_of_without|].
  apply not_true_iff_false in E. rewrite includesValue_spec in E. naive_solver.
Qed.

Lemma selected_black x y cfg : y ∈ listOf "blackList" (selectDevice x cfg) <-> y ∈ listOf "blackList" cfg /\ y <> x.
Proof.
  unfold selectDevice. rewrite listOf_update, bool_decide_eq_true_2 by done.
  assert (Hb : getField "blackList" (update "whiteList" (pushed 1 x) cfg) = getField "blackList" cfg).
  { unfold update. destruct (getField "whiteList" cfg); try done. by rewrite getField_setField_ne. }
  rewrite Hb. unfold listOf. destruct (getField "blackList" cfg) as [| | | | |l|]; try (rewrite elem_of_nil; tauto). apply filtered_elem.
Qed.

Lemma selected_white x y cfg :
  y ∈ listOf "whiteList" (selectDevice x cfg) <-> y ∈ listOf "whiteList" cfg \/ (y = x /\ listOf "whiteList" cfg <> []).
Proof.
  unfold selectDevice. rewrite !listOf_update. cbn [bool_decide]. rewrite bool_decide_eq_false_2, bool_decide_eq_true_2 by done.
  unfold listOf. destruct (getField "whiteList" cfg) as [| | | | |[|z l]|]; try (cbn [pushed length Nat.leb andb]; rewrite elem_of_nil; naive_solver).
  rewrite pushed_elem by (cbn; lia). naive_solver.
Qed.

Lemma unselected_black x y cfg :
  y ∈ listOf "blackList" (unselectDevice x cfg) <-> y ∈ listOf "blackList" cfg \/ (y = x /\ isValidArray (getField "blackList" cfg) None None = true).
Proof.
  unfold unselectDevice. rewrite listOf_update, bool_decide_eq_true_2 by done.
  assert (Hb : getField "blackList" (update "whiteList" (filteredOut x) cfg) = getField "blackList" cfg).
  { unfold update. destruct (getField "whiteList" cfg); try done. by rewrite getField_setField_ne. }
  rewrite Hb. unfold listOf. destruct (getField "blackList" cfg) as [| | | | |l|]; try (cbn; rewrite elem_of_nil; naive_solver).
  rewrite pushed_elem by lia. naive_solver.
Qed.

Lemma unselected_white x y cfg : y ∈ listOf "whiteList" (unselectDevice x cfg) <-> y ∈ listOf "whiteList" cfg /\ y <> x.
Proof.
  unfold unselectDevice. rewrite !listOf_update. rewrite bool_decide_eq_false_2, bool_decide_eq_true_2 by done.
  unfold listOf. destruct (getField "whiteList" cfg) as [| | | | |l|]; try (rewrite elem_of_nil; tauto). apply filtered_elem.
Qed.

Lemma no_elements (l : list value) : l = [] <-> forall y, y ∉ l.
Proof. destruct l as [|y l]; [split; [intros _ y; apply not_elem_of_nil|done]|]. split; [done|]. intros H. destruct (H y). apply elem_of_cons. by left. Qed.

Lemma valid_configured cfg w names :
  Platform.validateDevice (configured cfg w) names = true <->
  (forall n, n ∈ names -> n ∉ listOf "blackList" cfg) /\
  (listOf "whiteList" cfg = [] \/ exists n, n ∈ names /\ n ∈ listOf "whiteList" cfg).
Proof. rewrite validateDevice_exact. done. Qed.

(** C21: the lists that the web application keeps are those that the platforms go by.
    A device that is selected under one of its names is valid, unless another of its
    names is black-listed. A device that is unselected is not, where the plugin has a
    black list. The devices with other names stay as they are, unless the last entry
    of the white list is unselected: then all that are not black-listed are valid. *)
Theorem selection_exact (x : value) (cfg : list (string * value)) (names : list value) (w : Platform.World) :
  (x ∈ names ->
     (Platform.validateDevice (configured (selectDevice x cfg) w) names = true <->
      forall n, n ∈ names -> n <> x -> n ∉ listOf "blackList" cfg) /\
     (isValidArray (getField "blackList" cfg) None None = true -> Platform.validateDevice (configured (unselectDevice x cfg) w) names = false)) /\
  (x ∉ names ->
     Platform.validateDevice (configured (selectDevice x cfg) w) names = Platform.validateDevice (configured cfg w) names /\
     (Platform.validateDevice (configured (unselectDevice x cfg) w) names = true <->
      (forall n, n ∈ names -> n ∉ listOf "blackList" cfg) /\
      ((forall y, y ∈ listOf "whiteList" cfg -> y = x) \/ exists n, n ∈ names /\ n ∈ listOf "whiteList" cfg))).
Proof.
  split; intros Hx; split.
  - rewrite valid_configured, no_elements. setoid_rewrite selected_black. setoid_rewrite selected_white.
    destruct (decide (listOf "whiteList" cfg = [])) as [E|E]; [rewrite E; setoid_rewrite elem_of_nil|]; naive_solver.
  - intros Hb. apply not_true_iff_false. rewrite valid_configured. setoid_rewrite unselected_black. naive_solver.
  - apply eq_true_iff_eq. rewrite !valid_configured, !no_elements. setoid_rewrite selected_black. setoid_rewrite selected_white.
    destruct (decide (listOf "whiteList" cfg = [])) as [E|E]; [rewrite E; setoid_rewrite elem_of_nil; naive_solver|].
    assert (H : forall n, n ∈ names -> n <> x) by (by intros n Hn ->). rewrite <- !no_elements. naive_solver.
  - rewrite valid_configured, no_elements. setoid_rewrite unselected_black. setoid_rewrite unselected_white.
    split; intros [H1 H2]; (split; [naive_solver|]).
    + destruct H2 as [H2|H2]; [left; intros y Hy; destruct (decide (y = x)); naive_solver|right; naive_solver].
    + destruct H2 as [H2|(n & Hn & Hw)]; [left; naive_solver|]. right. exists n. split_and!; [done|done|by intros ->].
Qed.

(** *** An example *)

Definition someLists : list (string * value) := [("whiteList", Arr [Str "lamp"]); ("blackList", Arr [Str "plug"])].

(** The plug is selected, the lamp is not any more: the white list that was the lamp's
    then lets the fan in. *)
Lemma selection_exact_witness :
  Platform.validateDevice (configured (selectDevice (Str "plug") someLists) (samplePlatform [])) [Str "plug"; Str "0123"] = true /\
  Platform.validateDevice (configured (unselectDevice (Str "lamp") someLists) (samplePlatform [])) [Str "lamp"] = false /\
  Platform.validateDevice (configured someLists (samplePlatform [])) [Str "fan"] = false /\
  Platform.validateDevice (configured (unselectDevice (Str "lamp") someLists) (samplePlatform [])) [Str "fan"] = true.
Proof.
  split_and!.
  - apply (selection_exact (Str "plug") someLists [Str "plug"; Str "0123"]); [by left|]. intros n Hn Hne.
    apply elem_of_cons in Hn as [->|Hn]; [done|]. apply list_elem_of_singleton in Hn as ->. apply (bool_decide_unpack _). by vm_compute.
  - apply (selection_exact (Str "lamp") someLists [Str "lamp"]); [by left|done].
  - by vm_compute.
  - apply (selection_exact (Str "lamp") someLists [Str "fan"]); [apply (bool_decide_unpack _); by vm_compute|]. split.
    + intros n Hn. apply list_elem_of_singleton in Hn as ->. apply (bool_decide_unpack _). by vm_compute.
    + left. intros y Hy. by apply list_elem_of_singleton in Hy.
Defined.
