(* ===== verification/FrontendAccess.v ===== *)
(** Who the frontend answers: an address that has logged in or upgraded with the
    password, and nobody else; and what is shown of a device and of the log. *)
From S2P Require Import Prelude JsString JsNumber JsValue JsMap NodePath Async Ownership Wait Validate Broadcast DeviceManager PluginManager.
From S2P Require Import PluginFacts CommandLine Bridge Matterbridge Platform Behaviors ClusterServers Frontend FrontendApi FrontendFacts.
From stdpp Require Import gmap relations.
#[local] Open Scope string_scope.
#[local] Open Scope Z_scope.
Import Frontend FrontendApi.

(** ** Addresses that are admitted *)

Definition admitted (w : World) : gset string := authClients (auth w).

Lemma admitted_broadcast m w : admitted (wssBroadcastMessage m w) = admitted w.
Proof. unfold wssBroadcastMessage. by destruct (silent w). Qed.
Lemma admitted_flags f w : admitted (setFlags f w) = admitted w.
Proof. done. Qed.
Create Rewrite HintDb admits.
#[local] Hint Rewrite admitted_broadcast admitted_flags : admits.

(** No message changes them. *)
Ltac admits :=
  intros; repeat first
    [ progress cbv zeta
    | progress unfold broadcast
    | progress autorewrite with admits
    | match goal with |- context [if ?b then _ else _] => destruct b end
    | match goal with |- context [match ?x with _ => _ end] => destruct x end ]; try exact eq_refl.

Lemma admitted_snackbar text t s w : admitted (wssSendSnackbarMessage text t s w) = admitted w.
Proof. unfold wssSendSnackbarMessage. admits. Qed.
Lemma admitted_closeSnackbar text w : admitted (wssSendCloseSnackbarMessage text w) = admitted w.
Proof. unfold wssSendCloseSnackbarMessage. admits. Qed.
Lemma admitted_refresh changed params w : admitted (wssSendRefreshRequired changed params w) = admitted w.
Proof. unfold wssSendRefreshRequired. admits. Qed.
#[local] Hint Rewrite admitted_snackbar admitted_closeSnackbar admitted_refresh : admits.
Lemma admitted_restart b f w : admitted (wssSendRestartRequired b f w) = admitted w.
Proof. unfold wssSendRestartRequired. admits. Qed.
Lemma admitted_restartNot b w : admitted (wssSendRestartNotRequired b w) = admitted w.
Proof. unfold wssSendRestartNotRequired. admits. Qed.
Lemma admitted_sent c o w : admitted (sendResponse c o w) = admitted w.
Proof. unfold sendResponse. destruct (_ !! c) as [s|]; [|done]. by destruct (isOpen s). Qed.
Lemma admitted_bridgeNumbers f w : admitted (setBridgeNumbers f w) = admitted w.
Proof. unfold setBridgeNumbers. by destruct (f _) as [[p c] d]. Qed.
#[local] Hint Rewrite admitted_restart admitted_restartNot admitted_sent admitted_bridgeNumbers : admits.
Lemma admitted_attribute a b c d e f g h w : admitted (wssSendAttributeChangedMessage a b c d e f g h w) = admitted w.
Proof. unfold wssSendAttributeChangedMessage. admits. Qed.
Lemma admitted_log l t n m w : admitted (wssSendLogMessage l t n m w) = admitted w.
Proof. unfold wssSendLogMessage. admits. Qed.
Lemma admitted_spawned a b c n s w : admitted (spawned a b c n s w) = admitted w.
Proof. unfold spawned. admits. Qed.
#[local] Hint Rewrite admitted_attribute admitted_log admitted_spawned : admits.

Lemma admitted_deliver a w : admitted (deliver w a) = admitted w.
Proof.
  assert (Hif : forall (b : bool) x y, admitted x = admitted w -> admitted y = admitted w -> admitted (if b then x else y) = admitted w) by by intros [].
  destruct a as [| |method args| | | | | | | | | | | |what]; cbn [deliver]; try exact eq_refl.
  - destruct args as [|[| | | |text| |] [|[| | |timeout| | |] [|[| | | |severity| |] [|]]]]; try exact eq_refl.
    + apply Hif; [apply admitted_closeSnackbar|]. apply Hif; [apply admitted_refresh|exact eq_refl].
    + apply Hif; [apply admitted_snackbar|exact eq_refl].
  - apply Hif; [exact eq_refl|]. apply Hif; exact eq_refl.
Qed.

Lemma admitted_delivered l w : admitted (foldl deliver w l) = admitted w.
Proof. revert w. induction l as [|a l IH]; intros w; cbn; [done|]. by rewrite IH, admitted_deliver. Qed.

Lemma onApp_steady {A} (m : async Matterbridge.World A) : quiet admitted (onApp m).
Proof. apply (quiet_lift app setApp admitted (fun _ => ∅)); [|apply quiet_const]. by intros v v' w _ _. Qed.

Lemma calling_steady m : quiet admitted (calling m).
Proof. unfold calling. quieting; [apply onApp_steady|]. apply admitted_delivered. Qed.

Lemma forEach_steady {A} (l : list A) f : (forall x, quiet admitted (f x)) -> quiet admitted (forEach l f).
Proof. intros Hf. induction l as [|x l IH]; cbn [forEach]; [exact Logic.I|]. by apply quiet_bind; [|intros]. Qed.

Create HintDb steady.

(** The function of an application. *)
Ltac head m := lazymatch m with ?f _ => head f | _ => m end.

(** Opens what leaves the addresses alone. *)
Ltac steady :=
  lazymatch goal with
  | |- quiet _ (mbind _ _) => apply quiet_bind; [steady|intros ?; steady]
  | |- quiet _ (catch _ _) => apply quiet_catch; [steady|intros ?; steady]
  | |- quiet _ (await _) => apply quiet_await; steady
  | |- quiet _ (if ?b then _ else _) => destruct b; steady
  | |- quiet _ (match ?x with _ => _ end) => destruct x; steady
  | |- quiet _ (let _ := _ in _) => cbv zeta; steady
  | |- quiet _ ask => intros ?; exact Logic.I
  | |- quiet _ (mret _) => exact Logic.I
  | |- quiet _ (Raise _) => exact Logic.I
  | |- quiet _ pause => exact Logic.I
  | |- quiet _ (liftRes _) => apply quiet_liftRes
  | |- quiet _ (calling _) => apply calling_steady
  | |- quiet _ (onPlugins _) => apply onApp_steady
  | |- quiet _ (onBridge _) => apply onApp_steady
  | |- quiet _ (onApp _) => apply onApp_steady
  | |- quiet _ (forEach _ _) => apply forEach_steady; intros ?; steady
  | |- quiet _ (fetch _ _ _ _) => by apply discreet_fetch
  | |- quiet _ (readText _ _) => by apply discreet_readText
  | |- quiet _ (Frontend.rename _ _ _) => by apply discreet_rename
  | |- quiet _ (nodeCall _ _ _ _) => by apply discreet_nodeCall
  | |- quiet _ (onAction _ _ _) => by apply discreet_onAction
  | |- quiet _ (onFetch _ _ _) => by apply discreet_onFetch
  | |- quiet _ (onChangeLoggerLevel _ _ _) => by apply discreet_onChangeLoggerLevel
  | |- quiet _ (generateDiagnostic _) => by apply discreet_generateDiagnostic
  | |- quiet _ (generateHistoryPage _ _) => by apply discreet_generateHistoryPage
  | |- quiet _ (modify _) => apply quiet_modify; admits
  | |- quiet _ ?m => first [solve [eauto 2 with steady nocore] | let f := head m in unfold f; steady]
  end.

Section Steady.
Context (env : Env) (He : Discreet admitted env).

Lemma eachDevice_steady type l : quiet admitted (eachDevice env type l).
Proof. induction l as [|d l IH]; cbn [eachDevice]; [exact Logic.I|]. apply quiet_bind; [steady|]. intros u. by apply quiet_bind; [steady|]. Qed.
Hint Resolve eachDevice_steady : steady.

Lemma levelEach_steady l ps : quiet admitted (levelEach env l ps).
Proof.
  induction ps as [|p ps IH]; cbn [levelEach]; [exact Logic.I|]. apply quiet_bind; [steady|]. intros w.
  destruct (platform w p) as [q|]; [|done]. destruct (PluginManager.config _) as [c|]; [|done]. destruct (truthy _); [|done].
  apply quiet_bind; [steady|]. intros _. apply quiet_bind; [steady|]. intros _. apply quiet_bind; [done|]. intros b. steady.
Qed.
Hint Resolve levelEach_steady : steady.

Lemma setting_steady c data name v : quiet admitted (setting env c data name v).
Proof.
  unfold setting. apply chosen_all; [|steady]. unfold settings.
  repeat (apply Forall_cons; split; [intros _; cbn [snd]|]); [..|by constructor]. all: steady.
Qed.
Hint Resolve setting_steady : steady.

Lemma handler_steady c m : quiet admitted (wsMessageHandler env c m).
Proof.
  assert (Hd : forall data, quiet admitted (dispatch env c data)).
  { intros data. unfold dispatch. destruct (validMessage data); [|steady]. apply chosen_all; [|steady]. unfold methods.
    repeat (apply Forall_cons; split; [intros _; cbn [snd]|]); [..|by constructor]. all: steady. }
  unfold wsMessageHandler. apply quiet_catch; [|intros e; exact Logic.I]. destruct m as [[| | | | | |data]|]; try apply Hd; exact Logic.I.
Qed.

Lemma msgParams_steady msg ks : quiet admitted (msgParams msg ks).
Proof. induction ks as [|k ks IH]; cbn [msgParams]; [exact Logic.I|]. apply quiet_bind; [steady|]. intros v. apply quiet_bind; [done|]. intros vs. exact Logic.I. Qed.
Hint Resolve msgParams_steady : steady.

Lemma broadcast_steady msg : quiet admitted (broadcastMsgHandler env msg).
Proof.
  unfold broadcastMsgHandler. cbv zeta. apply quiet_bind.
  - unfold perhaps. destruct (Broadcast.isWorkerRequest _); [|exact Logic.I]. apply chosen_all; [|exact Logic.I]. unfold broadcastRequests.
    repeat (apply Forall_cons; split; [intros _; cbn [snd]|]); [..|by constructor]. all: steady.
    all: unfold refreshWith, snackbarWith, attributeWith, wssSendUpdateRequired, wssSendPluginUpdateRequired, wssSendPluginStatusUpdate,
      wssSendMatterbridgeStatusUpdate; admits.
  - intros _. unfold perhaps. destruct (_ && _); [|exact Logic.I]. apply quiet_modify. intros w.
    unfold handleSpawnResponse, handleArchiveResponse. admits.
Qed.

Lemma route_steady r : quiet admitted (route env r).
Proof. destruct r; cbn [route]; steady. Qed.

Lemma apiHandler_steady p method path query b : quiet admitted (apiHandler env p method path query b).
Proof. steady. Qed.
End Steady.

(** ** Who is answered *)

(** What happens at the servers: a login, an upgrade to a web socket, the end of a web
    socket, the timer, a message of a web socket, a broadcast message, a request for a
    protected route, and a request for a route of a plugin. *)
Inductive Task :=
  | Login (ip : option string) (reqBody : value)
  | Upgrade (isWebSocket : bool) (password ip : option string)
  | Close (c : nat)
  | Timer
  | Message (c : nat) (m : option value)
  | BroadcastMessage (msg : list (string * value))
  | Request (ip : option string) (r : Route)
  | PluginRequest (p : nat) (method : string) (path query reqBody : value).

Definition perform (env : Env) (t : Task) : async World (option Reply) :=
  match t with
  | Login ip b => r ← login ip b; mret (Some r)
  | Upgrade b password ip =>
      w ← ask;
      _ ← modify (fun w => fst (upgrade b password ip w));
      mret (option_map (fun s => mkReply s NoBody) (snd (upgrade b password ip w)))
  | Close c => _ ← modify (disconnect c); mret None
  | Timer => _ ← modify authClientsTimer; mret None
  | Message c m => _ ← wsMessageHandler env c m; mret None
  | BroadcastMessage msg => _ ← broadcastMsgHandler env msg; mret None
  | Request ip r => r ← serve env ip r; mret (Some r)
  | PluginRequest p method path query b => r ← apiHandler env p method path query b; mret (Some r)
  end.

(** The password that is set and the one that is given are the same, for an address;
    a login needs none if the empty one is set. *)
Definition grants (w : World) (ip : string) (t : Task) : bool :=
  let stored := storedPassword (auth w) in
  match t with
  | Login (Some a) b =>
      bool_decide (a = ip) && match getProp b "password" with Ok p => same stored (Str "") || same p stored | Throw _ => false end
  | Upgrade b p (Some a) => bool_decide (a = ip) && b && same (Str (default "" p)) stored
  | _ => false
  end.

Definition unauthorized : Reply := mkReply 401 (Json (Obj [("error", Str "Unauthorized")])).

Section Access.
Context (env : Env) (He : Discreet admitted env) (ip : string) (Hip : ip <> "").

Definition Out (w : World) : Prop := ip ∉ admitted w.

Lemma out_quiet {A} (m : async World A) : quiet admitted m -> keeps Out m.
Proof. apply quiet_keeps. intros w w' H. unfold Out. by rewrite H. Qed.

Lemma authorize_out a w : a <> Some ip -> Out w -> Out (authorize a w).
Proof.
  intros Ha. unfold Out, admitted, authorize. destruct a as [a|]; [|done]. destruct (truthy (Str a)); [|done]. cbn.
  rewrite elem_of_union, elem_of_singleton. intros H [->|?]; [by apply Ha|done].
Qed.

Lemma connect_admitted w : admitted (connect w) = admitted w.
Proof. unfold connect. cbv zeta. by destruct (clients (net w)). Qed.

Lemma disconnect_admitted c w : admitted (disconnect c w) = admitted w.
Proof. unfold disconnect. cbv zeta. destruct (clients _) as [cs|]; [|done]. by destruct (bool_decide _). Qed.

Lemma timer_out w : Out w -> Out (authClientsTimer w).
Proof.
  unfold authClientsTimer. cbv zeta. destruct (clients _) as [cs|]; [|done]. destruct (bool_decide _); [|done]. intros _.
  unfold Out, admitted. cbn. apply not_elem_of_empty.
Qed.

Lemma upgrade_out w b p a : grants w ip (Upgrade b p a) = false -> Out w -> Out (fst (upgrade b p a w)).
Proof.
  intros Hg Hw. unfold upgrade. destruct b; cbn [negb]; [|done]. destruct (same _ _) eqn:E; cbn [negb]; [|done].
  cbn [fst]. unfold Out. rewrite connect_admitted. apply authorize_out; [|done]. intros ->. cbn [grants] in Hg.
  by rewrite E, bool_decide_eq_true_2 in Hg.
Qed.

(** A task of which the password is wrong. *)
Lemma first_segment w t w' m' :
  grants w ip t = false -> Out w -> segment (perform env t) w = (w', m') -> Out w' /\ keeps Out m'.
Proof.
  intros Hg Hw Hs. destruct t as [a b|b p a|c| |c m|msg|a r|p method path query b].
  - cbn in Hs. unfold login in Hs. destruct (getProp b "password") as [pw|e] eqn:Ep; cbn in Hs; [|by injection Hs as <- <-].
    destruct (_ || _) eqn:E; cbn in Hs; injection Hs as <- <-; [|done]. split; [|done]. apply authorize_out; [|done]. intros ->.
    cbn [grants] in Hg. by rewrite Ep, E, bool_decide_eq_true_2 in Hg.
  - cbn in Hs. injection Hs as <- <-. split; [by apply upgrade_out|done].
  - cbn in Hs. injection Hs as <- <-. split; [|done]. unfold Out. by rewrite disconnect_admitted.
  - cbn in Hs. injection Hs as <- <-. split; [by apply timer_out|done].
  - eapply keeps_segment; [|exact Hw|exact Hs]. apply keeps_bind; [apply out_quiet; by apply handler_steady|done].
  - eapply keeps_segment; [|exact Hw|exact Hs]. apply keeps_bind; [apply out_quiet; by apply broadcast_steady|done].
  - eapply keeps_segment; [|exact Hw|exact Hs]. apply keeps_bind; [|done]. apply out_quiet. unfold serve, protect.
    apply quiet_bind; [intros x; exact Logic.I|]. intros x. destruct (validateReq _ _); [by apply route_steady|exact Logic.I].
  - eapply keeps_segment; [|exact Hw|exact Hs]. apply keeps_bind; [apply out_quiet; by apply apiHandler_steady|done].
Qed.

(** A task that has not started, or one that grants nothing to the address. *)
Definition Good (t : Task) (m : async World (option Reply)) : Prop :=
  m = perform env t \/ keeps Out m /\ (forall r, t = Request (Some ip) r -> m = Ret (Some unauthorized)).

Lemma request_refused r w : Out w -> segment (perform env (Request (Some ip) r)) w = (w, Ret (Some unauthorized)).
Proof.
  intros Hw. cbn. unfold serve, protect. cbn. rewrite (bool_decide_eq_false_2 (ip ∈ _)) by exact Hw.
  unfold truthy. by destruct ip.
Qed.

Lemma good_segment w t m w' m' :
  (m = perform env t -> grants w ip t = false) -> Out w -> Good t m -> segment m w = (w', m') -> Out w' /\ Good t m'.
Proof.
  intros Hg Hw [->|[Hm Hr]] Hs.
  - destruct (first_segment w t w' m') as [Hw' Hm']; [by apply Hg|done|done|]. split; [done|]. right. split; [done|].
    intros r ->. rewrite request_refused in Hs by done. by injection Hs as <- <-.
  - destruct (keeps_segment Out m w w' m' Hm Hw Hs) as [Hw' Hm']. split; [done|]. right. split; [done|].
    intros r Ht. specialize (Hr r Ht) as ->. by injection Hs as <- <-.
Qed.
End Access.

(** A state between two others at which a task that has not started grants access. *)
Definition Granted (env : Env) (ip : string) (tasks : list Task) (s s' : World * list (async World (option Reply))) : Prop :=
  exists w pool j t, rtc turn s (w, pool) /\ rtc turn (w, pool) s' /\
    tasks !! j = Some t /\ pool !! j = Some (perform env t) /\ grants w ip t = true.

Lemma access_turns env ip tasks w w' pool' :
  Discreet admitted env -> ip <> "" -> ip ∉ admitted w -> rtc turn (w, map (perform env) tasks) (w', pool') ->
  Granted env ip tasks (w, map (perform env) tasks) (w', pool') \/ Out ip w' /\ Forall2 (Good env ip) tasks pool'.
Proof.
  intros He Hip Hw. set (s := (w, map (perform env) tasks)).
  enough (H : forall s', rtc turn s s' -> Granted env ip tasks s s' \/ Out ip (fst s') /\ Forall2 (Good env ip) tasks (snd s')) by apply (H (w', pool')).
  apply (rtc_ind_r (fun s' => Granted env ip tasks s s' \/ Out ip (fst s') /\ Forall2 (Good env ip) tasks (snd s'))).
  { right. split; [done|]. apply Forall2_fmap_r, Forall_Forall2_diag, Forall_true. intros t. by left. }
  intros s1 s2 Hr Ht [(w2 & pool2 & j & t & H1 & H2 & H3)|[Hout Hgood]].
  { left. exists w2, pool2, j, t. split; [done|]. split; [by eapply rtc_r|done]. }
  destruct Ht as [w1 pre m post w3 m' Hs]. cbn [fst snd] in *.
  apply Forall2_app_inv_r in Hgood as (tpre & tpost & Hpre & Hpost & ->).
  apply Forall2_cons_inv_r in Hpost as (t & tpost' & Hm & Hpost & ->).
  destruct (grants w1 ip t) eqn:Eg; [destruct Hm as [->|Hm]|].
  - left. exists w1, (pre ++ perform env t :: post)%list, (length tpre), t. split; [done|]. split; [by apply rtc_once|].
    split; [by apply list_lookup_middle|]. split; [apply list_lookup_middle; by eapply Forall2_length|done].
  - right. destruct Hm as [Hm _]. destruct (keeps_segment (Out ip) m w1 w3 m' Hm Hout Hs) as [Hw' Hm']. split; [done|].
    apply Forall2_app; [done|]. constructor; [|done]. right. split; [done|]. by intros r ->.
  - right. destruct (good_segment env He ip Hip w1 t m w3 m') as [Hw' Hm']; [done..|]. split; [done|].
    apply Forall2_app; [done|]. by constructor.
Qed.


(** *** An example *)

Lemma sampleFrontend_steady : Discreet admitted sampleFrontend.
Proof. split; try (intros; exact Logic.I). intros type dst params. cbn [fetch sampleFrontend]. unfold localFetch. cbv zeta. quieting; apply onApp_steady. Qed.

(** A wrong and a right login of two addresses. *)
Definition someLogins : list Task :=
  [Login (Some "10.0.0.1") (Obj [("password", Str "guess")]); Login (Some "10.0.0.2") (Obj [("password", Str "secret")]);
   Request (Some "10.0.0.1") DownloadBackup; Request (Some "10.0.0.2") DownloadBackup].
Definition protected : World := setPassword (Str "secret") sampleClients.
Definition loggedIn : World * list (async World (option Reply)) :=
  schedule [0; 1; 2; 3]%nat protected (map (perform sampleFrontend) someLogins).


Lemma loggedIn_answered : snd loggedIn !! 3%nat = Some (Ret (Some (mkReply 200 (File "/tmp/matterbridge.backup.zip")))).
Proof. by vm_compute. Qed.
