(* ===== verification/FrontendShown.v ===== *)
(** What the frontend shows: the texts of the log, the batteries of devices, and the
    flags of the web application. *)
From S2P Require Import Prelude JsString JsNumber JsValue JsMap NodePath Async Wait Validate Broadcast DeviceManager PluginManager CommandLine.
From S2P Require Import Bridge Matterbridge Platform Behaviors ClusterServers ClusterServerFacts Frontend FrontendApi FrontendFacts.
From stdpp Require Import gmap.
#[local] Open Scope string_scope.
#[local] Open Scope Z_scope.
Import Frontend FrontendApi.

(** ** Texts of the log *)

Fixpoint strAll (p : Ascii.ascii -> bool) (s : string) : bool :=
  match s with EmptyString => true | String a s => p a && strAll p s end.

Lemma strAll_keep p s : strAll p (strKeep p s) = true.
Proof. induction s as [|a s IH]; cbn; [done|]. destruct (p a) eqn:E; cbn; [by rewrite E|done]. Qed.

Lemma strKeep_all p s : strAll p s = true -> strKeep p s = s.
Proof. induction s as [|a s IH]; cbn; [done|]. destruct (p a); cbn; [|done]. intros H. by rewrite IH. Qed.

Lemma strAll_mono (p q : Ascii.ascii -> bool) s : (forall a, p a = true -> q a = true) -> strAll p s = true -> strAll q s = true.
Proof. intros H. induction s as [|a s IH]; cbn; [done|]. intros [Ha Hs]%andb_true_iff. by rewrite (H a Ha), IH. Qed.

Lemma strAll_app p s t : strAll p (s ++ t) = strAll p s && strAll p t.
Proof. induction s as [|a s IH]; [done|]. change (p a && strAll p (s ++ t) = p a && strAll p s && strAll p t). by rewrite IH, andb_assoc. Qed.

Lemma strAll_take p n s : strAll p s = true -> strAll p (strTake n s) = true.
Proof. unfold strTake. revert n. induction s as [|a s IH]; intros [|n]; cbn; try done. intros [-> H]%andb_true_iff. by apply IH. Qed.

Lemma strAll_drop p n s : strAll p s = true -> strAll p (strDrop n s) = true.
Proof. revert s. induction n as [|n IH]; intros [|a s]; cbn; try done. intros [_ H]%andb_true_iff. by apply IH. Qed.

(** Texts two characters at a time. *)
Lemma string_pairs (P : string -> Prop) :
  P "" -> (forall a, P (String a "")) -> (forall a b s, P s -> P (String b s) -> P (String a (String b s))) -> forall s, P s.
Proof. intros H0 H1 H2 s. enough (P s /\ forall a, P (String a s)) by tauto. induction s as [|b s [IH1 IH2]]; auto. Qed.

Lemma strAll_unescape p s : strAll p s = true -> strAll p (unescapeQuotes s) = true.
Proof.
  pattern s. revert s. apply string_pairs; [done|by intros a H|]. intros a b s IH1 IH2 [Ha [Hb Hs]%andb_true_iff]%andb_true_iff.
  cbn [unescapeQuotes]. destruct (_ && _); cbn [strAll].
  - by rewrite Hb, IH1.
  - rewrite Ha. apply IH2. cbn. by rewrite Hb.
Qed.

(** A backslash in front of a quote. *)
Fixpoint escaped (s : string) : bool :=
  match s with String a (String b _ as t) => charIs 92 a && charIs 34 b || escaped t | _ => false end.

Lemma unescape_none s : escaped s = false -> unescapeQuotes s = s.
Proof.
  pattern s. revert s. apply string_pairs; [done|by intros a|]. intros a b s _ IH. cbn [escaped unescapeQuotes]. intros [-> H]%orb_false_iff.
  f_equal. by apply IH.
Qed.

(** *** Words *)

Definition space : Ascii.ascii := Ascii.ascii_of_N 32.
Definition noSpace (a : Ascii.ascii) : bool := negb (charIs 32 a).

Lemma split_nonempty s : splitSpaces s <> [].
Proof. destruct s as [|a s]; cbn; [done|]. destruct (charIs 32 a); [done|]. by destruct (splitSpaces s). Qed.

Lemma split_noSpace s : strAll noSpace s = true -> splitSpaces s = [s].
Proof. induction s as [|a s IH]; cbn; [done|]. unfold noSpace at 1. destruct (charIs 32 a); cbn; [done|]. intros H. by rewrite IH. Qed.

Lemma split_words p s : strAll p s = true -> Forall (fun x => strAll noSpace x = true /\ strAll p x = true) (splitSpaces s).
Proof.
  induction s as [|a s IH]; cbn; [by constructor|]. intros [Ha Hs]%andb_true_iff. specialize (IH Hs). destruct (charIs 32 a) eqn:E; [by constructor|].
  destruct IH as [|x l [H1 H2] IH]; constructor; try done; unfold noSpace in *; cbn; rewrite ?E, ?Ha; done.
Qed.

Lemma split_join l : l <> [] -> splitSpaces (joinSpaces l) = concat (map splitSpaces l).
Proof.
  assert (Happ : forall x y, splitSpaces (x ++ String space y) = (splitSpaces x ++ splitSpaces y)%list).
  { induction x as [|a x IH]; intros y; [done|]. change (String a x ++ String space y) with (String a (x ++ String space y)). cbn [splitSpaces]. rewrite IH. destruct (charIs 32 a); [done|].
    destruct (splitSpaces x) eqn:E; [by destruct (split_nonempty x)|done]. }
  induction l as [|x l IH]; [done|]. intros _. cbn [joinSpaces map concat]. destruct l as [|y l]; [by rewrite app_nil_r|].
  change (" " ++ joinSpaces (y :: l)) with (String space (joinSpaces (y :: l))). rewrite Happ. by rewrite IH.
Qed.

Lemma join_split s : joinSpaces (splitSpaces s) = s.
Proof.
  induction s as [|a s IH]; [done|]. cbn [splitSpaces]. destruct (charIs 32 a) eqn:E.
  - apply N.eqb_eq in E. assert (a = space) as -> by (by rewrite <- (Ascii.ascii_N_embedding a), E). cbn [joinSpaces]. destruct (splitSpaces s) eqn:Es; [by destruct (split_nonempty s)|]. by rewrite IH.
  - destruct (splitSpaces s) as [|x l] eqn:Es; [by destruct (split_nonempty s)|]. cbn [joinSpaces] in *. destruct l; by rewrite <- IH.
Qed.

Lemma join_all p l : p space = true -> Forall (fun x => strAll p x = true) l -> strAll p (joinSpaces l) = true.
Proof.
  intros Hp. induction 1 as [|x l Hx Hl IH]; [done|]. cbn [joinSpaces]. destruct l; [done|]. rewrite !strAll_app, Hx, IH.
  change (strAll p " ") with (p space && true). by rewrite Hp.
Qed.

(** *** Words that are short *)

Definition short (x : string) : Prop := (String.length x <= maxContinuousLength)%nat.

Lemma take_length n s : (String.length (strTake n s) <= n)%nat.
Proof. unfold strTake. revert n. induction s as [|a s IH]; intros [|n]; cbn; try lia. apply le_n_S, IH. Qed.
Lemma drop_length n s : String.length (strDrop n s) = (String.length s - n)%nat.
Proof. revert s. induction n as [|n IH]; intros [|a s]; cbn; try lia. apply IH. Qed.

Lemma shorten_words x : strAll noSpace x = true -> Forall short (splitSpaces (shorten x)).
Proof.
  intros Hx. unfold shorten. destruct (Nat.ltb_spec maxContinuousLength (String.length x)) as [Hl|Hl].
  - replace (_ ++ _) with (joinSpaces [strTake keepStartLength x; "..."; strDrop (String.length x - keepEndLength) x]) by done.
    rewrite split_join by done. cbn [map concat]. rewrite !split_noSpace; [|by apply strAll_drop|done|by apply strAll_take].
    cbn [Datatypes.app]. rewrite !Forall_cons. unfold short. split_and!; [..|done].
    + pose proof (take_length keepStartLength x). unfold keepStartLength, maxContinuousLength in *. lia.
    + cbn. unfold maxContinuousLength. lia.
    + rewrite drop_length. unfold keepEndLength, maxContinuousLength in *. lia.
  - rewrite split_noSpace by done. by constructor.
Qed.

Lemma shorten_all p x : strAll p " ... " = true -> strAll p x = true -> strAll p (shorten x) = true.
Proof.
  intros Hp Hx. unfold shorten. destruct (_ <? _)%nat; [|done]. rewrite !strAll_app, Hp, strAll_take, strAll_drop by done. done.
Qed.

Definition printable (a : Ascii.ascii) : bool := negb (isControl a).

Lemma stripAnsi_none s : strAll printable s = true -> stripAnsi 0 s = s.
Proof.
  induction s as [|a s IH]; [done|]. cbn [strAll]. intros [Ha Hs]%andb_true_iff. cbn [stripAnsi].
  replace (ansiLength (String a s)) with (@None nat); [by rewrite IH|]. destruct s as [|b s]; [done|]. cbn [ansiLength].
  destruct (charIs 27 a) eqn:E; [|done]. apply N.eqb_eq in E. unfold printable, isControl in Ha. rewrite E in Ha. done.
Qed.



(** ** Batteries and mains *)

(** The three kinds of battery, and what an endpoint is given for them. *)
Definition batteries (percent level voltage : value) : list (Behaviors.World -> Behaviors.World) :=
  [ClusterServers.createDefaultPowerSourceBatteryClusterServer percent level voltage Undefined;
   ClusterServers.createDefaultPowerSourceReplaceableBatteryClusterServer percent level voltage Undefined Undefined Undefined;
   ClusterServers.createDefaultPowerSourceRechargeableBatteryClusterServer percent level voltage Undefined].

(** The names of the levels. *)
Definition levelShown (level : string) : string :=
  if bool_decide (level = "Ok") then "ok" else if bool_decide (level = "Warning") then "warning" else "critical".

Lemma double_half n : (Z.min (Z.max (n * 2) 0) 200) / 2 = Z.min (Z.max n 0) 100 /\ Z.odd (Z.min (Z.max (n * 2) 0) 200) = false.
Proof.
  replace (Z.min (Z.max (n * 2) 0) 200) with (2 * Z.min (Z.max n 0) 100) by lia. split; [rewrite Z.mul_comm; by apply Z.div_mul|].
  by rewrite Z.odd_mul.
Qed.

(** What an endpoint is given for a battery is what the web application shows of
    it: the percentage, cut to 0 and 100, and the level of charge. *)
Theorem battery_roundtrip (env : Env) (w : World) (d : nat) (b : Behaviors.World) (n : Z) (level : string) (voltage : value)
    (give : Behaviors.World -> Behaviors.World) :
  hasCleanupStarted w = false -> inactive (view env w d) = false -> Behaviors.servers b !! "PowerSource" = None ->
  level ∈ ["Ok"; "Warning"; "Critical"] -> give ∈ batteries (Num n) (Behaviors.enum "BatChargeLevel" level) voltage -> own (view env w d) = give b ->
  getBatteryLevel env w d = Some (Z.min (Z.max n 0) 100, false) /\ getPowerSource env w d = Str (levelShown level).
Proof.
  intros Hc Hi Hb Hl Hg Ho. unfold getBatteryLevel, getPowerSource, onPowerSource. rewrite Hc, Hi, Ho. cbn [orb List.find].
  destruct (double_half n) as [H1 H2].
  assert (Hs : hasServer (give b) "PowerSource" = true /\
               (exists f, Behaviors.attr (give b) "PowerSource" "featureMap" = Obj (("battery", Bool true) :: f) /\ getField "wired" f = Undefined) /\
               Behaviors.attr (give b) "PowerSource" "batPercentRemaining" = Num (Z.min (Z.max (n * 2) 0) 200) /\
               Behaviors.attr (give b) "PowerSource" "batChargeLevel" = Behaviors.enum "BatChargeLevel" level).
  { unfold hasServer, Behaviors.attr, Behaviors.attributes.
    repeat (apply elem_of_cons in Hg as [->|Hg]); [..|by apply elem_of_nil in Hg].
    all: unfold ClusterServers.createDefaultPowerSourceBatteryClusterServer, ClusterServers.createDefaultPowerSourceReplaceableBatteryClusterServer,
      ClusterServers.createDefaultPowerSourceRechargeableBatteryClusterServer.
    all: rewrite server_lookup by done. all: split; [done|]. all: split; [by eexists|by split]. }
  destruct Hs as (-> & (f & Hf & Hw) & Hp & Hv). unfold batteryLevel, powerSource. rewrite Hf, Hp, Hv. cbn [optProp getField].
  rewrite bool_decide_eq_true_2, (bool_decide_eq_false_2 ("wired" = "battery")), Hw by done. cbn [truthy]. rewrite H1, H2.
  split; [done|]. repeat (apply elem_of_cons in Hl as [->|Hl]); [done..|by apply elem_of_nil in Hl].
Qed.

Definition poweredView : View :=
  mkView true true Undefined
    (ClusterServers.createDefaultPowerSourceReplaceableBatteryClusterServer (Num 130) (Behaviors.enum "BatChargeLevel" "Warning") Undefined
       Undefined Undefined Undefined (Behaviors.mkWorld ∅ [] [] true)) [].
Definition poweredFrontend : Env :=
  let e := sampleFrontend in
  mkEnv (application e) (fetch e) (readText e) (fileExists e) (rename e) (createServer e) (tmpdir e) (nodeState e) (nodeCall e) (hasFabric e)
    (fun _ _ => poweredView) (onAction e) (onFetch e) (onChangeLoggerLevel e) (selects e) (sortByName e) (levelName e) (generateDiagnostic e)
    (generateHistoryPage e) (FORBIDDEN_PASSCODES e) (vendorName e) (systemInformation e) (clusterText e) (clusterList e) (errorText e) (now e).

Lemma battery_roundtrip_witness :
  getBatteryLevel poweredFrontend sampleClients 0 = Some (Z.min (Z.max 130 0) 100, false) /\
  getPowerSource poweredFrontend sampleClients 0 = Str (levelShown "Warning").
Proof.
  apply (battery_roundtrip poweredFrontend sampleClients 0 (Behaviors.mkWorld ∅ [] [] true) 130 "Warning" Undefined
    (ClusterServers.createDefaultPowerSourceReplaceableBatteryClusterServer (Num 130) (Behaviors.enum "BatChargeLevel" "Warning") Undefined
       Undefined Undefined Undefined)); [by vm_compute..| | |reflexivity].
  - apply (bool_decide_unpack _). by vm_compute.
  - right. left.
Defined.

(** ** Flags *)

Lemma broadcast_flags m w : flags (wssBroadcastMessage m w) = flags w /\ silent (wssBroadcastMessage m w) = silent w.
Proof. unfold wssBroadcastMessage. by destruct (silent w) eqn:E. Qed.

Lemma snackbar_flags text t s w : flags (wssSendSnackbarMessage text t s w) = flags w /\ silent (wssSendSnackbarMessage text t s w) = silent w.
Proof. unfold wssSendSnackbarMessage. destruct (silent w) eqn:E; [done|]. rewrite <- E. apply broadcast_flags. Qed.

Lemma restart_flags b f w :
  silent w = false ->
  flags (wssSendRestartRequired b f w) = mkFlags true f (updateRequired (flags w)) /\ silent (wssSendRestartRequired b f w) = false.
Proof.
  intros Hs. unfold wssSendRestartRequired. rewrite Hs. cbv zeta. set (w1 := setFlags _ w). unfold broadcast.
  destruct (broadcast_flags (message "restart_required" [("response", Obj [("fixed", Bool f)])]) (if b then wssSendSnackbarMessage "Restart required" 0 "info" w1 else w1)) as [-> ->].
  destruct b; [|done]. by destruct (snackbar_flags "Restart required" 0 "info" w1) as [-> ->].
Qed.

(** The flag of a restart that is fixed, which is documented never to be unset, is
    unset by the next restart that is not. *)
Theorem fixed_unset (w : World) :
  silent w = false ->
  fixedRestartRequired (flags (wssSendRestartRequired true true w)) = true /\
  fixedRestartRequired (flags (wssSendRestartRequired true false (wssSendRestartRequired true true w))) = false.
Proof.
  intros Hs. destruct (restart_flags true true w Hs) as [Hf Hs']. rewrite Hf. split; [done|]. by rewrite (proj1 (restart_flags true false _ Hs')).
Qed.

(** While no client is connected the need for a restart is forgotten. *)
Theorem restart_forgotten (w : World) (snackbar fixed : bool) :
  clients (net w) = Some ∅ -> wssSendRestartRequired snackbar fixed w = w.
Proof. intros Hc. unfold wssSendRestartRequired, silent. by rewrite Hc, bool_decide_eq_true_2, orb_true_r. Qed.

(** ** Names *)

(** The name of an uploaded package is joined to the directory for uploads as it is:
    it may lead out of that directory. *)
Theorem upload_escapes :
  moved (fst (run (uploadpackage sampleFrontend (Some "/tmp/upload") (Str "../../../etc/profile.d/x.sh")) sampleClients)) =
  [("/tmp/upload", "/etc/profile.d/x.sh")].
Proof. by vm_compute. Qed.

(** Of the name of a package with a scope nothing is left. *)
Theorem scoped_name_lost (scope name : string) :
  noBreak (scope ++ "/" ++ name) = true -> removeVersion ("@" ++ scope ++ "/" ++ name) = "".
Proof.
  intros H. change (removeVersion (String (Ascii.ascii_of_N 64) (scope ++ "/" ++ name)) = "").
  cbn [removeVersion]. rewrite H. done.
Qed.

(** ** The end of the servers *)

(** [stop] leaves no server, no client and nothing that listens, and is what the
    application relies on. *)
Theorem stop_stops (shut : bool) (w : World) :
  httpServer (net w) = true \/ httpsServer (net w) = true ->
  let w' := fst (run (stop shut) w) in
  net w' = net (stopped w) /\ listening (net w') = false /\ clients (net w') = None /\
  (forall c s, c ∈ default ∅ (clients (net w)) -> sockets (net w') !! c = Some s -> isOpen s = false).
Proof.
  intros H. cbv zeta.
  assert (Hn : net (fst (run (stop shut) w)) = net (stopped w)).
  { destruct w as [a [p l s cs h1 h2] au fl le ad po em te mo sa]. cbn in H. unfold stopped. cbn.
    destruct cs as [cs|]; cbn; [destruct shut|]; cbn; destruct h1, h2; cbn; rewrite ?andb_true_r, ?andb_false_r; try done; try (by destruct H).
    all: f_equal. all: apply map_eq; intros c; rewrite map_lookup_imap; destruct (s !! c) as [[]|]; cbn; [|done].
    all: by rewrite bool_decide_eq_false_2. }
  rewrite Hn. split; [done|]. unfold stopped. cbn. split; [by destruct H as [-> | ->]; rewrite ?orb_true_r, andb_false_r|]. split; [done|].
  intros c s Hc. rewrite map_lookup_imap. destruct (sockets (net w) !! c) as [s'|]; cbn; [|done]. rewrite bool_decide_eq_true_2 by done.
  intros E. by injection E as <-.
Qed.
