(* ===== verification/Network.v ===== *)
(** Network interfaces and sockets: the addresses that
    [packages/utils/src/network.ts] and [packages/dgram/src/dgram.ts] choose, and the
    unicast and multicast sockets of [unicast.ts] and [multicast.ts]. *)
From S2P Require Import Prelude Buffer JsString JsNumber JsRegExp.
#[local] Open Scope Z_scope.

Module Network.

(** ** Interfaces *)

(** [os.NetworkInterfaceInfo]. *)
Inductive Family := IPv4 | IPv6.
#[export] Instance Family_eq : EqDecision Family.
Proof. solve_decision. Defined.

Record Address := mkAddress {
  family : Family; address : jsstr; netmask : jsstr; mac : jsstr; internal : bool; scopeid : option Z
}.

(** The entries of [os.networkInterfaces()]: names are distinct and none is that of a
    property of all objects. *)
Abbreviation interfaces := (list (jsstr * option (list Address))) (only parsing).

Definition nonEmpty (s : jsstr) : bool := match s with [] => false | _ => true end.
(** [${n}]. *)
Definition decimal (n : Z) : jsstr := if n <? 0 then js "-" ++ dec (- n) else dec n.

Definition space : re := Char isSpace.                                     (* \s *)
Definition alnumI : re := Char (fun u => range 48 57 u || range 97 122 (lower u)).   (* [a-z0-9], flag i *)
Definition bounded (s : string) (r : re) : re := Seq Boundary (Seq (wordI s) (Seq r Boundary)).
Definition words (l : list string) : list re := map wordI l.

Definition external (f : Family) (a : Address) : bool := bool_decide (family a = f) && negb (internal a).
Definition lookupName (ifs : interfaces) (n : jsstr) : option (list Address) :=
  match List.find (fun e => bool_decide (fst e = n)) ifs with Some (_, l) => l | None => None end.

(** ** dgram.ts *)

Module Dgram.

Definition excludedInterfaceNamePattern : re :=
  alternatives
    (words ["tailscale"; "wireguard"; "wintun"; "openvpn"] ++
     [bounded "wg" (Star digit); bounded "tun" (Star digit); bounded "tap" (Star digit); bounded "utun" (Star digit)] ++
     words ["zerotier"; "hamachi"] ++ [Seq (wordI "hyper") (Seq (opt (litI 45)) (wordI "v")); Seq (wordI "v") (Seq (Star space) (wordI "ethernet"))] ++
     words ["wsl"; "default switch"; "vmware"; "vmnet"; "vbox"; "virtualbox"; "virbr"; "docker"; "podman"] ++
     [bounded "veth" Eps; bounded "br-" Eps] ++ words ["cni"; "kube"; "flannel"; "calico"; "teredo"; "isatap"]).
Definition excluded (n : jsstr) : bool := test excludedInterfaceNamePattern n.

Section Interfaces.
Context (ifs : interfaces) (win32 : bool).

(** The first interface with an external address of the family. *)
Fixpoint firstExternal (f : Family) (l : interfaces) : option jsstr :=
  match l with
  | [] => None
  | (name, details) :: l =>
      if excluded name then firstExternal f l
      else match details with
           | Some d => if existsb (external f) d && nonEmpty name then Some name else firstExternal f l
           | None => firstExternal f l
           end
  end.

(** The interface that is asked for, if there is one, or else the first. *)
Definition chosenInterface (f : Family) (networkInterface : option jsstr) : option jsstr :=
  let n := match networkInterface with Some n => if nonEmpty n then Some n else None | None => None end in
  let n := match n with Some n => match lookupName ifs n with Some _ => Some n | None => None end | None => None end in
  match n with Some n => Some n | None => firstExternal f ifs end.

Definition addressesOf (n : jsstr) : list Address := default [] (lookupName ifs n).

Definition getIpv4InterfaceAddress (networkInterface : option jsstr) : res jsstr :=
  match chosenInterface IPv4 networkInterface with
  | None => Throw (Error (js "Didn't find an external IPv4 network interface"))
  | Some n =>
      match List.find (external IPv4) (addressesOf n) with
      | Some a => Ok (address a)
      | None => Throw (Error (js "Interface " ++ n ++ js " does not have an external IPv4 address"))
      end
  end.

Definition linkLocal (a : Address) : bool := external IPv6 a && startsWith (address a) (js "fe80").
Definition uniqueLocal (a : Address) : bool := external IPv6 a && startsWith (address a) (js "fd").
Definition prefix64 (a : Address) : bool := bool_decide (netmask a = js "ffff:ffff:ffff:ffff::").

(** [if (scopeid)]: 0 counts as none. *)
Definition scoped (a : Address) : option Z := match scopeid a with Some 0 => None | s => s end.

Definition getIpv6InterfaceAddress (networkInterface : option jsstr) : res jsstr :=
  match chosenInterface IPv6 networkInterface with
  | None => Throw (Error (js "Didn't find an external IPv6 network interface"))
  | Some n =>
      let l := addressesOf n in
      match List.find linkLocal l with
      | Some a => Ok (match scoped a with
                      | Some s => address a ++ js "%" ++ (if win32 then decimal s else n)
                      | None => address a
                      end)
      | None =>
          match List.find (fun a => uniqueLocal a && prefix64 a) l with
          | Some a => Ok (address a)
          | None =>
              match List.find uniqueLocal l with
              | Some a => Ok (address a)
              | None => Throw (Error (js "Interface " ++ n ++ js " does not have a suitable external IPv6 address"))
              end
          end
      end
  end.

Definition getInterfacesNames : list jsstr := map fst (List.filter (fun e => match snd e with Some _ => true | None => false end) ifs).

Fixpoint scopeIdOf (interfaceName : option jsstr) (l : interfaces) : jsstr :=
  match l with
  | [] => []
  | (name, details) :: l =>
      let skip := match interfaceName with
                  | Some n => if nonEmpty n then negb (bool_decide (name = n)) else excluded name
                  | None => excluded name
                  end in
      if skip then scopeIdOf interfaceName l
      else match List.find (fun a => external IPv6 a && match scoped a with Some _ => true | None => false end) (default [] details) with
           | Some a => js "%" ++ (if win32 then decimal (default 0 (scopeid a)) else name)
           | None => scopeIdOf interfaceName l
           end
  end.
Definition getIpv6ScopeId (interfaceName : option jsstr) : jsstr := scopeIdOf interfaceName ifs.

Definition hasScopeId (scopeId : Z) (a : Address) : bool := bool_decide (family a = IPv6) && bool_decide (scopeid a = Some scopeId).
Definition getInterfaceNameFromScopeId (scopeId : Z) : option jsstr :=
  option_map fst (List.find (fun e => existsb (hasScopeId scopeId) (default [] (snd e))) ifs).

(** All the addresses, in the order of the interfaces. *)
Definition allAddresses : list Address := concat (map (fun e => default [] (snd e)) ifs).
Definition getNetmask (interfaceAddress : jsstr) : option jsstr :=
  let noZone := default [] (head (splitChar 37 interfaceAddress)) in
  option_map netmask (List.find (fun a => bool_decide (address a = noZone)) allAddresses).
End Interfaces.

(** [ToInt32(x)], which bit operations apply to their operands. *)
Definition wrap32 (n : Z) : Z := let u := n mod 2 ^ 32 in if 2 ^ 31 <=? u then u - 2 ^ 32 else u.
Definition toInt32 (x : double) : Z :=
  match x with DFin m e => wrap32 (Z.quot (m * 2 ^ Z.max 0 e) (2 ^ Z.max 0 (- e))) | _ => 0 end.
(** [n - x]. *)
Definition minus (n : Z) (x : double) : double :=
  match x with
  | DNaN => DNaN
  | DInf s => DInf (negb s)
  | DFin m e =>
      let q := 2 ^ Z.max 0 (- e) in
      let p := n * q - m * 2 ^ Z.max 0 e in
      if p <? 0 then negate (toDouble (- p) q) else toDouble p q
  end.

(** [(octet & mask) | (255 - mask)]; a mask that is not there is undefined. *)
Definition broadcastPart (octet : double) (mask : option double) : Z :=
  let m := default DNaN mask in Z.lor (Z.land (toInt32 octet) (toInt32 m)) (toInt32 (minus 255 m)).

Definition getIpv4BroadcastAddress (ipAddress mask : option jsstr) : option jsstr :=
  match ipAddress, mask with
  | Some ip, Some m =>
      if nonEmpty ip && nonEmpty m then
        let ipParts := map toNumber (splitChar 46 ip) in
        let maskParts := map toNumber (splitChar 46 m) in
        Some (joinWith (js ".") (map decimal (imap (fun i octet => broadcastPart octet (maskParts !! i)) ipParts)))
      else None
  | _, _ => None
  end.

Definition getIpv6BroadcastAddress : jsstr := js "ff02::1".
End Dgram.

(** ** network.ts *)

Definition excludedInterfaceNamePattern : re :=
  alternatives
    (words ["tailscale"; "wireguard"; "openvpn"; "zerotier"; "hamachi"] ++
     [bounded "wg" (plus digit); bounded "tun" (plus digit); bounded "tap" (plus digit); bounded "utun" (plus digit)] ++
     words ["docker"; "podman"] ++ [bounded "veth" (Star alnumI); bounded "br-" (plus alnumI)] ++
     words ["cni"; "kube"; "flannel"; "calico"] ++ [Seq (wordI "virbr") (Seq (Star digit) Boundary)] ++ words ["vmware"] ++
     [Seq (wordI "vmnet") (Seq (Star digit) Boundary)] ++ words ["virtualbox"] ++ [Seq (wordI "vboxnet") (Seq (Star digit) Boundary)] ++
     words ["teredo"; "isatap"]).
Definition skipped (n : jsstr) : bool := negb (nonEmpty n) || test excludedInterfaceNamePattern n.

(** The addresses that are looked at, with the names of their interfaces. *)
Definition considered (ifs : interfaces) : list (jsstr * Address) :=
  concat (map (fun e => map (fun a => (fst e, a)) (default [] (snd e))) (List.filter (fun e => negb (skipped (fst e))) ifs)).

Record Details := mkDetails { interfaceName : jsstr; ipv4Address : option jsstr; ipv6Address : option jsstr; macAddress : option jsstr }.

(** [!x] for a text that may be undefined. *)
Definition absent (s : option jsstr) : bool := match s with Some s => negb (nonEmpty s) | None => true end.

Definition detailStep (r : Details) (e : jsstr * Address) : Details :=
  let '(n, a) := e in
  if internal a then r
  else
    let name := if nonEmpty (interfaceName r) then interfaceName r else n in
    let same := bool_decide (n = name) in
    mkDetails name
      (if same && absent (ipv4Address r) && bool_decide (family a = IPv4) then Some (address a) else ipv4Address r)
      (if same && absent (ipv6Address r) && bool_decide (family a = IPv6) then Some (address a) else ipv6Address r)
      (if same && absent (macAddress r) then Some (mac a) else macAddress r).

Section Considered.
Context (ifs : interfaces) (win32 : bool).

Definition getInterfaceDetails : option Details :=
  let r := foldl detailStep (mkDetails [] None None None) (considered ifs) in
  if nonEmpty (interfaceName r) then Some r else None.

Definition firstConsidered (p : Address -> bool) : option (jsstr * Address) := List.find (fun e => p (snd e)) (considered ifs).

Definition getInterfaceName : option jsstr := option_map fst (firstConsidered (fun a => negb (internal a))).
Definition getIpv4InterfaceAddress : option jsstr := option_map (fun e => address (snd e)) (firstConsidered (external IPv4)).
Definition getMacAddress : option jsstr := option_map (fun e => mac (snd e)) (firstConsidered (fun a => negb (internal a))).

Definition getIpv6InterfaceAddress (scope : bool) : option jsstr :=
  option_map
    (fun e =>
       let a := address (snd e) in
       if negb scope || bool_decide (37 ∈ a) then a
       else match (if win32 then option_map decimal (scopeid (snd e)) else Some (fst e)) with
            | Some zone => if nonEmpty zone then a ++ js "%" ++ zone else a
            | None => a
            end)
    (firstConsidered (external IPv6)).
End Considered.

(** ** Sockets *)

Inductive SocketType := udp4 | udp6.
#[export] Instance SocketType_eq : EqDecision SocketType.
Proof. solve_decision. Defined.

(** The calls of the socket and the events. *)
Inductive Call :=
  | Bind (port : option Z) (address : option jsstr)
  | SetBroadcast | SetTTL (n : Z) | SetMulticastTTL (n : Z) | SetMulticastLoopback
  | AddMembership (group i : jsstr) | DropMembership (group i : jsstr)
  | SetMulticastInterface (a : jsstr)
  | Close
  | Emit (event : string).

Record Socket := mkSocket {
  socketType : SocketType;
  name : option jsstr;
  interfaceAddress : option jsstr;
  interfaceNetmask : option jsstr;
  port : option Z;
  multicastAddress : jsstr;
  outgoingInterfaceAddress : option jsstr;
  joinedInterfaces : list jsstr;
  calls : list Call
}.

Definition setAddress (a m : option jsstr) (s : Socket) : Socket :=
  mkSocket (socketType s) (name s) a m (port s) (multicastAddress s) (outgoingInterfaceAddress s) (joinedInterfaces s) (calls s).
Definition setJoined (l : list jsstr) (s : Socket) : Socket :=
  mkSocket (socketType s) (name s) (interfaceAddress s) (interfaceNetmask s) (port s) (multicastAddress s) (outgoingInterfaceAddress s) l (calls s).
Definition call (c : list Call) (s : Socket) : Socket :=
  mkSocket (socketType s) (name s) (interfaceAddress s) (interfaceNetmask s) (port s) (multicastAddress s) (outgoingInterfaceAddress s)
    (joinedInterfaces s) (calls s ++ c).

Section Sockets.
Context (ifs : interfaces) (win32 : bool).

(** The address of the interface for the type of the socket. *)
Definition interfaceAddressOf (s : Socket) : res jsstr :=
  match socketType s with
  | udp4 => Dgram.getIpv4InterfaceAddress ifs (name s)
  | udp6 => Dgram.getIpv6InterfaceAddress ifs win32 (name s)
  end.

Definition named (s : Socket) : bool := match name s with Some n => nonEmpty n | None => false end.

Definition unicastStart (s : Socket) : res Socket :=
  a ← match interfaceAddress s with
      | Some a => Ok (Some a)
      | None => if named s then a ← interfaceAddressOf s; Ok (Some a) else Ok None
      end;
  let m := match a with Some a => if nonEmpty a then Dgram.getNetmask ifs a else None | None => None end in
  Ok (call [Bind (port s) a] (setAddress a m s)).

Definition unicastListening (s : Socket) : Socket := call [SetBroadcast; Emit "ready"] s.
Definition unicastStop (s : Socket) : Socket := call [Close] s.

Definition multicastStart (s : Socket) : res Socket :=
  a ← match interfaceAddress s with Some a => Ok a | None => interfaceAddressOf s end;
  Ok (call [Bind (port s) (Some a)] (setAddress (Some a) (interfaceNetmask s) s)).

(** The address and the zone. *)
Definition zoned (n : jsstr) (a : Address) : jsstr :=
  address a ++ match scopeid a with Some z => js "%" ++ (if win32 then decimal z else n) | None => [] end.

(** The interface that joins the group: what is found last takes the place of what
    was found before. *)
Definition membershipInterface (t : SocketType) (n : jsstr) (l : list Address) : option jsstr :=
  match t with
  | udp4 => option_map address (List.find (fun a => bool_decide (family a = IPv4)) l)
  | udp6 =>
      let v6 a := bool_decide (family a = IPv6) in
      let fd a := v6 a && startsWith (address a) (js "fd") in
      let found := [List.find v6 l; List.find fd l; List.find (fun a => fd a && Dgram.prefix64 a) l;
                    List.find (fun a => v6 a && startsWith (address a) (js "fe80")) l] in
      option_map (zoned n) (last (omap (fun a => a) found))
  end.

(** [joins] tells which memberships the system accepts. *)
Definition join (joins : jsstr -> bool) (s : Socket) (e : jsstr * option (list Address)) : Socket :=
  let '(n, details) := e in
  match details with
  | None => s
  | Some l =>
      if named s && negb (bool_decide (Some n = name s)) then s
      else match membershipInterface (socketType s) n l with
           | Some m =>
               if nonEmpty m then
                 let s := call [AddMembership (multicastAddress s) m] s in
                 if joins m then setJoined (joinedInterfaces s ++ [m]) s else s
               else s
           | None => s
           end
  end.

(** The interface for outgoing datagrams. *)
Definition outgoingInterface (s : Socket) : res (option jsstr) :=
  let given := match outgoingInterfaceAddress s with Some a => nonEmpty a | None => false end in
  let preset := match outgoingInterfaceAddress s with Some a => Some a | None => interfaceAddress s end in
  match socketType s with
  | udp4 =>
      if negb given && bool_decide (interfaceAddress s = Some (js "0.0.0.0"))
      then a ← Dgram.getIpv4InterfaceAddress ifs (name s); Ok (Some a)
      else Ok preset
  | udp6 =>
      if negb given && bool_decide (interfaceAddress s = Some (js "::"))
      then Ok (Some (js "::" ++ Dgram.getIpv6ScopeId ifs win32 (name s)))
      else Ok preset
  end.

(** The state and whether it threw. *)
Definition multicastListening (joins : jsstr -> bool) (s : Socket) : Socket * res unit :=
  let s := call [SetBroadcast; SetTTL 255; SetMulticastTTL 255; SetMulticastLoopback] s in
  let s := foldl (join joins) s ifs in
  match outgoingInterface s with
  | Throw e => (s, Throw e)
  | Ok o =>
      let s := match o with Some a => if nonEmpty a then call [SetMulticastInterface a] s else s | None => s end in
      (call [Emit "ready"] s, Ok tt)
  end.

Definition multicastStop (s : Socket) : Socket :=
  let s := call (map (DropMembership (multicastAddress s)) (joinedInterfaces s)) s in
  call [Close] (setJoined [] s).
End Sockets.
End Network.
