(* ===== verification/NetworkFacts.v ===== *)
(** The addresses and memberships of [Network.v]. *)
From S2P Require Import Prelude Buffer JsString JsNumber JsRegExp Network.
From Stdlib Require Import Zbitwise.
#[local] Open Scope Z_scope.
Import Network.

(** ** The address of an interface *)

Lemma lookupName_elem ifs n l : lookupName ifs n = Some l -> (n, Some l) ∈ ifs.
Proof.
  unfold lookupName. destruct (List.find _ ifs) as [[m d]|] eqn:E; [|done]. intros ->. apply find_some in E as [Hin Hm].
  apply bool_decide_eq_true in Hm. cbn in Hm. subst. by apply list_elem_of_In.
Qed.

Lemma lookupName_unique ifs n l : NoDup (map fst ifs) -> (n, Some l) ∈ ifs -> lookupName ifs n = Some l.
Proof.
  unfold lookupName. induction ifs as [|[k x] ifs IH]; intros Hd Hin; [by apply elem_of_nil in Hin|].
  cbn [map fst] in Hd. apply NoDup_cons in Hd as [Hk Hd]. cbn [List.find fst]. apply elem_of_cons in Hin as [Heq|Hin].
  - injection Heq as -> <-. by rewrite bool_decide_eq_true_2.
  - rewrite bool_decide_eq_false_2; [by apply IH|]. intros ->. apply Hk, list_elem_of_fmap. by exists (n, Some l).
Qed.

(** An external address of the family on an interface of the list. *)
Definition Offers (ifs : list (jsstr * option (list Address))) (f : Family) (n : jsstr) (a : Address) : Prop :=
  exists l, (n, Some l) ∈ ifs /\ a ∈ l /\ external f a = true.

Lemma firstExternal_some f l n : Dgram.firstExternal f l = Some n -> Dgram.excluded n = false /\ nonEmpty n = true /\ exists a, Offers l f n a.
Proof.
  induction l as [|[m d] l IH]; cbn; [done|]. intros H.
  assert (Hr : Dgram.firstExternal f l = Some n -> Dgram.excluded n = false /\ nonEmpty n = true /\ exists a, Offers ((m, d) :: l) f n a).
  { intros H'. destruct (IH H') as (H1 & H2 & a & k & Hk & Ha). split; [done|]. split; [done|]. exists a, k. split; [by right|done]. }
  destruct (Dgram.excluded m) eqn:Ex; [by apply Hr|]. destruct d as [d|]; [|by apply Hr]. destruct (_ && _) eqn:E; [|by apply Hr].
  injection H as <-. apply andb_true_iff in E as [E Hne]. split; [done|]. split; [done|]. apply existsb_exists in E as (a & Ha & Hf).
  exists a, d. split; [by left|]. split; [by apply list_elem_of_In|done].
Qed.

Lemma firstExternal_none f l n a : Dgram.firstExternal f l = None -> Offers l f n a -> nonEmpty n = true -> Dgram.excluded n = true.
Proof.
  induction l as [|[m d] l IH]; intros H (k & Hk & Ha & Hf) Hne; [by apply elem_of_nil in Hk|]. cbn in H.
  apply elem_of_cons in Hk as [Heq|Hk].
  - injection Heq as <- <-. destruct (Dgram.excluded n); [done|]. replace (existsb (external f) k) with true in H.
    { by rewrite Hne in H. }
    symmetry. apply existsb_exists. exists a. split; [by apply list_elem_of_In|done].
  - apply IH; [|by exists k|done]. destruct (Dgram.excluded m); [done|]. destruct d as [d|]; [|done]. by destruct (_ && _).
Qed.

(** The interface is one that is asked for and there, or else none is. *)
Definition Requested (ifs : list (jsstr * option (list Address))) (n : option jsstr) (m : jsstr) : Prop :=
  n = Some m /\ nonEmpty m = true /\ exists l, lookupName ifs m = Some l.

Lemma chosen_cases ifs f n :
  (exists m, Requested ifs n m /\ Dgram.chosenInterface ifs f n = Some m) \/
  (~ (exists m, Requested ifs n m) /\ Dgram.chosenInterface ifs f n = Dgram.firstExternal f ifs).
Proof.
  unfold Dgram.chosenInterface, Requested. destruct n as [m|]; [|right; split; [by intros (m & ? & _)|done]].
  destruct (nonEmpty m) eqn:Em; [destruct (lookupName ifs m) as [l|] eqn:E|].
  - left. exists m. split; [|done]. split; [done|]. split; [done|]. by exists l.
  - right. split; [|done]. intros (m' & Heq & _ & l & Hl). injection Heq as <-. by rewrite E in Hl.
  - right. split; [|done]. intros (m' & Heq & Hm' & _). injection Heq as <-. by rewrite Em in Hm'.
Qed.

(** The IPv4 address for a socket is an external one of the interface that was
    asked for; if there is no such interface it is one of an interface whose name does
    not look like that of a virtual network, and there is an error only if there is
    none. *)
Theorem ipv4_address_exact (ifs : list (jsstr * option (list Address))) (n : option jsstr) :
  NoDup (map fst ifs) ->
  match Dgram.getIpv4InterfaceAddress ifs n with
  | Ok a =>
      exists m d, Offers ifs IPv4 m d /\ address d = a /\ (Requested ifs n m \/ ~ (exists m, Requested ifs n m) /\ Dgram.excluded m = false)
  | Throw e =>
      (exists m, Requested ifs n m /\ forall d, ~ Offers ifs IPv4 m d) \/
      (~ (exists m, Requested ifs n m) /\ forall m d, Offers ifs IPv4 m d -> nonEmpty m = true -> Dgram.excluded m = true)
  end.
Proof.
  intros Hd. unfold Dgram.getIpv4InterfaceAddress, Dgram.addressesOf.
  assert (Hf : forall m l d, lookupName ifs m = Some l -> List.find (external IPv4) l = Some d -> Offers ifs IPv4 m d).
  { intros m l d Hl Hd'. apply find_some in Hd' as [Hin He]. exists l. split; [by apply lookupName_elem|]. split; [by apply list_elem_of_In|done]. }
  assert (Hn : forall m l d, lookupName ifs m = Some l -> List.find (external IPv4) l = None -> ~ Offers ifs IPv4 m d).
  { intros m l d Hl Hnone (k & Hk & Hdk & He). apply (lookupName_unique ifs m k Hd) in Hk. rewrite Hl in Hk. injection Hk as ->.
    apply list_elem_of_In in Hdk. pose proof (find_none _ _ Hnone d Hdk) as Hx. congruence. }
  destruct (chosen_cases ifs IPv4 n) as [(m & Hm & ->)|[Hno ->]].
  - pose proof Hm as (_ & _ & l & Hl). rewrite Hl. cbn. destruct (List.find _ l) as [d|] eqn:E.
    + exists m, d. split; [by eapply Hf|]. split; [done|by left].
    + left. exists m. split; [done|]. intros d. by eapply Hn.
  - destruct (Dgram.firstExternal IPv4 ifs) as [m|] eqn:E; [|right; split; [done|]; intros m d Ho; by eapply firstExternal_none].
    destruct (firstExternal_some _ _ _ E) as (Hx & _ & a & l & Hl & Ha & He). pose proof (lookupName_unique ifs m l Hd Hl) as Hlk. rewrite Hlk. cbn.
    destruct (List.find (external IPv4) l) as [d|] eqn:Ef.
    + exists m, d. split; [by eapply Hf|]. split; [done|by right].
    + exfalso. eapply (Hn m l a); [done|done|]. by exists l.
Qed.

(** *** An example *)

Definition ethernet : Address := mkAddress IPv4 (js "192.168.1.20") (js "255.255.255.0") (js "aa:bb") false None.
Definition loopback : Address := mkAddress IPv4 (js "127.0.0.1") (js "255.0.0.0") (js "00:00") true None.
Definition someInterfaces : list (jsstr * option (list Address)) :=
  [(js "lo", Some [loopback]); (js "docker0", Some [mkAddress IPv4 (js "172.17.0.1") (js "255.255.0.0") (js "cc:dd") false None]);
   (js "eth0", Some [ethernet])].

Lemma ipv4_address_exact_witness :
  exists m d, Offers someInterfaces IPv4 m d /\ address d = js "192.168.1.20" /\
    (Requested someInterfaces (Some (js "eth7")) m \/ ~ (exists m, Requested someInterfaces (Some (js "eth7")) m) /\ Dgram.excluded m = false).
Proof.
  pose proof (ipv4_address_exact someInterfaces (Some (js "eth7"))) as H.
  replace (Dgram.getIpv4InterfaceAddress someInterfaces (Some (js "eth7"))) with (Ok (js "192.168.1.20")) in H by by vm_compute.
  apply H. apply (bool_decide_unpack _). by vm_compute.
Defined.

(** The search for an IPv6 address looks at one interface only: it fails where another
    interface has a suitable address. *)
Theorem ipv6_overlooked :
  let global := mkAddress IPv6 (js "2001:db8::2") (js "ffff:ffff:ffff:ffff::") (js "aa:bb") false (Some 0) in
  let unique := mkAddress IPv6 (js "fd00::2") (js "ffff:ffff:ffff:ffff::") (js "cc:dd") false (Some 0) in
  let ifs := [(js "eth0", Some [global]); (js "eth1", Some [unique])] in
  Dgram.getIpv6InterfaceAddress ifs false None = Throw (Error (js "Interface eth0 does not have a suitable external IPv6 address")) /\
  Dgram.getIpv6InterfaceAddress ifs false (Some (js "eth1")) = Ok (js "fd00::2").
Proof. by split; vm_compute. Qed.

(** ** Broadcast addresses *)

Definition octet (n : Z) : Prop := 0 <= n < 256.
Definition dotted (l : list Z) : jsstr := joinWith (js ".") (map dec l).

Lemma octet_int32 n : octet n -> Dgram.toInt32 (toDouble n 1) = n.
Proof. intros Hn. apply Z.eqb_eq. revert n Hn. apply (bytes_all (fun n => _ =? _)). by vm_compute. Qed.
Lemma octet_minus n : octet n -> Dgram.toInt32 (Dgram.minus 255 (toDouble n 1)) = 255 - n.
Proof. intros Hn. apply Z.eqb_eq. revert n Hn. apply (bytes_all (fun n => _ =? _)). by vm_compute. Qed.

Definition part (i m : Z) : Z := Z.lor (Z.land i m) (255 - m).

Lemma octet_complement m : octet m -> 255 - m = Z.ldiff 255 m.
Proof. intros Hm. apply Z.eqb_eq. revert m Hm. apply (bytes_all (fun m => _ =? _)). by vm_compute. Qed.

Lemma octet_ldiff n m : octet n -> Z.ldiff n m = Z.land n (Z.ldiff 255 m).
Proof.
  intros Hn. assert (Hl : Z.land n 255 = n) by (change 255 with (Z.ones 8); rewrite Z.land_ones by lia; apply Z.mod_small; unfold octet in Hn; lia).
  apply Z.bits_inj'. intros k Hk. rewrite Z.land_spec, !Z.ldiff_spec, <- Hl at 1. rewrite Z.land_spec. destruct (Z.testbit n k), (Z.testbit 255 k); reflexivity.
Qed.

Lemma land_split x m : x = Z.land x m + Z.ldiff x m.
Proof.
  rewrite <- Z.add_lor_land. replace (Z.lor _ _) with x; [replace (Z.land _ _) with 0; [lia|]|]; apply Z.bits_inj'; intros k Hk.
  - rewrite Z.bits_0, !Z.land_spec, Z.ldiff_spec. by destruct (Z.testbit x k), (Z.testbit m k).
  - rewrite Z.lor_spec, Z.land_spec, Z.ldiff_spec. by destruct (Z.testbit x k), (Z.testbit m k).
Qed.

Lemma land_bounds x m : 0 <= m -> 0 <= Z.land x m <= m.
Proof.
  intros Hm. split; [apply Z.land_nonneg; by right|]. rewrite Z.land_comm. pose proof (land_split m x) as H.
  pose proof (proj2 (Z.ldiff_nonneg m x)). lia.
Qed.

(** The part is in the network, and no octet of the network is larger. *)
Lemma part_spec i m : octet i -> octet m ->
  octet (part i m) /\ Z.land (part i m) m = Z.land i m /\ forall x, octet x -> Z.land x m = Z.land i m -> x <= part i m.
Proof.
  intros Hi Hm. unfold part. rewrite octet_complement by done.
  assert (Hadd : Z.lor (Z.land i m) (Z.ldiff 255 m) = Z.land i m + Z.ldiff 255 m).
  { rewrite <- Z.add_lor_land. replace (Z.land (Z.land i m) _) with 0; [lia|]. apply Z.bits_inj'. intros k Hk.
    rewrite !Z.land_spec, Z.ldiff_spec, Z.bits_0. by destruct (Z.testbit i k), (Z.testbit m k), (Z.testbit 255 k). }
  assert (Hc : Z.ldiff 255 m = 255 - m) by by rewrite octet_complement. unfold octet in *.
  split; [|split].
  - rewrite Hadd, Hc. pose proof (land_bounds i m). lia.
  - apply Z.bits_inj'. intros k Hk. rewrite !Z.land_spec, Z.lor_spec, Z.land_spec, Z.ldiff_spec. by destruct (Z.testbit i k), (Z.testbit m k), (Z.testbit 255 k).
  - intros x Hx Hnet. rewrite Hadd, <- Hnet. rewrite (land_split x m) at 1. rewrite octet_ldiff by done.
    pose proof (land_bounds x (Z.ldiff 255 m)). lia.
Qed.

Lemma dotted_parts l : l <> [] -> Forall octet l -> splitChar 46 (dotted l) = map dec l.
Proof.
  intros Hne Hl. unfold dotted. apply splitChar_join; [by destruct l|]. apply Forall_map. eapply Forall_impl; [exact Hl|]. intros n Hn.
  apply dec_no_unit; unfold octet in Hn; lia.
Qed.

Lemma dotted_nonEmpty l : l <> [] -> Forall octet l -> nonEmpty (dotted l) = true.
Proof.
  intros Hne Hl. destruct Hl as [|n l Hn Hl]; [done|]. unfold dotted. cbn [map joinWith]. unfold octet in Hn. pose proof (toString_nonempty 10 n ltac:(lia)) as H.
  unfold dec. destruct (toStringRadix 10 n); [done|]. by destruct (map _ l).
Qed.

Definition octetOf (n : Z) : double := toNumber (dec n).

Lemma parts_exact (pre : list double) ip mask : Forall octet ip -> Forall octet mask -> length ip = length mask ->
  map decimal (imap (fun i o => Dgram.broadcastPart o ((pre ++ map octetOf mask) !! (length pre + i)%nat)) (map octetOf ip)) =
  map dec (zip_with part ip mask).
Proof.
  intros Hip. revert pre mask. induction Hip as [|i ip Hi Hip IH]; intros pre mask Hmask Hlen; [done|].
  destruct Hmask as [|m mask Hm Hmask]; [done|]. cbn [map imap zip_with]. f_equal.
  - rewrite Nat.add_0_r, list_lookup_middle by done. unfold Dgram.broadcastPart, octetOf. cbn [default].
    destruct (part_spec i m) as [[Hp _] _]; [done..|]. rewrite !toNumber_dec by (unfold octet in *; lia).
    change (id (toDouble m 1)) with (toDouble m 1). rewrite !octet_int32, octet_minus by done.
    fold (part i m). unfold decimal. by rewrite (proj2 (Z.ltb_ge _ _)).
  - specialize (IH (pre ++ [octetOf m]) mask Hmask ltac:(cbn in Hlen; lia)). rewrite <- app_assoc in IH. cbn [app] in IH.
    rewrite <- IH. f_equal. apply imap_ext. intros k x _. cbn [compose]. f_equal. rewrite length_app. cbn [length]. f_equal. lia.
Qed.

(** The broadcast address of an address and a mask of as many octets is the
    largest address of its network. *)
Theorem broadcast_exact (ip mask : list Z) :
  ip <> [] -> Forall octet ip -> Forall octet mask -> length ip = length mask ->
  exists b, Dgram.getIpv4BroadcastAddress (Some (dotted ip)) (Some (dotted mask)) = Some (dotted b) /\ Forall octet b /\
    zip_with Z.land b mask = zip_with Z.land ip mask /\
    forall x, Forall octet x -> length x = length ip -> zip_with Z.land x mask = zip_with Z.land ip mask -> Forall2 Z.le x b.
Proof.
  intros Hne Hip Hmask Hlen. exists (zip_with part ip mask). assert (Hne' : mask <> []) by (by destruct ip, mask). split; [|clear Hne Hne'].
  - unfold Dgram.getIpv4BroadcastAddress. rewrite !dotted_nonEmpty by done. rewrite (dotted_parts ip), (dotted_parts mask) by done.
    cbn [andb]. f_equal. unfold dotted. f_equal. rewrite !map_map. by apply (parts_exact []).
  - revert mask Hmask Hlen. induction Hip as [|i ip Hi Hip IH]; intros mask Hmask Hlen.
    { split; [done|]. split; [done|]. by intros [|]. }
    destruct Hmask as [|m mask Hm Hmask]; [done|]. destruct (IH mask Hmask ltac:(cbn in Hlen; lia)) as (IH1 & IH2 & IH3).
    destruct (part_spec i m Hi Hm) as (H1 & H2 & H3). cbn [zip_with]. split; [by constructor|]. split; [by rewrite H2, IH2|].
    intros x Hx Hlx Hnet. destruct Hx as [|y x Hy Hx]; [done|]. cbn in Hnet. injection Hnet as Hn1 Hn2.
    constructor; [by apply H3|]. apply IH3; [done|cbn in Hlx; lia|done].
Qed.

Lemma broadcast_exact_witness :
  exists b, Dgram.getIpv4BroadcastAddress (Some (dotted [192; 168; 1; 20])) (Some (dotted [255; 255; 252; 0])) = Some (dotted b) /\ Forall octet b /\
    zip_with Z.land b [255; 255; 252; 0] = zip_with Z.land [192; 168; 1; 20] [255; 255; 252; 0] /\
    forall x, Forall octet x -> length x = 4%nat -> zip_with Z.land x [255; 255; 252; 0] = zip_with Z.land [192; 168; 1; 20] [255; 255; 252; 0] ->
              Forall2 Z.le x b.
Proof.
  apply (broadcast_exact [192; 168; 1; 20] [255; 255; 252; 0]); [done|..|done].
  all: repeat (apply Forall_cons; split; [unfold octet; lia|]); constructor.
Defined.

(** ** Memberships *)

Definition added (c : Call) : option jsstr := match c with AddMembership _ i => Some i | _ => None end.
Definition dropped (c : Call) : option jsstr := match c with DropMembership _ i => Some i | _ => None end.

Section Memberships.
Context (ifs : list (jsstr * option (list Address))) (win32 : bool) (joins : jsstr -> bool).

(** What has joined is what was accepted. *)
Definition Joined (s : Socket) : Prop := joinedInterfaces s = List.filter joins (omap added (calls s)) /\ omap dropped (calls s) = [].

Lemma joined_call c s : omap added c = [] -> omap dropped c = [] -> Joined s -> Joined (call c s).
Proof. intros Ha Hd [H1 H2]. split; cbn; rewrite omap_app, ?Ha, ?Hd, ?app_nil_r; done. Qed.

Lemma joined_join s e : Joined s -> Joined (join win32 joins s e).
Proof.
  intros [H1 H2]. destruct e as [n [l|]]; cbn; [|done]. destruct (_ && _); [done|]. destruct (membershipInterface _ _ _ _) as [m|]; [|done].
  destruct (nonEmpty m); [|done].
  assert (Hf : List.filter joins (omap added (calls s ++ [AddMembership (multicastAddress s) m])) =
               List.filter joins (omap added (calls s)) ++ (if joins m then [m] else [])).
  { by rewrite omap_app, List.filter_app. }
  destruct (joins m) eqn:E; split; cbn; try (by rewrite omap_app, H2); rewrite Hf, H1; [done|by rewrite app_nil_r].
Qed.

Lemma joined_listening s : Joined s -> Joined (fst (multicastListening ifs win32 joins s)).
Proof.
  intros Hs. unfold multicastListening.
  assert (Hfold : forall l s, Joined s -> Joined (foldl (join win32 joins) s l)).
  { induction l as [|e l IH]; intros s' Hs'; cbn; [done|]. by apply IH, joined_join. }
  set (s1 := foldl _ _ _). assert (Hs1 : Joined s1) by (apply Hfold, joined_call; [done|done|done]).
  destruct (outgoingInterface ifs win32 s1) as [o|e]; cbn [fst]; [|done]. apply joined_call; [done|done|].
  destruct o as [a|]; [|done]. destruct (nonEmpty a); [|done]. by apply joined_call.
Qed.
End Memberships.

(** A multicast socket that is stopped leaves every group that it has joined, once,
    and no other, whatever memberships the system accepts, and also if it fails while it
    starts to listen; closing it is the last thing it does. *)
Theorem memberships_left (ifs : list (jsstr * option (list Address))) (win32 : bool) (joins : jsstr -> bool) (s : Socket) :
  joinedInterfaces s = [] -> calls s = [] ->
  let s1 := fst (multicastListening ifs win32 joins s) in
  let s2 := multicastStop s1 in
  omap dropped (calls s2) = List.filter joins (omap added (calls s2)) /\ joinedInterfaces s2 = [] /\ last (calls s2) = Some Close.
Proof.
  intros Hj Hc s1 s2.
  assert (H1 : Joined joins s1) by (apply joined_listening; split; rewrite Hc, ?Hj; done).
  destruct H1 as [H1 H2]. unfold s2, multicastStop. cbn. split; [|split; [done|by rewrite last_snoc]].
  rewrite !omap_app, H2. cbn. rewrite !app_nil_r.
  assert (Hd : forall g l, omap dropped (map (DropMembership g) l) = l /\ omap added (map (DropMembership g) l) = []).
  { intros g. induction l as [|x l [IH1 IH2]]; cbn; [done|]. by rewrite IH1, IH2. }
  destruct (Hd (multicastAddress s1) (joinedInterfaces s1)) as [-> ->]. by rewrite app_nil_r.
Qed.

Definition listener : Socket := mkSocket udp4 None (Some (js "0.0.0.0")) None (Some 5353) (js "224.0.0.251") None [] [].
Lemma memberships_left_witness :
  omap dropped (calls (multicastStop (fst (multicastListening someInterfaces false (fun i => negb (bool_decide (i = js "127.0.0.1"))) listener)))) =
  [js "172.17.0.1"; js "192.168.1.20"].
Proof.
  destruct (memberships_left someInterfaces false (fun i => negb (bool_decide (i = js "127.0.0.1"))) listener) as [-> _]; [done|done|].
  by vm_compute.
Defined.
