(* ===== verification/Hex.v ===== *)
(** Hexadecimal text and PEM files: [packages/utils/src/hex.ts]. *)
From S2P Require Import Prelude Buffer JsString JsNumber JsRegExp.
#[local] Open Scope Z_scope.

Module Hex.

(** ** Hexadecimal text *)

(** [None] stands for an argument that is neither a buffer nor a view of one. *)
Definition bufferToHex (buffer : option (list Z)) : res jsstr :=
  match buffer with
  | None => Throw TypeError
  | Some bytes => Ok (concat (map (fun byte => padStart 2 48 (hex byte)) bytes))
  end.

Definition isHex (u : Z) : bool := range 48 57 u || range 97 102 u || range 65 70 u.
Definition hexPattern : re := Seq Start (Seq (Star (Char isHex)) End).

(** [s.slice(a, b)]. *)
Definition slice (a b : nat) (s : jsstr) : jsstr := firstn (b - a) (skipn a s).

(** [None] stands for an argument that is no string. *)
Definition hexToBuffer (h : option jsstr) : res (list Z) :=
  match h with
  | None => Throw TypeError
  | Some h =>
      let cleaned := trim h in
      if negb (Nat.even (length cleaned)) then Throw (Error (js "Invalid hex string length, must be even"))
      else if negb (test hexPattern cleaned) then Throw (Error (js "Invalid hex string, contains non-hex characters"))
      else
        let n := (length cleaned / 2)%nat in
        Ok (map (fun i => toUint8 (default 0 (parseInt16 (slice (i * 2) (i * 2 + 2) cleaned)))) (seq 0 n))
  end.

(** ** PEM *)

(** [Buffer.from(s, 'base64')] for text of the alphabet: it ends at the first =. *)
Definition base64Value (u : Z) : option Z :=
  if range 65 90 u then Some (u - 65)
  else if range 97 122 u then Some (u - 71)
  else if range 48 57 u then Some (u + 4)
  else if u =? 43 then Some 62
  else if u =? 47 then Some 63
  else None.

Fixpoint decodeBase64 (s : jsstr) : list Z :=
  match s with
  | a :: b :: r =>
      match base64Value a, base64Value b with
      | Some a, Some b =>
          (a * 4 + b / 16) ::
          match r with
          | c :: r =>
              match base64Value c with
              | Some c =>
                  (b mod 16 * 16 + c / 4) ::
                  match r with
                  | d :: r => match base64Value d with Some d => (c mod 4 * 64 + d) :: decodeBase64 r | None => [] end
                  | [] => []
                  end
              | None => []
              end
          | [] => []
          end
      | _, _ => []
      end
  | _ => []
  end.

Definition isBase64 (u : Z) : bool := range 65 90 u || range 97 122 u || range 48 57 u || (u =? 43) || (u =? 47).
(** [^[A-Za-z0-9+/]*={0,2}$]. *)
Definition base64Pattern : re := Seq Start (Seq (Seq (Star (Char isBase64)) (opt (Seq (lit 61) (opt (lit 61))))) End).

(** The lines between the markers. *)
Fixpoint contentLines (inContent : bool) (lines : list jsstr) : list jsstr :=
  match lines with
  | [] => []
  | line :: lines =>
      let t := trim line in
      if startsWith t (js "-----BEGIN") then contentLines true lines
      else if startsWith t (js "-----END") then []
      else if inContent && negb (bool_decide (t = [])) then t :: contentLines inContent lines
      else contentLines inContent lines
  end.

(** The first capture of [-----BEGIN\s+([^-]+)-----]. *)
Fixpoint untilDash (s : jsstr) : jsstr * jsstr :=
  match s with
  | [] => ([], [])
  | u :: s' => if u =? 45 then ([], s) else let '(a, b) := untilDash s' in (u :: a, b)
  end.
Fixpoint takeSpaces (s : jsstr) : jsstr * jsstr :=
  match s with
  | [] => ([], [])
  | u :: s' => if isSpace u then let '(a, b) := takeSpaces s' in (u :: a, b) else ([], s)
  end.
(** Spaces are also no dashes: of several the last one may be the capture. *)
Definition pemTypeHere (s : jsstr) : option jsstr :=
  if startsWith s (js "-----BEGIN") then
    let '(sp, r) := takeSpaces (skipn 10 s) in
    let '(t, r) := untilDash r in
    match sp with
    | [] => None
    | _ :: sp' =>
        if startsWith r (js "-----") then
          match t with
          | _ :: _ => Some t
          | [] => match last sp' with Some u => Some [u] | None => None end
          end
        else None
    end
  else None.
Fixpoint pemType (s : jsstr) : option jsstr :=
  match pemTypeHere s with
  | Some t => Some (trim t)
  | None => match s with [] => None | _ :: s => pemType s end
  end.

Record Certificate := mkCertificate { validFrom : jsstr; validTo : jsstr; subject : jsstr; issuer : jsstr }.

(** What [node:crypto] makes of a text, and the time. *)
Record Crypto := mkCrypto {
  certificate : jsstr -> res Certificate;
  privateKey : jsstr -> res (list Z);      (* the key in the format PKCS#8 *)
  publicKey : jsstr -> res unit;
  parseDate : jsstr -> option Z;
  now : Z;
  errorMessage : exn -> jsstr
}.

Section Crypto.
Context (crypto : Crypto).

Definition nonEmpty (s : jsstr) : bool := match s with [] => false | _ => true end.
Definition later (a b : option Z) : bool := match a, b with Some a, Some b => b <? a | _, _ => false end.

Definition validatePem (pem cleaned : jsstr) : res unit :=
  match pemType cleaned with
  | None => Ok tt
  | Some t =>
      if includes t (js "CERTIFICATE") then
        c ← certificate crypto pem;
        if nonEmpty (validFrom c) && nonEmpty (validTo c) &&
           (later (parseDate crypto (validFrom c)) (Some (now crypto)) || later (Some (now crypto)) (parseDate crypto (validTo c)))
        then Throw (Error (js "Certificate is not currently valid"))
        else if negb (nonEmpty (subject c)) || negb (nonEmpty (issuer c)) then Throw (Error (js "Certificate missing subject or issuer"))
        else Ok tt
      else if includes t (js "PRIVATE KEY") then _ ← privateKey crypto pem; Ok tt
      else if includes t (js "PUBLIC KEY") then publicKey crypto pem
      else Ok tt
  end.

(** [new Error(text + getErrorMessage(error))]. *)
Definition wrapped {A} (text : string) (r : res A) : res A :=
  match r with Ok a => Ok a | Throw e => Throw (Error (js text ++ errorMessage crypto e)) end.

Definition pemToBuffer (pem : option jsstr) (validate : bool) : res (list Z) :=
  match pem with
  | None => Throw TypeError
  | Some pem =>
      let cleaned := trim pem in
      if negb (includes cleaned (js "-----BEGIN")) || negb (includes cleaned (js "-----END"))
      then Throw (Error (js "Invalid PEM format: missing BEGIN/END markers"))
      else
        match contentLines false (splitChar 10 cleaned) with
        | [] => Throw (Error (js "Invalid PEM format: no content found between BEGIN/END markers"))
        | lines =>
            let base64 := concat lines in
            if negb (test base64Pattern base64) then Throw (Error (js "Invalid PEM format: contains invalid base64 characters"))
            else
              wrapped "Failed to decode base64 content: "
                (_ ← if validate then wrapped "PEM validation failed: " (validatePem pem cleaned) else Ok tt; Ok (decodeBase64 base64))
        end
  end.

(** ** Private keys *)

(** What is left of [s] after [t]. *)
Definition after (t : string) (s : jsstr) : option jsstr := if startsWith s (js t) then Some (skipn (length (js t)) s) else None.
(** [(?:EC )?PRIVATE KEY-----]. *)
Definition afterKey (s : jsstr) : option jsstr := after "PRIVATE KEY-----" (default s (after "EC " s)).

(** The rest of the text after a block of a private key that it starts with. *)
Definition afterBlock (s : jsstr) : option jsstr :=
  match s1 ← after "-----BEGIN " s; afterKey s1 with
  | Some s2 =>
      match untilDash s2 with
      | ([], _) => None
      | (_, s3) => s4 ← after "-----END " s3; afterKey s4
      end
  | None => None
  end.
Fixpoint keyBlock (s : jsstr) : option jsstr :=
  match afterBlock s with
  | Some r => Some (firstn (length s - length r) s)
  | None => match s with [] => None | _ :: s => keyBlock s end
  end.

Definition extractPrivateKeyRaw (pemPrivateKey : option jsstr) : res (list Z) :=
  match pemPrivateKey with
  | None => Throw TypeError
  | Some s =>
      match keyBlock s with
      | None => Throw (Error (js "No EC PRIVATE KEY block found in the supplied PEM"))
      | Some block =>
          wrapped "Failed to extract private key: "
            (der ← privateKey crypto block;
             if (length der <? 32)%nat then Throw (Error (js "Invalid private key: DER data too short"))
             else Ok (skipn (length der - 32) der))
      end
  end.
End Crypto.
End Hex.
