(* ===== verification/Tracker.v ===== *)
(** The tracker of processor and memory usage, [packages/utils/src/tracker.ts]: a ring
    of snapshots, shared by the trackers of a thread, that is a window on the log of
    all of them. *)
From S2P Require Import Prelude JsNumber.
#[local] Open Scope Z_scope.

Module Tracker.

(** The numbers that are tracked; percentages in hundredths. *)
Inductive Metric := FreeMemory | TotalMemory | OsCpu | ProcessCpu | Rss | HeapUsed | HeapTotal | External | ArrayBuffers.
#[export] Instance Metric_eq : EqDecision Metric.
Proof. solve_decision. Defined.

Record TrackerSnapshot := mkSnapshot { timestamp : Z; value : Metric -> Z; peak : Metric -> Z }.

(** What the system reports: the processors with the milliseconds that each was idle and
    busy, and the microseconds that the process used, read twice. *)
Record Cpu := mkCpu { user : Z; nice : Z; sys : Z; irq : Z; idle : Z }.
Record Sample := mkSample { time : Z; uptime : Z; processUptime : Z; cpus : list Cpu; cpuUsage : Z; cpuUsageNext : Z; memory : Metric -> Z }.

(** ** Loads *)

(** Doubles of fractions, and [x + y], [x * n] and [x / n]. *)
Definition rounded (p q : Z) : double := if p <? 0 then negate (toDouble (- p) q) else toDouble p q.
Definition scaledBy (p q : Z) (x : double) : double :=
  match x with DFin m e => rounded (m * 2 ^ Z.max 0 e * p) (2 ^ Z.max 0 (- e) * q) | _ => x end.
Definition plus (x y : double) : double :=
  match x, y with
  | DFin m e, DFin m' e' => let k := Z.min e e' in rounded ((m * 2 ^ (e - k) + m' * 2 ^ (e' - k)) * 2 ^ Z.max 0 k) (2 ^ Z.max 0 (- k))
  | DFin _ _, _ => y
  | _, _ => x
  end.

(** [Number(x.toFixed(2))], in hundredths. *)
Definition hundredths (x : double) : Z :=
  match x with
  | DFin m e =>
      let p := 200 * Z.abs m * 2 ^ Z.max 0 e + 2 ^ Z.max 0 (- e) in
      Z.sgn m * (p / (2 * 2 ^ Z.max 0 (- e)))
  | _ => 0
  end.

Definition cpuLoad (prev : option Cpu) (cur : Cpu) : double :=
  match prev with
  | None => DFin 0 0
  | Some prev =>
      let idleDelta := idle cur - idle prev in
      let busyDelta := user cur - user prev + (nice cur - nice prev) + (sys cur - sys prev) + (irq cur - irq prev) in
      let totalDelta := busyDelta + idleDelta in
      if totalDelta <=? 0 then DFin 0 0 else rounded busyDelta totalDelta
  end.

Definition osCpu (prevCpus currentCpus : list Cpu) : Z :=
  let loads := imap (fun idx cpu => cpuLoad (prevCpus !! idx) cpu) currentCpus in
  let avgLoad := match loads with [] => DFin 0 0 | _ => scaledBy 1 (Z.of_nat (length loads)) (foldl plus (DFin 0 0) loads) end in
  hundredths (scaledBy 100 1 avgLoad).

(** A machine has a processor. *)
Definition processCpu (sampleIntervalMs diff : Z) (processors : nat) : Z :=
  let totalMs := rounded diff 1000 in
  hundredths (scaledBy 1 (Z.of_nat processors) (scaledBy 100 1 (scaledBy 1 sampleIntervalMs totalMs))).

(** What a tick measures, given the processors and the usage before. *)
Definition measured (sampleIntervalMs : Z) (prev : list Cpu * Z) (s : Sample) (m : Metric) : Z :=
  match m with
  | OsCpu => osCpu (fst prev) (cpus s)
  | ProcessCpu => processCpu sampleIntervalMs (cpuUsage s - snd prev) (length (cpus s))
  | _ => memory s m
  end.

Inductive Event :=
  | UptimeEvent (os process : Z)
  | CpuEvent (os process : Z)
  | MemoryEvent (values : list Z)
  | SnapshotEvent (snapshot : TrackerSnapshot)
  | ResetPeaksDone
  | GcDone (type execution : string).

(** An interval: its period in milliseconds and the time since the last collection of
    garbage, a period being a whole number of seconds. *)
Record Interval := mkInterval { sampleIntervalMs : Z; tryGcCount : Z }.

(** How the collector is exposed: not at all, with options, or without. *)
Inductive Gc := NoGc | WithOptions | WithoutOptions.

Record World := mkWorld {
  history : list TrackerSnapshot;
  historyIndex : nat;
  trackerInterval : option Interval;
  prevCpus : list Cpu;
  prevCpuUsage : Z;
  gc : Gc;
  events : list Event
}.

Definition setHistory (h : list TrackerSnapshot) (i : nat) (w : World) : World := mkWorld h i (trackerInterval w) (prevCpus w) (prevCpuUsage w) (gc w) (events w).
Definition setInterval (i : option Interval) (w : World) : World := mkWorld (history w) (historyIndex w) i (prevCpus w) (prevCpuUsage w) (gc w) (events w).
Definition setPrev (c : list Cpu) (u : Z) (w : World) : World := mkWorld (history w) (historyIndex w) (trackerInterval w) c u (gc w) (events w).
Definition emit (e : Event) (w : World) : World := mkWorld (history w) (historyIndex w) (trackerInterval w) (prevCpus w) (prevCpuUsage w) (gc w) (events w ++ [e]).

Definition zeroSnapshot : TrackerSnapshot := mkSnapshot 0 (fun _ => 0) (fun _ => 0).

(** The size of the ring, 2880 in the code. *)
Definition defaultHistorySize : nat := Z.to_nat 2880.

Section Size.
Context (historySize : nat).

Definition initial (g : Gc) : World := mkWorld (replicate historySize zeroSnapshot) 0 None [] 0 g [].

(** [start(sampleIntervalMs)]: a tracker has one interval. *)
Definition start (ms : Z) (currentCpus : list Cpu) (usage : Z) (w : World) : World :=
  match trackerInterval w with Some _ => w | None => setInterval (Some (mkInterval ms 0)) (setPrev currentCpus usage w) end.

Definition runGarbageCollector (type execution : string) (w : World) : World :=
  match gc w with
  | NoGc => w
  | WithOptions => emit (GcDone type execution) w
  | WithoutOptions => emit (GcDone "minor" "async") w
  end.

Definition entryAt (w : World) (i : nat) : TrackerSnapshot := default zeroSnapshot (history w !! i).
Definition prevIndex (w : World) : nat := ((historyIndex w + historySize - 1) mod historySize)%nat.

(** A snapshot after another. *)
Definition take_ (prev : TrackerSnapshot) (t : Z) (v : Metric -> Z) : TrackerSnapshot :=
  mkSnapshot t v (fun m => Z.max (peak prev m) (v m)).

(** The callback of the interval; its listeners do not call the tracker back. *)
Definition tick (s : Sample) (w : World) : World :=
  match trackerInterval w with
  | None => w
  | Some i =>
      let count := tryGcCount i + sampleIntervalMs i in
      let hour := 60 * 60 * 1000 <? count in
      let w := if hour then runGarbageCollector "major" "async" w else w in
      let w := setInterval (Some (mkInterval (sampleIntervalMs i) (if hour then 0 else count))) w in
      let entry := take_ (entryAt w (prevIndex w)) (time s) (measured (sampleIntervalMs i) (prevCpus w, prevCpuUsage w) s) in
      let w := setPrev (cpus s) (cpuUsageNext s) w in
      let w := emit (UptimeEvent (uptime s) (processUptime s)) w in
      let w := emit (CpuEvent (value entry OsCpu) (value entry ProcessCpu)) w in
      let w := emit (SnapshotEvent entry) (emit (MemoryEvent (map (value entry) [FreeMemory; TotalMemory; Rss; HeapUsed; HeapTotal; External; ArrayBuffers])) w) in
      setHistory (<[historyIndex w := entry]> (history w)) ((historyIndex w + 1) mod historySize)%nat w
  end.

(** The peaks that [resetPeaks] sets to zero. *)
Definition isReset (m : Metric) : bool := negb (bool_decide (m = FreeMemory)) && negb (bool_decide (m = TotalMemory)).
Definition withoutPeaks (e : TrackerSnapshot) : TrackerSnapshot := mkSnapshot (timestamp e) (value e) (fun m => if isReset m then 0 else peak e m).
Definition resetPeaks (w : World) : World :=
  emit ResetPeaksDone (setHistory (<[prevIndex w := withoutPeaks (entryAt w (prevIndex w))]> (history w)) (historyIndex w) w).

(** [stop()], and the entries that it logs if debugging. *)
Definition stop (w : World) : World := setInterval None w.
Definition logged (w : World) : list TrackerSnapshot :=
  List.filter (fun e => negb (timestamp e =? 0)) (map (fun i => entryAt w ((historyIndex w + i) mod historySize)%nat) (seq 0 historySize)).
End Size.
End Tracker.
Import Tracker.

(** ** The ring is a window on the log *)

Inductive Op := Tick (s : Sample) | Reset | Start (ms : Z) (currentCpus : list Cpu) (usage : Z) | Stop | Collect (type execution : string).

Definition perform (size : nat) (w : World) (o : Op) : World :=
  match o with
  | Tick s => tick size s w
  | Reset => resetPeaks size w
  | Start ms c u => start ms c u w
  | Stop => stop w
  | Collect t e => runGarbageCollector t e w
  end.

(** Whether the tracker runs: its period, and the processors and the usage before. *)
Definition Control := option (Z * (list Cpu * Z)).
Definition controlStep (c : Control) (o : Op) : Control :=
  match o, c with
  | Tick s, Some (ms, _) => Some (ms, (cpus s, cpuUsageNext s))
  | Start ms cs u, None => Some (ms, (cs, u))
  | Stop, _ => None
  | _, _ => c
  end.

(** The log of all snapshots, the first of them empty. *)
Definition logStep (l : Control * list TrackerSnapshot) (o : Op) : Control * list TrackerSnapshot :=
  let '(c, log) := l in
  let newest := default zeroSnapshot (last log) in
  (controlStep c o,
   match o, c with
   | Tick s, Some (ms, prev) => log ++ [take_ newest (time s) (measured ms prev s)]
   | Reset, _ => removelast log ++ [withoutPeaks newest]
   | _, _ => log
   end).

(** The ring from the oldest entry on. *)
Definition rotated (w : World) : list TrackerSnapshot := drop (historyIndex w) (history w) ++ take (historyIndex w) (history w).

Definition control (w : World) : Control :=
  match trackerInterval w with Some i => Some (sampleIntervalMs i, (prevCpus w, prevCpuUsage w)) | None => None end.

Record Window (size : nat) (w : World) (l : Control * list TrackerSnapshot) : Prop := {
  window_size : length (history w) = size;
  window_index : (historyIndex w < size)%nat;
  window_control : fst l = control w;
  window_log : exists old, snd l = old ++ rotated w
}.

Section Ring.
Context (size : nat).

Lemma rotate_push (h : list TrackerSnapshot) i e x : drop i h = x :: drop (S i) h -> (i < length h)%nat ->
  drop (S i) (<[i:=e]> h) ++ take (S i) (<[i:=e]> h) = drop (S i) h ++ take i h ++ [e].
Proof.
  intros Hx Hi. rewrite drop_insert_lt by lia. f_equal. rewrite (take_S_r _ _ e) by (by apply list_lookup_insert_eq). by rewrite take_insert_ge.
Qed.

Lemma rotated_push w e : length (history w) = size -> (historyIndex w < size)%nat ->
  exists x r, rotated w = x :: r /\
    rotated (setHistory (<[historyIndex w := e]> (history w)) ((historyIndex w + 1) mod size)%nat w) = r ++ [e].
Proof.
  intros Hl Hi. destruct (lookup_lt_is_Some_2 (history w) (historyIndex w)) as [x Hx]; [lia|].
  pose proof (drop_S _ _ _ Hx) as Hd. exists x, (drop (S (historyIndex w)) (history w) ++ take (historyIndex w) (history w)).
  unfold rotated. cbn [history historyIndex setHistory]. rewrite Hd. split; [done|]. rewrite Nat.add_1_r.
  destruct (decide (S (historyIndex w) = size)) as [E|E].
  - rewrite E, Nat.Div0.mod_same. rewrite drop_0, take_0, app_nil_r. rewrite <- E, drop_ge by lia. cbn [app].
    rewrite <- (take_drop (historyIndex w) (<[_:=e]> _)), take_insert_ge by done. f_equal.
    rewrite (drop_S _ e) by (apply list_lookup_insert_eq; lia). by rewrite drop_ge by (rewrite length_insert; lia).
  - rewrite Nat.mod_small by lia. rewrite (rotate_push _ _ _ x) by (done || lia). by rewrite app_assoc.
Qed.

Lemma prev_newest w : length (history w) = size -> (historyIndex w < size)%nat ->
  exists r, rotated w = r ++ [entryAt w (prevIndex size w)] /\
    forall e, rotated (setHistory (<[prevIndex size w := e]> (history w)) (historyIndex w) w) = r ++ [e].
Proof.
  intros Hl Hi. unfold prevIndex, rotated, entryAt. cbn [history historyIndex setHistory]. destruct (historyIndex w) as [|i] eqn:E.
  - rewrite Nat.mod_small by lia. replace (0 + size - 1)%nat with (size - 1)%nat by lia.
    destruct (lookup_lt_is_Some_2 (history w) (size - 1)) as [x Hx]; [lia|]. exists (take (size - 1) (history w)).
    rewrite Hx, drop_0, take_0, app_nil_r. cbn [default]. split.
    + rewrite <- (take_S_r _ _ x) by done. by rewrite take_ge by lia.
    + intros e. rewrite drop_0, take_0, app_nil_r. rewrite <- (take_insert_ge _ _ (size - 1) e) by done.
      rewrite <- (take_S_r _ _ e) by (apply list_lookup_insert_eq; lia). by rewrite take_ge by (rewrite length_insert; lia).
  - replace (S i + size - 1)%nat with (i + 1 * size)%nat by lia. rewrite Nat.Div0.mod_add, Nat.mod_small by lia.
    destruct (lookup_lt_is_Some_2 (history w) i) as [x Hx]; [lia|]. exists (drop (S i) (history w) ++ take i (history w)).
    rewrite Hx. cbn [default]. rewrite (take_S_r _ _ x) by done. split; [by rewrite app_assoc|].
    intros e. rewrite drop_insert_lt by lia. rewrite (take_S_r _ _ e) by (apply list_lookup_insert_eq; lia). by rewrite take_insert_ge, app_assoc.
Qed.

Lemma window_history w w' l : history w' = history w -> historyIndex w' = historyIndex w -> control w' = control w -> Window size w l -> Window size w' l.
Proof. intros H1 H2 H3 [A B C D]. split; unfold rotated in *; by rewrite ?H1, ?H2, ?H3. Qed.

Lemma collect_same w t e : history (runGarbageCollector t e w) = history w /\ historyIndex (runGarbageCollector t e w) = historyIndex w /\ control (runGarbageCollector t e w) = control w /\
  prevCpus (runGarbageCollector t e w) = prevCpus w /\ prevCpuUsage (runGarbageCollector t e w) = prevCpuUsage w.
Proof. unfold runGarbageCollector. by destruct (gc w). Qed.

Lemma last_rotated w old : length (history w) = size -> (historyIndex w < size)%nat -> default zeroSnapshot (last (old ++ rotated w)) = entryAt w (prevIndex size w).
Proof. intros Hl Hi. destruct (prev_newest w Hl Hi) as (r & -> & _). by rewrite app_assoc, last_snoc. Qed.

(** What a tick does to the ring. *)
Lemma tick_ring w s : match trackerInterval w with
  | None => tick size s w = w
  | Some i =>
      history (tick size s w) = <[historyIndex w := take_ (entryAt w (prevIndex size w)) (time s) (measured (sampleIntervalMs i) (prevCpus w, prevCpuUsage w) s)]> (history w) /\
      historyIndex (tick size s w) = ((historyIndex w + 1) mod size)%nat /\ control (tick size s w) = Some (sampleIntervalMs i, (cpus s, cpuUsageNext s))
  end.
Proof.
  unfold tick. destruct (trackerInterval w) as [i|]; [|done]. destruct (_ <? _); [|done].
  destruct (collect_same w "major" "async") as (H1 & H2 & _ & H4 & H5). unfold entryAt, prevIndex.
  cbn [history historyIndex trackerInterval prevCpus prevCpuUsage setHistory setInterval setPrev emit]. rewrite H1, H2, H4, H5. done.
Qed.

Lemma window_step w l o : Window size w l -> Window size (perform size w o) (logStep l o).
Proof.
  intros HW. destruct HW as [Hl Hi Hr [old Ho]] eqn:EW. clear EW. destruct l as [c log]. cbn [fst snd] in *. subst log c.
  destruct o as [s| |ms cs u| |t e]; cbn [perform logStep].
  - pose proof (tick_ring w s) as Ht. unfold control in *. destruct (trackerInterval w) as [i|] eqn:Ei.
    2: { rewrite Ht. split; [done|done|cbn; unfold control; by rewrite Ei|by exists old]. }
    destruct Ht as (H1 & H2 & H3). set (e := take_ _ _ _) in H1. destruct (rotated_push w e Hl Hi) as (x & r & Ex & Er).
    split; [by rewrite H1, length_insert|rewrite H2; apply Nat.mod_upper_bound; lia|by unfold control; rewrite H3|].
    exists (old ++ [x]). cbn [snd]. rewrite last_rotated by done. fold e. unfold rotated at 2. rewrite H1, H2.
    unfold rotated in Er at 1. cbn [history historyIndex setHistory] in Er. rewrite Er, Ex. by rewrite <- !app_assoc.
  - destruct (prev_newest w Hl Hi) as (r & Ex & Er). rewrite last_rotated by done. split; cbn; [by rewrite length_insert|done|done|].
    exists old. rewrite Ex, app_assoc, removelast_last. specialize (Er (withoutPeaks (entryAt w (prevIndex size w)))).
    unfold rotated in Er |- *. cbn [history historyIndex setHistory] in Er. cbn. rewrite Er. by rewrite app_assoc.
  - unfold start, control in *. destruct (trackerInterval w) eqn:E; split; cbn; unfold control; cbn; rewrite ?E; eauto.
  - split; cbn; eauto.
  - destruct (collect_same w t e) as (H1 & H2 & H3 & _). eapply window_history; eauto.
Qed.

Lemma window_initial g : (0 < size)%nat -> Window size (initial size g) (None, replicate size zeroSnapshot).
Proof. intros Hs. split; cbn; [by rewrite length_replicate|done|done|]. exists []. unfold rotated. cbn. by rewrite app_nil_r. Qed.

Lemma window_run os : forall w l, Window size w l -> Window size (foldl (perform size) w os) (foldl logStep l os).
Proof. induction os as [|o os IH]; intros w l HW; [done|]. cbn [foldl]. apply IH, window_step, HW. Qed.

Lemma logged_rotated w : length (history w) = size -> (historyIndex w < size)%nat ->
  map (fun i => entryAt w ((historyIndex w + i) mod size)%nat) (seq 0 size) = rotated w.
Proof.
  intros Hl Hi. apply list_eq. intros k. unfold rotated. rewrite list_lookup_fmap. destruct (decide (k < size)%nat) as [Hk|Hk].
  - rewrite lookup_seq_lt by done. cbn. unfold entryAt. destruct (decide (historyIndex w + k < size)%nat).
    + rewrite Nat.mod_small by done. rewrite lookup_app_l by (rewrite length_drop; lia). rewrite lookup_drop.
      by destruct (lookup_lt_is_Some_2 (history w) (historyIndex w + k)) as [x ->]; [lia|].
    + rewrite lookup_app_r by (rewrite length_drop; lia). rewrite length_drop, Hl, lookup_take_lt by lia.
      replace (historyIndex w + k)%nat with (k - (size - historyIndex w) + 1 * size)%nat by lia. rewrite Nat.Div0.mod_add, Nat.mod_small by lia.
      by destruct (lookup_lt_is_Some_2 (history w) (k - (size - historyIndex w))) as [x ->]; [lia|].
  - rewrite lookup_seq_ge by lia. cbn. rewrite lookup_ge_None_2; [done|]. rewrite length_app, length_drop, length_take. lia.
Qed.

(** C36: the ring of the tracker, of whatever size, implements a log: after any sequence
    of starts, stops, ticks, resets and collections the entries logged by [stop] are the
    dated ones among the last [size] snapshots of the log, in the order they were taken,
    a snapshot being the measured values and the maxima of them and the peaks before. *)
Theorem ring_refines_log (g : Gc) (os : list Op) : (0 < size)%nat ->
  let log := snd (foldl logStep (None, replicate size zeroSnapshot) os) in
  logged size (foldl (perform size) (initial size g) os) =
  List.filter (fun e => negb (timestamp e =? 0)) (drop (length log - size) log).
Proof.
  intros Hs log. destruct (window_run os _ _ (window_initial g Hs)) as [Hl Hi _ [old Ho]]. unfold logged.
  rewrite logged_rotated by done. f_equal. unfold log. rewrite Ho.
  assert (length (rotated (foldl (perform size) (initial size g) os)) = size) as E by (unfold rotated; rewrite length_app, length_drop, length_take; lia).
  rewrite length_app, E. replace (length old + size - size)%nat with (length old) by lia. by rewrite drop_app_length.
Qed.

(** The values that count for a peak: those measured since its last reset. *)
Definition sinceStep (m : Metric) (x : Control * list Z) (o : Op) : Control * list Z :=
  let '(c, since) := x in
  (controlStep c o,
   match o, c with
   | Tick s, Some (ms, prev) => since ++ [measured ms prev s m]
   | Reset, _ => if isReset m then [] else since
   | _, _ => since
   end).

Definition maximum (l : list Z) : Z := foldl Z.max 0 l.

Lemma peak_step m l x o : fst x = fst l -> peak (default zeroSnapshot (last (snd l))) m = maximum (snd x) ->
  fst (sinceStep m x o) = fst (logStep l o) /\ peak (default zeroSnapshot (last (snd (logStep l o)))) m = maximum (snd (sinceStep m x o)).
Proof.
  destruct l as [c log], x as [? since]. cbn [fst snd]. intros -> Hp. split; [done|]. destruct o as [s| | | |]; cbn [logStep sinceStep fst snd]; try (by destruct c).
  - destruct c as [[ms prev]|]; [|done]. rewrite last_snoc.
    change (Z.max (peak (default zeroSnapshot (last log)) m) (measured ms prev s m) = maximum (since ++ [measured ms prev s m])). rewrite Hp. unfold maximum. by rewrite foldl_snoc.
  - rewrite last_snoc. cbn. by destruct (isReset m).
Qed.

Lemma peak_run m os : forall l c, fst c = fst l -> peak (default zeroSnapshot (last (snd l))) m = maximum (snd c) ->
  peak (default zeroSnapshot (last (snd (foldl logStep l os)))) m = maximum (snd (foldl (sinceStep m) c os)).
Proof. induction os as [|o os IH]; intros l c H1 H2; [done|]. cbn [foldl]. destruct (peak_step m l c o H1 H2). by apply IH. Qed.

(** The newest peak of a metric is the maximum of the values measured since the last
    reset, also when they have left the ring; a reset leaves the peaks of the free and the
    total memory. *)
Theorem peaks_exact (g : Gc) (os : list Op) (m : Metric) : (0 < size)%nat ->
  let w := foldl (perform size) (initial size g) os in
  peak (entryAt w (prevIndex size w)) m = maximum (snd (foldl (sinceStep m) (None, []) os)).
Proof.
  intros Hs w. destruct (window_run os _ _ (window_initial g Hs)) as [Hl Hi _ [old Ho]]. fold w in Hl, Hi, Ho.
  rewrite <- (last_rotated w old Hl Hi), <- Ho. apply peak_run; [done|]. cbn. destruct size as [|n]; [lia|].
  by rewrite replicate_S_end, last_snoc.
Qed.
End Ring.

(** ** Examples *)

Definition sampleAt (t v : Z) : Sample := mkSample t 0 0 [mkCpu (t * 300) 0 0 0 (t * 700)] (t * 50000) (t * 50000) (fun _ => v).
Definition session : list Op :=
  [Start 1000 [mkCpu 0 0 0 0 0] 0; Tick (sampleAt 1 5); Tick (sampleAt 2 9); Tick (sampleAt 3 4); Tick (sampleAt 4 6); Reset; Tick (sampleAt 5 2)].

Lemma ring_refines_log_witness : map timestamp (logged 3 (foldl (perform 3) (initial 3 NoGc) session)) = [3; 4; 5].
Proof. rewrite (ring_refines_log 3 NoGc session) by lia. vm_compute. reflexivity. Defined.

Lemma peaks_exact_witness : let w := foldl (perform 3) (initial 3 NoGc) session in
  peak (entryAt w (prevIndex 3 w)) Rss = 2 /\ peak (entryAt w (prevIndex 3 w)) FreeMemory = 9 /\
  peak (entryAt w (prevIndex 3 w)) OsCpu = 3000 /\ peak (entryAt w (prevIndex 3 w)) ProcessCpu = 500.
Proof.
  split; [|split; [|split]]; rewrite (peaks_exact 3 NoGc session _ ltac:(lia));
    vm_compute; reflexivity.
Defined.
