(* ===== verification/Archive.v ===== *)
(** Backups: the zip archives of [packages/thread/src/zipjs.ts] and the worker
    [workerArchiveCommand.ts], on a file system of files and directories. *)
From S2P Require Import Prelude JsValue NodePath Async.
From stdpp Require Import gmap sorting.
#[local] Open Scope string_scope.

(** ** More of Node's [path] *)

(** The parts of an absolute path. *)
Definition partsOf (s : string) : list string := normalizeParts true (splitSlash s) [].
Definition pathOf (ps : list string) : string := "/" ++ joinSlash ps.

Fixpoint withoutCommon (a b : list string) : list string * list string :=
  match a, b with
  | x :: a', y :: b' => if bool_decide (x = y) then withoutCommon a' b' else (a, b)
  | _, _ => (a, b)
  end.

(** [path.relative(from, to)]. *)
Definition pathRelative (cwd from to : string) : string :=
  let '(up, down) := withoutCommon (partsOf (pathResolve cwd [from])) (partsOf (pathResolve cwd [to])) in
  joinSlash (map (fun _ => "..") up ++ down).

Fixpoint beforeSlash (l : list Ascii.ascii) : list Ascii.ascii :=
  match l with
  | [] => []
  | c :: l => if bool_decide (c = slash) then [] else c :: beforeSlash l
  end.

(** [path.basename(s)]. *)
Definition pathBasename (s : string) : string :=
  String.string_of_list_ascii (reverse (beforeSlash (stripSlashes (reverse (String.list_ascii_of_string s))))).

(** The reversed name up to the last dot. *)
Fixpoint toDot (l : list Ascii.ascii) : option (list Ascii.ascii * list Ascii.ascii) :=
  match l with
  | [] => None
  | c :: l => if charIs 46 c then Some ([c], l) else match toDot l with Some (e, r) => Some (c :: e, r) | None => None end
  end.

(** [path.extname(s)]: a dot at the front of the name starts no extension. *)
Definition pathExtname (s : string) : string :=
  let b := pathBasename s in
  if bool_decide (b = "..") then ""
  else match toDot (reverse (String.list_ascii_of_string b)) with
       | Some (e, _ :: _) => String.string_of_list_ascii (reverse e)
       | _ => ""
       end.

(** [path.basename(s, ext)]. *)
Definition basenameWithout (s ext : string) : string :=
  let b := pathBasename s in
  if strEndsWith b ext && negb (bool_decide (b = ext)) then strTake (String.length b - String.length ext) b else b.

(** ** The file system *)

Inductive kind := File (data : list Z) | Directory.
#[export] Instance kind_eq : EqDecision kind.
Proof. solve_decision. Defined.

Abbreviation FileSystem := (gmap (list string) kind).

Definition errno {A} (code : string) : res A := Throw (SystemError code).

(** [mkdir(p, { recursive: true })]. *)
Fixpoint makeDirs (done todo : list string) (fs : FileSystem) : res FileSystem :=
  match fs !! done with
  | Some (File _) => errno (match todo with [] => "EEXIST" | _ => "ENOTDIR" end)
  | _ =>
      let fs := <[done := Directory]> fs in
      match todo with [] => Ok fs | n :: todo => makeDirs (done ++ [n])%list todo fs end
  end.
Definition mkdirp (p : list string) (fs : FileSystem) : res FileSystem := makeDirs [] p fs.

Definition writeFile (data : list Z) (p : list string) (fs : FileSystem) : res FileSystem :=
  match fs !! p with
  | Some Directory => errno "EISDIR"
  | Some (File _) => Ok (<[p := File data]> fs)
  | None =>
      match fs !! removelast p with
      | Some Directory => Ok (<[p := File data]> fs)
      | Some (File _) => errno "ENOTDIR"
      | None => errno "ENOENT"
      end
  end.

Definition readFile (p : list string) (fs : FileSystem) : res (list Z) :=
  match fs !! p with Some (File b) => Ok b | Some Directory => errno "EISDIR" | None => errno "ENOENT" end.

(** The names in a directory, in no particular order. *)
Definition nameIn (p q : list string) : option string :=
  match last q with Some n => if bool_decide (removelast q = p) then Some n else None | None => None end.
Definition readdir (p : list string) (fs : FileSystem) : list string := omap (nameIn p) (map fst (map_to_list fs)).

(** ** Archives *)

(** An entry as the package @zip.js/zip.js reads and writes it. *)
Record Entry := mkEntry { filename : string; directory : bool; content : res (list Z) }.

Module Zip.
Section Zip.
(** The format, of the package, the order of names, and the directory of the process. *)
Context (pack : list Entry -> list Z) (unpack : list Z -> res (list Entry)) (localeCompare : string -> string -> Z) (cwd : string).

Definition at_ (p : string) : list string := partsOf (pathResolve cwd [p]).

Definition normalizeEntryName (entryName : string) : string :=
  String.string_of_list_ascii (map (fun c => if charIs 92 c then slash else c) (String.list_ascii_of_string entryName)).

(** [name.replace(/\/?$/, '/')]. *)
Definition directoryName (name : string) : string := if strEndsWith name "/" then name else name ++ "/".

Definition resolveEntryPath (destinationPath entryName : string) : res string :=
  let resolvedDestinationPath := pathResolve cwd [destinationPath] in
  let resolvedEntryPath := pathResolve cwd [resolvedDestinationPath; normalizeEntryName entryName] in
  let relativeEntryPath := pathRelative cwd resolvedDestinationPath resolvedEntryPath in
  if isAbsolute relativeEntryPath || strStartsWith relativeEntryPath ".."
  then Throw (Error (js ("Refusing to extract zip entry outside destination: " ++ entryName)))
  else Ok resolvedEntryPath.

Definition getDefaultDestinationPath (zipPath : string) : string :=
  pathJoin [pathDirname zipPath; basenameWithout zipPath (pathExtname zipPath)].

(** [writer.add]: a name can be taken once. *)
Definition add (e : Entry) (es : list Entry) : res (list Entry) :=
  if existsb (fun e' => bool_decide (filename e' = filename e)) es then Throw (Error (js "File already exists")) else Ok (es ++ [e])%list.

Definition byName (a b : string) : Prop := (localeCompare a b <= 0)%Z.
#[local] Instance byName_dec : forall a b, Decision (byName a b) := fun a b => Z_le_dec (localeCompare a b) 0.

(** The loop over the children of a directory, counting entries. *)
Fixpoint addChildren (addChild : string -> list Entry -> res (list Entry * nat)) (children : list string) (es : list Entry) (childEntries : nat) :
    res (list Entry * nat) :=
  match children with
  | [] => Ok (es, childEntries)
  | child :: children => '(es, k) ← addChild child es; addChildren addChild children es (childEntries + k)
  end.

(** [addZipEntry], with a depth of directories. *)
Fixpoint addZipEntry (depth : nat) (fs : FileSystem) (sourcePath entryName : string) (es : list Entry) : res (list Entry * nat) :=
  match depth with
  | O => Throw Diverged
  | S depth =>
      let normalizedEntryName := normalizeEntryName entryName in
      match fs !! at_ sourcePath with
      | None => errno "ENOENT"
      | Some Directory =>
          let directoryEntryName := directoryName normalizedEntryName in
          es ← add (mkEntry directoryEntryName true (Ok [])) es;
          let children := merge_sort byName (readdir (at_ sourcePath) fs) in
          addChildren (fun child => addZipEntry depth fs (pathJoin [sourcePath; child]) (directoryEntryName ++ child)) children es 1
      | Some (File data) => es ← add (mkEntry normalizedEntryName false (Ok data)) es; Ok (es, 1)
      end
  end.

Fixpoint addSources (depth : nat) (fs : FileSystem) (sourcePaths : list string) (es : list Entry) (n : nat) : res (list Entry * nat) :=
  match sourcePaths with
  | [] => Ok (es, n)
  | sourcePath :: rest =>
      let resolvedSourcePath := pathResolve cwd [sourcePath] in
      '(es, k) ← addZipEntry depth fs resolvedSourcePath (pathBasename resolvedSourcePath) es;
      addSources depth fs rest es (n + k)
  end.

(** An operation on the file system; no file has the empty path. *)
Definition fsRead {A} (f : FileSystem -> res A) : async FileSystem A := fs ← ask; liftRes (f fs).
Definition fsChange (p : string) (f : list string -> FileSystem -> res FileSystem) : async FileSystem unit :=
  if bool_decide (p = "") then liftRes (errno "ENOENT") else fs ← ask; fs' ← liftRes (f (at_ p) fs); modify (fun _ => fs').
Definition fsFile (p : string) : async FileSystem (list Z) :=
  if bool_decide (p = "") then liftRes (errno "ENOENT") else fsRead (readFile (at_ p)).

Definition createZip (depth : nat) (zipPath : string) (sourcePaths : list string) : async FileSystem nat :=
  match sourcePaths with
  | [] => liftRes (throwError "No files or directories provided to createZip.")
  | _ =>
      '(es, _) ← await (fsRead (fun fs => addSources depth fs sourcePaths [] 0));
      let zipData := pack es in
      _ ← await (fsChange (pathDirname zipPath) mkdirp);
      _ ← await (fsChange zipPath (writeFile zipData));
      mret (length zipData)
  end.

Definition readEntries (zipPath : string) : async FileSystem (list Entry) :=
  data ← await (fsFile zipPath); await (liftRes (unpack data)).

(** [readZip]: the content is logged; the data of the entries is not read. *)
Definition readZip (zipPath : string) : async FileSystem (list (string * bool)) :=
  es ← readEntries zipPath; mret (map (fun e => (filename e, directory e)) es).

Definition extract (destinationPath : string) (e : Entry) : async FileSystem unit :=
  entryPath ← liftRes (resolveEntryPath destinationPath (filename e));
  if directory e then await (fsChange entryPath mkdirp)
  else
    _ ← await (fsChange (pathDirname entryPath) mkdirp);
    data ← await (liftRes (content e));
    await (fsChange entryPath (writeFile data)).

Fixpoint extractAll (destinationPath : string) (es : list Entry) : async FileSystem unit :=
  match es with
  | [] => mret tt
  | e :: es => _ ← extract destinationPath e; extractAll destinationPath es
  end.

(** [unZip]. *)
Definition unZip (zipPath : string) (destinationPath : option string) : async FileSystem string :=
  let destinationPath := default (getDefaultDestinationPath zipPath) destinationPath in
  data ← await (fsFile zipPath);
  _ ← await (fsChange destinationPath mkdirp);
  es ← await (liftRes (unpack data));
  _ ← extractAll destinationPath es;
  mret destinationPath.

(** ** The worker *)

Inductive ArchiveCommand := CmdZip | CmdVerify | CmdUnzip.

(** The callback of the worker: whether the command succeeds, which it responds. *)
Definition archiveCommand (depth : nat) (command : ArchiveCommand) (archivePath : string) (sourcePaths : list string) (destinationPath : option string) :
    async FileSystem bool :=
  match command with
  | CmdZip => n ← createZip depth archivePath sourcePaths; mret (0 <? n)%nat
  | CmdVerify => es ← readZip archivePath; mret (0 <? length es)%nat
  | CmdUnzip => p ← unZip archivePath destinationPath; mret (0 <? String.length p)%nat
  end.
End Zip.
End Zip.
