(* ===== verification/PathFacts.v ===== *)
(** What Node's [path] makes of names: the parts of a path, and the paths made of
    parts. *)
From S2P Require Import Prelude JsValue NodePath Archive.
#[local] Open Scope string_scope.

(** A name without slashes, and one that names a file or a directory. *)
Fixpoint noSlash (s : string) : bool := match s with EmptyString => true | String c s => negb (bool_decide (c = slash)) && noSlash s end.
Definition proper (n : string) : Prop := noSlash n = true /\ n <> "" /\ n <> "." /\ n <> "..".
#[export] Instance proper_dec n : Decision (proper n).
Proof. unfold proper. apply _. Defined.

Lemma app_cons a (s t : string) : String a s ++ t = String a (s ++ t).
Proof. reflexivity. Qed.

Lemma app_nil_s s : s ++ "" = s.
Proof. induction s as [|a s IH]; [done|]. by rewrite app_cons, IH. Qed.

Lemma app_assoc_s (s t u : string) : (s ++ t) ++ u = s ++ t ++ u.
Proof. induction s as [|a s IH]; [done|]. by rewrite !app_cons, IH. Qed.

(** ** Splitting and joining *)

Lemma splitSlash_nonempty s : splitSlash s <> [].
Proof. destruct s as [|c s]; [done|]. cbn. case_bool_decide; [done|]. by destruct (splitSlash s). Qed.

Lemma splitSlash_noSlash s : Forall (fun n => noSlash n = true) (splitSlash s).
Proof.
  induction s as [|c s IH]; [by repeat constructor|]. cbn [splitSlash]. case_bool_decide as E; [by constructor|].
  destruct (splitSlash s) as [|p ps]; [constructor; [|done]; cbn; by rewrite bool_decide_eq_false_2|].
  apply Forall_cons in IH as [Hp Hps]. constructor; [|done]. cbn. by rewrite bool_decide_eq_false_2.
Qed.

Lemma splitSlash_name n : noSlash n = true -> splitSlash n = [n].
Proof.
  induction n as [|c n IH]; [done|]. cbn. intros [Hc Hn]%andb_true_iff. apply negb_true_iff in Hc. rewrite Hc. by rewrite IH.
Qed.

Lemma splitSlash_cons n s : noSlash n = true -> splitSlash (n ++ "/" ++ s) = n :: splitSlash s.
Proof.
  induction n as [|c n IH]; [intros _; change ("" ++ "/" ++ s) with (String slash s); cbn [splitSlash]; by rewrite bool_decide_eq_true_2|].
  cbn [noSlash]. intros [Hc Hn]%andb_true_iff. apply negb_true_iff in Hc. rewrite app_cons. cbn [splitSlash]. rewrite Hc. by rewrite IH.
Qed.

Lemma joinSlash_cons n l : l <> [] -> joinSlash (n :: l) = n ++ "/" ++ joinSlash l.
Proof. by destruct l. Qed.

Lemma splitSlash_join l : Forall (fun n => noSlash n = true) l -> l <> [] -> splitSlash (joinSlash l) = l.
Proof.
  induction 1 as [|n l Hn Hl IH]; [done|]. intros _. destruct l as [|m l]; [by apply splitSlash_name|].
  rewrite joinSlash_cons, splitSlash_cons, IH by done. done.
Qed.

Lemma joinSlash_snoc l n : l <> [] -> joinSlash (l ++ [n])%list = joinSlash l ++ "/" ++ n.
Proof.
  induction l as [|m l IH]; [done|]. intros _. destruct l as [|k l]; [done|].
  change ((m :: k :: l) ++ [n])%list with (m :: ((k :: l) ++ [n]))%list. rewrite joinSlash_cons by done. rewrite IH by done.
  rewrite (joinSlash_cons m (k :: l)) by done. by rewrite !app_assoc_s.
Qed.

(** ** Normal paths *)

Lemma normalizeParts_proper parts acc : Forall (fun n => noSlash n = true) parts -> Forall proper acc -> Forall proper (normalizeParts true parts acc).
Proof.
  intros H. revert acc. induction H as [|p ps Hp Hps IH]; intros acc Ha; cbn [normalizeParts]; [by apply Forall_reverse|].
  destruct (bool_decide (p = "") || bool_decide (p = ".")) eqn:E; [by apply IH|]. apply orb_false_iff in E as [E1%bool_decide_eq_false E2%bool_decide_eq_false].
  case_bool_decide as E3; [|by apply IH; constructor].
  destruct Ha as [|q acc Hq Ha]; [by apply IH|]. rewrite bool_decide_eq_false_2 by apply Hq. by apply IH.
Qed.

Lemma normalizeParts_id l acc : Forall proper l -> normalizeParts true l acc = (reverse acc ++ l)%list.
Proof.
  intros H. revert acc. induction H as [|p ps (_ & H1 & H2 & H3) Hps IH]; intros acc; cbn [normalizeParts]; [by rewrite app_nil_r|].
  rewrite !bool_decide_eq_false_2 by done. cbn [orb]. rewrite IH, reverse_cons. by rewrite <- app_assoc.
Qed.

Lemma normalizeParts_app a b acc : Forall proper acc -> Forall (fun n => noSlash n = true) a ->
  normalizeParts true (a ++ b)%list acc = normalizeParts true b (reverse (normalizeParts true a acc)).
Proof.
  intros Hacc Ha. revert acc Hacc. induction Ha as [|p a Hp Ha IH]; intros acc Hacc; cbn [normalizeParts app]; [by rewrite reverse_involutive|].
  destruct (_ || _) eqn:E; [by apply IH|]. apply orb_false_iff in E as [E1%bool_decide_eq_false E2%bool_decide_eq_false].
  case_bool_decide as E3; [|by apply IH; constructor].
  destruct Hacc as [|q acc Hq Hacc]; [by apply IH|]. rewrite bool_decide_eq_false_2 by apply Hq. by apply IH.
Qed.

Lemma proper_noSlash l : Forall proper l -> Forall (fun n => noSlash n = true) l.
Proof. intros H. eapply Forall_impl; [exact H|]. by intros n [Hn _]. Qed.

Lemma partsOf_proper s : Forall proper (partsOf s).
Proof. apply normalizeParts_proper; [apply splitSlash_noSlash|done]. Qed.

Lemma splitSlash_abs s : splitSlash ("/" ++ s) = "" :: splitSlash s.
Proof. by apply (splitSlash_cons ""). Qed.

Lemma partsOf_pathOf ps : Forall proper ps -> partsOf (pathOf ps) = ps.
Proof.
  intros H. unfold partsOf, pathOf. rewrite splitSlash_abs. cbn [normalizeParts]. rewrite bool_decide_eq_true_2 by done. cbn [orb].
  destruct ps as [|p ps]; [done|]. rewrite splitSlash_join by (done || by apply proper_noSlash). by rewrite normalizeParts_id.
Qed.

(** The parts of a path below another. *)
Lemma partsOf_below ps s : Forall proper ps ->
  normalizeParts true (splitSlash (pathOf ps ++ "/" ++ s)) [] = normalizeParts true (splitSlash s) (reverse ps).
Proof.
  intros H. unfold pathOf. rewrite app_assoc_s, splitSlash_abs. cbn [normalizeParts]. rewrite bool_decide_eq_true_2 by done. cbn [orb].
  enough (forall acc, Forall proper acc -> normalizeParts true (splitSlash (joinSlash ps ++ "/" ++ s)) acc = normalizeParts true (splitSlash s) (reverse ps ++ acc)%list) as E
    by (rewrite E by done; by rewrite app_nil_r).
  induction H as [|p ps Hp Hps IH]; intros acc Hacc.
  - cbn [joinSlash]. change ("" ++ "/" ++ s) with ("/" ++ s). rewrite splitSlash_abs. cbn [normalizeParts]. by rewrite bool_decide_eq_true_2.
  - destruct Hp as (Hs & H1 & H2 & H3).
    assert (splitSlash (joinSlash (p :: ps) ++ "/" ++ s) = p :: match ps with [] => splitSlash s | _ => splitSlash (joinSlash ps ++ "/" ++ s) end) as ->.
    { destruct ps; [by apply splitSlash_cons|]. rewrite joinSlash_cons by done. rewrite !app_assoc_s. by apply splitSlash_cons. }
    cbn [normalizeParts]. rewrite !bool_decide_eq_false_2 by done. cbn [orb]. rewrite reverse_cons, <- app_assoc. cbn [app].
    destruct ps; [done|]. apply IH. by constructor.
Qed.

(** ** Resolving *)

Fixpoint resolvedText (l : list string) (acc : string) : string :=
  match l with
  | [] => acc
  | s :: l => if bool_decide (s = "") then resolvedText l acc else resolvedText l (if isAbsolute s then s else acc ++ "/" ++ s)
  end.

Lemma pathResolve_text cwd l : pathResolve cwd l = pathOf (partsOf (resolvedText l cwd)).
Proof. reflexivity. Qed.

Lemma isAbsolute_pathOf ps : isAbsolute (pathOf ps) = true.
Proof. reflexivity. Qed.

Lemma resolvedText_pathOf ps l acc : resolvedText (pathOf ps :: l) acc = resolvedText l (pathOf ps).
Proof. reflexivity. Qed.

Lemma resolve_pathOf cwd ps : Forall proper ps -> pathResolve cwd [pathOf ps] = pathOf ps.
Proof. intros H. rewrite pathResolve_text, resolvedText_pathOf. cbn [resolvedText]. by rewrite partsOf_pathOf. Qed.

Lemma joinSlash_relative l t : Forall proper l -> l <> [] -> isAbsolute (joinSlash l ++ t) = false /\ joinSlash l ++ t <> "".
Proof.
  intros Hl Hne. destruct l as [|n l]; [done|]. apply Forall_cons in Hl as [(Hs & H1 & _) _].
  destruct n as [|c n]; [done|]. cbn [noSlash] in Hs. apply andb_true_iff in Hs as [Hc%negb_true_iff%bool_decide_eq_false _].
  assert (exists u, joinSlash (String c n :: l) ++ t = String c u) as [u ->].
  { destruct l; [cbn [joinSlash]; rewrite app_cons; by eexists|]. rewrite joinSlash_cons by done. rewrite !app_cons. by eexists. }
  split; [|done]. unfold isAbsolute, strStartsWith. cbn [strPrefix]. by rewrite bool_decide_eq_false_2 by (intros E; by apply Hc).
Qed.

(** A relative name below a directory. *)
Lemma resolve_name cwd ps s l : Forall proper ps -> s <> "" -> isAbsolute s = false ->
  normalizeParts true (splitSlash s) (reverse ps) = (ps ++ l)%list -> pathResolve cwd [pathOf ps; s] = pathOf (ps ++ l)%list.
Proof.
  intros Hps Hne Ha Hs. rewrite pathResolve_text, resolvedText_pathOf. cbn [resolvedText]. rewrite bool_decide_eq_false_2 by done.
  rewrite Ha. unfold partsOf. rewrite partsOf_below by done. by rewrite Hs.
Qed.

(** ** Directories and base names *)

Lemma list_of_app s t : String.list_ascii_of_string (s ++ t) = (String.list_ascii_of_string s ++ String.list_ascii_of_string t)%list.
Proof. induction s as [|a s IH]; [done|]. rewrite app_cons. cbn. by rewrite IH. Qed.

Lemma noSlash_list n : noSlash n = true -> slash ∉ String.list_ascii_of_string n.
Proof.
  induction n as [|c n IH]; cbn; intros H; [apply not_elem_of_nil|]. apply andb_true_iff in H as [Hc%negb_true_iff%bool_decide_eq_false Hn].
  apply not_elem_of_cons. split; [congruence|by apply IH].
Qed.

Lemma beforeSlash_app l r : slash ∉ l -> beforeSlash (l ++ slash :: r)%list = l.
Proof.
  induction l as [|c l IH]; cbn [beforeSlash app]; intros H; [by rewrite bool_decide_eq_true_2|].
  apply not_elem_of_cons in H as [H1 H2]. rewrite bool_decide_eq_false_2 by congruence. by rewrite IH.
Qed.

Lemma dropPart_app l r : slash ∉ l -> dropPart (l ++ slash :: r)%list = Some r.
Proof.
  induction l as [|c l IH]; cbn [dropPart app]; intros H; [by rewrite bool_decide_eq_true_2|].
  apply not_elem_of_cons in H as [H1 H2]. rewrite bool_decide_eq_false_2 by congruence. by rewrite IH.
Qed.

(** The characters of a path from its end. *)
Lemma reversed_path ps n : proper n -> exists l, l = reverse (String.list_ascii_of_string n) /\ (slash ∉ l) /\ stripSlashes l = l /\ l <> [] /\
  stripSlashes (reverse (String.list_ascii_of_string (pathOf (ps ++ [n])%list))) = (l ++ slash :: (reverse (String.list_ascii_of_string (joinSlash ps)) ++ if decide (ps = []) then [] else [slash]))%list.
Proof.
  intros (Hs & Hne & _ & _). eexists. split; [done|]. pose proof (noSlash_list n Hs) as Hin.
  assert (reverse (String.list_ascii_of_string n) <> []) as Hnil by (destruct n; [done|]; cbn [String.list_ascii_of_string]; rewrite reverse_cons; by destruct (reverse _)).
  assert (slash ∉ reverse (String.list_ascii_of_string n)) as Hin' by (by rewrite elem_of_reverse).
  split; [done|]. destruct (reverse (String.list_ascii_of_string n)) as [|c l] eqn:E; [done|].
  apply not_elem_of_cons in Hin' as [Hc Hl]. split; [cbn; by rewrite bool_decide_eq_false_2 by congruence|]. split; [done|].
  unfold pathOf. destruct (decide (ps = [])) as [->|Hps].
  - cbn [app joinSlash]. change ("/" ++ n) with (String slash n). cbn [String.list_ascii_of_string]. rewrite reverse_cons, E. cbn [app stripSlashes reverse].
    by rewrite bool_decide_eq_false_2 by congruence.
  - rewrite joinSlash_snoc by done. rewrite !list_of_app, !reverse_app, E. cbn [app stripSlashes]. rewrite bool_decide_eq_false_2 by congruence.
    by rewrite <- !app_assoc.
Qed.

Lemma basename_path ps n : proper n -> pathBasename (pathOf (ps ++ [n])%list) = n.
Proof.
  intros Hn. destruct (reversed_path ps n Hn) as (l & -> & Hin & _ & _ & E). unfold pathBasename. rewrite E, beforeSlash_app by done.
  rewrite reverse_involutive. apply String.string_of_list_ascii_of_string.
Qed.

Lemma dirname_path ps n : proper n -> Forall proper ps -> pathDirname (pathOf (ps ++ [n])%list) = pathOf ps.
Proof.
  intros Hn Hps. destruct (reversed_path ps n Hn) as (l & -> & Hin & _ & _ & E). unfold pathDirname. rewrite bool_decide_eq_false_2 by done.
  rewrite E, dropPart_app by done. destruct (decide (ps = [])) as [->|Hne]; [done|].
  assert (exists a b r, (reverse (String.list_ascii_of_string (joinSlash ps)) ++ [slash])%list = a :: b :: r) as (a & b & r & Er).
  { destruct (reverse (String.list_ascii_of_string (joinSlash ps))) as [|a [|b r]] eqn:Er; [|eauto..].
    apply (f_equal reverse) in Er. rewrite reverse_involutive in Er. destruct ps as [|p ps]; [done|].
    apply Forall_cons in Hps as [(_ & Hp & _) _]. destruct p; [done|]. by destruct ps. }
  rewrite Er, <- Er, reverse_app, reverse_involutive. cbn [reverse app String.string_of_list_ascii]. unfold pathOf.
  cbn. by rewrite String.string_of_list_ascii_of_string.
Qed.
