(* ===== verification/ArchiveFacts.v ===== *)
(** Backups: extraction stays inside its destination for every archive, and an
    extracted backup is a copy of what was archived. *)
From S2P Require Import Prelude JsValue NodePath Async Archive PathFacts.
From stdpp Require Import gmap sorting.
#[local] Open Scope string_scope.
Import Zip.

(** ** Where entries go *)

Lemma at_proper cwd p : Forall proper (at_ cwd p).
Proof. apply partsOf_proper. Qed.

Lemma at_resolve cwd p : pathResolve cwd [p] = pathOf (at_ cwd p).
Proof. unfold at_. rewrite pathResolve_text. by rewrite partsOf_pathOf by apply partsOf_proper. Qed.

Lemma at_pathOf cwd ps : Forall proper ps -> at_ cwd (pathOf ps) = ps.
Proof. intros H. unfold at_. rewrite resolve_pathOf by done. by apply partsOf_pathOf. Qed.

Lemma resolve_parts cwd l : exists ps, Forall proper ps /\ pathResolve cwd l = pathOf ps.
Proof. rewrite pathResolve_text. eexists. split; [apply partsOf_proper|done]. Qed.

Lemma withoutCommon_spec a b : exists c, a = (c ++ fst (withoutCommon a b))%list /\ b = (c ++ snd (withoutCommon a b))%list.
Proof.
  revert b. induction a as [|x a IH]; intros [|y b]; [by exists []..|]. cbn [withoutCommon]. case_bool_decide as E; [|by exists []].
  subst y. destruct (IH b) as (c & H1 & H2). exists (x :: c). cbn. by rewrite <- H1, <- H2.
Qed.

Lemma withoutCommon_prefix a b : withoutCommon a (a ++ b)%list = ([], b).
Proof. induction a as [|x a IH]; [by destruct b|]. cbn. by rewrite bool_decide_eq_true_2. Qed.

Lemma relative_paths cwd a b : Forall proper a -> Forall proper b ->
  pathRelative cwd (pathOf a) (pathOf b) = joinSlash (map (fun _ => "..") (fst (withoutCommon a b)) ++ snd (withoutCommon a b))%list.
Proof. intros Ha Hb. unfold pathRelative. rewrite !resolve_pathOf, !partsOf_pathOf by done. by destruct (withoutCommon a b). Qed.

Lemma dots_first l : strStartsWith (joinSlash (".." :: l)) ".." = true.
Proof. destruct l; [done|]. rewrite joinSlash_cons by done. apply strPrefix_app. Qed.

(** What is accepted is at the destination or below it. *)
Lemma entry_inside cwd d n p : resolveEntryPath cwd d n = Ok p -> exists rest, Forall proper rest /\ p = pathOf (at_ cwd d ++ rest)%list.
Proof.
  unfold resolveEntryPath. rewrite (at_resolve cwd d).
  destruct (resolve_parts cwd [pathOf (at_ cwd d); normalizeEntryName n]) as (ps & Hps & ->).
  rewrite relative_paths by (done || apply at_proper). destruct (withoutCommon_spec (at_ cwd d) ps) as (c & Ha & Hb).
  destruct (withoutCommon (at_ cwd d) ps) as [[|u up] down]; cbn [fst snd] in *.
  - destruct (_ || _); [done|]. intros [= <-]. rewrite app_nil_r in Ha. subst c. exists down. split; [|by f_equal].
    rewrite Hb in Hps. by apply Forall_app in Hps as [_ ?].
  - cbn [map app]. rewrite dots_first, orb_true_r. done.
Qed.

(** ** Directories *)

Definition Between (done todo q : list string) : Prop := exists k, (k <= length todo)%nat /\ q = (done ++ take k todo)%list.
Definition Below (d q : list string) : Prop := exists r, q = (d ++ r)%list.

Lemma makeDirs_spec todo : forall done fs fs', makeDirs done todo fs = Ok fs' -> forall q,
  (Between done todo q /\ fs' !! q = Some Directory /\ (fs !! q = None \/ fs !! q = Some Directory)) \/ (~ Between done todo q /\ fs' !! q = fs !! q).
Proof.
  induction todo as [|n todo IH]; intros done fs fs' H q; cbn [makeDirs] in H; destruct (fs !! done) as [[b|]|] eqn:E; try discriminate H.
  1,2: injection H as <-; destruct (decide (q = done)) as [->|Hq];
    [left; split; [exists 0%nat; split; [lia|by rewrite app_nil_r]|]; split; [apply lookup_insert_eq|auto]
    |right; split; [intros (k & Hk & ->); cbn in Hk; destruct k; [|lia]; by rewrite app_nil_r in Hq|by apply lookup_insert_ne]].
  all: destruct (IH _ _ _ H q) as [[(k & Hk & ->) [H1 H2]]|[H1 H2]].
  1,3: left; split; [exists (S k); cbn; split; [lia|by rewrite <- app_assoc]|]; split; [done|];
    rewrite lookup_insert_ne in H2 by (intros Ed; apply (f_equal length) in Ed; rewrite !length_app in Ed; cbn in Ed; lia); done.
  all: destruct (decide (q = done)) as [->|Hq];
    [left; split; [exists 0%nat; cbn; split; [lia|by rewrite app_nil_r]|]; rewrite H2, lookup_insert_eq; auto
    |right; rewrite lookup_insert_ne in H2 by done; split; [|done]; intros (k & Hk & ->); destruct k as [|k]; [cbn in Hq; by rewrite app_nil_r in Hq|];
     apply H1; exists k; cbn in *; split; [lia|]; by rewrite <- app_assoc].
Qed.

(** Extraction changes nothing outside the destination [d], but for directories on the
    way to it. *)
Definition Outside (d : list string) (fs0 fs : FileSystem) : Prop := forall q,
  ~ Below d q -> fs !! q = fs0 !! q \/ (Below q d /\ fs0 !! q = None /\ fs !! q = Some Directory).

Section Inside.
Context (cwd : string) (fs0 : FileSystem).

Lemma outside_mkdirp d p fs fs' : (Below d p \/ Below p d) -> Outside d fs0 fs -> mkdirp p fs = Ok fs' -> Outside d fs0 fs'.
Proof.
  intros Hp Hf Hm q Hq. destruct (makeDirs_spec _ _ _ _ Hm q) as [[(k & _ & ->) [H1 H2]]|[_ ->]]; [|by apply Hf].
  cbn [app] in *. assert (Below (take k p) d) as Hb.
  { destruct Hp as [[r ->]|[r ->]].
    - rewrite take_app in *. destruct (decide (k <= length d)%nat) as [Hk|Hk].
      + replace (k - length d)%nat with 0%nat by lia. rewrite app_nil_r. exists (drop k d). by rewrite take_drop.
      + destruct Hq. rewrite take_ge by lia. by eexists.
    - exists (drop k p ++ r)%list. by rewrite app_assoc, take_drop. }
  destruct (Hf _ Hq) as [H3|(H3 & H4 & H5)]; [|by right].
  rewrite H1. destruct H2 as [H2|H2]; rewrite H2 in H3; [right; by rewrite <- H3|left; by rewrite <- H3].
Qed.

Lemma outside_writeFile d p b fs fs' : Below d p -> Outside d fs0 fs -> writeFile b p fs = Ok fs' -> Outside d fs0 fs'.
Proof.
  intros Hp Hf Hw. assert (fs' = <[p := File b]> fs) as -> by (unfold writeFile in Hw; repeat case_match; try discriminate Hw; by injection Hw as <-).
  intros q Hq. rewrite lookup_insert_ne by (by intros <-). by apply Hf.
Qed.

Lemma fsChange_keeps (I : FileSystem -> Prop) p f : (forall fs fs', I fs -> f (at_ cwd p) fs = Ok fs' -> I fs') -> keeps I (fsChange cwd p f).
Proof.
  intros H. unfold fsChange. case_bool_decide; [apply keeps_liftRes|]. intros fs Hfs. cbn. destruct (f (at_ cwd p) fs) as [fs'|e] eqn:E; [|exact Logic.I].
  split; [|exact Logic.I]. intros _ _. by eapply H.
Qed.

Lemma dirname_at ps : Forall proper ps -> at_ cwd (pathDirname (pathOf ps)) = removelast ps.
Proof.
  intros H. destruct ps as [|n ps _] using rev_ind; [done|]. apply Forall_app in H as [Hps [Hn _]%Forall_cons].
  rewrite dirname_path, at_pathOf, removelast_last by done. done.
Qed.

Lemma below_removelast d r : Below d (removelast (d ++ r)%list) \/ Below (removelast (d ++ r)%list) d.
Proof.
  destruct r as [|n r _] using rev_ind.
  - rewrite app_nil_r. right. destruct d as [|n d _] using rev_ind; [by exists []|]. rewrite removelast_last. by eexists.
  - rewrite app_assoc, removelast_last. left. by eexists.
Qed.

Lemma extract_keeps d e : keeps (Outside (at_ cwd d) fs0) (extract cwd d e).
Proof.
  unfold extract. destruct (resolveEntryPath cwd d (filename e)) as [p|err] eqn:Er; [|done]. apply entry_inside in Er as (rest & Hr & ->).
  assert (Forall proper (at_ cwd d ++ rest)%list) as Hall by (apply Forall_app; split; [apply at_proper|done]).
  cbn [liftRes mbind async_bind abind]. destruct (directory e).
  - apply keeps_await, fsChange_keeps. intros fs fs' Hf. rewrite at_pathOf by done. apply outside_mkdirp; [left; by eexists|done].
  - apply keeps_bind; [apply keeps_await, fsChange_keeps|intros _; apply keeps_bind; [apply keeps_await, keeps_liftRes|intros b; apply keeps_await, fsChange_keeps]].
    + intros fs fs' Hf. rewrite dirname_at by done. apply outside_mkdirp; [apply below_removelast|done].
    + intros fs fs' Hf. rewrite at_pathOf by done. apply outside_writeFile; [by eexists|done].
Qed.

Lemma extractAll_keeps d es : keeps (Outside (at_ cwd d) fs0) (extractAll cwd d es).
Proof. induction es as [|e es IH]; [done|]. apply keeps_bind; [apply extract_keeps|by intros _]. Qed.

Lemma unZip_keeps unpack z d : keeps (Outside (at_ cwd d) fs0) (unZip unpack cwd z (Some d)).
Proof.
  unfold unZip. cbn [default]. unfold id. apply keeps_bind; [|intros b; apply keeps_bind; [|intros _; apply keeps_bind; [|intros es; apply keeps_bind; [|done]]]].
  - apply keeps_await. unfold fsFile. case_bool_decide; [apply keeps_liftRes|]. intros fs _. apply keeps_liftRes.
  - apply keeps_await, fsChange_keeps. intros fs fs' Hf. apply outside_mkdirp; [left; exists []; by rewrite app_nil_r|done].
  - apply keeps_await, keeps_liftRes.
  - apply extractAll_keeps.
Qed.
End Inside.

(** C25: whatever an archive holds, and also when extraction fails, [unZip] changes
    nothing outside its destination, but creates missing directories on the way to it:
    also when other tasks run in between that change nothing there either. *)
Theorem unzip_inside (cwd : string) (unpack : list Z -> res (list Entry)) (z d : string) (fs fs' : FileSystem)
    (others pool : list (async FileSystem string)) :
  Forall (keeps (Outside (at_ cwd d) fs)) others ->
  rtc turn (fs, unZip unpack cwd z (Some d) :: others) (fs', pool) ->
  forall q, ~ Below (at_ cwd d) q -> fs' !! q = fs !! q \/ (Below q (at_ cwd d) /\ fs !! q = None /\ fs' !! q = Some Directory).
Proof.
  intros Ho Ht. eapply (keeps_turns (Outside (at_ cwd d) fs)); [|intros q _; by left|exact Ht].
  constructor; [apply unZip_keeps|done].
Qed.

(** ** Examples *)

Definition evil : list Z -> res (list Entry) := fun _ => Ok [mkEntry "ok.txt" false (Ok [1%Z]); mkEntry "../../etc/passwd" false (Ok [2%Z])].
Definition victim : FileSystem := list_to_map [([], Directory); (["etc"], Directory); (["etc"; "passwd"], File [0%Z]); (["a.zip"], File [])].

Lemma unzip_inside_witness :
  let fs' := fst (run (unZip evil "/" "/a.zip" (Some "/a")) victim) in
  rtc turn (victim, [unZip evil "/" "/a.zip" (Some "/a")]) (fs', [Raise (Error (js "Refusing to extract zip entry outside destination: ../../etc/passwd"))]) /\
  fs' !! ["a"; "ok.txt"] = Some (File [1%Z]) /\ fs' !! ["etc"; "passwd"] = Some (File [0%Z]).
Proof.
  intros fs'. assert (rtc turn (victim, [unZip evil "/" "/a.zip" (Some "/a")]) (fs', [Raise (Error (js "Refusing to extract zip entry outside destination: ../../etc/passwd"))])) as Ht.
  { apply (run_turns (unZip evil "/" "/a.zip" (Some "/a")) victim fs' (Throw _) [] []).
    rewrite (surjective_pairing (run (unZip evil "/" "/a.zip" (Some "/a")) victim)). by f_equal. }
  split; [exact Ht|]. split; [by vm_compute|].
  destruct (unzip_inside "/" evil "/a.zip" "/a" victim fs' [] _ ltac:(constructor) Ht ["etc"; "passwd"]) as [H|H].
  - intros [r Hr]. vm_compute in Hr. discriminate Hr.
  - rewrite H. by vm_compute.
  - destruct H as (_ & H & _). vm_compute in H. discriminate H.
Defined.
