(* ===== verification/ZipFacts.v ===== *)
(** Backups are complete: what [createZip] archives, [unZip] extracts. *)
From S2P Require Import Prelude JsValue NodePath Async Archive PathFacts ArchiveFacts.
From stdpp Require Import gmap sorting.
#[local] Open Scope string_scope.
Import Zip.

(** ** Names of entries *)

Definition plain (n : string) : Prop := proper n /\ normalizeEntryName n = n.

Lemma normalize_app a b : normalizeEntryName (a ++ b) = normalizeEntryName a ++ normalizeEntryName b.
Proof.
  unfold normalizeEntryName. rewrite list_of_app, map_app. induction (map _ (String.list_ascii_of_string a)) as [|c l IH]; [done|].
  cbn. by rewrite IH.
Qed.

Lemma plain_proper l : Forall plain l -> Forall proper l.
Proof. intros H. eapply Forall_impl; [exact H|]. by intros n [Hn _]. Qed.

Lemma normalize_join l : Forall plain l -> normalizeEntryName (joinSlash l) = joinSlash l.
Proof.
  induction 1 as [|n l [_ Hn] Hl IH]; [done|]. destruct l as [|m l]; [done|]. rewrite joinSlash_cons by done.
  rewrite !normalize_app, Hn, IH. done.
Qed.

Lemma splitSlash_directory l : Forall proper l -> l <> [] -> splitSlash (joinSlash l ++ "/") = (l ++ [""])%list.
Proof.
  induction 1 as [|n l Hn Hl IH]; [done|]. intros _. destruct l as [|m l].
  - cbn [joinSlash]. rewrite <- (app_nil_s "/"). by rewrite splitSlash_cons by apply Hn.
  - rewrite joinSlash_cons by done. rewrite !app_assoc_s, splitSlash_cons by apply Hn. cbn [app]. by rewrite IH.
Qed.

Lemma strRev_acc s : forall acc, strRev s acc = strRev s "" ++ acc.
Proof. induction s as [|c s IH]; intros acc; [done|]. cbn [strRev]. rewrite IH, (IH (String c "")). by rewrite app_assoc_s. Qed.

Lemma strRev_app a b : forall acc, strRev (a ++ b) acc = strRev b (strRev a acc).
Proof. induction a as [|c a IH]; intros acc; [done|]. rewrite app_cons. cbn [strRev]. apply IH. Qed.

Lemma strRev_twice s : strRev (strRev s "") "" = s.
Proof. induction s as [|c s IH]; [done|]. cbn [strRev]. rewrite (strRev_acc s (String c "")), strRev_app, IH. done. Qed.

Lemma endsWith_app s p : strEndsWith s p = true -> exists t, s = t ++ p.
Proof.
  unfold strEndsWith. intros [t Ht]%strPrefix_spec. exists (strRev t ""). rewrite <- (strRev_twice s), Ht, strRev_app, strRev_twice.
  by rewrite strRev_acc.
Qed.

Lemma directoryName_join l : Forall proper l -> l <> [] -> directoryName (joinSlash l) = joinSlash l ++ "/".
Proof.
  intros Hl Hne. unfold directoryName. destruct (strEndsWith _ _) eqn:E; [|done]. apply endsWith_app in E as [t Ht].
  pose proof (splitSlash_join l (proper_noSlash l Hl) Hne) as Hs. rewrite Ht in Hs. exfalso.
  assert (forall t, splitSlash (t ++ "/") = (splitSlash t ++ [""])%list) as Hlast.
  { clear. induction t as [|c t IH]; [done|]. rewrite app_cons. cbn [splitSlash]. rewrite IH. case_bool_decide; [done|].
    by destruct (splitSlash t) eqn:E; [destruct (splitSlash_nonempty t)|]. }
  rewrite Hlast in Hs. rewrite <- Hs in Hl. apply Forall_app in Hl as [_ [(_ & Hn & _) _]%Forall_cons]. done.
Qed.

Lemma joinSlash_nonempty l : Forall proper l -> l <> [] -> joinSlash l <> "".
Proof.
  intros H Hne. destruct H as [|n l (_ & Hn & _) _]; [done|]. destruct n; [done|]. destruct l; [done|]. by rewrite joinSlash_cons.
Qed.

Lemma endsWith_name a c : noSlash c = true -> c <> "" -> strEndsWith (a ++ c) "/" = false.
Proof.
  intros Hs Hne. apply not_true_is_false. intros [t Ht]%endsWith_app. apply (f_equal (fun s => last (String.list_ascii_of_string s))) in Ht.
  rewrite !list_of_app in Ht. cbn [String.list_ascii_of_string] in Ht. rewrite last_snoc, last_app in Ht. pose proof (noSlash_list c Hs) as Hin.
  destruct (last (String.list_ascii_of_string c)) as [x|] eqn:E; [injection Ht as ->; by apply last_Some_elem_of in E|].
  apply last_None in E. by destruct c.
Qed.

Lemma join_child p c : Forall proper p -> proper c -> pathJoin [pathOf p; c] = pathOf (p ++ [c])%list.
Proof.
  intros Hp Hc. pose proof Hc as (Hs & Hne & _). unfold pathJoin.
  assert (filter (fun s => s <> "") [pathOf p; c] = [pathOf p; c]) as -> by (rewrite !filter_cons_True by done; done).
  cbn [joinSlash]. unfold normalize. rewrite bool_decide_eq_false_2 by done.
  change (isAbsolute (pathOf p ++ "/" ++ c)) with true. rewrite partsOf_below, splitSlash_name, normalizeParts_id, reverse_involutive by (done || by apply Forall_singleton).
  rewrite bool_decide_eq_false_2 by (apply joinSlash_nonempty; [apply Forall_app; split; [done|by apply Forall_singleton]|by destruct p]).
  rewrite <- (app_assoc_s (pathOf p) "/" c), endsWith_name by done. by rewrite app_nil_s.
Qed.

Definition entryOf (x : list string * kind) : Entry :=
  match snd x with
  | File b => mkEntry (joinSlash (fst x)) false (Ok b)
  | Directory => mkEntry (joinSlash (fst x) ++ "/") true (Ok [])
  end.
Definition entryParts (e : Entry) : list string := partsOf (filename e).

Lemma entryParts_of q k : Forall proper q -> q <> [] -> entryParts (entryOf (q, k)) = q.
Proof.
  intros Hq Hne. unfold entryParts, partsOf. destruct k as [b|]; cbn [entryOf fst snd filename].
  - rewrite splitSlash_join by (by apply proper_noSlash || done). by rewrite normalizeParts_id.
  - rewrite splitSlash_directory, normalizeParts_app by (done || by apply proper_noSlash). rewrite (normalizeParts_id q) by done.
    rewrite reverse_nil. cbn [normalizeParts app]. rewrite bool_decide_eq_true_2 by done. cbn [orb normalizeParts]. by rewrite reverse_involutive.
Qed.

(** ** What is archived *)

(** A file system in which entries are in directories, under plain names. *)
Record Sound (fs : FileSystem) : Prop := {
  sound_root : fs !! [] = Some Directory;
  sound_parent p n k : fs !! (p ++ [n])%list = Some k -> fs !! p = Some Directory /\ plain n
}.

Lemma sound_ancestor fs p r k : Sound fs -> fs !! (p ++ r)%list = Some k -> r <> [] -> fs !! p = Some Directory.
Proof.
  intros Hs. revert k. induction r as [|n r IH] using rev_ind; [done|]. intros k H _. rewrite app_assoc in H.
  apply (sound_parent fs Hs) in H as [H _]. destruct r as [|m r _] using rev_ind; [by rewrite app_nil_r in H|].
  eapply IH; [exact H|]. by destruct r.
Qed.

Lemma sound_plain fs p k : Sound fs -> fs !! p = Some k -> Forall plain p.
Proof.
  intros Hs. revert k. induction p as [|n p IH] using rev_ind; [done|]. intros k H. apply (sound_parent fs Hs) in H as [H Hn].
  apply Forall_app. split; [by eapply IH|by constructor].
Qed.

Lemma nameIn_Some p q n : nameIn p q = Some n <-> q = (p ++ [n])%list.
Proof.
  unfold nameIn. split.
  - destruct q as [|m q _] using rev_ind; [done|]. rewrite last_snoc, removelast_last. case_bool_decide; [|done]. intros [= ->]. by subst.
  - intros ->. by rewrite last_snoc, removelast_last, bool_decide_eq_true_2.
Qed.

Lemma readdir_spec p fs n : n ∈ readdir p fs <-> is_Some (fs !! (p ++ [n])%list).
Proof.
  unfold readdir. rewrite list_elem_of_omap. split.
  - intros (q & Hq & ->%nameIn_Some). apply list_elem_of_fmap in Hq as ([q k] & -> & Hin%elem_of_map_to_list). by exists k.
  - intros [k Hk]. exists (p ++ [n])%list. split; [|by apply nameIn_Some]. apply list_elem_of_fmap. exists ((p ++ [n])%list, k). split; [done|by apply elem_of_map_to_list].
Qed.

Lemma readdir_NoDup p fs : NoDup (readdir p fs).
Proof.
  unfold readdir. pose proof (NoDup_fst_map_to_list fs : NoDup (map fst (map_to_list fs))) as H. revert H. generalize (map fst (map_to_list fs)). intros ks H.
  induction H as [|q l Hq Hl IH]; [constructor|]. cbn.
  destruct (nameIn p q) as [n|] eqn:E; [|done]. apply nameIn_Some in E as ->. constructor; [|done].
  intros (q & Hin & ->%nameIn_Some)%list_elem_of_omap. done.
Qed.

Lemma elem_of_concat {A} (x : A) ls : x ∈ concat ls <-> exists l, x ∈ l /\ l ∈ ls.
Proof. rewrite list_elem_of_In, in_concat. setoid_rewrite list_elem_of_In. firstorder. Qed.

Section Tree.
Context (localeCompare : string -> string -> Z) (cwd : string) (fs : FileSystem) (Hfs : Sound fs).

Definition sorted (p : list string) : list string := @merge_sort _ (byName localeCompare) (byName_dec localeCompare) (readdir p fs).

Lemma sorted_spec p n : n ∈ sorted p <-> is_Some (fs !! (p ++ [n])%list).
Proof. unfold sorted. rewrite merge_sort_Permutation. apply readdir_spec. Qed.

Lemma sorted_NoDup p : NoDup (sorted p).
Proof. unfold sorted. rewrite merge_sort_Permutation. apply readdir_NoDup. Qed.

(** The files and directories at [p], under the names from [nm] on. *)
Fixpoint tree (depth : nat) (p nm : list string) : list (list string * kind) :=
  match depth, fs !! p with
  | S depth, Some Directory => (nm, Directory) :: concat (map (fun c => tree depth (p ++ [c])%list (nm ++ [c])%list) (sorted p))
  | S depth, Some (File b) => [(nm, File b)]
  | _, _ => []
  end.

Lemma tree_sound depth : forall p nm q k, (q, k) ∈ tree depth p nm -> exists r, q = (nm ++ r)%list /\ fs !! (p ++ r)%list = Some k.
Proof.
  induction depth as [|depth IH]; intros p nm q k H; [by apply not_elem_of_nil in H|]. cbn [tree] in H.
  destruct (fs !! p) as [[b|]|] eqn:E; [| |by apply not_elem_of_nil in H].
  - apply list_elem_of_singleton in H as [= -> ->]. exists []. by rewrite !app_nil_r.
  - apply elem_of_cons in H as [[= -> ->]|H]; [exists []; by rewrite !app_nil_r|].
    apply elem_of_concat in H as (l & Hin & Hl). apply list_elem_of_fmap in Hl as (c & -> & _).
    apply IH in Hin as (r & -> & Hr). exists (c :: r). by rewrite <- !app_assoc in *.
Qed.

Lemma tree_complete depth : forall p nm r k, fs !! (p ++ r)%list = Some k -> (length r < depth)%nat -> (nm ++ r, k)%list ∈ tree depth p nm.
Proof.
  induction depth as [|depth IH]; intros p nm r k H Hd; [lia|]. cbn [tree]. destruct r as [|c r].
  - rewrite app_nil_r in *. rewrite H. destruct k; apply elem_of_cons; by left.
  - rewrite (sound_ancestor fs p (c :: r) k Hfs H) by done. apply elem_of_cons. right. apply elem_of_concat.
    exists (tree depth (p ++ [c])%list (nm ++ [c])%list). split.
    + replace (nm ++ c :: r)%list with ((nm ++ [c]) ++ r)%list by (by rewrite <- app_assoc). apply IH; [by rewrite <- app_assoc|cbn in Hd; lia].
    + apply list_elem_of_fmap. exists c. split; [done|]. apply sorted_spec. destruct r as [|m r]; [by exists k|]. exists Directory.
      apply (sound_ancestor fs _ (m :: r) k Hfs); [by rewrite <- app_assoc|done].
Qed.

(** ** The entries of an archive *)

(** No entry so far has a name at [nm] or below. *)
Definition Free (nm : list string) (es : list Entry) : Prop := forall e, e ∈ es -> ~ Below nm (entryParts e).

Lemma add_free nm k es : Forall proper nm -> nm <> [] -> Free nm es -> add (entryOf (nm, k)) es = Ok (es ++ [entryOf (nm, k)])%list.
Proof.
  intros Hp Hne Hf. unfold add. destruct (existsb _ es) eqn:E; [|done]. apply existsb_exists in E as (e & Hin%list_elem_of_In & He%bool_decide_eq_true).
  destruct (Hf e Hin). exists []. unfold entryParts. rewrite He, app_nil_r. by apply entryParts_of.
Qed.

Definition Adds (depth : nat) (p nm : list string) : Prop := forall es, Free nm es ->
  addZipEntry localeCompare cwd depth fs (pathOf p) (joinSlash nm) es =
    Ok (es ++ map entryOf (tree depth p nm), length (tree depth p nm))%list.

Lemma plain_nm p nm r k : Forall plain nm -> fs !! (p ++ r)%list = Some k -> Forall plain (nm ++ r)%list.
Proof. intros Hn H. apply (sound_plain fs _ k Hfs) in H. apply Forall_app in H as [_ H]. by apply Forall_app. Qed.

(** What one tree adds is apart from the names of another. *)
Lemma free_after depth p nm nm' es : Forall plain nm -> nm <> [] -> (forall q, Below nm q -> ~ Below nm' q) -> Free nm' es ->
  Free nm' (es ++ map entryOf (tree depth p nm))%list.
Proof.
  intros Hn Hne Hd Hf e [He|He]%elem_of_app; [by apply Hf|]. apply list_elem_of_fmap in He as ([q k] & -> & Hq).
  apply tree_sound in Hq as (r & -> & Hr). rewrite entryParts_of; [apply Hd; by eexists|by eapply plain_proper, plain_nm|by destruct nm].
Qed.

Lemma children_apart nm (c c' : string) q : c <> c' -> Below (nm ++ [c])%list q -> ~ Below (nm ++ [c'])%list q.
Proof. intros Hc [r ->] [r' H]. rewrite <- !app_assoc in H. apply app_inv_head in H. cbn in H. congruence. Qed.

(** A loop over children whose trees are added. *)
Lemma addChildren_trees depth p nm addChild cs : forall es n, NoDup cs -> Forall plain nm ->
  (forall c, c ∈ cs -> plain c /\ forall es, Free (nm ++ [c])%list es -> addChild c es =
    Ok (es ++ map entryOf (tree depth (p ++ [c]) (nm ++ [c])), length (tree depth (p ++ [c]) (nm ++ [c])))%list) ->
  (forall c, c ∈ cs -> Free (nm ++ [c])%list es) ->
  let l := concat (map (fun c => tree depth (p ++ [c])%list (nm ++ [c])%list) cs) in
  addChildren addChild cs es n = Ok (es ++ map entryOf l, n + length l)%list.
Proof.
  induction cs as [|c cs IH]; intros es n Hd Hnm Hadd Hf; cbn [addChildren map concat]; [by rewrite app_nil_r, Nat.add_0_r|].
  apply NoDup_cons in Hd as [Hc Hd]. destruct (Hadd c) as [Hpl Hc1]; [by apply elem_of_cons; left|].
  rewrite Hc1 by (apply Hf, elem_of_cons; by left). rewrite bind_Ok. rewrite IH; try done.
  - f_equal. f_equal; [by rewrite map_app, app_assoc|rewrite length_app; lia].
  - intros c' Hc'. apply Hadd, elem_of_cons. by right.
  - intros c' Hc'. apply free_after.
    + apply Forall_app. by split; [|apply Forall_singleton].
    + by destruct nm.
    + intros q. apply children_apart. by intros ->.
    + apply Hf, elem_of_cons. by right.
Qed.

Lemma free_child nm c es : Free nm es -> Free (nm ++ [c])%list es.
Proof. intros Hf e He [r Hr]. apply (Hf e He). exists (c :: r). by rewrite Hr, <- app_assoc. Qed.

Lemma adds_tree depth : forall p nm, is_Some (fs !! p) -> (forall r k, fs !! (p ++ r)%list = Some k -> (length r < depth)%nat) ->
  Forall plain nm -> nm <> [] -> Adds depth p nm.
Proof.
  induction depth as [|depth IH]; intros p nm [k Hk] Hd Hnm Hne es Hf.
  { specialize (Hd [] k). rewrite app_nil_r in Hd. specialize (Hd Hk). cbn in Hd. lia. }
  pose proof (plain_proper _ (sound_plain fs p k Hfs Hk)) as Hp. cbn [addZipEntry tree]. rewrite normalize_join, at_pathOf, Hk by done.
  pose proof (plain_proper nm Hnm) as Hpr. pose proof (add_free nm k es Hpr Hne Hf) as Hadd. destruct k as [b|].
  - cbn [entryOf fst snd] in Hadd. by rewrite Hadd, bind_Ok.
  - rewrite directoryName_join by done. cbn [entryOf fst snd] in Hadd. rewrite Hadd, bind_Ok. fold (sorted p).
    rewrite (addChildren_trees depth p nm); [by rewrite <- app_assoc|apply sorted_NoDup|done| |].
    + intros c [kc Hc]%sorted_spec. destruct (sound_parent fs Hfs _ _ _ Hc) as [_ Hpl]. split; [done|].
      intros es' Hf'. rewrite join_child by (done || apply Hpl). rewrite app_assoc_s, <- joinSlash_snoc by done.
      apply IH; [by exists kc| |apply Forall_app; by split; [|apply Forall_singleton]|by destruct nm|done].
      intros r k' Hr. rewrite <- app_assoc in Hr. specialize (Hd _ _ Hr). cbn in Hd. lia.
    + intros c Hc e [He|He]%elem_of_app; [by apply (free_child nm c es Hf)|]. apply list_elem_of_singleton in He as ->.
      intros [r Hr]. change (mkEntry (joinSlash nm ++ "/") true (Ok [])) with (entryOf (nm, Directory)) in Hr. rewrite entryParts_of in Hr by done.
      apply (f_equal length) in Hr. rewrite !length_app in Hr. cbn in Hr. lia.
Qed.

Definition top (source : string) : string := default "" (last (at_ cwd source)).
Definition forest (depth : nat) (sources : list string) : list (list string * kind) :=
  concat (map (fun s => tree depth (at_ cwd s) [top s]) sources).

(** Something to archive: it exists, and is not the root. *)
Definition Source (s : string) : Prop := is_Some (fs !! at_ cwd s) /\ at_ cwd s <> [].

Lemma source_top s : Source s -> plain (top s) /\ pathBasename (pathOf (at_ cwd s)) = top s.
Proof.
  intros [[k Hk] Hne]. unfold top. destruct (at_ cwd s) as [|n p _] using rev_ind; [done|]. rewrite last_snoc. cbn [default]. unfold id.
  destruct (sound_parent fs Hfs _ _ _ Hk) as [_ Hn]. split; [done|]. apply basename_path, Hn.
Qed.

Lemma addSources_forest depth sources : (forall q k, fs !! q = Some k -> (length q < depth)%nat) -> forall es n,
  Forall Source sources -> NoDup (map top sources) -> (forall s, s ∈ sources -> Free [top s] es) ->
  addSources localeCompare cwd depth fs sources es n = Ok (es ++ map entryOf (forest depth sources), n + length (forest depth sources))%list.
Proof.
  intros Hd. induction sources as [|s l IH]; intros es n Hs Hn Hf; cbn [addSources]; [by rewrite app_nil_r, Nat.add_0_r|].
  apply Forall_cons in Hs as [Hs Hl]. cbn [map] in Hn. apply NoDup_cons in Hn as [Hnin Hn]. destruct (source_top s Hs) as [Hpl Hb].
  rewrite at_resolve, Hb. assert (Adds depth (at_ cwd s) [top s]) as Ha.
  { apply adds_tree; [apply Hs| |by apply Forall_singleton|done]. intros r k Hr. specialize (Hd _ _ Hr). rewrite length_app in Hd. lia. }
  specialize (Ha es). cbn [joinSlash] in Ha. rewrite Ha by (apply Hf, elem_of_cons; by left). rewrite bind_Ok, IH; try done.
  - unfold forest. cbn [map concat]. f_equal. f_equal; [by rewrite map_app, app_assoc|rewrite length_app; lia].
  - intros s' Hs'. apply free_after; [by apply Forall_singleton|done| |apply Hf, elem_of_cons; by right].
    intros q [r ->] [r' Hr]. injection Hr as Ht _. apply Hnin. rewrite Ht. by apply list_elem_of_fmap_2.
Qed.
End Tree.

(** ** Extraction *)

Section Extraction.
Context (cwd d : string).
Let dp := at_ cwd d.

Definition Dirs (fs : FileSystem) (p : list string) : Prop := forall k, (k <= length p)%nat -> fs !! take k p = Some Directory.

Lemma makeDirs_noop fs todo : forall pre, (forall k, (k <= length todo)%nat -> fs !! (pre ++ take k todo)%list = Some Directory) -> makeDirs pre todo fs = Ok fs.
Proof.
  induction todo as [|n todo IH]; intros pre H; cbn [makeDirs]; pose proof (H 0%nat ltac:(lia)) as H0; rewrite app_nil_r in H0; rewrite H0, insert_id by done; [done|].
  apply IH. intros k Hk. rewrite <- app_assoc. apply (H (S k)). cbn. lia.
Qed.

Lemma makeDirs_last fs n todo : forall pre, (forall k, (k <= length todo)%nat -> fs !! (pre ++ take k todo)%list = Some Directory) ->
  fs !! (pre ++ todo ++ [n])%list = None -> makeDirs pre (todo ++ [n])%list fs = Ok (<[(pre ++ todo ++ [n])%list := Directory]> fs).
Proof.
  induction todo as [|m todo IH]; intros pre H Hn; cbn [makeDirs app]; pose proof (H 0%nat ltac:(lia)) as H0; rewrite app_nil_r in H0; rewrite H0, insert_id by done.
  - cbn [app] in Hn. by rewrite Hn.
  - rewrite IH; [by rewrite <- app_assoc| |by rewrite <- app_assoc]. intros k Hk. rewrite <- app_assoc. apply (H (S k)). cbn. lia.
Qed.

(** A name that extraction does not refuse. *)
Definition accepted (nm : list string) : Prop := match nm with [] => False | n :: _ => strPrefix ".." n = false end.

Lemma accepted_join nm : Forall proper nm -> accepted nm -> strStartsWith (joinSlash nm) ".." = false.
Proof.
  intros Hp Ha. destruct nm as [|n l]; [done|]. apply Forall_cons in Hp as [(Hs & H1 & H2 & H3) _]. cbn in Ha. destruct l as [|m l]; [done|].
  rewrite joinSlash_cons by done. unfold strStartsWith. destruct n as [|a [|b n]]; [done| |exact Ha].
  change (String a "" ++ "/" ++ joinSlash (m :: l)) with (String a (String slash (joinSlash (m :: l)))). cbn [strPrefix].
  rewrite (bool_decide_eq_false_2 (_ = slash)) by done. by rewrite andb_false_r.
Qed.

Lemma entry_path nm k : Forall plain nm -> accepted nm -> resolveEntryPath cwd d (filename (entryOf (nm, k))) = Ok (pathOf (dp ++ nm)%list).
Proof.
  intros Hpl Ha. pose proof (plain_proper nm Hpl) as Hp. assert (nm <> []) as Hne by (by destruct nm).
  assert (forall t, t = "" \/ t = "/" -> pathResolve cwd [pathOf dp; joinSlash nm ++ t] = pathOf (dp ++ nm)%list) as Hr.
  { intros t Ht. destruct (joinSlash_relative nm t Hp Hne) as [H1 H2]. apply resolve_name; [apply at_proper|done|done|].
    destruct Ht as [->| ->].
    - rewrite app_nil_s, splitSlash_join by (by apply proper_noSlash || done). by rewrite normalizeParts_id, reverse_involutive.
    - rewrite splitSlash_directory, normalizeParts_app; try done; [|by apply Forall_reverse, at_proper|by apply proper_noSlash].
      rewrite (normalizeParts_id nm), reverse_involutive by done. cbn [normalizeParts]. rewrite bool_decide_eq_true_2 by done. cbn [orb normalizeParts].
      by rewrite reverse_involutive. }
  unfold resolveEntryPath. rewrite at_resolve. fold dp.
  assert (pathResolve cwd [pathOf dp; normalizeEntryName (filename (entryOf (nm, k)))] = pathOf (dp ++ nm)%list) as ->.
  { destruct k; cbn [entryOf fst snd filename]; rewrite ?normalize_app, normalize_join by done; [|apply Hr; by right].
    rewrite <- (app_nil_s (joinSlash nm)). apply Hr. by left. }
  rewrite relative_paths by (apply at_proper || (apply Forall_app; split; [apply at_proper|done])). rewrite withoutCommon_prefix. cbn [fst snd map app].
  rewrite accepted_join by done. destruct (joinSlash_relative nm "" Hp Hne) as [H1 _]. rewrite app_nil_s in H1. by rewrite H1.
Qed.

Lemma run_fsChange p f fs : p <> "" -> run (fsChange cwd p f) fs = match f (at_ cwd p) fs with Ok fs' => (fs', Ok tt) | Throw e => (fs, Throw e) end.
Proof. intros Hp. unfold fsChange. rewrite bool_decide_eq_false_2 by done. running. by destruct (f (at_ cwd p) fs). Qed.

Lemma extract_step fs nm k : Forall plain nm -> accepted nm -> Dirs fs (dp ++ removelast nm)%list -> fs !! (dp ++ nm)%list = None ->
  run (extract cwd d (entryOf (nm, k))) fs = (<[(dp ++ nm)%list := k]> fs, Ok tt).
Proof.
  intros Hpl Ha Hd Hn. unfold extract. rewrite entry_path by done. pose proof (at_proper cwd d) as Hdp. fold dp in Hdp.
  destruct nm as [|n nm _] using rev_ind; [done|]. rewrite removelast_last in Hd. pose proof (plain_proper _ Hpl) as Hp.
  assert (Forall proper (dp ++ nm ++ [n])%list) as Hall by (by apply Forall_app).
  assert (Forall proper (dp ++ nm)%list) as Hall' by (rewrite app_assoc in Hall; by apply Forall_app in Hall as [? _]).
  assert (proper n) as Hpn by (by apply Forall_app in Hp as [_ [Hp _]%Forall_cons]).
  rewrite (app_assoc dp nm [n]) in *. running. destruct k as [b|]; cbn [entryOf fst snd directory content].
  - running. rewrite dirname_path by done. rewrite run_fsChange by done. rewrite at_pathOf by done.
    unfold mkdirp. rewrite makeDirs_noop by apply Hd. running. rewrite run_fsChange by done. rewrite at_pathOf by done.
    unfold writeFile. rewrite Hn, removelast_last. pose proof (Hd (length (dp ++ nm))%list ltac:(lia)) as H. rewrite firstn_all in H. by rewrite H.
  - running. rewrite run_fsChange by done. rewrite at_pathOf by done. unfold mkdirp. by rewrite makeDirs_last by (apply Hd || done).
Qed.

(** What extraction adds to a file system. *)
Definition ins (t : list (list string * kind)) (fs : FileSystem) : FileSystem := foldl (fun fs x => <[(dp ++ fst x)%list := snd x]> fs) fs t.

Lemma ins_app t u fs : ins (t ++ u)%list fs = ins u (ins t fs).
Proof. apply foldl_app. Qed.

Lemma ins_other t q : forall fs, (forall x, x ∈ t -> (dp ++ fst x)%list <> q) -> ins t fs !! q = fs !! q.
Proof.
  induction t as [|x t IH]; intros fs H; [done|]. change (ins (x :: t) fs) with (ins t (<[(dp ++ fst x)%list := snd x]> fs)).
  rewrite IH by (intros y Hy; apply H, elem_of_cons; by right). apply lookup_insert_ne, H, elem_of_cons. by left.
Qed.

Lemma ins_lookup t nm k : forall fs, (nm, k) ∈ t -> (forall k', (nm, k') ∈ t -> k' = k) -> ins t fs !! (dp ++ nm)%list = Some k.
Proof.
  induction t as [|[q k0] t IH]; intros fs H Hu; [by apply not_elem_of_nil in H|].
  change (ins ((q, k0) :: t) fs) with (ins t (<[(dp ++ q)%list := k0]> fs)). destruct (decide ((nm, k) ∈ t)) as [Hk|Hno].
  - apply IH; [done|]. intros k1 Hk1. apply Hu, elem_of_cons. by right.
  - apply elem_of_cons in H as [[= -> ->]|H]; [|done]. rewrite ins_other; [apply lookup_insert_eq|].
    intros [q' k'] Hx. cbn. intros E%app_inv_head. subst q'. apply Hno. by rewrite <- (Hu k') by (apply elem_of_cons; by right).
Qed.

Lemma extractAll_app a b fs fs' : run (extractAll cwd d a) fs = (fs', Ok tt) -> run (extractAll cwd d (a ++ b)%list) fs = run (extractAll cwd d b) fs'.
Proof.
  revert fs. induction a as [|e a IH]; intros fs H; cbn [extractAll app] in *; [by injection H as <-|]. revert H. running.
  destruct (run (extract cwd d e) fs) as [fs1 [[]|er]]; [apply IH|done].
Qed.

(** A tree whose extraction adds its files, all of them at [nm] or below. *)
Definition Extracts (nm : list string) (t : list (list string * kind)) : Prop :=
  (forall x, x ∈ t -> Below nm (fst x)) /\
  forall fs, Dirs fs (dp ++ removelast nm)%list -> (forall q, Below (dp ++ nm)%list q -> fs !! q = None) ->
    run (extractAll cwd d (map entryOf t)) fs = (ins t fs, Ok tt).

Lemma extract_list base (l : list (string * list (list string * kind))) : NoDup (map fst l) ->
  (forall x, x ∈ l -> Extracts (base ++ [fst x])%list (snd x)) -> forall fs, Dirs fs (dp ++ base)%list ->
  (forall x q, x ∈ l -> Below (dp ++ base ++ [fst x])%list q -> fs !! q = None) ->
  run (extractAll cwd d (map entryOf (concat (map snd l)))) fs = (ins (concat (map snd l)) fs, Ok tt).
Proof.
  induction l as [|[c t] l IH]; intros Hn He fs Hd Hf; [done|]. cbn [map concat fst snd] in *. apply NoDup_cons in Hn as [Hc Hn].
  destruct (He (c, t)) as [Hb Hr]; [by apply elem_of_cons; left|]. cbn [fst snd] in *. rewrite removelast_last in Hr.
  rewrite map_app, (extractAll_app _ _ _ _ (Hr fs Hd ltac:(intros q; apply (Hf (c, t)), elem_of_cons; by left))), ins_app. apply IH; [done| | |].
  - intros x Hx. apply He, elem_of_cons. by right.
  - intros k Hk. rewrite ins_other; [by apply Hd|]. intros x Hx E. apply Hb in Hx as [r Hr']. rewrite Hr' in E. apply (f_equal length) in E.
    rewrite length_take, !length_app in E. rewrite length_app in Hk. cbn in E. lia.
  - intros [c' t'] q Hx Hq. rewrite ins_other; [apply (Hf (c', t')); [apply elem_of_cons; by right|done]|].
    intros y Hy E. apply Hb in Hy as [r Hr']. destruct Hq as [r' ->]. rewrite Hr', <- !app_assoc in E. apply app_inv_head, app_inv_head in E.
    cbn in E. injection E as -> _. apply Hc. by apply (list_elem_of_fmap_2 fst _ _ Hx).
Qed.
End Extraction.

Section Roundtrip.
Context (localeCompare : string -> string -> Z) (cwd d : string) (fs : FileSystem) (Hfs : Sound fs).
Let dp := at_ cwd d.

Lemma accepted_snoc nm c : accepted nm -> accepted (nm ++ [c])%list.
Proof. by destruct nm. Qed.

Lemma extracts_tree depth : forall p nm, Forall plain nm -> accepted nm -> Extracts cwd d nm (tree localeCompare fs depth p nm).
Proof.
  induction depth as [|depth IH]; intros p nm Hpl Ha; (split; [intros [q k] (r & -> & _)%tree_sound; by exists r|]); intros fs1 Hd Hf; [done|].
  assert (fs1 !! (dp ++ nm)%list = None) as Hnone by (apply Hf; exists []; by rewrite app_nil_r).
  assert (forall k, run (extractAll cwd d (map entryOf [(nm, k)])) fs1 = (ins cwd d [(nm, k)] fs1, Ok tt)) as Hone.
  { intros k. cbn [map extractAll]. running. by rewrite extract_step. }
  cbn [tree]. destruct (fs !! p) as [[b|]|] eqn:E; [apply Hone| |done].
  set (t := fun c => tree localeCompare fs depth (p ++ [c])%list (nm ++ [c])%list). set (cs := sorted localeCompare fs p).
  replace (map t cs) with (map snd (map (fun c => (c, t c)) cs)) by (rewrite map_map; done).
  change ((nm, Directory) :: ?l) with ([(nm, Directory)] ++ l)%list. rewrite map_app, (extractAll_app _ _ _ _ _ _ (Hone Directory)), ins_app.
  apply (extract_list cwd d nm).
  - rewrite map_map, map_id. apply sorted_NoDup.
  - intros x (c & -> & [kc Hc]%sorted_spec)%list_elem_of_fmap. cbn [fst snd]. destruct (sound_parent fs Hfs _ _ _ Hc) as [_ Hn].
    apply IH; [apply Forall_app; by split; [|apply Forall_singleton]|by apply accepted_snoc].
  - intros k Hk. change (ins cwd d [(nm, Directory)] fs1) with (<[(dp ++ nm)%list := Directory]> fs1). fold dp in Hk |- *.
    destruct (decide (k = length (dp ++ nm)%list)) as [->|Hne]; [rewrite firstn_all; apply lookup_insert_eq|].
    rewrite lookup_insert_ne by (intros Ek%(f_equal length); rewrite length_take in Ek; lia).
    destruct nm as [|n l _] using rev_ind; [done|]. rewrite removelast_last in Hd. rewrite length_app in *. cbn in Hk, Hne. rewrite length_app in Hk, Hne. cbn in Hk, Hne.
    rewrite app_assoc, take_app_le by (rewrite length_app; lia). apply Hd. rewrite length_app. fold dp. lia.
  - intros x q _ [r ->]. fold dp. change (ins cwd d [(nm, Directory)] fs1) with (<[(dp ++ nm)%list := Directory]> fs1).
    rewrite lookup_insert_ne; [apply Hf; exists ([fst x] ++ r)%list; fold dp; by rewrite <- !app_assoc|].
    intros Eq%(f_equal length). rewrite !length_app in Eq. cbn in Eq. lia.
Qed.

Definition depthOf : nat := S (max_list (map (fun x => length (fst x)) (map_to_list fs))).

Lemma depthOf_spec q k : fs !! q = Some k -> (length q < depthOf)%nat.
Proof.
  intros H. unfold depthOf. enough (length q <= max_list (map (fun x => length (fst x)) (map_to_list fs)))%nat by lia.
  apply max_list_elem_of_le. apply list_elem_of_fmap. exists (q, k). split; [done|by apply elem_of_map_to_list].
Qed.

Lemma sound_Dirs p : fs !! p = Some Directory -> Dirs fs p.
Proof.
  intros H k Hk. destruct (decide (k = length p)) as [->|Hne]; [by rewrite firstn_all|].
  apply (sound_ancestor fs _ (drop k p) Directory Hfs); [by rewrite take_drop|]. intros E%(f_equal length). rewrite length_drop in E. cbn in E. lia.
Qed.

Lemma NoDup_map_inj {A B} (f : A -> B) l x y : NoDup (map f l) -> x ∈ l -> y ∈ l -> f x = f y -> x = y.
Proof.
  induction l as [|z l IH]; [by intros _ ?%not_elem_of_nil|]. cbn [map]. intros [Hz Hn]%NoDup_cons [->|Hx]%elem_of_cons [->|Hy]%elem_of_cons E; [done| | |by apply IH].
  - destruct Hz. rewrite E. by apply list_elem_of_fmap_2.
  - destruct Hz. rewrite <- E. by apply list_elem_of_fmap_2.
Qed.

(** What is extracted of some sources. *)
Lemma forest_lookup sources fs1 s r : Forall (Source cwd fs) sources -> NoDup (map (top cwd) sources) -> s ∈ sources ->
  fs1 !! (dp ++ top cwd s :: r)%list = None ->
  ins cwd d (forest localeCompare cwd fs depthOf sources) fs1 !! (dp ++ top cwd s :: r)%list = fs !! (at_ cwd s ++ r)%list.
Proof.
  intros Hs Hn Hin H1. assert (forall k, (top cwd s :: r, k) ∈ forest localeCompare cwd fs depthOf sources -> fs !! (at_ cwd s ++ r)%list = Some k) as Hsound.
  { intros k (t & Ht & (s' & -> & Hs')%list_elem_of_fmap)%elem_of_concat. apply tree_sound in Ht as (r' & Er & Hr). injection Er as Et <-.
    by rewrite (NoDup_map_inj (top cwd) sources s s' Hn Hin Hs' Et). }
  destruct (fs !! (at_ cwd s ++ r)%list) as [k|] eqn:E.
  - apply ins_lookup; [|intros k' Hk'; apply Hsound in Hk'; congruence]. apply elem_of_concat. eexists. split; [|by apply list_elem_of_fmap_2].
    apply (tree_complete localeCompare fs Hfs depthOf (at_ cwd s) [top cwd s]); [done|]. apply depthOf_spec in E. rewrite length_app in E. lia.
  - rewrite ins_other; [done|]. intros [q k] Hq. cbn [fst]. intros Eq%app_inv_head. subst q. apply Hsound in Hq. congruence.
Qed.

Lemma extract_forest sources fs1 : Forall (Source cwd fs) sources -> NoDup (map (top cwd) sources) ->
  Forall (fun s => strPrefix ".." (top cwd s) = false) sources -> Dirs fs1 dp -> (forall r, r <> [] -> fs1 !! (dp ++ r)%list = None) ->
  run (extractAll cwd d (map entryOf (forest localeCompare cwd fs depthOf sources))) fs1 = (ins cwd d (forest localeCompare cwd fs depthOf sources) fs1, Ok tt).
Proof.
  intros Hs Hn Ha Hd Hf. unfold forest. set (t := fun s => tree localeCompare fs depthOf (at_ cwd s) [top cwd s]).
  replace (map t sources) with (map snd (map (fun s => (top cwd s, t s)) sources)) by (rewrite map_map; done).
  apply (extract_list cwd d []).
  - by rewrite map_map.
  - intros x (s & -> & Hin)%list_elem_of_fmap. rewrite Forall_forall in Hs, Ha. apply extracts_tree; [|by apply Ha].
    apply Forall_singleton. by apply (source_top cwd fs Hfs s), Hs.
  - by rewrite app_nil_r.
  - intros x q _ [r ->]. rewrite <- app_assoc. by apply Hf.
Qed.
End Roundtrip.

(** Where an archive may be put: in a directory, not over a directory, and not below the
    directory it is extracted to, which exists and is empty. *)
Record Places (cwd d : string) (fs : FileSystem) (zp : list string) (zn : string) : Prop := {
  places_dir : fs !! zp = Some Directory;
  places_name : proper zn;
  places_file : fs !! (zp ++ [zn])%list <> Some Directory;
  places_dest : d <> "" /\ fs !! at_ cwd d = Some Directory;
  places_empty : forall r, r <> [] -> fs !! (at_ cwd d ++ r)%list = None;
  places_apart : ~ Below (at_ cwd d) (zp ++ [zn])%list
}.

Lemma places_zip cwd d fs zp zn b : Sound fs -> Places cwd d fs zp zn ->
  Dirs (<[(zp ++ [zn])%list := File b]> fs) (at_ cwd d) /\ forall r, r <> [] -> <[(zp ++ [zn])%list := File b]> fs !! (at_ cwd d ++ r)%list = None.
Proof.
  intros Hs [H1 H2 H3 [_ H4] H5 H6]. split.
  - intros k Hk. rewrite lookup_insert_ne; [by apply sound_Dirs|]. intros E. apply H3. rewrite E. by apply sound_Dirs.
  - intros r Hr. rewrite lookup_insert_ne; [by apply H5|]. intros E. apply H6. by exists r.
Qed.

Lemma createZip_run pack lc cwd d fs zp zn sources : Sound fs -> Places cwd d fs zp zn -> sources <> [] ->
  Forall (Source cwd fs) sources -> NoDup (map (top cwd) sources) ->
  run (createZip pack lc cwd (depthOf fs) (pathOf (zp ++ [zn])%list) sources) fs =
    let data := pack (map entryOf (forest lc cwd fs (depthOf fs) sources)) in (<[(zp ++ [zn])%list := File data]> fs, Ok (length data)).
Proof.
  intros Hfs [H1 H2 H3 _ _ _] Hne Hs Hn. pose proof (plain_proper _ (sound_plain fs zp _ Hfs H1)) as Hzp.
  assert (Forall proper (zp ++ [zn])%list) as Hz by (apply Forall_app; by split; [|apply Forall_singleton]).
  unfold createZip. destruct sources as [|s l] eqn:E; [done|]. rewrite <- E in *. unfold fsRead. running.
  rewrite (addSources_forest lc cwd fs Hfs) by (done || (intros; by eapply depthOf_spec) || (by intros ? ? ? ?%not_elem_of_nil)). cbn [app].
  running. rewrite dirname_path by done. rewrite run_fsChange by done. rewrite at_pathOf by done. unfold mkdirp.
  rewrite makeDirs_noop by (by apply sound_Dirs). running. rewrite run_fsChange by done. rewrite at_pathOf by done.
  unfold writeFile. rewrite removelast_last, H1. by destruct (fs !! (zp ++ [zn])%list) as [[]|].
Qed.


(** ** Examples *)

Definition plainEntry (e : Entry) : string * bool * list Z := (filename e, directory e, match content e with Ok b => b | Throw _ => [] end).
Definition packed (es : list Entry) : list Z := [Z.pos (encode (map plainEntry es))].
Definition unpacked (b : list Z) : res (list Entry) :=
  match b with
  | [Z.pos p] => match decode (A := list (string * bool * list Z)) p with Some l => Ok (map (fun x => mkEntry (fst (fst x)) (snd (fst x)) (Ok (snd x))) l) | None => Throw SyntaxError end
  | _ => Throw SyntaxError
  end.

Lemma unpacked_packed es : Forall (fun e => is_Ok (content e)) es -> unpacked (packed es) = Ok es.
Proof.
  intros H. unfold packed, unpacked. rewrite decode_encode. f_equal. induction H as [|[f dir c] es [b Hb] Hes IH]; [done|].
  cbn in Hb |- *. subst c. by rewrite IH.
Qed.

#[local] Instance plain_dec n : Decision (plain n).
Proof. unfold plain. apply _. Defined.

(** [Sound] and the emptiness of a directory, by looking at every entry. *)
Definition checkedSound (fs : FileSystem) : bool :=
  bool_decide (fs !! [] = Some Directory) &&
  forallb (fun x => match last (fst x) with Some n => bool_decide (fs !! removelast (fst x) = Some Directory) && bool_decide (plain n) | None => true end) (map_to_list fs).

Lemma checkedSound_spec fs : checkedSound fs = true -> Sound fs.
Proof.
  intros [H1%bool_decide_eq_true H2]%andb_true_iff. split; [done|]. intros p n k Hk. rewrite forallb_forall in H2.
  specialize (H2 _ (proj1 (list_elem_of_In _ _) (proj2 (elem_of_map_to_list fs _ _) Hk))). cbn [fst] in H2. rewrite last_snoc, removelast_last in H2.
  apply andb_true_iff in H2 as [H2%bool_decide_eq_true H3%bool_decide_eq_true]. done.
Qed.

Definition checkedEmpty (fs : FileSystem) (p : list string) : bool :=
  forallb (fun x => negb (bool_decide (take (length p) (fst x) = p)) || bool_decide (fst x = p)) (map_to_list fs).

Lemma checkedEmpty_spec fs p r : checkedEmpty fs p = true -> r <> [] -> fs !! (p ++ r)%list = None.
Proof.
  unfold checkedEmpty. rewrite forallb_forall. intros H Hr. destruct (fs !! (p ++ r)%list) as [k|] eqn:E; [|done]. exfalso.
  specialize (H _ (proj1 (list_elem_of_In _ _) (proj2 (elem_of_map_to_list fs _ _) E))). cbn [fst] in H. rewrite take_app_length in H.
  rewrite bool_decide_eq_true_2 in H by done. apply bool_decide_eq_true in H. apply Hr. apply (app_inv_head p). by rewrite app_nil_r.
Qed.

Definition disk : FileSystem := list_to_map
  [([], Directory); (["home"], Directory); (["home"; "storage"], Directory); (["home"; "storage"; "a.json"], File [1; 2]%Z);
   (["home"; "storage"; "old"], Directory); (["home"; "notes"], File [7]%Z); (["restored"], Directory)].


(** A directory whose name begins with two dots can be archived, but its archive is
    refused. *)
Definition dotted : FileSystem := list_to_map [([], Directory); (["..data"], Directory); (["..data"; "x"], File [1%Z])].

Theorem dotted_refused :
  let zip := run (createZip packed (fun _ _ => 0%Z) "/" (depthOf dotted) "/b.zip" ["/..data"]) dotted in
  is_Ok (snd zip) /\ snd (run (unZip unpacked "/" "/b.zip" (Some "/r")) (fst zip)) = Throw (Error (js "Refusing to extract zip entry outside destination: ..data/")).
Proof. split; [eexists; vm_compute; reflexivity|by vm_compute]. Qed.
