(* ===== verification/Requests.v ===== *)
(** Requests over https: the versions of packages and images and the file of updates,
    [packages/utils/src/npmVersion.ts], [packages/utils/src/githubVersion.ts] and
    [packages/thread/src/dockerVersion.ts]. *)
From S2P Require Import Prelude JsValue Validate Async.
From stdpp Require Import pretty.
Import Validate.
#[local] Open Scope string_scope.

Module Requests.

(** What happens to a request: the timer fires, the headers of the response arrive, data
    arrives, the response ends, or the request fails. *)
Inductive Event :=
  | TimedOut
  | Response (statusCode : Z) (location : option string)
  | Data (chunk : string)
  | Ended
  | Failed (error : exn).

(** How a promise settles; an exception in a listener is not caught. *)
Inductive outcome (A : Type) := Resolved (a : A) | Rejected (e : exn) | Uncaught (e : exn).
Arguments Resolved {A} a.
Arguments Rejected {A} e.
Arguments Uncaught {A} e.

Record Request (A : Type) := mkRequest {
  settled : option (outcome A);
  armed : bool;            (* the timer runs *)
  received : option string (* the data so far, once the response is accepted *)
}.
Arguments mkRequest {A} settled armed received.
Arguments settled {A} r.
Arguments armed {A} r.
Arguments received {A} r.

(** The functions of the platform that the code calls: [JSON.parse], [getErrorMessage], and the
    parser of URLs. *)
Record Platform := mkPlatform {
  parse : string -> option value;
  errorMessage : exn -> string;
  resolveUrl : string -> string -> option string; (* [new URL(location, base).toString()] *)
  host : string -> option string;                 (* [new URL(url).host] *)
  isHttps : string -> bool                        (* [https.get] accepts the url *)
}.

(** [encodeURIComponent(s)]: the bytes of UTF-8, but for letters, digits and some marks. *)
Definition unreserved (n : N) : bool :=
  ((65 <=? n) && (n <=? 90) || (97 <=? n) && (n <=? 122) || (48 <=? n) && (n <=? 57) || existsb (N.eqb n) [45; 95; 46; 33; 126; 42; 39; 40; 41])%N.
Definition hexDigit (n : N) : Ascii.ascii := Ascii.ascii_of_N (if (n <? 10)%N then 48 + n else 55 + n).
Definition percent (n : N) : string := String (Ascii.ascii_of_N 37) (String (hexDigit (n / 16)) (String (hexDigit (n mod 16)) "")).
Definition encodeChar (c : Ascii.ascii) : string :=
  let n := Ascii.N_of_ascii c in
  if unreserved n then String c ""
  else if (n <? 128)%N then percent n
  else percent (192 + n / 64) ++ percent (128 + n mod 64).
Fixpoint encodeURIComponent (s : string) : string := match s with EmptyString => "" | String c s => encodeChar c ++ encodeURIComponent s end.

Section Requests.
Context (platform : Platform).

Definition error {A} (text : string) : outcome A := Rejected (Error (js text)).

(** The first settlement counts. *)
Definition settle {A} (o : outcome A) (q : Request A) : Request A :=
  match settled q with Some _ => q | None => mkRequest (Some o) (armed q) (received q) end.
Definition clearTimeout {A} (q : Request A) : Request A := mkRequest (settled q) false (received q).

(** A request: what a response decides, and what is made of its data. The timeout is a
    whole number of seconds. *)
Section Exchange.
Context {A : Type} (onResponse : Z -> option string -> option (outcome A)) (onEnd : string -> outcome A) (timeout : Z).

Definition begun : Request A := mkRequest None true None.

Definition step (q : Request A) (e : Event) : Request A :=
  match e with
  | TimedOut =>
      if armed q then settle (error ("Request timed out after " ++ pretty (timeout / 1000)%Z ++ " seconds")) (clearTimeout q) else q
  | Response statusCode location =>
      match onResponse statusCode location with
      | Some o => settle o (clearTimeout q)
      | None => mkRequest (settled q) (armed q) (Some "")
      end
  | Data chunk => mkRequest (settled q) (armed q) (match received q with Some d => Some (d ++ chunk) | None => None end)
  | Ended => match received q with Some d => settle (onEnd d) (clearTimeout q) | None => q end
  | Failed e => settle (error ("Request failed: " ++ errorMessage platform e)) (clearTimeout q)
  end.

Definition exchange (es : list Event) : Request A := foldl step begun es.
End Exchange.

(** A response that is not a success. *)
Definition refused {A} (statusCode : Z) : outcome A := error ("Failed to fetch data. Status code: " ++ pretty statusCode).
Definition unparsed {A} (e : exn) : outcome A := error ("Failed to parse response JSON: " ++ errorMessage platform e).
Definition only200 {A} (statusCode : Z) (location : option string) : option (outcome A) :=
  if (statusCode =? 200)%Z then None else Some (refused statusCode).

(** ** [getNpmPackageVersion] *)

Definition quoted (s : string) : string := String (Ascii.ascii_of_N 34) (s ++ String (Ascii.ascii_of_N 34) "").
Definition taggedVersion (packageName tag : string) (data : string) : outcome value :=
  match parse platform data with
  | None => unparsed SyntaxError
  | Some json =>
      match getProp json "dist-tags" with
      | Throw e => unparsed e
      | Ok tags =>
          let version := optProp tags tag in
          if truthy version then Resolved version
          else error ("Tag " ++ quoted tag ++ " not found for package " ++ quoted packageName)
      end
  end.
Definition npmUrl (packageName : string) : string := "https://registry.npmjs.org/" ++ packageName.
Definition getNpmPackageVersion (packageName tag : string) (timeout : Z) (es : list Event) : Request value :=
  exchange only200 (taggedVersion packageName tag) timeout es.

(** ** [getGitHubUpdate] *)

Definition parsed (data : string) : outcome value := match parse platform data with Some v => Resolved v | None => unparsed SyntaxError end.
Definition updateUrl (branch file : string) : string := "https://matterbridge.io/" ++ branch ++ "_" ++ file.
Definition getGitHubUpdate (timeout : Z) (es : list Event) : Request value := exchange only200 parsed timeout es.

(** ** [getDockerVersion] *)

Definition Headers := list (string * string).
Fixpoint header (k : string) (h : Headers) : option string :=
  match h with [] => None | (k', v) :: h => if bool_decide (k' = k) then Some v else header k h end.

(** The requests that were sent, and an exception in a listener, which ends the thread:
    what follows it does not happen. *)
Record World := mkWorld { sent : list (string * option Headers); uncaught : option exn }.

Inductive Reply := Body (v : value) | Follow (url : string) (headers : option Headers).

Definition withoutAuthorization (h : Headers) : Headers := filter (fun kv => fst kv <> "Authorization") h.
Definition authorized (h : option Headers) : bool :=
  match h with Some h => match header "Authorization" h with Some a => negb (bool_decide (a = "")) | None => false end | None => false end.

(** The headers after a redirection: the authorization is for one host. *)
Definition redirectedHeaders (url redirectedUrl : string) (headers : option Headers) : option Headers :=
  match host platform url, host platform redirectedUrl with
  | Some fromHost, Some toHost =>
      if negb (bool_decide (fromHost = toHost)) && authorized headers then withoutAuthorization <$> headers else headers
  | _, _ => headers
  end.

Definition onJsonResponse (url : string) (headers : option Headers) (statusCode : Z) (location : option string) : option (outcome Reply) :=
  let redirection := (300 <=? statusCode)%Z && (statusCode <? 400)%Z in
  let location := match location with Some "" => None | l => l end in
  match (if redirection then location else None) with
  | Some l =>
      match resolveUrl platform l url with
      | None => Some (Uncaught TypeError)
      | Some redirectedUrl => Some (Resolved (Follow redirectedUrl (redirectedHeaders url redirectedUrl headers)))
      end
  | None => if (statusCode <? 200)%Z || (300 <=? statusCode)%Z then Some (refused statusCode) else None
  end.

Definition onJsonEnd (data : string) : outcome Reply :=
  match parse platform data with Some v => Resolved (Body v) | None => unparsed SyntaxError end.

(** What the network does to the n-th request; the timer is the last to fire. *)
Context (network : nat -> string -> option Headers -> list Event).

(** [httpsGetJson], with a number of redirections. *)
Fixpoint httpsGetJson (redirections : nat) (url : string) (headers : option Headers) (timeoutMs : Z) : async World value :=
  match redirections with
  | O => Raise Diverged
  | S redirections =>
      if negb (isHttps platform url) then Raise TypeError
      else
        w ← ask;
        let n := length (sent w) in
        _ ← modify (fun w => mkWorld (sent w ++ [(url, headers)])%list (uncaught w));
        let q := exchange (onJsonResponse url headers) onJsonEnd timeoutMs (network n url headers ++ [TimedOut])%list in
        Await match settled q with
        | Some (Resolved (Body v)) => mret v
        | Some (Resolved (Follow u h)) => httpsGetJson redirections u h timeoutMs
        | Some (Rejected e) => Raise e
        | Some (Uncaught e) => _ ← modify (fun w => mkWorld (sent w) (Some e)); Raise e
        | None => Raise Diverged
        end
  end.

(** [m.platform?.os === 'linux' && m.platform?.architecture === 'amd64']. *)
Definition isLinuxAmd64 (m : value) : res bool :=
  p ← getProp m "platform"; Ok (isStr (optProp p "os") "linux" && isStr (optProp p "architecture") "amd64").

Fixpoint findE (f : value -> res bool) (l : list value) : res value :=
  match l with [] => Ok Undefined | v :: l => b ← f v; if b : bool then Ok v else findE f l end.

Definition pickPlatformManifestDigest (manifestList : value) : res value :=
  manifests ← getProp manifestList "manifests";
  if negb (truthy manifests) then Ok Undefined
  else match manifests with
       | Arr [] => Ok Undefined
       | Arr ((first :: _) as l) => m ← findE isLinuxAmd64 l; Ok (coalesce (optProp m "digest") (optProp first "digest"))
       | _ => Throw TypeError
       end.

Definition getOciVersionLabel (config : value) : res value :=
  let label (name k : string) : res value := c ← getProp config name; Ok (optProp (optProp c "Labels") k) in
  a ← label "config" "org.opencontainers.image.version";
  b ← label "container_config" "org.opencontainers.image.version";
  c ← label "config" "org.label-schema.version";
  d ← label "container_config" "org.label-schema.version";
  Ok (coalesce a (coalesce b (coalesce c d))).

Definition accept : string :=
  "application/vnd.docker.distribution.manifest.v2+json, application/vnd.oci.image.manifest.v1+json, application/vnd.docker.distribution.manifest.list.v2+json, application/vnd.oci.image.index.v1+json".

Definition registry (path : string) : string := "https://registry-1.docker.io/" ++ path.
Definition tokenUrl (owner repo : string) : string :=
  "https://auth.docker.io/token?service=registry.docker.io&scope=repository:" ++ owner ++ "/" ++ repo ++ ":pull".

(** The manifest of one platform, if there are several. *)
Definition platformManifest (redirections : nat) (owner repo : string) (headers : Headers) (timeoutMs : Z) (manifest : value) : async World (option value) :=
  config ← liftRes (getProp manifest "config");
  manifests ← liftRes (getProp manifest "manifests");
  if isUndefined (optProp config "digest") && negb (isUndefined manifests) then
    digest ← liftRes (pickPlatformManifestDigest manifest);
    if negb (truthy digest) then mret None
    else
      m ← httpsGetJson redirections (registry ("v2/" ++ owner ++ "/" ++ repo ++ "/manifests/" ++ toText digest)) (Some headers) timeoutMs;
      mret (Some m)
  else mret (Some manifest).

Definition dockerVersion (redirections : nat) (owner repo tag : string) (timeoutMs : Z) : async World value :=
  tokenJson ← httpsGetJson redirections (tokenUrl owner repo) None timeoutMs;
  token ← liftRes (a ← getProp tokenJson "token"; b ← getProp tokenJson "access_token"; Ok (coalesce a b));
  if negb (isValidString token (Some 10%Z) None) then mret Undefined
  else
    let baseHeaders := [("Authorization", "Bearer " ++ toText token)] in
    let headers := (baseHeaders ++ [("Accept", accept)])%list in
    manifest ← httpsGetJson redirections (registry ("v2/" ++ owner ++ "/" ++ repo ++ "/manifests/" ++ encodeURIComponent tag)) (Some headers) timeoutMs;
    chosen ← platformManifest redirections owner repo headers timeoutMs manifest;
    match chosen with
    | None => mret Undefined
    | Some manifest =>
        config ← liftRes (getProp manifest "config");
        let configDigest := optProp config "digest" in
        if negb (isValidString configDigest (Some 10%Z) None) then mret Undefined
        else
          config ← httpsGetJson redirections (registry ("v2/" ++ owner ++ "/" ++ repo ++ "/blobs/" ++ toText configDigest))
                     (Some (baseHeaders ++ [("Accept", "application/json")])%list) timeoutMs;
          liftRes (getOciVersionLabel config)
    end.

Definition getDockerVersion (redirections : nat) (owner repo tag : string) (timeoutMs : Z) : async World value :=
  if bool_decide (owner = "") || bool_decide (repo = "") || bool_decide (tag = "") then mret Undefined
  else catch (dockerVersion redirections owner repo tag timeoutMs) (fun _ => mret Undefined).
End Requests.
End Requests.
