(* ===== verification/RequestFacts.v ===== *)
(** Requests settle, at the latest when their timer fires, and the token for the
    registry of images is sent to that registry only. *)
From S2P Require Import Prelude JsValue Async Requests.
From stdpp Require Import relations.
#[local] Open Scope string_scope.
Import Requests.

Section Settling.
Context (platform : Platform) {A : Type} (onResponse : Z -> option string -> option (outcome A)) (onEnd : string -> outcome A) (timeout : Z).

(** A request whose timer does not run has settled. *)
Definition Timed (q : Request A) : Prop := armed q = true \/ is_Some (settled q).

Lemma settle_some o (q : Request A) : is_Some (settled (settle o q)).
Proof. unfold settle. destruct (settled q) eqn:E; [by rewrite E|by eexists]. Qed.

Lemma step_timed q e : Timed q -> Timed (step platform onResponse onEnd timeout q e).
Proof.
  intros [Ha|Hs]; destruct e as [|st l|c| |e]; cbn [step]; repeat case_match; try (right; apply settle_some); try (by left); by right.
Qed.

Lemma step_stable q e o : settled q = Some o -> settled (step platform onResponse onEnd timeout q e) = Some o.
Proof. intros H. destruct e as [|st l|c| |e]; cbn [step]; repeat case_match; unfold settle, clearTimeout; cbn; rewrite ?H; done. Qed.

Lemma exchange_timed es : Timed (exchange platform onResponse onEnd timeout es).
Proof.
  unfold exchange. assert (forall q, Timed q -> Timed (foldl (step platform onResponse onEnd timeout) q es)) as H.
  { induction es as [|e es IH]; intros q Hq; [done|]. cbn [foldl]. apply IH. by apply step_timed. }
  apply H. by left.
Qed.

Lemma exchange_stable es es' o : settled (exchange platform onResponse onEnd timeout es) = Some o -> settled (exchange platform onResponse onEnd timeout (es ++ es')%list) = Some o.
Proof.
  unfold exchange. rewrite foldl_app. generalize (foldl (step platform onResponse onEnd timeout) begun es). induction es' as [|e es' IH]; intros q H; [done|].
  cbn [foldl]. apply IH. by apply step_stable.
Qed.

(** A request settles: whatever the network does before the timer fires, it has a
    result afterwards, and a result is final. *)
Theorem request_settles es : exists o, forall later,
  settled (exchange platform onResponse onEnd timeout (es ++ TimedOut :: later)%list) = Some o.
Proof.
  assert (is_Some (settled (exchange platform onResponse onEnd timeout (es ++ [TimedOut])%list))) as [o Ho].
  { unfold exchange. rewrite foldl_app. cbn [foldl step]. pose proof (exchange_timed es) as [H|H]; unfold exchange in H.
    - rewrite H. apply settle_some.
    - case_match; [apply settle_some|done]. }
  exists o. intros later. change (TimedOut :: later) with ([TimedOut] ++ later)%list. rewrite app_assoc. by apply exchange_stable.
Qed.

(** A response that is accepted and read to its end. *)
Lemma exchange_body st l chunks later : onResponse st l = None ->
  settled (exchange platform onResponse onEnd timeout (Response st l :: map Data chunks ++ Ended :: later)%list) = Some (onEnd (foldl String.append "" chunks)).
Proof.
  intros Hr. change (Response st l :: map Data chunks ++ Ended :: later)%list with ([Response st l] ++ map Data chunks ++ [Ended] ++ later)%list.
  rewrite 2 app_assoc. apply exchange_stable. unfold exchange. rewrite <- app_assoc. cbn [app foldl step]. rewrite Hr. rewrite foldl_app.
  assert (forall d, foldl (step platform onResponse onEnd timeout) (mkRequest None true (Some d)) (map Data chunks) = mkRequest None true (Some (foldl String.append d chunks))) as ->; [|done].
  induction chunks as [|c chunks IH]; intros d; [done|]. cbn [map foldl step settled armed received]. apply IH.
Qed.
End Settling.

(** The version of a package: if the registry answers with success, the result is
    the version that its answer gives to the tag, and an error if the answer is no JSON
    or has no such tag, whatever happens afterwards. *)
Theorem npm_version_exact (platform : Platform) (packageName tag : string) (timeout : Z) (l : option string) (chunks : list string) (later : list Event) :
  settled (getNpmPackageVersion platform packageName tag timeout (Response 200 l :: map Data chunks ++ Ended :: later)%list) =
    Some match parse platform (foldl String.append "" chunks) with
         | Some (Obj fields) =>
             let version := optProp (getField "dist-tags" fields) tag in
             if truthy version then Resolved version
             else Rejected (Error (js ("Tag " ++ quoted tag ++ " not found for package " ++ quoted packageName)))
         | Some ((Undefined | Null)) => unparsed platform TypeError
         | Some _ => Rejected (Error (js ("Tag " ++ quoted tag ++ " not found for package " ++ quoted packageName)))
         | None => unparsed platform SyntaxError
         end.
Proof.
  unfold getNpmPackageVersion. rewrite exchange_body by done. unfold taggedVersion. destruct (parse platform _) as [[]|]; done.
Qed.

(** ** The token *)

Section Token.
Context (platform : Platform) (network : nat -> string -> option Headers -> list Event).

Definition registryHost : string := "registry-1.docker.io".

(** A request may carry an authorization only to the registry. *)
Definition Discreet (r : string * option Headers) : Prop :=
  authorized (snd r) = true -> isHttps platform (fst r) = true /\ host platform (fst r) = Some registryHost.
Definition AllDiscreet (w : World) : Prop := Forall Discreet (sent w).

(** [https.get] parses a url that it accepts. *)
Context (https_parsed : forall u, isHttps platform u = true -> is_Some (host platform u)).
Context (registry_host : forall p, host platform (registry p) = Some registryHost).

(** What a request may be made with. *)
Definition Cleared (url : string) (headers : option Headers) : Prop :=
  authorized headers = true -> isHttps platform url = true -> host platform url = Some registryHost.

Lemma header_without h : header "Authorization" (withoutAuthorization h) = None.
Proof.
  induction h as [|[k v] h IH]; [done|]. unfold withoutAuthorization in *. cbn. case_decide as E; [|done]. cbn in E |- *. by rewrite bool_decide_eq_false_2.
Qed.

Lemma cleared_redirected u u' h : isHttps platform u = true -> Cleared u h -> Cleared u' (redirectedHeaders platform u u' h).
Proof.
  intros Hu Hc. unfold redirectedHeaders. destruct (https_parsed u Hu) as [f Hf]. rewrite Hf. destruct (host platform u') as [t|] eqn:Ht.
  - case_bool_decide as E; cbn [negb andb].
    + intros Ha _. rewrite Ht, <- E, <- Hf. by apply Hc.
    + destruct (authorized h) eqn:Ea; [|by intros Ha; rewrite Ha in Ea]. destruct h as [h|]; [|done]. unfold Cleared, authorized. cbn [fmap option_fmap option_map]. by rewrite header_without.
  - intros _ Hh. destruct (https_parsed u' Hh) as [x Hx]. congruence.
Qed.

Lemma settled_follow u h t es u' h' : settled (exchange platform (onJsonResponse platform u h) (onJsonEnd platform) t es) = Some (Resolved (Follow u' h')) ->
  h' = redirectedHeaders platform u u' h.
Proof.
  set (P := fun q : Request Reply => forall u' h', settled q = Some (Resolved (Follow u' h')) -> h' = redirectedHeaders platform u u' h).
  assert (forall q o, P q -> (forall u' h', o = Resolved (Follow u' h') -> h' = redirectedHeaders platform u u' h) -> P (settle o q)) as Hset.
  { intros q o Hq Ho u1 h1. unfold settle. destruct (settled q) eqn:E; [intros H; apply Hq; congruence|]. cbn. intros [= ->]. by apply Ho. }
  assert (forall q, P q -> P (clearTimeout q)) as Hclear by (intros q Hq; exact Hq).
  assert (forall q e, P q -> P (step platform (onJsonResponse platform u h) (onJsonEnd platform) t q e)) as Hstep.
  { intros q e Hq. destruct e as [|st l|c| |e]; cbn [step].
    - destruct (armed q); [|done]. apply Hset; [by apply Hclear|done].
    - unfold onJsonResponse. repeat case_match; simplify_eq; try exact Hq; apply Hset; try (by apply Hclear); try done. by intros u1 h1 [= <- <-].
    - exact Hq.
    - destruct (received q); [|done]. apply Hset; [by apply Hclear|]. unfold onJsonEnd. by case_match.
    - apply Hset; [by apply Hclear|done]. }
  unfold exchange. assert (P begun) as H0 by done. revert H0. generalize (@begun Reply). induction es as [|e es IH]; intros q Hq; [apply Hq|]. cbn [foldl]. apply IH, Hstep, Hq.
Qed.

Lemma json_discreet n : forall u h t, Cleared u h -> keeps AllDiscreet (httpsGetJson platform network n u h t).
Proof.
  induction n as [|n IH]; intros u h t Hc; [done|]. cbn [httpsGetJson]. destruct (isHttps platform u) eqn:Hu; [|done]. cbn [negb].
  intros w Hw. split.
  - intros w' Hw'. apply Forall_app. split; [done|]. apply Forall_singleton. intros Ha. split; [done|]. by apply Hc.
  - cbn -[exchange]. destruct (settled _) as [[[v|u' h']|e|e]|] eqn:E; try done.
    apply IH. apply settled_follow in E as ->. by apply cleared_redirected.
Qed.

Lemma registry_cleared p h : Cleared (registry p) h.
Proof. intros _ _. apply registry_host. Qed.

Lemma docker_discreet n owner repo tag t : keeps AllDiscreet (getDockerVersion platform network n owner repo tag t).
Proof.
  unfold getDockerVersion. destruct (_ || _); [done|]. apply keeps_catch; [|done]. unfold dockerVersion.
  apply keeps_bind; [by apply json_discreet|]. intros tok. apply keeps_bind; [apply keeps_liftRes|]. intros token. destruct (negb _); [done|].
  apply keeps_bind; [apply json_discreet, registry_cleared|]. intros manifest. apply keeps_bind; [unfold platformManifest|].
  - apply keeps_bind; [apply keeps_liftRes|]. intros config. apply keeps_bind; [apply keeps_liftRes|]. intros manifests. destruct (_ && _); [|done].
    apply keeps_bind; [apply keeps_liftRes|]. intros digest. destruct (negb _); [done|]. apply keeps_bind; [apply json_discreet, registry_cleared|done].
  - intros [m|]; [|done]. apply keeps_bind; [apply keeps_liftRes|]. intros config. destruct (negb _); [done|].
    apply keeps_bind; [apply json_discreet, registry_cleared|]. intros c. apply keeps_liftRes.
Qed.
End Token.

(** C26: the token stays with the registry: however the servers redirect the requests of
    any number of concurrent checks, a request that carries an authorization goes over
    https to the registry of images. *)
Theorem token_stays (platform : Platform) (network : nat -> string -> option Headers -> list Event)
    (https_parsed : forall u, isHttps platform u = true -> is_Some (host platform u))
    (registry_host : forall p, host platform (registry p) = Some registryHost)
    (redirections : nat) (timeout : Z) (images : list (string * string * string)) (w : World) (pool : list (async World value)) :
  rtc turn (mkWorld [] None, map (fun i => getDockerVersion platform network redirections (fst (fst i)) (snd (fst i)) (snd i) timeout) images) (w, pool) ->
  forall url headers, (url, headers) ∈ sent w -> authorized headers = true ->
  isHttps platform url = true /\ host platform url = Some "registry-1.docker.io".
Proof.
  intros Ht url headers Hin. eapply (keeps_turns (AllDiscreet platform)) in Ht as [Hw _].
  - unfold AllDiscreet in Hw. rewrite Forall_forall in Hw. exact (Hw _ Hin).
  - apply Forall_forall. intros m (i & -> & _)%list_elem_of_fmap. by apply docker_discreet.
  - constructor.
Qed.

(** ** Examples *)

Fixpoint untilSlash (s : string) : string := match s with EmptyString => "" | String c s => if charIs 47 c then "" else String c (untilSlash s) end.
Definition sampleHost (u : string) : option string := if strPrefix "https://" u then Some (untilSlash (strDrop 8 u)) else None.
Definition sampleParse (s : string) : option value :=
  if bool_decide (s = "T") then Some (Obj [("token", Str "0123456789")])
  else if bool_decide (s = "M") then Some (Obj [("config", Obj [("digest", Str "sha256:abcdef")])])
  else if bool_decide (s = "C") then Some (Obj [("config", Obj [("Labels", Obj [("org.opencontainers.image.version", Str "3.2.1")])])])
  else None.
Definition samplePlatform : Platform := mkPlatform sampleParse (fun _ => "") (fun l _ => Some l) sampleHost (strPrefix "https://").

(** The registry redirects to another host for the configuration. *)
Definition sampleNetwork (n : nat) (url : string) (h : option Headers) : list Event :=
  if strIncludes url "/blobs/" then [Response 307 (Some "https://cdn.example.com/c")]
  else [Response 200 None; Data (if strIncludes url "auth.docker.io" then "T" else if strIncludes url "/manifests/" then "M" else "C"); Ended].
Definition sampleCheck : async World value := getDockerVersion samplePlatform sampleNetwork 5 "luligu" "matterbridge" "latest" 5000.

Lemma token_stays_witness :
  let r := run sampleCheck (mkWorld [] None) in
  snd r = Ok (Str "3.2.1") /\ map (fun x => (sampleHost (fst x), authorized (snd x))) (sent (fst r)) =
    [(Some "auth.docker.io", false); (Some "registry-1.docker.io", true); (Some "registry-1.docker.io", true); (Some "cdn.example.com", false)] /\
  forall url headers, (url, headers) ∈ sent (fst r) -> authorized headers = true -> sampleHost url = Some "registry-1.docker.io".
Proof.
  intros r. split; [by vm_compute|]. split; [by vm_compute|]. intros url headers Hin Ha.
  refine (proj2 (token_stays samplePlatform sampleNetwork _ _ 5 5000 [("luligu", "matterbridge", "latest")] (fst r) [finished (snd r)] _ url headers Hin Ha)).
  - intros u Hu. cbn [isHttps host samplePlatform] in Hu |- *. unfold sampleHost. rewrite Hu. by eexists.
  - reflexivity.
  - apply (run_turns sampleCheck _ _ _ [] []). apply surjective_pairing.
Defined.

(** A redirection to a place that is no url is an exception in a listener: the check
    does not end with a result. *)
Theorem malformed_redirection_uncaught :
  let platform := mkPlatform sampleParse (fun _ => "") (fun _ _ => None) sampleHost (strPrefix "https://") in
  uncaught (fst (run (getDockerVersion platform (fun _ _ _ => [Response 302 (Some "https://")]) 5 "luligu" "matterbridge" "latest" 5000) (mkWorld [] None))) = Some TypeError.
Proof. by vm_compute. Qed.
