(* ===== verification/Updates.v ===== *)
(** The check for updates, [packages/thread/src/checkUpdates.ts] and its worker: the
    checks run concurrently, and what they announce together. *)
From S2P Require Import Prelude JsValue Validate Async.
From stdpp Require Import relations.
Import Validate.
#[local] Open Scope string_scope.

Module Updates.

Record Plugin := mkPlugin { name : string; version : string }.

(** The requests that the checks post. *)
Inductive Message :=
  | MatterbridgeLatestVersion (version : string)
  | MatterbridgeDevVersion (version : string)
  | SetLatestVersion (plugin : Plugin) (version : string)
  | SetDevVersion (plugin : Plugin) (version : string)
  | UpdateRequired (version : string) (devVersion : bool)
  | PluginUpdateRequired (plugin version : string) (devVersion : bool)
  | SnackBar (message : string) (timeout : Z) (severity : string).
#[export] Instance Plugin_eq : EqDecision Plugin.
Proof. solve_decision. Defined.
#[export] Instance Message_eq : EqDecision Message.
Proof. solve_decision. Defined.

Record World := mkWorld { noUpdatesAvailable : bool; posted : list Message }.

Definition request (m : Message) : async World unit := modify (fun w => mkWorld (noUpdatesAvailable w) (posted w ++ [m])).
Definition outOfDate : async World unit := modify (fun w => mkWorld false (posted w)).

(** The parts of [SharedMatterbridge] that the checks read. *)
Record Shared := mkShared { matterbridgeVersion : string }.

Section Checks.
(** What the registry of packages, the site and the plugin manager answer. *)
Context (getNpmPackageVersion : string -> string -> res string) (getGitHubUpdate : string -> res value) (plugins : res (list Plugin)).

Definition isDev (version : string) : bool := strIncludes version "-dev-" || strIncludes version "-git-".
Definition branchOf (shared : Shared) : string := if isDev (matterbridgeVersion shared) then "dev" else "main".

(** [await import(...)]; what checks the messages of the site returns nothing. *)
Definition imported {A} (m : async World A) : async World A := Await m.

Definition checkUpdatesAndLog (shared : Shared) : async World (option string) :=
  imported (catch (
    let branch := branchOf shared in
    updateJson ← await (liftRes (getGitHubUpdate branch));
    let field (main dev : string) := liftRes (getProp updateJson (if bool_decide (branch = "main") then main else dev)) in
    message ← field "latestMessage" "devMessage";
    severity ← field "latestMessageSeverity" "devMessageSeverity";
    if isValidString message (Some 1%Z) None && isValidString severity (Some 4%Z) None &&
       existsb (isStr severity) ["info"; "warning"; "error"; "success"]
    then _ ← request (SnackBar (toText message) 0 (toText severity)); mret None
    else mret None) (fun _ => mret None)).

Definition getMatterbridgeLatestVersion (shared : Shared) : async World (option string) :=
  imported (catch (
    version ← await (liftRes (getNpmPackageVersion "matterbridge" "latest"));
    _ ← request (MatterbridgeLatestVersion version);
    if bool_decide (matterbridgeVersion shared = version) then mret (Some version)
    else
      _ ← outOfDate;
      _ ← request (SnackBar "Matterbridge latest update available" 60 "info");
      _ ← request (UpdateRequired version false);
      mret (Some version)) (fun _ => mret None)).

Definition getMatterbridgeDevVersion (shared : Shared) : async World (option string) :=
  imported (catch (
    version ← await (liftRes (getNpmPackageVersion "matterbridge" "dev"));
    _ ← request (MatterbridgeDevVersion version);
    if isDev (matterbridgeVersion shared) && negb (bool_decide (matterbridgeVersion shared = version)) then
      _ ← outOfDate;
      _ ← request (SnackBar "Matterbridge dev update available" 60 "info");
      _ ← request (UpdateRequired version true);
      mret (Some version)
    else mret (Some version)) (fun _ => mret None)).

Definition getPluginLatestVersion (plugin : Plugin) : async World (option string) :=
  imported (catch (
    latestVersion ← await (liftRes (getNpmPackageVersion (name plugin) "latest"));
    _ ← request (SetLatestVersion plugin latestVersion);
    _ ← request (PluginUpdateRequired (name plugin) latestVersion false);
    if bool_decide (version plugin = latestVersion) then mret (Some latestVersion)
    else
      _ ← outOfDate;
      _ ← request (SnackBar ("Plugin " ++ name plugin ++ " latest update available") 60 "info");
      mret (Some latestVersion)) (fun _ => mret None)).

Definition getPluginDevVersion (plugin : Plugin) : async World (option string) :=
  imported (catch (
    devVersion ← await (liftRes (getNpmPackageVersion (name plugin) "dev"));
    _ ← request (SetDevVersion plugin devVersion);
    _ ← request (PluginUpdateRequired (name plugin) devVersion true);
    if isDev (version plugin) && negb (bool_decide (version plugin = devVersion)) then
      _ ← outOfDate;
      _ ← request (SnackBar ("Plugin " ++ name plugin ++ " dev update available") 60 "info");
      mret (Some devVersion)
    else mret (Some devVersion)) (fun _ => mret None)).

(** [checkUpdates]: the flag is set, the checks run concurrently, and when all have
    settled the result is announced. *)
Definition begin (w : World) : World := mkWorld true (posted w).
Definition checks (shared : Shared) : list (async World (option string)) :=
  ([checkUpdatesAndLog shared; getMatterbridgeLatestVersion shared; getMatterbridgeDevVersion shared] ++
   match plugins with Ok ps => map getPluginLatestVersion ps ++ map getPluginDevVersion ps | Throw _ => [] end)%list.
Definition noUpdates : Message := SnackBar "No updates available" 5 "info".
Definition conclude (w : World) : World :=
  if noUpdatesAvailable w then mkWorld true (posted w ++ [noUpdates])%list else w.

(** A run of [checkUpdates] with some interleaving of the checks. *)
Definition CheckUpdates (shared : Shared) (w w' : World) : Prop :=
  exists w1 pool, rtc turn (begin w, checks shared) (w1, pool) /\ settledPool pool = true /\ w' = conclude w1.
End Checks.
End Updates.
Import Updates.

(** ** What the checks announce *)

(** A computation that posts messages and reports that something is out of date. *)
Inductive Emits {A} : async World A -> list Message -> bool -> Prop :=
  | emits_ret a : Emits (Ret a) [] false
  | emits_raise e : Emits (Raise e) [] false
  | emits_await m l b : Emits m l b -> Emits (Await m) l b
  | emits_post x m l b : Emits m l b -> Emits (Write (fun w => mkWorld (noUpdatesAvailable w) (posted w ++ [x])%list) m) (x :: l) b
  | emits_stale m l b : Emits m l b -> Emits (Write (fun w => mkWorld false (posted w)) m) l true.

Lemma segment_emits {A} (m : async World A) l b w w' m' : Emits m l b -> segment m w = (w', m') ->
  exists l' b', Emits m' l' b' /\ (posted w' ++ l' = posted w ++ l)%list /\ noUpdatesAvailable w' && negb b' = noUpdatesAvailable w && negb b.
Proof.
  intros H. revert w. induction H as [a|e|m l b H IH|x m l b H IH|m l b H IH]; intros w Hs; cbn [segment] in Hs.
  - injection Hs as <- <-. exists [], false. repeat split. constructor.
  - injection Hs as <- <-. exists [], false. repeat split. constructor.
  - injection Hs as <- <-. by exists l, b.
  - destruct (IH _ Hs) as (l' & b' & H1 & H2 & H3). exists l', b'. split; [done|]. cbn in H2, H3. split; [by rewrite H2, <- app_assoc|done].
  - destruct (IH _ Hs) as (l' & b' & H1 & H2 & H3). exists l', b'. split; [done|]. cbn in H2, H3. split; [done|]. rewrite H3. by rewrite andb_false_r.
Qed.

(** The messages and reports that are to come from a pool. *)
Definition Emitting {A} (pool : list (async World A)) (l : list (list Message * bool)) : Prop := Forall2 (fun m x => Emits m (fst x) (snd x)) pool l.
Definition messages (l : list (list Message * bool)) : list Message := concat (map fst l).
Definition stale (l : list (list Message * bool)) : bool := existsb snd l.

Lemma turn_emits {A} (c c' : World * list (async World A)) l : turn c c' -> Emitting (snd c) l ->
  exists l', Emitting (snd c') l' /\ posted (fst c') ++ messages l' ≡ₚ posted (fst c) ++ messages l /\
    noUpdatesAvailable (fst c') && negb (stale l') = noUpdatesAvailable (fst c) && negb (stale l).
Proof.
  intros [w pre m post w' m' Hs] He. cbn [fst snd] in *. apply Forall2_app_inv_l in He as (l1 & l2 & H1 & H2 & ->).
  destruct l2 as [|[lm b] l2]; [by inversion H2|]. apply Forall2_cons in H2 as [Hm H2]. cbn [fst snd] in Hm.
  destruct (segment_emits m lm b w w' m' Hm Hs) as (l' & b' & Hm' & Hp & Hb). exists (l1 ++ (l', b') :: l2)%list. split; [|split].
  - by apply Forall2_app, Forall2_cons.
  - unfold messages. rewrite !map_app, !concat_app. cbn [map concat fst]. rewrite !(Permutation_app_swap_app (concat (map fst l1))).
    rewrite (app_assoc (posted w')), (app_assoc (posted w)), Hp. done.
  - unfold stale. rewrite !existsb_app. cbn [existsb snd]. destruct (existsb snd l1), (existsb snd l2); rewrite ?orb_true_r, ?orb_false_r; cbn [orb negb]; rewrite ?andb_false_r; done.
Qed.

Lemma turns_emit {A} (c c' : World * list (async World A)) l : rtc turn c c' -> Emitting (snd c) l ->
  exists l', Emitting (snd c') l' /\ posted (fst c') ++ messages l' ≡ₚ posted (fst c) ++ messages l /\
    noUpdatesAvailable (fst c') && negb (stale l') = noUpdatesAvailable (fst c) && negb (stale l).
Proof.
  intros H. revert l. induction H as [c|c1 c2 c3 H12 H23 IH]; intros l He; [by exists l|].
  destruct (turn_emits c1 c2 l H12 He) as (l1 & He1 & Hp1 & Hb1). destruct (IH l1 He1) as (l2 & He2 & Hp2 & Hb2).
  exists l2. split; [done|]. split; [by rewrite Hp2|by rewrite Hb2].
Qed.

Lemma settled_emits {A} (pool : list (async World A)) l : settledPool pool = true -> Emitting pool l -> messages l = [] /\ stale l = false.
Proof.
  intros Hs He. induction He as [|m [lm b] pool l Hm He IH]; [done|]. cbn in Hs. apply andb_true_iff in Hs as [Hm' Hs].
  destruct (IH Hs) as [H1 H2]. unfold messages, stale in *. cbn [map concat existsb fst snd] in *. rewrite H1, H2. inversion Hm; subst; done.
Qed.

(** What each check announces, and whether it finds something out of date. *)
Section Announced.
Context (npm : string -> string -> res string) (site : string -> res value) (plugins : res (list Plugin)).

Definition newsAnnounced (shared : Shared) : list Message * bool :=
  let main := bool_decide (branchOf shared = "main") in
  match site (branchOf shared) with
  | Ok ((Obj f)) =>
      match getField (if main then "latestMessage" else "devMessage") f, getField (if main then "latestMessageSeverity" else "devMessageSeverity") f with
      | Str m, Str s => if negb (bool_decide (m = "")) && existsb (fun t => bool_decide (s = t)) ["info"; "warning"; "error"; "success"] then ([SnackBar m 0 s], false) else ([], false)
      | _, _ => ([], false)
      end
  | _ => ([], false)
  end.

Definition latestAnnounced (shared : Shared) : list Message * bool :=
  match npm "matterbridge" "latest" with
  | Ok v => if bool_decide (matterbridgeVersion shared = v) then ([MatterbridgeLatestVersion v], false)
            else ([MatterbridgeLatestVersion v; SnackBar "Matterbridge latest update available" 60 "info"; UpdateRequired v false], true)
  | Throw _ => ([], false)
  end.

Definition devAnnounced (shared : Shared) : list Message * bool :=
  match npm "matterbridge" "dev" with
  | Ok v => if isDev (matterbridgeVersion shared) && negb (bool_decide (matterbridgeVersion shared = v))
            then ([MatterbridgeDevVersion v; SnackBar "Matterbridge dev update available" 60 "info"; UpdateRequired v true], true)
            else ([MatterbridgeDevVersion v], false)
  | Throw _ => ([], false)
  end.

Definition pluginAnnounced (p : Plugin) : list Message * bool :=
  match npm (name p) "latest" with
  | Ok v => if bool_decide (version p = v) then ([SetLatestVersion p v; PluginUpdateRequired (name p) v false], false)
            else ([SetLatestVersion p v; PluginUpdateRequired (name p) v false; SnackBar ("Plugin " ++ name p ++ " latest update available") 60 "info"], true)
  | Throw _ => ([], false)
  end.

Definition pluginDevAnnounced (p : Plugin) : list Message * bool :=
  match npm (name p) "dev" with
  | Ok v => if isDev (version p) && negb (bool_decide (version p = v))
            then ([SetDevVersion p v; PluginUpdateRequired (name p) v true; SnackBar ("Plugin " ++ name p ++ " dev update available") 60 "info"], true)
            else ([SetDevVersion p v; PluginUpdateRequired (name p) v true], false)
  | Throw _ => ([], false)
  end.

Definition announced (shared : Shared) : list (list Message * bool) :=
  ([newsAnnounced shared; latestAnnounced shared; devAnnounced shared] ++
   match plugins with Ok ps => map pluginAnnounced ps ++ map pluginDevAnnounced ps | Throw _ => [] end)%list.

Ltac emits := cbn -[String.length]; unfold imported, mret, async_ret in *; cbn -[String.length]; repeat econstructor.

Lemma severity_long s : existsb (fun t => bool_decide (s = t)) ["info"; "warning"; "error"; "success"] = true -> (4 <= String.length s)%nat.
Proof. intros (t & Ht & ->%bool_decide_eq_true)%existsb_exists. cbn in Ht. destruct Ht as [<-|[<-|[<-|[<-|[]]]]]; cbn; lia. Qed.

(** The condition on the message of the site. *)
Lemma news_valid m s : isValidString (Str m) (Some 1%Z) None && isValidString (Str s) (Some 4%Z) None && existsb (isStr (Str s)) ["info"; "warning"; "error"; "success"] =
  negb (bool_decide (m = "")) && existsb (fun t => bool_decide (s = t)) ["info"; "warning"; "error"; "success"].
Proof.
  change (isStr (Str s)) with (fun t => bool_decide (s = t)).
  assert (isValidString (Str m) (Some 1%Z) None = negb (bool_decide (m = ""))) as ->.
  { destruct m as [|a m]; [done|]. cbn -[String.length Z.of_nat Z.leb]. rewrite andb_true_r. apply Z.leb_le. cbn [String.length]. lia. }
  destruct (existsb _ _) eqn:E; [|by rewrite !andb_false_r]. apply severity_long in E. rewrite !andb_true_r.
  assert (isValidString (Str s) (Some 4%Z) None = true) as ->; [|by rewrite andb_true_r].
  cbn -[String.length Z.of_nat Z.leb]. rewrite andb_true_r. apply Z.leb_le. lia.
Qed.

Lemma checks_emit shared : Emitting (checks npm site plugins shared) (announced shared).
Proof.
  unfold checks, announced. apply Forall2_app; [repeat apply Forall2_cons_2|].
  - unfold checkUpdatesAndLog, newsAnnounced. destruct (site (branchOf shared)) as [v|e]; [|by emits]. destruct v as [| | | | | |f]; try by emits.
    cbn -[isValidString existsb isStr toText]. unfold imported. do 2 constructor. destruct (getField _ f) as [| | | |m| |]; try by emits.
    destruct (getField _ f) as [| | | |sv| |]; try (cbn -[String.length]; rewrite ?andb_false_r; by emits).
    cbn -[isValidString existsb isStr toText]. rewrite news_valid. destruct (_ && _); emits.
  - unfold getMatterbridgeLatestVersion, latestAnnounced. destruct (npm _ _) as [v|e]; [cbn; case_bool_decide|]; emits.
  - unfold getMatterbridgeDevVersion, devAnnounced. destruct (npm _ _) as [v|e]; [cbn; destruct (_ && _)|]; emits.
  - constructor.
  - destruct plugins as [ps|e]; [|constructor]. apply Forall2_app; induction ps as [|p ps IH]; constructor; try exact IH.
    + unfold getPluginLatestVersion, pluginAnnounced. destruct (npm _ _) as [v|e]; [cbn; case_bool_decide|]; emits.
    + unfold getPluginDevVersion, pluginDevAnnounced. destruct (npm _ _) as [v|e]; [cbn; destruct (_ && _)|]; emits.
Qed.
End Announced.

(** A pool of tasks can always settle. *)
Lemma pool_settles {A} (pool : list (async World A)) w : exists w' pool', rtc turn (w, pool) (w', pool') /\ settledPool pool' = true.
Proof.
  enough (forall pre w, settledPool pre = true -> exists w' pool', rtc turn (w, (pre ++ pool)%list) (w', pool') /\ settledPool pool' = true) as H by exact (H [] w eq_refl).
  clear w. induction pool as [|m pool IH]; intros pre w Hp; [rewrite app_nil_r; by exists w, pre|].
  destruct (run m w) as [w1 r] eqn:E. destruct (IH (pre ++ [finished r])%list w1) as (w2 & pool' & Ht & Hs).
  { unfold settledPool in *. rewrite forallb_app, Hp. by destruct r. }
  exists w2, pool'. split; [|done]. rewrite <- app_assoc in Ht. etransitivity; [by apply run_turns|exact Ht].
Qed.

(** C27: however its checks are interleaved, a check for updates posts exactly what each
    of them announces of the versions it was given, in some order, and then that there
    are no updates if, and only if, none of them found anything out of date; and it can
    always end. *)
Theorem updates_exact (npm : string -> string -> res string) (site : string -> res value) (plugins : res (list Plugin)) (shared : Shared) (w : World) :
  (exists w', CheckUpdates npm site plugins shared w w') /\
  forall w', CheckUpdates npm site plugins shared w w' ->
    exists l, l ≡ₚ posted w ++ messages (announced npm site plugins shared) /\
      posted w' = (l ++ if stale (announced npm site plugins shared) then [] else [noUpdates])%list.
Proof.
  split.
  - destruct (pool_settles (checks npm site plugins shared) (begin w)) as (w1 & pool & Ht & Hs). by exists (conclude w1), w1, pool.
  - intros w' (w1 & pool & Ht & Hs & ->). destruct (turns_emit _ _ _ Ht (checks_emit npm site plugins shared)) as (l & He & Hp & Hb).
    cbn [fst snd] in *. destruct (settled_emits pool l Hs He) as [Hl Hst]. rewrite Hl, app_nil_r in Hp. rewrite Hst, andb_true_r in Hb. cbn [begin noUpdatesAvailable andb] in Hb.
    exists (posted w1). split; [exact Hp|]. unfold conclude. rewrite Hb. destruct (stale _); cbn [negb posted]; [by rewrite app_nil_r|done].
Qed.
