(* ===== verification/Spawn.v ===== *)
(** Commands in child processes: [packages/thread/src/spawnCommand.ts] and its worker.
    The events of the child settle the call; its output goes to the frontend. *)
From S2P Require Import Prelude JsValue.
#[local] Open Scope string_scope.

Module Spawn.

(** The process: its platform, its parameters and its search path. *)
Record Env := mkEnv { platform : string; isBun : bool; hasParameter : string -> bool; searchPath : option string }.

Fixpoint joinSpace (l : list string) : string :=
  match l with [] => "" | [s] => s | s :: l => s ++ " " ++ joinSpace l end.

Section Env.
Context (env : Env).

(** [cmd.exe] runs npm on Windows. The array of arguments is changed in place. *)
Definition onWindows (command : string) (args : list string) : string * list string :=
  if bool_decide (platform env = "win32") && bool_decide (command = "npm")
  then ("cmd.exe", ["/c"; (if isBun env then "bun " else "npm ") ++ joinSpace args])
  else (command, args).

Definition nvm (env : Env) : bool := match searchPath env with Some p => strIncludes p "/.nvm/versions/node/" | None => false end.

Definition needsSudo (command : string) : bool :=
  hasParameter env "sudo" ||
  (negb (bool_decide (platform env = "win32")) && (bool_decide (command = "npm") || bool_decide (command = "bun")) &&
   negb (hasParameter env "docker") && negb (hasParameter env "nosudo") && negb (nvm env)).

Definition bunFor (command : string) : string := if bool_decide (command = "npm") && isBun env then "bun" else command.

Definition withSudo (command : string) (args : list string) : string * list string :=
  if needsSudo command then ("sudo", bunFor command :: args) else (command, args).

(** The command and the arguments after the changes; what is spawned. *)
Definition commandLine (command : string) (args : list string) : string * list string :=
  let '(command, args) := onWindows command args in withSudo command args.
Definition spawned (command : string) (args : list string) : list string :=
  let '(command, args) := commandLine command args in bunFor command :: args.
End Env.

(** ** The child process *)

Inductive Event :=
  | ChildError
  | ChildClose (code : option Z)
  | ChildExit (code : option Z)
  | ChildDisconnect
  | Stdout (data : string)
  | Stderr (data : string).

(** The result of the call, whether its server is closed, the messages that were sent,
    and those that came too late, which the server reports as errors. *)
Record State := mkState { resolved : option bool; serverClosed : bool; messages : list (string * string); late : nat }.

Definition sendLog (name message : string) (s : State) : State :=
  if serverClosed s then mkState (resolved s) true (messages s) (S (late s))
  else mkState (resolved s) false (messages s ++ [(name, message)])%list (late s).

Definition resolve (b : bool) (s : State) : State :=
  match resolved s with Some _ => s | None => mkState (Some b) (serverClosed s) (messages s) (late s) end.

Definition splitLine (c : Ascii.ascii) (ls : list string) : list string :=
  if charIs 10 c then "" :: ls else match ls with [] => [String c ""] | l :: ls => String c l :: ls end.
Fixpoint lines (s : string) : list string := match s with EmptyString => [""] | String c s => splitLine c (lines s) end.

Definition output (data : string) (s : State) : State := foldl (fun s line => sendLog "Matterbridge:spawn" line s) s (lines (strTrim data)).

Definition ended (what : string) (code : option Z) (s : State) : State :=
  if bool_decide (code = Some 0%Z)
  then resolve true (sendLog "Matterbridge:spawn-exit-success" ("Child process " ++ what) s)
  else resolve false (sendLog "Matterbridge:spawn-exit-error" ("Child process " ++ what) s).

Definition handle (e : Event) (s : State) : State :=
  match e with
  | ChildError => resolve false (sendLog "Matterbridge:spawn-exit-error" "Spawn process error" s)
  | ChildClose code => ended "closed" code s
  | ChildExit code => ended "exited" code s
  | ChildDisconnect => resolve true s
  | Stdout data => output data s
  | Stderr data => output data s
  end.

(** The call goes on when its promise is resolved, before the next event. *)
Definition continue (s : State) : State :=
  match resolved s with Some _ => mkState (resolved s) true (messages s) (late s) | None => s end.
Definition turn (s : State) (e : Event) : State := continue (handle e s).

Inductive PackageCommand := Install | Uninstall.

Definition opened (packageCommand : option PackageCommand) (packageName : string) : State :=
  let s := mkState None false [] 0 in
  match packageCommand with
  | Some Install => sendLog "Matterbridge:spawn-init" ("Installing " ++ packageName) s
  | Some Uninstall => sendLog "Matterbridge:spawn-init" ("Uninstalling " ++ packageName) s
  | None => s
  end.

Definition spawnCommand (packageCommand : option PackageCommand) (packageName : string) (es : list Event) : State :=
  foldl turn (opened packageCommand packageName) es.

(** ** The worker *)

Record SpawnResult := mkResult { command : string; args : list string; packageCommand : PackageCommand; packageName : string; success : bool }.

(** The response of the worker, once the call has ended: the array of arguments is the
    one that [spawnCommand] changed. *)
Definition spawnWorker (env : Env) (cmd : string) (as_ : list string) (pc : PackageCommand) (pn : string) (es : list Event) : option SpawnResult :=
  match resolved (spawnCommand (Some pc) pn es) with
  | Some success => Some (mkResult cmd (snd (commandLine env cmd as_)) pc pn success)
  | None => None
  end.
End Spawn.
Import Spawn.

(** ** The result and the messages *)

Definition verdict (e : Event) : option bool :=
  match e with
  | ChildError => Some false
  | ChildClose code | ChildExit code => Some (bool_decide (code = Some 0%Z))
  | ChildDisconnect => Some true
  | Stdout _ | Stderr _ => None
  end.

Definition sentBy (e : Event) : list (string * string) :=
  match e with
  | ChildError => [("Matterbridge:spawn-exit-error", "Spawn process error")]
  | ChildClose code => [(if bool_decide (code = Some 0%Z) then "Matterbridge:spawn-exit-success" else "Matterbridge:spawn-exit-error", "Child process closed")]
  | ChildExit code => [(if bool_decide (code = Some 0%Z) then "Matterbridge:spawn-exit-success" else "Matterbridge:spawn-exit-error", "Child process exited")]
  | ChildDisconnect => []
  | Stdout data | Stderr data => map (fun l => ("Matterbridge:spawn", l)) (lines (strTrim data))
  end.

(** The events up to the first that ends the call, and those after it. *)
Fixpoint upToEnd (es : list Event) : list Event * option bool * list Event :=
  match es with
  | [] => ([], None, [])
  | e :: es => match verdict e with
               | Some b => ([e], Some b, es)
               | None => let '(a, b, c) := upToEnd es in (e :: a, b, c)
               end
  end.

Lemma output_open data s : serverClosed s = false ->
  output data s = mkState (resolved s) false (messages s ++ map (fun l => ("Matterbridge:spawn", l)) (lines (strTrim data)))%list (late s).
Proof.
  unfold output. generalize (lines (strTrim data)). intros ls. revert s. induction ls as [|l ls IH]; intros s Hs; cbn [foldl map].
  - rewrite app_nil_r. destruct s. cbn in *. by subst.
  - rewrite IH by (unfold sendLog; by rewrite Hs). unfold sendLog. rewrite Hs. cbn. by rewrite <- app_assoc.
Qed.

Lemma output_late data s : serverClosed s = true -> output data s = mkState (resolved s) true (messages s) (late s + length (lines (strTrim data))).
Proof.
  unfold output. generalize (lines (strTrim data)). intros ls. revert s. induction ls as [|l ls IH]; intros s Hs; cbn [foldl length].
  - rewrite Nat.add_0_r. destruct s. cbn in *. by subst.
  - rewrite IH by (unfold sendLog; by rewrite Hs). unfold sendLog. rewrite Hs. cbn. f_equal. lia.
Qed.

Lemma turn_open s e : resolved s = None -> serverClosed s = false ->
  turn s e = mkState (verdict e) (match verdict e with Some _ => true | None => false end) (messages s ++ sentBy e)%list (late s).
Proof.
  destruct s as [r c ms l]. cbn. intros -> ->. unfold turn. destruct e as [|code|code| |data|data]; cbn [handle sentBy verdict];
    try (unfold ended; case_bool_decide; cbn; done); try (rewrite output_open by done; done); try done.
  unfold continue, resolve. cbn. by rewrite app_nil_r.
Qed.

Lemma turn_late s e b : resolved s = Some b -> serverClosed s = true -> turn s e = mkState (Some b) true (messages s) (late s + length (sentBy e)).
Proof.
  destruct s as [r c ms l]. cbn. intros -> ->. unfold turn. destruct e as [|code|code| |data|data]; cbn [handle sentBy];
    try (unfold ended; case_bool_decide; cbn; f_equal; lia); try (rewrite output_late by done; cbn; by rewrite length_map); cbn; f_equal; lia.
Qed.

Lemma turns_late es : forall s b, resolved s = Some b -> serverClosed s = true ->
  foldl turn s es = mkState (Some b) true (messages s) (late s + length (concat (map sentBy es))).
Proof.
  induction es as [|e es IH]; intros s b Hr Hc; cbn [foldl map concat length].
  - rewrite Nat.add_0_r. destruct s. cbn in *. by subst.
  - rewrite (turn_late s e b) by done. rewrite (IH _ b) by done. cbn. f_equal. rewrite length_app. lia.
Qed.


(** What is spawned: the command with its arguments, bun in the place of npm where
    it runs, npm through cmd.exe on Windows, and behind sudo if, and only if, that is
    decided. *)
Theorem spawned_exact (env : Env) (command : string) (args : list string) :
  spawned env command args =
    ((if needsSudo env (fst (onWindows env command args)) then ["sudo"] else []) ++
     (if bool_decide (platform env = "win32") && bool_decide (command = "npm")
      then ["cmd.exe"; "/c"; String.append (if isBun env then "bun " else "npm ") (joinSpace args)]
      else bunFor env command :: args))%list.
Proof.
  unfold spawned, commandLine, onWindows. destruct (_ && _) eqn:E; cbn [fst snd].
  - unfold withSudo. destruct (needsSudo env "cmd.exe"); reflexivity.
  - unfold withSudo. destruct (needsSudo env command); reflexivity.
Qed.

(** The close of a child comes after its exit, and too late. *)
Theorem close_too_late : late (spawnCommand (Some Install) "matterbridge" [Stdout "added 1 package"; ChildExit (Some 0%Z); ChildClose (Some 0%Z)]) = 1%nat.
Proof. by vm_compute. Qed.

(** The response of the worker has other arguments than the command that it was given. *)
Theorem response_args_changed :
  let env := mkEnv "linux" false (fun _ => false) (Some "/usr/bin") in
  spawnWorker env "npm" ["install"; "-g"; "x"] Install "x" [ChildExit (Some 0%Z)] = Some (mkResult "npm" ["npm"; "install"; "-g"; "x"] Install "x" true).
Proof. by vm_compute. Qed.
