(* ===== verification/Workers.v ===== *)
(** Two of the workers: the check of the system, [packages/thread/src/workerSystemCheck.ts],
    and of the image, [workerDockerVersion.ts]. *)
From S2P Require Import Prelude JsString JsRegExp JsValue Async Network Requests.
From stdpp Require Import pretty.
Import Network.
#[local] Open Scope string_scope.

Module SystemCheck.

Inductive Level := Debug | Info | Notice | Warn | ErrorLevel.

(** What a worker logs, and what it shows in a snack bar. *)
Inductive Output :=
  | Log (level : Level) (message : jsstr)
  | SnackBar (message : jsstr) (timeout : Z) (severity : string).

(** The process: NVM, and the version of Node.js. *)
Record System := mkSystem { nvmBin : bool; nvmDir : bool; versionMajor : Z; versionMinor : Z; versionPatch : Z; networkInterfaces : interfaces }.

Definition logSnackBarError (level : Level) (message : string) (severity : string) : list Output :=
  [Log level (js message); SnackBar (js message) 0 severity].

Definition oddMajor (n : Z) : bool := existsb (Z.eqb n) [21; 23; 25; 27]%Z.

Definition versionChecks (s : System) : list Output :=
  let v := pretty (versionMajor s) ++ "." ++ pretty (versionMinor s) ++ "." ++ pretty (versionPatch s) in
  ((if nvmBin s && nvmDir s then logSnackBarError ErrorLevel "System Check: NVM is a development tool and is not supported in production. Please install node from https://github.com/nodesource/distributions." "error" else []) ++
   [Log Debug (js ("Node.js Version: " ++ v))] ++
   (if (versionMajor s =? 20)%Z && (versionMinor s <? 19)%Z then logSnackBarError ErrorLevel "System Check: Node.js version < 20.19.0 is not supported. Please upgrade to Node.js LTS version (24.x)." "error" else []) ++
   (if (versionMajor s =? 22)%Z && (versionMinor s <? 13)%Z then logSnackBarError ErrorLevel "System Check: Node.js version < 22.13.0 is not supported. Please upgrade to Node.js LTS version (24.x)." "error" else []) ++
   (if oddMajor (versionMajor s) then logSnackBarError ErrorLevel "System Check: Node.js odd major versions are not supported. Please upgrade to Node.js LTS version (24.x)." "error" else []) ++
   (if (versionMajor s =? 24)%Z then [] else [Log Notice (js ("You are running Node.js " ++ v ++ ". Please consider using the Node.js LTS version (24.x)."))]))%list.

(** The flags that the loop over the interfaces sets, and the warnings it logs. *)
Record Found := mkFound { foundInternal : bool; foundExternal : bool; foundIpv4 : bool; foundIpv6 : bool; foundExcluded : bool; warnings : list Output }.

Definition detailFound (f : Found) (d : Address) : Found :=
  mkFound (foundInternal f || internal d) (foundExternal f || negb (internal d))
    (foundIpv4 f || external IPv4 d) (foundIpv6 f || external IPv6 d) (foundExcluded f) (warnings f).

Definition isExcluded (name : jsstr) : bool := test excludedInterfaceNamePattern name.

Definition interfaceFound (mdnsInterface : bool) (f : Found) (i : jsstr * option (list Address)) : Found :=
  let '(name, details) := i in
  if isExcluded name then
    if mdnsInterface then f
    else mkFound (foundInternal f) (foundExternal f) (foundIpv4 f) (foundIpv6 f) true
           (warnings f ++ [Log Warn (js "System Check: Found network interface '" ++ name ++
              js "'. Please use --mdnsinterface parameter or set Mdns interface in Settings to specify the correct local interface for Matter mDNS.")%list])%list
  else foldl detailFound f (default [] details).

Definition found (mdnsInterface : bool) (s : System) : Found :=
  foldl (interfaceFound mdnsInterface) (mkFound false false false false false []) (networkInterfaces s).

(** The whole check, given the setting for the interface of mDNS. *)
Definition systemCheck (mdnsInterface : bool) (s : System) : list Output :=
  let f := found mdnsInterface s in
  ([Log Info (js "Starting system check...")] ++ versionChecks s ++ warnings f ++
   (if foundInternal f then [] else logSnackBarError ErrorLevel "System Check: No internal network interface found. Check your network configuration." "error") ++
   (if foundExternal f then [] else logSnackBarError ErrorLevel "System Check: No external network interface found. Check your network configuration." "error") ++
   (if foundIpv4 f then [] else logSnackBarError ErrorLevel "System Check: No IPv4 network interface found. Check your network configuration." "error") ++
   (if foundIpv6 f then [] else logSnackBarError ErrorLevel "System Check: No IPv6 network interface found. Check your network configuration." "error") ++
   (if foundExcluded f then logSnackBarError Warn "System Check: Use --mdnsinterface parameter or set Mdns interface in Settings to specify the correct local interface for Matter mDNS." "warning" else []) ++
   [Log Info (js "System check succeeded")])%list.
End SystemCheck.

Module DockerWorker.
Import Requests.

Inductive ImageOutput :=
  | Log (warn : bool) (message : string)
  | SnackBar (message : string)
  | DockerVersions (dockerVersion dockerDev dockerLatestVersion dockerDevVersion : value).

(** The build configuration of the image, if it can be read, and the versions. The
    workers' texts are those of the new image. *)
Definition newImage (dev : bool) (config : value) (latest : value) : list ImageOutput :=
  if (match optProp config "dev" with Bool b => bool_decide (b = dev) | _ => false end) && truthy latest &&
     negb (bool_decide (optProp config "version" = latest))
  then
    let tag := if dev then "dev" else "latest" in
    let v := toText latest in
    [Log true ("You are using the v." ++ toText (optProp config "version") ++ " " ++ tag ++ " Docker image. Please pull the " ++ tag ++ " Docker image v." ++ v ++ " and recreate the container to apply it.");
     SnackBar ("A new " ++ (if dev then "dev " else "") ++ "Docker image is available: v." ++ v ++ ". Pull the " ++ tag ++ " Docker image and recreate the container to apply it.")]
  else [].

Section Worker.
Context (platform : Platform) (network : nat -> string -> option Headers -> list Event) (redirections : nat).

Definition versions : async World (value * value) :=
  latest ← getDockerVersion platform network redirections "luligu" "matterbridge" "latest" 5000;
  dev ← getDockerVersion platform network redirections "luligu" "matterbridge" "dev" 5000;
  mret (latest, dev).

Definition dockerWorker (config : value) : async World (list ImageOutput) :=
  v ← versions;
  let '(latest, dev) := v in
  mret (newImage false config latest ++ newImage true config dev ++
        [DockerVersions (optProp config "version") (optProp config "dev") latest dev])%list.
End Worker.
End DockerWorker.
Import SystemCheck.

(** ** What the check of the system complains about *)

(** The addresses of the interfaces that are not excluded. *)
Definition usable (ifs : interfaces) : list Address := concat (map (fun i => if isExcluded (fst i) then [] else default [] (snd i)) ifs).

Lemma details_found l : forall f, foldl detailFound f l =
  mkFound (foundInternal f || existsb internal l) (foundExternal f || existsb (fun d => negb (internal d)) l)
    (foundIpv4 f || existsb (external IPv4) l) (foundIpv6 f || existsb (external IPv6) l) (foundExcluded f) (warnings f).
Proof.
  induction l as [|d l IH]; intros f; cbn [foldl existsb]; [rewrite !orb_false_r; by destruct f|]. rewrite IH. cbn. by rewrite !orb_assoc.
Qed.

Lemma interfaces_found m l : forall f, let g := foldl (interfaceFound m) f l in
  foundInternal g = foundInternal f || existsb internal (usable l) /\ foundExternal g = foundExternal f || existsb (fun d => negb (internal d)) (usable l) /\
  foundIpv4 g = foundIpv4 f || existsb (external IPv4) (usable l) /\ foundIpv6 g = foundIpv6 f || existsb (external IPv6) (usable l) /\
  foundExcluded g = foundExcluded f || (negb m && existsb (fun i => isExcluded (fst i)) l).
Proof.
  induction l as [|[n d] l IH]; intros f; cbn [foldl]; [cbn; by rewrite andb_false_r, !orb_false_r|].
  unfold usable. cbn [map concat fst snd existsb]. fold (usable l). specialize (IH (interfaceFound m f (n, d))). cbv zeta in IH.
  destruct IH as (-> & -> & -> & -> & ->). unfold interfaceFound. destruct (isExcluded n).
  - destruct m; cbn; [done|]. by rewrite orb_true_r.
  - rewrite details_found. cbn [foundInternal foundExternal foundIpv4 foundIpv6 foundExcluded orb]. by rewrite !existsb_app, !orb_assoc.
Qed.

(** The check of the system complains exactly about what is missing among the
    addresses of the interfaces that are not excluded, and about excluded ones unless an
    interface for mDNS is set. *)
Theorem complaints_exact (m : bool) (s : System) :
  let f := found m s in
  foundInternal f = existsb internal (usable (networkInterfaces s)) /\
  foundExternal f = existsb (fun d => negb (internal d)) (usable (networkInterfaces s)) /\
  foundIpv4 f = existsb (external IPv4) (usable (networkInterfaces s)) /\
  foundIpv6 f = existsb (external IPv6) (usable (networkInterfaces s)) /\
  foundExcluded f = negb m && existsb (fun i => isExcluded (fst i)) (networkInterfaces s).
Proof. apply (interfaces_found m (networkInterfaces s)). Qed.
