(* ===== verification/WebTable.v ===== *)
(** The tables of the web application, [apps/frontend/src/components/MbfTable.tsx]: the
    order of the rows and the columns that are shown, kept in the storage of the browser. *)
From S2P Require Import Prelude JsValue.
From Stdlib Require Import Sorted.
From stdpp Require Import gmap pretty.
#[local] Open Scope string_scope.
#[local] Open Scope Z_scope.

(** ** Sorting *)

(** A comparison function, on the elements of which [P] holds: the sign turns when the
    arguments do, and being at most is transitive. *)
Class Comparison {A} (P : A -> Prop) (c : A -> A -> Z) : Prop := {
  comparison_turn : forall a b, P a -> P b -> (c a b <= 0 <-> 0 <= c b a);
  comparison_trans : forall a b d, P a -> P b -> P d -> c a b <= 0 -> c b d <= 0 -> c a d <= 0 }.

Section Sort.
Context {A : Type} (c : A -> A -> Z).

(** [l.sort(c)], which is stable. *)
Fixpoint insert (x : A) (l : list A) : list A :=
  match l with
  | [] => [x]
  | y :: l' => if c x y <=? 0 then x :: l else y :: insert x l'
  end.

Definition sort (l : list A) : list A := foldr insert [] l.

Definition le (a b : A) : Prop := c a b <= 0.

Lemma insert_perm x l : insert x l ≡ₚ x :: l.
Proof. induction l as [|y l IH]; [done|]. cbn [insert]. destruct (_ <=? _); [done|]. rewrite IH. apply Permutation_swap. Qed.

Lemma sort_perm l : sort l ≡ₚ l.
Proof. induction l as [|x l IH]; [done|]. cbn [sort foldr]. rewrite insert_perm. by f_equiv. Qed.

Context (P : A -> Prop) `{!Comparison P c}.

Lemma comparison_back a b : P a -> P b -> 0 < c a b -> c b a <= 0.
Proof. intros Ha Hb H. apply (comparison_turn (P := P) b a); [done..|lia]. Qed.

Lemma comparison_zero a b : P a -> P b -> c a b = 0 -> c b a = 0.
Proof.
  intros Ha Hb H. pose proof (comparison_turn (P := P) (c := c) a b Ha Hb). pose proof (comparison_turn (P := P) (c := c) b a Hb Ha). lia.
Qed.

Lemma comparison_same a b d : P a -> P b -> P d -> c d a = 0 -> c d b = 0 -> c a b = 0.
Proof.
  intros Ha Hb Hd Hda Hdb. pose proof (comparison_zero _ _ Hd Ha Hda). pose proof (comparison_zero _ _ Hd Hb Hdb).
  assert (c a b <= 0) by (apply (comparison_trans (P := P) a d b); lia || done).
  assert (c b a <= 0) by (apply (comparison_trans (P := P) b d a); lia || done).
  pose proof (comparison_turn (P := P) (c := c) b a Hb Ha). lia.
Qed.

Lemma insert_sorted x l : P x -> Forall P l -> StronglySorted le l -> StronglySorted le (insert x l).
Proof.
  intros Hx HP Hs. induction Hs as [|y l Hs IH Hall]; cbn [insert]; [repeat constructor|].
  apply Forall_cons in HP as [Hy HP]. destruct (Z.leb_spec (c x y) 0) as [Hc|Hc].
  - constructor; [by constructor|]. constructor; [done|]. rewrite Forall_forall in Hall, HP |- *.
    intros d Hd. unfold le. eapply (comparison_trans (P := P) x y d); auto. by apply Hall.
  - constructor; [by apply IH|]. rewrite insert_perm. constructor; [|done]. by apply comparison_back.
Qed.

Lemma sort_sorted l : Forall P l -> StronglySorted le (sort l).
Proof.
  induction 1 as [|x l Hx HP IH]; [constructor|]. cbn [sort foldr]. apply insert_sorted; [done| |done].
  by rewrite (sort_perm l : foldr insert [] l ≡ₚ l).
Qed.
End Sort.

(** The opposite of a comparison is one. *)
#[export] Instance comparison_opposite {A} (P : A -> Prop) c : Comparison P c -> Comparison P (fun a b => - c a b).
Proof.
  intros Hc. split.
  - intros a b Ha Hb. pose proof (comparison_turn (P := P) (c := c) b a Hb Ha). lia.
  - intros a b d Ha Hb Hd Hab Hbd.
    pose proof (comparison_turn (P := P) (c := c) b a Hb Ha). pose proof (comparison_turn (P := P) (c := c) d b Hd Hb).
    pose proof (comparison_turn (P := P) (c := c) d a Hd Ha). pose proof (comparison_trans (P := P) (c := c) d b a Hd Hb Ha). lia.
Qed.

(** ** The table *)

Module Table.

Record Column := mkColumn { id : string; noSort : bool; hidden : bool; required : bool; columnComparator : option (value -> value -> Z) }.

Definition isNull (v : value) : bool := match v with Undefined | Null => true | _ => false end.
Definition isFalse (v : value) : bool := match v with Bool false => true | _ => false end.

Section Table.
(** The order of texts, the two directions of JSON, and the name of the table. *)
Context (localeCompare : string -> string -> Z) (stringify : value -> string) (parse : string -> res value) (name : string).

Definition comparator (rowA rowB : value) (key : string) : Z :=
  let v1 := optProp rowA key in
  let v2 := optProp rowB key in
  if isNull v1 && isNull v2 then 0
  else if isNull v1 then -1
  else if isNull v2 then 1
  else match v1, v2 with
  | Bool b1, Bool b2 => if Bool.eqb b1 b2 then 0 else if b1 then 1 else -1
  | Num n1, Num n2 => n1 - n2
  | _, _ => localeCompare (toText v1) (toText v2)
  end.

(** The state of a table and the storage of the browser, which the page shares. *)
Record Table := mkTable {
  orderBy : option string;
  order : option string;
  columnVisibility : value;
  configureVisibilityDialogOpen : bool;
  localStorage : gmap string string }.

Definition orderByKey : string := name ++ "_table_order_by".
Definition orderKey : string := name ++ "_table_order".
Definition visibilityKey : string := name ++ "_column_visibility".

(** [localStorage.getItem(key) || null]. *)
Definition stored (ls : gmap string string) (key : string) : option string :=
  match ls !! key with Some "" => None | x => x end.

(** The overrides kept in the storage: none when the text is not JSON. *)
Definition storedVisibility (ls : gmap string string) : value :=
  match stored ls visibilityKey with
  | Some s => match parse s with Ok v => v | Throw _ => Obj [] end
  | None => Obj []
  end.

(** The first rendering of a page. *)
Definition mount (ls : gmap string string) : Table :=
  mkTable (stored ls orderByKey) (stored ls orderKey) (storedVisibility ls) false ls.

(** *** The order of the rows *)

(** Rows with their places. *)
Definition compareRows (col : Column) (property dir : string) (a b : value * nat) : Z :=
  let cmp := match columnComparator col with Some f => f (fst a) (fst b) | None => comparator (fst a) (fst b) property end in
  if negb (cmp =? 0) then (if bool_decide (dir = "asc") then cmp else - cmp) else Z.of_nat (snd a) - Z.of_nat (snd b).

Definition sortedRows (columns : list Column) (rows : list value) (t : Table) : list value :=
  match orderBy t, order t with
  | Some property, Some dir =>
      if bool_decide (property = "") || bool_decide (dir = "") then rows
      else match List.find (fun col => bool_decide (id col = property)) columns with
      | None => rows
      | Some sortCol =>
          if noSort sortCol then rows
          else map fst (sort (compareRows sortCol property dir) (imap (fun index el => (el, index)) rows))
      end
  | _, _ => rows
  end.

Definition handleRequestSort (property : string) (t : Table) : Table :=
  let '(mkTable by_ dir vis dialog ls) := t in
  if negb (bool_decide (by_ = Some property)) || bool_decide (by_ = Some "")
  then mkTable (Some property) (Some "asc") vis dialog (<[orderKey := "asc"]> (<[orderByKey := property]> ls))
  else if bool_decide (dir = Some "asc")
  then mkTable by_ (Some "desc") vis dialog (<[orderKey := "desc"]> ls)
  else mkTable None None vis dialog (delete orderKey (delete orderByKey ls)).

(** *** The columns *)

(** The map of the columns that are not hidden; reading an override of [null] throws. *)
Fixpoint visibleMap (columns : list Column) (overrides : value) (next : list (string * value)) : res (list (string * value)) :=
  match columns with
  | [] => Ok next
  | col :: columns =>
      if hidden col then visibleMap columns overrides next
      else
        visible ← if required col then Ok true else v ← getProp overrides (id col); Ok (negb (isFalse v));
        visibleMap columns overrides (setField (id col) (Bool visible) next)
  end.

(** The columns of a row of the table, and the boxes of the dialog with their marks. *)
Definition shownColumns (columns : list Column) (t : Table) : res (list Column) :=
  visible ← visibleMap columns (columnVisibility t) [];
  Ok (List.filter (fun col => negb (hidden col) && (required col || negb (isFalse (getField (id col) visible)))) columns).

(** [{ ...v }]. *)
Definition spread (v : value) : list (string * value) :=
  match v with
  | Obj f => f
  | Arr l => imap (fun i v => (pretty (Z.of_nat i), v)) l
  | Str s => imap (fun i a => (pretty (Z.of_nat i), Str (String a ""))) (String.list_ascii_of_string s)
  | _ => []
  end.

(** [delete o[k]]. *)
Definition deleteField (k : string) (f : list (string * value)) : list (string * value) :=
  List.filter (fun kv => negb (bool_decide (fst kv = k))) f.

Definition handleConfigureVisibilityChange (columns : list Column) (key : string) (t : Table) : res Table :=
  visible ← visibleMap columns (columnVisibility t) [];
  if match List.find (fun col => bool_decide (id col = key)) columns with Some col => required col | None => false end then Ok t
  else
    let currentlyVisible := negb (isFalse (getField key visible)) in
    let next := if currentlyVisible then setField key (Bool false) (spread (columnVisibility t)) else deleteField key (spread (columnVisibility t)) in
    Ok (mkTable (orderBy t) (order t) (Obj next) (configureVisibilityDialogOpen t) (<[visibilityKey := stringify (Obj next)]> (localStorage t))).

Definition handleResetVisibility (t : Table) : Table :=
  mkTable (orderBy t) (order t) (Obj []) false (delete visibilityKey (localStorage t)).

Definition toggleConfigureVisibilityDialog (t : Table) : Table :=
  mkTable (orderBy t) (order t) (columnVisibility t) (negb (configureVisibilityDialogOpen t)) (localStorage t).

(** What a user does to a table of some columns. *)
Inductive Action := Sort (property : string) | Toggle (key : string) | ResetColumns | Dialog.

Definition act (columns : list Column) (a : Action) (t : Table) : res Table :=
  match a with
  | Sort property => Ok (handleRequestSort property t)
  | Toggle key => handleConfigureVisibilityChange columns key t
  | ResetColumns => Ok (handleResetVisibility t)
  | Dialog => Ok (toggleConfigureVisibilityDialog t)
  end.

Fixpoint acts (columns : list Column) (l : list Action) (t : Table) : res Table :=
  match l with [] => Ok t | a :: l => t ← act columns a t; acts columns l t end.

(** ** The rows are sorted *)

(** The comparison of a column, and in the direction of the table. *)
Definition rowOrder (col : Column) (property : string) (a b : value) : Z :=
  match columnComparator col with Some f => f a b | None => comparator a b property end.
Definition directed (dir : string) (c : value -> value -> Z) (a b : value) : Z :=
  if bool_decide (dir = "asc") then c a b else - c a b.

(** The rows whose cell of a column is empty or of a kind. *)
Definition kind (v : value) : nat := match v with Bool _ => 0%nat | Num _ => 1%nat | _ => 2%nat end.
Definition ofKind (k : nat) (key : string) (row : value) : Prop :=
  isNull (optProp row key) = true \/ kind (optProp row key) = k.

#[export] Instance comparator_comparison k key :
  Comparison (fun _ => True) localeCompare -> Comparison (ofKind k key) (fun a b => comparator a b key).
Proof.
  intros Hl. split; unfold ofKind, comparator.
  - intros a b Ha Hb. pose proof (comparison_turn (P := fun _ => True) (c := localeCompare) (toText (optProp a key)) (toText (optProp b key)) I I) as Ht.
    destruct (optProp a key) as [| |[]| | | |], (optProp b key) as [| |[]| | | |]; cbn in *; try lia; destruct Ha, Hb; subst; try done; lia.
  - intros a b d Ha Hb Hd.
    pose proof (comparison_trans (P := fun _ => True) (c := localeCompare) (toText (optProp a key)) (toText (optProp b key)) (toText (optProp d key)) I I I) as Ht.
    destruct (optProp a key) as [| |[]| | | |], (optProp b key) as [| |[]| | | |]; cbn in *; try lia;
      destruct (optProp d key) as [| |[]| | | |]; cbn in *; try lia; destruct Ha, Hb, Hd; subst; try done; lia.
Qed.

Section Sorted.
Context (col : Column) (property dir : string) (P : value -> Prop).
Context `{!Comparison P (rowOrder col property)}.

Lemma compareRows_eq a b : compareRows col property dir a b =
  if rowOrder col property (fst a) (fst b) =? 0 then Z.of_nat (snd a) - Z.of_nat (snd b) else directed dir (rowOrder col property) (fst a) (fst b).
Proof. unfold compareRows, directed, rowOrder. by destruct (_ =? 0). Qed.

Lemma compareRows_comparison : Comparison (fun a => P (fst a)) (compareRows col property dir).
Proof.
  split.
  - intros [a i] [b j] Ha Hb. cbn in Ha, Hb. rewrite !compareRows_eq. unfold directed. cbn [fst snd].
    pose proof (comparison_turn (P := P) (c := rowOrder col property) a b Ha Hb) as H1.
    pose proof (comparison_turn (P := P) (c := rowOrder col property) b a Hb Ha) as H2.
    destruct (bool_decide _), (Z.eqb_spec (rowOrder col property a b) 0), (Z.eqb_spec (rowOrder col property b a) 0); lia.
  - intros [a i] [b j] [d k] Ha Hb Hd. cbn in Ha, Hb, Hd. rewrite !compareRows_eq. unfold directed. cbn [fst snd].
    pose proof (comparison_trans (P := P) (c := rowOrder col property)) as Ht.
    pose proof (comparison_turn (P := P) (c := rowOrder col property)) as Hr.
    pose proof (Ht a b d Ha Hb Hd). pose proof (Ht d b a Hd Hb Ha). pose proof (Ht b d a Hb Hd Ha). pose proof (Ht d a b Hd Ha Hb).
    pose proof (Ht b a d Hb Ha Hd). pose proof (Ht a d b Ha Hd Hb).
    pose proof (Hr a b Ha Hb). pose proof (Hr b a Hb Ha). pose proof (Hr a d Ha Hd). pose proof (Hr d a Hd Ha). pose proof (Hr b d Hb Hd). pose proof (Hr d b Hd Hb).
    clear Ht Hr.
    destruct (bool_decide _), (Z.eqb_spec (rowOrder col property a b) 0), (Z.eqb_spec (rowOrder col property b d) 0),
      (Z.eqb_spec (rowOrder col property a d) 0); lia.
Qed.

Lemma compareRows_directed a b : le (compareRows col property dir) a b -> le (directed dir (rowOrder col property)) (fst a) (fst b).
Proof.
  unfold le. rewrite compareRows_eq. unfold directed. destruct (Z.eqb_spec (rowOrder col property (fst a) (fst b)) 0); [|done].
  destruct (bool_decide _); lia.
Qed.

Lemma insert_filter r x l : P r -> P (fst x) -> Forall (fun y => P (fst y) /\ (snd x < snd y)%nat) l ->
  filter (fun y => rowOrder col property r (fst y) = 0) (insert (compareRows col property dir) x l) =
  filter (fun y => rowOrder col property r (fst y) = 0) (x :: l).
Proof.
  intros Hr Hx. induction 1 as [|y l [Hy Hi] Hl IH]; [done|]. cbn [insert].
  destruct (Z.leb_spec (compareRows col property dir x y) 0) as [|Hc]; [done|].
  rewrite filter_cons, IH, !filter_cons. repeat case_decide; try done. exfalso.
  pose proof (comparison_same (rowOrder col property) P (fst x) (fst y) r Hx Hy Hr) as E.
  rewrite compareRows_eq, E in Hc by done. cbn in Hc. lia.
Qed.

Lemma sort_filter r (rows : list value) (n : nat) : P r -> Forall P rows ->
  let wrapped := imap (fun index el => (el, (n + index)%nat)) rows in
  filter (fun y => rowOrder col property r (fst y) = 0) (sort (compareRows col property dir) wrapped) =
  filter (fun y => rowOrder col property r (fst y) = 0) wrapped.
Proof.
  intros Hr HP. revert n. induction HP as [|x rows Hx HP IH]; intros n; [done|].
  cbn zeta. rewrite imap_cons. unfold sort. cbn [foldr].
  change (foldr _ [] ?l) with (sort (compareRows col property dir) l). rewrite insert_filter; [|done..|].
  - rewrite !filter_cons. specialize (IH (S n)). cbn zeta in IH.
    rewrite (imap_ext _ (fun index el => (el, (S n + index)%nat))) by (intros; cbn; f_equal; lia). by rewrite IH.
  - rewrite sort_perm.
    apply Forall_lookup. intros i y (z & Hz & ->)%list_lookup_imap_Some. cbn. split; [|lia].
    rewrite Forall_lookup in HP. by apply (HP i).
Qed.
End Sorted.

Lemma filter_map_fst {B} (Q : value -> Prop) `{!forall x, Decision (Q x)} (l : list (value * B)) :
  filter Q (map fst l) = map fst (filter (fun a => Q (fst a)) l).
Proof. induction l as [|a l IH]; [done|]. cbn [map]. rewrite !filter_cons, IH. by case_decide. Qed.

Lemma sortedRows_sorts columns rows t property dir col :
  orderBy t = Some property -> order t = Some dir -> property <> "" -> dir <> "" ->
  List.find (fun col => bool_decide (id col = property)) columns = Some col -> noSort col = false ->
  sortedRows columns rows t = map fst (sort (compareRows col property dir) (imap (fun index el => (el, index)) rows)).
Proof.
  intros Hby Ho Hp Hd Hf Hn. unfold sortedRows. rewrite Hby, Ho, !bool_decide_eq_false_2 by done. cbn [orb]. by rewrite Hf, Hn.
Qed.

(** C33: the rows of a table ordered by a column: none is lost or made up, each is at most the
    next ones in the direction of the table, and rows the column does not tell apart stay
    in the order they came. *)
Theorem sortedRows_exact columns rows t property dir col (P : value -> Prop) :
  orderBy t = Some property -> order t = Some dir -> property <> "" -> dir <> "" ->
  List.find (fun col => bool_decide (id col = property)) columns = Some col -> noSort col = false ->
  Comparison P (rowOrder col property) -> Forall P rows ->
  sortedRows columns rows t ≡ₚ rows /\
  StronglySorted (le (directed dir (rowOrder col property))) (sortedRows columns rows t) /\
  forall r, P r -> filter (fun x => rowOrder col property r x = 0) (sortedRows columns rows t) = filter (fun x => rowOrder col property r x = 0) rows.
Proof.
  intros Hby Ho Hp Hd Hf Hn Hc HP. rewrite (sortedRows_sorts columns rows t property dir col) by done.
  set (wrapped := imap _ rows). assert (map fst wrapped = rows) as Hw.
  { unfold wrapped. change (map fst) with (fmap fst : list (value * nat) -> list value). rewrite fmap_imap.
    rewrite (imap_ext _ (fun _ el => el)) by done. clear. induction rows as [|x l IH]; [done|]. rewrite imap_cons. by f_equal. }
  assert (Forall (fun a => P (fst a)) wrapped) as HPw by (rewrite <- Hw, Forall_map in HP; exact HP).
  split; [|split].
  - rewrite <- Hw. apply Permutation_map, sort_perm.
  - pose proof (compareRows_comparison col property dir P) as Hcmp.
    pose proof (sort_sorted (compareRows col property dir) (fun a => P (fst a)) wrapped HPw) as Hs.
    induction Hs as [|a l Hs IH Hall]; cbn [map]; constructor; [done|]. rewrite Forall_map. eapply Forall_impl; [exact Hall|].
    intros b. apply compareRows_directed.
  - intros r Hr. rewrite <- Hw. pose proof (sort_filter col property dir P r rows 0 Hr HP) as E. cbn zeta in E. fold wrapped in E.
    rewrite !filter_map_fst. f_equal. exact E.
Qed.

(** ** A page that is loaded again *)

Lemma append_cancel (s a b : string) : s ++ a = s ++ b -> a = b.
Proof. induction s as [|c s IH]; [done|]. intros H. injection H. exact IH. Qed.

Lemma keys_distinct : orderByKey <> orderKey /\ orderByKey <> visibilityKey /\ orderKey <> visibilityKey.
Proof. unfold orderByKey, orderKey, visibilityKey. repeat split; by intros H%append_cancel. Qed.

Lemma stored_insert ls k v : v <> "" -> stored (<[k := v]> ls) k = Some v.
Proof. intros Hv. unfold stored. rewrite lookup_insert_eq. by destruct v. Qed.
Lemma stored_insert_ne ls k k' v : k <> k' -> stored (<[k := v]> ls) k' = stored ls k'.
Proof. intros. unfold stored. by rewrite lookup_insert_ne. Qed.
Lemma stored_delete ls k : stored (delete k ls) k = None.
Proof. unfold stored. by rewrite lookup_delete_eq. Qed.
Lemma stored_delete_ne ls k k' : k <> k' -> stored (delete k ls) k' = stored ls k'.
Proof. intros. unfold stored. by rewrite lookup_delete_ne. Qed.

(** JSON, on data: what is written is read, no text is empty. *)
Class Json : Prop := {
  json_read : forall v, jsonClone v = v -> parse (stringify v) = Ok v;
  json_text : forall v, stringify v <> "";
  json_data : forall s v, parse s = Ok v -> jsonClone v = v }.

(** What the state of the table has in the storage. *)
Definition synced (t : Table) : Prop :=
  orderBy t = stored (localStorage t) orderByKey /\ order t = stored (localStorage t) orderKey /\
  columnVisibility t = storedVisibility (localStorage t) /\ jsonClone (columnVisibility t) = columnVisibility t.

(** Data of JSON has no undefined part. *)
Fixpoint cloned (f : list (string * value)) : Prop :=
  match f with [] => True | (_, v) :: f => v <> Undefined /\ jsonClone v = v /\ cloned f end.

Lemma cloneFields_length f : (length (cloneFields f) <= length f)%nat.
Proof. induction f as [|[k v] f IH]; [done|]. destruct v; cbn; lia. Qed.

Lemma cloned_iff f : cloneFields f = f <-> cloned f.
Proof.
  induction f as [|[k v] f IH]; [done|]. cbn [cloned]. rewrite <- IH. split.
  - destruct v; cbn [cloneFields]; intros H; try (injection H; intros; repeat split; congruence).
    pose proof (cloneFields_length f). rewrite H in *. cbn in *. lia.
  - intros (Hu & Hv & Hf). destruct v; try done; cbn [cloneFields]; by rewrite ?Hv, Hf.
Qed.

Lemma setField_cloned k b f : cloned f -> cloned (setField k (Bool b) f).
Proof. induction f as [|[k' v] f IH]; [done|]. cbn [setField]. intros (Hu & Hv & Hf). case_bool_decide; cbn [cloned]; auto. Qed.

Lemma deleteField_cloned k f : cloned f -> cloned (deleteField k f).
Proof.
  induction f as [|[k' v] f IH]; [done|]. cbn [deleteField List.filter fst]. intros (Hu & Hv & Hf).
  case_bool_decide; cbn [negb]; [by apply IH|]. cbn [cloned]. auto.
Qed.

Lemma imap_cloned {A} (g : nat -> string) (h : A -> value) l :
  Forall (fun x => h x <> Undefined /\ jsonClone (h x) = h x) l -> cloned (imap (fun i x => (g i, h x)) l).
Proof.
  intros H. revert g. induction H as [|x l [Hu Hx] Hl IH]; intros g; [done|]. rewrite imap_cons. cbn [cloned].
  split; [done|]. split; [done|]. apply (IH (fun i => g (S i))).
Qed.

Lemma spread_cloned v : jsonClone v = v -> cloned (spread v).
Proof.
  destruct v as [| | | |s|l|f]; try done; cbn [spread].
  - intros _. apply (imap_cloned (fun i => pretty (Z.of_nat i)) (fun a => Str (String a ""))). by apply Forall_true.
  - cbn [jsonClone]. intros [= H]. apply (imap_cloned (fun i => pretty (Z.of_nat i)) (fun v => v)).
    induction l as [|v l IH]; [constructor|]. injection H as Hv Hl. constructor; [by destruct v|by apply IH].
  - rewrite jsonClone_Obj. intros [= H]. by apply cloned_iff.
Qed.

Lemma handleRequestSort_synced property t : property <> "" -> synced t -> synced (handleRequestSort property t).
Proof.
  destruct keys_distinct as (H1 & H2 & H3). destruct t as [by_ dir vis dialog ls]. unfold synced, storedVisibility. cbn.
  intros Hp (Hb & Ho & Hv & Hc). destruct (negb _ || _); [|case_bool_decide]; cbn;
    rewrite ?stored_insert, ?stored_insert_ne, ?stored_delete, ?stored_delete_ne, ?stored_insert, ?stored_delete, ?stored_insert_ne, ?stored_delete_ne by done; by repeat split.
Qed.

Lemma visibility_synced `{!Json} columns key t t' : synced t -> handleConfigureVisibilityChange columns key t = Ok t' -> synced t'.
Proof.
  destruct keys_distinct as (H1 & H2 & H3). intros (Hb & Ho & Hv & Hc). unfold handleConfigureVisibilityChange.
  destruct (visibleMap _ _ _) as [visible|]; [|done]. cbn [mbind res_bind]. destruct (match List.find _ _ with Some _ => _ | None => _ end).
  { intros [= <-]. by repeat split. }
  cbv zeta. match goal with |- Ok (mkTable _ _ (Obj ?x) _ _) = _ -> _ => set (next := x) end. intros [= <-]. assert (jsonClone (Obj next) = Obj next) as Hn.
  { rewrite jsonClone_Obj. f_equal. apply cloned_iff. pose proof (spread_cloned _ Hc). unfold next. destruct (negb _); [by apply setField_cloned|by apply deleteField_cloned]. }
  unfold synced, storedVisibility. cbn [orderBy order columnVisibility localStorage].
  rewrite !stored_insert_ne by done. rewrite stored_insert by apply json_text. rewrite json_read by done. by repeat split.
Qed.

Lemma act_synced `{!Json} columns a t t' : a <> Sort "" -> synced t -> act columns a t = Ok t' -> synced t'.
Proof.
  destruct keys_distinct as (H1 & H2 & H3). intros Ha Hs. destruct a as [property|key| |]; cbn [act].
  - intros [= <-]. apply handleRequestSort_synced; [congruence|done].
  - by apply visibility_synced.
  - intros [= <-]. destruct Hs as (Hb & Ho & _ & _). unfold synced, storedVisibility. cbn. rewrite stored_delete, !stored_delete_ne by done. by repeat split.
  - intros [= <-]. exact Hs.
Qed.

Lemma mount_synced `{!Json} ls : synced (mount ls).
Proof.
  unfold synced, mount. cbn. repeat split. unfold storedVisibility. destruct (stored _ _) as [s|]; [|done].
  destruct (parse s) as [v|] eqn:E; [|done]. by apply (json_data s).
Qed.

Lemma acts_synced `{!Json} columns l t t' : Forall (fun a => a <> Sort "") l -> synced t -> acts columns l t = Ok t' -> synced t'.
Proof.
  intros Hl. revert t. induction Hl as [|a l Ha Hl IH]; intros t Hs; cbn [acts]; [by intros [= <-]|].
  destruct (act columns a t) as [t1|] eqn:E; [|done]. cbn [mbind res_bind]. apply IH. by eapply act_synced.
Qed.

(** C35: whatever a user orders, shows and hides: the page loaded again has the same order and
    the same columns, with the dialog closed. *)
Theorem reload_same `{!Json} columns l ls t : Forall (fun a => a <> Sort "") l -> acts columns l (mount ls) = Ok t ->
  mount (localStorage t) = mkTable (orderBy t) (order t) (columnVisibility t) false (localStorage t).
Proof. intros Hl Ht. destruct (acts_synced columns l _ _ Hl (mount_synced ls) Ht) as (Hb & Ho & Hv & _). unfold mount. by rewrite Hb, Ho, Hv. Qed.

(** Three clicks on a header: ascending, descending and the order the rows came in. *)
Theorem sort_cycle property t : property <> "" -> orderBy t <> Some property ->
  let t1 := handleRequestSort property t in
  let t2 := handleRequestSort property t1 in
  let t3 := handleRequestSort property t2 in
  (orderBy t1, order t1) = (Some property, Some "asc") /\ (orderBy t2, order t2) = (Some property, Some "desc") /\ (orderBy t3, order t3) = (None, None).
Proof.
  intros Hp Hb. destruct t as [by_ dir vis dialog ls]. cbn [orderBy] in Hb. cbn [handleRequestSort].
  rewrite (bool_decide_eq_false_2 (by_ = _)) by done. cbn [negb orb handleRequestSort].
  rewrite (bool_decide_eq_true_2 (Some property = Some property)), (bool_decide_eq_false_2 (Some property = Some "")) by congruence.
  cbn [negb orb]. rewrite bool_decide_eq_true_2 by done. cbn [handleRequestSort].
  rewrite (bool_decide_eq_true_2 (Some property = Some property)), (bool_decide_eq_false_2 (Some property = Some "")) by congruence.
  by cbn.
Qed.

(** ** The columns that are shown *)

(** With overrides [f]. *)
Definition visible (f : list (string * value)) (col : Column) : bool :=
  negb (hidden col) && (required col || negb (isFalse (getField (id col) f))).

Lemma visibleMap_exact columns f next : NoDup (map id columns) ->
  exists m, visibleMap columns (Obj f) next = Ok m /\
    (forall key, key ∉ map id columns -> getField key m = getField key next) /\
    forall col, col ∈ columns -> hidden col = false -> getField (id col) m = Bool (visible f col).
Proof.
  revert next. induction columns as [|c columns IH]; intros next Hnd.
  { exists next. split; [done|]. split; [done|]. by intros col ?%not_elem_of_nil. }
  cbn [map] in Hnd. apply NoDup_cons in Hnd as [Hc Hnd]. cbn [visibleMap map].
  destruct (hidden c) eqn:Hh.
  - destruct (IH next Hnd) as (m & Hm & Hother & Hin). exists m. split; [done|]. split.
    + intros key [_ Hk]%not_elem_of_cons. by apply Hother.
    + intros col [->|Hcol]%elem_of_cons Hcol'; [congruence|by apply Hin].
  - set (v := required c || negb (isFalse (getField (id c) f))).
    destruct (IH (setField (id c) (Bool v) next) Hnd) as (m & Hm & Hother & Hin). exists m. split; [|split].
    + unfold v in Hm. by destruct (required c).
    + intros key [Hk Hk']%not_elem_of_cons. rewrite Hother by done. apply getField_setField_ne. congruence.
    + intros col [->|Hcol]%elem_of_cons Hcol'; [|by apply Hin]. rewrite Hother, getField_setField by done.
      unfold visible, v. by rewrite Hh.
Qed.

Lemma shownColumns_visible columns f t : NoDup (map id columns) -> columnVisibility t = Obj f ->
  shownColumns columns t = Ok (List.filter (visible f) columns).
Proof.
  intros Hnd Hf. destruct (visibleMap_exact columns f [] Hnd) as (m & Hm & _ & Hin). unfold shownColumns. rewrite Hf, Hm. cbn [mbind res_bind].
  f_equal. apply filter_ext_in. intros col Hcol%list_elem_of_In. destruct (hidden col) eqn:Hh; [unfold visible; by rewrite Hh|].
  rewrite Hin by done. unfold visible. rewrite Hh. cbn [negb andb]. by destruct (required col), (isFalse (getField (id col) f)).
Qed.

Lemma getField_deleteField k k' f : getField k' (deleteField k f) = if bool_decide (k = k') then Undefined else getField k' f.
Proof.
  induction f as [|[k0 v] f IH]; [by case_bool_decide|]. unfold deleteField in *. cbn [List.filter fst getField].
  destruct (decide (k0 = k)) as [->|Hk]; [rewrite bool_decide_eq_true_2 by done|rewrite bool_decide_eq_false_2 by done]; cbn [negb getField]; rewrite IH.
  - destruct (decide (k = k')) as [->|]; [by rewrite bool_decide_eq_true_2|]. by rewrite !bool_decide_eq_false_2 by congruence.
  - destruct (decide (k' = k0)) as [->|]; [by rewrite bool_decide_eq_true_2, bool_decide_eq_false_2 by congruence|].
    by rewrite (bool_decide_eq_false_2 (k' = k0)).
Qed.

(** A box of the dialog shows or hides its column and no other. *)
Theorem toggle_exact columns f t col : NoDup (map id columns) -> columnVisibility t = Obj f ->
  col ∈ columns -> hidden col = false -> required col = false ->
  exists t' f', handleConfigureVisibilityChange columns (id col) t = Ok t' /\ columnVisibility t' = Obj f' /\
    visible f' col = negb (visible f col) /\ forall c, c ∈ columns -> c <> col -> visible f' c = visible f c.
Proof.
  intros Hnd Hf Hcol Hh Hr. destruct (visibleMap_exact columns f [] Hnd) as (m & Hm & _ & Hin).
  unfold handleConfigureVisibilityChange. rewrite Hf, Hm. cbn [mbind res_bind].
  assert (List.find (fun c => bool_decide (id c = id col)) columns = Some col) as ->.
  { clear -Hnd Hcol. induction columns as [|c l IH]; [by apply not_elem_of_nil in Hcol|]. cbn [map] in Hnd. apply NoDup_cons in Hnd as [Hc Hnd].
    apply elem_of_cons in Hcol as [->|Hcol]; cbn [List.find]; [by rewrite bool_decide_eq_true_2|].
    rewrite bool_decide_eq_false_2; [by apply IH|]. intros E. apply Hc. rewrite E. by apply (list_elem_of_fmap_2 id). }
  rewrite Hr, (Hin col) by done. eexists _, _. split; [reflexivity|]. split; [reflexivity|]. cbn [spread].
  assert (forall c, c ∈ columns -> c <> col -> id col <> id c) as Hne.
  { intros c Hc Hcc E. apply Hcc. clear -Hnd Hcol Hc E. apply list_elem_of_lookup in Hcol as [i Hi], Hc as [j Hj].
    assert (i = j) as <-; [|congruence]. eapply (NoDup_lookup (map id columns)); [done|..];
      change (map id) with (fmap id : list Column -> list string); rewrite list_lookup_fmap; [by rewrite Hi|by rewrite Hj, E]. }
  unfold visible at 1 3. rewrite Hh, Hr. cbn [negb andb orb]. unfold visible. rewrite Hh, Hr. cbn [negb andb orb isFalse].
  destruct (isFalse (getField (id col) f)); cbn [negb]; (split; [by rewrite ?getField_setField, ?getField_deleteField, ?bool_decide_eq_true_2|]).
  - intros c Hc Hcc. by rewrite getField_deleteField, bool_decide_eq_false_2 by auto.
  - intros c Hc Hcc. by rewrite getField_setField_ne by auto.
Qed.
End Table.
End Table.

(** ** Instances *)

Module TableExample.
Import Table.

(** A form of values as text: the tree of a value as a number, in binary. *)
Abbreviation leaf := (nat + bool + Z + string)%type.

Fixpoint toTree (v : value) : gen_tree leaf :=
  match v with
  | Undefined => GenLeaf (inl (inl (inl 0%nat)))
  | Null => GenLeaf (inl (inl (inl 1%nat)))
  | Bool b => GenLeaf (inl (inl (inr b)))
  | Num n => GenLeaf (inl (inr n))
  | Str s => GenLeaf (inr s)
  | Arr l => GenNode 0 (map toTree l)
  | Obj f => GenNode 1 (map (fun kv => GenNode 2 [GenLeaf (inr (fst kv)); toTree (snd kv)]) f)
  end.

Fixpoint ofTree (t : gen_tree leaf) : value :=
  match t with
  | GenLeaf (inl (inl (inl 0%nat))) => Undefined
  | GenLeaf (inl (inl (inl _))) => Null
  | GenLeaf (inl (inl (inr b))) => Bool b
  | GenLeaf (inl (inr n)) => Num n
  | GenLeaf (inr s) => Str s
  | GenNode 0 l => Arr (map ofTree l)
  | GenNode _ l => Obj (map (fun t => match t with GenNode _ [GenLeaf (inr k); t] => (k, ofTree t) | _ => ("", Undefined) end) l)
  end.

Lemma ofTree_toTree : forall v, ofTree (toTree v) = v.
Proof.
  fix IH 1. intros [| |b|n|s|l|f]; try reflexivity; cbn.
  - f_equal. rewrite map_map. induction l as [|v l IHl]; [reflexivity|]. cbn. by rewrite IH, IHl.
  - f_equal. rewrite map_map. induction f as [|[k v] f IHf]; [reflexivity|]. cbn. by rewrite IH, IHf.
Qed.

Fixpoint bits (p : positive) : string :=
  match p with xH => "1" | xO p => "0" ++ bits p | xI p => "1" ++ bits p end.
Fixpoint ofBits (s : string) : positive :=
  match s with
  | String a ((String _ _) as s) => if charIs 48 a then xO (ofBits s) else xI (ofBits s)
  | _ => xH
  end.

Lemma ofBits_bits p : ofBits (bits p) = p.
Proof.
  induction p as [p IH|p IH|]; [..|done]; change (bits _) with (String (Ascii.ascii_of_N 49) (bits p)) || change (bits _) with (String (Ascii.ascii_of_N 48) (bits p));
    destruct (bits p) eqn:E; try (by destruct p); rewrite <- IH; reflexivity.
Qed.

Definition write (v : value) : string := bits (encode (toTree v)).
Definition read (s : string) : res value :=
  match decode (ofBits s) with
  | Some t => if bool_decide (jsonClone (ofTree t) = ofTree t) then Ok (ofTree t) else throwError "Unexpected token"
  | None => throwError "Unexpected token"
  end.

#[export] Instance write_read : Json write read.
Proof.
  split.
  - intros v Hv. unfold read, write. rewrite ofBits_bits, decode_encode, ofTree_toTree. by rewrite bool_decide_eq_true_2.
  - intros v. unfold write. by destruct (encode _).
  - intros s v. unfold read. destruct (decode _) as [t|]; [|done]. case_bool_decide; [|done]. by intros [= <-].
Qed.

(** Texts by their lengths. *)
Definition byLength (a b : string) : Z := Z.of_nat (String.length a) - Z.of_nat (String.length b).

#[export] Instance byLength_comparison : Comparison (fun _ => True) byLength.
Proof. split; unfold byLength; intros; lia. Qed.

Definition columns : list Column :=
  [mkColumn "name" false false true None; mkColumn "version" false false false None; mkColumn "devices" false false false None; mkColumn "actions" true false true None].
Definition row (name : string) (devices : value) : value := Obj [("name", Str name); ("devices", devices)].
Definition rows : list value := [row "hue" (Num 4); row "shelly" Null; row "zigbee" (Num 12); row "somfy" (Num 4)].

(** Ordered by the number of devices from the highest, with a column hidden. *)
Definition actions : list Action := [Sort "devices"; Sort "devices"; Dialog; Toggle "version"].
Definition table : Table :=
  match acts write "Plugins" columns actions (mount read "Plugins" ∅) with Ok t => t | Throw _ => mount read "Plugins" ∅ end.

Definition devices : Column := mkColumn "devices" false false false None.
Definition ordered : Table := mkTable (Some "devices") (Some "desc") (Obj []) false ∅.

Lemma sortedRows_exact_witness :
  StronglySorted (le (directed "desc" (rowOrder byLength devices "devices"))) (sortedRows byLength columns rows ordered) /\
  filter (fun x => rowOrder byLength devices "devices" (row "hue" (Num 4)) x = 0) (sortedRows byLength columns rows ordered) = [row "hue" (Num 4); row "somfy" (Num 4)].
Proof.
  assert (Comparison (ofKind 1 "devices") (rowOrder byLength devices "devices")) as Hc by apply (comparator_comparison byLength 1 "devices"), byLength_comparison.
  assert (Forall (ofKind 1 "devices") rows) as HP by (repeat (apply Forall_cons; split; [by (left + right)|]); constructor).
  destruct (sortedRows_exact byLength columns rows ordered "devices" "desc" devices (ofKind 1 "devices") eq_refl eq_refl ltac:(done) ltac:(done) eq_refl eq_refl Hc HP)
    as (_ & Hs & Hf).
  split; [exact Hs|]. rewrite (Hf (row "hue" (Num 4))) by (by right). reflexivity.
Defined.

Lemma reload_same_witness : mount read "Plugins" (localStorage table) =
  mkTable (Some "devices") (Some "desc") (Obj [("version", Bool false)]) false (localStorage table).
Proof.
  rewrite (reload_same write read "Plugins" columns actions ∅ table); [by vm_compute| |by vm_compute].
  repeat (apply Forall_cons; split; [done|]). constructor.
Defined.
End TableExample.
