(* ===== verification/WebClient.v ===== *)
(** The web application's connection: the user interface that messages open and close,
    [apps/frontend/src/components/UiProvider.tsx], and the socket with its log, listeners,
    heartbeat and reconnections, [apps/frontend/src/components/WebSocketProvider.tsx]. *)
From S2P Require Import Prelude JsValue.
From stdpp Require Import gmap pretty.
#[local] Open Scope string_scope.
#[local] Open Scope Z_scope.

(** ** The snackbars of the package notistack *)

Record SnackbarOptions := mkOptions { autoHideDuration : option Z; persist : bool; severity : string }.

Class Notistack (S : Type) := {
  enqueueSnackbar : string -> SnackbarOptions -> S -> nat * S;
  closeSnackbar : option nat -> S -> S;
  displayed : S -> list (nat * string);
  issued : S -> list nat }.

(** The provider has [maxSnack={10}] and [preventDuplicate]. *)
Definition maxSnack : nat := 10.

(** A text that is displayed is not displayed twice, yet the key that is returned is
    new; a key closes its snackbar, and no key closes all. *)
Class NotistackLaws (S : Type) `{!Notistack S} : Prop := {
  enqueue_duplicate : forall m o s, m ∈ map snd (displayed s) -> displayed (snd (enqueueSnackbar m o s)) = displayed s;
  enqueue_new : forall m o s, m ∉ map snd (displayed s) -> (length (displayed s) < maxSnack)%nat ->
    displayed (snd (enqueueSnackbar m o s)) = (displayed s ++ [(fst (enqueueSnackbar m o s), m)])%list;
  enqueue_fresh : forall m o s, fst (enqueueSnackbar m o s) ∉ issued s;
  enqueue_issued : forall m o s, issued (snd (enqueueSnackbar m o s)) = fst (enqueueSnackbar m o s) :: issued s;
  displayed_issued : forall s k m, (k, m) ∈ displayed s -> k ∈ issued s;
  close_displayed : forall k s, displayed (closeSnackbar k s) =
    match k with Some k => filter (fun d => fst d <> k) (displayed s) | None => [] end;
  close_issued : forall k s, issued (closeSnackbar k s) = issued s }.

Module Ui.

(** The form that asks for a confirmation, with the names of its two handlers and the
    calls they received. *)
Record Confirm := mkConfirm {
  showConfirmCancelForm : bool;
  formTitle : string;
  formMessage : string;
  formCommand : string;
  confirmHandler : option nat;
  cancelHandler : option nat;
  called : list (nat * string) }.

Record Install := mkInstall {
  installDialogOpen : bool;
  installTitle : string;
  installCommand : string;
  installPackageName : string;
  installOutput : string;
  installAutoExit : option string }.

Section Ui.
Context {S : Type} `{!Notistack S}.

Record Ui := mkUi { snackbars : S; persistMessages : list (string * nat); confirm : Confirm; install : Install }.

Definition setInstall (i : Install) (u : Ui) : Ui := mkUi (snackbars u) (persistMessages u) (confirm u) i.
Definition setConfirm (c : Confirm) (u : Ui) : Ui := mkUi (snackbars u) (persistMessages u) c (install u).

(** The first entry of a message, and the entries without it. *)
Fixpoint takeMessage (message : string) (l : list (string * nat)) : option (nat * list (string * nat)) :=
  match l with
  | [] => None
  | (m, key) :: l =>
      if bool_decide (m = message) then Some (key, l)
      else match takeMessage message l with Some (key', l') => Some (key', (m, key) :: l') | None => None end
  end.

Definition closeSnackbarMessage (message : string) (u : Ui) : Ui :=
  match takeMessage message (persistMessages u) with
  | Some (key, rest) => mkUi (closeSnackbar (Some key) (snackbars u)) rest (confirm u) (install u)
  | None => u
  end.

(** A timeout that is not given is of 5 seconds; of 0, the snackbar stays. *)
Definition showSnackbarMessage (message : string) (timeout : option Z) (level : option string) (u : Ui) : Ui :=
  let autoHide := match timeout with None => Some (5 * 1000) | Some t => if 0 <? t then Some (t * 1000) else None end in
  let stays := bool_decide (timeout = Some 0) in
  let '(key, s) := enqueueSnackbar message (mkOptions autoHide stays (default "info" level)) (snackbars u) in
  mkUi s (if stays then persistMessages u ++ [(message, key)] else persistMessages u)%list (confirm u) (install u).

(** A click on a snackbar, and [closeSnackbar()]. *)
Definition clickSnackbar (key : nat) (u : Ui) : Ui := mkUi (closeSnackbar (Some key) (snackbars u)) (persistMessages u) (confirm u) (install u).
Definition closeAllSnackbars (u : Ui) : Ui := mkUi (closeSnackbar None (snackbars u)) (persistMessages u) (confirm u) (install u).

(** *** The form *)

Definition showConfirmCancelDialog (title message command : string) (onConfirm onCancel : nat) (u : Ui) : Ui :=
  setConfirm (mkConfirm true title message command (Some onConfirm) (Some onCancel) (called (confirm u))) u.

Definition answerForm (handler : option nat) (u : Ui) : Ui :=
  let c := confirm u in
  setConfirm (mkConfirm false (formTitle c) (formMessage c) (formCommand c) (confirmHandler c) (cancelHandler c)
    (called c ++ match handler with Some h => [(h, formCommand c)] | None => [] end)%list) u.
Definition handleConfirm (u : Ui) : Ui := answerForm (confirmHandler (confirm u)) u.
Definition handleCancel (u : Ui) : Ui := answerForm (cancelHandler (confirm u)) u.

(** *** The dialog of an installation *)

Definition newline : string := String (Ascii.ascii_of_N 10) "".

Definition showInstallProgress (title command packageName : string) (u : Ui) : Ui :=
  let i := install u in setInstall (mkInstall true title command packageName (installOutput i) (installAutoExit i)) u.
Definition addInstallProgress (output : string) (u : Ui) : Ui :=
  let i := install u in
  setInstall (mkInstall (installDialogOpen i) (installTitle i) (installCommand i) (installPackageName i) (installOutput i ++ output ++ newline) (installAutoExit i)) u.
Definition setDialogOpen (b : bool) (u : Ui) : Ui :=
  let i := install u in setInstall (mkInstall b (installTitle i) (installCommand i) (installPackageName i) (installOutput i) (installAutoExit i)) u.
Definition exitInstallProgressSuccess (u : Ui) : Ui :=
  if negb (bool_decide (installAutoExit (install u) = Some "false")) then setDialogOpen false u else u.
Definition exitInstallProgressError (u : Ui) : Ui := u.
Definition hideInstallProgress (u : Ui) : Ui := setDialogOpen false u.
Definition handleInstallClose (u : Ui) : Ui :=
  let i := install u in setInstall (mkInstall false (installTitle i) (installCommand i) "" "" (installAutoExit i)) u.

(** The box "Close on success" of the dialog, kept in the storage of the browser. *)
Definition handleInstallAutoExitChange (checked : bool) (u : Ui) : Ui :=
  let i := install u in
  setInstall (mkInstall (installDialogOpen i) (installTitle i) (installCommand i) (installPackageName i) (installOutput i)
    (Some (if checked then "true" else "false"))) u.
End Ui.
Arguments Ui : clear implicits.
End Ui.

Module Client.
Import Ui.

Record WsLogMessage := mkLog { level : string; time : string; name : string; message : string }.
#[export] Instance WsLogMessage_eq : EqDecision WsLogMessage.
Proof. solve_decision. Defined.

Inductive ReadyState := CONNECTING | OPEN | CLOSED.
#[export] Instance ReadyState_eq : EqDecision ReadyState.
Proof. solve_decision. Defined.

(** What the timers do. *)
Inductive Timer := StartTimer | PingTimer | OfflineTimer | ReconnectTimer.
#[export] Instance Timer_eq : EqDecision Timer.
Proof. solve_decision. Defined.

Record Alarm := mkAlarm { handle : nat; due : Z; what : Timer }.

Record Logs := mkLogs { messages : list WsLogMessage; logFilterLevel : string; logFilterSearch : string; logLength : Z }.

(** The socket, the sockets that were made, what was sent, and what the page shows. *)
Record Wire := mkWire { readyState : ReadyState; made : nat; sent : list value; online : bool; retryCount : Z }.

(** The alarms that are set, in milliseconds, and the references to them. *)
Record Clock := mkClock {
  now : Z;
  nextHandle : nat;
  alarms : list Alarm;
  startTimeoutRef : option nat;
  pingIntervalRef : option nat;
  offlineTimeoutRef : option nat }.

Definition maxRetries : Z := 100.
Definition pingIntervalSeconds : Z := 60.
Definition offlineTimeoutSeconds : Z := 50.
Definition startTimeoutSeconds : Z := 300.

Definition normalLevels : list string := ["debug"; "info"; "notice"; "warn"; "error"; "fatal"].
Definition oneOf (s : string) (l : list string) : bool := existsb (fun x => bool_decide (s = x)) l.

Section Client.
(** The snackbars, lower case, the expressions of users with the flag [i] (none when the
    pattern is not one), the address, whether there is a password and whether the page is
    behind an ingress, and the id of the page. *)
Context {S : Type} `{!Notistack S} (toLowerCase : string -> string) (RegExp : string -> option (string -> bool)).
Context (wssHost : string) (withPassword isIngress : bool) (uniqueId : Z).

Record Client := mkClient {
  ui : Ui S;
  logs : Logs;
  wire : Wire;
  clock : Clock;
  listeners : list (nat * Z);
  delivered : list (nat * value) }.

Definition onUi (f : Ui S -> Ui S) (c : Client) : Client := mkClient (f (ui c)) (logs c) (wire c) (clock c) (listeners c) (delivered c).
Definition setLogs (l : Logs) (c : Client) : Client := mkClient (ui c) l (wire c) (clock c) (listeners c) (delivered c).
Definition setWire (w : Wire) (c : Client) : Client := mkClient (ui c) (logs c) w (clock c) (listeners c) (delivered c).
Definition setClock (k : Clock) (c : Client) : Client := mkClient (ui c) (logs c) (wire c) k (listeners c) (delivered c).
Definition setMessages (f : list WsLogMessage -> list WsLogMessage) (c : Client) : Client :=
  let l := logs c in setLogs (mkLogs (f (messages l)) (logFilterLevel l) (logFilterSearch l) (logLength l)) c.
Definition setOnline (b : bool) (c : Client) : Client :=
  let w := wire c in setWire (mkWire (readyState w) (made w) (sent w) b (retryCount w)) c.
Definition setRetryCount (n : Z) (c : Client) : Client :=
  let w := wire c in setWire (mkWire (readyState w) (made w) (sent w) (online w) n) c.

(** ** The log *)

(** [search.slice(1, -1)]. *)
Definition inner (search : string) : string := String.substring 1 (String.length search - 2) search.

(** Whether the filter keeps a line that is shown. *)
Definition keepsLine (lvl search : string) (msg : WsLogMessage) : bool :=
  if oneOf (level msg) normalLevels &&
     (bool_decide (lvl = "info") && oneOf (level msg) ["debug"]
      || bool_decide (lvl = "notice") && oneOf (level msg) ["debug"; "info"]
      || bool_decide (lvl = "warn") && oneOf (level msg) ["debug"; "info"; "notice"]
      || bool_decide (lvl = "error") && oneOf (level msg) ["debug"; "info"; "notice"; "warn"]
      || bool_decide (lvl = "fatal") && oneOf (level msg) ["debug"; "info"; "notice"; "warn"; "error"]) then false
  else if negb (bool_decide (search = "*")) && negb (bool_decide (search = "")) && negb (strStartsWith search "/") && negb (strEndsWith search "/") &&
     negb (strIncludes (toLowerCase (message msg)) (toLowerCase search)) && negb (strIncludes (toLowerCase (name msg)) (toLowerCase search)) then false
  else if strStartsWith search "/" && strEndsWith search "/" &&
     match RegExp (inner search) with Some test => negb (test (message msg)) && negb (test (name msg)) | None => false end then false
  else true.

Definition filterLogMessages (lvl search : string) : Client -> Client := setMessages (List.filter (keepsLine lvl search)).

(** A line of the application itself. *)
Definition logMessage (badge text : string) : Client -> Client := setMessages (fun l => l ++ [mkLog badge "" "" text])%list.

(** The line of a message of the log, under the filter, with the lines at most a tenth
    over the length that is kept. *)
Definition addLogLine (msg : WsLogMessage) (c : Client) : Client :=
  let lvl := logFilterLevel (logs c) in
  let search := logFilterSearch (logs c) in
  if oneOf (level msg) normalLevels && bool_decide (lvl = "info") && bool_decide (level msg = "debug") then c
  else if oneOf (level msg) normalLevels && bool_decide (lvl = "notice") && (bool_decide (level msg = "debug") || bool_decide (level msg = "info")) then c
  else if oneOf (level msg) normalLevels && bool_decide (lvl = "warn") &&
     (bool_decide (level msg = "debug") || bool_decide (level msg = "info") || bool_decide (level msg = "notice")) then c
  else if oneOf (level msg) normalLevels && bool_decide (lvl = "error") &&
     (bool_decide (level msg = "debug") || bool_decide (level msg = "info") || bool_decide (level msg = "notice") || bool_decide (level msg = "warn")) then c
  else if oneOf (level msg) normalLevels && bool_decide (lvl = "fatal") &&
     (bool_decide (level msg = "debug") || bool_decide (level msg = "info") || bool_decide (level msg = "notice") || bool_decide (level msg = "warn")
      || bool_decide (level msg = "error")) then c
  else if negb (bool_decide (search = "*")) && negb (bool_decide (search = "")) && negb (strStartsWith search "/") && negb (strEndsWith search "/") &&
     negb (strIncludes (toLowerCase (message msg)) (toLowerCase search)) && negb (strIncludes (toLowerCase (name msg)) (toLowerCase search)) then c
  else if strStartsWith search "/" && strEndsWith search "/" &&
     match RegExp (inner search) with Some test => negb (test (message msg)) && negb (test (name msg)) | None => false end then c
  else if bool_decide (name msg = "Commissioning") && strIncludes (message msg) "is uncommissioned" then c
  else setMessages (fun prevMessages =>
    let newMessages := (prevMessages ++ [msg])%list in
    let length := Z.of_nat (length newMessages) in
    if 11 * logLength (logs c) <? 10 * length then drop (Z.to_nat (length - logLength (logs c))) newMessages else newMessages) c.

(** The page of the log: the filters, the length and the button that clears. *)
Definition handleLogFilterLevelChange (newValue : string) (c : Client) : Client :=
  let l := logs c in
  filterLogMessages newValue (logFilterSearch l) (setLogs (mkLogs (messages l) newValue (logFilterSearch l) (logLength l)) c).
Definition handleLogFilterSearchChange (newValue : string) (c : Client) : Client :=
  let l := logs c in
  filterLogMessages (logFilterLevel l) newValue (setLogs (mkLogs (messages l) (logFilterLevel l) newValue (logLength l)) c).
Definition handleLogLengthChange (newValue : Z) (c : Client) : Client :=
  let l := logs c in setLogs (mkLogs (messages l) (logFilterLevel l) (logFilterSearch l) newValue) c.
Definition handleClearLogsClick : Client -> Client := setMessages (fun _ => []).

(** ** Messages *)

(** A message without an id takes that of the page; a socket that is not open sends
    nothing. *)
Definition sendMessage (msg : list (string * value)) (c : Client) : Client :=
  let w := wire c in
  if bool_decide (readyState w = OPEN) then
    let msg := if isUndefined (getField "id" msg) then setField "id" (Num uniqueId) msg else msg in
    setWire (mkWire (readyState w) (made w) (sent w ++ [Obj msg])%list (online w) (retryCount w)) c
  else c.

Definition addListener (listener : nat) (id : Z) (c : Client) : Client :=
  mkClient (ui c) (logs c) (wire c) (clock c) (listeners c ++ [(listener, id)])%list (delivered c).
Definition removeListener (listener : nat) (c : Client) : Client :=
  mkClient (ui c) (logs c) (wire c) (clock c) (List.filter (fun l => negb (Nat.eqb (fst l) listener)) (listeners c)) (delivered c).

Definition deliver (ls : list nat) (msg : value) (c : Client) : Client :=
  mkClient (ui c) (logs c) (wire c) (clock c) (listeners c) (delivered c ++ map (fun l => (l, msg)) ls)%list.

(** [id === 0] is for all; else the first listener of the id. *)
Definition dispatch (msg : value) (c : Client) : Client :=
  match optProp msg "id" with
  | Num 0 => deliver (map fst (listeners c)) msg c
  | Num id => match List.find (fun l => snd l =? id) (listeners c) with Some l => deliver [fst l] msg c | None => c end
  | _ => c
  end.

(** The texts of a message of the log; a message that misses one is not processed. *)
Definition logOf (response : value) : option WsLogMessage :=
  match optProp response "level", optProp response "time", optProp response "name", optProp response "message" with
  | Str l, Str t, Str n, Str m =>
      if bool_decide (l = "") || bool_decide (t = "") || bool_decide (n = "") || bool_decide (m = "") then None else Some (mkLog l t n m)
  | _, _, _, _ => None
  end.

Definition onSpawn (msg : WsLogMessage) (u : Ui S) : Ui S :=
  if bool_decide (name msg = "Matterbridge:spawn-init") then showInstallProgress (message msg) "" "" u
  else if bool_decide (name msg = "Matterbridge:spawn-exit-success") then exitInstallProgressSuccess u
  else if bool_decide (name msg = "Matterbridge:spawn-exit-error") then exitInstallProgressError u
  else addInstallProgress (message msg ++ newline) u.

(** Alarms are cleared by handle; a reference may be to an alarm that has gone off. *)
Definition clearAlarm (h : option nat) (l : list Alarm) : list Alarm :=
  match h with Some h => List.filter (fun a => negb (Nat.eqb (handle a) h)) l | None => l end.

Definition onPong (c : Client) : Client :=
  let k := clock c in
  setClock (mkClock (now k) (nextHandle k) (clearAlarm (offlineTimeoutRef k) (alarms k)) (startTimeoutRef k) (pingIntervalRef k) None) c.

Definition asNum (v : value) : option Z := match v with Num n => Some n | _ => None end.
Definition asStr (v : value) : option string := match v with Str s => Some s | _ => None end.

(** The handler of a message: its JSON, or that it is not. Texts are strings. *)
Definition onmessage (data : res value) (c : Client) : Client :=
  let c := setOnline true c in
  match data with
  | Throw _ => c
  | Ok msg =>
      let response := optProp msg "response" in
      if isUndefined (optProp msg "id") || isUndefined (optProp msg "src") || isUndefined (optProp msg "dst") then c
      else if negb (isStr (optProp msg "src") "Matterbridge") || negb (isStr (optProp msg "dst") "Frontend") then c
      else if truthy (optProp msg "error") then c
      else if bool_decide (optProp msg "id" = Num uniqueId) && isStr (optProp msg "method") "pong" && isStr response "pong" then onPong c
      else if isStr (optProp msg "method") "snackbar" && truthy response && truthy (optProp response "message") then
        onUi (showSnackbarMessage (toText (optProp response "message")) (asNum (optProp response "timeout")) (asStr (optProp response "severity"))) c
      else if isStr (optProp msg "method") "close_snackbar" && truthy response && truthy (optProp response "message") then
        onUi (closeSnackbarMessage (toText (optProp response "message"))) c
      else if isStr (optProp msg "method") "log" then
        match logOf response with
        | None => c
        | Some line => addLogLine line (if bool_decide (level line = "spawn") then onUi (onSpawn line) c else c)
        end
      else dispatch msg c
  end.

(** ** The connection *)

Definition addAlarm (what : Timer) (ms : Z) (k : Clock) : Clock :=
  mkClock (now k) (Datatypes.S (nextHandle k)) (alarms k ++ [mkAlarm (nextHandle k) (now k + ms) what])%list (startTimeoutRef k) (pingIntervalRef k) (offlineTimeoutRef k).

Definition connectWebSocket (c : Client) : Client :=
  if bool_decide (wssHost = "") then c
  else
    let c := logMessage "WebSocket" ("Connecting " ++ (if withPassword then "with password" else "") ++ " to WebSocket: " ++ wssHost) c in
    let w := wire c in
    setWire (mkWire CONNECTING (made w + 1) (sent w) (online w) (retryCount w)) c.

Definition attemptReconnect : Client -> Client := connectWebSocket.

Definition setReadyState (s : ReadyState) (c : Client) : Client :=
  let w := wire c in setWire (mkWire s (made w) (sent w) (online w) (retryCount w)) c.

Definition onopen (c : Client) : Client :=
  let c := setReadyState OPEN c in
  let c := logMessage "WebSocket" ("Connected to WebSocket: " ++ wssHost) c in
  let c := onUi closeAllSnackbars (setOnline true c) in
  let c := setRetryCount 1 c in
  let k := addAlarm StartTimer (1000 * startTimeoutSeconds) (clock c) in
  setClock (mkClock (now k) (nextHandle k) (alarms k) (Some (nextHandle (clock c))) (pingIntervalRef k) (offlineTimeoutRef k)) c.

Definition onclose (c : Client) : Client :=
  let c := setReadyState CLOSED c in
  let c := logMessage "WebSocket" ("Disconnected from WebSocket: " ++ wssHost) c in
  let c := onUi hideInstallProgress (onUi closeAllSnackbars (setOnline false c)) in
  let k := clock c in
  let l := clearAlarm (pingIntervalRef k) (clearAlarm (offlineTimeoutRef k) (clearAlarm (startTimeoutRef k) (alarms k))) in
  let c := setClock (mkClock (now k) (nextHandle k) l (startTimeoutRef k) (pingIntervalRef k) (offlineTimeoutRef k)) c in
  let n := retryCount (wire c) in
  let c := logMessage "WebSocket" ("Reconnecting (attempt " ++ pretty n ++ " of " ++ pretty maxRetries ++ ") to WebSocket" ++
             (if isIngress then " (Ingress)" else "") ++ ": " ++ wssHost) c in
  let c :=
    if isIngress then setClock (addAlarm ReconnectTimer 5000 (clock c)) c
    else if n =? 1 then attemptReconnect c
    else if n <? maxRetries then setClock (addAlarm ReconnectTimer (1000 * n) (clock c)) c
    else logMessage "WebSocket" ("Reconnect attempts exceeded limit of " ++ pretty maxRetries ++ " retries, refresh the page to reconnect to: " ++ wssHost) c in
  setRetryCount (n + 1) c.

Definition onerror : Client -> Client := logMessage "WebSocket" ("WebSocket error connecting to " ++ wssHost).

(** *** Alarms *)

Definition ping : list (string * value) :=
  [("id", Num uniqueId); ("method", Str "ping"); ("src", Str "Frontend"); ("dst", Str "Matterbridge"); ("params", Obj [])].

Definition onStart (c : Client) : Client :=
  let k := addAlarm PingTimer (1000 * pingIntervalSeconds) (clock c) in
  setClock (mkClock (now k) (nextHandle k) (alarms k) (startTimeoutRef k) (Some (nextHandle (clock c))) (offlineTimeoutRef k)) c.

Definition onPing (c : Client) : Client :=
  let c := sendMessage ping c in
  let k := clock c in
  let k := mkClock (now k) (nextHandle k) (clearAlarm (offlineTimeoutRef k) (alarms k)) (startTimeoutRef k) (pingIntervalRef k) (offlineTimeoutRef k) in
  let k' := addAlarm OfflineTimer (1000 * offlineTimeoutSeconds) k in
  setClock (mkClock (now k') (nextHandle k') (alarms k') (startTimeoutRef k') (pingIntervalRef k') (Some (nextHandle k))) c.

Definition onOffline (c : Client) : Client :=
  setOnline false (logMessage "WebSocket" ("No pong response received from WebSocket: " ++ wssHost) c).

(** An alarm goes off: a timeout once, an interval again a period later. *)
Definition goOff (a : Alarm) (c : Client) : Client :=
  let k := clock c in
  let rest := clearAlarm (Some (handle a)) (alarms k) in
  let again := match what a with PingTimer => [mkAlarm (handle a) (due a + 1000 * pingIntervalSeconds) PingTimer] | _ => [] end in
  let c := setClock (mkClock (now k) (nextHandle k) (rest ++ again)%list (startTimeoutRef k) (pingIntervalRef k) (offlineTimeoutRef k)) c in
  match what a with StartTimer => onStart c | PingTimer => onPing c | OfflineTimer => onOffline c | ReconnectTimer => attemptReconnect c end.

(** ** The page *)

(** What a user and the other components do. *)
Inductive Use :=
  | ChangeLevel (lvl : string) | ChangeSearch (search : string) | ChangeLength (n : Z) | Clear
  | Listen (listener : nat) (id : Z) | Unlisten (listener : nat) | Send (msg : list (string * value))
  | Click (key : nat) | CloseDialog | Confirmed | Cancelled.

Definition use (u : Use) : Client -> Client :=
  match u with
  | ChangeLevel lvl => handleLogFilterLevelChange lvl
  | ChangeSearch search => handleLogFilterSearchChange search
  | ChangeLength n => handleLogLengthChange n
  | Clear => handleClearLogsClick
  | Listen l id => addListener l id
  | Unlisten l => removeListener l
  | Send msg => sendMessage msg
  | Click key => onUi (clickSnackbar key)
  | CloseDialog => onUi handleInstallClose
  | Confirmed => onUi handleConfirm
  | Cancelled => onUi handleCancel
  end.

Inductive Event := Opened | Received (data : res value) | Errored | Lost | GoesOff (h : nat) | Used (u : Use).

Definition setNow (t : Z) (c : Client) : Client :=
  let k := clock c in setClock (mkClock t (nextHandle k) (alarms k) (startTimeoutRef k) (pingIntervalRef k) (offlineTimeoutRef k)) c.

(** An event at a time: alarms go off when they are due, and the socket opens, receives
    and is lost in that order. *)
Definition step (t : Z) (e : Event) (c : Client) : option Client :=
  if (t <? now (clock c)) || existsb (fun a => due a <? t) (alarms (clock c)) then None
  else
    let c := setNow t c in
    match e with
    | Opened => if bool_decide (readyState (wire c) = CONNECTING) then Some (onopen c) else None
    | Received data => if bool_decide (readyState (wire c) = OPEN) then Some (onmessage data c) else None
    | Errored => if bool_decide (readyState (wire c) = CLOSED) then None else Some (onerror c)
    | Lost => if bool_decide (readyState (wire c) = CLOSED) then None else Some (onclose c)
    | GoesOff h =>
        match List.find (fun a => Nat.eqb (handle a) h) (alarms (clock c)) with
        | Some a => if due a =? t then Some (goOff a c) else None
        | None => None
        end
    | Used u => Some (use u c)
    end.

(** A page is rendered at a time, with the filters and the length of the storage. *)
Definition page (u : Ui S) (lvl search : string) (length : Z) (t : Z) : Client :=
  connectWebSocket (mkClient u (mkLogs [] lvl search length) (mkWire CLOSED 0 [] false 1) (mkClock t 0 [] None None None) [] []).

Fixpoint steps (l : list (Z * Event)) (c : Client) : option Client :=
  match l with [] => Some c | (t, e) :: l => match step t e c with Some c => steps l c | None => None end end.
End Client.
Arguments Client : clear implicits.
End Client.
