(* ===== verification/WebClientFacts.v ===== *)
(** What the web application shows: the filters of the log, the lines it keeps, the
    snackbars that stay, and the heartbeat and the reconnections of its socket. *)
From S2P Require Import Prelude JsValue WebClient.
From stdpp Require Import gmap pretty.
#[local] Open Scope string_scope.
#[local] Open Scope Z_scope.
Import Ui Client.

(** ** The log *)

(** The levels from the least severe. *)
Definition rank (l : string) : option nat := fst <$> list_find (fun x => x = l) normalLevels.

(** A filter shows its level and those above it, and the levels that are none of these. *)
Definition passes (lvl l : string) : bool :=
  match rank lvl, rank l with Some f, Some m => (f <=? m)%nat | _, _ => true end.

(** Cases on a level. *)
Ltac level_cases l := destruct (decide (l = "debug")) as [->|]; [|destruct (decide (l = "info")) as [->|]; [|destruct (decide (l = "notice")) as [->|];
  [|destruct (decide (l = "warn")) as [->|]; [|destruct (decide (l = "error")) as [->|]; [|destruct (decide (l = "fatal")) as [->|]]]]]].

Lemma rank_other l : l <> "debug" -> l <> "info" -> l <> "notice" -> l <> "warn" -> l <> "error" -> l <> "fatal" -> rank l = None.
Proof. intros. unfold rank, normalLevels. cbn [list_find]. repeat (rewrite decide_False by congruence; cbn [fmap option_fmap option_map]). done. Qed.

Lemma passes_exact lvl l : passes lvl l = negb (oneOf l normalLevels &&
  (bool_decide (lvl = "info") && oneOf l ["debug"] || bool_decide (lvl = "notice") && oneOf l ["debug"; "info"]
   || bool_decide (lvl = "warn") && oneOf l ["debug"; "info"; "notice"] || bool_decide (lvl = "error") && oneOf l ["debug"; "info"; "notice"; "warn"]
   || bool_decide (lvl = "fatal") && oneOf l ["debug"; "info"; "notice"; "warn"; "error"])).
Proof.
  unfold passes, oneOf, normalLevels. cbn [existsb].
  level_cases lvl; level_cases l; try reflexivity.
  all: rewrite ?(rank_other lvl), ?(rank_other l) by done; repeat (rewrite (bool_decide_eq_false_2 (l = _)) by done); repeat (rewrite (bool_decide_eq_false_2 (lvl = _)) by done); try reflexivity.
Qed.

Section Log.
Context {S : Type} `{!Notistack S} (toLowerCase : string -> string) (RegExp : string -> option (string -> bool)) (uniqueId : Z).

(** What a search shows: a text between slashes is an expression, when it is one; one
    with a slash at one end only, an empty one and a star show all. *)
Definition found (search : string) (msg : WsLogMessage) : bool :=
  let contains t := strIncludes (toLowerCase t) (toLowerCase search) in
  if bool_decide (search = "*") || bool_decide (search = "") then true
  else if strStartsWith search "/" && strEndsWith search "/" then
    match RegExp (inner search) with Some test => test (message msg) || test (name msg) | None => true end
  else strStartsWith search "/" || strEndsWith search "/" || contains (message msg) || contains (name msg).

Definition shows (lvl search : string) (msg : WsLogMessage) : bool := passes lvl (level msg) && found search msg.
Definition uncommissioned (msg : WsLogMessage) : bool := bool_decide (name msg = "Commissioning") && strIncludes (message msg) "is uncommissioned".

Lemma found_exact search msg : found search msg =
  negb (negb (bool_decide (search = "*")) && negb (bool_decide (search = "")) && negb (strStartsWith search "/") && negb (strEndsWith search "/") &&
     negb (strIncludes (toLowerCase (message msg)) (toLowerCase search)) && negb (strIncludes (toLowerCase (name msg)) (toLowerCase search))) &&
  negb (strStartsWith search "/" && strEndsWith search "/" &&
     match RegExp (inner search) with Some test => negb (test (message msg)) && negb (test (name msg)) | None => false end).
Proof.
  unfold found. destruct (decide (search = "*")) as [->|H1]; [done|]. destruct (decide (search = "")) as [->|H2]; [done|].
  rewrite !bool_decide_eq_false_2 by done. cbn [negb andb orb].
  destruct (strStartsWith search "/"), (strEndsWith search "/"); cbn [negb andb orb]; try done; try (by destruct (strIncludes _ _), (strIncludes _ _)).
  destruct (RegExp (inner search)) as [test|]; [|done]. by destruct (test (message msg)), (test (name msg)).
Qed.

Lemma keepsLine_exact lvl search msg : keepsLine toLowerCase RegExp lvl search msg = shows lvl search msg.
Proof.
  unfold keepsLine, shows. rewrite passes_exact, found_exact.
  destruct (oneOf (level msg) normalLevels && _); [done|]. cbn [negb andb].
  destruct (negb (bool_decide (search = "*")) && _ && _ && _ && _ && _); [done|]. cbn [negb andb]. by destruct (_ && _).
Qed.

(** A line at the end, of which a window is kept. *)
Definition kept (length_ : Z) (l : list WsLogMessage) : list WsLogMessage :=
  if 11 * length_ <? 10 * Z.of_nat (length l) then drop (Z.to_nat (Z.of_nat (length l) - length_)) l else l.

Lemma if_or {A} (a b : bool) (x y : A) : (if a then x else if b then x else y) = if a || b then x else y.
Proof. by destruct a. Qed.

Lemma checks_or (n e1 t1 e2 t2 e3 t3 e4 t4 e5 t5 search regex spam : bool) :
  (((((((n && e1 && t1) || (n && e2 && t2)) || (n && e3 && t3)) || (n && e4 && t4)) || (n && e5 && t5)) || search) || regex) || spam =
  negb (negb (n && (e1 && t1 || e2 && t2 || e3 && t3 || e4 && t4 || e5 && t5)) && (negb search && negb regex) && negb spam).
Proof.
  destruct spam; [by rewrite orb_true_r, andb_false_r|]. destruct regex; [by rewrite !orb_true_r, !andb_false_r|].
  destruct search; [by rewrite !orb_true_r, andb_false_r|]. rewrite !orb_false_r, !andb_true_r, negb_involutive. by destruct n.
Qed.

Lemma addLogLine_exact msg (c : Client S) : addLogLine toLowerCase RegExp msg c =
  if shows (logFilterLevel (logs c)) (logFilterSearch (logs c)) msg && negb (uncommissioned msg)
  then setMessages (fun l => kept (logLength (logs c)) (l ++ [msg])%list) c else c.
Proof.
  unfold addLogLine, shows, uncommissioned. rewrite passes_exact, found_exact.
  rewrite !if_or, checks_or. unfold oneOf. cbn [existsb]. rewrite !orb_false_r, <- ?orb_assoc.
  match goal with |- (if negb ?b then _ else _) = _ => by destruct b end.
Qed.

(** The line of what is received, and the log with it. *)
Definition lineOf (data : res value) : option WsLogMessage :=
  match data with
  | Throw _ => None
  | Ok msg =>
      if isUndefined (optProp msg "id") || isUndefined (optProp msg "src") || isUndefined (optProp msg "dst") then None
      else if negb (isStr (optProp msg "src") "Matterbridge") || negb (isStr (optProp msg "dst") "Frontend") then None
      else if truthy (optProp msg "error") then None
      else if isStr (optProp msg "method") "log" then logOf (optProp msg "response") else None
  end.

Definition wanted (l : Logs) (msg : WsLogMessage) : bool := shows (logFilterLevel l) (logFilterSearch l) msg && negb (uncommissioned msg).
Definition withMessages (ms : list WsLogMessage) (l : Logs) : Logs := mkLogs ms (logFilterLevel l) (logFilterSearch l) (logLength l).
Definition logged (l : Logs) (msg : WsLogMessage) : Logs :=
  if wanted l msg then withMessages (kept (logLength l) (messages l ++ [msg])) l else l.

Lemma addLogLine_logs msg (c : Client S) : logs (addLogLine toLowerCase RegExp msg c) = logged (logs c) msg.
Proof. rewrite addLogLine_exact. unfold logged, wanted. by destruct (_ && _). Qed.

Lemma onmessage_logs data (c : Client S) : logs (onmessage toLowerCase RegExp uniqueId data c) =
  match lineOf data with Some msg => logged (logs c) msg | None => logs c end.
Proof.
  unfold onmessage, lineOf. destruct data as [msg|]; [|done]. cbv zeta.
  destruct (_ || _ || _); [done|]. destruct (_ || _); [done|]. destruct (truthy _); [done|].
  destruct (isStr (optProp msg "method") "log") eqn:E.
  - apply isStr_true in E. rewrite E. cbn [isStr]. rewrite !(bool_decide_eq_false_2 ("log" = _)) by done. rewrite andb_false_r. cbn [andb].
    destruct (logOf _) as [line|]; [|done]. rewrite addLogLine_logs. by destruct (bool_decide _).
  - destruct (bool_decide _ && _ && _); [done|]. destruct (isStr _ "snackbar" && _ && _).
    { unfold onUi. reflexivity. }
    destruct (isStr _ "close_snackbar" && _ && _); [done|]. unfold dispatch. destruct (optProp msg "id") as [| | |[]| | |]; try done; by destruct (List.find _ _).
Qed.

Definition received (ds : list (res value)) (c : Client S) : Client S := foldl (fun c d => onmessage toLowerCase RegExp uniqueId d c) c ds.

Lemma received_logs ds (c : Client S) : logs (received ds c) = foldl logged (logs c) (omap lineOf ds).
Proof.
  revert c. induction ds as [|d ds IH]; intros c; [done|]. unfold received in *. cbn [foldl omap list_omap]. rewrite IH, onmessage_logs.
  by destruct (lineOf d).
Qed.

(** *** The window of the lines *)

Lemma wanted_messages ms l : wanted (withMessages ms l) = wanted l.
Proof. done. Qed.

Lemma logged_fixed l lines : exists ms, foldl logged l lines = withMessages ms l.
Proof.
  revert l. induction lines as [|m lines IH]; intros l; [by exists (messages l); destruct l|]. cbn [foldl].
  destruct (IH (logged l m)) as [ms ->]. exists ms. unfold logged. by destruct (wanted l m).
Qed.

(** The lines that are kept are the last ones. *)
Definition window (length_ : Z) (all ms : list WsLogMessage) : Prop :=
  exists dropped, all = (dropped ++ ms)%list /\ (dropped <> [] -> length_ <= Z.of_nat (length ms)).

Lemma kept_window n all ms m : 0 <= n -> window n all ms ->
  window n (all ++ [m]) (kept n (ms ++ [m])) /\ 10 * Z.of_nat (length (kept n (ms ++ [m]))) <= 11 * n.
Proof.
  intros Hn (dropped & -> & Hd). unfold kept. destruct (Z.ltb_spec (11 * n) (10 * Z.of_nat (length (ms ++ [m])))) as [H|H].
  - set (k := Z.to_nat _). split; [|rewrite length_drop; lia]. exists (dropped ++ take k (ms ++ [m]))%list.
    split; [by rewrite <- !app_assoc, take_drop|]. intros _. rewrite length_drop. lia.
  - split; [|lia]. exists dropped. split; [by rewrite app_assoc|]. intros Hne. rewrite length_app. specialize (Hd Hne). lia.
Qed.

Lemma logged_window l all lines : 0 <= logLength l -> window (logLength l) all (messages l) ->
  window (logLength l) (all ++ List.filter (wanted l) lines) (messages (foldl logged l lines)) /\
  (List.filter (wanted l) lines <> [] -> 10 * Z.of_nat (length (messages (foldl logged l lines))) <= 11 * logLength l).
Proof.
  intros Hn. induction lines as [|m lines IH] using rev_ind; intros Hw; [cbn [List.filter]; rewrite app_nil_r; done|].
  rewrite foldl_app, List.filter_app. cbn [foldl List.filter]. destruct (IH Hw) as [Hwin Hlen]. clear IH.
  destruct (logged_fixed l lines) as [ms Hms]. rewrite Hms in *. unfold logged. rewrite wanted_messages.
  destruct (wanted l m); [|by rewrite app_nil_r]. cbn [messages withMessages logLength].
  rewrite app_assoc. destruct (kept_window _ _ _ m Hn Hwin) as [H1 H2]. done.
Qed.

(** Nothing is dropped from a log that is short. *)
Lemma logged_short l lines : 10 * Z.of_nat (length (messages l) + length lines) <= 11 * logLength l ->
  messages (foldl logged l lines) = (messages l ++ List.filter (wanted l) lines)%list.
Proof.
  revert l. induction lines as [|m lines IH]; intros l Hl; [cbn; by rewrite app_nil_r|]. cbn [foldl List.filter]. cbn [length] in Hl.
  unfold logged at 2. destruct (wanted l m) eqn:E; [|apply IH; lia].
  unfold kept. destruct (Z.ltb_spec (11 * logLength l) (10 * Z.of_nat (length (messages l ++ [m])))) as [H|H]; rewrite length_app in H; cbn [length] in H; [lia|].
  rewrite IH; cbn [messages withMessages logLength]; [|rewrite length_app; cbn [length]; lia]. by rewrite wanted_messages, <- app_assoc.
Qed.

Definition under (lvl search : string) (c : Client S) : Client S :=
  setLogs (mkLogs (messages (logs c)) lvl search (logLength (logs c))) c.


(** C32: the log is a window on the lines that pass the filter: whatever arrives, the lines
    on the page are the last ones, in order, at least as many as the chosen length when any
    was dropped, and never more than a tenth above it once a line arrived. *)
Theorem log_window (ds : list (res value)) (c : Client S) : 0 <= logLength (logs c) ->
  let lines := List.filter (wanted (logs c)) (omap lineOf ds) in
  let shown := messages (logs (received ds c)) in
  window (logLength (logs c)) (messages (logs c) ++ lines) shown /\
  (lines <> [] -> 10 * Z.of_nat (length shown) <= 11 * logLength (logs c)).
Proof. intros Hn. cbv zeta. rewrite received_logs. apply logged_window; [done|]. by exists []. Qed.
End Log.

(** ** Snackbars *)

Section Snackbars.
Context {S : Type} `{!Notistack S} `{!NotistackLaws S}.

Definition visible (m : string) (u : Ui S) : Prop := m ∈ map snd (displayed (snackbars u)).

(** No entry of a message, and no snackbar of it. *)
Definition clean (m : string) (u : Ui S) : Prop :=
  (m ∉ map fst (persistMessages u)) /\ ~ visible m u /\ (length (displayed (snackbars u)) < maxSnack)%nat.

Lemma takeMessage_none m l : m ∉ map fst l -> takeMessage m l = None.
Proof.
  induction l as [|[m' k] l IH]; [done|]. cbn [map fst takeMessage]. intros [Hm Hl]%not_elem_of_cons.
  rewrite bool_decide_eq_false_2 by congruence. by rewrite IH.
Qed.

Lemma takeMessage_after m k l l' : m ∉ map fst l -> takeMessage m (l ++ (m, k) :: l') = Some (k, l ++ l')%list.
Proof.
  induction l as [|[m' k'] l IH]; cbn [app map fst takeMessage]; [by rewrite bool_decide_eq_true_2|].
  intros [Hm Hl]%not_elem_of_cons. rewrite bool_decide_eq_false_2 by congruence. by rewrite IH.
Qed.

(** A persistent message: the key, the snackbars and the entry. *)
Definition shownStays (m : string) (level : option string) (u : Ui S) : Ui S := showSnackbarMessage m (Some 0) level u.
Definition keyOf (m : string) (level : option string) (u : Ui S) : nat := fst (enqueueSnackbar m (mkOptions None true (default "info" level)) (snackbars u)).

Lemma shownStays_entry m level u : persistMessages (shownStays m level u) = (persistMessages u ++ [(m, keyOf m level u)])%list.
Proof. unfold shownStays, showSnackbarMessage, keyOf. cbn. by destruct (enqueueSnackbar _ _ _). Qed.

Lemma shownStays_snackbars m level u : snackbars (shownStays m level u) = snd (enqueueSnackbar m (mkOptions None true (default "info" level)) (snackbars u)).
Proof. unfold shownStays, showSnackbarMessage. cbn. by destruct (enqueueSnackbar _ _ _). Qed.

Lemma shownStays_new m level u : ~ visible m u -> (length (displayed (snackbars u)) < maxSnack)%nat ->
  displayed (snackbars (shownStays m level u)) = (displayed (snackbars u) ++ [(keyOf m level u, m)])%list.
Proof. intros Hm Hl. rewrite shownStays_snackbars. by apply enqueue_new. Qed.

Lemma shownStays_again m level u : visible m u -> displayed (snackbars (shownStays m level u)) = displayed (snackbars u).
Proof. intros Hm. rewrite shownStays_snackbars. by apply enqueue_duplicate. Qed.

Lemma keyOf_fresh m level u : keyOf m level u ∉ issued (snackbars u).
Proof. apply enqueue_fresh. Qed.

Lemma shownStays_issued m level u : issued (snackbars (shownStays m level u)) = keyOf m level u :: issued (snackbars u).
Proof. rewrite shownStays_snackbars. apply enqueue_issued. Qed.

Lemma visible_filter (m : string) (k : nat) l : k ∉ map fst l -> filter (fun d => fst d <> k) (l ++ [(k, m)])%list = l.
Proof.
  intros Hk. rewrite filter_app. rewrite filter_cons_False by auto. rewrite filter_nil, app_nil_r.
  induction l as [|[k' m'] l IH]; [done|]. cbn [map fst] in Hk. apply not_elem_of_cons in Hk as [Hk Hl].
  rewrite filter_cons_True by (cbn; congruence). by rewrite IH.
Qed.

Lemma displayed_keys (s : S) k : k ∉ issued s -> k ∉ map fst (displayed s).
Proof. intros Hk ((k' & m) & -> & Hd)%list_elem_of_fmap. by apply Hk, (displayed_issued s k' m). Qed.

(** A message that was shown once is closed by its text. *)
Lemma closed_once m level u : clean m u -> displayed (snackbars (closeSnackbarMessage m (shownStays m level u))) = displayed (snackbars u).
Proof.
  intros (Hp & Hv & Hl). unfold closeSnackbarMessage. rewrite shownStays_entry, takeMessage_after by done. cbn [snackbars].
  rewrite close_displayed, shownStays_new by done. apply visible_filter, displayed_keys, keyOf_fresh.
Qed.

Lemma shown_twice_entries m level u : clean m u ->
  let u2 := closeSnackbarMessage m (shownStays m level (shownStays m level u)) in
  displayed (snackbars u2) = displayed (snackbars u) /\
  exists k, persistMessages u2 = (persistMessages u ++ [(m, k)])%list /\ k ∈ issued (snackbars u2).
Proof.
  intros (Hp & Hv & Hl). cbv zeta. unfold closeSnackbarMessage. rewrite !shownStays_entry, <- app_assoc. cbn [app].
  rewrite takeMessage_after by done. cbn [snackbars persistMessages]. rewrite close_displayed, close_issued, shownStays_again, shownStays_new; [|done..|].
  - split; [apply visible_filter, displayed_keys, keyOf_fresh|]. eexists. split; [done|]. rewrite shownStays_issued. by left.
  - unfold visible. rewrite shownStays_new, map_app by done. apply elem_of_app. right. by left.
Qed.

(** A message that stays and is shown again while it is displayed leaves an entry
    that nothing closes: it is closed by its text once, and the next time that it is shown
    and closed, it stays on the page. *)
Theorem shown_twice_stays m level u : clean m u ->
  let u2 := closeSnackbarMessage m (shownStays m level (shownStays m level u)) in
  ~ visible m u2 /\ visible m (closeSnackbarMessage m (shownStays m level u2)).
Proof.
  intros Hc. destruct (shown_twice_entries m level u Hc) as (Hd & k & Hk & Hi). cbv zeta in *.
  set (u2 := closeSnackbarMessage m (shownStays m level (shownStays m level u))) in *. destruct Hc as (Hp & Hv & Hl).
  assert (~ visible m u2) as H2 by (unfold visible in *; by rewrite Hd). split; [done|].
  unfold closeSnackbarMessage. rewrite shownStays_entry, Hk, <- app_assoc. cbn [app]. rewrite takeMessage_after by done.
  unfold visible. cbn [snackbars]. rewrite close_displayed, shownStays_new by (done || by rewrite Hd).
  apply list_elem_of_fmap. exists (keyOf m level u2, m). split; [done|]. apply list_elem_of_filter. split.
  - cbn. intros <-. by apply (keyOf_fresh m level u2).
  - apply elem_of_app. right. by left.
Qed.
End Snackbars.
