(* ===== verification/WebSocketFacts.v ===== *)
(** The socket of the web application over time: its heartbeat notices a silent server,
    and a lost connection is tried again until the attempts are exhausted. *)
From S2P Require Import Prelude JsValue WebClient.
From stdpp Require Import gmap pretty.
#[local] Open Scope string_scope.
#[local] Open Scope Z_scope.
Import Ui Client.

Section Socket.
Context {S : Type} `{!Notistack S} (toLowerCase : string -> string) (RegExp : string -> option (string -> bool)).
Context (wssHost : string) (withPassword isIngress : bool) (uniqueId : Z).
Abbreviation step' := (step toLowerCase RegExp wssHost withPassword isIngress uniqueId).

(** What a page went through: when it was last connected, when it last heard of the
    server, and the sockets it had made by then. *)
Record History := mkHistory { opened : Z; heard : Z; base : nat }.

Definition note (t : Z) (e : Event) (c : Client S) (m : History) : History :=
  match e with
  | Opened => mkHistory t t (made (wire c))
  | Received _ => mkHistory (opened m) t (base m)
  | _ => m
  end.

(** The page with its history, after events at their times. *)
Fixpoint lives (l : list (Z * Event)) (c : Client S) (m : History) : option (Client S * History) :=
  match l with
  | [] => Some (c, m)
  | (t, e) :: l => match step' t e c with Some c' => lives l c' (note t e c' m) | None => None end
  end.

(** ** The shape of the alarms *)

Definition second : Z := 1000.

Definition beating (w : Wire) (k : Clock) (m : History) : Prop :=
  (exists h, alarms k = [mkAlarm h (opened m + 300 * second) StartTimer] /\ startTimeoutRef k = Some h /\ offlineTimeoutRef k <> Some h) \/
  (exists h d, alarms k = [mkAlarm h d PingTimer] /\ pingIntervalRef k = Some h /\ offlineTimeoutRef k <> Some h /\ d - 60 * second <= now k /\
    (online w = true -> d - 60 * second <= heard m \/ d = opened m + 360 * second)) \/
  (exists h o d, alarms k = [mkAlarm h d PingTimer; mkAlarm o (d - 10 * second) OfflineTimer] /\ pingIntervalRef k = Some h /\
    offlineTimeoutRef k = Some o /\ h <> o /\ d - 60 * second <= now k /\
    (online w = true -> d - 120 * second <= heard m \/ d <= opened m + 420 * second)).

Definition shape (w : Wire) (k : Clock) (m : History) : Prop :=
  match readyState w with
  | CONNECTING => alarms k = []
  | CLOSED => alarms k = [] \/ exists h d, alarms k = [mkAlarm h d ReconnectTimer]
  | OPEN => beating w k m
  end.

(** Handles are given once; alarms are not overdue. *)
Definition tidy (k : Clock) : Prop :=
  Forall (fun a => (handle a < nextHandle k)%nat /\ now k <= due a) (alarms k) /\
  (forall h, offlineTimeoutRef k = Some h -> (h < nextHandle k)%nat).

Definition Inv (c : Client S) (m : History) : Prop := shape (wire c) (clock c) m /\ tidy (clock c) /\ 1 <= retryCount (wire c).

(** ** Handlers that leave the alarms alone *)

Lemma onmessage_core data (c : Client S) : wire (onmessage toLowerCase RegExp uniqueId data c) = wire (setOnline true c) /\
  (clock (onmessage toLowerCase RegExp uniqueId data c) = clock c \/ clock (onmessage toLowerCase RegExp uniqueId data c) = clock (onPong c)).
Proof.
  unfold onmessage. destruct data as [msg|]; [|by split; [|left]]. cbv zeta.
  destruct (isUndefined _ || _ || _); [by split; [|left]|]. destruct (negb _ || negb _); [by split; [|left]|]. destruct (truthy (optProp msg "error")); [by split; [|left]|].
  destruct (bool_decide (optProp msg "id" = _) && _ && _); [by split; [|right]|]. destruct (isStr _ "snackbar" && _ && _); [by split; [|left]|].
  destruct (isStr _ "close_snackbar" && _ && _); [by split; [|left]|]. destruct (isStr _ "log").
  - destruct (logOf _) as [line|]; [|by split; [|left]]. set (c' := if bool_decide _ then _ else _).
    assert (wire c' = wire (setOnline true c) /\ clock c' = clock c) as [<- <-] by (unfold c'; destruct (bool_decide (level line = _)); split; reflexivity).
    unfold addLogLine. cbv zeta. repeat match goal with |- context [if ?b then c' else _] => destruct b; [by split; [|left]|] end. by split; [|left].
  - unfold dispatch. destruct (optProp msg "id") as [| | |[]| | |]; try (by split; [|left]); destruct (List.find _ _); by split; [|left].
Qed.

Lemma use_core u (c : Client S) : clock (use toLowerCase RegExp uniqueId u c) = clock c /\
  exists l, wire (use toLowerCase RegExp uniqueId u c) = mkWire (readyState (wire c)) (made (wire c)) l (online (wire c)) (retryCount (wire c)).
Proof.
  destruct u; cbn [use]; try (split; [done|]; exists (sent (wire c)); by destruct c as [? ? [] ? ? ?]).
  unfold sendMessage. destruct (bool_decide _); (split; [done|]); [by eexists|]. exists (sent (wire c)). by destruct c as [? ? [] ? ? ?].
Qed.

(** ** Every event keeps the shape *)

Lemma shape_later w k m t : shape w k m -> now k <= t -> shape w (mkClock t (nextHandle k) (alarms k) (startTimeoutRef k) (pingIntervalRef k) (offlineTimeoutRef k)) m.
Proof.
  unfold shape. destruct (readyState w); try done. unfold beating. cbn. intros [H|[(h & d & H)|(h & o & d & H)]] Ht; [by left|right; left|right; right].
  - exists h, d. destruct H as (? & ? & ? & ? & ?). repeat split; try done. lia.
  - exists h, o, d. destruct H as (? & ? & ? & ? & ? & ?). repeat split; try done. lia.
Qed.

Lemma setNow_inv t (c : Client S) m : Inv c m -> now (clock c) <= t -> existsb (fun a => due a <? t) (alarms (clock c)) = false -> Inv (setNow t c) m.
Proof.
  intros [Hs [[Ha Ho] Hn]] Ht Hd. split; [by apply shape_later|]. split; [|done]. split; [|done]. cbn. apply Forall_forall. intros a Hin.
  rewrite Forall_forall in Ha. split; [by apply Ha|]. destruct (Z.ltb_spec (due a) t) as [Hlt|]; [|lia].
  assert (existsb (fun a => due a <? t) (alarms (clock c)) = true); [|congruence]. apply existsb_exists. exists a. split; [by apply list_elem_of_In|by apply Z.ltb_lt].
Qed.

Lemma onopen_inv (c : Client S) m : Inv c m -> readyState (wire c) = CONNECTING ->
  Inv (onopen wssHost c) (mkHistory (now (clock c)) (now (clock c)) (made (wire c))).
Proof.
  intros [Hs [[Ha Ho] Hn]] Hr. unfold shape in Hs. rewrite Hr in Hs. split; [|split; [|done]].
  - unfold shape. cbn. left. exists (nextHandle (clock c)). cbn. rewrite Hs. split; [done|]. split; [done|].
    intros H. apply Ho in H. lia.
  - split; cbn; [|intros h H; apply Ho in H; lia]. rewrite Hs. apply Forall_singleton. cbn. unfold startTimeoutSeconds. lia.
Qed.

Lemma clear_one h d w : clearAlarm (Some h) [mkAlarm h d w] = [].
Proof. cbn. by rewrite Nat.eqb_refl. Qed.

Lemma clear_other (r : option nat) h d w l : r <> Some h -> clearAlarm r (mkAlarm h d w :: l) = mkAlarm h d w :: clearAlarm r l.
Proof. destruct r as [h'|]; [|done]. intros Hne. cbn. destruct (Nat.eqb_spec h h'); [congruence|done]. Qed.

Lemma clear_nil r : clearAlarm r [] = [].
Proof. by destruct r. Qed.

Lemma onPong_inv (c : Client S) m m' : Inv c m -> readyState (wire c) = OPEN -> m' = mkHistory (opened m) (now (clock c)) (base m) ->
  Inv (onPong (setOnline true c)) m'.
Proof.
  intros [Hs [[Ha Ho] Hn]] Hr ->. unfold shape in Hs. rewrite Hr in Hs. unfold Inv, shape, tidy. cbn. rewrite Hr.
  apply and_assoc. split; [|exact Hn].
  destruct Hs as [(h & E & H1 & H2)|[(h & d & E & H1 & H2 & H3 & H4)|(h & o & d & E & H1 & H2 & H3 & H4 & H5)]]; rewrite E in *.
  - rewrite clear_other, clear_nil by done. split; [|by split]. left. exists h. by cbn.
  - rewrite clear_other, clear_nil by done. split; [|by split]. right; left. exists h, d. cbn. repeat split; try done. intros _. by left.
  - rewrite H2, clear_other, clear_one by congruence. apply Forall_cons in Ha as [Ha _]. split.
    + right; left. exists h, d. cbn. repeat split; try done. by left.
    + split; [by apply Forall_singleton|done].
Qed.

Lemma heard_inv (c : Client S) m m' : Inv c m -> readyState (wire c) = OPEN -> m' = mkHistory (opened m) (now (clock c)) (base m) ->
  Inv (setOnline true c) m'.
Proof.
  intros [Hs Ht] Hr ->. split; [|done]. unfold shape in *. cbn. rewrite Hr in *. destruct Hs as [H|[(h & d & H)|(h & o & d & H)]]; [by left|right; left|right; right].
  - destruct H as (E & H1 & H2 & H3 & H4). exists h, d. repeat split; try done. by left.
  - destruct H as (E & H1 & H2 & H3 & H4 & H5). exists h, o, d. repeat split; try done. left. cbn. unfold second in *. lia.
Qed.

Lemma onmessage_inv data (c : Client S) m m' : Inv c m -> readyState (wire c) = OPEN -> m' = mkHistory (opened m) (now (clock c)) (base m) ->
  Inv (onmessage toLowerCase RegExp uniqueId data c) m'.
Proof.
  intros Hi Hr Hm. destruct (onmessage_core data c) as [Hw [Hk|Hk]]; unfold Inv; rewrite Hw, Hk.
  - by apply (heard_inv c m).
  - by apply (onPong_inv c m).
Qed.

Lemma clear_elem a r l : a ∈ clearAlarm r l <-> a ∈ l /\ r <> Some (handle a).
Proof.
  destruct r as [h|]; cbn; [|by split; [|intros []]]. rewrite !list_elem_of_In, filter_In, negb_true_iff, Nat.eqb_neq.
  split; intros [? ?]; (split; [done|congruence]).
Qed.

Definition clearedAlarms (k : Clock) : list Alarm :=
  clearAlarm (pingIntervalRef k) (clearAlarm (offlineTimeoutRef k) (clearAlarm (startTimeoutRef k) (alarms k))).

(** Losing the socket clears every alarm of the heartbeat. *)
Lemma cleared_all (c : Client S) m : Inv c m -> readyState (wire c) <> CLOSED -> clearedAlarms (clock c) = [].
Proof.
  intros (Hs & _) Hr. unfold shape in Hs. unfold clearedAlarms. apply elem_of_nil_inv. intros a.
  rewrite !clear_elem. intros (((Hin & H1) & H2) & H3). destruct (readyState (wire c)); [|clear Hr|done].
  - rewrite Hs in Hin. by apply not_elem_of_nil in Hin.
  - destruct Hs as [(h & E & Hh & _)|[(h & d & E & Hh & _)|(h & o & d & E & Hh & Ho & _)]]; rewrite E in Hin.
    + apply list_elem_of_singleton in Hin as ->. by apply H1.
    + apply list_elem_of_singleton in Hin as ->. by apply H3.
    + apply elem_of_cons in Hin as [->|Hin]; [by apply H3|]. apply list_elem_of_singleton in Hin as ->. by apply H2.
Qed.

(** What is left of a lost socket: the next attempt, at once, later, or none. *)
Lemma onclose_core (c : Client S) m : wssHost <> "" -> Inv c m -> readyState (wire c) <> CLOSED ->
  let n := retryCount (wire c) in
  let c' := onclose wssHost withPassword isIngress c in
  let atOnce := negb isIngress && (n =? 1) in
  wire c' = mkWire (if atOnce then CONNECTING else CLOSED) (made (wire c) + if atOnce then 1 else 0) (sent (wire c)) false (n + 1) /\
  now (clock c') = now (clock c) /\ offlineTimeoutRef (clock c') = offlineTimeoutRef (clock c) /\
  nextHandle (clock c') = (nextHandle (clock c) + if isIngress || negb (n =? 1)%Z && (n <? 100)%Z then 1 else 0)%nat /\
  alarms (clock c') = if isIngress || negb (n =? 1) && (n <? 100)
    then [mkAlarm (nextHandle (clock c)) (now (clock c) + (if isIngress then 5000 else 1000 * n)) ReconnectTimer] else [].
Proof.
  intros Hh Hi Hr. cbv zeta. pose proof (cleared_all c m Hi Hr) as Hc. unfold clearedAlarms in Hc.
  unfold onclose, attemptReconnect, connectWebSocket, maxRetries. rewrite bool_decide_eq_false_2 by done. destruct isIngress; cbn.
  - rewrite Hc, Nat.add_0_r. repeat split. lia.
  - destruct (retryCount (wire c) =? 1); cbn; [by rewrite Hc, Nat.add_0_r|]. destruct (retryCount (wire c) <? 100); cbn; rewrite Hc, !Nat.add_0_r; repeat split; lia.
Qed.

Lemma onclose_inv (c : Client S) m : wssHost <> "" -> Inv c m -> readyState (wire c) <> CLOSED -> Inv (onclose wssHost withPassword isIngress c) m.
Proof.
  intros Hh Hi Hr. destruct (onclose_core c m Hh Hi Hr) as (Hw & Hn & Ho & Hx & Ha). destruct Hi as [_ [[_ Hoff] Hpos]].
  unfold Inv, shape, tidy. rewrite Hw, Ha, Hn, Ho, Hx. cbn [readyState retryCount]. clear Hw Ha Hn Ho Hx. split; [|split; [split|lia]].
  - destruct isIngress; cbn [negb andb orb]; [right; by eexists _, _|].
    destruct (retryCount (wire c) =? 1); cbn [negb andb]; [done|]. destruct (_ <? _); [right; by eexists _, _|by left].
  - destruct (_ || _); [|constructor]. apply Forall_singleton. cbn. split; [lia|]. destruct isIngress; lia.
  - intros h H. apply Hoff in H. lia.
Qed.

(** *** Alarms go off *)

(** An alarm of the list that is due. *)
Definition ringing (a : Alarm) (c : Client S) : Prop := a ∈ alarms (clock c) /\ due a = now (clock c).

Lemma reconnect_inv (c : Client S) m a : wssHost <> "" -> Inv c m -> ringing a c -> readyState (wire c) = CLOSED ->
  Inv (goOff wssHost withPassword uniqueId a c) m /\ what a = ReconnectTimer /\ alarms (clock c) = [a].
Proof.
  intros Hh [Hs [[Ha Ho] Hn]] [Hin Hd] Hr. unfold shape in Hs. rewrite Hr in Hs.
  destruct Hs as [E|(h & d & E)]; rewrite E in *; [by apply not_elem_of_nil in Hin|]. apply list_elem_of_singleton in Hin as ->.
  split; [|done]. unfold goOff, attemptReconnect, connectWebSocket. cbn [what due handle]. rewrite bool_decide_eq_false_2 by done.
  unfold Inv, shape, tidy. cbn. rewrite E, app_nil_r. cbn. rewrite Nat.eqb_refl. done.
Qed.

Lemma start_inv (c : Client S) m h : Inv c m -> readyState (wire c) = OPEN -> alarms (clock c) = [mkAlarm h (opened m + 300 * second) StartTimer] ->
  now (clock c) = opened m + 300 * second -> Inv (goOff wssHost withPassword uniqueId (mkAlarm h (opened m + 300 * second) StartTimer) c) m.
Proof.
  intros [Hs [[Ha Ho] Hn]] Hr E Hd. unfold goOff, onStart, Inv, shape, tidy. cbn. rewrite E, Hr, app_nil_r. cbn. rewrite Nat.eqb_refl. cbn.
  split; [|split; [split|done]].
  - right; left. exists (nextHandle (clock c)), (now (clock c) + 1000 * pingIntervalSeconds). cbn. unfold pingIntervalSeconds, second in *.
    repeat split; [intros H; apply Ho in H; lia|lia|]. intros _. right. lia.
  - apply Forall_singleton. cbn. unfold pingIntervalSeconds. lia.
  - intros h' H. apply Ho in H. lia.
Qed.

Lemma ping_inv (c : Client S) m h d : Inv c m -> readyState (wire c) = OPEN -> alarms (clock c) = [mkAlarm h d PingTimer] -> now (clock c) = d ->
  Inv (goOff wssHost withPassword uniqueId (mkAlarm h d PingTimer) c) m.
Proof.
  intros [Hs [[Ha Ho] Hn]] Hr E <-. unfold shape in Hs. rewrite Hr in Hs.
  destruct Hs as [(h' & E' & _)|[(h' & d' & E' & H1 & H2 & H3 & H4)|(h' & o & d' & E' & _)]]; rewrite E' in E; try done. injection E as -> ->.
  unfold goOff, onPing, sendMessage, Inv, shape, tidy. cbn. rewrite !Hr. rewrite bool_decide_eq_true_2 by done. cbn. rewrite E'. cbn.
  rewrite Nat.eqb_refl. cbn [negb app]. rewrite clear_other, clear_nil by done. cbn. rewrite E' in Ha. apply Forall_cons in Ha as [[Hlt _] _]. cbn in Hlt. unfold pingIntervalSeconds, offlineTimeoutSeconds.
  split; [|split; [split|done]].
  - right; right. exists h, (nextHandle (clock c)), (now (clock c) + 60 * second). cbn. unfold second in *. repeat split; try done; try lia.
    + repeat f_equal; lia.
    + intros Hon. destruct (H4 Hon); [left|right]; lia.
  - repeat (apply Forall_cons; split; [cbn; lia|]). constructor.
  - intros h'' [= <-]. lia.
Qed.

Lemma offline_inv (c : Client S) m h o d : Inv c m -> readyState (wire c) = OPEN ->
  alarms (clock c) = [mkAlarm h d PingTimer; mkAlarm o (d - 10 * second) OfflineTimer] ->
  Inv (goOff wssHost withPassword uniqueId (mkAlarm o (d - 10 * second) OfflineTimer) c) m.
Proof.
  intros [Hs [[Ha Ho] Hn]] Hr E. unfold shape in Hs. rewrite Hr in Hs.
  destruct Hs as [(h' & E' & _)|[(h' & d' & E' & _)|(h' & o' & d' & E' & H1 & H2 & H3 & H4 & H5)]]; rewrite E' in E; try done. injection E as -> -> -> _.
  unfold goOff, onOffline, Inv, shape, tidy. cbn. rewrite E', Hr, app_nil_r. cbn. rewrite Nat.eqb_refl. destruct (Nat.eqb_spec h o) as [|_]; [done|]. cbn.
  rewrite E' in Ha. apply Forall_cons in Ha as [Ha _]. split; [|split; [split|done]].
  - right; left. exists h, d. cbn. repeat split; try done. congruence.
  - by apply Forall_singleton.
  - done.
Qed.

Lemma goOff_inv (c : Client S) m a : wssHost <> "" -> Inv c m -> ringing a c -> Inv (goOff wssHost withPassword uniqueId a c) m.
Proof.
  intros Hh Hi Hg. destruct (readyState (wire c)) eqn:Hr.
  - destruct Hi as [Hs _], Hg as [Hin _]. unfold shape in Hs. rewrite Hr in Hs. rewrite Hs in Hin. by apply not_elem_of_nil in Hin.
  - pose proof Hi as [Hs [[Ha _] _]]. destruct Hg as [Hin Hd]. unfold shape in Hs. rewrite Hr in Hs.
    destruct Hs as [(h & E & _)|[(h & d & E & _)|(h & o & d & E & _)]]; rewrite E in Hin.
    + apply list_elem_of_singleton in Hin as ->. by apply start_inv.
    + apply list_elem_of_singleton in Hin as ->. by apply ping_inv.
    + rewrite E in Ha. apply Forall_cons in Ha as [_ [_ Hle]%Forall_singleton]; cbn in Hle.
      apply elem_of_cons in Hin as [->|Hin]; [cbn in Hd; unfold second in *; lia|]. apply list_elem_of_singleton in Hin as ->. by apply (offline_inv c m h).
  - by apply (reconnect_inv c m).
Qed.

(** ** Pages *)

Lemma step_later t e (c c' : Client S) m : Inv c m -> step' t e c = Some c' ->
  Inv (setNow t c) m /\ match e with
  | Opened => readyState (wire c) = CONNECTING /\ c' = onopen wssHost (setNow t c)
  | Received data => readyState (wire c) = OPEN /\ c' = onmessage toLowerCase RegExp uniqueId data (setNow t c)
  | Errored => c' = onerror wssHost (setNow t c)
  | Lost => readyState (wire c) <> CLOSED /\ c' = onclose wssHost withPassword isIngress (setNow t c)
  | GoesOff _ => exists a, ringing a (setNow t c) /\ c' = goOff wssHost withPassword uniqueId a (setNow t c)
  | Used u => c' = use toLowerCase RegExp uniqueId u (setNow t c)
  end.
Proof.
  intros Hi. unfold step. destruct (_ || _) eqn:E; [done|]. apply orb_false_iff in E as [E1%Z.ltb_ge E2]. cbv zeta.
  intros H. split; [by apply setNow_inv|]. destruct e.
  - case_bool_decide; [|done]. by injection H as <-.
  - case_bool_decide; [|done]. by injection H as <-.
  - case_bool_decide; [done|]. by injection H as <-.
  - case_bool_decide; [done|]. by injection H as <-.
  - destruct (List.find _ _) as [a|] eqn:Ef; [|done]. destruct (Z.eqb_spec (due a) t) as [Ed|]; [|done]. injection H as <-.
    exists a. split; [|done]. split; [|done]. apply find_some in Ef as [Hin _]. by apply list_elem_of_In.
  - by injection H as <-.
Qed.

Lemma step_inv t e (c c' : Client S) m : wssHost <> "" -> Inv c m -> step' t e c = Some c' -> Inv c' (note t e c' m).
Proof.
  intros Hh Hi H. destruct (step_later t e c c' m Hi H) as [Hn He]. destruct e; cbn [note].
  - destruct He as [Hr ->]. by apply (onopen_inv (setNow t c) m).
  - destruct He as [Hr ->]. by apply (onmessage_inv _ (setNow t c) m).
  - rewrite He. exact Hn.
  - destruct He as [Hr ->]. by apply onclose_inv.
  - destruct He as (a & Ha & ->). by apply goOff_inv.
  - rewrite He. destruct (use_core u (setNow t c)) as [Hk [l Hw]]. unfold Inv. rewrite Hk, Hw. exact Hn.
Qed.

Lemma page_inv u lvl search length t : wssHost <> "" -> Inv (page wssHost withPassword u lvl search length t) (mkHistory t t 1).
Proof. intros Hh. unfold page, connectWebSocket. rewrite bool_decide_eq_false_2 by done. split; [done|]. split; [|done]. split; [constructor|done]. Qed.

Lemma lives_ind (P : Client S -> History -> Prop) l c m c' m' : wssHost <> "" ->
  (forall t e c c' m, Inv c m -> P c m -> step' t e c = Some c' -> P c' (note t e c' m)) ->
  Inv c m -> P c m -> lives l c m = Some (c', m') -> Inv c' m' /\ P c' m'.
Proof.
  intros Hh HP. revert c m. induction l as [|[t e] l IH]; intros c m Hi Hp; cbn [lives]; [by intros [= <- <-]|].
  destruct (step' t e c) as [c1|] eqn:E; [|done]. apply IH; [by eapply step_inv|by eapply HP].
Qed.

(** C28: a page never shows a server that went silent as online for long: while it is
    connected and online, it heard from the server in the last 110 seconds, or it connected
    in the last 410 seconds (the 300 before the first ping, a period, and the time to
    answer). *)
Theorem silence_noticed u lvl search length t0 l (c : Client S) m : wssHost <> "" ->
  lives l (page wssHost withPassword u lvl search length t0) (mkHistory t0 t0 1) = Some (c, m) ->
  readyState (wire c) = OPEN -> online (wire c) = true ->
  now (clock c) <= heard m + 110 * 1000 \/ now (clock c) <= opened m + 410 * 1000.
Proof.
  intros Hh Hl Hr Hon. destruct (lives_ind (fun _ _ => True) l _ _ c m Hh ltac:(done) (page_inv u lvl search length t0 Hh) Logic.I Hl) as [(Hs & [Ha _] & _) _].
  unfold shape in Hs. rewrite Hr in Hs. unfold beating, second in Hs.
  destruct Hs as [(h & E & _)|[(h & d & E & _ & _ & _ & H)|(h & o & d & E & _ & _ & _ & _ & H)]]; rewrite E in Ha; apply Forall_cons in Ha as [[_ H1] Ha]; cbn in H1.
  - right. lia.
  - destruct (H Hon); [left|right]; lia.
  - apply Forall_cons in Ha as [[_ H2] _]. cbn in H2. destruct (H Hon); [left|right]; lia.
Qed.

(** ** Attempts *)

(** Without an ingress: the attempts since the last connection, and the next one. *)
Definition trying (c : Client S) (m : History) : Prop :=
  let w := wire c in
  let reconnections := Z.of_nat (made w) - Z.of_nat (base m) in
  match readyState w with
  | CONNECTING => retryCount w = 1 + reconnections /\ 1 <= retryCount w <= 100
  | OPEN => retryCount w = 1 /\ reconnections = 0
  | CLOSED =>
      retryCount w = 2 + reconnections /\
      ((exists a, alarms (clock c) = [a] /\ what a = ReconnectTimer /\ due a <= now (clock c) + 1000 * (retryCount w - 1) /\ 3 <= retryCount w <= 100) \/
       (alarms (clock c) = [] /\ retryCount w = 101))
  end.

Lemma trying_later t (c : Client S) m : now (clock c) <= t -> trying c m -> trying (setNow t c) m.
Proof.
  intros Ht. unfold trying. cbn. destruct (readyState (wire c)); try done. intros [H1 [(a & H2 & H3 & H4 & H5)|H2]]; (split; [done|]); [left|by right].
  exists a. repeat split; try done; lia.
Qed.

Lemma trying_lost (c : Client S) m : wssHost <> "" -> isIngress = false -> Inv c m -> trying c m -> readyState (wire c) <> CLOSED ->
  trying (onclose wssHost withPassword isIngress c) m.
Proof.
  intros Hh Hg Hi Ht Hr. destruct (onclose_core c m Hh Hi Hr) as (Hw & Hn & _ & _ & Ha). rewrite Hg in Hw, Ha, Hn |- *. cbn [negb andb orb] in Hw, Ha.
  unfold trying in *. rewrite Hw, Ha, Hn. cbn [readyState made retryCount]. clear Hw Ha Hn.
  assert (retryCount (wire c) = 1 + (Z.of_nat (made (wire c)) - Z.of_nat (base m)) /\ 1 <= retryCount (wire c) <= 100) as [Hc Hl].
  { destruct (readyState (wire c)); [done| |done]. lia. }
  destruct (Z.eqb_spec (retryCount (wire c)) 1) as [E|E]; cbn [negb andb]; [lia|]. split; [lia|].
  destruct (Z.ltb_spec (retryCount (wire c)) 100); [left|right; split; [done|lia]]. eexists. repeat split; cbn; lia.
Qed.

Lemma trying_goOff (c : Client S) m a : wssHost <> "" -> Inv c m -> trying c m -> ringing a c -> trying (goOff wssHost withPassword uniqueId a c) m.
Proof.
  intros Hh Hi Ht Hg. destruct (readyState (wire c)) eqn:Hr.
  - destruct Hi as [Hs _], Hg as [Hin _]. unfold shape in Hs. rewrite Hr in Hs. rewrite Hs in Hin. by apply not_elem_of_nil in Hin.
  - assert (exists l b, wire (goOff wssHost withPassword uniqueId a c) = mkWire OPEN (made (wire c)) l b (retryCount (wire c))) as (l & b & Hw).
    { destruct Hi as [Hs _], Hg as [Hin _]. unfold shape in Hs. rewrite Hr in Hs. destruct c as [u lg w k ls dl], w as [rs md st on rc]. cbn in Hr. subst rs.
      destruct Hs as [(h & E & _)|[(h & d & E & _)|(h & o & d & E & _)]]; cbn [clock] in E, Hin; rewrite E in Hin;
        repeat (apply elem_of_cons in Hin as [->|Hin]; [by eexists _, _|]); by apply not_elem_of_nil in Hin. }
    unfold trying in *. rewrite Hr in Ht. by rewrite Hw.
  - destruct (reconnect_inv c m a Hh Hi Hg Hr) as (_ & Ha & E). unfold trying in *. rewrite Hr in Ht. rewrite E in Ht.
    unfold goOff. rewrite Ha. unfold attemptReconnect, connectWebSocket. rewrite bool_decide_eq_false_2 by done. cbn.
    destruct Ht as [H1 [(a' & _ & _ & _ & H2)|[H2 _]]]; [lia|done].
Qed.

Lemma trying_step t e (c c' : Client S) m : wssHost <> "" -> isIngress = false -> Inv c m -> trying c m -> step' t e c = Some c' -> trying c' (note t e c' m).
Proof.
  intros Hh Hg Hi Ht H. destruct (step_later t e c c' m Hi H) as [Hn He]. assert (trying (setNow t c) m) as Ht'.
  { apply trying_later; [|done]. unfold step in H. destruct (Z.ltb_spec t (now (clock c))); [done|lia]. }
  destruct e; cbn [note].
  - destruct He as [Hr ->]. unfold trying. cbn. lia.
  - destruct He as [Hr ->]. destruct (onmessage_core data (setNow t c)) as [Hw _]. unfold trying in *. rewrite Hw. cbn in *. by rewrite Hr in *.
  - rewrite He. exact Ht'.
  - destruct He as [Hr ->]. by apply trying_lost.
  - destruct He as (a & Ha & ->). by apply trying_goOff.
  - rewrite He. destruct (use_core u (setNow t c)) as [Hk [l Hw]]. unfold trying in *. rewrite Hk, Hw. exact Ht'.
Qed.

End Socket.
