(* ===== verification/WebSession.v ===== *)
(** The web application and the frontend together: what the server sends is what the page
    waits for; and pages to which the theorems on the web application apply. *)
From S2P Require Import Prelude JsValue Async Frontend FrontendApi FrontendFacts WebClient WebClientFacts WebSocketFacts.
From stdpp Require Import gmap pretty.
#[local] Open Scope string_scope.
#[local] Open Scope Z_scope.

(** ** The server answers the page *)

Section Session.
Context {S : Type} `{!Notistack S} (toLowerCase : string -> string) (RegExp : string -> option (string -> bool)) (uniqueId : Z).
Abbreviation onmessage' := (Client.onmessage toLowerCase RegExp uniqueId).

Definition pong : value :=
  Obj [("id", Num uniqueId); ("method", Str "pong"); ("src", Str "Matterbridge"); ("dst", Str "Frontend"); ("success", Bool true); ("response", Str "pong")].

Lemma pong_received (c : Client.Client S) : onmessage' (Ok pong) c = Client.onPong (Client.setOnline true c).
Proof.
  unfold Client.onmessage. change (optProp pong "id") with (Num uniqueId). rewrite (bool_decide_eq_true_2 (Num uniqueId = Num uniqueId)) by done. reflexivity.
Qed.

Lemma ping_handled env w c s : Frontend.sockets (Frontend.net w) !! c = Some s -> Frontend.isOpen s = true ->
  run (FrontendApi.wsMessageHandler env c (Some (Obj (Client.ping uniqueId)))) w =
  (Frontend.setSockets (<[c := Frontend.receive (Frontend.Response pong) s]> (Frontend.sockets (Frontend.net w))) w, Ok tt).
Proof.
  intros Hs Ho. unfold FrontendApi.wsMessageHandler. rewrite run_catch.
  assert (FrontendApi.dispatch env c (Client.ping uniqueId) = modify (Frontend.sendResponse c
    [("id", Num uniqueId); ("method", Str "pong"); ("src", Str "Matterbridge"); ("dst", Str "Frontend"); ("success", Bool true); ("response", Str "pong")])) as -> by reflexivity.
  rewrite run_modify. unfold Frontend.sendResponse. by rewrite Hs, Ho.
Qed.

(** C31: the frontend answers the ping of a page with what the page takes for a pong: the
    page that receives it is online, and the alarm that would show it offline is cleared. *)
Theorem ping_answered env w (client : nat) s (c : Client.Client S) o :
  Frontend.sockets (Frontend.net w) !! client = Some s -> Frontend.isOpen s = true ->
  Client.offlineTimeoutRef (Client.clock c) = Some o ->
  exists w' answer, run (FrontendApi.wsMessageHandler env client (Some (Obj (Client.ping uniqueId)))) w = (w', Ok tt) /\
    FrontendFacts.repliesOf w' client = (FrontendFacts.repliesOf w client ++ [answer])%list /\
    let c' := onmessage' (Ok answer) c in
    Client.online (Client.wire c') = true /\ Client.offlineTimeoutRef (Client.clock c') = None /\
    forall a, a ∈ Client.alarms (Client.clock c') <-> a ∈ Client.alarms (Client.clock c) /\ Client.handle a <> o.
Proof.
  intros Hs Ho Href. eexists _, pong. split; [by apply ping_handled|]. split.
  - unfold FrontendFacts.repliesOf, FrontendFacts.replies. cbn. rewrite !lookup_fmap, lookup_insert_eq, Hs. cbn. by rewrite omap_app.
  - cbv zeta. rewrite pong_received. split; [done|]. split; [done|]. intros a. cbn. rewrite Href, clear_elem. split; intros [? ?]; (split; [done|congruence]).
Qed.

(** A message to a component of the page. *)
Lemma onmessage_dispatch msg (c : Client.Client S) id method :
  optProp msg "id" = Num id -> optProp msg "src" = Str "Matterbridge" -> optProp msg "dst" = Str "Frontend" -> optProp msg "method" = Str method ->
  method ∉ ["pong"; "log"; "snackbar"; "close_snackbar"] ->
  onmessage' (Ok msg) c = if truthy (optProp msg "error") then Client.setOnline true c else Client.dispatch msg (Client.setOnline true c).
Proof.
  intros Hid Hsrc Hdst Hm Hnot. rewrite !not_elem_of_cons in Hnot. destruct Hnot as (N1 & N2 & N3 & N4 & _).
  unfold Client.onmessage. rewrite Hid, Hsrc, Hdst, Hm. cbn [isUndefined orb isStr].
  rewrite (bool_decide_eq_true_2 ("Matterbridge" = _)), (bool_decide_eq_true_2 ("Frontend" = _)) by done. cbn [negb orb].
  rewrite !(bool_decide_eq_false_2 (method = _)) by done. by rewrite andb_false_r.
Qed.

(** The properties of an answer. *)
Lemma answer_fields client request answer : FrontendFacts.answersTo (client, Some (Obj request)) answer ->
  optProp answer "id" = jsonClone (getField "id" request) /\ optProp answer "src" = Str "Matterbridge" /\
  optProp answer "dst" = jsonClone (getField "src" request) /\
  (optProp answer "method" = jsonClone (getField "method" request) \/ isStr (getField "method" request) "ping" = true).
Proof.
  intros (mth & rest & -> & Hm & Hrest). cbn [snd FrontendFacts.dataOf] in *. rewrite jsonClone_Obj. cbn [optProp].
  assert (NoDup (map fst ([("id", getField "id" request); ("method", mth); ("src", Str "Matterbridge"); ("dst", getField "src" request)] ++ rest)%list)) as Hnd.
  { destruct Hrest as [[e ->]|[->|[v ->]]]; cbn; apply (bool_decide_unpack _); by vm_compute. }
  rewrite !getField_cloneFields by done. cbn. split; [done|]. split; [done|]. split; [done|]. destruct Hm as [->|[H _]]; [by left|by right].
Qed.

(** C30: the answer to a request of a component of the page, with the id under which the
    component listens: a success is delivered to the first listener of the id and to no
    other, and an error is delivered to none. *)
Theorem answer_delivered (client : nat) (request : list (string * value)) (answer : value) (c : Client.Client S) (listener : nat) (id : Z) (method : string) :
  FrontendFacts.answersTo (client, Some (Obj request)) answer ->
  getField "id" request = Num id -> getField "src" request = Str "Frontend" -> getField "method" request = Str method ->
  id <> 0 -> method ∉ ["ping"; "pong"; "log"; "snackbar"; "close_snackbar"] ->
  List.find (fun l => snd l =? id) (Client.listeners c) = Some (listener, id) ->
  Client.delivered (onmessage' (Ok answer) c) =
    (Client.delivered c ++ if truthy (optProp answer "error") then [] else [(listener, answer)])%list.
Proof.
  intros Ha Hid Hsrc Hm Hid0 [Hping Hnot]%not_elem_of_cons Hf. destruct (answer_fields _ _ _ Ha) as (Aid & Asrc & Adst & Am).
  rewrite Hid in Aid. rewrite Hsrc in Adst. rewrite Hm in Am. cbn in Aid, Adst, Am.
  assert (optProp answer "method" = Str method) as Am' by (destruct Am as [|E]; [done|]; apply bool_decide_eq_true in E; congruence).
  rewrite (onmessage_dispatch answer c id method) by done. destruct (truthy _); [cbn; by rewrite app_nil_r|].
  unfold Client.dispatch. rewrite Aid. cbn [Client.listeners Client.setOnline Client.setWire]. rewrite Hf. by destruct id.
Qed.
End Session.

(** ** Snackbars without a limit *)

Module Bars.
Record Bars := mkBars { bars : list (nat * string); keys : list nat }.

(** The bars of the keys that were given. *)
Definition current (s : Bars) : list (nat * string) := filter (fun d => fst d ∈ keys s) (bars s).
Definition newKey (s : Bars) : nat := Datatypes.S (max_list (keys s)).

#[export] Instance notistack : Notistack Bars := {
  enqueueSnackbar m o s :=
    (newKey s, mkBars (if bool_decide (m ∈ map snd (current s)) then current s else current s ++ [(newKey s, m)])%list (newKey s :: keys s));
  closeSnackbar k s := mkBars (match k with Some k => filter (fun d => fst d <> k) (current s) | None => [] end) (keys s);
  displayed := current;
  issued := keys }.

Lemma newKey_fresh s : newKey s ∉ keys s.
Proof. intros H. apply max_list_elem_of_le in H. unfold newKey in H. lia. Qed.

Lemma current_elem s d : d ∈ current s <-> d ∈ bars s /\ fst d ∈ keys s.
Proof. unfold current. rewrite list_elem_of_filter. tauto. Qed.

Lemma filter_keeps (P : nat * string -> Prop) `{!forall d, Decision (P d)} l : Forall P l -> filter P l = l.
Proof. induction 1 as [|d l Hd Hl IH]; [done|]. rewrite filter_cons_True by done. by rewrite IH. Qed.

#[export] Instance notistack_laws : NotistackLaws Bars.
Proof.
  assert (forall s, Forall (fun d => fst d ∈ newKey s :: keys s) (current s)) as Hall.
  { intros s. apply Forall_forall. intros d [_ H]%current_elem. by right. }
  split; cbn; intros.
  - rewrite bool_decide_eq_true_2 by done. by apply filter_keeps.
  - rewrite bool_decide_eq_false_2 by done. apply filter_keeps, Forall_app. split; [done|]. apply Forall_singleton. by left.
  - apply newKey_fresh.
  - done.
  - by apply (current_elem s (k, m)).
  - apply filter_keeps. destruct k as [k|]; [|constructor]. apply Forall_forall. intros d [_ Hd]%list_elem_of_filter. by apply current_elem in Hd as [_ ?].
  - done.
Qed.
End Bars.

(** ** A page *)

Module PageExample.
Import Bars Ui Client.

Definition emptyUi : Ui Bars := mkUi (mkBars [] []) [] (mkConfirm false "" "" "" None None []) (mkInstall false "" "" "" "" None).

(** Lower case of the letters of ASCII; no expressions. *)
Definition lower (s : string) : string :=
  String.string_of_list_ascii (map (fun a => let n := Ascii.N_of_ascii a in if (65 <=? n)%N && (n <=? 90)%N then Ascii.ascii_of_N (n + 32) else a)
    (String.list_ascii_of_string s)).
Definition noRegExp (p : string) : option (string -> bool) := None.

Definition host : string := "ws://localhost:8283/".
Definition thePage : Client Bars := page host false emptyUi "info" "*" 100 0.

Definition logMsg (lvl name text : string) : res value :=
  Ok (Obj [("id", Num 0); ("src", Str "Matterbridge"); ("dst", Str "Frontend"); ("method", Str "log"); ("success", Bool true);
           ("response", Obj [("level", Str lvl); ("time", Str "10:00:00"); ("name", Str name); ("message", Str text)])]).

Definition somelogs : list (res value) :=
  [logMsg "debug" "Matterbridge" "Loading"; logMsg "warn" "Plugins" "Low battery of the Sensor"; logMsg "error" "Commissioning" "node is uncommissioned";
   logMsg "info" "Sensor" "Started"; logMsg "spawn" "Matterbridge:spawn-init" "Installing the sensor plugin"; Throw SyntaxError].


(** A log of 10 lines that receives 13. *)
Definition manyLogs : list (res value) := repeat (logMsg "info" "Matterbridge" "Started") 13.

Lemma log_window_witness : let c := handleLogLengthChange 10 (handleClearLogsClick thePage) in
  10 * Z.of_nat (length (messages (logs (received lower noRegExp 7 manyLogs c)))) <= 110.
Proof.
  cbv zeta. destruct (log_window lower noRegExp 7 manyLogs (handleLogLengthChange 10 (handleClearLogsClick thePage))) as [_ H]; [by vm_compute|].
  apply H. by vm_compute.
Defined.

Lemma shown_twice_stays_witness :
  visible "Restart required" (closeSnackbarMessage "Restart required" (shownStays "Restart required" None
    (closeSnackbarMessage "Restart required" (shownStays "Restart required" None (shownStays "Restart required" None emptyUi))))).
Proof.
  apply (shown_twice_stays "Restart required" None emptyUi). split; [apply not_elem_of_nil|]. split; [apply not_elem_of_nil|]. cbn. unfold maxSnack. lia.
Defined.

(** A page that connects at 2 seconds, and of which the server is silent. *)
Definition silentDay : list (Z * Event) := [(2000, Opened); (302000, GoesOff 0); (362000, GoesOff 1); (400000, Used Clear)].

Lemma silence_noticed_witness : exists c m,
  lives lower noRegExp host false false 7 silentDay thePage (mkHistory 0 0 1) = Some (c, m) /\
  online (wire c) = true /\ (now (clock c) <= heard m + 110 * 1000 \/ now (clock c) <= opened m + 410 * 1000).
Proof.
  eexists _, _. split; [vm_compute; reflexivity|]. split; [reflexivity|].
  eapply (silence_noticed lower noRegExp host false false 7 emptyUi "info" "*" 100 0 silentDay); [done|vm_compute; reflexivity|reflexivity..].
Defined.

(** A page whose socket is lost twice, waiting to connect for the third time. *)
Definition lostTwice : list (Z * Event) := [(2000, Opened); (5000, Lost); (6000, Errored); (6000, Lost)].


(** The same page after its first ping, and the server of two clients. *)
Definition pinging : Client Bars :=
  match steps lower noRegExp host false false 7 [(2000, Opened); (302000, GoesOff 0); (362000, GoesOff 1)] thePage with Some c => c | None => thePage end.

Lemma ping_answered_witness : exists w' answer,
  run (FrontendApi.wsMessageHandler FrontendFacts.sampleFrontend 1 (Some (Obj (ping 7)))) FrontendFacts.sampleClients = (w', Ok tt) /\
  let c' := onmessage lower noRegExp 7 (Ok answer) pinging in
  online (wire c') = true /\ forall a, a ∈ alarms (clock c') <-> a ∈ alarms (clock pinging) /\ handle a <> 2%nat.
Proof.
  destruct (ping_answered lower noRegExp 7 FrontendFacts.sampleFrontend FrontendFacts.sampleClients 1 (Frontend.mkSocket true []) pinging 2)
    as (w' & answer & H1 & _ & H2 & _ & H3); [by vm_compute..|]. exists w', answer. by repeat split; try apply H3.
Defined.

(** A component that asks for the settings. *)
Definition settingsRequest : list (string * value) :=
  [("id", Num 42); ("sender", Str "Home"); ("method", Str "/api/settings"); ("src", Str "Frontend"); ("dst", Str "Matterbridge"); ("params", Obj [])].
Definition settingsAnswer : value :=
  Obj [("id", Num 42); ("method", Str "/api/settings"); ("src", Str "Matterbridge"); ("dst", Str "Frontend"); ("success", Bool true); ("response", Obj [])].

Lemma answer_delivered_witness :
  delivered (onmessage lower noRegExp 7 (Ok settingsAnswer) (addListener 2 42 (addListener 1 9 thePage))) = [(2%nat, settingsAnswer)].
Proof.
  rewrite (answer_delivered lower noRegExp 7 1 settingsRequest settingsAnswer (addListener 2 42 (addListener 1 9 thePage)) 2 42 "/api/settings");
    [reflexivity| |reflexivity..|done| |reflexivity].
  - exists (Str "/api/settings"), [("success", Bool true); ("response", Obj [])]. split; [reflexivity|]. split; [by left|]. right; right. by eexists.
  - rewrite !not_elem_of_cons. repeat split; try done. apply not_elem_of_nil.
Defined.

(** What a client was sent, as data. *)
Definition sentTo (w : Frontend.World) (client : nat) : list (res value) :=
  match Frontend.sockets (Frontend.net w) !! client with
  | Some s => map (fun m => match m with Frontend.Response v | Frontend.Broadcasted v => Ok v end) (Frontend.received s)
  | None => []
  end.

Definition restarts (w : Frontend.World) : Frontend.World :=
  let required := Frontend.wssSendRestartRequired true false in
  let notRequired := Frontend.wssSendRestartNotRequired true in
  notRequired (required (notRequired (required (required w)))).

(** Two changes that need a restart, undone; then one more, undone: the server does not
    need a restart, and the page says that it does. *)
Example restart_required_stays :
  Frontend.restartRequired (Frontend.flags (restarts FrontendFacts.sampleClients)) = false /\
  map snd (displayed (snackbars (ui (received lower noRegExp 7 (sentTo (restarts FrontendFacts.sampleClients) 1) thePage)))) = ["Restart required"].
Proof. split; by vm_compute. Qed.
End PageExample.
