(* ===== verification/WebDebounce.v ===== *)
(** The delay of settings that a user is still typing, of the web application:
    [apps/frontend/src/utils/createDebouncer.ts]. *)
From S2P Require Import Prelude.
#[local] Open Scope Z_scope.

Module Debounce.

(** The timeouts that are set, by handle, with when they are due and the function that
    they call; and the calls, with their times. The functions do not call the debouncer. *)
Record Timeout := mkTimeout { number : nat; due : Z; function : nat }.
Record Debouncer := mkDebouncer { handle : option nat; timeouts : list Timeout; next : nat; calls : list (Z * nat) }.

Section Debouncer.
Context (delay : Z).

Definition createDebouncer : Debouncer := mkDebouncer None [] 0 [].

Definition clearTimeout (h : option nat) (l : list Timeout) : list Timeout :=
  match h with Some h => List.filter (fun a => negb (Nat.eqb (number a) h)) l | None => l end.

Definition run (t : Z) (fn : nat) (d : Debouncer) : Debouncer :=
  mkDebouncer (Some (next d)) (clearTimeout (handle d) (timeouts d) ++ [mkTimeout (next d) (t + delay) fn]) (S (next d)) (calls d).

Definition cancel (d : Debouncer) : Debouncer :=
  match handle d with
  | Some h => mkDebouncer None (clearTimeout (Some h) (timeouts d)) (next d) (calls d)
  | None => d
  end.

(** A timeout calls its function, then forgets the handle. *)
Definition expire (d : Debouncer) (a : Timeout) : Debouncer := mkDebouncer None (timeouts d) (next d) (calls d ++ [(due a, function a)]).

(** The time passes: the timeouts that are due by then, in the order they were set. *)
Definition elapse (t : option Z) (d : Debouncer) : Debouncer :=
  let isDue a := match t with Some t => due a <=? t | None => true end in
  foldl expire (mkDebouncer (handle d) (List.filter (fun a => negb (isDue a)) (timeouts d)) (next d) (calls d)) (List.filter isDue (timeouts d)).

Inductive Op := Run (fn : nat) | Cancel.

Definition perform (d : Debouncer) (o : Z * Op) : Debouncer :=
  let d := elapse (Some (fst o)) d in
  match snd o with Run fn => run (fst o) fn d | Cancel => cancel d end.

(** All that is ever called. *)
Definition called (ops : list (Z * Op)) : list (Z * nat) := calls (elapse None (foldl perform createDebouncer ops)).

(** ** A function is called if nothing happens for the delay *)

Fixpoint undisturbed (ops : list (Z * Op)) : list (Z * nat) :=
  match ops with
  | [] => []
  | (t, Cancel) :: ops => undisturbed ops
  | (t, Run fn) :: ops =>
      (if match ops with (t', _) :: _ => t + delay <=? t' | [] => true end then [(t + delay, fn)] else []) ++ undisturbed ops
  end.

(** Between operations: one timeout at most, and it is the one of the handle. *)
Definition waits (d : Debouncer) (a : option Timeout) : Prop :=
  timeouts d = match a with Some a => [a] | None => [] end /\ handle d = number <$> a.

Definition awaited (a : option Timeout) (ops : list (Z * Op)) : list (Z * nat) :=
  match a with
  | Some a => if match ops with (t, _) :: _ => due a <=? t | [] => true end then [(due a, function a)] else []
  | None => []
  end.

Lemma clear_own h due fn : clearTimeout (Some h) [mkTimeout h due fn] = [].
Proof. cbn. by rewrite Nat.eqb_refl. Qed.

Lemma elapse_waits t d a : waits d a -> exists a', waits (elapse t d) a' /\
  calls (elapse t d) = calls d ++ match a with Some a => if match t with Some t => due a <=? t | None => true end then [(due a, function a)] else [] | None => [] end.
Proof.
  intros [Ht Hh]. unfold elapse. rewrite Ht. destruct a as [a|]; cbn [List.filter foldl].
  - destruct (match t with Some t => due a <=? t | None => true end) eqn:E; cbn [negb foldl].
    + exists None. by split.
    + exists (Some a). split; [by split|]. cbn. by rewrite app_nil_r.
  - exists None. split; [by split|]. cbn. by rewrite app_nil_r.
Qed.

Lemma perform_waits o d a : waits d a -> exists a', waits (perform d o) a' /\
  calls (perform d o) = calls d ++ awaited a [o] /\
  a' = match snd o with Run fn => Some (mkTimeout (next (elapse (Some (fst o)) d)) (fst o + delay) fn) | Cancel => None end.
Proof.
  intros Hw. destruct (elapse_waits (Some (fst o)) d a Hw) as (a' & [Ht Hh] & Hc). unfold perform. destruct o as [t [fn|]]; cbn [fst snd] in *.
  - eexists. split; [|split; [|reflexivity]]; [|exact Hc]. unfold run. split; [|done]. cbn [timeouts]. rewrite Ht, Hh.
    destruct a' as [[h due fn']|]; cbn [fmap option_fmap option_map number]; [by rewrite clear_own|done].
  - exists None. split; [|split; [|done]]; unfold cancel; rewrite Hh; destruct a' as [[h due fn']|]; cbn [fmap option_fmap option_map number]; try exact Hc.
    + split; [|done]. cbn [timeouts]. by rewrite Ht, clear_own.
    + by split.
Qed.

Lemma performs_called ops d a : waits d a ->
  calls (elapse None (foldl perform d ops)) = calls d ++ awaited a ops ++ undisturbed ops.
Proof.
  revert d a. induction ops as [|o ops IH]; intros d a Hw; cbn [foldl].
  - destruct (elapse_waits None d a Hw) as (a' & _ & ->). cbn [undisturbed]. rewrite app_nil_r. by destruct a.
  - destruct (perform_waits o d a Hw) as (a' & Hw' & Hc & Ha). rewrite (IH _ a' Hw'), Hc, <- app_assoc. f_equal.
    destruct o as [t [fn|]]; cbn [snd fst undisturbed] in *; subst a'; by destruct a.
Qed.

(** C34: a burst of changes has the effect of the last one: whatever is run and cancelled, the
    functions that are called are those after which nothing was run or cancelled for the
    delay, each once, the delay after it was run. *)
Theorem debounced_exact ops : called ops = undisturbed ops.
Proof. unfold called. by rewrite (performs_called ops createDebouncer None). Qed.
End Debouncer.
End Debounce.
