(* ===== verification/Cli.v ===== *)
(** The commands: the health check [mb_health], [packages/core/src/mb_health.ts], and the
    process that runs the bridge, [packages/core/src/cli.ts]. *)
From S2P Require Import Prelude JsString JsNumber JsValue Async.
#[local] Open Scope string_scope.
#[local] Open Scope Z_scope.

(** ** The health check *)

Module Health.

(** What happens to the request. *)
Inductive Event := Response (statusCode : option Z) | Data (chunk : list Z) | End | ResponseError | RequestError | TimedOut.

Record Result := mkResult { ok : bool; statusCode : Z; body : jsstr; json : option value }.

(** A promise: its result, and the response so far. *)
Record Fetch := mkFetch { resolved : option Result; response : option (option Z * list Z) }.

Section Health.
(** [JSON.parse], and whether a text is a URL. *)
Context (parse : jsstr -> option value) (isUrl : string -> bool).

Definition resolve (r : Result) (f : Fetch) : Fetch :=
  match resolved f with Some _ => f | None => mkFetch (Some r) (response f) end.

Definition blank (text : jsstr) : bool := forallb isSpace text.

Definition onEnd (statusCode : option Z) (data : list Z) : Result :=
  let statusCode := default 0 statusCode in
  let body := utf8_decode data in
  mkResult ((200 <=? statusCode) && (statusCode <? 300)) statusCode body (if blank body then None else parse body).

Definition step (f : Fetch) (e : Event) : Fetch :=
  match e with
  | Response statusCode => mkFetch (resolved f) (Some (statusCode, []))
  | Data chunk => match response f with Some (s, data) => mkFetch (resolved f) (Some (s, data ++ chunk)) | None => f end
  | End => match response f with Some (s, data) => resolve (onEnd s data) f | None => f end
  | ResponseError => match response f with Some (s, _) => resolve (mkResult false (default 0 s) [] None) f | None => f end
  | RequestError | TimedOut => resolve (mkResult false 0 [] None) f
  end%list.

(** The promise after some events: rejected if the text is no URL. *)
Definition fetchHealth (url : string) (events : list Event) : res (option Result) :=
  if isUrl url then Ok (resolved (foldl step (mkFetch None None) events)) else Throw TypeError.

(** [None] while the promise is pending. *)
Definition checkHealth (url : string) (events : list Event) : option bool :=
  match fetchHealth url events with Ok r => ok <$> r | Throw _ => Some false end.
Definition mbHealthExitCode (url : string) (events : list Event) : option Z :=
  match fetchHealth url events with Ok r => (fun r => if ok r then 0 else 1) <$> r | Throw _ => Some 1 end.

(** What is printed, and the code of the exit; a text that is no URL rejects. *)
Inductive Printed := PrintedJson (v : value) | PrintedText (s : jsstr).
Definition mbHealthCli (url : string) (events : list Event) : res (option (Printed * Z)) :=
  match fetchHealth url events with
  | Ok r =>
      Ok ((fun r =>
        (match json r, body r with
         | Some v, _ => PrintedJson v
         | None, [] => PrintedJson (Obj [("ok", Bool (ok r)); ("statusCode", Num (statusCode r))])
         | None, text => PrintedText text
         end, if ok r then 0 else 1)) <$> r)
  | Throw e => Throw e
  end.

Definition DEFAULT_MB_HEALTH_URL : string := "http://localhost:8283/health".
Definition mbHealthMain : list Event -> res (option (Printed * Z)) := mbHealthCli DEFAULT_MB_HEALTH_URL.

(** *** The exit *)

(** The first event that settles, with the status of the response before it. *)
Fixpoint outcome (status : option (option Z)) (events : list Event) : option bool :=
  match events with
  | [] => None
  | Response s :: events => outcome (Some s) events
  | Data _ :: events => outcome status events
  | End :: events => match status with Some s => Some ((200 <=? default 0 s) && (default 0 s <? 300)) | None => outcome status events end
  | ResponseError :: events => match status with Some _ => Some false | None => outcome status events end
  | (RequestError | TimedOut) :: _ => Some false
  end.

Lemma settled_stays r f events : resolved f = Some r -> resolved (foldl step f events) = Some r.
Proof.
  revert f. induction events as [|e events IH]; intros f Hf; [done|]. cbn [foldl]. apply IH.
  destruct e; cbn [step]; unfold resolve; rewrite ?Hf; try done; by destruct (response f) as [[? ?]|].
Qed.

Lemma outcome_exact f events : resolved f = None -> ok <$> resolved (foldl step f events) = outcome (fst <$> response f) events.
Proof.
  revert f. induction events as [|e events IH]; intros [r p] Hf; cbn in Hf; subst r; [done|].
  cbn [foldl]. destruct e as [s|chunk| | | |]; cbn [step outcome response resolved].
  - by rewrite IH.
  - destruct p as [[s data]|]; by rewrite IH.
  - destruct p as [[s data]|]; [|by rewrite IH]. by rewrite (settled_stays (onEnd s data)).
  - destruct p as [[s data]|]; [|by rewrite IH]. by rewrite (settled_stays (mkResult false (default 0 s) [] None)).
  - by rewrite (settled_stays (mkResult false 0 [] None)).
  - by rewrite (settled_stays (mkResult false 0 [] None)).
Qed.

(** The health check exits with 0 if and only if a response with a status of success ends
    before the request fails or times out, whatever else happens, and once it has exited
    with a code, no event changes it. *)
Theorem exit_exact url events : isUrl url = true ->
  mbHealthExitCode url events = (fun b : bool => if b then 0 else 1) <$> outcome None events.
Proof.
  intros Hu. unfold mbHealthExitCode, fetchHealth. rewrite Hu. pose proof (outcome_exact (mkFetch None None) events eq_refl) as H. cbn in H. rewrite <- H.
  by destruct (resolved _).
Qed.
End Health.
End Health.

(** ** The process *)

Module Cli.

(** The tracker and the listeners on its two events, the instances on which the handlers
    were registered, the events that were emitted, and the exit. *)
Record World := mkWorld {
  tracking : bool;
  trackerListeners : nat;
  instance : option nat;
  handlersOn : list nat;
  managing : bool;
  emitted : list string;
  exited : option Z }.

(** The parameter [--inspect], the inspector, and the instance that is loaded with whether
    its command line asked for a shutdown. *)
Record Env := mkEnv { inspect : bool; inspectorStart : async World unit; inspectorStop : async World unit; loadInstance : async World (option (nat * bool)) }.

Section Cli.
Context (env : Env).

Definition setTracking (b : bool) (n : nat) (w : World) : World := mkWorld b n (instance w) (handlersOn w) (managing w) (emitted w) (exited w).
Definition setInstance (i : option nat) (w : World) : World := mkWorld (tracking w) (trackerListeners w) i (handlersOn w) (managing w) (emitted w) (exited w).
Definition addHandlers (i : nat) (w : World) : World :=
  mkWorld (tracking w) (trackerListeners w) (instance w) (handlersOn w ++ [i])%list (managing w) (emitted w) (exited w).
Definition destroyManager (w : World) : World := mkWorld (tracking w) (trackerListeners w) (instance w) (handlersOn w) false (emitted w) (exited w).
Definition emit (e : string) (w : World) : World :=
  mkWorld (tracking w) (trackerListeners w) (instance w) (handlersOn w) (managing w) (emitted w ++ [e])%list (exited w).
(** [process.exit(code)]: nothing runs afterwards. *)
Definition exit (code : Z) (w : World) : World :=
  mkWorld (tracking w) (trackerListeners w) (instance w) (handlersOn w) (managing w) (emitted w) (match exited w with Some c => Some c | None => Some code end).

(** [tracker.start()] does nothing while it runs, but the listeners are added. *)
Definition startCpuMemoryCheck (w : World) : World := setTracking true (trackerListeners w + 1) w.
Definition stopCpuMemoryCheck (w : World) : World := setTracking false 0 w.

(** The events of a snapshot: one pair for each pair of listeners. *)
Definition snapshot (w : World) : World :=
  if tracking w then Nat.iter (trackerListeners w) (fun w => emit "cpu" (emit "memory" w)) w else w.

Definition registerHandlers (w : World) : World := match instance w with Some i => addHandlers i w | None => w end.

Definition shutdown : async World unit :=
  _ ← if inspect env then await (inspectorStop env) else mret tt;
  _ ← modify stopCpuMemoryCheck;
  _ ← modify destroyManager;
  _ ← modify (emit "shutdown");
  modify (exit 0).

(** [restart()] and [update()]. *)
Definition restart : async World unit :=
  i ← await (loadInstance env);
  _ ← modify (setInstance (fst <$> i));
  modify registerHandlers.

Definition main : async World unit :=
  _ ← modify startCpuMemoryCheck;
  _ ← if inspect env then await (inspectorStart env) else mret tt;
  i ← await (loadInstance env);
  _ ← modify (setInstance (fst <$> i));
  if match i with Some (_, stops) => stops | None => true end then await shutdown
  else _ ← modify registerHandlers; modify (emit "ready").

Definition program : async World unit := catch main (fun _ => catch shutdown (fun _ => modify (exit 1))).

(** *** How it ends *)

(** The inspector and the instance leave the state of the command alone. *)
Class Apart : Prop := {
  start_apart : forall w, fst (run (inspectorStart env) w) = w;
  stop_apart : forall w, fst (run (inspectorStop env) w) = w;
  load_apart : forall w, fst (run (loadInstance env) w) = w }.

Definition fresh : World := mkWorld false 0 None [] true [] None.

(** The process is ready, with its handlers on the instance; or it exits, and with 0 only
    after the tracker and the threads are stopped. *)
Definition ends (w : World) : Prop :=
  (exited w = None /\ emitted w = ["ready"] /\ tracking w = true /\ trackerListeners w = 1%nat /\ exists i, instance w = Some i /\ handlersOn w = [i]) \/
  (exited w = Some 0 /\ emitted w = ["shutdown"] /\ tracking w = false /\ trackerListeners w = 0%nat /\ managing w = false /\ handlersOn w = []) \/
  (exited w = Some 1 /\ emitted w = [] /\ handlersOn w = []).

Lemma shutdown_run `{!Apart} w : run shutdown w =
  match (if inspect env then snd (run (inspectorStop env) w) else Ok tt) with
  | Ok _ => (exit 0 (emit "shutdown" (destroyManager (stopCpuMemoryCheck w))), Ok tt)
  | Throw e => (w, Throw e)
  end.
Proof.
  unfold shutdown. running. destruct (inspect env); [|done]. rewrite run_await. pose proof (stop_apart w) as Hw.
  destruct (run (inspectorStop env) w) as [w' [[]|e]]; cbn in Hw; by subst.
Qed.

(** Before anything was emitted or registered. *)
Definition quiet (w : World) : Prop := exited w = None /\ emitted w = [] /\ handlersOn w = [].

Lemma halts `{!Apart} w : quiet w -> ends (fst (run (catch shutdown (fun _ => modify (exit 1))) w)) /\ snd (run (catch shutdown (fun _ => modify (exit 1))) w) = Ok tt.
Proof.
  intros (Hx & He & Hh). rewrite run_catch, shutdown_run. destruct (if inspect env then _ else _).
  - split; [|done]. right; left. cbn. by rewrite Hx, He.
  - split; [|done]. right; right. cbn. by rewrite Hx.
Qed.

Lemma main_run `{!Apart} :
  (exists w, run main fresh = (w, Ok tt) /\ ends w) \/ exists w e, run main fresh = (w, Throw e) /\ quiet w.
Proof.
  unfold main. running. set (w1 := startCpuMemoryCheck fresh).
  assert (exists r, run (if inspect env then await (inspectorStart env) else mret tt) w1 = (w1, r)) as [[[]|e] ->].
  { destruct (inspect env); [|by eexists]. rewrite run_await. pose proof (start_apart w1) as H1. destruct (run _ w1) as [w' r]. cbn in H1. subst. by eexists. }
  2: { right. by exists w1, e. }
  running. pose proof (load_apart w1) as H2. destruct (run (loadInstance env) w1) as [w2 [i|e]]; cbn in H2; subst w2; [|right; by exists w1, e].
  running. destruct i as [[i []]|]; cbn [fst fmap option_fmap option_map].
  - rewrite run_await, shutdown_run. destruct (if inspect env then _ else _) as [|e]; [left|right; by eexists _, e]. eexists. split; [done|]. by right; left.
  - left. running. eexists. split; [done|]. left. cbn. repeat split. by exists i.
  - rewrite run_await, shutdown_run. destruct (if inspect env then _ else _) as [|e]; [left|right; by eexists _, e]. eexists. split; [done|]. by right; left.
Qed.

(** However the inspector and the load of the instance fail: the command is ready with its
    handlers registered once, or exits, with 0 only if everything was stopped. *)
Theorem program_ends `{!Apart} : ends (fst (run program fresh)) /\ snd (run program fresh) = Ok tt.
Proof.
  unfold program. rewrite run_catch. destruct main_run as [(w & -> & Hw)|(w & e & -> & Hw)]; [done|by apply halts].
Qed.

(** A check that is started while it runs emits each snapshot twice. *)
Lemma started_twice w : trackerListeners w = 1%nat ->
  emitted (snapshot (startCpuMemoryCheck w)) = (emitted w ++ ["memory"; "cpu"; "memory"; "cpu"])%list.
Proof. intros Hw. unfold snapshot, startCpuMemoryCheck. cbn. rewrite Hw. cbn. by rewrite <- !app_assoc. Qed.
End Cli.
End Cli.
